(* ===== verification/_CoqProject ===== *)
-Q . S2P
Prelude.v
Effect.v
ByteStream.v
ByteCrypto.v
IpAddress.v
Stun.v
StunMessage.v
IceServer.v
DataBuffer.v
RtpPub.v
WebSocketFrame.v
WebSocketSession.v
StdMap.v
StrMap.v
Text.v
RtpPacket.v
RtpPacketEdits.v
RtcpReports.v
RtcpFeedback.v
RtcpXr.v
RtcpTcc.v
Nack.v
JitterBuffer.v
RtpSession.v
RtpSendSession.v
RtpRecvSession.v
TccServer.v
RtcInfo.v
Sdp.v
MediaPusher.v
MediaPuller.v
RtcRelay.v
SrtpSession.v
WebRtcSession.v
WebRtcServer.v
Room.v
Sfu.v
SfuMedia.v
RoomMgr.v
Http.v
Whip.v
