(* ===== verification/Prelude.v ===== *)
(** * Verification of the RTCPilot media server

    RTCPilot is a WebRTC selective forwarding unit in C++ (sources under [src/src]).
    Browsers send RTP over ICE, DTLS and SRTP on one UDP port; the server parses the
    packets, keeps per-stream state (loss, jitter, retransmission, congestion feedback)
    and forwards them.  This development models that path from the bytes of a datagram up
    to the sessions of a stream, and the byte queue under the TCP protocols, as executable
    Gallina functions translated from the C++, with theorems about what they do.

    ** How C++ is modelled

    - [res A] (Prelude): a call returns [Ok], throws a [CppStreamException] ([Throw]), or
      leaves defined behaviour ([Undef] with the reason: out-of-bounds access, bad shift,
      overlapping [memcpy], null dereference, failed [assert]).  "Safe" always means that
      [Undef] is impossible.  Methods that may throw after changing their object return the
      state beside the outcome ([sbind], written [do!]).
    - integers are [Z] with their wrap-around written out ([u8] to [u64], [i16] to [i64]);
      bit fields are [bits] and [set_bits]; the host is little endian.
    - memory is a list of byte cells per object ([buf]); a pointer into it is an index.
      Every load and store is checked.  A packed C struct laid over a buffer is a module of
      accessors on the buffer, not a copied record.
    - objects are records, one [Definition] per method, in the order and with the guards of
      the source; outputs (datagrams, callbacks) are lists in the result.  The clock,
      uninitialised memory and random draws are arguments.
    - OpenSSL's HMAC, libsrtp and the resolver functions are type classes ([EvpMac],
      [LibSrtp], [Inet]) with
      their documented behaviour as classes of laws; concrete instances witness them.

    ** Files, and the sources they model

    - [Prelude]: outcomes, machine integers, byte strings, buffers, automation.
    - [ByteStream]: [utils/byte_stream.hpp], loads and stores in both byte orders.
    - [ByteCrypto]: the CRC-32 of [utils/byte_crypto.cpp] and its HMAC wrapper.
    - [IpAddress]: [utils/ipaddress.hpp], socket addresses and text.
    - [Stun], [StunMessage]: [net/stun/stun.cpp], parser, serializer, authentication; the
      wire format and the proofs over it are in the second file.
    - [IceServer]: [webrtc_room/ice_server.cpp], the ICE-lite agent of a session.
    - [DataBuffer]: [utils/data_buffer.hpp], the byte queue of the TCP protocols.
    - [RtpPub]: [net/rtprtcp/rtprtcp_pub.hpp], headers, demultiplexing, sequence order.
    - [StdMap]: [std::map] with integer keys as a sorted association list.
    - [RtpPacket]: [net/rtprtcp/rtp_packet.cpp]: parsing, cloning, header fields, RFC 5285
      extensions, RTX encapsulation.
    - [RtcpReports] ([rtcp_sr.hpp], [rtcp_rr.hpp]), [RtcpFeedback] ([rtcp_pspli.hpp],
      [rtcpfb_nack.hpp]), [RtcpXr] ([rtcp_xr*.hpp]), [RtcpTcc] ([rtcp_tcc_fb.hpp]): RTCP.
    - [Nack], [JitterBuffer]: [webrtc_room/nack_generator.cpp] and
      [fast_jitterbuffer.cpp].
    - [RtpSession], [RtpSendSession], [RtpRecvSession]: the files of these names under
      [webrtc_room/]; [RtpSession] also has [utils/stream_statics.hpp] and the NTP
      conversion of [utils/timeex.hpp].
    - [TccServer]: [webrtc_room/tcc_server.cpp].
    - [WebSocketFrame]: [net/http/websocket/websocket_frame.cpp], the incremental parser.
      [WebSocketSession]: the loop of [ws_session_base.cpp] with the server session and the
      client as instances of its virtual interface.
    - [Effect]: a monad of state, emitted calls and outcome for the objects that talk to
      others; [RtpPacketEdits]: which edits of a packet keep its frame.
    - [MediaPusher], [MediaPuller]: the published and the subscribed track,
      [webrtc_room/media_pusher.cpp] and [media_puller.cpp].
    - [SrtpSession]: [webrtc_room/srtp_session.cpp] over an interface for libsrtp.
    - [WebRtcSession]: [webrtc_room/webrtc_session.cpp], the sessions of a room: the SRTP
      contexts, the pushers and pullers of a peer, the dispatch of RTP and compound RTCP.
    - [WebRtcServer]: [webrtc_room/webrtc_server.cpp], the UDP flow: which session a datagram
      belongs to.
    - [StrMap], [RtcInfo]: [std::map] with string keys; the description of a track and its
      JSON form, [webrtc_room/rtc_info.hpp].
    - [RtcRelay]: [port_generator.cpp], [rtc_send_relay.cpp] and [rtc_recv_relay.cpp], tracks
      carried between two servers.
    - [Room]: [webrtc_room/rtc_user.cpp] and [room.cpp], members, notifications, the pilot
      centre's messages, the fan-out of media, key frame requests, relays and timeouts.
    - [Text], [Sdp]: strings and their splitting ([utils/stringex.hpp]); session descriptions,
      [format/rtc_sdp/], from the offer that is parsed to the answer that is written.
    - [Sfu]: a room together with the UDP server: the calls of each on the other are carried
      out; the requests that make sessions, [HandlePushSdp], [HandleWhipPushSdp],
      [HandlePullSdp] and [HandleRemotePullSdp] of [room.cpp].
    - [SfuMedia]: the way of media through them, for the end-to-end theorem.
    - [RoomMgr]: [webrtc_room/room_mgr.cpp], the rooms by their ids and the requests of clients
      and messages of the pilot centre that are handed to them.
    - [Http], [Whip]: [net/http/http_session.cpp], [http_common.hpp] and [http_server.cpp], the
      reader of requests and the handlers' table; [webrtc_room/whip.cpp], the handlers.
    ** How the parts interact

    A datagram is STUN ([Stun.Parse], answered by [IceServer]), RTCP or RTP ([RtpPub]
    demultiplexes).  RTP is parsed by [RtpPacket.Parse]; [TccServer] numbers its arrival;
    [RtpRecvSession] updates [RtpSession] statistics, undoes RTX and feeds [Nack], whose
    requests leave as [RtcpFeedback] packets, and reports leave as [RtcpReports].  On the way
    out [RtpSendSession] caches clones of what it sends, answers NACKs with RTX packets from
    that cache and sends sender reports.  Theorems of the upper components are about these
    compositions: for example that a NACK that decodes to a list of losses is answered by
    exactly the cached packets of that list, encapsulated.

    ** What the theorems show

    - Safety of every parser on arbitrary input: [Parse_safe], [stun_Parse_safe],
      [tcc_Parse_safe].
    - Round trips: STUN messages, RTX encapsulation, header extensions, sender and receiver
      reports, transport feedback, DLRR blocks.
    - Authentication: [CheckAuthentication_spec] (sound, and complete with
      [stun_roundtrip]), [ice_answers_authenticated].
    - Refinement: the byte queue of [DataBuffer]; the retransmission cache of
      [RtpSendSession] as a map from sequence numbers to packets.
    - Equivalence with a reference: the CRC table and the bitwise division; the extended
      sequence number of RFC 3550; the NACK list as the set of missing numbers.
    - Bounds, invariants and liveness: jitter, report fields, NACK lists that drain.
    - Errors: where the code departs from its own intent, the theorem states what it does
      (see the findings of the manifest).
    - End to end: [media_end_to_end], from a publisher's datagram to the datagrams of its
      subscribers; [publish_registers] and [subscribe_registers], the requests before.
    - Forwarding: [HandleRtpPacket_forwards] (what a pusher hands to the room),
      [OnTransportSendRtp_forwards] (what a puller sends), [srtp_conversation] (the protected
      leg), [keyframe_every_ten_seconds].
    - WebSocket: [HandleFrame_refines] (however TCP cuts the stream), [messages_delivered].
    - [published_packet_reaches_room], [session_invariant], [HandleRtcpPacket_inverted],
      [forged_report_overflows]: a session, from the datagram to the room's callback.
    - Routing: [stun_binds_address] and [OnTimer_sweeps] (datagrams to sessions),
      [fan_out] and [stream_crosses_servers] (packets to subscribers here and on another
      server), [lost_packets_recovered] (retransmission between relays).
    - Rooms: [room_invariant] over every sequence of events, [OnTimer_releases],
      [silent_room_ends], [join_announced], [remote_user_stays];
      [track_description_roundtrip] for what servers tell each other about a track.
    - Session descriptions: [answer_negotiated] (what of an offer is accepted),
      [rtpmap_first_undefined]; [subscriber_answer_agrees] (a subscriber's answer and its packets).
    - Signalling: [request_answered_once], [stranger_push_answered_twice] (requests of clients),
      [manager_invariant], [tick_sweeps_rooms] and [dead_rooms_end] (the rooms of the server);
      [request_delivered] (a request however TCP cuts it), [whip_publishes] from the socket to
      the rooms, [whip_bad_offer_unanswered], [delete_removes_room], [bare_field_throws].
    ** Bounds and fuel

    Loops that the source bounds by data use structural recursion.  The others carry fuel
    that is shown to be enough: the sequence loops of feedback packets and the NACK
    generator 65537 (every 16-bit number once), the flush of skipped feedback numbers 4682
    (chunks of 14), the STUN attribute loop the length of the datagram (each attribute is at
    least four bytes), the jitter buffer's drain the number of stored packets.  No theorem
    assumes that fuel suffices: running out is [Undef OutOfFuel], which safety excludes.

    ** Not modelled

    DTLS and the sockets (every decision is inside OpenSSL or libuv), the live-streaming side
    (RTMP, FLV and MP4, HTTP-FLV), the voice agent, logging, and the memory management of C++
    objects. *)
From stdpp Require Export base list numbers strings.
From Stdlib Require Export ZArith Lia.

Declare Scope rtc_scope.
Delimit Scope rtc_scope with rtc.
#[global] Open Scope Z_scope.
#[global] Open Scope rtc_scope.

(** * Lists *)

Lemma Forall2_omap {A B} (f : A -> option B) (l : list A) :
  Forall (fun x => is_Some (f x)) l -> Forall2 (fun x y => f x = Some y) l (omap f l).
Proof. induction 1 as [|x l (y & E) _ IH]; [constructor|]. cbn [omap list_omap]. rewrite E. by constructor. Qed.

Lemma map_insert_same {A B} (f : A -> B) (l : list A) (i : nat) x x' :
  l !! i = Some x -> f x' = f x -> map f (<[i := x']> l) = map f l.
Proof.
  intros E Hf. change (f <$> <[i := x']> l = f <$> l). rewrite list_fmap_insert. apply list_insert_id.
  by rewrite list_lookup_fmap, E, Hf.
Qed.

(** * Outcomes *)

(** The ways a C++ expression of the modelled code can leave defined
    behaviour.  [OutOfFuel] is the model's own: a loop that used up its fuel. *)
Inductive ub :=
  | OobRead | OobWrite | NullDeref | UseAfterFree | BadShift | IntOverflow | DivByZero | Overlap | AssertFail | OutOfFuel.

(** A call returns a value, throws a [CppStreamException], or is undefined. *)
Inductive res (A : Type) :=
  | Ok (a : A)
  | Throw (msg : string)
  | Undef (u : ub).
Arguments Ok {A} a.
Arguments Throw {A} msg.
Arguments Undef {A} u.

Definition rbind {A B} (e : res A) (k : A -> res B) : res B :=
  match e with
  | Ok a => k a
  | Throw m => Throw m
  | Undef u => Undef u
  end.

Notation "'let!' x ':=' e 'in' k" := (rbind e (fun x => k))
  (at level 10, x pattern, e at level 100, k at level 200) : rtc_scope.

Definition defined {A} (r : res A) : Prop :=
  match r with Undef _ => False | _ => True end.

Definition is_ok {A} (r : res A) : bool := match r with Ok _ => true | _ => false end.

Lemma rbind_Ok_inv {A B} (e : res A) (k : A -> res B) v :
  rbind e k = Ok v -> exists a, e = Ok a /\ k a = Ok v.
Proof. destruct e; simpl; intros; try discriminate; eauto. Qed.

Lemma rbind_assoc {A B C} (e : res A) (k : A -> res B) (h : B -> res C) :
  rbind (rbind e k) h = rbind e (fun a => rbind (k a) h).
Proof. by destruct e. Qed.

Lemma defined_rbind {A B} (e : res A) (k : A -> res B) :
  defined e -> (forall a, e = Ok a -> defined (k a)) -> defined (rbind e k).
Proof. destruct e; simpl; naive_solver. Qed.

Lemma rbind_ext {A B} (e : res A) (f g : A -> res B) :
  (forall a, e = Ok a -> f a = g a) -> rbind e f = rbind e g.
Proof. destruct e; simpl; auto. Qed.

#[export] Instance rbind_proper {A B} :
  Proper (eq ==> pointwise_relation A eq ==> eq) (@rbind A B).
Proof. intros e ? <- f g Hfg. apply rbind_ext. intros a _. apply Hfg. Qed.

Definition rmap {A B} (f : A -> B) (r : res A) : res B := rbind r (fun a => Ok (f a)).
Lemma rmap_bind {A B C} (f : B -> C) (e : res A) (g : A -> res B) :
  rmap f (rbind e g) = rbind e (fun a => rmap f (g a)).
Proof. by destruct e. Qed.

Lemma Ok_inj {A} (a b : A) : Ok a = Ok b -> a = b.
Proof. congruence. Qed.

(** Splits every hypothesis [rbind e k = Ok v] into its successful steps. *)
Ltac res_inv :=
  repeat match goal with
  | H : rbind _ _ = Ok _ |- _ =>
      let a := fresh "a" in let H1 := fresh "Hstep" in
      apply rbind_Ok_inv in H; destruct H as (a & H1 & H)
  | H : Ok _ = Ok _ |- _ => apply Ok_inj in H
  | H : Throw _ = Ok _ |- _ => discriminate H
  | H : Undef _ = Ok _ |- _ => discriminate H
  end.

(** A call on an object that may throw after it changed the object: the state it
    leaves, and the outcome. *)
Definition sbind {S A B} (m : S * res A) (f : S -> A -> S * res B) : S * res B :=
  match m with
  | (s, Ok a) => f s a
  | (s, Throw msg) => (s, Throw msg)
  | (s, Undef u) => (s, Undef u)
  end.
Notation "'do!' ( s , x ) ':=' e 'in' k" := (sbind e (fun s x => k))
  (at level 10, s name, x pattern, e at level 100, k at level 200) : rtc_scope.

(** * Machine integers *)

Definition u8 (x : Z) : Z := x mod 256.
Definition u16 (x : Z) : Z := x mod 65536.
Definition u32 (x : Z) : Z := x mod 4294967296.
Definition u64 (x : Z) : Z := x mod 18446744073709551616.
Definition i16 (x : Z) : Z := (x + 32768) mod 65536 - 32768.
Definition i32 (x : Z) : Z := (x + 2147483648) mod 4294967296 - 2147483648.
Definition i64 (x : Z) : Z := (x + 9223372036854775808) mod 18446744073709551616 - 9223372036854775808.

(** [lia] after unfolding the wrap-arounds and turning div/mod into equations. *)
Ltac zlia :=
  unfold u8, u16, u32, u64, i16, i32, i64 in *;
  Z.to_euclidean_division_equations; lia.

Lemma u16_range x : 0 <= u16 x < 65536.
Proof. apply Z.mod_pos_bound; lia. Qed.
Lemma u8_range x : 0 <= u8 x < 256.
Proof. apply Z.mod_pos_bound; lia. Qed.
Lemma u32_range x : 0 <= u32 x < 4294967296.
Proof. apply Z.mod_pos_bound; lia. Qed.
Lemma u16_small x : 0 <= x < 65536 -> u16 x = x.
Proof. apply Z.mod_small. Qed.
Lemma u8_small x : 0 <= x < 256 -> u8 x = x.
Proof. apply Z.mod_small. Qed.
Lemma u32_small x : 0 <= x < 4294967296 -> u32 x = x.
Proof. apply Z.mod_small. Qed.
Lemma u16_u16 x : u16 (u16 x) = u16 x.
Proof. apply u16_small, u16_range. Qed.
Lemma u32_u32 x : u32 (u32 x) = u32 x.
Proof. apply u32_small, u32_range. Qed.

(** A bit field of [w] bits from bit [lo], read and replaced. *)
Definition bits (v lo w : Z) : Z := (v / 2 ^ lo) mod 2 ^ w.
Definition set_bits (v lo w x : Z) : Z := v - bits v lo w * 2 ^ lo + (x mod 2 ^ w) * 2 ^ lo.

(** Filling the low bits of a shifted value adds. *)
Lemma lor_shiftl_small a n c : 0 <= n -> 0 <= c < 2 ^ n -> Z.lor (Z.shiftl a n) c = a * 2 ^ n + c.
Proof.
  intros Hn Hc. assert (Hl : Z.land (Z.shiftl a n) c = 0).
  { apply Z.bits_inj'. intros i Hi. rewrite Z.land_spec, Z.testbit_0_l.
    destruct (decide (i < n)); [by rewrite Z.shiftl_spec_low|].
    rewrite <- (Z.mod_small c (2 ^ n)) by done. rewrite Z.mod_pow2_bits_high by lia.
    apply andb_false_r. }
  rewrite <- Z.shiftl_mul_pow2 by done. rewrite Z.add_nocarry_lxor by done.
  symmetry. by apply Z.lxor_lor.
Qed.

(** * Byte strings as numbers *)

Definition byte (x : Z) : Prop := 0 <= x < 256.
Definition bytes (l : list Z) : Prop := Forall byte l.

#[export] Instance byte_dec x : Decision (byte x).
Proof. unfold byte. apply _. Defined.
#[export] Instance bytes_dec l : Decision (bytes l).
Proof. unfold bytes. apply _. Defined.

Lemma bytes_by_eval l : forallb (fun x => (0 <=? x) && (x <? 256)) l = true -> bytes l.
Proof.
  intros H. apply Forall_forall. intros x Hx%list_elem_of_In.
  rewrite forallb_forall in H. apply H in Hx.
  apply andb_prop in Hx as [?%Z.leb_le ?%Z.ltb_lt]. done.
Qed.

Ltac bytes_done := apply bytes_by_eval; vm_compute; reflexivity.

Definition le_val (l : list Z) : Z := foldr (fun b acc => b + 256 * acc) 0 l.
Definition be_val (l : list Z) : Z := le_val (reverse l).

Fixpoint le_bytes (n : nat) (v : Z) : list Z :=
  match n with
  | O => []
  | S n' => v mod 256 :: le_bytes n' (v / 256)
  end.
Definition be_bytes (n : nat) (v : Z) : list Z := reverse (le_bytes n v).

Lemma length_le_bytes n v : length (le_bytes n v) = n.
Proof. revert v; induction n; intros; simpl; auto. Qed.
Lemma length_be_bytes n v : length (be_bytes n v) = n.
Proof. unfold be_bytes. by rewrite length_reverse, length_le_bytes. Qed.

Lemma bytes_le_bytes n v : bytes (le_bytes n v).
Proof.
  revert v; induction n; intros v; simpl; constructor; [|apply IHn].
  apply Z.mod_pos_bound; lia.
Qed.
Lemma bytes_be_bytes n v : bytes (be_bytes n v).
Proof. apply Forall_reverse, bytes_le_bytes. Qed.

Lemma le_val_le_bytes n v : le_val (le_bytes n v) = v mod 256 ^ Z.of_nat n.
Proof.
  revert v; induction n as [|n IH]; intros v; simpl le_bytes.
  - change (256 ^ Z.of_nat 0) with 1. simpl. by rewrite Z.mod_1_r.
  - change (le_val (?x :: ?l)) with (x + 256 * le_val l).
    rewrite IH, Nat2Z.inj_succ, Z.pow_succ_r by lia.
    rewrite Z.rem_mul_r by lia. lia.
Qed.
Lemma be_val_be_bytes n v : be_val (be_bytes n v) = v mod 256 ^ Z.of_nat n.
Proof. unfold be_val, be_bytes. by rewrite reverse_involutive, le_val_le_bytes. Qed.

Lemma le_bytes_le_val l : bytes l -> le_bytes (length l) (le_val l) = l.
Proof.
  induction 1 as [|b l Hb Hl IH]; [done|].
  change (le_val (b :: l)) with (b + 256 * le_val l). unfold byte in Hb.
  simpl. f_equal; [zlia|].
  replace ((b + 256 * le_val l) / 256) with (le_val l) by zlia. exact IH.
Qed.
Lemma be_bytes_be_val n l : bytes l -> length l = n -> be_bytes n (be_val l) = l.
Proof.
  intros Hl <-. unfold be_val, be_bytes. rewrite <- (length_reverse l).
  rewrite le_bytes_le_val by (by apply Forall_reverse). apply reverse_involutive.
Qed.

Lemma le_val_range l : bytes l -> 0 <= le_val l < 256 ^ Z.of_nat (length l).
Proof.
  induction 1 as [|b l Hb Hl IH]; [cbn; lia|].
  change (le_val (b :: l)) with (b + 256 * le_val l). unfold byte in Hb.
  change (length (b :: l)) with (S (length l)).
  rewrite Nat2Z.inj_succ, Z.pow_succ_r; lia.
Qed.
Lemma be_val_range l : bytes l -> 0 <= be_val l < 256 ^ Z.of_nat (length l).
Proof.
  intros. unfold be_val. rewrite <- (length_reverse l).
  apply le_val_range. by apply Forall_reverse.
Qed.

(** * Buffers *)

(** A C++ object of bytes: the list of its cells, addressed from 0.  Every
    access is checked: outside the object it is undefined behaviour. *)
Abbreviation buf := (list Z).

Definition rd8 (b : buf) (i : nat) : res Z :=
  match b !! i with Some x => Ok x | None => Undef OobRead end.

Definition wr8 (b : buf) (i : nat) (v : Z) : res buf :=
  if (i <? length b)%nat then Ok (<[i := v]> b) else Undef OobWrite.

(** [n] successive loads from [i] on, and the stores of [l] from [i] on. *)
Fixpoint rd_bytes (b : buf) (i n : nat) : res (list Z) :=
  match n with
  | O => Ok []
  | S n' => let! x := rd8 b i in let! l := rd_bytes b (S i) n' in Ok (x :: l)
  end.

Fixpoint wr_bytes (b : buf) (i : nat) (l : list Z) : res buf :=
  match l with
  | [] => Ok b
  | x :: l' => let! b' := wr8 b i x in wr_bytes b' (S i) l'
  end.

(** The contents of a range, and a buffer with a range replaced. *)
Definition slice (i n : nat) (b : buf) : list Z := take n (drop i b).
Definition splice (i : nat) (l : list Z) (b : buf) : buf := take i b ++ l ++ drop (i + length l) b.

Lemma length_slice i n b : (i + n <= length b)%nat -> length (slice i n b) = n.
Proof. intros. unfold slice. rewrite length_take, length_drop. lia. Qed.

Lemma length_splice i l b : (i + length l <= length b)%nat -> length (splice i l b) = length b.
Proof. intros. unfold splice. rewrite !length_app, length_take, length_drop. lia. Qed.

Lemma lookup_slice i n b k : slice i n b !! k = if decide (k < n)%nat then b !! (i + k)%nat else None.
Proof.
  unfold slice. case_decide.
  - by rewrite lookup_take_lt, lookup_drop by done.
  - by rewrite lookup_take_ge by lia.
Qed.

Lemma lookup_splice i l b k :
  (i + length l <= length b)%nat ->
  splice i l b !! k = if decide (i <= k < i + length l)%nat then l !! (k - i)%nat else b !! k.
Proof.
  intros Hle. unfold splice.
  assert (length (take i b) = i) as Hi by (rewrite length_take; lia).
  destruct (decide (k < i)%nat) as [Hk|Hk].
  - rewrite lookup_app_l by lia. rewrite lookup_take_lt by done.
    by rewrite decide_False by lia.
  - rewrite lookup_app_r by lia. rewrite Hi. case_decide.
    + by rewrite lookup_app_l by lia.
    + rewrite lookup_app_r by lia. rewrite lookup_drop. f_equal. lia.
Qed.

Lemma slice_splice_same i l b :
  (i + length l <= length b)%nat -> slice i (length l) (splice i l b) = l.
Proof.
  intros. apply list_eq. intros k. rewrite lookup_slice. case_decide.
  - rewrite lookup_splice by done. rewrite decide_True by lia. f_equal; lia.
  - symmetry. apply lookup_ge_None_2. lia.
Qed.

Lemma slice_splice_eq i n l b :
  n = length l -> (i + n <= length b)%nat -> slice i n (splice i l b) = l.
Proof. intros -> ?. by apply slice_splice_same. Qed.

Lemma slice_splice_disj i l b j n :
  (i + length l <= length b)%nat -> (j + n <= i \/ i + length l <= j)%nat ->
  slice j n (splice i l b) = slice j n b.
Proof.
  intros. apply list_eq. intros k. rewrite !lookup_slice. case_decide; [|done].
  rewrite lookup_splice by done. by rewrite decide_False by lia.
Qed.

Lemma slice_slice i n j m b :
  (j + m <= n)%nat -> slice j m (slice i n b) = slice (i + j) m b.
Proof.
  intros. apply list_eq. intros k. rewrite !lookup_slice. case_decide; [|done].
  rewrite decide_True by lia. f_equal. lia.
Qed.

Lemma slice_all b n : n = length b -> slice 0 n b = b.
Proof. intros ->. unfold slice. rewrite drop_0. by apply take_ge. Qed.

Lemma splice_splice_same i l l' b :
  (i + length l <= length b)%nat -> length l = length l' ->
  splice i l' (splice i l b) = splice i l' b.
Proof.
  intros ? Hl. apply list_eq. intros k.
  rewrite !lookup_splice by (rewrite ?length_splice; lia).
  repeat case_decide; try done; lia.
Qed.

Lemma splice_slice_id i n b : (i + n <= length b)%nat -> splice i (slice i n b) b = b.
Proof.
  intros. apply list_eq. intros k.
  rewrite lookup_splice by (rewrite length_slice; lia).
  rewrite length_slice by lia. case_decide; [|done].
  rewrite lookup_slice. rewrite decide_True by lia. f_equal. lia.
Qed.

Lemma splice_app p l1 l2 d :
  (p + length l1 + length l2 <= length d)%nat ->
  splice (p + length l1) l2 (splice p l1 d) = splice p (l1 ++ l2) d.
Proof.
  intros H. apply list_eq. intros k.
  rewrite !lookup_splice by (rewrite ?length_splice, ?length_app; lia).
  rewrite length_app.
  destruct (decide (p + length l1 <= k < p + length l1 + length l2)%nat).
  - rewrite decide_True by lia. rewrite lookup_app_r by lia. f_equal. lia.
  - destruct (decide (p <= k < p + length l1)%nat).
    + rewrite decide_True by lia. by rewrite lookup_app_l by lia.
    + by rewrite decide_False by lia.
Qed.

Lemma splice_comm i l j l' b :
  (i + length l <= length b)%nat -> (j + length l' <= length b)%nat ->
  (i + length l <= j \/ j + length l' <= i)%nat ->
  splice i l (splice j l' b) = splice j l' (splice i l b).
Proof.
  intros. apply list_eq. intros k.
  rewrite !lookup_splice by (rewrite ?length_splice; lia). repeat case_decide; (done || lia).
Qed.

(** A write inside a range just written changes what was written there. *)
Lemma splice_overwrite i j l l' b :
  (i + length l <= length b)%nat -> (j + length l' <= length l)%nat ->
  splice (i + j) l' (splice i l b) = splice i (splice j l' l) b.
Proof.
  intros. apply list_eq. intros k.
  rewrite !lookup_splice by (rewrite ?length_splice; lia).
  rewrite length_splice by lia. repeat case_decide; try lia; [|done..].
  - f_equal. lia.
Qed.

Lemma slice_app i n m b : slice i (n + m) b = slice i n b ++ slice (i + n) m b.
Proof. unfold slice. rewrite <- (drop_drop b n i). by rewrite take_take_drop. Qed.

Lemma slice_splice_snoc i n l b :
  (i + n + length l <= length b)%nat ->
  slice i (n + length l) (splice (i + n) l b) = slice i n b ++ l.
Proof.
  intros. rewrite slice_app, slice_splice_same by lia.
  by rewrite slice_splice_disj by lia.
Qed.

Lemma drop_slice i n j b : drop j (slice i n b) = slice (i + j) (n - j) b.
Proof.
  apply list_eq. intros k. rewrite lookup_drop, !lookup_slice.
  repeat case_decide; try lia; [f_equal; lia|done].
Qed.
Lemma take_slice i n j b : (j <= n)%nat -> take j (slice i n b) = slice i j b.
Proof. intros. unfold slice. rewrite take_take. f_equal. lia. Qed.

Lemma slice_mid a b c i n : i = length a -> n = length b -> slice i n (a ++ b ++ c) = b.
Proof.
  intros -> ->. unfold slice. rewrite drop_app_ge by lia. rewrite Nat.sub_diag, drop_0.
  rewrite take_app_le by lia. by apply take_ge.
Qed.
Lemma slice_prefix a c n : n = length a -> slice 0 n (a ++ c) = a.
Proof. intros ->. unfold slice. rewrite drop_0, take_app_le by lia. by apply take_ge. Qed.
Lemma slice_suffix a b i n : i = length a -> n = length b -> slice i n (a ++ b) = b.
Proof. intros. rewrite <- (app_nil_r b) at 1. by apply slice_mid. Qed.

Lemma bytes_app a b : bytes (a ++ b) <-> bytes a /\ bytes b.
Proof. apply Forall_app. Qed.
Lemma bytes_slice i n b : bytes b -> bytes (slice i n b).
Proof. intros. by apply Forall_take, Forall_drop. Qed.
Lemma bytes_splice i l b : bytes b -> bytes l -> bytes (splice i l b).
Proof.
  intros. apply Forall_app; split; [by apply Forall_take|].
  apply Forall_app; split; [done|by apply Forall_drop].
Qed.

Lemma rd8_ok b i : (i < length b)%nat -> exists x, b !! i = Some x /\ rd8 b i = Ok x.
Proof. intros [x Hx]%lookup_lt_is_Some_2. exists x. unfold rd8. by rewrite Hx. Qed.
Lemma rd8_inv b i x : rd8 b i = Ok x -> b !! i = Some x.
Proof. unfold rd8. destruct (b !! i); congruence. Qed.
Lemma rd8_byte b i x : bytes b -> rd8 b i = Ok x -> byte x.
Proof. intros Hb Hr%rd8_inv. by eapply Forall_lookup_1 in Hb. Qed.

Lemma wr8_ok b i v : (i < length b)%nat -> wr8 b i v = Ok (<[i := v]> b).
Proof. intros. unfold wr8. by rewrite (proj2 (Nat.ltb_lt _ _)). Qed.
Lemma wr8_inv b i v b' : wr8 b i v = Ok b' -> (i < length b)%nat /\ b' = <[i := v]> b.
Proof.
  unfold wr8. destruct (i <? length b)%nat eqn:E; [|discriminate].
  apply Nat.ltb_lt in E. intros [= <-]. done.
Qed.

Lemma rd_bytes_ok b i n : (i + n <= length b)%nat -> rd_bytes b i n = Ok (slice i n b).
Proof.
  revert i; induction n as [|n IH]; intros i Hle; simpl; [done|].
  destruct (rd8_ok b i) as (x & Hx & ->); [lia|]. simpl. rewrite IH by lia. simpl.
  unfold slice. by rewrite (drop_S b x i Hx).
Qed.

Lemma rd_bytes_inv b i n l :
  rd_bytes b i n = Ok l -> l = slice i n b /\ length l = n /\ (n = 0 \/ i + n <= length b)%nat.
Proof.
  revert i l; induction n as [|n IH]; intros i l H; simpl in H.
  { injection H as <-. auto. }
  res_inv. subst. apply rd8_inv in Hstep. destruct (IH _ _ Hstep0) as (-> & Hl & Hb).
  pose proof (lookup_lt_Some _ _ _ Hstep). unfold slice in *.
  rewrite (drop_S b _ i Hstep). simpl. repeat split; [lia|]. right. lia.
Qed.

Lemma wr8_splice b i v : (i < length b)%nat -> <[i := v]> b = splice i [v] b.
Proof.
  intros. unfold splice. simpl. rewrite insert_take_drop by done.
  by replace (i + 1)%nat with (S i) by lia.
Qed.

Lemma wr_bytes_ok b i l : (i + length l <= length b)%nat -> wr_bytes b i l = Ok (splice i l b).
Proof.
  revert b i; induction l as [|x l IH]; intros b i Hle; simpl in *.
  { unfold splice. simpl. by rewrite Nat.add_0_r, take_drop. }
  rewrite wr8_ok by lia. simpl. rewrite IH by (rewrite length_insert; lia). f_equal.
  apply list_eq. intros k.
  rewrite lookup_splice by (rewrite length_insert; lia). simpl.
  rewrite lookup_splice by (simpl; lia). simpl.
  destruct (decide (k = i)) as [->|Hne].
  - rewrite decide_False, decide_True by lia. rewrite list_lookup_insert_eq by lia.
    by rewrite Nat.sub_diag.
  - rewrite list_lookup_insert_ne by done. repeat case_decide; try lia; [|done].
    replace (k - i)%nat with (S (k - S i)) by lia. done.
Qed.

Lemma wr_bytes_oob b i l :
  (length b < i + length l)%nat -> l <> [] -> wr_bytes b i l = Undef OobWrite.
Proof.
  revert b i; induction l as [|x l IH]; intros b i Hgt Hne; [done|]. simpl in *.
  destruct (decide (i < length b)%nat) as [Hi|Hi].
  - rewrite wr8_ok by done. simpl. apply IH; [rewrite length_insert; lia|].
    intros ->. simpl in *. lia.
  - unfold wr8. by rewrite (proj2 (Nat.ltb_ge _ _)) by lia.
Qed.

Lemma wr_bytes_inv b i l b' :
  wr_bytes b i l = Ok b' ->
  (l = [] /\ b' = b) \/ ((i + length l <= length b)%nat /\ b' = splice i l b).
Proof.
  intros H. destruct (decide (l = [])) as [->|Hne]; [left; by injection H as <-|right].
  destruct (decide (i + length l <= length b)%nat) as [Hle|Hgt].
  - rewrite wr_bytes_ok in H by done. injection H as <-. done.
  - rewrite wr_bytes_oob in H by (done || lia). discriminate.
Qed.

(** Reads of a just-written range, and of a range the write does not touch. *)
Lemma rd_wr_same b i l b' : wr_bytes b i l = Ok b' -> rd_bytes b' i (length l) = Ok l.
Proof.
  intros [[-> ->]|[Hle ->]]%wr_bytes_inv; [done|].
  rewrite rd_bytes_ok by (by rewrite length_splice). by rewrite slice_splice_same.
Qed.
Lemma length_wr_bytes b i l b' : wr_bytes b i l = Ok b' -> length b' = length b.
Proof. intros [[-> ->]|[Hle ->]]%wr_bytes_inv; [done|by apply length_splice]. Qed.
Lemma bytes_wr_bytes b i l b' : bytes b -> bytes l -> wr_bytes b i l = Ok b' -> bytes b'.
Proof. intros ?? [[-> ->]|[Hle ->]]%wr_bytes_inv; [done|by apply bytes_splice]. Qed.
Lemma rd_bytes_bytes b i n l : bytes b -> rd_bytes b i n = Ok l -> bytes l.
Proof. intros ? (-> & _)%rd_bytes_inv. by apply bytes_slice. Qed.

Create HintDb buf.
#[export] Hint Resolve bytes_le_bytes bytes_be_bytes bytes_slice bytes_splice : buf.
Create Rewrite HintDb buf_rw.
#[export] Hint Rewrite length_le_bytes length_be_bytes : buf_rw.

(** Closes a closed decidable goal (comparisons, equations, conjunctions) by evaluation. *)
Ltac eval_done :=
  vm_compute; repeat match goal with |- _ /\ _ => split end; first [reflexivity | discriminate | done].

(** Case analysis on the boolean tests of the goal. *)
Ltac btests :=
  repeat match goal with
  | |- context [?a <? ?b] => destruct (Z.ltb_spec a b)
  | |- context [?a <=? ?b] => destruct (Z.leb_spec a b)
  | |- context [?a =? ?b] => destruct (Z.eqb_spec a b)
  | |- context [(?a <? ?b)%nat] => destruct (Nat.ltb_spec a b)
  | |- context [(?a <=? ?b)%nat] => destruct (Nat.leb_spec a b)
  end; cbn [andb orb negb].

(** * Partial correctness with defined behaviour *)

(** [r] is defined, and if it returns, its value satisfies [P]. *)
Definition post {A} (P : A -> Prop) (r : res A) : Prop :=
  match r with Ok a => P a | Throw _ => True | Undef _ => False end.

Lemma post_Ok {A} (P : A -> Prop) a : P a -> post P (Ok a).
Proof. done. Qed.
Lemma post_Throw {A} (P : A -> Prop) m : post P (Throw m).
Proof. done. Qed.
Lemma post_bind {A B} (Q : A -> Prop) (P : B -> Prop) e k :
  post Q e -> (forall a, Q a -> post P (k a)) -> post P (rbind e k).
Proof. destruct e; simpl; auto. Qed.
Lemma post_mono {A} (P Q : A -> Prop) r : post P r -> (forall a, P a -> Q a) -> post Q r.
Proof. destruct r; simpl; auto. Qed.
Lemma post_defined {A} (P : A -> Prop) r : post P r -> defined r.
Proof. by destruct r. Qed.

(** [r] returns, with a value that satisfies [P]. *)
Definition returns {A} (P : A -> Prop) (r : res A) : Prop :=
  match r with Ok a => P a | _ => False end.
Lemma returns_bind {A B} (Q : A -> Prop) (P : B -> Prop) e k :
  returns Q e -> (forall a, Q a -> returns P (k a)) -> returns P (rbind e k).
Proof. destruct e; simpl; naive_solver. Qed.
Lemma returns_inv {A} (P : A -> Prop) r : returns P r -> exists a, r = Ok a /\ P a.
Proof. destruct r; simpl; eauto; done. Qed.

Lemma rd8_post b i : bytes b -> (i < length b)%nat -> post (fun x => b !! i = Some x /\ byte x) (rd8 b i).
Proof.
  intros Hb (x & Hx & ->)%rd8_ok. simpl. split; [done|]. by eapply Forall_lookup_1 in Hb.
Qed.
Lemma wr8_post b i v : (i < length b)%nat -> post (fun b' => b' = <[i := v]> b) (wr8 b i v).
Proof. intros. by rewrite wr8_ok. Qed.
Lemma rd_bytes_post b i n :
  (i + n <= length b)%nat -> post (fun l => l = slice i n b) (rd_bytes b i n).
Proof. intros. by rewrite rd_bytes_ok. Qed.
Lemma wr_bytes_post b i l :
  (i + length l <= length b)%nat -> post (fun b' => b' = splice i l b) (wr_bytes b i l).
Proof. intros. by rewrite wr_bytes_ok. Qed.

(** * Single cells *)

Definition cell (b : buf) (p : nat) : Z := b !!! p.

Lemma cell_lookup b p : (p < length b)%nat -> b !! p = Some (cell b p).
Proof. intros. by apply list_lookup_lookup_total_lt. Qed.
Lemma rd8_cell b p : (p < length b)%nat -> rd8 b p = Ok (cell b p).
Proof. intros. unfold rd8. by rewrite cell_lookup. Qed.
Lemma cell_byte b p : bytes b -> (p < length b)%nat -> byte (cell b p).
Proof. intros Hb Hp. eapply Forall_lookup_1; [exact Hb|]. by apply cell_lookup. Qed.
Lemma cell_insert_eq b p v : (p < length b)%nat -> cell (<[p := v]> b) p = v.
Proof. intros. unfold cell. by apply list_lookup_total_insert_eq. Qed.
Lemma cell_insert_ne b p q v : p <> q -> cell (<[p := v]> b) q = cell b q.
Proof. intros. unfold cell. by apply list_lookup_total_insert_ne. Qed.
Lemma cell_splice_out b i l p :
  (i + length l <= length b)%nat -> (p < i \/ i + length l <= p)%nat ->
  cell (splice i l b) p = cell b p.
Proof.
  intros. unfold cell. rewrite !list_lookup_total_alt, lookup_splice by done.
  by rewrite decide_False by lia.
Qed.
Lemma slice_insert_disj b i v j n :
  (i < j \/ j + n <= i)%nat -> slice j n (<[i := v]> b) = slice j n b.
Proof.
  intros. apply list_eq. intros k. rewrite !lookup_slice. case_decide; [|done].
  by rewrite list_lookup_insert_ne by lia.
Qed.
Lemma bytes_insert b i v : bytes b -> byte v -> bytes (<[i := v]> b).
Proof. intros. by apply Forall_insert. Qed.
Lemma slice_cons i n b : (i < length b)%nat -> slice i (S n) b = cell b i :: slice (S i) n b.
Proof.
  intros. unfold slice. rewrite (drop_S b (cell b i) i) by (by apply cell_lookup). done.
Qed.

Lemma slice_ext i n b1 b2 :
  (forall j, (i <= j < i + n)%nat -> b1 !! j = b2 !! j) -> slice i n b1 = slice i n b2.
Proof.
  intros H. apply list_eq. intros k. rewrite !lookup_slice. case_decide; [|done].
  apply H. lia.
Qed.
Lemma cell_ext p b1 b2 : b1 !! p = b2 !! p -> cell b1 p = cell b2 p.
Proof. intros H. unfold cell. by rewrite !list_lookup_total_alt, H. Qed.

(** * Pages: a zeroed buffer of [n] bytes filled from the front *)

Definition page (n : nat) (pre : list Z) : buf := pre ++ replicate (n - length pre) 0.

Lemma splice_mid i l a m c : i = length a -> length l = length m -> splice i l (a ++ m ++ c) = a ++ l ++ c.
Proof.
  intros -> Hl. unfold splice. rewrite take_app_le, take_ge by lia. f_equal. f_equal.
  rewrite drop_app_ge by lia. rewrite Hl. replace (length a + length m - length a)%nat with (length m) by lia.
  rewrite drop_app_ge by lia. by rewrite Nat.sub_diag, drop_0.
Qed.

Lemma page_length n pre : (length pre <= n)%nat -> length (page n pre) = n.
Proof. intros. unfold page. rewrite length_app, length_replicate. lia. Qed.

Lemma page_skip n pre m : (length pre + m <= n)%nat -> page n (pre ++ replicate m 0) = page n pre.
Proof.
  intros. unfold page. rewrite length_app, length_replicate, <- app_assoc, <- replicate_add. do 2 f_equal. lia.
Qed.

(** Writing at the end of what is filled extends it; the position is given by an equation. *)
Lemma page_write n pre p l :
  p = length pre -> (length pre + length l <= n)%nat -> wr_bytes (page n pre) p l = Ok (page n (pre ++ l)).
Proof.
  intros -> H. rewrite <- (page_skip n pre (length l)) by done. unfold page.
  rewrite wr_bytes_ok by (rewrite !length_app, !length_replicate; lia).
  rewrite <- app_assoc, splice_mid by (by rewrite ?length_replicate).
  by rewrite <- app_assoc, !length_app, length_replicate.
Qed.

(** Writing inside what is filled. *)
Lemma page_overwrite n a m c p l :
  p = length a -> length l = length m -> (length a + length m + length c <= n)%nat ->
  wr_bytes (page n (a ++ m ++ c)) p l = Ok (page n (a ++ l ++ c)).
Proof.
  intros -> Hl H. unfold page. rewrite wr_bytes_ok by (rewrite !length_app, !length_replicate; lia).
  rewrite <- !app_assoc, splice_mid by done. by rewrite !length_app, Hl.
Qed.

Lemma page_slice n pre i m : (i + m <= length pre)%nat -> slice i m (page n pre) = slice i m pre.
Proof.
  intros. apply list_eq. intros k. rewrite !lookup_slice. case_decide; [|done].
  unfold page. by rewrite lookup_app_l by lia.
Qed.
Lemma page_take n pre : take (length pre) (page n pre) = pre.
Proof. unfold page. rewrite take_app_le by lia. by apply take_ge. Qed.
Lemma bytes_page n pre : bytes pre -> bytes (page n pre).
Proof. intros. apply Forall_app; split; [done|]. apply Forall_replicate. unfold byte; lia. Qed.

(** Evaluates slices and cells of a nest of writes, by position. *)
Ltac buf_len :=
  cbn [length] in *; rewrite ?length_be_bytes, ?length_le_bytes, ?length_replicate in *; lia.
Ltac buf_simp :=
  repeat first
    [ rewrite length_insert | rewrite length_splice by buf_simp_side
    | rewrite cell_insert_eq by buf_simp_side | rewrite cell_insert_ne by lia
    | rewrite cell_splice_out by buf_simp_side
    | rewrite slice_insert_disj by buf_simp_side
    | rewrite slice_splice_disj by buf_simp_side ]
with buf_simp_side :=
  repeat first [ rewrite length_insert | rewrite length_splice by buf_simp_side
               | rewrite length_slice by buf_simp_side ];
  rewrite ?length_app, ?length_be_bytes, ?length_le_bytes, ?length_replicate;
  cbn [length]; lia.
