(* ===== verification/Effect.v ===== *)
(** Calls that change an object and call back: the object they leave, the calls they
    make on the outside in order, and their outcome.  The media components are written
    in this monad; the callbacks of one are interpreted by the component above it. *)
From S2P Require Import Prelude.

Definition eff (S E A : Type) : Type := S * list E * res A.

Section Effect.
Context {S E : Type}.
Implicit Types (s : S) (es : list E).

Definition final {A} (m : eff S E A) : S := m.1.1.
Definition calls {A} (m : eff S E A) : list E := m.1.2.
Definition outcome {A} (m : eff S E A) : res A := m.2.

Definition eret {A} s (a : A) : eff S E A := (s, [], Ok a).

(** [f] goes on from the object that [m] leaves, unless [m] failed. *)
Definition ebind {A B} (m : eff S E A) (f : S -> A -> eff S E B) : eff S E B :=
  match m with
  | (s, es, Ok a) => let '(s', es', r) := f s a in (s', es ++ es', r)
  | (s, es, Throw msg) => (s, es, Throw msg)
  | (s, es, Undef u) => (s, es, Undef u)
  end.

(** A call without callbacks, a pure expression, and one callback. *)
Definition quiet {A} (m : S * res A) : eff S E A := (m.1, [], m.2).
Definition pure {A} s (r : res A) : eff S E A := (s, [], r).
Definition emit s (es : list E) : eff S E unit := (s, es, Ok tt).

(** [try { m } catch (...) { h }]: the changes made before the exception stay. *)
Definition ecatch {A} (m : eff S E A) (h : S -> eff S E A) : eff S E A :=
  match m with
  | (s, es, Throw _) => let '(s', es', r) := h s in (s', es ++ es', r)
  | _ => m
  end.

(** One call for every element, in order; the first that fails ends the loop. *)
Fixpoint efor {X} (l : list X) s (f : S -> X -> eff S E unit) : eff S E unit :=
  match l with
  | [] => eret s tt
  | x :: l' => ebind (f s x) (fun s _ => efor l' s f)
  end.

Definition uninterrupted {A} (m : eff S E A) : Prop := exists a, outcome m = Ok a.

(** Whatever [m] does is defined, it leaves an object in [P] and calls in [Q]. *)
Definition keeps (P : S -> Prop) (Q : E -> Prop) {A} (m : eff S E A) : Prop :=
  P (final m) /\ Forall Q (calls m) /\ defined (outcome m).

Lemma keeps_ret P Q {A} s (a : A) : P s -> keeps P Q (eret s a).
Proof. by intros. Qed.
Lemma keeps_pure P Q {A} s (r : res A) : P s -> defined r -> keeps P Q (pure s r).
Proof. by intros. Qed.
Lemma keeps_quiet P Q {A} (m : S * res A) : P m.1 -> defined m.2 -> keeps P Q (quiet m).
Proof. by intros. Qed.
Lemma keeps_emit P Q s es : P s -> Forall Q es -> keeps P Q (emit s es).
Proof. by intros. Qed.

Lemma keeps_bind P P' Q {A B} (m : eff S E A) (f : S -> A -> eff S E B) :
  keeps P Q m -> (forall s, P s -> P' s) ->
  (forall s a, m.1.1 = s -> m.2 = Ok a -> P s -> keeps P' Q (f s a)) -> keeps P' Q (ebind m f).
Proof.
  destruct m as [[s es] [a|msg|u]]; intros (Hp & Hq & Hd) Hw Hf; cbn in *; [|by split_and!; auto|done].
  pose proof (Hf s a eq_refl eq_refl Hp) as (Hp' & Hq' & Hd').
  destruct (f s a) as [[s' es'] r]. cbn in *. split_and!; try done. by apply Forall_app.
Qed.

Lemma keeps_catch P Q {A} (m : eff S E A) (h : S -> eff S E A) :
  keeps P Q m -> (forall s, P s -> keeps P Q (h s)) -> keeps P Q (ecatch m h).
Proof.
  destruct m as [[s es] [a|msg|u]]; intros (Hp & Hq & Hd) Hh; cbn in *; try done.
  pose proof (Hh s Hp) as (Hp' & Hq' & Hd'). destruct (h s) as [[s' es'] r]. cbn in *.
  split_and!; try done. by apply Forall_app.
Qed.

Lemma keeps_for P Q {X} (l : list X) s (f : S -> X -> eff S E unit) :
  P s -> (forall s x, P s -> x ∈ l -> keeps P Q (f s x)) -> keeps P Q (efor l s f).
Proof.
  revert s. induction l as [|x l IH]; intros s Hs Hf; cbn [efor]; [by apply keeps_ret|].
  apply (keeps_bind P); [apply Hf; [done|left]|done|]. intros s' [] _ _ Hs'. apply IH; [done|].
  intros. apply Hf; [done|]. by right.
Qed.

Lemma keeps_mono (P P' : S -> Prop) (Q Q' : E -> Prop) {A} (m : eff S E A) :
  keeps P Q m -> (forall s, P s -> P' s) -> (forall e, Q e -> Q' e) -> keeps P' Q' m.
Proof. intros (? & Hq & ?) HP HQ. split_and!; auto. by eapply Forall_impl. Qed.

Lemma ebind_assoc {A B C} (m : eff S E A) (f : S -> A -> eff S E B) (g : S -> B -> eff S E C) :
  ebind (ebind m f) g = ebind m (fun s a => ebind (f s a) g).
Proof.
  destruct m as [[s es] [a|msg|u]]; cbn; [|done|done]. destruct (f s a) as [[s1 es1] [b|msg|u]]; cbn; [|done|done].
  destruct (g s1 b) as [[s2 es2] r]. by rewrite app_assoc.
Qed.

Lemma ebind_ext {A B} (m : eff S E A) (f g : S -> A -> eff S E B) : (forall s a, f s a = g s a) -> ebind m f = ebind m g.
Proof. destruct m as [[s es] [a|msg|u]]; intros H; cbn; by rewrite ?H. Qed.

(** Going on from a pure expression. *)
Lemma ebind_ok {A B} s (a : A) (f : S -> A -> eff S E B) : ebind (pure s (Ok a)) f = f s a.
Proof. cbn. by destruct (f s a) as [[? ?] ?]. Qed.
Lemma ebind_ret {A B} s (a : A) (f : S -> A -> eff S E B) : ebind (eret s a) f = f s a.
Proof. apply ebind_ok. Qed.

(** Two loops, one after the other, are the loop over both lists. *)
Lemma efor_app {X} (l1 l2 : list X) s (f : S -> X -> eff S E unit) :
  efor (l1 ++ l2) s f = ebind (efor l1 s f) (fun s _ => efor l2 s f).
Proof.
  revert s. induction l1 as [|x l1 IH]; intros s; cbn [efor app].
  - cbn. by destruct (efor l2 s f) as [[? ?] ?].
  - rewrite ebind_assoc. unfold ebind at 1 2. destruct (f s x) as [[s1 es1] [[]|msg|u]]; [|done|done].
    by rewrite IH.
Qed.
End Effect.

Notation "'do*' ( s , x ) ':=' e 'in' k" := (ebind e (fun s x => k))
  (at level 10, s name, x pattern, e at level 100, k at level 200) : rtc_scope.

(** A call on a part of an object, and a change of the names of its callbacks. *)
Definition zoom {S T E A} (set : T -> S) (m : eff T E A) : eff S E A :=
  let '(t, es, r) := m in (set t, es, r).
Definition rename_calls {S E F A} (f : E -> F) (m : eff S E A) : eff S F A :=
  let '(s, es, r) := m in (s, map f es, r).

(** Callbacks [handle]d by the owner, one after the other, between the calls of [m];
    [m] does not see what they do, and returns its own result when they all return. *)
Definition handled {S E F A} (handle : S -> E -> eff S F unit) (m : eff S E A) : eff S F A :=
  let '(s, es, r) := m in
  let '(s, fs, h) := efor es s handle in
  (s, fs, match r, h with
          | Undef u, _ => Undef u
          | _, Ok _ => r
          | _, Throw msg => Throw msg
          | _, Undef u => Undef u
          end).

Lemma keeps_zoom {S T E A} (P : S -> Prop) (P' : T -> Prop) (Q : E -> Prop) (set : T -> S) (m : eff T E A) :
  keeps P' Q m -> (forall t, P' t -> P (set t)) -> keeps P Q (zoom set m).
Proof. destruct m as [[t es] r]. intros (Hp & Hq & Hd) HP. split_and!; cbn in *; auto. Qed.

Lemma keeps_rename {S E F A} (P : S -> Prop) (Q : E -> Prop) (Q' : F -> Prop) (f : E -> F) (m : eff S E A) :
  keeps P Q m -> (forall e, Q e -> Q' (f e)) -> keeps P Q' (rename_calls f m).
Proof.
  destruct m as [[s es] r]. intros (Hp & Hq & Hd) HQ. split_and!; cbn in *; try done.
  apply Forall_map. by eapply Forall_impl.
Qed.

Lemma keeps_handled {S E F A} (P : S -> Prop) (Q : E -> Prop) (Q' : F -> Prop) (handle : S -> E -> eff S F unit)
    (m : eff S E A) :
  keeps P Q m -> (forall s e, P s -> Q e -> keeps P Q' (handle s e)) -> keeps P Q' (handled handle m).
Proof.
  destruct m as [[s es] r]. intros (Hp & Hq & Hd) Hh. cbn in *.
  assert (Hk : keeps P Q' (efor es s handle)).
  { apply keeps_for; [done|]. intros s' e Hs' He. apply Hh; [done|]. by eapply Forall_forall in Hq. }
  unfold keeps, final, calls, outcome in Hk. unfold handled.
  destruct (efor es s handle) as [[s' fs] [[]|msg|u]]; cbn in *; destruct Hk as (? & ? & ?); by destruct r; split_and!.
Qed.

(** Invariants whatever happens: if what [m] does is defined, it leaves an object in [P]. *)
Definition stays {S E} (P : S -> Prop) {A} (m : eff S E A) : Prop := defined (outcome m) -> P (final m).

Section Stays.
Context {S E : Type} (P : S -> Prop).

Lemma stays_ret {A} s (a : A) : P s -> stays P (eret s a : eff S E A).
Proof. by intros ? _. Qed.
Lemma stays_pure {A} s (r : res A) : P s -> stays P (pure s r : eff S E A).
Proof. by intros ? _. Qed.
Lemma stays_quiet {A} (m : S * res A) : (defined m.2 -> P m.1) -> stays P (quiet m : eff S E A).
Proof. done. Qed.
Lemma stays_emit s (es : list E) : P s -> stays P (emit s es).
Proof. by intros ? _. Qed.

Lemma stays_bind {A B} (m : eff S E A) (f : S -> A -> eff S E B) :
  stays P m -> (forall s a, P s -> m.2 = Ok a -> stays P (f s a)) -> stays P (ebind m f).
Proof.
  destruct m as [[s es] [a|msg|u]]; intros Hm Hf; unfold stays in *; cbn in *; [|done..].
  specialize (Hf s a (Hm I) eq_refl). by destruct (f s a) as [[s' es'] r].
Qed.

(** The same with a stronger statement about the object in between. *)
Lemma stays_then (P' : S -> Prop) {A B} (m : eff S E A) (f : S -> A -> eff S E B) :
  stays P' m -> (forall s, P' s -> P s) -> (forall s a, P' s -> m.2 = Ok a -> stays P (f s a)) -> stays P (ebind m f).
Proof.
  destruct m as [[s es] [a|msg|u]]; intros Hm Hw Hf; unfold stays in *; cbn in *; [|auto|done].
  specialize (Hf s a (Hm I) eq_refl). by destruct (f s a) as [[s' es'] r].
Qed.

Lemma stays_catch {A} (m : eff S E A) (h : S -> eff S E A) :
  stays P m -> (forall s, P s -> stays P (h s)) -> stays P (ecatch m h).
Proof.
  destruct m as [[s es] [a|msg|u]]; intros Hm Hh; unfold stays in *; cbn in *; [done| |done].
  specialize (Hh s (Hm I)). by destruct (h s) as [[s' es'] r].
Qed.

Lemma stays_for {X} (l : list X) s (f : S -> X -> eff S E unit) :
  P s -> (forall s x, P s -> x ∈ l -> stays P (f s x)) -> stays P (efor l s f).
Proof.
  revert s. induction l as [|x l IH]; intros s Hs Hf; cbn [efor]; [by apply stays_ret|].
  apply stays_bind; [apply Hf; [done|left]|]. intros s' [] Hs' _. apply IH; [done|].
  intros. apply Hf; [done|]. by right.
Qed.
End Stays.

Lemma stays_zoom {S T E A} (P : S -> Prop) (P' : T -> Prop) (set : T -> S) (m : eff T E A) :
  stays P' m -> (forall t, P' t -> P (set t)) -> stays P (zoom set m).
Proof. destruct m as [[t es] r]. unfold stays. cbn. auto. Qed.

Lemma stays_handled {S E F A} (P : S -> Prop) (handle : S -> E -> eff S F unit) (m : eff S E A) :
  stays P m -> (forall s e, P s -> stays P (handle s e)) -> stays P (handled handle m).
Proof.
  destruct m as [[s es] r]. unfold handled. intros Hm Hh.
  assert (Hk : P s -> stays P (efor es s handle)) by (intros; apply stays_for; auto).
  unfold stays in *. destruct (efor es s handle) as [[s' fs] h]. cbn in *.
  destruct r as [a|msg|u]; [| |done]; specialize (Hk (Hm I)); by destruct h.
Qed.

Create HintDb stays.
#[export] Hint Resolve stays_ret stays_pure stays_quiet stays_emit : stays.

(** What the calls are, whatever the outcome. *)
Definition only {S E} (Q : E -> Prop) {A} (m : eff S E A) : Prop := Forall Q (calls m).

Section Only.
Context {S E : Type} (Q : E -> Prop).
Implicit Types (s : S) (es : list E).

Lemma only_ret {A} s (a : A) : only Q (eret s a : eff S E A).
Proof. constructor. Qed.
Lemma only_pure {A} s (r : res A) : only Q (pure s r : eff S E A).
Proof. constructor. Qed.
Lemma only_emit s (es : list E) : Forall Q es -> only Q (emit s es).
Proof. done. Qed.
Lemma only_bind {A B} (m : eff S E A) (f : S -> A -> eff S E B) :
  only Q m -> (forall s a, only Q (f s a)) -> only Q (ebind m f).
Proof.
  destruct m as [[s es] [a|msg|u]]; intros Hm Hf; unfold only in *; cbn in *; [|done..].
  specialize (Hf s a). destruct (f s a) as [[s' es'] r]. by apply Forall_app.
Qed.
Lemma only_catch {A} (m : eff S E A) (h : S -> eff S E A) : only Q m -> (forall s, only Q (h s)) -> only Q (ecatch m h).
Proof.
  destruct m as [[s es] [a|msg|u]]; intros Hm Hh; unfold only in *; cbn in *; [done| |done].
  specialize (Hh s). destruct (h s) as [[s' es'] r]. by apply Forall_app.
Qed.
Lemma only_for {X} (l : list X) s (f : S -> X -> eff S E unit) : (forall s x, x ∈ l -> only Q (f s x)) -> only Q (efor l s f).
Proof.
  revert s. induction l as [|x l IH]; intros s Hf; cbn [efor]; [apply only_ret|].
  apply only_bind; [apply Hf; left|]. intros s' []. apply IH. intros. apply Hf. by right.
Qed.
End Only.

Lemma only_zoom {S T E A} (Q : E -> Prop) (set : T -> S) (m : eff T E A) : only Q m -> only Q (zoom set m).
Proof. by destruct m as [[t es] r]. Qed.
Lemma only_rename {S E F A} (Q : F -> Prop) (Q' : E -> Prop) (f : E -> F) (m : eff S E A) :
  only Q' m -> (forall x, Q' x -> Q (f x)) -> only Q (rename_calls f m).
Proof. destruct m as [[s es] r]. unfold only. cbn. intros H HQ. apply Forall_map. by eapply Forall_impl. Qed.
Lemma only_handled {S E F A} (Q : F -> Prop) (Q' : E -> Prop) (handle : S -> E -> eff S F unit) (m : eff S E A) :
  only Q' m -> (forall s x, Q' x -> only Q (handle s x)) -> only Q (handled handle m).
Proof.
  destruct m as [[s es] r]. unfold only at 1. cbn. intros H HQ.
  assert (Hk : only Q (efor es s handle)) by (apply only_for; intros s' x Hx; apply HQ; by eapply Forall_forall in H).
  unfold handled. by destruct (efor es s handle) as [[s' fs] h].
Qed.

Create HintDb only.
#[export] Hint Resolve only_ret only_pure only_emit only_bind only_catch only_for only_zoom : only.
