(* ===== verification/ByteStream.v ===== *)
(** [utils/byte_stream.hpp]: loads and stores of 2, 3, 4 and 8 byte integers
    in both byte orders, and padding to 32-bit words.  The host is little
    endian, as the code's unions and pointer casts assume. *)
From S2P Require Import Prelude.

Module ByteStream.

(** [output] is the value's storage: [output\[k\]] is its byte of weight [256^k].
    The big-endian loads fill it from the last cell down, the [Le] ones upwards. *)
Definition Read8Bytes (data : buf) (p : nat) : res Z :=
  let! output := rd_bytes data p 8 in Ok (le_val (reverse output)).
Definition Read8BytesLe (data : buf) (p : nat) : res Z :=
  let! output := rd_bytes data p 8 in Ok (le_val output).
Definition Read4Bytes (data : buf) (p : nat) : res Z :=
  let! output := rd_bytes data p 4 in Ok (le_val (reverse output)).
Definition Read4BytesLe (data : buf) (p : nat) : res Z :=
  let! output := rd_bytes data p 4 in Ok (le_val output).
Definition Read3Bytes (data : buf) (p : nat) : res Z :=
  let! output := rd_bytes data p 3 in Ok (le_val (reverse output)).
Definition Read3BytesLe (data : buf) (p : nat) : res Z :=
  let! output := rd_bytes data p 3 in Ok (le_val output).
Definition Read2Bytes (data : buf) (p : nat) : res Z :=
  let! output := rd_bytes data p 2 in Ok (le_val (reverse output)).
Definition Read2BytesLe (data : buf) (p : nat) : res Z :=
  let! output := rd_bytes data p 2 in Ok (le_val output).

(** [pp] is the storage of the value being written. *)
Definition Write8Bytes (data : buf) (p : nat) (value : Z) : res buf :=
  let pp := le_bytes 8 value in
  wr_bytes data p [pp !!! 7%nat; pp !!! 6%nat; pp !!! 5%nat; pp !!! 4%nat;
                   pp !!! 3%nat; pp !!! 2%nat; pp !!! 1%nat; pp !!! 0%nat].
Definition Write8Bytes_le (data : buf) (p : nat) (value : Z) : res buf :=
  let pp := le_bytes 8 value in
  wr_bytes data p [pp !!! 0%nat; pp !!! 1%nat; pp !!! 2%nat; pp !!! 3%nat;
                   pp !!! 4%nat; pp !!! 5%nat; pp !!! 6%nat; pp !!! 7%nat].
Definition Write4Bytes (data : buf) (p : nat) (value : Z) : res buf :=
  let pp := le_bytes 4 value in
  wr_bytes data p [pp !!! 3%nat; pp !!! 2%nat; pp !!! 1%nat; pp !!! 0%nat].
Definition Write2Bytes_le (data : buf) (p : nat) (value : Z) : res buf :=
  let pp := le_bytes 4 value in
  wr_bytes data p [pp !!! 0%nat; pp !!! 1%nat].
Definition Write4Bytes_le (data : buf) (p : nat) (value : Z) : res buf :=
  let pp := le_bytes 4 value in
  wr_bytes data p [pp !!! 0%nat; pp !!! 1%nat; pp !!! 2%nat; pp !!! 3%nat].
Definition Write3Bytes (data : buf) (p : nat) (value : Z) : res buf :=
  let pp := le_bytes 4 value in
  wr_bytes data p [pp !!! 2%nat; pp !!! 1%nat; pp !!! 0%nat].
Definition Write2Bytes (data : buf) (p : nat) (value : Z) : res buf :=
  let pp := le_bytes 2 value in
  wr_bytes data p [pp !!! 1%nat; pp !!! 0%nat].

(** [p1] and [p2] are read up to the first difference. *)
Fixpoint BytesIsEqual_from (p1 p2 : buf) (index len : nat) : res bool :=
  match len with
  | O => Ok true
  | S len' =>
      let! x := rd8 p1 index in
      let! y := rd8 p2 index in
      if decide (x = y) then BytesIsEqual_from p1 p2 (S index) len' else Ok false
  end.
Definition BytesIsEqual (p1 p2 : buf) (len : nat) : res bool := BytesIsEqual_from p1 p2 0 len.

(** The two overloads: on [uint16_t] (the sum is truncated on return) and on [uint32_t]. *)
Definition PadTo4Bytes_u16 (size : Z) : Z :=
  if decide (Z.land size 3 = 0) then size else u16 (Z.land size 65532 + 4).
Definition PadTo4Bytes_u32 (size : Z) : Z :=
  if decide (Z.land size 3 = 0) then size else u32 (Z.land size 4294967292 + 4).

(** Host/network conversions of [arpa/inet.h] on a little-endian host. *)
Definition htons (v : Z) : Z := le_val (reverse (le_bytes 2 v)).
Definition ntohs (v : Z) : Z := le_val (reverse (le_bytes 2 v)).
Definition htonl (v : Z) : Z := le_val (reverse (le_bytes 4 v)).
Definition ntohl (v : Z) : Z := le_val (reverse (le_bytes 4 v)).

(** A field of a packed struct overlaid on a buffer: host-order load and store. *)
Definition load16 (b : buf) (i : nat) : res Z := let! l := rd_bytes b i 2 in Ok (le_val l).
Definition load32 (b : buf) (i : nat) : res Z := let! l := rd_bytes b i 4 in Ok (le_val l).
Definition store16 (b : buf) (i : nat) (v : Z) : res buf := wr_bytes b i (le_bytes 2 v).
Definition store32 (b : buf) (i : nat) (v : Z) : res buf := wr_bytes b i (le_bytes 4 v).

(** * Normal forms: every access is a big-endian or little-endian byte string *)

Lemma Write8Bytes_be b p v : Write8Bytes b p v = wr_bytes b p (be_bytes 8 v).
Proof. reflexivity. Qed.
Lemma Write4Bytes_be b p v : Write4Bytes b p v = wr_bytes b p (be_bytes 4 v).
Proof. reflexivity. Qed.
Lemma Write3Bytes_be b p v : Write3Bytes b p v = wr_bytes b p (be_bytes 3 v).
Proof. reflexivity. Qed.
Lemma Write2Bytes_be b p v : Write2Bytes b p v = wr_bytes b p (be_bytes 2 v).
Proof. reflexivity. Qed.
Lemma Write8Bytes_le_le b p v : Write8Bytes_le b p v = wr_bytes b p (le_bytes 8 v).
Proof. reflexivity. Qed.
Lemma Write4Bytes_le_le b p v : Write4Bytes_le b p v = wr_bytes b p (le_bytes 4 v).
Proof. reflexivity. Qed.
Lemma Write2Bytes_le_le b p v : Write2Bytes_le b p v = wr_bytes b p (le_bytes 2 v).
Proof. reflexivity. Qed.

#[export] Hint Rewrite Write8Bytes_be Write4Bytes_be Write3Bytes_be Write2Bytes_be
  Write8Bytes_le_le Write4Bytes_le_le Write2Bytes_le_le : buf_rw.

Lemma htonl_bytes v : le_bytes 4 (htonl v) = be_bytes 4 v.
Proof. apply (le_bytes_le_val (reverse (le_bytes 4 v))). apply bytes_be_bytes. Qed.
Lemma htons_bytes v : le_bytes 2 (htons v) = be_bytes 2 v.
Proof. apply (le_bytes_le_val (reverse (le_bytes 2 v))). apply bytes_be_bytes. Qed.

Lemma ntohl_le_val l : bytes l -> length l = 4%nat -> ntohl (le_val l) = be_val l.
Proof. intros Hb Hl. unfold ntohl. rewrite <- Hl. by rewrite le_bytes_le_val. Qed.
Lemma ntohs_le_val l : bytes l -> length l = 2%nat -> ntohs (le_val l) = be_val l.
Proof. intros Hb Hl. unfold ntohs. rewrite <- Hl. by rewrite le_bytes_le_val. Qed.

Lemma store32_htonl b i v : store32 b i (htonl v) = wr_bytes b i (be_bytes 4 v).
Proof. unfold store32. by rewrite htonl_bytes. Qed.
Lemma store16_htons b i v : store16 b i (htons v) = wr_bytes b i (be_bytes 2 v).
Proof. unfold store16. by rewrite htons_bytes. Qed.

Lemma load32_ntohl b i :
  bytes b -> (i + 4 <= length b)%nat ->
  rbind (load32 b i) (fun v => Ok (ntohl v)) = Ok (be_val (slice i 4 b)).
Proof.
  intros. unfold load32. rewrite rd_bytes_ok by done. simpl.
  rewrite ntohl_le_val; [done|by apply bytes_slice|by apply length_slice].
Qed.
Lemma load16_ntohs b i :
  bytes b -> (i + 2 <= length b)%nat ->
  rbind (load16 b i) (fun v => Ok (ntohs v)) = Ok (be_val (slice i 2 b)).
Proof.
  intros. unfold load16. rewrite rd_bytes_ok by done. simpl.
  rewrite ntohs_le_val; [done|by apply bytes_slice|by apply length_slice].
Qed.

(** The value of a network-order field. *)
Definition net16 (b : buf) (i : nat) : Z := be_val (slice i 2 b).
Definition net32 (b : buf) (i : nat) : Z := be_val (slice i 4 b).

Lemma load16_bind {A} b i (f : Z -> res A) :
  bytes b -> (i + 2 <= length b)%nat -> (let! v := load16 b i in f (ntohs v)) = f (net16 b i).
Proof.
  intros. unfold load16. rewrite rd_bytes_ok by done. cbn [rbind].
  by rewrite ntohs_le_val by (by apply bytes_slice || apply length_slice).
Qed.

Lemma load16_value b i :
  bytes b -> (i + 2 <= length b)%nat -> load16 b i = Ok (htons (net16 b i)).
Proof.
  intros. unfold load16. rewrite rd_bytes_ok by done. cbn [rbind]. f_equal.
  unfold htons, net16, be_val.
  pose proof (bytes_slice i 2 b H) as Hb. pose proof (length_slice i 2 b H0) as Hl.
  rewrite <- Hl at 2. rewrite <- (length_reverse (slice i 2 b)), le_bytes_le_val by (by apply Forall_reverse).
  by rewrite reverse_involutive.
Qed.
Lemma load32_value b i :
  bytes b -> (i + 4 <= length b)%nat -> load32 b i = Ok (htonl (net32 b i)).
Proof.
  intros. unfold load32. rewrite rd_bytes_ok by done. cbn [rbind]. f_equal.
  unfold htonl, net32, be_val.
  pose proof (bytes_slice i 4 b H) as Hb. pose proof (length_slice i 4 b H0) as Hl.
  rewrite <- Hl at 2. rewrite <- (length_reverse (slice i 4 b)), le_bytes_le_val by (by apply Forall_reverse).
  by rewrite reverse_involutive.
Qed.

Lemma load16_post b i :
  bytes b -> (i + 2 <= length b)%nat -> post (fun v => ntohs v = net16 b i) (load16 b i).
Proof.
  intros. unfold load16. rewrite rd_bytes_ok by done. simpl.
  apply ntohs_le_val; [by apply bytes_slice|by apply length_slice].
Qed.
Lemma load32_post b i :
  bytes b -> (i + 4 <= length b)%nat -> post (fun v => ntohl v = net32 b i) (load32 b i).
Proof.
  intros. unfold load32. rewrite rd_bytes_ok by done. simpl.
  apply ntohl_le_val; [by apply bytes_slice|by apply length_slice].
Qed.
Lemma net16_range b i : bytes b -> (i + 2 <= length b)%nat -> 0 <= net16 b i < 65536.
Proof.
  intros. unfold net16. pose proof (be_val_range (slice i 2 b)) as H'.
  rewrite length_slice in H' by done. by apply H', bytes_slice.
Qed.
Lemma net32_range b i : bytes b -> (i + 4 <= length b)%nat -> 0 <= net32 b i < 4294967296.
Proof.
  intros. unfold net32. pose proof (be_val_range (slice i 4 b)) as H'.
  rewrite length_slice in H' by done. by apply H', bytes_slice.
Qed.

Lemma ntohs_htons v : ntohs (htons v) = u16 v.
Proof.
  unfold ntohs. rewrite htons_bytes. unfold be_bytes.
  rewrite reverse_involutive, le_val_le_bytes. done.
Qed.
Lemma ntohl_htonl v : ntohl (htonl v) = u32 v.
Proof.
  unfold ntohl. rewrite htonl_bytes. unfold be_bytes.
  rewrite reverse_involutive, le_val_le_bytes. done.
Qed.

(** * Properties *)

Lemma be_round b p n v b' :
  wr_bytes b p (be_bytes n v) = Ok b' ->
  rbind (rd_bytes b' p n) (fun o => Ok (le_val (reverse o))) = Ok (v mod 256 ^ Z.of_nat n).
Proof.
  intros H%rd_wr_same. rewrite length_be_bytes in H. rewrite H. simpl.
  by rewrite <- be_val_be_bytes.
Qed.
Lemma le_round b p n v b' :
  wr_bytes b p (le_bytes n v) = Ok b' ->
  rbind (rd_bytes b' p n) (fun o => Ok (le_val o)) = Ok (v mod 256 ^ Z.of_nat n).
Proof.
  intros H%rd_wr_same. rewrite length_le_bytes in H. rewrite H. simpl.
  by rewrite <- le_val_le_bytes.
Qed.

(** every store of the byte-stream helpers is undone by the load of the same
    width and byte order: a stored integer is read back modulo the width. *)
Theorem byte_stream_roundtrip (b : buf) (p : nat) (v : Z) (b' : buf) :
  (Write8Bytes b p v = Ok b' -> Read8Bytes b' p = Ok (u64 v)) /\
  (Write8Bytes_le b p v = Ok b' -> Read8BytesLe b' p = Ok (u64 v)) /\
  (Write4Bytes b p v = Ok b' -> Read4Bytes b' p = Ok (u32 v)) /\
  (Write4Bytes_le b p v = Ok b' -> Read4BytesLe b' p = Ok (u32 v)) /\
  (Write3Bytes b p v = Ok b' -> Read3Bytes b' p = Ok (v mod 16777216)) /\
  (Write2Bytes b p v = Ok b' -> Read2Bytes b' p = Ok (u16 v)) /\
  (Write2Bytes_le b p v = Ok b' -> Read2BytesLe b' p = Ok (u16 v)).
Proof.
  repeat match goal with |- _ /\ _ => split end; intros H; autorewrite with buf_rw in H;
    first [exact (be_round _ _ _ _ _ H) | exact (le_round _ _ _ _ _ H)].
Qed.

Lemma byte_stream_roundtrip_witness :
  exists b', Write3Bytes [9; 9; 9; 9; 9] 1 70000 = Ok b' /\ Read3Bytes b' 1 = Ok 70000.
Proof.
  eexists. split; [reflexivity|].
  apply (byte_stream_roundtrip [9; 9; 9; 9; 9] 1 70000). reflexivity.
Defined.

Lemma land_3 s : 0 <= s -> Z.land s 3 = s mod 4.
Proof. intros. change 3 with (Z.ones 2). by rewrite Z.land_ones by lia. Qed.
Lemma land_hi s n : 2 <= n -> 0 <= s < 2 ^ n -> Z.land s (2 ^ n - 4) = s - s mod 4.
Proof.
  intros Hn Hs.
  assert (Z.land s (2 ^ n - 4) = Z.ldiff s 3) as ->.
  { apply Z.bits_inj'. intros i Hi. rewrite Z.land_spec, Z.ldiff_spec.
    destruct (decide (i < n)) as [Hin|Hin].
    - f_equal. replace (2 ^ n - 4) with (Z.lnot (3 + (-1) * 2 ^ n)) by (unfold Z.lnot; lia).
      rewrite Z.lnot_spec by lia. f_equal.
      rewrite <- (Z.mod_pow2_bits_low (3 + (-1) * 2 ^ n) n i) by lia.
      rewrite Z.mod_add by lia. rewrite Z.mod_small; [done|].
      pose proof (Z.pow_le_mono_r 2 2 n). lia.
    - rewrite <- (Z.mod_small s (2 ^ n)) by lia.
      by rewrite Z.mod_pow2_bits_high by lia. }
  rewrite <- (Z.lor_ldiff_and s 3) at 2. rewrite <- Z.lxor_lor, <- Z.add_nocarry_lxor.
  - rewrite (land_3 s) by lia. lia.
  - apply Z.bits_inj'. intros i ?. rewrite !Z.land_spec, Z.ldiff_spec, Z.bits_0.
    by destruct (Z.testbit s i), (Z.testbit 3 i).
  - apply Z.bits_inj'. intros i ?. rewrite !Z.land_spec, Z.ldiff_spec, Z.bits_0.
    by destruct (Z.testbit s i), (Z.testbit 3 i).
Qed.

Lemma PadTo4Bytes_u16_eq s : 0 <= s < 65536 -> PadTo4Bytes_u16 s = u16 ((s + 3) / 4 * 4).
Proof.
  intros. unfold PadTo4Bytes_u16. rewrite land_3 by lia.
  change 65532 with (2 ^ 16 - 4). rewrite land_hi by lia. case_decide; zlia.
Qed.

Lemma PadTo4Bytes_u32_eq s : 0 <= s < 4294967296 -> PadTo4Bytes_u32 s = u32 ((s + 3) / 4 * 4).
Proof.
  intros. unfold PadTo4Bytes_u32. rewrite land_3 by lia.
  change 4294967292 with (2 ^ 32 - 4). rewrite land_hi by lia. case_decide; zlia.
Qed.

(** padding a 16-bit size gives the least multiple of four not below it, except
    for the three sizes above 65532, which the 16-bit result wraps to 0; the 32-bit
    overload behaves the same at its own width. *)
Theorem pad_to_4_least (s : Z) :
  (0 <= s <= 65532 -> let r := PadTo4Bytes_u16 s in s <= r < s + 4 /\ r mod 4 = 0) /\
  (65532 < s < 65536 -> PadTo4Bytes_u16 s = 0) /\
  (0 <= s <= 4294967292 -> let r := PadTo4Bytes_u32 s in s <= r < s + 4 /\ r mod 4 = 0) /\
  (4294967292 < s < 4294967296 -> PadTo4Bytes_u32 s = 0).
Proof.
  split; [|split; [|split]]; intros H; cbv zeta.
  - rewrite PadTo4Bytes_u16_eq by lia. zlia.
  - rewrite PadTo4Bytes_u16_eq by lia. zlia.
  - rewrite PadTo4Bytes_u32_eq by lia. zlia.
  - rewrite PadTo4Bytes_u32_eq by lia. zlia.
Qed.

Lemma pad_to_4_least_witness :
  PadTo4Bytes_u16 9 mod 4 = 0 /\ PadTo4Bytes_u16 65533 = 0.
Proof.
  split; [apply (pad_to_4_least 9); lia | apply (pad_to_4_least 65533); lia].
Defined.

End ByteStream.
