(* ===== verification/ByteCrypto.v ===== *)
(** [utils/byte_crypto.cpp]: the CRC-32 of STUN fingerprints (both overloads of
    [GetCrc32] and their table) and the HMAC-SHA1 wrapper.  OpenSSL is the interface
    [EvpMac]; the random number functions are not modelled. *)
From S2P Require Import Prelude.

(** OpenSSL's HMAC with the SHA1 digest: the digest of the data under the key, or
    nothing when one of the [EVP_MAC] calls fails. *)
Class EvpMac := evp_hmac_sha1 : list Z -> list Z -> option (list Z).

(** What its documentation promises: a digest of 20 bytes, for every key and message. *)
Class EvpMacLaws `{EvpMac} : Prop :=
  evp_digest key data : exists h, evp_hmac_sha1 key data = Some h /\ length h = 20%nat /\ bytes h.

Module ByteCrypto.

Definition crc32_table : list Z :=
  [0x00000000; 0x77073096; 0xee0e612c; 0x990951ba; 0x076dc419; 0x706af48f; 0xe963a535; 0x9e6495a3;
   0x0edb8832; 0x79dcb8a4; 0xe0d5e91e; 0x97d2d988; 0x09b64c2b; 0x7eb17cbd; 0xe7b82d07; 0x90bf1d91;
   0x1db71064; 0x6ab020f2; 0xf3b97148; 0x84be41de; 0x1adad47d; 0x6ddde4eb; 0xf4d4b551; 0x83d385c7;
   0x136c9856; 0x646ba8c0; 0xfd62f97a; 0x8a65c9ec; 0x14015c4f; 0x63066cd9; 0xfa0f3d63; 0x8d080df5;
   0x3b6e20c8; 0x4c69105e; 0xd56041e4; 0xa2677172; 0x3c03e4d1; 0x4b04d447; 0xd20d85fd; 0xa50ab56b;
   0x35b5a8fa; 0x42b2986c; 0xdbbbc9d6; 0xacbcf940; 0x32d86ce3; 0x45df5c75; 0xdcd60dcf; 0xabd13d59;
   0x26d930ac; 0x51de003a; 0xc8d75180; 0xbfd06116; 0x21b4f4b5; 0x56b3c423; 0xcfba9599; 0xb8bda50f;
   0x2802b89e; 0x5f058808; 0xc60cd9b2; 0xb10be924; 0x2f6f7c87; 0x58684c11; 0xc1611dab; 0xb6662d3d;
   0x76dc4190; 0x01db7106; 0x98d220bc; 0xefd5102a; 0x71b18589; 0x06b6b51f; 0x9fbfe4a5; 0xe8b8d433;
   0x7807c9a2; 0x0f00f934; 0x9609a88e; 0xe10e9818; 0x7f6a0dbb; 0x086d3d2d; 0x91646c97; 0xe6635c01;
   0x6b6b51f4; 0x1c6c6162; 0x856530d8; 0xf262004e; 0x6c0695ed; 0x1b01a57b; 0x8208f4c1; 0xf50fc457;
   0x65b0d9c6; 0x12b7e950; 0x8bbeb8ea; 0xfcb9887c; 0x62dd1ddf; 0x15da2d49; 0x8cd37cf3; 0xfbd44c65;
   0x4db26158; 0x3ab551ce; 0xa3bc0074; 0xd4bb30e2; 0x4adfa541; 0x3dd895d7; 0xa4d1c46d; 0xd3d6f4fb;
   0x4369e96a; 0x346ed9fc; 0xad678846; 0xda60b8d0; 0x44042d73; 0x33031de5; 0xaa0a4c5f; 0xdd0d7cc9;
   0x5005713c; 0x270241aa; 0xbe0b1010; 0xc90c2086; 0x5768b525; 0x206f85b3; 0xb966d409; 0xce61e49f;
   0x5edef90e; 0x29d9c998; 0xb0d09822; 0xc7d7a8b4; 0x59b33d17; 0x2eb40d81; 0xb7bd5c3b; 0xc0ba6cad;
   0xedb88320; 0x9abfb3b6; 0x03b6e20c; 0x74b1d29a; 0xead54739; 0x9dd277af; 0x04db2615; 0x73dc1683;
   0xe3630b12; 0x94643b84; 0x0d6d6a3e; 0x7a6a5aa8; 0xe40ecf0b; 0x9309ff9d; 0x0a00ae27; 0x7d079eb1;
   0xf00f9344; 0x8708a3d2; 0x1e01f268; 0x6906c2fe; 0xf762575d; 0x806567cb; 0x196c3671; 0x6e6b06e7;
   0xfed41b76; 0x89d32be0; 0x10da7a5a; 0x67dd4acc; 0xf9b9df6f; 0x8ebeeff9; 0x17b7be43; 0x60b08ed5;
   0xd6d6a3e8; 0xa1d1937e; 0x38d8c2c4; 0x4fdff252; 0xd1bb67f1; 0xa6bc5767; 0x3fb506dd; 0x48b2364b;
   0xd80d2bda; 0xaf0a1b4c; 0x36034af6; 0x41047a60; 0xdf60efc3; 0xa867df55; 0x316e8eef; 0x4669be79;
   0xcb61b38c; 0xbc66831a; 0x256fd2a0; 0x5268e236; 0xcc0c7795; 0xbb0b4703; 0x220216b9; 0x5505262f;
   0xc5ba3bbe; 0xb2bd0b28; 0x2bb45a92; 0x5cb36a04; 0xc2d7ffa7; 0xb5d0cf31; 0x2cd99e8b; 0x5bdeae1d;
   0x9b64c2b0; 0xec63f226; 0x756aa39c; 0x026d930a; 0x9c0906a9; 0xeb0e363f; 0x72076785; 0x05005713;
   0x95bf4a82; 0xe2b87a14; 0x7bb12bae; 0x0cb61b38; 0x92d28e9b; 0xe5d5be0d; 0x7cdcefb7; 0x0bdbdf21;
   0x86d3d2d4; 0xf1d4e242; 0x68ddb3f8; 0x1fda836e; 0x81be16cd; 0xf6b9265b; 0x6fb077e1; 0x18b74777;
   0x88085ae6; 0xff0f6a70; 0x66063bca; 0x11010b5c; 0x8f659eff; 0xf862ae69; 0x616bffd3; 0x166ccf45;
   0xa00ae278; 0xd70dd2ee; 0x4e048354; 0x3903b3c2; 0xa7672661; 0xd06016f7; 0x4969474d; 0x3e6e77db;
   0xaed16a4a; 0xd9d65adc; 0x40df0b66; 0x37d83bf0; 0xa9bcae53; 0xdebb9ec5; 0x47b2cf7f; 0x30b5ffe9;
   0xbdbdf21c; 0xcabac28a; 0x53b39330; 0x24b4a3a6; 0xbad03605; 0xcdd70693; 0x54de5729; 0x23d967bf;
   0xb3667a2e; 0xc4614ab8; 0x5d681b02; 0x2a6f2b94; 0xb40bbe37; 0xc30c8ea1; 0x5a05df1b; 0x2d02ef8d].

(** [while (size--)]: one byte of [data] from [p] on at a time. *)
Fixpoint crc_loop (crc : Z) (data : buf) (p size : nat) : res Z :=
  match size with
  | O => Ok crc
  | S size' =>
      let! b := rd8 data p in
      crc_loop (Z.lxor (crc32_table !!! Z.to_nat (Z.land (Z.lxor crc b) 0xFF)) (Z.shiftr crc 8)) data (S p) size'
  end.
Definition GetCrc32 (data : buf) (size : nat) : res Z :=
  let! crc := crc_loop 0xFFFFFFFF data 0 size in
  Ok (Z.lxor crc 0xFFFFFFFF).

(** The overload that carries a running value and does not invert it. *)
Fixpoint crc_loop_from (crc : Z) (data : buf) (p size : nat) : res Z :=
  match size with
  | O => Ok crc
  | S size' =>
      let! b := rd8 data p in
      crc_loop_from (Z.lxor (crc32_table !!! Z.to_nat (Z.lxor (u8 crc) b)) (Z.shiftr crc 8)) data (S p) size'
  end.
Definition GetCrc32_from (crc : Z) (data : buf) (size : nat) : res Z := crc_loop_from crc data 0 size.

(** [hmac_sha1_ctx] is non-null after [Init]; the digest is left in [hmac_sha1_buffer]. *)
Definition GetHmacSha1 `{EvpMac} (hmac_sha1_ctx : bool) (key : list Z) (data : buf) (len : nat) : res (list Z) :=
  if negb hmac_sha1_ctx then Throw "HMAC context not initialized" else
  let! d := rd_bytes data 0 len in
  match evp_hmac_sha1 key d with
  | None => Throw "OpenSSL EVP_MAC_final error"
  | Some h => if (length h =? 20)%nat then Ok h else Throw "OpenSSL EVP_MAC_final returned wrong length"
  end.

(** * Specification: division of polynomials over GF(2), least significant bit first *)

Definition polynomial : Z := 0xEDB88320.
Definition crc_bit (c : Z) : Z :=
  if Z.odd c then Z.lxor (Z.shiftr c 1) polynomial else Z.shiftr c 1.
Definition crc_byte (c b : Z) : Z := Nat.iter 8 crc_bit (Z.lxor c b).
Definition crc_remainder (c : Z) (l : list Z) : Z := foldl crc_byte c l.
Definition crc32 (l : list Z) : Z := Z.lxor (crc_remainder 0xFFFFFFFF l) 0xFFFFFFFF.

(** * Lemmas *)

Definition word (c : Z) : Prop := 0 <= c < 2 ^ 32.

Lemma lxor_range n a b : 0 <= n -> 0 <= a < 2 ^ n -> 0 <= b < 2 ^ n -> 0 <= Z.lxor a b < 2 ^ n.
Proof.
  intros Hn Ha Hb. assert (H : Z.lxor a b = Z.lxor a b mod 2 ^ n).
  { apply Z.bits_inj'. intros i Hi. destruct (decide (i < n)).
    - by rewrite Z.mod_pow2_bits_low by lia.
    - rewrite Z.mod_pow2_bits_high, Z.lxor_spec by lia.
      rewrite <- (Z.mod_small a (2 ^ n)), <- (Z.mod_small b (2 ^ n)) by lia.
      by rewrite !Z.mod_pow2_bits_high by lia. }
  rewrite H. apply Z.mod_pos_bound. lia.
Qed.

Lemma crc_bit_lxor a b : crc_bit (Z.lxor a b) = Z.lxor (crc_bit a) (crc_bit b).
Proof.
  unfold crc_bit. rewrite <- !Z.bit0_odd, Z.lxor_spec, !Z.shiftr_lxor.
  destruct (Z.testbit a 0), (Z.testbit b 0); cbn [xorb]; apply Z.bits_inj'; intros i _;
    rewrite !Z.lxor_spec; by repeat destruct (Z.testbit _ _).
Qed.
Lemma crc_iter_lxor n a b :
  Nat.iter n crc_bit (Z.lxor a b) = Z.lxor (Nat.iter n crc_bit a) (Nat.iter n crc_bit b).
Proof. induction n as [|n IH]; [done|]. by rewrite !Nat.iter_succ, IH, crc_bit_lxor. Qed.

Lemma crc_bit_range c : word c -> word (crc_bit c).
Proof.
  unfold word, crc_bit. intros Hc.
  assert (Hs : 0 <= Z.shiftr c 1 < 2 ^ 32) by (rewrite Z.shiftr_div_pow2 by lia; change (2 ^ 1) with 2; zlia).
  destruct (Z.odd c); [|done]. apply lxor_range; [lia|done|by vm_compute].
Qed.

(** A bit that comes out in front of the high bits passes them on unchanged. *)
Lemma crc_iter_shiftl n h : 0 <= h -> Nat.iter n crc_bit (Z.shiftl h (Z.of_nat n)) = h.
Proof.
  intros Hh. induction n as [|n IH]; [by rewrite Z.shiftl_0_r|].
  rewrite Nat.iter_succ_r. replace (crc_bit (Z.shiftl h (Z.of_nat (S n)))) with (Z.shiftl h (Z.of_nat n)); [done|].
  unfold crc_bit. rewrite <- Z.bit0_odd, Z.shiftl_spec_low by lia.
  rewrite Z.shiftr_shiftl_l by lia. f_equal. lia.
Qed.

Lemma table_ok i : 0 <= i < 256 -> crc32_table !!! Z.to_nat i = Nat.iter 8 crc_bit i.
Proof.
  intros Hi. assert (H : forallb (fun k => crc32_table !!! k =? Nat.iter 8 crc_bit (Z.of_nat k)) (seq 0 256) = true)
    by (vm_compute; reflexivity).
  rewrite forallb_forall in H. specialize (H (Z.to_nat i)). rewrite Z2Nat.id in H by lia.
  apply Z.eqb_eq, H, in_seq. lia.
Qed.

Lemma land_split c : 0 <= c -> c = Z.lxor (Z.land c 255) (Z.shiftl (Z.shiftr c 8) 8).
Proof.
  intros Hc. apply Z.bits_inj'. intros i Hi. rewrite Z.lxor_spec.
  change 255 with (Z.ones 8). rewrite Z.land_ones by lia. destruct (decide (i < 8)).
  - by rewrite Z.mod_pow2_bits_low, Z.shiftl_spec_low, xorb_false_r by lia.
  - rewrite Z.mod_pow2_bits_high, Z.shiftl_spec, Z.shiftr_spec by lia. cbn [xorb]. f_equal. lia.
Qed.

(** One step of the table-driven loop is eight steps of the division. *)
Lemma table_step c b :
  word c -> byte b ->
  Z.lxor (crc32_table !!! Z.to_nat (Z.land (Z.lxor c b) 0xFF)) (Z.shiftr c 8) = crc_byte c b.
Proof.
  intros Hc Hb. assert (Hw : 0 <= Z.lxor c b) by (apply Z.lxor_nonneg; destruct Hc, Hb; lia).
  unfold crc_byte. rewrite (land_split (Z.lxor c b)) at 2 by done.
  rewrite crc_iter_lxor, table_ok
    by (change 255 with (Z.ones 8); rewrite Z.land_ones by lia; apply Z.mod_pos_bound; lia).
  f_equal. rewrite (crc_iter_shiftl 8) by (apply Z.shiftr_nonneg; lia). rewrite Z.shiftr_lxor.
  replace (Z.shiftr b 8) with 0; [by rewrite Z.lxor_0_r|].
  symmetry. rewrite Z.shiftr_div_pow2 by lia. apply Z.div_small. exact Hb.
Qed.

Lemma byte_word b : byte b -> word b.
Proof. unfold byte, word. lia. Qed.
Lemma crc_iter_range n c : word c -> word (Nat.iter n crc_bit c).
Proof. intros Hc. induction n as [|n IH]; [done|]. rewrite Nat.iter_succ. by apply crc_bit_range. Qed.
Lemma crc_byte_range c b : word c -> byte b -> word (crc_byte c b).
Proof. intros Hc Hb%byte_word. apply crc_iter_range, lxor_range; (done || lia). Qed.
Lemma crc_remainder_range c l : word c -> bytes l -> word (crc_remainder c l).
Proof.
  intros Hc Hl. revert c Hc. induction Hl as [|b l Hb Hl IH]; intros c Hc; [done|].
  by apply IH, crc_byte_range.
Qed.

Lemma crc_loop_ok c data p size :
  word c -> bytes data -> (p + size <= length data)%nat ->
  crc_loop c data p size = Ok (crc_remainder c (slice p size data)).
Proof.
  revert c p. induction size as [|n IH]; intros c p Hc Hd Hle; [done|]. cbn [crc_loop].
  rewrite rd8_cell by lia. cbn [rbind]. assert (Hb : byte (cell data p)) by (apply cell_byte; [done|lia]).
  rewrite table_step by done. rewrite IH by (done || lia || by apply crc_byte_range).
  by rewrite slice_cons by lia.
Qed.

Lemma GetCrc32_ok data size :
  bytes data -> (size <= length data)%nat -> GetCrc32 data size = Ok (crc32 (slice 0 size data)).
Proof. intros Hd Hs. unfold GetCrc32. by rewrite crc_loop_ok by (done || lia). Qed.

Lemma crc_loop_from_eq c data p size :
  word c -> bytes data -> crc_loop_from c data p size = crc_loop c data p size.
Proof.
  revert c p. induction size as [|n IH]; intros c p Hc Hd; [done|]. cbn [crc_loop crc_loop_from].
  apply rbind_ext. intros b Hb%rd8_byte; [|done].
  replace (Z.lxor (u8 c) b) with (Z.land (Z.lxor c b) 0xFF).
  - rewrite table_step by done. by apply IH, Hd; apply crc_byte_range.
  - change 255 with (Z.ones 8). unfold u8. change 256 with (2 ^ 8).
    rewrite <- (Z.mod_small b (2 ^ 8)) at 2 by exact Hb.
    rewrite <- !Z.land_ones by lia. apply Z.bits_inj'. intros i _.
    rewrite !Z.lxor_spec, !Z.land_spec, Z.lxor_spec. by destruct (Z.testbit c i), (Z.testbit b i), (Z.testbit _ i).
Qed.

(** A step never merges two states: the polynomial's top bit shows which one it was. *)
Lemma crc_bit_inj a b : word a -> word b -> crc_bit a = crc_bit b -> a = b.
Proof.
  intros Ha Hb Heq.
  assert (Htop : forall c, word c -> Z.testbit (crc_bit c) 31 = Z.odd c).
  { intros c Hc. unfold crc_bit.
    assert (Hs : Z.testbit (Z.shiftr c 1) 31 = false).
    { rewrite Z.shiftr_spec by lia. rewrite <- (Z.mod_small c (2 ^ 32)) by exact Hc.
      by apply Z.mod_pow2_bits_high. }
    destruct (Z.odd c); [|done]. by rewrite Z.lxor_spec, Hs. }
  assert (Hodd : Z.odd a = Z.odd b) by (by rewrite <- !Htop, Heq).
  assert (Hsh : Z.shiftr a 1 = Z.shiftr b 1).
  { unfold crc_bit in Heq. rewrite Hodd in Heq. destruct (Z.odd b); [|done].
    apply (f_equal (fun x => Z.lxor x polynomial)) in Heq. by rewrite !Z.lxor_assoc, !Z.lxor_nilpotent, !Z.lxor_0_r in Heq. }
  rewrite !Z.shiftr_div_pow2 in Hsh by lia. change (2 ^ 1) with 2 in Hsh.
  rewrite (Zdiv2_odd_eqn a), (Zdiv2_odd_eqn b), !Zdiv2_div, Hsh, Hodd. done.
Qed.
Lemma crc_iter_inj n a b : word a -> word b -> Nat.iter n crc_bit a = Nat.iter n crc_bit b -> a = b.
Proof.
  intros Ha Hb. induction n as [|n IH]; [done|]. rewrite !Nat.iter_succ. intros H.
  apply IH. by apply crc_bit_inj; [apply crc_iter_range..|].
Qed.
Lemma lxor_inj_r a b c : Z.lxor a c = Z.lxor b c -> a = b.
Proof.
  intros H. apply (f_equal (fun x => Z.lxor x c)) in H. by rewrite !Z.lxor_assoc, !Z.lxor_nilpotent, !Z.lxor_0_r in H.
Qed.
Lemma crc_remainder_inj a b l : word a -> word b -> bytes l -> crc_remainder a l = crc_remainder b l -> a = b.
Proof.
  intros Ha Hb Hl. revert a b Ha Hb. induction Hl as [|x l Hx Hl IH]; intros a b Ha Hb H; [done|].
  apply IH in H; [|by apply crc_byte_range..].
  apply (lxor_inj_r a b x). eapply crc_iter_inj; [..|exact H]; apply lxor_range; (lia || done || by apply byte_word).
Qed.

(** * Properties *)

(** both checksums are the CRC-32 of ISO 3309 (the reflected polynomial 0xEDB88320),
    computed from the definition bit by bit: the table of 256 words and the byte-wise
    loop change nothing.  The first overload starts from all ones and inverts the result;
    the second continues from the value it is given, so a message can be summed in
    pieces.  Changing a single byte of a message always changes its checksum. *)
Theorem GetCrc32_spec (data : buf) (size : nat) :
  bytes data -> (size <= length data)%nat ->
  GetCrc32 data size = Ok (crc32 (slice 0 size data)) /\
  (forall c, word c -> GetCrc32_from c data size = Ok (crc_remainder c (slice 0 size data))) /\
  (forall p v, (p < size)%nat -> byte v -> GetCrc32 (<[p := v]> data) size = GetCrc32 data size -> v = cell data p).
Proof.
  intros Hd Hs. split; [by apply GetCrc32_ok|]. split.
  { intros c Hc. unfold GetCrc32_from. by rewrite crc_loop_from_eq, crc_loop_ok by (done || lia). }
  intros p v Hp Hv. rewrite !GetCrc32_ok by (rewrite ?length_insert; done || by apply bytes_insert).
  intros [= H]. unfold crc32 in H. apply lxor_inj_r in H.
  assert (Hsplit : forall d, (size <= length d)%nat ->
    slice 0 size d = slice 0 p d ++ cell d p :: slice (S p) (size - S p) d).
  { intros d Hl. rewrite <- slice_cons by lia. replace size with (p + S (size - S p))%nat at 1 by lia. apply slice_app. }
  rewrite (Hsplit (<[p:=v]> data)), (Hsplit data) in H by (rewrite ?length_insert; lia).
  rewrite cell_insert_eq, !slice_insert_disj in H by lia.
  unfold crc_remainder in H. rewrite !foldl_app in H. cbn [foldl] in H.
  fold (crc_remainder 4294967295 (slice 0 p data)) in H. set (c := crc_remainder _ _) in H.
  assert (Hc : word c) by (apply crc_remainder_range; [by vm_compute|by apply bytes_slice]).
  assert (Hx : byte (cell data p)) by (apply cell_byte; [done|lia]).
  apply (crc_remainder_inj (crc_byte c v) (crc_byte c (cell data p))) in H;
    [|by apply crc_byte_range|by apply crc_byte_range|by apply bytes_slice].
  apply crc_iter_inj in H; [|apply lxor_range; (lia || done || by apply byte_word)..].
  rewrite !(Z.lxor_comm c) in H. by apply lxor_inj_r in H.
Qed.

(** The check value of the CRC catalogue: the digits 1 to 9. *)
Lemma GetCrc32_spec_witness :
  GetCrc32 [49; 50; 51; 52; 53; 54; 55; 56; 57] 9 = Ok 0xCBF43926 /\
  crc32 [49; 50; 51; 52; 53; 54; 55; 56; 57] = 0xCBF43926.
Proof.
  pose proof (proj1 (GetCrc32_spec [49; 50; 51; 52; 53; 54; 55; 56; 57] 9 ltac:(bytes_done) ltac:(cbn; lia))) as H.
  split; [rewrite H|]; vm_compute; reflexivity.
Defined.

End ByteCrypto.
