(* ===== verification/IpAddress.v ===== *)
(** [utils/ipaddress.hpp]: socket addresses to text and back, and the test for dotted
    IPv4 text.  The resolver functions of [arpa/inet.h] are the interface [Inet];
    strings are lists of bytes. *)
From S2P Require Import Prelude ByteStream.

(** [inet_ntop] and [inet_pton] for [AF_INET]: four bytes in network order, and text. *)
Class Inet := {
  inet_ntop : list Z -> option (list Z);
  inet_pton : list Z -> option (list Z)
}.

(** Every address has a text that is read back as the address; what is read is an address. *)
Class InetLaws `{Inet} : Prop := {
  pton_ntop a : bytes a -> length a = 4%nat -> exists s, inet_ntop a = Some s /\ inet_pton s = Some a;
  pton_address s a : inet_pton s = Some a -> bytes a /\ length a = 4%nat
}.

Module IpAddress.

Definition AF_INET : Z := 2.
Definition AF_INET6 : Z := 10.

(** A [sockaddr_in] in the 16 bytes of a [sockaddr]; the port and the address are the
    host's loads of the fields as they stand. *)
Record sockaddr := mk_sockaddr { sin_family : Z; sin_port : Z; s_addr : Z }.

Section Inet.
Context `{Inet}.

Definition IpStringToUint32 (ipv4_str : list Z) : Z :=
  match inet_pton ipv4_str with
  | Some a => ByteStream.ntohl (le_val a)
  | None => 0
  end.

(** The text and the port left in [port].  An IPv6 address of the family field would be
    read at bytes 8 to 24 of the 16. *)
Definition GetIpStr (sa : option sockaddr) (port : Z) : res (list Z * Z) :=
  match sa with
  | None => Ok ([], port)
  | Some sa =>
      if sin_family sa =? AF_INET then
        match inet_ntop (le_bytes 4 (s_addr sa)) with
        | None => Ok ([], port)
        | Some s => Ok (s, sin_port sa)
        end
      else if sin_family sa =? AF_INET6 then Undef OobRead
      else Ok ([], port)
  end.

(** [addr] is the caller's uninitialised object; a failed conversion leaves its address. *)
Definition GetIpv4Sockaddr (ip : list Z) (port : Z) (addr : sockaddr) : sockaddr :=
  mk_sockaddr AF_INET port
    match inet_pton ip with Some a => le_val a | None => s_addr addr end.

(** An IPv4 socket address survives the trip through its text. *)
Lemma ip_text_roundtrip `{!InetLaws} sa port :
  sin_family sa = AF_INET -> 0 <= s_addr sa < 2 ^ 32 ->
  exists s, GetIpStr (Some sa) port = Ok (s, sin_port sa) /\ IpStringToUint32 s = ByteStream.ntohl (s_addr sa).
Proof.
  intros Hf Ha. unfold GetIpStr, IpStringToUint32. rewrite Hf. cbn [Z.eqb AF_INET].
  destruct (pton_ntop (le_bytes 4 (s_addr sa)) (bytes_le_bytes _ _) (length_le_bytes _ _)) as (s & -> & Hs).
  exists s. split; [done|]. rewrite Hs, le_val_le_bytes. f_equal. by apply Z.mod_small.
Qed.

Lemma GetIpv4Sockaddr_ok `{!InetLaws} ip a port addr :
  inet_pton ip = Some a -> 0 <= le_val a < 2 ^ 32 /\ GetIpv4Sockaddr ip port addr = mk_sockaddr AF_INET port (le_val a).
Proof.
  intros Hp. destruct (pton_address ip a Hp) as [Hb Hl]. unfold GetIpv4Sockaddr. rewrite Hp. split; [|done].
  pose proof (le_val_range a Hb) as Hr. rewrite Hl in Hr. exact Hr.
Qed.

End Inet.
End IpAddress.
