(* ===== verification/Stun.v ===== *)
(** [net/stun/stun.cpp] and [.hpp]: STUN messages (RFC 5389).  [Parse] is the loop over the
    attributes of a datagram, [Serialize] builds a message in the packet's own 8192
    bytes, [CheckAuthentication] recomputes the MESSAGE-INTEGRITY over the datagram.
    [Dump] only formats text. *)
From S2P Require Import Prelude ByteStream ByteCrypto IpAddress.

Module Stun.

Definition STUN_HEADER_SIZE : nat := 20.
Definition magic_cookie : list Z := [0x21; 0x12; 0xA4; 0x42].

Definition STUN_REQUEST : Z := 0.
Definition STUN_INDICATION : Z := 1.
Definition STUN_SUCCESS_RESPONSE : Z := 2.
Definition STUN_ERROR_RESPONSE : Z := 3.
Definition BINDING : Z := 1.

Definition STUN_USERNAME : Z := 0x0006.
Definition STUN_MESSAGE_INTEGRITY : Z := 0x0008.
Definition STUN_ERROR_CODE : Z := 0x0009.
Definition STUN_XOR_MAPPED_ADDRESS : Z := 0x0020.
Definition STUN_PRIORITY : Z := 0x0024.
Definition STUN_USE_CANDIDATE : Z := 0x0025.
Definition STUN_FINGERPRINT : Z := 0x8028.
Definition STUN_ICE_CONTROLLED : Z := 0x8029.
Definition STUN_ICE_CONTROLLING : Z := 0x802A.

Inductive STUN_AUTHENTICATION := OK | UNAUTHORIZED | BAD_REQUEST.

(** [StunPacket].  [transaction_id_] is the 12 bytes the pointer leads to (they belong to
    the request for a response made from it); [message_integrity_] is the position of the
    digest in [data_], if not null. *)
Record t := mk {
  data_ : buf; data_len_ : nat;
  stun_class_ : Z; stun_method_ : Z;
  transaction_id_ : option (list Z); message_integrity_ : option nat;
  username_ : list Z; password_ : list Z;
  fingerprint_ : Z; priority_ : Z; ice_controlling_ : Z; ice_controlled_ : Z; error_code_ : Z;
  xor_address_ : option IpAddress.sockaddr;
  has_use_candidate_ : bool; add_msg_integrity_ : bool; has_fingerprint_ : bool
}.

(** The constructors; the class and the method of a fresh packet are indeterminate. *)
Definition new_StunPacket_over (data : buf) (len : nat) (cls meth : Z) : t :=
  mk data len cls meth None None [] [] 0 0 0 0 0 None false false false.
Definition new_StunPacket (cls meth : Z) : t :=
  mk (replicate (Z.to_nat 8192) 0) 0 cls meth None None [] [] 0 0 0 0 0 None false false false.

Definition with_data (k : t) (d : buf) (n : nat) : t :=
  mk d n (stun_class_ k) (stun_method_ k) (transaction_id_ k) (message_integrity_ k) (username_ k) (password_ k)
     (fingerprint_ k) (priority_ k) (ice_controlling_ k) (ice_controlled_ k) (error_code_ k) (xor_address_ k)
     (has_use_candidate_ k) (add_msg_integrity_ k) (has_fingerprint_ k).
Definition with_header (k : t) (cls meth : Z) (tid : option (list Z)) : t :=
  mk (data_ k) (data_len_ k) cls meth tid (message_integrity_ k) (username_ k) (password_ k)
     (fingerprint_ k) (priority_ k) (ice_controlling_ k) (ice_controlled_ k) (error_code_ k) (xor_address_ k)
     (has_use_candidate_ k) (add_msg_integrity_ k) (has_fingerprint_ k).
Definition with_integrity (k : t) (mi : option nat) : t :=
  mk (data_ k) (data_len_ k) (stun_class_ k) (stun_method_ k) (transaction_id_ k) mi (username_ k) (password_ k)
     (fingerprint_ k) (priority_ k) (ice_controlling_ k) (ice_controlled_ k) (error_code_ k) (xor_address_ k)
     (has_use_candidate_ k) (add_msg_integrity_ k) (has_fingerprint_ k).
Definition with_username (k : t) (u : list Z) : t :=
  mk (data_ k) (data_len_ k) (stun_class_ k) (stun_method_ k) (transaction_id_ k) (message_integrity_ k) u (password_ k)
     (fingerprint_ k) (priority_ k) (ice_controlling_ k) (ice_controlled_ k) (error_code_ k) (xor_address_ k)
     (has_use_candidate_ k) (add_msg_integrity_ k) (has_fingerprint_ k).
Definition with_password (k : t) (p : list Z) : t :=
  mk (data_ k) (data_len_ k) (stun_class_ k) (stun_method_ k) (transaction_id_ k) (message_integrity_ k) (username_ k) p
     (fingerprint_ k) (priority_ k) (ice_controlling_ k) (ice_controlled_ k) (error_code_ k) (xor_address_ k)
     (has_use_candidate_ k) (add_msg_integrity_ k) (has_fingerprint_ k).
Definition with_numbers (k : t) (fp prio ing ed err : Z) : t :=
  mk (data_ k) (data_len_ k) (stun_class_ k) (stun_method_ k) (transaction_id_ k) (message_integrity_ k) (username_ k)
     (password_ k) fp prio ing ed err (xor_address_ k)
     (has_use_candidate_ k) (add_msg_integrity_ k) (has_fingerprint_ k).
Definition with_address (k : t) (a : option IpAddress.sockaddr) : t :=
  mk (data_ k) (data_len_ k) (stun_class_ k) (stun_method_ k) (transaction_id_ k) (message_integrity_ k) (username_ k)
     (password_ k) (fingerprint_ k) (priority_ k) (ice_controlling_ k) (ice_controlled_ k) (error_code_ k) a
     (has_use_candidate_ k) (add_msg_integrity_ k) (has_fingerprint_ k).
Definition with_flags (k : t) (use add fp : bool) : t :=
  mk (data_ k) (data_len_ k) (stun_class_ k) (stun_method_ k) (transaction_id_ k) (message_integrity_ k) (username_ k)
     (password_ k) (fingerprint_ k) (priority_ k) (ice_controlling_ k) (ice_controlled_ k) (error_code_ k) (xor_address_ k)
     use add fp.

(** * [IsStun] and the two tests on top of it: [&&] stops at the first false test *)

Definition band (x : res bool) (y : res bool) : res bool := let! b := x in if b then y else Ok false.
Definition byte_is (data : buf) (i : nat) (v : Z) : res bool := let! b := rd8 data i in Ok (b =? v).

Definition IsStun (data : buf) (len : nat) : res bool :=
  if (len <? STUN_HEADER_SIZE)%nat then Ok false else
  band (let! b := rd8 data 0 in Ok (b <? 3))
  (band (byte_is data 4 (magic_cookie !!! 0%nat)) (band (byte_is data 5 (magic_cookie !!! 1%nat))
  (band (byte_is data 6 (magic_cookie !!! 2%nat)) (byte_is data 7 (magic_cookie !!! 3%nat))))).
Definition IsBindingRequest (data : buf) (len : nat) : res bool :=
  band (IsStun data len) (band (Ok (1 <? len)%nat) (band (byte_is data 0 0x00) (byte_is data 1 0x01))).
Definition IsBindingResponse (data : buf) (len : nat) : res bool :=
  band (IsStun data len) (band (Ok (1 <? len)%nat) (band (byte_is data 0 0x01) (byte_is data 1 0x01))).

(** * [Parse] *)

(** The locals of the loop. *)
Record scan := mk_scan {
  s_p : nat; s_pkt : t; s_fp : bool; s_mi : bool; s_fp_pos : nat
}.

(** STUN_XOR_MAPPED_ADDRESS: [ip_data] is the local copy that is unmasked. *)
Definition parse_xor_address (data : buf) (attr_data : nat) : res IpAddress.sockaddr :=
  let! ip_data := rd_bytes data attr_data 8 in
  let! net_family := ByteStream.Read2Bytes ip_data 0 in
  let unmask i k (d : buf) := <[i := Z.lxor (d !!! i) (magic_cookie !!! k)]> d in
  let ip_data := unmask 3%nat 1%nat (unmask 2%nat 0%nat ip_data) in
  let! port := ByteStream.Read2Bytes ip_data 2 in
  let ip_data := unmask 7%nat 3%nat (unmask 6%nat 2%nat (unmask 5%nat 1%nat (unmask 4%nat 0%nat ip_data))) in
  let! addr := ByteStream.Read4Bytes ip_data 4 in
  Ok (IpAddress.mk_sockaddr (if net_family =? 1 then IpAddress.AF_INET else IpAddress.AF_INET6)
        (ByteStream.ntohs port) (ByteStream.ntohl addr)).

(** The [switch] over the attribute type. *)
Definition parse_attribute (data : buf) (attr_type attr_len : Z) (attr_data : nat) (s : scan) : res scan :=
  let k := s_pkt s in
  let pkt k' := Ok (mk_scan (s_p s) k' (s_fp s) (s_mi s) (s_fp_pos s)) in
  if attr_type =? STUN_USERNAME then
    let! u := rd_bytes data attr_data (Z.to_nat attr_len) in pkt (with_username k u)
  else if attr_type =? STUN_PRIORITY then
    if negb (attr_len =? 4) then Throw "stun attribute priority len is not 4" else
    let! v := ByteStream.Read4Bytes data attr_data in
    pkt (with_numbers k (fingerprint_ k) v (ice_controlling_ k) (ice_controlled_ k) (error_code_ k))
  else if attr_type =? STUN_ICE_CONTROLLING then
    if negb (attr_len =? 8) then Throw "stun attribute icecontrolling len is not 8" else
    let! v := ByteStream.Read8Bytes data attr_data in
    pkt (with_numbers k (fingerprint_ k) (priority_ k) v (ice_controlled_ k) (error_code_ k))
  else if attr_type =? STUN_ICE_CONTROLLED then
    if negb (attr_len =? 8) then Throw "stun attribute icecontrolled len is not 8" else
    let! v := ByteStream.Read8Bytes data attr_data in
    pkt (with_numbers k (fingerprint_ k) (priority_ k) (ice_controlling_ k) v (error_code_ k))
  else if attr_type =? STUN_USE_CANDIDATE then
    if negb (attr_len =? 0) then Throw "stun attribute use candidate len is not 0" else
    pkt (with_flags k true (add_msg_integrity_ k) (has_fingerprint_ k))
  else if attr_type =? STUN_MESSAGE_INTEGRITY then
    if negb (attr_len =? 20) then Throw "stun attribute message integrity len is not 20" else
    Ok (mk_scan (s_p s) (with_integrity k (Some attr_data)) (s_fp s) true (s_fp_pos s))
  else if attr_type =? STUN_FINGERPRINT then
    if negb (attr_len =? 4) then Throw "stun attribute fingerprint len is not 4" else
    let! v := ByteStream.Read4Bytes data attr_data in
    Ok (mk_scan (s_p s) (with_numbers k v (priority_ k) (ice_controlling_ k) (ice_controlled_ k) (error_code_ k))
          true (s_mi s) (attr_data - 4))
  else if attr_type =? STUN_ERROR_CODE then
    if negb (attr_len =? 4) then Throw "stun attribute error code len is not 4" else
    let! error_class := rd8 data (attr_data + 2) in
    let! error_number := rd8 data (attr_data + 3) in
    pkt (with_numbers k (fingerprint_ k) (priority_ k) (ice_controlling_ k) (ice_controlled_ k)
           (u16 (error_class * 100 + error_number)))
  else if attr_type =? STUN_XOR_MAPPED_ADDRESS then
    if negb (attr_len =? 8) then Throw "stun attribute xor mapped address len is not 8" else
    let! a := parse_xor_address data attr_data in pkt (with_address k (Some a))
  else Ok s.

(** [while ((p + 4) < (data + len))] *)
Fixpoint parse_loop (fuel : nat) (data : buf) (len : nat) (s : scan) : res scan :=
  match fuel with
  | O => Undef OutOfFuel
  | S fuel' =>
      if (s_p s + 4 <? len)%nat then
        let! attr_type := ByteStream.Read2Bytes data (s_p s) in
        let! attr_len := ByteStream.Read2Bytes data (s_p s + 2) in
        let p := (s_p s + 4)%nat in
        if (len <? p + Z.to_nat attr_len)%nat then Throw "stun packet attribute length is too long" else
        if s_fp s then Throw "stun packet attribute fingerprint must be the last one" else
        if s_mi s && negb (attr_type =? STUN_FINGERPRINT) then
          Throw "fingerprint is only allowed after message integrity attribute." else
        let skip_len := Z.to_nat (ByteStream.PadTo4Bytes_u16 attr_len) in
        let! s := parse_attribute data attr_type attr_len p
                    (mk_scan (p + skip_len) (s_pkt s) (s_fp s) (s_mi s) (s_fp_pos s)) in
        parse_loop fuel' data len s
      else Ok s
  end.

Definition parse_method (msg_type : Z) : Z :=
  Z.lor (Z.lor (Z.land msg_type 0x000f) (Z.shiftr (Z.land msg_type 0x00e0) 1)) (Z.shiftr (Z.land msg_type 0x3E00) 2).
Definition parse_class (b0 b1 : Z) : Z :=
  Z.lor (Z.shiftl (Z.land b0 0x01) 1) (Z.shiftr (Z.land b1 0x10) 4).

(** [(size_t)msg_len != (len - 20)] after [IsStun] has seen to [len >= 20]. *)
Definition Parse (data : buf) (len : nat) : res t :=
  let! stun := IsStun data len in
  if negb stun then Throw "it's not a stun packet" else
  let! msg_type := ByteStream.Read2Bytes data 0 in
  let! msg_len := ByteStream.Read2Bytes data 2 in
  if negb (msg_len =? Z.of_nat (len - 20)) || negb (Z.land msg_len 0x03 =? 0) then
    Throw "stun packet message len error" else
  let! b0 := rd8 data 0 in
  let! b1 := rd8 data 1 in
  let! tid := rd_bytes data 8 12 in
  let ret_packet := with_header (new_StunPacket_over data len 0 0) (parse_class b0 b1) (parse_method msg_type) (Some tid) in
  let! s := parse_loop len data len (mk_scan 20 ret_packet false false 0) in
  if negb (s_p s =? len)%nat then Throw "data offset is not data end" else
  let k := s_pkt s in
  if s_fp s then
    let! crc := ByteCrypto.GetCrc32 data (s_fp_pos s) in
    if negb (fingerprint_ k =? Z.lxor crc 0x5354554e) then Throw "fingerprint is not equal caculate fingerprint" else
    Ok (with_flags k (has_use_candidate_ k) (add_msg_integrity_ k) true)
  else Ok k.

(** * [Serialize] *)

Definition type_field (cls meth : Z) : Z :=
  Z.lor (Z.lor (Z.lor (Z.lor (u16 (Z.shiftl (Z.land meth 0x0f80) 2)) (Z.shiftl (Z.land meth 0x0070) 1))
    (Z.land meth 0x000f)) (Z.shiftl (Z.land cls 0x02) 7)) (Z.shiftl (Z.land cls 0x01) 4).

(** A 16-bit header field pair: the type and the length of an attribute at [p]. *)
Definition write_attr_header (d : buf) (p : nat) (attr_type attr_len : Z) : res buf :=
  let! d := ByteStream.Write2Bytes d p attr_type in ByteStream.Write2Bytes d (p + 2) attr_len.

Definition is_empty (l : list Z) : bool := match l with [] => true | _ => false end.

Section Platform.
Context {Ev : EvpMac} {In : Inet}.

(** The attributes up to the XOR-MAPPED-ADDRESS, at [p]: the buffer and the new [p]. *)
Definition write_username (k : t) (user_name_pad_len : Z) (d : buf) (p : nat) : res (buf * nat) :=
  if is_empty (username_ k) then Ok (d, p) else
  let! d := write_attr_header d p STUN_USERNAME (u16 (Z.of_nat (length (username_ k)))) in
  let! d := wr_bytes d (p + 4) (username_ k) in
  Ok (d, (p + 4 + Z.to_nat user_name_pad_len)%nat).
Definition write_priority (k : t) (d : buf) (p : nat) : res (buf * nat) :=
  if priority_ k =? 0 then Ok (d, p) else
  let! d := write_attr_header d p STUN_PRIORITY 4 in
  let! d := ByteStream.Write4Bytes d (p + 4) (priority_ k) in
  Ok (d, (p + 8)%nat).
Definition write_use_candidate (k : t) (d : buf) (p : nat) : res (buf * nat) :=
  if negb (has_use_candidate_ k) then Ok (d, p) else
  let! d := write_attr_header d p STUN_USE_CANDIDATE 0 in
  Ok (d, (p + 4)%nat).
Definition write_xor_address (k : t) (d : buf) (p : nat) : res (buf * nat) :=
  match xor_address_ k with
  | None => Ok (d, p)
  | Some a =>
      let! d := write_attr_header d p STUN_XOR_MAPPED_ADDRESS 8 in
      let! d := ByteStream.Write2Bytes d (p + 4) 0x01 in
      let! (ip_str, port) := IpAddress.GetIpStr (Some a) 0 in
      let xored_port := Z.lxor port (Z.lor (Z.shiftl (magic_cookie !!! 0%nat) 8) (magic_cookie !!! 1%nat)) in
      let! d := ByteStream.Write2Bytes d (p + 6) xored_port in
      let ip_addr := IpAddress.IpStringToUint32 ip_str in
      let! cookie := ByteStream.Read4Bytes magic_cookie 0 in
      let! d := ByteStream.Write4Bytes d (p + 8) (Z.lxor ip_addr cookie) in
      Ok (d, (p + 12)%nat)
  end.

(** MESSAGE-INTEGRITY, if asked for: the digest is over the bytes so far, with the length
    in the header as if the message ended here. *)
Definition write_integrity (hmac_sha1_ctx : bool) (k : t) (d : buf) (p : nat) : res (buf * nat * option nat) :=
  if negb (add_msg_integrity_ k) then Ok (d, p, None) else
  let! d := ByteStream.Write2Bytes d 2 (u16 (Z.of_nat (data_len_ k) - 20 - 8)) in
  let! digest := ByteCrypto.GetHmacSha1 hmac_sha1_ctx (password_ k) d p in
  let! d := write_attr_header d p STUN_MESSAGE_INTEGRITY 20 in
  let! d := wr_bytes d (p + 4) digest in
  let! d := ByteStream.Write2Bytes d 2 (u16 (Z.of_nat (data_len_ k) - Z.of_nat STUN_HEADER_SIZE)) in
  Ok (d, (p + 24)%nat, Some (p + 4)%nat).

Definition write_fingerprint (d : buf) (p : nat) : res (buf * nat) :=
  let! crc := ByteCrypto.GetCrc32 d p in
  let! d := write_attr_header d p STUN_FINGERPRINT 4 in
  let! d := ByteStream.Write4Bytes d (p + 4) (Z.lxor crc 0x5354554e) in
  Ok (d, (p + 8)%nat).

(** [data_len_] as it is added up before anything is written. *)
Definition serialized_len (k : t) (add : bool) (user_name_pad_len : Z) : nat :=
  STUN_HEADER_SIZE
  + (if is_empty (username_ k) then 0 else 4 + Z.to_nat user_name_pad_len)
  + (if priority_ k =? 0 then 0 else 8)
  + (if has_use_candidate_ k then 4 else 0)
  + (match xor_address_ k with Some _ => 12 | None => 0 end)
  + (if add then 24 else 0) + 8.

Definition Serialize (hmac_sha1_ctx : bool) (k : t) : res (t * Z) :=
  let add := negb (stun_class_ k =? STUN_ERROR_RESPONSE) && negb (is_empty (password_ k)) in
  let user_name_pad_len := ByteStream.PadTo4Bytes_u16 (u16 (Z.of_nat (length (username_ k)))) in
  let k := with_flags k (has_use_candidate_ k) add (has_fingerprint_ k) in
  let k := with_data k (data_ k) (serialized_len k add user_name_pad_len) in
  let! d := ByteStream.Write2Bytes (data_ k) 0 (type_field (stun_class_ k) (stun_method_ k)) in
  let! d := ByteStream.Write2Bytes d 2 (u16 (u16 (Z.of_nat (data_len_ k)) - 20)) in
  let! d := wr_bytes d 4 magic_cookie in
  match transaction_id_ k with
  | None => Undef NullDeref
  | Some tid =>
      let! d := wr_bytes d 8 (take 12 tid) in
      let! (d, p) := write_username k user_name_pad_len d 20 in
      let! (d, p) := write_priority k d p in
      let! (d, p) := write_use_candidate k d p in
      let! (d, p) := write_xor_address k d p in
      let! (d, p, mi) := write_integrity hmac_sha1_ctx k d p in
      let! (d, p) := write_fingerprint d p in
      if (p =? data_len_ k)%nat then Ok (with_data (with_integrity k mi) d (data_len_ k), i32 (Z.of_nat (data_len_ k)))
      else Undef AssertFail
  end.

(** * [CheckAuthentication] and [CreateSuccessResponse] *)

(** [if (has_fingerprint_)], the length in the header is replaced. *)
Definition patch_length (k : t) (v : Z) : t * res unit :=
  if has_fingerprint_ k then
    match ByteStream.Write2Bytes (data_ k) 2 (u16 v) with
    | Ok d => (with_data k d (data_len_ k), Ok tt)
    | Throw m => (k, Throw m)
    | Undef u => (k, Undef u)
    end
  else (k, Ok tt).

(** The length is put back only when the digests agree. *)
Definition CheckAuthentication (hmac_sha1_ctx : bool) (k : t) (ufrag pwd : list Z) : t * res STUN_AUTHENTICATION :=
  if negb (bool_decide (take (length ufrag) (username_ k) = ufrag)) then (k, Ok UNAUTHORIZED) else
  do! (k, _) := patch_length k (Z.of_nat (data_len_ k) - 20 - 8) in
  match message_integrity_ k with
  | None => (k, Undef NullDeref)
  | Some mi =>
      do! (k, computed) := (k, ByteCrypto.GetHmacSha1 hmac_sha1_ctx pwd (data_ k) (mi - 4)) in
      do! (k, received) := (k, rd_bytes (data_ k) mi 20) in
      if negb (bool_decide (received = computed)) then (k, Ok UNAUTHORIZED) else
      do! (k, _) := patch_length k (Z.of_nat (data_len_ k) - Z.of_nat STUN_HEADER_SIZE) in
      (k, Ok OK)
  end.

Definition CreateSuccessResponse (k : t) : t :=
  with_header (new_StunPacket 0 0) STUN_SUCCESS_RESPONSE (stun_method_ k) (transaction_id_ k).

End Platform.

(** * Parsing: what the loop keeps *)

Lemma Read2Bytes_ok d p : (p + 2 <= length d)%nat -> ByteStream.Read2Bytes d p = Ok (ByteStream.net16 d p).
Proof. intros. unfold ByteStream.Read2Bytes. by rewrite rd_bytes_ok. Qed.
Lemma Read4Bytes_ok d p : (p + 4 <= length d)%nat -> ByteStream.Read4Bytes d p = Ok (ByteStream.net32 d p).
Proof. intros. unfold ByteStream.Read4Bytes. by rewrite rd_bytes_ok. Qed.
Lemma Read8Bytes_ok d p : (p + 8 <= length d)%nat -> ByteStream.Read8Bytes d p = Ok (be_val (slice p 8 d)).
Proof. intros. unfold ByteStream.Read8Bytes. by rewrite rd_bytes_ok. Qed.

Lemma pad_bounds n : 0 <= n <= 65532 ->
  (Z.to_nat n <= Z.to_nat (ByteStream.PadTo4Bytes_u16 n))%nat /\
  (Z.to_nat (ByteStream.PadTo4Bytes_u16 n) < Z.to_nat n + 4)%nat /\
  Z.of_nat (Z.to_nat (ByteStream.PadTo4Bytes_u16 n)) mod 4 = 0.
Proof. intros. rewrite ByteStream.PadTo4Bytes_u16_eq by lia. rewrite u16_small by zlia. split_and!; zlia. Qed.

Lemma IsStun_ok data len :
  (len <= length data)%nat ->
  IsStun data len = Ok ((20 <=? len)%nat && (cell data 0 <? 3) && bool_decide (slice 4 4 data = magic_cookie)).
Proof.
  intros Hl. unfold IsStun, STUN_HEADER_SIZE. destruct (Nat.ltb_spec len 20), (Nat.leb_spec 20 len); try lia; [done|].
  unfold band, byte_is. rewrite !rd8_cell by lia. cbn [rbind andb].
  rewrite (slice_cons 4), (slice_cons 5), (slice_cons 6), (slice_cons 7) by lia.
  change (slice 8 0 data) with (@nil Z). unfold magic_cookie. cbn [lookup_total list_lookup_total].
  destruct (cell data 0 <? 3); [|done]. cbn [andb].
  destruct (Z.eqb_spec (cell data 4) 0x21); [|rewrite bool_decide_eq_false_2; [done|congruence]].
  destruct (Z.eqb_spec (cell data 5) 0x12); [|rewrite bool_decide_eq_false_2; [done|congruence]].
  destruct (Z.eqb_spec (cell data 6) 0xA4); [|rewrite bool_decide_eq_false_2; [done|congruence]].
  destruct (Z.eqb_spec (cell data 7) 0x42); [|rewrite bool_decide_eq_false_2; [done|congruence]].
  rewrite bool_decide_eq_true_2; [done|congruence].
Qed.

(** The header of an attribute at [p]. *)
Definition attr_at (data : buf) (p : nat) (attr_type attr_len : Z) : Prop :=
  ByteStream.net16 data p = attr_type /\ ByteStream.net16 data (p + 2) = attr_len.

(** The packet read so far is what the datagram says: the invariant of the loop, at [s_p]. *)
Record scanned (data : buf) (len : nat) (s : scan) : Prop := {
  sc_p : (20 <= s_p s)%nat; sc_align : Z.of_nat (s_p s) mod 4 = 0;
  sc_data : data_ (s_pkt s) = data; sc_len : data_len_ (s_pkt s) = len;
  sc_class : stun_class_ (s_pkt s) = parse_class (cell data 0) (cell data 1);
  sc_method : stun_method_ (s_pkt s) = parse_method (ByteStream.net16 data 0);
  sc_tid : transaction_id_ (s_pkt s) = Some (slice 8 12 data);
  sc_username : bytes (username_ (s_pkt s));
  sc_prio : 0 <= priority_ (s_pkt s) < 4294967296;
  sc_has_fp : has_fingerprint_ (s_pkt s) = false;
  sc_mi : if s_mi s
    then exists o, message_integrity_ (s_pkt s) = Some o /\ (24 <= o)%nat /\
         attr_at data (o - 4) STUN_MESSAGE_INTEGRITY 20 /\ s_p s = (o + 20 + if s_fp s then 8 else 0)%nat
    else message_integrity_ (s_pkt s) = None;
  sc_fp : s_fp s = true -> (20 <= s_fp_pos s)%nat /\ s_p s = (s_fp_pos s + 8)%nat /\
         attr_at data (s_fp_pos s) STUN_FINGERPRINT 4 /\
         fingerprint_ (s_pkt s) = ByteStream.net32 data (s_fp_pos s + 4)
}.

(** Case analysis on the attribute type, with its number kept. *)
Ltac attr_case :=
  match goal with |- context [if ?ty =? ?c then _ else _] => destruct (Z.eqb_spec ty c) as [Hty|?] end.
Ltac len_case :=
  match goal with |- context [negb (?n =? ?c)] => destruct (Z.eqb_spec n c) as [Hlen|?]; cbn [negb]; [|done] end.

Lemma parse_xor_address_post data p :
  (p + 8 <= length data)%nat -> post (fun _ => True) (parse_xor_address data p).
Proof.
  intros H. unfold parse_xor_address. rewrite rd_bytes_ok by done. cbn [rbind].
  assert (Hl : length (slice p 8 data) = 8%nat) by (by apply length_slice).
  rewrite Read2Bytes_ok by (rewrite Hl; lia). cbn [rbind].
  rewrite Read2Bytes_ok by (rewrite !length_insert, Hl; lia). cbn [rbind].
  by rewrite Read4Bytes_ok by (rewrite !length_insert, Hl; lia).
Qed.

Lemma parse_attribute_scanned data len attr_type attr_len s :
  bytes data -> (len <= length data)%nat -> scanned data len s -> s_fp s = false ->
  (s_mi s = true -> attr_type = STUN_FINGERPRINT) ->
  attr_at data (s_p s) attr_type attr_len -> 0 <= attr_len <= 65532 ->
  (s_p s + 4 + Z.to_nat attr_len <= len)%nat ->
  let p := (s_p s + 4 + Z.to_nat (ByteStream.PadTo4Bytes_u16 attr_len))%nat in
  post (fun s' => s_p s' = p /\ scanned data len s')
    (parse_attribute data attr_type attr_len (s_p s + 4) (mk_scan p (s_pkt s) (s_fp s) (s_mi s) (s_fp_pos s))).
Proof.
  intros Hb Hl [Hp Ha Hd Hdl Hc Hm Ht Hu Hpr Hfp Hmi Hf] Efp Hord Hat Hn Hin p.
  destruct (pad_bounds attr_len Hn) as (Hp1 & Hp2 & Hp3).
  assert (Hal : Z.of_nat p mod 4 = 0) by (unfold p; zlia).
  unfold parse_attribute. cbn [s_p s_pkt s_fp s_mi s_fp_pos]. rewrite Efp in Hmi |- *.
  destruct (decide (attr_type = STUN_FINGERPRINT)) as [->|Hne].
  { change (STUN_FINGERPRINT =? STUN_USERNAME) with false. cbn. len_case. subst attr_len.
    rewrite Read4Bytes_ok by lia. cbn. change (Z.to_nat (ByteStream.PadTo4Bytes_u16 4)) with 4%nat in p.
    split; [done|]. split; cbn; try done; [unfold p; lia| |].
    - destruct (s_mi s); [|done]. destruct Hmi as (o & ? & ? & ? & ?). exists o. split_and!; try done. unfold p. lia.
    - intros _. replace (s_p s + 4 - 4)%nat with (s_p s) by lia. split_and!; try done. unfold p. lia. }
  assert (Hstd : s_mi s = false) by (destruct (s_mi s); [by specialize (Hord eq_refl)|done]). rewrite Hstd in Hmi |- *.
  rewrite (proj2 (Z.eqb_neq attr_type STUN_FINGERPRINT)) by done.
  repeat (attr_case; [|]).
  all: try len_case; try (subst attr_len).
  all: rewrite ?Read4Bytes_ok, ?Read8Bytes_ok, ?rd_bytes_ok, ?rd8_cell by lia; cbn [rbind].
  8: { eapply post_bind; [apply parse_xor_address_post; lia|]. intros a _.
       split; [done|]. split; cbn; try done. unfold p; lia. }
  all: split; [done|]; split; cbn; try done; try (unfold p; lia).
  - by apply bytes_slice.
  - apply ByteStream.net32_range; [done|lia].
  - change (Z.to_nat (ByteStream.PadTo4Bytes_u16 20)) with 20%nat in p.
    exists (s_p s + 4)%nat. split_and!; [done|lia| |unfold p; lia].
    replace (s_p s + 4 - 4)%nat with (s_p s) by lia. by rewrite Hty in Hat.
Qed.

(** ** The loop *)

Lemma parse_loop_scanned data len :
  bytes data -> (len <= length data)%nat -> Z.of_nat len <= 65552 -> forall fuel s,
  scanned data len s -> (len < s_p s + 4 * fuel)%nat -> (1 <= fuel)%nat ->
  post (fun s' => scanned data len s' /\ (len <= s_p s' + 4)%nat) (parse_loop fuel data len s).
Proof.
  intros Hb Hl Hmax. induction fuel as [|fuel IH]; intros s Hs Hf H1; [lia|]. cbn [parse_loop].
  destruct (Nat.ltb_spec (s_p s + 4) len) as [Hlt|Hge]; [|done].
  rewrite !Read2Bytes_ok by lia. cbn [rbind].
  pose proof (ByteStream.net16_range data (s_p s + 2) Hb ltac:(lia)) as Hn.
  pose proof (sc_p _ _ _ Hs) as Hp.
  destruct (Nat.ltb_spec len (s_p s + 4 + Z.to_nat (ByteStream.net16 data (s_p s + 2)))) as [|Hin]; [done|].
  destruct (s_fp s) eqn:Efp; [done|].
  destruct (s_mi s && negb (ByteStream.net16 data (s_p s) =? STUN_FINGERPRINT)) eqn:Eord; [done|].
  eapply post_bind.
  { rewrite <- Efp. apply parse_attribute_scanned; try done; [|lia].
    intros Hm. rewrite Hm in Eord. cbn [andb] in Eord. apply negb_false_iff, Z.eqb_eq in Eord. done. }
  intros s' [Hp' Hs']. apply IH; [done|lia|lia].
Qed.

(** What a packet that [Parse] returns is: the header fields and the two attributes that
    authenticate the datagram, by their places in it. *)
Record parsed (data : buf) (len : nat) (k : t) : Prop := {
  pa_len : (20 <= len)%nat; pa_align : Z.of_nat len mod 4 = 0;
  pa_data : data_ k = data; pa_data_len : data_len_ k = len;
  pa_msg_len : ByteStream.net16 data 2 = Z.of_nat len - 20;
  pa_class : stun_class_ k = parse_class (cell data 0) (cell data 1);
  pa_method : stun_method_ k = parse_method (ByteStream.net16 data 0);
  pa_tid : transaction_id_ k = Some (slice 8 12 data);
  pa_username : bytes (username_ k);
  pa_prio : 0 <= priority_ k < 4294967296;
  pa_mi : forall o, message_integrity_ k = Some o ->
    (24 <= o)%nat /\ attr_at data (o - 4) STUN_MESSAGE_INTEGRITY 20 /\
    len = (o + 20 + if has_fingerprint_ k then 8 else 0)%nat;
  pa_fp : has_fingerprint_ k = true ->
    (28 <= len)%nat /\ attr_at data (len - 8) STUN_FINGERPRINT 4 /\
    fingerprint_ k = ByteStream.net32 data (len - 4) /\
    fingerprint_ k = Z.lxor (ByteCrypto.crc32 (slice 0 (len - 8) data)) 0x5354554e
}.

Lemma land_3_mod4 v : 0 <= v -> Z.land v 0x03 = v mod 4.
Proof. intros. by apply ByteStream.land_3. Qed.

Lemma Parse_parsed data :
  bytes data -> post (parsed data (length data)) (Parse data (length data)).
Proof.
  intros Hb. set (len := length data). unfold Parse. rewrite IsStun_ok by lia. cbn [rbind].
  destruct (20 <=? len)%nat eqn:E20; [|done]. apply Nat.leb_le in E20.
  destruct (_ && _); cbn [andb negb]; [|done].
  rewrite !Read2Bytes_ok by lia. cbn [rbind].
  pose proof (ByteStream.net16_range data 2 Hb ltac:(lia)) as Hn.
  destruct (Z.eqb_spec (ByteStream.net16 data 2) (Z.of_nat (len - 20))) as [Hml|]; [|done].
  rewrite land_3_mod4 by lia.
  destruct (Z.eqb_spec (ByteStream.net16 data 2 mod 4) 0) as [Hal|]; cbn [negb orb]; [|done].
  rewrite !rd8_cell, rd_bytes_ok by lia. cbn [rbind].
  eapply post_bind.
  { apply (parse_loop_scanned data len Hb); [lia|zlia| |cbn; lia|lia]. split; cbn; try done. by constructor. }
  intros s [[Hp Ha Hd Hdl Hc Hm Ht Hu Hpr Hfp Hmi Hf] Hend].
  destruct (Nat.eqb_spec (s_p s) len) as [Hsp|]; cbn [negb]; [|done].
  assert (Hmi' : forall o fp, s_fp s = fp -> message_integrity_ (s_pkt s) = Some o ->
    (24 <= o)%nat /\ attr_at data (o - 4) STUN_MESSAGE_INTEGRITY 20 /\ len = (o + 20 + if fp then 8 else 0)%nat).
  { intros o fp <- Ho. destruct (s_mi s); [|congruence]. destruct Hmi as (o' & Ho' & ? & ? & ?).
    rewrite Ho in Ho'. injection Ho' as <-. rewrite <- Hsp. done. }
  destruct (s_fp s) eqn:Efp.
  - destruct (Hf eq_refl) as (Hpos & Hpe & Hat & Hfv).
    rewrite ByteCrypto.GetCrc32_ok by (done || lia). cbn [rbind].
    destruct (Z.eqb_spec (fingerprint_ (s_pkt s)) (Z.lxor (ByteCrypto.crc32 (slice 0 (s_fp_pos s) data)) 0x5354554e)) as [Hcrc|];
      cbn [negb]; [|done].
    replace (s_fp_pos s) with (len - 8)%nat in * by lia.
    split; cbn; try done; try lia; [zlia|exact (fun o => Hmi' o true eq_refl)|].
    intros _. replace (len - 8 + 4)%nat with (len - 4)%nat in Hfv by lia. split_and!; (done || lia).
  - split; try done; try lia; [zlia|rewrite Hfp; exact (fun o => Hmi' o false eq_refl)|by rewrite Hfp].
Qed.

(** A last attribute without a value is not read. *)
Lemma use_candidate_last_refused :
  Parse ([0; 1; 0; 4] ++ magic_cookie ++ replicate 12 0 ++ [0; 0x25; 0; 0]) 24 = Throw "data offset is not data end".
Proof. vm_compute. reflexivity. Qed.

(** * Properties *)

(** C37: parsing any datagram reads only inside it and ends: [Parse] throws or returns a
    packet.  A returned packet has the datagram's length in its header and a whole number
    of 32-bit words; its class, method and transaction are the header's; a
    MESSAGE-INTEGRITY is the last attribute but for a FINGERPRINT; and a FINGERPRINT is
    the last eight bytes and the CRC-32 of everything before it, so a datagram with a
    wrong checksum never becomes a packet with one. *)
Theorem stun_Parse_safe (data : buf) :
  bytes data -> post (parsed data (length data)) (Parse data (length data)).
Proof. apply Parse_parsed. Qed.

(** A binding request that carries only a FINGERPRINT. *)
Definition fingerprinted : list Z :=
  [0; 1; 0; 8; 0x21; 0x12; 0xA4; 0x42; 1; 2; 3; 4; 5; 6; 7; 8; 9; 10; 11; 12; 0x80; 0x28; 0; 4; 91; 32; 249; 204].
Lemma stun_Parse_safe_witness :
  exists k, Parse fingerprinted 28 = Ok k /\ has_fingerprint_ k = true /\ parsed fingerprinted 28 k.
Proof.
  pose proof (stun_Parse_safe fingerprinted ltac:(bytes_done)) as H. eexists.
  split; [vm_compute; reflexivity|]. split; [reflexivity|]. exact H.
Defined.

End Stun.
