(* ===== verification/StunMessage.v ===== *)
(** STUN messages as byte strings: what [Serialize] of [net/stun/stun.cpp] writes, that
    [Parse] reads it back, and when [CheckAuthentication] accepts a message. *)
From S2P Require Import Prelude ByteStream ByteCrypto IpAddress Stun.
Import Stun.

Module StunMessage.

(** * The wire format *)

Definition pad (n : nat) : nat := (Z.to_nat (ByteStream.PadTo4Bytes_u16 (Z.of_nat n)) - n)%nat.
Definition attr (attr_type : Z) (v : list Z) : list Z :=
  be_bytes 2 attr_type ++ be_bytes 2 (Z.of_nat (length v)) ++ v ++ replicate (pad (length v)) 0.

Definition attr_username (k : t) : list Z := if is_empty (username_ k) then [] else attr STUN_USERNAME (username_ k).
Definition attr_priority (k : t) : list Z :=
  if priority_ k =? 0 then [] else attr STUN_PRIORITY (be_bytes 4 (priority_ k)).
Definition attr_use_candidate (k : t) : list Z := if has_use_candidate_ k then attr STUN_USE_CANDIDATE [] else [].
(** The family, the port and the address, masked with the cookie. *)
Definition xor_value (a : IpAddress.sockaddr) : list Z :=
  be_bytes 2 1 ++ be_bytes 2 (Z.lxor (IpAddress.sin_port a) 0x2112)
    ++ be_bytes 4 (Z.lxor (ByteStream.ntohl (IpAddress.s_addr a)) 0x2112A442).
Definition attr_xor_address (k : t) : list Z :=
  match xor_address_ k with Some a => attr STUN_XOR_MAPPED_ADDRESS (xor_value a) | None => [] end.
Definition body (k : t) : list Z :=
  attr_username k ++ attr_priority k ++ attr_use_candidate k ++ attr_xor_address k.

Definition header (cls meth len : Z) (tid : list Z) : list Z :=
  be_bytes 2 (type_field cls meth) ++ be_bytes 2 len ++ magic_cookie ++ tid.

Lemma length_header cls meth len tid : length tid = 12%nat -> length (header cls meth len tid) = 20%nat.
Proof. intros H. unfold header. by rewrite !length_app, !length_be_bytes, H. Qed.
Lemma length_attr ty v :
  Z.of_nat (length v) <= 65532 ->
  length (attr ty v) = (4 + Z.to_nat (ByteStream.PadTo4Bytes_u16 (Z.of_nat (length v))))%nat /\
  (4 + length v <= length (attr ty v))%nat /\ Z.of_nat (length (attr ty v)) mod 4 = 0.
Proof.
  intros H. destruct (pad_bounds (Z.of_nat (length v))) as (H1 & H2 & H3); [lia|]. rewrite Nat2Z.id in *.
  unfold attr, pad. rewrite !length_app, !length_be_bytes, length_replicate. zlia.
Qed.

(** A packet that can be written: the values fit their attributes, the name fits the
    8192 bytes, and the address is an IPv4 one. *)
Record writable (k : t) : Prop := {
  wr_class : 0 <= stun_class_ k < 4; wr_method : 0 <= stun_method_ k < 128;
  wr_tid : exists tid, transaction_id_ k = Some tid /\ length tid = 12%nat /\ bytes tid;
  wr_username : bytes (username_ k) /\ (length (username_ k) <= 1000)%nat;
  wr_prio : 0 <= priority_ k < 4294967296;
  wr_addr : forall a, xor_address_ k = Some a ->
    IpAddress.sin_family a = IpAddress.AF_INET /\ 0 <= IpAddress.s_addr a < 4294967296 /\
    0 <= IpAddress.sin_port a < 65536
}.

Lemma length_body k :
  writable k ->
  (length (body k) <= 1040)%nat /\
  length (body k) = ((if is_empty (username_ k) then 0 else
        4 + Z.to_nat (ByteStream.PadTo4Bytes_u16 (u16 (Z.of_nat (length (username_ k)))))) +
      (if (priority_ k =? 0)%Z then 0 else 8) + (if has_use_candidate_ k then 4 else 0) +
      (match xor_address_ k with Some _ => 12 | None => 0 end))%nat /\
  Z.of_nat (length (body k)) mod 4 = 0.
Proof.
  intros [_ _ _ [_ Hu] _ _]. rewrite u16_small by lia.
  destruct (length_attr STUN_USERNAME (username_ k) ltac:(lia)) as (Hl & _ & Hm).
  destruct (pad_bounds (Z.of_nat (length (username_ k)))) as (_ & Hp & _); [lia|]. rewrite Nat2Z.id in Hp.
  unfold body, attr_username, attr_priority, attr_use_candidate, attr_xor_address. rewrite !length_app.
  set (n := length (attr STUN_USERNAME (username_ k))) in *.
  assert (length (attr STUN_PRIORITY (be_bytes 4 (priority_ k))) = 8%nat) as Hpr by reflexivity.
  assert (length (attr STUN_USE_CANDIDATE []) = 4%nat) as Huc by reflexivity.
  destruct (is_empty (username_ k)), (priority_ k =? 0), (has_use_candidate_ k), (xor_address_ k) as [a|];
    rewrite ?Hpr, ?Huc; try (assert (length (attr STUN_XOR_MAPPED_ADDRESS (xor_value a)) = 12%nat) as -> by reflexivity);
    cbn [length]; zlia.
Qed.

(** * [Serialize] writes the wire format *)

Section Platform.
Context {Ev : EvpMac} {EvL : EvpMacLaws} {In : Inet} {InL : InetLaws}.

Definition N : nat := Z.to_nat 8192.

Lemma write_attr_header_page pre p ty n :
  p = length pre -> (length pre + 4 <= N)%nat ->
  write_attr_header (page N pre) p ty n = Ok (page N (pre ++ be_bytes 2 ty ++ be_bytes 2 n)).
Proof.
  intros -> H. unfold write_attr_header. rewrite ByteStream.Write2Bytes_be, page_write by (by rewrite ?length_be_bytes; lia).
  cbn [rbind]. rewrite ByteStream.Write2Bytes_be, page_write by (rewrite ?length_app, ?length_be_bytes; lia).
  by rewrite <- app_assoc.
Qed.

(** An attribute written in two steps, its value after its header. *)
Lemma write_attr_page pre p ty v :
  p = length pre -> (length pre + length (attr ty v) <= N)%nat -> Z.of_nat (length v) <= 65532 ->
  (let! d := write_attr_header (page N pre) p ty (Z.of_nat (length v)) in wr_bytes d (p + 4) v) = Ok (page N (pre ++ attr ty v)).
Proof.
  intros -> H Hv. destruct (length_attr ty v Hv) as (_ & Hl & _).
  rewrite write_attr_header_page by lia. cbn [rbind].
  rewrite page_write by (rewrite !length_app, !length_be_bytes; lia).
  rewrite <- (page_skip _ _ (pad (length v))).
  - unfold attr. by rewrite <- !app_assoc.
  - unfold attr in H. rewrite !length_app, !length_be_bytes in *. rewrite length_replicate in H. lia.
Qed.

Lemma write_username_page k pre p :
  p = length pre -> (length (username_ k) <= 1000)%nat -> (length pre + length (attr_username k) <= N)%nat ->
  write_username k (ByteStream.PadTo4Bytes_u16 (u16 (Z.of_nat (length (username_ k))))) (page N pre) p =
    Ok (page N (pre ++ attr_username k), length (pre ++ attr_username k)).
Proof.
  intros -> Hu H. unfold write_username, attr_username in *. destruct (is_empty (username_ k)); [by rewrite app_nil_r|].
  rewrite u16_small by lia. rewrite <- rbind_assoc, write_attr_page by (done || lia). cbn [rbind].
  destruct (length_attr STUN_USERNAME (username_ k) ltac:(lia)) as (Hl & _). do 2 f_equal. rewrite length_app. lia.
Qed.
Lemma write_priority_page k pre p :
  p = length pre -> (length pre + length (attr_priority k) <= N)%nat ->
  write_priority k (page N pre) p = Ok (page N (pre ++ attr_priority k), length (pre ++ attr_priority k)).
Proof.
  intros -> H. unfold write_priority, attr_priority in *. destruct (priority_ k =? 0); [by rewrite app_nil_r|].
  assert (Hw : (let! d := write_attr_header (page N pre) (length pre) STUN_PRIORITY 4 in
    ByteStream.Write4Bytes d (length pre + 4) (priority_ k)) = Ok (page N (pre ++ attr STUN_PRIORITY (be_bytes 4 (priority_ k)))))
    by exact (write_attr_page pre _ STUN_PRIORITY (be_bytes 4 (priority_ k)) eq_refl H ltac:(done)).
  rewrite <- rbind_assoc, Hw. cbn [rbind].
  do 2 f_equal. by rewrite length_app.
Qed.
Lemma write_use_candidate_page k pre p :
  p = length pre -> (length pre + length (attr_use_candidate k) <= N)%nat ->
  write_use_candidate k (page N pre) p = Ok (page N (pre ++ attr_use_candidate k), length (pre ++ attr_use_candidate k)).
Proof.
  intros -> H. unfold write_use_candidate, attr_use_candidate in *. destruct (has_use_candidate_ k); cbn [negb]; [|by rewrite app_nil_r].
  rewrite write_attr_header_page by (done || exact H). cbn [rbind]. do 2 f_equal. by rewrite length_app.
Qed.
Lemma write_xor_address_page k pre p :
  writable k -> p = length pre -> (length pre + length (attr_xor_address k) <= N)%nat ->
  write_xor_address k (page N pre) p = Ok (page N (pre ++ attr_xor_address k), length (pre ++ attr_xor_address k)).
Proof.
  intros Hw -> H. unfold write_xor_address, attr_xor_address in *. destruct (xor_address_ k) as [a|] eqn:Ea; [|by rewrite app_nil_r].
  destruct (wr_addr k Hw a Ea) as (Hf & Ha & Hp).
  change (length (attr STUN_XOR_MAPPED_ADDRESS (xor_value a))) with 12%nat in H.
  rewrite write_attr_header_page by lia. cbn [rbind].
  rewrite ByteStream.Write2Bytes_be, page_write by (rewrite !length_app, !length_be_bytes; lia). cbn [rbind].
  destruct (IpAddress.ip_text_roundtrip a 0 Hf Ha) as (s & -> & Hs). cbn [rbind].
  rewrite ByteStream.Write2Bytes_be, page_write by (rewrite !length_app, !length_be_bytes; lia). cbn [rbind]. rewrite Hs.
  change (ByteStream.Read4Bytes magic_cookie 0) with (Ok 0x2112A442 : res Z). cbn [rbind].
  rewrite ByteStream.Write4Bytes_be, page_write by (rewrite !length_app, !length_be_bytes; lia). cbn [rbind].
  assert (Hv : ((((pre ++ be_bytes 2 STUN_XOR_MAPPED_ADDRESS ++ be_bytes 2 8) ++ be_bytes 2 1)
     ++ be_bytes 2 (Z.lxor (IpAddress.sin_port a) (Z.lor (Z.shiftl (magic_cookie !!! 0%nat) 8) (magic_cookie !!! 1%nat))))
     ++ be_bytes 4 (Z.lxor (ByteStream.ntohl (IpAddress.s_addr a)) 554869826)) = pre ++ attr STUN_XOR_MAPPED_ADDRESS (xor_value a)).
  { unfold attr, xor_value. change (pad _) with 0%nat. cbn [replicate]. rewrite app_nil_r, <- !app_assoc. done. }
  rewrite Hv. do 2 f_equal. by rewrite length_app.
Qed.

(** The header's length field, the digest of a message and its checksum. *)
Definition signed (k : t) (tid : list Z) : list Z :=
  header (stun_class_ k) (stun_method_ k) (Z.of_nat (length (body k)) + 24) tid ++ body k.
Definition protected (k : t) : bool := negb (stun_class_ k =? STUN_ERROR_RESPONSE) && negb (is_empty (password_ k)).
Definition attr_integrity (k : t) (digest : list Z) : list Z :=
  if protected k then attr STUN_MESSAGE_INTEGRITY digest else [].
Definition covered (k : t) (tid digest : list Z) : list Z :=
  header (stun_class_ k) (stun_method_ k) (Z.of_nat (length (body k ++ attr_integrity k digest)) + 8) tid
    ++ body k ++ attr_integrity k digest.
Definition fingerprint_value (l : list Z) : Z := Z.lxor (ByteCrypto.crc32 l) 0x5354554e.
Definition message (k : t) (tid digest : list Z) : list Z :=
  covered k tid digest ++ attr STUN_FINGERPRINT (be_bytes 4 (fingerprint_value (covered k tid digest))).

Lemma bytes_header cls meth len tid : bytes tid -> bytes (header cls meth len tid).
Proof. intros. unfold header. rewrite !bytes_app. split_and!; try apply bytes_be_bytes; [bytes_done|done]. Qed.
Lemma bytes_attr ty v : bytes v -> bytes (attr ty v).
Proof.
  intros. unfold attr. rewrite !bytes_app. split_and!; try apply bytes_be_bytes; [done|].
  apply Forall_replicate. unfold byte. lia.
Qed.
Lemma bytes_body k : writable k -> bytes (body k).
Proof.
  intros Hw. destruct (wr_username k Hw) as [Hu _]. unfold body, attr_username, attr_priority, attr_use_candidate, attr_xor_address.
  rewrite !bytes_app. split_and!.
  - destruct (is_empty _); [constructor|by apply bytes_attr].
  - destruct (priority_ k =? 0); [constructor|apply bytes_attr, bytes_be_bytes].
  - destruct (has_use_candidate_ k); [apply bytes_attr|]; constructor.
  - destruct (xor_address_ k) as [a|]; [|constructor]. apply bytes_attr. unfold xor_value.
    rewrite !bytes_app. split_and!; apply bytes_be_bytes.
Qed.
Lemma length_attr_integrity k digest :
  length digest = 20%nat -> length (attr_integrity k digest) = (if protected k then 24 else 0)%nat.
Proof.
  intros H. unfold attr_integrity. destruct (protected k); [|done].
  destruct (length_attr STUN_MESSAGE_INTEGRITY digest ltac:(lia)) as [-> _]. by rewrite H.
Qed.

(** Replacing the length in a header that is on the page already. *)
Lemma header_overwrite cls meth a tid l b :
  (20 + length l <= N)%nat -> length tid = 12%nat ->
  ByteStream.Write2Bytes (page N (header cls meth a tid ++ l)) 2 b = Ok (page N (header cls meth b tid ++ l)).
Proof.
  intros H Ht. unfold header. rewrite <- !app_assoc, ByteStream.Write2Bytes_be, (page_overwrite N (be_bytes 2 _)); [done|done|done|].
  rewrite !app_assoc, !length_app, !length_be_bytes, Ht. cbn [length magic_cookie]. lia.
Qed.

Lemma GetHmacSha1_ok key d n :
  (n <= length d)%nat -> exists h, ByteCrypto.GetHmacSha1 true key d n = Ok h /\
    evp_hmac_sha1 key (slice 0 n d) = Some h /\ length h = 20%nat /\ bytes h.
Proof.
  intros Hn. destruct (evp_digest key (slice 0 n d)) as (h & Hh & Hl & Hb). exists h.
  unfold ByteCrypto.GetHmacSha1. cbn [negb]. rewrite rd_bytes_ok by lia. cbn [rbind]. by rewrite Hh, Hl.
Qed.

Lemma write_integrity_page k tid :
  writable k -> length tid = 12%nat -> add_msg_integrity_ k = protected k ->
  Z.of_nat (data_len_ k) = 20 + Z.of_nat (length (body k)) + (if protected k then 24 else 0) + 8 ->
  exists digest, length digest = 20%nat /\ bytes digest /\ (protected k = true -> evp_hmac_sha1 (password_ k) (signed k tid) = Some digest) /\
    write_integrity true k (page N (header (stun_class_ k) (stun_method_ k) (Z.of_nat (data_len_ k) - 20) tid ++ body k))
      (length (header (stun_class_ k) (stun_method_ k) 0 tid ++ body k)) =
    Ok (page N (covered k tid digest), length (covered k tid digest),
        if protected k then Some (24 + length (body k))%nat else None).
Proof.
  intros Hw Ht Hadd Hlen. destruct (length_body k Hw) as (Hb & _ & _).
  unfold write_integrity, covered. rewrite Hadd, Hlen.
  assert (HlN : Z.of_nat N = 8192) by (unfold N; lia).
  assert (Hh : forall x, length (header (stun_class_ k) (stun_method_ k) x tid ++ body k) = (20 + length (body k))%nat)
    by (intros x; by rewrite length_app, length_header).
  unfold attr_integrity. destruct (protected k) eqn:Hp; cbn [negb].
  - rewrite u16_small by lia. rewrite header_overwrite by (done || lia). cbn [rbind]. rewrite Hh.
    match goal with |- context [ByteCrypto.GetHmacSha1 true ?key ?d ?n] =>
      destruct (GetHmacSha1_ok key d n) as (h & -> & Hhm & Hl & Hbh) end; [rewrite page_length by (rewrite Hh; lia); lia|].
    exists h. cbn [rbind]. split_and!; [done|done| |].
    { intros _. rewrite page_slice in Hhm by (rewrite Hh; lia). rewrite slice_all in Hhm by (by rewrite Hh).
      rewrite <- Hhm. unfold signed. do 4 f_equal. lia. }
    pose proof (write_attr_page (header (stun_class_ k) (stun_method_ k) (20 + Z.of_nat (length (body k)) + 24 + 8 - 20 - 8) tid ++ body k)
                  (20 + length (body k)) STUN_MESSAGE_INTEGRITY h) as Hwa.
    destruct (length_attr STUN_MESSAGE_INTEGRITY h ltac:(lia)) as (Hla & _). rewrite Hl in Hla.
    change (4 + Z.to_nat (ByteStream.PadTo4Bytes_u16 (Z.of_nat 20)))%nat with 24%nat in Hla.
    rewrite Hl in Hwa. change (Z.of_nat 20) with 20 in Hwa.
    rewrite <- rbind_assoc, Hwa by (rewrite ?Hh, ?Hla; lia). cbn [rbind].
    rewrite u16_small by (unfold STUN_HEADER_SIZE; lia). rewrite <- app_assoc, header_overwrite by (rewrite ?length_app, ?Hla; done || lia).
    cbn [rbind]. rewrite !length_app, Hla, length_header by done. unfold STUN_HEADER_SIZE.
    do 3 f_equal; [do 4 f_equal; lia|lia].
  - destruct (evp_digest [] []) as (h & _ & Hl & Hbh). exists h. split_and!; [done|done|done|].
    rewrite !app_nil_r, Hh. do 3 f_equal; [do 4 f_equal; lia|by rewrite Hh].
Qed.

Lemma write_fingerprint_page pre :
  bytes pre -> (length pre + 8 <= N)%nat ->
  write_fingerprint (page N pre) (length pre) =
    Ok (page N (pre ++ attr STUN_FINGERPRINT (be_bytes 4 (fingerprint_value pre))), (length pre + 8)%nat).
Proof.
  intros Hb Hl. unfold write_fingerprint.
  rewrite ByteCrypto.GetCrc32_ok; [|by apply bytes_page|rewrite page_length; lia].
  rewrite page_slice, slice_all by lia. cbn [rbind].
  assert (Hw : (let! d := write_attr_header (page N pre) (length pre) STUN_FINGERPRINT 4 in
    ByteStream.Write4Bytes d (length pre + 4) (fingerprint_value pre)) = Ok (page N (pre ++ attr STUN_FINGERPRINT (be_bytes 4 (fingerprint_value pre)))))
    by exact (write_attr_page pre _ STUN_FINGERPRINT (be_bytes 4 (fingerprint_value pre)) eq_refl Hl ltac:(done)).
  rewrite <- rbind_assoc. fold (fingerprint_value pre). by rewrite Hw.
Qed.

(** The packet after [Serialize]. *)
Definition serialized (k : t) (msg : list Z) : t :=
  with_data (with_integrity (with_flags k (has_use_candidate_ k) (protected k) (has_fingerprint_ k))
      (if protected k then Some (24 + length (body k))%nat else None)) (page N msg) (length msg).

Lemma write_header_page {A} cls meth len tid (f : buf -> res A) :
  length tid = 12%nat -> 0 <= len ->
  (let! d := ByteStream.Write2Bytes (page N []) 0 (type_field cls meth) in
   let! d := ByteStream.Write2Bytes d 2 len in
   let! d := wr_bytes d 4 magic_cookie in
   let! d := wr_bytes d 8 (take 12 tid) in f d) = f (page N (header cls meth len tid)).
Proof.
  intros Ht Hl. assert (HlN : Z.of_nat N = 8192) by (unfold N; lia).
  rewrite ByteStream.Write2Bytes_be, page_write by (cbn [length]; rewrite ?length_be_bytes; lia). cbn [rbind].
  rewrite ByteStream.Write2Bytes_be, page_write by (rewrite ?length_app, ?length_be_bytes; cbn [length magic_cookie]; lia). cbn [rbind].
  rewrite page_write by (rewrite ?length_app, ?length_be_bytes; cbn [length magic_cookie]; lia). cbn [rbind].
  rewrite take_ge by lia. rewrite page_write by (rewrite ?length_app, ?length_be_bytes, ?Ht; cbn [length magic_cookie]; lia).
  unfold header. by rewrite app_nil_l, <- !app_assoc.
Qed.

(** The four optional attributes, in order. *)
Lemma write_body_page {A} k pre (f : buf -> nat -> res A) :
  writable k -> (length pre + length (body k) <= N)%nat ->
  (let! (d, p) := write_username k (ByteStream.PadTo4Bytes_u16 (u16 (Z.of_nat (length (username_ k))))) (page N pre) (length pre) in
   let! (d, p) := write_priority k d p in
   let! (d, p) := write_use_candidate k d p in
   let! (d, p) := write_xor_address k d p in f d p) = f (page N (pre ++ body k)) (length (pre ++ body k)).
Proof.
  intros Hw Hl. destruct (wr_username k Hw) as [_ Hu].
  unfold body in *. rewrite !length_app in Hl.
  rewrite write_username_page by (done || lia). cbn [rbind].
  rewrite write_priority_page by (done || rewrite length_app; lia). cbn [rbind].
  rewrite write_use_candidate_page by (done || rewrite !length_app; lia). cbn [rbind].
  rewrite write_xor_address_page by (done || rewrite !length_app; lia). cbn [rbind].
  by rewrite <- !app_assoc.
Qed.

Lemma length_covered k tid digest :
  length tid = 12%nat -> length digest = 20%nat ->
  length (covered k tid digest) = (20 + length (body k) + if protected k then 24 else 0)%nat.
Proof.
  intros. unfold covered. rewrite length_app, length_header, length_app, length_attr_integrity by done. lia.
Qed.
Lemma length_message k tid digest :
  length tid = 12%nat -> length digest = 20%nat ->
  length (message k tid digest) = (20 + length (body k) + (if protected k then 24 else 0) + 8)%nat.
Proof. intros. unfold message. rewrite length_app, length_covered by done. done. Qed.
Lemma bytes_covered k tid digest : writable k -> bytes tid -> bytes digest -> bytes (covered k tid digest).
Proof.
  intros. unfold covered. rewrite !bytes_app. split_and!; [by apply bytes_header|by apply bytes_body|].
  unfold attr_integrity. destruct (protected k); [by apply bytes_attr|constructor].
Qed.

Lemma Serialize_ok k tid :
  writable k -> transaction_id_ k = Some tid -> data_ k = page N [] ->
  exists digest, length digest = 20%nat /\ bytes digest /\
    (protected k = true -> evp_hmac_sha1 (password_ k) (signed k tid) = Some digest) /\
    Serialize true k = Ok (serialized k (message k tid digest), Z.of_nat (length (message k tid digest))).
Proof.
  intros Hw Htid Hd. destruct (wr_tid k Hw) as (tid' & E & Ht & Hbt). rewrite Htid in E. injection E as <-.
  destruct (length_body k Hw) as (Hb & Hbl & _). destruct (wr_username k Hw) as [_ Hu].
  assert (HlN : Z.of_nat N = 8192) by (unfold N; lia).
  set (L := (20 + length (body k) + (if protected k then 24 else 0) + 8)%nat).
  set (k0 := with_flags k (has_use_candidate_ k) (protected k) (has_fingerprint_ k)).
  set (k1 := with_data k0 (data_ k0) L).
  assert (Hw1 : writable k1) by (destruct Hw; by split).
  destruct (write_integrity_page k1 tid Hw1 Ht eq_refl) as (digest & Hdl & Hdb & Hdg & Hwi);
    [unfold k1; cbn [data_len_ with_data]; unfold L; change (protected (with_data _ _ _)) with (protected k);
     change (body (with_data _ _ _)) with (body k); destruct (protected k); lia|].
  change (protected k1) with (protected k) in *. change (body k1) with (body k) in *.
  exists digest. split_and!; [done..|]. pose proof (length_message k tid digest Ht Hdl) as Hmsg. fold L in Hmsg.
  unfold Serialize.
  fold (protected k). replace (serialized_len _ (protected k) _) with L.
  2: { unfold serialized_len, L, STUN_HEADER_SIZE. cbn [with_flags username_ priority_ has_use_candidate_ xor_address_].
       rewrite Hbl. destruct (protected k); lia. }
  fold k0. fold k1. change (data_len_ k1) with L. change (data_ k1) with (data_ k). rewrite Hd.
  change (stun_class_ k1) with (stun_class_ k). change (stun_method_ k1) with (stun_method_ k). change (transaction_id_ k1) with (transaction_id_ k).
  rewrite Htid. assert (HL : (L <= 1092)%nat) by (unfold L; destruct (protected k); lia).
  rewrite !(u16_small (Z.of_nat L)) by lia. rewrite u16_small by (unfold L; lia).
  rewrite write_header_page by (done || unfold L; lia).
  change (username_ k) with (username_ k1). set (h := header (stun_class_ k) (stun_method_ k) (Z.of_nat L - 20) tid).
  assert (Hlh : length h = 20%nat) by (by apply length_header).
  rewrite <- Hlh at 1. rewrite (write_body_page k1 h) by (done || change (body k1) with (body k); lia).
  change (body k1) with (body k).
  replace (length (h ++ body k)) with (length (header (stun_class_ k1) (stun_method_ k1) 0 tid ++ body k))
    by (by rewrite !length_app, Hlh, length_header).
  change (page N (h ++ body k)) with (page N (header (stun_class_ k1) (stun_method_ k1) (Z.of_nat (data_len_ k1) - 20) tid ++ body k)).
  rewrite Hwi. cbn [rbind]. change (covered k1 tid digest) with (covered k tid digest).
  rewrite write_fingerprint_page by (by apply bytes_covered || (rewrite length_covered by done; unfold L in HL; lia)).
  cbn [rbind]. rewrite length_covered, (proj2 (Nat.eqb_eq _ _)) by (done || unfold L; lia). rewrite Hmsg.
  replace (i32 (Z.of_nat L)) with (Z.of_nat L) by zlia. unfold serialized. by rewrite Hmsg.
Qed.

End Platform.

(** * [Parse] reads the wire format *)

Lemma net16_mid a x c : ByteStream.net16 (a ++ be_bytes 2 x ++ c) (length a) = u16 x.
Proof. unfold ByteStream.net16. rewrite slice_mid by (by rewrite ?length_be_bytes). apply be_val_be_bytes. Qed.

Lemma attr_value pre ty v post :
  Z.of_nat (length v) <= 65532 -> slice (length pre + 4) (length v) (pre ++ attr ty v ++ post) = v.
Proof.
  intros H. unfold attr. rewrite <- !app_assoc. rewrite !(app_assoc _ (be_bytes 2 _)).
  apply slice_mid; [|done]. rewrite !length_app, !length_be_bytes. lia.
Qed.

(** One turn of the loop over an attribute of the wire format. *)
Lemma parse_step pre ty v post k mi pos fuel :
  Z.of_nat (length v) <= 65532 -> 0 <= ty < 65536 -> (1 <= length v + length post)%nat -> (mi = true -> ty = STUN_FINGERPRINT) ->
  let data := pre ++ attr ty v ++ post in
  parse_loop (S fuel) data (length data) (mk_scan (length pre) k false mi pos) =
  (let! s := parse_attribute data ty (Z.of_nat (length v)) (length pre + 4)
               (mk_scan (length (pre ++ attr ty v)) k false mi pos) in
   parse_loop fuel data (length data) s).
Proof.
  intros Hv Hty Hne Hord data. cbn [parse_loop s_p s_pkt s_fp s_mi s_fp_pos].
  destruct (length_attr ty v Hv) as (Hl & Hl2 & _).
  assert (Hlen : length data = (length pre + length (attr ty v) + length post)%nat) by (unfold data; rewrite !length_app; lia).
  assert (H16 : ByteStream.net16 data (length pre) = ty).
  { unfold data, attr. rewrite <- !app_assoc, net16_mid. by apply u16_small. }
  assert (H16' : ByteStream.net16 data (length pre + 2) = Z.of_nat (length v)).
  { unfold data, attr. rewrite <- !app_assoc, (app_assoc pre).
    replace (length pre + 2)%nat with (length (pre ++ be_bytes 2 ty)) by (by rewrite length_app, length_be_bytes).
    rewrite net16_mid. apply u16_small. lia. }
  rewrite (proj2 (Nat.ltb_lt _ _)) by lia. rewrite !Read2Bytes_ok by lia. cbn [rbind]. rewrite H16, H16', Nat2Z.id.
  rewrite (proj2 (Nat.ltb_ge _ _)) by lia.
  assert (Hm : mi && negb (ty =? STUN_FINGERPRINT) = false)
    by (destruct mi; [|done]; rewrite (Hord eq_refl); reflexivity).
  rewrite Hm. rewrite length_app, Hl. do 2 f_equal. f_equal. lia.
Qed.

(** Where the loop stands after the attributes written for [k], one kind at a time. *)
Definition got_username (k q : t) : t := with_username q (if is_empty (username_ k) then username_ q else username_ k).
Definition got_priority (k q : t) : t :=
  with_numbers q (fingerprint_ q) (if priority_ k =? 0 then priority_ q else priority_ k)
    (ice_controlling_ q) (ice_controlled_ q) (error_code_ q).
Definition got_use_candidate (k q : t) : t :=
  with_flags q (if has_use_candidate_ k then true else has_use_candidate_ q) (add_msg_integrity_ q) (has_fingerprint_ q).
(** The address comes back; the port in the byte order of the network. *)
Definition net_address (a : IpAddress.sockaddr) : IpAddress.sockaddr :=
  IpAddress.mk_sockaddr IpAddress.AF_INET (ByteStream.ntohs (IpAddress.sin_port a)) (IpAddress.s_addr a).
Definition got_xor_address (k q : t) : t :=
  with_address q (match xor_address_ k with Some a => Some (net_address a) | None => xor_address_ q end).
Definition got_integrity (k : t) (p : nat) (q : t) : t :=
  with_integrity q (if protected k then Some (p + 4)%nat else message_integrity_ q).

(** The loop over [pre ++ l ++ post] passes [l], using at most [n] units of fuel. *)
Definition passes (n : nat) (l : list Z) (mi mi' : bool) (g : nat -> t -> t) : Prop :=
  forall pre post q pos fuel, (n <= fuel)%nat -> post <> [] ->
  let data := pre ++ l ++ post in
  exists fuel', (fuel <= fuel' + n)%nat /\
    parse_loop fuel data (length data) (mk_scan (length pre) q false mi pos) =
    parse_loop fuel' data (length data) (mk_scan (length (pre ++ l)) (g (length pre) q) false mi' pos).

Lemma passes_nil mi g : (forall p q, g p q = q) -> passes 1 [] mi mi g.
Proof. intros Hg pre post q pos fuel _ _ data. exists fuel. rewrite app_nil_r, Hg. split; [lia|done]. Qed.

Lemma passes_app n1 n2 l1 l2 m1 m2 m3 g1 g2 :
  passes n1 l1 m1 m2 g1 -> passes n2 l2 m2 m3 g2 ->
  passes (n1 + n2) (l1 ++ l2) m1 m3 (fun p q => g2 (p + length l1)%nat (g1 p q)).
Proof.
  intros H1 H2 pre post q pos fuel Hf Hpost data.
  destruct (H1 pre (l2 ++ post) q pos fuel) as (f1 & Hf1 & E1); [lia|intros Hn%app_nil; by destruct Hn|].
  destruct (H2 (pre ++ l1) post (g1 (length pre) q) pos f1) as (f2 & Hf2 & E2); [lia|done|].
  exists f2. split; [lia|]. unfold data. rewrite <- !app_assoc in *. rewrite E1, E2. rewrite (length_app pre l1). by rewrite !length_app, Nat.add_assoc.
Qed.

(** An attribute whose handling is known. *)
Lemma passes_attr ty v mi mi' g :
  Z.of_nat (length v) <= 65532 -> 0 <= ty < 65536 -> (mi = true -> ty = STUN_FINGERPRINT) ->
  (forall data p n q pos, slice (p + 4) (length v) data = v -> (p + 4 + length v <= length data)%nat ->
     parse_attribute data ty (Z.of_nat (length v)) (p + 4) (mk_scan n q false mi pos) = Ok (mk_scan n (g p q) false mi' pos)) ->
  passes 1 (attr ty v) mi mi' g.
Proof.
  intros Hv Hty Hord Hg pre post q pos [|fuel] Hf Hpost data; [lia|]. exists fuel. split; [lia|].
  assert (Hne : (1 <= length v + length post)%nat) by (destruct post; [done|cbn; lia]).
  unfold data. rewrite parse_step by done. rewrite Hg; [done|by apply attr_value|].
  destruct (length_attr ty v Hv) as (_ & Hl & _). rewrite !length_app. lia.
Qed.

Lemma passes_username k : writable k -> passes 1 (attr_username k) false false (fun _ => got_username k).
Proof.
  intros Hw. destruct (wr_username k Hw) as [_ Hu]. unfold attr_username, got_username. destruct (is_empty _); [apply passes_nil; by intros _ []|].
  apply passes_attr; [lia|done|done|]. intros data p n q pos Hs Hl. unfold parse_attribute. cbn [Z.eqb STUN_USERNAME s_pkt].
  rewrite Nat2Z.id, rd_bytes_ok by done. cbn [rbind s_p s_fp s_mi s_fp_pos]. by rewrite Hs.
Qed.
Lemma passes_priority k : writable k -> passes 1 (attr_priority k) false false (fun _ => got_priority k).
Proof.
  intros Hw. unfold attr_priority, got_priority. destruct (priority_ k =? 0); [apply passes_nil; by intros _ []|].
  apply passes_attr; [done..|]. intros data p n q pos Hs Hl. unfold parse_attribute. rewrite length_be_bytes in *.
  change (Z.of_nat 4) with 4. cbn [Z.eqb STUN_USERNAME STUN_PRIORITY Pos.eqb negb].
  rewrite Read4Bytes_ok by done. cbn [rbind s_p s_pkt s_fp s_mi s_fp_pos]. unfold ByteStream.net32. rewrite Hs, be_val_be_bytes.
  rewrite Z.mod_small by apply (wr_prio k Hw). done.
Qed.
Lemma passes_use_candidate k : passes 1 (attr_use_candidate k) false false (fun _ => got_use_candidate k).
Proof.
  unfold attr_use_candidate, got_use_candidate. destruct (has_use_candidate_ k); [|apply passes_nil; by intros _ []].
  by apply passes_attr.
Qed.
Lemma passes_integrity k digest :
  length digest = 20%nat -> passes 1 (attr_integrity k digest) false (protected k) (got_integrity k).
Proof.
  intros Hd. unfold attr_integrity, got_integrity. destruct (protected k); [|apply passes_nil; by intros _ []].
  apply passes_attr; [lia|done|done|]. intros data p n q pos Hs Hl. unfold parse_attribute. by rewrite Hd.
Qed.
Lemma mod_lxor x y n : 0 <= n -> (Z.lxor x y) mod 2 ^ n = Z.lxor (x mod 2 ^ n) (y mod 2 ^ n).
Proof.
  intros Hn. apply Z.bits_inj'. intros i Hi. rewrite Z.lxor_spec. destruct (decide (i < n)).
  - by rewrite !Z.mod_pow2_bits_low, Z.lxor_spec by lia.
  - by rewrite !Z.mod_pow2_bits_high by lia.
Qed.
(** Masking a number is masking its bytes. *)
Lemma le_bytes_lxor n : forall x y, le_bytes n (Z.lxor x y) = zip_with Z.lxor (le_bytes n x) (le_bytes n y).
Proof.
  induction n as [|n IH]; intros x y; [done|]. cbn [le_bytes zip_with]. f_equal; [apply (mod_lxor x y 8); lia|].
  rewrite <- IH. f_equal. change 256 with (2 ^ 8). rewrite <- !Z.shiftr_div_pow2 by lia. apply Z.shiftr_lxor.
Qed.
Lemma lxor_cancel x m : Z.lxor (Z.lxor x m) m = x.
Proof. by rewrite Z.lxor_assoc, Z.lxor_nilpotent, Z.lxor_0_r. Qed.

Lemma parse_xor_bytes data p p1 p0 a3 a2 a1 a0 :
  slice p 8 data = [0; 1; Z.lxor p1 0x21; Z.lxor p0 0x12; Z.lxor a3 0x21; Z.lxor a2 0x12; Z.lxor a1 0xA4; Z.lxor a0 0x42] ->
  (p + 8 <= length data)%nat ->
  parse_xor_address data p =
    Ok (IpAddress.mk_sockaddr IpAddress.AF_INET (ByteStream.ntohs (be_val [p1; p0])) (ByteStream.ntohl (be_val [a3; a2; a1; a0]))).
Proof.
  intros Hs Hl. unfold parse_xor_address. rewrite rd_bytes_ok by done. cbn [rbind]. rewrite Hs.
  cbn [insert list_insert lookup_total list_lookup_total magic_cookie].
  unfold ByteStream.Read2Bytes, ByteStream.Read4Bytes, rd8. cbn [rd_bytes rd8 lookup list_lookup rbind].
  rewrite !lxor_cancel. reflexivity.
Qed.

Lemma parse_xor_value data p a :
  slice p 8 data = xor_value a -> (p + 8 <= length data)%nat ->
  0 <= IpAddress.s_addr a < 4294967296 -> 0 <= IpAddress.sin_port a < 65536 ->
  parse_xor_address data p = Ok (net_address a).
Proof.
  intros Hs Hl Ha Hp. unfold xor_value, be_bytes in Hs. rewrite !le_bytes_lxor in Hs. unfold net_address.
  pose proof (be_val_be_bytes 2 (IpAddress.sin_port a)) as Hport. rewrite Z.mod_small in Hport by done. rewrite <- Hport.
  replace (IpAddress.s_addr a) with (ByteStream.ntohl (be_val (be_bytes 4 (ByteStream.ntohl (IpAddress.s_addr a))))).
  2: { rewrite be_val_be_bytes. change (ByteStream.ntohl (IpAddress.s_addr a)) with (ByteStream.htonl (IpAddress.s_addr a)) at 1.
       pose proof (le_val_range _ (bytes_be_bytes 4 (IpAddress.s_addr a))) as Hr. rewrite length_be_bytes in Hr.
       rewrite Z.mod_small by exact Hr.
       rewrite ByteStream.ntohl_htonl. by apply u32_small. }
  exact (parse_xor_bytes data p _ _ _ _ _ _ Hs Hl).
Qed.

Lemma passes_xor_address k : writable k -> passes 1 (attr_xor_address k) false false (fun _ => got_xor_address k).
Proof.
  intros Hw. unfold attr_xor_address, got_xor_address. destruct (xor_address_ k) as [a|] eqn:Ea; [|apply passes_nil; by intros _ []].
  destruct (wr_addr k Hw a Ea) as (_ & Ha & Hp).
  apply passes_attr; [done..|]. intros data p n q pos Hs Hl.
  change (length (xor_value a)) with 8%nat in *. unfold parse_attribute. cbn [s_pkt s_p s_fp s_mi s_fp_pos].
  change (Z.of_nat 8 =? 8) with true. rewrite (parse_xor_value data (p + 4) a) by done. reflexivity.
Qed.

(** The whole message. *)
Lemma type_field_bytes cls meth :
  0 <= cls < 4 -> 0 <= meth < 128 ->
  exists b0 b1, be_bytes 2 (type_field cls meth) = [b0; b1] /\ b0 < 3 /\
    parse_class b0 b1 = cls /\ parse_method (be_val [b0; b1]) = meth.
Proof.
  intros Hc Hm.
  assert (H : forallb (fun c => forallb (fun m =>
      match be_bytes 2 (type_field (Z.of_nat c) (Z.of_nat m)) with
      | [b0; b1] => (b0 <? 3) && (parse_class b0 b1 =? Z.of_nat c) && (parse_method (be_val [b0; b1]) =? Z.of_nat m)
      | _ => false
      end) (seq 0 128)) (seq 0 4) = true) by (vm_compute; reflexivity).
  rewrite forallb_forall in H. specialize (H (Z.to_nat cls) ltac:(apply in_seq; lia)).
  rewrite forallb_forall in H. specialize (H (Z.to_nat meth) ltac:(apply in_seq; lia)).
  rewrite !Z2Nat.id in H by lia. destruct (be_bytes 2 (type_field cls meth)) as [|b0 [|b1 [|]]]; try discriminate H.
  apply andb_prop in H as [[H1%Z.ltb_lt H2%Z.eqb_eq]%andb_prop H3%Z.eqb_eq]. by exists b0, b1.
Qed.

Definition got_body (k q : t) : t := got_xor_address k (got_use_candidate k (got_priority k (got_username k q))).
Lemma passes_body k : writable k -> passes 4 (body k) false false (fun _ => got_body k).
Proof.
  intros Hw. apply (passes_app 1 3 _ _ _ false _ (fun _ => got_username k) (fun _ q => got_xor_address k (got_use_candidate k (got_priority k q)))).
  { by apply passes_username. }
  apply (passes_app 1 2 _ _ _ false _ (fun _ => got_priority k) (fun _ q => got_xor_address k (got_use_candidate k q))).
  { by apply passes_priority. }
  apply (passes_app 1 1 _ _ _ false _ (fun _ => got_use_candidate k) (fun _ q => got_xor_address k q)).
  { apply passes_use_candidate. }
  by apply passes_xor_address.
Qed.

(** What a peer holds after parsing the message of [k]. *)
Definition received (k : t) (tid digest : list Z) : t :=
  let msg := message k tid digest in
  let q := with_header (new_StunPacket_over msg (length msg) 0 0) (stun_class_ k) (stun_method_ k) (Some tid) in
  let q := got_integrity k (20 + length (body k)) (got_body k q) in
  let q := with_numbers q (fingerprint_value (covered k tid digest)) (priority_ q) (ice_controlling_ q) (ice_controlled_ q)
             (error_code_ q) in
  with_flags q (has_use_candidate_ q) (add_msg_integrity_ q) true.

Lemma bytes_message k tid digest : writable k -> bytes tid -> bytes digest -> bytes (message k tid digest).
Proof. intros. apply bytes_app. split; [by apply bytes_covered|]. apply bytes_attr, bytes_be_bytes. Qed.

Lemma fingerprint_range l : bytes l -> 0 <= fingerprint_value l < 4294967296.
Proof.
  intros H. apply (ByteCrypto.lxor_range 32); [lia| |done].
  apply (ByteCrypto.lxor_range 32); [lia| |done]. apply ByteCrypto.crc_remainder_range; [done|done].
Qed.

(** The fixed part of a message as [Parse] reads it. *)
Lemma message_head k tid digest :
  writable k -> length tid = 12%nat -> bytes tid -> length digest = 20%nat ->
  let msg := message k tid digest in
  Z.of_nat (length msg) mod 4 = 0 /\ (28 <= length msg <= 1092)%nat /\
  cell msg 0 < 3 /\ parse_class (cell msg 0) (cell msg 1) = stun_class_ k /\
  parse_method (ByteStream.net16 msg 0) = stun_method_ k /\
  ByteStream.net16 msg 2 = Z.of_nat (length msg) - 20 /\ slice 4 4 msg = magic_cookie /\ slice 8 12 msg = tid.
Proof.
  intros Hw Ht Hbt Hd msg. pose proof (length_message k tid digest Ht Hd) as Hlen. fold msg in Hlen.
  destruct (length_body k Hw) as (Hb & _ & Hmod).
  destruct (type_field_bytes (stun_class_ k) (stun_method_ k) (wr_class k Hw) (wr_method k Hw)) as (b0 & b1 & Hty & Hb0 & Hcls & Hmeth).
  set (L := Z.of_nat (length (body k ++ attr_integrity k digest)) + 8) in *.
  set (fp := attr STUN_FINGERPRINT (be_bytes 4 (fingerprint_value (covered k tid digest)))).
  set (rest := (body k ++ attr_integrity k digest) ++ fp).
  assert (Emsg : msg = [b0; b1] ++ be_bytes 2 L ++ magic_cookie ++ tid ++ rest).
  { change msg with (covered k tid digest ++ fp). unfold covered, header. fold L. rewrite Hty. unfold rest.
    by rewrite <- !app_assoc. }
  assert (HL : L = Z.of_nat (length msg) - 20).
  { unfold L. rewrite Hlen, length_app, length_attr_integrity by done. destruct (protected k); lia. }
  assert (Hal : Z.of_nat (length msg) mod 4 = 0 /\ (28 <= length msg <= 1092)%nat) by (rewrite Hlen; destruct (protected k); zlia).
  destruct Hal as [Hal Hrange].
  assert (Hc : cell msg 0 = b0 /\ cell msg 1 = b1) by (by rewrite Emsg). destruct Hc as [-> ->].
  split_and!; try done; try lia.
  - unfold ByteStream.net16. rewrite Emsg. by rewrite slice_prefix.
  - rewrite <- HL, Emsg. transitivity (u16 L); [exact (net16_mid [b0; b1] L _)|apply u16_small; lia].
  - rewrite Emsg. exact (slice_mid ([b0; b1] ++ be_bytes 2 L ++ magic_cookie) tid rest 8 12 eq_refl (eq_sym Ht)).
Qed.

(** The loop over the whole message. *)
Lemma parse_loop_message k tid digest q :
  writable k -> length tid = 12%nat -> bytes tid -> length digest = 20%nat -> bytes digest ->
  let msg := message k tid digest in
  parse_loop (length msg) msg (length msg) (mk_scan 20 q false false 0) =
    (let q := got_integrity k (20 + length (body k)) (got_body k q) in
     Ok (mk_scan (length msg)
       (with_numbers q (fingerprint_value (covered k tid digest)) (priority_ q) (ice_controlling_ q) (ice_controlled_ q)
             (error_code_ q)) true (protected k) (length msg - 8))).
Proof.
  intros Hw Ht Hbt Hd Hbd msg.
  pose proof (length_message k tid digest Ht Hd) as Hlen. fold msg in Hlen.
  set (fv := be_bytes 4 (fingerprint_value (covered k tid digest))). set (fp := attr STUN_FINGERPRINT fv).
  set (h := header (stun_class_ k) (stun_method_ k) (Z.of_nat (length (body k ++ attr_integrity k digest)) + 8) tid).
  assert (Emsg : msg = h ++ (body k ++ attr_integrity k digest) ++ fp) by (unfold msg, message, covered; by rewrite <- app_assoc).
  assert (Hh : length h = 20%nat) by (by apply length_header).
  destruct (passes_app 4 1 _ _ false false _ _ _ (passes_body k Hw) (passes_integrity k digest Hd) h fp q 0%nat (length msg))
    as (f & Hf & E); [lia|done|].
  rewrite <- Emsg in E. rewrite Hh in E. rewrite E. clear E.
  destruct f as [|[|f]]; [lia..|].
  assert (Emsg' : msg = (h ++ body k ++ attr_integrity k digest) ++ attr STUN_FINGERPRINT fv ++ [])
    by (rewrite app_nil_r, <- app_assoc; exact Emsg).
  rewrite Emsg' at 1 2.
  rewrite parse_step by (change (length fv) with 4%nat; (done || cbn; lia)). rewrite <- Emsg'.
  assert (Hlp : length ((h ++ body k ++ attr_integrity k digest) ++ attr STUN_FINGERPRINT fv) = length msg)
    by (rewrite Emsg'; by rewrite app_nil_r).
  assert (Hp : (length (h ++ body k ++ attr_integrity k digest) + 8 = length msg)%nat)
    by (rewrite <- Hlp, (length_app _ (attr _ _)); change (length (attr STUN_FINGERPRINT fv)) with 8%nat; lia).
  rewrite Hlp. unfold parse_attribute. cbn [s_pkt s_p s_fp s_mi s_fp_pos].
  change (Z.of_nat (length fv)) with 4. cbn [Z.eqb STUN_USERNAME STUN_PRIORITY STUN_FINGERPRINT STUN_ICE_CONTROLLING
    STUN_ICE_CONTROLLED STUN_USE_CANDIDATE STUN_MESSAGE_INTEGRITY Pos.eqb negb].
  rewrite Read4Bytes_ok by lia. cbn [rbind]. cbn [parse_loop s_p]. rewrite (proj2 (Nat.ltb_ge _ _)) by lia.
  assert (Hfv : ByteStream.net32 msg (length (h ++ body k ++ attr_integrity k digest) + 4) = fingerprint_value (covered k tid digest)).
  { unfold ByteStream.net32. rewrite Emsg'. rewrite (attr_value _ STUN_FINGERPRINT fv []) by done. unfold fv.
    rewrite be_val_be_bytes. apply Z.mod_small, fingerprint_range. by apply bytes_covered. }
  rewrite Hfv. cbv zeta. do 2 f_equal. lia.
Qed.

Lemma Parse_message k tid digest :
  writable k -> length tid = 12%nat -> bytes tid -> length digest = 20%nat -> bytes digest ->
  Parse (message k tid digest) (length (message k tid digest)) = Ok (received k tid digest).
Proof.
  intros Hw Ht Hbt Hd Hbd.
  destruct (message_head k tid digest Hw Ht Hbt Hd) as (Hal & Hlen & H0 & Hc & Hm & Hml & Hck & Htid).
  unfold received. set (msg := message k tid digest) in *. cbv zeta.
  unfold Parse. rewrite IsStun_ok by lia. rewrite (proj2 (Nat.leb_le _ _)), (proj2 (Z.ltb_lt _ _)), bool_decide_eq_true_2 by (done || lia).
  cbn [rbind andb negb]. rewrite !Read2Bytes_ok by lia. cbn [rbind]. rewrite Hml.
  rewrite (proj2 (Z.eqb_eq _ _)) by lia. rewrite land_3_mod4, (proj2 (Z.eqb_eq _ 0)) by (lia || zlia). cbn [negb orb].
  rewrite !rd8_cell, rd_bytes_ok by lia. cbn [rbind]. rewrite Hc, Hm, Htid.
  unfold msg at 1 2 3. rewrite parse_loop_message by done. fold msg. cbn [rbind s_p s_pkt s_fp s_fp_pos].
  rewrite Nat.eqb_refl. cbn [negb].
  rewrite ByteCrypto.GetCrc32_ok by (by apply bytes_message || lia). cbn [rbind].
  replace (slice 0 (length msg - 8) msg) with (covered k tid digest).
  - cbn [fingerprint_ with_numbers]. fold (fingerprint_value (covered k tid digest)). rewrite Z.eqb_refl. reflexivity.
  - symmetry. unfold msg, message at 2. apply slice_prefix. unfold msg. rewrite length_message, length_covered by done. lia.
Qed.

(** * Authentication *)

Section Authentication.
Context {Ev : EvpMac} {EvL : EvpMacLaws}.

(** The part of a datagram that its digest covers: everything in front of the attribute,
    with the length in the header that of a message without FINGERPRINT. *)
Definition authenticated (q : t) (o : nat) : list Z :=
  let d := data_ q in
  slice 0 (o - 4) (if has_fingerprint_ q then splice 2 (be_bytes 2 (Z.of_nat (length d) - 28)) d else d).
(** Does a packet with its digest at [o] convince a server with this name and password? *)
Definition accepted (q : t) (o : nat) (ufrag pwd : list Z) : bool :=
  bool_decide (take (length ufrag) (username_ q) = ufrag) &&
  bool_decide (evp_hmac_sha1 pwd (authenticated q o) = Some (slice o 20 (data_ q))).

Lemma with_data_id q : with_data q (data_ q) (data_len_ q) = q.
Proof. by destruct q. Qed.
Lemma with_data_twice q d n d' n' : with_data (with_data q d n) d' n' = with_data q d' n'.
Proof. done. Qed.

Lemma patch_length_ok q v :
  (4 <= length (data_ q))%nat -> 0 <= v < 65536 ->
  patch_length q v = (with_data q (if has_fingerprint_ q then splice 2 (be_bytes 2 v) (data_ q) else data_ q) (data_len_ q), Ok tt).
Proof.
  intros Hl Hv. unfold patch_length. destruct (has_fingerprint_ q); [|by rewrite with_data_id].
  rewrite u16_small, ByteStream.Write2Bytes_be, wr_bytes_ok by (rewrite ?length_be_bytes; lia). done.
Qed.

Lemma restore_length d l :
  bytes d -> length l = 2%nat -> (4 <= length d)%nat -> splice 2 (be_bytes 2 (ByteStream.net16 d 2)) (splice 2 l d) = d.
Proof.
  intros Hb Hl Hd. rewrite splice_splice_same by (rewrite ?length_be_bytes; lia).
  rewrite <- (splice_slice_id 2 2 d) at 3 by lia. f_equal.
  apply be_bytes_be_val; [by apply bytes_slice|apply length_slice; lia].
Qed.

(** Both outcomes; on success the length is what it was. *)
Lemma CheckAuthentication_ok data q o ufrag pwd :
  bytes data -> parsed data (length data) q -> message_integrity_ q = Some o ->
  exists q', CheckAuthentication true q ufrag pwd = (q', Ok (if accepted q o ufrag pwd then OK else UNAUTHORIZED)) /\
    (accepted q o ufrag pwd = true -> q' = q) /\
    (accepted q o ufrag pwd = false ->
       q' = q \/ q' = with_data q (splice 2 (be_bytes 2 (Z.of_nat (length data) - 28)) data) (length data)).
Proof.
  intros Hb [Hl20 Hal Hd Hdl Hml _ _ _ _ _ Hmi _] Ho. destruct (Hmi o Ho) as (Ho24 & _ & Hlo).
  assert (Hmax : Z.of_nat (length data) - 20 < 65536) by (pose proof (ByteStream.net16_range data 2 Hb ltac:(lia)); lia).
  unfold CheckAuthentication, accepted.
  destruct (bool_decide (take (length ufrag) (username_ q) = ufrag)); cbn [negb andb]; [|by exists q; auto].
  rewrite Hdl. rewrite patch_length_ok by (rewrite ?Hd; lia). cbn [sbind message_integrity_ with_data]. rewrite Ho.
  set (d := if has_fingerprint_ q then splice 2 (be_bytes 2 (Z.of_nat (length data) - 20 - 8)) (data_ q) else data_ q).
  assert (Hld : length d = length data).
  { unfold d. rewrite Hd. destruct (has_fingerprint_ q); [|done]. rewrite length_splice; [done|rewrite length_be_bytes; lia]. }
  cbn [data_ with_data]. destruct (GetHmacSha1_ok pwd d (o - 4)) as (h & -> & Hh & Hlh & _); [lia|]. cbn [sbind].
  rewrite rd_bytes_ok by lia. cbn [sbind].
  assert (Hau : authenticated q o = slice 0 (o - 4) d).
  { unfold authenticated, d. rewrite Hd. by replace (Z.of_nat (length data) - 20 - 8) with (Z.of_nat (length data) - 28) by lia. }
  assert (Hsl : slice o 20 d = slice o 20 (data_ q)).
  { unfold d. destruct (has_fingerprint_ q); [|done]. apply slice_splice_disj; rewrite length_be_bytes, ?Hd; lia. }
  rewrite Hau, Hh, Hsl. destruct (decide (slice o 20 (data_ q) = h)) as [He|He].
  - rewrite !bool_decide_eq_true_2 by congruence. cbn [negb].
    rewrite patch_length_ok by (cbn [data_ with_data data_len_]; unfold STUN_HEADER_SIZE; lia).
    cbn [sbind]. eexists. split; [reflexivity|]. split; [|done]. intros _.
    cbn [has_fingerprint_ with_data data_ data_len_]. rewrite with_data_twice.
    transitivity (with_data q (data_ q) (data_len_ q)); [|apply with_data_id]. f_equal.
    unfold d. destruct (has_fingerprint_ q); [|done].
    unfold STUN_HEADER_SIZE. rewrite Hdl, Hd. change (Z.of_nat 20) with 20. rewrite <- Hml.
    apply restore_length; [done|by rewrite length_be_bytes|lia].
  - rewrite !bool_decide_eq_false_2 by congruence. cbn [negb]. eexists. split; [reflexivity|]. split; [done|]. intros _.
    unfold d. rewrite Hd. destruct (has_fingerprint_ q).
    + right. f_equal; [do 2 f_equal; lia|done].
    + left. rewrite <- Hd. apply with_data_id.
Qed.

End Authentication.

(** A message that was serialized and parsed, field by field. *)
Lemma received_fields k tid digest :
  let q := received k tid digest in
  stun_class_ q = stun_class_ k /\ stun_method_ q = stun_method_ k /\ transaction_id_ q = Some tid /\
  username_ q = username_ k /\ priority_ q = priority_ k /\ has_use_candidate_ q = has_use_candidate_ k /\
  ice_controlled_ q = 0 /\ xor_address_ q = net_address <$> xor_address_ k /\ has_fingerprint_ q = true /\
  message_integrity_ q = (if protected k then Some (24 + length (body k))%nat else None) /\
  data_ q = message k tid digest.
Proof.
  intros q.
  split_and!; try reflexivity.
  - transitivity (if is_empty (username_ k) then [] else username_ k); [reflexivity|by destruct (username_ k)].
  - transitivity (if priority_ k =? 0 then 0 else priority_ k); [reflexivity|]. by destruct (Z.eqb_spec (priority_ k) 0).
  - transitivity (if has_use_candidate_ k then true else false); [reflexivity|by destruct (has_use_candidate_ k)].
  - transitivity (if protected k then Some (20 + length (body k) + 4)%nat else None); [reflexivity|].
    destruct (protected k); [|done]. f_equal. lia.
Qed.

Section Authentic.
Context {Ev : EvpMac} {EvL : EvpMacLaws}.

(** The digest of a protected message is where and what the receiver looks for. *)
Lemma message_authentic k tid digest ufrag :
  writable k -> length tid = 12%nat -> length digest = 20%nat ->
  protected k = true -> evp_hmac_sha1 (password_ k) (signed k tid) = Some digest ->
  take (length ufrag) (username_ k) = ufrag ->
  accepted (received k tid digest) (24 + length (body k)) ufrag (password_ k) = true.
Proof.
  intros Hw Ht Hd Hp Hh Hu. destruct (received_fields k tid digest) as (_ & _ & _ & Eu & _ & _ & _ & _ & Efp & _ & Ed).
  destruct (length_body k Hw) as (Hb & _ & _). pose proof (length_message k tid digest Ht Hd) as Hl. rewrite Hp in Hl.
  unfold accepted, authenticated. rewrite Eu, Efp, Ed. apply andb_true_intro. split; apply bool_decide_eq_true_2; [done|].
  replace (Z.of_nat (length (message k tid digest)) - 28) with (Z.of_nat (length (body k)) + 24) by lia.
  set (fp := attr STUN_FINGERPRINT (be_bytes 4 (fingerprint_value (covered k tid digest)))).
  set (ty := be_bytes 2 (type_field (stun_class_ k) (stun_method_ k))).
  set (len := be_bytes 2 (Z.of_nat (length (body k ++ attr_integrity k digest)) + 8)).
  set (head := magic_cookie ++ tid ++ body k).
  assert (HM : message k tid digest = ty ++ len ++ head ++ (be_bytes 2 STUN_MESSAGE_INTEGRITY ++ be_bytes 2 20) ++ digest ++ fp).
  { change (message k tid digest) with (covered k tid digest ++ fp). unfold covered, header, head. fold ty len.
    unfold attr_integrity, attr. rewrite Hp, Hd. change (pad 20) with 0%nat. cbn [replicate].
    by rewrite app_nil_r, <- !app_assoc. }
  assert (Hhead : length head = (16 + length (body k))%nat) by (unfold head; rewrite !length_app, Ht; done).
  assert (Hty : length ty = 2%nat) by done. assert (Hlen : length len = 2%nat) by done.
  rewrite HM, (splice_mid 2 _ ty len) by done.
  replace (slice 0 _ _) with (signed k tid).
  - rewrite Hh. f_equal. symmetry. rewrite (app_assoc ty), (app_assoc _ head), (app_assoc _ (_ ++ _)).
    apply slice_mid; [|done]. rewrite !length_app, !length_be_bytes, Hty, Hlen, Hhead. lia.
  - symmetry. rewrite (app_assoc ty), (app_assoc _ head), slice_prefix
      by (rewrite !length_app, !length_be_bytes, Hty, Hhead; lia).
    unfold signed, header, head. fold ty. by rewrite <- !app_assoc.
Qed.
End Authentic.

(** * Properties *)

(** C38: a STUN message survives the network.  Serializing any packet whose values fit
    succeeds, with at most 1092 bytes; parsing those bytes gives back the class, the
    method, the transaction, the username, the priority, the candidate flag and the mapped
    address (its port in the network's byte order, where the sender keeps it in the
    host's), with a verified FINGERPRINT; and if a password was set, a peer that knows it,
    and whose name starts the username, accepts the message. *)
Theorem stun_roundtrip `{EvpMacLaws} `{InetLaws} (k : t) (tid : list Z) :
  writable k -> transaction_id_ k = Some tid -> data_ k = page N [] ->
  exists k' n q, Serialize true k = Ok (k', n) /\ 28 <= n <= 1092 /\
    Parse (take (Z.to_nat n) (data_ k')) (Z.to_nat n) = Ok q /\
    (stun_class_ q, stun_method_ q, transaction_id_ q) = (stun_class_ k, stun_method_ k, Some tid) /\
    (username_ q, priority_ q, has_use_candidate_ q) = (username_ k, priority_ k, has_use_candidate_ k) /\
    xor_address_ q = net_address <$> xor_address_ k /\ has_fingerprint_ q = true /\
    (protected k = true -> forall ufrag, take (length ufrag) (username_ k) = ufrag ->
       CheckAuthentication true q ufrag (password_ k) = (q, Ok OK)).
Proof.
  intros Hw Htid Hd. destruct (wr_tid k Hw) as (tid' & E & Ht & Hbt). rewrite Htid in E. injection E as <-.
  destruct (Serialize_ok k tid Hw Htid Hd) as (digest & Hdl & Hdb & Hdg & HS).
  destruct (message_head k tid digest Hw Ht Hbt Hdl) as (_ & Hrange & _).
  pose proof (Parse_message k tid digest Hw Ht Hbt Hdl Hdb) as HP.
  destruct (received_fields k tid digest) as (E1 & E2 & E3 & E4 & E5 & E6 & _ & E7 & E8 & Hmi & _).
  eexists _, _, (received k tid digest). split; [exact HS|]. rewrite Nat2Z.id.
  cbn [serialized data_ with_data]. rewrite page_take, E1, E2, E3, E4, E5, E6. split_and!; try done; [lia|lia|].
  intros Hp ufrag Hu. rewrite Hp in Hmi.
  pose proof (Parse_parsed (message k tid digest) (bytes_message _ _ _ Hw Hbt Hdb)) as Hpa. rewrite HP in Hpa.
  destruct (CheckAuthentication_ok _ _ _ ufrag (password_ k) (bytes_message _ _ _ Hw Hbt Hdb) Hpa Hmi) as (q' & -> & Hq & _).
  rewrite message_authentic in * by auto. by rewrite Hq.
Qed.

(** authentication is sound.  For any datagram that parses with a MESSAGE-INTEGRITY,
    [CheckAuthentication] answers without undefined behaviour; it answers [OK] exactly
    when the user fragment starts the username and the 20 bytes of the attribute are the
    HMAC, under the password, of everything in front of the attribute (with the length
    in the header that of the message without its FINGERPRINT).  An accepted packet is
    left as it was.  A refused one may keep the changed length in its datagram. *)
Theorem CheckAuthentication_spec `{EvpMacLaws} (data : buf) (q : t) (o : nat) (ufrag pwd : list Z) :
  bytes data -> Parse data (length data) = Ok q -> message_integrity_ q = Some o ->
  exists q' r, CheckAuthentication true q ufrag pwd = (q', Ok r) /\ r <> BAD_REQUEST /\
    (r = OK <-> take (length ufrag) (username_ q) = ufrag /\
                evp_hmac_sha1 pwd (authenticated q o) = Some (slice o 20 data)) /\
    (r = OK -> q' = q) /\
    (r <> OK -> q' = q \/ q' = with_data q (splice 2 (be_bytes 2 (Z.of_nat (length data) - 28)) data) (length data)).
Proof.
  intros Hb HP Ho. pose proof (Parse_parsed data Hb) as Hpa. rewrite HP in Hpa. cbn [post] in Hpa.
  destruct (CheckAuthentication_ok data q o ufrag pwd Hb Hpa Ho) as (q' & -> & Hok & Hno).
  eexists q', _. split; [reflexivity|]. rewrite <- (pa_data _ _ _ Hpa) at 1.
  unfold accepted in *. destruct (bool_decide_reflect (take (length ufrag) (username_ q) = ufrag)),
    (bool_decide_reflect (evp_hmac_sha1 pwd (authenticated q o) = Some (slice o 20 (data_ q)))); cbn [andb] in *;
    rewrite (pa_data _ _ _ Hpa) in *; split_and!; intros; try done; try tauto; try (by apply Hok); try (by apply Hno).
  all: split; intros; try done; tauto.
Qed.

(** * A concrete platform, on which the hypotheses hold *)

Definition toy_hmac (key data : list Z) : option (list Z) := Some (be_bytes 20 (le_val key + ByteCrypto.crc32 data)).
Definition toy_pton (s : list Z) : option (list Z) :=
  if bool_decide (bytes s /\ length s = 4%nat) then Some s else None.
Definition toy_inet : Inet := {| inet_ntop := Some; inet_pton := toy_pton |}.

Lemma toy_hmac_laws : @EvpMacLaws toy_hmac.
Proof. intros key d. eexists. split; [reflexivity|]. split; [apply length_be_bytes|apply bytes_be_bytes]. Qed.
Lemma toy_inet_laws : @InetLaws toy_inet.
Proof.
  split.
  - intros a Hb Hl. exists a. split; [done|]. cbn. unfold toy_pton. by rewrite bool_decide_eq_true_2.
  - intros s a. cbn. unfold toy_pton. case_bool_decide; [|done]. by intros [= <-].
Qed.

(** The request of a browser: a name, a password, a priority. *)
Definition tid0 : list Z := [1; 2; 3; 4; 5; 6; 7; 8; 9; 10; 11; 12].
Definition request : t :=
  with_password (with_username (with_numbers (with_header (new_StunPacket 0 0) STUN_REQUEST BINDING (Some tid0)) 0 77 0 0 0)
    [97; 98; 58; 99]) [112; 119].
Lemma request_writable : writable request.
Proof.
  split; cbn; unfold BINDING, STUN_REQUEST; try lia; [|split; [bytes_done|lia]|done].
  exists tid0. split_and!; [done|done|bytes_done].
Qed.

Lemma stun_roundtrip_witness :
  exists k' n q, @Serialize toy_hmac toy_inet true request = Ok (k', n) /\
    Parse (take (Z.to_nat n) (data_ k')) (Z.to_nat n) = Ok q /\ priority_ q = 77 /\
    CheckAuthentication (Ev := toy_hmac) true q [97; 98] [112; 119] = (q, Ok OK).
Proof.
  destruct (@stun_roundtrip toy_hmac toy_hmac_laws toy_inet toy_inet_laws request tid0 request_writable eq_refl eq_refl)
    as (k' & n & q & HS & _ & HP & _ & Hf & _ & _ & Ha).
  exists k', n, q. split_and!; [exact HS|exact HP|exact (f_equal (fun x => snd (fst x)) Hf)|]. apply Ha; reflexivity.
Defined.

(** The bytes of that request. *)
Definition request_msg : list Z :=
  Eval vm_compute in message request tid0 (default [] (toy_hmac [112; 119] (signed request tid0))).
Lemma CheckAuthentication_spec_witness :
  exists q q' r, Parse request_msg (length request_msg) = Ok q /\
    CheckAuthentication (Ev := toy_hmac) true q [97; 98] [112; 120] = (q', Ok r) /\ r = UNAUTHORIZED.
Proof.
  eexists. destruct (@CheckAuthentication_spec toy_hmac toy_hmac_laws request_msg
      (match Parse request_msg (length request_msg) with Ok q => q | _ => request end) 40 [97; 98] [112; 120])
    as (q' & r & H1 & H2 & H3 & _); [bytes_done|vm_compute; reflexivity|vm_compute; reflexivity|].
  exists q', r. split; [vm_compute; reflexivity|]. split; [exact H1|].
  destruct r; [|reflexivity|exfalso; exact (H2 eq_refl)]. exfalso. apply proj1 in H3. destruct (H3 eq_refl) as [_ H4]. vm_compute in H4. discriminate H4.
Defined.

End StunMessage.
