(* ===== verification/IceServer.v ===== *)
(** [webrtc_room/ice_server.cpp] and [.hpp]: the ICE-lite agent of a session.  It answers
    authenticated binding requests with a signed success response. *)
From S2P Require Import Prelude ByteStream ByteCrypto IpAddress Stun StunMessage.
Import Stun StunMessage.

Module IceServer.

(** [UdpTuple] of [net/udp/udp_pub.hpp], without the address packed in 64 bits. *)
Record UdpTuple := mk_tuple { ip_address : list Z; port : Z }.

Record t := mk { ice_ufrag_ : list Z; ice_pwd_ : list Z }.

Section Platform.
Context {Ev : EvpMac} {In : Inet}.

(** [HandleStunPacket]: the packet as [CheckAuthentication] leaves it, the datagrams given to
    [OnIceWrite], and the result.  [remote_sock_addr] is the uninitialised local. *)
Definition HandleStunPacket (ctx : bool) (k : t) (stun_pkt : Stun.t) (addr : UdpTuple) (remote_sock_addr : IpAddress.sockaddr)
    : Stun.t * list (list Z * UdpTuple) * res Z :=
  if negb (stun_method_ stun_pkt =? BINDING) || negb (stun_class_ stun_pkt =? STUN_REQUEST) then (stun_pkt, [], Ok (-1)) else
  if is_empty (username_ stun_pkt) || (priority_ stun_pkt =? 0) ||
     match message_integrity_ stun_pkt with None => true | Some _ => false end then (stun_pkt, [], Ok (-1)) else
  match CheckAuthentication ctx stun_pkt (ice_ufrag_ k) (ice_pwd_ k) with
  | (stun_pkt, Throw m) => (stun_pkt, [], Throw m)
  | (stun_pkt, Undef u) => (stun_pkt, [], Undef u)
  | (stun_pkt, Ok OK) =>
      if negb (ice_controlled_ stun_pkt =? 0) then (stun_pkt, [], Ok (-2)) else
      let resp_pkt := CreateSuccessResponse stun_pkt in
      let remote_sock_addr := IpAddress.GetIpv4Sockaddr (ip_address addr) (port addr) remote_sock_addr in
      let resp_pkt := with_address (with_password resp_pkt (ice_pwd_ k)) (Some remote_sock_addr) in
      match Serialize ctx resp_pkt with
      | Ok (resp_pkt, _) => (stun_pkt, [(take (data_len_ resp_pkt) (data_ resp_pkt), addr)], Ok 0)
      | Throw m => (stun_pkt, [], Throw m)
      | Undef u => (stun_pkt, [], Undef u)
      end
  | (stun_pkt, Ok _) => (stun_pkt, [], Ok (-1))
  end.

End Platform.

(** * Specification *)

(** A request this server has to answer. *)
Definition answerable `{EvpMac} (k : t) (q : Stun.t) : bool :=
  (stun_method_ q =? BINDING) && (stun_class_ q =? STUN_REQUEST) &&
  negb (is_empty (username_ q)) && negb (priority_ q =? 0) &&
  match message_integrity_ q with Some o => accepted q o (ice_ufrag_ k) (ice_pwd_ k) | None => false end &&
  (ice_controlled_ q =? 0).

(** The answer: what any peer reads from the datagram. *)
Definition answers `{EvpMac} (k : t) (tid a : list Z) (p : Z) (msg : list Z) : Prop :=
  exists r o, Parse msg (length msg) = Ok r /\
    (stun_class_ r, stun_method_ r, transaction_id_ r) = (STUN_SUCCESS_RESPONSE, BINDING, Some tid) /\
    xor_address_ r = Some (IpAddress.mk_sockaddr IpAddress.AF_INET (ByteStream.ntohs p) (le_val a)) /\
    has_fingerprint_ r = true /\ message_integrity_ r = Some o /\ accepted r o [] (ice_pwd_ k) = true.

(** * Lemmas *)

Section Laws.
Context {Ev : EvpMac} {EvL : EvpMacLaws} {In : Inet} {InL : InetLaws}.

Lemma response_ok k q tid addr garbage a :
  stun_method_ q = BINDING -> transaction_id_ q = Some tid -> length tid = 12%nat -> bytes tid ->
  ice_pwd_ k <> [] -> inet_pton (ip_address addr) = Some a -> 0 <= port addr < 65536 ->
  exists msg resp n, Serialize true (with_address (with_password (CreateSuccessResponse q) (ice_pwd_ k))
      (Some (IpAddress.GetIpv4Sockaddr (ip_address addr) (port addr) garbage))) = Ok (resp, n) /\
    take (data_len_ resp) (data_ resp) = msg /\ (length msg <= 1092)%nat /\ answers k tid a (port addr) msg.
Proof.
  intros Hm Htid Ht Hbt Hpwd Ha Hp. destruct (IpAddress.GetIpv4Sockaddr_ok (ip_address addr) a (port addr) garbage Ha) as [Hr ->].
  set (sa := IpAddress.mk_sockaddr _ _ _). set (resp := with_address _ _).
  assert (Hw : writable resp).
  { split; cbn [resp CreateSuccessResponse with_address with_password with_header stun_class_ stun_method_ transaction_id_
                username_ priority_ xor_address_]; [by vm_compute|rewrite Hm; by vm_compute|by exists tid| |by vm_compute|].
    - split; [constructor|cbn; lia].
    - intros b [= <-]. cbn. done. }
  destruct (Serialize_ok resp tid Hw Htid eq_refl) as (digest & Hdl & Hdb & Hdg & HS).
  assert (Hpr : protected resp = true) by (unfold protected; cbn; by destruct (ice_pwd_ k)).
  destruct (message_head resp tid digest Hw Ht Hbt Hdl) as (_ & Hrange & _).
  pose proof (Parse_message resp tid digest Hw Ht Hbt Hdl Hdb) as HP.
  destruct (received_fields resp tid digest) as (E1 & E2 & E3 & _ & _ & _ & _ & E7 & E8 & E9 & _).
  eexists _, _, _. split; [exact HS|]. cbn [serialized data_ data_len_ with_data]. rewrite page_take.
  split; [reflexivity|]. split; [lia|]. rewrite Hpr in E9. eexists _, _. split; [exact HP|].
  rewrite E1, E2, E3, E7. split_and!; [|done|done|exact E9|].
  - cbn. by rewrite Hm.
  - exact (message_authentic resp tid digest [] Hw Ht Hdl Hpr (Hdg Hpr) eq_refl).
Qed.

End Laws.

(** * Properties *)

(** C26: the ICE server.  For any datagram that parses as STUN, a response is sent exactly
    when the packet is an authenticated binding request: method and class, a username
    that starts with the server's fragment, a priority, a MESSAGE-INTEGRITY that is the
    HMAC of the datagram under the server's password, and no ICE-CONTROLLED.  Then one
    datagram goes back to where the request came from: a success response with the
    request's transaction, the sender's address and port, a valid FINGERPRINT and a
    digest under the same password.  Otherwise nothing is sent, and the result is
    negative. *)
Theorem ice_answers_authenticated `{EvpMacLaws} `{InetLaws} (k : t) (data : buf) (q : Stun.t) (addr : UdpTuple)
    (garbage : IpAddress.sockaddr) (a : list Z) :
  bytes data -> Parse data (length data) = Ok q -> ice_pwd_ k <> [] ->
  inet_pton (ip_address addr) = Some a -> 0 <= port addr < 65536 ->
  exists q' sent r, HandleStunPacket true k q addr garbage = (q', sent, Ok r) /\
    if answerable k q
    then r = 0 /\ exists msg, sent = [(msg, addr)] /\ answers k (slice 8 12 data) a (port addr) msg
    else r < 0 /\ sent = [].
Proof.
  intros Hb HP Hpwd Ha Hp. pose proof (Parse_parsed data Hb) as Hpa. rewrite HP in Hpa. cbn [post] in Hpa.
  unfold HandleStunPacket, answerable.
  destruct (Z.eqb_spec (stun_method_ q) BINDING) as [Hm|]; cbn [negb orb andb]; [|by eexists _, _, _].
  destruct (stun_class_ q =? STUN_REQUEST); cbn [negb andb]; [|by eexists _, _, _].
  destruct (is_empty (username_ q)); cbn [negb orb andb]; [by eexists _, _, _|].
  destruct (priority_ q =? 0); cbn [negb orb andb]; [by eexists _, _, _|].
  destruct (message_integrity_ q) as [o|] eqn:Ho; cbn [andb]; [|by eexists _, _, _].
  destruct (CheckAuthentication_ok data q o (ice_ufrag_ k) (ice_pwd_ k) Hb Hpa Ho) as (q' & -> & Hok & _).
  destruct (accepted q o (ice_ufrag_ k) (ice_pwd_ k)); cbn [andb]; [|by eexists _, _, _].
  rewrite (Hok eq_refl). destruct (ice_controlled_ q =? 0); cbn [negb]; [|by eexists _, _, _].
  pose proof (pa_tid _ _ _ Hpa) as Htid. pose proof (pa_len _ _ _ Hpa) as Hlen.
  destruct (response_ok k q _ addr garbage a Hm Htid ltac:(apply length_slice; lia) ltac:(by apply bytes_slice) Hpwd Ha Hp)
    as (msg & resp & n & -> & Hmsg & _ & Hans).
  eexists _, _, _. split; [reflexivity|]. split; [done|]. exists msg. by rewrite Hmsg.
Qed.

(** The request of the message component, with the server it is meant for. *)
Definition server : t := mk [97; 98] [112; 119].
Definition sender : UdpTuple := mk_tuple [10; 0; 0; 7] 5000.
Definition garbage : IpAddress.sockaddr := IpAddress.mk_sockaddr 0 0 0.
Definition parsed_request : Stun.t :=
  match Parse request_msg (length request_msg) with Ok q => q | _ => request end.

Lemma ice_answers_authenticated_witness :
  exists q' msg, @HandleStunPacket toy_hmac toy_inet true server parsed_request sender garbage = (q', [(msg, sender)], Ok 0) /\
    @answers toy_hmac server tid0 [10; 0; 0; 7] 5000 msg.
Proof.
  destruct (@ice_answers_authenticated toy_hmac toy_hmac_laws toy_inet toy_inet_laws server request_msg parsed_request
    sender garbage [10; 0; 0; 7]) as (q' & sent & r & H1 & H2);
    [bytes_done|vm_compute; reflexivity|discriminate|vm_compute; reflexivity|cbn; lia|].
  assert (Ha : @answerable toy_hmac server parsed_request = true) by (vm_compute; reflexivity).
  rewrite Ha in H2. destruct H2 as (Hr & msg & Hs & Hans). exists q', msg. rewrite Hr, Hs in H1.
  split; [exact H1|exact Hans].
Defined.

End IceServer.
