(* ===== verification/DataBuffer.v ===== *)
(** [utils/data_buffer.hpp]: the growable byte buffer behind the RTMP, HTTP and
    WebSocket readers, with its 200 reserved bytes in front of the data.  It is
    shown to be a byte queue ([AppendData] at the back, [ConsumeData] at the
    front), within the allocation, outside the two states the code mishandles. *)
From S2P Require Import Prelude.

Module DataBuffer.

Definition EXTRA_LEN : Z := 10 * 1024.
Definition PRE_RESERVE_HEADER_SIZE : Z := 200.

(** The members of the class; [buffer_] is the allocation behind the pointer, so
    its length is the allocated size, which [buffer_size_] is not. *)
Record t := mk {
  sent_flag_ : bool;
  dst_ip_ : string;
  dst_port_ : Z;
  buffer_ : buf;
  buffer_size_ : Z;
  data_len_ : Z;
  start_ : Z;
  end_ : Z
}.

(** Accesses at an [int] offset from the allocation: a negative one is outside it. *)
Definition rd_at (b : buf) (p : Z) (n : Z) : res (list Z) :=
  if decide (p < 0) then Undef OobRead else rd_bytes b (Z.to_nat p) (Z.to_nat n).
Definition wr_at (b : buf) (p : Z) (l : list Z) : res buf :=
  if decide (p < 0) then Undef OobWrite else wr_bytes b (Z.to_nat p) l.

(** [memcpy] inside one allocation: undefined on overlapping ranges. *)
Definition memcpy_same (b : buf) (dst src n : Z) : res buf :=
  if decide (src < dst + n /\ dst < src + n) then Undef Overlap
  else let! l := rd_at b src n in wr_at b dst l.

Definition GetNewSize (new_len : Z) : Z :=
  if decide (new_len <= 50 * 1024) then 50 * 1024
  else if decide (new_len > 50 * 1024 /\ new_len <= 100 * 1024) then 100 * 1024
  else if decide (new_len > 100 * 1024 /\ new_len <= 200 * 1024) then 200 * 1024
  else if decide (new_len > 200 * 1024 /\ new_len <= 500 * 1024) then 500 * 1024
  else i32 (new_len + 10 * 1024).

Definition Reset (d : t) : t :=
  mk (sent_flag_ d) (dst_ip_ d) (dst_port_ d) (buffer_ d) (buffer_size_ d)
     0 PRE_RESERVE_HEADER_SIZE PRE_RESERVE_HEADER_SIZE.

(** [None] is the null pointer, [Some p] the address [buffer_ + p]. *)
Definition ConsumeData (d : t) (consume_len : Z) : t * option Z :=
  if decide (consume_len > data_len_ d) then (d, None)
  else if decide (consume_len < 0 /\ start_ d + consume_len < 0) then (d, None)
  else
    let d := mk (sent_flag_ d) (dst_ip_ d) (dst_port_ d) (buffer_ d) (buffer_size_ d)
                (data_len_ d - consume_len) (start_ d + consume_len) (end_ d) in
    let d := if decide (data_len_ d = 0) then Reset d else d in
    (d, Some (start_ d)).

Definition Data (d : t) : Z := start_ d.
Definition DataLen (d : t) : Z := u64 (data_len_ d).
Definition Require (d : t) (len : Z) : bool := bool_decide (i32 len <= data_len_ d).

Definition GetSentFlag (d : t) : bool := sent_flag_ d.
Definition SetSentFlag (d : t) (flag : bool) : t :=
  mk flag (dst_ip_ d) (dst_port_ d) (buffer_ d) (buffer_size_ d) (data_len_ d) (start_ d) (end_ d).
Definition GetDstIp (d : t) : string := dst_ip_ d.
Definition SetDstIp (d : t) (ip : string) : t :=
  mk (sent_flag_ d) ip (dst_port_ d) (buffer_ d) (buffer_size_ d) (data_len_ d) (start_ d) (end_ d).
Definition GetDstPort (d : t) : Z := dst_port_ d.
Definition SetDstPort (d : t) (port : Z) : t :=
  mk (sent_flag_ d) (dst_ip_ d) port (buffer_ d) (buffer_size_ d) (data_len_ d) (start_ d) (end_ d).

Section Alloc.
(** [fresh n] is the unspecified contents of [new char\[n\]]. *)
Variable fresh : nat -> buf.

Definition new_DataBuffer (data_size : Z) : res t :=
  let! b := wr_at (fresh (Z.to_nat (data_size + PRE_RESERVE_HEADER_SIZE))) 0
                  (replicate (Z.to_nat data_size) 0) in
  Ok (mk false "" 0 b data_size 0 PRE_RESERVE_HEADER_SIZE PRE_RESERVE_HEADER_SIZE).

(** The copy constructor; [operator=] has the same body and leaks the old allocation. *)
Definition copy (input : t) : res t :=
  let! l := rd_at (buffer_ input) 0 (data_len_ input) in
  let! b := wr_at (fresh (Z.to_nat (buffer_size_ input + PRE_RESERVE_HEADER_SIZE))) 0 l in
  Ok (mk (sent_flag_ input) (dst_ip_ input) (dst_port_ input) b (buffer_size_ input)
         (data_len_ input) (start_ input) (end_ input)).

(** The state after the data has been laid out from the reserved header on. *)
Definition relocated (d : t) (b : buf) (size : Z) (input_len : Z) : t :=
  let len := i32 (data_len_ d + i32 input_len) in
  mk (sent_flag_ d) (dst_ip_ d) (dst_port_ d) b size
     len PRE_RESERVE_HEADER_SIZE (i32 (PRE_RESERVE_HEADER_SIZE + len)).

Definition AppendData (d : t) (input_data : option (list Z)) : res (t * Z) :=
  match input_data with
  | None => Ok (d, 0)
  | Some [] => Ok (d, 0)
  | Some input =>
    let input_len := Z.of_nat (length input) in
    let limit := u64 (buffer_size_ d - PRE_RESERVE_HEADER_SIZE) in
    if decide (u64 (end_ d + input_len) > limit) then
      if decide (u64 (data_len_ d + input_len) >= limit) then
        let new_len := GetNewSize (i32 (data_len_ d + i32 input_len + EXTRA_LEN)) in
        let! old := rd_at (buffer_ d) (start_ d) (data_len_ d) in
        let! b := wr_at (fresh (Z.to_nat new_len)) PRE_RESERVE_HEADER_SIZE old in
        let! b := wr_at b (PRE_RESERVE_HEADER_SIZE + data_len_ d) input in
        let d' := relocated d b (u64 new_len) input_len in
        Ok (d', data_len_ d')
      else
        let! b :=
          (if decide (data_len_ d >= start_ d) then
             let! temp_p := rd_at (buffer_ d) (start_ d) (data_len_ d) in
             wr_at (buffer_ d) PRE_RESERVE_HEADER_SIZE temp_p
           else memcpy_same (buffer_ d) PRE_RESERVE_HEADER_SIZE (start_ d) (data_len_ d)) in
        let! b := wr_at b (PRE_RESERVE_HEADER_SIZE + data_len_ d) input in
        let d' := relocated d b (buffer_size_ d) input_len in
        Ok (d', data_len_ d')
    else
      let! b := wr_at (buffer_ d) (end_ d) input in
      let d' := mk (sent_flag_ d) (dst_ip_ d) (dst_port_ d) b (buffer_size_ d)
                   (i32 (data_len_ d + i32 input_len)) (start_ d)
                   (i32 (end_ d + i32 input_len)) in
      Ok (d', data_len_ d')
  end.

End Alloc.

(** * The buffer as a byte queue *)

(** The bytes the buffer holds, and the layout invariant. *)
Definition contents (d : t) : list Z := slice (Z.to_nat (start_ d)) (Z.to_nat (data_len_ d)) (buffer_ d).

Definition inv (d : t) : Prop :=
  PRE_RESERVE_HEADER_SIZE <= buffer_size_ d <= Z.of_nat (length (buffer_ d)) /\
  buffer_size_ d < 2 ^ 31 /\
  0 <= data_len_ d /\ 0 <= start_ d /\ end_ d = start_ d + data_len_ d /\
  end_ d <= Z.of_nat (length (buffer_ d)) < 2 ^ 31.

(** The in-place move to the front whose [memcpy] ranges overlap. *)
Definition overlapping_move (d : t) (n : Z) : Prop :=
  end_ d + n > buffer_size_ d - PRE_RESERVE_HEADER_SIZE /\
  data_len_ d + n < buffer_size_ d - PRE_RESERVE_HEADER_SIZE /\
  data_len_ d < start_ d /\
  start_ d < PRE_RESERVE_HEADER_SIZE + data_len_ d.

Lemma rd_at_ok b p n :
  0 <= p -> 0 <= n -> p + n <= Z.of_nat (length b) ->
  rd_at b p n = Ok (slice (Z.to_nat p) (Z.to_nat n) b).
Proof. intros. unfold rd_at. rewrite decide_False by lia. apply rd_bytes_ok. lia. Qed.
Lemma wr_at_ok b p l :
  0 <= p -> p + Z.of_nat (length l) <= Z.of_nat (length b) ->
  wr_at b p l = Ok (splice (Z.to_nat p) l b).
Proof. intros. unfold wr_at. rewrite decide_False by lia. apply wr_bytes_ok. lia. Qed.

Lemma length_contents d : inv d -> Z.of_nat (length (contents d)) = data_len_ d.
Proof. intros (?&?&?&?&?&?). unfold contents. rewrite length_slice; lia. Qed.

Lemma GetNewSize_bounds n : 0 <= n < 2 ^ 30 -> n <= GetNewSize n < 2 ^ 31.
Proof. intros. unfold GetNewSize. repeat case_decide; zlia. Qed.

(** Laying out [old ++ input] from the header on gives the queue [old ++ input]. *)
Lemma relocated_queue d b size old input :
  Z.of_nat (length old) = data_len_ d ->
  PRE_RESERVE_HEADER_SIZE <= size <= Z.of_nat (length b) -> Z.of_nat (length b) < 2 ^ 31 ->
  PRE_RESERVE_HEADER_SIZE + data_len_ d + Z.of_nat (length input) <= Z.of_nat (length b) ->
  slice (Z.to_nat PRE_RESERVE_HEADER_SIZE) (length old) b = old ->
  exists d' b', wr_at b (PRE_RESERVE_HEADER_SIZE + data_len_ d) input = Ok b' /\
    d' = relocated d b' size (Z.of_nat (length input)) /\ inv d' /\
    contents d' = old ++ input /\ data_len_ d' = data_len_ d + Z.of_nat (length input).
Proof.
  unfold PRE_RESERVE_HEADER_SIZE. intros Hold Hsize Hb Hle Hs.
  rewrite wr_at_ok by lia. eexists _, _. repeat split; simpl; rewrite ?length_splice by lia;
    unfold PRE_RESERVE_HEADER_SIZE; try zlia.
  unfold contents, relocated, PRE_RESERVE_HEADER_SIZE; simpl.
  replace (Z.to_nat (i32 _)) with (length old + length input)%nat by zlia.
  replace (Z.to_nat (200 + data_len_ d)) with (Z.to_nat 200 + length old)%nat by lia.
  rewrite slice_splice_snoc by lia. by rewrite Hs.
Qed.

(** The state every path must reach. *)
Definition appended (d : t) (input : list Z) (r : res (t * Z)) : Prop :=
  exists d', r = Ok (d', data_len_ d + Z.of_nat (length input)) /\
    inv d' /\ contents d' = contents d ++ input.

(** Both relocating paths end with [old] at the front of [b], then the same store. *)
Lemma relocated_appended d b size input :
  inv d ->
  PRE_RESERVE_HEADER_SIZE <= size <= Z.of_nat (length b) -> Z.of_nat (length b) < 2 ^ 31 ->
  PRE_RESERVE_HEADER_SIZE + data_len_ d + Z.of_nat (length input) <= Z.of_nat (length b) ->
  slice (Z.to_nat PRE_RESERVE_HEADER_SIZE) (length (contents d)) b = contents d ->
  appended d input
    (let! b := wr_at b (PRE_RESERVE_HEADER_SIZE + data_len_ d) input in
     let d' := relocated d b size (Z.of_nat (length input)) in Ok (d', data_len_ d')).
Proof.
  intros Hinv ????. pose proof (length_contents d Hinv).
  edestruct (relocated_queue d b size (contents d) input) as (d' & b' & -> & -> & Hi & Hc & Hl);
    try done.
  cbn [rbind]. cbv zeta. rewrite Hl. red. eauto.
Qed.

Lemma in_place_appended d input :
  inv d -> data_len_ d + Z.of_nat (length input) < 2 ^ 29 ->
  end_ d + Z.of_nat (length input) <= buffer_size_ d - PRE_RESERVE_HEADER_SIZE ->
  appended d input
    (let! b := wr_at (buffer_ d) (end_ d) input in
     let d' := mk (sent_flag_ d) (dst_ip_ d) (dst_port_ d) b (buffer_size_ d)
                  (i32 (data_len_ d + i32 (Z.of_nat (length input)))) (start_ d)
                  (i32 (end_ d + i32 (Z.of_nat (length input)))) in
     Ok (d', data_len_ d')).
Proof.
  unfold inv, PRE_RESERVE_HEADER_SIZE. intros (?&?&?&?&?&?) ??.
  rewrite wr_at_ok by lia. cbn [rbind]. cbv zeta.
  assert (i32 (data_len_ d + i32 (Z.of_nat (length input))) = data_len_ d + Z.of_nat (length input))
    as -> by zlia.
  assert (i32 (end_ d + i32 (Z.of_nat (length input))) = end_ d + Z.of_nat (length input)) as -> by zlia.
  eexists. split; [reflexivity|]. split.
  - unfold inv, PRE_RESERVE_HEADER_SIZE; simpl. rewrite length_splice by lia. lia.
  - unfold contents; simpl.
    replace (Z.to_nat (data_len_ d + Z.of_nat (length input)))
      with (Z.to_nat (data_len_ d) + length input)%nat by lia.
    replace (Z.to_nat (end_ d)) with (Z.to_nat (start_ d) + Z.to_nat (data_len_ d))%nat by lia.
    by rewrite slice_splice_snoc by lia.
Qed.

(** The move to the front, when defined, leaves the data behind the header. *)
Lemma front_move d n :
  inv d -> 0 <= n -> end_ d + n > buffer_size_ d - PRE_RESERVE_HEADER_SIZE ->
  data_len_ d + n < buffer_size_ d - PRE_RESERVE_HEADER_SIZE -> ~ overlapping_move d n ->
  (if decide (data_len_ d >= start_ d) then
     let! temp_p := rd_at (buffer_ d) (start_ d) (data_len_ d) in
     wr_at (buffer_ d) PRE_RESERVE_HEADER_SIZE temp_p
   else memcpy_same (buffer_ d) PRE_RESERVE_HEADER_SIZE (start_ d) (data_len_ d))
  = Ok (splice (Z.to_nat PRE_RESERVE_HEADER_SIZE) (contents d) (buffer_ d)).
Proof.
  intros Hinv ??? Hov. pose proof (length_contents d Hinv). red in Hinv.
  unfold memcpy_same, overlapping_move in *. unfold PRE_RESERVE_HEADER_SIZE in *.
  rewrite (rd_at_ok (buffer_ d)) by lia. fold (contents d). cbn [rbind].
  rewrite wr_at_ok by lia. case_decide; [done|]. by rewrite decide_False by lia.
Qed.

Section Queue.
Variable fresh : nat -> buf.
Hypothesis fresh_length : forall n, length (fresh n) = n.

Lemma AppendData_ok (d : t) (input : list Z) :
  inv d -> input <> [] -> data_len_ d + Z.of_nat (length input) < 2 ^ 29 ->
  ~ overlapping_move d (Z.of_nat (length input)) -> appended d input (AppendData fresh d (Some input)).
Proof.
  intros Hinv Hne Hn Hov.
  pose proof (length_contents d Hinv). pose proof Hinv as (Hbs & ? & ? & ? & ? & ?).
  unfold AppendData. destruct input as [|x xs] eqn:Ei; [done|]. rewrite <- Ei in *. clear Ei x xs.
  cbv zeta.
  assert (u64 (buffer_size_ d - PRE_RESERVE_HEADER_SIZE) = buffer_size_ d - PRE_RESERVE_HEADER_SIZE)
    as -> by (unfold PRE_RESERVE_HEADER_SIZE in *; zlia).
  assert (u64 (end_ d + Z.of_nat (length input)) = end_ d + Z.of_nat (length input)) as -> by zlia.
  assert (u64 (data_len_ d + Z.of_nat (length input)) = data_len_ d + Z.of_nat (length input))
    as -> by zlia.
  case_decide; [case_decide|].
  - rewrite (rd_at_ok (buffer_ d)) by lia. fold (contents d). cbn [rbind].
    set (sz := i32 _). pose proof (GetNewSize_bounds sz).
    assert (sz = data_len_ d + Z.of_nat (length input) + 10240) by (unfold sz, EXTRA_LEN; zlia).
    pose proof (fresh_length (Z.to_nat (GetNewSize sz))) as Hf.
    rewrite wr_at_ok by (unfold PRE_RESERVE_HEADER_SIZE in *; lia). cbn [rbind].
    apply relocated_appended; rewrite ?length_splice, ?Hf, ?slice_splice_same;
      try done; unfold PRE_RESERVE_HEADER_SIZE in *; try lia; zlia.
  - rewrite (front_move d (Z.of_nat (length input))) by (done || lia). cbn [rbind].
    apply relocated_appended; rewrite ?length_splice, ?slice_splice_same;
      try done; unfold PRE_RESERVE_HEADER_SIZE in *; lia.
  - apply in_place_appended; (done || lia).
Qed.

(** appending to a buffer in its layout invariant stays inside every allocation,
    restores the invariant, returns the new length and appends the input to the
    bytes held, whichever of the three paths (in place, moved to the front,
    reallocated) is taken, except on the in-place move with overlapping ranges. *)
Theorem AppendData_queue (d : t) (input : list Z) :
  inv d -> input <> [] -> data_len_ d + Z.of_nat (length input) < 2 ^ 29 ->
  ~ overlapping_move d (Z.of_nat (length input)) ->
  exists d', AppendData fresh d (Some input) = Ok (d', data_len_ d + Z.of_nat (length input)) /\
    inv d' /\ contents d' = contents d ++ input.
Proof. apply AppendData_ok. Qed.
End Queue.

(** A fresh buffer of at least the reserved size is an empty queue. *)
Lemma new_DataBuffer_inv fresh data_size :
  (forall n, length (fresh n) = n) -> PRE_RESERVE_HEADER_SIZE <= data_size < 2 ^ 30 ->
  exists d, new_DataBuffer fresh data_size = Ok d /\ inv d /\ contents d = [].
Proof.
  unfold PRE_RESERVE_HEADER_SIZE. intros Hf Hsz. unfold new_DataBuffer.
  rewrite wr_at_ok by (rewrite ?Hf, ?length_replicate; unfold PRE_RESERVE_HEADER_SIZE; lia).
  cbn [rbind]. eexists. split; [reflexivity|]. split; [|done].
  unfold inv, PRE_RESERVE_HEADER_SIZE; simpl.
  rewrite length_splice, Hf by (rewrite Hf, length_replicate; lia). lia.
Qed.

Definition zeros (n : nat) : buf := replicate n 0.
Lemma zeros_length n : length (zeros n) = n.
Proof. apply length_replicate. Qed.

Definition buffer_of (r : res t) : t :=
  match r with Ok d => d | _ => mk false "" 0 [] 0 0 0 0 end.

Lemma AppendData_queue_witness :
  let d := buffer_of (new_DataBuffer zeros 300) in
  exists d', AppendData zeros d (Some [1; 2; 3]) = Ok (d', 3) /\ contents d' = [1; 2; 3].
Proof.
  intros d. destruct (AppendData_queue zeros zeros_length d [1; 2; 3]) as (d' & Ha & _ & Hc).
  - unfold inv. eval_done.
  - discriminate.
  - vm_compute. reflexivity.
  - unfold overlapping_move. vm_compute. intros (_ & _ & _ & H). discriminate H.
  - exists d'. split; [exact Ha|exact Hc].
Defined.

(** Taking [n] bytes off the front. *)
Lemma ConsumeData_ok (d : t) (n : Z) :
  inv d -> 0 <= n <= data_len_ d ->
  exists d', ConsumeData d n = (d', Some (Data d')) /\ inv d' /\
    contents d' = drop (Z.to_nat n) (contents d).
Proof.
  intros Hinv Hn. pose proof Hinv as (Hbs & ? & ? & ? & ? & ?).
  unfold ConsumeData. rewrite !decide_False by lia. cbn [data_len_].
  case_decide as Hz; (eexists; split; [reflexivity|]; split).
  - unfold inv, Reset, PRE_RESERVE_HEADER_SIZE in *; simpl. lia.
  - unfold contents, Reset; simpl. symmetry. apply drop_ge. rewrite length_slice by lia. lia.
  - unfold inv, PRE_RESERVE_HEADER_SIZE in *; simpl. lia.
  - unfold contents; simpl. rewrite drop_slice. f_equal; lia.
Qed.

(** consuming [n] bytes of a queue drops them from the front and answers the new
    front; asking for more than it holds is refused and changes nothing; giving
    bytes back ([n] negative) re-exposes what lies before the data, down to the
    start of the allocation and no further.  The invariant is kept throughout. *)
Theorem ConsumeData_queue (d : t) (n : Z) :
  inv d ->
  let (d', p) := ConsumeData d n in
  inv d' /\
  (0 <= n <= data_len_ d -> contents d' = drop (Z.to_nat n) (contents d) /\ p = Some (Data d')) /\
  (data_len_ d < n -> d' = d /\ p = None) /\
  (n < 0 -> start_ d + n < 0 -> d' = d /\ p = None) /\
  (n < 0 -> 0 <= start_ d + n -> data_len_ d - n <> 0 ->
     data_len_ d' = data_len_ d - n /\ drop (Z.to_nat (- n)) (contents d') = contents d).
Proof.
  intros Hinv. pose proof Hinv as (Hbs & ? & ? & ? & ? & ?).
  destruct (decide (0 <= n <= data_len_ d)) as [Hn|Hn].
  { destruct (ConsumeData_ok d n Hinv Hn) as (d' & -> & ? & ?). split_and!; intros; (done || lia). }
  unfold ConsumeData. case_decide; [split_and!; (done || intros; lia)|].
  case_decide; [split_and!; (done || intros; lia)|].
  cbn [data_len_]. case_decide as Hz.
  - unfold inv, Reset, PRE_RESERVE_HEADER_SIZE in *. split_and!; intros; simpl in *; lia.
  - split_and!; intros; try lia.
    + unfold inv, PRE_RESERVE_HEADER_SIZE in *; simpl. lia.
    + split; [done|]. unfold contents; simpl. unfold slice.
      rewrite skipn_firstn_comm, drop_drop. f_equal; [lia|]. f_equal. lia.
Qed.

Lemma ConsumeData_queue_witness :
  let d := buffer_of (rbind (AppendData zeros (buffer_of (new_DataBuffer zeros 300)) (Some [1; 2; 3]))
                            (fun r => Ok (fst r))) in
  inv d /\ contents (fst (ConsumeData d 2)) = [3].
Proof.
  intros d. assert (Hd : inv d) by (unfold inv; eval_done).
  split; [exact Hd|]. pose proof (ConsumeData_queue d 2 Hd) as H.
  destruct (ConsumeData d 2) as [d' p] eqn:E. destruct H as (_ & H & _).
  simpl. rewrite (proj1 (H ltac:(eval_done))). reflexivity.
Defined.

(** the in-place move runs a [memcpy] over overlapping ranges in a state that a
    plain append/consume/append sequence reaches from a fresh buffer. *)
Theorem AppendData_overlap_reachable :
  (let! d := new_DataBuffer zeros 600 in
   let! (d, n) := AppendData zeros d (Some (replicate 150 7)) in
   let (d, p) := ConsumeData d 50 in
   let! (d, m) := AppendData zeros d (Some (replicate 60 8)) in
   Ok (n, p, m)) = Undef Overlap.
Proof. vm_compute. reflexivity. Qed.

(** the copy constructor copies the front of the allocation instead of the data:
    when the data does not reach into that front, the copy holds whatever the new
    allocation happened to contain. *)
Theorem copy_loses_data (fresh : nat -> buf) (d : t) :
  (forall n, length (fresh n) = n) -> inv d -> data_len_ d <= start_ d ->
  data_len_ d <= buffer_size_ d + PRE_RESERVE_HEADER_SIZE ->
  exists d', copy fresh d = Ok d' /\
    contents d' = slice (Z.to_nat (start_ d)) (Z.to_nat (data_len_ d))
                    (fresh (Z.to_nat (buffer_size_ d + PRE_RESERVE_HEADER_SIZE))).
Proof.
  unfold inv, PRE_RESERVE_HEADER_SIZE. intros Hf (?&?&?&?&?&?) Hle Hfit.
  unfold copy, PRE_RESERVE_HEADER_SIZE. rewrite rd_at_ok by lia. cbn [rbind].
  rewrite wr_at_ok by (rewrite ?Hf, ?length_slice; lia). cbn [rbind].
  eexists. split; [reflexivity|]. unfold contents; cbn [start_ data_len_ buffer_].
  rewrite slice_splice_disj by (rewrite ?Hf, ?length_slice by lia; lia). reflexivity.
Qed.

Lemma copy_loses_data_witness :
  let d := buffer_of (rbind (AppendData zeros (buffer_of (new_DataBuffer zeros 300)) (Some [1; 2; 3]))
                            (fun r => Ok (fst r))) in
  contents d = [1; 2; 3] /\ exists d', copy zeros d = Ok d' /\ contents d' = [0; 0; 0].
Proof.
  intros d. split; [vm_compute; reflexivity|].
  destruct (copy_loses_data zeros d zeros_length) as (d' & Hd & Hc).
  - unfold inv. eval_done.
  - eval_done.
  - eval_done.
  - exists d'. split; [exact Hd|]. rewrite Hc. vm_compute. reflexivity.
Defined.

(** a buffer constructed with less than the reserved size underflows its limit,
    and an append past the allocation writes outside it. *)
Theorem small_buffer_overflows :
  (let! d := new_DataBuffer zeros 100 in AppendData zeros d (Some (replicate 101 7)))
  = Undef OobWrite.
Proof. vm_compute. reflexivity. Qed.

End DataBuffer.
