(* ===== verification/RtpPub.v ===== *)
(** [net/rtprtcp/rtprtcp_pub.hpp], [rtcp_fb_pub.hpp] and [CompareSeq] of
    [rtp_packet.hpp]: packet types, the packed headers overlaid on a datagram, the
    RTP/RTCP demultiplexing tests and sequence-number comparison. *)
From S2P Require Import Prelude ByteStream.
Import ByteStream.

Module RtpPub.

Definition RTP_PACKET_MAX_SIZE : Z := 1500.
Definition SEQUENCE_MAX : Z := 65535.
Definition RTP_SEQ_MOD : Z := 65536.

Inductive RTCP_TYPE := RTCP_SR | RTCP_RR | RTCP_SDES | RTCP_BYE | RTCP_APP | RTCP_RTPFB | RTCP_PSFB | RTCP_XR.
Definition RTCP_TYPE_val (t : RTCP_TYPE) : Z :=
  match t with
  | RTCP_SR => 200 | RTCP_RR => 201 | RTCP_SDES => 202 | RTCP_BYE => 203
  | RTCP_APP => 204 | RTCP_RTPFB => 205 | RTCP_PSFB => 206 | RTCP_XR => 207
  end.

Inductive RTCP_FB_RTP_FMT :=
  | FB_RTP_NACK | FB_RTP_TMMBR | FB_RTP_TMMBN | FB_RTP_SR_REQ | FB_RTP_RAMS
  | FB_RTP_TLLEI | FB_RTP_ECN | FB_RTP_PS | FB_RTP_TCC | FB_RTP_EXT.
Definition RTCP_FB_RTP_FMT_val (t : RTCP_FB_RTP_FMT) : Z :=
  match t with
  | FB_RTP_NACK => 1 | FB_RTP_TMMBR => 3 | FB_RTP_TMMBN => 4 | FB_RTP_SR_REQ => 5
  | FB_RTP_RAMS => 6 | FB_RTP_TLLEI => 7 | FB_RTP_ECN => 8 | FB_RTP_PS => 9
  | FB_RTP_TCC => 15 | FB_RTP_EXT => 31
  end.

Inductive RTCP_FB_PS_FMT :=
  | FB_PS_PLI | FB_PS_SLI | FB_PS_RPSI | FB_PS_FIR | FB_PS_TSTR | FB_PS_TSTN
  | FB_PS_VBCM | FB_PS_PSLEI | FB_PS_ROI | FB_PS_AFB | FB_PS_EXT.
Definition RTCP_FB_PS_FMT_val (t : RTCP_FB_PS_FMT) : Z :=
  match t with
  | FB_PS_PLI => 1 | FB_PS_SLI => 2 | FB_PS_RPSI => 3 | FB_PS_FIR => 4 | FB_PS_TSTR => 5
  | FB_PS_TSTN => 6 | FB_PS_VBCM => 7 | FB_PS_PSLEI => 8 | FB_PS_ROI => 9
  | FB_PS_AFB => 15 | FB_PS_EXT => 31
  end.

Inductive XR_BLOCK_TYPE := XR_LRLE | XR_DRLE | XR_PRT | XR_RRT | XR_DLRR | XR_SS | XR_VM.
Definition XR_BLOCK_TYPE_val (t : XR_BLOCK_TYPE) : Z :=
  match t with
  | XR_LRLE => 1 | XR_DRLE => 2 | XR_PRT => 3 | XR_RRT => 4 | XR_DLRR => 5 | XR_SS => 6 | XR_VM => 7
  end.

(** A bit field of the cell at [p], as the compiler lays them out on a
    little-endian host: the first declared field in the low bits. *)
Definition get_field (b : buf) (p : nat) (lo w : Z) : res Z :=
  let! x := rd8 b p in Ok (bits x lo w).
Definition set_field (b : buf) (p : nat) (lo w v : Z) : res buf :=
  let! x := rd8 b p in wr8 b p (set_bits x lo w v).

(** [RtcpCommonHeader] and [RtcpFbCommonHeader]: four bytes; [count] and [fmt] share a place. *)
Module RtcpCommonHeader.
Definition size : nat := 4.
Definition count (b : buf) (p : nat) := get_field b p 0 5.
Definition padding (b : buf) (p : nat) := get_field b p 5 1.
Definition version (b : buf) (p : nat) := get_field b p 6 2.
Definition packet_type (b : buf) (p : nat) := rd8 b (p + 1).
Definition length (b : buf) (p : nat) := load16 b (p + 2).
Definition set_count (b : buf) (p : nat) (v : Z) := set_field b p 0 5 v.
Definition set_padding (b : buf) (p : nat) (v : Z) := set_field b p 5 1 v.
Definition set_version (b : buf) (p : nat) (v : Z) := set_field b p 6 2 v.
Definition set_packet_type (b : buf) (p : nat) (v : Z) := wr8 b (p + 1) (u8 v).
Definition set_length (b : buf) (p : nat) (v : Z) := store16 b (p + 2) v.
End RtcpCommonHeader.

(** [RtcpFbHeader]: the two SSRCs after the common feedback header. *)
Module RtcpFbHeader.
Definition size : nat := 8.
Definition sender_ssrc (b : buf) (p : nat) := load32 b p.
Definition media_ssrc (b : buf) (p : nat) := load32 b (p + 4).
Definition set_sender_ssrc (b : buf) (p : nat) (v : Z) := store32 b p v.
Definition set_media_ssrc (b : buf) (p : nat) (v : Z) := store32 b (p + 4) v.
End RtcpFbHeader.

(** [RtpCommonHeader]: twelve bytes at the start of the datagram. *)
Module RtpCommonHeader.
Definition size : nat := 12.
Definition csrc_count (b : buf) := get_field b 0 0 4.
Definition extension (b : buf) := get_field b 0 4 1.
Definition padding (b : buf) := get_field b 0 5 1.
Definition version (b : buf) := get_field b 0 6 2.
Definition payload_type (b : buf) := get_field b 1 0 7.
Definition marker (b : buf) := get_field b 1 7 1.
Definition sequence (b : buf) := load16 b 2.
Definition timestamp (b : buf) := load32 b 4.
Definition ssrc (b : buf) := load32 b 8.
Definition set_padding (b : buf) (v : Z) := set_field b 0 5 1 v.
Definition set_payload_type (b : buf) (v : Z) := set_field b 1 0 7 v.
Definition set_marker (b : buf) (v : Z) := set_field b 1 7 1 v.
Definition set_sequence (b : buf) (v : Z) := store16 b 2 v.
Definition set_timestamp (b : buf) (v : Z) := store32 b 4 v.
Definition set_ssrc (b : buf) (v : Z) := store32 b 8 v.
End RtpCommonHeader.

(** The conjunctions short-circuit, so nothing is read of a too short datagram. *)
Definition IsRtcp (data : buf) (len : nat) : res bool :=
  if (len <? RtcpCommonHeader.size)%nat then Ok false else
  let! d0 := rd8 data 0 in
  if negb ((127 <? d0) && (d0 <? 192)) then Ok false else
  let! v := RtcpCommonHeader.version data 0 in
  if negb (v =? 2) then Ok false else
  let! pt := RtcpCommonHeader.packet_type data 0 in
  Ok ((192 <=? pt) && (pt <=? 223)).

Definition IsRtp (data : buf) (len : nat) : res bool :=
  if (len <? RtpCommonHeader.size)%nat then Ok false else
  let! d0 := rd8 data 0 in
  if negb ((127 <? d0) && (d0 <? 192)) then Ok false else
  let! v := RtpCommonHeader.version data in
  Ok (v =? 2).

Definition GetRtcpLength (data : buf) (p : nat) : res Z :=
  let! l := RtcpCommonHeader.length data p in Ok ((ntohs l + 1) * 4).

(** The [uint16_t] operands are promoted to [int], so the differences do not wrap. *)
Definition SeqLowerThan (seq1 seq2 : Z) : bool :=
  if (seq2 <? seq1) && (SEQUENCE_MAX / 2 <? seq1 - seq2) then true
  else if (seq1 <? seq2) && (seq2 - seq1 <=? SEQUENCE_MAX / 2) then true
  else false.

Definition SeqHigherThan (seq1 seq2 : Z) : bool :=
  if seq1 =? seq2 then false else
  let ret := SeqLowerThan seq1 seq2 in negb ret.

Inductive SEQ_COMPARE_RESULT :=
  | NORMAL_SEQ | REPEAT_SEQ | JUMP_LARGE_SEQ | REVERSE_SEQ | DISCORD_SEQ | LITTLE_JUMP_SEQ.
#[export] Instance SEQ_COMPARE_RESULT_eq_dec : EqDecision SEQ_COMPARE_RESULT.
Proof. solve_decision. Defined.

Definition MAX_GAP : Z := 3000.

Definition CompareSeq (last_seq current_seq : Z) : SEQ_COMPARE_RESULT :=
  if current_seq =? last_seq then REPEAT_SEQ
  else if current_seq =? last_seq + 1 then NORMAL_SEQ
  else if current_seq <? last_seq then
    if MAX_GAP <? last_seq - current_seq then REVERSE_SEQ else NORMAL_SEQ
  else
    if last_seq + MAX_GAP <? current_seq then JUMP_LARGE_SEQ else LITTLE_JUMP_SEQ.

(** * Header accesses in big-endian normal form *)

Lemma get_field_ok b p lo w :
  (p < List.length b)%nat -> exists x, b !! p = Some x /\ get_field b p lo w = Ok (bits x lo w).
Proof. intros (x & Hx & Hr)%rd8_ok. exists x. unfold get_field. by rewrite Hr. Qed.

Lemma set_field_ok b p lo w v :
  (p < List.length b)%nat ->
  exists x, b !! p = Some x /\ set_field b p lo w v = Ok (<[p := set_bits x lo w v]> b).
Proof.
  intros H. destruct (rd8_ok b p H) as (x & Hx & Hr). exists x.
  unfold set_field. rewrite Hr. simpl. by rewrite wr8_ok.
Qed.

Lemma bits_range v lo w : 0 <= w -> 0 <= bits v lo w < 2 ^ w.
Proof. intros. apply Z.mod_pos_bound. by apply Z.pow_pos_nonneg. Qed.

(** A replaced field reads back, and the other fields of the cell keep their value. *)
Lemma bits_set_bits_same v lo w x :
  0 <= lo -> 0 <= w -> bits (set_bits v lo w x) lo w = x mod 2 ^ w.
Proof.
  intros. unfold bits, set_bits, bits.
  assert (0 < 2 ^ lo) by (by apply Z.pow_pos_nonneg).
  assert (0 < 2 ^ w) by (by apply Z.pow_pos_nonneg).
  replace (v - _ + _) with (v + (x mod 2 ^ w - (v / 2 ^ lo) mod 2 ^ w) * 2 ^ lo) by ring.
  rewrite Z.div_add by lia.
  replace (v / 2 ^ lo + _) with
    (x mod 2 ^ w + ((v / 2 ^ lo) / 2 ^ w) * 2 ^ w)
    by (rewrite (Z.div_mod (v / 2 ^ lo) (2 ^ w)) at 2 by lia; ring).
  rewrite Z.mod_add by lia. by rewrite Z.mod_mod by lia.
Qed.

Lemma set_bits_byte lo w : 0 <= lo -> 0 <= w -> lo + w <= 8 ->
  forall v x, byte v -> byte (set_bits v lo w x).
Proof.
  intros ??? v x [? ?]. unfold set_bits, bits, byte.
  assert (0 < 2 ^ lo) by (by apply Z.pow_pos_nonneg).
  assert (0 < 2 ^ w) by (by apply Z.pow_pos_nonneg).
  assert (0 < 2 ^ (8 - lo - w)) by (apply Z.pow_pos_nonneg; lia).
  assert (256 = 2 ^ lo * (2 ^ w * 2 ^ (8 - lo - w))) as E.
  { rewrite <- !Z.pow_add_r by lia. replace (lo + _) with 8 by lia. done. }
  pose proof (Z.mod_pos_bound x (2 ^ w)). pose proof (Z.mod_pos_bound (v / 2 ^ lo) (2 ^ w)).
  pose proof (Z.div_mod v (2 ^ lo)). pose proof (Z.mod_pos_bound v (2 ^ lo)).
  pose proof (Z.div_mod (v / 2 ^ lo) (2 ^ w)).
  assert (0 <= v / 2 ^ lo / 2 ^ w < 2 ^ (8 - lo - w)).
  { split; [repeat apply Z.div_pos; lia|].
    rewrite Z.div_div by lia. apply Z.div_lt_upper_bound; [lia|]. rewrite E in *. lia. }
  set (q := v / 2 ^ lo / 2 ^ w) in *. set (m := (v / 2 ^ lo) mod 2 ^ w) in *.
  set (r := v mod 2 ^ lo) in *. set (y := x mod 2 ^ w) in *.
  set (A := 2 ^ lo) in *. set (W := 2 ^ w) in *. set (C := 2 ^ (8 - lo - w)) in *.
  assert (v = A * (W * q + m) + r) as Hv by lia.
  replace (v - m * A + y * A) with (A * (W * q + y) + r) by (rewrite Hv; ring).
  rewrite E. split; [nia|].
  assert (W * q + y + 1 <= W * C) by nia. nia.
Qed.

Lemma GetRtcpLength_eq d p :
  bytes d -> (p + 4 <= List.length d)%nat -> GetRtcpLength d p = Ok ((net16 d (p + 2) + 1) * 4).
Proof.
  intros. unfold GetRtcpLength, RtcpCommonHeader.length, load16.
  rewrite rd_bytes_ok by lia. cbn [rbind].
  rewrite ntohs_le_val by (by apply bytes_slice || (apply length_slice; lia)). done.
Qed.

(** The five stores with which every RTCP packet fills its common header. *)
Lemma first_byte_filled b n :
  byte b -> set_bits (set_bits (set_bits b 6 2 2) 5 1 0) 0 5 n = 128 + n mod 32.
Proof.
  intros [? ?]. pose proof (Z.mod_pos_bound n 32 ltac:(lia)).
  unfold set_bits, bits. change (2 ^ 6) with 64. change (2 ^ 5) with 32. change (2 ^ 2) with 4.
  change (2 ^ 1) with 2. change (2 ^ 0) with 1. zlia.
Qed.

Lemma rtcp_header_filled {A} (d : buf) (p : nat) (n pt len : Z) (K : buf -> res A) :
  bytes d -> (p + 4 <= List.length d)%nat ->
  (let! d := RtcpCommonHeader.set_version d p 2 in
   let! d := RtcpCommonHeader.set_padding d p 0 in
   let! d := RtcpCommonHeader.set_count d p n in
   let! d := RtcpCommonHeader.set_packet_type d p pt in
   let! d := RtcpCommonHeader.set_length d p (htons len) in K d) =
  K (splice p ([128 + n mod 32; u8 pt] ++ be_bytes 2 len) d).
Proof.
  intros Hb Hl. unfold RtcpCommonHeader.set_version, RtcpCommonHeader.set_padding, RtcpCommonHeader.set_count,
    RtcpCommonHeader.set_packet_type, RtcpCommonHeader.set_length, set_field.
  rewrite rd8_cell by lia. cbn [rbind]. rewrite wr8_ok by lia. cbn [rbind].
  do 2 (rewrite rd8_cell by (rewrite ?length_insert; lia); cbn [rbind];
    rewrite cell_insert_eq by (rewrite ?length_insert; lia);
    rewrite wr8_ok by (rewrite ?length_insert; lia); cbn [rbind]; rewrite list_insert_insert_eq).
  rewrite first_byte_filled by (apply cell_byte; (done || lia)).
  rewrite wr8_ok by (rewrite ?length_insert; lia). cbn [rbind].
  rewrite store16_htons, wr_bytes_ok by (rewrite ?length_insert, ?length_be_bytes; lia). cbn [rbind].
  f_equal. apply list_eq. intros k.
  rewrite !lookup_splice by (rewrite ?length_insert, ?length_app, ?length_be_bytes; cbn [List.length]; lia).
  rewrite length_app, length_be_bytes. cbn [List.length].
  destruct (decide (k = p)) as [->|].
  { rewrite decide_False, decide_True by lia. rewrite list_lookup_insert_ne by lia.
    rewrite list_lookup_insert_eq by lia. by rewrite Nat.sub_diag. }
  destruct (decide (k = p + 1)%nat) as [->|].
  { rewrite decide_False, decide_True by lia. rewrite list_lookup_insert_eq by (rewrite length_insert; lia).
    by replace (p + 1 - p)%nat with 1%nat by lia. }
  rewrite !list_lookup_insert_ne by lia. repeat case_decide; try lia; [|done].
  rewrite lookup_app_r by (cbn [List.length]; lia). f_equal. cbn [List.length]. lia.
Qed.

(** * Properties *)

(** sequence comparison is RFC 1982 serial order on 16 bits: [seq1] is lower when
    it precedes [seq2] by less than half the circle (at exactly half, the numerically
    larger one is lower), and of two sequence numbers exactly one is lower, or they
    are equal; higher-than is its converse. *)
Theorem seq_order (a b : Z) :
  0 <= a < 65536 -> 0 <= b < 65536 ->
  (SeqLowerThan a b = true <->
     0 < u16 (b - a) < 32768 \/ (u16 (b - a) = 32768 /\ b < a)) /\
  (a <> b -> SeqLowerThan b a = negb (SeqLowerThan a b)) /\
  (a = b -> SeqLowerThan a b = false) /\
  SeqHigherThan a b = SeqLowerThan b a.
Proof.
  intros Ha Hb.
  assert (Hiff : SeqLowerThan a b = true <->
     0 < u16 (b - a) < 32768 \/ (u16 (b - a) = 32768 /\ b < a)).
  { unfold SeqLowerThan, SEQUENCE_MAX.
    change (65535 / 2) with 32767. btests; split; intros; try done; zlia. }
  split; [exact Hiff|]. clear Hiff.
  unfold SeqHigherThan, SeqLowerThan, SEQUENCE_MAX.
  change (65535 / 2) with 32767. split_and!; intros; btests; try done; lia.
Qed.

Lemma seq_order_witness : SeqLowerThan 65530 5 = true /\ SeqHigherThan 5 65530 = true.
Proof.
  split; [apply (seq_order 65530 5); [lia|lia|left; eval_done]|].
  rewrite (proj2 (proj2 (proj2 (seq_order 5 65530 ltac:(lia) ltac:(lia))))).
  apply (seq_order 65530 5); [lia|lia|left; eval_done].
Defined.

(** the jitter buffer's comparison never answers [DISCORD_SEQ]; a number up to
    3000 below the reference, as the one just above it, is [NORMAL_SEQ]; and it does
    not wrap: from 65535 the successor 0 is [REVERSE_SEQ]. *)
Theorem CompareSeq_cases (last cur : Z) :
  0 <= last < 65536 -> 0 <= cur < 65536 ->
  CompareSeq last cur <> DISCORD_SEQ /\
  (CompareSeq last cur = REPEAT_SEQ <-> cur = last) /\
  (CompareSeq last cur = NORMAL_SEQ <-> cur = last + 1 \/ last - MAX_GAP <= cur < last) /\
  (CompareSeq last cur = LITTLE_JUMP_SEQ <-> last + 1 < cur <= last + MAX_GAP) /\
  (CompareSeq last cur = JUMP_LARGE_SEQ <-> last + MAX_GAP < cur) /\
  (CompareSeq last cur = REVERSE_SEQ <-> cur < last - MAX_GAP) /\
  CompareSeq 65535 0 = REVERSE_SEQ.
Proof.
  intros. unfold CompareSeq, MAX_GAP. change (65535 - 0) with 65535.
  split_and!; btests; try done; split; intros; try done; try lia.
Qed.

Lemma CompareSeq_cases_witness : CompareSeq 10 11 = NORMAL_SEQ /\ CompareSeq 10 12 = LITTLE_JUMP_SEQ.
Proof.
  split; [apply (CompareSeq_cases 10 11) | apply (CompareSeq_cases 10 12)]; unfold MAX_GAP; lia.
Defined.

(** demultiplexing reads only inside the datagram, and accepts by first byte:
    what is taken for RTCP has version 2 and a packet type of 192 to 223, and when it
    is long enough it would also pass the RTP test, which is why RTCP is tested first. *)
Theorem demux_rtp_rtcp (data : buf) :
  bytes data ->
  exists c r, IsRtcp data (length data) = Ok c /\ IsRtp data (length data) = Ok r /\
    (c = true -> (12 <= length data)%nat -> r = true) /\
    (c = true -> exists d0 d1 rest, data = d0 :: d1 :: rest /\ 128 <= d0 < 192 /\ 192 <= d1 <= 223) /\
    (r = true -> exists d0 rest, data = d0 :: rest /\ 128 <= d0 < 192).
Proof.
  intros Hb. unfold IsRtcp, IsRtp, RtcpCommonHeader.version, RtpCommonHeader.version,
    RtcpCommonHeader.packet_type, RtcpCommonHeader.size, RtpCommonHeader.size, get_field.
  destruct data as [|d0 [|d1 rest]]; [do 2 eexists; simpl; naive_solver lia..|].
  apply Forall_cons in Hb as [Hd0 Hb]. apply Forall_cons in Hb as [Hd1 _].
  set (n := length (d0 :: d1 :: rest)).
  change (rd8 (d0 :: d1 :: rest) 0) with (Ok d0). change (rd8 (d0 :: d1 :: rest) (0 + 1)) with (Ok d1).
  cbn [rbind].
  assert (Hv : 128 <= d0 < 192 -> bits d0 6 2 = 2) by (intros; unfold bits; zlia).
  destruct (decide (128 <= d0 < 192)) as [Hr|Hr].
  - rewrite Hv by lia. replace (127 <? d0) with true by lia. replace (d0 <? 192) with true by lia.
    cbn [negb andb Z.eqb Pos.eqb].
    destruct (Nat.ltb_spec n 4), (Nat.ltb_spec n 12); do 2 eexists; split_and!; try reflexivity;
      try discriminate; try lia; intros Hc; try (exists d0, d1, rest); try (exists d0, (d1 :: rest));
      split_and!; try reflexivity; lia.
  - replace ((127 <? d0) && (d0 <? 192)) with false by lia. cbn [negb].
    destruct (Nat.ltb_spec n 4), (Nat.ltb_spec n 12); do 2 eexists; split_and!;
      try reflexivity; discriminate.
Qed.

Lemma demux_rtp_rtcp_witness :
  bytes [128; 200; 0; 1] /\ IsRtcp [128; 200; 0; 1] 4 = Ok true.
Proof.
  assert (Hb : bytes [128; 200; 0; 1]) by bytes_done.
  split; [exact Hb|].
  destruct (demux_rtp_rtcp [128; 200; 0; 1] Hb) as (c & r & Hc & _).
  change (IsRtcp [128; 200; 0; 1] (length [128; 200; 0; 1]) = Ok true).
  rewrite Hc. vm_compute in Hc. congruence.
Defined.

End RtpPub.
