(* ===== verification/WebSocketFrame.v ===== *)
(** [net/http/websocket/websocket_frame.cpp]: the incremental parser of WebSocket
    frames over a [DataBuffer], with its masking loop.  A reference decoder of the
    RFC 6455 frame layout on a plain byte string says what the parser must answer. *)
From S2P Require Import Prelude DataBuffer.

Module WebSocketFrame.

Definition WS_OP_CONTINUE_TYPE : Z := 0.
Definition WS_OP_TEXT_TYPE : Z := 1.
Definition WS_OP_BIN_TYPE : Z := 2.
Definition WS_OP_CLOSE_TYPE : Z := 8.
Definition WS_OP_PING_TYPE : Z := 9.
Definition WS_OP_PONG_TYPE : Z := 10.

(** The two bytes of [WS_PACKET_HEADER]: bit fields from the low bit up. *)
Definition hdr_opcode (b0 : Z) : Z := bits b0 0 4.
Definition hdr_fin (b0 : Z) : Z := bits b0 7 1.
Definition hdr_payload_len (b1 : Z) : Z := bits b1 0 7.
Definition hdr_mask (b1 : Z) : Z := bits b1 7 1.

Record t := mk {
  buffer_ : DataBuffer.t;
  payload_start_ : Z;
  payload_len_ : Z;
  opcode_ : Z;
  mask_enable_ : bool;
  fin_ : bool;
  header_ready_ : bool;
  masking_key_ : list Z
}.

Definition with_buffer (f : t) (b : DataBuffer.t) : t :=
  mk b (payload_start_ f) (payload_len_ f) (opcode_ f) (mask_enable_ f) (fin_ f)
     (header_ready_ f) (masking_key_ f).
Definition with_memory (f : t) (m : buf) : t :=
  let b := buffer_ f in
  with_buffer f (DataBuffer.mk (DataBuffer.sent_flag_ b) (DataBuffer.dst_ip_ b)
    (DataBuffer.dst_port_ b) m (DataBuffer.buffer_size_ b) (DataBuffer.data_len_ b)
    (DataBuffer.start_ b) (DataBuffer.end_ b)).

(** [*p] and [*p = v] at an address inside an allocation. *)
Definition rdz (b : buf) (p : Z) : res Z :=
  if decide (p < 0) then Undef OobRead else rd8 b (Z.to_nat p).
Definition wrz (b : buf) (p v : Z) : res buf :=
  if decide (p < 0) then Undef OobWrite else wr8 b (Z.to_nat p) v.

(** * Masking *)

Definition xor_at (b : buf) (p k : Z) : res buf := let! x := rdz b p in wrz b p (Z.lxor x k).

Fixpoint mask_words (fuel : nat) (b : buf) (p i temp_len : Z) (key : list Z) : res buf :=
  match fuel with
  | O => Undef OutOfFuel
  | S fuel' =>
      if decide (i < temp_len) then
        let! b := xor_at b (p + (i + 0)) (key !!! 0%nat) in
        let! b := xor_at b (p + (i + 1)) (key !!! 1%nat) in
        let! b := xor_at b (p + (i + 2)) (key !!! 2%nat) in
        let! b := xor_at b (p + (i + 3)) (key !!! 3%nat) in
        mask_words fuel' b p (u64 (i + 4)) temp_len key
      else Ok b
  end.

Fixpoint mask_tail (fuel : nat) (b : buf) (p i frame_length : Z) (key : list Z) : res buf :=
  match fuel with
  | O => Undef OutOfFuel
  | S fuel' =>
      if decide (i < frame_length) then
        let! b := xor_at b (p + i) (key !!! Z.to_nat (i mod 4)) in
        mask_tail fuel' b p (u64 (i + 1)) frame_length key
      else Ok b
  end.

(** [frame_length & ~3]: the [int] [~3] is converted to [size_t]. *)
Definition mask_loops (b : buf) (p frame_length : Z) (key : list Z) : res buf :=
  let temp_len := Z.land frame_length (u64 (Z.lnot 3)) in
  let! b := mask_words (S (length b)) b p 0 temp_len key in
  mask_tail (S (length b)) b p temp_len frame_length key.

(** * Parsing *)

(** [ext_len |= v] on an [int64_t] and a [uint64_t]. *)
Definition or64 (ext_len v : Z) : Z := i64 (Z.lor (u64 ext_len) (u64 v)).

Definition ext_len64 (m : buf) (p : Z) : res Z :=
  let! b := rdz m p in let ext_len := or64 0 (Z.shiftl b 56) in
  let! b := rdz m (p + 1) in let ext_len := or64 ext_len (Z.shiftl b 48) in
  let! b := rdz m (p + 2) in let ext_len := or64 ext_len (Z.shiftl b 40) in
  let! b := rdz m (p + 3) in let ext_len := or64 ext_len (Z.shiftl b 32) in
  let! b := rdz m (p + 4) in let ext_len := or64 ext_len (Z.shiftl b 24) in
  let! b := rdz m (p + 5) in let ext_len := or64 ext_len (Z.shiftl b 16) in
  let! b := rdz m (p + 6) in let ext_len := or64 ext_len (Z.shiftl b 8) in
  let! b := rdz m (p + 7) in Ok (or64 ext_len b).

Definition ext_len16 (m : buf) (p : Z) : res Z :=
  let! b := rdz m p in let payload_len := Z.lor 0 (Z.shiftl b 8) in
  let! b := rdz m (p + 1) in Ok (Z.lor payload_len b).

(** The lengths behind the first two bytes: [payload_len_] and [payload_start_], or
    [None] when they have not arrived. *)
Definition read_length (m : buf) (h len7 data_len : Z) : res (option (Z * Z)) :=
  if decide (len7 = 127) then
    if decide (data_len < 10) then Ok None
    else let! l := ext_len64 m (h + 2) in Ok (Some (l, 10))
  else if decide (len7 = 126) then
    if decide (data_len < 4) then Ok None
    else let! l := ext_len16 m (h + 2) in Ok (Some (l, 4))
  else Ok (Some (len7, 2)).

(** The block guarded by [!header_ready_]; the flag of the result is [true] where the
    source returns 1 out of it. *)
Definition read_header (f : t) : res (t * bool) :=
  let m := DataBuffer.buffer_ (buffer_ f) in
  let h := DataBuffer.Data (buffer_ f) in
  let data_len := DataBuffer.DataLen (buffer_ f) in
  let! b0 := rdz m h in
  let! b1 := rdz m (h + 1) in
  let fin := bool_decide (hdr_fin b0 <> 0) in
  let opcode := hdr_opcode b0 in
  let! lens := read_length m h (hdr_payload_len b1) data_len in
  match lens with
  | None =>
      Ok (mk (buffer_ f) 2 (hdr_payload_len b1) opcode (mask_enable_ f) fin false
             (masking_key_ f), true)
  | Some (len, start) =>
      if decide (hdr_mask b1 <> 0) then
        if decide (i32 data_len < start + 4) then
          Ok (mk (buffer_ f) start len opcode true fin false (masking_key_ f), true)
        else
          let! k0 := rdz m (h + start) in
          let! k1 := rdz m (h + start + 1) in
          let! k2 := rdz m (h + start + 2) in
          let! k3 := rdz m (h + start + 3) in
          Ok (mk (buffer_ f) (start + 4) len opcode true fin true [k0; k1; k2; k3], false)
      else Ok (mk (buffer_ f) start len opcode false fin true (masking_key_ f), false)
  end.

(** An [int64_t] sum: overflow is undefined. *)
Definition add_i64 (a b : Z) : res Z :=
  if decide (- 2 ^ 63 <= a + b < 2 ^ 63) then Ok (a + b) else Undef IntOverflow.

Definition read_payload (f : t) : res (t * Z) :=
  let! need := add_i64 (payload_start_ f) (payload_len_ f) in
  if decide (i32 (DataBuffer.DataLen (buffer_ f)) < need) then Ok (f, 1)
  else if mask_enable_ f then
    let! m := mask_loops (DataBuffer.buffer_ (buffer_ f))
                (DataBuffer.Data (buffer_ f) + payload_start_ f)
                (u64 (payload_len_ f)) (masking_key_ f) in
    Ok (with_memory f m, 0)
  else Ok (f, 0).

(** [new WebSocketFrame()]: the masking key is not initialised. *)
Definition new_WebSocketFrame (fresh : nat -> buf) : res t :=
  let! b := DataBuffer.new_DataBuffer fresh DataBuffer.EXTRA_LEN in
  Ok (mk b 0 0 0 false false false (fresh 4%nat)).

(** [Parse] behind its call of [AppendData]. *)
Definition parse_buffered (f : t) : res (t * Z) :=
  if decide (DataBuffer.DataLen (buffer_ f) < 2) then Ok (f, 1) else
  let! (f, short) := if header_ready_ f then Ok (f, false) else read_header f in
  if (short : bool) then Ok (f, 1) else read_payload f.

(** [None] is the null pointer. *)
Definition Parse (fresh : nat -> buf) (f : t) (data : option (list Z)) : res (t * Z) :=
  let! f :=
    match data with
    | Some (x :: l) =>
        let! (b, _) := DataBuffer.AppendData fresh (buffer_ f) (Some (x :: l)) in
        Ok (with_buffer f b)
    | _ => Ok f
    end in
  parse_buffered f.

Definition GetPayloadStart (f : t) : Z := payload_start_ f.
Definition GetPayloadLen (f : t) : Z := payload_len_ f.
Definition GetPayloadData (f : t) : Z := DataBuffer.Data (buffer_ f) + payload_start_ f.
Definition GetBufferLen (f : t) : Z := DataBuffer.DataLen (buffer_ f).
Definition PayloadIsReady (f : t) : bool :=
  bool_decide (i32 (payload_len_ f) <= i32 (DataBuffer.DataLen (buffer_ f)) - payload_start_ f).
Definition Consume (f : t) (len : Z) : t * option Z :=
  let (b, p) := DataBuffer.ConsumeData (buffer_ f) (i32 len) in (with_buffer f b, p).
Definition GetOperCode (f : t) : Z := opcode_ f.
Definition GetFin (f : t) : bool := fin_ f.
Definition IsHeaderReady (f : t) : bool := header_ready_ f.
Definition Reset (f : t) : t :=
  mk (buffer_ f) 0 0 (opcode_ f) (mask_enable_ f) (fin_ f) false (masking_key_ f).

(** * The reference: RFC 6455 frames on a byte string *)

Record header := Header {
  h_fin : bool;
  h_op : Z;
  h_key : option (list Z);
  h_len : Z;
  h_start : nat
}.

Definition ext_bytes (b1 : Z) : nat :=
  if decide (b1 mod 128 = 127) then 8%nat else if decide (b1 mod 128 = 126) then 2%nat else 0%nat.

Definition decode_header (c : list Z) : option header :=
  match c with
  | b0 :: b1 :: _ =>
      let ext := ext_bytes b1 in
      let masked := 128 <=? b1 mod 256 in
      let start := (2 + ext + (if masked then 4 else 0))%nat in
      if (start <=? length c)%nat then
        Some (Header (128 <=? b0 mod 256) (b0 mod 16)
                (if masked then Some (slice (2 + ext) 4 c) else None)
                (if decide (ext = 0%nat) then b1 mod 128 else be_val (slice 2 ext c)) start)
      else None
  | _ => None
  end.

Definition unmask (key : list Z) (l : list Z) : list Z :=
  imap (fun i x => Z.lxor x (key !!! (i mod 4)%nat)) l.

Record frame := Frame { fr_fin : bool; fr_op : Z; fr_payload : list Z }.

(** The length field of a frame has 64 bits; from about [2^63] on it is no object
    size and the code does not handle it ([TooLong]). *)
Inductive decoded :=
  | Incomplete
  | TooLong
  | Decoded (fr : frame) (rest : list Z).

Definition next_frame (c : list Z) : decoded :=
  match decode_header c with
  | None => Incomplete
  | Some h =>
      if decide (2 ^ 63 <= Z.of_nat (h_start h) + h_len h) then TooLong
      else if decide (Z.of_nat (h_start h) + h_len h <= Z.of_nat (length c)) then
        let body := slice (h_start h) (Z.to_nat (h_len h)) c in
        Decoded (Frame (h_fin h) (h_op h)
                   (match h_key h with Some key => unmask key body | None => body end))
                (drop (h_start h + Z.to_nat (h_len h)) c)
      else Incomplete
  end.


(** * Masking is a byte-wise exclusive or *)

(** [b] with the bytes [i .. j-1] behind [p] combined with the key. *)
Definition xor_range (p i j : Z) (key : list Z) (b : buf) : buf :=
  imap (fun k x => if decide (p + i <= Z.of_nat k < p + j)
                   then Z.lxor x (key !!! Z.to_nat ((Z.of_nat k - p) mod 4)) else x) b.

Lemma length_xor_range p i j key b : length (xor_range p i j key b) = length b.
Proof. apply length_imap. Qed.

Lemma lookup_xor_range p i j key b k :
  xor_range p i j key b !! k =
  (fun x => if decide (p + i <= Z.of_nat k < p + j)
            then Z.lxor x (key !!! Z.to_nat ((Z.of_nat k - p) mod 4)) else x) <$> b !! k.
Proof. unfold xor_range. by rewrite list_lookup_imap. Qed.

Lemma xor_range_nil p i key b : xor_range p i i key b = b.
Proof.
  apply list_eq. intros k. rewrite lookup_xor_range. destruct (b !! k); [|done]. simpl.
  by rewrite decide_False by lia.
Qed.

Lemma xor_range_app p i j k key b :
  i <= j <= k -> xor_range p j k key (xor_range p i j key b) = xor_range p i k key b.
Proof.
  intros ?. apply list_eq. intros n. rewrite !lookup_xor_range. destruct (b !! n); [|done].
  simpl. f_equal. repeat case_decide; (done || lia).
Qed.

Lemma rdz_lookup b p x : 0 <= p -> b !! Z.to_nat p = Some x -> rdz b p = Ok x.
Proof. intros ? H. unfold rdz, rd8. rewrite decide_False by lia. by rewrite H. Qed.

Lemma xor_at_range p i key b k :
  0 <= p + i < Z.of_nat (length b) -> k = key !!! Z.to_nat (i mod 4) ->
  xor_at b (p + i) k = Ok (xor_range p i (i + 1) key b).
Proof.
  intros Hi ->. destruct (lookup_lt_is_Some_2 b (Z.to_nat (p + i))) as [x Hx]; [lia|].
  unfold xor_at. rewrite (rdz_lookup b (p + i) x) by (lia || done). cbn [rbind].
  unfold wrz, wr8. rewrite decide_False by lia.
  rewrite (proj2 (Nat.ltb_lt _ _)) by lia. f_equal. apply list_eq. intros k.
  rewrite lookup_xor_range. destruct (decide (k = Z.to_nat (p + i))) as [->|Hk].
  - rewrite list_lookup_insert_eq by lia. rewrite Hx. simpl. rewrite decide_True by lia.
    repeat f_equal. lia.
  - rewrite list_lookup_insert_ne by done. destruct (b !! k); [|done]. simpl.
    by rewrite decide_False by lia.
Qed.

Lemma mask_tail_range fuel p i n key b :
  0 <= p -> 0 <= i <= n -> p + n <= Z.of_nat (length b) < 2 ^ 63 -> n - i < Z.of_nat fuel ->
  mask_tail fuel b p i n key = Ok (xor_range p i n key b).
Proof.
  revert i b. induction fuel as [|fuel IH]; intros i b ????; [lia|]. simpl. case_decide.
  - rewrite (xor_at_range p i key) by (lia || done). cbn [rbind].
    replace (u64 (i + 1)) with (i + 1) by zlia.
    rewrite IH by (rewrite ?length_xor_range; lia). by rewrite xor_range_app by lia.
  - replace i with n by lia. by rewrite xor_range_nil.
Qed.

Lemma mask_words_range fuel p i n key b :
  0 <= p -> 0 <= i <= n -> p + n <= Z.of_nat (length b) < 2 ^ 63 -> n - i < Z.of_nat fuel ->
  i mod 4 = 0 -> n mod 4 = 0 ->
  mask_words fuel b p i n key = Ok (xor_range p i n key b).
Proof.
  revert i b. induction fuel as [|fuel IH]; intros i b ??????; [lia|]. simpl. case_decide.
  - assert (Hk : forall j, 0 <= j < 4 -> Z.to_nat ((i + j) mod 4) = Z.to_nat j)
      by (intros; f_equal; zlia).
    assert (i + 4 <= n) by zlia.
    do 4 (rewrite (xor_at_range p _ key) by (rewrite ?length_xor_range, ?Hk; (lia || done));
          cbn [rbind]).
    rewrite <- !Z.add_assoc, !Z.add_0_r. change (0 + 1) with 1. change (1 + 1) with 2.
    change (2 + 1) with 3. change (3 + 1) with 4.
    rewrite (xor_range_app p i (i + 1) (i + 2)), (xor_range_app p i (i + 2) (i + 3)),
      (xor_range_app p i (i + 3) (i + 4)) by lia.
    replace (u64 (i + 4)) with (i + 4) by zlia.
    rewrite IH by (rewrite ?length_xor_range; zlia). by rewrite xor_range_app by zlia.
  - replace i with n by lia. by rewrite xor_range_nil.
Qed.

Lemma land_not3 n : 0 <= n < 2 ^ 64 -> Z.land n (u64 (Z.lnot 3)) = n - n mod 4.
Proof.
  intros. unfold u64. change 18446744073709551616 with (2 ^ 64).
  rewrite <- Z.land_ones by lia. rewrite (Z.land_comm (Z.lnot 3)), Z.land_assoc, Z.land_ones by lia.
  rewrite Z.mod_small by done. rewrite <- Z.ldiff_land. change 3 with (Z.ones 2).
  rewrite Z.ldiff_ones_r, Z.shiftr_div_pow2, Z.shiftl_mul_pow2 by lia. change (2 ^ 2) with 4. zlia.
Qed.

Lemma mask_loops_range p n key b :
  0 <= p -> 0 <= n -> p + n <= Z.of_nat (length b) < 2 ^ 63 ->
  mask_loops b p n key = Ok (xor_range p 0 n key b).
Proof.
  intros. unfold mask_loops. rewrite land_not3 by lia.
  rewrite mask_words_range by zlia. cbn [rbind].
  rewrite mask_tail_range by (rewrite ?length_xor_range; zlia). by rewrite xor_range_app by zlia.
Qed.

Lemma length_unmask key l : length (unmask key l) = length l.
Proof. apply length_imap. Qed.

Lemma unmask_involutive key l : unmask key (unmask key l) = l.
Proof.
  apply list_eq. intros k. unfold unmask. rewrite !list_lookup_imap.
  destruct (l !! k); [|done]. simpl. f_equal.
  by rewrite Z.lxor_assoc, Z.lxor_nilpotent, Z.lxor_0_r.
Qed.

Lemma slice_xor_range p n key b :
  slice p n (xor_range (Z.of_nat p) 0 (Z.of_nat n) key b) = unmask key (slice p n b).
Proof.
  apply list_eq. intros k. unfold unmask. rewrite list_lookup_imap, !lookup_slice.
  case_decide; [|done]. rewrite lookup_xor_range. destruct (b !! (p + k)%nat); [|done]. simpl.
  rewrite decide_True by lia.
  replace (Z.of_nat (p + k) - Z.of_nat p) with (Z.of_nat k) by lia.
  assert (Z.to_nat (Z.of_nat k mod 4) = (k mod 4)%nat) as ->; [|done].
  change 4 with (Z.of_nat 4). by rewrite <- Nat2Z.inj_mod, Nat2Z.id.
Qed.

Lemma slice_xor_range_disj p n key b j m :
  (p + n <= j)%nat -> slice j m (xor_range (Z.of_nat p) 0 (Z.of_nat n) key b) = slice j m b.
Proof.
  intros. apply list_eq. intros k. rewrite !lookup_slice. case_decide; [|done].
  rewrite lookup_xor_range. destruct (b !! (j + k)%nat); [|done]. simpl.
  by rewrite decide_False by lia.
Qed.

(** ** Masking ends for every length *)

Lemma xor_at_cases b p k :
  (exists b', xor_at b p k = Ok b' /\ length b' = length b /\ 0 <= p < Z.of_nat (length b)) \/
  (exists u, xor_at b p k = Undef u /\ u <> OutOfFuel /\ ~ 0 <= p < Z.of_nat (length b)).
Proof.
  destruct (decide (0 <= p < Z.of_nat (length b))) as [Hp|Hp].
  - left. destruct (lookup_lt_is_Some_2 b (Z.to_nat p)) as [x Hx]; [lia|].
    unfold xor_at. rewrite (rdz_lookup b p x) by (lia || done). cbn [rbind]. unfold wrz, wr8.
    rewrite decide_False by lia. rewrite (proj2 (Nat.ltb_lt _ _)) by lia.
    eexists. split; [reflexivity|]. by rewrite length_insert.
  - right. unfold xor_at, rdz, rd8. case_decide; [by eexists|].
    rewrite (lookup_ge_None_2 b) by lia. by eexists.
Qed.

(** A loop that leaves the object is undefined there, before its fuel is used up. *)
Definition oob {A} (r : res A) : Prop := exists u, r = Undef u /\ u <> OutOfFuel.

Lemma oob_bind {A B} (e : res A) (k : A -> res B) : oob e -> oob (rbind e k).
Proof. intros (u & -> & ?). by exists u. Qed.

Lemma mask_tail_oob fuel p i n key b :
  0 <= p -> 0 <= i < n -> Z.of_nat (length b) < 2 ^ 63 -> Z.of_nat (length b) < p + n ->
  (i = 0 \/ i <= Z.of_nat (length b)) -> Z.of_nat (length b) - i < Z.of_nat fuel ->
  oob (mask_tail fuel b p i n key).
Proof.
  revert i b. induction fuel as [|fuel IH]; intros i b ??????; [lia|]. simpl.
  rewrite decide_True by lia.
  destruct (xor_at_cases b (p + i) (key !!! Z.to_nat (i mod 4)))
    as [(b' & -> & Hl & ?)|(u & -> & ? & ?)]; [|by exists u].
  cbn [rbind]. replace (u64 (i + 1)) with (i + 1) by zlia. apply IH; rewrite ?Hl; lia.
Qed.

Lemma mask_words_oob fuel p i n key b :
  0 <= p -> 0 <= i < n -> Z.of_nat (length b) < 2 ^ 63 -> Z.of_nat (length b) < p + n ->
  (i = 0 \/ i <= Z.of_nat (length b)) -> Z.of_nat (length b) - i < Z.of_nat fuel ->
  i mod 4 = 0 -> n mod 4 = 0 ->
  oob (mask_words fuel b p i n key).
Proof.
  revert i b. induction fuel as [|fuel IH]; intros i b ????????; [lia|]. simpl.
  rewrite decide_True by lia.
  do 4 (match goal with |- oob (rbind (xor_at ?c ?q ?k) _) =>
          destruct (xor_at_cases c q k) as [(? & -> & ? & ?)|(u & -> & ? & ?)]; [|by exists u];
          cbn [rbind] end).
  replace (u64 (i + 4)) with (i + 4) by zlia. apply IH; (lia || zlia).
Qed.

Lemma mask_loops_oob p n key b :
  0 <= p <= Z.of_nat (length b) -> 0 <= n < 2 ^ 64 -> Z.of_nat (length b) < 2 ^ 63 ->
  Z.of_nat (length b) < p + n -> oob (mask_loops b p n key).
Proof.
  intros. unfold mask_loops. rewrite land_not3 by lia.
  destruct (decide (Z.of_nat (length b) < p + (n - n mod 4))).
  - apply oob_bind, mask_words_oob; zlia.
  - rewrite mask_words_range by zlia. cbn [rbind].
    apply mask_tail_oob; rewrite ?length_xor_range; zlia.
Qed.

Lemma xor_range_splice p n key b :
  (p + n <= length b)%nat ->
  xor_range (Z.of_nat p) 0 (Z.of_nat n) key b = splice p (unmask key (slice p n b)) b.
Proof.
  intros. apply list_eq. intros k.
  rewrite lookup_splice by (rewrite length_unmask, length_slice; lia).
  rewrite length_unmask, length_slice by lia. case_decide.
  - rewrite <- slice_xor_range, lookup_slice, decide_True by lia. f_equal. lia.
  - rewrite lookup_xor_range. destruct (b !! k); [|done]. simpl. by rewrite decide_False by lia.
Qed.

(** C39: masking a payload of any 64-bit length ends; it is the byte-wise exclusive or
    with the key when the payload lies in the buffer, and otherwise it is an access
    outside the buffer: the two unrolled loops neither skip nor repeat a byte. *)
Theorem mask_loops_total (p n : Z) (key : list Z) (b : buf) :
  0 <= p <= Z.of_nat (length b) -> 0 <= n < 2 ^ 64 -> Z.of_nat (length b) < 2 ^ 63 ->
  mask_loops b p n key <> Undef OutOfFuel /\
  (forall b', mask_loops b p n key = Ok b' <->
     p + n <= Z.of_nat (length b) /\
     b' = splice (Z.to_nat p) (unmask key (slice (Z.to_nat p) (Z.to_nat n) b)) b).
Proof.
  intros Hp Hn Hb. destruct (decide (p + n <= Z.of_nat (length b))) as [Hle|Hgt].
  - rewrite mask_loops_range by lia. rewrite <- xor_range_splice, !Z2Nat.id by lia.
    split; [done|]. intros b'. split; [intros [= <-]|intros [_ ->]]; done.
  - destruct (mask_loops_oob p n key b) as (u & -> & ?); [lia..|].
    split; [congruence|]. intros b'. split; [done|]. intros [? _]. lia.
Qed.

Lemma mask_loops_total_witness :
  mask_loops [0; 0; 1; 2; 3; 4; 5; 9] 2 5 [255; 1; 0; 255] = Ok [0; 0; 254; 3; 3; 251; 250; 9] /\
  mask_loops [1; 2] 0 18446744073709551615 [1; 1; 1; 1] <> Undef OutOfFuel.
Proof.
  split.
  - apply (mask_loops_total 2 5 [255; 1; 0; 255] [0; 0; 1; 2; 3; 4; 5; 9]);
      [eval_done..|split; [eval_done|reflexivity]].
  - apply (mask_loops_total 0 18446744073709551615 [1; 1; 1; 1] [1; 2]); eval_done.
Defined.


(** * The parser against the reference *)

Lemma rdz_contents d k :
  DataBuffer.inv d -> 0 <= k < DataBuffer.data_len_ d ->
  rdz (DataBuffer.buffer_ d) (DataBuffer.Data d + k)
  = Ok (cell (DataBuffer.contents d) (Z.to_nat k)).
Proof.
  intros (?&?&?&?&?&?) ?. unfold rdz, DataBuffer.Data. rewrite decide_False by lia.
  rewrite rd8_cell by lia. f_equal. unfold cell, DataBuffer.contents.
  rewrite !list_lookup_total_alt, lookup_slice, decide_True by lia. do 2 f_equal. lia.
Qed.

Lemma DataLen_inv d : DataBuffer.inv d -> DataBuffer.DataLen d = DataBuffer.data_len_ d.
Proof.
  intros (?&?&?&?&?&?). unfold DataBuffer.DataLen. zlia.
Qed.

Lemma or64_lor a b : or64 (i64 a) b = i64 (Z.lor a b).
Proof.
  assert (Hu : forall x, u64 (i64 x) = Z.land x (Z.ones 64)).
  { intros. rewrite Z.land_ones by lia. change (2 ^ 64) with 18446744073709551616. zlia. }
  assert (Hi : forall x, i64 (Z.land x (Z.ones 64)) = i64 x).
  { intros. rewrite Z.land_ones by lia. change (2 ^ 64) with 18446744073709551616. zlia. }
  unfold or64. rewrite Hu. unfold u64. change 18446744073709551616 with (2 ^ 64).
  rewrite <- Z.land_ones by lia. by rewrite <- Z.land_lor_distr_l, Hi.
Qed.

Lemma lor_be v b m :
  0 <= m -> 0 <= b < 256 ->
  Z.lor (Z.shiftl v (m + 8)) (Z.shiftl b m) = Z.shiftl (v * 256 + b) m.
Proof.
  intros. rewrite Z.add_comm, <- Z.shiftl_shiftl, <- Z.shiftl_lor by lia.
  by rewrite lor_shiftl_small by lia.
Qed.

Lemma slice_8 c i :
  (i + 8 <= length c)%nat ->
  slice i 8 c = [cell c i; cell c (i + 1); cell c (i + 2); cell c (i + 3); cell c (i + 4);
                 cell c (i + 5); cell c (i + 6); cell c (i + 7)]%nat.
Proof.
  intros. rewrite !slice_cons by lia. unfold slice. simpl take.
  repeat (f_equal; try lia).
Qed.
Lemma slice_4 c i :
  (i + 4 <= length c)%nat ->
  slice i 4 c = [cell c i; cell c (i + 1); cell c (i + 2); cell c (i + 3)]%nat.
Proof.
  intros. rewrite !slice_cons by lia. unfold slice. simpl take. repeat (f_equal; try lia).
Qed.
Lemma slice_2 c i : (i + 2 <= length c)%nat -> slice i 2 c = [cell c i; cell c (i + 1)]%nat.
Proof.
  intros. rewrite !slice_cons by lia. unfold slice. simpl take. repeat (f_equal; try lia).
Qed.

Section Read.
Variable d : DataBuffer.t.
Let c := DataBuffer.contents d.
Let m := DataBuffer.buffer_ d.
Let h := DataBuffer.Data d.
Hypothesis Hinv : DataBuffer.inv d.
Hypothesis Hbytes : bytes c.

Lemma length_c : Z.of_nat (length c) = DataBuffer.data_len_ d.
Proof. by apply DataBuffer.length_contents. Qed.

Lemma rdz_c (k : nat) n : n = h + Z.of_nat k -> (k < length c)%nat -> rdz m n = Ok (cell c k).
Proof.
  intros -> ?. pose proof length_c. unfold m, h. rewrite rdz_contents by (done || lia).
  by rewrite Nat2Z.id.
Qed.

Lemma cell_c_byte k : (k < length c)%nat -> 0 <= cell c k < 256.
Proof. intros. by apply cell_byte. Qed.

Lemma ext_len64_spec :
  10 <= Z.of_nat (length c) -> ext_len64 m (h + 2) = Ok (i64 (be_val (slice 2 8 c))).
Proof.
  intros. unfold ext_len64.
  rewrite (rdz_c 2%nat), (rdz_c 3%nat), (rdz_c 4%nat), (rdz_c 5%nat), (rdz_c 6%nat), (rdz_c 7%nat), (rdz_c 8%nat), (rdz_c 9%nat)
    by lia. cbn [rbind]. cbv zeta. f_equal.
  change 0 with (i64 0) at 1.
  replace (cell c 9) with (Z.shiftl (cell c 9) 0) by apply Z.shiftl_0_r.
  rewrite !or64_lor. f_equal. rewrite Z.lor_0_l.
  rewrite (lor_be _ _ 48), (lor_be _ _ 40), (lor_be _ _ 32), (lor_be _ _ 24), (lor_be _ _ 16),
    (lor_be _ _ 8), (lor_be _ _ 0) by (lia || (apply cell_c_byte; lia)).
  rewrite Z.shiftl_0_r, slice_8 by lia. unfold be_val, le_val. simpl. lia.
Qed.

Lemma ext_len16_spec :
  4 <= Z.of_nat (length c) -> ext_len16 m (h + 2) = Ok (be_val (slice 2 2 c)).
Proof.
  intros. unfold ext_len16. rewrite (rdz_c 2%nat), (rdz_c 3%nat) by lia. cbn [rbind]. cbv zeta. f_equal.
  rewrite Z.lor_0_l, lor_shiftl_small by (lia || (apply cell_c_byte; lia)).
  rewrite slice_2 by lia. unfold be_val, le_val. simpl. lia.
Qed.

Lemma DataLen_c : DataBuffer.DataLen d = Z.of_nat (length c).
Proof. rewrite length_c. by apply DataLen_inv. Qed.

(** The length field: its value and the bytes it takes behind the first two. *)
Definition len_field (b1 : Z) : Z :=
  if decide (ext_bytes b1 = 0%nat) then b1 mod 128 else be_val (slice 2 (ext_bytes b1) c).

Lemma len_field_range b1 : 0 <= len_field b1.
Proof. unfold len_field. case_decide; [zlia|]. by apply be_val_range, bytes_slice. Qed.

Lemma read_length_spec b1 :
  (2 <= length c)%nat ->
  read_length m h (hdr_payload_len b1) (DataBuffer.DataLen d)
  = Ok (if (2 + ext_bytes b1 <=? length c)%nat
        then Some (i64 (len_field b1), Z.of_nat (2 + ext_bytes b1)) else None).
Proof.
  intros. unfold read_length, len_field, ext_bytes, hdr_payload_len, bits. rewrite DataLen_c.
  change (2 ^ 0) with 1. change (2 ^ 7) with 128. rewrite Z.div_1_r.
  destruct (decide (b1 mod 128 = 127)) as [->|H7]; [|destruct (decide (b1 mod 128 = 126)) as [->|H6]];
    simpl decide; cbv match.
  - case_decide; btests; try lia; [done|]. by rewrite ext_len64_spec by lia.
  - case_decide; btests; try lia; [done|]. rewrite ext_len16_spec by lia. cbn [rbind].
    do 3 f_equal. pose proof (be_val_range (slice 2 2 c)) as Hr.
    rewrite length_slice in Hr by lia. specialize (Hr (bytes_slice _ _ _ Hbytes)).
    change (256 ^ Z.of_nat 2) with 65536 in Hr. rewrite decide_False by lia. zlia.
  - btests; [|lia]. rewrite decide_True by lia. do 3 f_equal. zlia.
Qed.
End Read.

(** What the members say once the header has been read. *)
Definition ready (f : t) (h : header) : Prop :=
  header_ready_ f = true /\ fin_ f = h_fin h /\ opcode_ f = h_op h /\
  payload_len_ f = i64 (h_len h) /\ payload_start_ f = Z.of_nat (h_start h) /\
  match h_key h with
  | Some k => mask_enable_ f = true /\ masking_key_ f = k
  | None => mask_enable_ f = false
  end.

Lemma hdr_fin_spec b0 : 0 <= b0 < 256 -> bool_decide (hdr_fin b0 <> 0) = (128 <=? b0 mod 256).
Proof.
  intros. unfold hdr_fin, bits. change (2 ^ 7) with 128. change (2 ^ 1) with 2.
  btests; case_bool_decide; zlia.
Qed.
Lemma hdr_mask_spec b1 : 0 <= b1 < 256 -> hdr_mask b1 <> 0 <-> (128 <=? b1 mod 256) = true.
Proof.
  intros. unfold hdr_mask, bits. change (2 ^ 7) with 128. change (2 ^ 1) with 2.
  rewrite Z.leb_le. zlia.
Qed.
Lemma hdr_opcode_spec b0 : hdr_opcode b0 = b0 mod 16.
Proof. unfold hdr_opcode, bits. change (2 ^ 0) with 1. by rewrite Z.div_1_r. Qed.

(** The header as a function of the contents, once two bytes are there. *)
Lemma decode_header_cells c :
  (2 <= length c)%nat ->
  decode_header c =
    let b1 := cell c 1 in
    let masked := 128 <=? b1 mod 256 in
    let start := (2 + ext_bytes b1 + (if masked then 4 else 0))%nat in
    if (start <=? length c)%nat then
      Some (Header (128 <=? cell c 0 mod 256) (cell c 0 mod 16)
              (if masked then Some (slice (2 + ext_bytes b1) 4 c) else None)
              (if decide (ext_bytes b1 = 0%nat) then b1 mod 128
               else be_val (slice 2 (ext_bytes b1) c)) start)
    else None.
Proof. destruct c as [|b0 [|b1 c]]; simpl; [lia..|done]. Qed.

Lemma read_header_spec f :
  DataBuffer.inv (buffer_ f) -> bytes (DataBuffer.contents (buffer_ f)) ->
  (2 <= length (DataBuffer.contents (buffer_ f)))%nat ->
  exists f', buffer_ f' = buffer_ f /\
    match decode_header (DataBuffer.contents (buffer_ f)) with
    | None => read_header f = Ok (f', true) /\ header_ready_ f' = false
    | Some h => read_header f = Ok (f', false) /\ ready f' h
    end.
Proof.
  intros Hi Hb Hl. pose proof (DataLen_c _ Hi) as HD.
  assert (Z.of_nat (length (DataBuffer.contents (buffer_ f))) < 2 ^ 31) as Hsmall.
  { rewrite DataBuffer.length_contents by done. red in Hi. lia. }
  rewrite decode_header_cells by done. unfold read_header. cbv zeta.
  rewrite (rdz_c _ Hi 0), (rdz_c _ Hi 1) by lia. cbn [rbind].
  pose proof (cell_c_byte _ Hb 0). pose proof (cell_c_byte _ Hb 1).
  set (c := DataBuffer.contents (buffer_ f)) in *.
  rewrite (read_length_spec _ Hi Hb) by done. fold c. cbn [rbind].
  rewrite hdr_fin_spec, hdr_opcode_spec by lia.
  change (len_field (buffer_ f) (cell c 1)) with
    (if decide (ext_bytes (cell c 1) = 0%nat) then cell c 1 mod 128
     else be_val (slice 2 (ext_bytes (cell c 1)) c)).
  set (ext := ext_bytes (cell c 1)). set (len := if decide (ext = 0%nat) then _ else _).
  destruct (Nat.leb_spec (2 + ext) (length c)) as [H2|H2].
  2: { eexists. split; [|]; [|destruct (128 <=? _); rewrite (proj2 (Nat.leb_gt _ _)) by lia;
         split; reflexivity]. reflexivity. }
  destruct (decide (hdr_mask (cell c 1) <> 0)) as [Hm|Hm].
  - rewrite hdr_mask_spec in Hm by lia. rewrite Hm, HD.
    replace (i32 (Z.of_nat (length c))) with (Z.of_nat (length c)) by zlia.
    case_decide; destruct (Nat.leb_spec (2 + ext + 4) (length c)); try lia.
    + eexists. split; [|split; reflexivity]. reflexivity.
    + rewrite (rdz_c _ Hi (2 + ext)), (rdz_c _ Hi (2 + ext + 1)), (rdz_c _ Hi (2 + ext + 2)),
        (rdz_c _ Hi (2 + ext + 3)) by (fold c; lia). cbn [rbind]. fold c.
      eexists. split; [|split; [reflexivity|]]; [reflexivity|].
      unfold ready; simpl. rewrite (slice_4 c (S (S ext))) by lia.
      repeat split; try reflexivity. simpl. lia.
  - rewrite hdr_mask_spec in Hm by lia. apply not_true_is_false in Hm. rewrite Hm.
    rewrite Nat.add_0_r, (proj2 (Nat.leb_le _ _)) by lia.
    eexists. split; [|split; [reflexivity|]]; [reflexivity|]. by unfold ready.
Qed.

(** ** Whole frames *)

Definition frame_inv (f : t) : Prop :=
  DataBuffer.inv (buffer_ f) /\ bytes (DataBuffer.contents (buffer_ f)) /\
  (header_ready_ f = true ->
   exists h, decode_header (DataBuffer.contents (buffer_ f)) = Some h /\ ready f h).

(** The bytes received and not consumed. *)
Definition pending (f : t) : list Z := DataBuffer.contents (buffer_ f).

Lemma decode_header_start c h :
  decode_header c = Some h -> (2 <= h_start h <= length c)%nat.
Proof.
  intros H. destruct (decide (2 <= length c)%nat) as [Hl|Hl].
  - rewrite decode_header_cells in H by done. cbv zeta in H. revert H.
    destruct (Nat.leb_spec (2 + ext_bytes (cell c 1) + (if 128 <=? cell c 1 mod 256 then 4 else 0))
                (length c)); intros [= <-]. simpl. lia.
  - destruct c as [|? [|? ?]]; simpl in *; (discriminate || lia).
Qed.

Lemma decode_header_len c h : bytes c -> decode_header c = Some h -> 0 <= h_len h < 2 ^ 64.
Proof.
  intros Hb H. pose proof (decode_header_start _ _ H) as Hs.
  rewrite decode_header_cells in H by lia. cbv zeta in H. revert H.
  destruct (Nat.leb_spec (2 + ext_bytes (cell c 1) + (if 128 <=? cell c 1 mod 256 then 4 else 0))
              (length c)) as [Hle|]; intros [= <-]. simpl. case_decide; [zlia|].
  pose proof (be_val_range (slice 2 (ext_bytes (cell c 1)) c) (bytes_slice _ _ _ Hb)) as Hr.
  rewrite length_slice in Hr by lia. split; [lia|].
  eapply Z.lt_le_trans; [apply Hr|]. transitivity (256 ^ Z.of_nat 8); [|done].
  apply Z.pow_le_mono_r; [lia|]. unfold ext_bytes. repeat case_decide; lia.
Qed.

Lemma slice_app_l i n a x : (i + n <= length a)%nat -> slice i n (a ++ x) = slice i n a.
Proof. intros. unfold slice. rewrite drop_app_le, take_app_le by (rewrite ?length_drop; lia). done. Qed.

Lemma decode_header_app c x h : decode_header c = Some h -> decode_header (c ++ x) = Some h.
Proof.
  intros H. pose proof (decode_header_start _ _ H) as Hs. revert H.
  rewrite !decode_header_cells by (rewrite ?length_app; lia). cbv zeta.
  assert (forall k, (k < 2)%nat -> cell (c ++ x) k = cell c k) as Hc.
  { intros. unfold cell. by rewrite lookup_total_app_l by lia. }
  rewrite !Hc by lia. rewrite length_app.
  destruct (Nat.leb_spec (2 + ext_bytes (cell c 1) + (if 128 <=? cell c 1 mod 256 then 4 else 0))
              (length c)) as [Hle|]; [|done].
  rewrite (proj2 (Nat.leb_le _ _)) by lia. revert Hle. intros Hle [= <-]. clear Hs. revert Hle.
  destruct (128 <=? cell c 1 mod 256); intros Hle; do 2 f_equal;
    try (case_decide; [done|]); try done; by rewrite slice_app_l by lia.
Qed.

(** A parsed frame: the payload stands unmasked behind the header. *)
Definition parsed (f : t) (fr : frame) (rest : list Z) : Prop :=
  DataBuffer.inv (buffer_ f) /\ fin_ f = fr_fin fr /\ opcode_ f = fr_op fr /\
  0 <= payload_start_ f /\ payload_len_ f = Z.of_nat (length (fr_payload fr)) /\
  pending f = take (Z.to_nat (payload_start_ f)) (pending f) ++ fr_payload fr ++ rest /\
  payload_start_ f + payload_len_ f <= Z.of_nat (length (pending f)).

Lemma with_memory_xor f h p n :
  DataBuffer.inv (buffer_ f) -> ready f h ->
  DataBuffer.inv (buffer_ (with_memory f (xor_range p 0 n (masking_key_ f) (DataBuffer.buffer_ (buffer_ f)))))
  /\ ready (with_memory f (xor_range p 0 n (masking_key_ f) (DataBuffer.buffer_ (buffer_ f)))) h.
Proof.
  intros Hi Hr. split; [|done]. unfold DataBuffer.inv in *. simpl. by rewrite length_xor_range.
Qed.

Lemma pending_xor f s n key :
  DataBuffer.inv (buffer_ f) -> (s + n <= length (pending f))%nat ->
  pending (with_memory f (xor_range (DataBuffer.Data (buffer_ f) + Z.of_nat s) 0 (Z.of_nat n) key
                            (DataBuffer.buffer_ (buffer_ f))))
  = take s (pending f) ++ unmask key (slice s n (pending f)) ++ drop (s + n) (pending f).
Proof.
  intros Hi Hl. pose proof (DataBuffer.length_contents _ Hi) as Hc. pose proof Hi as (?&?&?&?&?&?).
  unfold pending, with_memory, with_buffer, DataBuffer.Data. cbn [buffer_]. unfold pending in Hl.
  unfold DataBuffer.contents. cbn [DataBuffer.buffer_ DataBuffer.start_ DataBuffer.data_len_].
  set (b := DataBuffer.buffer_ (buffer_ f)) in *.
  set (a := Z.to_nat (DataBuffer.start_ (buffer_ f))).
  replace (DataBuffer.start_ (buffer_ f) + Z.of_nat s) with (Z.of_nat (a + s)) by lia.
  rewrite xor_range_splice by (fold b; lia).
  rewrite take_slice, slice_slice, drop_slice by lia.
  set (l := unmask key _).
  assert (length l = n) as Hln by (unfold l; rewrite length_unmask, length_slice; lia).
  replace (Z.to_nat (DataBuffer.data_len_ (buffer_ f)))
    with (s + (n + (Z.to_nat (DataBuffer.data_len_ (buffer_ f)) - (s + n))))%nat at 1 by lia.
  rewrite !slice_app. f_equal; [|f_equal].
  - by rewrite slice_splice_disj by lia.
  - by rewrite slice_splice_eq by lia.
  - rewrite slice_splice_disj by lia. f_equal; lia.
Qed.

Lemma ready_key f h : ready f h -> mask_enable_ f = bool_decide (is_Some (h_key h)) /\
  (forall k, h_key h = Some k -> masking_key_ f = k).
Proof.
  intros (_ & _ & _ & _ & _ & Hk). destruct (h_key h).
  - destruct Hk as [-> ->]. split; [done|congruence].
  - split; [done|congruence].
Qed.

Lemma add_i64_ok a b : - 2 ^ 63 <= a + b < 2 ^ 63 -> add_i64 a b = Ok (a + b).
Proof. intros. unfold add_i64. by rewrite decide_True. Qed.

Lemma read_payload_spec f h :
  DataBuffer.inv (buffer_ f) -> bytes (pending f) -> ready f h ->
  decode_header (pending f) = Some h ->
  match next_frame (pending f) with
  | Incomplete => read_payload f = Ok (f, 1)
  | Decoded fr rest => exists f', read_payload f = Ok (f', 0) /\ parsed f' fr rest
  | TooLong => h_key h <> None -> oob (read_payload f)
  end.
Proof.
  intros Hi Hb Hr Hh. pose proof (decode_header_start _ _ Hh) as Hs.
  pose proof (decode_header_len _ _ Hb Hh) as Hlen.
  destruct (ready_key _ _ Hr) as [Hm Hk]. pose proof Hr as (_ & Hfin & Hop & Hpl & Hps & _).
  pose proof (DataBuffer.length_contents _ Hi) as HL. fold (pending f) in HL.
  pose proof (DataLen_inv _ Hi) as HD. pose proof Hi as (?&?&?&?&?&?).
  unfold next_frame. rewrite Hh. unfold read_payload. rewrite Hps, Hpl, HD, Hm, <- HL.
  replace (i32 (Z.of_nat (length (pending f)))) with (Z.of_nat (length (pending f))) by zlia.
  replace (u64 (i64 (h_len h))) with (h_len h) by zlia.
  case_decide as Hbig.
  { intros Hmask. rewrite bool_decide_true by (destruct (h_key h); [by eexists|done]).
    unfold add_i64. case_decide as Hov; [|by exists IntOverflow]. cbn [rbind].
    rewrite decide_False by zlia. apply oob_bind. unfold DataBuffer.Data.
    apply mask_loops_oob; lia. }
  replace (i64 (h_len h)) with (h_len h) by zlia.
  rewrite add_i64_ok by lia. cbn [rbind].
  case_decide as Hle; [rewrite decide_False by lia|by rewrite decide_True by lia].
  destruct (h_key h) as [key|] eqn:Ek.
  - rewrite bool_decide_true by by eexists. rewrite mask_loops_range by (unfold DataBuffer.Data; lia).
    cbn [rbind]. eexists. split; [reflexivity|].
    rewrite (Hk key eq_refl). rewrite <- (Hk key eq_refl). clear Hk.
    destruct (with_memory_xor f h (DataBuffer.Data (buffer_ f) + Z.of_nat (h_start h)) (h_len h) Hi Hr)
      as [Hi' Hr'].
    pose proof (pending_xor f (h_start h) (Z.to_nat (h_len h)) (masking_key_ f) Hi) as Hp.
    rewrite Z2Nat.id in Hp by lia. specialize (Hp ltac:(lia)).
    unfold parsed. rewrite Hp. simpl.
    rewrite Hfin, Hop, Hps, Hpl, Nat2Z.id, length_unmask, length_slice by lia.
    rewrite take_app_length' by (rewrite length_take; lia).
    rewrite !length_app, length_unmask, length_slice, length_take, length_drop by lia.
    split_and!; try done; try zlia. 
  - rewrite bool_decide_false by by intros [].
    eexists. split; [reflexivity|]. unfold parsed. simpl.
    rewrite Hfin, Hop, Hps, Hpl, Nat2Z.id, length_slice by lia.
    split_and!; try done; try zlia.
    rewrite <- (take_drop (h_start h) (pending f)) at 1. f_equal.
    rewrite <- (take_drop (Z.to_nat (h_len h)) (drop (h_start h) (pending f))) at 1.
    by rewrite drop_drop.
Qed.

Lemma parse_buffered_ok f :
  frame_inv f ->
  match next_frame (pending f) with
  | Incomplete => exists f', parse_buffered f = Ok (f', 1) /\ frame_inv f' /\ pending f' = pending f
  | Decoded fr rest => exists f', parse_buffered f = Ok (f', 0) /\ parsed f' fr rest
  | TooLong => True
  end.
Proof.
  intros (Hi & Hb & Hh). unfold parse_buffered. rewrite (DataLen_c _ Hi). fold (pending f) in *.
  destruct (decide (Z.of_nat (length (pending f)) < 2)) as [Hl|Hl].
  { unfold next_frame. assert (decode_header (pending f) = None) as ->.
    { destruct (pending f) as [|? [|? ?]]; simpl in *; try done; lia. }
    exists f. by unfold frame_inv. }
  destruct (header_ready_ f) eqn:Er.
  - destruct (Hh eq_refl) as (h & Hd & Hr). cbn [rbind].
    pose proof (read_payload_spec f h Hi Hb Hr Hd) as Hp.
    destruct (next_frame (pending f)); [|done|done].
    exists f. unfold frame_inv. fold (pending f). naive_solver.
  - destruct (read_header_spec f Hi Hb) as (f' & Hbuf & Hrd); [fold (pending f); lia|].
    assert (Hpend : pending f' = pending f) by (unfold pending; by rewrite Hbuf).
    fold (pending f) in Hrd. destruct (decode_header (pending f)) as [h|] eqn:Ed.
    + destruct Hrd as [-> Hr]. cbn [rbind].
      pose proof (read_payload_spec f' h) as Hp. rewrite Hpend, Hbuf in Hp.
      specialize (Hp Hi Hb Hr Ed). destruct (next_frame (pending f)); [|done|done].
      exists f'. unfold frame_inv. fold (pending f'). rewrite Hpend, Hbuf. naive_solver.
    + destruct Hrd as [-> Hr]. cbn [rbind]. unfold next_frame. rewrite Ed.
      exists f'. unfold frame_inv. fold (pending f'). rewrite Hpend, Hbuf, Hr. done.
Qed.

Section Stream.
Variable fresh : nat -> buf.
Hypothesis fresh_length : forall n, length (fresh n) = n.

(** The conditions under which [AppendData] is a queue operation. *)
Definition room (f : t) (data : list Z) : Prop :=
  bytes data /\ Z.of_nat (length (pending f) + length data) < 2 ^ 29 /\
  ~ DataBuffer.overlapping_move (buffer_ f) (Z.of_nat (length data)).

Lemma append_frame f x l :
  frame_inv f -> room f (x :: l) ->
  exists b, DataBuffer.AppendData fresh (buffer_ f) (Some (x :: l))
            = Ok (b, DataBuffer.data_len_ (buffer_ f) + Z.of_nat (length (x :: l))) /\
    frame_inv (with_buffer f b) /\ pending (with_buffer f b) = pending f ++ x :: l.
Proof.
  intros (Hi & Hb & Hh) (Hd & Hl & Hov). unfold pending in *.
  pose proof (DataBuffer.length_contents _ Hi) as HL.
  destruct (DataBuffer.AppendData_ok fresh fresh_length (buffer_ f) (x :: l))
    as (b & -> & Hi' & Hc); [done..|lia|done|].
  exists b. split; [done|]. split; [|done]. unfold frame_inv. cbn [buffer_ with_buffer].
  rewrite Hc. split; [done|]. split; [by apply bytes_app|]. intros Hr.
  destruct (Hh Hr) as (h & Hdec & Hrd). exists h. split; [by apply decode_header_app|done].
Qed.

Lemma frame_Parse_ok f data :
  frame_inv f -> room f data ->
  match next_frame (pending f ++ data) with
  | Incomplete => exists f', Parse fresh f (Some data) = Ok (f', 1) /\ frame_inv f' /\
                             pending f' = pending f ++ data
  | Decoded fr rest => exists f', Parse fresh f (Some data) = Ok (f', 0) /\ parsed f' fr rest
  | TooLong => True
  end.
Proof.
  intros Hf Hr. unfold Parse. destruct data as [|x l].
  - rewrite app_nil_r. cbn [rbind]. by apply parse_buffered_ok.
  - destruct (append_frame f x l Hf Hr) as (b & -> & Hf' & Hp). cbn [rbind].
    rewrite <- Hp. by apply parse_buffered_ok.
Qed.

(** the incremental parser implements the frame layout of RFC 6455: fed with any
    split of the byte stream it answers 1 while the bytes it holds are not a whole
    frame, keeping them, and 0 as soon as they are, with the opcode, the end flag and
    the unmasked payload of the frame, and the bytes of the next frames behind it. *)
Theorem Parse_refines_next_frame (f : t) (data : list Z) :
  frame_inv f -> room f data ->
  match next_frame (pending f ++ data) with
  | Incomplete => exists f', Parse fresh f (Some data) = Ok (f', 1) /\ frame_inv f' /\
                             pending f' = pending f ++ data
  | Decoded fr rest => exists f', Parse fresh f (Some data) = Ok (f', 0) /\
                                  parsed f' fr rest /\ PayloadIsReady f' = true
  | TooLong => True
  end.
Proof.
  intros Hf Hr. pose proof (frame_Parse_ok f data Hf Hr) as H.
  destruct (next_frame (pending f ++ data)); [done..|]. destruct H as (f' & HP & Hp).
  exists f'. do 2 (split; [done|]). destruct Hp as (Hi & _ & _ & ? & ? & _ & ?).
  pose proof (DataBuffer.length_contents _ Hi). pose proof Hi as (?&?&?&?&?&?).
  unfold PayloadIsReady. rewrite DataLen_inv by done. unfold pending in *.
  apply bool_decide_true. zlia.
Qed.
End Stream.

(** A masked frame that declares a length of 2^63 or more makes [Parse] leave the buffer. *)
Lemma parse_buffered_too_long f h :
  frame_inv f -> next_frame (pending f) = TooLong -> decode_header (pending f) = Some h ->
  h_key h <> None -> oob (parse_buffered f).
Proof.
  intros (Hi & Hb & Hh) Hn Ed Hk. unfold parse_buffered. rewrite (DataLen_c _ Hi).
  fold (pending f) in *. pose proof (decode_header_start _ _ Ed).
  rewrite decide_False by lia. destruct (header_ready_ f) eqn:Er.
  - destruct (Hh eq_refl) as (h' & Hd & Hr). cbn [rbind].
    rewrite Hd in Ed. injection Ed as ->.
    pose proof (read_payload_spec f h Hi Hb Hr Hd) as Hp. rewrite Hn in Hp. by apply Hp.
  - destruct (read_header_spec f Hi Hb) as (f' & Hbuf & Hrd); [fold (pending f); lia|].
    assert (Hpend : pending f' = pending f) by (unfold pending; by rewrite Hbuf).
    fold (pending f) in Hrd. rewrite Ed in Hrd. destruct Hrd as [-> Hr]. cbn [rbind].
    pose proof (read_payload_spec f' h) as Hp. rewrite Hpend, Hbuf, Hn in Hp. by apply Hp.
Qed.

Definition frame_of (r : res (t * Z)) : t :=
  match r with
  | Ok (f, _) => f
  | _ => mk (DataBuffer.buffer_of (Throw "")) 0 0 0 false false false []
  end.
Definition new_frame (fresh : nat -> buf) : t :=
  frame_of (let! f := new_WebSocketFrame fresh in Ok (f, 0)).

Lemma new_frame_ok fresh :
  (forall n, length (fresh n) = n) ->
  new_WebSocketFrame fresh = Ok (new_frame fresh) /\ frame_inv (new_frame fresh) /\
  pending (new_frame fresh) = [].
Proof.
  intros Hf. unfold new_frame, new_WebSocketFrame.
  destruct (DataBuffer.new_DataBuffer_inv fresh DataBuffer.EXTRA_LEN Hf) as (b & -> & Hi & Hc).
  { unfold DataBuffer.PRE_RESERVE_HEADER_SIZE, DataBuffer.EXTRA_LEN. lia. }
  cbn [rbind frame_of]. split; [reflexivity|]. unfold frame_inv, pending. cbn [buffer_]. rewrite Hc.
  split; [|done]. split; [done|]. split; [constructor|done].
Qed.

(** A parser over a smaller buffer, quicker to evaluate. *)
Definition small_frame : t :=
  mk (DataBuffer.buffer_of (DataBuffer.new_DataBuffer DataBuffer.zeros 500)) 0 0 0 false false false
     [0; 0; 0; 0].

(** A masked client frame whose header arrives in two reads. *)
Lemma Parse_refines_next_frame_witness :
  let f := frame_of (Parse DataBuffer.zeros small_frame (Some [129])) in
  exists f', Parse DataBuffer.zeros f (Some [131; 1; 2; 3; 4; 105; 103; 106; 130]) = Ok (f', 0) /\
    GetOperCode f' = 1 /\ GetFin f' = true.
Proof.
  intros f. pose proof (Parse_refines_next_frame DataBuffer.zeros DataBuffer.zeros_length f
                          [131; 1; 2; 3; 4; 105; 103; 106; 130]) as H.
  assert (Hf : frame_inv f).
  { split; [unfold DataBuffer.inv; eval_done|]. split; [bytes_done|].
    assert (E : header_ready_ f = false) by (vm_compute; reflexivity). by rewrite E. }
  assert (Hr : room f [131; 1; 2; 3; 4; 105; 103; 106; 130]).
  { split; [bytes_done|]. split; [eval_done|]. unfold DataBuffer.overlapping_move.
    intros (Ho & _). revert Ho. vm_compute. discriminate. }
  specialize (H Hf Hr).
  assert (E : next_frame (pending f ++ [131; 1; 2; 3; 4; 105; 103; 106; 130])
              = Decoded (Frame true 1 [104; 101; 105]) [130]) by (vm_compute; reflexivity).
  rewrite E in H. destruct H as (f' & HP & (_ & Hfin & Hop & _) & _).
  exists f'. split; [exact HP|]. split; [exact Hop|exact Hfin].
Defined.

(** Ten bytes from the network: a masked frame with a declared length of 2^64 - 1. *)
Example Parse_too_long_crashes :
  Parse DataBuffer.zeros small_frame
    (Some [130; 255; 255; 255; 255; 255; 255; 255; 255; 255; 1; 2; 3; 4; 5; 6]) = Undef OobRead.
Proof. vm_compute. reflexivity. Qed.

End WebSocketFrame.
