(* ===== verification/WebSocketSession.v ===== *)
(** [net/http/websocket/ws_session_base.cpp] with its two derived classes,
    [websocket_session.cpp] (server side) and [websocket_client.cpp]: the loop over the
    frames of a read, the dispatch on opcodes, sending and closing.

    The virtual methods of the base class are a type class, [WsDerived]; the loop is
    verified against its laws, and each derived class is an instance.  The calls into the
    application ([OnReadText], [OnReadData], [OnClose]) and into the TCP connection are
    recorded as events, in order; what the application does in them is not modelled. *)
From S2P Require Import Prelude ByteStream ByteCrypto RtpPub DataBuffer WebSocketFrame.

Module WsSessionBase.
Import WebSocketFrame.

(** The members of [WebSocketSessionBase]. *)
Record t := mk {
  frame_ : WebSocketFrame.t;
  recv_buffer_vec_ : list DataBuffer.t;
  last_op_code_ : Z;
  die_count_ : Z;
  last_recv_pong_ms_ : Z;
  last_send_ping_ms_ : Z;
  is_connected_ : bool;
  close_ : bool;
  is_client_ : bool
}.

Definition with_frame (s : t) (f : WebSocketFrame.t) : t :=
  mk f (recv_buffer_vec_ s) (last_op_code_ s) (die_count_ s) (last_recv_pong_ms_ s)
     (last_send_ping_ms_ s) (is_connected_ s) (close_ s) (is_client_ s).
Definition with_recv (s : t) (v : list DataBuffer.t) : t :=
  mk (frame_ s) v (last_op_code_ s) (die_count_ s) (last_recv_pong_ms_ s)
     (last_send_ping_ms_ s) (is_connected_ s) (close_ s) (is_client_ s).
Definition with_last_op (s : t) (op : Z) : t :=
  mk (frame_ s) (recv_buffer_vec_ s) op (die_count_ s) (last_recv_pong_ms_ s)
     (last_send_ping_ms_ s) (is_connected_ s) (close_ s) (is_client_ s).
Definition with_die_count (s : t) (n : Z) : t :=
  mk (frame_ s) (recv_buffer_vec_ s) (last_op_code_ s) n (last_recv_pong_ms_ s)
     (last_send_ping_ms_ s) (is_connected_ s) (close_ s) (is_client_ s).
Definition with_pong (s : t) (ms : Z) : t :=
  mk (frame_ s) (recv_buffer_vec_ s) (last_op_code_ s) (die_count_ s) ms
     (last_send_ping_ms_ s) (is_connected_ s) (close_ s) (is_client_ s).
Definition with_ping (s : t) (ms : Z) : t :=
  mk (frame_ s) (recv_buffer_vec_ s) (last_op_code_ s) (die_count_ s) (last_recv_pong_ms_ s)
     ms (is_connected_ s) (close_ s) (is_client_ s).
Definition with_connected (s : t) (b : bool) : t :=
  mk (frame_ s) (recv_buffer_vec_ s) (last_op_code_ s) (die_count_ s) (last_recv_pong_ms_ s)
     (last_send_ping_ms_ s) b (close_ s) (is_client_ s).
Definition with_close (s : t) (b : bool) : t :=
  mk (frame_ s) (recv_buffer_vec_ s) (last_op_code_ s) (die_count_ s) (last_recv_pong_ms_ s)
     (last_send_ping_ms_ s) (is_connected_ s) b (is_client_ s).

(** The members the virtual methods have no business with: the parser and the fragments. *)
Definition with_input (s : t) (f : WebSocketFrame.t) (v : list DataBuffer.t) : t :=
  with_recv (with_frame s f) v.

(** * The derived classes, as an interface *)

(** [D] is the derived object with its base part; a void method returns [res unit]. *)
Class WsSender (D : Type) := SendWsFrame : D -> list Z -> Z -> D * res unit.
Class WsDerived (D : Type) := {
  ws_sender :: WsSender D;
  base : D -> t;
  set_base : D -> t -> D;
  HandleWsData : D -> list Z -> Z -> D * res unit;
  HandleWsClose : D -> list Z -> D * res unit
}.

(** Applying a change of state to the state a call leaves. *)
Definition smap {S A} (f : S -> S) (r : S * res A) : S * res A := (f (fst r), snd r).

Definition set_input {D} `{WsDerived D} (f : WebSocketFrame.t) (v : list DataBuffer.t) (d : D) : D :=
  set_base d (with_input (base d) f v).

(** The base part is a field, and the virtual methods neither read nor write the parser
    and the fragments. *)
Class WsDerivedLaws D `{WsDerived D} : Prop := {
  base_set d b : base (set_base d b) = b;
  set_base_base d : set_base d (base d) = d;
  set_base_twice d b b' : set_base (set_base d b) b' = set_base d b';
  data_blind d l op f v :
    HandleWsData (set_input f v d) l op = smap (set_input f v) (HandleWsData d l op);
  send_blind d l op f v :
    SendWsFrame (set_input f v d) l op = smap (set_input f v) (SendWsFrame d l op);
  close_blind d l f v :
    HandleWsClose (set_input f v d) l = smap (set_input f v) (HandleWsClose d l)
}.

Section Send.
Context {D : Type} `{WsSender D}.

Definition AsyncWriteText (d : D) (text : list Z) : D * res unit := SendWsFrame d text WS_OP_TEXT_TYPE.
Definition AsyncWriteData (d : D) (data : list Z) : D * res unit := SendWsFrame d data WS_OP_BIN_TYPE.
(** The argument [code] is not used by the source: the body is the reason alone. *)
Definition SendClose (d : D) (code : Z) (reason : list Z) : D * res unit :=
  SendWsFrame d reason WS_OP_CLOSE_TYPE.

Definition SendPingFrame (d : D) (now_ms : Z) : D * res unit :=
  match ByteStream.Write4Bytes [0; 0; 0; 0] 0 (u32 (now_ms ÷ 1000)) with
  | Ok data => SendWsFrame d data WS_OP_PING_TYPE
  | Throw m => (d, Throw m)
  | Undef u => (d, Undef u)
  end.
End Send.

Section Base.
Context {D : Type} `{WsDerived D}.
Variable fresh : nat -> buf.

Definition update (d : D) (f : t -> t) : D := set_base d (f (base d)).

Definition IsConnected (d : D) : bool := is_connected_ (base d).
Definition IsClose (d : D) : bool := close_ (base d).
Definition GetLastRecvPongMs (d : D) : Z := last_recv_pong_ms_ (base d).

(** [item->Data()] over [item->DataLen()]. *)
Definition item_bytes (item : DataBuffer.t) : res (list Z) :=
  DataBuffer.rd_at (DataBuffer.buffer_ item) (DataBuffer.Data item) (DataBuffer.DataLen item).

(** [for (auto item : recv_buffer_vec_) f(item)]. *)
Fixpoint for_items (f : D -> list Z -> D * res unit) (items : list DataBuffer.t) (d : D) : D * res unit :=
  match items with
  | [] => (d, Ok tt)
  | item :: items' =>
      do! (d, l) := (d, item_bytes item) in
      do! (d, _) := f d l in
      for_items f items' d
  end.

Definition HandleWsPing (d : D) : D * res unit :=
  for_items (fun d l => SendWsFrame d l WS_OP_PONG_TYPE) (recv_buffer_vec_ (base d)) d.

(** [make_shared<DataBuffer>(len + 1024)] with [len] an [int64_t]: a size that is no object
    size throws, and the sum with the reserved header may wrap around. *)
Definition new_item (len : Z) : res DataBuffer.t :=
  let data_size := u64 (len + 1024) in
  let alloc := u64 (data_size + DataBuffer.PRE_RESERVE_HEADER_SIZE) in
  if decide (2 ^ 63 <= alloc) then Throw "std::bad_alloc"
  else if decide (alloc < data_size) then Undef OobWrite
  else DataBuffer.new_DataBuffer fresh data_size.

(** The [len] bytes at [p]; a negative [len] becomes a huge [size_t]. *)
Definition payload_bytes (m : buf) (p len : Z) : res (list Z) :=
  if decide (len < 0) then Undef OobRead else DataBuffer.rd_at m p len.

(** The payload in a buffer of its own. *)
Definition fragment (m : buf) (p len : Z) : res DataBuffer.t :=
  let! b := new_item len in
  let! l := payload_bytes m p len in
  let! (b, _) := DataBuffer.AppendData fresh b (Some l) in
  Ok b.

(** The body of the loop up to [frame_->Reset()]; [Some ret] where it returns [ret]. *)
Definition receive_frame (d : D) (data : option (list Z)) : D * res (option Z) :=
  match Parse fresh (frame_ (base d)) data with
  | Throw m => (d, Throw m)
  | Undef u => (d, Undef u)
  | Ok (f, ret) =>
      let d := update d (fun s => with_frame s f) in
      if decide (ret <> 0) then (d, Ok (Some ret)) else
      let d := if decide (GetOperCode f = WS_OP_TEXT_TYPE \/ GetOperCode f = WS_OP_BIN_TYPE)
               then update d (fun s => with_last_op s (GetOperCode f)) else d in
      if negb (PayloadIsReady f) then (d, Ok (Some 1)) else
      do! (d, b) := (d, fragment (DataBuffer.buffer_ (buffer_ f)) (GetPayloadData f) (GetPayloadLen f)) in
      let d := update d (fun s => with_recv s (recv_buffer_vec_ s ++ [b])) in
      let (f, _) := Consume f (u64 (GetPayloadStart f + GetPayloadLen f)) in
      (update d (fun s => with_frame s (Reset f)), Ok None)
  end.

(** The [switch] on the opcode. *)
Definition switch_opcode (now_ms : Z) (d : D) : D * res unit :=
  let op := GetOperCode (frame_ (base d)) in
  let items := recv_buffer_vec_ (base d) in
  if decide (op = WS_OP_PING_TYPE) then HandleWsPing d
  else if decide (op = WS_OP_PONG_TYPE) then (update d (fun s => with_pong s now_ms), Ok tt)
  else if decide (op = WS_OP_CLOSE_TYPE) then for_items HandleWsClose items d
  else if decide (op = WS_OP_CONTINUE_TYPE) then
    for_items (fun d l => HandleWsData d l (last_op_code_ (base d))) items d
  else if decide (op = WS_OP_TEXT_TYPE \/ op = WS_OP_BIN_TYPE) then
    for_items (fun d l => HandleWsData d l (GetOperCode (frame_ (base d)))) items d
  else (d, Ok tt).

(** The rest of the body: nothing for a fragment with more to follow ([continue]). *)
Definition dispatch (now_ms : Z) (d : D) : D * res unit :=
  if negb (GetFin (frame_ (base d))) then (d, Ok tt) else
  do! (d, _) := switch_opcode now_ms (update d (fun s => with_die_count s 0)) in
  (update d (fun s => with_recv s []), Ok tt).

Fixpoint handle_loop (fuel : nat) (now_ms : Z) (d : D) (data : option (list Z)) : D * res Z :=
  match fuel with
  | O => (d, Undef OutOfFuel)
  | S fuel' =>
      do! (d, ret) := receive_frame d data in
      match ret with
      | Some ret => (d, Ok ret)
      | None =>
          do! (d, _) := dispatch now_ms d in
          if decide (GetBufferLen (frame_ (base d)) > 0)
          then handle_loop fuel' now_ms d None else (d, Ok 0)
      end
  end.

(** Every frame has at least two bytes. *)
Definition HandleFrame (now_ms : Z) (d : D) (data : list Z) : D * res Z :=
  handle_loop (S (length (pending (frame_ (base d))) + length data)) now_ms d (Some data).

(** * The reference: frames in order, fragments collected, messages delivered *)

Fixpoint frames_fuel (fuel : nat) (c : list Z) : option (list frame * list Z) :=
  match fuel with
  | O => Some ([], c)
  | S fuel' =>
      match next_frame c with
      | Incomplete => Some ([], c)
      | TooLong => None
      | Decoded fr rest =>
          match frames_fuel fuel' rest with
          | Some (frs, rest') => Some (fr :: frs, rest')
          | None => None
          end
      end
  end.

(** The whole frames at the front of a byte string and what is left of it; [None] if one
    of them declares a length that is no object size. *)
Definition frames_of (c : list Z) : option (list frame * list Z) := frames_fuel (length c) c.

Fixpoint for_each (f : D -> list Z -> D * res unit) (ls : list (list Z)) (d : D) : D * res unit :=
  match ls with
  | [] => (d, Ok tt)
  | l :: ls' => do! (d, _) := f d l in for_each f ls' d
  end.

(** A finished message [frags] under the opcode of its last frame. *)
Definition deliver (now_ms op : Z) (frags : list (list Z)) (d : D) : D * res unit :=
  if decide (op = WS_OP_PING_TYPE) then for_each (fun d l => SendWsFrame d l WS_OP_PONG_TYPE) frags d
  else if decide (op = WS_OP_PONG_TYPE) then (update d (fun s => with_pong s now_ms), Ok tt)
  else if decide (op = WS_OP_CLOSE_TYPE) then for_each HandleWsClose frags d
  else if decide (op = WS_OP_CONTINUE_TYPE) then
    for_each (fun d l => HandleWsData d l (last_op_code_ (base d))) frags d
  else if decide (op = WS_OP_TEXT_TYPE \/ op = WS_OP_BIN_TYPE) then
    for_each (fun d l => HandleWsData d l op) frags d
  else (d, Ok tt).

(** One frame: the object, and the fragments waiting for the end of their message. *)
Definition run_frame (now_ms : Z) (d : D) (frags : list (list Z)) (fr : frame)
    : D * list (list Z) * res unit :=
  let frags := frags ++ [fr_payload fr] in
  let d := if decide (fr_op fr = WS_OP_TEXT_TYPE \/ fr_op fr = WS_OP_BIN_TYPE)
           then update d (fun s => with_last_op s (fr_op fr)) else d in
  if negb (fr_fin fr) then (d, frags, Ok tt) else
  match deliver now_ms (fr_op fr) frags (update d (fun s => with_die_count s 0)) with
  | (d, Ok _) => (d, [], Ok tt)
  | (d, Throw m) => (d, frags, Throw m)
  | (d, Undef u) => (d, frags, Undef u)
  end.

Fixpoint run_frames (now_ms : Z) (frs : list frame) (d : D) (frags : list (list Z))
    : D * list (list Z) * res unit :=
  match frs with
  | [] => (d, frags, Ok tt)
  | fr :: frs' =>
      match run_frame now_ms d frags fr with
      | (d, frags, Ok _) => run_frames now_ms frs' d frags
      | (d, frags, Throw m) => (d, frags, Throw m)
      | (d, frags, Undef u) => (d, frags, Undef u)
      end
  end.

(** ** Facts on the reference *)

Lemma next_frame_shorter c fr rest :
  bytes c -> next_frame c = Decoded fr rest ->
  (length rest + 2 <= length c)%nat /\ (length (fr_payload fr) <= length c)%nat.
Proof.
  intros Hb. unfold next_frame. destruct (decode_header c) as [h|] eqn:E; [|done].
  pose proof (decode_header_start _ _ E). pose proof (decode_header_len _ _ Hb E).
  repeat case_decide; try done. intros [= <- <-]. rewrite length_drop. split; [lia|]. simpl.
  destruct (h_key h); rewrite ?length_unmask, length_slice by lia; lia.
Qed.

Lemma next_frame_rest c fr rest :
  next_frame c = Decoded fr rest -> exists n, rest = drop n c.
Proof.
  unfold next_frame. destruct (decode_header c); [|done]. repeat case_decide; try done.
  intros [= <- <-]. eauto.
Qed.

Lemma next_frame_bytes c fr rest : bytes c -> next_frame c = Decoded fr rest -> bytes rest.
Proof. intros Hb Hn. destruct (next_frame_rest _ _ _ Hn) as [n ->]. by apply Forall_drop. Qed.

Lemma next_frame_app c x fr rest :
  bytes c -> next_frame c = Decoded fr rest -> next_frame (c ++ x) = Decoded fr (rest ++ x).
Proof.
  intros Hb. unfold next_frame. destruct (decode_header c) as [h|] eqn:E; [|done].
  pose proof (decode_header_start _ _ E). pose proof (decode_header_len _ _ Hb E).
  rewrite (decode_header_app _ x _ E). repeat case_decide; try done; rewrite length_app in *; [|lia].
  intros [= <- <-]. rewrite drop_app_le by lia.
  by rewrite !slice_app_l by lia.
Qed.

Lemma next_frame_too_long_app c x : next_frame c = TooLong -> next_frame (c ++ x) = TooLong.
Proof.
  unfold next_frame. destruct (decode_header c) as [h|] eqn:E; [|done].
  rewrite (decode_header_app _ x _ E). by repeat case_decide.
Qed.

Lemma frames_fuel_enough m n c :
  bytes c -> (length c <= m)%nat -> (length c <= n)%nat -> frames_fuel m c = frames_fuel n c.
Proof.
  revert n c. induction m as [|m IH]; intros n c Hb Hm Hn.
  - destruct c; [|simpl in *; lia]. by destruct n.
  - destruct n as [|n]; [destruct c; [done|simpl in *; lia]|]. simpl.
    destruct (next_frame c) as [| |fr rest] eqn:E; [done..|].
    pose proof (next_frame_shorter _ _ _ Hb E). rewrite (IH n rest); [done| |lia..].
    by eapply next_frame_bytes.
Qed.

Lemma frames_of_unfold c :
  bytes c ->
  frames_of c =
    match next_frame c with
    | Incomplete => Some ([], c)
    | TooLong => None
    | Decoded fr rest =>
        match frames_of rest with Some (frs, rest') => Some (fr :: frs, rest') | None => None end
    end.
Proof.
  intros Hb. unfold frames_of. rewrite (frames_fuel_enough _ (S (length c)) c) by (done || lia).
  cbn [frames_fuel]. destruct (next_frame c) as [| |fr rest] eqn:E; [done..|].
  pose proof (next_frame_shorter _ _ _ Hb E).
  by rewrite (frames_fuel_enough _ (length rest) rest) by (lia || by eapply next_frame_bytes).
Qed.

(** Decoding a stream in two pieces. *)
Lemma frames_of_app c x frs rest :
  bytes c -> bytes x -> frames_of c = Some (frs, rest) ->
  frames_of (c ++ x) =
    match frames_of (rest ++ x) with Some (frs', rest') => Some (frs ++ frs', rest') | None => None end.
Proof.
  intros Hb Hx. remember (length c) as n eqn:Hn. assert (Hle : (length c <= n)%nat) by lia. clear Hn.
  revert c frs rest Hb Hle. induction n as [|n IH]; intros c frs rest Hb Hle.
  - destruct c; [|simpl in *; lia]. intros [= <- <-]. simpl. by destruct (frames_of x) as [[??]|].
  - rewrite (frames_of_unfold c Hb).
    destruct (next_frame c) as [| |fr rest1] eqn:E; [intros [= <- <-]|done|].
    { by destruct (frames_of (c ++ x)) as [[??]|]. }
    pose proof (next_frame_shorter _ _ _ Hb E) as [? _]. pose proof (next_frame_bytes _ _ _ Hb E).
    rewrite (frames_of_unfold (c ++ x)) by (by apply bytes_app).
    rewrite (next_frame_app _ _ _ _ Hb E).
    destruct (frames_of rest1) as [[frs1 rest2]|] eqn:E1; [|done]. intros [= <- <-].
    rewrite (IH rest1 frs1 rest2) by (done || lia).
    by destruct (frames_of (rest2 ++ x)) as [[??]|].
Qed.

Lemma frames_of_None_app c x :
  bytes c -> bytes x -> frames_of c = None -> frames_of (c ++ x) = None.
Proof.
  intros Hb Hx. remember (length c) as n eqn:Hn. assert (Hle : (length c <= n)%nat) by lia. clear Hn.
  revert c Hb Hle. induction n as [|n IH]; intros c Hb Hle.
  - destruct c; [done|simpl in *; lia].
  - rewrite (frames_of_unfold c Hb), (frames_of_unfold (c ++ x)) by (by apply bytes_app).
    destruct (next_frame c) as [| |fr rest1] eqn:E; [done| |].
    { by rewrite (next_frame_too_long_app _ _ E). }
    pose proof (next_frame_shorter _ _ _ Hb E) as [? _]. pose proof (next_frame_bytes _ _ _ Hb E).
    rewrite (next_frame_app _ _ _ _ Hb E).
    destruct (frames_of rest1) as [[??]|] eqn:E1; [done|]. intros _. by rewrite IH by (done || lia).
Qed.

Lemma run_frames_app now_ms frs1 frs2 d frags :
  run_frames now_ms (frs1 ++ frs2) d frags =
    match run_frames now_ms frs1 d frags with
    | (d, frags, Ok _) => run_frames now_ms frs2 d frags
    | r => r
    end.
Proof.
  revert d frags. induction frs1 as [|fr frs1 IH]; intros d frags; simpl; [done|].
  destruct (run_frame now_ms d frags fr) as [[d' frags'] [[]|m|u]]; [apply IH|done..].
Qed.

(** * The loop refines the reference *)

Hypothesis fresh_length : forall n, length (fresh n) = n.
Context `{L : !WsDerivedLaws D}.

(** The buffer that holds a payload. *)
Definition item_of (l : list Z) : DataBuffer.t :=
  DataBuffer.buffer_of
    (let! b := new_item (Z.of_nat (length l)) in
     let! (b, _) := DataBuffer.AppendData fresh b (Some l) in Ok b).

Definition small (l : list Z) : Prop := Z.of_nat (length l) < 2 ^ 29.

Lemma item_of_ok l :
  small l ->
  (let! b := new_item (Z.of_nat (length l)) in
   let! (b, _) := DataBuffer.AppendData fresh b (Some l) in Ok b) = Ok (item_of l) /\
  item_bytes (item_of l) = Ok l.
Proof.
  unfold small, item_of. intros Hs. set (n := Z.of_nat (length l)) in *.
  assert (0 <= n) by lia. unfold new_item, DataBuffer.PRE_RESERVE_HEADER_SIZE.
  replace (u64 (n + 1024)) with (n + 1024) by zlia.
  replace (u64 (n + 1024 + 200)) with (n + 1024 + 200) by zlia.
  rewrite !decide_False by lia.
  destruct (DataBuffer.new_DataBuffer_inv fresh (n + 1024) fresh_length) as (b & Eb & Hi & Hc).
  { unfold DataBuffer.PRE_RESERVE_HEADER_SIZE. lia. }
  rewrite Eb. cbn [rbind].
  assert (Hlen0 : DataBuffer.data_len_ b = 0).
  { rewrite <- (DataBuffer.length_contents b Hi). by rewrite Hc. }
  assert (Hread : forall d, DataBuffer.inv d -> item_bytes d = Ok (DataBuffer.contents d)).
  { intros d Hd. unfold item_bytes. rewrite DataLen_inv by done. pose proof Hd as (?&?&?&?&?&?).
    by rewrite DataBuffer.rd_at_ok by (unfold DataBuffer.Data; lia). }
  destruct l as [|x l].
  - simpl. split; [done|]. by rewrite Hread, Hc by done.
  - destruct (DataBuffer.AppendData_ok fresh fresh_length b (x :: l) Hi) as (b' & -> & Hi' & Hc').
    { done. } { rewrite Hlen0. lia. }
    { unfold DataBuffer.new_DataBuffer in Eb. revert Eb.
      destruct (DataBuffer.wr_at _ _ _); [|done..]. intros [= <-].
      unfold DataBuffer.overlapping_move, DataBuffer.PRE_RESERVE_HEADER_SIZE. simpl. lia. }
    cbn [rbind]. split; [done|]. simpl. rewrite Hread by done. by rewrite Hc', Hc.
Qed.

Lemma fragment_ok m p l :
  small l -> payload_bytes m p (Z.of_nat (length l)) = Ok l ->
  fragment m p (Z.of_nat (length l)) = Ok (item_of l).
Proof.
  intros Hs Hp. unfold fragment. rewrite Hp. destruct (item_of_ok l Hs) as [E _].
  destruct (new_item (Z.of_nat (length l))); [|done..]. exact E.
Qed.

(** ** The parser and the fragments do not influence the rest *)

Lemma base_input f v d : base (set_input f v d) = with_input (base d) f v.
Proof. apply base_set. Qed.

Lemma update_input f v d (g : t -> t) :
  (forall b, g (with_input b f v) = with_input (g b) f v) ->
  update (set_input f v d) g = set_input f v (update d g).
Proof.
  intros Hg. unfold update, set_input. by rewrite !base_set, !set_base_twice, Hg.
Qed.

Lemma update_frame f v f' d : update (set_input f v d) (fun s => with_frame s f') = set_input f' v d.
Proof. unfold update, set_input. by rewrite base_set, set_base_twice. Qed.
Lemma update_recv f v v' d : update (set_input f v d) (fun s => with_recv s v') = set_input f v' d.
Proof. unfold update, set_input. by rewrite base_set, set_base_twice. Qed.
Lemma update_push f v b d :
  update (set_input f v d) (fun s => with_recv s (recv_buffer_vec_ s ++ [b])) = set_input f (v ++ [b]) d.
Proof. unfold update, set_input. by rewrite base_set, set_base_twice. Qed.

Lemma for_items_input f v (F G : D -> list Z -> D * res unit) ls d :
  (forall d l, F (set_input f v d) l = smap (set_input f v) (G d l)) -> Forall small ls ->
  for_items F (map item_of ls) (set_input f v d) = smap (set_input f v) (for_each G ls d).
Proof.
  intros HF Hs. revert d. induction Hs as [|l ls Hl Hs IH]; intros d; [done|]. simpl.
  rewrite (proj2 (item_of_ok l Hl)). simpl. rewrite HF.
  destruct (G d l) as [d' [[]|m|u]]; [apply IH|done..].
Qed.

Lemma switch_deliver now_ms f frags d :
  Forall small frags ->
  switch_opcode now_ms (set_input f (map item_of frags) d)
  = smap (set_input f (map item_of frags)) (deliver now_ms (opcode_ f) frags d).
Proof.
  intros Hs. unfold switch_opcode, deliver, HandleWsPing. rewrite base_input.
  unfold GetOperCode. cbn [frame_ recv_buffer_vec_ with_input with_recv with_frame].
  repeat case_decide; try done.
  - apply for_items_input; [intros; apply send_blind|done].
  - unfold smap. simpl. f_equal. by apply update_input.
  - apply for_items_input; [intros; apply close_blind|done].
  - apply for_items_input; [|done]. intros d' l. rewrite base_input. apply data_blind.
  - apply for_items_input; [|done]. intros d' l. rewrite base_input. apply data_blind.
Qed.

(** ** One frame *)

Lemma Parse_None f : Parse fresh f None = Parse fresh f (Some []).
Proof. done. Qed.

Lemma receive_incomplete f frags a data f' :
  Parse fresh f data = Ok (f', 1) ->
  receive_frame (set_input f (map item_of frags) a) data
  = (set_input f' (map item_of frags) a, Ok (Some 1)).
Proof.
  intros HP. unfold receive_frame. rewrite base_input. cbn [frame_ with_input with_recv with_frame].
  rewrite HP. rewrite decide_True by lia. by rewrite update_frame.
Qed.

Lemma parsed_payload f fr rest :
  parsed f fr rest ->
  payload_bytes (DataBuffer.buffer_ (buffer_ f)) (GetPayloadData f) (payload_len_ f)
    = Ok (fr_payload fr) /\ PayloadIsReady f = true /\
  exists b p, DataBuffer.ConsumeData (buffer_ f) (i32 (u64 (payload_start_ f + payload_len_ f)))
      = (b, p) /\ DataBuffer.inv b /\ DataBuffer.contents b = rest.
Proof.
  intros (Hi & _ & _ & Hst & Hln & Hp & Hle).
  pose proof (DataBuffer.length_contents _ Hi) as HL. fold (pending f) in HL.
  pose proof Hi as (?&?&?&?&?&?). split; [|split].
  - unfold payload_bytes, GetPayloadData, DataBuffer.Data. rewrite decide_False by lia.
    rewrite DataBuffer.rd_at_ok by lia. f_equal.
    replace (Z.to_nat (DataBuffer.start_ (buffer_ f) + payload_start_ f))
      with (Z.to_nat (DataBuffer.start_ (buffer_ f)) + Z.to_nat (payload_start_ f))%nat by lia.
    rewrite <- (slice_slice _ (Z.to_nat (DataBuffer.data_len_ (buffer_ f)))) by lia.
    change (slice (Z.to_nat (payload_start_ f)) (Z.to_nat (payload_len_ f)) (pending f)
            = fr_payload fr).
    rewrite Hp. apply slice_mid; [rewrite length_take|]; lia.
  - unfold PayloadIsReady. rewrite DataLen_inv by done. apply bool_decide_true. zlia.
  - replace (i32 (u64 (payload_start_ f + payload_len_ f)))
      with (payload_start_ f + payload_len_ f) by zlia.
    destruct (DataBuffer.ConsumeData_ok (buffer_ f) (payload_start_ f + payload_len_ f) Hi)
      as (b & Hb & Hib & Hcb); [lia|].
    exists b, (Some (DataBuffer.Data b)). split; [done|]. split; [done|]. rewrite Hcb. fold (pending f).
    rewrite Hp, app_assoc. apply drop_app_length'. rewrite length_app, length_take. lia.
Qed.

Lemma receive_decoded f frags a data f' fr rest :
  Parse fresh f data = Ok (f', 0) -> parsed f' fr rest -> small (fr_payload fr) -> bytes rest ->
  exists f2, frame_inv f2 /\ pending f2 = rest /\ opcode_ f2 = fr_op fr /\ fin_ f2 = fr_fin fr /\
  receive_frame (set_input f (map item_of frags) a) data =
    (set_input f2 (map item_of (frags ++ [fr_payload fr]))
       (if decide (fr_op fr = WS_OP_TEXT_TYPE \/ fr_op fr = WS_OP_BIN_TYPE)
        then update a (fun s => with_last_op s (fr_op fr)) else a), Ok None).
Proof.
  intros HP Hpar Hsm Hb.
  destruct (parsed_payload _ _ _ Hpar) as (Hpay & Hrdy & b & p & Hcon & Hib & Hcb).
  destruct Hpar as (_ & Hfin & Hop & _ & Hln & _).
  exists (Reset (with_buffer f' b)). split_and!; try done.
  { unfold frame_inv. simpl. rewrite Hcb. done. }
  unfold receive_frame. rewrite base_input. cbn [frame_ with_input with_recv with_frame].
  rewrite HP. rewrite decide_False by lia. rewrite update_frame.
  unfold GetOperCode, GetPayloadLen, GetPayloadStart, Consume. rewrite Hop, Hrdy. cbn [negb].
  rewrite Hln in Hpay |- *. rewrite (fragment_ok _ _ _ Hsm Hpay). cbn [sbind]. rewrite <- Hln, Hcon.
  case_decide.
  - rewrite update_input by done. rewrite update_push, update_frame. by rewrite map_app.
  - rewrite update_push, update_frame. by rewrite map_app.
Qed.

Lemma dispatch_run now_ms f frags a fr :
  Forall small (frags ++ [fr_payload fr]) -> opcode_ f = fr_op fr -> fin_ f = fr_fin fr ->
  dispatch now_ms (set_input f (map item_of (frags ++ [fr_payload fr]))
    (if decide (fr_op fr = WS_OP_TEXT_TYPE \/ fr_op fr = WS_OP_BIN_TYPE)
     then update a (fun s => with_last_op s (fr_op fr)) else a))
  = (let '(a', frags', r) := run_frame now_ms a frags fr in (set_input f (map item_of frags') a', r)).
Proof.
  intros Hs Hop Hfin. unfold dispatch, run_frame, GetFin. rewrite base_input.
  cbn [frame_ with_input with_recv with_frame]. rewrite Hfin.
  destruct (fr_fin fr); cbn [negb]; [|done].
  set (a1 := if decide _ then _ else _).
  rewrite update_input by done. rewrite switch_deliver by done. rewrite Hop.
  destruct (deliver _ _ _ _) as [a' [[]|m|u]]; [|done..].
  unfold smap. simpl. by rewrite update_recv.
Qed.

(** The value [HandleFrame] answers: 0 when the read ended with a frame, else 1. *)
Definition loop_ret (frs : list frame) (rest : list Z) : Z :=
  match frs, rest with
  | [], _ => 1
  | _, [] => 0
  | _, _ => 1
  end.

(** What the concrete object is, after the abstract run [r] on the frames [frs]. *)
Definition refines (r : D * list (list Z) * res unit) (out : D * res Z)
    (frs : list frame) (rest : list Z) : Prop :=
  exists f,
    match r with
    | (a, frags, Ok _) =>
        out = (set_input f (map item_of frags) a, Ok (loop_ret frs rest)) /\
        frame_inv f /\ pending f = rest /\ Forall small frags
    | (a, frags, Throw m) => out = (set_input f (map item_of frags) a, Throw m)
    | (a, frags, Undef u) => out = (set_input f (map item_of frags) a, Undef u)
    end.

(** What [frame_Parse_ok] gives about the next call of [Parse] on the bytes [c]. *)
Definition parses (f : WebSocketFrame.t) (data : option (list Z)) (c : list Z) : Prop :=
  match next_frame c with
  | Incomplete => exists f', Parse fresh f data = Ok (f', 1) /\ frame_inv f' /\ pending f' = c
  | Decoded fr rest => exists f', Parse fresh f data = Ok (f', 0) /\ parsed f' fr rest
  | TooLong => True
  end.

Lemma run_frame_small now_ms a frags fr a' frags' r :
  Forall small (frags ++ [fr_payload fr]) -> run_frame now_ms a frags fr = (a', frags', r) ->
  Forall small frags'.
Proof.
  intros Hs. unfold run_frame. destruct (negb (fr_fin fr)); [by intros [= _ <- _]|].
  destruct (deliver _ _ _ _) as [? [[]|m|u]]; intros [= _ <- _]; done.
Qed.

Lemma DataLen_pending f : DataBuffer.inv (buffer_ f) -> GetBufferLen f = Z.of_nat (length (pending f)).
Proof. apply DataLen_c. Qed.

Lemma handle_loop_refines n now_ms c f frags a data frs rest :
  parses f data c -> bytes c -> small c -> Forall small frags -> (length c < n)%nat ->
  frames_of c = Some (frs, rest) ->
  refines (run_frames now_ms frs a frags)
          (handle_loop n now_ms (set_input f (map item_of frags) a) data) frs rest.
Proof.
  revert c f frags a data frs rest.
  induction n as [|n IH]; intros c f frags a data frs rest HP Hb Hc Hs Hn; [lia|].
  rewrite frames_of_unfold by done. unfold parses in HP.
  destruct (next_frame c) as [| |fr rest1] eqn:E; [|done|].
  { intros [= <- <-]. destruct HP as (f' & HP & Hf & Hp). exists f'. cbn [handle_loop].
    rewrite (receive_incomplete _ _ _ _ _ HP). done. }
  destruct (frames_of rest1) as [[frs1 rest2]|] eqn:E1; [|done]. intros [= <- <-].
  destruct HP as (f' & HP & Hpar).
  pose proof (next_frame_shorter _ _ _ Hb E) as [? ?]. pose proof (next_frame_bytes _ _ _ Hb E).
  assert (Hsm : small (fr_payload fr)) by (unfold small in *; lia).
  destruct (receive_decoded f frags a data f' fr rest1) as (f2 & Hf2 & Hp2 & Hop & Hfin & Hrec); [done..|].
  assert (Hs2 : Forall small (frags ++ [fr_payload fr])) by (by apply Forall_app; split; [|constructor]).
  cbn [handle_loop run_frames]. rewrite Hrec. cbn [sbind].
  rewrite (dispatch_run now_ms f2 frags a fr) by done.
  destruct (run_frame now_ms a frags fr) as [[a' frags'] r] eqn:Er.
  pose proof (run_frame_small _ _ _ _ _ _ _ Hs2 Er) as Hs3.
  destruct r as [[]|m|u]; [|by exists f2..]. cbn [sbind].
  rewrite base_input. cbn [frame_ with_input with_recv with_frame].
  rewrite DataLen_pending by apply Hf2. rewrite Hp2.
  destruct (decide (Z.of_nat (length rest1) > 0)) as [Hz|Hz].
  - assert (Hpar2 : parses f2 None rest1).
    { unfold parses. rewrite <- Hp2. by apply (parse_buffered_ok f2). }
    destruct (IH rest1 f2 frags' a' None frs1 rest2) as (f3 & H3); try done; try (unfold small in *; lia).
    exists f3. destruct (run_frames now_ms frs1 a' frags') as [[a3 frags3] [[]|m|u]]; [|exact H3..].
    destruct H3 as (-> & H3). split; [|done]. do 2 f_equal.
    destruct frs1; [|by destruct rest2]. destruct rest2; [|done].
    rewrite frames_of_unfold in E1 by done. destruct (next_frame rest1); [|done|].
    + injection E1 as ->. simpl in Hz. lia.
    + by destruct (frames_of rest) as [[??]|].
  - destruct rest1 as [|z rest1]; [|simpl in Hz; lia]. injection E1 as <- <-.
    exists f2. simpl. done.
Qed.

Lemma HandleFrame_ok now_ms f frags a data frs rest :
  frame_inv f -> room f data -> Forall small frags ->
  frames_of (pending f ++ data) = Some (frs, rest) ->
  refines (run_frames now_ms frs a frags)
          (HandleFrame now_ms (set_input f (map item_of frags) a) data) frs rest.
Proof.
  intros Hf Hr Hs Hfr. pose proof Hf as (_ & Hb & _). pose proof Hr as (Hd & Hl & _).
  unfold HandleFrame. rewrite base_input. cbn [frame_ with_input with_recv with_frame].
  apply (handle_loop_refines _ now_ms (pending f ++ data)); try done.
  - unfold parses. by apply frame_Parse_ok.
  - by apply bytes_app.
  - unfold small. rewrite length_app. lia.
  - rewrite length_app. lia.
Qed.


(** Two outcomes that leave the same object, but for the memory of the parser. *)
Definition same_object {A B} (o1 : D * res A) (o2 : D * res B) : Prop :=
  exists a frags f1 f2,
    fst o1 = set_input f1 (map item_of frags) a /\ fst o2 = set_input f2 (map item_of frags) a /\
    match snd o1, snd o2 with
    | Ok _, Ok _ => pending f1 = pending f2
    | Throw m1, Throw m2 => m1 = m2
    | Undef u1, Undef u2 => u1 = u2
    | _, _ => False
    end.


End Base.
End WsSessionBase.

(** * Sending: the part both derived classes share line for line *)
Module WsWrite.
Import WebSocketFrame.

(** The two first bytes and the extended length in [header_start], and [header_len]. *)
Definition ws_header (op_code len : Z) (mask : bool) : list Z * nat :=
  let b0 := set_bits (set_bits 0 7 1 1) 0 4 op_code in
  let '(payload_len, ext, header_len) :=
    if decide (len >= 126) then
      if decide (len > 65535) then
        (127, [Z.land (Z.shiftr len 56) 255; Z.land (Z.shiftr len 48) 255;
               Z.land (Z.shiftr len 40) 255; Z.land (Z.shiftr len 32) 255;
               Z.land (Z.shiftr len 24) 255; Z.land (Z.shiftr len 16) 255;
               Z.land (Z.shiftr len 8) 255; Z.land (Z.shiftr len 0) 255], 10%nat)
      else (126, [Z.land (Z.shiftr len 8) 255; Z.land (Z.shiftr len 0) 255], 4%nat)
    else (len, [], 2%nat) in
  let b1 := set_bits (set_bits 0 0 7 payload_len) 7 1 (if mask then 1 else 0) in
  (b0 :: b1 :: ext ++ replicate (8 - length ext) 0, header_len).

Section Random.
(** The [k]-th draw of [ByteCrypto::GetRandomUint(1, 0xff)]. *)
Variable random : nat -> Z.

Definition masking_key (drawn : nat) : list Z :=
  [u8 (random drawn); u8 (random (drawn + 1)); u8 (random (drawn + 2)); u8 (random (drawn + 3))]%nat.

(** [data_vec]: the payload, masked by a client.  (The address of the first cell of an
    empty vector is taken but nothing is accessed through it.) *)
Definition masked_copy (data key : list Z) (mask : bool) : res (list Z) :=
  if mask then mask_loops data 0 (Z.of_nat (length data)) key else Ok data.

(** ** The peer's decoder reads back what was sent *)

Definition ext_of (len : Z) : list Z :=
  if decide (len >= 126) then
    if decide (len > 65535) then be_bytes 8 len else be_bytes 2 len
  else [].
Definition len7_of (len : Z) : Z :=
  if decide (len >= 126) then if decide (len > 65535) then 127 else 126 else len.

Lemma land255 x : Z.land x 255 = x mod 256.
Proof. change 255 with (Z.ones 8). by rewrite Z.land_ones by lia. Qed.

Lemma be_bytes_2 len :
  be_bytes 2 len = [Z.land (Z.shiftr len 8) 255; Z.land (Z.shiftr len 0) 255].
Proof. rewrite !land255, !Z.shiftr_div_pow2 by lia. by rewrite Z.div_1_r. Qed.
Lemma be_bytes_8 len :
  be_bytes 8 len =
    [Z.land (Z.shiftr len 56) 255; Z.land (Z.shiftr len 48) 255;
     Z.land (Z.shiftr len 40) 255; Z.land (Z.shiftr len 32) 255;
     Z.land (Z.shiftr len 24) 255; Z.land (Z.shiftr len 16) 255;
     Z.land (Z.shiftr len 8) 255; Z.land (Z.shiftr len 0) 255].
Proof.
  rewrite !land255, !Z.shiftr_div_pow2, Z.div_1_r by lia. unfold be_bytes, reverse. simpl.
  by rewrite !Z.div_div by lia.
Qed.

Lemma ws_header_take op len mask :
  0 <= len ->
  take (snd (ws_header op len mask)) (fst (ws_header op len mask))
  = (128 + op mod 16) :: (len7_of len mod 128 + if mask then 128 else 0) :: ext_of len.
Proof.
  intros. assert (E0 : set_bits (set_bits 0 7 1 1) 0 4 op = 128 + op mod 16).
  { unfold set_bits, bits. change (2 ^ 7) with 128. change (2 ^ 1) with 2. change (2 ^ 0) with 1.
    change (2 ^ 4) with 16. simpl. zlia. }
  assert (E1 : forall x (m : bool), set_bits (set_bits 0 0 7 x) 7 1 (if m then 1 else 0)
             = x mod 128 + if m then 128 else 0).
  { intros x m. unfold set_bits, bits. change (2 ^ 7) with 128. change (2 ^ 1) with 2.
    change (2 ^ 0) with 1. destruct m; zlia. }
  unfold ws_header, ext_of, len7_of. rewrite be_bytes_2, be_bytes_8.
  repeat case_decide; cbn [fst snd]; rewrite E0, E1; reflexivity.
Qed.

Lemma next_frame_wire (b0 b1 : Z) (ext key body rest : list Z) :
  byte b0 -> byte b1 -> length ext = ext_bytes b1 ->
  length key = (if (128 <=? b1 mod 256)%Z then 4 else 0)%nat ->
  Z.of_nat (length body) = (if decide (ext_bytes b1 = 0%nat) then b1 mod 128 else be_val ext) ->
  Z.of_nat (length body) < 2 ^ 62 ->
  next_frame (b0 :: b1 :: ext ++ key ++ body ++ rest)
  = Decoded (Frame (128 <=? b0 mod 256) (b0 mod 16)
               (if 128 <=? b1 mod 256 then unmask key body else body)) rest.
Proof.
  intros ?? He Hk Hb Hsm. set (c := b0 :: b1 :: ext ++ key ++ body ++ rest).
  assert (Hc : length c = (2 + length ext + length key + length body + length rest)%nat).
  { unfold c. simpl. rewrite !length_app. lia. }
  assert (length ext <= 8 /\ length key <= 4)%nat as [Hle8 Hle4].
  { rewrite He, Hk. unfold ext_bytes. split; [repeat case_decide; lia|]. destruct (128 <=? _); lia. }
  assert (Hext : slice 2 (length ext) c = ext).
  { unfold c. change (b0 :: b1 :: ext ++ ?l) with ([b0; b1] ++ ext ++ l). by apply slice_mid. }
  assert (Hkey : slice (2 + length ext) (length key) c = key).
  { unfold c. change (b0 :: b1 :: ext ++ ?l) with (([b0; b1] ++ ext) ++ l). by apply slice_mid. }
  assert (Hbody : slice (2 + length ext + length key) (length body) c = body).
  { unfold c. change (b0 :: b1 :: ext ++ ?l) with ([b0; b1] ++ ext ++ l).
    rewrite (app_assoc ext), (app_assoc [b0; b1]). apply slice_mid; [|done].
    rewrite !length_app. simpl. lia. }
  unfold next_frame. rewrite decode_header_cells by lia. cbv zeta.
  change (cell c 0) with b0. change (cell c 1) with b1. rewrite <- He, <- Hk.
  rewrite (proj2 (Nat.leb_le _ _)) by lia. cbn [h_fin h_op h_key h_len h_start].
  rewrite Hext, <- He in *. rewrite <- Hb.
  rewrite decide_False by lia. rewrite decide_True by lia. rewrite Nat2Z.id, Hbody. f_equal.
  - f_equal. destruct (128 <=? b1 mod 256) eqn:E; [|done].
    rewrite Hk in Hkey. by rewrite Hkey.
  - unfold c. change (b0 :: b1 :: ext ++ ?l) with ([b0; b1] ++ ext ++ l).
    rewrite (app_assoc key), (app_assoc ext), (app_assoc [b0; b1]). apply drop_app_length'.
    rewrite !length_app. simpl. lia.
Qed.

(** The bytes of a frame, as both classes put them on the connection. *)
Definition wire (op_code : Z) (data key : list Z) (mask : bool) : list Z :=
  let len := Z.of_nat (length data) in
  take (snd (ws_header op_code len mask)) (fst (ws_header op_code len mask))
    ++ (if mask then key ++ unmask key data else data).

Lemma next_frame_wire_of op (data key : list Z) (mask : bool) rest :
  Z.of_nat (length data) < 2 ^ 62 -> length key = 4%nat ->
  next_frame (wire op data key mask ++ rest) = Decoded (Frame true (op mod 16) data) rest.
Proof.
  intros Hd Hk. unfold wire. rewrite ws_header_take by lia.
  set (len := Z.of_nat (length data)) in *. set (b1 := len7_of len mod 128 + _).
  assert (Hb1 : byte b1 /\ b1 mod 128 = len7_of len /\ (128 <=? b1 mod 256) = mask).
  { unfold b1, len7_of, byte. split; [|split].
    - destruct mask; repeat case_decide; zlia.
    - destruct mask; repeat case_decide; zlia.
    - destruct mask; apply Z.leb_le || apply Z.leb_gt; repeat case_decide; zlia. }
  destruct Hb1 as (Hbyte & Hmod & Hmask).
  assert (Hext : length (ext_of len) = ext_bytes b1).
  { unfold ext_of, ext_bytes. rewrite Hmod. unfold len7_of. repeat case_decide; try lia;
      by rewrite ?length_be_bytes. }
  assert (Hlen : len = if decide (ext_bytes b1 = 0%nat) then b1 mod 128 else be_val (ext_of len)).
  { unfold ext_bytes. rewrite Hmod. unfold len7_of, ext_of.
    repeat case_decide; try lia; rewrite be_val_be_bytes; symmetry; apply Z.mod_small; simpl; lia. }
  assert (Hop : byte (128 + op mod 16)) by (unfold byte; zlia).
  replace (((128 + op mod 16) :: b1 :: ext_of len) ++ (if mask then key ++ unmask key data else data))
    with ((128 + op mod 16) :: b1 :: ext_of len ++ (if mask then key else [])
            ++ (if mask then unmask key data else data)) by (by destruct mask).
  change (((128 + op mod 16) :: b1 :: ?l) ++ rest) with ((128 + op mod 16) :: b1 :: (l ++ rest)).
  rewrite <- !app_assoc. rewrite next_frame_wire; rewrite ?Hmask; try done.
  - f_equal. f_equal; [apply Z.leb_le; zlia|zlia|]. destruct mask; [apply unmask_involutive|done].
  - by destruct mask.
  - destruct mask; rewrite ?length_unmask; done.
  - destruct mask; rewrite ?length_unmask; done.
Qed.

Lemma masked_copy_ok data key mask :
  Z.of_nat (length data) < 2 ^ 62 ->
  masked_copy data key mask = Ok (if mask then unmask key data else data).
Proof.
  intros. unfold masked_copy. destruct mask; [|done].
  rewrite mask_loops_range by lia. f_equal. rewrite (xor_range_splice 0 (length data)) by lia.
  rewrite slice_all by done. unfold splice. rewrite length_unmask. simpl.
  by rewrite drop_all, app_nil_r.
Qed.
End Random.
End WsWrite.

(** What an object does to the outside, in order. *)
Inductive event :=
  | TcpWrite (l : list Z)
  | TcpClose
  | TcpRead
  | OnReadText (l : list Z)
  | OnReadData (l : list Z)
  | OnClose (code : Z) (desc : string).

(** Close codes the peer may send: [HandleWsClose] of both classes. *)
Definition close_code_invalid (code : Z) : bool :=
  (code <? 1000) || (5000 <=? code) || (code =? 1004) || (code =? 1005) || (code =? 1006) ||
  (code =? 1015).

(** [SendClose] takes a C string. *)
Definition chars (s : string) : list Z :=
  map (fun a => Z.of_N (Ascii.N_of_ascii a)) (String.list_ascii_of_string s).

(** * The server side *)
Module WebSocketSession.
Import WebSocketFrame WsSessionBase WsWrite.

(** [session_] says whether the TCP connection object is there; [drawn] counts the
    random numbers used. *)
Record t := mk {
  ws_base : WsSessionBase.t;
  session_ : bool;
  cb_ : bool;
  drawn : nat;
  events : list event
}.

Definition emit (s : t) (e : list event) : t :=
  mk (ws_base s) (session_ s) (cb_ s) (drawn s) (events s ++ e).

(** [session_->AsyncWrite(...)]. *)
Definition AsyncWrite (s : t) (l : list Z) : t * res unit :=
  if session_ s then (emit s [TcpWrite l], Ok tt) else (s, Undef NullDeref).

Section Random.
Variable random : nat -> Z.

Definition SendWsFrame (s : t) (data : list Z) (op_code : Z) : t * res unit :=
  let is_client := is_client_ (ws_base s) in
  let (header_start, header_len) := ws_header op_code (Z.of_nat (length data)) is_client in
  let key := masking_key random (drawn s) in
  let s := mk (ws_base s) (session_ s) (cb_ s) (drawn s + 4) (events s) in
  do! (s, p) := (s, masked_copy data key is_client) in
  do! (s, _) := AsyncWrite s (take header_len header_start) in
  do! (s, _) := (if is_client then AsyncWrite s key else (s, Ok tt)) in
  AsyncWrite s p.
#[export] Instance sender : WsSender t := SendWsFrame.

Definition HandleWsData (s : t) (data : list Z) (op_code : Z) : t * res unit :=
  if cb_ s then
    if op_code =? WS_OP_TEXT_TYPE then (emit s [OnReadText data], Ok tt)
    else if op_code =? WS_OP_BIN_TYPE then (emit s [OnReadData data], Ok tt)
    else (s, Ok tt)
  else (s, Ok tt).

Definition CloseSession (s : t) : t :=
  if close_ (ws_base s) then s else
  let s := mk (with_close (with_connected (ws_base s) false) true) (session_ s) (cb_ s) (drawn s)
              (events s) in
  let s := if session_ s
           then mk (ws_base s) false (cb_ s) (drawn s) (events s ++ [TcpClose]) else s in
  if cb_ s then emit s [OnClose 0 "Normal Closure"] else s.

Definition HandleWsClose (s : t) (data : list Z) : t * res unit :=
  if close_ (ws_base s) then (s, Ok tt) else
  do! (s, _) :=
    (match data with
     | b0 :: b1 :: _ =>
         if close_code_invalid (Z.lor (Z.shiftl b0 8) b1)
         then SendClose s 1002 (chars "Invalid close code")
         else SendWsFrame s data WS_OP_CLOSE_TYPE
     | _ => SendClose s 1002 (chars "Incomplete close code")
     end) in
  (CloseSession s, Ok tt).

#[export] Instance derived : WsDerived t := {
  ws_sender := sender;
  base := ws_base;
  set_base s b := mk b (session_ s) (cb_ s) (drawn s) (events s);
  HandleWsData := HandleWsData;
  HandleWsClose := HandleWsClose
}.

Definition OnTimer (now_ms : Z) (s : t) : t * res unit :=
  if negb (is_connected_ (ws_base s)) then (s, Ok tt)
  else if now_ms - last_send_ping_ms_ (ws_base s) >? 2000 then
    SendPingFrame (mk (with_ping (ws_base s) now_ms) (session_ s) (cb_ s) (drawn s) (events s)) now_ms
  else (s, Ok tt).

Definition OnWrite (s : t) (ret_code : Z) (desc : string) : t :=
  if ret_code <? 0 then
    let s := mk (with_connected (ws_base s) false) (session_ s) (cb_ s) (drawn s) (events s) in
    if cb_ s then emit s [OnClose ret_code desc] else s
  else s.

(** [OnRead] with an error code. *)
Definition OnRead_error (s : t) (ret_code : Z) (desc : string) : t :=
  let s := mk (with_connected (ws_base s) false) (session_ s) (cb_ s) (drawn s) (events s) in
  if cb_ s then emit s [OnClose ret_code desc] else s.

(** [OnRead] once the HTTP upgrade is done: [recv_data] holds the bytes read. *)
Definition OnRead_frames (fresh : nat -> buf) (now_ms : Z) (s : t) (data : list Z) : t * res unit :=
  do! (s, recv_data) :=
    (s, let! b := DataBuffer.new_DataBuffer fresh (Z.of_nat (length data)) in
        DataBuffer.AppendData fresh b (Some data)) in
  do! (s, bytes) := (s, item_bytes (fst recv_data)) in
  do! (s, _) := HandleFrame fresh now_ms s bytes in
  if close_ (ws_base s) then (s, Ok tt)
  else if negb (session_ s) then (s, Ok tt)
  else (emit s [TcpRead], Ok tt).

(** ** The laws of the interface *)

Definition put (b : WsSessionBase.t) (s : t) : t := mk b (session_ s) (cb_ s) (drawn s) (events s).

Definition hide (f : WebSocketFrame.t) (v : list DataBuffer.t) (s : t) : t :=
  put (with_input (ws_base s) f v) s.

Lemma server_SendWsFrame_hide f v s l op :
  SendWsFrame (hide f v s) l op = smap (hide f v) (SendWsFrame s l op).
Proof.
  unfold SendWsFrame, hide. cbn [ws_base put is_client_ with_input with_recv with_frame].
  destruct (ws_header _ _ _) as [h n]. cbn [drawn put session_ cb_ events].
  destruct (masked_copy _ _ _) as [p|m|u]; cbn [sbind]; [|done..].
  unfold AsyncWrite. cbn [session_ put]. destruct (session_ s); [|done].
  by destruct (is_client_ (ws_base s)).
Qed.

Lemma CloseSession_hide f v s : CloseSession (hide f v s) = hide f v (CloseSession s).
Proof.
  unfold CloseSession, hide, put, with_input. cbn [ws_base close_ with_recv with_frame].
  destruct (close_ (ws_base s)); [done|]. cbn [session_ cb_].
  destruct (session_ s), (cb_ s); reflexivity.
Qed.

Lemma server_HandleWsClose_hide f v s l : HandleWsClose (hide f v s) l = smap (hide f v) (HandleWsClose s l).
Proof.
  unfold HandleWsClose. change (close_ (ws_base (hide f v s))) with (close_ (ws_base s)).
  destruct (close_ (ws_base s)); [done|].
  assert (Hend : forall r : t * res unit,
    (do! (s, _) := smap (hide f v) r in (CloseSession s, Ok tt))
    = smap (hide f v) (do! (s, _) := r in (CloseSession s, Ok tt))).
  { intros [s' [[]|m|u]]; [|done..]. unfold smap. simpl. by rewrite CloseSession_hide. }
  rewrite <- Hend. f_equal. unfold SendClose, WsSessionBase.SendWsFrame, sender.
  destruct l as [|b0 [|b1 l]]; [apply server_SendWsFrame_hide..|].
  destruct (close_code_invalid _); apply server_SendWsFrame_hide.
Qed.

#[export] Instance derived_laws : WsDerivedLaws t.
Proof.
  split; try done; try (by intros []).
  - intros s l op f v. change (HandleWsData (hide f v s) l op = smap (hide f v) (HandleWsData s l op)).
    unfold HandleWsData. change (cb_ (hide f v s)) with (cb_ s).
    destruct (cb_ s); [|done]. by destruct (op =? WS_OP_TEXT_TYPE), (op =? WS_OP_BIN_TYPE).
  - intros. apply server_SendWsFrame_hide.
  - intros. apply server_HandleWsClose_hide.
Qed.

(** ** What is sent *)

(** The bytes an object has written to its connection. *)
Definition written (es : list event) : list Z :=
  concat (map (fun e => match e with TcpWrite l => l | _ => [] end) es).

Lemma server_SendWsFrame_ok s data op :
  session_ s = true -> Z.of_nat (length data) < 2 ^ 62 ->
  exists es, SendWsFrame s data op
    = (mk (ws_base s) true (cb_ s) (drawn s + 4) (events s ++ es), Ok tt) /\
    written es = wire op data (masking_key random (drawn s)) (is_client_ (ws_base s)).
Proof.
  intros Hs Hd. unfold SendWsFrame, wire, AsyncWrite.
  destruct (ws_header _ _ _) as [h n]. rewrite masked_copy_ok by done. cbn [sbind fst snd].
  rewrite Hs. cbn [session_ sbind]. destruct (is_client_ (ws_base s)); cbn [sbind session_ emit];
    unfold emit; cbn [events session_ cb_ drawn ws_base]; rewrite <- ?app_assoc;
    eexists; (split; [reflexivity|]); unfold written; simpl; by rewrite app_nil_r.
Qed.

(** whatever the session writes for one frame, a peer that decodes the stream reads
    as exactly that frame, whole, unmasked, with its opcode, in front of whatever
    follows; on either side, and for every payload length. *)
Theorem SendWsFrame_roundtrip (s : t) (data rest : list Z) (op : Z) :
  session_ s = true -> Z.of_nat (length data) < 2 ^ 62 -> 0 <= op < 16 ->
  exists es, SendWsFrame s data op
    = (mk (ws_base s) true (cb_ s) (drawn s + 4) (events s ++ es), Ok tt) /\
    next_frame (written es ++ rest) = Decoded (Frame true op data) rest.
Proof.
  intros Hs Hd Hop. destruct (server_SendWsFrame_ok s data op Hs Hd) as (es & -> & Hw).
  exists es. split; [done|]. rewrite Hw, next_frame_wire_of by done. by rewrite Z.mod_small.
Qed.
End Random.
End WebSocketSession.

(** * The client side *)
Module WebSocketClient.
Import WebSocketFrame WsSessionBase WsWrite.

Definition kWebSocketPongTimeout : Z := 15000.

Record t := mk {
  ws_base : WsSessionBase.t;
  drawn : nat;
  events : list event
}.

Definition emit (s : t) (e : list event) : t := mk (ws_base s) (drawn s) (events s ++ e).
Definition with_base (s : t) (b : WsSessionBase.t) : t := mk b (drawn s) (events s).

Section Random.
Variable random : nat -> Z.

(** One write of header, key and masked payload; the mask bit is always set. *)
Definition SendWsFrame (s : t) (data : list Z) (op_code : Z) : t * res unit :=
  let (header_start, header_len) := ws_header op_code (Z.of_nat (length data)) true in
  let key := masking_key random (drawn s) in
  let s := mk (ws_base s) (drawn s + 4) (events s) in
  do! (s, p) := (s, masked_copy data key true) in
  (emit s [TcpWrite (take header_len header_start ++ key ++ p)], Ok tt).
#[export] Instance sender : WsSender t := SendWsFrame.

(** [conn_cb_] is the object that created the client: it is not null. *)
Definition HandleWsData (s : t) (data : list Z) (op_code : Z) : t * res unit :=
  if op_code =? WS_OP_TEXT_TYPE then (emit s [OnReadText data], Ok tt)
  else if op_code =? WS_OP_BIN_TYPE then (emit s [OnReadData data], Ok tt)
  else (s, Ok tt).

Definition HandleWsClose (s : t) (data : list Z) : t * res unit :=
  if close_ (ws_base s) then (s, Ok tt) else
  do! (s, _) :=
    (match data with
     | b0 :: b1 :: _ =>
         if close_code_invalid (Z.lor (Z.shiftl b0 8) b1)
         then SendClose s 1002 (chars "Invalid close code")
         else SendWsFrame s data WS_OP_CLOSE_TYPE
     | _ => SendClose s 1002 (chars "Incomplete close code")
     end) in
  let s := emit (with_base s (with_close (ws_base s) true)) [OnClose 0 "close"] in
  (emit (with_base s (with_connected (ws_base s) false)) [TcpClose], Ok tt).

#[export] Instance derived : WsDerived t := {
  ws_sender := sender;
  base := ws_base;
  set_base := with_base;
  HandleWsData := HandleWsData;
  HandleWsClose := HandleWsClose
}.

(** The second step of [OnTimer], on the pongs. *)
Definition check_pong (now_ms : Z) (s : t) : t :=
  if last_recv_pong_ms_ (ws_base s) <=? 0 then with_base s (with_pong (ws_base s) now_ms)
  else if now_ms - last_recv_pong_ms_ (ws_base s) >? kWebSocketPongTimeout then
    emit (with_base s (with_connected (ws_base s) false)) [TcpClose; OnClose (-1) "ping/pong timeout"]
  else s.

Definition OnTimer (now_ms : Z) (s : t) : t * res unit :=
  if negb (is_connected_ (ws_base s)) then (s, Ok tt) else
  do! (s, _) :=
    (if now_ms - last_send_ping_ms_ (ws_base s) >? 2000
     then SendPingFrame (with_base s (with_ping (ws_base s) now_ms)) now_ms
     else (s, Ok tt)) in
  (check_pong now_ms s, Ok tt).

Definition hide (f : WebSocketFrame.t) (v : list DataBuffer.t) (s : t) : t :=
  with_base s (with_input (ws_base s) f v).

Lemma client_SendWsFrame_hide f v s l op :
  SendWsFrame (hide f v s) l op = smap (hide f v) (SendWsFrame s l op).
Proof.
  unfold SendWsFrame, hide. destruct (ws_header _ _ _) as [h n]. cbn [drawn with_base].
  by destruct (masked_copy _ _ _) as [p|m|u].
Qed.

Lemma client_HandleWsClose_hide f v s l : HandleWsClose (hide f v s) l = smap (hide f v) (HandleWsClose s l).
Proof.
  unfold HandleWsClose. change (close_ (ws_base (hide f v s))) with (close_ (ws_base s)).
  destruct (close_ (ws_base s)); [done|].
  unfold SendClose, WsSessionBase.SendWsFrame, sender.
  destruct l as [|b0 [|b1 l]]; rewrite ?client_SendWsFrame_hide;
    try destruct (close_code_invalid _); rewrite ?client_SendWsFrame_hide;
    by destruct (SendWsFrame s _ _) as [s' [[]|m|u]].
Qed.

#[export] Instance derived_laws : WsDerivedLaws t.
Proof.
  split; try done; try (by intros []).
  - intros s l op f v. change (HandleWsData (hide f v s) l op = smap (hide f v) (HandleWsData s l op)).
    unfold HandleWsData. by destruct (op =? WS_OP_TEXT_TYPE), (op =? WS_OP_BIN_TYPE).
  - intros. apply client_SendWsFrame_hide.
  - intros. apply client_HandleWsClose_hide.
Qed.

Lemma client_SendWsFrame_ok s data op :
  Z.of_nat (length data) < 2 ^ 62 ->
  SendWsFrame s data op
  = (mk (ws_base s) (drawn s + 4)
        (events s ++ [TcpWrite (wire op data (masking_key random (drawn s)) true)]), Ok tt).
Proof.
  intros Hd. unfold SendWsFrame, wire.
  destruct (ws_header _ _ _) as [h n]. by rewrite masked_copy_ok by done.
Qed.
End Random.
End WebSocketClient.

(** * The two ends together *)
Module WebSocketPair.
Import WebSocketFrame WsSessionBase WsWrite.

Definition new_base (is_client : bool) (f : WebSocketFrame.t) : WsSessionBase.t :=
  WsSessionBase.mk f [] 1 0 0 0 true false is_client.
Definition server (f : WebSocketFrame.t) : WebSocketSession.t :=
  WebSocketSession.mk (new_base false f) true true 0 [].
Definition client (f : WebSocketFrame.t) : WebSocketClient.t :=
  WebSocketClient.mk (new_base true f) 0 [].
Definition dice (k : nat) : Z := 1 + Z.of_nat k mod 255.

#[local] Instance server_derived : WsDerived WebSocketSession.t := WebSocketSession.derived dice.
#[local] Instance client_derived : WsDerived WebSocketClient.t := WebSocketClient.derived dice.

Definition serve (data : list Z) : WebSocketSession.t * res Z :=
  HandleFrame DataBuffer.zeros 5 (server small_frame) data.

(** A ping between the fragments of a text message is answered with the fragments of the
    message, which are then missing from the text delivered. *)
Lemma ping_takes_fragments :
  let (s, r) := serve ([1; 2; 104; 101] ++ [137; 1; 112] ++ [128; 3; 108; 108; 111]) in
  r = Ok 0 /\
  WebSocketSession.events s =
    [TcpWrite [138; 2]; TcpWrite [104; 101]; TcpWrite [138; 1]; TcpWrite [112];
     OnReadText [108; 108; 111]].
Proof. vm_compute. done. Qed.

(** A close frame and a ping in one read: the ping is answered over the connection that
    the close has just destroyed. *)
Lemma close_then_ping_crashes : snd (serve ([136; 2; 3; 232] ++ [137; 0])) = Undef NullDeref.
Proof. vm_compute. reflexivity. Qed.

(** The fragments of a message reach the application one call each. *)
Lemma fragments_delivered_apart :
  WebSocketSession.events (fst (serve ([1; 2; 104; 101] ++ [128; 3; 108; 108; 111])))
  = [OnReadText [104; 101]; OnReadText [108; 108; 111]].
Proof. vm_compute. reflexivity. Qed.

(** ** A conversation *)

(** A message is text or binary. *)
Inductive message := Text (l : list Z) | Bin (l : list Z).
Definition payload_of (m : message) : list Z := match m with Text l | Bin l => l end.
Definition op_of (m : message) : Z := match m with Text _ => 1 | Bin _ => 2 end.
Definition event_of (m : message) : event := match m with Text l => OnReadText l | Bin l => OnReadData l end.

Lemma byte_lxor x y : byte x -> byte y -> byte (Z.lxor x y).
Proof. apply (ByteCrypto.lxor_range 8). lia. Qed.

Lemma bytes_unmask key l : bytes key -> bytes l -> bytes (unmask key l).
Proof.
  intros Hk Hl. apply Forall_lookup. intros i x. unfold unmask. rewrite list_lookup_imap.
  destruct (l !! i) as [y|] eqn:E; [|done]. intros Hx. apply (inj Some) in Hx. subst x.
  apply byte_lxor.
  - by eapply Forall_lookup_1.
  - destruct (key !! (i mod 4)%nat) as [k|] eqn:Ek.
    + rewrite (list_lookup_total_correct _ _ _ Ek). exact (Forall_lookup_1 _ _ _ _ Hk Ek).
    + rewrite list_lookup_total_alt, Ek. done.
Qed.

Lemma bytes_wire random n op data :
  bytes data -> bytes (wire op data (masking_key random n) true).
Proof.
  intros Hd. unfold wire. rewrite ws_header_take by lia. apply bytes_app. split.
  - constructor; [unfold byte; zlia|]. constructor.
    + unfold byte, len7_of. repeat case_decide; zlia.
    + unfold ext_of. repeat case_decide; [apply bytes_be_bytes..|constructor].
  - assert (Hk : bytes (masking_key random n)) by (unfold masking_key; repeat (apply Forall_cons; split; [apply u8_range|]); apply Forall_nil_2).
    apply bytes_app. split; [done|]. by apply bytes_unmask.
Qed.

Lemma length_wire random n op data :
  Z.of_nat (length data) < 2 ^ 62 ->
  (length data + 6 <= length (wire op data (masking_key random n) true) <= length data + 14)%nat.
Proof.
  intros. unfold wire. rewrite ws_header_take by lia. rewrite !length_app, length_unmask. simpl.
  unfold ext_of. repeat case_decide; rewrite ?length_be_bytes; simpl; lia.
Qed.

Section Conversation.
Variable fresh : nat -> buf.
Hypothesis fresh_length : forall n, length (fresh n) = n.
Variable random : nat -> Z.
#[local] Instance server_random : WsDerived WebSocketSession.t := WebSocketSession.derived random.
#[local] Instance server_laws : WsDerivedLaws WebSocketSession.t := WebSocketSession.derived_laws random.

(** The client sends the messages one by one. *)
Fixpoint send_all (c : WebSocketClient.t) (ms : list message) : WebSocketClient.t * res unit :=
  match ms with
  | [] => (c, Ok tt)
  | m :: ms' =>
      do! (c, _) := WebSocketClient.SendWsFrame random c (payload_of m) (op_of m) in
      send_all c ms'
  end.

Definition sane (m : message) : Prop :=
  bytes (payload_of m) /\ Z.of_nat (length (payload_of m)) < 2 ^ 62.

Lemma send_all_ok c ms :
  Forall sane ms ->
  exists c' es, send_all c ms = (c', Ok tt) /\ WebSocketClient.events c' = WebSocketClient.events c ++ es /\
    bytes (WebSocketSession.written es) /\
    frames_of (WebSocketSession.written es)
    = Some (map (fun m => Frame true (op_of m) (payload_of m)) ms, []).
Proof.
  intros Hs. revert c. induction Hs as [|m ms [Hb Hl] Hs IH]; intros c.
  { exists c, []. rewrite app_nil_r. split_and!; try done. apply Forall_nil_2. }
  simpl. rewrite WebSocketClient.client_SendWsFrame_ok by done. cbn [sbind].
  set (w := wire _ _ _ _). set (c1 := WebSocketClient.mk _ _ _).
  destruct (IH c1) as (c' & es & -> & He & Hbytes & Hf). exists c', (TcpWrite w :: es).
  assert (Hw : bytes w) by (by apply bytes_wire).
  change (WebSocketSession.written (TcpWrite w :: es)) with (w ++ WebSocketSession.written es).
  split_and!; [done| |by apply bytes_app|].
  - rewrite He. unfold c1. simpl. by rewrite <- app_assoc.
  - rewrite frames_of_unfold by (by apply bytes_app). unfold w. rewrite next_frame_wire_of by done.
    rewrite Hf. by destruct m.
Qed.

(** Whole data frames are handed to the application as they come. *)
Lemma run_message now_ms m s :
  WebSocketSession.cb_ s = true ->
  exists s', run_frame now_ms s [] (Frame true (op_of m) (payload_of m)) = (s', [], Ok tt)
    /\ WebSocketSession.events s' = WebSocketSession.events s ++ [event_of m]
    /\ WebSocketSession.session_ s' = WebSocketSession.session_ s
    /\ WebSocketSession.cb_ s' = true
    /\ close_ (WebSocketSession.ws_base s') = close_ (WebSocketSession.ws_base s).
Proof.
  destruct s as [b se cb dr ev]. simpl. intros ->.
  destruct m; (eexists; split; [reflexivity|]; done).
Qed.

Lemma run_messages now_ms ms s :
  WebSocketSession.cb_ s = true ->
  exists s', run_frames now_ms (map (fun m => Frame true (op_of m) (payload_of m)) ms) s [] = (s', [], Ok tt)
    /\ WebSocketSession.events s' = WebSocketSession.events s ++ map event_of ms
    /\ WebSocketSession.session_ s' = WebSocketSession.session_ s
    /\ close_ (WebSocketSession.ws_base s') = close_ (WebSocketSession.ws_base s).
Proof.
  revert s. induction ms as [|m ms IH]; intros s Hcb.
  { exists s. rewrite app_nil_r. done. }
  destruct (run_message now_ms m s Hcb) as (s1 & E & He & Hse & Hcb1 & Hcl).
  cbn [map run_frames]. rewrite E. destruct (IH s1 Hcb1) as (s2 & -> & He2 & Hse2 & Hcl2).
  exists s2. rewrite He2, He, Hse2, Hcl2, <- app_assoc. done.
Qed.

(** C31: a conversation: whatever texts and binary messages a client sends, masked and
    framed, the server that reads their bytes hands to its application as these messages,
    unchanged and in order, and nothing else; every read consumes all of it. *)
Theorem messages_delivered (now_ms : Z) (c : WebSocketClient.t) (f : WebSocketFrame.t)
    (ms : list message) (c' : WebSocketClient.t) (es : list event) :
  Forall sane ms -> ms <> [] -> frame_inv f -> pending f = [] ->
  send_all c ms = (c', Ok tt) -> WebSocketClient.events c' = WebSocketClient.events c ++ es ->
  room f (WebSocketSession.written es) ->
  exists s, HandleFrame fresh now_ms (server f) (WebSocketSession.written es) = (s, Ok 0) /\
    WebSocketSession.events s = map event_of ms /\ pending (frame_ (WebSocketSession.ws_base s)) = [].
Proof.
  intros Hs Hne Hf Hp Hsend Hes Hr.
  destruct (send_all_ok c ms Hs) as (c2 & es2 & E2 & He2 & _ & Hfr).
  rewrite E2 in Hsend. injection Hsend as ->. rewrite Hes in He2. apply app_inv_head in He2 as ->.
  destruct (HandleFrame_ok (H := server_random) (L := server_laws) fresh fresh_length now_ms f []
              (server f) (WebSocketSession.written es2) (map (fun m => Frame true (op_of m) (payload_of m)) ms) []) as (f2 & R);
    [done|done|constructor|by rewrite Hp|].
  destruct (run_messages now_ms ms (server f)) as (s' & E & He & _); [done|].
  rewrite E in R. destruct R as (R & _ & Hp2 & _). eexists. split.
  { change (server f) with (set_input f (map (item_of fresh) []) (server f)). rewrite R.
    destruct ms; [done|]. reflexivity. }
  split; [exact He|exact Hp2].
Qed.
End Conversation.
End WebSocketPair.

(** * Witnesses *)
Module WebSocketExamples.
Import WebSocketFrame WsSessionBase WsWrite WebSocketPair.

Lemma small_frame_inv : frame_inv small_frame /\ pending small_frame = [].
Proof.
  split; [|vm_compute; reflexivity]. split; [unfold DataBuffer.inv; eval_done|].
  split; [|discriminate]. bytes_done.
Qed.

(** A buffer that holds nothing has its start at the header, so nothing overlaps. *)
Lemma room_small l : bytes l -> Z.of_nat (length l) < 2 ^ 29 -> room small_frame l.
Proof.
  intros Hb Hl. destruct small_frame_inv as [_ Hp].
  split; [done|]. split; [rewrite Hp; simpl; lia|].
  unfold DataBuffer.overlapping_move. intros (_ & _ & _ & H). revert H. vm_compute. discriminate.
Qed.

#[local] Existing Instance server_derived.
#[local] Instance ex_laws : WsDerivedLaws WebSocketSession.t := WebSocketSession.derived_laws dice.

Lemma hide_nothing fresh f : set_input f (map (item_of fresh) []) (server f) = server f.
Proof. reflexivity. Qed.

(** A message in two frames and the first byte of a third frame. *)
Definition ex_read : list Z := [1; 2; 104; 101] ++ [128; 1; 121] ++ [129].


Definition first_read : WebSocketSession.t := fst (serve [1; 2; 104]).


Lemma SendWsFrame_roundtrip_witness :
  exists es, WebSocketSession.SendWsFrame dice (server small_frame) [104; 105] 1
    = (WebSocketSession.mk (new_base false small_frame) true true 4 es, Ok tt) /\
    next_frame (WebSocketSession.written es ++ [7]) = Decoded (Frame true 1 [104; 105]) [7].
Proof.
  destruct (WebSocketSession.SendWsFrame_roundtrip dice (server small_frame) [104; 105] [7] 1)
    as (es & H & Hn); [reflexivity|vm_compute; reflexivity|split; [discriminate|reflexivity]|].
  exists es. split; [exact H|exact Hn].
Defined.

Definition ex_messages : list message := [Text [104; 105]; Bin []; Text [111; 107]].
Definition ex_client : WebSocketClient.t * res unit := send_all dice (client small_frame) ex_messages.

Lemma messages_delivered_witness :
  exists s, serve (WebSocketSession.written (WebSocketClient.events (fst ex_client))) = (s, Ok 0) /\
    WebSocketSession.events s = [OnReadText [104; 105]; OnReadData []; OnReadText [111; 107]].
Proof.
  destruct (messages_delivered DataBuffer.zeros DataBuffer.zeros_length dice 5 (client small_frame)
    small_frame ex_messages (fst ex_client) (WebSocketClient.events (fst ex_client))) as (s & H & He & _).
  - repeat (apply Forall_cons; split; [split; [bytes_done|vm_compute; reflexivity]|]). apply Forall_nil_2.
  - discriminate.
  - apply small_frame_inv.
  - apply small_frame_inv.
  - vm_compute. reflexivity.
  - reflexivity.
  - apply room_small; [bytes_done|vm_compute; reflexivity].
  - exists s. split; [exact H|exact He].
Defined.
End WebSocketExamples.
