(* ===== verification/StdMap.v ===== *)
(** [std::map] with integer keys, as the code uses it: iteration is in key order, so
    a map is the list of its entries in strictly increasing key order.  [find],
    [operator\[\]] assignment, [insert], [erase] and their laws; the maps of the
    packet, NACK and jitter-buffer components are instances. *)
From S2P Require Import Prelude.
From Stdlib Require Import Sorting.Sorted.

Module StdMap.
Section Map.
Context {V : Type}.
Implicit Types (m : list (Z * V)) (k : Z) (v : V).

Fixpoint find k m : option V :=
  match m with
  | [] => None
  | (k', v) :: m' => if k =? k' then Some v else find k m'
  end.

(** [m\[k\] = v]. *)
Fixpoint set k v m : list (Z * V) :=
  match m with
  | [] => [(k, v)]
  | (k', v') :: m' =>
      if k <? k' then (k, v) :: m
      else if k =? k' then (k, v) :: m'
      else (k', v') :: set k v m'
  end.

(** [m.insert(std::make_pair(k, v))]: an existing entry is kept. *)
Definition insert k v m : list (Z * V) :=
  match find k m with Some _ => m | None => set k v m end.

Fixpoint erase k m : list (Z * V) :=
  match m with
  | [] => []
  | (k', v') :: m' => if k =? k' then m' else (k', v') :: erase k m'
  end.

Definition keys m : list Z := map fst m.

(** The representation invariant: keys strictly increase. *)
Definition sorted m : Prop := StronglySorted Z.lt (keys m).

Lemma sorted_cons k v m : sorted ((k, v) :: m) <-> sorted m /\ Forall (fun k' => k < k') (keys m).
Proof.
  split; [intros H; inversion H; done|intros []; by constructor].
Qed.

Lemma find_set_eq k v m : find k (set k v m) = Some v.
Proof.
  induction m as [|[k' v'] m IH]; simpl; [by rewrite Z.eqb_refl|].
  btests; simpl; btests; try lia; done.
Qed.

Lemma find_set_ne k k' v m : k <> k' -> find k (set k' v m) = find k m.
Proof.
  intros Hne. induction m as [|[k1 v1] m IH]; simpl; [btests; [lia|done]|].
  btests; subst; simpl; btests; try lia; try done.
Qed.

Lemma keys_lt_find_None k m : Forall (fun k' => k < k') (keys m) -> find k m = None.
Proof.
  induction m as [|[k1 v1] m IH]; simpl; [done|].
  intros [? ?]%Forall_cons. btests; [lia|auto].
Qed.

Lemma find_erase_eq k m : sorted m -> find k (erase k m) = None.
Proof.
  induction m as [|[k' v'] m IH]; simpl; [done|].
  intros [Hs Hk]%sorted_cons. btests; subst; [by apply keys_lt_find_None|].
  simpl. btests; [lia|auto].
Qed.

Lemma find_erase_ne k k' m : k <> k' -> find k (erase k' m) = find k m.
Proof.
  intros Hne. induction m as [|[k1 v1] m IH]; simpl; [done|].
  btests; subst; simpl; btests; try lia; try done.
Qed.

Lemma find_set q k v m : find q (set k v m) = if q =? k then Some v else find q m.
Proof. btests; [subst; by apply find_set_eq|by apply find_set_ne]. Qed.
Lemma find_erase q k m : sorted m -> find q (erase k m) = if q =? k then None else find q m.
Proof. intros. btests; [subst; by apply find_erase_eq|by apply find_erase_ne]. Qed.

Lemma keys_set_Forall (P : Z -> Prop) k v m :
  P k -> Forall P (keys m) -> Forall P (keys (set k v m)).
Proof.
  induction m as [|[k1 v1] m IH]; simpl; [by repeat constructor|].
  intros Hk [? ?]%Forall_cons. btests; subst; simpl; repeat constructor; auto.
Qed.

Lemma Forall_set (P : Z * V -> Prop) k v m : P (k, v) -> Forall P m -> Forall P (set k v m).
Proof.
  induction m as [|[k1 v1] m IH]; simpl; [by repeat constructor|].
  intros Hk [? ?]%Forall_cons. btests; subst; simpl; repeat constructor; auto.
Qed.
Lemma Forall_erase (P : Z * V -> Prop) k m : Forall P m -> Forall P (erase k m).
Proof.
  induction m as [|[k1 v1] m IH]; simpl; [done|].
  intros [? ?]%Forall_cons. btests; simpl; [done|constructor; auto].
Qed.
Lemma Forall_find (P : Z * V -> Prop) k v m : Forall P m -> find k m = Some v -> P (k, v).
Proof.
  induction m as [|[k1 v1] m IH]; simpl; [done|].
  intros [? ?]%Forall_cons. btests; [intros [= <-]; by subst|auto].
Qed.

Lemma sorted_set k v m : sorted m -> sorted (set k v m).
Proof.
  induction m as [|[k1 v1] m IH]; simpl.
  { intros _. apply sorted_cons. split; [constructor|constructor]. }
  intros [Hs Hk]%sorted_cons. btests; subst; apply sorted_cons.
  - split; [by apply sorted_cons|]. simpl. constructor; [done|].
    eapply Forall_impl; [exact Hk|]. simpl; lia.
  - done.
  - split; [auto|]. apply keys_set_Forall; [lia|done].
Qed.

Lemma sorted_insert k v m : sorted m -> sorted (insert k v m).
Proof. unfold insert. destruct (find k m); auto using sorted_set. Qed.

Lemma keys_erase_Forall (P : Z -> Prop) k m : Forall P (keys m) -> Forall P (keys (erase k m)).
Proof.
  induction m as [|[k1 v1] m IH]; simpl; [done|].
  intros [? ?]%Forall_cons. btests; simpl; [done|constructor; auto].
Qed.

Lemma sorted_erase k m : sorted m -> sorted (erase k m).
Proof.
  induction m as [|[k1 v1] m IH]; simpl; [done|].
  intros [Hs Hk]%sorted_cons. btests; [done|].
  apply sorted_cons. split; [auto|by apply keys_erase_Forall].
Qed.

(** Entries as a multiset. *)
Lemma erase_Permutation k v m : find k m = Some v -> m ≡ₚ (k, v) :: erase k m.
Proof.
  induction m as [|[k1 v1] m IH]; simpl; [done|]. btests; [intros [= <-]; by subst|].
  intros Hf. rewrite (IH Hf) at 1. constructor.
Qed.
Lemma set_Permutation k v m : find k m = None -> set k v m ≡ₚ (k, v) :: m.
Proof.
  induction m as [|[k1 v1] m IH]; simpl; [done|]. btests; try done.
  intros Hf. rewrite (IH Hf). constructor.
Qed.

Lemma sorted_tail e m : sorted (e :: m) -> sorted m.
Proof. destruct e. by intros [? _]%sorted_cons. Qed.

Lemma sorted_drop n m : sorted m -> sorted (drop n m).
Proof.
  revert m. induction n as [|n IH]; intros [|e m] H; cbn; [done..|]. apply IH. by eapply sorted_tail.
Qed.

(** Entries and lookups agree on a sorted list. *)
Lemma find_In k v m : find k m = Some v -> In (k, v) m.
Proof.
  induction m as [|[k1 v1] m IH]; simpl; [done|].
  btests; [intros [= <-]; subst; by left|right; auto].
Qed.
Lemma In_find k v m : sorted m -> In (k, v) m -> find k m = Some v.
Proof.
  induction m as [|[k1 v1] m IH]; simpl; [done|].
  intros [Hs Hk]%sorted_cons [[= -> ->]|Hin]; [by rewrite Z.eqb_refl|].
  btests; [|auto]. subst. exfalso. rewrite Forall_forall in Hk.
  specialize (Hk k1). assert (k1 < k1); [|lia]. apply Hk.
  apply list_elem_of_In, in_map_iff. by exists (k1, v).
Qed.
Lemma find_Some_key k m : is_Some (find k m) <-> In k (keys m).
Proof.
  induction m as [|[k1 v1] m IH]; simpl.
  - split; [intros [? [=]]|done].
  - btests; [subst; split; [by left|eauto]|]. rewrite IH. split; [by right|intros [->|]; [lia|done]].
Qed.

Lemma find_insert k v k' m :
  find k (insert k' v m) =
    match find k m with Some v' => Some v' | None => if k =? k' then Some v else None end.
Proof.
  unfold insert. destruct (find k' m) as [v1|] eqn:E1.
  - destruct (find k m) eqn:E2; [done|]. btests; [congruence|done].
  - btests.
    + subst. rewrite find_set_eq, E1. done.
    + rewrite find_set_ne by done. by destruct (find k m).
Qed.

(** Sorted maps with the same lookups are the same list. *)
Lemma find_ext m1 m2 : sorted m1 -> sorted m2 -> (forall k, find k m1 = find k m2) -> m1 = m2.
Proof.
  revert m2. induction m1 as [|[k1 v1] m1 IH]; intros [|[k2 v2] m2] H1 H2 Heq; [done|..].
  - specialize (Heq k2). simpl in Heq. rewrite Z.eqb_refl in Heq. discriminate.
  - specialize (Heq k1). simpl in Heq. rewrite Z.eqb_refl in Heq. discriminate.
  - pose proof (proj1 (sorted_cons _ _ _) H1) as [Hs1 Hk1].
    pose proof (proj1 (sorted_cons _ _ _) H2) as [Hs2 Hk2].
    assert (k1 = k2) as ->.
    { destruct (Z.lt_trichotomy k1 k2) as [Hlt|[?|Hlt]]; [|done|].
      - specialize (Heq k1). rewrite (keys_lt_find_None k1 ((k2, v2) :: m2)) in Heq.
        + simpl in Heq. rewrite Z.eqb_refl in Heq. discriminate.
        + simpl. constructor; [done|]. eapply Forall_impl; [exact Hk2|]. simpl; lia.
      - specialize (Heq k2). rewrite (keys_lt_find_None k2 ((k1, v1) :: m1)) in Heq.
        + simpl in Heq. rewrite Z.eqb_refl in Heq. discriminate.
        + simpl. constructor; [done|]. eapply Forall_impl; [exact Hk1|]. simpl; lia. }
    assert (v1 = v2) as ->.
    { specialize (Heq k2). simpl in Heq. rewrite Z.eqb_refl in Heq. congruence. }
    f_equal. apply IH; [done..|]. intros k. specialize (Heq k). simpl in Heq.
    destruct (Z.eqb_spec k k2); [subst|done].
    by rewrite !keys_lt_find_None by done.
Qed.

End Map.

(** A map whose values are places in a store of [n] objects. *)
Definition below (n : nat) (m : list (Z * nat)) : Prop := sorted m /\ Forall (fun e => (e.2 < n)%nat) m.

Lemma below_nil n : below n [].
Proof. split; constructor. Qed.
Lemma below_find n m k i : below n m -> find k m = Some i -> (i < n)%nat.
Proof. intros [_ Hf] Hi. exact (Forall_find _ _ _ _ Hf Hi). Qed.
Lemma below_entry n m e : below n m -> e ∈ m -> (e.2 < n)%nat.
Proof. intros [_ Hf] He. by eapply Forall_forall in Hf. Qed.
Lemma below_set n m k i : below n m -> (i < n)%nat -> below n (set k i m).
Proof. intros [Hs Hf] Hi. split; [by apply sorted_set|by apply Forall_set]. Qed.
Lemma below_mono n n' m : (n <= n')%nat -> below n m -> below n' m.
Proof. intros Hn [Hs Hf]. split; [done|]. eapply Forall_impl; [exact Hf|]. intros e He. cbn in *. lia. Qed.

End StdMap.

Create HintDb smap.
#[export] Hint Resolve StdMap.sorted_set StdMap.sorted_insert StdMap.sorted_erase StdMap.sorted_tail : smap.
