(* ===== verification/StrMap.v ===== *)
(** [std::map] with string keys, as the code uses it: the list of its entries in the order
    of their keys, which is the order it is walked in.  [find], [operator\[\]]
    assignment, [emplace], [erase] and their laws. *)
From S2P Require Import Prelude.
From Stdlib Require Import Sorting.Sorted Structures.OrderedTypeEx.

Module StrMap.
Section Map.
Context {V : Type}.
Implicit Types (m : list (string * V)) (k : string) (v : V).

Fixpoint find k m : option V :=
  match m with
  | [] => None
  | (k', v) :: m' => if String.eqb k k' then Some v else find k m'
  end.

(** [m\[k\] = v]. *)
Fixpoint set k v m : list (string * V) :=
  match m with
  | [] => [(k, v)]
  | (k', v') :: m' =>
      match String.compare k k' with
      | Lt => (k, v) :: m
      | Eq => (k, v) :: m'
      | Gt => (k', v') :: set k v m'
      end
  end.

(** [m.emplace(k, v)]: an existing entry is kept. *)
Definition emplace k v m : list (string * V) :=
  match find k m with Some _ => m | None => set k v m end.

Fixpoint erase k m : list (string * V) :=
  match m with
  | [] => []
  | (k', v) :: m' => if String.eqb k k' then m' else (k', v) :: erase k m'
  end.

(** The representation invariant: keys strictly increase in [std::string]'s order. *)
Definition key_lt (a b : string) : Prop := String.compare a b = Lt.
Definition sorted m : Prop := StronglySorted key_lt m.*1.

#[export] Instance key_lt_trans : Transitive key_lt.
Proof.
  intros a b c. unfold key_lt. intros H1%String_as_OT.cmp_lt H2%String_as_OT.cmp_lt.
  apply String_as_OT.cmp_lt. by eapply String_as_OT.lt_trans.
Qed.
Lemma compare_refl k : String.compare k k = Eq.
Proof. pose proof (String.compare_antisym k k) as H. by destruct (String.compare k k). Qed.

Lemma find_in_set k k' v m : find k (set k' v m) = if String.eqb k k' then Some v else find k m.
Proof.
  induction m as [|[k1 v1] m IH]; cbn; [done|].
  destruct (String.compare k' k1) eqn:Ec; cbn; [|done|].
  - apply String.compare_eq_iff in Ec as <-. by destruct (String.eqb k k').
  - rewrite IH. destruct (String.eqb_spec k k1) as [->|]; [|done]. destruct (String.eqb_spec k1 k') as [->|]; [|done].
    by rewrite compare_refl in Ec.
Qed.
Lemma find_in_set_eq k v m : find k (set k v m) = Some v.
Proof. by rewrite find_in_set, String.eqb_refl. Qed.
Lemma find_in_set_ne k k' v m : k <> k' -> find k (set k' v m) = find k m.
Proof. intros H. rewrite find_in_set. by destruct (String.eqb_spec k k'). Qed.

Lemma ordered_cons k v m : sorted ((k, v) :: m) <-> sorted m /\ Forall (key_lt k) m.*1.
Proof. split; [intros H; inversion H; done|intros []; by constructor]. Qed.
Lemma find_key k m : find k m = None <-> k ∉ m.*1.
Proof.
  induction m as [|[k1 v1] m IH]; cbn; [split; [intros _; apply not_elem_of_nil|done]|].
  rewrite not_elem_of_cons, <- IH. destruct (String.eqb_spec k k1); naive_solver.
Qed.
Lemma key_lt_absent k m : Forall (key_lt k) m.*1 -> find k m = None.
Proof.
  rewrite Forall_forall. intros H. apply find_key. intros Hk%H. unfold key_lt in Hk. by rewrite compare_refl in Hk.
Qed.

Lemma find_in_erase k k' m : sorted m -> find k (erase k' m) = if String.eqb k k' then None else find k m.
Proof.
  induction m as [|[k1 v1] m IH]; cbn; [by destruct (String.eqb k k')|]. intros [Hs Hk]%ordered_cons.
  destruct (String.eqb_spec k' k1) as [->|]; cbn.
  - destruct (String.eqb_spec k k1) as [->|]; [by apply key_lt_absent|done].
  - rewrite IH by done. destruct (String.eqb_spec k k1) as [->|]; [|done]. by destruct (String.eqb_spec k1 k').
Qed.
Lemma find_in_erase_ne k k' m : sorted m -> k <> k' -> find k (erase k' m) = find k m.
Proof. intros Hs H. rewrite find_in_erase by done. by destruct (String.eqb_spec k k'). Qed.

Lemma find_emplace k k' v m :
  find k (emplace k' v m) =
    match find k m with Some v' => Some v' | None => if String.eqb k k' then Some v else None end.
Proof.
  unfold emplace. destruct (find k' m) as [v1|] eqn:E1.
  - destruct (find k m) eqn:E2; [done|]. destruct (String.eqb_spec k k'); [congruence|done].
  - rewrite find_in_set. destruct (String.eqb_spec k k') as [->|]; [by rewrite E1|by destruct (find k m)].
Qed.

(** Entries and lookups. *)
Lemma find_elem k v m : find k m = Some v -> (k, v) ∈ m.
Proof.
  induction m as [|[k1 v1] m IH]; cbn; [done|].
  destruct (String.eqb_spec k k1) as [->|]; [intros [= ->]; left|right; auto].
Qed.
Lemma elem_find k v m : sorted m -> (k, v) ∈ m -> find k m = Some v.
Proof.
  induction m as [|[k1 v1] m IH]; cbn; [by intros _ ?%not_elem_of_nil|].
  intros [Hs Hk]%ordered_cons [[= -> ->]|Hin]%elem_of_cons; [by rewrite String.eqb_refl|].
  destruct (String.eqb_spec k k1) as [->|]; [|by apply IH].
  exfalso. rewrite Forall_forall in Hk. specialize (Hk k1). unfold key_lt in Hk. rewrite compare_refl in Hk.
  discriminate Hk. apply list_elem_of_fmap. by exists (k1, v).
Qed.

Lemma elem_set e k v m : e ∈ set k v m -> e = (k, v) \/ e ∈ m.
Proof.
  induction m as [|[k1 v1] m IH]; cbn; [by intros ?%list_elem_of_singleton; left|].
  destruct (String.compare k k1); rewrite !elem_of_cons; naive_solver.
Qed.
Lemma keys_set x k v m : x ∈ (set k v m).*1 -> x = k \/ x ∈ m.*1.
Proof.
  rewrite list_elem_of_fmap. intros ([k1 v1] & -> & [[= -> ->]|H]%elem_set); [by left|].
  right. apply list_elem_of_fmap. by exists (k1, v1).
Qed.
Lemma entries_set (P : string * V -> Prop) k v m : P (k, v) -> Forall P m -> Forall P (set k v m).
Proof. rewrite !Forall_forall. intros Hk Hm e [->|He]%elem_set; auto. Qed.
Lemma elem_erase e k m : e ∈ erase k m -> e ∈ m.
Proof.
  induction m as [|[k1 v1] m IH]; cbn; [done|]. destruct (String.eqb k k1); rewrite ?elem_of_cons; naive_solver.
Qed.
Lemma entries_erase (P : string * V -> Prop) k m : Forall P m -> Forall P (erase k m).
Proof. rewrite !Forall_forall. intros Hm e He%elem_erase. auto. Qed.
Lemma entries_find (P : string * V -> Prop) k v m : Forall P m -> find k m = Some v -> P (k, v).
Proof. rewrite Forall_forall. intros Hm He%find_elem. auto. Qed.

Lemma keys_erase x k m : x ∈ (erase k m).*1 -> x ∈ m.*1.
Proof.
  rewrite !list_elem_of_fmap. intros (e & -> & He%elem_erase). by exists e.
Qed.

Lemma sorted_nil : sorted [].
Proof. constructor. Qed.
Lemma ordered_set k v m : sorted m -> sorted (set k v m).
Proof.
  induction m as [|[k1 v1] m IH]; cbn.
  { intros _. apply ordered_cons. split; constructor. }
  intros [Hs Hk]%ordered_cons. destruct (String.compare k k1) eqn:Ec; apply ordered_cons.
  - by apply String.compare_eq_iff in Ec as <-.
  - split; [by apply ordered_cons|]. cbn. constructor; [done|]. eapply Forall_impl; [exact Hk|]. intros x Hx. by etrans.
  - split; [auto|]. rewrite Forall_forall in *. intros x [->|Hx]%keys_set; [|auto].
    unfold key_lt. rewrite String.compare_antisym, Ec. done.
Qed.
Lemma sorted_emplace k v m : sorted m -> sorted (emplace k v m).
Proof. unfold emplace. destruct (find k m); auto using ordered_set. Qed.
Lemma ordered_erase k m : sorted m -> sorted (erase k m).
Proof.
  induction m as [|[k1 v1] m IH]; cbn; [done|]. intros [Hs Hk]%ordered_cons.
  destruct (String.eqb k k1); [done|]. apply ordered_cons. split; [auto|].
  rewrite Forall_forall in *. intros x Hx%keys_erase. auto.
Qed.
Lemma sorted_NoDup m : sorted m -> NoDup m.*1.
Proof.
  induction m as [|[k v] m IH]; cbn; [intros _; constructor|]. intros [Hs Hk]%ordered_cons. apply NoDup_cons. split; [|auto].
  rewrite Forall_forall in Hk. intros Hin%Hk. unfold key_lt in Hin. by rewrite compare_refl in Hin.
Qed.

End Map.
End StrMap.

Create HintDb strmap.
#[export] Hint Resolve StrMap.sorted_nil StrMap.ordered_set StrMap.sorted_emplace StrMap.ordered_erase : strmap.
