(* ===== verification/Text.v ===== *)
(** What the code uses of [std::string], and the splitting of [utils/stringex.hpp]: the
    text formats are built and taken apart with these. *)
From S2P Require Import Prelude.
From Stdlib Require Import Strings.Ascii Strings.String.

Module Text.

(** ** [std::string] *)

(** [s.find(sub)], [None] for [npos]. *)
Fixpoint find (s sub : string) : option nat :=
  if String.prefix sub s then Some O else
  match s with
  | EmptyString => None
  | String _ s' => option_map S (find s' sub)
  end.
(** [s.find(sub) == 0], and [s.find(sub) != npos]. *)
Definition starts (s sub : string) : bool := String.prefix sub s.
Definition contains (s sub : string) : bool := match find s sub with Some _ => true | None => false end.

Fixpoint drop (n : nat) (s : string) : string :=
  match n, s with
  | O, _ => s
  | S n', String _ s' => drop n' s'
  | S _, EmptyString => EmptyString
  end.
Fixpoint take (n : nat) (s : string) : string :=
  match n, s with
  | S n', String c s' => String c (take n' s')
  | _, _ => EmptyString
  end.
(** [s.substr(pos)]. *)
Definition substr (s : string) (pos : nat) : res string :=
  if (String.length s <? pos)%nat then Throw "out_of_range" else Ok (drop pos s).

(** [std::to_string]; a 64-bit value has at most twenty digits. *)
Definition digit (n : Z) : string := String (ascii_of_N (Z.to_N (48 + n))) EmptyString.
Fixpoint digits (fuel : nat) (n : Z) : string :=
  match fuel with
  | O => EmptyString
  | S f => if n <? 10 then digit n else digits f (n / 10) +:+ digit (n mod 10)
  end.
Definition to_string (n : Z) : string := if n <? 0 then "-" +:+ digits 20 (- n) else digits 20 n.

(** [strtol] and [strtoul] in base ten: white space, a sign, digits. *)
Definition code (c : ascii) : Z := Z.of_N (N_of_ascii c).
Definition is_digit (c : ascii) : bool := (48 <=? code c) && (code c <=? 57).
Definition is_space (c : ascii) : bool := (code c =? 32) || ((9 <=? code c) && (code c <=? 13)).
Fixpoint digits_value (s : string) (acc : Z) : Z :=
  match s with
  | String c s' => if is_digit c then digits_value s' (acc * 10 + (code c - 48)) else acc
  | EmptyString => acc
  end.
Definition magnitude (s : string) : option Z :=
  match s with String c _ => if is_digit c then Some (digits_value s 0) else None | EmptyString => None end.
(** The sign and the magnitude. *)
Fixpoint number (s : string) : option (bool * Z) :=
  match s with
  | EmptyString => None
  | String c s' =>
      if is_space c then number s'
      else if code c =? 45 then option_map (pair true) (magnitude s')
      else if code c =? 43 then option_map (pair false) (magnitude s')
      else option_map (pair false) (magnitude s)
  end.
Definition stoi (s : string) : res Z :=
  match number s with
  | None => Throw "stoi"
  | Some (minus, n) =>
      let v := if minus : bool then - n else n in
      if (-2147483648 <=? v) && (v <=? 2147483647) then Ok v else Throw "stoi"
  end.
(** A minus sign wraps around. *)
Definition stoul (s : string) : res Z :=
  match number s with
  | None => Throw "stoul"
  | Some (minus, n) => if n <? 18446744073709551616 then Ok (if minus : bool then u64 (- n) else n) else Throw "stoul"
  end.

(** ** Splitting *)

(** [StringSplit]: the loop takes one piece at a time, and leaves out an empty last one. *)
Fixpoint split_loop (fuel : nat) (tempString split_str : string) : res (list string) :=
  match fuel with
  | O => Undef OutOfFuel
  | S f =>
      match find tempString split_str with
      | None => Ok [tempString]
      | Some pos =>
          let seg_str := take pos tempString in
          let tempString := drop (pos + String.length split_str) tempString in
          if (0 <? String.length tempString)%nat
          then let! output_vec := split_loop f tempString split_str in Ok (seg_str :: output_vec)
          else Ok [seg_str]
      end
  end.
Definition StringSplit (input_str split_str : string) : res (list string) :=
  if (String.length input_str =? 0)%nat then Ok [] else split_loop (String.length input_str) input_str split_str.

(** ** Laws *)

Lemma append_cons c s1 s2 : String c s1 +:+ s2 = String c (s1 +:+ s2).
Proof. done. Qed.
Lemma append_nil_l s : EmptyString +:+ s = s.
Proof. done. Qed.
Ltac app_cbn := repeat (rewrite ?append_cons, ?append_nil_l in *; cbn [String.length find take drop String.prefix option_map Nat.add] in *).

Lemma length_append s1 s2 : String.length (s1 +:+ s2) = (String.length s1 + String.length s2)%nat.
Proof. induction s1 as [|c s1 IH]; app_cbn; [done|]. by rewrite IH. Qed.
Lemma append_assoc s1 s2 s3 : (s1 +:+ s2) +:+ s3 = s1 +:+ (s2 +:+ s3).
Proof. induction s1 as [|c s1 IH]; app_cbn; [done|]. by rewrite IH. Qed.
Lemma append_nil_r s : s +:+ EmptyString = s.
Proof. induction s as [|c s IH]; app_cbn; [done|]. by rewrite IH. Qed.

Lemma drop_append s1 s2 : drop (String.length s1) (s1 +:+ s2) = s2.
Proof. induction s1 as [|c s1 IH]; app_cbn; [by destruct s2|done]. Qed.
Lemma take_append s1 s2 : take (String.length s1) (s1 +:+ s2) = s1.
Proof. induction s1 as [|c s1 IH]; app_cbn; [by destruct s2|]. by rewrite IH. Qed.
Lemma length_dropped n s : String.length (drop n s) = (String.length s - n)%nat.
Proof. revert s. induction n as [|n IH]; intros [|c s]; cbn; auto. Qed.

Lemma prefix_append s1 s2 : String.prefix s1 (s1 +:+ s2) = true.
Proof. induction s1 as [|c s1 IH]; app_cbn; [by destruct s2|]. by destruct (ascii_dec c c). Qed.
Lemma prefix_append_l sub s1 s2 :
  (String.length sub <= String.length s1)%nat -> String.prefix sub (s1 +:+ s2) = String.prefix sub s1.
Proof.
  revert s1. induction sub as [|c sub IH]; intros [|c1 s1] H; app_cbn; try lia; try done.
  { by destruct s2. }
  destruct (ascii_dec c c1); [|done]. apply IH. lia.
Qed.
Lemma prefix_split sub s : String.prefix sub s = true -> exists r, s = sub +:+ r.
Proof.
  revert s. induction sub as [|c sub IH]; intros [|c1 s]; cbn; try done; [by exists EmptyString|by exists (String c1 s)|].
  destruct (ascii_dec c c1) as [->|]; [|done]. intros (r & ->)%IH. by exists r.
Qed.

Lemma find_lt s sub pos : find s sub = Some pos -> (pos + String.length sub <= String.length s)%nat.
Proof.
  revert pos. induction s as [|c s IH]; intros pos; cbn [find].
  - destruct sub; [|done]. by intros [= <-].
  - destruct (String.prefix sub (String c s)) eqn:E.
    + intros [= <-]. apply prefix_split in E as (r & E). apply (f_equal String.length) in E. rewrite length_append in E. lia.
    + destruct (find s sub) as [p|]; [|done]. intros [= <-]. specialize (IH p eq_refl). cbn [String.length]. lia.
Qed.

(** A first occurrence is not moved by what comes behind it. *)
Lemma find_append p sub r : sub <> EmptyString -> find (p +:+ sub) sub = Some (String.length p) ->
  find (p +:+ sub +:+ r) sub = Some (String.length p).
Proof.
  intros Hsub. induction p as [|c p IH]; intros H.
  - pose proof (prefix_append sub r) as Hp. app_cbn. destruct sub as [|c sub]; [done|]. app_cbn. by rewrite Hp.
  - rewrite !append_cons in *. cbn [find String.length] in *.
    assert (E : String.prefix sub (String c (p +:+ sub +:+ r)) = String.prefix sub (String c (p +:+ sub))).
    { rewrite <- append_assoc. change (String c ((p +:+ sub) +:+ r)) with (String c (p +:+ sub) +:+ r). apply prefix_append_l.
      cbn. rewrite length_append. lia. }
    rewrite E. destruct (String.prefix sub (String c (p +:+ sub))); [done|].
    destruct (find (p +:+ sub) sub) as [q|]; [|done]. cbn in H. injection H as ->. by rewrite IH.
Qed.

(** Splitting ends, whatever the text, as long as the separator is not empty. *)
Lemma split_loop_total fuel s sep :
  sep <> EmptyString -> (0 < String.length s <= fuel)%nat -> exists l, split_loop fuel s sep = Ok l /\ l <> [].
Proof.
  intros Hsep. revert s. induction fuel as [|f IH]; intros s Hs; [lia|]. cbn [split_loop].
  destruct (find s sep) as [pos|] eqn:E; [|by eexists]. apply find_lt in E.
  assert (0 < String.length sep)%nat by (destruct sep; cbn; [done|lia]).
  destruct (Nat.ltb_spec 0 (String.length (drop (pos + String.length sep) s))) as [Hd|Hd]; [|by eexists].
  rewrite length_dropped in Hd. destruct (IH (drop (pos + String.length sep) s)) as (l & -> & _); [rewrite length_dropped; lia|].
  cbn. by eexists.
Qed.
Lemma StringSplit_total s sep : sep <> EmptyString -> exists l, StringSplit s sep = Ok l.
Proof.
  intros Hsep. unfold StringSplit. destruct (Nat.eqb_spec (String.length s) 0); [by eexists|].
  destruct (split_loop_total (String.length s) s sep Hsep ltac:(lia)) as (l & -> & _). by eexists.
Qed.

(** Text made of pieces and separators. *)
Fixpoint join (sep : string) (l : list string) : string :=
  match l with [] => EmptyString | p :: l' => p +:+ sep +:+ join sep l' end.
(** No separator begins in the piece. *)
Definition free (sep p : string) : Prop := find (p +:+ sep) sep = Some (String.length p).

Lemma split_loop_join fuel sep l :
  sep <> EmptyString -> l <> [] -> Forall (free sep) l -> (String.length (join sep l) <= fuel)%nat ->
  split_loop fuel (join sep l) sep = Ok l.
Proof.
  intros Hsep. assert (Hs : (0 < String.length sep)%nat) by (destruct sep; cbn; [done|lia]).
  revert l. induction fuel as [|f IH]; intros [|p l] Hl HF Hf; try done; cbn [join] in *; rewrite !length_append in Hf; [lia|].
  inversion HF as [|? ? Hp HF']. subst. cbn [split_loop]. rewrite (find_append p sep (join sep l) Hsep Hp).
  rewrite take_append, <- length_append, <- append_assoc, drop_append.
  destruct l as [|p' l]; [done|]. rewrite (proj2 (Nat.ltb_lt _ _)) by (cbn [join]; rewrite !length_append; lia).
  rewrite IH by (done || lia). done.
Qed.

(** Splitting undoes joining. *)
Lemma StringSplit_join sep l :
  sep <> EmptyString -> Forall (free sep) l -> StringSplit (join sep l) sep = Ok l.
Proof.
  intros Hsep HF. unfold StringSplit. destruct l as [|p l]; [done|].
  assert (0 < String.length (join sep (p :: l)))%nat by (cbn [join]; rewrite !length_append; destruct sep; cbn; [done|lia]).
  destruct (Nat.eqb_spec (String.length (join sep (p :: l))) 0); [lia|]. by apply split_loop_join.
Qed.

Lemma join_append sep l1 l2 : join sep (l1 ++ l2) = join sep l1 +:+ join sep l2.
Proof. induction l1 as [|p l1 IH]; cbn; [done|]. by rewrite IH, !append_assoc. Qed.

Lemma find_prefix s sub pos r : sub <> EmptyString -> find s sub = Some pos -> find (s +:+ r) sub = Some pos.
Proof.
  intros Hsub. revert pos. induction s as [|c s IH]; intros pos H.
  - cbn in H. destruct sub; [done|]. cbn in H. done.
  - pose proof (find_lt _ _ _ H) as Hl. cbn [find] in H. rewrite append_cons. cbn [find].
    rewrite <- append_cons. rewrite prefix_append_l by lia.
    destruct (String.prefix sub (String c s)); [done|].
    destruct (find s sub) as [q|]; [|done]. by rewrite (IH q eq_refl).
Qed.
Lemma take_app n s1 s2 : (String.length s1 <= n)%nat -> take n (s1 +:+ s2) = s1 +:+ take (n - String.length s1) s2.
Proof.
  revert n. induction s1 as [|c s1 IH]; intros n H; app_cbn; [by rewrite Nat.sub_0_r|].
  destruct n as [|n]; [lia|]. cbn [take]. rewrite IH by lia. done.
Qed.
Lemma drop_app n s1 s2 : (String.length s1 <= n)%nat -> drop n (s1 +:+ s2) = drop (n - String.length s1) s2.
Proof.
  revert n. induction s1 as [|c s1 IH]; intros n H; app_cbn; [by rewrite Nat.sub_0_r|].
  destruct n as [|n]; [lia|]. cbn [drop]. by rewrite IH by lia.
Qed.
Lemma take_all n s : (String.length s <= n)%nat -> take n s = s.
Proof. revert n. induction s as [|c s IH]; intros [|n] H; cbn in *; try lia; try done. by rewrite IH by lia. Qed.

(** Pieces with separators between them, the last one not empty. *)
Fixpoint between (sep : string) (l : list string) : string :=
  match l with [] => EmptyString | [p] => p | p :: l' => p +:+ sep +:+ between sep l' end.
Lemma between_cons sep p p' l : between sep (p :: p' :: l) = p +:+ sep +:+ between sep (p' :: l).
Proof. done. Qed.
Lemma free_find sep p : sep <> EmptyString -> free sep p -> find p sep = None.
Proof.
  intros Hsep H. destruct (find p sep) as [k|] eqn:E; [|done]. pose proof (find_lt _ _ _ E) as Hl.
  apply (find_prefix _ _ _ sep Hsep) in E. unfold free in H. rewrite H in E. injection E as <-. destruct sep; [done|cbn in Hl; lia].
Qed.
Lemma StringSplit_between sep l :
  sep <> EmptyString -> Forall (fun p => free sep p /\ p <> EmptyString) l -> StringSplit (between sep l) sep = Ok l.
Proof.
  intros Hsep HF. assert (Hlen : (0 < String.length sep)%nat) by (destruct sep; cbn; [done|lia]).
  assert (Hp : forall p : string, p <> EmptyString -> (0 < String.length p)%nat) by (intros [|] ?; cbn; [done|lia]).
  assert (Hloop : forall fuel, l <> [] -> (String.length (between sep l) <= fuel)%nat -> split_loop fuel (between sep l) sep = Ok l).
  { induction HF as [|p l [Hf Hn] HF IH]; intros fuel Hl Hfu; [done|].
    destruct l as [|p' l].
    - cbn [between] in *. specialize (Hp p Hn). destruct fuel as [|f]; [lia|]. cbn [split_loop]. by rewrite free_find.
    - rewrite between_cons in Hfu |- *. rewrite !length_append in Hfu. destruct fuel as [|f]; [lia|].
      cbn [split_loop]. rewrite (find_append p sep _ Hsep Hf), take_append, <- length_append, <- append_assoc, drop_append.
      assert (Hb : (0 < String.length (between sep (p' :: l)))%nat).
      { pose proof (Forall_inv HF) as [_ Hn']. specialize (Hp p' Hn'). destruct l; cbn [between]; rewrite ?length_append; lia. }
      rewrite (proj2 (Nat.ltb_lt _ _)) by done. rewrite IH by (done || lia). done. }
  unfold StringSplit. destruct l as [|p l]; [done|].
  assert (0 < String.length (between sep (p :: l)))%nat.
  { pose proof (Forall_inv HF) as [_ Hn]. specialize (Hp p Hn). destruct l; cbn [between]; rewrite ?length_append; lia. }
  destruct (Nat.eqb_spec (String.length (between sep (p :: l))) 0); [lia|]. by apply Hloop.
Qed.

Example split_1 : StringSplit "a b  c " " " = Ok ["a"; "b"; ""; "c"].
Proof. reflexivity. Qed.
Example stoi_1 : stoi " -12x" = Ok (-12).
Proof. reflexivity. Qed.
Example to_string_1 : to_string 4294967295 = "4294967295".
Proof. reflexivity. Qed.

End Text.
