(* ===== verification/RtpPacket.v ===== *)
(** [net/rtprtcp/rtp_packet.hpp] and [rtp_packet.cpp]: an RTP datagram parsed in
    place, its RFC 5285 header extensions, and the RTX encapsulation.  A packet owns
    the buffer its header pointer designates; the pointers of the class are offsets
    into it, so that a store through one of them is seen by all. *)
From S2P Require Import Prelude ByteStream RtpPub StdMap.
Import ByteStream RtpPub.

Module RtpPacket.

Record t := mk {
  data : buf;                       (* the memory [header] points to *)
  ext : option nat;
  payload : nat;
  payload_len : nat;
  pad_len : nat;
  data_len : nat;
  local_ms : Z;
  need_delete : bool;
  mid_extension_id_ : Z;
  abs_time_extension_id_ : Z;
  tcc_extension_id_ : Z;
  onebyte_ext_map_ : list (Z * nat);
  twobytes_ext_map_ : list (Z * nat)
}.

Definition with_data (k : t) (d : buf) : t :=
  mk d (ext k) (payload k) (payload_len k) (pad_len k) (data_len k) (local_ms k) (need_delete k)
     (mid_extension_id_ k) (abs_time_extension_id_ k) (tcc_extension_id_ k)
     (onebyte_ext_map_ k) (twobytes_ext_map_ k).
Definition with_lens (k : t) (pl pad dl : nat) : t :=
  mk (data k) (ext k) (payload k) pl pad dl (local_ms k) (need_delete k)
     (mid_extension_id_ k) (abs_time_extension_id_ k) (tcc_extension_id_ k)
     (onebyte_ext_map_ k) (twobytes_ext_map_ k).
Definition with_ids (k : t) (mid abs tcc : Z) : t :=
  mk (data k) (ext k) (payload k) (payload_len k) (pad_len k) (data_len k) (local_ms k) (need_delete k)
     mid abs tcc (onebyte_ext_map_ k) (twobytes_ext_map_ k).
Definition with_onebyte (k : t) (m : list (Z * nat)) : t :=
  mk (data k) (ext k) (payload k) (payload_len k) (pad_len k) (data_len k) (local_ms k) (need_delete k)
     (mid_extension_id_ k) (abs_time_extension_id_ k) (tcc_extension_id_ k) m (twobytes_ext_map_ k).
Definition with_twobytes (k : t) (m : list (Z * nat)) : t :=
  mk (data k) (ext k) (payload k) (payload_len k) (pad_len k) (data_len k) (local_ms k) (need_delete k)
     (mid_extension_id_ k) (abs_time_extension_id_ k) (tcc_extension_id_ k) (onebyte_ext_map_ k) m.

(** ** Header accessors *)

Definition Version (k : t) : res Z := RtpCommonHeader.version (data k).
Definition HasPadding (k : t) : res bool := let! p := RtpCommonHeader.padding (data k) in Ok (p =? 1).
Definition SetPadding (k : t) (flag : bool) : res t :=
  let! d := RtpCommonHeader.set_padding (data k) (if flag then 1 else 0) in Ok (with_data k d).
Definition HasExtension (k : t) : res bool := let! x := RtpCommonHeader.extension (data k) in Ok (x =? 1).
Definition CsrcCount (k : t) : res Z := RtpCommonHeader.csrc_count (data k).
Definition GetPayloadType (k : t) : res Z := RtpCommonHeader.payload_type (data k).
Definition SetPayloadType (k : t) (type : Z) : res t :=
  let! d := RtpCommonHeader.set_payload_type (data k) type in Ok (with_data k d).
Definition GetMPayloadType (k : t) : res Z :=
  let! marker := RtpCommonHeader.marker (data k) in
  let! pt := RtpCommonHeader.payload_type (data k) in
  Ok (u8 (Z.lor (Z.shiftl marker 7) pt)).
Definition GetMarker (k : t) : res Z := RtpCommonHeader.marker (data k).
Definition SetMarker (k : t) (marker : Z) : res t :=
  let! d := RtpCommonHeader.set_marker (data k) marker in Ok (with_data k d).
Definition GetSeq (k : t) : res Z := let! s := RtpCommonHeader.sequence (data k) in Ok (ntohs s).
Definition SetSeq (k : t) (seq : Z) : res t :=
  let! d := RtpCommonHeader.set_sequence (data k) (htons seq) in Ok (with_data k d).
Definition GetTimestamp (k : t) : res Z := let! s := RtpCommonHeader.timestamp (data k) in Ok (ntohl s).
Definition SetTimestamp (k : t) (ts : Z) : res t :=
  let! d := RtpCommonHeader.set_timestamp (data k) (htonl ts) in Ok (with_data k d).
Definition GetSsrc (k : t) : res Z := let! s := RtpCommonHeader.ssrc (data k) in Ok (ntohl s).
Definition SetSsrc (k : t) (ssrc : Z) : res t :=
  let! d := RtpCommonHeader.set_ssrc (data k) (htonl ssrc) in Ok (with_data k d).
Definition GetData (k : t) : buf := take (data_len k) (data k).
Definition GetPayload (k : t) : list Z := slice (payload k) (payload_len k) (data k).

Definition SetMidExtensionId (k : t) (id : Z) : t :=
  with_ids k id (abs_time_extension_id_ k) (tcc_extension_id_ k).
Definition SetAbsTimeExtensionId (k : t) (id : Z) : t :=
  with_ids k (mid_extension_id_ k) id (tcc_extension_id_ k).
Definition SetTccExtensionId (k : t) (id : Z) : t :=
  with_ids k (mid_extension_id_ k) (abs_time_extension_id_ k) id.

(** ** Header extension layout *)

Definition GetExtId (d : buf) (rtp_ext : option nat) : res Z :=
  match rtp_ext with
  | None => Ok 0
  | Some e => let! id := load16 d e in Ok (ntohs id)
  end.
Definition GetExtLength (d : buf) (rtp_ext : option nat) : res Z :=
  match rtp_ext with
  | None => Ok 0
  | Some e => let! l := load16 d (e + 2) in Ok (u16 (ntohs l * 4))
  end.
Definition GetExtValue (rtp_ext : option nat) : option nat :=
  match rtp_ext with None => None | Some e => Some (e + 4)%nat end.

Definition HasOnebyteExt (d : buf) (rtp_ext : option nat) : res bool :=
  let! id := GetExtId d rtp_ext in Ok (id =? 0xBEDE).
Definition HasTwobytesExt (d : buf) (rtp_ext : option nat) : res bool :=
  let! id := GetExtId d rtp_ext in Ok (Z.land id 0xfff0 =? 0x1000).

(** [while ((p < ext_end) && ( *p == 0)) p++], with [n] the distance to [ext_end]. *)
Fixpoint skip_zeros (d : buf) (p n : nat) : res nat :=
  match n with
  | O => Ok p
  | S n' => let! x := rd8 d p in if x =? 0 then skip_zeros d (S p) n' else Ok p
  end.

(** The two element loops; [fuel] bounds the iterations, each of which advances [p]. *)
Fixpoint parse_onebyte (fuel : nat) (d : buf) (p ext_end : nat) (m : list (Z * nat))
  : res (list (Z * nat)) :=
  if (ext_end <=? p)%nat then Ok m else
  match fuel with
  | O => Undef OutOfFuel
  | S fuel' =>
      let! b := rd8 d p in
      let id := Z.shiftr (Z.land b 0xF0) 4 in
      let len := (Z.to_nat (Z.land b 0x0F) + 1)%nat in
      if id =? 0x0f then Ok m
      else if negb (id =? 0) then
        if (ext_end <? p + 1 + len)%nat
        then Throw "rtp extension length is not enough in one byte extension mode."
        else
          let m := StdMap.set id p m in
          let p := (p + (1 + len))%nat in
          let! p := skip_zeros d p (ext_end - p) in
          parse_onebyte fuel' d p ext_end m
      else
        let p := S p in
        let! p := skip_zeros d p (ext_end - p) in
        parse_onebyte fuel' d p ext_end m
  end.

Fixpoint parse_twobytes (fuel : nat) (d : buf) (p ext_end : nat) (m : list (Z * nat))
  : res (list (Z * nat)) :=
  if (ext_end <=? p + 1)%nat then Ok m else
  match fuel with
  | O => Undef OutOfFuel
  | S fuel' =>
      let! id := rd8 d p in
      let! len := rd8 d (p + 1) in
      if negb (id =? 0) then
        if (ext_end <? p + 2 + Z.to_nat len)%nat
        then Throw "rtp extension length is not enough in two bytes extension mode."
        else
          let m := StdMap.set id p m in
          let p := (p + (2 + Z.to_nat len))%nat in
          let! p := skip_zeros d p (ext_end - p) in
          parse_twobytes fuel' d p ext_end m
      else
        let p := S p in
        let! p := skip_zeros d p (ext_end - p) in
        parse_twobytes fuel' d p ext_end m
  end.

Definition ParseOnebyteExt (k : t) (e : nat) : res t :=
  let! l := GetExtLength (data k) (Some e) in
  let ext_start := (e + 4)%nat in
  let ext_end := (ext_start + Z.to_nat l)%nat in
  let! m := parse_onebyte (Z.to_nat l) (data k) ext_start ext_end [] in
  Ok (with_onebyte k m).

Definition ParseTwobytesExt (k : t) (e : nat) : res t :=
  let! l := GetExtLength (data k) (Some e) in
  let ext_start := (e + 4)%nat in
  let ext_end := (ext_start + Z.to_nat l)%nat in
  let! m := parse_twobytes (Z.to_nat l) (data k) ext_start ext_end [] in
  Ok (with_twobytes k m).

Definition ParseExt (k : t) : res t :=
  let! x := RtpCommonHeader.extension (data k) in
  match ext k with
  | None => Ok k
  | Some e =>
    if x =? 0 then Ok k else
    let! one := HasOnebyteExt (data k) (Some e) in
    if one then ParseOnebyteExt k e else
    let! two := HasTwobytesExt (data k) (Some e) in
    if two then ParseTwobytesExt k e
    else Throw "the rtp extension id error"
  end.

(** The constructor; [now] is the clock's answer. *)
Definition new_RtpPacket (now : Z) (d : buf) (e : option nat) (p pl pad len : nat) : res t :=
  if RTP_PACKET_MAX_SIZE <? Z.of_nat len then Throw "rtp len is to large" else
  ParseExt (mk d e p pl pad len now false 0 0 0 [] []).

Definition Parse (now : Z) (d : buf) (len : nat) : res t :=
  if RTP_PACKET_MAX_SIZE <? Z.of_nat len then Throw "rtp len is to large" else
  let! cc := RtpCommonHeader.csrc_count d in
  let p := if 0 <? cc then (RtpCommonHeader.size + 4 * Z.to_nat cc)%nat else RtpCommonHeader.size in
  let! x := RtpCommonHeader.extension d in
  let! (e, p) :=
    (if negb (x =? 0) then
       if (len <? p + 4)%nat then Throw "rtp len is to small" else
       let! l := load16 d (p + 2) in
       let extension_byte := Z.to_nat (ntohs l * 4) in
       if (len <? p + 4 + extension_byte)%nat then Throw "rtp len is to small"
       else Ok (Some p, (p + (4 + extension_byte))%nat)
     else Ok (None, p)) in
  if (len <=? p)%nat then Throw "rtp len is to small, has no payload" else
  let! pd := RtpCommonHeader.padding d in
  let! (pl, pad) :=
    (if negb (pd =? 0) then
       let! n := rd8 d (len - 1) in
       let n := Z.to_nat n in
       if (0 <? n)%nat then
         if (len - p <? n)%nat then Throw "rtp payload length, pad length error"
         else Ok ((len - p - n)%nat, n)
       else Ok ((len - p)%nat, n)
     else Ok ((len - p)%nat, O)) in
  new_RtpPacket now d e p pl pad len.

(** [Clone]: into the caller's [buffer], or into a fresh allocation [fresh]. *)
Definition Clone (now : Z) (fresh : buf) (k : t) (buffer : option buf) : res t :=
  let new_data := match buffer with Some b => b | None => fresh end in
  if RTP_PACKET_MAX_SIZE <=? Z.of_nat (data_len k) then Undef AssertFail else
  let! bytes := rd_bytes (data k) 0 (data_len k) in
  let! new_data := wr_bytes new_data 0 bytes in
  let! n := Parse now new_data (data_len k) in
  Ok (mk (data n) (ext n) (payload n) (payload_len n) (pad_len n) (data_len n) (local_ms k)
         (match buffer with Some _ => false | None => true end)
         (mid_extension_id_ k) (abs_time_extension_id_ k) (tcc_extension_id_ k)
         (onebyte_ext_map_ n) (twobytes_ext_map_ n)).

(** ** Reading and rewriting extension elements *)

(** A one-byte element at [o]: length (minus one) in the low nibble, id in the high one. *)
Definition onebyte_len (d : buf) (o : nat) : res Z := get_field d o 0 4.
Definition set_onebyte_len (d : buf) (o : nat) (v : Z) : res buf := set_field d o 0 4 v.
Definition set_onebyte_id (d : buf) (o : nat) (v : Z) : res buf := set_field d o 4 4 v.
(** A two-byte element at [o]: id, length, value. *)
Definition twobytes_len (d : buf) (o : nat) : res Z := rd8 d (o + 1).
Definition set_twobytes_len (d : buf) (o : nat) (v : Z) : res buf := wr8 d (o + 1) (u8 v).
Definition set_twobytes_id (d : buf) (o : nat) (v : Z) : res buf := wr8 d o (u8 v).

(** The value's address and its length, [None] for the null pointer. *)
Definition GetExtension (k : t) (id : Z) : res (option (nat * Z)) :=
  let! one := HasOnebyteExt (data k) (ext k) in
  if one then
    match StdMap.find id (onebyte_ext_map_ k) with
    | None => Ok None
    | Some o => let! l := onebyte_len (data k) o in Ok (Some ((o + 1)%nat, l + 1))
    end
  else
  let! two := HasTwobytesExt (data k) (ext k) in
  if two then
    match StdMap.find id (twobytes_ext_map_ k) with
    | None => Ok None
    | Some o =>
        let! l := twobytes_len (data k) o in
        if l =? 0 then Ok None else Ok (Some ((o + 2)%nat, l))
    end
  else Ok None.

Definition UpdateExtensionLength (k : t) (id len : Z) : res (t * bool) :=
  if len =? 0 then Ok (k, false) else
  let! one := HasOnebyteExt (data k) (ext k) in
  if one then
    match StdMap.find id (onebyte_ext_map_ k) with
    | None => Ok (k, false)
    | Some o =>
        let! l := onebyte_len (data k) o in
        let current_len := l + 1 in
        let! d :=
          (if len <? current_len
           then wr_bytes (data k) (o + 1 + Z.to_nat len) (replicate (Z.to_nat (current_len - len)) 0)
           else Ok (data k)) in
        let! d := set_onebyte_len d o (len - 1) in
        Ok (with_data k d, true)
    end
  else
  let! two := HasTwobytesExt (data k) (ext k) in
  if two then
    match StdMap.find id (twobytes_ext_map_ k) with
    | None => Ok (k, false)
    | Some o =>
        let! current_len := twobytes_len (data k) o in
        let! d :=
          (if len <? current_len
           then wr_bytes (data k) (o + 2 + Z.to_nat len) (replicate (Z.to_nat (current_len - len)) 0)
           else Ok (data k)) in
        let! d := set_twobytes_len d o len in
        Ok (with_data k d, true)
    end
  else Ok (k, false).

(** [std::to_string] of an unsigned value and [atoi] of a C string. *)
Fixpoint digits (fuel : nat) (n : Z) : list Z :=
  match fuel with
  | O => []
  | S f => if n <? 10 then [48 + n] else digits f (n / 10) ++ [48 + n mod 10]
  end.
Definition to_string (n : Z) : list Z := digits 20 n.

Definition isspace (c : Z) : bool := (c =? 32) || ((9 <=? c) && (c <=? 13)).
Fixpoint atoi_digits (l : list Z) (acc : Z) : Z :=
  match l with
  | c :: l' => if (48 <=? c) && (c <=? 57) then atoi_digits l' (acc * 10 + (c - 48)) else acc
  | [] => acc
  end.
Fixpoint atoi (l : list Z) : res Z :=
  let sign := fun (v : Z) =>
    if decide (-2147483648 <= v <= 2147483647) then Ok v else Undef IntOverflow in
  match l with
  | [] => Ok 0
  | c :: l' =>
      if isspace c then atoi l'
      else if c =? 45 then sign (- atoi_digits l' 0)
      else if c =? 43 then sign (atoi_digits l' 0)
      else sign (atoi_digits l 0)
  end.

Definition UpdateMid (k : t) (mid : Z) : res (t * bool) :=
  let! e := GetExtension k (mid_extension_id_ k) in
  match e with
  | None => Ok (k, false)
  | Some (extern_value, _) =>
      let mid_str := to_string mid in
      let! d := wr_bytes (data k) extern_value mid_str in
      UpdateExtensionLength (with_data k d) (mid_extension_id_ k) (u8 (Z.of_nat (length mid_str)))
  end.

(** The overload that also changes the extension id; it leaves the length alone. *)
Definition UpdateMid_id (k : t) (new_mid_extern_id mid : Z) : res (t * bool) :=
  let mid_str := to_string mid in
  let! one := HasOnebyteExt (data k) (ext k) in
  if one then
    match StdMap.find (mid_extension_id_ k) (onebyte_ext_map_ k) with
    | None => Ok (k, false)
    | Some o =>
        let! d := set_onebyte_id (data k) o new_mid_extern_id in
        let m := StdMap.erase (mid_extension_id_ k) (onebyte_ext_map_ k) in
        let m := StdMap.set new_mid_extern_id o m in
        let! d := wr_bytes d (o + 1) mid_str in
        Ok (with_onebyte (with_data (SetMidExtensionId k new_mid_extern_id) d) m, true)
    end
  else
  let! two := HasTwobytesExt (data k) (ext k) in
  if two then
    match StdMap.find (mid_extension_id_ k) (twobytes_ext_map_ k) with
    | None => Ok (k, false)
    | Some o =>
        let! len := twobytes_len (data k) o in
        if len =? 0 then Ok (k, false) else
        let! d := set_twobytes_id (data k) o new_mid_extern_id in
        let m := StdMap.erase (mid_extension_id_ k) (twobytes_ext_map_ k) in
        let m := StdMap.set new_mid_extern_id o m in
        let! d := wr_bytes d (o + 2) mid_str in
        Ok (with_twobytes (with_data (SetMidExtensionId k new_mid_extern_id) d) m, true)
    end
  else Ok (k, false).

(** The readers answer [None] where the code returns [false]. *)
Definition ReadMid (k : t) : res (option Z) :=
  let! e := GetExtension k (mid_extension_id_ k) in
  match e with
  | None => Ok None
  | Some (extern_value, extern_len) =>
      let! mid_str := rd_bytes (data k) extern_value (Z.to_nat extern_len) in
      let! v := atoi mid_str in Ok (Some (u8 v))
  end.

Definition ReadAbsTime (k : t) : res (option Z) :=
  let! e := GetExtension k (abs_time_extension_id_ k) in
  match e with
  | None => Ok None
  | Some (extern_value, _) => let! v := Read3Bytes (data k) extern_value in Ok (Some v)
  end.

Definition ReadWideSeq (k : t) : res (option Z) :=
  let! e := GetExtension k (tcc_extension_id_ k) in
  match e with
  | None => Ok None
  | Some (extern_value, _) => let! v := Read2Bytes (data k) extern_value in Ok (Some v)
  end.

Definition UpdateAbsTime (k : t) (abs_time_24bits : Z) : res (t * bool) :=
  let! e := GetExtension k (abs_time_extension_id_ k) in
  match e with
  | None => Ok (k, false)
  | Some (extern_value, _) =>
      let! d := Write3Bytes (data k) extern_value abs_time_24bits in
      UpdateExtensionLength (with_data k d) (abs_time_extension_id_ k) 3
  end.

Definition UpdateWideSeq (k : t) (wide_seq : Z) : res (t * bool) :=
  let! e := GetExtension k (tcc_extension_id_ k) in
  match e with
  | None => Ok (k, false)
  | Some (extern_value, _) =>
      let! d := Write2Bytes (data k) extern_value wide_seq in
      UpdateExtensionLength (with_data k d) (tcc_extension_id_ k) 2
  end.

(** Renaming an element: its id in the datagram, its map entry and the member. *)
Definition UpdateAbsTimeExternId (k : t) (new_id : Z) : res (t * bool) :=
  let! one := HasOnebyteExt (data k) (ext k) in
  if one then
    match StdMap.find (abs_time_extension_id_ k) (onebyte_ext_map_ k) with
    | None => Ok (k, false)
    | Some o =>
        let m := StdMap.erase (abs_time_extension_id_ k) (onebyte_ext_map_ k) in
        let! d := set_onebyte_id (data k) o new_id in
        Ok (with_onebyte (with_data (SetAbsTimeExtensionId k new_id) d) (StdMap.set new_id o m), true)
    end
  else
  let! two := HasTwobytesExt (data k) (ext k) in
  if two then
    match StdMap.find (abs_time_extension_id_ k) (twobytes_ext_map_ k) with
    | None => Ok (k, false)
    | Some o =>
        let! len := twobytes_len (data k) o in
        if len =? 0 then Ok (k, false) else
        let m := StdMap.erase (abs_time_extension_id_ k) (twobytes_ext_map_ k) in
        let! d := set_twobytes_id (data k) o new_id in
        Ok (with_twobytes (with_data (SetAbsTimeExtensionId k new_id) d) (StdMap.set new_id o m), true)
    end
  else Ok (k, false).

Definition UpdateWideSeqExternId (k : t) (new_id : Z) : res (t * bool) :=
  let id := tcc_extension_id_ k in
  let! one := HasOnebyteExt (data k) (ext k) in
  if one then
    match StdMap.find id (onebyte_ext_map_ k) with
    | None => Ok (k, false)
    | Some o =>
        let m := StdMap.erase id (onebyte_ext_map_ k) in
        let! d := set_onebyte_id (data k) o new_id in
        Ok (with_onebyte (with_data (SetTccExtensionId k new_id) d) (StdMap.set new_id o m), true)
    end
  else
  let! two := HasTwobytesExt (data k) (ext k) in
  if two then
    match StdMap.find id (twobytes_ext_map_ k) with
    | None => Ok (k, false)
    | Some o =>
        let! len := twobytes_len (data k) o in
        if len =? 0 then Ok (k, false) else
        let m := StdMap.erase id (twobytes_ext_map_ k) in
        let! d := set_twobytes_id (data k) o new_id in
        Ok (with_twobytes (with_data (SetTccExtensionId k new_id) d) (StdMap.set new_id o m), true)
    end
  else Ok (k, false).

(** The loop of [ClearMidExtension] over the map, in key order: the first element
    whose value is the string [mid_str]; [hdr] and [skip] are the sizes of an
    element's header and of its value beyond the stored length. *)
Fixpoint clear_scan (k : t) (len_of : buf -> nat -> res Z) (hdr : nat) (more : Z)
    (ext_end : nat) (mid_str : list Z) (m : list (Z * nat)) : res (option (Z * option buf)) :=
  match m with
  | [] => Ok None
  | (id, o) :: m' =>
      let! l := len_of (data k) o in
      let! val := rd_bytes (data k) (o + hdr) (Z.to_nat (l + more)) in
      if decide (val = mid_str) then
        let total_len := Z.to_nat (l + 2) in
        if (ext_end <? o + total_len)%nat then Ok (Some (id, None)) else
        let! d := wr_bytes (data k) o (replicate total_len 0) in Ok (Some (id, Some d))
      else clear_scan k len_of hdr more ext_end mid_str m'
  end.

(** Returns the state, the result, and [old_ext_id] where it was assigned. *)
Definition ClearMidExtension (k : t) (mid_value : Z) : res (t * bool * option Z) :=
  let mid_str := to_string mid_value in
  let k := SetMidExtensionId k 0 in
  let! one := HasOnebyteExt (data k) (ext k) in
  let! l := GetExtLength (data k) (ext k) in
  let ext_end := (match ext k with Some e => e + 4 | None => 4 end + Z.to_nat l)%nat in
  if one then
    let! r := clear_scan k onebyte_len 1 1 ext_end mid_str (onebyte_ext_map_ k) in
    match r with
    | None => Ok (k, false, None)
    | Some (id, None) => Ok (k, false, Some id)
    | Some (id, Some d) =>
        Ok (with_onebyte (with_data k d) (StdMap.erase id (onebyte_ext_map_ k)), true, Some id)
    end
  else
  let! two := HasTwobytesExt (data k) (ext k) in
  if two then
    let! r := clear_scan k twobytes_len 2 0 ext_end mid_str (twobytes_ext_map_ k) in
    match r with
    | None => Ok (k, false, None)
    | Some (id, None) => Ok (k, false, Some id)
    | Some (id, Some d) =>
        Ok (with_twobytes (with_data k d) (StdMap.erase id (twobytes_ext_map_ k)), true, Some id)
    end
  else Ok (k, false, None).

(** ** RTX (RFC 4588) *)

Definition strip_padding (k : t) : res t :=
  let! pad := HasPadding k in
  if pad then
    let! k := SetPadding k false in
    Ok (with_lens k (payload_len k) 0 (data_len k - pad_len k))
  else Ok k.

Definition RtxDemux (k : t) (ssrc payloadtype : Z) : res t :=
  if (payload_len k <? 2)%nat then Throw "rtx payload len is less than 2" else
  let! replace_seq := Read2Bytes (data k) (payload k) in
  let! k := SetPayloadType k payloadtype in
  let! k := SetSeq k replace_seq in
  let! k := SetSsrc k ssrc in
  let! body := rd_bytes (data k) (payload k + 2) (payload_len k - 2) in
  let! d := wr_bytes (data k) (payload k) body in
  let k := with_lens (with_data k d) (payload_len k - 2) (pad_len k) (data_len k - 2) in
  strip_padding k.

Definition RtxMux (k : t) (payload_type ssrc seq : Z) : res t :=
  let! k := SetPayloadType k payload_type in
  let! k := SetSsrc k ssrc in
  let! body := rd_bytes (data k) (payload k) (payload_len k) in
  let! d := wr_bytes (data k) (payload k + 2) body in
  let k := with_data k d in
  let! osn := GetSeq k in
  let! d := Write2Bytes (data k) (payload k) osn in
  let! k := SetSeq (with_data k d) seq in
  let k := with_lens k (payload_len k + 2) (pad_len k) (data_len k + 2) in
  strip_padding k.

(** * Well-formed packets *)

(** Where the extension block that starts at [e] ends, by its length field. *)
Definition ext_end_of (d : buf) (e : nat) : nat := (e + 4 + Z.to_nat (net16 d (e + 2) * 4))%nat.

(** A map entry designates an element of that id that lies inside the block. *)
Definition onebyte_ok (d : buf) (lo hi : nat) (x : Z * nat) : Prop :=
  exists b, d !! x.2 = Some b /\ x.1 = bits b 4 4 /\ 0 < x.1 < 15 /\
    (lo <= x.2)%nat /\ (x.2 + 2 + Z.to_nat (bits b 0 4) <= hi)%nat.
Definition twobytes_ok (d : buf) (lo hi : nat) (x : Z * nat) : Prop :=
  exists l, d !! x.2 = Some x.1 /\ d !! (x.2 + 1)%nat = Some l /\ 0 < x.1 /\
    (lo <= x.2)%nat /\ (x.2 + 2 + Z.to_nat l <= hi)%nat.

Record wf (k : t) : Prop := {
  wf_bytes : bytes (data k);
  wf_len : (data_len k <= length (data k))%nat;
  wf_max : (data_len k <= 1500)%nat;
  wf_payload : (12 <= payload k)%nat;
  wf_split : (payload k + payload_len k + pad_len k = data_len k)%nat;
  wf_ext : forall e, ext k = Some e -> (12 <= e)%nat /\ (ext_end_of (data k) e <= payload k)%nat;
  wf_no_ext : ext k = None -> onebyte_ext_map_ k = [] /\ twobytes_ext_map_ k = [];
  wf_sorted : StdMap.sorted (onebyte_ext_map_ k) /\ StdMap.sorted (twobytes_ext_map_ k);
  wf_onebyte : forall e, ext k = Some e ->
    Forall (onebyte_ok (data k) (e + 4) (ext_end_of (data k) e)) (onebyte_ext_map_ k);
  wf_twobytes : forall e, ext k = Some e ->
    Forall (twobytes_ok (data k) (e + 4) (ext_end_of (data k) e)) (twobytes_ext_map_ k)
}.

Lemma skip_zeros_ok d p n :
  bytes d -> (p + n <= length d)%nat -> post (fun q => (p <= q <= p + n)%nat) (skip_zeros d p n).
Proof.
  intros Hb. revert p; induction n as [|n IH]; intros p Hle; simpl; [lia|].
  eapply post_bind; [apply rd8_post; [done|lia]|cbv beta]. intros x _.
  destruct (x =? 0); simpl; [|lia].
  eapply post_mono; [apply IH; lia|]. simpl; lia.
Qed.

Lemma nibbles b : byte b -> Z.shiftr (Z.land b 0xF0) 4 = bits b 4 4 /\ Z.land b 0x0F = bits b 0 4.
Proof.
  intros [? ?]. unfold bits.
  change 0xF0 with (Z.shiftl (Z.ones 4) 4). change 0x0F with (Z.ones 4).
  rewrite Z.shiftr_land, Z.shiftr_shiftl_l by lia. change (4 - 4) with 0. rewrite Z.shiftl_0_r.
  rewrite !Z.land_ones, Z.shiftr_div_pow2 by lia. change (2 ^ 0) with 1. by rewrite Z.div_1_r.
Qed.

(** The element loops stay inside the block, end within their fuel, and build only
    well-formed entries. *)
Lemma parse_onebyte_ok fuel d lo p hi m :
  bytes d -> (hi <= length d)%nat -> (lo <= p)%nat -> (hi - p <= fuel)%nat ->
  StdMap.sorted m -> Forall (onebyte_ok d lo hi) m ->
  post (fun m' => StdMap.sorted m' /\ Forall (onebyte_ok d lo hi) m') (parse_onebyte fuel d p hi m).
Proof.
  intros Hb Hhi. revert p m; induction fuel as [|fuel IH]; intros p m Hlo Hf Hs Hm; simpl;
    destruct (Nat.leb_spec hi p); try done; [lia|].
  eapply post_bind; [apply rd8_post; [done|lia]|cbv beta]. intros b [Hpb Hbyte].
  destruct (nibbles b Hbyte) as [-> ->].
  pose proof (bits_range b 4 4 ltac:(lia)). pose proof (bits_range b 0 4 ltac:(lia)).
  destruct (Z.eqb_spec (bits b 4 4) 0x0f); [done|].
  destruct (Z.eqb_spec (bits b 4 4) 0); cbn [negb].
  - eapply post_bind; [apply skip_zeros_ok; [done|lia]|cbv beta]. intros q Hq. apply IH; auto; lia.
  - destruct (Nat.ltb_spec hi (p + 1 + (Z.to_nat (bits b 0 4) + 1))); [done|].
    eapply post_bind; [apply skip_zeros_ok; [done|lia]|cbv beta]. intros q Hq.
    apply IH; auto with smap; [lia..|].
    apply StdMap.Forall_set; [exists b; simpl; split_and!; auto; lia|done].
Qed.

Lemma parse_twobytes_ok fuel d lo p hi m :
  bytes d -> (hi <= length d)%nat -> (lo <= p)%nat -> (hi - p <= fuel)%nat ->
  StdMap.sorted m -> Forall (twobytes_ok d lo hi) m ->
  post (fun m' => StdMap.sorted m' /\ Forall (twobytes_ok d lo hi) m') (parse_twobytes fuel d p hi m).
Proof.
  intros Hb Hhi. revert p m; induction fuel as [|fuel IH]; intros p m Hlo Hf Hs Hm; simpl;
    destruct (Nat.leb_spec hi (p + 1)); try done; [lia|].
  eapply post_bind; [apply rd8_post; [done|lia]|cbv beta]. intros id [Hid Hidb].
  eapply post_bind; [apply rd8_post; [done|lia]|cbv beta]. intros l [Hl Hlb]. unfold byte in *.
  destruct (Z.eqb_spec id 0); cbn [negb].
  - eapply post_bind; [apply skip_zeros_ok; [done|lia]|cbv beta]. intros q Hq. apply IH; auto; lia.
  - destruct (Nat.ltb_spec hi (p + 2 + Z.to_nat l)); [done|].
    eapply post_bind; [apply skip_zeros_ok; [done|lia]|cbv beta]. intros q Hq.
    apply IH; auto with smap; [lia..|].
    apply StdMap.Forall_set; [exists l; simpl; split_and!; auto; lia|done].
Qed.

Lemma GetExtLength_post d e :
  bytes d -> (e + 4 <= length d)%nat ->
  post (fun l => l = u16 (net16 d (e + 2) * 4)) (GetExtLength d (Some e)).
Proof.
  intros. unfold GetExtLength. eapply post_bind; [apply load16_post; [done|lia]|].
  intros v ->. done.
Qed.
Lemma HasOnebyteExt_post d e :
  bytes d -> (e + 2 <= length d)%nat ->
  post (fun b => b = (net16 d e =? 0xBEDE)) (HasOnebyteExt d (Some e)).
Proof.
  intros. unfold HasOnebyteExt, GetExtId. rewrite rbind_assoc.
  eapply post_bind; [by apply load16_post|cbv beta]. intros v ->. done.
Qed.
Lemma HasTwobytesExt_post d e :
  bytes d -> (e + 2 <= length d)%nat ->
  post (fun b => b = (Z.land (net16 d e) 0xfff0 =? 0x1000)) (HasTwobytesExt d (Some e)).
Proof.
  intros. unfold HasTwobytesExt, GetExtId. rewrite rbind_assoc.
  eapply post_bind; [by apply load16_post|cbv beta]. intros v ->. done.
Qed.

(** [ParseExt] on a packet whose geometry is right and whose maps are still empty. *)
Lemma ParseExt_ok k :
  wf k -> onebyte_ext_map_ k = [] -> twobytes_ext_map_ k = [] -> post wf (ParseExt k).
Proof.
  intros [Hb Hl Hm Hp Hs He Hn _ _ _] H1 H2. unfold ParseExt.
  eapply post_bind; [unfold RtpCommonHeader.extension, get_field; 
    eapply post_bind; [apply rd8_post; [done|lia]|intros; apply (post_Ok (fun _ => True)); done]|].
  intros x _. destruct (ext k) as [e|] eqn:Ee.
  2: { split; rewrite ?H1, ?H2, ?Ee; auto; try done; split; constructor. }
  destruct (He e eq_refl) as [He1 He2]. unfold ext_end_of in *.
  assert (Hsmall : u16 (net16 (data k) (e + 2) * 4) = net16 (data k) (e + 2) * 4).
  { pose proof (net16_range (data k) (e + 2) Hb ltac:(lia)). apply u16_small. lia. }
  destruct (x =? 0).
  { split; rewrite ?H1, ?H2, ?Ee; auto; try done. split; constructor. }
  eapply post_bind; [apply HasOnebyteExt_post; [done|lia]|cbv beta]. intros one _. destruct one.
  { unfold ParseOnebyteExt. eapply post_bind; [apply GetExtLength_post; [done|lia]|cbv beta]. intros l ->.
    rewrite Hsmall. eapply post_bind.
    { apply (parse_onebyte_ok _ _ (e + 4)); auto; [lia..| constructor]. }
    intros m [Hsm Hfm]. simpl. split; simpl; rewrite ?H1, ?H2, ?Ee; auto; try done.
    - split; [done|constructor].
    - intros e' [= <-]. exact Hfm. }
  eapply post_bind; [apply HasTwobytesExt_post; [done|lia]|cbv beta]. intros two _. destruct two; [|done].
  unfold ParseTwobytesExt. eapply post_bind; [apply GetExtLength_post; [done|lia]|cbv beta]. intros l ->.
  rewrite Hsmall. eapply post_bind.
  { apply (parse_twobytes_ok _ _ (e + 4)); auto; [lia..| constructor]. }
  intros m [Hsm Hfm]. simpl. split; simpl; rewrite ?H1, ?H2, ?Ee; auto; try done.
  - split; [constructor|done].
  - intros e' [= <-]. exact Hfm.
Qed.

Lemma get_field_post d p lo w :
  bytes d -> (p < length d)%nat -> 0 <= w -> post (fun x => 0 <= x < 2 ^ w) (get_field d p lo w).
Proof.
  intros. unfold get_field. eapply post_bind; [by apply rd8_post|].
  intros x _. simpl. by apply bits_range.
Qed.

Lemma Parse_any (now : Z) (d : buf) (len : nat) :
  bytes d -> (1 <= length d)%nat -> (len <= length d)%nat -> post wf (Parse now d len).
Proof.
  intros Hb Hd1 Hlen. unfold Parse, RTP_PACKET_MAX_SIZE.
  destruct (Z.ltb_spec 1500 (Z.of_nat len)); [done|].
  eapply post_bind; [apply get_field_post; [done|lia|lia]|cbv beta]. intros cc Hcc.
  set (p := if 0 <? cc then _ else _).
  assert (Hp : (12 <= p <= 72)%nat)
    by (unfold p, RtpCommonHeader.size; destruct (0 <? cc); lia).
  eapply post_bind; [apply get_field_post; [done|lia|lia]|cbv beta]. intros x _.
  eapply (post_bind (fun ep : option nat * nat => (12 <= ep.2)%nat /\
     forall e, ep.1 = Some e -> (12 <= e)%nat /\ (ext_end_of d e <= ep.2 <= len)%nat)).
  { destruct (negb (x =? 0)); [|simpl; split; [lia|done]].
    destruct (Nat.ltb_spec len (p + 4)); [done|].
    eapply post_bind; [apply load16_post; [done|lia]|cbv beta]. intros l ->.
    destruct (Nat.ltb_spec len (p + 4 + Z.to_nat (net16 d (p + 2) * 4))); [done|].
    simpl. split; [lia|cbv beta]. intros e [= <-]. unfold ext_end_of. lia. }
  intros [e q] [Hq He]. simpl in Hq, He.
  destruct (Nat.leb_spec len q); [done|].
  eapply post_bind; [apply get_field_post; [done|lia|lia]|cbv beta]. intros pd _.
  eapply (post_bind (fun pp : nat * nat => (q + pp.1 + pp.2 = len)%nat)).
  { destruct (negb (pd =? 0)); [|simpl; lia].
    eapply post_bind; [apply rd8_post; [done|lia]|cbv beta]. intros n [_ Hn].
    destruct (Nat.ltb_spec 0 (Z.to_nat n)); [|simpl; lia].
    destruct (Nat.ltb_spec (len - q) (Z.to_nat n)); [done|simpl; lia]. }
  intros [pl pad] Hpp. simpl in Hpp. unfold new_RtpPacket, RTP_PACKET_MAX_SIZE.
  destruct (Z.ltb_spec 1500 (Z.of_nat len)); [done|].
  apply ParseExt_ok; try done. split; simpl; try done; try lia.
  - intros e' ->. specialize (He e' eq_refl). lia.
  - split; constructor.
Qed.

Lemma Parse_ok (now : Z) (d : buf) (len : nat) :
  bytes d -> (1 <= len <= length d)%nat -> post wf (Parse now d len).
Proof. intros. apply Parse_any; (done || lia). Qed.


(** * Header accesses on a long enough datagram *)

Lemma get_field_cell d p lo w : (p < length d)%nat -> get_field d p lo w = Ok (bits (cell d p) lo w).
Proof. intros. unfold get_field. by rewrite rd8_cell. Qed.
Lemma set_field_cell d p lo w v :
  (p < length d)%nat -> set_field d p lo w v = Ok (<[p := set_bits (cell d p) lo w v]> d).
Proof. intros. unfold set_field. rewrite rd8_cell by done. simpl. by rewrite wr8_ok. Qed.

Section Accessors.
Context (k : t) (Hlen : (12 <= length (data k))%nat).

Lemma HasPadding_eq : HasPadding k = Ok (bits (cell (data k) 0) 5 1 =? 1).
Proof. unfold HasPadding, RtpCommonHeader.padding. by rewrite get_field_cell by lia. Qed.
Lemma SetPadding_eq flag :
  SetPadding k flag = Ok (with_data k (<[0%nat := set_bits (cell (data k) 0) 5 1 (if flag then 1 else 0)]> (data k))).
Proof. unfold SetPadding, RtpCommonHeader.set_padding. by rewrite set_field_cell by lia. Qed.
Lemma GetPayloadType_eq : GetPayloadType k = Ok (bits (cell (data k) 1) 0 7).
Proof. unfold GetPayloadType, RtpCommonHeader.payload_type. by rewrite get_field_cell by lia. Qed.
Lemma SetPayloadType_eq v :
  SetPayloadType k v = Ok (with_data k (<[1%nat := set_bits (cell (data k) 1) 0 7 v]> (data k))).
Proof. unfold SetPayloadType, RtpCommonHeader.set_payload_type. by rewrite set_field_cell by lia. Qed.
Lemma SetSeq_eq v : SetSeq k v = Ok (with_data k (splice 2 (be_bytes 2 v) (data k))).
Proof.
  unfold SetSeq, RtpCommonHeader.set_sequence. rewrite store16_htons.
  by rewrite wr_bytes_ok by (rewrite length_be_bytes; lia).
Qed.
Lemma SetSsrc_eq v : SetSsrc k v = Ok (with_data k (splice 8 (be_bytes 4 v) (data k))).
Proof.
  unfold SetSsrc, RtpCommonHeader.set_ssrc. rewrite store32_htonl.
  by rewrite wr_bytes_ok by (rewrite length_be_bytes; lia).
Qed.
Lemma GetSeq_eq : bytes (data k) -> GetSeq k = Ok (net16 (data k) 2).
Proof. intros. unfold GetSeq, RtpCommonHeader.sequence. by rewrite load16_ntohs by (done || lia). Qed.
Lemma GetSsrc_eq : bytes (data k) -> GetSsrc k = Ok (net32 (data k) 8).
Proof. intros. unfold GetSsrc, RtpCommonHeader.ssrc. by rewrite load32_ntohl by (done || lia). Qed.
Lemma GetTimestamp_eq : bytes (data k) -> GetTimestamp k = Ok (net32 (data k) 4).
Proof. intros. unfold GetTimestamp, RtpCommonHeader.timestamp. by rewrite load32_ntohl by (done || lia). Qed.
End Accessors.

(** The header fields of a well-formed packet, for the components that keep packets. *)
Definition seq_of (k : t) : Z := net16 (data k) 2.
Definition ts_of (k : t) : Z := net32 (data k) 4.
Definition has_header (k : t) : Prop := bytes (data k) /\ (12 <= length (data k))%nat.
Lemma wf_header k : wf k -> has_header k.
Proof. intros []. split; [done|lia]. Qed.
Lemma GetSeq_hdr k : has_header k -> GetSeq k = Ok (seq_of k).
Proof. intros []. by apply GetSeq_eq. Qed.
Lemma GetTimestamp_hdr k : has_header k -> GetTimestamp k = Ok (ts_of k).
Proof. intros []. by apply GetTimestamp_eq. Qed.
Lemma seq_of_hdr k : has_header k -> 0 <= seq_of k < 65536.
Proof. intros []. apply net16_range; (done || lia). Qed.
Lemma GetSeq_wf k : wf k -> GetSeq k = Ok (seq_of k).
Proof. intros H. by apply GetSeq_hdr, wf_header. Qed.
Lemma GetTimestamp_wf k : wf k -> GetTimestamp k = Ok (ts_of k).
Proof. intros H. by apply GetTimestamp_hdr, wf_header. Qed.
Lemma seq_of_range k : wf k -> 0 <= seq_of k < 65536.
Proof. intros H. by apply seq_of_hdr, wf_header. Qed.

(** * RTX: the encapsulated packet and its recovery *)

(** What a receiver sees of a packet: the first byte without its padding bit, the
    padding bit, marker, payload type, sequence number, timestamp, SSRC, the bytes
    between the fixed header and the payload, and the payload. *)
Record view := mkview {
  v_first : Z * Z; v_padding : Z; v_marker : Z; v_pt : Z; v_seq : Z; v_ts : Z; v_ssrc : Z;
  v_ext : list Z; v_payload : list Z
}.
Definition view_of (k : t) : view :=
  let d := data k in
  mkview (bits (cell d 0) 0 5, bits (cell d 0) 6 2) (bits (cell d 0) 5 1)
         (bits (cell d 1) 7 1) (bits (cell d 1) 0 7) (net16 d 2) (net32 d 4) (net32 d 8)
         (slice 12 (payload k - 12) d) (GetPayload k).

(** The packet an RTX sender owes for an original [v]: RFC 4588, without padding. *)
Definition rtx_view (v : view) (pt ssrc seq : Z) : view :=
  mkview (v_first v) 0 (v_marker v) pt seq (v_ts v) ssrc (v_ext v) (be_bytes 2 (v_seq v) ++ v_payload v).
Definition unrtx_view (v : view) (ssrc pt : Z) : view :=
  mkview (v_first v) 0 (v_marker v) pt (be_val (take 2 (v_payload v))) (v_ts v) ssrc (v_ext v)
         (drop 2 (v_payload v)).

(** The geometry both operations need, and keep. *)
Record rtx_ok (k : t) : Prop := {
  ro_bytes : bytes (data k);
  ro_payload : (12 <= payload k)%nat;
  ro_room : (payload k + payload_len k <= length (data k))%nat
}.

Lemma rtx_header k : rtx_ok k -> has_header k.
Proof. intros []. split; [done|lia]. Qed.

Lemma first_byte_bits x :
  byte x -> bits (set_bits x 5 1 0) 0 5 = bits x 0 5 /\ bits (set_bits x 5 1 0) 6 2 = bits x 6 2 /\
  bits (set_bits x 5 1 0) 5 1 = 0 /\ byte (set_bits x 5 1 0).
Proof.
  intros H. split_and!; [..|apply set_bits_byte; (lia || done)];
    unfold byte, bits, set_bits, bits in *; zlia.
Qed.
Lemma second_byte_bits x pt :
  byte x -> 0 <= pt < 128 ->
  bits (set_bits x 0 7 pt) 7 1 = bits x 7 1 /\ bits (set_bits x 0 7 pt) 0 7 = pt /\
  byte (set_bits x 0 7 pt).
Proof.
  intros H ?. split_and!; [..|apply set_bits_byte; (lia || done)];
    unfold byte, bits, set_bits, bits in *; zlia.
Qed.

Lemma strip_padding_ok k :
  rtx_ok k -> exists k', strip_padding k = Ok k' /\ rtx_ok k' /\
    payload k' = payload k /\ payload_len k' = payload_len k /\ ext k' = ext k /\
    length (data k') = length (data k) /\
    data_len k' = (if (bits (cell (data k) 0) 5 1 =? 1)%Z then data_len k - pad_len k else data_len k)%nat /\
    pad_len k' = (if (bits (cell (data k) 0) 5 1 =? 1)%Z then 0 else pad_len k)%nat /\
    (forall i, (0 < i)%nat -> data k' !! i = data k !! i) /\
    view_of k' = let v := view_of k in
      mkview (v_first v) 0 (v_marker v) (v_pt v) (v_seq v) (v_ts v) (v_ssrc v) (v_ext v) (v_payload v).
Proof.
  intros [Hb Hp Hr]. unfold strip_padding. rewrite HasPadding_eq by lia. cbn [rbind].
  pose proof (cell_byte (data k) 0 Hb ltac:(lia)) as Hc.
  destruct (first_byte_bits _ Hc) as (E1 & E2 & E3 & E4).
  destruct (Z.eqb_spec (bits (cell (data k) 0) 5 1) 1) as [Hone|Hone].
  - rewrite SetPadding_eq by lia. cbn [rbind]. eexists. split; [reflexivity|].
    split_and!; try reflexivity.
    + split; simpl; rewrite ?length_insert; auto using bytes_insert.
    + simpl. by rewrite length_insert.
    + simpl. intros. by rewrite list_lookup_insert_ne by lia.
    + unfold view_of, GetPayload, net16, net32; simpl. buf_simp. by rewrite E1, E2, E3.
  - eexists. split; [reflexivity|]. split_and!; try done.
    pose proof (bits_range (cell (data k) 0) 5 1 ltac:(lia)).
    unfold view_of at 1; simpl. by replace (bits (cell (data k) 0) 5 1) with 0 by lia.
Qed.

Lemma RtxMux_data k pt ssrc seq :
  rtx_ok k -> (payload k + payload_len k + 2 <= length (data k))%nat -> 0 <= pt < 128 ->
  0 <= seq < 65536 -> 0 <= ssrc < 4294967296 ->
  exists d, RtxMux k pt ssrc seq =
      strip_padding (with_lens (with_data k d) (payload_len k + 2) (pad_len k) (data_len k + 2)) /\
    bytes d /\ length d = length (data k) /\ cell d 0 = cell (data k) 0 /\
    let v := view_of k in
    view_of (with_lens (with_data k d) (payload_len k + 2) (pad_len k) (data_len k + 2)) =
      mkview (v_first v) (v_padding v) (v_marker v) pt seq (v_ts v) ssrc (v_ext v)
             (be_bytes 2 (v_seq v) ++ v_payload v).
Proof.
  intros [Hb Hp Hr] Hroom Hpt Hseq Hss. unfold RtxMux.
  pose proof (cell_byte (data k) 1 Hb ltac:(lia)) as Hc.
  destruct (second_byte_bits _ pt Hc Hpt) as (E1 & E2 & E3).
  rewrite SetPayloadType_eq by lia. cbn [rbind].
  set (d1 := <[_ := _]> _).
  assert (Hd1 : bytes d1 /\ length d1 = length (data k))
    by (unfold d1; rewrite length_insert; auto using bytes_insert). destruct Hd1 as [Hb1 Hl1].
  rewrite SetSsrc_eq by (simpl; lia). cbn [rbind with_data data payload payload_len].
  set (d2 := splice 8 _ _).
  assert (Hd2 : bytes d2 /\ length d2 = length (data k))
    by (unfold d2; split; [auto with buf|rewrite length_splice; buf_len]).
  destruct Hd2 as [Hb2 Hl2].
  rewrite rd_bytes_ok by lia. cbn [rbind].
  rewrite wr_bytes_ok by (rewrite length_slice; lia). cbn [rbind].
  set (d3 := splice _ _ d2).
  assert (Hd3 : bytes d3 /\ length d3 = length (data k))
    by (unfold d3; split; [auto with buf|rewrite length_splice; rewrite ?length_slice; lia]).
  destruct Hd3 as [Hb3 Hl3].
  rewrite GetSeq_eq by (simpl; (done || lia)). cbn [rbind with_data data].
  rewrite Write2Bytes_be, wr_bytes_ok by buf_len. cbn [rbind].
  rewrite SetSeq_eq by (simpl; rewrite length_splice; buf_len). cbn [rbind with_data data].
  set (d4 := splice 2 _ _).
  assert (Hd4 : bytes d4 /\ length d4 = length (data k))
    by (unfold d4; split; [auto with buf|rewrite !length_splice; rewrite ?length_splice; buf_len]).
  exists d4. split; [reflexivity|]. split_and!; [apply Hd4..| |].
  - unfold d4, d3, d2, d1. buf_simp. reflexivity.
  - unfold view_of, GetPayload, net16, net32; cbn [with_lens with_data data payload payload_len].
    assert (Epay : slice (payload k) (payload_len k + 2) d4
            = be_bytes 2 (be_val (slice 2 2 (data k))) ++ slice (payload k) (payload_len k) (data k)).
    { rewrite (Nat.add_comm _ 2), slice_app. f_equal.
      - unfold d4. buf_simp.
        rewrite slice_splice_eq by (rewrite ?length_be_bytes; lia). unfold net16, d3, d2, d1. buf_simp. done.
      - unfold d4. buf_simp. unfold d3.
        rewrite slice_splice_eq by (rewrite ?length_slice; lia).
        unfold d2, d1. buf_simp. done. }
    rewrite Epay.
    assert (Eseq : slice 2 2 d4 = be_bytes 2 seq).
    { unfold d4. by rewrite slice_splice_eq by (try reflexivity; buf_simp_side). }
    assert (Essrc : slice 8 4 d4 = be_bytes 4 ssrc).
    { unfold d4, d3. buf_simp. unfold d2.
      by rewrite slice_splice_eq by (try reflexivity; buf_simp_side). }
    rewrite Eseq, Essrc, !be_val_be_bytes.
    rewrite (Z.mod_small seq) by (cbn; lia). rewrite (Z.mod_small ssrc) by (cbn; lia).
    unfold d4, d3, d2, d1. buf_simp. by rewrite E1, E2.
Qed.

Lemma RtxDemux_data k ssrc pt :
  rtx_ok k -> (2 <= payload_len k)%nat -> 0 <= pt < 128 -> 0 <= ssrc < 4294967296 ->
  exists d, RtxDemux k ssrc pt =
      strip_padding (with_lens (with_data k d) (payload_len k - 2) (pad_len k) (data_len k - 2)) /\
    bytes d /\ length d = length (data k) /\ cell d 0 = cell (data k) 0 /\
    let v := view_of k in
    view_of (with_lens (with_data k d) (payload_len k - 2) (pad_len k) (data_len k - 2)) =
      mkview (v_first v) (v_padding v) (v_marker v) pt (be_val (take 2 (v_payload v))) (v_ts v) ssrc
             (v_ext v) (drop 2 (v_payload v)).
Proof.
  intros [Hb Hp Hr] Hpl Hpt Hss. unfold RtxDemux.
  destruct (Nat.ltb_spec (payload_len k) 2); [lia|].
  pose proof (cell_byte (data k) 1 Hb ltac:(lia)) as Hc.
  destruct (second_byte_bits _ pt Hc Hpt) as (E1 & E2 & E3).
  unfold Read2Bytes. rewrite rd_bytes_ok by lia. cbn [rbind].
  change (le_val (reverse ?l)) with (be_val l). set (osn := be_val _).
  assert (Hosn : 0 <= osn < 65536) by (apply (net16_range (data k)); (done || lia)).
  rewrite SetPayloadType_eq by lia. cbn [rbind].
  set (d1 := <[_ := _]> _).
  assert (Hd1 : bytes d1 /\ length d1 = length (data k))
    by (unfold d1; rewrite length_insert; auto using bytes_insert). destruct Hd1 as [Hb1 Hl1].
  rewrite SetSeq_eq by (simpl; lia). cbn [rbind with_data data payload payload_len].
  rewrite SetSsrc_eq by (simpl; rewrite length_splice; buf_len).
  cbn [rbind with_data data payload payload_len].
  set (d2 := splice 8 _ _).
  assert (Hd2 : bytes d2 /\ length d2 = length (data k))
    by (unfold d2; split; [auto with buf|rewrite !length_splice; rewrite ?length_splice; buf_len]).
  destruct Hd2 as [Hb2 Hl2].
  rewrite rd_bytes_ok by lia. cbn [rbind].
  rewrite wr_bytes_ok by (rewrite length_slice; lia). cbn [rbind].
  set (d3 := splice _ _ d2).
  assert (Hd3 : bytes d3 /\ length d3 = length (data k))
    by (unfold d3; split; [auto with buf|rewrite length_splice; rewrite ?length_slice; lia]).
  exists d3. split; [reflexivity|]. split_and!; [apply Hd3..| |].
  - unfold d3, d2, d1. buf_simp. reflexivity.
  - unfold view_of, GetPayload, net16, net32; cbn [with_lens with_data data payload payload_len v_first v_padding
      v_marker v_pt v_seq v_ts v_ssrc v_ext v_payload].
    rewrite take_slice, drop_slice by lia.
    assert (Epay : slice (payload k) (payload_len k - 2) d3
                   = slice (payload k + 2) (payload_len k - 2) (data k)).
    { unfold d3. rewrite slice_splice_eq by (rewrite ?length_slice; lia). unfold d2, d1. by buf_simp. }
    assert (Eseq : slice 2 2 d3 = be_bytes 2 osn).
    { unfold d3, d2. buf_simp. by rewrite slice_splice_eq by (try reflexivity; buf_simp_side). }
    assert (Essrc : slice 8 4 d3 = be_bytes 4 ssrc).
    { unfold d3. buf_simp. unfold d2. by rewrite slice_splice_eq by (try reflexivity; buf_simp_side). }
    rewrite Epay, Eseq, Essrc, !be_val_be_bytes.
    rewrite (Z.mod_small osn) by (cbn; lia). rewrite (Z.mod_small ssrc) by (cbn; lia).
    unfold d3, d2, d1. buf_simp. by rewrite E1, E2.
Qed.

(** Both operations end by dropping the padding. *)
Lemma strip_padding_view k0 k (v : view) :
  rtx_ok k -> view_of k = v -> k0 = strip_padding k ->
  exists k', k0 = Ok k' /\ rtx_ok k' /\ payload k' = payload k /\ payload_len k' = payload_len k /\
    length (data k') = length (data k) /\
    data_len k' = (if (bits (cell (data k) 0) 5 1 =? 1)%Z then data_len k - pad_len k else data_len k)%nat /\
    pad_len k' = (if (bits (cell (data k) 0) 5 1 =? 1)%Z then 0 else pad_len k)%nat /\
    view_of k' = mkview (v_first v) 0 (v_marker v) (v_pt v) (v_seq v) (v_ts v) (v_ssrc v) (v_ext v) (v_payload v).
Proof.
  intros Hk <- ->. destruct (strip_padding_ok k Hk) as (k' & ? & ? & ? & ? & ? & ? & ? & ? & ? & ?).
  exists k'. split_and!; done.
Qed.

(** RTX encapsulation is RFC 4588: with two bytes of room behind the payload, the
    packet becomes one with the RTX payload type, SSRC and sequence number whose
    payload is the original sequence number followed by the original payload, with
    the timestamp, marker, CSRCs and extensions kept and the padding dropped. *)
Theorem RtxMux_spec (k : t) (pt ssrc seq : Z) :
  rtx_ok k -> (payload k + payload_len k + 2 <= length (data k))%nat ->
  0 <= pt < 128 -> 0 <= ssrc < 4294967296 -> 0 <= seq < 65536 ->
  exists k', RtxMux k pt ssrc seq = Ok k' /\ rtx_ok k' /\
    payload k' = payload k /\ payload_len k' = (payload_len k + 2)%nat /\
    view_of k' = rtx_view (view_of k) pt ssrc seq.
Proof.
  intros Hk Hroom Hpt Hss Hseq.
  destruct (RtxMux_data k pt ssrc seq) as (d & Hmux & Hb & Hl & _ & Hv); try done.
  destruct Hk. eapply strip_padding_view in Hmux as (k' & Hk' & ? & ? & ? & ? & ? & ? & Hview);
    [|split; simpl; (done || lia)|exact Hv].
  exists k'. split_and!; done.
Qed.

Lemma RtxDemux_ok (k : t) (ssrc pt : Z) :
  rtx_ok k -> 0 <= pt < 128 -> 0 <= ssrc < 4294967296 -> (2 <= payload_len k)%nat ->
  exists k', RtxDemux k ssrc pt = Ok k' /\ rtx_ok k' /\
    payload k' = payload k /\ payload_len k' = (payload_len k - 2)%nat /\
    view_of k' = unrtx_view (view_of k) ssrc pt.
Proof.
  intros Hk Hpt Hss Hpl.
  destruct (RtxDemux_data k ssrc pt) as (d & Hmux & Hb & Hl & _ & Hv); try done.
  destruct Hk. eapply strip_padding_view in Hmux as (k' & Hk' & ? & ? & ? & ? & ? & ? & Hview);
    [|split; simpl; (done || lia)|exact Hv].
  exists k'. split_and!; done.
Qed.

(** recovering an RTX packet inverts the encapsulation: the first two payload bytes
    become the sequence number, the rest the payload, under the given SSRC and payload
    type; a payload of less than two bytes throws. *)
Theorem RtxDemux_spec (k : t) (ssrc pt : Z) :
  rtx_ok k -> 0 <= pt < 128 -> 0 <= ssrc < 4294967296 ->
  ((payload_len k < 2)%nat -> RtxDemux k ssrc pt = Throw "rtx payload len is less than 2") /\
  ((2 <= payload_len k)%nat ->
   exists k', RtxDemux k ssrc pt = Ok k' /\ rtx_ok k' /\
    payload k' = payload k /\ payload_len k' = (payload_len k - 2)%nat /\
    view_of k' = unrtx_view (view_of k) ssrc pt).
Proof.
  intros Hk Hpt Hss. split; intros Hpl.
  { unfold RtxDemux. by destruct (Nat.ltb_spec (payload_len k) 2); [|lia]. }
  by apply RtxDemux_ok.
Qed.

(** A packet whose lengths agree: padding is counted only when the header says so. *)
Record framed (k : t) : Prop := {
  fr_ok : rtx_ok k;
  fr_len : data_len k = (payload k + payload_len k + pad_len k)%nat;
  fr_pad : bits (cell (data k) 0) 5 1 = 1 \/ pad_len k = 0%nat
}.
Lemma framed_stripped k :
  framed k ->
  (if (bits (cell (data k) 0) 5 1 =? 1)%Z then data_len k - pad_len k else data_len k)%nat =
    (payload k + payload_len k)%nat.
Proof. intros [_ H [->|Hp]]; [cbn; lia|]. destruct (_ =? 1)%Z; lia. Qed.

(** [v] with the padding dropped. *)
Definition unpadded (v : view) : view :=
  mkview (v_first v) 0 (v_marker v) (v_pt v) (v_seq v) (v_ts v) (v_ssrc v) (v_ext v) (v_payload v).

Lemma view_ssrc_range k : rtx_ok k -> 0 <= v_ssrc (view_of k) < 4294967296.
Proof. intros []. apply net32_range; (done || lia). Qed.
Lemma view_pt_range k : 0 <= v_pt (view_of k) < 128.
Proof. apply bits_range. lia. Qed.

(** Encapsulation and recovery of one packet in place, with both intermediate packets. *)
Lemma mux_demux_ok (k : t) (pt ssrc seq : Z) :
  rtx_ok k -> (payload k + payload_len k + 2 <= length (data k))%nat ->
  0 <= pt < 128 -> 0 <= ssrc < 4294967296 -> 0 <= seq < 65536 ->
  let v := view_of k in
  exists k' k'', RtxMux k pt ssrc seq = Ok k' /\ RtxDemux k' (v_ssrc v) (v_pt v) = Ok k'' /\
    payload k'' = payload k /\ payload_len k'' = payload_len k /\ length (data k'') = length (data k) /\
    view_of k' = rtx_view v pt ssrc seq /\ view_of k'' = unpadded v /\ rtx_ok k'' /\ rtx_ok k' /\
    payload k' = payload k /\ payload_len k' = (payload_len k + 2)%nat /\
    (framed k -> data_len k' = (payload k + payload_len k + 2)%nat /\ framed k'').
Proof.
  intros Hk Hroom Hpt Hss Hseq v. pose proof Hk as [Hb Hp Hr].
  destruct (RtxMux_data k pt ssrc seq) as (d & Hmux & Hbd & Hl & Hc0 & Hv); try done.
  eapply strip_padding_view in Hmux as (k1 & Hk1 & Hok1 & Hp1 & Hpl1 & Hl1 & Hdl1 & Hpd1 & Hview1);
    [|split; simpl; (done || lia)|exact Hv].
  cbn [with_lens with_data data payload payload_len pad_len data_len] in *.
  pose proof (view_ssrc_range k Hk) as Hssrc. pose proof (view_pt_range k) as Hvpt. fold v in Hssrc, Hvpt.
  destruct (RtxDemux_data k1 (v_ssrc v) (v_pt v)) as (d2 & Hdm & Hb2 & Hl2 & Hc2 & Hv2);
    [done|lia|done..|].
  pose proof Hok1 as [].
  eapply strip_padding_view in Hdm as (k2 & Hk2 & Hok2 & Hp2 & Hpl2 & Hlen2 & Hdl2 & Hpd2 & Hview2);
    [|split; simpl; (done || lia)|exact Hv2].
  exists k1, k2. cbn [with_lens with_data data payload payload_len pad_len data_len] in *.
  assert (Hv2' : view_of k2 = unpadded v).
  { rewrite Hview2, Hview1. unfold unpadded.
    cbn [v_first v_padding v_marker v_pt v_seq v_ts v_ssrc v_ext v_payload].
    rewrite take_app_le, drop_app_le by (by rewrite length_be_bytes).
    rewrite take_ge, drop_ge by (by rewrite length_be_bytes).
    rewrite be_val_be_bytes. f_equal. apply Z.mod_small. apply net16_range; (done || lia). }
  split_and!; [done|done|congruence|lia|congruence|by rewrite Hview1|done|done|done|done|done|].
  intros [_ Hfl Hfp]. rewrite Hc0 in Hdl1, Hpd1. rewrite Hc2 in Hdl2, Hpd2.
  assert (Hb1 : bits (cell (data k1) 0) 5 1 = 0) by (apply (f_equal v_padding) in Hview1; exact Hview1).
  rewrite Hb1 in Hdl2, Hpd2. cbn in Hdl2, Hpd2.
  assert (Hz : pad_len k1 = 0%nat /\ data_len k1 = (payload k + payload_len k + 2)%nat).
  { destruct Hfp as [E|E]; [rewrite E, Z.eqb_refl in *; split; lia|].
    rewrite E in *. destruct (_ =? 1)%Z; split; lia. }
  destruct Hz as [Hz Hz2]. split; [done|]. split; [done|lia|right; lia].
Qed.

(** what [RetransmitRtxPackets] does to a cached packet, encapsulating it and then
    recovering it under its own SSRC and payload type, leaves every header field, the
    extensions and the payload as they were, with the padding dropped. *)
Theorem rtx_mux_demux (k : t) (pt ssrc seq : Z) :
  rtx_ok k -> (payload k + payload_len k + 2 <= length (data k))%nat ->
  0 <= pt < 128 -> 0 <= ssrc < 4294967296 -> 0 <= seq < 65536 ->
  let v := view_of k in
  exists k' k'', RtxMux k pt ssrc seq = Ok k' /\ RtxDemux k' (v_ssrc v) (v_pt v) = Ok k'' /\
    payload k'' = payload k /\ payload_len k'' = payload_len k /\ view_of k'' = unpadded v.
Proof.
  intros. destruct (mux_demux_ok k pt ssrc seq) as (k' & k'' & ? & ? & ? & ? & ? & ? & ? & _); [done..|].
  by exists k', k''.
Qed.

(** * Rewriting an extension element *)

Lemma HasOnebyteExt_eq d e :
  bytes d -> (e + 2 <= length d)%nat -> HasOnebyteExt d (Some e) = Ok (net16 d e =? 0xBEDE).
Proof. intros. unfold HasOnebyteExt, GetExtId. by rewrite load16_ntohs by done. Qed.
Lemma HasTwobytesExt_eq d e :
  bytes d -> (e + 2 <= length d)%nat ->
  HasTwobytesExt d (Some e) = Ok (Z.land (net16 d e) 0xfff0 =? 0x1000).
Proof. intros. unfold HasTwobytesExt, GetExtId. by rewrite load16_ntohs by done. Qed.

(** Where [GetExtension] finds an element: its value at [v], of length [l], and the
    length field in the cell before it. *)
Inductive found (k : t) (id : Z) (v : nat) (l : Z) : Prop :=
  | found_onebyte e o :
      ext k = Some e -> bytes (data k) -> (e + 4 <= o)%nat -> (v + Z.to_nat l <= length (data k))%nat ->
      net16 (data k) e = 0xBEDE -> StdMap.find id (onebyte_ext_map_ k) = Some o ->
      v = (o + 1)%nat -> l = bits (cell (data k) o) 0 4 + 1 -> found k id v l
  | found_twobytes e o :
      ext k = Some e -> bytes (data k) -> (e + 4 <= o)%nat -> (v + Z.to_nat l <= length (data k))%nat ->
      net16 (data k) e <> 0xBEDE -> Z.land (net16 (data k) e) 0xfff0 = 0x1000 ->
      StdMap.find id (twobytes_ext_map_ k) = Some o ->
      v = (o + 2)%nat -> l = cell (data k) (o + 1) -> l <> 0 -> found k id v l.

Lemma found_GetExtension k id v l : found k id v l -> GetExtension k id = Ok (Some (v, l)).
Proof.
  intros [e o He Hb Heo Hv E Ef -> El|e o He Hb Heo Hv E E2 Ef -> El Hl0]; unfold GetExtension;
    rewrite He, HasOnebyteExt_eq by (done || lia); cbn [rbind].
  - rewrite E, Z.eqb_refl, Ef. unfold onebyte_len. rewrite get_field_cell by lia.
    cbn [rbind]. by rewrite El.
  - rewrite HasTwobytesExt_eq by (done || lia). cbn [rbind].
    rewrite (proj2 (Z.eqb_neq _ _) E), E2, Z.eqb_refl, Ef.
    unfold twobytes_len. rewrite rd8_cell by lia. cbn [rbind]. rewrite <- El.
    by rewrite (proj2 (Z.eqb_neq _ _) Hl0).
Qed.

Lemma GetExtension_found k id v l :
  wf k -> GetExtension k id = Ok (Some (v, l)) -> found k id v l.
Proof.
  intros [Hb Hl Hm Hp Hs He Hn _ Ho Ht] H. unfold GetExtension in H.
  destruct (ext k) as [e|] eqn:Ee; [|discriminate].
  destruct (He e eq_refl) as [He1 He2]. unfold ext_end_of in He2.
  rewrite HasOnebyteExt_eq, HasTwobytesExt_eq in H by (done || lia). cbn [rbind] in H.
  destruct (Z.eqb_spec (net16 (data k) e) 0xBEDE) as [E|E].
  - destruct (StdMap.find id (onebyte_ext_map_ k)) as [o|] eqn:Ef; [|discriminate].
    destruct (StdMap.Forall_find _ _ _ _ (Ho e eq_refl) Ef) as (b & Hbo & Hid & Hr & Hlo & Hhi).
    cbn [fst snd] in *. unfold ext_end_of in Hhi. pose proof (lookup_lt_Some _ _ _ Hbo).
    unfold onebyte_len in H. rewrite get_field_cell in H by lia. cbn [rbind] in H.
    injection H as <- <-.
    assert (cell (data k) o = b) as Hc by (rewrite cell_lookup in Hbo by lia; congruence).
    pose proof (bits_range b 0 4 ltac:(lia)).
    eapply (found_onebyte _ _ _ _ e o); rewrite ?Hc; (done || lia).
  - destruct (Z.eqb_spec (Z.land (net16 (data k) e) 0xfff0) 0x1000) as [E2|E2]; [|discriminate].
    destruct (StdMap.find id (twobytes_ext_map_ k)) as [o|] eqn:Ef; [|discriminate].
    destruct (StdMap.Forall_find _ _ _ _ (Ht e eq_refl) Ef) as (b & Hbo & Hbl & Hr & Hlo & Hhi).
    cbn [fst snd] in *. unfold ext_end_of in Hhi. pose proof (lookup_lt_Some _ _ _ Hbl).
    unfold twobytes_len in H. rewrite rd8_cell in H by lia. cbn [rbind] in H.
    assert (cell (data k) (o + 1) = b) as Hcell by (rewrite cell_lookup in Hbl by lia; congruence).
    rewrite Hcell in H. destruct (Z.eqb_spec b 0); [discriminate|]. injection H as <- <-.
    eapply (found_twobytes _ _ _ _ e o); rewrite ?Hcell; (done || lia).
Qed.

(** A change of the buffer behind the value's start leaves the element where it is. *)
Lemma found_ext k d id v l :
  found k id v l -> bytes d -> length d = length (data k) ->
  (forall i, (i < v)%nat -> d !! i = data k !! i) -> found (with_data k d) id v l.
Proof.
  intros Hf Hb Hl Hd.
  assert (Enet : forall e, (e + 2 <= v)%nat -> net16 d e = net16 (data k) e)
    by (intros e He; unfold net16; f_equal; apply slice_ext; intros; apply Hd; lia).
  destruct Hf as [e o He _ Heo Hv E Ef -> El|e o He _ Heo Hv E E2 Ef -> El Hl0].
  - apply (found_onebyte _ _ _ _ e o); cbn [with_data data ext onebyte_ext_map_];
      rewrite ?Enet, ?(cell_ext o d (data k)) by (apply Hd || idtac; lia); (done || lia).
  - apply (found_twobytes _ _ _ _ e o); cbn [with_data data ext twobytes_ext_map_];
      rewrite ?Enet, ?(cell_ext (o + 1) d (data k)) by (apply Hd || idtac; lia); (done || lia).
Qed.

(** [k'] is [k] with the value at [v], of length [l], replaced by [bs]. *)
Record element_written (k k' : t) (id : Z) (v : nat) (l : Z) (bs : list Z) : Prop := {
  ew_value : slice v (length bs) (data k') = bs;
  ew_found : found k' id v (Z.of_nat (length bs));
  ew_frame : forall i, (i + 1 < v \/ v + Z.to_nat l <= i)%nat -> data k' !! i = data k !! i;
  ew_rest : exists d, k' = with_data k d /\ bytes d /\ length d = length (data k)
}.

Lemma clear_tail d v n l :
  bytes d -> (v + Z.to_nat l <= length d)%nat -> 0 <= n <= l ->
  exists d2,
    (if n <? l then wr_bytes d (v + Z.to_nat n) (replicate (Z.to_nat (l - n)) 0) else Ok d) = Ok d2 /\
    length d2 = length d /\ bytes d2 /\
    (forall i, (i < v + Z.to_nat n \/ v + Z.to_nat l <= i)%nat -> d2 !! i = d !! i).
Proof.
  intros Hb Hv Hn. destruct (Z.ltb_spec n l); [|eauto].
  rewrite wr_bytes_ok by (rewrite length_replicate; lia).
  eexists. split; [reflexivity|]. split_and!.
  - rewrite length_splice; rewrite ?length_replicate; lia.
  - apply bytes_splice; [done|]. apply Forall_replicate. unfold byte; lia.
  - intros i Hi. rewrite lookup_splice by (rewrite length_replicate; lia).
    rewrite length_replicate. by rewrite decide_False by lia.
Qed.

Lemma set_len_bits b n :
  byte b -> 1 <= n <= 16 ->
  bits (set_bits b 0 4 (n - 1)) 0 4 = n - 1 /\ byte (set_bits b 0 4 (n - 1)).
Proof.
  intros Hb Hn. split.
  - rewrite bits_set_bits_same by lia. apply Z.mod_small. cbn; lia.
  - apply set_bits_byte; (lia || done).
Qed.

(** Shortening a found element to [n] bytes keeps the first [n] bytes of its value. *)
Lemma UpdateExtensionLength_found k id v l n :
  found k id v l -> 1 <= n <= l ->
  exists d, UpdateExtensionLength k id n = Ok (with_data k d, true) /\
    bytes d /\ length d = length (data k) /\ found (with_data k d) id v n /\
    (forall i, (i + 1 < v \/ v <= i < v + Z.to_nat n \/ v + Z.to_nat l <= i)%nat ->
       d !! i = data k !! i).
Proof.
  intros Hf Hn. unfold UpdateExtensionLength. replace (n =? 0) with false by lia.
  assert (Enet : forall d e, (e + 4 <= v - 1)%nat ->
    (forall i, (i < v - 1)%nat -> d !! i = data k !! i) -> net16 d e = net16 (data k) e)
    by (intros d e He Hd; unfold net16; f_equal; apply slice_ext; intros; apply Hd; lia).
  destruct Hf as [e o He Hb Heo Hv E Ef -> El|e o He Hb Heo Hv E E2 Ef -> El Hl0];
    rewrite He, HasOnebyteExt_eq by (done || lia); cbn [rbind];
    destruct (clear_tail (data k) _ n l Hb Hv ltac:(lia)) as (d2 & Htail & Hl2 & Hb2 & Hsame).
  - rewrite E, Z.eqb_refl, Ef. unfold onebyte_len, set_onebyte_len.
    pose proof (bits_range (cell (data k) o) 0 4 ltac:(lia)).
    rewrite get_field_cell by lia. cbn [rbind]. rewrite <- El, Htail. cbn [rbind].
    rewrite set_field_cell by lia. cbn [rbind].
    destruct (set_len_bits (cell d2 o) n) as [Hbits Hbyte]; [apply cell_byte; (done || lia)|lia|].
    eexists. split; [reflexivity|].
    assert (Hd : forall i, (i < o \/ o + 1 <= i < o + 1 + Z.to_nat n \/ o + 1 + Z.to_nat l <= i)%nat ->
      <[o := set_bits (cell d2 o) 0 4 (n - 1)]> d2 !! i = data k !! i)
      by (intros i Hi; rewrite list_lookup_insert_ne by lia; apply Hsame; lia).
    split_and!; [by apply bytes_insert|by rewrite length_insert| |intros i Hi; apply Hd; lia].
    apply (found_onebyte _ _ _ _ e o); cbn [with_data data ext onebyte_ext_map_];
      rewrite ?length_insert, ?cell_insert_eq, ?Hbits by lia; auto using bytes_insert; try lia.
    rewrite Enet by (lia || (intros; apply Hd; lia)). done.
  - rewrite (proj2 (Z.eqb_neq _ _) E), HasTwobytesExt_eq by (done || lia). cbn [rbind].
    rewrite E2, Z.eqb_refl, Ef. unfold twobytes_len, set_twobytes_len.
    rewrite rd8_cell by lia. cbn [rbind]. rewrite <- El, Htail. cbn [rbind].
    rewrite wr8_ok by lia. cbn [rbind].
    assert (Hln : l < 256) by (rewrite El; apply cell_byte; (done || lia)).
    rewrite u8_small by lia. eexists. split; [reflexivity|].
    assert (Hd : forall i, (i < o + 1 \/ o + 2 <= i < o + 2 + Z.to_nat n \/ o + 2 + Z.to_nat l <= i)%nat ->
      <[(o + 1)%nat := n]> d2 !! i = data k !! i)
      by (intros i Hi; rewrite list_lookup_insert_ne by lia; apply Hsame; lia).
    split_and!; [apply bytes_insert; [done|unfold byte; lia]|by rewrite length_insert|
                 |intros i Hi; apply Hd; lia].
    apply (found_twobytes _ _ _ _ e o); cbn [with_data data ext twobytes_ext_map_];
      rewrite ?length_insert, ?cell_insert_eq by lia; try (done || lia);
      rewrite ?Enet by (lia || (intros; apply Hd; lia)); try done.
    apply bytes_insert; [done|unfold byte; lia].
Qed.

(** The three value updates are one operation: store the bytes, then set the length. *)
Definition write_element (k : t) (id : Z) (bs : list Z) : res (t * bool) :=
  let! e := GetExtension k id in
  match e with
  | None => Ok (k, false)
  | Some (v, _) =>
      let! d := wr_bytes (data k) v bs in
      UpdateExtensionLength (with_data k d) id (Z.of_nat (length bs))
  end.

Lemma write_element_spec k id v l bs :
  found k id v l -> bytes bs -> bs <> [] -> Z.of_nat (length bs) <= l ->
  exists k', write_element k id bs = Ok (k', true) /\ element_written k k' id v l bs.
Proof.
  intros Hf Hbs Hne Hl.
  assert (Hb : bytes (data k) /\ (v + Z.to_nat l <= length (data k))%nat) by (by destruct Hf).
  destruct Hb as [Hb Hv].
  assert (Hn1 : (1 <= length bs)%nat) by (destruct bs; simpl in *; [done|lia]).
  unfold write_element. rewrite (found_GetExtension k id v l Hf). cbn [rbind].
  rewrite wr_bytes_ok by lia. cbn [rbind]. set (d1 := splice v bs (data k)).
  assert (Hl1 : length d1 = length (data k)) by (unfold d1; apply length_splice; lia).
  assert (Hsame1 : forall i, (i < v \/ v + Z.to_nat l <= i)%nat -> d1 !! i = data k !! i).
  { intros i Hi. unfold d1. rewrite lookup_splice by lia. by rewrite decide_False by lia. }
  assert (Hf1 : found (with_data k d1) id v l)
    by (apply found_ext; auto; unfold d1; auto with buf).
  destruct (UpdateExtensionLength_found _ _ _ _ (Z.of_nat (length bs)) Hf1 ltac:(lia))
    as (d & Hu & Hbd & Hld & Hfd & Hd). cbn [with_data data] in *.
  rewrite Hu. eexists. split; [reflexivity|]. split; cbn [with_data data].
  - transitivity (slice v (length bs) d1); [apply slice_ext; intros; apply Hd; lia|].
    unfold d1. by rewrite slice_splice_eq by lia.
  - exact Hfd.
  - intros i Hi. rewrite Hd by lia. apply Hsame1. lia.
  - exists d. split_and!; [done|done|lia].
Qed.

Lemma to_string_u8 m :
  0 <= m < 256 -> bytes (to_string m) /\ (1 <= length (to_string m) <= 3)%nat /\
  (let! a := atoi (to_string m) in Ok (u8 a)) = Ok m.
Proof.
  intros Hm.
  assert (Hall : forallb (fun m => forallb (fun x => (0 <=? x) && (x <? 256)) (to_string m) &&
    (1 <=? length (to_string m))%nat && (length (to_string m) <=? 3)%nat &&
    match (let! a := atoi (to_string m) in Ok (u8 a)) with Ok a => a =? m | _ => false end)
    (seqZ 0 256) = true) by (vm_compute; reflexivity).
  rewrite forallb_forall in Hall.
  specialize (Hall m ltac:(apply list_elem_of_In, elem_of_seqZ; lia)).
  apply andb_prop in Hall as [Hall H4]. apply andb_prop in Hall as [Hall H3].
  apply andb_prop in Hall as [H1 H2]. apply Nat.leb_le in H2, H3.
  split_and!; [by apply bytes_by_eval|lia|lia|].
  destruct (let! a := _ in _); try discriminate. by apply Z.eqb_eq in H4 as ->.
Qed.

Lemma UpdateWideSeq_eq k s : UpdateWideSeq k s = write_element k (tcc_extension_id_ k) (be_bytes 2 s).
Proof.
  unfold UpdateWideSeq, write_element. destruct (GetExtension _ _) as [[[v l]|]| |]; done.
Qed.
Lemma UpdateAbsTime_eq k s : UpdateAbsTime k s = write_element k (abs_time_extension_id_ k) (be_bytes 3 s).
Proof.
  unfold UpdateAbsTime, write_element. destruct (GetExtension _ _) as [[[v l]|]| |]; try done.
Qed.
Lemma UpdateMid_eq k m :
  0 <= m < 256 -> UpdateMid k m = write_element k (mid_extension_id_ k) (to_string m).
Proof.
  intros Hm. unfold UpdateMid, write_element.
  destruct (to_string_u8 m Hm) as (_ & Hl & _).
  destruct (GetExtension _ _) as [[[v l]|]| |]; try done. cbn [rbind]. by rewrite u8_small by lia.
Qed.

(** Reading an element that has just been written. *)
Lemma element_read k k' id v l bs :
  element_written k k' id v l bs ->
  GetExtension k' id = Ok (Some (v, Z.of_nat (length bs))) /\ rd_bytes (data k') v (length bs) = Ok bs /\
  mid_extension_id_ k' = mid_extension_id_ k /\ abs_time_extension_id_ k' = abs_time_extension_id_ k /\
  tcc_extension_id_ k' = tcc_extension_id_ k.
Proof.
  intros [Hval Hf _ (d & -> & Hb & Hl)].
  split_and!; [by apply found_GetExtension| |done..].
  assert (v + length bs <= length (data (with_data k d)))%nat by (destruct Hf; lia).
  by rewrite rd_bytes_ok, Hval by done.
Qed.

(** on a well-formed packet each extension update is read back by its reader, and
    touches only the bytes of its element: the value range, and the length field in
    front of it. *)
Theorem extension_update_read (k : t) (v : nat) (l : Z) :
  wf k ->
  (GetExtension k (tcc_extension_id_ k) = Ok (Some (v, l)) -> 2 <= l ->
   forall s, 0 <= s < 65536 -> exists k', UpdateWideSeq k s = Ok (k', true) /\
     ReadWideSeq k' = Ok (Some s) /\ element_written k k' (tcc_extension_id_ k) v l (be_bytes 2 s)) /\
  (GetExtension k (abs_time_extension_id_ k) = Ok (Some (v, l)) -> 3 <= l ->
   forall s, 0 <= s < 16777216 -> exists k', UpdateAbsTime k s = Ok (k', true) /\
     ReadAbsTime k' = Ok (Some s) /\ element_written k k' (abs_time_extension_id_ k) v l (be_bytes 3 s)) /\
  (GetExtension k (mid_extension_id_ k) = Ok (Some (v, l)) ->
   forall m, 0 <= m < 256 -> Z.of_nat (length (to_string m)) <= l ->
   exists k', UpdateMid k m = Ok (k', true) /\
     ReadMid k' = Ok (Some m) /\ element_written k k' (mid_extension_id_ k) v l (to_string m)).
Proof.
  intros Hwf. split_and!.
  - intros Hg Hl s Hs. rewrite UpdateWideSeq_eq.
    destruct (write_element_spec _ _ _ _ (be_bytes 2 s) (GetExtension_found _ _ _ _ Hwf Hg))
      as (k' & Hw & He); [auto with buf|done|by rewrite length_be_bytes|].
    exists k'. split_and!; [done| |done].
    destruct (element_read _ _ _ _ _ _ He) as (Hg' & Hr & _ & _ & Hid).
    unfold ReadWideSeq, Read2Bytes. rewrite Hid, Hg'. rewrite length_be_bytes in Hr. cbn [rbind].
    rewrite Hr. cbn [rbind]. change (le_val (reverse ?x)) with (be_val x).
    rewrite be_val_be_bytes. by rewrite Z.mod_small by (cbn; lia).
  - intros Hg Hl s Hs. rewrite UpdateAbsTime_eq.
    destruct (write_element_spec _ _ _ _ (be_bytes 3 s) (GetExtension_found _ _ _ _ Hwf Hg))
      as (k' & Hw & He); [auto with buf|done|by rewrite length_be_bytes|].
    exists k'. split_and!; [done| |done].
    destruct (element_read _ _ _ _ _ _ He) as (Hg' & Hr & _ & Hid & _).
    unfold ReadAbsTime, Read3Bytes. rewrite Hid, Hg'. rewrite length_be_bytes in Hr. cbn [rbind].
    rewrite Hr. cbn [rbind]. change (le_val (reverse ?x)) with (be_val x).
    rewrite be_val_be_bytes. by rewrite Z.mod_small by (cbn; lia).
  - intros Hg m Hm Hl. rewrite UpdateMid_eq by done.
    destruct (to_string_u8 m Hm) as (Hb & Hlen & Hat).
    destruct (write_element_spec _ _ _ _ (to_string m) (GetExtension_found _ _ _ _ Hwf Hg))
      as (k' & Hw & He); [done|by intros E; rewrite E in Hlen; simpl in Hlen; lia|done|].
    exists k'. split_and!; [done| |done].
    destruct (element_read _ _ _ _ _ _ He) as (Hg' & Hr & Hid & _).
    unfold ReadMid. rewrite Hid, Hg'. cbn [rbind]. rewrite Nat2Z.id, Hr. cbn [rbind].
    destruct (atoi (to_string m)); try discriminate. cbn [rbind] in *. congruence.
Qed.

(** ** A sample packet *)

(** One-byte extensions 1 (mid "0", two bytes), 2 (abs-send-time) and 3 (transport
    sequence number); payload 1 2 3; the datagram sits in a larger buffer. *)
Definition sample_bytes : buf :=
  [0x90; 96; 0; 10; 0; 0; 0; 1; 0; 0; 0; 7;
   0xBE; 0xDE; 0; 3; 0x11; 48; 0; 0x22; 0; 0; 5; 0x31; 0; 9; 0; 0; 1; 2; 3] ++ replicate 20 0.
Definition sample : t := Eval vm_compute in
  match Parse 5 sample_bytes 31 with
  | Ok k => with_ids k 1 2 3
  | _ => mk [] None 0 0 0 0 0 false 0 0 0 [] []
  end.
Lemma sample_eq : Ok sample = rmap (fun k => with_ids k 1 2 3) (Parse 5 sample_bytes 31).
Proof. vm_compute. reflexivity. Qed.

Lemma sample_wf : wf sample.
Proof.
  assert (H : post wf (Parse 5 sample_bytes 31)) by (apply Parse_ok; [bytes_done|cbn; lia]).
  pose proof sample_eq as Heq.
  destruct (Parse 5 sample_bytes 31) as [k| |]; try discriminate Heq. apply Ok_inj in Heq. rewrite Heq.
  cbn [post] in H. destruct H. by split.
Qed.

(** The same datagram under another sequence number. *)
Definition numbered (s : Z) : t :=
  match Parse 5 (splice 2 (be_bytes 2 s) sample_bytes) 31 with Ok k => k | _ => sample end.
Lemma numbered_wf s : wf (numbered s).
Proof.
  assert (H : post wf (Parse 5 (splice 2 (be_bytes 2 s) sample_bytes) 31)).
  { apply Parse_ok; [|rewrite length_splice; [cbn; lia|rewrite length_be_bytes; cbn; lia]].
    apply bytes_splice; [bytes_done|apply bytes_be_bytes]. }
  unfold numbered. destruct (Parse 5 _ 31); [done|exact sample_wf|done].
Qed.


Lemma extension_update_read_witness :
  exists k', UpdateWideSeq sample 513 = Ok (k', true) /\ ReadWideSeq k' = Ok (Some 513) /\
    element_written sample k' (tcc_extension_id_ sample) 24 2 (be_bytes 2 513).
Proof.
  apply (proj1 (extension_update_read sample 24 2 sample_wf)); [vm_compute; reflexivity|lia|lia].
Defined.

(** ** Parsing depends only on the datagram *)

(** Buffers that agree on the cells from [lo] to [n]. *)
Definition same_on (lo n : nat) (d d' : buf) : Prop := forall i, (lo <= i < n)%nat -> d !! i = d' !! i.
Definition same_prefix (n : nat) (d d' : buf) : Prop := forall i, (i < n)%nat -> d !! i = d' !! i.
Lemma same_prefix_on n d d' : same_prefix n d d' -> same_on 0 n d d'.
Proof. intros H i Hi. apply H. lia. Qed.

Section Same.
Context (lo n : nat) (d d' : buf) (H : same_on lo n d d').

Lemma rd8_same p : (lo <= p < n)%nat -> rd8 d p = rd8 d' p.
Proof. intros ?. unfold rd8. by rewrite H. Qed.
Lemma get_field_same p b w : (lo <= p < n)%nat -> get_field d p b w = get_field d' p b w.
Proof. intros ?. unfold get_field. by rewrite rd8_same. Qed.
Lemma rd_bytes_same p m : (lo <= p /\ p + m <= n)%nat -> rd_bytes d p m = rd_bytes d' p m.
Proof.
  revert p; induction m as [|m IH]; intros p ?; [done|]. simpl.
  rewrite rd8_same by lia. by rewrite IH by lia.
Qed.
Lemma load16_same p : (lo <= p /\ p + 2 <= n)%nat -> load16 d p = load16 d' p.
Proof. intros ?. unfold load16. by rewrite rd_bytes_same. Qed.

Lemma skip_zeros_same p m : (lo <= p /\ p + m <= n)%nat -> skip_zeros d p m = skip_zeros d' p m.
Proof.
  revert p; induction m as [|m IH]; intros p Hle; simpl; [done|].
  rewrite rd8_same by lia. by rewrite IH by lia.
Qed.
Lemma skip_zeros_mono (b : buf) p m r : skip_zeros b p m = Ok r -> (p <= r)%nat.
Proof.
  revert p; induction m as [|m IH]; intros p; simpl; [by intros [= <-]|].
  destruct (rd8 b p) as [v| |]; cbn [rbind]; try done. destruct (_ =? _); [intros ?%IH; lia|by intros [= <-]].
Qed.

Lemma parse_onebyte_same fuel p hi m :
  (lo <= p)%nat -> (hi <= n)%nat -> parse_onebyte fuel d p hi m = parse_onebyte fuel d' p hi m.
Proof.
  intros Hp Hhi. revert p m Hp; induction fuel as [|fuel IH]; intros p m Hp; simpl;
    destruct (Nat.leb_spec hi p); try done.
  rewrite rd8_same by lia. apply rbind_ext. intros b _.
  destruct (_ =? 0x0f); [done|]. destruct (negb _).
  - destruct (Nat.ltb_spec hi (p + 1 + (Z.to_nat (Z.land b 0x0F) + 1))); [done|].
    rewrite skip_zeros_same by lia. apply rbind_ext. intros q Hq%skip_zeros_mono. apply IH. lia.
  - rewrite skip_zeros_same by lia. apply rbind_ext. intros q Hq%skip_zeros_mono. apply IH. lia.
Qed.
Lemma parse_twobytes_same fuel p hi m :
  (lo <= p)%nat -> (hi <= n)%nat -> parse_twobytes fuel d p hi m = parse_twobytes fuel d' p hi m.
Proof.
  intros Hp Hhi. revert p m Hp; induction fuel as [|fuel IH]; intros p m Hp; simpl;
    destruct (Nat.leb_spec hi (p + 1)); try done.
  rewrite !rd8_same by lia. apply rbind_ext. intros id _.
  apply rbind_ext. intros l _. destruct (negb _).
  - destruct (Nat.ltb_spec hi (p + 2 + Z.to_nat l)); [done|].
    rewrite skip_zeros_same by lia. apply rbind_ext. intros q Hq%skip_zeros_mono. apply IH. lia.
  - rewrite skip_zeros_same by lia. apply rbind_ext. intros q Hq%skip_zeros_mono. apply IH. lia.
Qed.

Lemma GetExtLength_same e : (lo <= e /\ e + 4 <= n)%nat -> GetExtLength d (Some e) = GetExtLength d' (Some e).
Proof. intros. unfold GetExtLength. by rewrite load16_same by lia. Qed.
Lemma GetExtId_same e : (lo <= e /\ e + 4 <= n)%nat -> GetExtId d (Some e) = GetExtId d' (Some e).
Proof. intros. unfold GetExtId. by rewrite load16_same by lia. Qed.
End Same.

(** The packet [Parse] answers, on another buffer and at another time. *)
Definition at_buffer (now : Z) (d : buf) (k : t) : t :=
  mk d (ext k) (payload k) (payload_len k) (pad_len k) (data_len k) now (need_delete k)
     (mid_extension_id_ k) (abs_time_extension_id_ k) (tcc_extension_id_ k)
     (onebyte_ext_map_ k) (twobytes_ext_map_ k).

(** The extension block decides the outcome, with the bit that announces it. *)
Lemma ParseExt_same now d' k lo n :
  bytes (data k) -> (n <= length (data k))%nat -> same_on lo n (data k) d' ->
  RtpCommonHeader.extension (data k) = RtpCommonHeader.extension d' ->
  (forall e, ext k = Some e -> (lo <= e)%nat /\ (ext_end_of (data k) e <= n)%nat) ->
  ParseExt (at_buffer now d' k) = rmap (at_buffer now d') (ParseExt k).
Proof.
  intros Hb Hn Hp Hx He. unfold ParseExt. rewrite rmap_bind. cbn [at_buffer data ext].
  rewrite <- Hx. apply rbind_ext. intros x _.
  destruct (ext k) as [e|] eqn:Ee; [|done]. destruct (He e eq_refl) as [Hlo Hee]. unfold ext_end_of in Hee.
  destruct (x =? 0); [done|]. unfold HasOnebyteExt, HasTwobytesExt.
  rewrite !rbind_assoc, !rmap_bind, <- (GetExtId_same lo n (data k) d') by (done || lia).
  apply rbind_ext. intros id _. cbn [rbind].
  assert (Hend : forall l, GetExtLength (data k) (Some e) = Ok l -> (e + 4 + Z.to_nat l <= n)%nat).
  { intros l Hl. pose proof (GetExtLength_post (data k) e Hb ltac:(lia)) as Hpost.
    rewrite Hl in Hpost. cbn [post] in Hpost. subst l. unfold u16.
    pose proof (net16_range (data k) (e + 2) Hb ltac:(lia)).
    enough ((net16 (data k) (e + 2) * 4) mod 65536 <= net16 (data k) (e + 2) * 4) by lia.
    apply Z.mod_le; lia. }
  unfold ParseOnebyteExt, ParseTwobytesExt. cbn [at_buffer data].
  rewrite <- (GetExtLength_same lo n (data k) d') by (done || lia).
  destruct (id =? 0xBEDE).
  - rewrite rmap_bind. apply rbind_ext. intros l Hl%Hend.
    rewrite rmap_bind, (parse_onebyte_same lo n (data k) d') by (done || lia). done.
  - rewrite rmap_bind. apply rbind_ext. intros id2 _. destruct (_ =? _); [|done].
    rewrite rmap_bind. apply rbind_ext. intros l Hl%Hend.
    rewrite rmap_bind, (parse_twobytes_same lo n (data k) d') by (done || lia). done.
Qed.

(** The geometry of the datagram, as [Parse] computes it before the constructor. *)
Lemma Parse_prefix now now' d d' len :
  bytes d -> (1 <= len <= length d)%nat -> same_prefix len d d' ->
  Parse now' d' len = rmap (at_buffer now' d') (Parse now d len).
Proof.
  intros Hb Hlen Hp%same_prefix_on. unfold Parse. destruct (_ <? _); [done|].
  unfold RtpCommonHeader.csrc_count, RtpCommonHeader.extension, RtpCommonHeader.padding.
  rewrite !rmap_bind, <- !(get_field_same 0 len d d') by (done || lia).
  apply rbind_ext. intros cc Hcc. rewrite rmap_bind. apply rbind_ext. intros x _.
  rewrite rmap_bind. set (p := if 0 <? cc then _ else _).
  match goal with |- rbind ?e _ = rbind ?e' _ => assert (Hext : e = e' /\
    forall ep, e' = Ok ep -> forall a, ep.1 = Some a -> (ext_end_of d a <= len)%nat) end.
  { destruct (negb (x =? 0)); [|split; [done|by intros ? [= <-] ? [=]]].
    destruct (Nat.ltb_spec len (p + 4)); [done|]. rewrite (load16_same 0 len d d') by (done || lia).
    split; [done|]. intros [a q] Hq a'. rewrite <- (load16_same 0 len d d') in Hq by (done || lia).
    pose proof (load16_post d (p + 2) Hb ltac:(lia)) as Hl16.
    destruct (load16 d (p + 2)) as [l| |]; try discriminate. cbn [post rbind] in *. subst.
    destruct (Nat.ltb_spec len (p + 4 + Z.to_nat (ntohs l * 4))); [discriminate|].
    injection Hq as <- <-. simpl. intros [= <-]. unfold ext_end_of. lia. }
  destruct Hext as [-> Hend]. apply rbind_ext. intros [e q] He. specialize (Hend _ He). simpl in Hend.
  destruct (Nat.leb_spec len q); [done|]. rewrite rmap_bind. apply rbind_ext. intros pd _.
  rewrite (rd8_same 0 len d d') by (done || lia). rewrite rmap_bind. apply rbind_ext. intros [pl pad] _.
  unfold new_RtpPacket. destruct (RTP_PACKET_MAX_SIZE <? Z.of_nat len); [reflexivity|].
  apply (ParseExt_same now' d' (mk d e q pl pad len now false 0 0 0 [] []) 0 len); simpl; try done; try lia.
  - apply (get_field_same 0 len); [done|lia].
  - intros a' Ha. split; [lia|by apply Hend].
Qed.

(** What [ParseExt] leaves alone. *)
Definition frame (k : t) : buf * nat * nat * nat * nat := (data k, payload k, payload_len k, pad_len k, data_len k).
Lemma ParseExt_frame k : match ParseExt k with Ok n => frame n = frame k | _ => True end.
Proof.
  unfold ParseExt. destruct (RtpCommonHeader.extension _); cbn [rbind]; try done.
  destruct (ext k); [|done]. destruct (_ =? _); [done|].
  destruct (HasOnebyteExt _ _) as [[]| |]; cbn [rbind]; try done.
  - unfold ParseOnebyteExt. destruct (GetExtLength _ _); cbn [rbind]; try done.
    by destruct (parse_onebyte _ _ _ _ _).
  - destruct (HasTwobytesExt _ _) as [[]| |]; cbn [rbind]; try done.
    unfold ParseTwobytesExt. destruct (GetExtLength _ _); cbn [rbind]; try done.
    by destruct (parse_twobytes _ _ _ _ _).
Qed.
Lemma Parse_frame now d len :
  match Parse now d len with
  | Ok n => data n = d /\ data_len n = len /\ (bits (cell d 0) 5 1 = 1 \/ pad_len n = 0%nat)
  | _ => True
  end.
Proof.
  destruct (Parse now d len) as [n| |] eqn:E; try done. unfold Parse in E.
  destruct (_ <? _); [discriminate|]. apply rbind_Ok_inv in E as (cc & _ & E).
  apply rbind_Ok_inv in E as (x & _ & E). apply rbind_Ok_inv in E as ([e q] & _ & E).
  destruct (_ <=? _)%nat; [discriminate|]. apply rbind_Ok_inv in E as (pd & Hpd & E).
  apply rbind_Ok_inv in E as ([pl pad] & Hpad & E). unfold new_RtpPacket in E.
  destruct (_ <? _); [discriminate|].
  match type of E with ParseExt ?k = _ => pose proof (ParseExt_frame k) as H end.
  rewrite E in H. unfold frame in H. cbn in H. injection H as Hd Hp Hpl Hpn Hdl.
  split_and!; [done|done|]. rewrite Hpn. unfold RtpCommonHeader.padding, get_field in Hpd.
  apply rbind_Ok_inv in Hpd as (b & Hb & [= <-]).
  assert (Hcell : cell d 0 = b).
  { unfold rd8 in Hb. destruct (d !! 0%nat) eqn:Ed; [|done]. injection Hb as <-.
    unfold cell. by rewrite list_lookup_total_alt, Ed. }
  rewrite Hcell. destruct (Z.eqb_spec (bits b 5 1) 0) as [E0|E0]; cbn [negb] in Hpad.
  - injection Hpad as _ <-. by right.
  - left. pose proof (bits_range b 5 1 ltac:(lia)). lia.
Qed.

(** Whether the extension block can be read does not depend on the lengths. *)
Lemma ParseExt_lens k1 k2 n1 :
  data k1 = data k2 -> ext k1 = ext k2 -> ParseExt k1 = Ok n1 -> exists n2, ParseExt k2 = Ok n2.
Proof.
  unfold ParseExt, ParseOnebyteExt, ParseTwobytesExt. intros -> ->.
  destruct (RtpCommonHeader.extension _); cbn [rbind]; try done. destruct (ext k2) as [e|]; [|by eexists].
  destruct (_ =? 0); [by eexists|]. destruct (HasOnebyteExt _ _) as [[]| |]; cbn [rbind]; try done.
  - destruct (GetExtLength _ _); cbn [rbind]; try done. destruct (parse_onebyte _ _ _ _ _); cbn [rbind]; [by eexists|done..].
  - destruct (HasTwobytesExt _ _) as [[]| |]; cbn [rbind]; try done.
    destruct (GetExtLength _ _); cbn [rbind]; try done. destruct (parse_twobytes _ _ _ _ _); cbn [rbind]; [by eexists|done..].
Qed.

Lemma ParseExt_ext k n : ParseExt k = Ok n -> ext n = ext k.
Proof.
  unfold ParseExt, ParseOnebyteExt, ParseTwobytesExt. destruct (RtpCommonHeader.extension _); cbn [rbind]; try done.
  destruct (ext k) as [e|] eqn:Ee; [|by intros [= <-]].
  destruct (_ =? 0); [by intros [= <-]|]. destruct (HasOnebyteExt _ _) as [[]| |]; cbn [rbind]; try done.
  - destruct (GetExtLength _ _); cbn [rbind]; try done. destruct (parse_onebyte _ _ _ _ _); cbn [rbind]; [by intros [= <-]|done..].
  - destruct (HasTwobytesExt _ _) as [[]| |]; cbn [rbind]; try done.
    destruct (GetExtLength _ _); cbn [rbind]; try done. destruct (parse_twobytes _ _ _ _ _); cbn [rbind]; [by intros [= <-]|done..].
Qed.

(** Another datagram with the header and the extension block of one that was parsed: if it
    has a payload and no padding it is parsed too, to what it looks like. *)
Lemma Parse_same_header now now' d d' len len' k :
  bytes d -> (1 <= len <= length d)%nat -> Parse now d len = Ok k ->
  same_on 12 (payload k) d d' -> bits (cell d' 0) 0 5 = bits (cell d 0) 0 5 -> bits (cell d' 0) 5 1 = 0 ->
  (payload k < len' <= length d')%nat -> (len' <= 1500)%nat ->
  exists k', Parse now' d' len' = Ok k' /\ data k' = d' /\ payload k' = payload k /\
    payload_len k' = (len' - payload k)%nat.
Proof.
  intros Hb Hlen HP Hs Hfirst Hpad Hl' Hmax. pose proof (Parse_ok now d len Hb Hlen) as Hk. rewrite HP in Hk. cbn [post] in Hk.
  pose proof (Parse_frame now d len) as Hfr. rewrite HP in Hfr. destruct Hfr as (Hkd & Hkl & _).
  pose proof (wf_payload k Hk) as H12. pose proof (wf_len k Hk) as Hle. pose proof (wf_split k Hk) as Hsp. rewrite Hkd in Hle.
  assert (Hcc : RtpCommonHeader.csrc_count d' = RtpCommonHeader.csrc_count d).
  { unfold RtpCommonHeader.csrc_count. rewrite !get_field_cell by lia. f_equal. unfold bits in *. zlia. }
  assert (Hx : RtpCommonHeader.extension d' = RtpCommonHeader.extension d).
  { unfold RtpCommonHeader.extension. rewrite !get_field_cell by lia. f_equal. unfold bits in *. zlia. }
  unfold Parse in HP |- *. destruct (RTP_PACKET_MAX_SIZE <? _); [discriminate|].
  unfold RTP_PACKET_MAX_SIZE. rewrite (proj2 (Z.ltb_ge 1500 _)) by lia. rewrite Hcc, Hx.
  apply rbind_Ok_inv in HP as (cc & Ecc & HP). rewrite Ecc. cbn [rbind].
  apply rbind_Ok_inv in HP as (x & Ex & HP). rewrite Ex. cbn [rbind].
  set (p := if 0 <? cc then _ else _) in *. assert (Hp12 : (12 <= p)%nat) by (unfold p; destruct (0 <? cc); unfold RtpCommonHeader.size; lia).
  clearbody p. apply rbind_Ok_inv in HP as ([e q] & He & HP).
  destruct (Nat.leb_spec len q); [discriminate|].
  apply rbind_Ok_inv in HP as (pd & _ & HP). apply rbind_Ok_inv in HP as ([pl pad] & _ & HP).
  unfold new_RtpPacket in HP. destruct (RTP_PACKET_MAX_SIZE <? _); [discriminate|].
  match type of HP with ParseExt ?k0 = _ => pose proof (ParseExt_frame k0) as Hf end. rewrite HP in Hf.
  injection Hf as _ Hq _ _ _. rewrite Hq in *.
  match goal with |- context [rbind ?m _] => assert (m = Ok (e, q)) as -> end.
  { destruct (negb (x =? 0)); [|done]. destruct (Nat.ltb_spec len (p + 4)); [discriminate|].
    apply rbind_Ok_inv in He as (l & Hl & He). destruct (Nat.ltb_spec len (p + 4 + Z.to_nat (ntohs l * 4))); [discriminate|].
    injection He as <- <-. destruct (Nat.ltb_spec len' (p + 4)); [lia|].
    rewrite <- (load16_same 12 _ d d' Hs) by lia. rewrite Hl. cbn [rbind].
    destruct (Nat.ltb_spec len' (p + 4 + Z.to_nat (ntohs l * 4))); [lia|done]. }
  cbn [rbind]. destruct (Nat.leb_spec len' q); [lia|].
  unfold RtpCommonHeader.padding. rewrite get_field_cell by lia. rewrite Hpad. cbn [rbind Z.eqb negb].
  unfold new_RtpPacket, RTP_PACKET_MAX_SIZE. rewrite (proj2 (Z.ltb_ge 1500 _)) by lia.
  destruct (ParseExt_lens (mk d e q pl pad len now false 0 0 0 [] []) (mk d e q (len' - q) 0 len' now false 0 0 0 [] []) k
    eq_refl eq_refl HP) as [n Hn].
  exists (at_buffer now' d' n). split.
  - change (mk d' e q (len' - q) 0 len' now' false 0 0 0 [] []) with
      (at_buffer now' d' (mk d e q (len' - q) 0 len' now false 0 0 0 [] [])).
    rewrite (ParseExt_same now' d' _ 12 q), Hn; cbn; [reflexivity|exact Hb|lia|exact Hs|by rewrite Hx|].
    intros a ->. assert (ext k = Some a) as Hek by (by rewrite (ParseExt_ext _ _ HP)).
    pose proof (wf_ext k Hk a Hek) as Hw. rewrite Hkd, Hq in Hw. exact Hw.
  - pose proof (ParseExt_frame (mk d e q (len' - q) 0 len' now false 0 0 0 [] [])) as Hf2. rewrite Hn in Hf2.
    injection Hf2 as _ Hq2 Hl2 _ _. split; [done|]. split; [exact Hq2|exact Hl2].
Qed.

Lemma same_prefix_splice (d b : buf) n :
  (n <= length d)%nat -> (n <= length b)%nat -> same_prefix n d (splice 0 (slice 0 n d) b).
Proof.
  intros Hd Hb i Hi. rewrite lookup_splice by (rewrite length_slice; lia).
  rewrite length_slice by lia. rewrite decide_True by lia.
  rewrite lookup_slice, decide_True by lia. f_equal. lia.
Qed.

(** The clone, in full: the parse of the same datagram in the target buffer. *)
Lemma Clone_ok (now now0 : Z) (fresh : buf) (k k0 : t) (buffer : option buf) :
  let target := match buffer with Some b => b | None => fresh end in
  wf k -> bytes target -> (1 <= data_len k < 1500)%nat -> (data_len k <= length target)%nat ->
  Parse now0 (data k) (data_len k) = Ok k0 ->
  exists d', same_prefix (data_len k) (data k) d' /\ length d' = length target /\
    let n := mk d' (ext k0) (payload k0) (payload_len k0) (pad_len k0) (data_len k) (local_ms k)
                (match buffer with Some _ => false | None => true end)
                (mid_extension_id_ k) (abs_time_extension_id_ k) (tcc_extension_id_ k)
                (onebyte_ext_map_ k0) (twobytes_ext_map_ k0) in
    Clone now fresh k buffer = Ok n /\ wf n.
Proof.
  intros target Hwf Hbt Hlen Htl HP. unfold Clone, RTP_PACKET_MAX_SIZE. fold target.
  pose proof (wf_len k Hwf) as Hl. pose proof (wf_bytes k Hwf) as Hb.
  destruct (Z.leb_spec 1500 (Z.of_nat (data_len k))); [lia|].
  rewrite rd_bytes_ok by lia. cbn [rbind].
  rewrite wr_bytes_ok by (rewrite length_slice; lia). cbn [rbind].
  set (d' := splice _ _ _).
  assert (Hsp : same_prefix (data_len k) (data k) d') by (apply same_prefix_splice; lia).
  assert (Hl' : length d' = length target)
    by (apply length_splice; rewrite length_slice by lia; lia).
  pose proof (Parse_ok now d' (data_len k) ltac:(apply bytes_splice; auto with buf) ltac:(lia)) as Hok.
  rewrite (Parse_prefix now0 now (data k) d' (data_len k)) in Hok |- * by (done || lia).
  pose proof (Parse_frame now0 (data k) (data_len k)) as Hf. rewrite HP in Hok, Hf |- *.
  destruct Hf as (_ & Hdl & _). cbn [rmap rbind post] in Hok |- *.
  exists d'. split_and!; [done..| |].
  - by rewrite <- Hdl.
  - rewrite <- Hdl. by destruct Hok; split.
Qed.

(** cloning a packet whose datagram is still a valid one, shorter than 1500 bytes,
    into a big enough buffer gives a packet with the same bytes and the same extension
    ids, parsed like the original, that owns the buffer only if it was allocated. *)
Theorem Clone_spec (now now0 : Z) (fresh : buf) (k k0 : t) (buffer : option buf) :
  let target := match buffer with Some b => b | None => fresh end in
  wf k -> bytes target -> (1 <= data_len k < 1500)%nat -> (data_len k <= length target)%nat ->
  Parse now0 (data k) (data_len k) = Ok k0 ->
  exists n, Clone now fresh k buffer = Ok n /\ wf n /\ GetData n = GetData k /\
    (ext n, payload n, payload_len n, pad_len n) = (ext k0, payload k0, payload_len k0, pad_len k0) /\
    (onebyte_ext_map_ n, twobytes_ext_map_ n) = (onebyte_ext_map_ k0, twobytes_ext_map_ k0) /\
    (mid_extension_id_ n, abs_time_extension_id_ n, tcc_extension_id_ n) =
      (mid_extension_id_ k, abs_time_extension_id_ k, tcc_extension_id_ k) /\
    local_ms n = local_ms k /\ need_delete n = bool_decide (buffer = None).
Proof.
  intros target Hwf Hbt Hlen Htl HP.
  destruct (Clone_ok now now0 fresh k k0 buffer Hwf Hbt Hlen Htl HP) as (d' & Hsp & Hl' & HC & Hn).
  eexists. split; [exact HC|]. split; [done|]. split_and!; try done; [|by destruct buffer].
  unfold GetData. cbn [data data_len]. apply list_eq. intros i. destruct (decide (i < data_len k)%nat).
  - rewrite !lookup_take_lt by done. symmetry. by apply Hsp.
  - by rewrite !lookup_take_ge by lia.
Qed.

(** The view of a packet is read from its datagram. *)
Lemma view_prefix n k d' (k' : t) :
  same_prefix n (data k) d' -> data k' = d' -> payload k' = payload k -> payload_len k' = payload_len k ->
  (12 <= payload k)%nat -> (payload k + payload_len k <= n)%nat -> view_of k' = view_of k.
Proof.
  intros Hsp Hd Hp Hpl H12 Hn. unfold view_of, GetPayload, net16, net32. rewrite Hd, Hp, Hpl.
  rewrite !(cell_ext _ d' (data k)) by (symmetry; apply Hsp; lia).
  by rewrite !(slice_ext _ _ d' (data k)) by (intros; symmetry; apply Hsp; lia).
Qed.

(** A packet with the header and the extension block of one that was parsed: without padding,
    its datagram is read back as what it is. *)
Definition parsable (p : t) : Prop :=
  exists now d len k, bytes d /\ (1 <= len <= length d)%nat /\ Parse now d len = Ok k /\ payload p = payload k /\
    v_first (view_of p) = v_first (view_of k) /\ v_ext (view_of p) = v_ext (view_of k).

Lemma parsable_same p p' :
  parsable p -> payload p' = payload p -> v_first (view_of p') = v_first (view_of p) -> v_ext (view_of p') = v_ext (view_of p) ->
  parsable p'.
Proof. intros (now & d & len & k & H) E1 E2 E3. exists now, d, len, k. by rewrite E1, E2, E3. Qed.

Lemma parsable_reads now m b :
  parsable m -> rtx_ok m -> v_padding (view_of m) = 0 -> (0 < payload_len m)%nat -> (payload m + payload_len m <= 1500)%nat ->
  bytes b -> take (payload m + payload_len m) b = take (payload m + payload_len m) (data m) ->
  exists q, Parse now b (payload m + payload_len m) = Ok q /\ wf q /\ view_of q = view_of m.
Proof.
  intros (now0 & d & len & k & Hb & Hlen & HP & Hpay & Hfirst & Hext) [Hmb H12 Hroom] Hpad Hpl Hmax Hbb Ht.
  set (n := (payload m + payload_len m)%nat) in *.
  assert (Hn : (n <= length b)%nat) by (apply (f_equal length) in Ht; rewrite !length_take in Ht; lia).
  assert (Hsm : same_prefix n (data m) b).
  { intros i Hi. rewrite <- (lookup_take_lt b n), Ht by done. by rewrite lookup_take_lt. }
  pose proof (Parse_frame now0 d len) as Hf. rewrite HP in Hf. destruct Hf as (Hkd & _ & _).
  pose proof (Parse_ok now0 d len Hb Hlen) as Hk. rewrite HP in Hk. cbn [post] in Hk.
  assert (Hc0 : cell b 0 = cell (data m) 0) by (apply cell_ext; symmetry; apply Hsm; lia).
  assert (Hs : same_on 12 (payload k) d b).
  { intros i Hi. rewrite <- Hsm by lia. unfold view_of in Hext. cbn [v_ext] in Hext. rewrite Hkd, <- Hpay in Hext.
    apply (f_equal (fun l => l !! (i - 12)%nat)) in Hext. rewrite !lookup_slice, !decide_True in Hext by lia.
    replace (12 + (i - 12))%nat with i in Hext by lia. done. }
  injection Hfirst as Hf1 _. rewrite Hkd in Hf1.
  destruct (Parse_same_header now0 now d b len n k Hb Hlen HP Hs) as (q & HQ & Hqd & Hqp & Hql);
    [by rewrite Hc0|by rewrite Hc0|lia|lia|].
  exists q. split; [done|]. split.
  - pose proof (Parse_ok now b n Hbb ltac:(lia)) as Hq. by rewrite HQ in Hq.
  - apply (view_prefix n m b); (done || lia).
Qed.

Lemma Clone_spec_witness :
  exists n, Clone 9 [] sample (Some (replicate 40 0)) = Ok n /\ GetData n = GetData sample /\
    tcc_extension_id_ n = 3.
Proof.
  destruct (Parse 5 (data sample) (data_len sample)) as [k0| |] eqn:E.
  - destruct (Clone_spec 9 5 [] sample k0 (Some (replicate 40 0))) as (n & H1 & _ & H2 & _ & _ & H3 & _);
      [apply sample_wf|bytes_done|cbn; lia|cbn; lia|exact E|].
    exists n. split_and!; [exact H1|exact H2|]. injection H3 as _ _ H3. rewrite H3. reflexivity.
  - exfalso. apply (f_equal is_ok) in E. vm_compute in E. discriminate.
  - exfalso. apply (f_equal is_ok) in E. vm_compute in E. discriminate.
Defined.

(** ** Renaming an extension element *)

(** What both renaming updates do to the element of id [id]. *)
Definition rename (k : t) (id new_id : Z) (set_id : t -> t) : res (t * bool) :=
  let! one := HasOnebyteExt (data k) (ext k) in
  if one then
    match StdMap.find id (onebyte_ext_map_ k) with
    | None => Ok (k, false)
    | Some o =>
        let! d := set_onebyte_id (data k) o new_id in
        Ok (with_onebyte (with_data (set_id k) d)
              (StdMap.set new_id o (StdMap.erase id (onebyte_ext_map_ k))), true)
    end
  else
  let! two := HasTwobytesExt (data k) (ext k) in
  if two then
    match StdMap.find id (twobytes_ext_map_ k) with
    | None => Ok (k, false)
    | Some o =>
        let! len := twobytes_len (data k) o in
        if len =? 0 then Ok (k, false) else
        let! d := set_twobytes_id (data k) o new_id in
        Ok (with_twobytes (with_data (set_id k) d)
              (StdMap.set new_id o (StdMap.erase id (twobytes_ext_map_ k))), true)
    end
  else Ok (k, false).

Lemma set_id_bits b n :
  byte b -> 0 <= n < 16 ->
  bits (set_bits b 4 4 n) 0 4 = bits b 0 4 /\ bits (set_bits b 4 4 n) 4 4 = n /\ byte (set_bits b 4 4 n).
Proof.
  intros H ?. split_and!; [..|apply set_bits_byte; (lia || done)];
    unfold byte, bits, set_bits, bits in *; zlia.
Qed.

(** [k'] is [k] with the element of id [id] under the id [new_id]. *)
Record renamed (k k' : t) (id new_id : Z) (v : nat) (l : Z) : Prop := {
  rn_found : GetExtension k' new_id = Ok (Some (v, l));
  rn_gone : new_id <> id -> GetExtension k' id = Ok None;
  rn_value : slice v (Z.to_nat l) (data k') = slice v (Z.to_nat l) (data k);
  rn_frame : exists p, (p < v <= p + 2)%nat /\ forall i, i <> p -> data k' !! i = data k !! i;
  rn_geometry : (ext k', payload k', payload_len k', pad_len k', data_len k', length (data k')) =
                (ext k, payload k, payload_len k, pad_len k, data_len k, length (data k))
}.

Lemma found_absent k id e :
  ext k = Some e -> bytes (data k) -> (e + 4 <= length (data k))%nat ->
  (net16 (data k) e = 0xBEDE -> StdMap.find id (onebyte_ext_map_ k) = None) ->
  (net16 (data k) e <> 0xBEDE -> StdMap.find id (twobytes_ext_map_ k) = None) ->
  GetExtension k id = Ok None.
Proof.
  intros He Hb Hl H1 H2. unfold GetExtension.
  rewrite He, HasOnebyteExt_eq, HasTwobytesExt_eq by (done || lia). cbn [rbind].
  destruct (Z.eqb_spec (net16 (data k) e) 0xBEDE) as [E|E]; [by rewrite H1|].
  destruct (_ =? _); [|done]. by rewrite H2.
Qed.

Lemma rename_spec k id new_id v l set_id :
  found k id v l -> 0 < new_id < 16 ->
  StdMap.sorted (onebyte_ext_map_ k) -> StdMap.sorted (twobytes_ext_map_ k) ->
  (exists a b c, set_id k = with_ids k a b c) ->
  exists k', rename k id new_id set_id = Ok (k', true) /\ renamed k k' id new_id v l /\
    tcc_extension_id_ k' = tcc_extension_id_ (set_id k) /\
    abs_time_extension_id_ k' = abs_time_extension_id_ (set_id k) /\
    mid_extension_id_ k' = mid_extension_id_ (set_id k).
Proof.
  intros Hf Hn Hs1 Hs2 (ia & ib & ic & Hset). unfold rename. rewrite Hset.
  assert (Enet : forall p x e, (e + 4 <= p)%nat -> net16 (<[p := x]> (data k)) e = net16 (data k) e)
    by (intros; unfold net16; by rewrite slice_insert_disj by lia).
  destruct Hf as [e o He Hb Heo Hv E Ef -> El|e o He Hb Heo Hv E E2 Ef -> El Hl0];
    rewrite He, HasOnebyteExt_eq by (done || lia); cbn [rbind].
  - rewrite E, Z.eqb_refl, Ef. unfold set_onebyte_id. rewrite set_field_cell by lia. cbn [rbind].
    destruct (set_id_bits (cell (data k) o) new_id) as (B1 & B2 & B3); [apply cell_byte; (done || lia)|lia|].
    eexists. split; [reflexivity|]. split; [|done]. split; cbn [with_onebyte with_data with_ids data ext].
    + apply found_GetExtension. apply (found_onebyte _ _ _ _ e o);
        cbn [with_onebyte with_data with_ids data ext onebyte_ext_map_];
        rewrite ?length_insert, ?cell_insert_eq, ?Enet, ?B1 by lia; auto using bytes_insert.
      apply StdMap.find_set_eq.
    + intros Hne. apply (found_absent _ _ e); cbn [with_onebyte with_data with_ids data ext onebyte_ext_map_];
        rewrite ?length_insert, ?Enet by lia;
        [done|by apply bytes_insert|lia| |intros Hc; by destruct (Hc E)].
      intros _. rewrite StdMap.find_set_ne by done. by apply StdMap.find_erase_eq.
    + by rewrite slice_insert_disj by lia.
    + exists o. split; [lia|]. intros. by rewrite list_lookup_insert_ne by done.
    + cbn. by rewrite length_insert.
  - rewrite (proj2 (Z.eqb_neq _ _) E), HasTwobytesExt_eq by (done || lia). cbn [rbind].
    rewrite E2, Z.eqb_refl, Ef. unfold twobytes_len, set_twobytes_id.
    rewrite rd8_cell by lia. cbn [rbind]. rewrite <- El, (proj2 (Z.eqb_neq _ _) Hl0).
    rewrite u8_small, wr8_ok by lia. cbn [rbind].
    assert (Hbn : bytes (<[o := new_id]> (data k))) by (apply bytes_insert; [done|unfold byte; lia]).
    eexists. split; [reflexivity|]. split; [|done]. split; cbn [with_twobytes with_data with_ids data ext].
    + apply found_GetExtension. apply (found_twobytes _ _ _ _ e o);
        cbn [with_twobytes with_data with_ids data ext twobytes_ext_map_];
        rewrite ?length_insert, ?cell_insert_ne, ?Enet by lia; auto.
      apply StdMap.find_set_eq.
    + intros Hne. apply (found_absent _ _ e); cbn [with_twobytes with_data with_ids data ext twobytes_ext_map_];
        rewrite ?length_insert, ?Enet by lia; [done|done|lia|intros Hc; by destruct (E Hc)|].
      intros _. rewrite StdMap.find_set_ne by done. by apply StdMap.find_erase_eq.
    + by rewrite slice_insert_disj by lia.
    + exists o. split; [lia|]. intros. by rewrite list_lookup_insert_ne by done.
    + cbn. by rewrite length_insert.
Qed.

(** giving the transport-sequence (or abs-send-time) extension a new id, as the
    relay does for each subscriber, renames the element in the datagram and in the
    packet's map: it is found under the new id with its value untouched, no longer
    under the old one, and only its id changed in the datagram. *)
Theorem extension_rename (k : t) (v : nat) (l : Z) (new_id : Z) :
  wf k -> 0 < new_id < 16 ->
  (GetExtension k (tcc_extension_id_ k) = Ok (Some (v, l)) ->
   exists k', UpdateWideSeqExternId k new_id = Ok (k', true) /\ tcc_extension_id_ k' = new_id /\
     renamed k k' (tcc_extension_id_ k) new_id v l) /\
  (GetExtension k (abs_time_extension_id_ k) = Ok (Some (v, l)) ->
   exists k', UpdateAbsTimeExternId k new_id = Ok (k', true) /\ abs_time_extension_id_ k' = new_id /\
     renamed k k' (abs_time_extension_id_ k) new_id v l).
Proof.
  intros Hwf Hn. destruct (wf_sorted k Hwf) as [Hs1 Hs2].
  split; intros Hf%GetExtension_found; try done.
  - destruct (rename_spec k _ new_id v l (fun k => SetTccExtensionId k new_id) Hf Hn Hs1 Hs2)
      as (k' & Hr & Hren & Ht & _); [by do 3 eexists|].
    exists k'. done.
  - destruct (rename_spec k _ new_id v l (fun k => SetAbsTimeExtensionId k new_id) Hf Hn Hs1 Hs2)
      as (k' & Hr & Hren & _ & Ht & _); [by do 3 eexists|].
    exists k'. done.
Qed.

Lemma extension_rename_witness :
  exists k', UpdateWideSeqExternId sample 7 = Ok (k', true) /\ tcc_extension_id_ k' = 7 /\
    renamed sample k' 3 7 24 2.
Proof.
  apply (proj1 (extension_rename sample 24 2 7 sample_wf ltac:(lia))). vm_compute. reflexivity.
Defined.

Lemma sample_rtx_ok : rtx_ok sample.
Proof. pose proof sample_wf as []. split; [done|done|lia]. Qed.

Lemma RtxMux_spec_witness :
  exists k', RtxMux sample 97 8 500 = Ok k' /\ view_of k' = rtx_view (view_of sample) 97 8 500.
Proof.
  destruct (RtxMux_spec sample 97 8 500 sample_rtx_ok) as (k' & H1 & _ & _ & _ & H2);
    [cbn; lia|lia|lia|lia|]. exists k'. split; [exact H1|exact H2].
Defined.
Lemma RtxDemux_spec_witness :
  exists k', RtxDemux sample 97 8 = Ok k' /\ view_of k' = unrtx_view (view_of sample) 97 8.
Proof.
  destruct (proj2 (RtxDemux_spec sample 97 8 sample_rtx_ok ltac:(lia) ltac:(lia)) ltac:(cbn; lia))
    as (k' & H1 & _ & _ & _ & H2). exists k'. split; [exact H1|exact H2].
Defined.
Lemma rtx_mux_demux_witness :
  exists k' k'', RtxMux sample 97 8 500 = Ok k' /\ RtxDemux k' 7 96 = Ok k'' /\
    GetPayload k'' = [1; 2; 3].
Proof.
  destruct (rtx_mux_demux sample 97 8 500 sample_rtx_ok) as (k' & k'' & H1 & H2 & _ & _ & H3);
    [cbn; lia|lia|lia|lia|]. exists k', k''. split; [exact H1|]. split; [exact H2|].
  apply (f_equal v_payload) in H3. exact H3.
Defined.

(** ** Defects *)

(** The id-changing overload of [UpdateMid] keeps the length: a mid that becomes
    shorter is read back with the old mid's last digit behind it. *)
Definition mid10_bytes : buf :=
  [0x90; 96; 0; 10; 0; 0; 0; 1; 0; 0; 0; 7; 0xBE; 0xDE; 0; 1; 0x11; 49; 48; 0; 1].
Lemma UpdateMid_id_stale_digit :
  (let! k := Parse 0 mid10_bytes 21 in
   let! (k, ok) := UpdateMid_id (SetMidExtensionId k 1) 1 3 in
   let! m := ReadMid k in Ok (ok, m)) = Ok (true, Some 30).
Proof. vm_compute. reflexivity. Qed.

(** A transport-sequence element of one byte: the update does not look at its length
    and overwrites the header of the element behind it. *)
Definition short_tcc_bytes : buf :=
  [0x90; 96; 0; 10; 0; 0; 0; 1; 0; 0; 0; 7; 0xBE; 0xDE; 0; 1; 0x30; 9; 0x10; 48; 1].
Lemma UpdateWideSeq_clobbers_next :
  (let! k := Parse 0 short_tcc_bytes 21 in
   let k := with_ids k 1 0 3 in
   let! m := ReadMid k in
   let! (k, ok) := UpdateWideSeq k 0xFFFF in
   Ok (m, ok, slice 16 4 (data k))) = Ok (Some 0, true, [0x31; 0xFF; 0xFF; 48]).
Proof. vm_compute. reflexivity. Qed.

(** [RtxMux] does not check for the two bytes it needs: on a packet that fills its
    buffer the shifted payload is stored past the end. *)
Theorem RtxMux_overflow (k : t) (pt ssrc seq : Z) :
  rtx_ok k -> (0 < payload_len k)%nat -> (length (data k) < payload k + 2 + payload_len k)%nat ->
  RtxMux k pt ssrc seq = Undef OobWrite.
Proof.
  intros [Hb Hp Hr] Hpl Hroom. unfold RtxMux.
  rewrite SetPayloadType_eq by lia. cbn [rbind].
  rewrite SetSsrc_eq by (simpl; rewrite length_insert; lia).
  cbn [rbind with_data data payload payload_len].
  assert (Hl : forall x, length (splice 8 (be_bytes 4 ssrc) (<[1%nat := x]> (data k))) = length (data k))
    by (intros; by rewrite length_splice, length_insert by buf_simp_side).
  rewrite rd_bytes_ok by (rewrite Hl; lia). cbn [rbind].
  rewrite wr_bytes_oob; [done|rewrite Hl, length_slice; rewrite ?Hl; lia|].
  intros E. apply (f_equal List.length) in E. rewrite length_slice in E by (rewrite Hl; lia).
  simpl in E. lia.
Qed.
Lemma RtxMux_overflow_witness :
  RtxMux (with_data sample (take 32 sample_bytes)) 97 8 500 = Undef OobWrite.
Proof.
  apply RtxMux_overflow; [split; [bytes_done|cbn; lia|cbn; lia]|cbn; lia|cbn; lia].
Defined.

End RtpPacket.
