(* ===== verification/RtpPacketEdits.v ===== *)
(** What the in-place edits of the media path leave of a packet: which of them keep it
    well-formed, and which only keep it a packet whose bytes can be sent and cloned. *)
From S2P Require Import Prelude ByteStream RtpPub StdMap RtpPacket.
Import ByteStream RtpPub RtpPacket.

Module RtpPacketEdits.

(** Enough to send, clone and measure the packet, without its extension maps. *)
Record sound (k : t) : Prop := {
  sd_bytes : bytes (data k);
  sd_payload : (12 <= payload k)%nat;
  sd_split : (payload k + payload_len k + pad_len k = data_len k)%nat;
  sd_len : (data_len k <= length (data k))%nat;
  sd_max : (data_len k <= 1500)%nat
}.

Lemma wf_sound k : wf k -> sound k.
Proof. intros []. by split. Qed.
Lemma sound_header k : sound k -> has_header k.
Proof. intros []. split; [done|lia]. Qed.
Lemma wf_rtx_ok k : wf k -> rtx_ok k.
Proof. intros []. split; [done|done|lia]. Qed.

Lemma wf_with_ids k a b c : wf k -> wf (with_ids k a b c).
Proof. intros []. by split. Qed.

(** The extension block ends before the payload, so a change elsewhere keeps the maps. *)
Lemma wf_with_data k d :
  wf k -> bytes d -> length d = length (data k) ->
  (forall i, (12 <= i < payload k)%nat -> d !! i = data k !! i) -> wf (with_data k d).
Proof.
  intros [Hb Hl Hm Hp Hs He Hn Hso Ho Ht] Hbd Hld Hd.
  assert (Hend : forall e, ext k = Some e -> ext_end_of d e = ext_end_of (data k) e).
  { intros e E. destruct (He e E) as [H12 Hle]. unfold ext_end_of in *.
    assert (E2 : net16 d (e + 2) = net16 (data k) (e + 2)); [|by rewrite E2].
    unfold net16. f_equal. apply slice_ext. intros. apply Hd. lia. }
  split; cbn [with_data data data_len payload payload_len pad_len ext onebyte_ext_map_ twobytes_ext_map_];
    try done; try lia; intros e E; specialize (Hend e E); rewrite Hend.
  - by apply He.
  - destruct (He e E) as [H12 Hle]. eapply Forall_impl; [by apply Ho|]. intros [id o] (b & H1 & H2 & H3 & H4 & H5).
    exists b; cbn [fst snd] in *. rewrite Hd by lia. split_and!; (done || lia).
  - destruct (He e E) as [H12 Hle]. eapply Forall_impl; [by apply Ht|]. intros [id o] (b & H1 & H2 & H3 & H4 & H5).
    exists b; cbn [fst snd] in *. rewrite !Hd by lia. split_and!; (done || lia).
Qed.

(** ** Header fields *)

Lemma SetPayloadType_wf k v :
  wf k -> exists k', SetPayloadType k v = Ok k' /\ wf k' /\
    k' = with_data k (<[1%nat := set_bits (cell (data k) 1) 0 7 v]> (data k)).
Proof.
  intros Hwf. pose proof (wf_header k Hwf) as [Hb Hl]. rewrite SetPayloadType_eq by done.
  eexists. split; [reflexivity|]. split; [|done]. apply wf_with_data; [done| |by rewrite length_insert|].
  - apply bytes_insert; [done|]. apply set_bits_byte; [lia|lia|lia|apply cell_byte; (done || lia)].
  - intros. by rewrite list_lookup_insert_ne by lia.
Qed.

Lemma SetSsrc_wf k v :
  wf k -> exists k', SetSsrc k v = Ok k' /\ wf k' /\ k' = with_data k (splice 8 (be_bytes 4 v) (data k)).
Proof.
  intros Hwf. pose proof (wf_header k Hwf) as [Hb Hl]. rewrite SetSsrc_eq by done.
  eexists. split; [reflexivity|]. split; [|done].
  apply wf_with_data; [done|auto with buf|by rewrite length_splice by buf_len|].
  intros i Hi. rewrite lookup_splice by buf_len. by rewrite decide_False by buf_len.
Qed.

(** ** RTX *)

Lemma strip_padding_wf k k' : wf k -> strip_padding k = Ok k' -> wf k' /\ local_ms k' = local_ms k.
Proof.
  intros Hwf. pose proof (wf_header k Hwf) as [Hb Hl]. unfold strip_padding. rewrite HasPadding_eq by done. cbn [rbind].
  destruct (_ =? _); [|by intros [= <-]]. rewrite SetPadding_eq by done. cbn [rbind]. intros [= <-]. split; [|done].
  assert (Hk : wf (with_data k (<[0%nat := set_bits (cell (data k) 0) 5 1 0]> (data k)))).
  { apply wf_with_data; [done| |by rewrite length_insert|].
    - apply bytes_insert; [done|]. apply set_bits_byte; [lia|lia|lia|apply cell_byte; (done || lia)].
    - intros. by rewrite list_lookup_insert_ne by lia. }
  pose proof (wf_split k Hwf). destruct Hk. split; cbn in *; try done; lia.
Qed.

(** The packet recovered from RTX is well-formed again: its header extensions are those of
    the RTX packet. *)
Lemma RtxDemux_wf k ssrc pt :
  wf k -> (2 <= payload_len k)%nat -> 0 <= pt < 128 -> 0 <= ssrc < 4294967296 ->
  exists k', RtxDemux k ssrc pt = Ok k' /\ wf k' /\ view_of k' = unrtx_view (view_of k) ssrc pt /\
    payload_len k' = (payload_len k - 2)%nat /\ local_ms k' = local_ms k.
Proof.
  intros Hwf Hpl Hpt Hss. pose proof (wf_rtx_ok k Hwf) as Hok.
  destruct (RtxDemux_ok k ssrc pt Hok Hpt Hss Hpl) as (k' & HR & _ & _ & Hl' & Hv). exists k'. split; [done|].
  cut (wf k' /\ local_ms k' = local_ms k); [by intros []|]. clear Hl' Hv.
  unfold RtxDemux in HR. destruct (Nat.ltb_spec (payload_len k) 2); [lia|].
  apply rbind_Ok_inv in HR as (osn & _ & HR).
  destruct (SetPayloadType_wf k pt Hwf) as (k1 & E1 & Hwf1 & Hk1). rewrite E1 in HR. cbn [rbind] in HR.
  pose proof (wf_header k1 Hwf1) as [Hb1 Hl1]. rewrite SetSeq_eq in HR by done. cbn [rbind] in HR.
  set (k2 := with_data k1 _) in HR.
  assert (Hwf2 : wf k2).
  { apply wf_with_data; [done|auto with buf|by rewrite length_splice by buf_len|].
    intros i Hi. rewrite lookup_splice by buf_len. by rewrite decide_False by buf_len. }
  destruct (SetSsrc_wf k2 ssrc Hwf2) as (k3 & E3 & Hwf3 & Hk3). rewrite E3 in HR. cbn [rbind] in HR.
  assert (Hgeo : payload_len k3 = payload_len k /\ local_ms k3 = local_ms k) by (subst k3 k2 k1; by cbn).
  destruct Hgeo as (Gl & Gms). clearbody k2. clear E1 E3 Hk1 Hk3 Hwf1 Hwf2 Hb1 Hl1.
  pose proof Hwf3 as [Hb3 Hl3 Hm3 Hp3 Hs3 _ _ _ _ _].
  rewrite rd_bytes_ok in HR by lia. cbn [rbind] in HR.
  rewrite wr_bytes_ok in HR by (rewrite length_slice; lia). cbn [rbind] in HR.
  apply strip_padding_wf in HR as [Hwf' Hms']; [split; [done|by rewrite Hms']|].
  assert (Hwf4 : wf (with_data k3 (splice (payload k3) (slice (payload k3 + 2) (payload_len k3 - 2) (data k3)) (data k3)))).
  { apply wf_with_data; [done|auto with buf|by rewrite length_splice by (rewrite length_slice; lia)|].
    intros i Hi. rewrite lookup_splice by (rewrite length_slice; lia). by rewrite decide_False by lia. }
  destruct Hwf4. split; cbn in *; try done; lia.
Qed.

(** ** Reading extension elements *)

Definition element_in (k : t) (o : option (nat * Z)) : Prop :=
  match o with Some (v, l) => 0 < l /\ (v + Z.to_nat l <= payload k)%nat | None => True end.

Lemma GetExtension_ok k id : wf k -> post (element_in k) (GetExtension k id).
Proof.
  intros [Hb Hl Hm Hp Hs He Hn _ Ho Ht]. unfold GetExtension.
  destruct (ext k) as [e|] eqn:Ee; [|done]. destruct (He e eq_refl) as [He1 He2].
  unfold ext_end_of in He2. rewrite HasOnebyteExt_eq, HasTwobytesExt_eq by (done || lia). cbn [rbind].
  destruct (_ =? _).
  - destruct (StdMap.find id (onebyte_ext_map_ k)) as [o|] eqn:Ef; [|done].
    destruct (StdMap.Forall_find _ _ _ _ (Ho e eq_refl) Ef) as (b & Hbo & _ & _ & _ & Hhi).
    cbn [fst snd] in *. unfold ext_end_of in Hhi. pose proof (lookup_lt_Some _ _ _ Hbo).
    unfold onebyte_len. rewrite get_field_cell by lia. cbn [rbind post element_in].
    assert (cell (data k) o = b) as -> by (rewrite cell_lookup in Hbo by lia; congruence).
    pose proof (bits_range b 0 4 ltac:(lia)). lia.
  - destruct (_ =? _); [|done].
    destruct (StdMap.find id (twobytes_ext_map_ k)) as [o|] eqn:Ef; [|done].
    destruct (StdMap.Forall_find _ _ _ _ (Ht e eq_refl) Ef) as (b & Hbo & Hbl & _ & _ & Hhi).
    cbn [fst snd] in *. unfold ext_end_of in Hhi. pose proof (lookup_lt_Some _ _ _ Hbl).
    unfold twobytes_len. rewrite rd8_cell by lia. cbn [rbind].
    assert (cell (data k) (o + 1) = b) as -> by (rewrite cell_lookup in Hbl by lia; congruence).
    destruct (Z.eqb_spec b 0); [done|]. cbn [post element_in].
    assert (byte b) as [? ?] by (eapply Forall_lookup_1; [exact Hb|exact Hbl]). lia.
Qed.

(** [atoi] of a long run of digits overflows; nothing else can go wrong. *)
Definition only_overflow {A} (r : res A) : Prop :=
  match r with Ok _ => True | Throw _ => False | Undef u => u = IntOverflow end.

Lemma atoi_overflow l : only_overflow (atoi l).
Proof.
  induction l as [|c l IH]; [done|]. cbn [atoi]. destruct (isspace c); [done|].
  destruct (c =? 45); [by destruct (decide _)|]. destruct (c =? 43); by destruct (decide _).
Qed.

Lemma ReadMid_ok k : wf k -> only_overflow (ReadMid k).
Proof.
  intros Hwf. unfold ReadMid. pose proof (GetExtension_ok k (mid_extension_id_ k) Hwf) as H.
  pose proof (wf_len k Hwf). pose proof (wf_split k Hwf).
  destruct (GetExtension _ _) as [[[v l]|]| |] eqn:E; try done.
  - cbn [post element_in rbind] in *. rewrite rd_bytes_ok by lia. cbn [rbind].
    pose proof (atoi_overflow (slice v (Z.to_nat l) (data k))). by destruct (atoi _).
  - unfold GetExtension in E. destruct (ext k) as [e|] eqn:Ee; [|done].
    destruct (wf_ext k Hwf e Ee) as [He1 He2]. unfold ext_end_of in He2.
    rewrite HasOnebyteExt_eq, HasTwobytesExt_eq in E by (apply Hwf || lia). cbn [rbind] in E.
    destruct (_ =? _); [|destruct (_ =? _); [|done]]; destruct (StdMap.find _ _); try done.
    + unfold onebyte_len, get_field, rd8 in E. by destruct (_ !! _).
    + unfold twobytes_len, rd8 in E. destruct (_ !! _); try done. cbn [rbind] in E. by destruct (_ =? _).
Qed.

Lemma ReadWideSeq_ok k : wf k -> (payload k < length (data k))%nat -> defined (ReadWideSeq k).
Proof.
  intros Hwf Hp. unfold ReadWideSeq. apply (post_defined (fun _ => True)).
  eapply post_bind; [by apply GetExtension_ok|]. intros [[v l]|] H; [|done]. cbn [element_in] in H.
  eapply post_bind; [|by intros]. unfold Read2Bytes. rewrite rd_bytes_ok by lia. by apply (post_Ok (fun _ => True)).
Qed.

(** ** Clearing the mid *)

Lemma GetExtLength_eq d e :
  bytes d -> (e + 4 <= length d)%nat -> GetExtLength d (Some e) = Ok (u16 (net16 d (e + 2) * 4)).
Proof.
  intros Hb Hl. unfold GetExtLength. pose proof (load16_ntohs d (e + 2) Hb ltac:(lia)) as H.
  destruct (load16 d (e + 2)); try done. cbn [rbind] in *. by injection H as ->.
Qed.

(** What the search finds is an entry of the map, and clearing it stays in the block. *)
Lemma clear_scan_ok k len_of hdr more lo ext_end s m (P : Z * nat -> Prop) :
  bytes (data k) -> (ext_end <= length (data k))%nat ->
  (forall x, P x -> exists l, len_of (data k) x.2 = Ok l /\ (lo <= x.2)%nat /\
     (x.2 + hdr + Z.to_nat (l + more) <= length (data k))%nat) ->
  Forall P m ->
  returns (fun r => match r with
                 | Some (id, Some d) => bytes d /\ length d = length (data k) /\
                     forall i, (i < lo \/ ext_end <= i)%nat -> d !! i = data k !! i
                 | _ => True
                 end) (clear_scan k len_of hdr more ext_end s m).
Proof.
  intros Hb He Hlen. induction 1 as [|[id o] m Hx Hm IH]; cbn [clear_scan]; [done|].
  destruct (Hlen _ Hx) as (l & El & Hlo & Hle). cbn [snd] in *. rewrite El. cbn [rbind].
  rewrite rd_bytes_ok by done. cbn [rbind]. destruct (decide _); [|done].
  destruct (Nat.ltb_spec ext_end (o + Z.to_nat (l + 2))); [done|].
  rewrite wr_bytes_ok by (rewrite length_replicate; lia). cbn [rbind returns].
  split_and!; [apply bytes_splice; [done|]|rewrite length_splice; rewrite ?length_replicate; lia|].
  - apply Forall_replicate. unfold byte; lia.
  - intros i Hi. rewrite lookup_splice by (rewrite length_replicate; lia). rewrite length_replicate.
    by rewrite decide_False by lia.
Qed.

(** [k'] is [k] after a change inside its header extensions only. *)
Record ext_edit (k k' : t) : Prop := {
  ee_sound : sound k';
  ee_geometry : (payload k', payload_len k', pad_len k', data_len k', local_ms k', length (data k')) =
                (payload k, payload_len k, pad_len k, data_len k, local_ms k, length (data k));
  ee_frame : forall i, (i < 12 \/ payload k <= i)%nat -> data k' !! i = data k !! i;
  ee_ext : ext k' = ext k;
  ee_head : forall e i, ext k = Some e -> (i < e + 4)%nat -> data k' !! i = data k !! i
}.

(** The media a packet carries: everything a subscriber reads but its extensions. *)
Definition media (v : view) : view :=
  mkview (v_first v) (v_padding v) (v_marker v) (v_pt v) (v_seq v) (v_ts v) (v_ssrc v) [] (v_payload v).

Lemma ext_edit_media k k' : (12 <= length (data k))%nat -> ext_edit k k' -> media (view_of k') = media (view_of k).
Proof.
  intros Hl [_ Hg Hf _ _]. injection Hg as Hp Hpl _ _ _ _. unfold media, view_of, GetPayload, net16, net32.
  cbn [v_first v_padding v_marker v_pt v_seq v_ts v_ssrc v_payload]. rewrite Hp, Hpl.
  rewrite !(cell_ext _ (data k') (data k)) by (apply Hf; lia).
  rewrite !(slice_ext _ _ (data k') (data k)) by (intros; apply Hf; lia). done.
Qed.

Lemma ClearMidExtension_ok k m :
  wf k -> returns (fun '(k', _, _) => ext_edit k k') (ClearMidExtension k m).
Proof.
  intros Hwf. pose proof (wf_sound k Hwf) as [Sb Sp Ss Sl Sm].
  destruct Hwf as [Hb Hl Hm Hp Hs He Hn _ Ho Ht]. unfold ClearMidExtension.
  cbn [SetMidExtensionId with_ids data ext onebyte_ext_map_ twobytes_ext_map_].
  assert (Hid : ext_edit k (SetMidExtensionId k 0)) by (by split).
  destruct (ext k) as [e|] eqn:Ee; [|done].
  destruct (He e eq_refl) as [He1 He2]. unfold ext_end_of in *.
  rewrite HasOnebyteExt_eq, HasTwobytesExt_eq by (done || lia). cbn [rbind].
  rewrite GetExtLength_eq by (done || lia). cbn [rbind].
  pose proof (net16_range (data k) (e + 2) Hb ltac:(lia)).
  set (ee := (e + 4 + Z.to_nat (u16 (net16 (data k) (e + 2) * 4)))%nat).
  assert (HL : (ee <= payload k)%nat) by (unfold ee; zlia).
  assert (Hset : forall d, bytes d /\ length d = length (data k) /\
      (forall i, (i < e + 4 \/ ee <= i)%nat -> d !! i = data k !! i) ->
      forall one two, ext_edit k (mk d (ext k) (payload k) (payload_len k) (pad_len k) (data_len k) (local_ms k)
        (need_delete k) 0 (abs_time_extension_id_ k) (tcc_extension_id_ k) one two)).
  { intros d (Hbd & Hld & Hd) one two. split; cbn; [split; cbn; (done || lia)|by rewrite Hld| |done|].
    - intros i Hi. apply Hd. lia.
    - intros e' i Ee' Hi. apply Hd. replace e' with e in Hi by congruence. lia. }
  rewrite Ee in Hset.
  destruct (_ =? _); [|destruct (_ =? _); [|done]].
  - eapply returns_bind.
    + eapply (clear_scan_ok (SetMidExtensionId k 0) onebyte_len 1 1 (e + 4) ee _ _ _ Hb); [cbn; lia| |exact (Ho e eq_refl)].
      intros [id o] (b & Hbo & _ & _ & Hlo & Hhi). cbn [fst snd SetMidExtensionId with_ids data] in *.
      pose proof (lookup_lt_Some _ _ _ Hbo). unfold onebyte_len. rewrite get_field_cell by done.
      eexists. split; [reflexivity|]. rewrite cell_lookup in Hbo by done. injection Hbo as ->.
      pose proof (bits_range b 0 4 ltac:(lia)). lia.
    + intros [[id [d|]]|]; cbn [returns SetMidExtensionId with_ids data]; [|by intros _..].
      intros Hd. unfold with_onebyte, with_data. cbn. rewrite Ee. by apply Hset.
  - eapply returns_bind.
    + eapply (clear_scan_ok (SetMidExtensionId k 0) twobytes_len 2 0 (e + 4) ee _ _ _ Hb); [cbn; lia| |exact (Ht e eq_refl)].
      intros [id o] (b & Hbo & Hbl & _ & Hlo & Hhi). cbn [fst snd SetMidExtensionId with_ids data] in *.
      pose proof (lookup_lt_Some _ _ _ Hbl). unfold twobytes_len. rewrite rd8_cell by done.
      eexists. split; [reflexivity|]. rewrite cell_lookup in Hbl by done. injection Hbl as ->. lia.
    + intros [[id [d|]]|]; cbn [returns SetMidExtensionId with_ids data]; [|by intros _..].
      intros Hd. unfold with_twobytes, with_data. cbn. rewrite Ee. by apply Hset.
Qed.

(** ** Renaming extension elements *)

(** The maps stay inside the extension block, whatever ids its elements have now. *)
Record editable (k : t) : Prop := {
  ed_sound : sound k;
  ed_ext : forall e, ext k = Some e -> (12 <= e /\ e + 4 <= payload k)%nat /\
    Forall (fun x : Z * nat => e + 4 <= x.2 /\ x.2 + 2 <= payload k)%nat (onebyte_ext_map_ k ++ twobytes_ext_map_ k);
  ed_no_ext : ext k = None -> onebyte_ext_map_ k = [] /\ twobytes_ext_map_ k = []
}.

Lemma wf_editable k : wf k -> editable k.
Proof.
  intros Hwf. split; [by apply wf_sound| |by apply Hwf]. intros e Ee.
  destruct (wf_ext k Hwf e Ee) as [He1 He2].
  pose proof (wf_onebyte k Hwf e Ee) as H1. pose proof (wf_twobytes k Hwf e Ee) as H2. unfold ext_end_of in *.
  split; [lia|]. apply Forall_app. split; (eapply Forall_impl; [eassumption|]); intros x.
  - intros (b & _ & _ & _ & ? & ?). lia.
  - intros (b & _ & _ & _ & ? & ?). lia.
Qed.

Lemma ext_edit_refl k : sound k -> ext_edit k k.
Proof. by split. Qed.
Lemma ext_edit_ids k a b c k' : ext_edit (with_ids k a b c) k' -> ext_edit k k'.
Proof. by intros []; split. Qed.
Lemma ext_edit_trans k1 k2 k3 : ext_edit k1 k2 -> ext_edit k2 k3 -> ext_edit k1 k3.
Proof.
  intros [Hs1 Hg1 Hf1 He1 Hh1] [Hs2 Hg2 Hf2 He2 Hh2]. split; [done|by rewrite Hg2| |by rewrite He2|].
  - intros i Hi. injection Hg1 as Hp _ _ _ _ _. by rewrite Hf2, Hf1 by (rewrite ?Hp; lia).
  - intros e i Ee Hi. rewrite (Hh2 e i), (Hh1 e i) by (rewrite ?He1; done). done.
Qed.

(** One cell of the block is rewritten; the maps lose an entry and gain one at its place. *)
Lemma cell_edit k e o v one two mid abs tcc :
  editable k -> ext k = Some e -> (e + 4 <= o)%nat -> (o + 2 <= payload k)%nat -> byte v ->
  Forall (fun x : Z * nat => e + 4 <= x.2 /\ x.2 + 2 <= payload k)%nat (one ++ two) ->
  let k' := mk (<[o := v]> (data k)) (ext k) (payload k) (payload_len k) (pad_len k) (data_len k) (local_ms k)
              (need_delete k) mid abs tcc one two in
  editable k' /\ ext_edit k k'.
Proof.
  intros [Hs He Hn] Ee Ho1 Ho2 Hv Hm k'. pose proof Hs as [Sb Sp Ss Sl Sm].
  assert (Hs' : sound k') by (split; cbn; rewrite ?length_insert; (done || by apply bytes_insert)).
  destruct (He e Ee) as [He12 _]. split; split; cbn; try done.
  - intros e' Ee'. by replace e' with e by congruence.
  - by rewrite Ee.
  - by rewrite length_insert.
  - intros i Hi. by rewrite list_lookup_insert_ne by lia.
  - intros e' i Ee' Hi. replace e' with e in Hi by congruence. by rewrite list_lookup_insert_ne by lia.
Qed.

Lemma rename_edit k id new_id set_id :
  editable k -> 0 <= new_id < 256 -> (exists a b c, set_id k = with_ids k a b c) ->
  exists k' b, rename k id new_id set_id = Ok (k', b) /\ editable k' /\ ext_edit k k'.
Proof.
  intros Hk Hn (ia & ib & ic & Hset). pose proof (ed_sound k Hk) as Hs. pose proof Hs as [Sb Sp Ss Sl Sm]. unfold rename.
  assert (Hsame : exists k' b, Ok (k, false) = Ok (k', b) /\ editable k' /\ ext_edit k k')
    by (exists k, false; split_and!; [done|done|by apply ext_edit_refl]).
  destruct (ext k) as [e|] eqn:Ee; [|exact Hsame].
  destruct (ed_ext k Hk e Ee) as [He Hm]. rewrite HasOnebyteExt_eq, HasTwobytesExt_eq by (done || lia). cbn [rbind].
  assert (Hput : forall m o, StdMap.find id m = Some o ->
    Forall (fun x : Z * nat => e + 4 <= x.2 /\ x.2 + 2 <= payload k)%nat m ->
    (e + 4 <= o /\ o + 2 <= payload k)%nat /\
    Forall (fun x : Z * nat => e + 4 <= x.2 /\ x.2 + 2 <= payload k)%nat (StdMap.set new_id o (StdMap.erase id m))).
  { intros m o Hf HF. pose proof (StdMap.Forall_find _ _ _ _ HF Hf). split; [done|].
    apply StdMap.Forall_set; [done|]. by apply StdMap.Forall_erase. }
  apply Forall_app in Hm as [Hm1 Hm2]. rewrite Hset.
  destruct (_ =? _); [|destruct (_ =? _); [|exact Hsame]].
  - destruct (StdMap.find id (onebyte_ext_map_ k)) as [o|] eqn:Ef; [|exact Hsame].
    destruct (Hput _ _ Ef Hm1) as ((? & ?) & HF).
    unfold set_onebyte_id. rewrite set_field_cell by lia. cbn [rbind]. do 2 eexists. split; [reflexivity|].
    apply (cell_edit k e); try done; [|by apply Forall_app].
    apply set_bits_byte; [lia|lia|lia|apply cell_byte; (done || lia)].
  - destruct (StdMap.find id (twobytes_ext_map_ k)) as [o|] eqn:Ef; [|exact Hsame].
    destruct (Hput _ _ Ef Hm2) as ((? & ?) & HF).
    unfold twobytes_len, set_twobytes_id. rewrite rd8_cell by lia. cbn [rbind].
    destruct (_ =? 0); [exact Hsame|]. rewrite wr8_ok by lia. cbn [rbind]. do 2 eexists. split; [reflexivity|].
    apply (cell_edit k e); try done; [apply u8_range|by apply Forall_app].
Qed.

Lemma UpdateWideSeqExternId_edit k new_id :
  editable k -> 0 <= new_id < 256 ->
  exists k' b, UpdateWideSeqExternId k new_id = Ok (k', b) /\ editable k' /\ ext_edit k k'.
Proof.
  intros Hk Hn. apply (rename_edit k (tcc_extension_id_ k) new_id (fun k => SetTccExtensionId k new_id) Hk Hn).
  by do 3 eexists.
Qed.
Lemma UpdateAbsTimeExternId_edit k new_id :
  editable k -> 0 <= new_id < 256 ->
  exists k' b, UpdateAbsTimeExternId k new_id = Ok (k', b) /\ editable k' /\ ext_edit k k'.
Proof.
  intros Hk Hn. apply (rename_edit k (abs_time_extension_id_ k) new_id (fun k => SetAbsTimeExtensionId k new_id) Hk Hn).
  by do 3 eexists.
Qed.

(** ** Cloning *)

Lemma Clone_sound now fresh k :
  sound k -> (1 <= data_len k < 1500)%nat -> bytes fresh -> (data_len k <= length fresh)%nat ->
  post (fun n => wf n /\ framed n /\ data_len n = data_len k /\ GetData n = GetData k /\
          length (data n) = length fresh /\ local_ms n = local_ms k /\ parsable n) (Clone now fresh k None).
Proof.
  intros [Sb Sp Ss Sl Sm] Hlen Hf Hfl. unfold Clone, RTP_PACKET_MAX_SIZE.
  destruct (Z.leb_spec 1500 (Z.of_nat (data_len k))); [lia|].
  rewrite rd_bytes_ok by lia. cbn [rbind].
  assert (Hsl : length (slice 0 (data_len k) (data k)) = data_len k) by (apply length_slice; lia).
  rewrite wr_bytes_ok by lia. cbn [rbind]. set (d := splice _ _ _).
  assert (Hld : length d = length fresh) by (apply length_splice; lia).
  apply (post_bind (fun n => wf n /\ data n = d /\ data_len n = data_len k /\
                             (bits (cell d 0) 5 1 = 1 \/ pad_len n = 0%nat) /\ parsable n)).
  - assert (Hbd : bytes d) by (apply bytes_splice; auto with buf).
    pose proof (Parse_ok now d (data_len k) Hbd ltac:(lia)) as HP.
    pose proof (Parse_frame now d (data_len k)) as HF.
    destruct (Parse now d (data_len k)) as [n| |] eqn:EP; [|exact HP..]. destruct HF as (? & ? & ?). split_and!; try done.
    exists now, d, (data_len k), n. split_and!; try done; lia.
  - intros n (Hn & Hd & Hl & Hpad & Hps). cbn [post].
    assert (Hw : wf (mk (data n) (ext n) (payload n) (payload_len n) (pad_len n) (data_len n) (local_ms k) true
      (mid_extension_id_ k) (abs_time_extension_id_ k) (tcc_extension_id_ k) (onebyte_ext_map_ n) (twobytes_ext_map_ n)))
      by (by destruct Hn; split).
    split_and!; try done; [| |by cbn; rewrite Hd].
    + split; [by apply wf_rtx_ok|by rewrite (wf_split _ Hw)|]. cbn [data pad_len]. by rewrite Hd.
    + unfold GetData. cbn [data data_len]. rewrite Hd, Hl. unfold d, splice.
      change (take 0 fresh) with (@nil Z). rewrite app_nil_l, take_app_le, take_ge by lia. unfold slice. by rewrite drop_0.
Qed.

(** Parsing finds the parts of a packet where they were before its extensions were edited. *)
Lemma Parse_parts now now' d d' len k c :
  (1 <= len)%nat -> Parse now d len = Ok k -> Parse now' d' len = Ok c ->
  (forall i, (i < 12 \/ payload k <= i < len)%nat -> d' !! i = d !! i) ->
  (forall e i, ext k = Some e -> (i < e + 4)%nat -> d' !! i = d !! i) ->
  payload c = payload k /\ payload_len c = payload_len k.
Proof.
  intros Hlen E E' Hs Hh. unfold Parse, RtpCommonHeader.csrc_count, RtpCommonHeader.extension, RtpCommonHeader.padding in E, E'.
  destruct (_ <? _); [done|].
  assert (Hf : forall b w, get_field d' 0 b w = get_field d 0 b w).
  { intros b w. apply (get_field_same 0 12); [|lia]. intros i Hi. apply Hs. lia. }
  rewrite !Hf in E'. apply rbind_Ok_inv in E as (cc & Hcc & E). rewrite Hcc in E'. cbn [rbind] in E'.
  set (p := if 0 <? cc then _ else _) in *. clearbody p.
  apply rbind_Ok_inv in E as (x & Hx & E). rewrite Hx in E'. cbn [rbind] in E'.
  apply rbind_Ok_inv in E as ([e q] & Hq & E). apply rbind_Ok_inv in E' as ([e' q'] & Hq' & E').
  destruct (Nat.leb_spec len q) as [|Hlq]; [done|].
  apply rbind_Ok_inv in E as (pd & Hpd & E). apply rbind_Ok_inv in E as ([pl pad] & Hpl & E).
  unfold new_RtpPacket in E. destruct (_ <? _); [done|].
  pose proof (ParseExt_ext _ _ E) as Hext. cbn [ext] in Hext.
  match type of E with ParseExt ?k0 = _ => pose proof (ParseExt_frame k0) as Hfr end. rewrite E in Hfr.
  injection Hfr as _ Fp Fl _ _. rewrite Fp in Hs.
  assert (q' = q) as ->.
  { destruct (negb (x =? 0)); [|by injection Hq as _ <-; injection Hq' as _ <-].
    destruct (len <? p + 4)%nat; [done|]. apply rbind_Ok_inv in Hq as (l & Hl & Hq). apply rbind_Ok_inv in Hq' as (l' & Hl' & Hq').
    rewrite (load16_same 0 (p + 4) d' d) in Hl'; [|intros i Hi; apply (Hh p); [|lia]|lia].
    - rewrite Hl in Hl'. injection Hl' as <-. destruct (_ <? _)%nat; [done|]. injection Hq as _ <-. by injection Hq' as _ <-.
    - destruct (_ <? _)%nat; [done|]. injection Hq as <- _. done. }
  destruct (len <=? q)%nat; [done|]. rewrite Hpd in E'. cbn [rbind] in E'.
  rewrite (rd8_same q len d' d) in E'; [|intros i Hi; apply Hs; lia|lia]. rewrite Hpl in E'. cbn [rbind] in E'.
  unfold new_RtpPacket in E'. destruct (_ <? _); [done|].
  match type of E' with ParseExt ?k0 = _ => pose proof (ParseExt_frame k0) as Hfr' end. rewrite E' in Hfr'.
  injection Hfr' as _ Fp' Fl' _ _. split; congruence.
Qed.

(** The clone of a packet whose extensions were edited has the packet's media. *)
Lemma Clone_media now now' fresh d len k k' c :
  bytes d -> (12 <= len <= length d)%nat -> Parse now d len = Ok k -> ext_edit k k' ->
  bytes fresh -> (len <= length fresh)%nat ->
  Clone now' fresh k' None = Ok c -> media (view_of c) = media (view_of k').
Proof.
  intros Hb Hl HP Hed Hf Hfl HC. pose proof (Parse_frame now d len) as Hfr. rewrite HP in Hfr. destruct Hfr as (Hkd & Hkl & _).
  pose proof Hed as [Hs Hg Hfm _ Hhd]. injection Hg as Gp Gl _ Gd _ Gn. pose proof Hs as [Sb Sp Ss Sl Sm].
  assert (Hlen : (data_len k' < 1500)%nat).
  { unfold Clone, RTP_PACKET_MAX_SIZE in HC. destruct (Z.leb_spec 1500 (Z.of_nat (data_len k'))); [done|lia]. }
  pose proof (Clone_sound now' fresh k' Hs ltac:(lia) Hf ltac:(lia)) as HS. rewrite HC in HS. destruct HS as (Hcw & _ & Hcl & Hcd & _).
  unfold Clone in HC. destruct (_ <=? _); [done|]. apply rbind_Ok_inv in HC as (bs & Hbs & HC).
  apply rbind_Ok_inv in HC as (nd & Hnd & HC). apply rbind_Ok_inv in HC as (n & Hn & HC).
  pose proof (Parse_frame now' nd (data_len k')) as Hfn. rewrite Hn in Hfn. destruct Hfn as (Hnn & Hnl & _).
  assert (Hcn : data c = nd /\ payload c = payload n /\ payload_len c = payload_len n) by (injection HC as <-; by rewrite <- Hnn).
  destruct Hcn as (C1 & C2 & C3).
  assert (Hat : forall i, (i < len)%nat -> nd !! i = data k' !! i).
  { intros i Hi. unfold GetData in Hcd. rewrite Hcl, C1, Gd, Hkl in Hcd.
    rewrite <- (lookup_take_lt nd len i), <- (lookup_take_lt (data k') len i) by done. by rewrite Hcd. }
  rewrite Gd, Hkl in Hn.
  destruct (Parse_parts now now' d nd len k n ltac:(lia) HP Hn) as [P1 P2].
  { intros i Hi. rewrite Hat by lia. rewrite Hfm by lia. by rewrite Hkd. }
  { intros e i Ee Hi. pose proof (Parse_ok now d len Hb ltac:(lia)) as Hw. rewrite HP in Hw. cbn [post] in Hw.
    destruct (wf_ext k Hw e Ee) as [_ Hee]. unfold ext_end_of in Hee. pose proof (wf_split k Hw).
    rewrite Hat by lia. rewrite (Hhd e i Ee Hi). by rewrite Hkd. }
  unfold media, view_of, GetPayload, net16, net32. cbn [v_first v_padding v_marker v_pt v_seq v_ts v_ssrc v_payload].
  rewrite C1, C2, C3, P1, P2, Gp, Gl. rewrite Gp, Gl in Ss.
  rewrite !(cell_ext _ nd (data k')) by (apply Hat; lia).
  rewrite !(slice_ext _ _ nd (data k')) by (intros; apply Hat; lia). done.
Qed.

(** A packet and its clone have the same sequence number and the same first byte. *)
Lemma GetData_seq_of k n : (12 <= data_len k)%nat -> data_len n = data_len k -> GetData n = GetData k -> seq_of n = seq_of k.
Proof.
  intros H Hl Hd. unfold seq_of, net16. f_equal.
  assert (Hs : forall q, data_len q = data_len k -> slice 2 2 (GetData q) = slice 2 2 (data q)).
  { intros q Hq. unfold GetData. change (take (data_len q) (data q)) with (slice 0 (data_len q) (data q)).
    apply slice_slice. lia. }
  by rewrite <- (Hs n), Hd, (Hs k).
Qed.

End RtpPacketEdits.
