(* ===== verification/RtcpReports.v ===== *)
(** [net/rtprtcp/rtcp_sr.hpp] and [rtcp_rr.hpp]: sender and receiver reports, kept in
    a 1500-byte array the accessors read and write in place. *)
From S2P Require Import Prelude ByteStream RtpPub.
Import ByteStream RtpPub.

(** A network-order word of the array. *)
Definition get32 (d : buf) (p : nat) : res Z := let! v := load32 d p in Ok (ntohl v).
Definition put32 (d : buf) (p : nat) (v : Z) : res buf := store32 d p (htonl v).

Lemma put32_eq d p v : put32 d p v = wr_bytes d p (be_bytes 4 v).
Proof. apply store32_htonl. Qed.
Lemma get32_eq d p : bytes d -> (p + 4 <= length d)%nat -> get32 d p = Ok (net32 d p).
Proof. intros. by apply load32_ntohl. Qed.
Lemma get32_be d p l v :
  bytes d -> (p + 4 <= length d)%nat -> slice p 4 d = be_bytes 4 v -> l = Ok (u32 v) -> get32 d p = l.
Proof. intros Hb Hl Hs ->. rewrite get32_eq by done. unfold net32. by rewrite Hs, be_val_be_bytes. Qed.

(** Replaces the bytes of the field value [v] by variables, to compute around them. *)
Lemma be4_cells v : exists x0 x1 x2 x3, be_bytes 4 v = [x0; x1; x2; x3].
Proof. by do 4 eexists. Qed.
Ltac cells v :=
  let H := fresh in destruct (be4_cells v) as (? & ? & ? & ? & H); rewrite ?H; clear H.

Definition zeros1500 : buf := replicate 1500 0.

Module RtcpSrPacket.

Definition block_size : nat := 20.
Definition DataLen : nat := (RtcpCommonHeader.size + 4 + block_size)%nat.

Record t := mk { data : buf; sender_ssrc_ : Z }.

(** The constructor from a received header: 28 bytes are copied from it into the
    array, whose other cells hold whatever [old] they held. *)
Definition from_header (old rtcp_header : buf) : res t :=
  let! l := rd_bytes rtcp_header 0 DataLen in
  let! d := wr_bytes old 0 l in
  let! s := get32 d 4 in
  Ok (mk d s).

Definition new_RtcpSrPacket : res t :=
  let len := (4 + block_size)%nat in
  let! d := RtcpCommonHeader.set_version zeros1500 0 2 in
  let! d := RtcpCommonHeader.set_padding d 0 0 in
  let! d := RtcpCommonHeader.set_count d 0 0 in
  let! d := RtcpCommonHeader.set_packet_type d 0 (RTCP_TYPE_val RTCP_SR) in
  let! d := RtcpCommonHeader.set_length d 0 (htons (u16 (Z.of_nat len / 4))) in
  let! d := put32 d 4 1 in
  Ok (mk d 1).

Definition SetSsrc (k : t) (ssrc : Z) : res t := let! d := put32 (data k) 4 ssrc in Ok (mk d ssrc).
Definition GetSsrc (k : t) : Z := sender_ssrc_ k.
Definition SetNtp (k : t) (ntp_sec ntp_frac : Z) : res t :=
  let! d := put32 (data k) 8 ntp_sec in
  let! d := put32 d 12 ntp_frac in Ok (mk d (sender_ssrc_ k)).
Definition GetNtpSec (k : t) : res Z := get32 (data k) 8.
Definition GetNtpFrac (k : t) : res Z := get32 (data k) 12.
Definition SetRtpTimestamp (k : t) (ts : Z) : res t :=
  let! d := put32 (data k) 16 ts in Ok (mk d (sender_ssrc_ k)).
Definition GetRtpTimestamp (k : t) : res Z := get32 (data k) 16.
Definition SetPktCount (k : t) (pkt_count : Z) : res t :=
  let! d := put32 (data k) 20 pkt_count in Ok (mk d (sender_ssrc_ k)).
Definition GetPktCount (k : t) : res Z := get32 (data k) 20.
Definition SetBytesCount (k : t) (bytes_count : Z) : res t :=
  let! d := put32 (data k) 24 bytes_count in Ok (mk d (sender_ssrc_ k)).
Definition GetBytesCount (k : t) : res Z := get32 (data k) 24.

Definition Parse (old data : buf) (len : nat) : res t :=
  if negb (len =? DataLen)%nat then Throw "rtcp sr len error" else from_header old data.
Definition Serial (k : t) : list Z := take DataLen (data k).

(** The sender report of RFC 3550 (no report blocks) on the wire. *)
Definition wire (ssrc ntp_sec ntp_frac ts pkts octets : Z) : list Z :=
  [128; 200; 0; 6] ++ be_bytes 4 ssrc ++ be_bytes 4 ntp_sec ++ be_bytes 4 ntp_frac ++
  be_bytes 4 ts ++ be_bytes 4 pkts ++ be_bytes 4 octets.

Definition filled (ssrc ntp_sec ntp_frac ts pkts octets : Z) : res t :=
  let! k := new_RtcpSrPacket in
  let! k := SetSsrc k ssrc in
  let! k := SetNtp k ntp_sec ntp_frac in
  let! k := SetRtpTimestamp k ts in
  let! k := SetPktCount k pkts in
  SetBytesCount k octets.

Lemma sr_length_wire a b c d e f : length (wire a b c d e f) = 28%nat.
Proof. reflexivity. Qed.
Lemma sr_bytes_wire a b c d e f : bytes (wire a b c d e f).
Proof.
  unfold wire. repeat (apply Forall_app; split); [bytes_done|apply bytes_be_bytes..].
Qed.

Lemma filled_wire a b c d e f :
  filled a b c d e f = Ok (mk (wire a b c d e f ++ replicate 1472 0) a).
Proof.
  unfold filled, SetSsrc, SetNtp, SetRtpTimestamp, SetPktCount, SetBytesCount, wire.
  setoid_rewrite put32_eq. cells a. cells b. cells c. cells d. cells e. cells f.
  vm_compute. reflexivity.
Qed.

(** a sender report built through the setters is RFC 3550's on the wire, and parsing
    those bytes gives a report with the same SSRC, NTP time, RTP time and counts; any
    other length throws. *)
Theorem sr_roundtrip (old : buf) (ssrc ntp_sec ntp_frac ts pkts octets : Z) :
  length old = 1500%nat -> bytes old ->
  (exists k, filled ssrc ntp_sec ntp_frac ts pkts octets = Ok k /\
     Serial k = wire ssrc ntp_sec ntp_frac ts pkts octets) /\
  (exists k, Parse old (wire ssrc ntp_sec ntp_frac ts pkts octets) 28 = Ok k /\
     GetSsrc k = u32 ssrc /\ GetNtpSec k = Ok (u32 ntp_sec) /\ GetNtpFrac k = Ok (u32 ntp_frac) /\
     GetRtpTimestamp k = Ok (u32 ts) /\ GetPktCount k = Ok (u32 pkts) /\
     GetBytesCount k = Ok (u32 octets) /\ Serial k = wire ssrc ntp_sec ntp_frac ts pkts octets) /\
  (forall d len, len <> 28%nat -> Parse old d len = Throw "rtcp sr len error").
Proof.
  intros Hl Hb. pose proof (sr_bytes_wire ssrc ntp_sec ntp_frac ts pkts octets) as Hw.
  split_and!.
  - rewrite filled_wire. eexists. split; [reflexivity|]. unfold Serial. cbn [data].
    by rewrite take_app_le, take_ge by (rewrite sr_length_wire; unfold DataLen, block_size; cbn; lia).
  - unfold Parse, from_header, DataLen, block_size, RtcpCommonHeader.size.
    set (w := wire _ _ _ _ _ _) in *. change (negb (28 =? _)%nat) with false. cbn [Nat.add].
    rewrite rd_bytes_ok by done. cbn [rbind]. change (slice 0 28 w) with w.
    assert (Hlw : length w = 28%nat) by done.
    rewrite wr_bytes_ok by lia. cbn [rbind].
    set (d := splice 0 w old).
    assert (Hd : bytes d /\ length d = 1500%nat)
      by (split; [by apply bytes_splice|unfold d; rewrite length_splice; lia]).
    destruct Hd as [Hbd Hld].
    assert (Hs : forall o n, (o + n <= 28)%nat -> slice o n d = slice o n w).
    { intros o n Ho. rewrite <- (Nat.add_0_l o) at 1. rewrite <- (slice_slice 0 28) by lia.
      unfold d. by rewrite slice_splice_eq by lia. }
    assert (Hg : forall o v, (o + 4 <= 28)%nat -> slice o 4 w = be_bytes 4 v -> get32 d o = Ok (u32 v)).
    { intros o v Ho Hv. eapply get32_be; [done|lia| |done]. by rewrite Hs. }
    rewrite (Hg 4%nat ssrc) by (lia || reflexivity). cbn [rbind]. eexists. split; [reflexivity|].
    split_and!; try reflexivity; try (apply Hg; [lia|reflexivity]).
  - intros d len Hne. unfold Parse. by rewrite (proj2 (Nat.eqb_neq _ _)) by done.
Qed.
Lemma sr_roundtrip_witness :
  exists k, Parse zeros1500 (wire 1 2 3 4 5 6) 28 = Ok k /\ GetPktCount k = Ok 5.
Proof.
  destruct (sr_roundtrip zeros1500 1 2 3 4 5 6) as (_ & (k & H1 & _ & _ & _ & _ & H2 & _) & _);
    [reflexivity|bytes_done|]. exists k. split; [exact H1|exact H2].
Defined.

End RtcpSrPacket.

(** The loop that pushes [block] and advances it while it is below [data + len]: the places of
    the blocks of [step] bytes from [p] up to [len]. *)
Fixpoint scan_blocks (step fuel p len : nat) : res (list nat) :=
  if (p <? len)%nat then
    match fuel with
    | O => Undef OutOfFuel
    | S fuel' => let! l := scan_blocks step fuel' (p + step) len in Ok (p :: l)
    end
  else Ok [].

Definition places (p step n : nat) : list nat := map (fun i => p + step * i)%nat (seq 0 n).

Lemma places_S p step n : places p step (S n) = p :: places (p + step) step n.
Proof.
  unfold places. cbn [seq map]. f_equal; [lia|]. rewrite <- seq_shift, map_map.
  apply map_ext. intros. lia.
Qed.
Lemma places_snoc p step n : places p step (S n) = places p step n ++ [(p + step * n)%nat].
Proof. unfold places. by rewrite seq_S, map_app. Qed.
Lemma length_places p step n : length (places p step n) = n.
Proof. unfold places. by rewrite length_map, length_seq. Qed.

Lemma scan_blocks_places step n fuel p len :
  (n = 0 /\ len <= p \/ len <= p + step * n < len + step)%nat -> (n <= fuel)%nat -> (0 < step)%nat ->
  scan_blocks step fuel p len = Ok (places p step n).
Proof.
  intros Hn Hf Hs. revert p fuel Hn Hf; induction n as [|n IH]; intros p fuel Hn Hf.
  - destruct fuel; simpl; destruct (Nat.ltb_spec p len); try done; lia.
  - destruct fuel as [|fuel]; [lia|]. rewrite places_S. simpl.
    destruct (Nat.ltb_spec p len); [|nia].
    rewrite IH; [done|destruct n; [left|right]; nia|lia].
Qed.

(** The blocks found start inside the datagram, [step] apart. *)
Lemma scan_blocks_ok step fuel p len :
  (len - p <= fuel)%nat -> (0 < step)%nat ->
  post (Forall (fun o => p <= o < len /\ exists i, o = p + step * i)%nat) (scan_blocks step fuel p len).
Proof.
  intros Hf Hs. revert p Hf; induction fuel as [|fuel IH]; intros p Hf; simpl;
    destruct (Nat.ltb_spec p len); try (by constructor); [lia|].
  eapply post_bind; [apply IH; lia|cbv beta]. intros l Hl. constructor.
  - split; [lia|]. exists 0%nat. lia.
  - eapply Forall_impl; [exact Hl|]. cbv beta. intros o [? (i & ->)]. split; [lia|]. exists (S i). lia.
Qed.

(** One report block of the array [d], at [p]. *)
Module RtcpRrBlockInfo.
Definition size : nat := 24.

Definition GetReporteeSsrc (d : buf) (p : nat) : res Z := get32 d p.
Definition SetReporteeSsrc (d : buf) (p : nat) (ssrc : Z) : res buf := put32 d p ssrc.
Definition GetFracLost (d : buf) (p : nat) : res Z := rd8 d (p + 4).
Definition SetFracLost (d : buf) (p : nat) (fraclost : Z) : res buf := wr8 d (p + 4) (u8 fraclost).
Definition GetCumulativeLost (d : buf) (p : nat) : res Z := Read3Bytes d (p + 5).
Definition SetCumulativeLost (d : buf) (p : nat) (v : Z) : res buf := Write3Bytes d (p + 5) v.
Definition GetHighestSeq (d : buf) (p : nat) : res Z := get32 d (p + 8).
Definition SetHighestSeq (d : buf) (p : nat) (v : Z) : res buf := put32 d (p + 8) v.
Definition GetJitter (d : buf) (p : nat) : res Z := get32 d (p + 12).
Definition SetJitter (d : buf) (p : nat) (v : Z) : res buf := put32 d (p + 12) v.
Definition GetLsr (d : buf) (p : nat) : res Z := get32 d (p + 16).
Definition SetLsr (d : buf) (p : nat) (v : Z) : res buf := put32 d (p + 16) v.
Definition GetDlsr (d : buf) (p : nat) : res Z := get32 d (p + 20).
Definition SetDlsr (d : buf) (p : nat) (v : Z) : res buf := put32 d (p + 20) v.

(** The report block of RFC 3550 on the wire. *)
Record report := mkreport {
  rp_ssrc : Z; rp_frac : Z; rp_lost : Z; rp_highest : Z; rp_jitter : Z; rp_lsr : Z; rp_dlsr : Z
}.
Definition wire (r : report) : list Z :=
  be_bytes 4 (rp_ssrc r) ++ [u8 (rp_frac r)] ++ be_bytes 3 (rp_lost r) ++ be_bytes 4 (rp_highest r) ++
  be_bytes 4 (rp_jitter r) ++ be_bytes 4 (rp_lsr r) ++ be_bytes 4 (rp_dlsr r).

Lemma block_length_wire r : length (wire r) = 24%nat.
Proof. reflexivity. Qed.
Lemma block_bytes_wire r : bytes (wire r).
Proof.
  unfold wire. repeat (apply Forall_app; split); try apply bytes_be_bytes.
  constructor; [apply u8_range|constructor].
Qed.

(** The setters, in the order the receiver report is built. *)
Definition fill (d : buf) (p : nat) (r : report) : res buf :=
  let! d := SetReporteeSsrc d p (rp_ssrc r) in
  let! d := SetFracLost d p (rp_frac r) in
  let! d := SetCumulativeLost d p (rp_lost r) in
  let! d := SetHighestSeq d p (rp_highest r) in
  let! d := SetJitter d p (rp_jitter r) in
  let! d := SetLsr d p (rp_lsr r) in
  SetDlsr d p (rp_dlsr r).

Definition read (d : buf) (p : nat) : res report :=
  let! a := GetReporteeSsrc d p in
  let! b := GetFracLost d p in
  let! c := GetCumulativeLost d p in
  let! e := GetHighestSeq d p in
  let! f := GetJitter d p in
  let! g := GetLsr d p in
  let! h := GetDlsr d p in
  Ok (mkreport a b c e f g h).

Lemma fill_eq d p r :
  (p + 24 <= length d)%nat -> fill d p r = Ok (splice p (wire r) d).
Proof.
  intros H. unfold fill, SetReporteeSsrc, SetFracLost, SetCumulativeLost, SetHighestSeq, SetJitter, SetLsr, SetDlsr.
  setoid_rewrite put32_eq. setoid_rewrite Write3Bytes_be.
  rewrite wr_bytes_ok by buf_len. cbn [rbind].
  rewrite wr8_ok by buf_simp_side. cbn [rbind]. rewrite wr8_splice by buf_simp_side.
  repeat (rewrite wr_bytes_ok by buf_simp_side; cbn [rbind]). f_equal.
  repeat match goal with |- context [splice ?q ?l2 (splice p ?l1 d)] =>
    replace q with (p + length l1)%nat by (rewrite ?length_app, ?length_be_bytes; cbn [length]; lia);
    rewrite (splice_app p l1 l2 d) by (rewrite ?length_app, ?length_be_bytes; cbn [length]; lia)
  end. unfold wire. by rewrite <- !app_assoc.
Qed.

Lemma read_wire d p r :
  bytes d -> (p + 24 <= length d)%nat -> slice p 24 d = wire r ->
  read d p = Ok (mkreport (u32 (rp_ssrc r)) (u8 (rp_frac r)) (rp_lost r mod 16777216) (u32 (rp_highest r))
                          (u32 (rp_jitter r)) (u32 (rp_lsr r)) (u32 (rp_dlsr r))).
Proof.
  intros Hb Hl Hs.
  assert (Hsl : forall o n, (o + n <= 24)%nat -> slice (p + o) n d = slice o n (wire r))
    by (intros; rewrite <- Hs; by rewrite slice_slice by lia).
  unfold read, GetReporteeSsrc, GetFracLost, GetCumulativeLost, GetHighestSeq, GetJitter, GetLsr, GetDlsr.
  rewrite <- (Nat.add_0_r p) at 1.
  rewrite (get32_be d (p + 0) _ (rp_ssrc r)) by (first [done|lia|by rewrite Hsl by lia]). cbn [rbind].
  rewrite rd8_cell by lia.
  pose proof (slice_cons (p + 4) 0 d ltac:(lia)) as Hc. rewrite Hsl in Hc by lia.
  injection Hc as <-. cbn [rbind]. unfold Read3Bytes. rewrite rd_bytes_ok, Hsl by lia. cbn [rbind].
  change (le_val (reverse ?x)) with (be_val x). change (slice 5 3 (wire r)) with (be_bytes 3 (rp_lost r)).
  rewrite be_val_be_bytes.
  rewrite (get32_be d (p + 8) _ (rp_highest r)) by (first [done|lia|by rewrite Hsl by lia]). cbn [rbind].
  rewrite (get32_be d (p + 12) _ (rp_jitter r)) by (first [done|lia|by rewrite Hsl by lia]). cbn [rbind].
  rewrite (get32_be d (p + 16) _ (rp_lsr r)) by (first [done|lia|by rewrite Hsl by lia]). cbn [rbind].
  rewrite (get32_be d (p + 20) _ (rp_dlsr r)) by (first [done|lia|by rewrite Hsl by lia]). done.
Qed.
End RtcpRrBlockInfo.

Module RtcpRrPacket.

(** [rr_blocks_] holds the places of the blocks in [data]. *)
Record t := mk { data : buf; rr_blocks_ : list nat; len_ : nat }.

Definition new_RtcpRrPacket : t := mk zeros1500 [] 0.

(** The constructor from a datagram: [len] bytes into the zeroed array. *)
Definition from_header (header : buf) (len : nat) : res t :=
  let! l := rd_bytes header 0 len in
  let! d := wr_bytes zeros1500 0 l in
  Ok (mk d [] len).

Definition Parse (data : buf) (len : nat) : res t :=
  if (len <? RtcpCommonHeader.size + 4)%nat then Throw "rtcp rr len error" else
  let! pkt := from_header data len in
  let! n := GetRtcpLength data 0 in
  if n <=? 8 then Ok pkt else
  let! blocks := scan_blocks RtcpRrBlockInfo.size len 8 len in
  Ok (mk (RtcpRrPacket.data pkt) blocks len).

Fixpoint copy_blocks (d : buf) (p : nat) (blocks : list nat) : res buf :=
  match blocks with
  | [] => Ok d
  | b :: blocks' =>
      let! l := rd_bytes d b RtcpRrBlockInfo.size in
      let! d := wr_bytes d p l in
      copy_blocks d (p + RtcpRrBlockInfo.size) blocks'
  end.

(** The packet and its bytes; [None] for the null pointer of an empty report. *)
Definition GetData (k : t) : res (t * option (list Z)) :=
  match rr_blocks_ k with
  | [] => Ok (k, None)
  | _ =>
      let n := List.length (rr_blocks_ k) in
      let data_len := (RtcpCommonHeader.size + 4 + RtcpRrBlockInfo.size * n)%nat in
      let! d := RtcpCommonHeader.set_version (data k) 0 2 in
      let! d := RtcpCommonHeader.set_padding d 0 0 in
      let! d := RtcpCommonHeader.set_count d 0 (Z.of_nat n) in
      let! d := RtcpCommonHeader.set_packet_type d 0 (RTCP_TYPE_val RTCP_RR) in
      let! d := RtcpCommonHeader.set_length d 0 (htons (u16 (u16 (Z.of_nat data_len) / 4 - 1))) in
      let! d := store32 d 4 1 in
      let! d := copy_blocks d 8 (rr_blocks_ k) in
      let! l := rd_bytes d 0 data_len in
      Ok (mk d (rr_blocks_ k) (len_ k), Some l)
  end.

(** [block] is the 24 bytes the caller's block pointer designates. *)
Definition AddRrBlock (k : t) (block : list Z) : res t :=
  match last (rr_blocks_ k) with
  | None =>
      let! d := wr_bytes (data k) 8 block in
      Ok (mk d [8%nat] (RtcpCommonHeader.size + 4 + RtcpRrBlockInfo.size))
  | Some b =>
      let p := (b + RtcpRrBlockInfo.size)%nat in
      let! d := wr_bytes (data k) p block in
      Ok (mk d (rr_blocks_ k ++ [p]) (len_ k + RtcpRrBlockInfo.size))
  end.

Definition GetReporterSsrc (k : t) : res Z := get32 (data k) 4.
Definition GetRrBlocks (k : t) : list nat := rr_blocks_ k.
Definition GetLen (k : t) : nat := len_ k.

Fixpoint add_all (k : t) (blocks : list (list Z)) : res t :=
  match blocks with
  | [] => Ok k
  | b :: blocks' => let! k := AddRrBlock k b in add_all k blocks'
  end.

(** [k] holds [blocks], one behind the other from the ninth byte on. *)
Record holds (k : t) (blocks : list (list Z)) : Prop := {
  h_len : length (data k) = 1500%nat;
  h_bytes : bytes (data k);
  h_places : rr_blocks_ k = places 8 24 (length blocks);
  h_blocks : slice 8 (24 * length blocks) (data k) = concat blocks;
  h_fit : (8 + 24 * length blocks <= 1500)%nat
}.

Lemma AddRrBlock_holds k blocks b :
  holds k blocks -> length b = 24%nat -> bytes b -> (8 + 24 * (length blocks + 1) <= 1500)%nat ->
  exists k', AddRrBlock k b = Ok k' /\ holds k' (blocks ++ [b]).
Proof.
  intros [Hl Hby Hp Hs Hf] Hb Hbb Hfit. unfold AddRrBlock, RtcpRrBlockInfo.size.
  set (p := (8 + 24 * length blocks)%nat).
  assert (Hlast : last (rr_blocks_ k) = match length blocks with O => None | S n => Some (p - 24)%nat end).
  { rewrite Hp. unfold p. destruct (length blocks); [done|]. rewrite places_snoc, last_snoc. f_equal. lia. }
  assert (Hnew : exists l, (match last (rr_blocks_ k) with
      | None => let! d := wr_bytes (data k) 8 b in Ok (mk d [8%nat] (RtcpCommonHeader.size + 4 + 24))
      | Some o => let! d := wr_bytes (data k) (o + 24) b in Ok (mk d (rr_blocks_ k ++ [(o + 24)%nat]) (len_ k + 24)) end)
      = Ok (mk (splice p b (data k)) (places 8 24 (length blocks + 1)) l)).
  { rewrite Hlast. unfold p. destruct blocks as [|b0 bs]; cbn [length] in *.
    - rewrite wr_bytes_ok by lia. eexists. reflexivity.
    - rewrite wr_bytes_ok by lia. cbn [rbind]. eexists. rewrite Hp.
      replace (8 + 24 * S (length bs) - 24 + 24)%nat with (8 + 24 * S (length bs))%nat by lia.
      replace (S (length bs) + 1)%nat with (S (S (length bs))) by lia.
      by rewrite (places_snoc _ _ (S (length bs))). }
  destruct Hnew as (l & ->). eexists. split; [reflexivity|].
  split; cbn [data rr_blocks_ len_]; rewrite ?length_app; cbn [length]; auto with buf; try lia.
  - by rewrite length_splice by (unfold p; lia).
  - rewrite concat_app. cbn [concat]. rewrite app_nil_r, <- Hs.
    replace (24 * (length blocks + 1))%nat with (24 * length blocks + length b)%nat by lia.
    unfold p. by rewrite slice_splice_snoc by lia.
Qed.

Lemma add_all_holds blocks : forall k bs,
  holds k bs -> Forall (fun b => length b = 24%nat /\ bytes b) blocks ->
  (8 + 24 * (length bs + length blocks) <= 1500)%nat ->
  exists k', add_all k blocks = Ok k' /\ holds k' (bs ++ blocks).
Proof.
  induction blocks as [|b blocks IH]; intros k bs Hk Hb Hfit; simpl.
  { rewrite app_nil_r. eauto. }
  inversion Hb as [|? ? [Hl Hby] Hbs]; subst. cbn [length] in Hfit.
  destruct (AddRrBlock_holds k bs b Hk Hl Hby ltac:(lia)) as (k1 & -> & Hk1). cbn [rbind].
  destruct (IH k1 (bs ++ [b]) Hk1 Hbs) as (k2 & Hk2 & Hh); [rewrite length_app; cbn [length]; lia|].
  exists k2. split; [done|]. by rewrite <- app_assoc in Hh.
Qed.

Lemma new_holds : holds new_RtcpRrPacket [].
Proof. split; try reflexivity; [bytes_done|cbn; lia]. Qed.

(** Copying the blocks to where they already are changes nothing. *)
Lemma copy_blocks_id d n p :
  (p + 24 * n <= length d)%nat -> copy_blocks d p (places p 24 n) = Ok d.
Proof.
  revert p; induction n as [|n IH]; intros p Hl; [done|].
  rewrite places_S. cbn [copy_blocks]. unfold RtcpRrBlockInfo.size.
  rewrite rd_bytes_ok by lia. cbn [rbind].
  rewrite wr_bytes_ok by (rewrite length_slice; lia). cbn [rbind].
  rewrite splice_slice_id by lia. apply IH. lia.
Qed.

(** A receiver report of RFC 3550 with these blocks, from the given reporter. *)
Definition wire (ssrc : list Z) (blocks : list (list Z)) : list Z :=
  [128 + Z.of_nat (length blocks); 201] ++ be_bytes 2 (1 + 6 * Z.of_nat (length blocks)) ++
  ssrc ++ concat blocks.

(** What [GetData] makes of a report that holds [n] blocks, [1 <= n <= 31]. *)
Lemma GetData_holds k blocks :
  holds k blocks -> (1 <= length blocks <= 31)%nat ->
  exists k', GetData k = Ok (k', Some (wire [1; 0; 0; 0] blocks)) /\ holds k' blocks /\ len_ k' = len_ k.
Proof.
  intros [Hl Hby Hp Hs Hf] Hn. unfold GetData.
  assert (Hne : rr_blocks_ k <> []).
  { intros E. rewrite E in Hp. apply (f_equal length) in Hp. rewrite length_places in Hp. simpl in Hp. lia. }
  destruct (rr_blocks_ k) as [|o os]; [done|]. rewrite Hp, length_places.
  rewrite rtcp_header_filled by (done || lia).
  set (n := length blocks) in *. unfold RtcpCommonHeader.size, RtcpRrBlockInfo.size.
  assert (Elen : u16 (u16 (Z.of_nat (4 + 4 + 24 * n)) / 4 - 1) = 1 + 6 * Z.of_nat n)
    by (rewrite (u16_small (Z.of_nat _)) by lia; rewrite u16_small; zlia).
  rewrite Elen. unfold store32. change (le_bytes 4 1) with [1; 0; 0; 0].
  rewrite wr_bytes_ok by buf_simp_side. cbn [rbind].
  set (h := [_; _] ++ be_bytes 2 _).
  assert (Hh : length h = 4%nat) by (unfold h; by rewrite length_app, length_be_bytes).
  pose proof (splice_app 0 h [1; 0; 0; 0] (data k) ltac:(rewrite Hh, Hl; cbn [length]; lia)) as Eh.
  rewrite Hh in Eh. cbn [Nat.add] in Eh. rewrite Eh.
  assert (Hbh : bytes (h ++ [1; 0; 0; 0])).
  { apply Forall_app; split; [|bytes_done]. unfold h. apply Forall_app; split; [|apply bytes_be_bytes].
    repeat constructor; unfold byte, u8; cbn [RTCP_TYPE_val]; zlia. }
  set (h8 := h ++ _) in *. assert (Hh8 : length h8 = 8%nat) by (unfold h8; by rewrite length_app, Hh).
  rewrite copy_blocks_id by (rewrite length_splice; lia). cbn [rbind].
  rewrite rd_bytes_ok by (rewrite length_splice; lia). cbn [rbind].
  replace (4 + 4 + 24 * n)%nat with (8 + 24 * n)%nat by lia.
  eexists. split.
  - do 3 f_equal. rewrite slice_app. rewrite slice_splice_eq by lia.
    rewrite slice_splice_disj by lia. cbn [Nat.add]. rewrite Hs. unfold h8, h, wire. fold n.
    rewrite <- !app_assoc. cbn [app RTCP_TYPE_val]. f_equal. unfold u8. zlia.
  - split; [|done]. split; cbn [data rr_blocks_]; [by rewrite length_splice by lia|by apply bytes_splice|done| |done].
    by rewrite slice_splice_disj by lia.
Qed.

(** A report of one block, from construction on a four-byte header to the wire. *)
Lemma single_block h b :
  length h = 4%nat -> bytes h -> length b = 24%nat -> bytes b ->
  exists k k1 k2, from_header h 4 = Ok k /\ AddRrBlock k b = Ok k1 /\
    GetData k1 = Ok (k2, Some (wire [1; 0; 0; 0] [b])) /\ GetLen k2 = 32%nat.
Proof.
  intros Hh Hhb Hb Hbb. assert (H0 : length zeros1500 = 1500%nat) by reflexivity.
  unfold from_header. rewrite rd_bytes_ok by lia. cbn [rbind].
  rewrite slice_all by lia. rewrite wr_bytes_ok by lia. cbn [rbind].
  set (k := mk (splice 0 h zeros1500) [] 4).
  assert (Hk : holds k []).
  { split; cbn [k data rr_blocks_ length];
      [by rewrite length_splice by lia|apply bytes_splice; [bytes_done|done]|done|done|lia]. }
  destruct (AddRrBlock_holds k [] b Hk Hb Hbb ltac:(cbn; lia)) as (k1 & Hk1 & Hh1).
  destruct (GetData_holds k1 [b] Hh1 ltac:(cbn; lia)) as (k2 & Hk2 & _ & Hl2).
  exists k, k1, k2. split_and!; [done..|]. unfold GetLen. rewrite Hl2.
  unfold AddRrBlock in Hk1. cbn [k rr_blocks_ last] in Hk1.
  apply rbind_Ok_inv in Hk1 as (d & _ & [= <-]). reflexivity.
Qed.

(** A datagram copied into the zeroed array is read back as it came. *)
Lemma loaded w :
  bytes w -> (length w <= 1500)%nat ->
  let d := splice 0 w zeros1500 in
  wr_bytes zeros1500 0 w = Ok d /\ bytes d /\ length d = 1500%nat /\
  forall o m, (o + m <= length w)%nat -> slice o m d = slice o m w.
Proof.
  intros Hb Hl d. assert (H0 : length zeros1500 = 1500%nat) by reflexivity.
  split_and!; [apply wr_bytes_ok; lia|apply bytes_splice; [bytes_done|done]|unfold d; rewrite length_splice; lia|].
  intros o m Ho. rewrite <- (Nat.add_0_l o) at 1. rewrite <- (slice_slice 0 (length w)) by lia.
  unfold d. by rewrite slice_splice_eq by lia.
Qed.

Definition block_ok (b : list Z) : Prop := length b = 24%nat /\ bytes b.

Lemma blocks_bytes blocks :
  Forall block_ok blocks -> length (concat blocks) = (24 * length blocks)%nat /\ bytes (concat blocks).
Proof.
  induction 1 as [|b l [Hb Hbb] _ [IH1 IH2]]; [split; [done|constructor]|].
  cbn [concat]. rewrite length_app, IH1, Hb. cbn [length].
  split; [lia|by apply Forall_app].
Qed.

(** Parsing a report that fits the array finds its blocks, each with its bytes. *)
Lemma Parse_wire ssrc blocks :
  length ssrc = 4%nat -> bytes ssrc -> Forall block_ok blocks -> (1 <= length blocks <= 31)%nat ->
  exists k, Parse (wire ssrc blocks) (8 + 24 * length blocks) = Ok k /\ holds k blocks /\
    GetReporterSsrc k = Ok (be_val ssrc).
Proof.
  intros Hls Hbs Hbl Hn. destruct (blocks_bytes blocks Hbl) as [Hlc Hbc].
  set (n := length blocks) in *.
  set (hl := be_bytes 2 (1 + 6 * Z.of_nat n)).
  assert (Hhl : length hl = 2%nat /\ bytes hl) by (unfold hl; auto with buf). destruct Hhl as [Hhl Hbhl].
  assert (Hw : wire ssrc blocks = [128 + Z.of_nat n; 201] ++ hl ++ ssrc ++ concat blocks) by done.
  set (w := wire ssrc blocks) in *.
  assert (Hlw : length w = (8 + 24 * n)%nat) by (rewrite Hw, !length_app, Hhl, Hls, Hlc; done).
  assert (Hbw : bytes w).
  { rewrite Hw. repeat (apply Forall_app; split); try done. repeat constructor; unfold byte; lia. }
  assert (Hn16 : net16 w 2 = 1 + 6 * Z.of_nat n).
  { unfold net16. rewrite Hw, slice_mid by done. unfold hl. rewrite be_val_be_bytes.
    apply Z.mod_small. cbn; lia. }
  destruct (loaded w Hbw ltac:(lia)) as (Hwr & Hbd & Hld & Hsl). set (d := splice 0 w zeros1500) in *.
  unfold Parse, from_header, RtcpCommonHeader.size, RtcpRrBlockInfo.size.
  destruct (Nat.ltb_spec (8 + 24 * n) (4 + 4)); [lia|].
  rewrite rd_bytes_ok by lia. rewrite slice_all by lia. cbn [rbind]. rewrite Hwr. cbn [rbind].
  rewrite GetRtcpLength_eq by (done || lia). cbn [Nat.add rbind]. rewrite Hn16.
  destruct (Z.leb_spec ((1 + 6 * Z.of_nat n + 1) * 4) 8); [lia|].
  rewrite (scan_blocks_places 24 n) by lia. cbn [rbind].
  eexists. split; [reflexivity|]. split.
  - split; cbn [data rr_blocks_]; try done; [|lia]. fold n. rewrite Hsl, Hw by lia.
    rewrite !app_assoc. apply slice_suffix; [rewrite !length_app; cbn [length]; lia|done].
  - unfold GetReporterSsrc. cbn [data]. rewrite get32_eq by (done || lia). unfold net32.
    rewrite Hsl, Hw by lia. rewrite app_assoc. rewrite slice_mid; [done|rewrite length_app; cbn [length]; lia|done].
Qed.

(** The [i]-th block of a report that holds [blocks]. *)
Lemma holds_block k blocks i b :
  holds k blocks -> Forall block_ok blocks -> blocks !! i = Some b ->
  rr_blocks_ k !! i = Some (8 + 24 * i)%nat /\ slice (8 + 24 * i) 24 (data k) = b.
Proof.
  intros [Hl Hby Hp Hs Hf] Hbl Hi. pose proof (lookup_lt_Some _ _ _ Hi) as Hlt. split.
  - rewrite Hp. unfold places. rewrite list_lookup_fmap, lookup_seq_lt by done. done.
  - rewrite <- (slice_slice 8 (24 * length blocks)) by lia. rewrite Hs.
    clear Hp Hs Hf. revert blocks Hbl Hi Hlt. induction i as [|i IH]; intros [|b0 bs] Hbl Hi Hlt; try done.
    + injection Hi as ->. inversion Hbl as [|? ? [Hb _]]; subst. by apply slice_prefix.
    + inversion Hbl as [|? ? [Hb _] Hbs]; subst. cbn [concat]. simpl in Hi, Hlt.
      unfold slice in *. rewrite drop_app_ge by lia. rewrite Hb.
      replace (24 * S i - 24)%nat with (24 * i)%nat by lia. apply IH; [done|done|lia].
Qed.

(** a receiver report of 1 to 31 blocks built with [AddRrBlock] is sent as RFC 3550's
    RR, with the blocks in order; parsing those bytes finds every block with its fields.
    The reporter's SSRC is written in host order, so the 1 the code means is 16777216
    on the wire. *)
Theorem rr_roundtrip (reports : list RtcpRrBlockInfo.report) :
  let blocks := map RtcpRrBlockInfo.wire reports in
  (1 <= length reports <= 31)%nat ->
  (exists k k', add_all new_RtcpRrPacket blocks = Ok k /\
     GetData k = Ok (k', Some (wire [1; 0; 0; 0] blocks))) /\
  (exists k, Parse (wire [1; 0; 0; 0] blocks) (8 + 24 * length reports) = Ok k /\
     GetReporterSsrc k = Ok 16777216 /\ length (GetRrBlocks k) = length reports /\
     forall i r, reports !! i = Some r -> exists p, GetRrBlocks k !! i = Some p /\
       RtcpRrBlockInfo.read (data k) p = Ok (RtcpRrBlockInfo.mkreport
         (u32 (RtcpRrBlockInfo.rp_ssrc r)) (u8 (RtcpRrBlockInfo.rp_frac r))
         (RtcpRrBlockInfo.rp_lost r mod 16777216) (u32 (RtcpRrBlockInfo.rp_highest r))
         (u32 (RtcpRrBlockInfo.rp_jitter r)) (u32 (RtcpRrBlockInfo.rp_lsr r))
         (u32 (RtcpRrBlockInfo.rp_dlsr r)))).
Proof.
  intros blocks Hn.
  assert (Hbl : Forall block_ok blocks).
  { apply Forall_map, Forall_true. intros r. split; [done|apply RtcpRrBlockInfo.block_bytes_wire]. }
  assert (Hlb : length blocks = length reports) by apply length_map. split.
  - destruct (add_all_holds blocks new_RtcpRrPacket [] new_holds Hbl) as (k & Hk & Hh); [cbn; lia|].
    destruct (GetData_holds k blocks Hh ltac:(lia)) as (k' & Hg & _). by exists k, k'.
  - destruct (Parse_wire [1; 0; 0; 0] blocks) as (k & Hk & Hh & Hr); [done|bytes_done|done|lia|].
    rewrite <- Hlb. exists k. split_and!; [done|exact Hr| |].
    + unfold GetRrBlocks. destruct Hh as [_ _ -> _ _]. by rewrite length_places.
    + intros i r Hi. destruct (holds_block k blocks i (RtcpRrBlockInfo.wire r) Hh Hbl) as [H1 H2].
      { unfold blocks. by rewrite list_lookup_fmap, Hi. }
      exists (8 + 24 * i)%nat. split; [exact H1|].
      apply lookup_lt_Some in Hi. destruct Hh. apply RtcpRrBlockInfo.read_wire; (done || lia).
Qed.
Lemma rr_roundtrip_witness :
  exists k p, Parse (wire [1; 0; 0; 0] [RtcpRrBlockInfo.wire (RtcpRrBlockInfo.mkreport 7 25 3 65546 4 5 6)]) 32
    = Ok k /\ GetRrBlocks k !! 0%nat = Some p /\
    RtcpRrBlockInfo.read (data k) p = Ok (RtcpRrBlockInfo.mkreport 7 25 3 65546 4 5 6).
Proof.
  destruct (rr_roundtrip [RtcpRrBlockInfo.mkreport 7 25 3 65546 4 5 6]) as (_ & k & H1 & _ & _ & H2);
    [cbn; lia|].
  destruct (H2 0%nat _ eq_refl) as (p & Hp & Hr). exists k, p.
  split; [exact H1|]. split; [exact Hp|exact Hr].
Defined.

(** parsing a receiver report of up to 1496 bytes stays inside the datagram and the
    1500-byte array, and every block it finds can be read; a datagram of more than
    1500 bytes is copied past the end of the array. *)
Theorem rr_Parse_bounds (d : buf) (len : nat) :
  bytes d -> length d = len ->
  ((len <= 1496)%nat ->
   post (fun k => Forall (fun p => (p + RtcpRrBlockInfo.size <= length (data k))%nat) (GetRrBlocks k))
        (Parse d len)) /\
  ((1500 < len)%nat -> Parse d len = Undef OobWrite).
Proof.
  intros Hb Hl. unfold Parse, from_header, RtcpCommonHeader.size, RtcpRrBlockInfo.size. rewrite rd_bytes_ok, slice_all by lia. cbn [rbind]. split; intros Hlen.
  - destruct (Nat.ltb_spec len (4 + 4)); [done|].
    destruct (loaded d Hb ltac:(lia)) as (-> & _ & Hld & _). cbn [rbind].
    rewrite GetRtcpLength_eq by (done || lia). cbn [rbind].
    destruct (_ <=? 8); [by constructor|].
    eapply post_bind; [apply (scan_blocks_ok 24); lia|cbv beta]. intros l Hscan. cbn [post].
    eapply Forall_impl; [exact Hscan|]. cbv beta. cbn [data]. intros p [? (i & ->)]. rewrite Hld. lia.
  - destruct (Nat.ltb_spec len (4 + 4)); [lia|].
    assert (Hne : d <> []) by (intros ->; simpl in Hl; lia).
    by rewrite wr_bytes_oob by (first [change (length zeros1500) with 1500%nat; lia|done]).
Qed.
Lemma rr_Parse_bounds_witness : Parse (replicate 1501 0) 1501 = Undef OobWrite.
Proof.
  apply (proj2 (rr_Parse_bounds (replicate 1501 0) 1501 ltac:(bytes_done) ltac:(reflexivity))). lia.
Defined.

End RtcpRrPacket.
