(* ===== verification/RtcpFeedback.v ===== *)
(** [net/rtprtcp/rtcp_pspli.hpp] and [rtcpfb_nack.hpp]: the picture-loss and the
    generic-NACK feedback packets, built in place in a 1500-byte array. *)
From S2P Require Import Prelude ByteStream RtpPub RtcpReports.
Import ByteStream RtpPub.

Module RtcpPsPli.

Record t := mk { data : buf }.

Definition DataLen : nat := (RtcpCommonHeader.size + RtcpFbHeader.size)%nat.

Definition new_RtcpPsPli : res t :=
  let! d := RtcpCommonHeader.set_version zeros1500 0 2 in
  let! d := RtcpCommonHeader.set_padding d 0 0 in
  let! d := RtcpCommonHeader.set_count d 0 (RTCP_FB_PS_FMT_val FB_PS_PLI) in
  let! d := RtcpCommonHeader.set_packet_type d 0 (RTCP_TYPE_val RTCP_PSFB) in
  let! d := RtcpCommonHeader.set_length d 0 (htons 2) in
  Ok (mk d).

Definition SetSenderSsrc (k : t) (ssrc : Z) : res t :=
  let! d := RtcpFbHeader.set_sender_ssrc (data k) 4 (htonl ssrc) in Ok (mk d).
Definition SetMediaSsrc (k : t) (ssrc : Z) : res t :=
  let! d := RtcpFbHeader.set_media_ssrc (data k) 4 (htonl ssrc) in Ok (mk d).
Definition GetSenderSsrc (k : t) : res Z := let! v := RtcpFbHeader.sender_ssrc (data k) 4 in Ok (ntohl v).
Definition GetMediaSsrc (k : t) : res Z := let! v := RtcpFbHeader.media_ssrc (data k) 4 in Ok (ntohl v).
Definition GetData (k : t) : list Z := take DataLen (data k).

(** [None] is the null pointer. *)
Definition Parse (d : buf) (len : nat) : res (option t) :=
  if negb (len =? DataLen)%nat then Ok None else
  let! pkt := new_RtcpPsPli in
  let! l := rd_bytes d 0 len in
  let! d := wr_bytes (data pkt) 0 l in
  Ok (Some (mk d)).

(** The picture loss indication of RFC 4585. *)
Definition wire (sender media : Z) : list Z := [129; 206; 0; 2] ++ be_bytes 4 sender ++ be_bytes 4 media.

Definition filled (sender media : Z) : res t :=
  let! k := new_RtcpPsPli in
  let! k := SetSenderSsrc k sender in
  SetMediaSsrc k media.

Lemma filled_eq sender media : filled sender media = Ok (mk (wire sender media ++ replicate 1488 0)).
Proof.
  unfold filled, SetSenderSsrc, SetMediaSsrc, RtcpFbHeader.set_sender_ssrc, RtcpFbHeader.set_media_ssrc, wire.
  setoid_rewrite store32_htonl. cells sender. cells media. vm_compute. reflexivity.
Qed.
Lemma GetData_filled sender media : GetData (mk (wire sender media ++ replicate 1488 0)) = wire sender media.
Proof. unfold GetData. cbn [data]. by apply (slice_prefix _ _ 12). Qed.

(** a picture loss indication built through the setters is RFC 4585's twelve bytes,
    and parsing them gives back both SSRCs; any other length is refused. *)
Theorem pli_roundtrip (sender media : Z) :
  (exists k, filled sender media = Ok k /\ GetData k = wire sender media) /\
  (exists k, Parse (wire sender media) 12 = Ok (Some k) /\
     GetSenderSsrc k = Ok (u32 sender) /\ GetMediaSsrc k = Ok (u32 media) /\
     GetData k = wire sender media) /\
  (forall d len, len <> 12%nat -> Parse d len = Ok None).
Proof.
  assert (Hp : Parse (wire sender media) 12 = Ok (Some (mk (wire sender media ++ replicate 1488 0)))).
  { unfold wire. cells sender. cells media. vm_compute. reflexivity. }
  assert (Hb : bytes (wire sender media ++ replicate 1488 0)).
  { unfold wire. repeat (apply Forall_app; split); first [apply bytes_be_bytes|bytes_done]. }
  split_and!.
  - eexists. split; [apply filled_eq|apply GetData_filled].
  - eexists. split; [exact Hp|]. unfold GetSenderSsrc, GetMediaSsrc, RtcpFbHeader.sender_ssrc,
      RtcpFbHeader.media_ssrc. cbn [data Nat.add]. split_and!.
    + apply (get32_be _ 4 _ sender); [done|rewrite length_app, length_replicate; cbn; lia| |done]. reflexivity.
    + apply (get32_be _ 8 _ media); [done|rewrite length_app, length_replicate; cbn; lia| |done]. reflexivity.
    + apply GetData_filled.
  - intros d len Hne. unfold Parse. by rewrite (proj2 (Nat.eqb_neq _ _)) by done.
Qed.
Lemma pli_roundtrip_witness : Parse (wire 1 2) 13 = Ok None.
Proof. apply (pli_roundtrip 1 2). lia. Defined.

End RtcpPsPli.

Module RtcpFbNack.

(** [nack_blocks_] holds the places of the blocks in [data]. *)
Record t := mk { data : buf; data_len : nat; nack_blocks_ : list nat }.

Definition block_size : nat := 4.

(** The constructor does not clear the array: it holds [uninit]. *)
Definition new_RtcpFbNack (uninit : buf) (sender_ssrc media_ssrc : Z) : res t :=
  let data_len := (RtcpCommonHeader.size + RtcpFbHeader.size)%nat in
  let! d := RtcpCommonHeader.set_version uninit 0 2 in
  let! d := RtcpCommonHeader.set_padding d 0 0 in
  let! d := RtcpCommonHeader.set_count d 0 (RTCP_FB_RTP_FMT_val FB_RTP_NACK) in
  let! d := RtcpCommonHeader.set_packet_type d 0 (RTCP_TYPE_val RTCP_RTPFB) in
  let! d := RtcpCommonHeader.set_length d 0 (htons (u16 (u16 (Z.of_nat data_len) / 4 - 1))) in
  let! d := RtcpFbHeader.set_sender_ssrc d 4 (htonl sender_ssrc) in
  let! d := RtcpFbHeader.set_media_ssrc d 4 (htonl media_ssrc) in
  Ok (mk d data_len []).

(** The return value is [true] unless the datagram is too short. *)
Definition UpdateData (k : t) (d : buf) (len : nat) : res (t * bool) :=
  if (len <=? RtcpCommonHeader.size + RtcpFbHeader.size)%nat then Ok (k, false) else
  let! l := rd_bytes d 0 len in
  let! d := wr_bytes (data k) 0 l in
  let! blocks := scan_blocks block_size len 12 len in
  Ok (mk d len (nack_blocks_ k ++ blocks), true).

Definition Parse (uninit d : buf) (len : nat) : res (option t) :=
  if (len <=? RtcpCommonHeader.size + RtcpFbHeader.size)%nat then Ok None else
  let! pkt := new_RtcpFbNack uninit 0 0 in
  let! (pkt, _) := UpdateData pkt d len in
  Ok (Some pkt).

(** [1 << s] on a 32-bit int. *)
Definition shift_one (s : Z) : res Z :=
  if (0 <=? s) && (s <? 32) then Ok (Z.shiftl 1 s) else Undef BadShift.

Fixpoint bitmap_of (packet_id bitmap : Z) (seqs : list Z) : res Z :=
  match seqs with
  | [] => Ok bitmap
  | temp_seq :: seqs' =>
      let! m := shift_one (16 - (temp_seq - packet_id)) in
      bitmap_of packet_id (u16 (Z.lor bitmap m)) seqs'
  end.

Definition InsertBlock (k : t) (report_seqs : list Z) : res t :=
  match report_seqs with
  | [] => Undef OobRead
  | packet_id :: rest =>
      let! bitmap := bitmap_of packet_id 0 rest in
      let block := data_len k in
      let! d := store16 (data k) block (htons packet_id) in
      let! d := store16 d (block + 2) (htons bitmap) in
      let n := (data_len k + block_size)%nat in
      let! d := RtcpCommonHeader.set_length d 0 (htons (u16 (Z.of_nat n / 4 - 1))) in
      Ok (mk d n (nack_blocks_ k ++ [block]))
  end.

(** The loop of [InsertSeqList]; [acc] is [report_seqs]. *)
Fixpoint insert_loop (k : t) (acc seqs : list Z) : res t :=
  match seqs with
  | [] => match acc with [] => Ok k | _ => InsertBlock k acc end
  | lost_seq :: seqs' =>
      let acc := acc ++ [lost_seq] in
      if 16 <? lost_seq - default 0 (head acc)
      then let! k := InsertBlock k acc in insert_loop k [] seqs'
      else insert_loop k acc seqs'
  end.
Definition InsertSeqList (k : t) (seq_vec : list Z) : res t := insert_loop k [] seq_vec.

(** The inner loop of [GetLostSeqs]: 16 iterations exhaust a 16-bit mask. *)
Fixpoint mask_seqs (fuel : nat) (bit_mask seq : Z) : res (list Z) :=
  if bit_mask =? 0 then Ok [] else
  match fuel with
  | O => Undef OutOfFuel
  | S fuel' =>
      let! l := mask_seqs fuel' (Z.shiftr bit_mask 1) (u16 (seq + 1)) in
      Ok (if negb (Z.land bit_mask 1 =? 0) then seq :: l else l)
  end.

Fixpoint lost_loop (d : buf) (blocks : list nat) : res (list Z) :=
  match blocks with
  | [] => Ok []
  | b :: blocks' =>
      let! seq := load16 d b in
      let! mask := load16 d (b + 2) in
      let! l := mask_seqs 16 (ntohs mask) (u16 (ntohs seq + 1)) in
      let! rest := lost_loop d blocks' in
      Ok (ntohs seq :: l ++ rest)
  end.
Definition GetLostSeqs (k : t) : res (list Z) := lost_loop (data k) (nack_blocks_ k).

Definition GetSenderSsrc (k : t) : res Z := let! v := RtcpFbHeader.sender_ssrc (data k) 4 in Ok (ntohl v).
Definition GetMediaSsrc (k : t) : res Z := let! v := RtcpFbHeader.media_ssrc (data k) 4 in Ok (ntohl v).
Definition GetData (k : t) : list Z := take (data_len k) (data k).
Definition GetLen (k : t) : nat := data_len k.
Definition GetPayloadLen (k : t) : res Z :=
  let! l := RtcpCommonHeader.length (data k) 0 in Ok (ntohs l * 4).
Definition GetBaseSeq (k : t) (block : nat) : res Z := let! v := load16 (data k) block in Ok (ntohs v).
Definition GetBitask (k : t) (block : nat) : res Z := let! v := load16 (data k) (block + 2) in Ok (ntohs v).

(** * Decoding *)

(** RFC 4585: the packet id, and the [i+1]-th packet behind it for each set bit [i]. *)
Fixpoint lost_bits (n : nat) (i pid blp : Z) : list Z :=
  match n with
  | O => []
  | S n' => (if Z.testbit blp i then [u16 (pid + 1 + i)] else []) ++ lost_bits n' (i + 1) pid blp
  end.
Definition lost_of (pid blp : Z) : list Z := pid :: lost_bits 16 0 pid blp.

Lemma elem_of_lost_bits n i pid blp x :
  x ∈ lost_bits n i pid blp <->
  exists j, i <= j < i + Z.of_nat n /\ Z.testbit blp j = true /\ x = u16 (pid + 1 + j).
Proof.
  revert i; induction n as [|n IH]; intros i; simpl lost_bits.
  { split; [by intros ?%not_elem_of_nil|intros (j & ? & _); lia]. }
  rewrite elem_of_app, IH. split.
  - intros [Hx|(j & ? & ? & ?)]; [|exists j; split_and!; (done || lia)].
    destruct (Z.testbit blp i) eqn:E; [|by apply not_elem_of_nil in Hx].
    apply list_elem_of_singleton in Hx as ->. exists i. split_and!; (done || lia).
  - intros (j & Hj & Hb & ->). destruct (Z.eq_dec i j) as [<-|Hne].
    + left. rewrite Hb. by apply list_elem_of_singleton.
    + right. exists j. split_and!; (done || lia).
Qed.

Lemma lost_bits_nil n i pid blp : 0 <= i -> Z.shiftr blp i = 0 -> lost_bits n i pid blp = [].
Proof.
  revert i; induction n as [|n IH]; intros i Hi H0; [done|]. simpl.
  assert (Hb : forall j, i <= j -> Z.testbit blp j = false).
  { intros j Hj. replace j with ((j - i) + i) by lia. rewrite <- Z.shiftr_spec by lia.
    by rewrite H0, Z.testbit_0_l. }
  rewrite Hb by lia. apply IH; [lia|]. apply Z.bits_inj'. intros j Hj.
  rewrite Z.shiftr_spec, Hb, Z.testbit_0_l by lia. done.
Qed.

Lemma mask_seqs_bits n i pid blp :
  0 <= i -> 0 <= blp < 2 ^ (i + Z.of_nat n) ->
  mask_seqs n (Z.shiftr blp i) (u16 (pid + 1 + i)) = Ok (lost_bits n i pid blp).
Proof.
  revert i; induction n as [|n IH]; intros i Hi Hb; simpl mask_seqs.
  { rewrite Z.shiftr_div_pow2, Z.div_small by (rewrite ?Z.add_0_r in *; lia). done. }
  destruct (Z.eqb_spec (Z.shiftr blp i) 0) as [H0|H0]; [by rewrite lost_bits_nil|].
  rewrite Z.shiftr_shiftr by lia.
  replace (u16 (u16 (pid + 1 + i) + 1)) with (u16 (pid + 1 + (i + 1))) by zlia.
  rewrite IH by (lia || (replace (i + 1 + Z.of_nat n) with (i + Z.of_nat (S n)) by lia; done)).
  cbn [rbind]. f_equal. simpl lost_bits.
  replace (Z.testbit blp i) with (negb (Z.land (Z.shiftr blp i) 1 =? 0)); [by destruct (negb _)|].
  rewrite <- (Z.add_0_l i) at 2. rewrite <- Z.shiftr_spec by lia. rewrite Z.bit0_odd.
  change 1 with (Z.ones 1). rewrite Z.land_ones by lia. change (2 ^ 1) with 2.
  rewrite Zmod_odd. by destruct (Z.odd _).
Qed.

Lemma lost_loop_spec d blocks :
  bytes d -> Forall (fun p => p + 4 <= length d)%nat blocks ->
  lost_loop d blocks = Ok (flat_map (fun p => lost_of (net16 d p) (net16 d (p + 2))) blocks).
Proof.
  intros Hb. induction 1 as [|p l Hp _ IH]; [done|]. cbn [lost_loop flat_map].
  unfold load16. rewrite !rd_bytes_ok by lia. cbn [rbind].
  rewrite !ntohs_le_val by (by apply bytes_slice || (apply length_slice; lia)).
  fold (net16 d p). fold (net16 d (p + 2)). pose proof (net16_range d (p + 2) Hb ltac:(lia)).
  replace (u16 (net16 d p + 1)) with (u16 (net16 d p + 1 + 0)) by (f_equal; lia).
  rewrite <- (Z.shiftr_0_r (net16 d (p + 2))) at 1.
  rewrite mask_seqs_bits by (cbn; lia). cbn [rbind]. rewrite IH. done.
Qed.

Definition wf (k : t) : Prop :=
  bytes (data k) /\ length (data k) = 1500%nat /\ (12 <= data_len k <= 1500)%nat /\
  Forall (fun p => p + 4 <= 1500)%nat (nack_blocks_ k).

Lemma new_RtcpFbNack_wf uninit s m :
  bytes uninit -> length uninit = 1500%nat ->
  exists d, new_RtcpFbNack uninit s m = Ok (mk d 12 []) /\ bytes d /\ length d = 1500%nat /\
    slice 0 12 d = [129; 205; 0; 2] ++ be_bytes 4 s ++ be_bytes 4 m.
Proof.
  intros Hb Hl. unfold new_RtcpFbNack. rewrite rtcp_header_filled by (done || lia).
  unfold RtcpFbHeader.set_sender_ssrc, RtcpFbHeader.set_media_ssrc. rewrite !store32_htonl.
  set (h := _ ++ _).
  assert (Hh : h = [129; 205; 0; 2]) by reflexivity. clearbody h. subst h.
  rewrite wr_bytes_ok by buf_simp_side. cbn [rbind].
  rewrite store32_htonl, wr_bytes_ok by buf_simp_side. cbn [rbind Nat.add].
  pose proof (splice_app 0 [129; 205; 0; 2] (be_bytes 4 s) uninit) as E0.
  cbn [List.length Nat.add] in E0. rewrite E0 by buf_simp_side.
  pose proof (splice_app 0 ([129; 205; 0; 2] ++ be_bytes 4 s) (be_bytes 4 m) uninit) as E.
  rewrite length_app, length_be_bytes in E. cbn [List.length Nat.add] in E. rewrite E by buf_simp_side.
  rewrite <- app_assoc. eexists. split; [reflexivity|]. split_and!.
  - apply bytes_splice; [done|]. repeat (apply Forall_app; split); first [apply bytes_be_bytes|bytes_done].
  - rewrite length_splice; [done|buf_simp_side].
  - by rewrite slice_splice_eq by (rewrite ?length_app, ?length_be_bytes, ?Hl; cbn; lia).
Qed.

(** a NACK of [n] feedback entries that fits the array is decoded as RFC 4585 says:
    [GetLostSeqs] lists each entry's packet id and the packets its bitmap marks. *)
Theorem nack_decode (uninit d : buf) (n : nat) :
  bytes uninit -> length uninit = 1500%nat -> bytes d -> length d = (12 + 4 * n)%nat -> (1 <= n <= 372)%nat ->
  exists k, Parse uninit d (12 + 4 * n) = Ok (Some k) /\ GetData k = d /\
    GetLostSeqs k = Ok (flat_map (fun p => lost_of (net16 d p) (net16 d (p + 2))) (places 12 4 n)).
Proof.
  intros Hu Hul Hb Hl Hn. unfold Parse, UpdateData, RtcpCommonHeader.size, RtcpFbHeader.size, block_size.
  destruct (Nat.leb_spec (12 + 4 * n) (4 + 8)); [lia|].
  destruct (new_RtcpFbNack_wf uninit 0 0 Hu Hul) as (d0 & -> & Hb0 & Hl0 & _). cbn [rbind data].
  rewrite rd_bytes_ok, slice_all by lia. cbn [rbind].
  rewrite wr_bytes_ok by lia. cbn [rbind]. rewrite (scan_blocks_places 4 n) by lia. cbn [rbind nack_blocks_ app].
  eexists. split; [reflexivity|]. split.
  { unfold GetData. cbn [data data_len]. rewrite <- Hl. rewrite <- (drop_0 (splice 0 d d0)).
    change (slice 0 (length d) (splice 0 d d0) = d). by rewrite slice_splice_eq by lia. }
  unfold GetLostSeqs. cbn [data nack_blocks_]. rewrite lost_loop_spec.
  - f_equal.
    assert (Hin : Forall (fun p => 12 <= p /\ p + 4 <= 12 + 4 * n)%nat (places 12 4 n)).
    { apply Forall_map, Forall_forall. intros i Hi%elem_of_seq. lia. }
    assert (Hs : forall p, (p + 2 <= 12 + 4 * n)%nat -> net16 (splice 0 d d0) p = net16 d p).
    { intros p Hp. unfold net16. f_equal. rewrite <- (Nat.add_0_l p) at 1.
      rewrite <- (slice_slice 0 (length d)) by lia. by rewrite slice_splice_eq by lia. }
    induction Hin as [|p l [H1 H2] _ IH]; [done|]. cbn [flat_map]. rewrite IH. by rewrite !Hs by lia.
  - by apply bytes_splice.
  - apply Forall_map, Forall_forall. intros i Hi%elem_of_seq. rewrite length_splice; lia.
Qed.
Lemma nack_decode_witness :
  exists k, Parse zeros1500 [129; 205; 0; 3; 0; 0; 0; 1; 0; 0; 0; 2; 0; 10; 0; 5] 16 = Ok (Some k) /\
    GetLostSeqs k = Ok [10; 11; 13].
Proof.
  destruct (nack_decode zeros1500 [129; 205; 0; 3; 0; 0; 0; 1; 0; 0; 0; 2; 0; 10; 0; 5] 1)
    as (k & H1 & _ & H2); [bytes_done|reflexivity|bytes_done|reflexivity|lia|].
  exists k. split; [exact H1|exact H2].
Defined.

(** * Encoding *)

Lemma bitmap_of_spec pid rest : forall bm,
  0 <= bm < 65536 -> Forall (fun s => pid < s <= pid + 16) rest ->
  exists bm', bitmap_of pid bm rest = Ok bm' /\ 0 <= bm' < 65536 /\
    forall j, 0 <= j < 16 -> Z.testbit bm' j = true <-> Z.testbit bm j = true \/ exists s, s ∈ rest /\ j = 16 - (s - pid).
Proof.
  induction rest as [|s rest IH]; intros bm Hbm Hr.
  { exists bm. split_and!; try done; try lia. intros j _. split; [by left|].
    intros [?|(s & ?%not_elem_of_nil & _)]; done. }
  inversion Hr as [|? ? Hs Hrest]; subst. cbn [bitmap_of]. unfold shift_one.
  destruct (Z.leb_spec 0 (16 - (s - pid))); [|lia]. destruct (Z.ltb_spec (16 - (s - pid)) 32); [|lia].
  cbn [andb rbind]. set (m := Z.shiftl 1 _).
  destruct (IH (u16 (Z.lor bm m)) (u16_range _) Hrest) as (bm' & Hbm' & Hrange & Hbits).
  exists bm'. split_and!; [done|lia|lia|]. intros j Hj. rewrite Hbits by done.
  assert (Hu : Z.testbit (u16 (Z.lor bm m)) j = Z.testbit bm j || (j =? 16 - (s - pid))).
  { unfold u16. change 65536 with (2 ^ 16). rewrite Z.mod_pow2_bits_low by lia. rewrite Z.lor_spec. f_equal.
    unfold m. rewrite Z.shiftl_1_l, Z.pow2_bits_eqb by lia. apply Z.eqb_sym. }
  rewrite Hu, orb_true_iff, Z.eqb_eq. setoid_rewrite elem_of_cons. split.
  - intros [[?| ->]|(s' & ? & ->)]; [by left|right; exists s; auto|right; exists s'; auto].
  - intros [?|(s' & [->|?] & ->)]; [by left; left|by left; right|right; by exists s'].
Qed.

Lemma bitmap_of_bad pid good s tail : forall bm,
  Forall (fun s => pid < s <= pid + 16) good -> 16 < s - pid ->
  bitmap_of pid bm (good ++ s :: tail) = Undef BadShift.
Proof.
  induction good as [|g good IH]; intros bm Hg Hs; cbn [bitmap_of app]; unfold shift_one.
  { by destruct (Z.leb_spec 0 (16 - (s - pid))); [lia|]. }
  inversion Hg as [|? ? Hgg Hgood]; subst.
  destruct (Z.leb_spec 0 (16 - (g - pid))); [|lia]. destruct (Z.ltb_spec (16 - (g - pid)) 32); [|lia].
  cbn [andb rbind]. by apply IH.
Qed.

Lemma insert_loop_in_window k pid seqs : forall acc,
  Forall (fun s => s - pid <= 16) seqs -> insert_loop k (pid :: acc) seqs = InsertBlock k (pid :: acc ++ seqs).
Proof.
  induction seqs as [|s seqs IH]; intros acc Hs; cbn [insert_loop]; [by rewrite app_nil_r|].
  inversion Hs; subst. cbn [app head default]. unfold default, from_option. cbn [id].
  destruct (Z.ltb_spec 16 (s - pid)); [lia|]. rewrite IH by done. by rewrite <- app_assoc.
Qed.

Lemma insert_loop_flush k pid good s tail : forall acc,
  Forall (fun s => s - pid <= 16) good -> 16 < s - pid ->
  insert_loop k (pid :: acc) (good ++ s :: tail) =
    let! k := InsertBlock k (pid :: acc ++ good ++ [s]) in insert_loop k [] tail.
Proof.
  induction good as [|g good IH]; intros acc Hg Hs; cbn [insert_loop app head default];
    unfold default, from_option; cbn [id].
  - by destruct (Z.ltb_spec 16 (s - pid)); [|lia].
  - inversion Hg; subst. destruct (Z.ltb_spec 16 (g - pid)); [lia|].
    rewrite IH by done. by rewrite <- !app_assoc.
Qed.

Lemma InsertBlock_spec k pid rest :
  wf k -> (data_len k + 4 <= 1500)%nat -> 0 <= pid < 65536 -> Forall (fun s => pid < s <= pid + 16) rest ->
  exists bm d, InsertBlock k (pid :: rest) = Ok (mk d (data_len k + 4) (nack_blocks_ k ++ [data_len k])) /\
    bitmap_of pid 0 rest = Ok bm /\ 0 <= bm < 65536 /\ bytes d /\ length d = 1500%nat /\
    net16 d (data_len k) = pid /\ net16 d (data_len k + 2) = bm /\
    net16 d 2 = u16 (Z.of_nat (data_len k + 4) / 4 - 1) /\
    (forall j, (j < 2 \/ 4 <= j < data_len k)%nat -> d !! j = data k !! j).
Proof.
  intros (Hb & Hl & Hlen & _) Hroom Hpid Hr. unfold InsertBlock.
  destruct (bitmap_of_spec pid rest 0 ltac:(lia) Hr) as (bm & Hbm & Hrange & _). rewrite Hbm. cbn [rbind].
  set (p := data_len k) in *. unfold RtcpCommonHeader.set_length, block_size.
  rewrite !store16_htons. rewrite wr_bytes_ok by buf_simp_side. cbn [rbind].
  rewrite store16_htons, wr_bytes_ok by buf_simp_side. cbn [rbind].
  rewrite store16_htons, wr_bytes_ok by buf_simp_side. cbn [rbind].
  set (ln := u16 _). eexists bm, _. split; [reflexivity|]. split; [done|].
  assert (Hln : 0 <= ln < 65536) by apply u16_range.
  split_and!; try lia.
  - auto with buf.
  - rewrite !length_splice by buf_simp_side. done.
  - unfold net16. buf_simp. rewrite slice_splice_eq by buf_simp_side.
    rewrite be_val_be_bytes. by apply Z.mod_small.
  - unfold net16. buf_simp. rewrite slice_splice_eq by buf_simp_side.
    rewrite be_val_be_bytes. by apply Z.mod_small.
  - unfold net16. cbn [Nat.add]. rewrite slice_splice_eq by buf_simp_side.
    rewrite be_val_be_bytes. by apply Z.mod_small.
  - intros j Hj. cbn [Nat.add].
    rewrite !lookup_splice by buf_simp_side. rewrite !length_be_bytes.
    by rewrite !decide_False by lia.
Qed.

(** a list of lost packets that spans at most 17 sequence numbers is put into one
    feedback entry, but with its bitmap mirrored: [16 - d] is the bit set for the packet
    [d] behind the first, where RFC 4585, and [GetLostSeqs], put bit [d - 1].  So the
    receiver of the NACK reads the packet [17 - d] behind the first instead. *)
Theorem nack_insert_mirrored (uninit : buf) (sender media pid : Z) (rest : list Z) :
  bytes uninit -> length uninit = 1500%nat -> 0 <= pid < 65536 ->
  Forall (fun s => pid < s <= pid + 16) rest ->
  exists k k' l, new_RtcpFbNack uninit sender media = Ok k /\ InsertSeqList k (pid :: rest) = Ok k' /\
    GetLen k' = 16%nat /\ GetPayloadLen k' = Ok 12 /\ GetLostSeqs k' = Ok l /\
    forall x, x ∈ l <-> x = pid \/ exists s, s ∈ rest /\ x = u16 (pid + 17 - (s - pid)).
Proof.
  intros Hu Hul Hpid Hr. destruct (new_RtcpFbNack_wf uninit sender media Hu Hul) as (d0 & Hnew & Hb0 & Hl0 & Hs0).
  assert (Hwf : wf (mk d0 12 [])) by (split_and!; cbn [data data_len nack_blocks_]; auto; lia).
  destruct (InsertBlock_spec (mk d0 12 []) pid rest Hwf ltac:(cbn; lia) Hpid Hr)
    as (bm & d & Hins & Hbm & Hrange & Hbd & Hld & Hn1 & Hn2 & Hn3 & _).
  cbn [data data_len nack_blocks_ app Nat.add] in *.
  exists (mk d0 12 []), (mk d 16 [12%nat]), (lost_of pid bm).
  split; [exact Hnew|]. split.
  { unfold InsertSeqList. cbn [insert_loop app head]. unfold default, from_option. cbn [id].
    destruct (Z.ltb_spec 16 (pid - pid)); [lia|]. rewrite insert_loop_in_window; [exact Hins|].
    eapply Forall_impl; [exact Hr|]. cbv beta. lia. }
  split; [done|]. split.
  { unfold GetPayloadLen, RtcpCommonHeader.length. cbn [data Nat.add].
    rewrite (load16_bind d 2 (fun v => Ok (v * 4))) by (done || lia). by rewrite Hn3. }
  split.
  { unfold GetLostSeqs. cbn [data nack_blocks_]. rewrite lost_loop_spec by (auto; repeat constructor; lia).
    cbn [flat_map]. rewrite app_nil_r. cbn [Nat.add]. by rewrite Hn1, Hn2. }
  destruct (bitmap_of_spec pid rest 0 ltac:(lia) Hr) as (bm' & Hbm' & _ & Hbits).
  assert (bm' = bm) as -> by congruence.
  intros x. unfold lost_of. rewrite elem_of_cons, elem_of_lost_bits.
  setoid_rewrite Z.testbit_0_l in Hbits. rewrite Forall_forall in Hr. split.
  - intros [->|(j & Hj & Hb & ->)]; [by left|right]. apply Hbits in Hb as [?|(s & Hs & ->)]; [done| |lia].
    exists s. split; [done|]. f_equal. lia.
  - intros [->|(s & Hs & ->)]; [by left|right]. specialize (Hr s Hs). cbv beta in Hr.
    exists (16 - (s - pid)). split_and!; [lia|lia|apply Hbits; [lia|right; by exists s]|f_equal; lia].
Qed.
Lemma nack_insert_mirrored_witness :
  exists k k' l, new_RtcpFbNack zeros1500 0 7 = Ok k /\ InsertSeqList k [10; 11] = Ok k' /\
    GetLostSeqs k' = Ok l /\ 26 ∈ l /\ 11 ∉ l.
Proof.
  destruct (nack_insert_mirrored zeros1500 0 7 10 [11]) as (k & k' & l & H1 & H2 & _ & _ & H3 & Hx);
    [bytes_done|reflexivity|lia|repeat constructor; lia|].
  exists k, k', l. split; [exact H1|]. split; [exact H2|]. split; [exact H3|]. split.
  - apply Hx. right. exists 11. split; [by apply list_elem_of_singleton|reflexivity].
  - intros [?|(s & ->%list_elem_of_singleton & Hs)]%Hx; [lia|]. vm_compute in Hs. discriminate Hs.
Defined.

(** an ascending list that spans more than 17 sequence numbers always shifts by a
    negative amount: the packet that closes an entry is put into that entry, more than
    16 behind its first. *)
Theorem nack_insert_wide (k : t) (pid s : Z) (good tail : list Z) :
  Forall (fun s => pid < s <= pid + 16) good -> pid + 16 < s ->
  InsertSeqList k (pid :: good ++ s :: tail) = Undef BadShift.
Proof.
  intros Hg Hs. unfold InsertSeqList. cbn [insert_loop app head]. unfold default, from_option. cbn [id].
  destruct (Z.ltb_spec 16 (pid - pid)); [lia|]. rewrite insert_loop_flush; [|by eapply Forall_impl; [exact Hg|]; cbv beta; lia|lia].
  cbn [app InsertBlock]. by rewrite bitmap_of_bad by (done || lia).
Qed.
Lemma nack_insert_wide_witness :
  InsertSeqList (mk zeros1500 12 []) [100; 110; 117; 118] = Undef BadShift.
Proof. apply (nack_insert_wide _ 100 117 [110] [118]); [repeat constructor; lia|lia]. Defined.

End RtcpFbNack.
