(* ===== verification/RtcpXr.v ===== *)
(** [net/rtprtcp/rtcp_xr.hpp], [rtcp_xr_rrt.hpp] and [rtcp_xr_dlrr.hpp]: the two extended
    reports (RFC 3611) of the round-trip measurement, built in a 1500-byte array. *)
From S2P Require Import Prelude ByteStream RtpPub RtcpReports.
Import ByteStream RtpPub.

(** [XrCommonData], the head of a report block. *)
Module XrCommonData.
Definition size : nat := 4.
Definition set_bt (b : buf) (p : nat) (v : Z) := wr8 b p (u8 v).
Definition set_reserver (b : buf) (p : nat) (v : Z) := wr8 b (p + 1) (u8 v).
Definition block_length (b : buf) (p : nat) := load16 b (p + 2).
Definition set_block_length (b : buf) (p : nat) (v : Z) := store16 b (p + 2) v.
Definition init {A} (b : buf) (p : nat) (bt len : Z) (K : buf -> res A) : res A :=
  let! d := set_bt b p bt in
  let! d := set_reserver d p 0 in
  let! d := set_block_length d p (htons len) in K d.

Lemma init_eq {A} b p bt len (K : buf -> res A) :
  (p + 4 <= List.length b)%nat -> init b p bt len K = K (splice p ([u8 bt; 0] ++ be_bytes 2 len) b).
Proof.
  intros H. unfold init, set_bt, set_reserver, set_block_length. rewrite store16_htons || idtac.
  rewrite wr8_ok by lia. cbn [rbind]. rewrite wr8_ok by (rewrite length_insert; lia). cbn [rbind].
  rewrite store16_htons, wr_bytes_ok by buf_simp_side. cbn [rbind]. f_equal.
  rewrite (wr8_splice b p) by lia. rewrite wr8_splice by buf_simp_side.
  pose proof (splice_app p [u8 bt] [u8 0] b) as E1. cbn [List.length app] in E1. rewrite E1 by lia.
  pose proof (splice_app p [u8 bt; u8 0] (be_bytes 2 len) b) as E2. cbn [List.length] in E2.
  rewrite E2 by (rewrite length_be_bytes; lia). done.
Qed.
End XrCommonData.

Module XrRrt.

Definition DataLen : nat := (RtcpCommonHeader.size + 4 + XrCommonData.size + 8)%nat.
Record t := mk { data : buf }.

Definition InitRrtHeader (d : buf) (p : nat) : res buf :=
  XrCommonData.init d p (XR_BLOCK_TYPE_val XR_RRT) 2 Ok.

Definition new_XrRrt : res t :=
  let! d := RtcpCommonHeader.set_version zeros1500 0 2 in
  let! d := RtcpCommonHeader.set_padding d 0 0 in
  let! d := RtcpCommonHeader.set_count d 0 0 in
  let! d := RtcpCommonHeader.set_packet_type d 0 (RTCP_TYPE_val RTCP_XR) in
  let! d := RtcpCommonHeader.set_length d 0 (htons (u16 (Z.of_nat DataLen / 4 - 1))) in
  let! d := InitRrtHeader d 8 in
  Ok (mk d).

Definition SetSsrc (k : t) (ssrc : Z) : res t := let! d := put32 (data k) 4 ssrc in Ok (mk d).
Definition GetSsrc (k : t) : res Z := get32 (data k) 4.
Definition SetNtp (k : t) (ntp_sec ntp_frac : Z) : res t :=
  let! d := put32 (data k) 12 ntp_sec in
  let! d := put32 d 16 ntp_frac in Ok (mk d).
Definition GetNtp (k : t) : res (Z * Z) :=
  let! s := get32 (data k) 12 in let! f := get32 (data k) 16 in Ok (s, f).
Definition GetData (k : t) : list Z := take DataLen (data k).
Definition parse (k : t) (rtcp_data : buf) (len : nat) : res t :=
  if negb (len =? DataLen)%nat then Undef AssertFail else
  let! l := rd_bytes rtcp_data 0 len in
  let! d := wr_bytes (data k) 0 l in Ok (mk d).

(** The receiver reference time report of RFC 3611. *)
Definition wire (ssrc ntp_sec ntp_frac : Z) : list Z :=
  [128; 207; 0; 4] ++ be_bytes 4 ssrc ++ [4; 0; 0; 2] ++ be_bytes 4 ntp_sec ++ be_bytes 4 ntp_frac.

Definition filled (ssrc ntp_sec ntp_frac : Z) : res t :=
  let! k := new_XrRrt in
  let! k := SetSsrc k ssrc in
  SetNtp k ntp_sec ntp_frac.

(** a receiver reference time report built through the setters is RFC 3611's on the
    wire, and parsing those bytes into any report gives back the SSRC and the NTP
    time; a datagram of another length fails the assertion. *)
Theorem rrt_roundtrip (ssrc ntp_sec ntp_frac : Z) :
  (exists k, filled ssrc ntp_sec ntp_frac = Ok k /\ GetData k = wire ssrc ntp_sec ntp_frac) /\
  (forall k0, new_XrRrt = Ok k0 -> exists k, parse k0 (wire ssrc ntp_sec ntp_frac) 20 = Ok k /\
     GetSsrc k = Ok (u32 ssrc) /\ GetNtp k = Ok (u32 ntp_sec, u32 ntp_frac)) /\
  (forall k d len, len <> 20%nat -> parse k d len = Undef AssertFail).
Proof.
  set (full := wire ssrc ntp_sec ntp_frac ++ replicate 1480 0).
  assert (Hf : filled ssrc ntp_sec ntp_frac = Ok (mk full)).
  { unfold filled, SetSsrc, SetNtp, full, wire. setoid_rewrite put32_eq.
    cells ssrc. cells ntp_sec. cells ntp_frac. vm_compute. reflexivity. }
  assert (Hp : (let! k := new_XrRrt in parse k (wire ssrc ntp_sec ntp_frac) 20) = Ok (mk full)).
  { unfold full, wire. cells ssrc. cells ntp_sec. cells ntp_frac. vm_compute. reflexivity. }
  assert (Hb : bytes full).
  { unfold full, wire. repeat (apply Forall_app; split); first [apply bytes_be_bytes|bytes_done]. }
  assert (Hl : length full = 1500%nat) by (unfold full; by rewrite length_app, length_replicate).
  split_and!.
  - eexists. split; [exact Hf|]. unfold GetData. cbn [data]. by apply (slice_prefix _ _ 20).
  - intros k0 Hk0. rewrite Hk0 in Hp. cbn [rbind] in Hp. eexists. split; [exact Hp|].
    unfold GetSsrc, GetNtp. cbn [data].
    assert (Hg : forall p v, (p + 4 <= 20)%nat -> slice p 4 full = be_bytes 4 v -> get32 full p = Ok (u32 v))
      by (intros p v ? Hv; apply (get32_be full p _ v); (done || lia)).
    by rewrite (Hg 4%nat ssrc), (Hg 12%nat ntp_sec), (Hg 16%nat ntp_frac) by (lia || reflexivity).
  - intros k d len Hne. unfold parse. by rewrite (proj2 (Nat.eqb_neq _ _)) by done.
Qed.
Lemma rrt_roundtrip_witness : parse (mk zeros1500) (wire 1 2 3) 21 = Undef AssertFail.
Proof. apply (rrt_roundtrip 1 2 3). lia. Defined.

End XrRrt.

Module XrDlrr.

(** The three words of a sub-block. *)
Record XrDlrrData := mkdlrr { d_ssrc : Z; d_lrr : Z; d_dlrr : Z }.

(** [dlrr_block] is the place of the last sub-block, [None] before the first; the other
    pointers of the class are constant. *)
Record t := mk { data : buf; data_len : nat; dlrr_block : option nat; block_count : nat }.

Definition InitDlrrHeader (d : buf) (p : nat) : res buf :=
  XrCommonData.init d p (XR_BLOCK_TYPE_val XR_DLRR) 3 Ok.

Definition new_XrDlrr : res t :=
  let! d := RtcpCommonHeader.set_version zeros1500 0 2 in
  let! d := RtcpCommonHeader.set_padding d 0 0 in
  let! d := RtcpCommonHeader.set_count d 0 0 in
  let! d := RtcpCommonHeader.set_packet_type d 0 (RTCP_TYPE_val RTCP_XR) in
  let! d := RtcpCommonHeader.set_length d 0 0 in
  Ok (mk d 0 None 0).

Definition SetSsrc (k : t) (ssrc : Z) : res t :=
  let! d := put32 (data k) 4 ssrc in Ok (mk d (data_len k) (dlrr_block k) (block_count k)).
Definition GetSsrc (k : t) : res Z := get32 (data k) 4.

Definition AddrDlrrBlock (k : t) (ssrc lrr dlrr : Z) : res t :=
  let! (d, p) :=
    match dlrr_block k with
    | None => let! d := InitDlrrHeader (data k) 8 in Ok (d, 12%nat)
    | Some b =>
        let! v := XrCommonData.block_length (data k) 8 in
        let! d := XrCommonData.set_block_length (data k) 8 (u16 (v + htons 3)) in
        Ok (d, (b + 12)%nat)
    end in
  let! d := put32 d p ssrc in
  let! d := put32 d (p + 4) lrr in
  let! d := put32 d (p + 8) dlrr in
  let n := S (block_count k) in
  let len := (4 + XrCommonData.size + 12 * n)%nat in
  let! d := RtcpCommonHeader.set_length d 0 (htons (u16 (Z.of_nat len) / 4)) in
  Ok (mk d (RtcpCommonHeader.size + 4 + XrCommonData.size + 12 * n) (Some p) n).

Fixpoint read_blocks (d : buf) (p count : nat) : res (list XrDlrrData) :=
  match count with
  | O => Ok []
  | S count' =>
      let! a := get32 d p in
      let! b := get32 d (p + 4) in
      let! c := get32 d (p + 8) in
      let! l := read_blocks d (p + 12) count' in
      Ok (mkdlrr a b c :: l)
  end.
Definition GetDlrrBlocks (k : t) : res (list XrDlrrData) :=
  if (data_len k <? RtcpCommonHeader.size + 4 + XrCommonData.size + 12)%nat then Ok [] else
  read_blocks (data k) 12 ((data_len k - RtcpCommonHeader.size - 4 - XrCommonData.size) / 12).
Definition GetData (k : t) : list Z := take (data_len k) (data k).

Fixpoint add_all (k : t) (l : list XrDlrrData) : res t :=
  match l with
  | [] => Ok k
  | b :: l' => let! k := AddrDlrrBlock k (d_ssrc b) (d_lrr b) (d_dlrr b) in add_all k l'
  end.

Definition block_wire (b : XrDlrrData) : list Z :=
  be_bytes 4 (d_ssrc b) ++ be_bytes 4 (d_lrr b) ++ be_bytes 4 (d_dlrr b).
(** The DLRR report of RFC 3611 with these sub-blocks, but for the block length [bl]. *)
Definition wire (ssrc bl : Z) (l : list XrDlrrData) : list Z :=
  [128; 207] ++ be_bytes 2 (2 + 3 * Z.of_nat (length l)) ++ be_bytes 4 ssrc ++ [5; 0] ++ be_bytes 2 bl ++
  concat (map block_wire l).

Record holds (k : t) (ssrc : Z) (l : list XrDlrrData) : Prop := {
  h_bytes : bytes (data k);
  h_length : length (data k) = 1500%nat;
  h_count : block_count k = length l;
  h_block : dlrr_block k = match length l with O => None | S n => Some (12 + 12 * n)%nat end;
  h_len : l <> [] -> data_len k = (12 + 12 * length l)%nat;
  h_head : slice 0 2 (data k) = [128; 207];
  h_total : l <> [] -> slice 2 2 (data k) = be_bytes 2 (2 + 3 * Z.of_nat (length l));
  h_ssrc : slice 4 4 (data k) = be_bytes 4 ssrc;
  h_init : l <> [] -> slice 8 4 (data k) = [5; 0; 0; (3 * Z.of_nat (length l)) mod 256];
  h_blocks : slice 12 (12 * length l) (data k) = concat (map block_wire l);
  h_fit : (12 + 12 * length l <= 1500)%nat
}.

Lemma length_block_wire b : length (block_wire b) = 12%nat.
Proof. reflexivity. Qed.
Lemma bytes_block_wire b : bytes (block_wire b).
Proof. unfold block_wire. repeat (apply Forall_app; split); apply bytes_be_bytes. Qed.

Lemma dlrr_new_holds ssrc : exists k, (let! k := new_XrDlrr in SetSsrc k ssrc) = Ok k /\ holds k ssrc [].
Proof.
  assert (H : (let! k := new_XrDlrr in SetSsrc k ssrc)
              = Ok (mk ([128; 207; 0; 0] ++ be_bytes 4 ssrc ++ replicate 1492 0) 0 None 0)).
  { unfold SetSsrc. setoid_rewrite put32_eq. cells ssrc. vm_compute. reflexivity. }
  eexists. split; [exact H|]. split; cbn [data data_len dlrr_block block_count length]; try done; try lia.
  - repeat (apply Forall_app; split); first [apply bytes_be_bytes|bytes_done].
Qed.

(** The block header after the first part of [AddrDlrrBlock]. *)
Lemma AddrDlrrBlock_header k ssrc l :
  holds k ssrc l -> exists x,
    (match dlrr_block k with
     | None => let! d := InitDlrrHeader (data k) 8 in Ok (d, 12%nat)
     | Some b =>
         let! v := XrCommonData.block_length (data k) 8 in
         let! d := XrCommonData.set_block_length (data k) 8 (u16 (v + htons 3)) in
         Ok (d, (b + 12)%nat)
     end) = Ok (splice 8 [5; 0; 0; (3 * Z.of_nat (S (length l))) mod 256] (data k), x) /\
    x = (12 + 12 * length l)%nat.
Proof.
  intros [Hb Hl Hc Hbl _ _ _ _ Hi _ Hf]. rewrite Hbl. destruct l as [|b l]; cbn [length] in *.
  - unfold InitDlrrHeader. rewrite XrCommonData.init_eq by lia. eexists. split; [reflexivity|done].
  - specialize (Hi ltac:(done)). set (v := (3 * Z.of_nat (S (length l))) mod 256) in *.
    assert (H2 : slice 10 2 (data k) = [0; v]).
    { change 10%nat with (8 + 2)%nat. rewrite <- (slice_slice 8 4) by lia. by rewrite Hi. }
    unfold XrCommonData.block_length, XrCommonData.set_block_length, load16, store16. cbn [Nat.add].
    rewrite rd_bytes_ok by lia. rewrite H2. cbn [rbind].
    assert (Hv : 0 <= v < 256) by (apply Z.mod_pos_bound; lia).
    assert (E : le_bytes 2 (u16 (le_val [0; v] + htons 3)) = [0; (3 * Z.of_nat (S (S (length l)))) mod 256]).
    { change (htons 3) with 768. unfold le_val, foldr, le_bytes.
      assert (Ev : (3 * Z.of_nat (S (S (length l)))) mod 256 = (v + 3) mod 256)
        by (unfold v; rewrite Zplus_mod_idemp_l; f_equal; lia).
      rewrite Ev. f_equal; [|f_equal]; zlia. }
    rewrite E, wr_bytes_ok by (cbn [length]; lia). cbn [rbind].
    exists (12 + 12 * S (length l))%nat. split; [|done]. f_equal. f_equal; [|lia].
    rewrite <- (splice_slice_id 8 2 (data k)) at 1 by lia.
    pose proof (slice_slice 8 4 0 2 (data k) ltac:(lia)) as E0. rewrite Hi in E0. cbn [Nat.add] in E0.
    rewrite <- E0. change (slice 0 2 _) with [5; 0].
    pose proof (splice_app 8 [5; 0] [0; (3 * Z.of_nat (S (S (length l)))) mod 256] (data k)) as Es.
    cbn [length Nat.add app] in Es. apply Es. lia.
Qed.

Lemma AddrDlrrBlock_holds k ssrc l b :
  holds k ssrc l -> (12 + 12 * S (length l) <= 1500)%nat ->
  exists k', AddrDlrrBlock k (d_ssrc b) (d_lrr b) (d_dlrr b) = Ok k' /\ holds k' ssrc (l ++ [b]).
Proof.
  intros Hk Hfit. destruct (AddrDlrrBlock_header k ssrc l Hk) as (x & Hx & ->).
  destruct Hk as [Hb Hl Hc Hbl _ Hh _ Hs _ Hbs _]. unfold AddrDlrrBlock. rewrite Hx. cbn [rbind].
  rewrite !put32_eq. set (n := length l) in *. set (h := [5; 0; 0; _]).
  assert (Hhl : length h = 4%nat) by done. assert (Hhb : bytes h).
  { unfold h. repeat (apply Forall_cons; split); try (unfold byte; lia); [|constructor].
    apply Z.mod_pos_bound. lia. }
  rewrite wr_bytes_ok by buf_simp_side. cbn [rbind].
  rewrite put32_eq, wr_bytes_ok by buf_simp_side. cbn [rbind].
  rewrite put32_eq, wr_bytes_ok by buf_simp_side. cbn [rbind].
  set (p := (12 + 12 * n)%nat).
  replace (splice (p + 8) _ _) with (splice p (block_wire b) (splice 8 h (data k))).
  2: { pose proof (splice_app p (be_bytes 4 (d_ssrc b)) (be_bytes 4 (d_lrr b)) (splice 8 h (data k))) as E1.
       rewrite length_be_bytes in E1. rewrite E1 by (unfold p; buf_simp_side).
       pose proof (splice_app p (be_bytes 4 (d_ssrc b) ++ be_bytes 4 (d_lrr b)) (be_bytes 4 (d_dlrr b))
         (splice 8 h (data k))) as E2.
       rewrite length_app, !length_be_bytes in E2. cbn [Nat.add] in E2. rewrite E2 by (unfold p; buf_simp_side).
       unfold block_wire. by rewrite <- app_assoc. }
  unfold RtcpCommonHeader.set_length. rewrite store16_htons, Hc.
  unfold XrCommonData.size, RtcpCommonHeader.size.
  replace (u16 (Z.of_nat (4 + 4 + 12 * S n)) / 4) with (2 + 3 * Z.of_nat (S n))
    by (rewrite u16_small by lia; zlia).
  pose proof (length_block_wire b) as Hbw.
  rewrite wr_bytes_ok by (unfold p; buf_simp_side). cbn [rbind Nat.add].
  eexists. split; [reflexivity|].
  assert (Hn : length (l ++ [b]) = S n) by (rewrite length_app; cbn; lia).
  split; cbn [data data_len dlrr_block block_count]; rewrite ?Hn; try done; try lia.
  - auto using bytes_block_wire with buf.
  - rewrite !length_splice by (unfold p; buf_simp_side). done.
  - rewrite slice_splice_disj by (unfold p; buf_simp_side). unfold p. by buf_simp.
  - intros _. by rewrite slice_splice_eq by (unfold p; buf_simp_side).
  - unfold p. by buf_simp.
  - intros _. unfold p. buf_simp. by rewrite slice_splice_eq by buf_simp_side.
  - rewrite map_app, concat_app. cbn [map concat]. rewrite app_nil_r, <- Hbs.
    rewrite slice_splice_disj by (unfold p; buf_simp_side).
    replace (12 * S n)%nat with (12 * n + length (block_wire b))%nat by lia.
    unfold p. rewrite slice_splice_snoc by buf_simp_side. by buf_simp.
Qed.

Lemma dlrr_add_all_holds l : forall k ssrc l0,
  holds k ssrc l0 -> (12 + 12 * (length l0 + length l) <= 1500)%nat ->
  exists k', add_all k l = Ok k' /\ holds k' ssrc (l0 ++ l).
Proof.
  induction l as [|b l IH]; intros k ssrc l0 Hk Hfit; cbn [add_all].
  { rewrite app_nil_r. eauto. }
  cbn [length] in Hfit. destruct (AddrDlrrBlock_holds k ssrc l0 b Hk ltac:(lia)) as (k1 & -> & Hk1).
  cbn [rbind]. destruct (IH k1 ssrc (l0 ++ [b]) Hk1) as (k2 & Hk2 & Hh); [rewrite length_app; cbn; lia|].
  exists k2. split; [done|]. by rewrite <- app_assoc in Hh.
Qed.

Lemma read_blocks_spec d l : forall p,
  bytes d -> (p + 12 * length l <= length d)%nat -> slice p (12 * length l) d = concat (map block_wire l) ->
  read_blocks d p (length l) = Ok (map (fun b => mkdlrr (u32 (d_ssrc b)) (u32 (d_lrr b)) (u32 (d_dlrr b))) l).
Proof.
  induction l as [|b l IH]; intros p Hb Hl Hs; [done|]. cbn [length read_blocks map concat] in *.
  assert (H1 : slice p 12 d = block_wire b).
  { pose proof (slice_slice p (12 * S (length l)) 0 12 d ltac:(lia)) as E. rewrite Nat.add_0_r in E.
    rewrite <- E, Hs. by apply slice_prefix. }
  assert (Hrest : slice (p + 12) (12 * length l) d = concat (map block_wire l)).
  { rewrite <- (slice_slice p (12 * S (length l))) by lia. rewrite Hs.
    apply slice_suffix; [done|]. clear. induction l as [|b l IH]; [done|].
    cbn [map concat length]. rewrite length_app, <- IH, length_block_wire. lia. }
  assert (Hw : forall o v, (o + 4 <= 12)%nat -> slice o 4 (block_wire b) = be_bytes 4 v ->
    get32 d (p + o) = Ok (u32 v)).
  { intros o v Ho Hv. eapply get32_be; [done|lia| |done]. rewrite <- Hv, <- H1. symmetry.
    apply slice_slice. lia. }
  pose proof (Hw 0%nat (d_ssrc b) ltac:(lia) eq_refl) as E1. rewrite Nat.add_0_r in E1. rewrite E1. cbn [rbind].
  rewrite (Hw 4%nat (d_lrr b)) by (lia || reflexivity). cbn [rbind].
  rewrite (Hw 8%nat (d_dlrr b)) by (lia || reflexivity). cbn [rbind].
  by rewrite (IH (p + 12)%nat) by (done || lia).
Qed.

(** a DLRR report built from up to 124 sub-blocks carries them in order: reading it
    back gives every sub-block, and the bytes are RFC 3611's report, whose block length
    is right up to 85 sub-blocks (it is counted in its low byte only). *)
Theorem dlrr_roundtrip (ssrc : Z) (l : list XrDlrrData) :
  (1 <= length l <= 124)%nat ->
  exists k, (let! k := new_XrDlrr in let! k := SetSsrc k ssrc in add_all k l) = Ok k /\
    GetData k = wire ssrc ((3 * Z.of_nat (length l)) mod 256) l /\
    GetDlrrBlocks k = Ok (map (fun b => mkdlrr (u32 (d_ssrc b)) (u32 (d_lrr b)) (u32 (d_dlrr b))) l).
Proof.
  intros Hn. destruct (dlrr_new_holds ssrc) as (k0 & H0 & Hh0).
  destruct (dlrr_add_all_holds l k0 ssrc [] Hh0) as (k & Hk & Hh); [cbn [length]; lia|]. cbn [app] in Hh.
  exists k. assert (Hne : l <> []) by (intros ->; simpl in Hn; lia). split_and!.
  - rewrite <- rbind_assoc, H0. exact Hk.
  - destruct Hh as [Hb Hl _ _ Hlen Hhd Ht Hs Hi Hbs Hf]. unfold GetData. rewrite (Hlen Hne).
    change (take ?n ?d) with (slice 0 n d) || (rewrite <- (drop_0 (data k)); fold (slice 0 (12 + 12 * length l) (data k))).
    replace (12 + 12 * length l)%nat with (2 + (2 + (4 + (4 + 12 * length l))))%nat by lia.
    rewrite !slice_app. cbn [Nat.add]. rewrite Hhd, (Ht Hne), Hs, (Hi Hne), Hbs.
    unfold wire. f_equal. f_equal. f_equal. cbn [app]. f_equal. f_equal.
    set (v := (3 * _) mod 256). assert (0 <= v < 256) by (apply Z.mod_pos_bound; lia).
    unfold be_bytes, le_bytes. cbn [reverse]. unfold reverse, rev_append. cbn [app].
    f_equal; [zlia|]. f_equal. zlia.
  - destruct Hh as [Hb Hl _ _ Hlen _ _ _ _ Hbs Hf]. unfold GetDlrrBlocks.
    rewrite (Hlen Hne). unfold RtcpCommonHeader.size, XrCommonData.size.
    destruct (Nat.ltb_spec (12 + 12 * length l) (4 + 4 + 4 + 12)); [lia|].
    replace ((12 + 12 * length l - 4 - 4 - 4) / 12)%nat with (length l)
      by (replace (12 + 12 * length l - 4 - 4 - 4)%nat with (length l * 12)%nat by lia; by rewrite Nat.div_mul).
    apply read_blocks_spec; (done || lia).
Qed.
Lemma dlrr_roundtrip_witness :
  exists k, (let! k := new_XrDlrr in let! k := SetSsrc k 1 in add_all k [mkdlrr 2 3 4]) = Ok k /\
    GetDlrrBlocks k = Ok [mkdlrr 2 3 4].
Proof.
  destruct (dlrr_roundtrip 1 [mkdlrr 2 3 4] ltac:(cbn; lia)) as (k & H1 & _ & H2).
  exists k. split; [exact H1|exact H2].
Defined.

End XrDlrr.
