(* ===== verification/RtcpTcc.v ===== *)
(** [net/rtprtcp/rtcp_tcc_fb.hpp]: the transport-wide congestion control feedback packet.
    Receive times are collected by [InsertPacket], written by [Serial] as one-bit status
    chunks followed by 16-bit deltas, and read back by [Parse]. *)
From S2P Require Import Prelude ByteStream RtpPub RtcpReports.
Import ByteStream RtpPub.

Module RunLengthChunk.
Record t := mk { status_ : Z; recv_delta_length_ : Z; run_length_ : Z; data0 : Z; data1 : Z }.
Definition new_RunLengthChunk : t := mk 0 0 0 0 0.
Definition SetStatus (c : t) (status : Z) : t :=
  let s := Z.land status 1 in
  mk s (recv_delta_length_ c) (run_length_ c) (u8 (Z.lor (data0 c) (Z.shiftl s 6))) (data1 c).
Definition SetRecvDeltaLength (c : t) (length : Z) : t :=
  let r := Z.land length 0x1F in
  mk (status_ c) r (run_length_ c) (u8 (Z.lor (data0 c) (Z.shiftl (Z.land r 0x1F) 1))) (data1 c).
Definition SetRunLength (c : t) (run_length : Z) : t :=
  let r := Z.land run_length 0x1FF in
  mk (status_ c) (recv_delta_length_ c) r
     (Z.lor (Z.land (data0 c) 0xFE) (Z.land (Z.shiftr r 8) 1)) (Z.land r 0xFF).
Definition GetChunkData (c : t) : Z := Z.lor (Z.shiftl (data0 c) 8) (data1 c).
End RunLengthChunk.

Module StatusVectorChunk.
Record t := mk { symbol_ : Z; symbol_list_ : Z; data0 : Z; data1 : Z }.
Definition new_StatusVectorChunk : t := mk 0 0 0x80 0.
Definition SetSymbol (c : t) (symbol : Z) : t :=
  let s := Z.land symbol 1 in
  mk s (symbol_list_ c) (u8 (Z.lor (data0 c) (Z.shiftl s 6))) (data1 c).
Definition SetSymbolList (c : t) (symbol_list : Z) : t :=
  let s := Z.land symbol_list 0x3FFF in
  mk (symbol_ c) s (u8 (Z.lor (data0 c) (Z.land (Z.shiftr s 8) 0x3F))) (Z.land s 0xFF).
Definition GetChunkData (c : t) : Z := Z.lor (Z.shiftl (data0 c) 8) (data1 c).
End StatusVectorChunk.

Module RtcpTccFb.

(** [RcvDeltaInfo]: both fields are 16 bits wide. *)
Record delta := mkdelta { delta_ms_ : Z; wide_seq_ : Z }.
Definition new_RcvDeltaInfo (delta_ms wide_seq : Z) : delta := mkdelta (u16 (i16 delta_ms)) wide_seq.

Record t := mk {
  sender_ssrc_ : Z; media_ssrc_ : Z; base_seq_ : Z; packet_status_cnt_ : Z;
  reference_time_ : Z; fb_pkt_count_ : Z;
  recv_deltas_ : list delta; packet_chunks_ : list Z;
  base_time_ms_ : Z; has_first_packet_ : bool; last_wide_seq_ : Z
}.

Definition kTccFbPacketMaxSize : Z := 1350.

(** [Reset] leaves [last_wide_seq_] alone. *)
Definition Reset (k : t) : t := mk 0 0 0 0 0 0 [] [] 0 false (last_wide_seq_ k).
Definition new_RtcpTccFbPacket : t := Reset (mk 0 0 0 0 0 0 [] [] 0 false 0).

Definition SetSsrc (k : t) (sender media : Z) : t :=
  mk sender media (base_seq_ k) (packet_status_cnt_ k) (reference_time_ k) (fb_pkt_count_ k)
     (recv_deltas_ k) (packet_chunks_ k) (base_time_ms_ k) (has_first_packet_ k) (last_wide_seq_ k).
Definition SetFbPktCount (k : t) (cnt : Z) : t :=
  mk (sender_ssrc_ k) (media_ssrc_ k) (base_seq_ k) (packet_status_cnt_ k) (reference_time_ k) cnt
     (recv_deltas_ k) (packet_chunks_ k) (base_time_ms_ k) (has_first_packet_ k) (last_wide_seq_ k).

Definition IsFullRtcp (k : t) : bool := (300 <=? length (recv_deltas_ k))%nat.
Definition PacketCount (k : t) : nat := length (recv_deltas_ k).
Definition OldestPacketTimeMs (k : t) : Z := if has_first_packet_ k then base_time_ms_ k else 0.

Definition max_delta : Z := 5000.

(** The new state and the return value; times are milliseconds of a wall clock, far
    from the 64-bit bounds. *)
Definition InsertPacket (k : t) (wideSeq now_ms : Z) : t * Z :=
  if (wideSeq <? 0) || (0xFFFF <? wideSeq) then (k, -1) else
  if negb (has_first_packet_ k) then
    (mk (sender_ssrc_ k) (media_ssrc_ k) wideSeq (packet_status_cnt_ k)
        (Z.land (Z.quot now_ms 16) 0x00FFFFFF) (fb_pkt_count_ k)
        (recv_deltas_ k) (packet_chunks_ k) now_ms true wideSeq, 0)
  else if wideSeq =? last_wide_seq_ k then (k, 0) else
  if negb (last_wide_seq_ k =? 0) && SeqLowerThan wideSeq (last_wide_seq_ k) then (k, -1) else
  let delta_ms := now_ms - base_time_ms_ k in
  if (delta_ms <? - max_delta) || (max_delta <? delta_ms) then (k, 1) else
  (mk (sender_ssrc_ k) (media_ssrc_ k) (base_seq_ k) (packet_status_cnt_ k) (reference_time_ k)
      (fb_pkt_count_ k) (recv_deltas_ k ++ [new_RcvDeltaInfo delta_ms wideSeq]) (packet_chunks_ k)
      now_ms true wideSeq, 0).

(** ** Writing *)

(** The output: the caller's buffer, the write pointer [p] and the length so far. *)
Record out := mkout { o_buf : buf; o_p : nat; o_len : nat }.

(** [memcpy] of a 16-bit network-order value, then both counters advance. *)
Definition put16 (o : out) (v : Z) : res out :=
  let! b := store16 (o_buf o) (o_p o) (htons v) in
  Ok (mkout b (o_p o + 2) (o_len o + 2)).

Definition flush_chunk (o : out) (symbols : Z) : res out :=
  put16 o (StatusVectorChunk.GetChunkData
    (StatusVectorChunk.SetSymbolList
      (StatusVectorChunk.SetSymbol StatusVectorChunk.new_StatusVectorChunk 0) symbols)).

(** [n] lost packets into the current chunk. *)
Fixpoint shift_lost (n : nat) (current_chunk packets : Z) : Z * Z :=
  match n with
  | O => (current_chunk, packets)
  | S n' => shift_lost n' (u16 (Z.shiftl current_chunk 1)) (u16 (packets + 1))
  end.
Definition received (current_chunk packets : Z) : Z * Z :=
  (u16 (Z.lor (Z.shiftl current_chunk 1) 1), u16 (packets + 1)).

(** [while (remaining_lost >= 14)]: at most 4681 times for a 16-bit count. *)
Fixpoint flush_lost (fuel : nat) (o : out) (remaining_lost : Z) : res (out * Z) :=
  if remaining_lost <? 14 then Ok (o, remaining_lost) else
  match fuel with
  | O => Undef OutOfFuel
  | S fuel' => let! o := flush_chunk o 0 in flush_lost fuel' o (remaining_lost - 14)
  end.

Definition gap_of (last current : delta) : Z :=
  if wide_seq_ current <? wide_seq_ last
  then u16 (0xffff + wide_seq_ current + 1 - wide_seq_ last)
  else u16 (wide_seq_ current - wide_seq_ last).

(** The loop body up to the assertion: the symbols of one received packet. *)
Definition add_packet (o : out) (current_chunk packets gap : Z) : res (out * Z * Z) :=
  if gap =? 1 then let (c, n) := received current_chunk packets in Ok (o, c, n) else
  if packets + gap <? 14 then
    let (c, n) := shift_lost (Z.to_nat (gap - 1)) current_chunk packets in
    let (c, n) := received c n in Ok (o, c, n)
  else
    let space_left := u16 (14 - packets) in
    let (c, _) := shift_lost (Z.to_nat (space_left - 1)) current_chunk packets in
    let! o := flush_chunk o c in
    let! (o, remaining_lost) := flush_lost 4682 o (u16 (gap - space_left)) in
    let (c, n) := shift_lost (Z.to_nat (remaining_lost - 1)) 0 0 in
    let (c, n) := received c n in Ok (o, c, n).

Fixpoint chunk_loop (start_p : nat) (o : out) (current_chunk packets : Z) (last : delta) (l : list delta)
  : res (out * Z * Z) :=
  match l with
  | [] => Ok (o, current_chunk, packets)
  | current :: l' =>
      let! (o, c, n) := add_packet o current_chunk packets (gap_of last current) in
      if (512 <? o_p o - start_p)%nat then Undef AssertFail else
      if n =? 14 then
        let! o := flush_chunk o c in chunk_loop start_p o 0 0 current l'
      else if n <? 14 then chunk_loop start_p o c n current l'
      else Undef AssertFail
  end.

(** The number of set bits among the low 14 of a one-bit status chunk. *)
Definition symbol_bits (chunk : Z) : list bool :=
  map (fun b => Z.testbit (Z.land chunk 0x3FFF) b) (reverse (seqZ 0 14)).
Definition ones (chunk : Z) : nat :=
  if Z.testbit chunk 15 && negb (Z.testbit chunk 14)
  then length (List.filter (fun b => b) (symbol_bits chunk)) else O.
Fixpoint count_ones (fuel : nat) (b : buf) (q p : nat) : res nat :=
  if (p <=? q)%nat then Ok O else
  match fuel with
  | O => Undef OutOfFuel
  | S fuel' =>
      let! c := load16 b q in
      let! n := count_ones fuel' b (q + 2) p in Ok (ones (ntohs c) + n)%nat
  end.

Definition SerialPacketChunks (k : t) (o : out) : res out :=
  match recv_deltas_ k with
  | [] => Undef OobRead
  | first :: l =>
      let start_p := o_p o in
      let! (o, current_chunk, packets) := chunk_loop start_p o 1 1 first l in
      let! o :=
        (if 1 <? packets
         then flush_chunk o (u16 (Z.shiftl current_chunk (14 - packets)))
         else Ok o) in
      let! n := count_ones (o_p o) (o_buf o) start_p (o_p o) in
      if (n <=? length (recv_deltas_ k))%nat then Ok o else Undef AssertFail
  end.

Fixpoint SerialRecvDelta (o : out) (l : list delta) : res out :=
  match l with
  | [] => Ok o
  | info :: l' => let! o := put16 o (u16 (i16 (delta_ms_ info))) in SerialRecvDelta o l'
  end.

(** [None] where the code returns [false]. *)
Definition Serial (k : t) (buffer : buf) : res (option (buf * nat)) :=
  if (length (recv_deltas_ k) <? 2)%nat then Ok None else
  let! d := RtcpCommonHeader.set_version buffer 0 2 in
  let! d := RtcpCommonHeader.set_padding d 0 0 in
  let! d := RtcpCommonHeader.set_count d 0 15 in
  let! d := RtcpCommonHeader.set_packet_type d 0 205 in
  let! d := RtcpCommonHeader.set_length d 0 0 in
  let! d := RtcpFbHeader.set_media_ssrc d 4 (htonl (media_ssrc_ k)) in
  let! d := RtcpFbHeader.set_sender_ssrc d 4 (htonl (sender_ssrc_ k)) in
  let! d := store16 d 12 (htons (base_seq_ k)) in
  let! d := store16 d 14 (htons (u16 (Z.of_nat (length (recv_deltas_ k))))) in
  let! d := store32 d 16 (htonl (Z.lor (u32 (Z.shiftl (reference_time_ k) 8)) (fb_pkt_count_ k))) in
  let! o := SerialPacketChunks k (mkout d 20 20) in
  let! o := SerialRecvDelta o (recv_deltas_ k) in
  let pad := ((4 - o_len o mod 4) mod 4)%nat in
  let! o :=
    (if (pad =? 0)%nat then Ok o else
     let! d := RtcpCommonHeader.set_padding (o_buf o) 0 1 in
     let! d := wr_bytes d (o_p o) (replicate (pad - 1) 0) in
     let! d := wr8 d (o_p o + (pad - 1)) (Z.of_nat pad) in
     Ok (mkout d (o_p o + pad) (o_len o + pad))) in
  let! d := RtcpCommonHeader.set_length (o_buf o) 0 (htons (u16 (Z.of_nat (o_len o / 4 - 1)))) in
  Ok (Some (d, o_len o)).

(** ** Reading *)

(** The chunks that hold [needed] symbols, and the place behind them; [None] where the
    packet is given up.  [collected] is 16 bits wide. *)
Fixpoint parse_chunks (fuel : nat) (d : buf) (p end_ : nat) (collected needed : Z)
  : res (option (list Z * nat)) :=
  if needed <=? collected then Ok (Some ([], p)) else
  match fuel with
  | O => Undef OutOfFuel
  | S fuel' =>
      if (end_ <? p + 2)%nat then Ok None else
      let! c := load16 d p in
      let chunk := ntohs c in
      if negb (Z.testbit chunk 15) || Z.testbit chunk 14 then Ok None else
      let! r := parse_chunks fuel' d (p + 2) end_ (u16 (collected + 14)) needed in
      match r with
      | None => Ok None
      | Some (chunks, q) => Ok (Some (chunk :: chunks, q))
      end
  end.

(** The nested loops over the chunks' bits, which stop at [needed] symbols. *)
Fixpoint valid_receive_bits (bits : list bool) (processed needed : Z) : nat :=
  match bits with
  | [] => O
  | b :: bits' =>
      if needed <=? processed then O
      else ((if b then 1 else 0) + valid_receive_bits bits' (processed + 1) needed)%nat
  end.

Fixpoint parse_deltas (n : nat) (d : buf) (p end_ : nat) : res (option (list delta)) :=
  match n with
  | O => Ok (Some [])
  | S n' =>
      if (end_ <? p + 2)%nat then Ok None else
      let! net := load16 d p in
      let! r := parse_deltas n' d (p + 2) end_ in
      match r with
      | None => Ok None
      | Some l => Ok (Some (new_RcvDeltaInfo (i16 (ntohs net)) 0 :: l))
      end
  end.

(** Numbers the deltas, in order, from the received symbols. *)
Fixpoint assign_seqs (bits : list bool) (processed needed seq : Z) (deltas : list delta) : list delta :=
  match bits with
  | [] => deltas
  | b :: bits' =>
      if needed <=? processed then deltas else
      match b, deltas with
      | true, x :: deltas' =>
          mkdelta (delta_ms_ x) seq :: assign_seqs bits' (processed + 1) needed (u16 (seq + 1)) deltas'
      | _, _ => assign_seqs bits' (processed + 1) needed (u16 (seq + 1)) deltas
      end
  end.

Definition Parse (data : option buf) (len : nat) : res (option t) :=
  match data with
  | None => Ok None
  | Some d =>
    if (len <? RtcpCommonHeader.size + RtcpFbHeader.size + 8)%nat then Ok None else
    let! version := RtcpCommonHeader.version d 0 in
    let! packet_type := RtcpCommonHeader.packet_type d 0 in
    let! fmt := RtcpCommonHeader.count d 0 in
    if negb (version =? 2) || negb (packet_type =? 205) || negb (fmt =? 15) then Ok None else
    let! l := RtcpCommonHeader.length d 0 in
    let total_len := (Z.to_nat (ntohs l) + 1)%nat in
    let total_len := (total_len * 4)%nat in
    if (len <? total_len)%nat then Ok None else
    let! padding := RtcpCommonHeader.padding d 0 in
    let! total :=
      (if padding =? 0 then Ok (Some total_len) else
       let! c := rd8 d (total_len - 1) in
       if (c =? 0) || (total_len <? Z.to_nat c)%nat then Ok None
       else Ok (Some (total_len - Z.to_nat c)%nat)) in
    match total with
    | None => Ok None
    | Some end_ =>
      if (end_ <? 4 + 8)%nat then Ok None else
      let! sender := RtcpFbHeader.sender_ssrc d 4 in
      let! media := RtcpFbHeader.media_ssrc d 4 in
      if (end_ <? 12 + 4)%nat then Ok None else
      let! base_seq := load16 d 12 in
      let! cnt := load16 d 14 in
      if (end_ <? 16 + 4)%nat then Ok None else
      let! r := load32 d 16 in
      let ref_and_cnt := ntohl r in
      let symbols_needed := ntohs cnt in
      let! c := parse_chunks len d 20 end_ 0 symbols_needed in
      match c with
      | None => Ok None
      | Some (chunks, p) =>
          let bits := flat_map symbol_bits chunks in
          let! ds := parse_deltas (valid_receive_bits bits 0 symbols_needed) d p end_ in
          match ds with
          | None => Ok None
          | Some ds =>
              Ok (Some (mk (ntohl sender) (ntohl media) (ntohs base_seq) symbols_needed
                (Z.land (Z.shiftr ref_and_cnt 8) 0x00FFFFFF) (Z.land ref_and_cnt 0xFF)
                (assign_seqs bits 0 symbols_needed (ntohs base_seq) ds) chunks 0 false 0))
          end
      end
    end
  end.

(** * Parsing is safe *)

Lemma parse_chunks_ok fuel d p end_ collected needed :
  bytes d -> (end_ <= length d)%nat -> (end_ - p < fuel)%nat ->
  post (fun r => match r with
                 | Some (chunks, q) => (p <= q)%nat /\ (q <= end_ \/ q = p)%nat
                 | None => True
                 end) (parse_chunks fuel d p end_ collected needed).
Proof.
  intros Hb He. revert p collected; induction fuel as [|fuel IH]; intros p collected Hf; simpl;
    destruct (needed <=? collected); try (cbn [post]; lia).
  destruct (Nat.ltb_spec end_ (p + 2)); [done|].
  eapply post_bind; [apply load16_post; [done|lia]|cbv beta]. intros c _.
  destruct (_ || _); [done|]. eapply post_bind; [apply IH; lia|cbv beta].
  intros [[chunks q]|] Hr; cbn [post]; [lia|done].
Qed.

Lemma parse_deltas_ok n : forall d p end_,
  bytes d -> (end_ <= length d)%nat ->
  post (fun r => match r with Some l => length l = n | None => True end) (parse_deltas n d p end_).
Proof.
  induction n as [|n IH]; intros d p end_ Hb He; simpl; [done|].
  destruct (Nat.ltb_spec end_ (p + 2)); [done|].
  eapply post_bind; [apply load16_post; [done|lia]|cbv beta]. intros c _.
  eapply post_bind; [by apply IH|cbv beta]. intros [l|] Hl; cbn [post length]; congruence.
Qed.

Lemma length_assign_seqs bits : forall processed needed seq deltas,
  length (assign_seqs bits processed needed seq deltas) = length deltas.
Proof.
  induction bits as [|b bits IH]; intros; simpl; [done|]. destruct (_ <=? _); [done|].
  destruct b, deltas; simpl; rewrite ?IH; done.
Qed.

Lemma assign_seqs_numbers bits : forall processed needed seq deltas,
  length deltas = valid_receive_bits bits processed needed -> seq = u16 seq ->
  forall i x, assign_seqs bits processed needed seq deltas !! i = Some x ->
  exists j, Z.of_nat i <= j /\ processed + j < needed /\ wide_seq_ x = u16 (seq + j).
Proof.
  induction bits as [|b bits IH]; intros processed needed seq deltas Hl Hs i x Hi; simpl in *.
  { destruct deltas; [done|discriminate]. }
  destruct (Z.leb_spec needed processed); [destruct deltas; [done|discriminate]|].
  assert (Hstep : forall ds i' x', length ds = valid_receive_bits bits (processed + 1) needed ->
    assign_seqs bits (processed + 1) needed (u16 (seq + 1)) ds !! i' = Some x' ->
    exists j, Z.of_nat i' + 1 <= j /\ processed + j < needed /\ wide_seq_ x' = u16 (seq + j)).
  { intros ds i' x' Hds Hx. destruct (IH _ _ _ _ Hds (eq_sym (u16_u16 _)) _ _ Hx) as (j & Hj & Hn & ->).
    exists (j + 1). split_and!; [lia|lia|]. zlia. }
  destruct b; [destruct deltas as [|y deltas]; [discriminate|]|].
  - destruct i as [|i]; simpl in Hi.
    + injection Hi as <-. exists 0. cbn [wide_seq_]. split_and!; [lia|lia|]. by rewrite Z.add_0_r.
    + destruct (Hstep deltas i x) as (j & ? & ? & ?); [by injection Hl as ->|done|]. exists j. split_and!; (done || lia).
  - assert (Hd : assign_seqs bits (processed + 1) needed (u16 (seq + 1)) deltas !! i = Some x) by (by destruct deltas).
    destruct (Hstep deltas i x Hl Hd) as (j & ? & ? & ?). exists j. split_and!; (done || lia).
Qed.

Lemma valid_receive_bits_le bits : forall processed needed,
  (valid_receive_bits bits processed needed <= Z.to_nat (needed - processed))%nat.
Proof.
  induction bits as [|b bits IH]; intros; simpl; [lia|].
  destruct (Z.leb_spec needed processed); [lia|]. specialize (IH (processed + 1) needed). destruct b; lia.
Qed.

(** What a parsed feedback packet promises: no more deltas than statuses, and the [i]-th
    one is numbered [j] behind the base for some [i <= j] below the status count. *)
Definition parsed_ok (r : option t) : Prop :=
  match r with
  | None => True
  | Some k =>
      (length (recv_deltas_ k) <= Z.to_nat (packet_status_cnt_ k))%nat /\
      forall i x, recv_deltas_ k !! i = Some x -> exists j, Z.of_nat i <= j < packet_status_cnt_ k /\
        wide_seq_ x = u16 (base_seq_ k + j)
  end.

(** parsing any feedback datagram reads only inside it and ends, and the packets it
    reports are numbered in order from the base sequence number. *)
Theorem tcc_Parse_safe (d : buf) (len : nat) :
  bytes d -> (len <= length d)%nat -> post parsed_ok (Parse (Some d) len).
Proof.
  intros Hb Hlen. unfold Parse. destruct (Nat.ltb_spec len (RtcpCommonHeader.size + RtcpFbHeader.size + 8)) as [|Hl];
    [done|]. unfold RtcpCommonHeader.size, RtcpFbHeader.size in Hl.
  unfold RtcpCommonHeader.version, RtcpCommonHeader.packet_type, RtcpCommonHeader.count,
    RtcpCommonHeader.length, RtcpCommonHeader.padding, get_field, RtcpFbHeader.sender_ssrc, RtcpFbHeader.media_ssrc.
  cbn [Nat.add]. rewrite !rd8_cell by lia. cbn [rbind]. destruct (_ || _); [done|].
  eapply post_bind; [apply load16_post; [done|lia]|cbv beta]. intros v ->.
  pose proof (net16_range d 2 Hb ltac:(lia)) as Hv.
  set (total_len := ((Z.to_nat (net16 d 2) + 1) * 4)%nat).
  destruct (Nat.ltb_spec len total_len) as [|Htot]; [done|].
  eapply (post_bind (fun r : option nat => match r with Some e => (e <= len)%nat | None => True end)).
  { destruct (_ =? 0); [cbn [post]; lia|]. rewrite rd8_cell by lia. cbn [rbind].
    destruct (_ || _); cbn [post]; [done|lia]. }
  intros [end_|] He; [|done]. destruct (Nat.ltb_spec end_ 12); [done|].
  eapply post_bind; [apply load32_post; [done|lia]|cbv beta]. intros sender _.
  eapply post_bind; [apply load32_post; [done|lia]|cbv beta]. intros media _.
  destruct (Nat.ltb_spec end_ 16); [done|].
  eapply post_bind; [apply load16_post; [done|lia]|cbv beta]. intros base Hbase.
  eapply post_bind; [apply load16_post; [done|lia]|cbv beta]. intros cnt Hcnt.
  destruct (Nat.ltb_spec end_ 20); [done|].
  eapply post_bind; [apply load32_post; [done|lia]|cbv beta]. intros r _.
  eapply post_bind; [apply parse_chunks_ok; [done|lia|lia]|cbv beta]. intros [[chunks p]|] Hp; [|done].
  eapply post_bind; [apply parse_deltas_ok; [done|lia]|cbv beta]. intros [ds|] Hds; [|done].
  cbn [post parsed_ok recv_deltas_ packet_status_cnt_ base_seq_]. split.
  - rewrite length_assign_seqs, Hds. pose proof (valid_receive_bits_le (flat_map symbol_bits chunks) 0 (ntohs cnt)). lia.
  - intros i x Hi. rewrite Hbase in *.
    assert (Hu : net16 d 12 = u16 (net16 d 12))
      by (pose proof (net16_range d 12 Hb ltac:(lia)); by rewrite u16_small).
    destruct (assign_seqs_numbers _ _ _ _ _ Hds Hu i x Hi) as (j & ? & ? & ?). exists j. split; [lia|done].
Qed.
Definition sample_fb : buf :=
  [143; 205; 0; 6; 0; 0; 0; 1; 0; 0; 0; 2; 0; 10; 0; 3; 0; 0; 1; 0; 0xB0; 0; 0; 5; 0; 7; 0; 0].
Lemma tcc_Parse_safe_witness : post parsed_ok (Parse (Some sample_fb) 28).
Proof. apply tcc_Parse_safe; [bytes_done|cbn; lia]. Defined.

(** * Collecting *)

(** Successive sequence numbers of a batch, from [a]: each differs from the one before,
    and is not behind it, unless the one before is 0, when the code does not look. *)
Fixpoint in_order (a : Z) (l : list Z) : Prop :=
  match l with
  | [] => True
  | b :: l' => b <> a /\ (a = 0 \/ SeqLowerThan b a = false) /\ in_order b l'
  end.

Fixpoint last_from (a : Z) (l : list Z) : Z :=
  match l with [] => a | b :: l' => last_from b l' end.
Lemma last_from_snoc l : forall a b, last_from a (l ++ [b]) = b.
Proof. induction l as [|x l IH]; intros; [done|]. apply IH. Qed.

Lemma in_order_snoc l : forall a b,
  in_order a l -> b <> last_from a l -> (last_from a l = 0 \/ SeqLowerThan b (last_from a l) = false) ->
  in_order a (l ++ [b]).
Proof.
  induction l as [|x l IH]; intros a b Hl Hne Hz; [done|].
  cbn [in_order app last_from] in *. destruct Hl as (? & ? & ?). split_and!; try done. by apply IH.
Qed.

Definition signed_delta (x : delta) : Z := i16 (delta_ms_ x).
Definition sum_deltas (l : list delta) : Z := foldr (fun x acc => signed_delta x + acc) 0 l.

Lemma sum_deltas_snoc l x : sum_deltas (l ++ [x]) = sum_deltas l + signed_delta x.
Proof. induction l as [|y l IH]; simpl; lia. Qed.

(** A batch whose first packet arrived at [t0]: the deltas add up to the arrival of the
    last packet, each within five seconds, and the packets are in order from the base. *)
Record batch (t0 : Z) (k : t) : Prop := {
  b_first : has_first_packet_ k = true;
  b_time : base_time_ms_ k = t0 + sum_deltas (recv_deltas_ k);
  b_range : Forall (fun x => - max_delta <= signed_delta x <= max_delta /\ 0 <= wide_seq_ x < 65536) (recv_deltas_ k);
  b_order : in_order (base_seq_ k) (map wide_seq_ (recv_deltas_ k));
  b_last : last_wide_seq_ k = last_from (base_seq_ k) (map wide_seq_ (recv_deltas_ k))
}.

(** the first packet opens a batch; a further one is refused when it is out of range
    or out of order (-1) or more than five seconds away (1), with the batch untouched,
    and otherwise extends it (0): the batch stays in order and its deltas still add up
    to the last arrival. *)
Theorem InsertPacket_batch (k : t) (t0 wideSeq now : Z) :
  (has_first_packet_ k = false -> recv_deltas_ k = [] -> 0 <= wideSeq <= 65535 ->
   exists k', InsertPacket k wideSeq now = (k', 0) /\ batch now k' /\ base_seq_ k' = wideSeq) /\
  (batch t0 k ->
   let (k', r) := InsertPacket k wideSeq now in
   batch t0 k' /\ (r = -1 \/ r = 0 \/ r = 1) /\ (r <> 0 -> k' = k) /\
   (r = 1 -> max_delta < Z.abs (now - base_time_ms_ k)) /\
   (r = 0 -> wideSeq <> last_wide_seq_ k -> base_time_ms_ k' = now /\ last_wide_seq_ k' = wideSeq /\
      exists x, recv_deltas_ k' = recv_deltas_ k ++ [x] /\ wide_seq_ x = wideSeq /\
        signed_delta x = now - base_time_ms_ k)).
Proof.
  split.
  - intros Hf Hd Hw. unfold InsertPacket. rewrite Hf, Hd.
    destruct (Z.ltb_spec wideSeq 0); [lia|]. destruct (Z.ltb_spec 0xFFFF wideSeq); [lia|]. cbn [orb negb].
    eexists. split; [reflexivity|]. split; [|done]. split; cbn; (done || lia).
  - intros Hk. pose proof Hk as [Hf Ht Hr Ho Hl]. unfold InsertPacket. rewrite Hf.
    destruct (Z.ltb_spec wideSeq 0); [cbn [orb]; split_and!; (done || tauto || lia)|].
    destruct (Z.ltb_spec 0xFFFF wideSeq); [cbn [orb]; split_and!; (done || tauto || lia)|]. cbn [orb negb].
    destruct (Z.eqb_spec wideSeq (last_wide_seq_ k)); [cbn [orb]; split_and!; (done || tauto || lia)|].
    destruct (negb (last_wide_seq_ k =? 0) && SeqLowerThan wideSeq (last_wide_seq_ k)) eqn:Elow;
      [cbn [orb]; split_and!; (done || tauto || lia)|].
    assert (Hmax : max_delta = 5000) by done.
    destruct (Z.ltb_spec (now - base_time_ms_ k) (- max_delta)); [cbn [orb]; split_and!; (done || tauto || lia)|].
    destruct (Z.ltb_spec max_delta (now - base_time_ms_ k)); [cbn [orb]; split_and!; (done || tauto || lia)|]. cbn [orb].
    assert (Hsd : signed_delta (new_RcvDeltaInfo (now - base_time_ms_ k) wideSeq) = now - base_time_ms_ k)
      by (unfold signed_delta, new_RcvDeltaInfo; cbn [delta_ms_]; zlia).
    split; [|split_and!; try tauto; try lia; intros; cbn; split_and!; try done; by eexists].
    split; cbn [has_first_packet_ base_time_ms_ recv_deltas_ base_seq_ last_wide_seq_].
    + done.
    + rewrite sum_deltas_snoc, Hsd. lia.
    + apply Forall_app; split; [exact Hr|]. constructor; [|constructor].
      rewrite Hsd. cbn [wide_seq_ new_RcvDeltaInfo]. lia.
    + rewrite map_app. cbn [map wide_seq_ new_RcvDeltaInfo]. apply in_order_snoc; [done|by rewrite <- Hl|].
      rewrite <- Hl. destruct (Z.eqb_spec (last_wide_seq_ k) 0); [by left|right].
      by destruct (SeqLowerThan wideSeq (last_wide_seq_ k)).
    + rewrite map_app. cbn [map wide_seq_ new_RcvDeltaInfo]. by rewrite last_from_snoc.
Qed.
Lemma InsertPacket_batch_witness :
  exists k', InsertPacket new_RtcpTccFbPacket 100 5000 = (k', 0) /\ batch 5000 k' /\ base_seq_ k' = 100.
Proof. apply (InsertPacket_batch new_RtcpTccFbPacket 0 100 5000); [reflexivity|reflexivity|lia]. Defined.

(** * Writing and reading a batch without losses *)

Definition emit (o : out) (l : list Z) : out :=
  mkout (splice (o_p o) l (o_buf o)) (o_p o + length l) (o_len o + length l).

Lemma emit_nil o : emit o [] = o.
Proof. destruct o as [b p n]. unfold emit, splice. cbn. by rewrite !Nat.add_0_r, take_drop. Qed.
Lemma emit_app o l1 l2 :
  (o_p o + length l1 + length l2 <= length (o_buf o))%nat -> emit (emit o l1) l2 = emit o (l1 ++ l2).
Proof.
  intros H. unfold emit. cbn [o_buf o_p o_len]. rewrite splice_app, length_app by done. f_equal; lia.
Qed.
Lemma put16_emit o v :
  (o_p o + 2 <= length (o_buf o))%nat -> put16 o v = Ok (emit o (be_bytes 2 v)).
Proof.
  intros H. unfold put16. rewrite store16_htons, wr_bytes_ok by (rewrite length_be_bytes; lia).
  cbn [rbind]. unfold emit. by rewrite length_be_bytes.
Qed.

(** 16-bit words on the wire, and read back. *)
Definition word_bytes (l : list Z) : list Z := concat (map (be_bytes 2) l).
Lemma length_word_bytes l : length (word_bytes l) = (2 * length l)%nat.
Proof.
  unfold word_bytes. induction l as [|v l IH]; [done|]. cbn [map concat length].
  rewrite length_app, length_be_bytes, IH. lia.
Qed.
Lemma bytes_word_bytes l : bytes (word_bytes l).
Proof. apply Forall_concat, Forall_map, Forall_true. intros. apply bytes_be_bytes. Qed.
Lemma word_bytes_app l1 l2 : word_bytes (l1 ++ l2) = word_bytes l1 ++ word_bytes l2.
Proof. unfold word_bytes. by rewrite map_app, concat_app. Qed.

Definition word (v : Z) : Prop := 0 <= v < 65536.

Lemma word_bytes_cons d p v l :
  slice p (2 * length (v :: l)) d = word_bytes (v :: l) -> word v ->
  net16 d p = v /\ slice (p + 2) (2 * length l) d = word_bytes l.
Proof.
  intros Hs Hv. cbn [length] in Hs. replace (2 * S (length l))%nat with (2 + 2 * length l)%nat in Hs by lia.
  unfold word_bytes in *. cbn [map concat] in Hs. rewrite slice_app in Hs.
  apply app_inj_1 in Hs as [H1 H2]; [split; [|done]|].
  - unfold net16. rewrite H1, be_val_be_bytes. by apply Z.mod_small.
  - apply (f_equal length) in Hs. rewrite !length_app, length_be_bytes in Hs.
    pose proof (length_word_bytes l) as Hw. unfold word_bytes in Hw. rewrite Hw in Hs.
    assert (length (slice (p + 2) (2 * length l) d) <= 2 * length l)%nat
      by (unfold slice; rewrite length_take; lia).
    assert (length (slice p 2 d) <= 2)%nat by (unfold slice; rewrite length_take; lia).
    rewrite length_be_bytes. lia.
Qed.

Lemma SerialRecvDelta_emit l : forall o,
  Forall (fun x => word (delta_ms_ x)) l -> (o_p o + 2 * length l <= length (o_buf o))%nat ->
  SerialRecvDelta o l = Ok (emit o (word_bytes (map delta_ms_ l))).
Proof.
  induction l as [|x l IH]; intros o Hl Hroom; cbn [SerialRecvDelta map].
  { change (word_bytes []) with (@nil Z). by rewrite emit_nil. }
  inversion Hl as [|? ? Hx Hl']; subst. cbn [length] in Hroom. unfold word in Hx.
  rewrite put16_emit by lia. cbn [rbind].
  rewrite IH by (try done; unfold emit; cbn [o_buf o_p]; rewrite length_splice; rewrite ?length_be_bytes; lia).
  replace (u16 (i16 (delta_ms_ x))) with (delta_ms_ x) by zlia.
  rewrite emit_app by (rewrite length_be_bytes, length_word_bytes, length_map; lia). done.
Qed.

Definition mask (r : nat) : Z := 2 ^ Z.of_nat r - 1.
Definition tail_chunk (r : nat) : Z := 0x8000 + mask r * 2 ^ (14 - Z.of_nat r).

(** Deltas [ds] of successive packets from number [s] on. *)
Fixpoint contig (s : Z) (ds : list Z) : list delta :=
  match ds with
  | [] => []
  | d :: ds' => mkdelta d s :: contig (u16 (s + 1)) ds'
  end.

Lemma gap_contig d d' s : word s -> gap_of (mkdelta d s) (mkdelta d' (u16 (s + 1))) = 1.
Proof. unfold word, gap_of. cbn [wide_seq_]. intros. destruct (Z.ltb_spec (u16 (s + 1)) s); zlia. Qed.

Lemma received_mask r : (r < 14)%nat -> received (mask r) (Z.of_nat r) = (mask (S r), Z.of_nat (S r)).
Proof. intros H. do 14 (destruct r as [|r]; [reflexivity|]). lia. Qed.

Lemma flush_full o :
  (o_p o + 2 <= length (o_buf o))%nat -> flush_chunk o (mask 14) = Ok (emit o (be_bytes 2 0xBFFF)).
Proof. intros. unfold flush_chunk. change (StatusVectorChunk.GetChunkData _) with 0xBFFF. by apply put16_emit. Qed.

Lemma flush_tail o r :
  (2 <= r < 14)%nat -> (o_p o + 2 <= length (o_buf o))%nat ->
  flush_chunk o (u16 (Z.shiftl (mask r) (14 - Z.of_nat r))) = Ok (emit o (be_bytes 2 (tail_chunk r))).
Proof.
  intros Hr H. unfold flush_chunk.
  replace (StatusVectorChunk.GetChunkData _) with (tail_chunk r); [by apply put16_emit|].
  do 14 (destruct r as [|r]; [lia || reflexivity|]). lia.
Qed.

Lemma chunk_loop_contig start ds : forall s o r q r' last,
  word s -> wide_seq_ last = s -> (r < 14)%nat -> (r' < 14)%nat -> (r + length ds = 14 * q + r')%nat ->
  (start <= o_p o)%nat -> (o_p o - start + 2 * q <= 512)%nat ->
  (o_p o + 2 * q <= length (o_buf o))%nat ->
  chunk_loop start o (mask r) (Z.of_nat r) last (contig (u16 (s + 1)) ds) =
    Ok (emit o (word_bytes (replicate q 0xBFFF)), mask r', Z.of_nat r').
Proof.
  induction ds as [|d ds IH]; intros s o r q r' last Hs Hl Hr Hr' Hq Hst Hoff Hroom; cbn [contig chunk_loop].
  { cbn [length] in Hq. assert (q = 0%nat) as -> by lia. assert (r' = r) as -> by lia.
    change (word_bytes _) with (@nil Z). by rewrite emit_nil. }
  destruct last as [dl sl]. cbn [wide_seq_] in Hl. subst sl. rewrite gap_contig by done.
  unfold add_packet. rewrite Z.eqb_refl, received_mask by done. cbn [rbind].
  destruct (Nat.ltb_spec 512 (o_p o - start)); [lia|]. cbn [length] in Hq.
  assert (Hs1 : word (u16 (s + 1))) by apply u16_range.
  destruct (Z.eqb_spec (Z.of_nat (S r)) 14) as [E|E].
  - assert (r = 13%nat) as -> by lia. destruct q as [|q]; [lia|].
    rewrite flush_full by lia. cbn [rbind].
    rewrite (IH (u16 (s + 1)) _ 0%nat q r') by (try done; unfold emit; cbn [o_buf o_p];
      rewrite ?length_splice; rewrite ?length_be_bytes; lia).
    rewrite emit_app; [done|]. rewrite length_word_bytes, length_replicate, length_be_bytes. lia.
  - destruct (Z.ltb_spec (Z.of_nat (S r)) 14); [|lia]. apply (IH (u16 (s + 1))); (done || lia).
Qed.

Lemma count_ones_words cs : forall fuel d p,
  bytes d -> Forall word cs -> slice p (2 * length cs) d = word_bytes cs -> (p + 2 * length cs <= length d)%nat ->
  (length cs <= fuel)%nat ->
  count_ones fuel d p (p + 2 * length cs) = Ok (foldr (fun c n => ones c + n)%nat 0%nat cs).
Proof.
  induction cs as [|c cs IH]; intros fuel d p Hb Hc Hs Hl Hf.
  { destruct fuel; simpl; destruct (Nat.leb_spec (p + 0) p); (done || lia). }
  destruct fuel as [|fuel]; [simpl in Hf; lia|]. inversion Hc; subst.
  apply word_bytes_cons in Hs as [Hn Hs]; [|done]. cbn [length] in *. cbn [count_ones foldr].
  destruct (Nat.leb_spec (p + 2 * S (length cs)) p); [lia|].
  rewrite (load16_bind d p (fun v => let! n := count_ones fuel d (p + 2) (p + 2 * S (length cs)) in Ok (ones v + n)%nat))
    by (done || lia).
  replace (p + 2 * S (length cs))%nat with (p + 2 + 2 * length cs)%nat by lia.
  rewrite IH by (done || lia). cbn [rbind]. by rewrite Hn.
Qed.

(** The chunks of [14 * q + r] packets received without loss. *)
Definition chunks_of (q r : nat) : list Z :=
  replicate q 0xBFFF ++ (if (1 <? r)%nat then [tail_chunk r] else []).

Lemma tail_chunk_ok r : (2 <= r < 14)%nat -> word (tail_chunk r) /\ ones (tail_chunk r) = r /\
  Z.testbit (tail_chunk r) 15 = true /\ Z.testbit (tail_chunk r) 14 = false /\
  symbol_bits (tail_chunk r) = replicate r true ++ replicate (14 - r) false.
Proof.
  intros Hr. unfold word.
  do 14 (destruct r as [|r]; [lia || (split_and!; vm_compute; first [reflexivity|discriminate])|]). lia.
Qed.

Lemma chunks_of_ok q r : r <> 1%nat -> (r < 14)%nat -> Forall word (chunks_of q r) /\
  foldr (fun c n => ones c + n)%nat 0%nat (chunks_of q r) = (14 * q + r)%nat.
Proof.
  intros H1 H14. unfold chunks_of. rewrite foldr_app.
  assert (Ht : Forall word (if (1 <? r)%nat then [tail_chunk r] else []) /\
    foldr (fun c n => ones c + n)%nat 0%nat (if (1 <? r)%nat then [tail_chunk r] else []) = r).
  { destruct (Nat.ltb_spec 1 r); [|split; [constructor|simpl; lia]].
    destruct (tail_chunk_ok r ltac:(lia)) as (? & Ho & _). split; [by apply Forall_singleton|]. simpl. lia. }
  destruct Ht as [Ht1 ->]. split.
  - apply Forall_app; split; [|done]. apply Forall_replicate. unfold word. lia.
  - induction q as [|q IH]; [simpl; lia|]. cbn [replicate foldr]. rewrite IH.
    change (ones 0xBFFF) with 14%nat. lia.
Qed.

Lemma SerialPacketChunks_contig k s ds d p n q r :
  recv_deltas_ k = contig s ds -> word s -> (length ds = 14 * q + r)%nat -> (r < 14)%nat -> r <> 1%nat ->
  (2 <= length ds <= 300)%nat -> bytes d -> (p + 2 * q + 2 <= length d)%nat ->
  SerialPacketChunks k (mkout d p n) = Ok (emit (mkout d p n) (word_bytes (chunks_of q r))).
Proof.
  intros Hk Hs Hlen Hr Hr1 Hn Hb Hroom. unfold SerialPacketChunks. rewrite Hk.
  assert (Hlc : forall l s, length (contig s l) = length l) by (induction l; intros; simpl; auto).
  destruct ds as [|d0 ds]; [simpl in Hn; lia|]. cbn [contig length] in *. cbn [o_p].
  change 1 with (mask 1) at 1. change 1 with (Z.of_nat 1) at 2.
  rewrite (chunk_loop_contig p ds s (mkout d p n) 1 q r) by (cbn [o_p o_buf wide_seq_]; (done || lia)).
  cbn [rbind].
  assert (Htail : (if 1 <? Z.of_nat r
      then flush_chunk (emit (mkout d p n) (word_bytes (replicate q 49151))) (u16 (Z.shiftl (mask r) (14 - Z.of_nat r)))
      else Ok (emit (mkout d p n) (word_bytes (replicate q 49151)))) = Ok (emit (mkout d p n) (word_bytes (chunks_of q r)))).
  { unfold chunks_of. destruct (Nat.ltb_spec 1 r), (Z.ltb_spec 1 (Z.of_nat r)); try lia.
    - rewrite flush_tail; [|lia|unfold emit; cbn [o_buf o_p]; rewrite length_splice;
        rewrite ?length_word_bytes, ?length_replicate; lia].
      rewrite emit_app by (cbn [o_p o_buf]; rewrite length_word_bytes, length_replicate, length_be_bytes; lia).
      rewrite word_bytes_app. change (word_bytes [?c]) with (be_bytes 2 c ++ []). by rewrite app_nil_r.
    - by rewrite app_nil_r. }
  rewrite Htail. cbn [rbind emit o_p o_buf].
  destruct (chunks_of_ok q r Hr1 Hr) as [Hw Ho].
  assert (Hcl : (length (chunks_of q r) <= q + 1)%nat)
    by (unfold chunks_of; rewrite length_app, length_replicate; destruct (1 <? r)%nat; simpl; lia).
  rewrite length_word_bytes. rewrite count_ones_words.
  - cbn [rbind]. rewrite Ho, Hlc. destruct (Nat.leb_spec (14 * q + r) (S (length ds))); [done|lia].
  - apply bytes_splice; [done|apply bytes_word_bytes].
  - done.
  - by rewrite slice_splice_eq by (rewrite ?length_word_bytes; lia).
  - rewrite length_splice; rewrite ?length_word_bytes; lia.
  - lia.
Qed.

(** The bytes of such a batch: [odd] says that the 16-bit words do not fill the last
    32-bit word, which is then completed by two bytes of RTCP padding. *)
Definition fb_head (sender media base n ref_and_cnt : Z) : list Z :=
  be_bytes 4 sender ++ be_bytes 4 media ++ be_bytes 2 base ++ be_bytes 2 n ++ be_bytes 4 ref_and_cnt.
Definition fb_words (q r : nat) (ds : list Z) : list Z := word_bytes (chunks_of q r ++ ds).
Definition fb_odd (q r : nat) (ds : list Z) : bool := Nat.odd (length (chunks_of q r) + length ds).
Definition fb_len (q r : nat) (ds : list Z) : nat :=
  (20 + 2 * (length (chunks_of q r) + length ds) + (if fb_odd q r ds then 2 else 0))%nat.
Definition fb_wire (sender media base n ref_and_cnt : Z) (q r : nat) (ds : list Z) : list Z :=
  let odd := fb_odd q r ds in
  [if odd then 175 else 143; 205] ++ be_bytes 2 (Z.of_nat (fb_len q r ds / 4 - 1)) ++
  fb_head sender media base n ref_and_cnt ++ fb_words q r ds ++ (if odd then [0; 2] else []).

Lemma length_fb_wire a b c d e q r ds : length (fb_wire a b c d e q r ds) = fb_len q r ds.
Proof.
  unfold fb_wire, fb_len, fb_head, fb_words.
  rewrite !length_app, !length_be_bytes, length_word_bytes, length_app.
  destruct (fb_odd q r ds); cbn [length]; lia.
Qed.
Lemma bytes_fb_wire a b c d e q r ds : bytes (fb_wire a b c d e q r ds).
Proof.
  unfold fb_wire, fb_head. repeat (apply Forall_app; split);
    try apply bytes_be_bytes; try apply bytes_word_bytes; destruct (fb_odd q r ds); bytes_done.
Qed.

Lemma fb_len_div q r ds : exists j, fb_len q r ds = (4 * (j + 1))%nat.
Proof.
  unfold fb_len, fb_odd. set (w := (length (chunks_of q r) + length ds)%nat).
  destruct (Nat.odd w) eqn:E.
  - apply Nat.odd_spec in E as (j & ->). exists (j + 5)%nat. lia.
  - rewrite <- Nat.negb_even in E. apply negb_false_iff, Nat.even_spec in E as (j & ->). exists (j + 4)%nat. lia.
Qed.

(** The fixed part of the packet, written field by field. *)
Lemma head_written {A} (b : buf) sender media base n rc (K : buf -> res A) :
  bytes b -> (20 <= length b)%nat ->
  (let! d := RtcpCommonHeader.set_version b 0 2 in
   let! d := RtcpCommonHeader.set_padding d 0 0 in
   let! d := RtcpCommonHeader.set_count d 0 15 in
   let! d := RtcpCommonHeader.set_packet_type d 0 205 in
   let! d := RtcpCommonHeader.set_length d 0 0 in
   let! d := RtcpFbHeader.set_media_ssrc d 4 (htonl media) in
   let! d := RtcpFbHeader.set_sender_ssrc d 4 (htonl sender) in
   let! d := store16 d 12 (htons base) in
   let! d := store16 d 14 (htons n) in
   let! d := store32 d 16 (htonl rc) in K d) =
  K (splice 0 ([143; 205; 0; 0] ++ fb_head sender media base n rc) b).
Proof.
  intros Hb Hl. etransitivity; [apply (rtcp_header_filled b 0 15 205 0); (done || lia)|].
  change ([128 + 15 mod 32; u8 205] ++ be_bytes 2 0) with [143; 205; 0; 0].
  unfold RtcpFbHeader.set_media_ssrc, RtcpFbHeader.set_sender_ssrc. cbn [Nat.add].
  repeat (rewrite ?store32_htonl, ?store16_htons; rewrite wr_bytes_ok by buf_simp_side; cbn [rbind]).
  f_equal. unfold fb_head.
  set (h := [143; 205; 0; 0]). assert (Hh : length h = 4%nat) by done. clearbody h.
  rewrite (splice_comm 4 _ 8) by buf_simp_side.
  assert (Happ : forall p l1 l2, p = length l1 -> (p + length l2 <= length b)%nat ->
            splice p l2 (splice 0 l1 b) = splice 0 (l1 ++ l2) b)
    by (intros p l1 l2 -> ?; apply (splice_app 0); simpl; lia).
  rewrite !Happ by (rewrite ?length_app, ?length_be_bytes; lia).
  by rewrite <- !app_assoc.
Qed.

Lemma map_delta_contig ds : forall s, map delta_ms_ (contig s ds) = ds.
Proof. induction ds as [|d ds IH]; intros s; [done|]. cbn [contig map]. by rewrite IH. Qed.
Lemma length_contig ds : forall s, length (contig s ds) = length ds.
Proof. induction ds as [|d ds IH]; intros s; [done|]. cbn [contig length]. by rewrite IH. Qed.

Lemma be_bytes_u16 v : be_bytes 2 (u16 v) = be_bytes 2 v.
Proof.
  unfold be_bytes. f_equal. cbn [le_bytes]. f_equal; [|f_equal]; zlia.
Qed.

Definition ref_and_cnt (k : t) : Z := Z.lor (u32 (Z.shiftl (reference_time_ k) 8)) (fb_pkt_count_ k).

Lemma Serial_contig k s ds q r buffer :
  recv_deltas_ k = contig s ds -> Forall word ds -> word s ->
  (length ds = 14 * q + r)%nat -> (r < 14)%nat -> r <> 1%nat -> (2 <= length ds <= 300)%nat ->
  bytes buffer -> (fb_len q r ds <= length buffer)%nat ->
  Serial k buffer = Ok (Some (splice 0 (fb_wire (sender_ssrc_ k) (media_ssrc_ k) (base_seq_ k)
    (Z.of_nat (length ds)) (ref_and_cnt k) q r ds) buffer, fb_len q r ds)).
Proof.
  intros Hk Hds Hs Hlen Hr Hr1 Hn Hb Hroom. unfold Serial. rewrite Hk, length_contig.
  destruct (Nat.ltb_spec (length ds) 2); [lia|]. rewrite u16_small by lia.
  destruct (fb_len_div q r ds) as (j & Hj).
  assert (Hm : (length (chunks_of q r) <= q + 1)%nat /\ (q <= length (chunks_of q r))%nat)
    by (unfold chunks_of; rewrite length_app, length_replicate; destruct (1 <? r)%nat; simpl; lia).
  set (m := length (chunks_of q r)) in *.
  assert (Hlb : (20 + 2 * (m + length ds) <= length buffer)%nat) by (unfold fb_len in Hroom; fold m in Hroom; lia).
  rewrite head_written by (done || lia).
  set (h20 := [143; 205; 0; 0] ++ fb_head _ _ _ _ _).
  assert (Hh20 : length h20 = 20%nat) by reflexivity.
  assert (Hbh : bytes h20) by (unfold h20, fb_head; repeat (apply Forall_app; split); first [apply bytes_be_bytes|bytes_done]).
  rewrite (SerialPacketChunks_contig k s ds _ 20 20 q r)
    by (try done; try (by apply bytes_splice); rewrite ?length_splice; lia).
  cbn [rbind].
  rewrite SerialRecvDelta_emit.
  2: { clear -Hds. revert s. induction Hds; intros s; constructor; auto. }
  2: { unfold emit; cbn [o_buf o_p]; rewrite !length_splice; rewrite ?length_word_bytes, ?length_splice, ?length_contig; fold m; lia. }
  cbn [rbind]. rewrite map_delta_contig, emit_app.
  2: { cbn [o_buf o_p]. rewrite !length_word_bytes, length_splice; fold m; lia. }
  rewrite <- word_bytes_app. fold (fb_words q r ds).
  assert (Hlw : length (fb_words q r ds) = (2 * (m + length ds))%nat)
    by (unfold fb_words; by rewrite length_word_bytes, length_app).
  assert (Hemit : emit (mkout (splice 0 h20 buffer) 20 20) (fb_words q r ds)
    = mkout (splice 0 (h20 ++ fb_words q r ds) buffer) (20 + 2 * (m + length ds)) (20 + 2 * (m + length ds))).
  { unfold emit. cbn [o_buf o_p o_len]. rewrite Hlw.
    pose proof (splice_app 0 h20 (fb_words q r ds) buffer) as E. rewrite Hh20 in E. cbn [Nat.add] in E.
    by rewrite E by lia. }
  rewrite Hemit. cbn [o_buf o_p o_len].
  set (hw := h20 ++ fb_words q r ds). assert (Hhw : length hw = (20 + 2 * (m + length ds))%nat)
    by (unfold hw; rewrite length_app; lia).
  unfold fb_len in Hj, Hroom. fold m in Hj, Hroom. unfold fb_wire, fb_len. fold m.
  set (len := (20 + 2 * (m + length ds))%nat) in *.
  assert (Happ : forall p l1 l2, p = length l1 -> (p + length l2 <= length buffer)%nat ->
            splice p l2 (splice 0 l1 buffer) = splice 0 (l1 ++ l2) buffer)
    by (intros p l1 l2 -> ?; apply (splice_app 0); simpl; lia).
  assert (Hset : forall x w l, (4 <= length w)%nat -> length w = l -> (l <= length buffer)%nat ->
     w = x :: 205 :: 0 :: 0 :: drop 4 w ->
     (let! d := RtcpCommonHeader.set_length (splice 0 w buffer) 0 (htons (u16 (Z.of_nat (l / 4 - 1)))) in Ok (Some (d, l)))
     = Ok (Some (splice 0 (x :: 205 :: be_bytes 2 (Z.of_nat (l / 4 - 1)) ++ drop 4 w) buffer, l))).
  { intros x w l Hw4 Hwl Hlb2 Hw. unfold RtcpCommonHeader.set_length. cbn [Nat.add].
    rewrite store16_htons, wr_bytes_ok by (rewrite length_splice, length_be_bytes by (simpl; lia); lia). cbn [rbind].
    rewrite be_bytes_u16. rewrite (splice_overwrite 0 2) by (rewrite ?length_be_bytes; simpl; lia).
    do 4 f_equal. rewrite Hw at 1. reflexivity. }
  destruct (fb_odd q r ds) eqn:Eodd.
  - replace ((4 - len mod 4) mod 4)%nat with 2%nat.
    2: { replace len with (2 + j * 4)%nat by lia. by rewrite Nat.Div0.mod_add. }
    cbn [Nat.eqb Nat.sub replicate]. unfold RtcpCommonHeader.set_padding, set_field.
    rewrite rd8_cell by (rewrite length_splice; simpl; lia). cbn [rbind].
    change (cell (splice 0 hw buffer) 0) with 143. change (set_bits 143 5 1 1) with 175.
    rewrite wr8_ok by (rewrite length_splice; simpl; lia). cbn [rbind].
    rewrite wr8_splice by (rewrite length_splice; simpl; lia).
    rewrite (splice_overwrite 0 0) by (simpl; lia).
    set (hw' := splice 0 [175] hw). assert (Hhw' : length hw' = len) by (unfold hw'; rewrite length_splice; simpl; lia).
    rewrite wr_bytes_ok by (rewrite length_splice; simpl; lia). cbn [rbind].
    rewrite Happ by (simpl; lia).
    rewrite wr8_ok by (rewrite length_splice; rewrite ?length_app; simpl; lia). cbn [rbind].
    rewrite wr8_splice by (rewrite length_splice; rewrite ?length_app; simpl; lia).
    rewrite Happ by (rewrite ?length_app; simpl; lia). cbn [rbind o_buf o_len].
    rewrite (Hset 175) by (rewrite ?length_app; cbn [length]; first [lia|reflexivity]).
    do 4 f_equal. unfold hw', hw, h20. cbn [app]. do 2 f_equal. f_equal.
    rewrite <- !app_assoc. reflexivity.
  - replace ((4 - len mod 4) mod 4)%nat with 0%nat.
    2: { replace len with (0 + (j + 1) * 4)%nat by lia. by rewrite Nat.Div0.mod_add. }
    cbn [Nat.eqb rbind o_buf o_len]. rewrite Nat.add_0_r.
    rewrite (Hset 143) by first [lia|reflexivity].
    do 4 f_equal. unfold hw, h20. cbn [app]. do 2 f_equal. f_equal. by rewrite app_nil_r.
Qed.

(** ** Reading such a batch *)

Lemma parse_chunks_words cs : forall fuel d p end_ collected needed,
  bytes d -> Forall word cs -> Forall (fun c => Z.testbit c 15 = true /\ Z.testbit c 14 = false) cs ->
  slice p (2 * length cs) d = word_bytes cs ->
  (p + 2 * length cs <= end_)%nat -> (end_ <= length d)%nat -> (length cs <= fuel)%nat -> 0 <= collected ->
  collected + 14 * Z.of_nat (length cs) < 65536 ->
  needed <= collected + 14 * Z.of_nat (length cs) < needed + 14 ->
  parse_chunks fuel d p end_ collected needed = Ok (Some (cs, (p + 2 * length cs)%nat)).
Proof.
  induction cs as [|c cs IH]; intros fuel d p end_ collected needed Hb Hw Ht Hs He Hl Hf Hc0 Hc Hn;
    cbn [length] in *.
  { destruct fuel; cbn [parse_chunks]; destruct (Z.leb_spec needed collected); try lia; by rewrite Nat.add_0_r. }
  destruct fuel as [|fuel]; [lia|]. cbn [parse_chunks].
  destruct (Z.leb_spec needed collected); [lia|]. destruct (Nat.ltb_spec end_ (p + 2)); [lia|].
  inversion Hw; inversion Ht as [|? ? [Ht1 Ht2] Ht']; subst. apply word_bytes_cons in Hs as [Hc1 Hs]; [|done].
  rewrite (load16_bind d p (fun chunk => if negb (Z.testbit chunk 15) || Z.testbit chunk 14 then Ok None else
      let! r := parse_chunks fuel d (p + 2) end_ (u16 (collected + 14)) needed in
      match r with None => Ok None | Some (chunks, q) => Ok (Some (chunk :: chunks, q)) end)) by (done || lia).
  rewrite Hc1, Ht1, Ht2. cbn [negb orb]. rewrite u16_small by lia.
  rewrite IH by (done || lia). cbn [rbind]. do 3 f_equal. lia.
Qed.

Lemma parse_deltas_words l : forall d p end_,
  bytes d -> Forall word l -> slice p (2 * length l) d = word_bytes l ->
  (p + 2 * length l <= end_)%nat -> (end_ <= length d)%nat ->
  parse_deltas (length l) d p end_ = Ok (Some (map (fun v => mkdelta v 0) l)).
Proof.
  induction l as [|v l IH]; intros d p end_ Hb Hw Hs He Hl; [done|]. cbn [length] in *. cbn [parse_deltas map].
  destruct (Nat.ltb_spec end_ (p + 2)); [lia|]. inversion Hw; subst.
  apply word_bytes_cons in Hs as [Hv Hs]; [|done].
  rewrite (load16_bind d p (fun net => let! r := parse_deltas (length l) d (p + 2) end_ in
      match r with None => Ok None | Some ds => Ok (Some (new_RcvDeltaInfo (i16 net) 0 :: ds)) end)) by (done || lia).
  rewrite IH by (done || lia). cbn [rbind]. rewrite Hv. unfold new_RcvDeltaInfo. unfold word in *.
  do 3 f_equal. f_equal. zlia.
Qed.

Lemma bits_chunks_of q r :
  (r < 14)%nat -> r <> 1%nat ->
  exists z, flat_map symbol_bits (chunks_of q r) = replicate (14 * q + r) true ++ replicate z false.
Proof.
  intros Hr Hr1. unfold chunks_of. rewrite flat_map_app.
  assert (Hq : flat_map symbol_bits (replicate q 0xBFFF) = replicate (14 * q) true).
  { induction q as [|q IH]; [done|]. cbn [replicate flat_map]. rewrite IH.
    replace (14 * S q)%nat with (14 + 14 * q)%nat by lia. by rewrite replicate_add. }
  rewrite Hq, replicate_add. destruct (Nat.ltb_spec 1 r).
  - destruct (tail_chunk_ok r ltac:(lia)) as (_ & _ & _ & _ & Hb). cbn [flat_map]. rewrite Hb, app_nil_r.
    exists (14 - r)%nat. by rewrite app_assoc.
  - exists 0%nat. assert (r = 0%nat) as -> by lia. cbn [flat_map replicate]. by rewrite !app_nil_r.
Qed.

Lemma valid_bits_true n z : forall processed needed,
  needed = processed + Z.of_nat n -> valid_receive_bits (replicate n true ++ replicate z false) processed needed = n.
Proof.
  induction n as [|n IH]; intros processed needed ->; cbn [replicate app valid_receive_bits].
  - destruct z; cbn [replicate valid_receive_bits]; [done|].
    by destruct (Z.leb_spec (processed + Z.of_nat 0) processed); [|lia].
  - destruct (Z.leb_spec (processed + Z.of_nat (S n)) processed); [lia|]. rewrite IH by lia. lia.
Qed.

Lemma assign_seqs_true l : forall z processed needed seq,
  needed = processed + Z.of_nat (length l) ->
  assign_seqs (replicate (length l) true ++ replicate z false) processed needed seq (map (fun v => mkdelta v 0) l)
    = contig seq l.
Proof.
  induction l as [|v l IH]; intros z processed needed seq ->; cbn [length replicate app map assign_seqs contig].
  - destruct z; cbn [replicate assign_seqs]; [done|].
    by destruct (Z.leb_spec (processed + Z.of_nat 0) processed); [|lia].
  - destruct (Z.leb_spec (processed + Z.of_nat (S (length l))) processed); [lia|].
    cbn [delta_ms_]. by rewrite IH by lia.
Qed.

Lemma chunks_of_head q r :
  (r < 14)%nat -> r <> 1%nat -> Forall (fun c => Z.testbit c 15 = true /\ Z.testbit c 14 = false) (chunks_of q r).
Proof.
  intros Hr Hr1. unfold chunks_of. apply Forall_app; split; [by apply Forall_replicate|].
  destruct (Nat.ltb_spec 1 r); [|constructor]. apply Forall_singleton.
  by destruct (tail_chunk_ok r ltac:(lia)) as (_ & _ & ? & ? & _).
Qed.

Lemma length_chunks_of q r : r <> 1%nat -> (r < 14)%nat ->
  (14 * q + r <= 14 * length (chunks_of q r) < 14 * q + r + 14)%nat.
Proof.
  intros. unfold chunks_of. rewrite length_app, length_replicate.
  destruct (Nat.ltb_spec 1 r); cbn [length]; lia.
Qed.

Lemma tcc_Parse_wire d sender media base rc q r ds :
  bytes d -> (fb_len q r ds <= length d)%nat ->
  slice 0 (fb_len q r ds) d = fb_wire sender media base (Z.of_nat (length ds)) rc q r ds ->
  Forall word ds -> word base -> (length ds = 14 * q + r)%nat -> (r < 14)%nat -> r <> 1%nat ->
  (2 <= length ds <= 300)%nat ->
  Parse (Some d) (fb_len q r ds) = Ok (Some (mk (u32 sender) (u32 media) base (Z.of_nat (length ds))
    (Z.land (Z.shiftr (u32 rc) 8) 0x00FFFFFF) (Z.land (u32 rc) 0xFF)
    (contig base ds) (chunks_of q r) 0 false 0)).
Proof.
  intros Hb Hl Hs Hds Hbase Hlen Hr Hr1 Hn.
  destruct (fb_len_div q r ds) as (j & Hj). pose proof (length_chunks_of q r Hr1 Hr) as Hm.
  set (L := fb_len q r ds) in *. set (m := length (chunks_of q r)) in *.
  assert (HL : (20 + 2 * (m + length ds) <= L <= 22 + 2 * (m + length ds))%nat)
    by (unfold L, fb_len; fold m; destruct (fb_odd q r ds); lia).
  assert (Hsl : forall o n, (o + n <= L)%nat -> slice o n d = slice o n (fb_wire sender media base (Z.of_nat (length ds)) rc q r ds))
    by (intros o n Ho; rewrite <- Hs; by rewrite slice_slice by lia).
  assert (Hcell : forall o x, (o < L)%nat -> slice o 1 (fb_wire sender media base (Z.of_nat (length ds)) rc q r ds) = [x] -> cell d o = x).
  { intros o x Ho Hx. rewrite <- Hsl, slice_cons in Hx by lia. by injection Hx. }
  assert (H0 : cell d 0 = if fb_odd q r ds then 175 else 143) by (apply Hcell; [lia|reflexivity]).
  assert (H1 : cell d 1 = 205) by (apply Hcell; [lia|reflexivity]).
  assert (H16 : forall o v, (o + 2 <= L)%nat -> slice o 2 (fb_wire sender media base (Z.of_nat (length ds)) rc q r ds)
      = be_bytes 2 v -> word v -> net16 d o = v)
    by (intros o v Ho Hv Hw; unfold net16; rewrite Hsl, Hv, be_val_be_bytes by lia; by apply Z.mod_small).
  assert (H32 : forall o v, (o + 4 <= L)%nat -> slice o 4 (fb_wire sender media base (Z.of_nat (length ds)) rc q r ds)
      = be_bytes 4 v -> net32 d o = u32 v)
    by (intros o v Ho Hv; unfold net32; by rewrite Hsl, Hv, be_val_be_bytes by lia).
  set (w := fb_wire sender media base (Z.of_nat (length ds)) rc q r ds) in *.
  assert (Hlw : net16 d 2 = Z.of_nat (L / 4 - 1)).
  { apply H16; [lia|reflexivity|]. unfold word. rewrite Hj. rewrite Nat.mul_comm, Nat.div_mul by lia. lia. }
  assert (Hwords : slice 20 (2 * (m + length ds)) d = word_bytes (chunks_of q r ++ ds)).
  { rewrite Hsl by lia. unfold w, fb_wire. fold (fb_words q r ds). rewrite !app_assoc.
    rewrite <- (app_assoc _ (fb_words q r ds)). apply slice_mid; [reflexivity|].
    unfold fb_words. by rewrite length_word_bytes, length_app. }
  assert (Hcs : slice 20 (2 * m) d = word_bytes (chunks_of q r) /\
                slice (20 + 2 * m) (2 * length ds) d = word_bytes ds).
  { rewrite word_bytes_app, Nat.mul_add_distr_l, slice_app in Hwords.
    apply app_inj_1 in Hwords; [done|]. rewrite length_slice, length_word_bytes by lia. done. }
  destruct Hcs as [Hcs Hdl].
  assert (Hend : (let! padding := RtcpCommonHeader.padding d 0 in
      if padding =? 0 then Ok (Some L) else
       let! c := rd8 d (L - 1) in
       if (c =? 0) || (L <? Z.to_nat c)%nat then Ok None else Ok (Some (L - Z.to_nat c)%nat))
      = Ok (Some (20 + 2 * (m + length ds))%nat)).
  { unfold RtcpCommonHeader.padding, get_field. rewrite rd8_cell by lia. cbn [rbind]. rewrite H0.
    unfold L, fb_len in HL |- *. fold m. destruct (fb_odd q r ds) eqn:E.
    - change (bits 175 5 1 =? 0) with false. fold m in HL.
      set (e := (20 + 2 * (m + length ds))%nat) in *. replace (e + 2 - 1)%nat with (e + 1)%nat by lia.
      assert (HLe : L = (e + 2)%nat) by (unfold L, fb_len; rewrite E; fold m; done).
      assert (Hc : cell d (e + 1) = 2).
      { apply Hcell; [lia|]. pose proof (length_fb_wire sender media base (Z.of_nat (length ds)) rc q r ds) as Hlen_w.
        fold L in Hlen_w. unfold w. unfold fb_wire in Hlen_w |- *. rewrite E in Hlen_w |- *.
        change [0; 2] with ([0] ++ [2]) in Hlen_w |- *. rewrite !app_assoc in Hlen_w |- *.
        apply slice_suffix; [|done]. rewrite length_app in Hlen_w. cbn [length] in Hlen_w. lia. }
      rewrite rd8_cell, Hc by lia. cbn [rbind Z.eqb orb]. change (2 =? 0) with false. cbn [orb].
      destruct (Nat.ltb_spec (e + 2) (Z.to_nat 2)); [lia|]. do 2 f_equal. lia.
    - change (bits 143 5 1 =? 0) with true. by rewrite Nat.add_0_r. }
  unfold Parse, RtcpCommonHeader.size, RtcpFbHeader.size. destruct (Nat.ltb_spec L (4 + 8 + 8)); [lia|].
  unfold RtcpCommonHeader.version, RtcpCommonHeader.packet_type, RtcpCommonHeader.count, get_field.
  cbn [Nat.add]. rewrite !rd8_cell by lia. cbn [rbind]. rewrite H0, H1.
  replace (_ || _) with false by (by destruct (fb_odd q r ds)).
  unfold RtcpCommonHeader.length. cbn [Nat.add].
  rewrite (load16_value d 2) by (done || lia). cbn [rbind]. rewrite ntohs_htons, Hlw.
  rewrite (u16_small (Z.of_nat _)) by (rewrite Hj, Nat.mul_comm, Nat.div_mul; lia).
  replace ((Z.to_nat (Z.of_nat (L / 4 - 1)) + 1) * 4)%nat with L
    by (rewrite Nat2Z.id, Hj, (Nat.mul_comm 4), Nat.div_mul by lia; lia).
  destruct (Nat.ltb_spec L L); [lia|].
  apply rbind_Ok_inv in Hend as (pd & -> & Hif). cbn [rbind]. rewrite Hif. cbn [rbind].
  set (e := (20 + 2 * (m + length ds))%nat) in *.
  destruct (Nat.ltb_spec e 12); [lia|]. unfold RtcpFbHeader.sender_ssrc, RtcpFbHeader.media_ssrc. cbn [Nat.add].
  rewrite !load32_value by (done || lia). cbn [rbind]. destruct (Nat.ltb_spec e 16); [lia|].
  rewrite !load16_value by (done || lia). cbn [rbind]. destruct (Nat.ltb_spec e 20); [lia|].
  rewrite !ntohl_htonl, !ntohs_htons.
  rewrite (H32 4%nat sender), (H32 8%nat media), (H32 16%nat rc) by (lia || reflexivity).
  rewrite (H16 12%nat base) by (done || lia).
  rewrite (H16 14%nat (Z.of_nat (length ds))) by (first [lia|reflexivity|unfold word; lia]).
  rewrite !u32_u32, (u16_small base), (u16_small (Z.of_nat (length ds))) by (done || lia).
  destruct (chunks_of_ok q r Hr1 Hr) as [Hcw _].
  rewrite (parse_chunks_words (chunks_of q r)) by (try done; try (by apply chunks_of_head); fold m; lia).
  cbn [rbind]. fold m. destruct (bits_chunks_of q r Hr Hr1) as (z & ->). rewrite <- Hlen.
  rewrite valid_bits_true by lia. rewrite (parse_deltas_words ds) by (done || lia). cbn [rbind].
  by rewrite assign_seqs_true by lia.
Qed.

(** a batch of 2 to 300 packets received without a loss is read back by [Parse] with
    its SSRCs, reference time, feedback count and deltas, unless it leaves exactly one
    packet for the last chunk.  The packets are numbered from [base_seq_] on, although
    the batch starts with the packet behind it. *)
Theorem tcc_roundtrip (k : t) (buffer : buf) (s : Z) (ds : list Z) :
  recv_deltas_ k = contig s ds -> Forall word ds -> word s -> word (base_seq_ k) ->
  0 <= reference_time_ k < 16777216 -> 0 <= fb_pkt_count_ k < 256 ->
  (2 <= length ds <= 300)%nat -> (length ds mod 14 <> 1)%nat ->
  bytes buffer -> (1000 <= length buffer)%nat ->
  exists b len, Serial k buffer = Ok (Some (b, len)) /\ length b = length buffer /\
    exists k', Parse (Some b) len = Ok (Some k') /\
      sender_ssrc_ k' = u32 (sender_ssrc_ k) /\ media_ssrc_ k' = u32 (media_ssrc_ k) /\
      base_seq_ k' = base_seq_ k /\ packet_status_cnt_ k' = Z.of_nat (length ds) /\
      reference_time_ k' = reference_time_ k /\ fb_pkt_count_ k' = fb_pkt_count_ k /\
      recv_deltas_ k' = contig (base_seq_ k) ds.
Proof.
  intros Hk Hds Hs Hbase Href Hcnt Hn Hmod Hb Hroom.
  set (q := (length ds / 14)%nat). set (r := (length ds mod 14)%nat) in *.
  assert (Hlen : (length ds = 14 * q + r)%nat) by apply Nat.div_mod_eq.
  assert (Hr : (r < 14)%nat) by (apply Nat.mod_upper_bound; lia).
  pose proof (length_chunks_of q r Hmod Hr) as Hm.
  assert (HL : (fb_len q r ds <= 1000)%nat) by (unfold fb_len; destruct (fb_odd q r ds); lia).
  set (w := fb_wire (sender_ssrc_ k) (media_ssrc_ k) (base_seq_ k) (Z.of_nat (length ds)) (ref_and_cnt k) q r ds).
  assert (Hw : length w = fb_len q r ds) by apply length_fb_wire.
  exists (splice 0 w buffer), (fb_len q r ds).
  assert (Hlb : length (splice 0 w buffer) = length buffer) by (rewrite length_splice; lia).
  split; [by apply (Serial_contig k s); try lia|]. split; [done|]. eexists. split.
  { apply tcc_Parse_wire; try done; try lia; [by apply bytes_splice, bytes_fb_wire|]. by rewrite slice_splice_eq by lia. }
  cbn [sender_ssrc_ media_ssrc_ base_seq_ packet_status_cnt_ reference_time_ fb_pkt_count_ recv_deltas_].
  assert (Hrc : ref_and_cnt k = reference_time_ k * 256 + fb_pkt_count_ k).
  { unfold ref_and_cnt. rewrite u32_small by (rewrite Z.shiftl_mul_pow2 by lia; change (2 ^ 8) with 256; lia).
    rewrite lor_shiftl_small by (change (2 ^ 8) with 256; lia). by change (2 ^ 8) with 256. }
  rewrite (u32_small (ref_and_cnt k)), Hrc by lia. split_and!; try done.
  - change 0x00FFFFFF with (Z.ones 24). rewrite Z.shiftr_div_pow2, Z.land_ones by lia.
    change (2 ^ 8) with 256. change (2 ^ 24) with 16777216. zlia.
  - change 0xFF with (Z.ones 8). rewrite Z.land_ones by lia. change (2 ^ 8) with 256. zlia.
Qed.
Lemma tcc_roundtrip_witness :
  exists b len k', Serial (mk 1 2 10 0 5 7 (contig 11 [20; 30]) [] 0 true 12) (replicate 1000 0) = Ok (Some (b, len)) /\
    Parse (Some b) len = Ok (Some k') /\ recv_deltas_ k' = [mkdelta 20 10; mkdelta 30 11].
Proof.
  destruct (tcc_roundtrip (mk 1 2 10 0 5 7 (contig 11 [20; 30]) [] 0 true 12) (replicate 1000 0) 11 [20; 30])
    as (b & len & H1 & _ & k' & H2 & _ & _ & _ & _ & _ & _ & H3);
    [reflexivity|repeat constructor; unfold word; lia|unfold word; lia|unfold word; cbn; lia|cbn; lia|cbn; lia
    |cbn; lia|cbn; lia|bytes_done|rewrite length_replicate; lia|].
  exists b, len, k'. split; [exact H1|]. split; [exact H2|exact H3].
Defined.

(** ** Defects *)

(** The packets a receiver reads from the feedback for the arrivals [l]. *)
Fixpoint insert_all (k : t) (l : list (Z * Z)) : t :=
  match l with [] => k | (w, now) :: l' => insert_all (fst (InsertPacket k w now)) l' end.
Definition reported (l : list (Z * Z)) : res (option (list Z)) :=
  let! r := Serial (insert_all new_RtcpTccFbPacket l) (replicate 1500 0) in
  match r with
  | None => Ok None
  | Some (b, len) =>
      let! k := Parse (Some b) len in
      Ok (match k with Some k => Some (map wide_seq_ (recv_deltas_ k)) | None => None end)
  end.

(** Packets 100, 101, ..., received without loss, are reported as 100, 101, ... without
    the last: the first packet has no delta, and its number goes to the second. *)
Lemma reported_off_by_one :
  reported [(100, 0); (101, 20); (102, 40); (103, 60)] = Ok (Some [100; 101; 102]).
Proof. vm_compute. reflexivity. Qed.

(** With 101 lost, 102 and 103 are reported as 100 and 101, ... *)
Lemma reported_first_gap :
  reported [(100, 0); (102, 20); (103, 40)] = Ok (Some [100; 101]).
Proof. vm_compute. reflexivity. Qed.

(** ... and with 102 lost, the status count is that of the received packets, so the
    reader stops before the last one. *)
Lemma reported_gap_cut :
  reported [(100, 0); (101, 20); (103, 40); (104, 60)] = Ok (Some [100; 102]).
Proof. vm_compute. reflexivity. Qed.

(** Fifteen deltas leave one packet for the second chunk, which is not written: the
    reader takes the first delta for a chunk and gives the packet up. *)
Lemma reported_single_tail :
  reported (map (fun i => (100 + i, 20 * i)) (seqZ 0 16)) = Ok None.
Proof. vm_compute. reflexivity. Qed.

(** a jump of the sequence numbers, which the sender controls, makes [Serial] write a
    status chunk for every 14 packets skipped: from 100 to 20000 it runs past the
    1500-byte buffer before the assertion on the chunks is reached. *)
Theorem Serial_jump_overflows : reported [(100, 0); (101, 20); (20000, 40)] = Undef OobWrite.
Proof. vm_compute. reflexivity. Qed.

(** A packet behind number 0 is not recognised as late. *)
Lemma late_behind_zero :
  InsertPacket (insert_all new_RtcpTccFbPacket [(0, 0)]) 65535 20
    = (mk 0 0 0 0 0 0 [mkdelta 20 65535] [] 20 true 65535, 0).
Proof. vm_compute. reflexivity. Qed.

End RtcpTccFb.
