(* ===== verification/Nack.v ===== *)
(** [webrtc_room/nack_generator.cpp] and [.hpp]: the list of lost sequence numbers a
    receiver asks for again.  [UpdateNackList] follows the arriving sequence numbers,
    [OnTimer] (every 10 ms) selects the losses to request and retires old ones. *)
From S2P Require Import Prelude RtpPub StdMap RtpPacket.
From stdpp Require Import sorting.
#[local] Open Scope Z_scope.

Module Nack.

Definition NACK_LIST_MAX : nat := 5000.
Definition NACK_RETRY_MAX : Z := 80.
Definition NACK_DEFAULT_RTT : Z := 15.

(** [class NACK_INFO]. *)
Record NACK_INFO := mkinfo { seq : Z; sent_ms : Z; retry : Z }.

(** [timer_running_] belongs to the base class [TimerInterface]. *)
Record t := mk {
  init_flag_ : bool; last_seq_ : Z; nack_map_ : list (Z * NACK_INFO); rtt_ : Z; timer_running_ : bool
}.

(** The constructor: the members' initialisers, then [StartTimer()]. *)
Definition new_NackGenerator : t := mk false 0 [] NACK_DEFAULT_RTT true.

Definition UpdateRtt (k : t) (rtt : Z) : t :=
  mk (init_flag_ k) (last_seq_ k) (nack_map_ k) rtt (timer_running_ k).

Definition IsInNackList (k : t) (s : Z) : bool :=
  match StdMap.find s (nack_map_ k) with Some _ => true | None => false end.

(** [for (uint16_t key_seq = seq_start + 1; key_seq < seq_end; key_seq++)]. *)
Fixpoint add_lost (fuel : nat) (key_seq seq_end : Z) (m : list (Z * NACK_INFO)) : res (list (Z * NACK_INFO)) :=
  match fuel with
  | O => Undef OutOfFuel
  | S fuel' =>
      if key_seq <? seq_end then
        let m' := match StdMap.find key_seq m with
                  | None => StdMap.insert key_seq (mkinfo key_seq 0 0) m
                  | Some _ => m
                  end in
        add_lost fuel' (u16 (key_seq + 1)) seq_end m'
      else Ok m
  end.

(** More than the 65535 steps the 16-bit loop variable can make. *)
Definition loop_fuel : nat := Z.to_nat 65537.

Definition UpdateNackList (k : t) (pkt : RtpPacket.t) : res t :=
  let! s := RtpPacket.GetSeq pkt in
  if negb (init_flag_ k) then Ok (mk true s (nack_map_ k) (rtt_ k) (timer_running_ k)) else
  if s =? last_seq_ k then Ok k else
  if RtpPub.SeqLowerThan s (last_seq_ k) then
    match StdMap.find s (nack_map_ k) with
    | Some _ => Ok (mk (init_flag_ k) (last_seq_ k) (StdMap.erase s (nack_map_ k)) (rtt_ k) (timer_running_ k))
    | None => Ok k
    end
  else if last_seq_ k + 1 =? s then Ok (mk (init_flag_ k) s (nack_map_ k) (rtt_ k) (timer_running_ k))
  else
    let seq_start := last_seq_ k in
    let! m := add_lost loop_fuel (u16 (seq_start + 1)) s (nack_map_ k) in
    Ok (mk (init_flag_ k) s m (rtt_ k) (timer_running_ k)).

(** The scan of [OnTimer]: the entries kept, and the sequence numbers to request. *)
Fixpoint scan (now_ms rtt : Z) (m : list (Z * NACK_INFO)) : list (Z * NACK_INFO) * list Z :=
  match m with
  | [] => ([], [])
  | (key, info) :: m' =>
      let '(kept, lost) := scan now_ms rtt m' in
      if NACK_RETRY_MAX <? retry info then (kept, lost)
      else if now_ms - sent_ms info <? rtt then ((key, info) :: kept, lost)
      else ((key, mkinfo (seq info) now_ms (retry info + 1)) :: kept, key :: lost)
  end.

(** [while (nack_map_.size() > NACK_LIST_MAX) nack_map_.erase(nack_map_.begin())]. *)
Fixpoint trim (m : list (Z * NACK_INFO)) : list (Z * NACK_INFO) :=
  match m with
  | [] => []
  | _ :: m' => if (NACK_LIST_MAX <? length m)%nat then trim m' else m
  end.

(** [OnTimer]: the new state, the argument of the call [cb_->GenerateNackList] if it is
    made, and the result. *)
Definition OnTimer (k : t) (now_ms : Z) : t * option (list Z) * bool :=
  match nack_map_ k with
  | [] => (k, None, timer_running_ k)
  | _ :: _ =>
      let '(kept, lost_seq_list) := scan now_ms (rtt_ k) (nack_map_ k) in
      let call :=
        match lost_seq_list with
        | [] => None
        | _ :: _ =>
            Some (if (1 <? length lost_seq_list)%nat then merge_sort Z.le lost_seq_list else lost_seq_list)
        end in
      (mk (init_flag_ k) (last_seq_ k) (trim kept) (rtt_ k) (timer_running_ k), call, timer_running_ k)
  end.

(** * Invariant *)

Definition entry_ok (e : Z * NACK_INFO) : Prop :=
  0 <= e.1 < 65536 /\ seq e.2 = e.1 /\ 0 <= retry e.2 <= NACK_RETRY_MAX + 1.

Record wf (k : t) : Prop := {
  wf_last : 0 <= last_seq_ k < 65536;
  wf_sorted : StdMap.sorted (nack_map_ k);
  wf_entries : Forall entry_ok (nack_map_ k)
}.

(** What one timer tick does to one entry. *)
Definition tick (now_ms rtt : Z) (info : NACK_INFO) : option NACK_INFO :=
  if NACK_RETRY_MAX <? retry info then None
  else if now_ms - sent_ms info <? rtt then Some info
  else Some (mkinfo (seq info) now_ms (retry info + 1)).
Definition due (now_ms rtt : Z) (info : NACK_INFO) : bool :=
  (retry info <=? NACK_RETRY_MAX) && (rtt <=? now_ms - sent_ms info).

(** A run of timer ticks: the final state and the calls made, in order. *)
Fixpoint ticks (k : t) (times : list Z) : t * list (list Z) :=
  match times with
  | [] => (k, [])
  | now :: times' =>
      let '(k1, call, _) := OnTimer k now in
      let '(k2, calls) := ticks k1 times' in
      (k2, match call with Some l => l :: calls | None => calls end)
  end.

(** The losses [UpdateNackList] records between the last sequence number and a newer
    one: those in between on the circle, unless the gap passes 65535 part-way. *)
Definition recorded (last s q : Z) : bool :=
  ((last <? s) || (last =? 65535)) &&
  (0 <? u16 (q - last)) && (u16 (q - last) <? u16 (s - last)).

(** * Lemmas *)

Lemma add_lost_ok fuel key e m :
  0 <= key < 65536 -> 0 <= e < 65536 -> StdMap.sorted m -> Forall entry_ok m ->
  (Z.to_nat (e - key) < fuel)%nat ->
  exists m', add_lost fuel key e m = Ok m' /\ StdMap.sorted m' /\ Forall entry_ok m' /\
    forall q, StdMap.find q m' =
      match StdMap.find q m with
      | Some i => Some i
      | None => if (key <=? q) && (q <? e) then Some (mkinfo q 0 0) else None
      end.
Proof.
  revert key m. induction fuel as [|fuel IH]; intros key m Hk He Hs Hf Hfuel; [lia|].
  cbn [add_lost]. destruct (Z.ltb_spec key e) as [Hlt|Hge].
  - replace (match StdMap.find key m with Some _ => m | None => _ end)
      with (StdMap.insert key (mkinfo key 0 0) m)
      by (unfold StdMap.insert; by destruct (StdMap.find key m)).
    rewrite u16_small by lia.
    destruct (IH (key + 1) (StdMap.insert key (mkinfo key 0 0) m)) as (m' & -> & Hs' & Hf' & Hq);
      [lia..|eauto with smap| |lia|].
    { unfold StdMap.insert. destruct (StdMap.find key m); [done|]. apply StdMap.Forall_set; [|done].
      unfold entry_ok, NACK_RETRY_MAX. cbn. lia. }
    eexists; split_and!; [done..|]. intros q. rewrite Hq, StdMap.find_insert.
    destruct (StdMap.find q m); [done|]. btests; subst; try done; try lia.
  - eexists; split_and!; [done..|]. intros q. destruct (StdMap.find q m); [done|].
    btests; done || lia.
Qed.

(** The scan entry by entry: what is kept and what is requested. *)
Lemma scan_keys now rtt m :
  Forall (fun q => In q (StdMap.keys m)) (StdMap.keys (scan now rtt m).1) /\
  Forall (fun q => In q (StdMap.keys m)) (scan now rtt m).2.
Proof.
  induction m as [|[key info] m [IH1 IH2]]; cbn [scan]; [by repeat constructor|].
  destruct (scan now rtt m) as [kept lost]. cbn [fst snd] in *.
  assert (Hw : forall l, Forall (fun q => In q (StdMap.keys m)) l ->
            Forall (fun q => In q (StdMap.keys ((key, info) :: m))) l).
  { intros l Hl. eapply Forall_impl; [exact Hl|]. intros ? ?. by right. }
  btests; cbn; split; repeat constructor; auto.
Qed.

Lemma keys_above (m : list (Z * NACK_INFO)) key l :
  Forall (fun k' => key < k') (StdMap.keys m) -> Forall (fun q => In q (StdMap.keys m)) l ->
  Forall (fun k' => key < k') l.
Proof.
  intros H Hl. eapply Forall_impl; [exact Hl|]. cbv beta. intros q Hq.
  rewrite Forall_forall in H. apply H. by apply list_elem_of_In.
Qed.

Lemma scan_sorted now rtt m :
  StdMap.sorted m -> StdMap.sorted (scan now rtt m).1 /\ StronglySorted Z.lt (scan now rtt m).2.
Proof.
  induction m as [|[key info] m IH]; cbn [scan]; [repeat constructor|].
  intros [Hs Hk]%StdMap.sorted_cons. specialize (IH Hs). pose proof (scan_keys now rtt m) as [H1 H2].
  destruct (scan now rtt m) as [kept lost]. cbn [fst snd] in *. destruct IH.
  btests; cbn; [done|..]; (split; [apply StdMap.sorted_cons; split|]); eauto using keys_above.
  constructor; eauto using keys_above.
Qed.

Lemma scan_find now rtt m q :
  StdMap.sorted m ->
  StdMap.find q (scan now rtt m).1 =
    match StdMap.find q m with Some info => tick now rtt info | None => None end.
Proof.
  induction m as [|[key info] m IH]; cbn [scan]; [done|].
  intros [Hs Hk]%StdMap.sorted_cons. specialize (IH Hs). pose proof (scan_keys now rtt m) as [H1 _].
  destruct (scan now rtt m) as [kept lost]. cbn [fst snd] in *. cbn [StdMap.find].
  unfold tick. destruct (Z.eqb_spec q key) as [->|Hne].
  - btests; cbn [fst StdMap.find]; rewrite ?Z.eqb_refl; try done.
    apply StdMap.keys_lt_find_None. eauto using keys_above.
  - apply Z.eqb_neq in Hne. btests; cbn [fst StdMap.find]; rewrite ?Hne; done.
Qed.

Lemma scan_lost now rtt m q :
  StdMap.sorted m ->
  In q (scan now rtt m).2 <-> exists info, StdMap.find q m = Some info /\ due now rtt info = true.
Proof.
  induction m as [|[key info] m IH]; cbn [scan]; [cbn; split; [done|by intros (? & ? & _)]|].
  intros [Hs Hk]%StdMap.sorted_cons. specialize (IH Hs). pose proof (scan_keys now rtt m) as [_ H2].
  destruct (scan now rtt m) as [kept lost]. cbn [fst snd] in *. cbn [StdMap.find].
  destruct (Z.eqb_spec q key) as [->|Hne].
  - assert (~ In key lost).
    { intros Hin. pose proof (keys_above _ _ _ Hk H2) as Hl. rewrite Forall_forall in Hl.
      specialize (Hl key). cbv beta in Hl. rewrite list_elem_of_In in Hl. specialize (Hl Hin). lia. }
    unfold due. btests; cbn [snd]; (split; [intros Hin|intros (i & [= <-] & Hd)]);
      rewrite ?andb_true_iff, ?Z.leb_le in *; try done; try lia.
    + eexists. split; [done|]. apply andb_true_iff. rewrite !Z.leb_le. lia.
    + by left.
  - btests; cbn [snd]; rewrite <- IH; try done. split; [by intros [->|]|by right].
Qed.

Lemma scan_entries now rtt m : Forall entry_ok m -> Forall entry_ok (scan now rtt m).1.
Proof.
  induction m as [|[key info] m IH]; cbn [scan]; [done|].
  intros [(? & ? & ?) Hm]%Forall_cons. specialize (IH Hm).
  destruct (scan now rtt m) as [kept lost]. cbn [fst snd] in *.
  btests; cbn [fst]; [done|..]; constructor; try done; unfold entry_ok; cbn [fst snd seq retry] in *; lia.
Qed.

Lemma trim_drop m : trim m = drop (length m - NACK_LIST_MAX) m.
Proof.
  induction m as [|e m IH]; [done|]. cbn [trim]. destruct (Nat.ltb_spec NACK_LIST_MAX (length (e :: m))) as [H|H].
  - rewrite IH. cbn [length] in *. by rewrite (Nat.sub_succ_l NACK_LIST_MAX) by lia.
  - replace (length (e :: m) - NACK_LIST_MAX)%nat with 0%nat by lia. done.
Qed.

(** Sorting an increasing list changes nothing. *)
Lemma merge_sort_increasing l : StronglySorted Z.lt l -> merge_sort Z.le l = l.
Proof.
  intros H. assert (Hle : StronglySorted Z.le l).
  { clear -H. induction H as [|x l Hl IH Hx]; constructor; [done|].
    eapply Forall_impl; [exact Hx|]. cbv beta; lia. }
  apply (StronglySorted_unique_strong Z.le); [|apply (StronglySorted_merge_sort Z.le)|done|apply merge_sort_Permutation].
  intros x y _ _ ??. lia.
Qed.

Lemma nack_wf_new : wf new_NackGenerator.
Proof. split; cbn; [lia|constructor|constructor]. Qed.

(** Everything one tick does, in one lemma. *)
Lemma OnTimer_ok k now :
  wf k ->
  let '(k', call, ret) := OnTimer k now in
  wf k' /\ init_flag_ k' = init_flag_ k /\ last_seq_ k' = last_seq_ k /\ rtt_ k' = rtt_ k /\
  timer_running_ k' = timer_running_ k /\ ret = timer_running_ k /\
  (exists kept, StdMap.sorted kept /\
     (forall q, StdMap.find q kept =
        match StdMap.find q (nack_map_ k) with Some info => tick now (rtt_ k) info | None => None end) /\
     nack_map_ k' = drop (length kept - NACK_LIST_MAX) kept) /\
  let lost := match call with Some l => l | None => [] end in
  call <> Some [] /\ StronglySorted Z.lt lost /\
  (forall q, In q lost <-> exists info, StdMap.find q (nack_map_ k) = Some info /\ due now (rtt_ k) info = true).
Proof.
  intros [Hl Hs He]. unfold OnTimer. destruct (nack_map_ k) as [|e m] eqn:Hm.
  { split_and!; try done.
    - by split; rewrite ?Hm.
    - exists []. rewrite Hm. split_and!; done || constructor.
    - intros q. split; [done|by intros (? & ? & _)]. }
  rewrite <- Hm in *. pose proof (scan_sorted now (rtt_ k) _ Hs) as [Hk Hlt].
  pose proof (scan_lost now (rtt_ k) (nack_map_ k)) as Hlost.
  pose proof (scan_find now (rtt_ k) (nack_map_ k)) as Hfind.
  pose proof (scan_entries now (rtt_ k) _ He) as Hent.
  destruct (scan now (rtt_ k) (nack_map_ k)) as [kept lost]. cbn [fst snd] in *.
  cbn [init_flag_ last_seq_ nack_map_ rtt_ timer_running_]. rewrite trim_drop.
  rewrite merge_sort_increasing by done.
  replace (if (1 <? length lost)%nat then lost else lost) with lost by (by destruct (1 <? length lost)%nat).
  split_and!; try done.
  - split; cbn; [done|by apply StdMap.sorted_drop|by apply Forall_drop].
  - exists kept. split_and!; auto.
  - by destruct lost.
  - by destruct lost.
  - intros q. rewrite <- Hlost by done. by destruct lost.
Qed.

Lemma find_drop q n (m : list (Z * NACK_INFO)) i :
  StdMap.sorted m -> StdMap.find q (drop n m) = Some i -> StdMap.find q m = Some i.
Proof.
  revert m. induction n as [|n IH]; intros [|[k' v] m] Hs H; try done.
  apply StdMap.sorted_cons in Hs as [Hs Hk]. cbn [drop] in H. apply (IH _ Hs) in H.
  cbn. btests; [|done]. subst. by rewrite StdMap.keys_lt_find_None in H.
Qed.

(** The entry of [q] after a tick was there before, and is what [tick] made of it. *)
Lemma OnTimer_entry k now q i' :
  wf k -> StdMap.find q (nack_map_ (OnTimer k now).1.1) = Some i' ->
  exists i, StdMap.find q (nack_map_ k) = Some i /\ tick now (rtt_ k) i = Some i'.
Proof.
  intros Hwf H. pose proof (OnTimer_ok k now Hwf) as Hok.
  destruct (OnTimer k now) as [[k' call] ret]. cbn [fst] in H.
  destruct Hok as (_ & _ & _ & _ & _ & _ & (kept & Hs & Hf & Hd) & _).
  rewrite Hd in H. apply find_drop in H; [|done]. rewrite Hf in H.
  destruct (StdMap.find q (nack_map_ k)); [eauto|done].
Qed.

(** How often a loss may still be requested. *)
Definition budget (k : t) (q : Z) : Z :=
  match StdMap.find q (nack_map_ k) with Some i => NACK_RETRY_MAX + 1 - retry i | None => 0 end.
Definition requests (q : Z) (calls : list (list Z)) : Z :=
  Z.of_nat (length (List.filter (fun l => existsb (Z.eqb q) l) calls)).

Lemma existsb_In q l : existsb (Z.eqb q) l = true <-> In q l.
Proof.
  rewrite existsb_exists. split.
  - intros (x & Hin & ->%Z.eqb_eq). done.
  - intros. exists q. by rewrite Z.eqb_refl.
Qed.

Lemma budget_range k q : wf k -> 0 <= budget k q <= NACK_RETRY_MAX + 1.
Proof.
  intros [_ _ He]. unfold budget. destruct (StdMap.find q (nack_map_ k)) as [i|] eqn:E.
  - destruct (StdMap.Forall_find _ _ _ _ He E) as (_ & _ & ?). cbn in *. lia.
  - unfold NACK_RETRY_MAX. lia.
Qed.

Lemma requests_budget k times q : wf k -> requests q (ticks k times).2 <= budget k q.
Proof.
  revert k. induction times as [|now times IH]; intros k Hwf; cbn [ticks].
  { cbn. by apply budget_range. }
  pose proof (OnTimer_ok k now Hwf) as Hok. pose proof (OnTimer_entry k now q) as Hent.
  destruct (OnTimer k now) as [[k1 call] ret]. cbn [fst] in Hent.
  destruct Hok as (Hwf1 & _ & _ & _ & _ & _ & _ & Hne & _ & Hin).
  specialize (IH k1 Hwf1). destruct (ticks k1 times) as [k2 calls]. cbn [snd] in *.
  pose proof (budget_range k1 q Hwf1). pose proof (budget_range k q Hwf).
  assert (Hstep : (if existsb (Z.eqb q) (match call with Some l => l | None => [] end) then 1 else 0)
                  + budget k1 q <= budget k q).
  { destruct (existsb (Z.eqb q) _) eqn:E.
    - apply existsb_In, Hin in E as (i & Hi & Hd). unfold due in Hd.
      apply andb_true_iff in Hd. rewrite !Z.leb_le in Hd.
      unfold budget in *. rewrite Hi in *. destruct (StdMap.find q (nack_map_ k1)) as [i'|]; [|lia].
      destruct (Hent i' Hwf eq_refl) as (i0 & [= <-] & Ht). revert Ht. unfold tick.
      btests; try lia. intros [= <-]. cbn. lia.
    - unfold budget at 1. destruct (StdMap.find q (nack_map_ k1)) as [i'|] eqn:E1; [|lia].
      destruct (Hent i' Hwf eq_refl) as (i0 & Hi & Ht). unfold budget. rewrite Hi.
      revert Ht. unfold tick. btests; intros [= <-]; cbn; lia. }
  destruct call as [l|]; [|cbn in Hstep; lia].
  unfold requests in *. cbn [List.filter]. destruct (existsb (Z.eqb q) l); cbn [length]; lia.
Qed.

Lemma ticks_drain k times n :
  wf k -> Sorted.Sorted (fun a b => rtt_ k <= b - a) times ->
  Forall (fun e => n <= retry e.2 /\ (forall now, hd_error times = Some now -> rtt_ k <= now - sent_ms e.2)) (nack_map_ k) ->
  NACK_RETRY_MAX + 2 <= n + Z.of_nat (length times) ->
  nack_map_ (ticks k times).1 = [].
Proof.
  revert k n. induction times as [|now times IH]; intros k n Hwf Hsp Hall Hlen; cbn [ticks].
  { destruct Hwf as [_ _ He]. cbn [fst]. destruct (nack_map_ k) as [|e m]; [done|].
    apply Forall_cons in Hall as [[? _] _]. apply Forall_cons in He as [(_ & _ & ?) _]. cbn in *. lia. }
  pose proof (OnTimer_ok k now Hwf) as Hok. pose proof (OnTimer_entry k now) as Hent.
  destruct (OnTimer k now) as [[k1 call] ret]. cbn [fst] in Hent.
  destruct Hok as (Hwf1 & _ & _ & Hrtt & _). apply Sorted.Sorted_inv in Hsp as [Hsp Hhd].
  specialize (IH k1 (n + 1) Hwf1). destruct (ticks k1 times) as [k2 calls]. cbn [fst] in *.
  apply IH; [by rewrite Hrtt| |cbn [length] in Hlen; lia].
  apply Forall_forall. intros [q i'] Hin%list_elem_of_In. cbn [snd].
  apply StdMap.In_find in Hin; [|apply Hwf1]. destruct (Hent q i' Hwf Hin) as (i & Hi & Ht).
  destruct (StdMap.Forall_find _ _ _ _ Hall Hi) as [Hn Hdue]. cbn [snd] in *.
  specialize (Hdue now eq_refl). rewrite Hrtt. revert Ht. unfold tick. btests; try done; try lia.
  intros [= <-]. cbn [retry sent_ms]. split; [lia|]. intros now' Hnow'.
  destruct times as [|t2 times]; [done|]. injection Hnow' as <-. by inversion Hhd.
Qed.

(** All of [UpdateNackList], for any packet with a header. *)
Lemma UpdateNackList_ok (k : t) (pkt : RtpPacket.t) :
  wf k -> RtpPacket.has_header pkt ->
  let s := RtpPacket.seq_of pkt in
  let d := u16 (s - last_seq_ k) in
  exists k', UpdateNackList k pkt = Ok k' /\ wf k' /\ init_flag_ k' = true /\
    rtt_ k' = rtt_ k /\ timer_running_ k' = timer_running_ k /\
    (init_flag_ k = false -> last_seq_ k' = s /\ nack_map_ k' = nack_map_ k) /\
    (init_flag_ k = true -> d = 0 -> k' = k) /\
    (init_flag_ k = true -> 32768 < d \/ (d = 32768 /\ last_seq_ k < s) ->
       last_seq_ k' = last_seq_ k /\
       forall q, StdMap.find q (nack_map_ k') = if q =? s then None else StdMap.find q (nack_map_ k)) /\
    (init_flag_ k = true -> 0 < d < 32768 \/ (d = 32768 /\ s < last_seq_ k) ->
       last_seq_ k' = s /\
       forall q, 0 <= q < 65536 ->
         StdMap.find q (nack_map_ k') =
           match StdMap.find q (nack_map_ k) with
           | Some i => Some i
           | None => if recorded (last_seq_ k) s q then Some (mkinfo q 0 0) else None
           end).
Proof.
  intros [Hl Hs He] Hp s d. pose proof (RtpPacket.seq_of_hdr pkt Hp) as Hr. fold s in Hr.
  unfold UpdateNackList. rewrite RtpPacket.GetSeq_hdr by done. fold s. cbn [rbind].
  destruct (init_flag_ k) eqn:Hi; cbn [negb].
  2: { eexists. split; [done|]. split_and!; try done. }
  destruct (Z.eqb_spec s (last_seq_ k)) as [Heq|Hne].
  { exists k. split_and!; try done; unfold d; intros; zlia. }
  assert (Hlow : RtpPub.SeqLowerThan s (last_seq_ k) = true <->
                 32768 < d \/ (d = 32768 /\ last_seq_ k < s)).
  { unfold d, RtpPub.SeqLowerThan, RtpPub.SEQUENCE_MAX. change (65535 / 2) with 32767.
    btests; split; intros; try done; zlia. }
  assert (d <> 0) by (unfold d; zlia).
  destruct (RtpPub.SeqLowerThan s (last_seq_ k)).
  { pose proof (proj1 Hlow eq_refl) as Hd.
    assert (Herase : forall q, (if q =? s then None else StdMap.find q (nack_map_ k)) =
              StdMap.find q (StdMap.erase s (nack_map_ k))) by (intros; by rewrite StdMap.find_erase).
    destruct (StdMap.find s (nack_map_ k)) eqn:E; eexists; (split; [done|]); split_and!; try done;
      try (intros; lia).
    - split; cbn; [done|auto with smap|by apply StdMap.Forall_erase].
    - intros _ _. split; [done|]. intros q. btests; [by subst|done]. }
  assert (Hd : ~ (32768 < d \/ (d = 32768 /\ last_seq_ k < s))) by (intros H1%Hlow; done).
  pose proof (u16_range (s - last_seq_ k)) as Hdr. fold d in Hdr.
  destruct (Z.eqb_spec (last_seq_ k + 1) s) as [Heq|Hne1].
  { eexists. split; [done|]. split_and!; try done. intros _ _. split; [done|]. intros q Hq. cbn.
    destruct (StdMap.find q (nack_map_ k)); [done|]. unfold recorded. fold d.
    replace d with 1 by (unfold d; zlia). destruct (Z.ltb_spec 0 (u16 (q - last_seq_ k))); btests; try lia;
      by rewrite ?andb_false_r. }
  destruct (add_lost_ok loop_fuel (u16 (last_seq_ k + 1)) s (nack_map_ k)) as (m' & -> & Hs' & He' & Hq);
    [apply u16_range|done..| |].
  { unfold loop_fuel. pose proof (u16_range (last_seq_ k + 1)). lia. }
  cbn [rbind]. eexists. split; [done|]. split_and!; try done. intros _ _. split; [done|].
  intros q Hqr. cbn. rewrite Hq. destruct (StdMap.find q (nack_map_ k)); [done|].
  replace ((u16 (last_seq_ k + 1) <=? q) && (q <? s)) with (recorded (last_seq_ k) s q); [done|].
  unfold recorded. destruct (Z.eqb_spec (last_seq_ k) 65535) as [E|E].
  - rewrite E in *. rewrite orb_true_r. change (u16 (65535 + 1)) with 0. btests; try done; zlia.
  - rewrite (u16_small (last_seq_ k + 1)) by lia. rewrite orb_false_r. btests; try done; zlia.
Qed.

(** * Properties *)

(** what an arriving sequence number does to the list of losses, on every path.
    The first one only starts the tracking.  A number equal to the last changes nothing.
    A number behind the last one (in 16-bit serial order) is taken off the list and the
    last one stays.  A number ahead becomes the last one and the numbers skipped are
    recorded as lost, each with no request made yet and without touching entries already
    there; but when the skipped range passes 65535 part-way none of it is recorded. *)
Theorem UpdateNackList_spec (k : t) (pkt : RtpPacket.t) :
  wf k -> RtpPacket.wf pkt ->
  let s := RtpPacket.seq_of pkt in
  let d := u16 (s - last_seq_ k) in
  exists k', UpdateNackList k pkt = Ok k' /\ wf k' /\ init_flag_ k' = true /\
    rtt_ k' = rtt_ k /\ timer_running_ k' = timer_running_ k /\
    (init_flag_ k = false -> last_seq_ k' = s /\ nack_map_ k' = nack_map_ k) /\
    (init_flag_ k = true -> d = 0 -> k' = k) /\
    (init_flag_ k = true -> 32768 < d \/ (d = 32768 /\ last_seq_ k < s) ->
       last_seq_ k' = last_seq_ k /\
       forall q, StdMap.find q (nack_map_ k') = if q =? s then None else StdMap.find q (nack_map_ k)) /\
    (init_flag_ k = true -> 0 < d < 32768 \/ (d = 32768 /\ s < last_seq_ k) ->
       last_seq_ k' = s /\
       forall q, 0 <= q < 65536 ->
         StdMap.find q (nack_map_ k') =
           match StdMap.find q (nack_map_ k) with
           | Some i => Some i
           | None => if recorded (last_seq_ k) s q then Some (mkinfo q 0 0) else None
           end).
Proof. intros Hwf Hp. by apply (UpdateNackList_ok k pkt Hwf), RtpPacket.wf_header. Qed.

(** a timer tick keeps the invariant.  An entry already requested 81 times is
    dropped; one whose last request is less than [rtt_] ago waits; every other one is
    requested now and counted.  The callback gets exactly the requested numbers, in
    increasing order, and is not called for none; then the list is cut to the 5000
    numerically largest entries. *)
Theorem OnTimer_spec (k : t) (now : Z) :
  wf k ->
  let '(k', call, ret) := OnTimer k now in
  wf k' /\ last_seq_ k' = last_seq_ k /\ rtt_ k' = rtt_ k /\ ret = timer_running_ k /\
  (length (nack_map_ k') <= NACK_LIST_MAX)%nat /\
  (exists kept, StdMap.sorted kept /\
     (forall q, StdMap.find q kept =
        match StdMap.find q (nack_map_ k) with Some info => tick now (rtt_ k) info | None => None end) /\
     nack_map_ k' = drop (length kept - NACK_LIST_MAX) kept) /\
  call <> Some [] /\
  (forall q, In q (match call with Some l => l | None => [] end) <->
     exists info, StdMap.find q (nack_map_ k) = Some info /\ due now (rtt_ k) info = true) /\
  StronglySorted Z.lt (match call with Some l => l | None => [] end).
Proof.
  intros Hwf. pose proof (OnTimer_ok k now Hwf) as Hok. destruct (OnTimer k now) as [[k' call] ret].
  destruct Hok as (? & ? & ? & ? & ? & ? & Hkept & ? & ? & ?). split_and!; try done.
  destruct Hkept as (kept & _ & _ & ->). rewrite length_drop. lia.
Qed.

(** requests are bounded and losses are given up: however the timer runs, one
    sequence number is requested at most 81 times; and 82 ticks, each at least [rtt_]
    after the one before (and the first that long after the last request), empty the
    list. *)
Theorem requests_bounded_and_drained (k : t) (times : list Z) (q : Z) :
  wf k ->
  requests q (ticks k times).2 <= NACK_RETRY_MAX + 1 /\
  ((82 <= length times)%nat -> Sorted.Sorted (fun a b => rtt_ k <= b - a) times ->
   (forall now e, hd_error times = Some now -> In e (nack_map_ k) -> rtt_ k <= now - sent_ms e.2) ->
   nack_map_ (ticks k times).1 = []).
Proof.
  intros Hwf. split.
  - etransitivity; [by apply requests_budget|by apply budget_range].
  - intros Hlen Hsp Hhd. apply (ticks_drain k times 0); [done..| |unfold NACK_RETRY_MAX; lia].
    apply Forall_forall. intros e Hin. split.
    + destruct Hwf as [_ _ He]. rewrite Forall_forall in He. apply He in Hin as (_ & _ & ?). lia.
    + intros now Hnow. apply Hhd; [done|by apply list_elem_of_In].
Qed.

(** A receiver that saw 7 last and has 3 and 5 outstanding, the latter given up. *)
Definition sample : t := mk true 7 [(3, mkinfo 3 40 2); (5, mkinfo 5 40 81)] 15 true.
Lemma nack_sample_wf : wf sample.
Proof.
  split; cbn; [lia|by repeat constructor|].
  repeat (apply Forall_cons; split; [cbn; unfold entry_ok, NACK_RETRY_MAX; cbn; lia|]). constructor.
Qed.

Lemma UpdateNackList_spec_witness :
  exists k', UpdateNackList sample RtpPacket.sample = Ok k' /\ last_seq_ k' = 10 /\
    StdMap.find 8 (nack_map_ k') = Some (mkinfo 8 0 0) /\ StdMap.find 5 (nack_map_ k') = Some (mkinfo 5 40 81).
Proof.
  destruct (UpdateNackList_spec sample RtpPacket.sample nack_sample_wf RtpPacket.sample_wf)
    as (k' & Hk & _ & _ & _ & _ & _ & _ & _ & H).
  destruct H as [H1 H2]; [done|left; vm_compute; split; done|].
  exists k'. split; [exact Hk|]. split; [exact H1|]. split; rewrite H2 by lia; vm_compute; reflexivity.
Defined.

Lemma OnTimer_spec_witness :
  exists k' call, OnTimer sample 100 = (k', call, true) /\ wf k' /\
    In 3 (match call with Some l => l | None => [] end).
Proof.
  pose proof (OnTimer_spec sample 100 nack_sample_wf) as H. destruct (OnTimer sample 100) as [[k' call] ret].
  destruct H as (Hwf & _ & _ & -> & _ & _ & _ & Hin & _). exists k', call. split; [done|]. split; [done|].
  apply Hin. exists (mkinfo 3 40 2). split; vm_compute; reflexivity.
Defined.

Lemma requests_bounded_and_drained_witness :
  nack_map_ (ticks sample (map (fun i => 100 + 20 * Z.of_nat i) (List.seq 0 82))).1 = [].
Proof.
  apply (proj2 (requests_bounded_and_drained sample _ 3 nack_sample_wf)).
  - cbn; lia.
  - vm_compute. repeat constructor; done.
  - cbn. intros now e [= <-] [<-|[<-|[]]]; cbn; lia.
Defined.

End Nack.
