(* ===== verification/JitterBuffer.v ===== *)
(** [webrtc_room/fast_jitterbuffer.cpp] and [.hpp]: the reordering buffer the voice agent
    feeds with RTP packets.  [PushRtpPacket] delivers, parks or drops a packet by
    comparing its number with [next_expected_seq_]; [OnTimer] releases packets that have
    waited too long. *)
From S2P Require Import Prelude RtpPub StdMap RtpPacket.

Module JitterBuffer.

Record t := mk {
  max_delay_ms_ : Z; clock_rate_ : Z;
  next_expected_seq_ : Z; has_received_first_packet_ : bool;
  packet_buffer_ : list (Z * RtpPacket.t); closed_ : bool
}.

(** The constructor; it does not start the timer of its base class. *)
Definition new_FastJitterBuffer (max_delay_ms clock_rate : Z) : t :=
  mk max_delay_ms clock_rate 0 false [] false.

(** The state with the expected number and the buffer replaced. *)
Definition with_seq (k : t) (next : Z) (m : list (Z * RtpPacket.t)) : t :=
  mk (max_delay_ms_ k) (clock_rate_ k) next (has_received_first_packet_ k) m (closed_ k).

(** A call of [callback_->OnJitterBufferRtpPacket(packets, discard)]. *)
Abbreviation call := (option (list RtpPacket.t * bool)).

Definition Close (k : t) : t :=
  if closed_ k then k
  else mk (max_delay_ms_ k) (clock_rate_ k) (next_expected_seq_ k) (has_received_first_packet_ k) [] true.

(** The loop of [OnTimer]: packets leave in key order while they are too old.  The
    difference of times is taken in [uint64_t]. *)
Fixpoint expire (now : Z) (max_delay next : Z) (m : list (Z * RtpPacket.t)) :
    res (list RtpPacket.t * Z * list (Z * RtpPacket.t)) :=
  match m with
  | [] => Ok ([], next, [])
  | (_, pkt) :: m' =>
      if u64 max_delay <=? u64 (u64 now - RtpPacket.local_ms pkt) then
        let! s := RtpPacket.GetSeq pkt in
        let! (out, next', rest) := expire now max_delay (u16 (s + 1)) m' in
        Ok (pkt :: out, next', rest)
      else Ok ([], next, m)
  end.

Definition OnTimer (k : t) (callback : bool) (now : Z) : res (t * call) :=
  let! (timeout_packets, next, rest) := expire now (max_delay_ms_ k) (next_expected_seq_ k) (packet_buffer_ k) in
  Ok (with_seq k next rest,
      match timeout_packets with
      | [] => None
      | _ :: _ => if callback then Some (timeout_packets, true) else None
      end).

(** The inner loop of the in-order branch: consecutive packets leave the buffer. *)
Fixpoint pop_consecutive (fuel : nat) (next : Z) (m : list (Z * RtpPacket.t)) :
    res (list RtpPacket.t * Z * list (Z * RtpPacket.t)) :=
  match fuel with
  | O => Undef OutOfFuel
  | S fuel' =>
      match StdMap.find next m with
      | None => Ok ([], next, m)
      | Some pkt =>
          let! (out, next', rest) := pop_consecutive fuel' (u16 (next + 1)) (StdMap.erase next m) in
          Ok (pkt :: out, next', rest)
      end
  end.

Definition PushRtpPacket (k : t) (callback : bool) (rtp_packet : option RtpPacket.t) : res (t * call) :=
  match rtp_packet with
  | None => Ok (k, None)
  | Some pkt =>
      if negb callback then Ok (k, None) else
      let! s := RtpPacket.GetSeq pkt in
      if negb (has_received_first_packet_ k) then
        Ok (mk (max_delay_ms_ k) (clock_rate_ k) (u16 (s + 1)) true (packet_buffer_ k) (closed_ k),
            Some ([pkt], false))
      else
        match RtpPub.CompareSeq (next_expected_seq_ k) s with
        | RtpPub.REPEAT_SEQ => Ok (k, None)
        | RtpPub.REVERSE_SEQ | RtpPub.JUMP_LARGE_SEQ =>
            Ok (with_seq k (u16 (s + 1)) [], Some (map snd (packet_buffer_ k) ++ [pkt], false))
        | RtpPub.DISCORD_SEQ => Ok (k, None)
        | RtpPub.NORMAL_SEQ =>
            let next := u16 (next_expected_seq_ k + 1) in
            let! (out, next', rest) := pop_consecutive (S (length (packet_buffer_ k))) next (packet_buffer_ k) in
            Ok (with_seq k next' rest, Some (pkt :: out, false))
        | RtpPub.LITTLE_JUMP_SEQ =>
            Ok (with_seq k (next_expected_seq_ k) (StdMap.set s pkt (packet_buffer_ k)), None)
        end
  end.

(** A run of pushes: the final state and the packets delivered, in order. *)
Fixpoint pushes (k : t) (pkts : list RtpPacket.t) : res (t * list RtpPacket.t) :=
  match pkts with
  | [] => Ok (k, [])
  | p :: pkts' =>
      let! (k1, c) := PushRtpPacket k true (Some p) in
      let! (k2, out) := pushes k1 pkts' in
      Ok (k2, match c with Some (l, _) => l ++ out | None => out end)
  end.

(** * Invariant *)

Definition parked (e : Z * RtpPacket.t) : Prop := RtpPacket.wf e.2 /\ RtpPacket.seq_of e.2 = e.1.

Record wf (k : t) : Prop := {
  wf_next : 0 <= next_expected_seq_ k < 65536;
  wf_sorted : StdMap.sorted (packet_buffer_ k);
  wf_parked : Forall parked (packet_buffer_ k)
}.

Definition held (k : t) : list RtpPacket.t := map snd (packet_buffer_ k).

(** [l] carries the numbers [next], [next + 1], ... around the 16-bit circle. *)
Fixpoint consecutive (next : Z) (l : list RtpPacket.t) : Prop :=
  match l with
  | [] => True
  | p :: l' => RtpPacket.seq_of p = next /\ consecutive (u16 (next + 1)) l'
  end.

(** * Lemmas *)

Lemma jitter_wf_new d c : wf (new_FastJitterBuffer d c).
Proof. split; cbn; [lia|constructor..]. Qed.

Lemma u16_step a n : u16 (u16 (a + 1) + n) = u16 (a + (1 + n)).
Proof. unfold u16. rewrite Zplus_mod_idemp_l. f_equal. lia. Qed.

Lemma pop_consecutive_ok fuel next m :
  0 <= next < 65536 -> StdMap.sorted m -> Forall parked m -> (length m < fuel)%nat ->
  exists out rest, let next' := u16 (next + Z.of_nat (length out)) in
    pop_consecutive fuel next m = Ok (out, next', rest) /\
    StdMap.sorted rest /\ Forall parked rest /\ out ++ map snd rest ≡ₚ map snd m /\
    consecutive next out /\ StdMap.find next' rest = None.
Proof.
  revert next m. induction fuel as [|fuel IH]; intros next m Hn Hs Hp Hl; [lia|].
  cbn [pop_consecutive]. destruct (StdMap.find next m) as [pkt|] eqn:E.
  - pose proof (StdMap.erase_Permutation _ _ _ E) as Hperm.
    pose proof (StdMap.Forall_find _ _ _ _ Hp E) as [_ Hseq]. cbn [fst snd] in Hseq.
    destruct (IH (u16 (next + 1)) (StdMap.erase next m)) as (out & rest & Heq & Hs' & Hp' & Hm & Hc & Hf);
      [apply u16_range|auto with smap|by apply StdMap.Forall_erase| |].
    { apply Permutation_length in Hperm. cbn in Hperm. lia. }
    rewrite u16_step in Heq, Hf. exists (pkt :: out), rest. cbv zeta. rewrite Heq.
    cbn [rbind length]. replace (Z.of_nat (S (length out))) with (1 + Z.of_nat (length out)) by lia.
    split_and!; try done. cbn [app]. rewrite Hm. by rewrite Hperm at 2.
  - exists [], m. cbv zeta. cbn [length app]. rewrite Z.add_0_r, u16_small by done. by split_and!.
Qed.

Lemma expire_ok now delay next m :
  Forall parked m ->
  exists out next' rest, expire now delay next m = Ok (out, next', rest) /\
    map snd m = out ++ map snd rest /\ drop (length out) m = rest /\
    Forall (fun p => u64 delay <= u64 (u64 now - RtpPacket.local_ms p)) out /\
    match rest with
    | [] => True
    | (_, p) :: _ => u64 (u64 now - RtpPacket.local_ms p) < u64 delay
    end /\
    next' = match last out with Some p => u16 (RtpPacket.seq_of p + 1) | None => next end.
Proof.
  revert next. induction m as [|[q p] m IH]; intros next; cbn [expire].
  { intros _. by exists [], next, []. }
  intros [[Hp _] Hm]%Forall_cons. cbn [snd] in Hp.
  destruct (Z.leb_spec (u64 delay) (u64 (u64 now - RtpPacket.local_ms p))) as [Hd|Hd].
  - rewrite RtpPacket.GetSeq_wf by done. cbn [rbind].
    destruct (IH (u16 (RtpPacket.seq_of p + 1)) Hm) as (out & next' & rest & -> & Hmap & Hdrop & Hout & Hrest & Hn).
    cbn [rbind]. exists (p :: out), next', rest. split_and!; try done.
    + cbn. by rewrite Hmap.
    + by constructor.
    + rewrite Hn, last_cons. by destruct (last out).
  - exists [], next, ((q, p) :: m). by split_and!.
Qed.

(** A push after the first packet, by the outcome of the comparison. *)
Lemma Push_ok k pkt :
  wf k -> RtpPacket.wf pkt -> has_received_first_packet_ k = true ->
  let s := RtpPacket.seq_of pkt in
  exists k' c, PushRtpPacket k true (Some pkt) = Ok (k', c) /\ wf k' /\
    has_received_first_packet_ k' = true /\
    match RtpPub.CompareSeq (next_expected_seq_ k) s with
    | RtpPub.REPEAT_SEQ | RtpPub.DISCORD_SEQ => k' = k /\ c = None
    | RtpPub.LITTLE_JUMP_SEQ =>
        c = None /\ next_expected_seq_ k' = next_expected_seq_ k /\
        packet_buffer_ k' = StdMap.set s pkt (packet_buffer_ k)
    | RtpPub.REVERSE_SEQ | RtpPub.JUMP_LARGE_SEQ =>
        c = Some (held k ++ [pkt], false) /\ packet_buffer_ k' = [] /\ next_expected_seq_ k' = u16 (s + 1)
    | RtpPub.NORMAL_SEQ =>
        exists out, c = Some (pkt :: out, false) /\ out ++ held k' ≡ₚ held k /\
          consecutive (u16 (next_expected_seq_ k + 1)) out /\
          next_expected_seq_ k' = u16 (next_expected_seq_ k + (1 + Z.of_nat (length out))) /\
          StdMap.find (next_expected_seq_ k') (packet_buffer_ k') = None
    end.
Proof.
  intros [Hn Hs Hp] Hpkt Hfirst s. unfold PushRtpPacket. cbn [negb].
  rewrite RtpPacket.GetSeq_wf by done. fold s. cbn [rbind]. rewrite Hfirst. cbn [negb].
  pose proof (RtpPacket.seq_of_range pkt Hpkt) as Hr. fold s in Hr.
  destruct (RtpPub.CompareSeq (next_expected_seq_ k) s).
  - destruct (pop_consecutive_ok (S (length (packet_buffer_ k))) (u16 (next_expected_seq_ k + 1)) (packet_buffer_ k))
      as (out & rest & Heq & Hs' & Hp' & Hm & Hc & Hf); [apply u16_range|done|done|lia|].
    rewrite Heq. cbn [rbind]. rewrite u16_step in *. eexists _, _. split; [done|].
    split; [by split; [apply u16_range|..]|]. split; [done|]. exists out. by split_and!.
  - by exists k, None.
  - eexists _, _. split; [done|]. split; [by split; [apply u16_range|repeat constructor..]|]. by split_and!.
  - eexists _, _. split; [done|]. split; [by split; [apply u16_range|repeat constructor..]|]. by split_and!.
  - by exists k, None.
  - eexists _, _. split; [done|]. split; [|by split_and!].
    split; cbn; [done|auto with smap|by apply StdMap.Forall_set].
Qed.

(** A number one above the expected one, with nothing parked beyond it. *)
Lemma Push_next k pkt :
  wf k -> RtpPacket.wf pkt -> has_received_first_packet_ k = true -> packet_buffer_ k = [] ->
  next_expected_seq_ k < 65535 -> RtpPacket.seq_of pkt = next_expected_seq_ k + 1 ->
  exists k', PushRtpPacket k true (Some pkt) = Ok (k', Some ([pkt], false)) /\ wf k' /\
    has_received_first_packet_ k' = true /\ packet_buffer_ k' = [] /\
    next_expected_seq_ k' = next_expected_seq_ k + 1.
Proof.
  intros Hwf Hpkt Hf Hb Hlt Hseq. destruct (Push_ok k pkt Hwf Hpkt Hf) as (k' & c & Hk & Hwf' & Hf' & H).
  cbv zeta in H. rewrite Hseq in H. unfold RtpPub.CompareSeq in H.
  rewrite (proj2 (Z.eqb_neq _ _)), Z.eqb_refl in H by lia.
  destruct H as (out & -> & Hperm & _ & Hn & _). unfold held in Hperm. rewrite Hb in Hperm.
  apply Permutation_nil_r in Hperm. apply app_eq_nil in Hperm as [-> Hm].
  exists k'. split_and!; try done.
  - by destruct (packet_buffer_ k').
  - rewrite Hn. cbn [length]. destruct Hwf as [? _ _]. rewrite u16_small; lia.
Qed.

(** [n] packets numbered on from [next + 1]. *)
Lemma pushes_next k pkts :
  wf k -> has_received_first_packet_ k = true -> packet_buffer_ k = [] ->
  Forall RtpPacket.wf pkts -> consecutive (next_expected_seq_ k + 1) pkts ->
  next_expected_seq_ k + Z.of_nat (length pkts) < 65536 ->
  exists k', pushes k pkts = Ok (k', pkts) /\ packet_buffer_ k' = [].
Proof.
  revert k. induction pkts as [|p pkts IH]; intros k Hwf Hf Hb Hall Hc Hlt; cbn [pushes]; [by exists k|].
  apply Forall_cons in Hall as [Hp Hall]. destruct Hc as [Hseq Hc]. cbn [length] in Hlt.
  destruct (Push_next k p) as (k1 & -> & Hwf1 & Hf1 & Hb1 & Hn1); [done..|lia|done|]. cbn [rbind].
  destruct (IH k1) as (k2 & -> & Hb2); [done..| |rewrite Hn1; lia|].
  { rewrite Hn1. destruct pkts as [|p2 pkts]; [done|]. cbn [length] in Hlt. destruct Hwf as [? _ _].
    by rewrite u16_small in Hc by lia. }
  by exists k2.
Qed.

(** * Properties *)

(** the buffer neither loses nor duplicates a packet it does not drop on purpose.
    A push delivers, parks or ignores, by the comparison with the expected number:
    an equal number is ignored; a jump ahead within the gap is parked under its number;
    a larger jump or a step far back delivers everything parked, in order of number, and
    then the packet, and restarts the count after it; otherwise the packet is delivered
    followed by the parked packets that continue the (advanced) expected number, as
    many as there are.  Delivered and still parked packets together are what was
    parked before, and the packet. *)
Theorem PushRtpPacket_spec (k : t) (pkt : RtpPacket.t) :
  wf k -> RtpPacket.wf pkt -> has_received_first_packet_ k = true ->
  let s := RtpPacket.seq_of pkt in
  exists k' c, PushRtpPacket k true (Some pkt) = Ok (k', c) /\ wf k' /\
    (forall l d, c = Some (l, d) -> d = false /\ l ++ held k' ≡ₚ pkt :: held k) /\
    match RtpPub.CompareSeq (next_expected_seq_ k) s with
    | RtpPub.REPEAT_SEQ | RtpPub.DISCORD_SEQ => k' = k /\ c = None
    | RtpPub.LITTLE_JUMP_SEQ =>
        c = None /\ next_expected_seq_ k' = next_expected_seq_ k /\
        (forall q, StdMap.find q (packet_buffer_ k') =
           if q =? s then Some pkt else StdMap.find q (packet_buffer_ k)) /\
        (StdMap.find s (packet_buffer_ k) = None -> held k' ≡ₚ pkt :: held k)
    | RtpPub.REVERSE_SEQ | RtpPub.JUMP_LARGE_SEQ =>
        c = Some (held k ++ [pkt], false) /\ packet_buffer_ k' = [] /\ next_expected_seq_ k' = u16 (s + 1)
    | RtpPub.NORMAL_SEQ =>
        exists out, c = Some (pkt :: out, false) /\
          consecutive (u16 (next_expected_seq_ k + 1)) out /\
          next_expected_seq_ k' = u16 (next_expected_seq_ k + (1 + Z.of_nat (length out))) /\
          StdMap.find (next_expected_seq_ k') (packet_buffer_ k') = None
    end.
Proof.
  intros Hwf Hpkt Hf s. destruct (Push_ok k pkt Hwf Hpkt Hf) as (k' & c & Hk & Hwf' & _ & H).
  cbv zeta in H. fold s in H. exists k', c. split; [done|]. split; [done|].
  destruct (RtpPub.CompareSeq (next_expected_seq_ k) s).
  - destruct H as (out & -> & Hperm & ? & ? & ?). split; [|by exists out].
    intros l d [= <- <-]. split; [done|]. cbn. by rewrite Hperm.
  - destruct H as [-> ->]. split; [done|done].
  - destruct H as (-> & Hb & Hn). split; [|done]. intros l d [= <- <-]. split; [done|].
    unfold held at 2. rewrite Hb. cbn. rewrite app_nil_r. by rewrite Permutation_app_comm.
  - destruct H as (-> & Hb & Hn). split; [|done]. intros l d [= <- <-]. split; [done|].
    unfold held at 2. rewrite Hb. cbn. rewrite app_nil_r. by rewrite Permutation_app_comm.
  - destruct H as [-> ->]. split; [done|done].
  - destruct H as (-> & Hn & Hb). split; [done|]. split_and!; try done.
    + intros q. rewrite Hb. apply StdMap.find_set.
    + intros HN. unfold held. rewrite Hb. by rewrite (StdMap.set_Permutation _ _ _ HN).
Qed.

(** on a timer tick the packets that waited [max_delay_ms_] or longer leave, in
    order of number up to the first that has not waited so long; they are handed over
    in that order as discarded, and the count restarts after the last of them.  With
    none, nothing is called and nothing changes. *)
Theorem OnTimer_expires (k : t) (now : Z) :
  wf k ->
  exists k' c out, OnTimer k true now = Ok (k', c) /\ wf k' /\
    held k = out ++ held k' /\ c = (if bool_decide (out = []) then None else Some (out, true)) /\
    Forall (fun p => u64 (max_delay_ms_ k) <= u64 (u64 now - RtpPacket.local_ms p)) out /\
    (forall p, head (held k') = Some p -> u64 (u64 now - RtpPacket.local_ms p) < u64 (max_delay_ms_ k)) /\
    next_expected_seq_ k' =
      match last out with Some p => u16 (RtpPacket.seq_of p + 1) | None => next_expected_seq_ k end.
Proof.
  intros [Hn Hs Hp]. unfold OnTimer.
  destruct (expire_ok now (max_delay_ms_ k) (next_expected_seq_ k) (packet_buffer_ k) Hp)
    as (out & next' & rest & -> & Hmap & Hdrop & Hout & Hrest & Hnext). cbn [rbind].
  eexists _, _, out. split; [done|]. split_and!; try done.
  - split; cbn; [|rewrite <- Hdrop; by apply StdMap.sorted_drop|rewrite <- Hdrop; by apply Forall_drop].
    rewrite Hnext. destruct (last out); [apply u16_range|done].
  - by destruct out.
  - unfold held. cbn. destruct rest as [|[q p] rest]; [done|]. cbn. by intros p' [= <-].
Qed.

(** what the comparison makes of an ordinary stream.  Of packets numbered
    [s, s + 1, ..., s + n] in order, all are delivered in order except the second, which
    equals the expected number and is ignored as a duplicate.  And a late packet does
    not release the packet parked behind it: after it is delivered the later one is
    still held. *)
Theorem stream_in_order (d c : Z) (p0 p1 : RtpPacket.t) (pkts : list RtpPacket.t) :
  Forall RtpPacket.wf (p0 :: p1 :: pkts) -> consecutive (RtpPacket.seq_of p0) (p0 :: p1 :: pkts) ->
  RtpPacket.seq_of p0 + 1 + Z.of_nat (length pkts) < 65536 ->
  (exists k', pushes (new_FastJitterBuffer d c) (p0 :: p1 :: pkts) = Ok (k', p0 :: pkts) /\ held k' = []) /\
  (forall k, wf k -> has_received_first_packet_ k = true -> packet_buffer_ k = [] ->
     next_expected_seq_ k + 1 = RtpPacket.seq_of p0 ->
     exists k', pushes k [p1; p0] = Ok (k', [p0]) /\ held k' = [p1]).
Proof.
  intros Hall (_ & Hs1 & Hc) Hlt. apply Forall_cons in Hall as [Hp0 Hall].
  apply Forall_cons in Hall as [Hp1 Hall]. pose proof (RtpPacket.seq_of_range p0 Hp0) as Hr.
  rewrite u16_small in Hs1 by lia. rewrite (u16_small (RtpPacket.seq_of p0 + 1)) in Hc by lia. split.
  - cbn [pushes]. unfold PushRtpPacket at 1. cbn [negb new_FastJitterBuffer has_received_first_packet_].
    rewrite RtpPacket.GetSeq_wf by done. cbn [rbind]. rewrite u16_small by lia.
    set (k1 := mk _ _ _ _ _ _). unfold PushRtpPacket. cbn [negb].
    rewrite RtpPacket.GetSeq_wf by done. cbn [rbind k1 has_received_first_packet_ negb next_expected_seq_].
    unfold RtpPub.CompareSeq. rewrite Hs1, Z.eqb_refl. cbn [rbind].
    destruct (pushes_next k1 pkts) as (k' & Hk & Hb); try done; cbn [k1 next_expected_seq_] in *.
    + split; cbn; [lia|constructor..].
    + destruct pkts as [|p2 pkts]; [done|]. cbn [length] in Hlt. by rewrite u16_small in Hc by lia.
    + fold k1. rewrite Hk. cbn [rbind app]. exists k'. unfold held. by rewrite Hb.
  - intros k Hwf Hf Hb Hn. cbn [pushes].
    destruct (Push_ok k p1 Hwf Hp1 Hf) as (k1 & c1 & -> & Hwf1 & Hf1 & H1). cbn [rbind].
    cbv zeta in H1. unfold RtpPub.CompareSeq, RtpPub.MAX_GAP in H1.
    rewrite (proj2 (Z.eqb_neq _ _)), (proj2 (Z.eqb_neq _ (_ + 1))), (proj2 (Z.ltb_ge _ _)), (proj2 (Z.ltb_ge _ _)) in H1 by lia.
    destruct H1 as (-> & Hn1 & Hb1). rewrite Hb in Hb1. cbn in Hb1.
    destruct (Push_ok k1 p0 Hwf1 Hp0 Hf1) as (k2 & c2 & -> & _ & _ & H2). cbn [rbind].
    cbv zeta in H2. unfold RtpPub.CompareSeq in H2. rewrite Hn1 in H2.
    rewrite (proj2 (Z.eqb_neq _ _)), (proj2 (Z.eqb_eq _ (_ + 1))) in H2 by lia.
    destruct H2 as (out & -> & Hperm & Hco & _). unfold held in Hperm at 2. rewrite Hb1 in Hperm. cbn in Hperm.
    assert (out = []) as ->.
    { destruct out as [|p out]; [done|]. destruct Hco as [Hco _]. rewrite u16_small in Hco by lia.
      assert (Hin : p ∈ [p1]) by (rewrite <- Hperm; left). apply list_elem_of_singleton in Hin as ->. lia. }
    exists k2. split; [done|]. by apply Permutation_singleton_r in Hperm.
Qed.

(** Number 8 is parked, 6 was delivered last. *)
Definition sample : t := mk 600 48000 6 true [(8, RtpPacket.numbered 8)] false.
Lemma jitter_sample_wf : wf sample.
Proof.
  split; cbn; [lia|by repeat constructor|].
  constructor; [|constructor]. split; [apply RtpPacket.numbered_wf|vm_compute; reflexivity].
Qed.

Lemma PushRtpPacket_spec_witness :
  exists k' c, PushRtpPacket sample true (Some (RtpPacket.numbered 7)) = Ok (k', c) /\ wf k' /\
    exists out, c = Some (RtpPacket.numbered 7 :: out, false).
Proof.
  destruct (PushRtpPacket_spec sample (RtpPacket.numbered 7) jitter_sample_wf (RtpPacket.numbered_wf 7) eq_refl)
    as (k' & c & Hk & Hwf & _ & H).
  replace (RtpPacket.seq_of (RtpPacket.numbered 7)) with 7 in H by (vm_compute; reflexivity).
  destruct H as (out & Hc & _). by exists k', c; split_and!; [..|exists out].
Defined.

Lemma OnTimer_expires_witness :
  exists k' c out, OnTimer sample true 700 = Ok (k', c) /\ held sample = out ++ held k' /\
    c = (if bool_decide (out = []) then None else Some (out, true)).
Proof.
  destruct (OnTimer_expires sample 700 jitter_sample_wf) as (k' & c & out & H1 & _ & H2 & H3 & _).
  by exists k', c, out.
Defined.

Lemma stream_in_order_witness :
  exists k', pushes (new_FastJitterBuffer 600 48000) (map RtpPacket.numbered [20; 21; 22; 23])
    = Ok (k', map RtpPacket.numbered [20; 22; 23]) /\ held k' = [].
Proof.
  apply (stream_in_order 600 48000 (RtpPacket.numbered 20) (RtpPacket.numbered 21) (map RtpPacket.numbered [22; 23])).
  - cbn [map]. repeat (constructor; [apply RtpPacket.numbered_wf|]). constructor.
  - vm_compute. done.
  - vm_compute. reflexivity.
Defined.

End JitterBuffer.
