(* ===== verification/RtpSession.v ===== *)
(** [utils/stream_statics.hpp], [utils/timeex.hpp] and [webrtc_room/rtp_session.cpp]: byte and
    packet counters, the conversion of milliseconds to NTP, and the base class of the
    two RTP sessions with RFC 3550's sequence number tracking. *)
From S2P Require Import Prelude RtpPub StdMap RtpPacket.

Module StreamStatics.
Definition STREAM_STATICS_INTERVAL_MAX : Z := 10000.
Record t := mk { count_ : Z; last_count_ : Z; bytes_ : Z; last_bytes_ : Z; timestamp_ : Z }.
Definition new_StreamStatics : t := mk 0 0 0 0 0.

Definition Update (k : t) (bytes now_ms : Z) : t :=
  let b := u64 (bytes_ k + bytes) in
  let c := u64 (count_ k + 1) in
  if (timestamp_ k =? 0) || (STREAM_STATICS_INTERVAL_MAX <? now_ms - timestamp_ k)
  then mk c c b b now_ms
  else mk c (last_count_ k) b (last_bytes_ k) (timestamp_ k).

Definition GetCount (k : t) : Z := count_ k.
Definition GetBytes (k : t) : Z := bytes_ k.

(** The new state, the speed, and [count_per_second] if it is assigned. *)
Definition BytesPerSecond (k : t) (now_ms : Z) : t * Z * option Z :=
  if (timestamp_ k =? 0) || (STREAM_STATICS_INTERVAL_MAX <? now_ms - timestamp_ k)
  then (mk (count_ k) (count_ k) (bytes_ k) (bytes_ k) now_ms, 0, None)
  else if now_ms <=? timestamp_ k
  then (mk (count_ k) (count_ k) (bytes_ k) (bytes_ k) now_ms, 0, None)
  else
    let speed := u64 (u64 (bytes_ k - last_bytes_ k) * 1000) / (now_ms - timestamp_ k) in
    let cps := u64 (u64 (count_ k - last_count_ k) * 1000) / (now_ms - timestamp_ k) in
    (mk (count_ k) (count_ k) (bytes_ k) (bytes_ k) now_ms, speed, Some cps).

Definition Reset (k : t) : t := mk 0 0 0 0 0.

(** The bytes and packets of one measuring interval are what was added in it. *)
Lemma BytesPerSecond_interval k b n now :
  (forall v, In v [count_ k; last_count_ k; bytes_ k; last_bytes_ k] -> 0 <= v) ->
  last_bytes_ k = bytes_ k -> last_count_ k = count_ k ->
  timestamp_ k <> 0 -> timestamp_ k <= n < now -> now - timestamp_ k <= STREAM_STATICS_INTERVAL_MAX ->
  0 <= b -> bytes_ k + b < 18446744073709551616 -> b * 1000 < 18446744073709551616 ->
  count_ k < 18446744073709551615 ->
  snd (fst (BytesPerSecond (Update k b n) now)) = b * 1000 / (now - timestamp_ k) /\
  snd (BytesPerSecond (Update k b n) now) = Some (1000 / (now - timestamp_ k)).
Proof.
  intros Hpos E1 E2 Ht Hn Hmax Hb Hb1 Hb2 Hc. unfold STREAM_STATICS_INTERVAL_MAX in *.
  assert (0 <= bytes_ k) by (apply Hpos; simpl; auto). assert (0 <= count_ k) by (apply Hpos; simpl; auto).
  unfold Update, BytesPerSecond, STREAM_STATICS_INTERVAL_MAX.
  rewrite (proj2 (Z.eqb_neq _ _) Ht), (proj2 (Z.ltb_ge _ _)) by lia. cbn [orb count_ last_count_ bytes_ last_bytes_ timestamp_].
  rewrite (proj2 (Z.eqb_neq _ _) Ht), (proj2 (Z.ltb_ge _ _)), (proj2 (Z.leb_gt _ _)) by lia. cbn [orb fst snd].
  rewrite E1, E2. unfold u64.
  rewrite (Z.mod_small (bytes_ k + b)), (Z.mod_small (count_ k + 1)) by lia.
  replace (bytes_ k + b - bytes_ k) with b by lia. replace (count_ k + 1 - count_ k) with 1 by lia.
  rewrite !Z.mod_small by (rewrite ?Z.mod_small by lia; lia). done.
Qed.
End StreamStatics.

Module TimeEx.
Definition NTP_FRACT_UNIT : Z := 4294967296.
Record NTP_TIMESTAMP := mk { ntp_sec : Z; ntp_frac : Z }.

(** The cast binds tighter than the division.  The fraction is computed in [double]; for
    the 1000 residues of a time that is not negative, truncating the product gives the
    integer quotient, since a product that is not whole is at least 1/125 from one. *)
Definition millisec_to_ntp (ms : Z) : NTP_TIMESTAMP :=
  mk (u32 ms / 1000) (Z.quot (Z.rem ms 1000 * NTP_FRACT_UNIT) 1000).
End TimeEx.

(** [class RtpSessionParam] of [rtc_info.hpp], without the codec strings. *)
Module RtpSessionParam.
Inductive MEDIA_PKT_TYPE := MEDIA_UNKNOWN_TYPE | MEDIA_VIDEO_TYPE | MEDIA_AUDIO_TYPE | MEDIA_MOVBOX_TYPE | MEDIA_METADATA_TYPE.
Record t := mk {
  av_type_ : MEDIA_PKT_TYPE; mid_ : Z; ssrc_ : Z; payload_type_ : Z; channel_ : Z; clock_rate_ : Z;
  rtx_ssrc_ : Z; rtx_payload_type_ : Z; use_nack_ : bool; key_request_ : bool;
  mid_ext_id_ : Z; tcc_ext_id_ : Z; abs_send_time_ext_id_ : Z;
  codec_name_ : string; fmtp_param_ : string; rtcp_features_ : list string
}.
Definition with_ssrc (p : t) (ssrc : Z) : t :=
  mk (av_type_ p) (mid_ p) ssrc (payload_type_ p) (channel_ p) (clock_rate_ p) (rtx_ssrc_ p) (rtx_payload_type_ p)
     (use_nack_ p) (key_request_ p) (mid_ext_id_ p) (tcc_ext_id_ p) (abs_send_time_ext_id_ p)
     (codec_name_ p) (fmtp_param_ p) (rtcp_features_ p).
Record wf (p : t) : Prop := {
  wf_ssrc : 0 <= ssrc_ p < 4294967296;
  wf_pt : 0 <= payload_type_ p < 128;
  wf_rate : 0 <= clock_rate_ p < 4294967296;
  wf_rtx_ssrc : 0 <= rtx_ssrc_ p < 4294967296;
  wf_rtx_pt : 0 <= rtx_payload_type_ p < 128
}.
End RtpSessionParam.

Module RtpSession.

Definition RTP_SEQ_MOD : Z := 65536.
Definition MAX_DROPOUT : Z := 3000.
Definition MAX_MISORDER : Z := 1500.

Record t := mk {
  param_ : RtpSessionParam.t;
  first_pkt_ : bool; max_packet_ts_ : Z; max_packet_ms_ : Z;
  last_pkt_ms_ : Z; last_rtp_ts_ : Z; jitter_q4_ : Z; jitter_ : Z;
  cycles_ : Z; base_seq_ : Z; max_seq_ : Z; bad_seq_ : Z; discard_count_ : Z
}.
Definition new_RtpSession (param : RtpSessionParam.t) : t := mk param true 0 0 0 0 0 0 0 0 0 0 0.

Definition with_seqs (k : t) (cycles base max bad discard : Z) : t :=
  mk (param_ k) (first_pkt_ k) (max_packet_ts_ k) (max_packet_ms_ k) (last_pkt_ms_ k) (last_rtp_ts_ k)
     (jitter_q4_ k) (jitter_ k) cycles base max bad discard.
Definition with_first (k : t) : t :=
  mk (param_ k) false (max_packet_ts_ k) (max_packet_ms_ k) (last_pkt_ms_ k) (last_rtp_ts_ k)
     (jitter_q4_ k) (jitter_ k) (cycles_ k) (base_seq_ k) (max_seq_ k) (bad_seq_ k) (discard_count_ k).
Definition with_max (k : t) (ts ms : Z) : t :=
  mk (param_ k) (first_pkt_ k) ts ms (last_pkt_ms_ k) (last_rtp_ts_ k)
     (jitter_q4_ k) (jitter_ k) (cycles_ k) (base_seq_ k) (max_seq_ k) (bad_seq_ k) (discard_count_ k).
Definition with_last (k : t) (ms ts : Z) : t :=
  mk (param_ k) (first_pkt_ k) (max_packet_ts_ k) (max_packet_ms_ k) ms ts
     (jitter_q4_ k) (jitter_ k) (cycles_ k) (base_seq_ k) (max_seq_ k) (bad_seq_ k) (discard_count_ k).
Definition with_jitter (k : t) (q4 j : Z) : t :=
  mk (param_ k) (first_pkt_ k) (max_packet_ts_ k) (max_packet_ms_ k) (last_pkt_ms_ k) (last_rtp_ts_ k)
     q4 j (cycles_ k) (base_seq_ k) (max_seq_ k) (bad_seq_ k) (discard_count_ k).

Definition InitSeq (k : t) (seq : Z) : t := with_seqs k 0 seq seq (RTP_SEQ_MOD + 1) (discard_count_ k).

Definition UpdateSeq (k : t) (rtp_pkt : RtpPacket.t) : res (t * bool) :=
  let! seq := RtpPacket.GetSeq rtp_pkt in
  let udelta := u16 (seq - max_seq_ k) in
  if udelta <? MAX_DROPOUT then
    let cycles := if seq <? max_seq_ k then u32 (cycles_ k + RTP_SEQ_MOD) else cycles_ k in
    Ok (with_seqs k cycles (base_seq_ k) seq (bad_seq_ k) (discard_count_ k), true)
  else if udelta <=? RTP_SEQ_MOD - MAX_MISORDER then
    if seq =? bad_seq_ k then Ok (InitSeq k seq, true)
    else
      Ok (with_seqs k (cycles_ k) (base_seq_ k) (max_seq_ k) (Z.land (seq + 1) (RTP_SEQ_MOD - 1))
            (u64 (discard_count_ k + 1)), false)
  else Ok (k, true).

(** 32-bit unsigned arithmetic, then widened. *)
Definition GetExpectedPackets (k : t) : Z := u32 (cycles_ k + max_seq_ k - bad_seq_ k + 1).

(** * Invariant and specification *)

Record wf (k : t) : Prop := {
  wf_max : 0 <= max_seq_ k < 65536;
  wf_cycles : 0 <= cycles_ k < 4294967296 /\ cycles_ k mod 65536 = 0
}.

(** The extended highest sequence number a receiver report carries. *)
Definition highest (k : t) : Z := u32 (cycles_ k + max_seq_ k).

(** A run of packets; [None] once one is refused. *)
Fixpoint accept (k : t) (pkts : list RtpPacket.t) : res (option t) :=
  match pkts with
  | [] => Ok (Some k)
  | p :: pkts' => let! (k', ok) := UpdateSeq k p in if (ok : bool) then accept k' pkts' else Ok None
  end.

(** [ns] are the unwrapped numbers of packets that arrive after the highest so far was
    [e]: each less than 3000 ahead of, and less than 1500 behind, the highest. *)
Fixpoint in_reach (e : Z) (ns : list Z) : Prop :=
  match ns with
  | [] => True
  | n :: ns' => e - MAX_MISORDER < n < e + MAX_DROPOUT /\ in_reach (Z.max e n) ns'
  end.

(** One packet within reach of the highest number. *)
Lemma UpdateSeq_in_reach k pkt e n :
  wf k -> RtpPacket.wf pkt -> highest k = u32 e -> max_seq_ k = u16 e ->
  RtpPacket.seq_of pkt = u16 n -> e - MAX_MISORDER < n < e + MAX_DROPOUT ->
  exists k', UpdateSeq k pkt = Ok (k', true) /\ wf k' /\ highest k' = u32 (Z.max e n) /\
    max_seq_ k' = u16 (Z.max e n) /\ bad_seq_ k' = bad_seq_ k /\ base_seq_ k' = base_seq_ k /\
    discard_count_ k' = discard_count_ k.
Proof.
  intros [Hm [Hc Hcm]] Hp Hh Hmax Hs Hn. unfold UpdateSeq. rewrite RtpPacket.GetSeq_wf by done. cbn [rbind].
  rewrite Hs, Hmax. unfold MAX_DROPOUT, MAX_MISORDER, RTP_SEQ_MOD in *.
  assert (Hd : u16 (u16 n - u16 e) = if n <? e then 65536 + (n - e) else n - e) by (btests; zlia).
  rewrite Hd. unfold highest in *. rewrite Hmax in Hh. destruct (Z.ltb_spec n e) as [Hlt|Hge].
  - rewrite (proj2 (Z.ltb_ge _ _)), (proj2 (Z.leb_gt _ _)) by lia.
    exists k. rewrite Z.max_l, Hmax by lia. by split_and!.
  - rewrite (proj2 (Z.ltb_lt _ _)) by lia. rewrite Z.max_r by lia. eexists. split; [reflexivity|].
    pose proof (u16_range n). split_and!; cbn; try done.
    + split; cbn; [done|]. destruct (Z.ltb_spec (u16 n) (u16 e)); [|done]. split; [apply u32_range|zlia].
    + destruct (Z.ltb_spec (u16 n) (u16 e)); zlia.
Qed.

(** Any packet: the outcome is defined, and only the counters of the sequence change. *)
Lemma UpdateSeq_ok k pkt :
  wf k -> RtpPacket.has_header pkt ->
  exists k' ok, UpdateSeq k pkt = Ok (k', ok) /\ wf k' /\
    k' = with_seqs k (cycles_ k') (base_seq_ k') (max_seq_ k') (bad_seq_ k') (discard_count_ k').
Proof.
  intros [Hm [Hc Hcm]] Hp. pose proof (RtpPacket.seq_of_hdr pkt Hp).
  unfold UpdateSeq, RTP_SEQ_MOD. rewrite RtpPacket.GetSeq_hdr by done. cbn [rbind].
  destruct (_ <? MAX_DROPOUT); [|destruct (_ <=? _); [destruct (_ =? _)|]];
    eexists _, _; (split; [reflexivity|]); (split; [split; cbn; try done|by destruct k]).
  destruct (_ <? _); [|done]. split; [apply u32_range|zlia].
Qed.

(** * Properties *)

(** the session tracks the extended sequence number of RFC 3550.  Whatever the
    order in which packets arrive, as long as each is less than 3000 ahead of and less
    than 1500 behind the highest number seen, all are accepted and the reported
    highest number is the highest of their unwrapped numbers, modulo 2^32, across any
    number of 16-bit wrap-arounds.  A packet further away is refused, and only the next
    number after it, if it also is far away, restarts the count there. *)
Theorem UpdateSeq_tracks (k : t) (e : Z) (pkts : list RtpPacket.t) (ns : list Z) :
  wf k -> highest k = u32 e -> max_seq_ k = u16 e ->
  Forall RtpPacket.wf pkts -> map RtpPacket.seq_of pkts = map u16 ns ->
  (in_reach e ns ->
   exists k', accept k pkts = Ok (Some k') /\ wf k' /\ highest k' = u32 (foldl Z.max e ns) /\
     discard_count_ k' = discard_count_ k) /\
  (forall pkt, RtpPacket.wf pkt ->
     let s := RtpPacket.seq_of pkt in
     MAX_DROPOUT <= u16 (s - max_seq_ k) <= RTP_SEQ_MOD - MAX_MISORDER ->
     (s <> bad_seq_ k ->
        exists k', UpdateSeq k pkt = Ok (k', false) /\ highest k' = highest k /\ bad_seq_ k' = u16 (s + 1)) /\
     (s = bad_seq_ k ->
        exists k', UpdateSeq k pkt = Ok (k', true) /\ highest k' = s /\ base_seq_ k' = s)).
Proof.
  intros Hwf Hh Hm Hp Hs. split.
  - revert k e pkts Hwf Hh Hm Hp Hs. induction ns as [|n ns IH]; intros k e [|p pkts] Hwf Hh Hm Hp Hs Hr;
      try discriminate; cbn [accept foldl].
    { by exists k. }
    apply Forall_cons in Hp as [Hp Hps]. injection Hs as Hs Hss. destruct Hr as [Hn Hr].
    destruct (UpdateSeq_in_reach k p e n) as (k1 & -> & Hwf1 & Hh1 & Hm1 & _ & _ & Hd1); [done..|].
    cbn [rbind]. destruct (IH k1 (Z.max e n) pkts) as (k2 & -> & Hwf2 & Hh2 & Hd2); [done..|].
    exists k2. by rewrite Hd2, Hd1.
  - intros pkt Hpkt s Hfar. unfold UpdateSeq. rewrite RtpPacket.GetSeq_wf by done. cbn [rbind]. fold s.
    pose proof (RtpPacket.seq_of_range pkt Hpkt) as Hr. fold s in Hr.
    rewrite (proj2 (Z.ltb_ge _ _)), (proj2 (Z.leb_le _ _)) by lia.
    split; intros Hb; [rewrite (proj2 (Z.eqb_neq _ _) Hb)|rewrite (proj2 (Z.eqb_eq _ _) Hb)];
      eexists; (split; [reflexivity|]); split; try done.
    + cbn. unfold RTP_SEQ_MOD. by rewrite (Z.land_ones _ 16) by lia.
    + unfold highest. cbn. rewrite u32_small; lia.
Qed.

(** the number of packets expected, as computed, is RFC 3550's
    ([highest - base + 1]) only while [bad_seq_] happens to equal [base_seq_]: it is off
    by their difference, modulo 2^32.  So it starts off by [65537 - base], and one
    refused packet moves it, without a packet having been sent. *)
Theorem GetExpectedPackets_offset (k : t) (s : Z) :
  wf k ->
  GetExpectedPackets k = u32 ((highest k - base_seq_ k + 1) - (bad_seq_ k - base_seq_ k)) /\
  (let k0 := InitSeq k s in GetExpectedPackets k0 = u32 (s - 65536)) /\
  (forall pkt, RtpPacket.wf pkt ->
     MAX_DROPOUT <= u16 (RtpPacket.seq_of pkt - max_seq_ k) <= RTP_SEQ_MOD - MAX_MISORDER ->
     RtpPacket.seq_of pkt <> bad_seq_ k ->
     exists k', UpdateSeq k pkt = Ok (k', false) /\
       GetExpectedPackets k' = u32 (GetExpectedPackets k + (bad_seq_ k - bad_seq_ k'))).
Proof.
  intros Hwf. split_and!.
  - unfold GetExpectedPackets, highest. zlia.
  - unfold GetExpectedPackets, InitSeq, RTP_SEQ_MOD. cbn. f_equal. lia.
  - intros pkt Hpkt Hfar Hb. unfold UpdateSeq. rewrite RtpPacket.GetSeq_wf by done. cbn [rbind].
    rewrite (proj2 (Z.ltb_ge _ _)), (proj2 (Z.leb_le _ _)), (proj2 (Z.eqb_neq _ _) Hb) by lia.
    eexists. split; [reflexivity|]. unfold GetExpectedPackets. cbn. zlia.
Qed.

(** A session that is about to wrap. *)
Definition sample_param : RtpSessionParam.t :=
  RtpSessionParam.mk RtpSessionParam.MEDIA_VIDEO_TYPE 1 7 96 0 90000 8 97 true false 4 3 2 "H264" EmptyString [].
Definition sample : t := with_seqs (with_first (new_RtpSession sample_param)) 65536 60000 65535 65537 0.
Lemma session_sample_wf : wf sample.
Proof. split; cbn; [lia|split; [lia|reflexivity]]. Qed.

Lemma UpdateSeq_tracks_witness :
  exists k', accept sample (map RtpPacket.numbered [2; 0; 65534; 7]) = Ok (Some k') /\ highest k' = 131079.
Proof.
  destruct (UpdateSeq_tracks sample 131071 (map RtpPacket.numbered [2; 0; 65534; 7]) [131074; 131072; 131070; 131079])
    as [H _].
  - exact session_sample_wf.
  - reflexivity.
  - reflexivity.
  - cbn [map]. repeat (apply Forall_cons; split; [apply RtpPacket.numbered_wf|]). constructor.
  - vm_compute. reflexivity.
  - destruct H as (k' & Hk & _ & Hh & _); [vm_compute; intuition discriminate|]. exists k'. split; [exact Hk|exact Hh].
Defined.

Lemma GetExpectedPackets_offset_witness :
  exists k', UpdateSeq sample (RtpPacket.numbered 9999) = Ok (k', false) /\
    GetExpectedPackets k' = u32 (GetExpectedPackets sample + (65537 - bad_seq_ k')).
Proof.
  apply (GetExpectedPackets_offset sample 0 session_sample_wf); [apply RtpPacket.numbered_wf|..];
    vm_compute; intuition discriminate.
Defined.

End RtpSession.
