(* ===== verification/RtpSendSession.v ===== *)
(** [webrtc_room/rtp_send_session.cpp] and [.hpp]: the sending side of one stream.  The
    packets it sends are cached by sequence number modulo 1000; a NACK is answered from
    the cache with RTX packets; sender reports go out on a timer and receiver reports
    give the round-trip time. *)
From S2P Require Import Prelude ByteStream RtpPub StdMap RtpPacket RtcpReports RtcpFeedback RtpSession.

Module RtpSendSession.

Definition SEND_RTX_CACHE_SIZE : Z := 1000.

Record t := mk {
  base : RtpSession.t;
  send_cb_ : bool;                                (* [send_cb_ != nullptr] *)
  rtx_packet_cache_ : list (option RtpPacket.t);
  send_statics_ : StreamStatics.t;
  last_rtcp_sr_ms_ : Z; last_rtcp_sr_rtp_ts_ : Z;
  avg_rtt_ms_ : Z; lost_total_ : Z; lost_fract_ : Z; rtcp_rr_dbg_ms_ : Z;
  rtx_seq_ : Z; last_seq_ : Z
}.

Definition new_RtpSendSession (param : RtpSessionParam.t) (send_cb : bool) : t :=
  mk (RtpSession.new_RtpSession param) send_cb (replicate (Z.to_nat SEND_RTX_CACHE_SIZE) None)
     StreamStatics.new_StreamStatics (-1) 0 30 0 0 (-1) 0 0.

Definition param_ (k : t) : RtpSessionParam.t := RtpSession.param_ (base k).

Definition with_base (k : t) (b : RtpSession.t) : t :=
  mk b (send_cb_ k) (rtx_packet_cache_ k) (send_statics_ k) (last_rtcp_sr_ms_ k) (last_rtcp_sr_rtp_ts_ k)
     (avg_rtt_ms_ k) (lost_total_ k) (lost_fract_ k) (rtcp_rr_dbg_ms_ k) (rtx_seq_ k) (last_seq_ k).
Definition with_cache (k : t) (c : list (option RtpPacket.t)) : t :=
  mk (base k) (send_cb_ k) c (send_statics_ k) (last_rtcp_sr_ms_ k) (last_rtcp_sr_rtp_ts_ k)
     (avg_rtt_ms_ k) (lost_total_ k) (lost_fract_ k) (rtcp_rr_dbg_ms_ k) (rtx_seq_ k) (last_seq_ k).
Definition with_statics (k : t) (s : StreamStatics.t) : t :=
  mk (base k) (send_cb_ k) (rtx_packet_cache_ k) s (last_rtcp_sr_ms_ k) (last_rtcp_sr_rtp_ts_ k)
     (avg_rtt_ms_ k) (lost_total_ k) (lost_fract_ k) (rtcp_rr_dbg_ms_ k) (rtx_seq_ k) (last_seq_ k).
Definition with_sr (k : t) (ms rtp_ts : Z) : t :=
  mk (base k) (send_cb_ k) (rtx_packet_cache_ k) (send_statics_ k) ms rtp_ts
     (avg_rtt_ms_ k) (lost_total_ k) (lost_fract_ k) (rtcp_rr_dbg_ms_ k) (rtx_seq_ k) (last_seq_ k).
Definition with_rr (k : t) (rtt total fract dbg : Z) : t :=
  mk (base k) (send_cb_ k) (rtx_packet_cache_ k) (send_statics_ k) (last_rtcp_sr_ms_ k) (last_rtcp_sr_rtp_ts_ k)
     rtt total fract dbg (rtx_seq_ k) (last_seq_ k).
Definition with_rtx_seq (k : t) (s : Z) : t :=
  mk (base k) (send_cb_ k) (rtx_packet_cache_ k) (send_statics_ k) (last_rtcp_sr_ms_ k) (last_rtcp_sr_rtp_ts_ k)
     (avg_rtt_ms_ k) (lost_total_ k) (lost_fract_ k) (rtcp_rr_dbg_ms_ k) s (last_seq_ k).
Definition with_last_seq (k : t) (s : Z) : t :=
  mk (base k) (send_cb_ k) (rtx_packet_cache_ k) (send_statics_ k) (last_rtcp_sr_ms_ k) (last_rtcp_sr_rtp_ts_ k)
     (avg_rtt_ms_ k) (lost_total_ k) (lost_fract_ k) (rtcp_rr_dbg_ms_ k) (rtx_seq_ k) s.

Definition cache_index (seq : Z) : nat := Z.to_nat (seq mod SEND_RTX_CACHE_SIZE).

(** [StoreRtxPacket]; [fresh] is the memory [Clone] allocates, [now] its clock. *)
Definition StoreRtxPacket (k : t) (in_pkt : RtpPacket.t) (now : Z) (fresh : buf) : t * res unit :=
  let p := param_ k in
  if negb (RtpSessionParam.use_nack_ p) || (RtpSessionParam.rtx_ssrc_ p =? 0)
     || (RtpSessionParam.rtx_payload_type_ p =? 0) then (k, Ok tt) else
  do! (k, rtp_pkt) := (k, RtpPacket.Clone now fresh in_pkt None) in
  do! (k, seq) := (k, RtpPacket.GetSeq rtp_pkt) in
  let index := cache_index seq in
  if (index <? length (rtx_packet_cache_ k))%nat
  then (with_cache k (<[index := Some rtp_pkt]> (rtx_packet_cache_ k)), Ok tt)
  else (k, Undef OobWrite).

Definition SendRtpPacket (k : t) (rtp_pkt : RtpPacket.t) (now : Z) (fresh : buf) : t * res bool :=
  do! (k, seq) := (k, RtpPacket.GetSeq rtp_pkt) in
  let k := with_last_seq k seq in
  if RtpSession.first_pkt_ (base k) then
    let k := with_base k (RtpSession.InitSeq (RtpSession.with_first (base k)) seq) in
    do! (k, ts) := (k, RtpPacket.GetTimestamp rtp_pkt) in
    let k := with_base k (RtpSession.with_last (base k) (RtpPacket.local_ms rtp_pkt) ts) in
    do! (k, _) := StoreRtxPacket k rtp_pkt now fresh in
    (k, Ok true)
  else
    do! (k, upd) := (k, RtpSession.UpdateSeq (base k) rtp_pkt) in
    let '(b, ok) := upd in
    let k := with_base k b in
    if negb ok then (k, Ok false) else
    do! (k, ts) := (k, RtpPacket.GetTimestamp rtp_pkt) in
    let k := with_base k (RtpSession.with_last (base k) (RtpPacket.local_ms rtp_pkt) ts) in
    let k := with_statics k (StreamStatics.Update (send_statics_ k)
               (Z.of_nat (RtpPacket.data_len rtp_pkt)) (RtpPacket.local_ms rtp_pkt)) in
    do! (k, _) := StoreRtxPacket k rtp_pkt now fresh in
    (k, Ok true).

(** [RetransmitRtxPackets] on the packet cached at [index], which it rewrites in place:
    the state, the datagrams handed to [OnTransportSendRtp], and the outcome. *)
Definition RetransmitRtxPackets (k : t) (index : nat) (rtp_pkt : RtpPacket.t) : t * list (list Z) * res unit :=
  let p := param_ k in
  if (0 <? RtpSessionParam.rtx_ssrc_ p) && (0 <? RtpSessionParam.rtx_payload_type_ p) && send_cb_ k then
    match RtpPacket.GetSsrc rtp_pkt, RtpPacket.GetPayloadType rtp_pkt with
    | Ok origin_ssrc, Ok origin_payload =>
        let k := with_rtx_seq k (u16 (rtx_seq_ k + 1)) in
        match RtpPacket.RtxMux rtp_pkt (RtpSessionParam.rtx_payload_type_ p)
                (RtpSessionParam.rtx_ssrc_ p) (rtx_seq_ k) with
        | Ok muxed =>
            let k := with_cache k (<[index := Some muxed]> (rtx_packet_cache_ k)) in
            let sent := [RtpPacket.GetData muxed] in
            match RtpPacket.RtxDemux muxed origin_ssrc origin_payload with
            | Ok restored => (with_cache k (<[index := Some restored]> (rtx_packet_cache_ k)), sent, Ok tt)
            | Throw m => (k, sent, Throw m)
            | Undef u => (k, sent, Undef u)
            end
        | Throw m => (k, [], Throw m)
        | Undef u => (k, [], Undef u)
        end
    | Undef u, _ | _, Undef u => (k, [], Undef u)
    | Throw m, _ | _, Throw m => (k, [], Throw m)
    end
  else (k, [], Ok tt).

(** The loop of [RecvRtcpFbNack] over the lost sequence numbers. *)
Fixpoint answer_nacks (k : t) (lost_seqs : list Z) : t * list (list Z) * res unit :=
  match lost_seqs with
  | [] => (k, [], Ok tt)
  | seq :: rest =>
      let index := cache_index seq in
      match rtx_packet_cache_ k !! index with
      | None => (k, [], Undef OobRead)
      | Some None => answer_nacks k rest
      | Some (Some rtx_pkt) =>
          match RtpPacket.GetSeq rtx_pkt with
          | Ok s =>
              if s =? seq then
                match RetransmitRtxPackets k index rtx_pkt with
                | (k, sent, Ok _) => let '(k, more, r) := answer_nacks k rest in (k, sent ++ more, r)
                | failed => failed
                end
              else answer_nacks k rest
          | Throw m => (k, [], Throw m)
          | Undef u => (k, [], Undef u)
          end
      end
  end.

(** [RecvRtcpFbNack]: exceptions become the result -1. *)
Definition RecvRtcpFbNack (k : t) (nack_pkt : RtcpFbNack.t) : t * list (list Z) * res Z :=
  match RtcpFbNack.GetLostSeqs nack_pkt with
  | Ok lost_seqs =>
      match answer_nacks k lost_seqs with
      | (k, sent, Ok _) => (k, sent, Ok 0)
      | (k, sent, Throw _) => (k, sent, Ok (-1))
      | (k, sent, Undef u) => (k, sent, Undef u)
      end
  | Throw _ => (k, [], Ok (-1))
  | Undef u => (k, [], Undef u)
  end.

(** [OnSendRtcpSr]: the report sent, if one is due. *)
Definition OnSendRtcpSr (k : t) (now_ms : Z) : t * res (option (list Z)) :=
  if last_rtcp_sr_ms_ k <? 0 then (with_sr k now_ms (last_rtcp_sr_rtp_ts_ k), Ok None) else
  if now_ms - last_rtcp_sr_ms_ k <? 1000 then (k, Ok None) else
  if StreamStatics.GetCount (send_statics_ k) =? 0 then (k, Ok None) else
  let ntp := TimeEx.millisec_to_ntp now_ms in
  let diff_ms := now_ms - RtpSession.last_pkt_ms_ (base k) in
  let diff_ts := Z.quot (RtpSessionParam.clock_rate_ (param_ k) * diff_ms) 1000 in
  let rtp_ts := u32 (u32 (RtpSession.last_rtp_ts_ (base k)) + u32 diff_ts) in
  let k := with_sr k now_ms rtp_ts in
  (k,
   let! s := RtcpSrPacket.new_RtcpSrPacket in
   let! s := RtcpSrPacket.SetSsrc s (RtpSessionParam.ssrc_ (param_ k)) in
   let! s := RtcpSrPacket.SetNtp s (TimeEx.ntp_sec ntp) (TimeEx.ntp_frac ntp) in
   let! s := RtcpSrPacket.SetRtpTimestamp s rtp_ts in
   let! s := RtcpSrPacket.SetPktCount s (u32 (StreamStatics.GetCount (send_statics_ k))) in
   let! s := RtcpSrPacket.SetBytesCount s (u32 (StreamStatics.GetBytes (send_statics_ k))) in
   Ok (Some (RtcpSrPacket.Serial s))).

Definition OnTimer (k : t) (now_ms : Z) : t * res (option (list Z)) := OnSendRtcpSr k now_ms.

(** The round-trip time [RecvRtcpRrBlock] computes from the compact NTP time. *)
Definition rtt_of (compactNtp lsr dlsr : Z) : Z :=
  let rtt_ms :=
    if u32 (dlsr + lsr) <? compactNtp then
      let rtt_ntp_frac := u32 (compactNtp - dlsr - lsr) in
      let r := u32 (Z.shiftr rtt_ntp_frac 16 * 1000) in
      u32 (r + Z.shiftr (u32 (Z.land rtt_ntp_frac 0xFFFF * 1000)) 16)
    else 5 in
  if 200 <? rtt_ms then 200 else rtt_ms.

(** [RecvRtcpRrBlock] on the block at [p] of [d]; [lost_rate_], which only the log reads,
    is the quotient of [lost_fract_] and 256. *)
Definition RecvRtcpRrBlock (k : t) (d : buf) (p : nat) (now_ms : Z) : t * res Z :=
  do! (k, lsr) := (k, RtcpRrBlockInfo.GetLsr d p) in
  do! (k, dlsr) := (k, RtcpRrBlockInfo.GetDlsr d p) in
  if (lsr =? 0) || (dlsr =? 0) then (k, Ok 0) else
  let ntp := TimeEx.millisec_to_ntp now_ms in
  let compactNtp := u32 (Z.shiftl (Z.land (TimeEx.ntp_sec ntp) 0xFFFF) 16) in
  let compactNtp := Z.lor compactNtp (Z.shiftr (Z.land (TimeEx.ntp_frac ntp) 0xFFFF0000) 16) in
  let rtt_ms := rtt_of compactNtp lsr dlsr in
  let avg := Z.quot (avg_rtt_ms_ k * 15 + rtt_ms) 16 in
  let k := with_rr k avg (lost_total_ k) (lost_fract_ k) (rtcp_rr_dbg_ms_ k) in
  do! (k, total) := (k, RtcpRrBlockInfo.GetCumulativeLost d p) in
  let k := with_rr k (avg_rtt_ms_ k) total (lost_fract_ k) (rtcp_rr_dbg_ms_ k) in
  do! (k, fract) := (k, RtcpRrBlockInfo.GetFracLost d p) in
  let k := with_rr k (avg_rtt_ms_ k) (lost_total_ k) fract (rtcp_rr_dbg_ms_ k) in
  let dbg := if rtcp_rr_dbg_ms_ k <? 0 then now_ms
             else if 5000 <? now_ms - rtcp_rr_dbg_ms_ k then now_ms else rtcp_rr_dbg_ms_ k in
  (with_rr k (avg_rtt_ms_ k) (lost_total_ k) (lost_fract_ k) dbg, Ok 0).

(** * Invariant *)

Definition cached (i : nat) (p : RtpPacket.t) : Prop :=
  RtpPacket.framed p /\ cache_index (RtpPacket.seq_of p) = i /\
  (RtpPacket.payload p + RtpPacket.payload_len p + 2 <= length (RtpPacket.data p) <= 1500)%nat /\ RtpPacket.parsable p.

Record wf (k : t) : Prop := {
  wf_base : RtpSession.wf (base k);
  wf_param : RtpSessionParam.wf (param_ k);
  wf_cache_len : length (rtx_packet_cache_ k) = Z.to_nat SEND_RTX_CACHE_SIZE;
  wf_cache : forall i p, rtx_packet_cache_ k !! i = Some (Some p) -> cached i p;
  wf_rtx_seq : 0 <= rtx_seq_ k < 65536
}.

(** NACK and RTX are negotiated and the transport is there. *)
Record configured (k : t) : Prop := {
  cf_nack : RtpSessionParam.use_nack_ (param_ k) = true;
  cf_ssrc : RtpSessionParam.rtx_ssrc_ (param_ k) <> 0;
  cf_pt : RtpSessionParam.rtx_payload_type_ (param_ k) <> 0;
  cf_cb : send_cb_ k = true
}.

(** * Abstract cache: what would be retransmitted for a sequence number. *)

Definition content (k : t) (seq : Z) : option RtpPacket.view :=
  match rtx_packet_cache_ k !! cache_index seq with
  | Some (Some p) =>
      if RtpPacket.seq_of p =? seq then Some (RtpPacket.unpadded (RtpPacket.view_of p)) else None
  | _ => None
  end.

(** The RTX packets owed for [lost], the [n]th numbered [u16 (rtx_seq + n)]. *)
Fixpoint owed (c : Z -> option RtpPacket.view) (pt ssrc rtx_seq : Z) (lost : list Z) : list RtpPacket.view :=
  match lost with
  | [] => []
  | s :: rest =>
      match c s with
      | Some v => RtpPacket.rtx_view v pt ssrc (u16 (rtx_seq + 1)) :: owed c pt ssrc (u16 (rtx_seq + 1)) rest
      | None => owed c pt ssrc rtx_seq rest
      end
  end.

(** [d] is the datagram of a packet seen as [v], without padding; whatever buffer it arrives
    in, it is read back as such a packet. *)
Definition datagram (d : list Z) (v : RtpPacket.view) : Prop :=
  (exists m, d = RtpPacket.GetData m /\ RtpPacket.rtx_ok m /\ RtpPacket.view_of m = v /\
     RtpPacket.data_len m = (RtpPacket.payload m + RtpPacket.payload_len m)%nat) /\
  forall now b, bytes b -> take (length d) b = d ->
    exists q, RtpPacket.Parse now b (length d) = Ok q /\ RtpPacket.wf q /\ RtpPacket.view_of q = v.

(** * Lemmas *)

Lemma cache_index_lt s : (cache_index s < Z.to_nat SEND_RTX_CACHE_SIZE)%nat.
Proof. unfold cache_index, SEND_RTX_CACHE_SIZE. pose proof (Z.mod_pos_bound s 1000 ltac:(lia)). lia. Qed.

Lemma send_wf_new param cb : RtpSessionParam.wf param -> wf (new_RtpSendSession param cb).
Proof.
  intros Hp. split; cbn [new_RtpSendSession base rtx_packet_cache_ rtx_seq_]; try done.
  intros i p Hl. apply lookup_replicate in Hl as [[=] _].
Qed.

(** A packet that is sent whole and without padding. *)
Lemma datagram_of m v :
  RtpPacket.rtx_ok m -> RtpPacket.view_of m = v -> RtpPacket.data_len m = (RtpPacket.payload m + RtpPacket.payload_len m)%nat ->
  (0 < RtpPacket.payload_len m)%nat -> (RtpPacket.data_len m <= 1500)%nat -> RtpPacket.parsable m -> RtpPacket.v_padding v = 0 ->
  datagram (RtpPacket.GetData m) v.
Proof.
  intros Hok Hv Hl Hpl Hmax Hps Hpad. split; [by exists m|]. intros now b Hb Ht. pose proof (RtpPacket.ro_room m Hok).
  assert (Hn : length (RtpPacket.GetData m) = (RtpPacket.payload m + RtpPacket.payload_len m)%nat)
    by (unfold RtpPacket.GetData; rewrite length_take; lia).
  rewrite Hn in *. destruct (RtpPacket.parsable_reads now m b Hps Hok) as (q & HQ & Hq & Hvq); [by rewrite Hv|lia|lia|done| |].
  - by rewrite Ht, <- Hl.
  - exists q. by rewrite Hvq.
Qed.

(** What the invariant is about. *)
Lemma send_wf_same k k' :
  wf k -> base k' = base k -> rtx_packet_cache_ k' = rtx_packet_cache_ k -> rtx_seq_ k' = rtx_seq_ k ->
  wf k' /\ param_ k' = param_ k.
Proof. intros [Hb Hp Hl Hc Hr] E1 E2 E3. unfold param_ in *. split; [|by rewrite E1]. split; unfold param_; by rewrite ?E1, ?E2, ?E3. Qed.

Lemma Retransmit_ok k i p :
  wf k -> RtpSessionParam.rtx_ssrc_ (param_ k) <> 0 -> RtpSessionParam.rtx_payload_type_ (param_ k) <> 0 -> send_cb_ k = true ->
  rtx_packet_cache_ k !! i = Some (Some p) ->
  exists k' d, RetransmitRtxPackets k i p = (k', [d], Ok tt) /\ wf k' /\ send_cb_ k' = send_cb_ k /\
    param_ k' = param_ k /\ rtx_seq_ k' = u16 (rtx_seq_ k + 1) /\
    datagram d (RtpPacket.rtx_view (RtpPacket.unpadded (RtpPacket.view_of p))
      (RtpSessionParam.rtx_payload_type_ (param_ k)) (RtpSessionParam.rtx_ssrc_ (param_ k)) (u16 (rtx_seq_ k + 1))) /\
    forall s, content k' s = content k s.
Proof.
  intros [Hb Hpar Hlen Hc Hr] Hss Hpt Hcb Hi. destruct (Hc _ _ Hi) as (Hfr & Hidx & [Hroom Hmax] & Hps).
  pose proof (RtpPacket.fr_ok p Hfr) as Hok. pose proof Hok as [Hbytes H12 Hpl].
  unfold RetransmitRtxPackets. destruct Hpar as [Hs1 Hp1 Hrt Hrs Hrp].
  rewrite (proj2 (Z.ltb_lt _ _)), (proj2 (Z.ltb_lt _ _)), Hcb by lia. cbn [andb].
  rewrite RtpPacket.GetSsrc_eq, RtpPacket.GetPayloadType_eq by (done || lia).
  destruct (RtpPacket.mux_demux_ok p (RtpSessionParam.rtx_payload_type_ (param_ k))
              (RtpSessionParam.rtx_ssrc_ (param_ k)) (u16 (rtx_seq_ k + 1)))
    as (m & p' & Hmux & Hdm & Hp2 & Hpl2 & Hl2 & Hvm & Hv' & Hok' & Hokm & Hpm & Hplm & Hfr');
    [done|done|done|done|apply u16_range|].
  destruct (Hfr' Hfr) as [Hdl Hfr2].
  cbn [with_rtx_seq rtx_seq_]. rewrite Hmux. cbn [RtpPacket.view_of RtpPacket.v_ssrc RtpPacket.v_pt] in Hdm.
  rewrite Hdm. eexists _, _. split; [reflexivity|].
  cbn [with_cache with_rtx_seq rtx_packet_cache_]. rewrite list_insert_insert_eq.
  assert (Hseq : RtpPacket.seq_of p' = RtpPacket.seq_of p) by apply (f_equal RtpPacket.v_seq Hv').
  assert (Hil : (i < length (rtx_packet_cache_ k))%nat) by (by eapply lookup_lt_Some).
  split_and!; try done.
  - split; cbn [with_cache with_rtx_seq base rtx_packet_cache_ rtx_seq_]; try done.
    + by rewrite length_insert.
    + intros j q. destruct (decide (i = j)) as [<-|Hne].
      * rewrite list_lookup_insert_eq by done. intros [= <-]. split; [done|]. split; [by rewrite Hseq|].
        split; [lia|]. by apply (RtpPacket.parsable_same p); [|done|rewrite Hv'..].
      * rewrite list_lookup_insert_ne by done. apply Hc.
    + apply u16_range.
  - apply datagram_of; [done|by rewrite Hvm|lia|lia|lia| |done]. by apply (RtpPacket.parsable_same p); [|done|rewrite Hvm..].
  - intros s. unfold content. cbn [with_cache with_rtx_seq rtx_packet_cache_].
    destruct (decide (i = cache_index s)) as [<-|Hne].
    + rewrite list_lookup_insert_eq, Hi, Hseq, Hv' by done. done.
    + by rewrite list_lookup_insert_ne by done.
Qed.

Lemma owed_ext c c' pt ssrc n lost : (forall s, c s = c' s) -> owed c pt ssrc n lost = owed c' pt ssrc n lost.
Proof. intros H. revert n. induction lost as [|s lost IH]; intros n; cbn; [done|]. rewrite H. destruct (c' s); by rewrite IH. Qed.

Lemma answer_nacks_ok k lost :
  wf k -> configured k ->
  exists k' sent, answer_nacks k lost = (k', sent, Ok tt) /\ wf k' /\ configured k' /\
    (forall s, content k' s = content k s) /\
    Forall2 datagram sent (owed (content k) (RtpSessionParam.rtx_payload_type_ (param_ k))
                             (RtpSessionParam.rtx_ssrc_ (param_ k)) (rtx_seq_ k) lost).
Proof.
  revert k. induction lost as [|s lost IH]; intros k Hwf Hcf; cbn [answer_nacks owed].
  { exists k, []. by split_and!. }
  assert (Hcs : content k s = match rtx_packet_cache_ k !! cache_index s with
            | Some (Some p) =>
                if RtpPacket.seq_of p =? s then Some (RtpPacket.unpadded (RtpPacket.view_of p)) else None
            | _ => None
            end) by done.
  rewrite Hcs. destruct (rtx_packet_cache_ k !! cache_index s) as [[p|]|] eqn:Hi.
  - destruct (wf_cache k Hwf _ _ Hi) as (Hfr & _ & _ & _). destruct (RtpPacket.fr_ok p Hfr) as [Hbytes H12 Hpl].
    rewrite RtpPacket.GetSeq_eq by (done || lia). change (ByteStream.net16 (RtpPacket.data p) 2) with (RtpPacket.seq_of p).
    destruct (RtpPacket.seq_of p =? s); [|by apply IH].
    destruct Hcf as [N1 N2 N3 N4].
    destruct (Retransmit_ok k _ p Hwf N2 N3 N4 Hi) as (k1 & d & -> & Hwf1 & Hcb1 & Hp1 & Hr1 & Hd & Hc1).
    assert (Hcf1 : configured k1) by (split; rewrite ?Hp1; congruence).
    destruct (IH k1 Hwf1 Hcf1) as (k2 & sent & -> & Hwf2 & Hcf2 & Hc2 & Hs).
    exists k2, (d :: sent). split_and!; try done.
    + intros q. by rewrite Hc2, Hc1.
    + constructor; [done|]. rewrite Hp1, Hr1 in Hs. by rewrite (owed_ext _ _ _ _ _ _ Hc1) in Hs.
  - by apply IH.
  - apply lookup_ge_None in Hi. pose proof (cache_index_lt s). rewrite (wf_cache_len k Hwf) in Hi. lia.
Qed.

(** Whatever is negotiated, answering keeps the invariant. *)
Lemma answer_nacks_wf k lost :
  wf k -> exists k' sent, answer_nacks k lost = (k', sent, Ok tt) /\ wf k' /\ param_ k' = param_ k.
Proof.
  revert k. induction lost as [|s lost IH]; intros k Hwf; cbn [answer_nacks]; [by exists k, []|].
  destruct (rtx_packet_cache_ k !! cache_index s) as [[p|]|] eqn:Hi; [|by apply IH|].
  - destruct (wf_cache k Hwf _ _ Hi) as (Hfr & _ & _ & _). destruct (RtpPacket.fr_ok p Hfr) as [Hbytes H12 Hpl].
    rewrite RtpPacket.GetSeq_eq by (done || lia). destruct (_ =? s); [|by apply IH].
    assert (HR : exists k1 sent, RetransmitRtxPackets k (cache_index s) p = (k1, sent, Ok tt) /\ wf k1 /\ param_ k1 = param_ k).
    { destruct ((0 <? RtpSessionParam.rtx_ssrc_ (param_ k)) && (0 <? RtpSessionParam.rtx_payload_type_ (param_ k)) && send_cb_ k) eqn:E.
      - apply andb_prop in E as [[E1%Z.ltb_lt E2%Z.ltb_lt]%andb_prop E3].
        destruct (Retransmit_ok k _ p Hwf ltac:(lia) ltac:(lia) E3 Hi) as (k1 & d & -> & Hw & _ & Hp & _). by exists k1, [d].
      - exists k, []. unfold RetransmitRtxPackets. by rewrite E. }
    destruct HR as (k1 & d & -> & Hw1 & Hp1). destruct (IH k1 Hw1) as (k2 & sent & -> & Hw2 & Hp2).
    exists k2, (d ++ sent). by rewrite Hp2, Hp1.
  - apply lookup_ge_None in Hi. pose proof (cache_index_lt s). rewrite (wf_cache_len k Hwf) in Hi. lia.
Qed.

Lemma RecvRtcpFbNack_wf k p :
  wf k -> let '(k', _, _) := RecvRtcpFbNack k p in wf k' /\ param_ k' = param_ k.
Proof.
  intros Hwf. unfold RecvRtcpFbNack. destruct (RtcpFbNack.GetLostSeqs p) as [l| |]; [|done..].
  destruct (answer_nacks_wf k l Hwf) as (k' & sent & -> & ?). done.
Qed.
Lemma RecvRtcpRrBlock_wf k d p now : wf k -> wf (RecvRtcpRrBlock k d p now).1 /\ param_ (RecvRtcpRrBlock k d p now).1 = param_ k.
Proof.
  intros Hwf. unfold RecvRtcpRrBlock.
  destruct (RtcpRrBlockInfo.GetLsr d p), (RtcpRrBlockInfo.GetDlsr d p); cbn [sbind]; try done.
  destruct (_ || _); [done|]. cbv zeta.
  destruct (RtcpRrBlockInfo.GetCumulativeLost d p); cbn [sbind fst]; [|by apply (send_wf_same k)..].
  destruct (RtcpRrBlockInfo.GetFracLost d p); cbn [sbind fst]; by apply (send_wf_same k).
Qed.
Lemma OnSendRtcpSr_wf k now : wf k -> wf (OnSendRtcpSr k now).1 /\ param_ (OnSendRtcpSr k now).1 = param_ k.
Proof. intros Hwf. unfold OnSendRtcpSr. repeat case_match; by apply (send_wf_same k). Qed.
Lemma with_statics_wf k s : wf k -> wf (with_statics k s) /\ param_ (with_statics k s) = param_ k.
Proof. intros Hwf. by apply (send_wf_same k). Qed.

(** Caching a packet: the clone stands in the slot of its number. *)
Lemma Store_ok k pkt k0 now now0 fresh :
  wf k -> configured k -> RtpPacket.wf pkt -> (1 <= RtpPacket.data_len pkt <= 1498)%nat ->
  bytes fresh -> length fresh = 1500%nat -> RtpPacket.Parse now0 (RtpPacket.data pkt) (RtpPacket.data_len pkt) = Ok k0 ->
  exists p, StoreRtxPacket k pkt now fresh =
      (with_cache k (<[cache_index (RtpPacket.seq_of pkt) := Some p]> (rtx_packet_cache_ k)), Ok tt) /\
    cached (cache_index (RtpPacket.seq_of pkt)) p /\ RtpPacket.view_of p = RtpPacket.view_of k0 /\
    RtpPacket.seq_of p = RtpPacket.seq_of pkt.
Proof.
  intros Hwf [Hn Hss Hpt Hcb] Hpkt Hlen Hfb Hfl HP. unfold StoreRtxPacket.
  rewrite Hn, (proj2 (Z.eqb_neq _ _) Hss), (proj2 (Z.eqb_neq _ _) Hpt). cbn [negb orb].
  destruct (RtpPacket.Clone_ok now now0 fresh pkt k0 None Hpkt Hfb ltac:(lia) ltac:(lia) HP)
    as (d' & Hsp & Hl' & HC & Hwfn). rewrite HC. cbn [sbind].
  set (n := RtpPacket.mk _ _ _ _ _ _ _ _ _ _ _ _ _) in *.
  rewrite RtpPacket.GetSeq_wf by done. cbn [sbind].
  pose proof (proj2 (RtpPacket.wf_header pkt Hpkt)) as H12.
  assert (Hge : (12 <= RtpPacket.data_len pkt)%nat) by (destruct Hpkt; lia).
  assert (Hseq : RtpPacket.seq_of n = RtpPacket.seq_of pkt).
  { unfold RtpPacket.seq_of, ByteStream.net16. cbn [n RtpPacket.data]. f_equal. apply slice_ext.
    intros j Hj. symmetry. apply Hsp. lia. }
  rewrite Hseq, (proj2 (Nat.ltb_lt _ _)) by (rewrite (wf_cache_len k Hwf); apply cache_index_lt).
  exists n. split; [done|].
  pose proof (RtpPacket.Parse_frame now0 (RtpPacket.data pkt) (RtpPacket.data_len pkt)) as Hf.
  rewrite HP in Hf. destruct Hf as (Hd0 & Hdl0 & Hpad). destruct Hwfn as [Hnb Hnl Hnm Hnp Hns _ _ _ _ _].
  cbn [n RtpPacket.data RtpPacket.payload RtpPacket.payload_len RtpPacket.pad_len RtpPacket.data_len] in *.
  assert (Hv0 : RtpPacket.view_of n = RtpPacket.view_of k0)
    by (apply (RtpPacket.view_prefix (RtpPacket.data_len pkt) k0 d'); rewrite ?Hd0; (done || lia)).
  split; [split|split; [|done]].
  - split; cbn [n RtpPacket.data RtpPacket.payload RtpPacket.payload_len RtpPacket.pad_len RtpPacket.data_len].
    + split; cbn [n RtpPacket.data RtpPacket.payload RtpPacket.payload_len]; [done|done|lia].
    + done.
    + by rewrite (cell_ext 0 d' (RtpPacket.data pkt)) by (symmetry; apply Hsp; lia).
  - split; [by rewrite Hseq|]. cbn [n RtpPacket.data RtpPacket.payload RtpPacket.payload_len]. split; [lia|].
    exists now0, (RtpPacket.data pkt), (RtpPacket.data_len pkt), k0. rewrite Hv0. destruct Hpkt. by split_and!; try lia.
  - exact Hv0.
Qed.

(** The report built field by field is the wire format. *)
Lemma report_bytes a b c d e f :
  (let! s := RtcpSrPacket.new_RtcpSrPacket in
   let! s := RtcpSrPacket.SetSsrc s a in
   let! s := RtcpSrPacket.SetNtp s b c in
   let! s := RtcpSrPacket.SetRtpTimestamp s d in
   let! s := RtcpSrPacket.SetPktCount s e in
   let! s := RtcpSrPacket.SetBytesCount s f in
   Ok (Some (RtcpSrPacket.Serial s))) = Ok (Some (RtcpSrPacket.wire a b c d e f)).
Proof.
  transitivity (let! s := RtcpSrPacket.filled a b c d e f in Ok (Some (RtcpSrPacket.Serial s))).
  - unfold RtcpSrPacket.filled. rewrite !rbind_assoc. apply rbind_ext. intros s0 _.
    do 4 (rewrite !rbind_assoc; apply rbind_ext; intros ? _). by destruct (RtcpSrPacket.SetBytesCount _ _).
  - rewrite RtcpSrPacket.filled_wire. cbn [rbind]. unfold RtcpSrPacket.Serial. cbn [RtcpSrPacket.data].
    change RtcpSrPacket.DataLen with 28%nat. rewrite take_app_le by (by rewrite RtcpSrPacket.sr_length_wire).
    by rewrite take_ge by (by rewrite RtcpSrPacket.sr_length_wire).
Qed.

(** The compact NTP time (the middle 32 bits) of the clock. *)
Definition compact (now : Z) : Z := (u32 now / 1000) mod 65536 * 65536 + (now mod 1000 * 4294967296 / 1000) / 65536.

Lemma compact_eq now :
  0 <= now ->
  Z.lor (u32 (Z.shiftl (Z.land (TimeEx.ntp_sec (TimeEx.millisec_to_ntp now)) 0xFFFF) 16))
        (Z.shiftr (Z.land (TimeEx.ntp_frac (TimeEx.millisec_to_ntp now)) 0xFFFF0000) 16) = compact now /\
  0 <= compact now < 4294967296.
Proof.
  intros Hn. cbn [TimeEx.millisec_to_ntp TimeEx.ntp_sec TimeEx.ntp_frac]. unfold TimeEx.NTP_FRACT_UNIT.
  rewrite Z.rem_mod_nonneg, Z.quot_div_nonneg by (zlia || lia).
  set (f := now mod 1000 * 4294967296 / 1000).
  assert (Hf : 0 <= f < 4294967296) by (unfold f; zlia).
  rewrite (Z.land_ones _ 16), Z.shiftr_land by lia.
  change (Z.shiftr 4294901760 16) with (Z.ones 16). rewrite Z.land_ones, Z.shiftr_div_pow2 by lia.
  change (2 ^ 16) with 65536. rewrite (Z.mod_small (f / 65536)) by zlia.
  assert (Hs : 0 <= (u32 now / 1000) mod 65536 < 65536) by (apply Z.mod_pos_bound; lia).
  unfold compact. fold f. rewrite u32_small by (rewrite Z.shiftl_mul_pow2 by lia; change (2 ^ 16) with 65536; lia).
  rewrite lor_shiftl_small by (change (2 ^ 16) with 65536; zlia). change (2 ^ 16) with 65536. split; [done|zlia].
Qed.

(** The two 16-bit halves are scaled to milliseconds without losing a carry. *)
Lemma rtt_of_eq c lsr dlsr :
  0 <= c < 4294967296 -> 0 <= lsr -> 0 <= dlsr ->
  0 <= rtt_of c lsr dlsr <= 200 /\
  (lsr + dlsr < c -> rtt_of c lsr dlsr = Z.min 200 ((c - lsr - dlsr) * 1000 / 65536)) /\
  (c <= u32 (dlsr + lsr) -> rtt_of c lsr dlsr = 5).
Proof.
  intros Hc Hl Hd. unfold rtt_of. split_and!.
  - destruct (_ <? c); [|cbn; lia]. pose proof (u32_range (u32 (Z.shiftr (u32 (c - dlsr - lsr)) 16 * 1000) +
      Z.shiftr (u32 (Z.land (u32 (c - dlsr - lsr)) 65535 * 1000)) 16)). btests; lia.
  - btests; lia.
  - intros Hlt. rewrite (u32_small (dlsr + lsr)), (proj2 (Z.ltb_lt (dlsr + lsr) c)) by lia.
    rewrite (u32_small (c - dlsr - lsr)) by lia. set (e := c - dlsr - lsr).
    replace (c - lsr - dlsr) with e by (unfold e; lia). assert (He : 0 <= e < 4294967296) by (unfold e; lia).
    rewrite (Z.land_ones _ 16), !Z.shiftr_div_pow2 by lia. change (2 ^ 16) with 65536.
    assert (0 <= e mod 65536 < 65536) by (apply Z.mod_pos_bound; lia).
    assert (0 <= e / 65536 < 65536) by zlia.
    rewrite (u32_small (e / 65536 * 1000)), (u32_small (e mod 65536 * 1000)) by lia.
    replace (e / 65536 * 1000 + e mod 65536 * 1000 / 65536) with (e * 1000 / 65536) by zlia.
    rewrite u32_small by zlia. destruct (Z.ltb_spec 200 (e * 1000 / 65536)); lia.
  - intros Hle. by rewrite (proj2 (Z.ltb_ge (u32 (dlsr + lsr)) c)) by lia.
Qed.

(** The same from any state that differs from [k] outside the cache, as what the cache
    answers. *)
Lemma Store_content k k1 pkt k0 now now0 fresh :
  wf k -> configured k -> RtpPacket.wf pkt -> (1 <= RtpPacket.data_len pkt <= 1498)%nat ->
  bytes fresh -> length fresh = 1500%nat -> RtpPacket.Parse now0 (RtpPacket.data pkt) (RtpPacket.data_len pkt) = Ok k0 ->
  RtpSession.wf (base k1) -> param_ k1 = param_ k -> send_cb_ k1 = send_cb_ k ->
  rtx_packet_cache_ k1 = rtx_packet_cache_ k -> rtx_seq_ k1 = rtx_seq_ k ->
  let s := RtpPacket.seq_of pkt in
  exists k', StoreRtxPacket k1 pkt now fresh = (k', Ok tt) /\ wf k' /\ configured k' /\
    last_seq_ k' = last_seq_ k1 /\ base k' = base k1 /\
    content k' s = Some (RtpPacket.unpadded (RtpPacket.view_of k0)) /\
    forall q, q <> s -> content k' q = if (cache_index q =? cache_index s)%nat then None else content k q.
Proof.
  intros Hwf Hcf Hpkt Hlen Hfb Hfl HP Hb1 Hp1 Hcb1 Hc1 Hr1 s.
  destruct Hwf as [Hb Hpar Hcl Hc Hr], Hcf as [Hn Hss Hpt Hcb].
  assert (Hwf1 : wf k1) by (split; rewrite ?Hp1, ?Hc1, ?Hr1; done).
  assert (Hcf1 : configured k1) by (split; rewrite ?Hp1, ?Hcb1; done).
  destruct (Store_ok k1 pkt k0 now now0 fresh Hwf1 Hcf1 Hpkt Hlen Hfb Hfl HP) as (p & -> & Hcp & Hv & Hs).
  fold s in Hcp, Hs |- *. destruct Hwf1 as [Hb' Hpar' Hcl' Hc' Hr'].
  pose proof (cache_index_lt s). eexists. split; [reflexivity|]. split_and!; try done.
  - split; cbn; try done; [by rewrite length_insert|]. intros i q.
    destruct (decide (cache_index s = i)) as [<-|Hne].
    + rewrite list_lookup_insert_eq by lia. by intros [= <-].
    + rewrite list_lookup_insert_ne by done. apply Hc'.
  - destruct Hcf1; by split.
  - unfold content. cbn [with_cache rtx_packet_cache_].
    rewrite list_lookup_insert_eq by lia. by rewrite Hs, Z.eqb_refl, Hv.
  - intros q Hq. unfold content. cbn [with_cache rtx_packet_cache_].
    destruct (Nat.eqb_spec (cache_index q) (cache_index s)) as [Ei|Ei].
    + rewrite Ei, list_lookup_insert_eq by lia. rewrite Hs. by rewrite (proj2 (Z.eqb_neq _ _)) by done.
    + rewrite list_lookup_insert_ne by done. by rewrite Hc1.
Qed.

(** A sender report always can be built, and only its times change. *)
Lemma OnSendRtcpSr_ok k now :
  exists k' sent, OnSendRtcpSr k now = (k', Ok sent) /\ rtx_packet_cache_ k' = rtx_packet_cache_ k /\
    base k' = base k /\ rtx_seq_ k' = rtx_seq_ k /\ send_cb_ k' = send_cb_ k.
Proof.
  unfold OnSendRtcpSr. destruct (_ <? 0); [by do 2 eexists|]. destruct (_ <? 1000); [by do 2 eexists|].
  destruct (_ =? 0); [by do 2 eexists|]. do 2 eexists. split; [by rewrite report_bytes|]. by split_and!.
Qed.

(** * Properties *)

Lemma SendRtpPacket_ok (k : t) (pkt k0 : RtpPacket.t) (now now0 : Z) (fresh : buf) :
  wf k -> configured k -> RtpPacket.wf pkt -> (1 <= RtpPacket.data_len pkt <= 1498)%nat ->
  bytes fresh -> length fresh = 1500%nat ->
  RtpPacket.Parse now0 (RtpPacket.data pkt) (RtpPacket.data_len pkt) = Ok k0 ->
  let s := RtpPacket.seq_of pkt in
  exists k' ok, SendRtpPacket k pkt now fresh = (k', Ok ok) /\ wf k' /\ configured k' /\
    last_seq_ k' = s /\ RtpSession.first_pkt_ (base k') = false /\
    (RtpSession.first_pkt_ (base k) = true -> ok = true) /\
    (ok = true ->
       content k' s = Some (RtpPacket.unpadded (RtpPacket.view_of k0)) /\
       forall q, q <> s -> content k' q = if (cache_index q =? cache_index s)%nat then None else content k q) /\
    (ok = false -> forall q, content k' q = content k q).
Proof.
  intros Hwf Hcf Hpkt Hlen Hfb Hfl HP s.
  pose proof (fun k1 => Store_content k k1 pkt k0 now now0 fresh Hwf Hcf Hpkt Hlen Hfb Hfl HP) as Hstore.
  cbv zeta in Hstore. fold s in Hstore.
  unfold SendRtpPacket. rewrite RtpPacket.GetSeq_wf, RtpPacket.GetTimestamp_wf by done. fold s. cbn [sbind].
  pose proof (RtpPacket.seq_of_range pkt Hpkt) as Hr. fold s in Hr.
  cbn [with_last_seq base]. destruct (RtpSession.first_pkt_ (base k)) eqn:Hfirst.
  - match goal with |- context [StoreRtxPacket ?k1 _ _ _] => destruct (Hstore k1) as (k' & -> & ? & ? & Hl & Hb' & ? & ?) end;
      [by split|done..|].
    cbn [sbind]. exists k', true. split_and!; try done. by rewrite Hb'.
  - destruct (RtpSession.UpdateSeq_ok (base k) pkt (wf_base k Hwf) (RtpPacket.wf_header pkt Hpkt)) as (b' & ok & -> & Hb' & Heq).
    cbn [sbind]. destruct ok; cbn [negb].
    + match goal with |- context [StoreRtxPacket ?k1 _ _ _] => destruct (Hstore k1) as (k' & -> & ? & ? & Hl & Hbk & ? & ?) end;
        [destruct Hb'; by split|by cbn; rewrite Heq|done..|].
      cbn [sbind]. exists k', true. split_and!; try done. rewrite Hbk. cbn. by rewrite Heq.
    + eexists _, false. split; [reflexivity|]. destruct Hwf, Hcf.
      assert (Hpp : RtpSession.param_ b' = param_ k) by (rewrite Heq; done).
      split_and!; try done; [split; cbn; try done; unfold param_; cbn; by rewrite Hpp..|].
      by rewrite Heq.
Qed.

(** a packet sent while NACK and RTX are in use is always accepted into the session
    or refused by the sequence check, without a fault; accepted, it is what the cache
    answers for its sequence number from then on, a packet 1000 numbers away that it
    displaces is forgotten, and every other answer stays; refused, the cache is
    unchanged.  The first packet is always accepted. *)
Theorem SendRtpPacket_caches (k : t) (pkt k0 : RtpPacket.t) (now now0 : Z) (fresh : buf) :
  wf k -> configured k -> RtpPacket.wf pkt -> (1 <= RtpPacket.data_len pkt <= 1498)%nat ->
  bytes fresh -> length fresh = 1500%nat ->
  RtpPacket.Parse now0 (RtpPacket.data pkt) (RtpPacket.data_len pkt) = Ok k0 ->
  let s := RtpPacket.seq_of pkt in
  exists k' ok, SendRtpPacket k pkt now fresh = (k', Ok ok) /\ wf k' /\ configured k' /\
    last_seq_ k' = s /\ RtpSession.first_pkt_ (base k') = false /\
    (RtpSession.first_pkt_ (base k) = true -> ok = true) /\
    (ok = true ->
       content k' s = Some (RtpPacket.unpadded (RtpPacket.view_of k0)) /\
       forall q, q <> s -> content k' q = if (cache_index q =? cache_index s)%nat then None else content k q) /\
    (ok = false -> forall q, content k' q = content k q).
Proof. exact (SendRtpPacket_ok k pkt k0 now now0 fresh). Qed.

(** a NACK is answered from the cache.  For every lost sequence number the entry
    lists, in order, one RTX packet is sent if and only if the packet of that number is
    still cached: RFC 4588's encapsulation of that packet, under the next RTX sequence
    number.  The answers the cache gives stay the same, so the same loss can be
    reported and answered again. *)
Theorem RecvRtcpFbNack_answers (k : t) (nack_pkt : RtcpFbNack.t) (lost : list Z) :
  wf k -> configured k -> RtcpFbNack.GetLostSeqs nack_pkt = Ok lost ->
  exists k' sent, RecvRtcpFbNack k nack_pkt = (k', sent, Ok 0) /\ wf k' /\ configured k' /\
    Forall2 datagram sent
      (owed (content k) (RtpSessionParam.rtx_payload_type_ (param_ k))
            (RtpSessionParam.rtx_ssrc_ (param_ k)) (rtx_seq_ k) lost) /\
    forall s, content k' s = content k s.
Proof.
  intros Hwf Hcf Hl. unfold RecvRtcpFbNack. rewrite Hl.
  destruct (answer_nacks_ok k lost Hwf Hcf) as (k' & sent & -> & ? & ? & ? & ?).
  exists k', sent. by split_and!.
Qed.

(** sender reports.  Nothing is sent on the first tick, within a second of the last
    report, or before a counted packet; otherwise exactly one report goes out, RFC
    3550's, with the RTP time of the last packet carried forward at the clock rate to
    now and the counts so far, and the next is a second away.  Its NTP seconds are
    those of the low 32 bits of the millisecond clock, not of the time. *)
Theorem OnSendRtcpSr_spec (k : t) (now : Z) :
  let due := negb (last_rtcp_sr_ms_ k <? 0) && (1000 <=? now - last_rtcp_sr_ms_ k) &&
             negb (StreamStatics.count_ (send_statics_ k) =? 0) in
  let rtp_ts := u32 (RtpSession.last_rtp_ts_ (base k) +
    Z.quot (RtpSessionParam.clock_rate_ (param_ k) * (now - RtpSession.last_pkt_ms_ (base k))) 1000) in
  exists k', OnSendRtcpSr k now =
    (k', Ok (if due
             then Some (RtcpSrPacket.wire (RtpSessionParam.ssrc_ (param_ k)) (u32 now / 1000)
                          (Z.quot (Z.rem now 1000 * 4294967296) 1000) rtp_ts
                          (u32 (StreamStatics.count_ (send_statics_ k)))
                          (u32 (StreamStatics.bytes_ (send_statics_ k))))
             else None)) /\
    last_rtcp_sr_ms_ k' = (if due || (last_rtcp_sr_ms_ k <? 0) then now else last_rtcp_sr_ms_ k) /\
    rtx_packet_cache_ k' = rtx_packet_cache_ k /\ base k' = base k.
Proof.
  cbv zeta. unfold OnSendRtcpSr, StreamStatics.GetCount, StreamStatics.GetBytes.
  destruct (Z.ltb_spec (last_rtcp_sr_ms_ k) 0); cbn [negb andb orb]; [by eexists|].
  destruct (Z.leb_spec 1000 (now - last_rtcp_sr_ms_ k)) as [Hd|Hd];
    [rewrite (proj2 (Z.ltb_ge _ _)) by lia|rewrite (proj2 (Z.ltb_lt _ _)) by lia; by exists k]; cbn [andb].
  destruct (_ =? 0); cbn [negb orb]; [by exists k|].
  eexists (with_sr k now _). split; [|by split_and!]. f_equal. cbn [param_ with_sr base send_statics_].
  replace (u32 (u32 (RtpSession.last_rtp_ts_ (base k)) + _))
    with (u32 (RtpSession.last_rtp_ts_ (base k) +
      Z.quot (RtpSessionParam.clock_rate_ (param_ k) * (now - RtpSession.last_pkt_ms_ (base k))) 1000))
    by (unfold u32; apply Zplus_mod).
  by rewrite report_bytes.
Qed.

(** a receiver report block without a last-SR time or delay is ignored; otherwise its
    loss figures are taken over and the average round-trip time moves one sixteenth
    towards [now - LSR - DLSR], computed in units of 1/65536 s, exactly to the
    millisecond below and capped at 200 ms; a clock at or behind [LSR + DLSR] counts as
    5 ms.  The average stays between 0 and 200. *)
Theorem RecvRtcpRrBlock_spec (k : t) (d : buf) (p : nat) (now : Z) :
  bytes d -> (p + 24 <= length d)%nat -> 0 <= now -> 0 <= avg_rtt_ms_ k <= 200 ->
  let lsr := ByteStream.net32 d (p + 16) in
  let dlsr := ByteStream.net32 d (p + 20) in
  exists k' rtt, RecvRtcpRrBlock k d p now = (k', Ok 0) /\
    0 <= avg_rtt_ms_ k' <= 200 /\ base k' = base k /\ rtx_packet_cache_ k' = rtx_packet_cache_ k /\
    (lsr = 0 \/ dlsr = 0 -> k' = k) /\
    (lsr <> 0 -> dlsr <> 0 ->
       lost_fract_ k' = cell d (p + 4) /\ lost_total_ k' = be_val (slice (p + 5) 3 d) /\
       avg_rtt_ms_ k' = (avg_rtt_ms_ k * 15 + rtt) / 16 /\
       (lsr + dlsr < compact now -> rtt = Z.min 200 ((compact now - lsr - dlsr) * 1000 / 65536)) /\
       (compact now <= u32 (dlsr + lsr) -> rtt = 5)).
Proof.
  intros Hb Hp Hnow Havg lsr dlsr.
  assert (Hlsr : 0 <= lsr < 4294967296) by (apply ByteStream.net32_range; (done || lia)).
  assert (Hdlsr : 0 <= dlsr < 4294967296) by (apply ByteStream.net32_range; (done || lia)).
  destruct (compact_eq now Hnow) as [Hc Hcr].
  destruct (rtt_of_eq (compact now) lsr dlsr) as (Hr & Hr1 & Hr2); [lia..|].
  exists (RecvRtcpRrBlock k d p now).1, (rtt_of (compact now) lsr dlsr).
  unfold RecvRtcpRrBlock, RtcpRrBlockInfo.GetLsr, RtcpRrBlockInfo.GetDlsr.
  rewrite !get32_eq by (done || lia). fold lsr dlsr. cbn [sbind]. rewrite Hc.
  destruct (Z.eqb_spec lsr 0) as [El|El]; [cbn [orb fst]; split_and!; try done; lia|].
  destruct (Z.eqb_spec dlsr 0) as [Ed|Ed]; [cbn [orb fst]; split_and!; try done; lia|]. cbn [orb].
  unfold RtcpRrBlockInfo.GetCumulativeLost, RtcpRrBlockInfo.GetFracLost, ByteStream.Read3Bytes.
  rewrite rd_bytes_ok, rd8_cell by lia. cbn [rbind sbind fst].
  rewrite Z.quot_div_nonneg by lia.
  split_and!; try done; try lia; cbn; try zlia.
Qed.

(** * Concrete sessions *)

Definition sample : t :=
  with_cache (new_RtpSendSession RtpSession.sample_param true)
    (<[7%nat := Some (RtpPacket.numbered 7)]> (replicate 1000 None)).

Lemma sample_param_wf : RtpSessionParam.wf RtpSession.sample_param.
Proof. split; cbn; lia. Qed.

Lemma send_sample_wf : wf sample.
Proof.
  pose proof (RtpPacket.numbered_wf 7) as Hw.
  split; [split; cbn; [lia|split; [lia|reflexivity]]|exact sample_param_wf|reflexivity| |cbn; lia].
  intros i p. change (rtx_packet_cache_ sample) with (<[7%nat := Some (RtpPacket.numbered 7)]> (replicate 1000 (@None RtpPacket.t))).
  destruct (decide (7%nat = i)) as [<-|Hne].
  - rewrite list_lookup_insert_eq by (rewrite length_replicate; lia). intros [= <-].
    split; [split; [split|..]|split].
    + apply Hw.
    + vm_compute. lia.
    + vm_compute. lia.
    + vm_compute. reflexivity.
    + right. vm_compute. reflexivity.
    + vm_compute. reflexivity.
    + split; [vm_compute; lia|]. set (m := RtpPacket.numbered 7).
      exists 5, (RtpPacket.data m), (RtpPacket.data_len m),
        (match RtpPacket.Parse 5 (RtpPacket.data m) (RtpPacket.data_len m) with Ok q => q | _ => m end).
      split; [apply Hw|]. split; [vm_compute; lia|]. by vm_compute.
  - rewrite list_lookup_insert_ne by done. intros [[=] _]%lookup_replicate.
Qed.
Lemma sample_configured : configured sample.
Proof. split; done. Qed.

Lemma SendRtpPacket_caches_witness :
  exists k' ok, SendRtpPacket sample (RtpPacket.numbered 9) 5 (replicate 1500 0) = (k', Ok ok) /\ ok = true /\
    is_Some (content k' 9).
Proof.
  destruct (RtpPacket.Parse 5 (RtpPacket.data (RtpPacket.numbered 9)) (RtpPacket.data_len (RtpPacket.numbered 9)))
    as [k0| |] eqn:E;
    [|apply (f_equal is_ok) in E; vm_compute in E; discriminate E..].
  destruct (SendRtpPacket_caches sample (RtpPacket.numbered 9) k0 5 5 (replicate 1500 0))
    as (k' & ok & H & _ & _ & _ & _ & Hfirst & Hok & _);
    [exact send_sample_wf|exact sample_configured|apply RtpPacket.numbered_wf|vm_compute; lia|bytes_done|reflexivity|exact E|].
  exists k', ok. split; [exact H|]. split; [by apply Hfirst|].
  destruct (Hok (Hfirst eq_refl)) as [Hc _].
  replace (RtpPacket.seq_of (RtpPacket.numbered 9)) with 9 in Hc by (vm_compute; reflexivity).
  rewrite Hc. by eexists.
Defined.

Definition sample_nack : RtcpFbNack.t := RtcpFbNack.mk (replicate 12 0 ++ [0; 7; 0; 2]) 16 [12%nat].

Lemma RecvRtcpFbNack_answers_witness :
  exists k' sent, RecvRtcpFbNack sample sample_nack = (k', sent, Ok 0) /\ length sent = 1%nat /\
    is_Some (content k' 7).
Proof.
  destruct (RecvRtcpFbNack_answers sample sample_nack [7; 9] send_sample_wf sample_configured)
    as (k' & sent & H & _ & _ & Hs & Hc); [vm_compute; reflexivity|].
  exists k', sent. split; [exact H|]. split.
  - rewrite (Forall2_length _ _ _ Hs). vm_compute. reflexivity.
  - rewrite Hc. vm_compute. by eexists.
Defined.

Lemma RecvRtcpRrBlock_spec_witness :
  exists k', RecvRtcpRrBlock sample (replicate 24 1) 0 5000 = (k', Ok 0) /\ lost_fract_ k' = 1 /\
    avg_rtt_ms_ k' = 28.
Proof.
  destruct (RecvRtcpRrBlock_spec sample (replicate 24 1) 0 5000)
    as (k' & rtt & H & _ & _ & _ & _ & H1); [bytes_done|cbn; lia|lia|cbn; lia|].
  destruct H1 as (Hf & _ & Ha & _ & Hr); [vm_compute; discriminate|vm_compute; discriminate|].
  exists k'. split; [exact H|]. split; [rewrite Hf; vm_compute; reflexivity|].
  rewrite Ha, Hr by (vm_compute; discriminate). vm_compute. reflexivity.
Defined.

End RtpSendSession.
