(* ===== verification/RtpRecvSession.v ===== *)
(** [webrtc_room/rtp_recv_session.cpp] and [.hpp]: the receiving side of one stream.
    Packets, direct or recovered from RTX, pass the sequence check, the jitter
    estimate and the NACK generator; receiver reports go out on a timer. *)
From S2P Require Import Prelude ByteStream RtpPub StdMap RtpPacket RtcpReports RtcpFeedback Nack RtpSession.
Import RtpPub ByteStream.

Module RtpRecvSession.

Definition kVideoRtcpRRInterval : Z := 400.
Definition kAudioRtcpRRInterval : Z := 2000.

(** [lost_percent_], a quotient that is never read, is left out; [ntp_], which the code
    leaves uninitialised, is read only after a sender report set it. *)
Record t := mk {
  base : RtpSession.t;
  nack_generator_ : option Nack.t;
  last_send_rtcp_rr_ : Z;
  sr_ssrc_ : Z; ntp_ : TimeEx.NTP_TIMESTAMP; rtp_timestamp_ : Z; sr_local_ms_ : Z;
  pkt_count_ : Z; bytes_count_ : Z; last_sr_ms_ : Z; lsr_ : Z;
  expect_recv_ : Z; last_recv_ : Z; total_lost_ : Z; frac_lost_ : Z;
  recv_statics_ : StreamStatics.t; timer_running_ : bool
}.

Definition new_RtpRecvSession (param : RtpSessionParam.t) : t :=
  mk (RtpSession.new_RtpSession param)
     (if RtpSessionParam.use_nack_ param then Some Nack.new_NackGenerator else None)
     (-1) 0 (TimeEx.mk 0 0) 0 0 0 0 0 0 0 0 0 0 StreamStatics.new_StreamStatics true.

Definition param_ (k : t) : RtpSessionParam.t := RtpSession.param_ (base k).

Definition with_base (k : t) (b : RtpSession.t) : t :=
  mk b (nack_generator_ k) (last_send_rtcp_rr_ k) (sr_ssrc_ k) (ntp_ k) (rtp_timestamp_ k) (sr_local_ms_ k)
     (pkt_count_ k) (bytes_count_ k) (last_sr_ms_ k) (lsr_ k) (expect_recv_ k) (last_recv_ k)
     (total_lost_ k) (frac_lost_ k) (recv_statics_ k) (timer_running_ k).
Definition with_nack (k : t) (n : option Nack.t) : t :=
  mk (base k) n (last_send_rtcp_rr_ k) (sr_ssrc_ k) (ntp_ k) (rtp_timestamp_ k) (sr_local_ms_ k)
     (pkt_count_ k) (bytes_count_ k) (last_sr_ms_ k) (lsr_ k) (expect_recv_ k) (last_recv_ k)
     (total_lost_ k) (frac_lost_ k) (recv_statics_ k) (timer_running_ k).
Definition with_statics (k : t) (s : StreamStatics.t) : t :=
  mk (base k) (nack_generator_ k) (last_send_rtcp_rr_ k) (sr_ssrc_ k) (ntp_ k) (rtp_timestamp_ k) (sr_local_ms_ k)
     (pkt_count_ k) (bytes_count_ k) (last_sr_ms_ k) (lsr_ k) (expect_recv_ k) (last_recv_ k)
     (total_lost_ k) (frac_lost_ k) s (timer_running_ k).
Definition with_losses (k : t) (expect last total frac : Z) : t :=
  mk (base k) (nack_generator_ k) (last_send_rtcp_rr_ k) (sr_ssrc_ k) (ntp_ k) (rtp_timestamp_ k) (sr_local_ms_ k)
     (pkt_count_ k) (bytes_count_ k) (last_sr_ms_ k) (lsr_ k) expect last
     total frac (recv_statics_ k) (timer_running_ k).
Definition with_last_rr (k : t) (ms : Z) : t :=
  mk (base k) (nack_generator_ k) ms (sr_ssrc_ k) (ntp_ k) (rtp_timestamp_ k) (sr_local_ms_ k)
     (pkt_count_ k) (bytes_count_ k) (last_sr_ms_ k) (lsr_ k) (expect_recv_ k) (last_recv_ k)
     (total_lost_ k) (frac_lost_ k) (recv_statics_ k) (timer_running_ k).

(** [GenerateJitter], on the fields of the base class. *)
Definition GenerateJitter (b : RtpSession.t) (rtp_timestamp recv_pkt_ms : Z) : res RtpSession.t :=
  let clock_rate := RtpSessionParam.clock_rate_ (RtpSession.param_ b) in
  if clock_rate <=? 0 then Throw "clock rate is invalid" else
  if (RtpSession.last_pkt_ms_ b =? 0) || (RtpSession.last_rtp_ts_ b =? 0) then Ok b else
  let receive_diff_ms := recv_pkt_ms - RtpSession.last_pkt_ms_ b in
  let receive_diff_rtp := u32 (Z.quot (receive_diff_ms * clock_rate) 1000) in
  let time_diff_samples := Z.abs (receive_diff_rtp - (rtp_timestamp - RtpSession.last_rtp_ts_ b)) in
  if time_diff_samples <? 450000 then
    let jitter_diff_q4 := i32 (u32 (i32 (Z.shiftl time_diff_samples 4) - RtpSession.jitter_q4_ b)) in
    let q4 := u32 (RtpSession.jitter_q4_ b + Z.shiftr (jitter_diff_q4 + 8) 4) in
    Ok (RtpSession.with_jitter b q4 (Z.shiftr q4 4))
  else Ok b.

Definition ReceiveRtpPacket (k : t) (rtp_pkt : RtpPacket.t) : t * res bool :=
  do! (k, seq) := (k, RtpPacket.GetSeq rtp_pkt) in
  let ms := RtpPacket.local_ms rtp_pkt in
  if RtpSession.first_pkt_ (base k) then
    let k := with_base k (RtpSession.InitSeq (RtpSession.with_first (base k)) seq) in
    do! (k, ts) := (k, RtpPacket.GetTimestamp rtp_pkt) in
    (with_base k (RtpSession.with_max (base k) ts (u64 ms)), Ok true)
  else
    do! (k, upd) := (k, RtpSession.UpdateSeq (base k) rtp_pkt) in
    let '(b, ok) := upd in
    let k := with_base k b in
    if negb ok then (k, Ok false) else
    do! (k, ts) := (k, RtpPacket.GetTimestamp rtp_pkt) in
    do! (k, b) := (k, GenerateJitter (base k) ts ms) in
    let k := with_base k (RtpSession.with_last b ms ts) in
    let k := with_statics k (StreamStatics.Update (recv_statics_ k) (Z.of_nat (RtpPacket.data_len rtp_pkt)) ms) in
    if RtpSessionParam.use_nack_ (param_ k) then
      match nack_generator_ k with
      | None => (k, Undef NullDeref)
      | Some n =>
          do! (k, n) := (k, Nack.UpdateNackList n rtp_pkt) in
          (with_nack k (Some n), Ok true)
      end
    else (k, Ok true).

(** [ReceiveRtxPacket]: the session, the packet as the caller then holds it, the
    out-parameter [repeat], and the result.  The body runs inside a [try]. *)
Definition ReceiveRtxPacket (k : t) (rtp_pkt : RtpPacket.t) (repeat : bool) : t * RtpPacket.t * bool * res bool :=
  if (RtpPacket.payload_len rtp_pkt =? 0)%nat then (k, rtp_pkt, repeat, Ok true) else
  match RtpPacket.RtxDemux rtp_pkt (RtpSessionParam.ssrc_ (param_ k)) (RtpSessionParam.payload_type_ (param_ k)) with
  | Undef u => (k, rtp_pkt, false, Undef u)
  | Throw _ => (k, rtp_pkt, false, Ok false)
  | Ok pkt =>
      match RtpPacket.GetSeq pkt with
      | Undef u => (k, pkt, false, Undef u)
      | Throw _ => (k, pkt, false, Ok false)
      | Ok seq =>
          let missing := match nack_generator_ k with Some n => Nack.IsInNackList n seq | None => true end in
          if negb missing then (k, pkt, true, Ok true) else
          match ReceiveRtpPacket k pkt with
          | (k, Ok true) => (k, pkt, false, Ok true)
          | (k, Ok false) => (k, pkt, false, Ok false)
          | (k, Throw _) => (k, pkt, false, Ok false)
          | (k, Undef u) => (k, pkt, false, Undef u)
          end
      end
  end.

(** [std::round] of a quotient: to nearest, halves away from zero.  The code divides two
    integers in [double]; below 2^52 the rounding of that division does not reach the
    nearest half, so the result is the same. *)
Definition round_div (n d : Z) : Z :=
  if 0 <=? n then (2 * n + d) / (2 * d) else - ((2 * - n + d) / (2 * d)).

Definition GetLostStatics (k : t) : t :=
  let expected := RtpSession.GetExpectedPackets (base k) in
  let recv_count := StreamStatics.GetCount (recv_statics_ k) in
  let expected_interval := expected - expect_recv_ k in
  let recv_interval := recv_count - last_recv_ k in
  if last_recv_ k <=? 0 then with_losses k expected recv_count (total_lost_ k) (frac_lost_ k)
  else if (expected_interval <=? 0) || (recv_interval <=? 0)
  then with_losses k expected recv_count (total_lost_ k) 0
  else with_losses k expected recv_count (total_lost_ k + (expected_interval - recv_interval))
         (round_div ((expected_interval - recv_interval) * 256) expected_interval).

(** [SendRtcpRR]: the report block is built in malloc'ed memory [uninit]; the bytes given
    to [OnTransportSendRtcp]. *)
Definition SendRtcpRR (k : t) (now_ms : Z) (uninit : buf) : t * res (option (list Z)) :=
  let k := GetLostStatics k in
  (k,
   let! h := RtcpCommonHeader.set_version (replicate 4 0) 0 2 in
   let! h := RtcpCommonHeader.set_padding h 0 0 in
   let! h := RtcpCommonHeader.set_count h 0 1 in
   let! h := RtcpCommonHeader.set_packet_type h 0 (RTCP_TYPE_val RTCP_RR) in
   let! h := RtcpCommonHeader.set_length h 0 (htons (u16 ((4 + 4 + 24) / 4 - 1))) in
   let! rr_pkt := RtcpRrPacket.from_header h 4 in
   let highest_seq := u32 (RtpSession.max_seq_ (base k) + RtpSession.cycles_ (base k)) in
   let! d := RtcpRrBlockInfo.SetReporteeSsrc uninit 0 (RtpSessionParam.ssrc_ (param_ k)) in
   let! d := RtcpRrBlockInfo.SetCumulativeLost d 0 (u32 (total_lost_ k)) in
   let! d := RtcpRrBlockInfo.SetFracLost d 0 (u8 (frac_lost_ k)) in
   let! d := RtcpRrBlockInfo.SetHighestSeq d 0 highest_seq in
   let! d := RtcpRrBlockInfo.SetJitter d 0 (RtpSession.jitter_ (base k)) in
   let! d := RtcpRrBlockInfo.SetLsr d 0 (lsr_ k) in
   let dlsr_ms := now_ms - last_sr_ms_ k in
   let dlsr := u32 (Z.lor (Z.shiftl (Z.quot dlsr_ms 1000) 16) (Z.quot (Z.rem dlsr_ms 1000 * 65536) 1000)) in
   let! d := RtcpRrBlockInfo.SetDlsr d 0 dlsr in
   let! rr_pkt := RtcpRrPacket.AddRrBlock rr_pkt d in
   let! (rr_pkt, rr_data) := RtcpRrPacket.GetData rr_pkt in
   match rr_data with
   | Some l => if (length l =? RtcpRrPacket.GetLen rr_pkt)%nat then Ok (Some l) else Undef AssertFail
   | None => Undef AssertFail
   end).

(** [GenerateNackList], the callback of the NACK generator: the packet sent. *)
Definition GenerateNackList (k : t) (seq_vec : list Z) (uninit : buf) : res (list Z) :=
  let! nack_pkt := RtcpFbNack.new_RtcpFbNack uninit 0 (RtpSessionParam.ssrc_ (param_ k)) in
  let! nack_pkt := RtcpFbNack.InsertSeqList nack_pkt seq_vec in
  rd_bytes (RtcpFbNack.data nack_pkt) 0 (RtcpFbNack.data_len nack_pkt).

(** [OnTimer]: the report sent, if any; the C++ result is [timer_running_]. *)
Definition OnTimer (k : t) (now_ms : Z) (uninit : buf) : t * res (option (list Z) * bool) :=
  if last_send_rtcp_rr_ k <? 0 then
    let k := with_last_rr k now_ms in (k, Ok (None, timer_running_ k))
  else
    let interval := match RtpSessionParam.av_type_ (param_ k) with
                    | RtpSessionParam.MEDIA_VIDEO_TYPE => kVideoRtcpRRInterval
                    | _ => kAudioRtcpRRInterval
                    end in
    if interval <? now_ms - last_send_rtcp_rr_ k then
      do! (k, sent) := SendRtcpRR (with_last_rr k now_ms) now_ms uninit in
      (k, Ok (sent, timer_running_ k))
    else (k, Ok (None, timer_running_ k)).

Definition HandleRtcpSrPacket (k : t) (sr_pkt : RtcpSrPacket.t) (now_ms : Z) : t * res Z :=
  (* the fields are assigned one by one; the getters of the model do not throw *)
  match (let! sec := RtcpSrPacket.GetNtpSec sr_pkt in
         let! frac := RtcpSrPacket.GetNtpFrac sr_pkt in
         let! ts := RtcpSrPacket.GetRtpTimestamp sr_pkt in
         let! pkts := RtcpSrPacket.GetPktCount sr_pkt in
         let! octets := RtcpSrPacket.GetBytesCount sr_pkt in
         Ok (sec, frac, ts, pkts, octets)) with
  | Ok (sec, frac, ts, pkts, octets) =>
      (mk (base k) (nack_generator_ k) (last_send_rtcp_rr_ k) (RtcpSrPacket.GetSsrc sr_pkt)
          (TimeEx.mk sec frac) ts now_ms pkts octets now_ms
          (Z.lor (u32 (Z.shiftl (Z.land sec 0xffff) 16)) (Z.land frac 0xffff0000))
          (expect_recv_ k) (last_recv_ k) (total_lost_ k) (frac_lost_ k) (recv_statics_ k) (timer_running_ k),
       Ok 0)
  | Throw m => (k, Throw m)
  | Undef u => (k, Undef u)
  end.

Definition UpdateSSRC (k : t) (new_ssrc : Z) : t :=
  let p := param_ k in
  let b := base k in
  with_base k (RtpSession.mk
    (RtpSessionParam.with_ssrc p new_ssrc)
    (RtpSession.first_pkt_ b) (RtpSession.max_packet_ts_ b) (RtpSession.max_packet_ms_ b)
    (RtpSession.last_pkt_ms_ b) (RtpSession.last_rtp_ts_ b) (RtpSession.jitter_q4_ b) (RtpSession.jitter_ b)
    (RtpSession.cycles_ b) (RtpSession.base_seq_ b) (RtpSession.max_seq_ b) (RtpSession.bad_seq_ b)
    (RtpSession.discard_count_ b)).

(** * Invariant *)

Record wf (k : t) : Prop := {
  wf_base : RtpSession.wf (base k);
  wf_param : RtpSessionParam.wf (param_ k);
  wf_rate : 0 < RtpSessionParam.clock_rate_ (param_ k);
  wf_nack : match nack_generator_ k with
            | Some n => RtpSessionParam.use_nack_ (param_ k) = true /\ Nack.wf n
            | None => RtpSessionParam.use_nack_ (param_ k) = false
            end
}.

Lemma recv_wf_new p : RtpSessionParam.wf p -> 0 < RtpSessionParam.clock_rate_ p -> wf (new_RtpRecvSession p).
Proof.
  intros Hp Hr. split; [split; cbn; [lia|split; [lia|done]]|done|done|]. cbn.
  destruct (RtpSessionParam.use_nack_ p) eqn:E; cbn; [|done]. split; [done|apply Nack.nack_wf_new].
Qed.

(** What the invariant is about. *)
Lemma recv_wf_same k k' : wf k -> base k' = base k -> nack_generator_ k' = nack_generator_ k -> wf k'.
Proof. intros [H1 H2 H3 H4] E1 E2. unfold param_ in *. by split; unfold param_; rewrite ?E1, ?E2. Qed.
Lemma HandleRtcpSrPacket_wf k p now : wf k -> wf (HandleRtcpSrPacket k p now).1.
Proof. intros Hwf. unfold HandleRtcpSrPacket. case_match; [|done..]. repeat case_match. by apply (recv_wf_same k). Qed.
Lemma GetLostStatics_wf k : wf k -> wf (GetLostStatics k).
Proof. intros Hwf. unfold GetLostStatics. repeat case_match; by apply (recv_wf_same k). Qed.
Lemma recv_OnTimer_wf k now uninit : wf k -> wf (OnTimer k now uninit).1.
Proof.
  intros Hwf. unfold OnTimer. destruct (_ <? 0); [by apply (recv_wf_same k)|]. destruct (_ <? now - _); [|done].
  unfold SendRtcpRR. set (r := rbind _ _). cbv beta zeta.
  assert (Hw : wf (GetLostStatics (with_last_rr k now))) by (apply GetLostStatics_wf; by apply (recv_wf_same k)).
  by destruct r.
Qed.
Lemma nack_tick_wf k n now :
  wf k -> nack_generator_ k = Some n -> wf (with_nack k (Some (Nack.OnTimer n now).1.1)).
Proof.
  intros [H1 H2 H3 H4] Hn. rewrite Hn in H4. destruct H4 as [Hu Hw]. split; try done. cbn [with_nack nack_generator_].
  split; [done|]. pose proof (Nack.OnTimer_ok n now Hw) as Hk. destruct (Nack.OnTimer n now) as [[n' c] r]. apply Hk.
Qed.

(** ** Jitter *)

(** The largest estimate: five seconds of 90 kHz in sixteenths. *)
Definition JITTER_Q4_MAX : Z := 450000 * 16.

Definition deviation (b : RtpSession.t) (ts ms : Z) : Z :=
  Z.abs (u32 (Z.quot ((ms - RtpSession.last_pkt_ms_ b) * RtpSessionParam.clock_rate_ (RtpSession.param_ b)) 1000)
         - (ts - RtpSession.last_rtp_ts_ b)).

Lemma q4_step q d :
  0 <= q <= JITTER_Q4_MAX -> 0 <= d < 450000 ->
  let q' := u32 (q + Z.shiftr (i32 (u32 (i32 (Z.shiftl d 4) - q)) + 8) 4) in
  q' = q + (16 * d - q + 8) / 16 /\ 0 <= q' <= JITTER_Q4_MAX /\ Z.abs (16 * q' - (15 * q + 16 * d)) <= 8.
Proof.
  intros Hq Hd. unfold JITTER_Q4_MAX in *. rewrite Z.shiftl_mul_pow2, Z.shiftr_div_pow2 by lia.
  change (2 ^ 4) with 16.
  assert (Ei : i32 (u32 (i32 (d * 16) - q)) = 16 * d - q) by zlia.
  rewrite Ei. assert (0 <= q + (16 * d - q + 8) / 16 <= 7200000) by zlia.
  cbv zeta. rewrite u32_small by lia. split_and!; [done|lia|lia|zlia].
Qed.

(** ** One received packet *)

Lemma GenerateJitter_ok b ts ms :
  0 < RtpSessionParam.clock_rate_ (RtpSession.param_ b) ->
  exists q j, GenerateJitter b ts ms = Ok (RtpSession.with_jitter b q j).
Proof.
  intros Hr. unfold GenerateJitter. rewrite (proj2 (Z.leb_gt _ _)) by done.
  destruct (_ || _); [exists (RtpSession.jitter_q4_ b), (RtpSession.jitter_ b); by destruct b|].
  destruct (_ <? 450000); [by eexists _, _|].
  exists (RtpSession.jitter_q4_ b), (RtpSession.jitter_ b). by destruct b.
Qed.

Lemma ReceiveRtpPacket_ok k pkt :
  wf k -> RtpPacket.has_header pkt ->
  exists k' ok, ReceiveRtpPacket k pkt = (k', Ok ok) /\ wf k'.
Proof.
  intros [[Hm Hc] Hp Hr Hn] Hpkt. unfold ReceiveRtpPacket.
  rewrite RtpPacket.GetSeq_hdr, RtpPacket.GetTimestamp_hdr by done. cbn [sbind].
  pose proof (RtpPacket.seq_of_hdr pkt Hpkt).
  destruct (RtpSession.first_pkt_ (base k)).
  - eexists _, true. split; [reflexivity|]. split; done || by split.
  - destruct (RtpSession.UpdateSeq_ok (base k) pkt ltac:(by split) Hpkt) as (b & ok & -> & Hb & Heq).
    cbn [sbind]. assert (Hpar : RtpSession.param_ b = param_ k) by (rewrite Heq; done).
    destruct ok; cbn [negb].
    + cbn [with_base base].
      destruct (GenerateJitter_ok b (RtpPacket.ts_of pkt) (RtpPacket.local_ms pkt)) as (q & j & ->);
        [by rewrite Hpar|]. cbn [sbind].
      change (param_ (with_statics _ _)) with (RtpSession.param_ b). rewrite Hpar.
      cbn [nack_generator_ with_statics with_base].
      destruct (nack_generator_ k) as [n|] eqn:En.
      * destruct Hn as [Hu Hnwf]. rewrite Hu.
        destruct (Nack.UpdateNackList_ok n pkt Hnwf Hpkt) as (n' & -> & Hn' & _). cbn [sbind].
        eexists _, true. split; [reflexivity|]. destruct Hb.
        split; [by split|..]; unfold param_; cbn; rewrite ?Hpar; done.
      * rewrite Hn. eexists _, true. split; [reflexivity|]. destruct Hb.
        split; [by split|..]; unfold param_; cbn; rewrite ?En, ?Hpar; done.
    + eexists _, false. split; [reflexivity|].
      split; [done|..]; unfold param_; cbn; rewrite ?Hpar; done.
Qed.

(** ** Reports *)

(** [round_div] is within half of the quotient. *)
Lemma round_div_nearest n d :
  0 <= n -> 0 < d -> 0 <= round_div n d /\ Z.abs (round_div n d * d - n) * 2 <= d.
Proof.
  intros Hn Hd. unfold round_div. rewrite (proj2 (Z.leb_le _ _)) by done.
  split; [apply Z.div_pos; lia|].
  pose proof (Z.div_mod (2 * n + d) (2 * d) ltac:(lia)) as H.
  pose proof (Z.mod_pos_bound (2 * n + d) (2 * d) ltac:(lia)).
  set (q := (2 * n + d) / (2 * d)) in *. replace (2 * d * q) with (2 * (q * d)) in H by lia. lia.
Qed.

(** The four header bytes, and then whatever follows. *)
Lemma rr_header {A} (K : buf -> res A) :
  (let! h := RtcpCommonHeader.set_version (replicate 4 0) 0 2 in
   let! h := RtcpCommonHeader.set_padding h 0 0 in
   let! h := RtcpCommonHeader.set_count h 0 1 in
   let! h := RtcpCommonHeader.set_packet_type h 0 (RTCP_TYPE_val RTCP_RR) in
   let! h := RtcpCommonHeader.set_length h 0 (htons (u16 ((4 + 4 + 24) / 4 - 1))) in K h) = K [129; 201; 0; 7].
Proof. reflexivity. Qed.

(** The block is written whole, whatever was in its memory, and then what follows. *)
Lemma block_then {A} d r (K : buf -> res A) :
  length d = 24%nat ->
  (let! d := RtcpRrBlockInfo.SetReporteeSsrc d 0 (RtcpRrBlockInfo.rp_ssrc r) in
   let! d := RtcpRrBlockInfo.SetCumulativeLost d 0 (RtcpRrBlockInfo.rp_lost r) in
   let! d := RtcpRrBlockInfo.SetFracLost d 0 (RtcpRrBlockInfo.rp_frac r) in
   let! d := RtcpRrBlockInfo.SetHighestSeq d 0 (RtcpRrBlockInfo.rp_highest r) in
   let! d := RtcpRrBlockInfo.SetJitter d 0 (RtcpRrBlockInfo.rp_jitter r) in
   let! d := RtcpRrBlockInfo.SetLsr d 0 (RtcpRrBlockInfo.rp_lsr r) in
   let! d := RtcpRrBlockInfo.SetDlsr d 0 (RtcpRrBlockInfo.rp_dlsr r) in K d) = K (RtcpRrBlockInfo.wire r).
Proof.
  intros Hl. transitivity (rbind (RtcpRrBlockInfo.fill d 0 r) K).
  - unfold RtcpRrBlockInfo.fill. rewrite rbind_assoc. apply rbind_ext. intros d1 Hd1.
    assert (Hl1 : length d1 = 24%nat).
    { unfold RtcpRrBlockInfo.SetReporteeSsrc in Hd1. rewrite put32_eq in Hd1. by rewrite (length_wr_bytes _ _ _ _ Hd1). }
    unfold RtcpRrBlockInfo.SetCumulativeLost, RtcpRrBlockInfo.SetFracLost.
    rewrite Write3Bytes_be, wr_bytes_ok by buf_len. cbn [rbind Nat.add].
    rewrite wr8_ok by buf_simp_side. cbn [rbind].
    rewrite wr8_ok by lia. cbn [rbind]. rewrite Write3Bytes_be, wr_bytes_ok by buf_simp_side. cbn [rbind].
    rewrite !wr8_splice by buf_simp_side. rewrite splice_comm by buf_len.
    do 3 (rewrite rbind_assoc; apply rbind_ext; intros ? _). done.
  - rewrite RtcpRrBlockInfo.fill_eq by lia. cbn [rbind]. f_equal. unfold splice. cbn [take app].
    rewrite RtcpRrBlockInfo.block_length_wire, drop_ge by lia. apply app_nil_r.
Qed.

(** The delay field of a report, in units of 1/65536 s. *)
Lemma dlsr_eq ms :
  0 <= ms -> Z.lor (Z.shiftl (Z.quot ms 1000) 16) (Z.quot (Z.rem ms 1000 * 65536) 1000) = ms * 65536 / 1000.
Proof.
  intros H. rewrite Z.rem_mod_nonneg, !Z.quot_div_nonneg by (try lia; zlia).
  rewrite lor_shiftl_small by (change (2 ^ 16) with 65536; zlia). change (2 ^ 16) with 65536. zlia.
Qed.

(** ** The last sender report's time *)

(** RFC 3550: the middle 32 bits of the NTP timestamp. *)
Definition middle (sec frac : Z) : Z := sec mod 65536 * 65536 + frac / 65536.
Definition stored_lsr (sec frac : Z) : Z :=
  Z.lor (u32 (Z.shiftl (Z.land sec 0xffff) 16)) (Z.land frac 0xffff0000).

Lemma stored_lsr_mod sec frac : stored_lsr sec frac mod 65536 = 0.
Proof.
  unfold stored_lsr. change 65536 with (2 ^ 16) at 1. rewrite <- Z.land_ones by lia.
  rewrite Z.land_lor_distr_l, <- Z.land_assoc. change (Z.land 0xffff0000 (Z.ones 16)) with 0.
  rewrite Z.land_0_r, Z.lor_0_r, Z.land_ones, Z.shiftl_mul_pow2 by lia. unfold u32.
  change (2 ^ 16) with 65536. zlia.
Qed.

Lemma stored_lsr_small sec frac : 0 <= sec -> 0 <= frac < 65536 -> stored_lsr sec frac = middle sec frac.
Proof.
  intros Hs Hf. unfold stored_lsr, middle.
  rewrite <- (Z.mod_small frac 65536) at 1 by lia. change 65536 with (2 ^ 16) at 1.
  rewrite <- Z.land_ones, <- Z.land_assoc by lia. change (Z.land (Z.ones 16) 0xffff0000) with 0.
  rewrite Z.land_0_r, Z.lor_0_r, (Z.land_ones _ 16), Z.shiftl_mul_pow2 by lia.
  change (2 ^ 16) with 65536. rewrite (Z.div_small frac) by lia. rewrite u32_small; zlia.
Qed.

(** * Properties *)

(** a packet that arrives on the RTX stream.  An empty one is ignored and a payload too
    short for the original sequence number is refused, both without effect.  Otherwise
    the packet becomes the original (RFC 4588); if a NACK generator is in use and the
    original is not outstanding it is flagged as a repeat and nothing else happens, and
    if it is (or without a generator) the original is received like any packet: the call
    returns what receiving it returns and leaves the session that receiving it leaves.
    No exception leaves the call. *)
Theorem ReceiveRtxPacket_spec (k : t) (pkt : RtpPacket.t) (repeat : bool) :
  wf k -> RtpPacket.rtx_ok pkt ->
  let recovered := RtpPacket.unrtx_view (RtpPacket.view_of pkt)
                     (RtpSessionParam.ssrc_ (param_ k)) (RtpSessionParam.payload_type_ (param_ k)) in
  let outstanding := match nack_generator_ k with
                     | Some n => Nack.IsInNackList n (RtpPacket.v_seq recovered)
                     | None => true
                     end in
  (RtpPacket.payload_len pkt = 0%nat -> ReceiveRtxPacket k pkt repeat = (k, pkt, repeat, Ok true)) /\
  (RtpPacket.payload_len pkt = 1%nat -> ReceiveRtxPacket k pkt repeat = (k, pkt, false, Ok false)) /\
  ((2 <= RtpPacket.payload_len pkt)%nat ->
   exists pkt', RtpPacket.view_of pkt' = recovered /\ RtpPacket.rtx_ok pkt' /\
     (outstanding = false -> ReceiveRtxPacket k pkt repeat = (k, pkt', true, Ok true)) /\
     (outstanding = true ->
      exists k' ok, ReceiveRtpPacket k pkt' = (k', Ok ok) /\ wf k' /\
        ReceiveRtxPacket k pkt repeat = (k', pkt', false, Ok ok))).
Proof.
  intros Hwf Hok recovered outstanding. pose proof (wf_param k Hwf) as [Hs Hp _ _ _].
  unfold ReceiveRtxPacket. split_and!.
  - intros E. by rewrite E.
  - intros E. rewrite E. cbn [Nat.eqb]. unfold RtpPacket.RtxDemux. rewrite E. done.
  - intros Hl. rewrite (proj2 (Nat.eqb_neq _ _)) by lia.
    destruct (RtpPacket.RtxDemux_ok pkt (RtpSessionParam.ssrc_ (param_ k)) (RtpSessionParam.payload_type_ (param_ k)))
      as (pkt' & -> & Hok' & _ & _ & Hv); [done|done|done|done|].
    exists pkt'. split; [done|]. split; [done|]. pose proof (RtpPacket.rtx_header pkt' Hok') as Hh.
    rewrite RtpPacket.GetSeq_hdr by done.
    assert (Hseq : RtpPacket.seq_of pkt' = RtpPacket.v_seq recovered) by apply (f_equal RtpPacket.v_seq Hv).
    rewrite Hseq. fold outstanding.
    destruct (ReceiveRtpPacket_ok k pkt' Hwf Hh) as (k' & ok & Hr & Hwf').
    split; intros ->; cbn [negb]; [done|]. exists k', ok. rewrite Hr. by destruct ok.
Qed.

(** the interarrival jitter is RFC 3550's, in sixteenths: for a transit time that
    differs by [d] timestamp units from the one before, the estimate moves from [q] to
    [q + round ((16 d - q) / 16)], so sixteen times it is [15 q + 16 d] up to half a
    unit, and it stays below five seconds of 90 kHz.  Larger differences, and packets
    without a predecessor, leave it alone; a zero clock rate throws. *)
Theorem GenerateJitter_spec (b : RtpSession.t) (ts ms : Z) :
  let rate := RtpSessionParam.clock_rate_ (RtpSession.param_ b) in
  let d := deviation b ts ms in
  let q := RtpSession.jitter_q4_ b in
  0 <= rate -> 0 <= q <= JITTER_Q4_MAX ->
  (rate = 0 -> GenerateJitter b ts ms = Throw "clock rate is invalid") /\
  (0 < rate -> RtpSession.last_pkt_ms_ b = 0 \/ RtpSession.last_rtp_ts_ b = 0 \/ 450000 <= d ->
     GenerateJitter b ts ms = Ok b) /\
  (0 < rate -> RtpSession.last_pkt_ms_ b <> 0 -> RtpSession.last_rtp_ts_ b <> 0 -> d < 450000 ->
     exists q', GenerateJitter b ts ms = Ok (RtpSession.with_jitter b q' (q' / 16)) /\
       0 <= q' <= JITTER_Q4_MAX /\ q' = q + (16 * d - q + 8) / 16 /\
       Z.abs (16 * q' - (15 * q + 16 * d)) <= 8).
Proof.
  intros rate d q Hr Hq. unfold GenerateJitter. cbv zeta. fold (deviation b ts ms). fold rate d q. split_and!.
  - intros ->. done.
  - intros Hpos Hor. rewrite (proj2 (Z.leb_gt _ _)) by done.
    destruct (Z.eqb_spec (RtpSession.last_pkt_ms_ b) 0); [done|].
    destruct (Z.eqb_spec (RtpSession.last_rtp_ts_ b) 0); [done|]. cbn [orb].
    by rewrite (proj2 (Z.ltb_ge _ _)) by lia.
  - intros Hpos Hm Ht Hd. rewrite (proj2 (Z.leb_gt _ _)) by done.
    rewrite (proj2 (Z.eqb_neq _ _) Hm), (proj2 (Z.eqb_neq _ _) Ht). cbn [orb].
    rewrite (proj2 (Z.ltb_lt _ _)) by done.
    destruct (q4_step q d Hq) as (Hq1 & Hq2 & Hq3); [split; [apply Z.abs_nonneg|done]|].
    set (q' := u32 _) in *. exists q'. split; [|done].
    by rewrite (Z.shiftr_div_pow2 q' 4) by lia.
Qed.

(** the receiver report sent is RFC 3550's with one block for the stream: the
    extended highest sequence number, the jitter, the last sender report's time as
    stored, the delay since it in units of 1/65536 s, and the losses.  When packets
    were expected and received since the last report, the cumulative loss grows by the
    packets expected but not received, and the fraction is theirs of 256, rounded. *)
Theorem SendRtcpRR_spec (k : t) (now : Z) (uninit : buf) :
  length uninit = 24%nat -> last_sr_ms_ k <= now ->
  let k' := GetLostStatics k in
  let expected := RtpSession.GetExpectedPackets (base k) - expect_recv_ k in
  let received := StreamStatics.count_ (recv_statics_ k) - last_recv_ k in
  SendRtcpRR k now uninit =
    (k', Ok (Some (RtcpRrPacket.wire [1; 0; 0; 0]
       [RtcpRrBlockInfo.wire (RtcpRrBlockInfo.mkreport (RtpSessionParam.ssrc_ (param_ k)) (u8 (frac_lost_ k'))
          (u32 (total_lost_ k')) (RtpSession.highest (base k)) (RtpSession.jitter_ (base k)) (lsr_ k)
          (u32 ((now - last_sr_ms_ k) * 65536 / 1000)))]))) /\
  expect_recv_ k' = RtpSession.GetExpectedPackets (base k) /\
  last_recv_ k' = StreamStatics.count_ (recv_statics_ k) /\
  (0 < last_recv_ k -> 0 < expected -> 0 < received ->
     total_lost_ k' = total_lost_ k + (expected - received) /\
     (received <= expected ->
        0 <= frac_lost_ k' /\ Z.abs (frac_lost_ k' * expected - (expected - received) * 256) * 2 <= expected)).
Proof.
  intros Hl Hnow k' expected received. split_and!.
  - unfold SendRtcpRR. fold k'. f_equal.
    set (h := [129; 201; 0; 7]).
    rewrite dlsr_eq by (unfold k', GetLostStatics; repeat case_match; cbn; lia).
    assert (Hbase : base k' = base k /\ param_ k' = param_ k /\ lsr_ k' = lsr_ k /\ last_sr_ms_ k' = last_sr_ms_ k)
      by (unfold k', GetLostStatics; repeat case_match; done).
    destruct Hbase as (-> & -> & -> & ->).
    set (r := RtcpRrBlockInfo.mkreport _ _ _ _ _ _ _).
    destruct (RtcpRrPacket.single_block h (RtcpRrBlockInfo.wire r)) as (p0 & p1 & p2 & H0 & H1 & H2 & H3);
      [done|bytes_done|apply RtcpRrBlockInfo.block_length_wire|apply RtcpRrBlockInfo.block_bytes_wire|].
    etransitivity; [exact (rr_header _)|]. cbv beta. fold h. rewrite H0. cbn [rbind].
    replace (u32 (RtpSession.max_seq_ (base k) + RtpSession.cycles_ (base k))) with (RtpSession.highest (base k))
      by (unfold RtpSession.highest; f_equal; lia).
    etransitivity; [exact (block_then uninit r _ Hl)|]. cbv beta.
    rewrite H1. cbn [rbind]. rewrite H2. cbn [rbind]. rewrite H3. done.
  - unfold k', GetLostStatics. repeat case_match; done.
  - unfold k', GetLostStatics. repeat case_match; done.
  - intros Hlast He Hr. unfold k', GetLostStatics, StreamStatics.GetCount. fold expected received.
    rewrite (proj2 (Z.leb_gt _ _)), (proj2 (Z.leb_gt _ _)), (proj2 (Z.leb_gt _ _)) by lia. cbn [orb].
    split; [done|]. intros Hle. cbn [with_losses frac_lost_]. apply round_div_nearest; lia.
Qed.

(** a sender report is taken over field by field, with its arrival time; but the time
    stored to be echoed as LSR is RFC 3550's middle 32 bits of its NTP time only when the
    fraction is below 1/65536 of a second: its low half is always zero, and the high
    half of the fraction is mixed into the seconds. *)
Theorem HandleRtcpSrPacket_spec (k : t) (sr : RtcpSrPacket.t) (now sec frac ts pkts octets : Z) :
  RtcpSrPacket.GetNtpSec sr = Ok sec -> RtcpSrPacket.GetNtpFrac sr = Ok frac ->
  RtcpSrPacket.GetRtpTimestamp sr = Ok ts -> RtcpSrPacket.GetPktCount sr = Ok pkts ->
  RtcpSrPacket.GetBytesCount sr = Ok octets -> 0 <= sec -> 0 <= frac < 4294967296 ->
  exists k', HandleRtcpSrPacket k sr now = (k', Ok 0) /\
    (sr_ssrc_ k', ntp_ k', rtp_timestamp_ k', pkt_count_ k', bytes_count_ k') =
      (RtcpSrPacket.GetSsrc sr, TimeEx.mk sec frac, ts, pkts, octets) /\
    sr_local_ms_ k' = now /\ last_sr_ms_ k' = now /\ base k' = base k /\
    lsr_ k' mod 65536 = 0 /\ (lsr_ k' = middle sec frac <-> frac < 65536).
Proof.
  intros H1 H2 H3 H4 H5 Hs Hf. unfold HandleRtcpSrPacket. rewrite H1, H2, H3, H4, H5. cbn [rbind].
  eexists. split; [reflexivity|]. cbn [lsr_ sr_ssrc_ ntp_ rtp_timestamp_ pkt_count_ bytes_count_ sr_local_ms_ last_sr_ms_ base].
  fold (stored_lsr sec frac). pose proof (stored_lsr_mod sec frac) as Hm.
  split; [done|]. do 4 (split; [done|]). split; [|intros ?; apply stored_lsr_small; lia].
  intros E. rewrite E in Hm. unfold middle in Hm. zlia.
Qed.

(** * Concrete sessions *)

(** 258 is outstanding. *)
Definition sample : t :=
  with_nack (with_base (new_RtpRecvSession RtpSession.sample_param) RtpSession.sample)
    (Some (Nack.mk true 300 [(258, Nack.mkinfo 258 0 0)] 15 true)).
Lemma recv_sample_wf : wf sample.
Proof.
  split; [exact RtpSession.session_sample_wf|split; cbn; lia|cbn; lia|]. cbn. split; [done|].
  split; cbn; [lia|by repeat constructor|]. constructor; [|constructor].
  unfold Nack.entry_ok, Nack.NACK_RETRY_MAX. cbn. lia.
Qed.

(** The payload of the sample packet starts with 1, 2: the number 258. *)
Lemma ReceiveRtxPacket_spec_witness :
  exists k' pkt' ok, ReceiveRtxPacket sample RtpPacket.sample true = (k', pkt', false, Ok ok) /\
    RtpPacket.v_seq (RtpPacket.view_of pkt') = 258 /\ wf k'.
Proof.
  destruct (ReceiveRtxPacket_spec sample RtpPacket.sample true recv_sample_wf) as (_ & _ & H).
  - pose proof RtpPacket.sample_wf as Hw. split; [apply Hw|vm_compute; lia|vm_compute; lia].
  - destruct H as (pkt' & Hv & _ & _ & H); [vm_compute; lia|].
    destruct H as (k' & ok & _ & Hwf & H); [vm_compute; reflexivity|].
    exists k', pkt', ok. split; [exact H|]. split; [|exact Hwf]. rewrite Hv. vm_compute. reflexivity.
Defined.

(** 20 ms and 1620 units at 90 kHz after a packet: 180 units early. *)
Definition sample_jitter : RtpSession.t := RtpSession.with_last RtpSession.sample 1000 5000.
Lemma GenerateJitter_spec_witness :
  exists q', GenerateJitter sample_jitter 6620 1020 = Ok (RtpSession.with_jitter sample_jitter q' (q' / 16)) /\
    q' = 180.
Proof.
  destruct (GenerateJitter_spec sample_jitter 6620 1020) as (_ & _ & H);
    [vm_compute; discriminate|vm_compute; split; discriminate|].
  destruct H as (q' & H & _ & Hq & _); try (vm_compute; (reflexivity || discriminate)).
  exists q'. split; [exact H|]. rewrite Hq. vm_compute. reflexivity.
Defined.

Lemma SendRtcpRR_spec_witness :
  exists l, snd (SendRtcpRR sample 1500 (replicate 24 77)) = Ok (Some l) /\ length l = 32%nat.
Proof.
  destruct (SendRtcpRR_spec sample 1500 (replicate 24 77)) as (H & _); [reflexivity|vm_compute; discriminate|].
  eexists. split; [rewrite H; reflexivity|reflexivity].
Defined.

Definition sample_sr : RtcpSrPacket.t := RtcpSrPacket.mk (RtcpSrPacket.wire 1 2 65536 4 5 6 ++ replicate 1472 0) 1.
Lemma HandleRtcpSrPacket_spec_witness :
  exists k', HandleRtcpSrPacket sample sample_sr 1000 = (k', Ok 0) /\ lsr_ k' <> middle 2 65536.
Proof.
  destruct (HandleRtcpSrPacket_spec sample sample_sr 1000 2 65536 4 5 6) as (k' & H & _ & _ & _ & _ & _ & Hl);
    [vm_compute; reflexivity|vm_compute; reflexivity|vm_compute; reflexivity|vm_compute; reflexivity
    |vm_compute; reflexivity|lia|lia|].
  exists k'. split; [exact H|]. intros Hm. apply Hl in Hm. lia.
Defined.

End RtpRecvSession.
