(* ===== verification/TccServer.v ===== *)
(** [webrtc_room/tcc_server.cpp] and [.hpp]: the server side of transport-wide congestion
    control.  Arriving packets are collected in a feedback packet, which is sent when it
    is full, when a packet does not fit the batch, or on a timeout. *)
From S2P Require Import Prelude ByteStream RtpPub StdMap RtpPacket RtcpTcc.

Module TccServer.

Definition kFeedbackTimeoutMs : Z := 2000.

(** [tcc_fb_packet_] is allocated by the constructor and never released. *)
Record t := mk {
  cb_ : bool;
  tcc_fb_packet_ : RtcpTccFb.t;
  fb_pkt_count_ : Z; sender_ssrc_ : Z; media_ssrc_ : Z; tcc_extension_id_ : Z
}.

Definition with_fb (k : t) (f : RtcpTccFb.t) : t :=
  mk (cb_ k) f (fb_pkt_count_ k) (sender_ssrc_ k) (media_ssrc_ k) (tcc_extension_id_ k).

Definition ResetFeedbackPacket (k : t) : t :=
  let f := RtcpTccFb.Reset (tcc_fb_packet_ k) in
  let f := RtcpTccFb.SetSsrc f (sender_ssrc_ k) (media_ssrc_ k) in
  with_fb k (RtcpTccFb.SetFbPktCount f (fb_pkt_count_ k)).

Definition new_TccServer (cb : bool) : t :=
  ResetFeedbackPacket (mk cb RtcpTccFb.new_RtcpTccFbPacket 0 0 0 0).

Definition SetSenderSsrc (k : t) (ssrc : Z) : t :=
  mk (cb_ k) (RtcpTccFb.SetSsrc (tcc_fb_packet_ k) ssrc (media_ssrc_ k)) (fb_pkt_count_ k) ssrc
     (media_ssrc_ k) (tcc_extension_id_ k).
Definition SetTccExtensionId (k : t) (id : Z) : t :=
  mk (cb_ k) (tcc_fb_packet_ k) (fb_pkt_count_ k) (sender_ssrc_ k) (media_ssrc_ k) id.
Definition GetTccExtensionId (k : t) : Z := tcc_extension_id_ k.

(** [FlushFeedback]: the state, the datagrams given to [OnTransportSendRtcp], the result. *)
Definition FlushFeedback (k : t) : t * list (list Z) * res bool :=
  if (RtcpTccFb.PacketCount (tcc_fb_packet_ k) =? 0)%nat then (ResetFeedbackPacket k, [], Ok false) else
  if negb (cb_ k) then (ResetFeedbackPacket k, [], Ok false) else
  let f := RtcpTccFb.SetSsrc (tcc_fb_packet_ k) (sender_ssrc_ k) (media_ssrc_ k) in
  let f := RtcpTccFb.SetFbPktCount f (fb_pkt_count_ k) in
  let k := mk (cb_ k) f (u8 (fb_pkt_count_ k + 1)) (sender_ssrc_ k) (media_ssrc_ k) (tcc_extension_id_ k) in
  match RtcpTccFb.Serial f (replicate 1500 0) with
  | Ok (Some (buffer, len)) => (ResetFeedbackPacket k, [take len buffer], Ok true)
  | Ok None => (ResetFeedbackPacket k, [], Ok false)
  | Throw m => (k, [], Throw m)
  | Undef u => (k, [], Undef u)
  end.

Definition ResolvePacketTimeMs (rtp_packet : RtpPacket.t) (now_ms : Z) : Z :=
  if RtpPacket.local_ms rtp_packet <=? 0 then now_ms else RtpPacket.local_ms rtp_packet.

(** [InsertRtpPacket] behind the reading of the packet: one wide sequence number. *)
Definition insert_wide_seq (k : t) (wide_seq now_ms : Z) : t * list (list Z) * res Z :=
  let '(f, r) := RtcpTccFb.InsertPacket (tcc_fb_packet_ k) wide_seq now_ms in
  let k := with_fb k f in
  if negb (r =? 0) then
    match FlushFeedback k with
    | (k, sent, Ok _) =>
        let k := ResetFeedbackPacket k in
        let '(f, _) := RtcpTccFb.InsertPacket (tcc_fb_packet_ k) wide_seq now_ms in
        (with_fb k f, sent, Ok 0)
    | (k, sent, Throw m) => (k, sent, Throw m)
    | (k, sent, Undef u) => (k, sent, Undef u)
    end
  else if RtcpTccFb.IsFullRtcp (tcc_fb_packet_ k) then
    match FlushFeedback k with
    | (k, sent, Ok _) => (k, sent, Ok 0)
    | (k, sent, Throw m) => (k, sent, Throw m)
    | (k, sent, Undef u) => (k, sent, Undef u)
    end
  else (k, [], Ok 0).

Definition InsertRtpPacket (k : t) (rtp_packet : option RtpPacket.t) (now_ms : Z) : t * list (list Z) * res Z :=
  match rtp_packet with
  | None => (k, [], Ok (-1))
  | Some pkt =>
      if tcc_extension_id_ k =? 0 then (k, [], Ok (-1)) else
      match RtpPacket.GetSsrc pkt with
      | Throw m => (k, [], Throw m)
      | Undef u => (k, [], Undef u)
      | Ok pkt_ssrc =>
          let k := mk (cb_ k) (RtcpTccFb.SetSsrc (tcc_fb_packet_ k) 0 pkt_ssrc) (fb_pkt_count_ k) 0 pkt_ssrc
                      (tcc_extension_id_ k) in
          match RtpPacket.ReadWideSeq pkt with
          | Throw m => (k, [], Throw m)
          | Undef u => (k, [], Undef u)
          | Ok None => (k, [], Ok (-1))
          | Ok (Some wide_seq) => insert_wide_seq k wide_seq (ResolvePacketTimeMs pkt now_ms)
          end
      end
  end.

Definition OnTimer (k : t) (now_ms : Z) : t * list (list Z) * res unit :=
  if (RtcpTccFb.PacketCount (tcc_fb_packet_ k) =? 0)%nat then (k, [], Ok tt) else
  let oldest_ms := RtcpTccFb.OldestPacketTimeMs (tcc_fb_packet_ k) in
  if oldest_ms <=? 0 then (k, [], Ok tt) else
  if kFeedbackTimeoutMs <=? now_ms - oldest_ms then
    match FlushFeedback k with
    | (k, sent, Ok _) => (k, sent, Ok tt)
    | (k, sent, Throw m) => (k, sent, Throw m)
    | (k, sent, Undef u) => (k, sent, Undef u)
    end
  else (k, [], Ok tt).

(** A run of packets: the final state and everything sent. *)
Fixpoint run (k : t) (pkts : list RtpPacket.t) (now_ms : Z) : t * list (list Z) * res unit :=
  match pkts with
  | [] => (k, [], Ok tt)
  | p :: pkts' =>
      match InsertRtpPacket k (Some p) now_ms with
      | (k, sent, Ok _) => let '(k, more, r) := run k pkts' now_ms in (k, sent ++ more, r)
      | (k, sent, Throw m) => (k, sent, Throw m)
      | (k, sent, Undef u) => (k, sent, Undef u)
      end
  end.

(** * Consecutive packets *)

(** Nothing collected since the last feedback. *)
Record idle (k : t) : Prop := {
  id_cb : cb_ k = true;
  id_ext : tcc_extension_id_ k <> 0;
  id_count : 0 <= fb_pkt_count_ k < 256;
  id_first : RtcpTccFb.has_first_packet_ (tcc_fb_packet_ k) = false;
  id_empty : RtcpTccFb.recv_deltas_ (tcc_fb_packet_ k) = []
}.

(** Packets [s], [s + 1], ... have arrived since, the last at [time]; the first at
    [t0], the others after the intervals [ds]. *)
Record collecting (k : t) (ssrc s t0 time : Z) (ds : list Z) : Prop := {
  co_cb : cb_ k = true;
  co_ext : tcc_extension_id_ k <> 0;
  co_count : 0 <= fb_pkt_count_ k < 256;
  co_ssrc : media_ssrc_ k = ssrc;
  co_sender : sender_ssrc_ k = 0;
  co_first : RtcpTccFb.has_first_packet_ (tcc_fb_packet_ k) = true;
  co_base : RtcpTccFb.base_seq_ (tcc_fb_packet_ k) = s;
  co_ref : RtcpTccFb.reference_time_ (tcc_fb_packet_ k) = Z.land (Z.quot t0 16) 0xFFFFFF;
  co_deltas : RtcpTccFb.recv_deltas_ (tcc_fb_packet_ k) = RtcpTccFb.contig (u16 (s + 1)) ds;
  co_last : RtcpTccFb.last_wide_seq_ (tcc_fb_packet_ k) = u16 (s + Z.of_nat (length ds));
  co_time : RtcpTccFb.base_time_ms_ (tcc_fb_packet_ k) = time
}.

(** [pkts] carry one SSRC and the wide sequence numbers from [w] on, and arrive at
    [times]. *)
Fixpoint arriving (ssrc w : Z) (pkts : list RtpPacket.t) (times : list Z) : Prop :=
  match pkts, times with
  | [], [] => True
  | p :: pkts', time :: times' =>
      RtpPacket.GetSsrc p = Ok ssrc /\ RtpPacket.ReadWideSeq p = Ok (Some (u16 w)) /\
      RtpPacket.local_ms p = time /\ 0 < time /\ arriving ssrc (w + 1) pkts' times'
  | _, _ => False
  end.

(** At most five seconds pass between two arrivals. *)
Fixpoint paced (time : Z) (times : list Z) : Prop :=
  match times with
  | [] => True
  | time' :: times' => Z.abs (time' - time) <= RtcpTccFb.max_delta /\ paced time' times'
  end.
Fixpoint intervals (time : Z) (times : list Z) : list Z :=
  match times with
  | [] => []
  | time' :: times' => u16 (i16 (time' - time)) :: intervals time' times'
  end.

Lemma length_intervals times : forall time, length (intervals time times) = length times.
Proof. induction times as [|x l IH]; intros time; cbn; [done|]. by rewrite IH. Qed.

Lemma contig_snoc ds d : forall s,
  RtcpTccFb.contig (u16 s) (ds ++ [d]) =
  RtcpTccFb.contig (u16 s) ds ++ [RtcpTccFb.mkdelta d (u16 (s + Z.of_nat (length ds)))].
Proof.
  induction ds as [|x ds IH]; intros s; cbn [RtcpTccFb.contig app length].
  - by rewrite Z.add_0_r.
  - replace (u16 (u16 s + 1)) with (u16 (s + 1)) by zlia.
    rewrite IH. do 3 f_equal. f_equal. f_equal. lia.
Qed.

Lemma next_not_lower x : RtpPub.SeqLowerThan (u16 (x + 1)) (u16 x) = false.
Proof.
  unfold RtpPub.SeqLowerThan, RtpPub.SEQUENCE_MAX. change (65535 / 2) with 32767.
  assert (u16 (x + 1) = u16 x + 1 \/ (u16 (x + 1) = 0 /\ u16 x = 65535)) as [->|[-> ->]] by zlia; btests; try done; lia.
Qed.

(** ** One arrival *)

Definition reads (p : RtpPacket.t) (ssrc w time : Z) : Prop :=
  RtpPacket.GetSsrc p = Ok ssrc /\ RtpPacket.ReadWideSeq p = Ok (Some w) /\ RtpPacket.local_ms p = time /\ 0 < time.

Lemma InsertRtpPacket_reads k p ssrc w time now :
  tcc_extension_id_ k <> 0 -> reads p ssrc w time ->
  InsertRtpPacket k (Some p) now =
  insert_wide_seq (mk (cb_ k) (RtcpTccFb.SetSsrc (tcc_fb_packet_ k) 0 ssrc) (fb_pkt_count_ k) 0 ssrc
                      (tcc_extension_id_ k)) w time.
Proof.
  intros He (Hs & Hw & Ht & Hpos). unfold InsertRtpPacket.
  rewrite (proj2 (Z.eqb_neq _ _) He), Hs, Hw. unfold ResolvePacketTimeMs. rewrite Ht.
  by rewrite (proj2 (Z.leb_gt _ _)) by done.
Qed.

Lemma step_open k p ssrc w time now :
  idle k -> 0 <= w < 65536 -> reads p ssrc w time ->
  exists k', InsertRtpPacket k (Some p) now = (k', [], Ok 0) /\ collecting k' ssrc w time time [] /\
    fb_pkt_count_ k' = fb_pkt_count_ k.
Proof.
  intros [Hcb Hext Hc Hf He] Hw Hr. rewrite (InsertRtpPacket_reads _ _ _ _ _ _ Hext Hr).
  unfold insert_wide_seq. destruct k as [cb f cnt snd med ext], f.
  cbn [tcc_fb_packet_ RtcpTccFb.SetSsrc RtcpTccFb.has_first_packet_ RtcpTccFb.recv_deltas_ cb_ fb_pkt_count_ tcc_extension_id_] in *.
  subst. unfold RtcpTccFb.InsertPacket. cbn [RtcpTccFb.has_first_packet_].
  rewrite (proj2 (Z.ltb_ge w 0)), (proj2 (Z.ltb_ge 0xFFFF w)) by lia. cbn [orb negb Z.eqb].
  unfold RtcpTccFb.IsFullRtcp. cbn.
  eexists. split; [reflexivity|]. split; [|done]. split; try done. cbn. rewrite u16_small; lia.
Qed.

(** The insertion of the next packet of a batch. *)
Lemma insert_next k ssrc s t0 time ds time' :
  collecting k ssrc s t0 time ds -> Z.abs (time' - time) <= RtcpTccFb.max_delta ->
  let w := u16 (s + Z.of_nat (length ds) + 1) in
  exists f, RtcpTccFb.InsertPacket (RtcpTccFb.SetSsrc (tcc_fb_packet_ k) 0 ssrc) w time' = (f, 0) /\
    forall cnt, 0 <= cnt < 256 ->
      collecting (mk (cb_ k) f cnt 0 ssrc (tcc_extension_id_ k)) ssrc s t0 time'
        (ds ++ [u16 (i16 (time' - time))]).
Proof.
  intros [] Hp w. unfold RtcpTccFb.InsertPacket.
  pose proof (u16_range (s + Z.of_nat (length ds) + 1)) as Hw. fold w in Hw.
  rewrite (proj2 (Z.ltb_ge w 0)), (proj2 (Z.ltb_ge 0xFFFF w)) by lia. cbn [orb].
  destruct (tcc_fb_packet_ k). cbn [RtcpTccFb.SetSsrc RtcpTccFb.has_first_packet_ RtcpTccFb.base_seq_
    RtcpTccFb.reference_time_ RtcpTccFb.recv_deltas_ RtcpTccFb.last_wide_seq_ RtcpTccFb.base_time_ms_] in *. subst.
  cbn [negb]. rewrite (proj2 (Z.eqb_neq w _)) by (unfold w; zlia). unfold w at 1. rewrite next_not_lower, andb_false_r.
  rewrite (proj2 (Z.ltb_ge _ (- _))), (proj2 (Z.ltb_ge RtcpTccFb.max_delta _)) by lia. cbn [orb].
  eexists. split; [reflexivity|]. intros cnt Hcnt. split; cbn; try done.
  - rewrite contig_snoc. by replace (u16 (s + 1 + Z.of_nat (length ds))) with w by (unfold w; f_equal; lia).
  - rewrite length_app. cbn [length]. unfold w. f_equal. lia.
Qed.

Lemma step_more k p ssrc s t0 time ds time' now :
  collecting k ssrc s t0 time ds -> (length ds < 299)%nat -> Z.abs (time' - time) <= RtcpTccFb.max_delta ->
  reads p ssrc (u16 (s + Z.of_nat (length ds) + 1)) time' ->
  exists k', InsertRtpPacket k (Some p) now = (k', [], Ok 0) /\
    collecting k' ssrc s t0 time' (ds ++ [u16 (i16 (time' - time))]) /\ fb_pkt_count_ k' = fb_pkt_count_ k.
Proof.
  intros Hk Hl Hp Hr. rewrite (InsertRtpPacket_reads _ _ _ _ _ _ (co_ext _ _ _ _ _ _ Hk) Hr).
  unfold insert_wide_seq. cbn [tcc_fb_packet_].
  destruct (insert_next k ssrc s t0 time ds time' Hk Hp) as (f & -> & Hc).
  cbn [Z.eqb negb with_fb cb_ fb_pkt_count_ sender_ssrc_ media_ssrc_ tcc_extension_id_ tcc_fb_packet_].
  specialize (Hc (fb_pkt_count_ k) (co_count _ _ _ _ _ _ Hk)). pose proof (co_deltas _ _ _ _ _ _ Hc) as Hd.
  cbn [tcc_fb_packet_] in Hd. unfold RtcpTccFb.IsFullRtcp. rewrite Hd, RtcpTccFb.length_contig, length_app.
  cbn [length]. rewrite (proj2 (Nat.leb_gt _ _)) by lia. by eexists.
Qed.

Definition feedback (ssrc s t0 cnt : Z) (ds : list Z) : list Z :=
  RtcpTccFb.fb_wire 0 ssrc s 300 (Z.lor (u32 (Z.shiftl (Z.land (Z.quot t0 16) 0xFFFFFF) 8)) cnt) 21 6 ds.

Lemma step_full k p ssrc s t0 time ds time' now :
  collecting k ssrc s t0 time ds -> 0 <= s < 65536 -> Forall RtcpTccFb.word ds ->
  length ds = 299%nat -> Z.abs (time' - time) <= RtcpTccFb.max_delta ->
  reads p ssrc (u16 (s + Z.of_nat (length ds) + 1)) time' ->
  exists k', InsertRtpPacket k (Some p) now =
      (k', [feedback ssrc s t0 (fb_pkt_count_ k) (ds ++ [u16 (i16 (time' - time))])], Ok 0) /\
    idle k' /\ fb_pkt_count_ k' = u8 (fb_pkt_count_ k + 1).
Proof.
  intros Hk Hs Hds Hl Hp Hr. rewrite (InsertRtpPacket_reads _ _ _ _ _ _ (co_ext _ _ _ _ _ _ Hk) Hr).
  unfold insert_wide_seq. cbn [tcc_fb_packet_].
  destruct (insert_next k ssrc s t0 time ds time' Hk Hp) as (f & -> & Hc).
  cbn [Z.eqb negb with_fb cb_ fb_pkt_count_ sender_ssrc_ media_ssrc_ tcc_extension_id_ tcc_fb_packet_].
  specialize (Hc (fb_pkt_count_ k) (co_count _ _ _ _ _ _ Hk)).
  set (ds' := ds ++ [u16 (i16 (time' - time))]) in *.
  assert (Hl' : length ds' = 300%nat) by (unfold ds'; rewrite length_app; cbn [length]; lia).
  assert (Hds' : Forall RtcpTccFb.word ds') by (apply Forall_app; split; [done|constructor; [apply u16_range|done]]).
  destruct Hc as [Hcb Hext Hcnt _ _ Hf Hb Href Hd _ _].
  cbn [cb_ tcc_extension_id_ fb_pkt_count_ tcc_fb_packet_] in *.
  unfold RtcpTccFb.IsFullRtcp. rewrite Hd, RtcpTccFb.length_contig, Hl'. cbn [Nat.leb].
  unfold FlushFeedback, RtcpTccFb.PacketCount, with_fb.
  cbn [tcc_fb_packet_ cb_ fb_pkt_count_ sender_ssrc_ media_ssrc_ tcc_extension_id_].
  rewrite Hd, RtcpTccFb.length_contig, Hl', Hcb. cbn [Nat.eqb negb].
  assert (Hm : length (RtcpTccFb.chunks_of 21 6) = 22%nat) by reflexivity.
  assert (Hfl : (RtcpTccFb.fb_len 21 6 ds' <= 1500)%nat)
    by (unfold RtcpTccFb.fb_len; rewrite Hm, Hl'; by destruct (RtcpTccFb.fb_odd 21 6 ds'); lia).
  rewrite (RtcpTccFb.Serial_contig _ (u16 (s + 1)) ds' 21 6 (replicate 1500 0));
    [|done|done|apply u16_range|lia|lia|lia|lia|bytes_done|by rewrite length_replicate].
  eexists. split; [|split].
  - f_equal. f_equal. cbn [RtcpTccFb.SetSsrc RtcpTccFb.SetFbPktCount RtcpTccFb.sender_ssrc_ RtcpTccFb.media_ssrc_
      RtcpTccFb.base_seq_]. unfold feedback, RtcpTccFb.ref_and_cnt.
    cbn [RtcpTccFb.SetSsrc RtcpTccFb.SetFbPktCount RtcpTccFb.reference_time_ RtcpTccFb.fb_pkt_count_].
    rewrite Hb, Href, Hl'. f_equal. set (w := RtcpTccFb.fb_wire _ _ _ _ _ _ _ _).
    assert (Hw : length w = RtcpTccFb.fb_len 21 6 ds') by apply RtcpTccFb.length_fb_wire.
    change (take (RtcpTccFb.fb_len 21 6 ds') (w ++ drop (length w) (replicate 1500 0)) = w).
    rewrite <- Hw, take_app_le by lia. by apply take_ge.
  - unfold ResetFeedbackPacket. split; try done. cbn. apply u8_range.
  - done.
Qed.

(** ** A run of arrivals *)

Lemma collect pkts : forall k ssrc w t0 time ds times now,
  collecting k ssrc (u16 w) t0 time ds -> Forall RtcpTccFb.word ds ->
  arriving ssrc (w + Z.of_nat (length ds) + 1) pkts times -> paced time times ->
  (length ds <= 299)%nat -> (length ds + length pkts <= 300)%nat ->
  exists k' sent, run k pkts now = (k', sent, Ok tt) /\
    if (length ds + length pkts =? 300)%nat
    then sent = [feedback ssrc (u16 w) t0 (fb_pkt_count_ k) (ds ++ intervals time times)] /\ idle k' /\
         fb_pkt_count_ k' = u8 (fb_pkt_count_ k + 1)
    else sent = [] /\ fb_pkt_count_ k' = fb_pkt_count_ k.
Proof.
  induction pkts as [|p pkts IH]; intros k ssrc w t0 time ds [|time' times] now Hk Hds Ha Hp Hl Hl2;
    try done; cbn [run].
  { exists k, []. split; [done|]. rewrite (proj2 (Nat.eqb_neq _ _)) by (cbn; lia). done. }
  destruct Ha as (Hs & Hw & Ht & Hpos & Ha). destruct Hp as [Hp1 Hp]. cbn [length] in Hl2.
  assert (Hr : reads p ssrc (u16 (u16 w + Z.of_nat (length ds) + 1)) time').
  { split_and!; try done. rewrite Hw. do 2 f_equal. zlia. }
  destruct (decide (length ds = 299%nat)) as [E|E].
  - destruct (step_full k p ssrc (u16 w) t0 time ds time' now Hk ltac:(apply u16_range) Hds E Hp1 Hr)
      as (k1 & -> & Hid & Hc1).
    destruct pkts; [|cbn [length] in Hl2; lia]. destruct times; [|done]. cbn [run].
    eexists _, _. split; [reflexivity|]. rewrite E. cbn. done.
  - destruct (step_more k p ssrc (u16 w) t0 time ds time' now Hk ltac:(lia) Hp1 Hr) as (k1 & -> & Hk1 & Hc1).
    destruct (IH k1 ssrc w t0 time' (ds ++ [u16 (i16 (time' - time))]) times now) as (k2 & sent & -> & H);
      rewrite ?length_app; cbn [length]; try lia; try done.
    { apply Forall_app. split; [done|]. constructor; [apply u16_range|done]. }
    { by replace (w + Z.of_nat (length ds + 1) + 1) with (w + Z.of_nat (length ds) + 1 + 1) by lia. }
    rewrite length_app in H. cbn [length intervals] in *. exists k2, sent. split; [done|].
    replace (length ds + 1 + length pkts)%nat with (length ds + S (length pkts))%nat in H by lia.
    destruct (_ =? 300)%nat; rewrite Hc1 in H; [|done]. by rewrite <- app_assoc in H.
Qed.

(** * Properties *)

(** one feedback per 301 packets.  Packets with consecutive wide sequence numbers, no
    two of them more than five seconds apart, are collected without anything being
    sent; the 301st completes the batch: one feedback packet goes out, for its 300
    deltas, under the current feedback count, which advances modulo 256, and the server
    is ready for the next batch.  The packet that opens a batch has no delta in it. *)
Theorem feedback_stream (k : t) (ssrc w t0 now : Z) (p0 : RtpPacket.t) (pkts : list RtpPacket.t) (times : list Z) :
  idle k -> 0 <= w < 65536 -> arriving ssrc w (p0 :: pkts) (t0 :: times) -> paced t0 times ->
  ((length pkts < 300)%nat ->
   exists k', run k (p0 :: pkts) now = (k', [], Ok tt) /\ fb_pkt_count_ k' = fb_pkt_count_ k) /\
  (length pkts = 300%nat ->
   exists k', run k (p0 :: pkts) now =
       (k', [feedback ssrc w t0 (fb_pkt_count_ k) (intervals t0 times)], Ok tt) /\
     idle k' /\ fb_pkt_count_ k' = u8 (fb_pkt_count_ k + 1)).
Proof.
  intros Hk Hw (Hs & Hwd & Ht & Hpos & Ha) Hp. cbn [run]. rewrite u16_small in Hwd by done.
  destruct (step_open k p0 ssrc w t0 now Hk Hw) as (k1 & -> & Hk1 & Hc1); [by split_and!|].
  split; intros Hl; destruct (collect pkts k1 ssrc w t0 t0 [] times now) as (k2 & sent & -> & H);
    try done; rewrite ?u16_small by done; rewrite ?Z.add_0_r; try done; try (cbn [length]; lia);
    cbn [length Nat.add] in H; rewrite Hc1, ?u16_small in H by done.
  - rewrite (proj2 (Nat.eqb_neq _ _)) in H by lia. destruct H as [-> H]. by exists k2.
  - rewrite Hl, Nat.eqb_refl in H. destruct H as [-> H]. by exists k2.
Qed.

(** A server with extension id 3, and packets that carry wide sequence number [w]. *)
Definition sample : t := SetTccExtensionId (new_TccServer true) 3.
Definition carrying (w : Z) : RtpPacket.t :=
  RtpPacket.with_data RtpPacket.sample (splice 24 (be_bytes 2 w) (RtpPacket.data RtpPacket.sample)).
Definition sample_pkts : list RtpPacket.t := Eval vm_compute in map carrying (seqZ 65400 301).

Lemma sample_arriving : arriving 7 65400 sample_pkts (replicate 301 5).
Proof. vm_compute. repeat split. Qed.

Lemma feedback_stream_witness :
  exists k' d, run sample sample_pkts 9 = (k', [d], Ok tt) /\ fb_pkt_count_ k' = 1 /\ length d = 664%nat.
Proof.
  pose proof sample_arriving as Ha. change (replicate 301 5) with (5 :: replicate 300 5) in Ha.
  change sample_pkts with (hd RtpPacket.sample sample_pkts :: tail sample_pkts) in Ha |- *.
  destruct (feedback_stream sample 7 65400 5 9 (hd RtpPacket.sample sample_pkts) (tail sample_pkts) (replicate 300 5))
    as [_ H]; [split; cbn; (done || lia)|lia|exact Ha|vm_compute; repeat split; discriminate|].
  destruct H as (k' & H & _ & Hc); [reflexivity|].
  eexists k', _. split; [exact H|]. split; [exact Hc|]. vm_compute. reflexivity.
Defined.

End TccServer.
