(* ===== verification/RtcInfo.v ===== *)
(** JSON values as the code uses the vendored library for them, and what
    [webrtc_room/rtc_info.hpp] reads and writes with it: the description of a published
    stream that servers and clients send each other. *)
From S2P Require Import Prelude StrMap RtpSession.

(** * JSON values *)

Module Json.

(** Numbers are integers; objects are [std::map]s, kept in the order of their keys. *)
Inductive t :=
  | Null
  | Bool (b : bool)
  | Int (z : Z)
  | Str (s : string)
  | Arr (l : list t)
  | Obj (m : list (string * t)).
Abbreviation fields := (list (string * t)).

(** [j\[k\]] on a value that may be changed: a missing key is entered with [null], and [null]
    becomes an object.  On a [const] value a missing key is an end iterator dereferenced. *)
Definition at_key (j : t) (k : string) : res t :=
  match j with
  | Obj m => Ok (default Null (StrMap.find k m))
  | Null => Ok Null
  | _ => Throw "type_error.305"
  end.
Definition const_at_key (j : t) (k : string) : res t :=
  match j with
  | Obj m => match StrMap.find k m with Some v => Ok v | None => Undef OobRead end
  | _ => Throw "type_error.305"
  end.
(** [j.find(k)], [None] for the end iterator. *)
Definition find_key (j : t) (k : string) : option t :=
  match j with Obj m => StrMap.find k m | _ => None end.

(** The elements of a range-for loop. *)
Definition elements (j : t) : list t :=
  match j with Arr l => l | Obj m => m.*2 | Null => [] | _ => [j] end.

Definition is_object (j : t) : bool := match j with Obj _ => true | _ => false end.
Definition is_array (j : t) : bool := match j with Arr _ => true | _ => false end.
Definition is_empty (j : t) : bool := match elements j with [] => true | _ => false end.

(** [get<std::string>], [get<bool>], and the arithmetic types, which convert. *)
Definition get_string (j : t) : res string := match j with Str s => Ok s | _ => Throw "type_error.302" end.
Definition get_bool (j : t) : res bool := match j with Bool b => Ok b | _ => Throw "type_error.302" end.
Definition get_number (j : t) : res Z :=
  match j with Int z => Ok z | Bool b => Ok (Z.b2z b) | _ => Throw "type_error.302" end.
Definition get_uint8 (j : t) : res Z := let! z := get_number j in Ok (u8 z).
Definition get_uint32 (j : t) : res Z := let! z := get_number j in Ok (u32 z).
Definition s32 (z : Z) : Z := (z + 2147483648) mod 4294967296 - 2147483648.
Definition get_int (j : t) : res Z := let! z := get_number j in Ok (s32 z).

(** ** Laws *)

Lemma s32_small z : -2147483648 <= z < 2147483648 -> s32 z = z.
Proof. intros. unfold s32. rewrite Z.mod_small by lia. lia. Qed.

End Json.

(** * Track descriptions *)

Module RtcInfo.
Import RtpSessionParam.

(** [utils/av/av.hpp]. *)
Definition avtype_fromstring (type : string) : MEDIA_PKT_TYPE :=
  if String.eqb type "video" then MEDIA_VIDEO_TYPE
  else if String.eqb type "audio" then MEDIA_AUDIO_TYPE
  else if String.eqb type "metadata" then MEDIA_METADATA_TYPE
  else MEDIA_UNKNOWN_TYPE.
Definition avtype_tostring (type : MEDIA_PKT_TYPE) : string :=
  match type with
  | MEDIA_VIDEO_TYPE => "video"
  | MEDIA_AUDIO_TYPE => "audio"
  | MEDIA_METADATA_TYPE => "metadata"
  | _ => "unkown"
  end.

Inductive RTC_USER_TYPE := UNKNOWN_USER_TYPE | LOCAL_RTC_USER | REMOTE_RTC_USER.

(** [RtpSessionParam rtp_param;]. *)
Definition new_RtpSessionParam : RtpSessionParam.t :=
  mk MEDIA_UNKNOWN_TYPE (-1) 0 0 0 90000 0 0 false false (-1) (-1) (-1) EmptyString EmptyString [].

(** A key that may be missing: [if (j.find(k) != j.end()) x = j\[k\].get<..>()]. *)
Definition optional {A} (j : Json.t) (k : string) (get : Json.t -> res A) (x : A) : res A :=
  match Json.find_key j k with Some v => get v | None => Ok x end.

Fixpoint strings (l : list Json.t) : res (list string) :=
  match l with
  | [] => Ok []
  | j :: l' => let! s := Json.get_string j in let! ss := strings l' in Ok (s :: ss)
  end.

(** [RtpSessionParam::FromJson] on a parameter that is dropped when it throws. *)
Definition FromJson (p : RtpSessionParam.t) (j : Json.t) : res RtpSessionParam.t :=
  let! v := Json.const_at_key j "av_type" in let! av_type := Json.get_string v in
  let! v := Json.const_at_key j "codec" in let! codec_name := Json.get_string v in
  let! v := Json.const_at_key j "fmtp_param" in let! fmtp_param := Json.get_string v in
  let! v := Json.const_at_key j "rtcp_features" in let! rtcp_features := strings (Json.elements v) in
  let! channel := optional j "channel" Json.get_int (channel_ p) in
  let! v := Json.const_at_key j "ssrc" in let! ssrc := Json.get_uint32 v in
  let! v := Json.const_at_key j "payload_type" in let! payload_type := Json.get_uint8 v in
  let! v := Json.const_at_key j "clock_rate" in let! clock_rate := Json.get_uint32 v in
  let! v := Json.const_at_key j "rtx_ssrc" in let! rtx_ssrc := Json.get_uint32 v in
  let! v := Json.const_at_key j "rtx_payload_type" in let! rtx_payload_type := Json.get_uint8 v in
  let! v := Json.const_at_key j "use_nack" in let! use_nack := Json.get_bool v in
  let! key_request := optional j "key_request" Json.get_bool (key_request_ p) in
  let! mid_ext_id := optional j "mid_ext_id" Json.get_int (mid_ext_id_ p) in
  let! tcc_ext_id := optional j "tcc_ext_id" Json.get_int (tcc_ext_id_ p) in
  let! abs_send_time_ext_id := optional j "abs_send_time_ext_id" Json.get_int (abs_send_time_ext_id_ p) in
  Ok (mk (avtype_fromstring av_type) (mid_ p) ssrc payload_type channel clock_rate rtx_ssrc rtx_payload_type use_nack
         key_request mid_ext_id tcc_ext_id abs_send_time_ext_id codec_name fmtp_param rtcp_features).

(** A key that is written under a condition. *)
Definition set_if (b : bool) (k : string) (v : Json.t) (m : Json.fields) : Json.fields :=
  if b then StrMap.set k v m else m.

(** [RtpSessionParam::Dump] into an object. *)
Definition Dump (p : RtpSessionParam.t) (ret_json : Json.fields) : Json.fields :=
  let m := StrMap.set "av_type" (Json.Str (avtype_tostring (av_type_ p))) ret_json in
  let m := StrMap.set "mid" (Json.Int (mid_ p)) m in
  let m := StrMap.set "codec" (Json.Str (codec_name_ p)) m in
  let m := StrMap.set "fmtp_param" (Json.Str (fmtp_param_ p)) m in
  let m := StrMap.set "rtcp_features" (Json.Arr (map Json.Str (rtcp_features_ p))) m in
  let m := set_if (0 <? channel_ p) "channel" (Json.Int (channel_ p)) m in
  let m := StrMap.set "ssrc" (Json.Int (ssrc_ p)) m in
  let m := StrMap.set "payload_type" (Json.Int (payload_type_ p)) m in
  let m := StrMap.set "clock_rate" (Json.Int (clock_rate_ p)) m in
  let m := StrMap.set "rtx_ssrc" (Json.Int (rtx_ssrc_ p)) m in
  let m := StrMap.set "rtx_payload_type" (Json.Int (rtx_payload_type_ p)) m in
  let m := StrMap.set "use_nack" (Json.Bool (use_nack_ p)) m in
  let m := set_if (key_request_ p) "key_request" (Json.Bool (key_request_ p)) m in
  let m := set_if (0 <? mid_ext_id_ p) "mid_ext_id" (Json.Int (mid_ext_id_ p)) m in
  let m := set_if (0 <? tcc_ext_id_ p) "tcc_ext_id" (Json.Int (tcc_ext_id_ p)) m in
  set_if (0 <? abs_send_time_ext_id_ p) "abs_send_time_ext_id" (Json.Int (abs_send_time_ext_id_ p)) m.

Record PushInfo := mk_PushInfo { pusher_id_ : string; param_ : RtpSessionParam.t }.

Definition DumpJson (info : PushInfo) (j : Json.fields) : Json.fields :=
  StrMap.set "rtpParam" (Json.Obj (Dump (param_ info) [])) (StrMap.set "pusherId" (Json.Str (pusher_id_ info)) j).

(** How the handlers of notifications read a [PushInfo] from a [const] element: [None] when
    [rtpParam] is missing or no object, and the element is passed over. *)
Definition read_PushInfo (pusher_json : Json.t) : res (option PushInfo) :=
  let! v := Json.const_at_key pusher_json "pusherId" in let! pusher_id := Json.get_string v in
  match Json.find_key pusher_json "rtpParam" with
  | Some rtp_param_json =>
      if negb (Json.is_object rtp_param_json) then Ok None else
      let! rtp_param := FromJson new_RtpSessionParam rtp_param_json in
      Ok (Some (mk_PushInfo pusher_id rtp_param))
  | None => Ok None
  end.

(** * What arrives *)

(** The description as the other side has it: the mid, a type other than audio, video and
    metadata, and numbers that are not positive do not get through. *)
Definition as_sent (p : RtpSessionParam.t) : RtpSessionParam.t :=
  let positive (d z : Z) := if 0 <? z then z else d in
  mk (avtype_fromstring (avtype_tostring (av_type_ p))) (-1) (ssrc_ p) (payload_type_ p) (positive 0 (channel_ p))
     (clock_rate_ p) (rtx_ssrc_ p) (rtx_payload_type_ p) (use_nack_ p) (key_request_ p)
     (positive (-1) (mid_ext_id_ p)) (positive (-1) (tcc_ext_id_ p)) (positive (-1) (abs_send_time_ext_id_ p))
     (codec_name_ p) (fmtp_param_ p) (rtcp_features_ p).

Definition in_range (p : RtpSessionParam.t) : Prop :=
  RtpSessionParam.wf p /\ channel_ p < 2147483648 /\ mid_ext_id_ p < 2147483648 /\ tcc_ext_id_ p < 2147483648 /\
  abs_send_time_ext_id_ p < 2147483648.

Lemma strings_map l : strings (map Json.Str l) = Ok l.
Proof. induction l as [|s l IH]; cbn; [done|]. by rewrite IH. Qed.

(** The value of a key after a chain of assignments. *)
Lemma find_set_if b k k' v m : StrMap.find k (set_if b k' v m) = if String.eqb k k' && b then Some v else StrMap.find k m.
Proof. destruct b; [by rewrite andb_true_r; apply StrMap.find_in_set|by rewrite andb_false_r]. Qed.

Lemma Dump_find p k :
  StrMap.find k (Dump p []) =
    let first (b : bool) (k' : string) (v : Json.t) (o : option Json.t) := if String.eqb k k' && b then Some v else o in
    first (0 <? abs_send_time_ext_id_ p) "abs_send_time_ext_id" (Json.Int (abs_send_time_ext_id_ p)) $
    first (0 <? tcc_ext_id_ p) "tcc_ext_id" (Json.Int (tcc_ext_id_ p)) $
    first (0 <? mid_ext_id_ p) "mid_ext_id" (Json.Int (mid_ext_id_ p)) $
    first (key_request_ p) "key_request" (Json.Bool (key_request_ p)) $
    first true "use_nack" (Json.Bool (use_nack_ p)) $
    first true "rtx_payload_type" (Json.Int (rtx_payload_type_ p)) $
    first true "rtx_ssrc" (Json.Int (rtx_ssrc_ p)) $
    first true "clock_rate" (Json.Int (clock_rate_ p)) $
    first true "payload_type" (Json.Int (payload_type_ p)) $
    first true "ssrc" (Json.Int (ssrc_ p)) $
    first (0 <? channel_ p) "channel" (Json.Int (channel_ p)) $
    first true "rtcp_features" (Json.Arr (map Json.Str (rtcp_features_ p))) $
    first true "fmtp_param" (Json.Str (fmtp_param_ p)) $
    first true "codec" (Json.Str (codec_name_ p)) $
    first true "mid" (Json.Int (mid_ p)) $
    first true "av_type" (Json.Str (avtype_tostring (av_type_ p))) None.
Proof.
  unfold Dump. repeat first [rewrite find_set_if|rewrite StrMap.find_in_set]. cbn zeta. by rewrite !andb_true_r.
Qed.

Lemma optional_int m k z d :
  StrMap.find k m = (if 0 <? z then Some (Json.Int z) else None) -> z < 2147483648 ->
  optional (Json.Obj m) k Json.get_int d = Ok (if 0 <? z then z else d).
Proof.
  intros E Hz. unfold optional. cbn [Json.find_key]. rewrite E. destruct (Z.ltb_spec 0 z); [|done].
  unfold Json.get_int. cbn. rewrite Json.s32_small by lia. done.
Qed.

(** Reading back one key that is always there. *)
Lemma const_found m k v : StrMap.find k m = Some v -> Json.const_at_key (Json.Obj m) k = Ok v.
Proof. intros E. cbn. by rewrite E. Qed.

Lemma FromJson_Dump p : in_range p -> FromJson new_RtpSessionParam (Json.Obj (Dump p [])) = Ok (as_sent p).
Proof.
  intros ([H1 H2 H3 H4 H5] & Hc & Hm & Ht & Ha). unfold FromJson. pose proof (Dump_find p) as F.
  assert (K : forall k v, StrMap.find k (Dump p []) = Some v -> Json.const_at_key (Json.Obj (Dump p [])) k = Ok v)
    by (intros; by apply const_found).
  set (m := Dump p []) in *. clearbody m.
  rewrite (K "av_type" _ (F _)), (K "codec" _ (F _)), (K "fmtp_param" _ (F _)), (K "rtcp_features" _ (F _)),
    (K "ssrc" _ (F _)), (K "payload_type" _ (F _)), (K "clock_rate" _ (F _)), (K "rtx_ssrc" _ (F _)),
    (K "rtx_payload_type" _ (F _)), (K "use_nack" _ (F _)).
  unfold optional at 2. cbn [Json.find_key]. rewrite (F "key_request").
  rewrite (optional_int m "channel" (channel_ p) _ (F _)), (optional_int m "mid_ext_id" (mid_ext_id_ p) _ (F _)),
    (optional_int m "tcc_ext_id" (tcc_ext_id_ p) _ (F _)),
    (optional_int m "abs_send_time_ext_id" (abs_send_time_ext_id_ p) _ (F _)) by done.
  cbn [rbind Json.get_string Json.elements]. rewrite strings_map. unfold Json.get_uint32, Json.get_uint8. cbn [Json.get_number Json.get_bool rbind].
  rewrite !u32_small, !u8_small by lia. unfold as_sent. cbn zeta. by destruct (key_request_ p).
Qed.

(** C30: the description of a published stream survives the trip through JSON to another
    server or client, except for the mid, which is written but never read back, for media
    types other than audio, video and metadata, and for channel counts and extension ids
    that are not positive, which arrive as unset. *)
Theorem track_description_roundtrip (info : PushInfo) :
  in_range (param_ info) ->
  read_PushInfo (Json.Obj (DumpJson info [])) = Ok (Some (mk_PushInfo (pusher_id_ info) (as_sent (param_ info)))).
Proof.
  intros H. unfold read_PushInfo, DumpJson.
  rewrite (const_found _ "pusherId" (Json.Str (pusher_id_ info))) by (by rewrite !StrMap.find_in_set).
  cbn [rbind Json.get_string Json.find_key]. rewrite StrMap.find_in_set. cbn [String.eqb Ascii.eqb Bool.eqb].
  cbn [Json.is_object negb]. by rewrite FromJson_Dump.
Qed.

(** * Example *)

Definition sample_info : PushInfo := mk_PushInfo "p1" RtpSession.sample_param.
Lemma track_description_roundtrip_witness :
  read_PushInfo (Json.Obj (DumpJson sample_info [])) = Ok (Some (mk_PushInfo "p1" (as_sent RtpSession.sample_param))) /\
  mid_ RtpSession.sample_param = 1 /\ mid_ (as_sent RtpSession.sample_param) = -1.
Proof.
  split; [|split; reflexivity]. apply (track_description_roundtrip sample_info).
  split; [split; vm_compute; intuition discriminate|]. repeat split; reflexivity.
Defined.

End RtcInfo.
