(* ===== verification/Sdp.v ===== *)
(** [format/rtc_sdp/]: session descriptions.  What the server reads from the description a
    browser offers ([RtcSdp::ParseSdp]), which part of it is accepted
    ([RtcSdp::GenAnswerSdp] with the filter of [rtc_sdp_filter.cpp]), how the answer is
    written, what [GetRtpSessionParamsFromSdp] of [webrtc_room/rtp_session.cpp] takes from
    it, and how [Room::UpdateRtcSdpByPullers] puts the streams of subscribers into it. *)
From stdpp Require Import sets.
From S2P Require Import Prelude StdMap StrMap Text RtpSession RtcInfo.
#[local] Open Scope list_scope.

Import RtpSessionParam.

(** * Data *)

Inductive RtcSdpType := RTC_SDP_UNKNOWN | RTC_SDP_OFFER | RTC_SDP_ANSWER.
Inductive RtcSetupType := RTC_SETUP_UNKNOWN | RTC_SETUP_ACTIVE | RTC_SETUP_PASSIVE | RTC_SETUP_ACTPASS.
Inductive RtcNetType := RTC_NET_UNKNOWN | RTC_NET_TCP | RTC_NET_UDP.
Inductive DirectionType := DIRECTION_UNKNOWN | DIRECTION_SENDONLY | DIRECTION_RECVONLY | DIRECTION_SENDRECV.

(** A loop whose body may throw. *)
Fixpoint rfold {A B} (f : A -> B -> res A) (a : A) (l : list B) : res A :=
  match l with [] => Ok a | b :: l' => let! a := f a b in rfold f a l' end.

(** [StringSplit(part, "=", key_value)] when it gives two pieces. *)
Definition key_value (part : string) : res (option (string * string)) :=
  let! kv := Text.StringSplit part "=" in
  Ok (match kv with [k; v] => Some (k, v) | _ => None end).

Module H264.
Record t := mk { level_asymmetry_allowed_ : Z; packetization_mode_ : Z; profile_level_id_ : string }.
Definition default : t := mk 0 0 EmptyString.
Definition read (p : t) (part : string) : res t :=
  let! kv := key_value part in
  match kv with
  | None => Ok p
  | Some (k, v) =>
      if String.eqb k "level-asymmetry-allowed"
      then let! n := Text.stoi v in Ok (mk n (packetization_mode_ p) (profile_level_id_ p))
      else if String.eqb k "packetization-mode"
      then let! n := Text.stoi v in Ok (mk (level_asymmetry_allowed_ p) n (profile_level_id_ p))
      else if String.eqb k "profile-level-id"
      then Ok (mk (level_asymmetry_allowed_ p) (packetization_mode_ p) v)
      else Ok p
  end.
End H264.

Module AV1.
Record t := mk { level_idx_ : Z; profile_ : Z; tier_ : Z }.
Definition default : t := mk (-1) (-1) (-1).
Definition read (p : t) (part : string) : res t :=
  let! kv := key_value part in
  match kv with
  | None => Ok p
  | Some (k, v) =>
      if String.eqb k "level-idx" then let! n := Text.stoi v in Ok (mk n (profile_ p) (tier_ p))
      else if String.eqb k "profile" then let! n := Text.stoi v in Ok (mk (level_idx_ p) n (tier_ p))
      else if String.eqb k "tier" then let! n := Text.stoi v in Ok (mk (level_idx_ p) (profile_ p) n)
      else Ok p
  end.
End AV1.

Module VP9.
Record t := mk { profile_id_ : Z }.
Definition default : t := mk (-1).
Definition read (p : t) (part : string) : res t :=
  let! kv := key_value part in
  match kv with
  | Some (k, v) => if String.eqb k "profile-id" then let! n := Text.stoi v in Ok (mk n) else Ok p
  | None => Ok p
  end.
End VP9.

Module Opus.
Record t := mk { minptime_ : Z; useinbandfec_ : Z; maxaveragebitrate_ : Z; stereo_ : Z; sprop_stereo_ : Z }.
Definition default : t := mk 0 0 0 0 0.
Definition read (p : t) (part : string) : res t :=
  let! kv := key_value part in
  match kv with
  | None => Ok p
  | Some (k, v) =>
      if String.eqb k "minptime"
      then let! n := Text.stoi v in Ok (mk n (useinbandfec_ p) (maxaveragebitrate_ p) (stereo_ p) (sprop_stereo_ p))
      else if String.eqb k "useinbandfec"
      then let! n := Text.stoi v in Ok (mk (minptime_ p) n (maxaveragebitrate_ p) (stereo_ p) (sprop_stereo_ p))
      else if String.eqb k "maxaveragebitrate"
      then let! n := Text.stoi v in Ok (mk (minptime_ p) (useinbandfec_ p) n (stereo_ p) (sprop_stereo_ p))
      else if String.eqb k "stereo"
      then let! n := Text.stoi v in Ok (mk (minptime_ p) (useinbandfec_ p) (maxaveragebitrate_ p) n (sprop_stereo_ p))
      else if String.eqb k "sprop-stereo"
      then let! n := Text.stoi v in Ok (mk (minptime_ p) (useinbandfec_ p) (maxaveragebitrate_ p) (stereo_ p) n)
      else Ok p
  end.
End Opus.

(** [RtcSdpMediaCodec]. *)
Module Codec.
Record t := mk {
  codec_name_ : string; is_rtx_ : bool; payload_type_ : Z; rtx_payload_type_ : Z; rate_ : Z; channel_ : Z;
  rtcp_features_ : list string; fmtp_param_ : string; fmtp_parsed_ : bool;
  h264_fmtp_param_ : option H264.t; av1_fmtp_param_ : option AV1.t; vp9_fmtp_param_ : option VP9.t;
  opus_fmtp_param_ : option Opus.t
}.
(** A codec of which only the payload type is known. *)
Definition new_Codec (payload_type : Z) : t :=
  mk EmptyString false payload_type (-1) 0 0 [] EmptyString false None None None None.

Definition with_map (c : t) (codec_name : string) (is_rtx : bool) (rate channel : Z) : t :=
  mk codec_name is_rtx (payload_type_ c) (rtx_payload_type_ c) rate channel (rtcp_features_ c) (fmtp_param_ c) (fmtp_parsed_ c)
     (h264_fmtp_param_ c) (av1_fmtp_param_ c) (vp9_fmtp_param_ c) (opus_fmtp_param_ c).
Definition with_rtx (c : t) (rtx_payload_type : Z) : t :=
  mk (codec_name_ c) (is_rtx_ c) (payload_type_ c) rtx_payload_type (rate_ c) (channel_ c) (rtcp_features_ c) (fmtp_param_ c)
     (fmtp_parsed_ c) (h264_fmtp_param_ c) (av1_fmtp_param_ c) (vp9_fmtp_param_ c) (opus_fmtp_param_ c).
Definition with_features (c : t) (l : list string) : t :=
  mk (codec_name_ c) (is_rtx_ c) (payload_type_ c) (rtx_payload_type_ c) (rate_ c) (channel_ c) l (fmtp_param_ c)
     (fmtp_parsed_ c) (h264_fmtp_param_ c) (av1_fmtp_param_ c) (vp9_fmtp_param_ c) (opus_fmtp_param_ c).
Definition with_fmtp (c : t) (fmtp_param : string) : t :=
  mk (codec_name_ c) (is_rtx_ c) (payload_type_ c) (rtx_payload_type_ c) (rate_ c) (channel_ c) (rtcp_features_ c) fmtp_param
     (fmtp_parsed_ c) (h264_fmtp_param_ c) (av1_fmtp_param_ c) (vp9_fmtp_param_ c) (opus_fmtp_param_ c).
Definition parsed (c : t) (h : option H264.t) (a : option AV1.t) (v : option VP9.t) (o : option Opus.t) : t :=
  mk (codec_name_ c) (is_rtx_ c) (payload_type_ c) (rtx_payload_type_ c) (rate_ c) (channel_ c) (rtcp_features_ c) (fmtp_param_ c)
     true h a v o.

(** The four [Gen..FmtpParam]: a parameter string without pieces leaves the codec as it is. *)
Definition gen {A} (read : A -> string -> res A) (default : A) (old : option A) (c : t) : res (option A) :=
  let! fmtp_parts := Text.StringSplit (fmtp_param_ c) ";" in
  match fmtp_parts with [] => Ok old | _ => rmap Some (rfold read default fmtp_parts) end.
Definition GenH264FmtpParam (c : t) : res t :=
  let! p := gen H264.read H264.default (h264_fmtp_param_ c) c in
  Ok (parsed c p (av1_fmtp_param_ c) (vp9_fmtp_param_ c) (opus_fmtp_param_ c)).
Definition GenAV1FmtpParam (c : t) : res t :=
  let! p := gen AV1.read AV1.default (av1_fmtp_param_ c) c in
  Ok (parsed c (h264_fmtp_param_ c) p (vp9_fmtp_param_ c) (opus_fmtp_param_ c)).
Definition GenVP9FmtpParam (c : t) : res t :=
  let! p := gen VP9.read VP9.default (vp9_fmtp_param_ c) c in
  Ok (parsed c (h264_fmtp_param_ c) (av1_fmtp_param_ c) p (opus_fmtp_param_ c)).
Definition GenOpusFmtpParam (c : t) : res t :=
  let! p := gen Opus.read Opus.default (opus_fmtp_param_ c) c in
  Ok (parsed c (h264_fmtp_param_ c) (av1_fmtp_param_ c) (vp9_fmtp_param_ c) p).
End Codec.

Module SsrcInfo.
Record t := mk { ssrc_ : Z; is_main_ : bool; cname_ : string; stream_id_ : string; track_id_ : string }.
Definition new_SsrcInfo (ssrc : Z) (is_main : bool) : t := mk ssrc is_main EmptyString EmptyString EmptyString.
End SsrcInfo.

Module ExtensionInfo.
Record t := mk { id_ : Z; uri_ : string }.
End ExtensionInfo.

(** [RtcSdpMediaSection]. *)
Module MediaSection.
Record t := mk {
  media_type_ : MEDIA_PKT_TYPE; mid_ : Z; direction_ : DirectionType; cname_ : string;
  media_codecs_ : list (Z * Codec.t); ssrc_infos_ : list (Z * SsrcInfo.t); extensions_ : list (Z * ExtensionInfo.t)
}.
Definition with_codecs (s : t) (m : list (Z * Codec.t)) : t :=
  mk (media_type_ s) (mid_ s) (direction_ s) (cname_ s) m (ssrc_infos_ s) (extensions_ s).
Definition with_ssrcs (s : t) (m : list (Z * SsrcInfo.t)) : t :=
  mk (media_type_ s) (mid_ s) (direction_ s) (cname_ s) (media_codecs_ s) m (extensions_ s).
Definition with_exts (s : t) (m : list (Z * ExtensionInfo.t)) : t :=
  mk (media_type_ s) (mid_ s) (direction_ s) (cname_ s) (media_codecs_ s) (ssrc_infos_ s) m.
Definition with_mid (s : t) (mid : Z) : t :=
  mk (media_type_ s) mid (direction_ s) (cname_ s) (media_codecs_ s) (ssrc_infos_ s) (extensions_ s).
Definition with_direction (s : t) (d : DirectionType) : t :=
  mk (media_type_ s) (mid_ s) d (cname_ s) (media_codecs_ s) (ssrc_infos_ s) (extensions_ s).
Definition with_cname (s : t) (cname : string) : t :=
  mk (media_type_ s) (mid_ s) (direction_ s) cname (media_codecs_ s) (ssrc_infos_ s) (extensions_ s).
End MediaSection.

Record IceCandidate := mk_candidate { ip_ : string; port_ : Z; net_type_ : RtcNetType; foundation_ : Z; priority_ : Z }.

Module RtcSdp.

(** Sections are shared pointers: [media_sections_] holds their places in [sections], since
    the parser goes on changing a section after it entered it. *)
Record t := mk {
  type_ : RtcSdpType; origin_ : string; ice_ufrag_ : string; ice_pwd_ : string; finger_print_ : string; msid_ : string;
  setup_ : RtcSetupType; direction_ : DirectionType; ice_candidates_ : list IceCandidate;
  media_sections_ : list (Z * nat); sections : list MediaSection.t
}.
Definition new_RtcSdp (type : RtcSdpType) : t :=
  mk type EmptyString EmptyString EmptyString EmptyString EmptyString RTC_SETUP_UNKNOWN DIRECTION_UNKNOWN [] [] [].

Definition with_origin (k : t) (x : string) : t :=
  mk (type_ k) x (ice_ufrag_ k) (ice_pwd_ k) (finger_print_ k) (msid_ k) (setup_ k) (direction_ k) (ice_candidates_ k)
     (media_sections_ k) (sections k).
Definition with_ufrag (k : t) (x : string) : t :=
  mk (type_ k) (origin_ k) x (ice_pwd_ k) (finger_print_ k) (msid_ k) (setup_ k) (direction_ k) (ice_candidates_ k)
     (media_sections_ k) (sections k).
Definition with_pwd (k : t) (x : string) : t :=
  mk (type_ k) (origin_ k) (ice_ufrag_ k) x (finger_print_ k) (msid_ k) (setup_ k) (direction_ k) (ice_candidates_ k)
     (media_sections_ k) (sections k).
Definition with_finger (k : t) (x : string) : t :=
  mk (type_ k) (origin_ k) (ice_ufrag_ k) (ice_pwd_ k) x (msid_ k) (setup_ k) (direction_ k) (ice_candidates_ k)
     (media_sections_ k) (sections k).
Definition with_msid (k : t) (x : string) : t :=
  mk (type_ k) (origin_ k) (ice_ufrag_ k) (ice_pwd_ k) (finger_print_ k) x (setup_ k) (direction_ k) (ice_candidates_ k)
     (media_sections_ k) (sections k).
Definition with_setup (k : t) (x : RtcSetupType) : t :=
  mk (type_ k) (origin_ k) (ice_ufrag_ k) (ice_pwd_ k) (finger_print_ k) (msid_ k) x (direction_ k) (ice_candidates_ k)
     (media_sections_ k) (sections k).
Definition with_direction (k : t) (x : DirectionType) : t :=
  mk (type_ k) (origin_ k) (ice_ufrag_ k) (ice_pwd_ k) (finger_print_ k) (msid_ k) (setup_ k) x (ice_candidates_ k)
     (media_sections_ k) (sections k).
Definition with_candidates (k : t) (l : list IceCandidate) : t :=
  mk (type_ k) (origin_ k) (ice_ufrag_ k) (ice_pwd_ k) (finger_print_ k) (msid_ k) (setup_ k) (direction_ k) l
     (media_sections_ k) (sections k).
Definition with_sections (k : t) (m : list (Z * nat)) (l : list MediaSection.t) : t :=
  mk (type_ k) (origin_ k) (ice_ufrag_ k) (ice_pwd_ k) (finger_print_ k) (msid_ k) (setup_ k) (direction_ k) (ice_candidates_ k)
     m l.
Definition change_section (k : t) (i : nat) (f : MediaSection.t -> MediaSection.t) : t :=
  with_sections k (media_sections_ k) (alter f i (sections k)).

(** ** Parsing *)

(** [RtcSdp::ParseFmtpLine] on the codec that the section has under [payload_type]. *)
Definition ParseFmtpLine (s : MediaSection.t) (codec : Codec.t) (payload_type : Z) : res MediaSection.t :=
  let put c := Ok (MediaSection.with_codecs s (StdMap.set payload_type c (MediaSection.media_codecs_ s))) in
  if String.eqb (Codec.fmtp_param_ codec) EmptyString then Ok s else
  if Codec.fmtp_parsed_ codec then Ok s else
  if Codec.is_rtx_ codec then
    let! fmtp_parts := Text.StringSplit (Codec.fmtp_param_ codec) ";" in
    rfold (fun s param =>
      let! kv := key_value param in
      match kv with
      | Some (k, v) =>
          if String.eqb k "apt" then
            let! apt_payload_type := Text.stoi v in
            match StdMap.find apt_payload_type (MediaSection.media_codecs_ s) with
            | Some apt => Ok (MediaSection.with_codecs s (StdMap.set apt_payload_type (Codec.with_rtx apt payload_type) (MediaSection.media_codecs_ s)))
            | None => Ok s
            end
          else Ok s
      | None => Ok s
      end) s fmtp_parts
  else if String.eqb (Codec.codec_name_ codec) "H264" then let! c := Codec.GenH264FmtpParam codec in put c
  else if String.eqb (Codec.codec_name_ codec) "AV1" then let! c := Codec.GenAV1FmtpParam codec in put c
  else if String.eqb (Codec.codec_name_ codec) "VP9" then let! c := Codec.GenVP9FmtpParam codec in put c
  else if String.eqb (Codec.codec_name_ codec) "opus" then let! c := Codec.GenOpusFmtpParam codec in put c
  else Ok s.

(** [a=rtpmap:]: for a payload type that the section does not know yet the iterator that is
    dereferenced at the end is the one from before the codec was entered, [end()]. *)
Definition parse_rtpmap (s : MediaSection.t) (line : string) : res MediaSection.t :=
  let! rtpmap_str := Text.substr line 9 in
  let! rtpmap_parts := Text.StringSplit rtpmap_str " " in
  match rtpmap_parts with
  | pt :: codec_info :: _ =>
      let! payload_type := Text.stoi pt in
      let! codec_parts := Text.StringSplit codec_info "/" in
      match codec_parts with
      | codec_name :: rate :: more =>
          let! clock_rate := Text.stoi rate in
          let! channels := match more with [c] => Text.stoi c | _ => Ok (-1) end in
          let is_rtx := String.eqb codec_name "rtx" in
          match StdMap.find payload_type (MediaSection.media_codecs_ s) with
          | None => Undef OobRead
          | Some c =>
              let c := Codec.with_map c codec_name is_rtx clock_rate channels in
              ParseFmtpLine (MediaSection.with_codecs s (StdMap.set payload_type c (MediaSection.media_codecs_ s))) c payload_type
          end
      | _ => Throw "Invalid codec info in rtpmap line"
      end
  | _ => Throw "Invalid rtpmap line"
  end.

(** The codec under a payload type, entered when it is new, with a change. *)
Definition change_codec (s : MediaSection.t) (payload_type : Z) (f : Codec.t -> Codec.t) : res MediaSection.t :=
  let c := f (default (Codec.new_Codec payload_type) (StdMap.find payload_type (MediaSection.media_codecs_ s))) in
  ParseFmtpLine (MediaSection.with_codecs s (StdMap.set payload_type c (MediaSection.media_codecs_ s))) c payload_type.

Definition parse_rtcp_fb (s : MediaSection.t) (line : string) : res MediaSection.t :=
  let! rtcp_fb_str := Text.substr line 10 in
  let! rtcp_fb_parts := Text.StringSplit rtcp_fb_str " " in
  match rtcp_fb_parts with
  | pt :: feature :: more =>
      let! payload_type := Text.stoi pt in
      let feature_str := foldl (fun acc p => acc +:+ " " +:+ p) feature more in
      change_codec s payload_type (fun c => Codec.with_features c (Codec.rtcp_features_ c ++ [feature_str]))
  | _ => Throw "Invalid rtcp-fb line"
  end.

Definition parse_fmtp (s : MediaSection.t) (line : string) : res MediaSection.t :=
  let! fmtp_str := Text.substr line 7 in
  let! fmtp_parts := Text.StringSplit fmtp_str " " in
  match fmtp_parts with
  | pt :: fmtp_param :: _ =>
      let! payload_type := Text.stoi pt in
      change_codec s payload_type (fun c => Codec.with_fmtp c fmtp_param)
  | _ => Throw "Invalid fmtp line"
  end.

Definition parse_ssrc (s : MediaSection.t) (line : string) : res MediaSection.t :=
  let! ssrc_str := Text.substr line 7 in
  let! ssrc_parts := Text.StringSplit ssrc_str " " in
  match ssrc_parts with
  | ssrc :: attr_str :: more =>
      let! ssrc := Text.stoul ssrc in
      let ssrc := u32 ssrc in
      let info := default (SsrcInfo.new_SsrcInfo ssrc true) (StdMap.find ssrc (MediaSection.ssrc_infos_ s)) in
      let! attr_parts := Text.StringSplit attr_str ":" in
      match attr_parts with
      | [name; value] =>
          let info :=
            if String.eqb name "cname" then
              SsrcInfo.mk (SsrcInfo.ssrc_ info) (SsrcInfo.is_main_ info) value (SsrcInfo.stream_id_ info) (SsrcInfo.track_id_ info)
            else if String.eqb name "msid" then
              SsrcInfo.mk (SsrcInfo.ssrc_ info) (SsrcInfo.is_main_ info) (SsrcInfo.cname_ info) value
                (match more with track :: _ => track | [] => SsrcInfo.track_id_ info end)
            else info in
          Ok (MediaSection.with_ssrcs s (StdMap.set ssrc info (MediaSection.ssrc_infos_ s)))
      | _ => Throw "Invalid ssrc attribute in line"
      end
  | _ => Throw "Invalid ssrc line"
  end.

(** Of a group with the semantics [FID] the first stream is the main one. *)
Fixpoint mark_ssrcs (is_main FID : bool) (l : list string) (s : MediaSection.t) : res MediaSection.t :=
  match l with
  | [] => Ok s
  | x :: l' =>
      let! ssrc := Text.stoul x in
      let ssrc := u32 ssrc in
      let s :=
        if FID then
          let info := match StdMap.find ssrc (MediaSection.ssrc_infos_ s) with
                      | Some i => SsrcInfo.mk (SsrcInfo.ssrc_ i) is_main (SsrcInfo.cname_ i) (SsrcInfo.stream_id_ i) (SsrcInfo.track_id_ i)
                      | None => SsrcInfo.new_SsrcInfo ssrc is_main
                      end in
          MediaSection.with_ssrcs s (StdMap.set ssrc info (MediaSection.ssrc_infos_ s))
        else s in
      mark_ssrcs false FID l' s
  end.
Definition parse_ssrc_group (s : MediaSection.t) (line : string) : res MediaSection.t :=
  let! ssrc_group_str := Text.substr line 13 in
  let! ssrc_group_parts := Text.StringSplit ssrc_group_str " " in
  match ssrc_group_parts with
  | semantics :: (_ :: _) as ssrcs => mark_ssrcs true (String.eqb semantics "FID") (tail ssrc_group_parts) s
  | _ => Throw "Invalid ssrc-group line"
  end.

Definition parse_extmap (s : MediaSection.t) (line : string) : res MediaSection.t :=
  let! extmap_str := Text.substr line 9 in
  let! extmap_parts := Text.StringSplit extmap_str " " in
  match extmap_parts with
  | [id; uri] =>
      let! id := Text.stoi id in
      Ok (MediaSection.with_exts s (StdMap.set id (ExtensionInfo.mk id uri) (MediaSection.extensions_ s)))
  | _ => Throw "Invalid extmap line"
  end.

(** A line about the current section; without one its pointer is null. *)
Definition in_section (k : t) (current : option nat) (f : MediaSection.t -> res MediaSection.t) : res (t * option nat) :=
  match current with
  | None => Undef NullDeref
  | Some i =>
      match sections k !! i with
      | None => Undef NullDeref
      | Some s => let! s := f s in Ok (with_sections k (media_sections_ k) (<[i := s]> (sections k)), current)
      end
  end.

Definition set_direction (k : t) (current : option nat) (d : DirectionType) : t * option nat :=
  let k := with_direction k d in
  (match current with Some i => change_section k i (fun s => MediaSection.with_direction s d) | None => k end, current).

Definition media_type_of (media_desc : string) : MEDIA_PKT_TYPE :=
  if Text.contains media_desc "video" then MEDIA_VIDEO_TYPE
  else if Text.contains media_desc "audio" then MEDIA_AUDIO_TYPE
  else MEDIA_UNKNOWN_TYPE.

Definition parse_line (st : t * option nat) (line : string) : res (t * option nat) :=
  let '(k, current) := st in
  let begins := Text.starts line in
  let field (n : nat) (f : string -> t) := let! x := Text.substr line n in Ok (f x, current) in
  if begins "v=" then Ok st
  else if begins "o=" then field 2%nat (with_origin k)
  else if begins "s=" then Ok st
  else if begins "t=" then Ok st
  else if begins "c=" then Ok st
  else if begins "a=msid-semantic:" then
    let! msid_semantic := Text.substr line 17 in
    match Text.find msid_semantic "WMS " with
    | Some pos => let! msid := Text.substr msid_semantic (pos + 4) in Ok (with_msid k msid, current)
    | None => Ok st
    end
  else if begins "a=ice-ufrag:" then field 12%nat (with_ufrag k)
  else if begins "a=ice-pwd:" then field 10%nat (with_pwd k)
  else if begins "a=fingerprint:" then field 14%nat (with_finger k)
  else if begins "a=candidate:" then Throw "ICE candidate parsing not implemented"
  else if begins "a=setup:" then
    let! setup_str := Text.substr line 8 in
    if String.eqb setup_str "active" then Ok (with_setup k RTC_SETUP_ACTIVE, current)
    else if String.eqb setup_str "passive" then Ok (with_setup k RTC_SETUP_PASSIVE, current)
    else if String.eqb setup_str "actpass" then Ok (with_setup k RTC_SETUP_ACTPASS, current)
    else Throw "Unknown setup type"
  else if begins "a=sendonly" then Ok (set_direction k current DIRECTION_SENDONLY)
  else if begins "a=recvonly" then Ok (set_direction k current DIRECTION_RECVONLY)
  else if begins "a=sendrecv" then Ok (set_direction k current DIRECTION_SENDRECV)
  else if begins "m=" then
    let! media_desc := Text.substr line 2 in
    let s := MediaSection.mk (media_type_of media_desc) (-1) (direction_ k) EmptyString [] [] [] in
    Ok (with_sections k (media_sections_ k) (sections k ++ [s]), Some (length (sections k)))
  else if begins "a=mid:" && bool_decide (current <> None) then
    let! mid_str := Text.substr line 6 in
    let! mid := Text.stoi mid_str in
    match current with
    | None => Ok st
    | Some i =>
        let k := change_section k i (fun s => MediaSection.with_mid s mid) in
        Ok (with_sections k (StdMap.set mid i (media_sections_ k)) (sections k), current)
    end
  else if begins "a=rtpmap:" then in_section k current (fun s => parse_rtpmap s line)
  else if begins "a=rtcp-fb:" then in_section k current (fun s => parse_rtcp_fb s line)
  else if begins "a=fmtp:" then in_section k current (fun s => parse_fmtp s line)
  else if begins "a=ssrc:" then in_section k current (fun s => parse_ssrc s line)
  else if begins "a=ssrc-group:" then in_section k current (fun s => parse_ssrc_group s line)
  else if begins "a=extmap:" then in_section k current (fun s => parse_extmap s line)
  else Ok st.

Definition CRLF : string := String (Ascii.ascii_of_nat 13) (String (Ascii.ascii_of_nat 10) EmptyString).

(** [RtcSdp::ParseSdp].  What a line throws is caught and thrown again by value, as a plain
    [std::exception]. *)
Definition ParseSdp (sdp_type sdp_str : string) : res t :=
  let! lines := Text.StringSplit sdp_str CRLF in
  if (length lines =? 0)%nat then Throw "SDP string is empty or invalid" else
  let! type := (if String.eqb sdp_type "offer" then Ok RTC_SDP_OFFER
                else if String.eqb sdp_type "answer" then Ok RTC_SDP_ANSWER
                else Throw "Unknown SDP type") in
  match rfold parse_line (new_RtcSdp type, None) lines with
  | Ok (k, _) => Ok k
  | Throw _ => Throw "std::exception"
  | Undef u => Undef u
  end.

End RtcSdp.

(** * The filter *)

Module SdpFilter.

Record CodecFilter := mk_filter { media_type_ : MEDIA_PKT_TYPE; codec_ : Codec.t }.
Record t := mk { exts_ : list string; codecs_ : list CodecFilter }.

Definition IsExtMapFilter (f : t) (input_ext : string) : bool := existsb (fun ext => String.eqb ext input_ext) (exts_ f).

Definition same_type (a b : MEDIA_PKT_TYPE) : bool :=
  match a, b with
  | MEDIA_UNKNOWN_TYPE, MEDIA_UNKNOWN_TYPE | MEDIA_VIDEO_TYPE, MEDIA_VIDEO_TYPE | MEDIA_AUDIO_TYPE, MEDIA_AUDIO_TYPE
  | MEDIA_MOVBOX_TYPE, MEDIA_MOVBOX_TYPE | MEDIA_METADATA_TYPE, MEDIA_METADATA_TYPE => true
  | _, _ => false
  end.

(** The parameters of a kind that both codecs have: [None] when one has none. *)
Definition both {A} (cmp : A -> A -> bool) (x y : option A) : option bool :=
  match x, y with Some a, Some b => Some (cmp a b) | _, _ => None end.
Definition h264_agree (i f : H264.t) : bool :=
  String.eqb (H264.profile_level_id_ i) (H264.profile_level_id_ f) &&
  (H264.packetization_mode_ i =? H264.packetization_mode_ f) &&
  (H264.level_asymmetry_allowed_ i =? H264.level_asymmetry_allowed_ f).
Definition vp9_agree (i f : VP9.t) : bool := VP9.profile_id_ i =? VP9.profile_id_ f.
Definition av1_agree (i f : AV1.t) : bool :=
  (AV1.profile_ i =? AV1.profile_ f) && (AV1.level_idx_ i =? AV1.level_idx_ f) && (AV1.tier_ i =? AV1.tier_ f).
(** A parameter that is not positive is taken to be left out. *)
Definition opus_agree (i f : Opus.t) : bool :=
  (Opus.useinbandfec_ i =? Opus.useinbandfec_ f) &&
  (negb (0 <? Opus.maxaveragebitrate_ i) || (Opus.maxaveragebitrate_ i =? Opus.maxaveragebitrate_ f)) &&
  (negb (0 <? Opus.stereo_ i) || (Opus.stereo_ i =? Opus.stereo_ f)) &&
  (negb (0 <? Opus.sprop_stereo_ i) || (Opus.sprop_stereo_ i =? Opus.sprop_stereo_ f)).

(** One entry of the filter: the kinds are tried in order, the first that both codecs have
    parameters of decides; without one the entry does not match. *)
Definition matches (media_type : MEDIA_PKT_TYPE) (input_codec : Codec.t) (e : CodecFilter) : bool :=
  let f := codec_ e in
  if negb (same_type (media_type_ e) media_type) then false
  else if negb (String.eqb (Codec.codec_name_ f) (Codec.codec_name_ input_codec)) then false
  else match both h264_agree (Codec.h264_fmtp_param_ input_codec) (Codec.h264_fmtp_param_ f) with
  | Some b => b
  | None =>
  match both vp9_agree (Codec.vp9_fmtp_param_ input_codec) (Codec.vp9_fmtp_param_ f) with
  | Some b => b
  | None =>
  match both av1_agree (Codec.av1_fmtp_param_ input_codec) (Codec.av1_fmtp_param_ f) with
  | Some b => b
  | None =>
  match both opus_agree (Codec.opus_fmtp_param_ input_codec) (Codec.opus_fmtp_param_ f) with
  | Some b => b
  | None => false
  end end end end.
Definition IsCodecFilter (f : t) (media_type : MEDIA_PKT_TYPE) (input_codec : Codec.t) : bool :=
  existsb (matches media_type input_codec) (codecs_ f).

Definition abs_time_ext_str : string := "http://www.webrtc.org/experiments/rtp-hdrext/abs-send-time".
Definition trans_wide_ext_str : string := "http://www.ietf.org/id/draft-holmer-rmcat-transport-wide-cc-extensions-01".
Definition mid_ext_str : string := "urn:ietf:params:rtp-hdrext:sdes:mid".

(** [InitSdpFilter]: what the server accepts. *)
Definition named (name : string) (h : option H264.t) (o : option Opus.t) : Codec.t :=
  Codec.mk name false (-1) (-1) 0 0 [] EmptyString false h None None o.
Definition g_sdp_answer_filter : t :=
  mk [abs_time_ext_str; trans_wide_ext_str; mid_ext_str]
     [mk_filter MEDIA_AUDIO_TYPE (named "opus" None (Some (Opus.mk 10 1 96000 1 1)));
      mk_filter MEDIA_VIDEO_TYPE (named "H264" (Some (H264.mk 1 1 "42e01f")) None)].

End SdpFilter.

(** * The answer *)

Module Answer.
Import RtcSdp.

(** The answer's section for a mid, made when it is first needed, with a change.  The
    answer's sections are its own; codecs, streams and extensions are the offer's, which is
    not used any more. *)
Definition section_for (offer_media : MediaSection.t) (direct_type : DirectionType) : MediaSection.t :=
  MediaSection.mk (MediaSection.media_type_ offer_media) (MediaSection.mid_ offer_media) direct_type EmptyString [] [] [].
Definition on_answer (answer_sdp : t) (mid : Z) (offer_media : MediaSection.t) (direct_type : DirectionType)
    (f : MediaSection.t -> MediaSection.t) : t :=
  match StdMap.find mid (media_sections_ answer_sdp) with
  | Some i => change_section answer_sdp i f
  | None =>
      let i := length (sections answer_sdp) in
      with_sections answer_sdp (StdMap.set mid i (media_sections_ answer_sdp))
                    (sections answer_sdp ++ [f (section_for offer_media direct_type)])
  end.

Definition take_codec (offer_media : MediaSection.t) (c : Codec.t) (s : MediaSection.t) : MediaSection.t :=
  let s := MediaSection.with_codecs s (StdMap.set (Codec.payload_type_ c) c (MediaSection.media_codecs_ s)) in
  let s := if String.eqb (MediaSection.cname_ s) EmptyString then
             match MediaSection.ssrc_infos_ offer_media with
             | (_, info) :: _ => MediaSection.with_cname s (SsrcInfo.cname_ info)
             | [] => s
             end
           else s in
  if 0 <? Codec.rtx_payload_type_ c then
    match StdMap.find (Codec.rtx_payload_type_ c) (MediaSection.media_codecs_ offer_media) with
    | Some r => MediaSection.with_codecs s (StdMap.set (Codec.payload_type_ r) r (MediaSection.media_codecs_ s))
    | None => s
    end
  else s.
Definition take_ext (x : ExtensionInfo.t) (s : MediaSection.t) : MediaSection.t :=
  MediaSection.with_exts s (StdMap.set (ExtensionInfo.id_ x) x (MediaSection.extensions_ s)).

Definition take_section (sdp_filter : SdpFilter.t) (direct_type : DirectionType) (mid : Z) (offer_media : MediaSection.t) (answer_sdp : t) : t :=
  let answer_sdp := foldl (fun a (e : Z * Codec.t) =>
    if SdpFilter.IsCodecFilter sdp_filter (MediaSection.media_type_ offer_media) e.2
    then on_answer a mid offer_media direct_type (take_codec offer_media e.2) else a)
    answer_sdp (MediaSection.media_codecs_ offer_media) in
  foldl (fun a (e : Z * ExtensionInfo.t) =>
    if SdpFilter.IsExtMapFilter sdp_filter (ExtensionInfo.uri_ e.2)
    then on_answer a mid offer_media direct_type (take_ext e.2) else a)
    answer_sdp (MediaSection.extensions_ offer_media).

Definition offered_section (k : t) (i : nat) : res MediaSection.t :=
  match sections k !! i with Some s => Ok s | None => Undef NullDeref end.

(** [answer_media->ssrc_infos_\[..\] = ..] for every stream of the offer. *)
Definition take_ssrcs (k : t) (answer_sdp : t) (e : Z * nat) : res t :=
  match StdMap.find e.1 (media_sections_ k) with
  | None => Throw "Media section not found in offer SDP for mid"
  | Some i =>
      let! offer_media := offered_section k i in
      Ok (change_section answer_sdp e.2 (fun s =>
        MediaSection.with_ssrcs s (foldl (fun m (x : Z * SsrcInfo.t) => StdMap.set x.1 x.2 m)
                                     (MediaSection.ssrc_infos_ s) (MediaSection.ssrc_infos_ offer_media))))
  end.

(** [RtcSdp::GenAnswerSdp]; [uuid] is [MakeUUID2()], for an offer without a stream id. *)
Definition GenAnswerSdp (sdp_filter : SdpFilter.t) (setup_type : RtcSetupType) (direct_type : DirectionType)
    (ice_ufrag ice_pwd finger_print uuid : string) (k : t) : res t :=
  let msid := if String.eqb (msid_ k) EmptyString then uuid else msid_ k in
  let answer_sdp := RtcSdp.mk RTC_SDP_ANSWER (origin_ k) ice_ufrag ice_pwd finger_print msid setup_type direct_type [] [] [] in
  let! answer_sdp := rfold (fun a (e : Z * nat) =>
    let! offer_media := offered_section k e.2 in Ok (take_section sdp_filter direct_type e.1 offer_media a))
    answer_sdp (media_sections_ k) in
  rfold (take_ssrcs k) answer_sdp (media_sections_ answer_sdp).

End Answer.

(** * The streams of a description *)

(** [GetRtpSessionParamsFromSdp]. *)
Definition read_exts (p : RtpSessionParam.t) (l : list (Z * ExtensionInfo.t)) : RtpSessionParam.t :=
  foldl (fun p (e : Z * ExtensionInfo.t) =>
    let id := ExtensionInfo.id_ e.2 in let uri := ExtensionInfo.uri_ e.2 in
    if String.eqb uri SdpFilter.trans_wide_ext_str then
      mk (av_type_ p) (mid_ p) (ssrc_ p) (payload_type_ p) (channel_ p) (clock_rate_ p) (rtx_ssrc_ p) (rtx_payload_type_ p)
         (use_nack_ p) (key_request_ p) (mid_ext_id_ p) id (abs_send_time_ext_id_ p) (codec_name_ p) (fmtp_param_ p) (rtcp_features_ p)
    else if String.eqb uri SdpFilter.mid_ext_str then
      mk (av_type_ p) (mid_ p) (ssrc_ p) (payload_type_ p) (channel_ p) (clock_rate_ p) (rtx_ssrc_ p) (rtx_payload_type_ p)
         (use_nack_ p) (key_request_ p) id (tcc_ext_id_ p) (abs_send_time_ext_id_ p) (codec_name_ p) (fmtp_param_ p) (rtcp_features_ p)
    else if String.eqb uri SdpFilter.abs_time_ext_str then
      mk (av_type_ p) (mid_ p) (ssrc_ p) (payload_type_ p) (channel_ p) (clock_rate_ p) (rtx_ssrc_ p) (rtx_payload_type_ p)
         (use_nack_ p) (key_request_ p) (mid_ext_id_ p) (tcc_ext_id_ p) id (codec_name_ p) (fmtp_param_ p) (rtcp_features_ p)
    else p) p l.
Definition with_ssrcs_of (p : RtpSessionParam.t) (ssrc rtx_ssrc : Z) : RtpSessionParam.t :=
  mk (av_type_ p) (mid_ p) ssrc (payload_type_ p) (channel_ p) (clock_rate_ p) rtx_ssrc (rtx_payload_type_ p)
     (use_nack_ p) (key_request_ p) (mid_ext_id_ p) (tcc_ext_id_ p) (abs_send_time_ext_id_ p) (codec_name_ p) (fmtp_param_ p)
     (rtcp_features_ p).
Definition read_ssrcs (p : RtpSessionParam.t) (l : list (Z * SsrcInfo.t)) : RtpSessionParam.t :=
  foldl (fun p (e : Z * SsrcInfo.t) =>
    if SsrcInfo.is_main_ e.2 then with_ssrcs_of p (SsrcInfo.ssrc_ e.2) (rtx_ssrc_ p)
    else with_ssrcs_of p (ssrc_ p) (SsrcInfo.ssrc_ e.2)) p l.
Definition read_codec (p : RtpSessionParam.t) (c : Codec.t) : RtpSessionParam.t :=
  if Codec.is_rtx_ c then
    mk (av_type_ p) (mid_ p) (ssrc_ p) (payload_type_ p) (channel_ p) (clock_rate_ p) (rtx_ssrc_ p) (u8 (Codec.payload_type_ c))
       (use_nack_ p) (key_request_ p) (mid_ext_id_ p) (tcc_ext_id_ p) (abs_send_time_ext_id_ p) (codec_name_ p) (fmtp_param_ p)
       (rtcp_features_ p)
  else
    let fb := Codec.rtcp_features_ c in
    mk (av_type_ p) (mid_ p) (ssrc_ p) (u8 (Codec.payload_type_ c)) (Codec.channel_ c) (u32 (Codec.rate_ c)) (rtx_ssrc_ p)
       (rtx_payload_type_ p) (use_nack_ p || existsb (fun f => String.eqb f "nack") fb)
       (key_request_ p || existsb (fun f => Text.contains f "pli" || Text.contains f "fir") fb)
       (mid_ext_id_ p) (tcc_ext_id_ p) (abs_send_time_ext_id_ p) (Codec.codec_name_ c) (Codec.fmtp_param_ c) fb.

Definition params_of (mid : Z) (s : MediaSection.t) : option RtpSessionParam.t :=
  match MediaSection.media_type_ s with
  | MEDIA_AUDIO_TYPE | MEDIA_VIDEO_TYPE =>
      let p := RtcInfo.new_RtpSessionParam in
      let p := mk (MediaSection.media_type_ s) mid (ssrc_ p) (payload_type_ p) (channel_ p) (clock_rate_ p) (rtx_ssrc_ p)
                  (rtx_payload_type_ p) (use_nack_ p) (key_request_ p) (mid_ext_id_ p) (tcc_ext_id_ p)
                  (abs_send_time_ext_id_ p) (codec_name_ p) (fmtp_param_ p) (rtcp_features_ p) in
      let p := read_ssrcs (read_exts p (MediaSection.extensions_ s)) (MediaSection.ssrc_infos_ s) in
      Some (foldl (fun p (e : Z * Codec.t) => read_codec p e.2) p (MediaSection.media_codecs_ s))
  | _ => None
  end.
(** Sections of other kinds are passed over. *)
Definition GetRtpSessionParamsFromSdp (sdp : RtcSdp.t) : list RtpSessionParam.t :=
  omap (fun e : Z * nat => match RtcSdp.sections sdp !! e.2 with Some s => params_of e.1 s | None => None end)
       (RtcSdp.media_sections_ sdp).

(** * Writing *)

Module SdpText.
Import RtcSdp.

Definition ts (n : Z) : string := Text.to_string n.
(** A line ends with CRLF. *)
Definition ln (l : list string) : string := foldr String.append CRLF l.
Definition lns (l : list (list string)) : string := foldr String.append EmptyString (map ln l).

Definition setup_str (s : RtcSetupType) : string :=
  match s with RTC_SETUP_ACTIVE => "active" | RTC_SETUP_PASSIVE => "passive" | RTC_SETUP_ACTPASS => "actpass" | _ => "unknown" end.
Definition direction_str (d : DirectionType) : string :=
  match d with DIRECTION_SENDONLY => "sendonly" | DIRECTION_RECVONLY => "recvonly" | DIRECTION_SENDRECV => "sendrecv" | _ => "unknown" end.
Definition candidate_line (c : IceCandidate) : list string :=
  ["a=candidate:"; ts (foundation_ c); " 1 ";
   match net_type_ c with RTC_NET_TCP => "TCP" | RTC_NET_UDP => "UDP" | _ => "UNKNOWN" end;
   " "; ts (priority_ c); " "; ip_ c; " "; ts (port_ c); " typ host"].
Definition setup_line (k : t) : list string := ["a=setup:"; setup_str (setup_ k)].
Definition ice_lines (k : t) : list (list string) :=
  [["a=ice-lite"]; ["a=ice-ufrag:"; ice_ufrag_ k]; ["a=ice-pwd:"; ice_pwd_ k]; ["a=fingerprint:"; finger_print_ k]] ++
  map candidate_line (ice_candidates_ k).
Definition extmap_lines (s : MediaSection.t) : list (list string) :=
  map (fun e : Z * ExtensionInfo.t => ["a=extmap:"; ts (ExtensionInfo.id_ e.2); " "; ExtensionInfo.uri_ e.2]) (MediaSection.extensions_ s).
Definition payload_types (s : MediaSection.t) : list string :=
  concat (map (fun e : Z * Codec.t => [" "; ts e.1]) (MediaSection.media_codecs_ s)).
(** A stream without a track id gets one that no other line uses. *)
Definition ssrc_lines (cname suffix : string) (i : SsrcInfo.t) : list (list string) :=
  let track_id := if String.eqb (SsrcInfo.track_id_ i) EmptyString then SsrcInfo.stream_id_ i +:+ suffix else SsrcInfo.track_id_ i in
  [["a=ssrc:"; ts (SsrcInfo.ssrc_ i); " cname:"; cname];
   ["a=ssrc:"; ts (SsrcInfo.ssrc_ i); " msid:"; SsrcInfo.stream_id_ i; " "; track_id]].
Definition unless (b : bool) (l : list (list string)) : list (list string) := if b then [] else l.
Definition non_empty (s d : string) : string := if String.eqb s EmptyString then d else s.

(** [RtcSdp::GenAudioSdpString]; [num] is [MakeNumString(10)]. *)
Definition audio_codec_lines (c : Codec.t) : list (list string) :=
  [["a=rtpmap:"; ts (Codec.payload_type_ c); " "; Codec.codec_name_ c; "/"; ts (Codec.rate_ c)] ++
   (if 0 <? Codec.channel_ c then ["/"; ts (Codec.channel_ c)] else [])] ++
  match Codec.opus_fmtp_param_ c with
  | Some o => [["a=fmtp:"; ts (Codec.payload_type_ c); " minptime="; ts (Opus.minptime_ o);
                ";maxaveragebitrate="; ts (Opus.maxaveragebitrate_ o); ";stereo="; ts (Opus.stereo_ o);
                ";sprop-stereo="; ts (Opus.sprop_stereo_ o); ";useinbandfec="; ts (Opus.useinbandfec_ o)]]
  | None => []
  end.
Definition GenAudioSdpString (num : string) (k : t) (s : MediaSection.t) (ice_info_session_level : bool) : string :=
  let cname := non_empty (MediaSection.cname_ s) (match MediaSection.ssrc_infos_ s with (_, i) :: _ => SsrcInfo.cname_ i | [] => EmptyString end) in
  let cname := non_empty cname ("a_" +:+ num) in
  lns ([["m=audio 9 UDP/TLS/RTP/SAVPF"] ++ payload_types s; ["c=IN IP4 0.0.0.0"]] ++
       concat (map (fun e : Z * Codec.t => audio_codec_lines e.2) (MediaSection.media_codecs_ s)) ++
       extmap_lines s ++
       unless ice_info_session_level [setup_line k] ++
       [["a=mid:"; ts (MediaSection.mid_ s)]; ["a="; direction_str (direction_ k)]] ++
       unless ice_info_session_level (ice_lines k) ++
       concat (map (fun e : Z * SsrcInfo.t => ssrc_lines cname "-audio" e.2) (MediaSection.ssrc_infos_ s)) ++
       [["a=rtcp-mux"]; ["a=rtcp-rsize"]]).

(** The payload type of the last codec with a name, 0 if there is none; and the SSRC of the
    last main stream and of the last other one. *)
Definition last_payload (name : string) (s : MediaSection.t) : Z :=
  foldl (fun n (e : Z * Codec.t) => if String.eqb (Codec.codec_name_ e.2) name then e.1 else n) 0 (MediaSection.media_codecs_ s).
Definition last_ssrc (is_main : bool) (s : MediaSection.t) : Z :=
  foldl (fun n (e : Z * SsrcInfo.t) => if Bool.eqb (SsrcInfo.is_main_ e.2) is_main then SsrcInfo.ssrc_ e.2 else n) 0 (MediaSection.ssrc_infos_ s).
Definition main_ssrcs (is_main : bool) (s : MediaSection.t) : list SsrcInfo.t :=
  filter (fun i => SsrcInfo.is_main_ i = is_main) (MediaSection.ssrc_infos_ s).*2.

(** [RtcSdp::GenVideoSdpString]. *)
Definition GenVideoSdpString (k : t) (s : MediaSection.t) (ice_info_session_level : bool) : string :=
  let codecs := (MediaSection.media_codecs_ s).*2 in
  let main_payload := last_payload "H264" s in
  let rtx_payload := last_payload "rtx" s in
  let main_ssrc := last_ssrc true s in
  let backup_ssrc := last_ssrc false s in
  let cname := non_empty (MediaSection.cname_ s) (match main_ssrcs true s with i :: _ => SsrcInfo.cname_ i | [] => EmptyString end) in
  let cname := non_empty cname ("v_" +:+ ts main_ssrc) in
  lns ([["m=video 9 UDP/TLS/RTP/SAVPF"] ++ payload_types s; ["c=IN IP4 0.0.0.0"]] ++
       map (fun c => ["a=rtpmap:"; ts (Codec.payload_type_ c); " "; Codec.codec_name_ c; "/"; ts (Codec.rate_ c)]) codecs ++
       concat (map (fun c => unless (Text.contains (Codec.fmtp_param_ c) "apt=")
                               [["a=fmtp:"; ts (Codec.payload_type_ c); " "; Codec.fmtp_param_ c]]) codecs) ++
       unless (negb ((0 <? rtx_payload) && (0 <? main_payload))) [["a=fmtp:"; ts rtx_payload; " apt="; ts main_payload]] ++
       concat (map (fun c => map (fun f => ["a=rtcp-fb:"; ts (Codec.payload_type_ c); " "; f]) (Codec.rtcp_features_ c)) codecs) ++
       extmap_lines s ++
       unless ice_info_session_level [setup_line k] ++
       [["a=mid:"; ts (MediaSection.mid_ s)]; ["a="; direction_str (direction_ k)]] ++
       unless ice_info_session_level (ice_lines k) ++
       unless (negb (0 <? backup_ssrc)) [["a=ssrc-group:FID "; ts main_ssrc; " "; ts backup_ssrc]] ++
       concat (map (ssrc_lines cname "-video") (main_ssrcs true s ++ main_ssrcs false s)) ++
       [["a=rtcp-mux"]; ["a=rtcp-rsize"]]).

(** [RtcSdp::GenSdpString]. *)
Definition section_string (num : string) (k : t) (ice_info_session_level : bool) (i : nat) : res string :=
  match sections k !! i with
  | None => Undef NullDeref
  | Some s =>
      match MediaSection.media_type_ s with
      | MEDIA_AUDIO_TYPE => Ok (GenAudioSdpString num k s ice_info_session_level)
      | MEDIA_VIDEO_TYPE => Ok (GenVideoSdpString k s ice_info_session_level)
      | _ => Throw "Unsupported media type in SDP generation"
      end
  end.
Definition mid_of (k : t) (i : nat) : Z := match sections k !! i with Some s => MediaSection.mid_ s | None => -1 end.
Definition GenSdpString (num : string) (k : t) (ice_info_session_level : bool) : res string :=
  let head := lns
    ([["v=0"]; ["o="; origin_ k]; ["s=-"]; ["t=0 0"]; ["a=extmap-allow-mixed"]; ["a=msid-semantic:WMS "; msid_ k];
      ["a=group:BUNDLE"] ++ concat (map (fun e : Z * nat => [" "; ts (mid_of k e.2)]) (media_sections_ k));
      ["a=ice-options:ice2,trickle"]] ++
     unless (negb ice_info_session_level) (ice_lines k ++ [setup_line k])) in
  rfold (fun acc (e : Z * nat) => let! s := section_string num k ice_info_session_level e.2 in Ok (acc +:+ s))
        head (media_sections_ k).

End SdpText.

(** * The streams of subscribers *)

Module Pullers.
(** [FmtpParamContain] of [rtc_info.hpp]: every parameter of [param_b] is in [param_a]. *)
Fixpoint params_map (items : list string) (m : list (string * string)) : res (option (list (string * string))) :=
  match items with
  | [] => Ok (Some m)
  | item :: l =>
      let! kv := key_value item in
      match kv with Some (k, v) => params_map l (StrMap.set k v m) | None => Ok None end
  end.
Definition FmtpParamContain (param_a param_b : string) : res bool :=
  let! a := Text.StringSplit param_a ";" in
  let! b := Text.StringSplit param_b ";" in
  if (length a =? 0)%nat || (length b =? 0)%nat then Ok false else
  let! ma := params_map a [] in
  match ma with
  | None => Ok false
  | Some ma =>
      let! mb := params_map b [] in
      match mb with
      | None => Ok false
      | Some mb => Ok (forallb (fun e : string * string =>
          match StrMap.find e.1 ma with Some v => String.eqb v e.2 | None => false end) mb)
      end
  end.

(** The stream the section announces instead of the publisher's own. *)
Definition announced (param : RtpSessionParam.t) (stream_id : string) : list (Z * SsrcInfo.t) :=
  let info ssrc is_main := SsrcInfo.mk ssrc is_main ("cname_" +:+ Text.to_string ssrc) stream_id EmptyString in
  let m := StdMap.set (ssrc_ param) (info (ssrc_ param) true) [] in
  if negb (rtx_ssrc_ param =? 0) then StdMap.set (rtx_ssrc_ param) (info (rtx_ssrc_ param) false) m else m.

(** The first codec that fits the publisher's: payload types go from the answer to the
    subscriber's parameters, rate and channels from these to the answer. *)
Definition fits (media_type : MEDIA_PKT_TYPE) (param : RtpSessionParam.t) (c : Codec.t) : res bool :=
  let same := String.eqb (Codec.codec_name_ c) (codec_name_ param) in
  let! contain := match media_type with
                  | MEDIA_AUDIO_TYPE => Ok same
                  | _ => FmtpParamContain (Codec.fmtp_param_ c) (fmtp_param_ param)
                  end in
  Ok (same && contain).
Definition with_answer_codec (p : RtpSessionParam.t) (c : Codec.t) : RtpSessionParam.t :=
  mk (av_type_ p) (mid_ p) (ssrc_ p) (u8 (Codec.payload_type_ c)) (channel_ p) (clock_rate_ p) (rtx_ssrc_ p)
     (u8 (Codec.rtx_payload_type_ c)) (use_nack_ p) (key_request_ p) (mid_ext_id_ p) (tcc_ext_id_ p) (abs_send_time_ext_id_ p)
     (codec_name_ p) (fmtp_param_ p) (Codec.rtcp_features_ c).
Fixpoint main_codec (media_type : MEDIA_PKT_TYPE) (param : RtpSessionParam.t) (m : list (Z * Codec.t))
    : res (option (RtpSessionParam.t * list (Z * Codec.t))) :=
  match m with
  | [] => Ok None
  | (pt, c) :: m' =>
      let! b := fits media_type param c in
      if b : bool then
        Ok (Some (with_answer_codec param c,
                  (pt, Codec.with_map c (Codec.codec_name_ c) (Codec.is_rtx_ c) (Json.s32 (clock_rate_ param)) (channel_ param)) :: m'))
      else
        let! r := main_codec media_type param m' in
        Ok (match r with Some (p, m') => Some (p, (pt, c) :: m') | None => None end)
  end.
Definition own_codec (p : RtpSessionParam.t) : Codec.t :=
  Codec.mk (codec_name_ p) (negb (0 <? rtx_payload_type_ p)) (payload_type_ p) (rtx_payload_type_ p) (Json.s32 (clock_rate_ p))
           (channel_ p) (rtcp_features_ p) (fmtp_param_ p) false None None None None.

(** The extensions: one that the publisher has not is taken out, another gives the
    subscriber its number. *)
Definition with_exts (p : RtpSessionParam.t) (mid_ext tcc_ext abs_ext : Z) : RtpSessionParam.t :=
  mk (av_type_ p) (mid_ p) (ssrc_ p) (payload_type_ p) (channel_ p) (clock_rate_ p) (rtx_ssrc_ p) (rtx_payload_type_ p)
     (use_nack_ p) (key_request_ p) mid_ext tcc_ext abs_ext (codec_name_ p) (fmtp_param_ p) (rtcp_features_ p).
Definition agree_ext (p : RtpSessionParam.t) (id : Z) (uri : string) : option RtpSessionParam.t :=
  if String.eqb uri SdpFilter.abs_time_ext_str then
    if abs_send_time_ext_id_ p <? 0 then None else Some (with_exts p (mid_ext_id_ p) (tcc_ext_id_ p) id)
  else if String.eqb uri SdpFilter.trans_wide_ext_str then
    if tcc_ext_id_ p <? 0 then None else Some (with_exts p (mid_ext_id_ p) id (abs_send_time_ext_id_ p))
  else if String.eqb uri SdpFilter.mid_ext_str then
    if mid_ext_id_ p <? 0 then None else Some (with_exts p id (tcc_ext_id_ p) (abs_send_time_ext_id_ p))
  else Some p.
Fixpoint agree_exts (p : RtpSessionParam.t) (m : list (Z * ExtensionInfo.t)) : RtpSessionParam.t * list (Z * ExtensionInfo.t) :=
  match m with
  | [] => (p, [])
  | (id, x) :: m' =>
      match agree_ext p id (ExtensionInfo.uri_ x) with
      | None => agree_exts p m'
      | Some p => let '(p, m') := agree_exts p m' in (p, (id, x) :: m')
      end
  end.

(** One section for one subscriber. *)
Definition update_section (stream_id : string) (media_type : MEDIA_PKT_TYPE) (param : RtpSessionParam.t) (s : MediaSection.t)
    : res (RtpSessionParam.t * MediaSection.t) :=
  let s := MediaSection.with_ssrcs (MediaSection.with_direction s DIRECTION_SENDONLY) (announced param stream_id) in
  let! r := main_codec media_type param (MediaSection.media_codecs_ s) in
  let '(param, codecs) :=
    match r with
    | Some r => r
    | None => (param, StdMap.set (payload_type_ param) (own_codec param) (MediaSection.media_codecs_ s))
    end in
  let '(param, exts) := agree_exts param (MediaSection.extensions_ s) in
  Ok (param, MediaSection.with_exts (MediaSection.with_codecs s codecs) exts).

(** [uuid n] is the n-th [MakeUUID2()]. *)
Definition update_puller (uuid : nat -> string) (st : nat * RtpSessionParam.t * RtcSdp.t) : res (nat * RtpSessionParam.t * RtcSdp.t) :=
  let '(n, param, k) := st in
  let media_type := av_type_ param in
  rfold (fun '(n, param, k) (e : Z * nat) =>
    match RtcSdp.sections k !! e.2 with
    | None => Undef NullDeref
    | Some s =>
        if SdpFilter.same_type (MediaSection.media_type_ s) media_type then
          let! r := update_section (uuid n) media_type param s in
          Ok (S n, r.1, RtcSdp.with_sections k (RtcSdp.media_sections_ k) (<[e.2 := r.2]> (RtcSdp.sections k)))
        else Ok (n, param, k)
    end) (n, param, k) (RtcSdp.media_sections_ k).

(** [Room::UpdateRtcSdpByPullers]: the parameters of the subscribers, and the answer. *)
Fixpoint UpdateRtcSdpByPullers (uuid : nat -> string) (n : nat) (params : list RtpSessionParam.t) (k : RtcSdp.t)
    : res (list RtpSessionParam.t * RtcSdp.t) :=
  match params with
  | [] => Ok ([], k)
  | p :: l =>
      let! r := update_puller uuid (n, p, k) in
      let '(n, p, k) := r in
      let! r := UpdateRtcSdpByPullers uuid n l k in
      Ok (p :: r.1, r.2)
  end.

End Pullers.

(** * What a description keeps to *)

Lemma rfold_inv {A B} (P : A -> Prop) (f : A -> B -> res A) (l : list B) :
  (forall a b a', P a -> f a b = Ok a' -> P a') -> forall a a', P a -> rfold f a l = Ok a' -> P a'.
Proof.
  intros Hf. induction l as [|b l IH]; intros a a' Ha; cbn; [by intros [= <-]|].
  destruct (f a b) as [a1| |] eqn:E; cbn; [|done|done]. apply IH. by eapply Hf.
Qed.
Lemma rfold_app {A B} (f : A -> B -> res A) (l1 l2 : list B) a :
  rfold f a (l1 ++ l2) = rbind (rfold f a l1) (fun a => rfold f a l2).
Proof.
  revert a. induction l1 as [|b l1 IH]; intros a; cbn; [done|]. destruct (f a b) as [a1| |]; cbn; [apply IH|done|done].
Qed.
(** A loop whose body never throws. *)
Lemma rfold_total {A B} (f : A -> B -> res A) (g : A -> B -> A) (P : A -> Prop) (l : list B) :
  (forall a b, P a -> b ∈ l -> f a b = Ok (g a b) /\ P (g a b)) -> forall a, P a -> rfold f a l = Ok (foldl g a l) /\ P (foldl g a l).
Proof.
  induction l as [|b l IH]; intros Hf a Ha; cbn; [done|].
  destruct (Hf a b Ha ltac:(by left)) as [-> Hg]. cbn. apply IH; [|done]. intros a1 b1 Ha1 Hb1. apply Hf; [done|by right].
Qed.

(** Maps whose values know their keys. *)
Section Keyed.
Context {V : Type} (key : V -> Z).
Definition keyed (m : list (Z * V)) : Prop := StdMap.sorted m /\ Forall (fun e => key e.2 = e.1) m.
Lemma keyed_nil : keyed [].
Proof. split; constructor. Qed.
Lemma keyed_set k v m : keyed m -> key v = k -> keyed (StdMap.set k v m).
Proof. intros [Hs Hf] Hv. split; [by apply StdMap.sorted_set|by apply StdMap.Forall_set]. Qed.
Lemma keyed_find k v m : keyed m -> StdMap.find k m = Some v -> key v = k.
Proof. intros [_ Hf] Hk. exact (StdMap.Forall_find _ _ _ _ Hf Hk). Qed.
End Keyed.

Create HintDb sdp.
#[export] Hint Resolve keyed_nil keyed_set keyed_find : sdp.

Record section_wf (s : MediaSection.t) : Prop := {
  swf_codecs : keyed Codec.payload_type_ (MediaSection.media_codecs_ s);
  swf_ssrcs : keyed SsrcInfo.ssrc_ (MediaSection.ssrc_infos_ s);
  swf_range : Forall (fun e => 0 <= e.1 < 4294967296) (MediaSection.ssrc_infos_ s);
  swf_exts : keyed ExtensionInfo.id_ (MediaSection.extensions_ s)
}.
Record sdp_wf (k : RtcSdp.t) : Prop := {
  sdp_wf_sections : Forall section_wf (RtcSdp.sections k);
  sdp_wf_mids : StdMap.below (length (RtcSdp.sections k)) (RtcSdp.media_sections_ k)
}.

Lemma with_codecs_wf s m : section_wf s -> keyed Codec.payload_type_ m -> section_wf (MediaSection.with_codecs s m).
Proof. by intros []. Qed.
Lemma with_ssrcs_wf s m :
  section_wf s -> keyed SsrcInfo.ssrc_ m -> Forall (fun e => 0 <= e.1 < 4294967296) m -> section_wf (MediaSection.with_ssrcs s m).
Proof. by intros []. Qed.
Lemma with_exts_wf s m : section_wf s -> keyed ExtensionInfo.id_ m -> section_wf (MediaSection.with_exts s m).
Proof. by intros []. Qed.
#[export] Hint Resolve with_codecs_wf with_ssrcs_wf with_exts_wf swf_codecs swf_ssrcs swf_exts : sdp.

Lemma put_codec s pt c : section_wf s -> Codec.payload_type_ c = pt ->
  section_wf (MediaSection.with_codecs s (StdMap.set pt c (MediaSection.media_codecs_ s))).
Proof. intros Hs Hc. apply with_codecs_wf; [done|]. by apply keyed_set; [apply Hs|]. Qed.
Lemma put_ssrc s ssrc i : section_wf s -> SsrcInfo.ssrc_ i = ssrc -> 0 <= ssrc < 4294967296 ->
  section_wf (MediaSection.with_ssrcs s (StdMap.set ssrc i (MediaSection.ssrc_infos_ s))).
Proof.
  intros [] Hi Hr. apply with_ssrcs_wf; [by split| |]; [by apply keyed_set|by apply StdMap.Forall_set].
Qed.

Lemma gen_payload {A} (read : A -> string -> res A) (d : A) old c (put : option A -> Codec.t) c' :
  (forall p, Codec.payload_type_ (put p) = Codec.payload_type_ c) ->
  rbind (Codec.gen read d old c) (fun p => Ok (put p)) = Ok c' -> Codec.payload_type_ c' = Codec.payload_type_ c.
Proof. intros Hp H. apply rbind_Ok_inv in H as (p & _ & [= <-]). apply Hp. Qed.

Lemma ParseFmtpLine_wf s c pt s' :
  section_wf s -> Codec.payload_type_ c = pt -> RtcSdp.ParseFmtpLine s c pt = Ok s' -> section_wf s'.
Proof.
  intros Hs Hc. unfold RtcSdp.ParseFmtpLine. cbv zeta.
  destruct (String.eqb _ EmptyString); [by intros [= <-]|]. destruct (Codec.fmtp_parsed_ c); [by intros [= <-]|].
  destruct (Codec.is_rtx_ c).
  { intros H. apply rbind_Ok_inv in H as (parts & _ & H). revert H. apply rfold_inv; [|done].
    intros a part a' Ha H. apply rbind_Ok_inv in H as ([[k v]|] & _ & H); [|by injection H as <-].
    destruct (String.eqb k "apt"); [|by injection H as <-]. apply rbind_Ok_inv in H as (apt & _ & H).
    destruct (StdMap.find apt _) as [ac|] eqn:E; injection H as <-; [|done]. apply put_codec; [done|].
    apply (keyed_find _ _ _ _ (swf_codecs a Ha) E). }
  repeat (destruct (String.eqb _ _); [intros H; apply rbind_Ok_inv in H as (c' & E & [= <-]); apply put_codec; [done|];
    rewrite <- Hc; refine (gen_payload _ _ _ c _ _ _ E); done|]).
  by intros [= <-].
Qed.

Lemma change_codec_wf s pt f s' :
  section_wf s -> (forall c, Codec.payload_type_ (f c) = Codec.payload_type_ c) ->
  RtcSdp.change_codec s pt f = Ok s' -> section_wf s'.
Proof.
  intros Hs Hf. unfold RtcSdp.change_codec.
  assert (Hc : Codec.payload_type_ (f (default (Codec.new_Codec pt) (StdMap.find pt (MediaSection.media_codecs_ s)))) = pt).
  { rewrite Hf. destruct (StdMap.find pt _) eqn:E; [|done]. by eapply keyed_find; [apply Hs|]. }
  apply ParseFmtpLine_wf; [by apply put_codec|done].
Qed.

(** The parsers of the lines of a section. *)
Lemma found_codec s n c : section_wf s -> StdMap.find n (MediaSection.media_codecs_ s) = Some c -> Codec.payload_type_ c = n.
Proof. intros Hs. by apply keyed_find, Hs. Qed.
Lemma found_ssrc s n i : section_wf s -> StdMap.find n (MediaSection.ssrc_infos_ s) = Some i -> SsrcInfo.ssrc_ i = n.
Proof. intros Hs. by apply keyed_find, Hs. Qed.

Lemma parse_rtpmap_wf s line s' : section_wf s -> RtcSdp.parse_rtpmap s line = Ok s' -> section_wf s'.
Proof.
  intros Hs H. unfold RtcSdp.parse_rtpmap in H. apply rbind_Ok_inv in H as (str & _ & H). apply rbind_Ok_inv in H as (parts & _ & H).
  destruct parts as [|pt [|info parts]]; try done. apply rbind_Ok_inv in H as (n & _ & H). apply rbind_Ok_inv in H as (cp & _ & H).
  destruct cp as [|name [|rate more]]; try done. apply rbind_Ok_inv in H as (cr & _ & H). apply rbind_Ok_inv in H as (ch & _ & H).
  destruct (StdMap.find n _) as [c|] eqn:E; [|done]. apply ParseFmtpLine_wf in H; [done| |].
  - apply put_codec; [done|]. exact (found_codec s n c Hs E).
  - exact (found_codec s n c Hs E).
Qed.
Lemma parse_rtcp_fb_wf s line s' : section_wf s -> RtcSdp.parse_rtcp_fb s line = Ok s' -> section_wf s'.
Proof.
  intros Hs H. unfold RtcSdp.parse_rtcp_fb in H. apply rbind_Ok_inv in H as (str & _ & H). apply rbind_Ok_inv in H as (parts & _ & H).
  destruct parts as [|pt [|f more]]; try done. apply rbind_Ok_inv in H as (n & _ & H). by apply change_codec_wf in H.
Qed.
Lemma parse_fmtp_wf s line s' : section_wf s -> RtcSdp.parse_fmtp s line = Ok s' -> section_wf s'.
Proof.
  intros Hs H. unfold RtcSdp.parse_fmtp in H. apply rbind_Ok_inv in H as (str & _ & H). apply rbind_Ok_inv in H as (parts & _ & H).
  destruct parts as [|pt [|f more]]; try done. apply rbind_Ok_inv in H as (n & _ & H). by apply change_codec_wf in H.
Qed.
Lemma known_ssrc s ssrc is_main :
  section_wf s -> SsrcInfo.ssrc_ (default (SsrcInfo.new_SsrcInfo ssrc is_main) (StdMap.find ssrc (MediaSection.ssrc_infos_ s))) = ssrc.
Proof. intros Hs. destruct (StdMap.find ssrc _) eqn:E; [|done]. by apply (found_ssrc s). Qed.
Lemma parse_ssrc_wf s line s' : section_wf s -> RtcSdp.parse_ssrc s line = Ok s' -> section_wf s'.
Proof.
  intros Hs H. unfold RtcSdp.parse_ssrc in H. apply rbind_Ok_inv in H as (str & _ & H). apply rbind_Ok_inv in H as (parts & _ & H).
  destruct parts as [|ssrc [|attr more]]; try done. apply rbind_Ok_inv in H as (n & _ & H). apply rbind_Ok_inv in H as (ap & _ & H).
  destruct ap as [|name [|value [|]]]; try done. injection H as <-.
  pose proof (known_ssrc s (u32 n) true Hs) as Hk.
  apply put_ssrc; [done| |apply u32_range].
  destruct (String.eqb name "cname"); [exact Hk|].
  destruct (String.eqb name "msid"); exact Hk.
Qed.
Lemma mark_ssrcs_wf l : forall b fid s s', section_wf s -> RtcSdp.mark_ssrcs b fid l s = Ok s' -> section_wf s'.
Proof.
  induction l as [|x l IH]; intros b fid s s' Hs H; cbn in H; [by injection H as <-|].
  apply rbind_Ok_inv in H as (n & _ & H). apply IH in H; [done|]. destruct fid; [|done].
  apply put_ssrc; [done| |apply u32_range]. destruct (StdMap.find (u32 n) _) eqn:E; [|done]. cbn. by apply (found_ssrc s).
Qed.
Lemma parse_ssrc_group_wf s line s' : section_wf s -> RtcSdp.parse_ssrc_group s line = Ok s' -> section_wf s'.
Proof.
  intros Hs H. unfold RtcSdp.parse_ssrc_group in H. apply rbind_Ok_inv in H as (str & _ & H). apply rbind_Ok_inv in H as (parts & _ & H).
  destruct parts as [|sem [|x l]]; try done. by apply mark_ssrcs_wf in H.
Qed.
Lemma parse_extmap_wf s line s' : section_wf s -> RtcSdp.parse_extmap s line = Ok s' -> section_wf s'.
Proof.
  intros Hs H. unfold RtcSdp.parse_extmap in H. apply rbind_Ok_inv in H as (str & _ & H). apply rbind_Ok_inv in H as (parts & _ & H).
  destruct parts as [|id [|uri [|]]]; try done. apply rbind_Ok_inv in H as (n & _ & H). injection H as <-.
  apply with_exts_wf; [done|]. by apply keyed_set; [apply Hs|].
Qed.

(** The current section is one of the description's. *)
Definition parse_wf (st : RtcSdp.t * option nat) : Prop :=
  sdp_wf st.1 /\ match st.2 with Some i => (i < length (RtcSdp.sections st.1))%nat | None => True end.

Lemma sections_wf k l : sdp_wf k -> length l = length (RtcSdp.sections k) -> Forall section_wf l ->
  sdp_wf (RtcSdp.with_sections k (RtcSdp.media_sections_ k) l).
Proof. intros [_ Hm] Hl Hf. split; cbn; [done|by rewrite Hl]. Qed.
Lemma change_section_wf k i f :
  sdp_wf k -> (forall s, section_wf s -> section_wf (f s)) -> sdp_wf (RtcSdp.change_section k i f).
Proof.
  intros Hk Hf. apply sections_wf; [done|by rewrite length_alter|]. apply Forall_alter; [apply Hk|]. intros s _ Hs. auto.
Qed.

Lemma in_section_wf k cur f st :
  parse_wf (k, cur) -> (forall s s', section_wf s -> f s = Ok s' -> section_wf s') ->
  RtcSdp.in_section k cur f = Ok st -> parse_wf st.
Proof.
  intros [Hk Hc] Hf H. cbn in *. destruct cur as [i|]; [|done]. cbn in H.
  destruct (RtcSdp.sections k !! i) as [s|] eqn:E; [|done]. apply rbind_Ok_inv in H as (s' & Hs' & H). injection H as <-.
  split; cbn; [|by rewrite length_insert]. apply sections_wf; [done|by rewrite length_insert|].
  apply Forall_insert; [apply Hk|]. eapply Hf; [|done]. eapply Forall_lookup_1; [apply Hk|done].
Qed.

Lemma set_direction_wf k cur d : parse_wf (k, cur) -> parse_wf (RtcSdp.set_direction k cur d).
Proof.
  intros [Hk Hc]. cbn in *. assert (sdp_wf (RtcSdp.with_direction k d)) by (by destruct Hk).
  destruct cur as [i|]; [|by split]. split; [|cbn; by rewrite length_alter].
  apply (change_section_wf _ i (fun s => MediaSection.with_direction s d)); [done|by intros s []].
Qed.

(** [H] is a line that only fills a field. *)
Ltac field H := let y := fresh in apply rbind_Ok_inv in H as (y & _ & H); injection H as <-.

Lemma parse_line_wf st line st' : parse_wf st -> RtcSdp.parse_line st line = Ok st' -> parse_wf st'.
Proof.
  destruct st as [k cur]. intros Hp H. unfold RtcSdp.parse_line in H. cbv zeta in H. pose proof Hp as [Hk Hc]. cbn in Hk, Hc.
  destruct (Text.starts line "v="); [by injection H as <-|].
  destruct (Text.starts line "o="); [by field H; destruct Hk|].
  destruct (Text.starts line "s="); [by injection H as <-|].
  destruct (Text.starts line "t="); [by injection H as <-|].
  destruct (Text.starts line "c="); [by injection H as <-|].
  destruct (Text.starts line "a=msid-semantic:").
  { apply rbind_Ok_inv in H as (x & _ & H). destruct (Text.find _ _); [by field H; destruct Hk|by injection H as <-]. }
  destruct (Text.starts line "a=ice-ufrag:"); [by field H; destruct Hk|].
  destruct (Text.starts line "a=ice-pwd:"); [by field H; destruct Hk|].
  destruct (Text.starts line "a=fingerprint:"); [by field H; destruct Hk|].
  destruct (Text.starts line "a=candidate:"); [done|].
  destruct (Text.starts line "a=setup:").
  { apply rbind_Ok_inv in H as (x & _ & H). repeat (destruct (String.eqb x _); [injection H as <-; by destruct Hk|]). done. }
  destruct (Text.starts line "a=sendonly"); [injection H as <-; by apply set_direction_wf|].
  destruct (Text.starts line "a=recvonly"); [injection H as <-; by apply set_direction_wf|].
  destruct (Text.starts line "a=sendrecv"); [injection H as <-; by apply set_direction_wf|].
  destruct (Text.starts line "m=").
  { field H. split; cbn; [|rewrite length_app; cbn; lia]. destruct Hk as [Hf Hm]. split; cbn.
    - apply Forall_app. split; [done|]. constructor; [|done]. split; cbn; auto using keyed_nil.
    - rewrite length_app. eapply StdMap.below_mono; [|done]. lia. }
  destruct (Text.starts line "a=mid:" && bool_decide (cur <> None)).
  { apply rbind_Ok_inv in H as (x & _ & H). apply rbind_Ok_inv in H as (mid & _ & H). destruct cur as [i|]; [|by injection H as <-].
    injection H as <-. pose proof (change_section_wf k i (fun s => MediaSection.with_mid s mid) Hk) as Hk1.
    destruct Hk1 as [Hf Hm]; [by intros s []|]. split; cbn; [|by rewrite length_alter]. split; cbn; [done|].
    apply StdMap.below_set; [exact Hm|cbn; by rewrite length_alter]. }
  repeat match type of H with (if ?b then _ else _) = _ => destruct b end;
    try (eapply in_section_wf; [exact Hp| |exact H]; intros s s'; cbn beta;
         auto using parse_rtpmap_wf, parse_rtcp_fb_wf, parse_fmtp_wf, parse_ssrc_wf, parse_ssrc_group_wf, parse_extmap_wf).
  - apply parse_rtpmap_wf.
  - apply parse_rtcp_fb_wf.
  - apply parse_fmtp_wf.
  - apply parse_ssrc_wf.
  - apply parse_ssrc_group_wf.
  - apply parse_extmap_wf.
  - by injection H as <-.
Qed.

Lemma parse_lines_wf lines st st' : parse_wf st -> rfold RtcSdp.parse_line st lines = Ok st' -> parse_wf st'.
Proof. apply rfold_inv. intros a b a' Ha Hb. by apply (parse_line_wf a b). Qed.
Lemma parse_start_wf type : parse_wf (RtcSdp.new_RtcSdp type, None).
Proof. split; [|done]. split; cbn; [constructor|apply StdMap.below_nil]. Qed.

Lemma ParseSdp_wf sdp_type sdp_str k : RtcSdp.ParseSdp sdp_type sdp_str = Ok k -> sdp_wf k.
Proof.
  unfold RtcSdp.ParseSdp. intros H. apply rbind_Ok_inv in H as (lines & _ & H). destruct (length lines =? 0)%nat; [done|].
  apply rbind_Ok_inv in H as (type & _ & H). destruct (rfold _ _ _) as [[k' cur]| |] eqn:E; [|done|done]. injection H as ->.
  exact (proj1 (parse_lines_wf _ _ _ (parse_start_wf type) E)).
Qed.

(** ** What a browser sends first *)

(** [n name/rate] or [n name/rate/channels]. *)
Definition rtpmap (str : string) (n : Z) : Prop :=
  exists pt info more name rate rest clock,
    Text.StringSplit str " " = Ok (pt :: info :: more) /\ Text.stoi pt = Ok n /\
    Text.StringSplit info "/" = Ok (name :: rate :: rest) /\ Text.stoi rate = Ok clock /\
    match rest with [c] => exists channels, Text.stoi c = Ok channels | _ => True end.

Lemma parse_rtpmap_new s str n :
  rtpmap str n -> StdMap.find n (MediaSection.media_codecs_ s) = None -> RtcSdp.parse_rtpmap s ("a=rtpmap:" +:+ str) = Undef OobRead.
Proof.
  intros (pt & info & more & name & rate & rest & clock & H1 & H2 & H3 & H4 & H5) Hn. unfold RtcSdp.parse_rtpmap.
  assert (Text.substr ("a=rtpmap:" +:+ str) 9 = Ok str) as ->.
  { unfold Text.substr. rewrite Text.length_append. cbn [String.length Nat.add Nat.ltb Nat.leb].
    f_equal. }
  cbn [rbind]. rewrite H1. cbn [rbind]. rewrite H2. cbn [rbind]. rewrite H3. cbn [rbind]. rewrite H4. cbn [rbind].
  assert (exists ch, match rest with [c] => Text.stoi c | _ => Ok (-1) end = Ok ch) as [ch ->].
  { destruct rest as [|c [|]]; [by eexists|done|by eexists]. }
  cbn [rbind]. by rewrite Hn.
Qed.

Lemma rtpmap_line k i str :
  RtcSdp.parse_line (k, Some i) ("a=rtpmap:" +:+ str) =
  RtcSdp.in_section k (Some i) (fun s => RtcSdp.parse_rtpmap s ("a=rtpmap:" +:+ str)).
Proof.
  assert (E : Text.starts ("a=rtpmap:" +:+ str) "a=rtpmap:" = true) by apply Text.prefix_append.
  unfold RtcSdp.parse_line. rewrite E. reflexivity.
Qed.

(** C23: what a browser offers is never parsed.  In every description a browser makes, a
    payload type is first named by its [a=rtpmap:] line.  At the first such line the parser
    enters the codec into the section and then goes on with the iterator from before,
    which is [end()]: whatever the lines before and behind it say, and whatever the codec
    is, the behaviour is undefined. *)
Theorem rtpmap_first_undefined (sdp_type : string) (pre post : list string) (str : string) (n : Z) (k : RtcSdp.t) (i : nat)
    (s : MediaSection.t) :
  sdp_type = "offer" \/ sdp_type = "answer" ->
  Forall (Text.free RtcSdp.CRLF) (pre ++ ("a=rtpmap:" +:+ str) :: post) ->
  rfold RtcSdp.parse_line (RtcSdp.new_RtcSdp (if String.eqb sdp_type "offer" then RTC_SDP_OFFER else RTC_SDP_ANSWER), None) pre
    = Ok (k, Some i) ->
  RtcSdp.sections k !! i = Some s -> rtpmap str n -> StdMap.find n (MediaSection.media_codecs_ s) = None ->
  RtcSdp.ParseSdp sdp_type (Text.join RtcSdp.CRLF (pre ++ ("a=rtpmap:" +:+ str) :: post)) = Undef OobRead.
Proof.
  intros Ht Hfree Hpre Hi Hstr Hn. unfold RtcSdp.ParseSdp. rewrite Text.StringSplit_join by done. cbn [rbind].
  rewrite length_app. cbn [length]. rewrite (proj2 (Nat.eqb_neq _ _)) by lia.
  assert ((if String.eqb sdp_type "offer" then Ok RTC_SDP_OFFER
           else if String.eqb sdp_type "answer" then Ok RTC_SDP_ANSWER else Throw "Unknown SDP type")
          = Ok (if String.eqb sdp_type "offer" then RTC_SDP_OFFER else RTC_SDP_ANSWER)) as -> by (by destruct Ht as [-> | ->]).
  cbn [rbind]. rewrite rfold_app, Hpre. cbn [rbind rfold].
  rewrite rtpmap_line.
  cbn [RtcSdp.in_section]. by rewrite Hi, (parse_rtpmap_new s str n Hstr Hn).
Qed.

(** The beginning of an offer of a browser. *)
Definition chrome_offer : list string :=
  ["v=0"; "o=- 4611731400430051336 2 IN IP4 127.0.0.1"; "s=-"; "t=0 0"; "a=group:BUNDLE 0"; "a=extmap-allow-mixed";
   "a=msid-semantic: WMS -"; "m=audio 9 UDP/TLS/RTP/SAVPF 111"; "c=IN IP4 0.0.0.0"; "a=ice-ufrag:gD4v";
   "a=setup:actpass"; "a=mid:0"; "a=sendonly"; "a=rtcp-mux"].
Definition chrome_rest : list string := ["a=rtcp-fb:111 transport-cc"; "a=fmtp:111 minptime=10;useinbandfec=1"].

Lemma rtpmap_first_undefined_witness :
  RtcSdp.ParseSdp "offer" (Text.join RtcSdp.CRLF (chrome_offer ++ ("a=rtpmap:" +:+ "111 opus/48000/2") :: chrome_rest)) = Undef OobRead.
Proof.
  eapply (rtpmap_first_undefined "offer" chrome_offer chrome_rest "111 opus/48000/2" 111); [by left| |vm_compute; reflexivity|reflexivity| |reflexivity].
  - repeat (apply Forall_cons; split; [vm_compute; reflexivity|]). apply Forall_nil. exact I.
  - exists "111", "opus/48000/2", [], "opus", "48000", ["2"], 48000. split_and!; try reflexivity. by exists 2.
Defined.

(** ** What is answered *)

(** The section a description has under a mid. *)
Definition section_at (k : RtcSdp.t) (mid : Z) : option MediaSection.t :=
  match StdMap.find mid (RtcSdp.media_sections_ k) with Some i => RtcSdp.sections k !! i | None => None end.

Section Negotiation.
Context (f : SdpFilter.t) (d : DirectionType).
Implicit Types (o s : MediaSection.t) (k a : RtcSdp.t).

Definition accepted o : list (Z * Codec.t) :=
  filter (fun e : Z * Codec.t => SdpFilter.IsCodecFilter f (MediaSection.media_type_ o) e.2 = true) (MediaSection.media_codecs_ o).
Definition accepted_exts o : list (Z * ExtensionInfo.t) :=
  filter (fun e : Z * ExtensionInfo.t => SdpFilter.IsExtMapFilter f (ExtensionInfo.uri_ e.2) = true) (MediaSection.extensions_ o).
(** Everything the answer takes over from an offered section. *)
Definition changes o : list (MediaSection.t -> MediaSection.t) :=
  map (fun e : Z * Codec.t => Answer.take_codec o e.2) (accepted o) ++
  map (fun e : Z * ExtensionInfo.t => Answer.take_ext e.2) (accepted_exts o).
Definition built o : MediaSection.t := foldl (fun s g => g s) (Answer.section_for o d) (changes o).

Lemma foldl_if {A B} (p : B -> bool) (g : A -> B -> A) (l : list B) (x : A) :
  foldl (fun x e => if p e then g x e else x) x l = foldl g x (filter (fun e => p e = true) l).
Proof.
  revert x. induction l as [|e l IH]; intros x; cbn [foldl]; [done|]. rewrite filter_cons. destruct (p e); case_decide; try done; cbn; apply IH.
Qed.
Lemma foldl_map {A B C} (g : A -> C -> A) (h : B -> C) (l : list B) (x : A) : foldl (fun x e => g x (h e)) x l = foldl g x (map h l).
Proof. revert x. induction l as [|e l IH]; intros x; cbn; [done|apply IH]. Qed.

Lemma take_section_changes mid o a :
  Answer.take_section f d mid o a = foldl (fun a g => Answer.on_answer a mid o d g) a (changes o).
Proof.
  unfold Answer.take_section, changes. rewrite foldl_app, !foldl_if.
  by rewrite (foldl_map (fun a g => Answer.on_answer a mid o d g) (fun e : Z * ExtensionInfo.t => Answer.take_ext e.2)),
             (foldl_map (fun a g => Answer.on_answer a mid o d g) (fun e : Z * Codec.t => Answer.take_codec o e.2)).
Qed.

(** The first change makes the section, the others change it. *)
Lemma on_answer_all mid o gs a g0 :
  StdMap.find mid (RtcSdp.media_sections_ a) = None ->
  foldl (fun a g => Answer.on_answer a mid o d g) a (g0 :: gs) =
  RtcSdp.with_sections a (StdMap.set mid (length (RtcSdp.sections a)) (RtcSdp.media_sections_ a))
    (RtcSdp.sections a ++ [foldl (fun s g => g s) (Answer.section_for o d) (g0 :: gs)]).
Proof.
  intros Hn. cbn [foldl]. unfold Answer.on_answer at 2. rewrite Hn. set (s0 := g0 _). clearbody s0. clear g0.
  set (m := StdMap.set _ _ _). assert (Hm : StdMap.find mid m = Some (length (RtcSdp.sections a))) by apply StdMap.find_set_eq.
  clearbody m. revert s0. induction gs as [|g gs IH]; intros s0; cbn [foldl]; [done|].
  unfold Answer.on_answer at 2. cbn [RtcSdp.media_sections_ RtcSdp.with_sections]. rewrite Hm.
  unfold RtcSdp.change_section. cbn [RtcSdp.sections RtcSdp.media_sections_ RtcSdp.with_sections].
  assert (alter g (length (RtcSdp.sections a)) (RtcSdp.sections a ++ [s0]) = RtcSdp.sections a ++ [g s0]) as ->.
  { rewrite <- (Nat.add_0_r (length (RtcSdp.sections a))). by rewrite alter_app_r. }
  rewrite <- IH. done.
Qed.

(** The first loop: the answer has the sections built from the offered ones that something
    is taken from, each in a place of its own. *)
Definition made k a (done_ : list Z) : Prop :=
  sdp_wf a /\ NoDup (RtcSdp.media_sections_ a).*2 /\
  forall mid, section_at a mid =
    if decide (mid ∈ done_) then
      match section_at k mid with Some o => match changes o with [] => None | _ => Some (built o) end | None => None end
    else None.

Lemma take_codec_wf o c s : section_wf o -> section_wf s -> section_wf (Answer.take_codec o c s).
Proof.
  intros Ho Hs. unfold Answer.take_codec. cbv zeta.
  set (s1 := MediaSection.with_codecs s _). assert (H1 : section_wf s1) by by apply put_codec.
  set (s2 := if String.eqb (MediaSection.cname_ s1) EmptyString then _ else s1).
  assert (H2 : section_wf s2).
  { unfold s2. destruct (String.eqb _ _); [|done]. destruct (MediaSection.ssrc_infos_ o) as [|[? ?] ?]; [done|]. by destruct H1. }
  clearbody s2. destruct (0 <? _); [|done]. destruct (StdMap.find _ _); [|done]. by apply put_codec.
Qed.
Lemma take_ext_wf x s : section_wf s -> section_wf (Answer.take_ext x s).
Proof. intros Hs. apply with_exts_wf; [done|]. by apply keyed_set; [apply Hs|]. Qed.
Lemma section_for_wf o : section_wf (Answer.section_for o d).
Proof. split; cbn; auto using keyed_nil. Qed.
Lemma built_wf o : section_wf o -> section_wf (built o).
Proof.
  intros Ho. unfold built. assert (Hc : Forall (fun g => forall s, section_wf s -> section_wf (g s)) (changes o)).
  { apply Forall_app. split; apply Forall_map, Forall_forall; intros e _ s Hs; [by apply take_codec_wf|by apply take_ext_wf]. }
  assert (H0 : section_wf (Answer.section_for o d)) by apply section_for_wf. revert H0.
  generalize (Answer.section_for o d). induction Hc as [|g gs Hg _ IH]; intros s Hs; cbn; auto.
Qed.

Lemma section_at_add k mid mid' i s :
  StdMap.find mid (RtcSdp.media_sections_ k) = None -> sdp_wf k -> i = length (RtcSdp.sections k) ->
  section_at (RtcSdp.with_sections k (StdMap.set mid i (RtcSdp.media_sections_ k)) (RtcSdp.sections k ++ [s])) mid' =
    if decide (mid' = mid) then Some s else section_at k mid'.
Proof.
  intros Hn Hk ->. unfold section_at. cbn. rewrite StdMap.find_set. case_decide as E.
  - subst. rewrite Z.eqb_refl. by rewrite lookup_app_r, Nat.sub_diag by lia.
  - rewrite (proj2 (Z.eqb_neq mid' mid)) by done. destruct (StdMap.find mid' _) as [j|] eqn:Ej; [|done].
    rewrite lookup_app_l; [done|]. by eapply StdMap.below_find; [apply Hk|].
Qed.

Lemma made_step k a ks mid o :
  sdp_wf k -> made k a ks -> mid ∉ ks -> section_at k mid = Some o -> made k (Answer.take_section f d mid o a) (mid :: ks).
Proof.
  intros Hk (Ha & Hnd & Hat) Hmid Ho. rewrite take_section_changes.
  assert (How : section_wf o).
  { unfold section_at in Ho. destruct (StdMap.find _ _); [|done]. eapply Forall_lookup_1; [apply Hk|done]. }
  assert (Hf : section_at a mid = None) by (by rewrite Hat, decide_False).
  assert (Hn : StdMap.find mid (RtcSdp.media_sections_ a) = None).
  { unfold section_at in Hf. destruct (StdMap.find mid _) as [i|] eqn:Ei; [|done]. exfalso.
    assert (i < length (RtcSdp.sections a))%nat by (by eapply StdMap.below_find; [apply Ha|]).
    apply lookup_lt_is_Some in H as [? ?]. congruence. }
  pose proof (built_wf o How) as Hb. unfold built in Hb.
  destruct (changes o) as [|g0 gs] eqn:Ec.
  { cbn [foldl]. split_and!; [done|done|]. intros mid'. rewrite Hat. destruct (decide (mid' = mid)) as [->|Hne].
    - rewrite decide_False by done. rewrite decide_True by (by left). by rewrite Ho, Ec.
    - destruct (decide (mid' ∈ ks)); [by rewrite decide_True by (by right)|].
      rewrite decide_False; [done|]. by intros [->|?]%elem_of_cons. }
  rewrite on_answer_all by done. split_and!.
  - destruct Ha as [Hs Hm]. split; cbn.
    + apply Forall_app. split; [done|]. by constructor.
    + rewrite length_app. cbn. apply StdMap.below_set; [|lia]. eapply StdMap.below_mono; [|done]. lia.
  - cbn. rewrite (StdMap.set_Permutation _ _ _ Hn). cbn. apply NoDup_cons. split; [|done].
    intros ([k1 j] & Ej & Hj)%list_elem_of_fmap. cbn in Ej. subst j. destruct Ha as [_ Hm].
    pose proof (StdMap.below_entry _ _ _ Hm Hj) as Hlt. cbn in Hlt. lia.
  - intros mid'. rewrite section_at_add by done. destruct (decide (mid' = mid)) as [->|Hne].
    + rewrite decide_True by (by left). rewrite Ho, Ec. unfold built. by rewrite Ec.
    + rewrite Hat. destruct (decide (mid' ∈ ks)); [by rewrite decide_True by (by right)|].
      rewrite decide_False; [done|]. by intros [->|?]%elem_of_cons.
Qed.

Lemma entry_section k mid i : sdp_wf k -> (mid, i) ∈ RtcSdp.media_sections_ k ->
  exists o, RtcSdp.sections k !! i = Some o /\ section_at k mid = Some o /\ section_wf o.
Proof.
  intros [Hs Hm] Hin. pose proof (StdMap.below_entry _ _ _ Hm Hin) as Hlt. cbn in Hlt.
  apply lookup_lt_is_Some in Hlt as [o Ho]. exists o. split_and!; [done| |by eapply Forall_lookup_1].
  unfold section_at. rewrite (StdMap.In_find mid i); [done|apply Hm|by apply list_elem_of_In].
Qed.

Lemma made_all k l a ks :
  sdp_wf k -> made k a ks -> NoDup (l.*1 ++ ks) -> (forall e, e ∈ l -> e ∈ RtcSdp.media_sections_ k) ->
  exists a', rfold (fun a (e : Z * nat) => let! offer_media := Answer.offered_section k e.2 in
                     Ok (Answer.take_section f d e.1 offer_media a)) a l = Ok a' /\
    exists ks', made k a' ks' /\ forall x, x ∈ ks' <-> x ∈ l.*1 \/ x ∈ ks.
Proof.
  intros Hk. revert a ks. induction l as [|[mid i] l IH]; intros a ks Ha Hnd Hin; cbn [rfold].
  { exists a. split; [done|]. exists ks. split; [done|]. set_solver. }
  destruct (entry_section k mid i Hk (Hin _ ltac:(by left))) as (o & Ho & Hat & _).
  unfold Answer.offered_section at 1. cbn [fst snd]. rewrite Ho. cbn [rbind]. cbn in Hnd. apply NoDup_cons in Hnd as [Hmid Hnd].
  assert (Hstep : made k (Answer.take_section f d mid o a) (mid :: ks)) by (apply made_step; [done|done|set_solver|done]).
  destruct (IH _ _ Hstep) as (a' & -> & ks' & Hm & Hks).
  - apply NoDup_app in Hnd as (N1 & N2 & N3). apply NoDup_app. split_and!; [done| |].
    + intros x Hx [->|Hx']%elem_of_cons; [apply Hmid; apply elem_of_app; by left|by apply (N2 x)].
    + apply NoDup_cons. split; [|done]. intros Hx. apply Hmid. apply elem_of_app. by right.
  - intros e He. apply Hin. by right.
  - exists a'. split; [done|]. exists ks'. split; [done|]. intros x. rewrite Hks. cbn. set_solver.
Qed.

(** The second loop: every section of the answer gets the streams of the offered one. *)
Lemma set_above {V} (k : Z) (v : V) m : Forall (fun e : Z * V => e.1 < k) m -> StdMap.set k v m = m ++ [(k, v)].
Proof.
  induction 1 as [|[k1 v1] m Hk _ IH]; cbn in *; [done|]. rewrite (proj2 (Z.ltb_ge k k1)), (proj2 (Z.eqb_neq k k1)) by lia. by rewrite IH.
Qed.
Lemma copy_map {V} (m acc : list (Z * V)) :
  StdMap.sorted m -> Forall (fun e => Forall (fun e' => e'.1 < e.1) acc) m ->
  foldl (fun m (x : Z * V) => StdMap.set x.1 x.2 m) acc m = acc ++ m.
Proof.
  revert acc. induction m as [|[k v] m IH]; intros acc Hs Hf; cbn [foldl]; [by rewrite app_nil_r|].
  inversion Hf as [|? ? H1 H2]. subst. cbn [fst snd] in *. rewrite set_above by done. apply StdMap.sorted_cons in Hs as [Hs Hk].
  rewrite IH; [by rewrite <- app_assoc|done|]. apply Forall_forall. intros e He. apply Forall_app. split.
  - rewrite Forall_forall in H2. by apply H2.
  - constructor; [|done]. cbn. rewrite Forall_forall in Hk. apply Hk. apply list_elem_of_fmap. by exists e.
Qed.

Definition with_offered o s : MediaSection.t :=
  MediaSection.with_ssrcs s (foldl (fun m (x : Z * SsrcInfo.t) => StdMap.set x.1 x.2 m) (MediaSection.ssrc_infos_ s) (MediaSection.ssrc_infos_ o)).

Lemma take_ssrcs_all k l a a0 :
  sdp_wf k -> NoDup l.*2 -> (forall e, e ∈ l -> is_Some (section_at k e.1)) ->
  length (RtcSdp.sections a) = length (RtcSdp.sections a0) ->
  (forall e, e ∈ l -> RtcSdp.sections a !! e.2 = RtcSdp.sections a0 !! e.2) ->
  exists a', rfold (Answer.take_ssrcs k) a l = Ok a' /\ RtcSdp.media_sections_ a' = RtcSdp.media_sections_ a /\
    length (RtcSdp.sections a') = length (RtcSdp.sections a) /\
    (forall i, i ∉ l.*2 -> RtcSdp.sections a' !! i = RtcSdp.sections a !! i) /\
    forall mid i, (mid, i) ∈ l -> exists o, section_at k mid = Some o /\
      RtcSdp.sections a' !! i = option_map (with_offered o) (RtcSdp.sections a0 !! i).
Proof.
  intros Hk. revert a. induction l as [|[mid i] l IH]; intros a Hnd Hin Hlen Heq; cbn [rfold].
  { exists a. split_and!; try done. by intros mid i Hx%not_elem_of_nil. }
  cbn in Hnd. apply NoDup_cons in Hnd as [Hi Hnd].
  destruct (Hin (mid, i) ltac:(by left)) as [o Ho]. cbn in Ho.
  assert (Hstep : Answer.take_ssrcs k a (mid, i) = Ok (RtcSdp.change_section a i (with_offered o))).
  { unfold Answer.take_ssrcs. cbn [fst snd]. unfold section_at in Ho. destruct (StdMap.find mid _) as [j|]; [|done].
    unfold Answer.offered_section. by rewrite Ho. }
  rewrite Hstep. cbn [rbind]. destruct (IH (RtcSdp.change_section a i (with_offered o))) as (a' & -> & Hm & Hl & Hout & Hat);
    [done|intros e He; apply Hin; by right|cbn; by rewrite length_alter| |].
  { intros e He. cbn. rewrite list_lookup_alter_ne; [apply Heq; by right|]. intros ->. apply Hi. apply list_elem_of_fmap. by exists e. }
  exists a'. split; [done|]. split; [by rewrite Hm|]. split; [rewrite Hl; cbn; by rewrite length_alter|]. split.
  - intros j Hj. cbn in Hj. apply not_elem_of_cons in Hj as [Hj1 Hj2]. rewrite Hout by done. cbn. by rewrite list_lookup_alter_ne.
  - intros mid' i' [[= -> ->]|Hin']%elem_of_cons; [|by apply Hat]. exists o. split; [done|].
    rewrite Hout by done. cbn. rewrite list_lookup_alter_eq. pose proof (Heq (mid, i) ltac:(by left)) as Hx. cbn in Hx. rewrite Hx. by destruct (RtcSdp.sections a0 !! i).
Qed.

(** ** What the answer takes from a section *)

(** A codec of the offer is answered when the filter accepts it, or when it is the
    retransmission of a codec that the filter accepts. *)
Definition accepts o (c : Codec.t) : bool := SdpFilter.IsCodecFilter f (MediaSection.media_type_ o) c.
Definition kept o (pt : Z) : bool :=
  existsb (fun e : Z * Codec.t => accepts o e.2 && ((e.1 =? pt) || ((0 <? Codec.rtx_payload_type_ e.2) && (Codec.rtx_payload_type_ e.2 =? pt))))
          (MediaSection.media_codecs_ o).

Record answers o s : Prop := {
  an_type : MediaSection.media_type_ s = MediaSection.media_type_ o;
  an_mid : MediaSection.mid_ s = MediaSection.mid_ o;
  an_direction : MediaSection.direction_ s = d;
  an_codecs : forall pt, StdMap.find pt (MediaSection.media_codecs_ s) =
                if kept o pt then StdMap.find pt (MediaSection.media_codecs_ o) else None;
  an_exts : forall id, StdMap.find id (MediaSection.extensions_ s) =
              match StdMap.find id (MediaSection.extensions_ o) with
              | Some x => if SdpFilter.IsExtMapFilter f (ExtensionInfo.uri_ x) then Some x else None
              | None => None
              end;
  an_ssrcs : MediaSection.ssrc_infos_ s = MediaSection.ssrc_infos_ o
}.

(** While the codecs [cs] are taken. *)
Definition touches (pt : Z) (e : Z * Codec.t) : bool :=
  (e.1 =? pt) || ((0 <? Codec.rtx_payload_type_ e.2) && (Codec.rtx_payload_type_ e.2 =? pt)).
Lemma take_codecs_find o cs s pt :
  section_wf o -> (forall e, e ∈ cs -> e ∈ MediaSection.media_codecs_ o) ->
  StdMap.find pt (MediaSection.media_codecs_ (foldl (fun s g => g s) s (map (fun e : Z * Codec.t => Answer.take_codec o e.2) cs))) =
  if existsb (touches pt) cs then
    match StdMap.find pt (MediaSection.media_codecs_ o) with
    | Some c => Some c | None => StdMap.find pt (MediaSection.media_codecs_ s) end
  else StdMap.find pt (MediaSection.media_codecs_ s).
Proof.
  intros Ho. revert s. induction cs as [|[k c] cs IH]; intros s Hin; cbn [foldl map existsb]; [done|].
  rewrite IH by (intros e He; apply Hin; by right).
  assert (Hc : StdMap.find k (MediaSection.media_codecs_ o) = Some c).
  { apply StdMap.In_find; [apply Ho|]. apply list_elem_of_In, Hin. by left. }
  assert (Hk : Codec.payload_type_ c = k) by (by eapply found_codec).
  assert (Hone : StdMap.find pt (MediaSection.media_codecs_ (Answer.take_codec o c s)) =
    if touches pt (k, c) then
      match StdMap.find pt (MediaSection.media_codecs_ o) with
      | Some c => Some c | None => StdMap.find pt (MediaSection.media_codecs_ s) end
    else StdMap.find pt (MediaSection.media_codecs_ s)).
  { unfold Answer.take_codec, touches. cbv zeta. cbn [fst snd]. rewrite Hk.
    set (s1 := MediaSection.with_codecs s _). set (s2 := if String.eqb (MediaSection.cname_ s1) EmptyString then _ else s1).
    assert (H2 : MediaSection.media_codecs_ s2 = StdMap.set k c (MediaSection.media_codecs_ s)).
    { unfold s2. destruct (String.eqb _ _); [|done]. by destruct (MediaSection.ssrc_infos_ o) as [|[? ?] ?]. }
    clearbody s2. rewrite (Z.eqb_sym k pt), (Z.eqb_sym _ pt).
    destruct (0 <? _); cbn [andb]; [|rewrite orb_false_r, H2, StdMap.find_set; destruct (Z.eqb_spec pt k) as [->|]; [by rewrite Hc|done]].
    destruct (StdMap.find (Codec.rtx_payload_type_ c) (MediaSection.media_codecs_ o)) as [r|] eqn:Er.
    - assert (Hr : Codec.payload_type_ r = Codec.rtx_payload_type_ c) by (by eapply found_codec).
      cbn [MediaSection.media_codecs_ MediaSection.with_codecs]. rewrite Hr, H2, !StdMap.find_set.
      destruct (Z.eqb_spec pt (Codec.rtx_payload_type_ c)) as [->|]; [by rewrite orb_true_r, Er|]. rewrite orb_false_r.
      destruct (Z.eqb_spec pt k) as [->|]; [by rewrite Hc|done].
    - rewrite H2, StdMap.find_set. destruct (Z.eqb_spec pt k) as [->|]; [by rewrite Hc|]. cbn [orb].
      destruct (Z.eqb_spec pt (Codec.rtx_payload_type_ c)) as [->|]; [by rewrite Er|done]. }
  cbn [snd]. rewrite Hone. destruct (touches pt (k, c)); cbn [orb]; [|done].
  destruct (StdMap.find pt (MediaSection.media_codecs_ o)); [by destruct (existsb _ _)|by destruct (existsb _ _)].
Qed.

(** What the changes leave as it is. *)
Definition frame_of s := (MediaSection.media_type_ s, MediaSection.mid_ s, MediaSection.direction_ s, MediaSection.ssrc_infos_ s).
Lemma take_codec_frame o c s :
  frame_of (Answer.take_codec o c s) = frame_of s /\ MediaSection.extensions_ (Answer.take_codec o c s) = MediaSection.extensions_ s.
Proof.
  unfold Answer.take_codec. cbv zeta. destruct (String.eqb _ _), (MediaSection.ssrc_infos_ o) as [|[? ?] ?], (0 <? _); cbn;
    try destruct (StdMap.find _ _); done.
Qed.
Lemma take_codecs_frame o cs s :
  let s' := foldl (fun s g => g s) s (map (fun e : Z * Codec.t => Answer.take_codec o e.2) cs) in
  frame_of s' = frame_of s /\ MediaSection.extensions_ s' = MediaSection.extensions_ s.
Proof.
  revert s. induction cs as [|e cs IH]; intros s; cbn; [done|]. destruct (IH (Answer.take_codec o e.2 s)) as [-> ->]. apply take_codec_frame.
Qed.
Lemma take_exts_frame xs s :
  let s' := foldl (fun s g => g s) s (map (fun e : Z * ExtensionInfo.t => Answer.take_ext e.2) xs) in
  frame_of s' = frame_of s /\ MediaSection.media_codecs_ s' = MediaSection.media_codecs_ s.
Proof. revert s. induction xs as [|e xs IH]; intros s; cbn; [done|]. apply (IH (Answer.take_ext e.2 s)). Qed.
Lemma take_exts_find xs s id :
  keyed ExtensionInfo.id_ xs ->
  StdMap.find id (MediaSection.extensions_ (foldl (fun s g => g s) s (map (fun e : Z * ExtensionInfo.t => Answer.take_ext e.2) xs))) =
  match StdMap.find id xs with Some x => Some x | None => StdMap.find id (MediaSection.extensions_ s) end.
Proof.
  revert s. induction xs as [|[k x] xs IH]; intros s [Hs Hf]; cbn [foldl map]; [done|].
  apply StdMap.sorted_cons in Hs as [Hs Hk]. inversion Hf as [|? ? Hx Hf']. subst. cbn in Hx.
  rewrite IH by done. cbn [StdMap.find]. unfold Answer.take_ext. cbn [MediaSection.extensions_ MediaSection.with_exts].
  cbn [snd]. rewrite StdMap.find_set, Hx. destruct (Z.eqb_spec id k) as [->|]; [|done].
  by rewrite StdMap.keys_lt_find_None.
Qed.

Lemma filter_map_find {V} (p : V -> bool) (k : Z) (m : list (Z * V)) :
  StdMap.sorted m -> StdMap.find k (filter (fun e : Z * V => p e.2 = true) m) =
    match StdMap.find k m with Some v => if p v then Some v else None | None => None end.
Proof.
  induction m as [|[k1 v] m IH]; intros Hs; [done|]. apply StdMap.sorted_cons in Hs as [Hs Hk]. rewrite filter_cons.
  case_decide as Hp; cbn [fst snd] in Hp; cbn [StdMap.find]; destruct (Z.eqb_spec k k1) as [->|]; auto.
  - by rewrite Hp.
  - destruct (p v); [done|]. rewrite IH, StdMap.keys_lt_find_None by done. done.
Qed.
Lemma filter_keyed {V} (key : V -> Z) (p : Z * V -> Prop) `{!forall e, Decision (p e)} m : keyed key m -> keyed key (filter p m).
Proof.
  intros [Hs Hf]. split.
  2: { apply Forall_forall. intros e [_ He]%list_elem_of_filter. rewrite Forall_forall in Hf. by apply Hf. }
  induction m as [|[k v] m IH]; [done|]. apply StdMap.sorted_cons in Hs as [Hs Hk].
  inversion Hf. subst. rewrite filter_cons. case_decide; [|by apply IH]. apply StdMap.sorted_cons. split; [by apply IH|].
  apply Forall_forall. intros x Hx. rewrite Forall_forall in Hk. apply Hk. apply list_elem_of_fmap in Hx as (e & -> & He).
  apply list_elem_of_filter in He as [_ He]. apply list_elem_of_fmap. by exists e.
Qed.

Lemma built_answers o : section_wf o -> answers o (with_offered o (built o)).
Proof.
  intros Ho. unfold built, changes. rewrite foldl_app.
  set (s1 := foldl _ (Answer.section_for o d) _). pose proof (take_codecs_frame o (accepted o) (Answer.section_for o d)) as [F1 X1].
  fold s1 in F1, X1. pose proof (take_exts_frame (accepted_exts o) s1) as [F2 C2]. set (s2 := foldl _ s1 _) in *. rewrite F1 in F2.
  injection F2 as T2 M2 D2 S2. cbn in T2, M2, D2, S2. split; cbn [with_offered MediaSection.with_ssrcs MediaSection.media_type_ MediaSection.mid_
    MediaSection.direction_ MediaSection.media_codecs_ MediaSection.extensions_ MediaSection.ssrc_infos_]; try done.
  - intros pt. rewrite C2. unfold s1. rewrite take_codecs_find; [|done|by intros e [_ He]%list_elem_of_filter].
    assert (existsb (touches pt) (accepted o) = kept o pt) as ->.
    { unfold kept, accepted. fold (accepts o). induction (MediaSection.media_codecs_ o) as [|e l IH]; [done|]. rewrite filter_cons. cbn [existsb].
      fold (touches pt e). unfold accepts at 1. destruct (SdpFilter.IsCodecFilter _ _ _) eqn:E; case_decide; try done; cbn [existsb andb]; by rewrite IH. }
    cbn. destruct (kept o pt); [|done]. by destruct (StdMap.find pt _).
  - intros id. unfold s2. rewrite take_exts_find by (apply filter_keyed, Ho). unfold accepted_exts.
    rewrite (filter_map_find (fun x => SdpFilter.IsExtMapFilter f (ExtensionInfo.uri_ x))) by apply Ho. rewrite X1. cbn.
    destruct (StdMap.find id _) as [x|]; [|done]. by destruct (SdpFilter.IsExtMapFilter _ _).
  - rewrite S2. rewrite copy_map; [done|apply Ho|]. apply Forall_forall. intros. constructor.
Qed.

Lemma GenAnswerSdp_ok setup ufrag pwd fp uuid k :
  sdp_wf k ->
  exists a, Answer.GenAnswerSdp f setup d ufrag pwd fp uuid k = Ok a /\ sdp_wf a /\
    RtcSdp.ice_ufrag_ a = ufrag /\ RtcSdp.ice_pwd_ a = pwd /\ RtcSdp.finger_print_ a = fp /\
    forall mid, match section_at k mid with
                | None => section_at a mid = None
                | Some o =>
                    match changes o with
                    | [] => section_at a mid = None
                    | _ => exists s, section_at a mid = Some s /\ answers o s
                    end
                end.
Proof.
  intros Hk. unfold Answer.GenAnswerSdp. set (a0 := RtcSdp.mk _ _ _ _ _ _ _ _ _ _ _).
  assert (H0 : made k a0 []).
  { split_and!; [split; cbn; [constructor|apply StdMap.below_nil]|constructor|]. intros mid. by rewrite decide_False by set_solver. }
  assert (Hnd : NoDup (RtcSdp.media_sections_ k).*1).
  { destruct Hk as [_ [Hs _]]. unfold StdMap.sorted, StdMap.keys in Hs. clear -Hs. induction (RtcSdp.media_sections_ k) as [|e l IH]; [constructor|].
    inversion Hs as [|? ? Hs' Hf]. subst. apply NoDup_cons. split; [|by apply IH]. intros Hin. rewrite Forall_forall in Hf.
    apply Hf in Hin. lia. }
  destruct (made_all k (RtcSdp.media_sections_ k) a0 [] Hk H0) as (a & E & ks & (Ha & Hpl & Hat) & Hks);
    [by rewrite app_nil_r|done|]. rewrite E. cbn [rbind].
  assert (Hhead : RtcSdp.ice_ufrag_ a = ufrag /\ RtcSdp.ice_pwd_ a = pwd /\ RtcSdp.finger_print_ a = fp).
  { revert E. assert (Hi : RtcSdp.ice_ufrag_ a0 = ufrag /\ RtcSdp.ice_pwd_ a0 = pwd /\ RtcSdp.finger_print_ a0 = fp) by done. revert Hi.
    apply (rfold_inv (fun a => RtcSdp.ice_ufrag_ a = ufrag /\ RtcSdp.ice_pwd_ a = pwd /\ RtcSdp.finger_print_ a = fp)).
    intros x e x' Hx H. apply rbind_Ok_inv in H as (o & _ & [= <-]). rewrite take_section_changes.
    clear -Hx. revert x Hx. induction (changes o) as [|g gs IH]; intros x Hx; cbn [foldl]; [done|]. apply IH.
    unfold Answer.on_answer. by destruct (StdMap.find _ _). }
  assert (Hmem : forall mid, section_at k mid <> None -> mid ∈ ks).
  { intros mid Hm. apply Hks. left. unfold section_at in Hm. destruct (StdMap.find mid _) as [i|] eqn:Ei; [|done].
    apply StdMap.find_In in Ei. apply list_elem_of_fmap. exists (mid, i). split; [done|]. by apply list_elem_of_In. }
  assert (Hsrc : forall e, e ∈ RtcSdp.media_sections_ a -> is_Some (section_at k e.1)).
  { intros [mid i] He. destruct (entry_section a mid i Ha He) as (s & _ & Hs & _). rewrite Hat in Hs.
    destruct (decide _); [|done]. cbn. destruct (section_at k mid); [by eexists|done]. }
  destruct (take_ssrcs_all k (RtcSdp.media_sections_ a) a a Hk Hpl Hsrc eq_refl ltac:(done)) as (a' & E' & Hm & Hlen & Hout & Hin).
  exists a'. split; [done|].
  assert (Hat' : forall mid o s, section_at k mid = Some o -> section_at a mid = Some s -> section_at a' mid = Some (with_offered o s)).
  { intros mid o s Ho Hs. unfold section_at in Hs |- *. rewrite Hm. destruct (StdMap.find mid _) as [i|] eqn:Ei; [|done].
    apply StdMap.find_In, list_elem_of_In in Ei. destruct (Hin mid i Ei) as (o' & Ho' & ->). rewrite Hs. cbn. congruence. }
  split_and!.
  - split; [|rewrite Hm, Hlen; apply Ha]. apply Forall_lookup. intros i s Hi.
    destruct (decide (i ∈ (RtcSdp.media_sections_ a).*2)) as [Hx|Hx].
    + apply list_elem_of_fmap in Hx as ([mid j] & Ej & He). cbn in Ej. subst j. destruct (Hin mid i He) as (o & Ho & Hs). rewrite Hs in Hi.
      destruct (entry_section a mid i Ha He) as (s0 & Hs0 & _ & Hw). rewrite Hs0 in Hi. injection Hi as <-.
      assert (How : section_wf o).
      { unfold section_at in Ho. destruct (StdMap.find mid _); [|done]. eapply Forall_lookup_1; [apply Hk|done]. }
      apply with_ssrcs_wf; [done| |].
      * generalize (swf_ssrcs _ Hw). destruct (swf_ssrcs _ How) as [_ Hf]. revert Hf. generalize (MediaSection.ssrc_infos_ s0).
        induction (MediaSection.ssrc_infos_ o) as [|[q x] l IH]; intros m Hf Hkm; cbn; [done|]. inversion Hf. subst. apply IH; [done|].
        by apply keyed_set.
      * generalize (swf_range _ Hw). pose proof (swf_range _ How) as Hr. revert Hr. generalize (MediaSection.ssrc_infos_ s0).
        induction (MediaSection.ssrc_infos_ o) as [|[q x] l IH]; intros m Hf Hkm; cbn; [done|]. inversion Hf. subst. apply IH; [done|].
        by apply StdMap.Forall_set.
    + rewrite Hout in Hi by done. eapply Forall_lookup_1; [apply Ha|done].
  - revert E'. rewrite <- (proj1 Hhead). apply (rfold_inv (fun x => RtcSdp.ice_ufrag_ x = RtcSdp.ice_ufrag_ a)); [|done].
    intros x e x' Hx H. unfold Answer.take_ssrcs in H. destruct (StdMap.find _ _); [|done]. apply rbind_Ok_inv in H as (o & _ & [= <-]). done.
  - revert E'. rewrite <- (proj1 (proj2 Hhead)). apply (rfold_inv (fun x => RtcSdp.ice_pwd_ x = RtcSdp.ice_pwd_ a)); [|done].
    intros x e x' Hx H. unfold Answer.take_ssrcs in H. destruct (StdMap.find _ _); [|done]. apply rbind_Ok_inv in H as (o & _ & [= <-]). done.
  - revert E'. rewrite <- (proj2 (proj2 Hhead)). apply (rfold_inv (fun x => RtcSdp.finger_print_ x = RtcSdp.finger_print_ a)); [|done].
    intros x e x' Hx H. unfold Answer.take_ssrcs in H. destruct (StdMap.find _ _); [|done]. apply rbind_Ok_inv in H as (o & _ & [= <-]). done.
  - intros mid. destruct (section_at k mid) as [o|] eqn:Ho.
    + pose proof (Hmem mid ltac:(by rewrite Ho)) as Hmk. specialize (Hat mid). rewrite decide_True, Ho in Hat by done.
      assert (How : section_wf o).
      { unfold section_at in Ho. destruct (StdMap.find mid _); [|done]. eapply Forall_lookup_1; [apply Hk|done]. }
      destruct (changes o) as [|g gs] eqn:Ec.
      * unfold section_at in Hat |- *. rewrite Hm. destruct (StdMap.find mid _) as [i|] eqn:Ei; [|done].
        apply StdMap.find_In, list_elem_of_In in Ei. destruct (Hin mid i Ei) as (o' & _ & ->). by rewrite Hat.
      * exists (with_offered o (built o)). split; [by apply Hat'|by apply built_answers].
    + specialize (Hat mid). rewrite Ho in Hat. assert (section_at a mid = None) as Hn by (rewrite Hat; by case_decide).
      unfold section_at in Hn |- *. rewrite Hm. destruct (StdMap.find mid _) as [i|] eqn:Ei; [|done].
      apply StdMap.find_In, list_elem_of_In in Ei. destruct (Hin mid i Ei) as (o' & _ & ->). by rewrite Hn.
Qed.
End Negotiation.

(** C14: what is negotiated.  Whatever description was parsed, the answer is made without an
    exception, with the server's own ICE credentials and fingerprint.  It has a section for
    exactly those offered sections of which the filter accepts a codec or an extension; such
    a section keeps the media type, the mid and the announced streams, gets the direction of
    the answer, and has exactly the offered codecs that the filter accepts and their
    retransmissions, and exactly the offered extensions that the filter accepts. *)
Theorem answer_negotiated (f : SdpFilter.t) (setup : RtcSetupType) (d : DirectionType) (ufrag pwd fp uuid : string)
    (sdp_type sdp_str : string) (k : RtcSdp.t) :
  RtcSdp.ParseSdp sdp_type sdp_str = Ok k ->
  exists a, Answer.GenAnswerSdp f setup d ufrag pwd fp uuid k = Ok a /\
    RtcSdp.ice_ufrag_ a = ufrag /\ RtcSdp.ice_pwd_ a = pwd /\ RtcSdp.finger_print_ a = fp /\
    forall mid, match section_at k mid with
                | None => section_at a mid = None
                | Some o =>
                    (accepted f o = [] /\ accepted_exts f o = [] /\ section_at a mid = None) \/
                    ((accepted f o <> [] \/ accepted_exts f o <> []) /\
                     exists s, section_at a mid = Some s /\ answers f d o s)
                end.
Proof.
  intros Hk%ParseSdp_wf. destruct (GenAnswerSdp_ok f d setup ufrag pwd fp uuid k Hk) as (a & E & _ & H1 & H2 & H3 & Hat).
  exists a. split_and!; try done. intros mid. specialize (Hat mid). destruct (section_at k mid) as [o|]; [|done].
  unfold changes in Hat. destruct (accepted f o), (accepted_exts f o); cbn in Hat; [by left|right..]; (split; [|done]);
    [by right|by left..].
Qed.

(** An offer that is parsed: the [a=rtpmap:] lines come last. *)
Definition sample_offer : list string :=
  ["v=0"; "o=- 1 2 IN IP4 127.0.0.1"; "a=ice-ufrag:abcd"; "a=fingerprint:sha-256 AA"; "a=setup:actpass"; "a=sendonly";
   "m=video 9 UDP/TLS/RTP/SAVPF 96 97 98"; "a=mid:0";
   "a=extmap:3 http://www.ietf.org/id/draft-holmer-rmcat-transport-wide-cc-extensions-01";
   "a=extmap:4 urn:ietf:params:rtp-hdrext:sdes:mid"; "a=extmap:5 urn:3gpp:video-orientation";
   "a=rtcp-fb:96 nack"; "a=rtcp-fb:96 nack pli";
   "a=fmtp:96 level-asymmetry-allowed=1;packetization-mode=1;profile-level-id=42e01f"; "a=rtpmap:96 H264/90000";
   "a=fmtp:97 apt=96"; "a=rtpmap:97 rtx/90000"; "a=fmtp:98 profile-id=0"; "a=rtpmap:98 VP9/90000";
   "a=ssrc-group:FID 1000 2000"; "a=ssrc:1000 cname:c"; "a=ssrc:1000 msid:st tr"; "a=ssrc:2000 cname:c"].
Definition sample_text : string := Text.join RtcSdp.CRLF sample_offer.
Definition parsed_offer : RtcSdp.t :=
  match RtcSdp.ParseSdp "offer" sample_text with Ok k => k | _ => RtcSdp.new_RtcSdp RTC_SDP_OFFER end.

Lemma answer_negotiated_witness :
  exists a s, Answer.GenAnswerSdp SdpFilter.g_sdp_answer_filter RTC_SETUP_PASSIVE DIRECTION_RECVONLY "uf" "pw" "fp" "uuid" parsed_offer = Ok a /\
    section_at a 0 = Some s /\ MediaSection.direction_ s = DIRECTION_RECVONLY /\
    StdMap.find 98 (MediaSection.media_codecs_ s) = None /\ is_Some (StdMap.find 97 (MediaSection.media_codecs_ s)).
Proof.
  destruct (answer_negotiated SdpFilter.g_sdp_answer_filter RTC_SETUP_PASSIVE DIRECTION_RECVONLY "uf" "pw" "fp" "uuid" "offer" sample_text
    parsed_offer ltac:(vm_compute; reflexivity)) as (a & E & _ & _ & _ & Hat).
  specialize (Hat 0). destruct (section_at parsed_offer 0) as [o|] eqn:Eo; [|exfalso; vm_compute in Eo; discriminate Eo].
  assert (Ho : match section_at parsed_offer 0 with Some o => kept SdpFilter.g_sdp_answer_filter o 98 = false /\
      kept SdpFilter.g_sdp_answer_filter o 97 = true /\ is_Some (StdMap.find 97 (MediaSection.media_codecs_ o)) /\
      (accepted SdpFilter.g_sdp_answer_filter o = [] -> False) | None => True end)
    by (vm_compute; split; [reflexivity|split; [reflexivity|split; [eexists; reflexivity|discriminate]]]).
  rewrite Eo in Ho. destruct Ho as (K98 & K97 & F97 & Hne).
  destruct Hat as [(Hnil & _)|(_ & s & Hs & An)]; [by destruct Hne|].
  exists a, s. split; [exact E|]. split; [exact Hs|]. split; [apply (an_direction _ _ _ _ An)|]. split.
  - by rewrite (an_codecs _ _ _ _ An), K98.
  - by rewrite (an_codecs _ _ _ _ An), K97.
Defined.

(** ** The parameters of the streams *)

Definition payloads_ok (s : MediaSection.t) : Prop :=
  Forall (fun e : Z * Codec.t => 0 <= Codec.payload_type_ e.2 < 128) (MediaSection.media_codecs_ s).

Lemma params_of_wf mid s p : section_wf s -> payloads_ok s -> params_of mid s = Some p -> RtpSessionParam.wf p.
Proof.
  intros Hs Hp H. unfold params_of in H.
  assert (exists p0, RtpSessionParam.wf p0 /\
    foldl (fun p (e : Z * Codec.t) => read_codec p e.2) (read_ssrcs (read_exts p0 (MediaSection.extensions_ s)) (MediaSection.ssrc_infos_ s))
      (MediaSection.media_codecs_ s) = p) as (p0 & Hw & <-).
  { destruct (MediaSection.media_type_ s); try done; injection H as <-; eexists; (split; [|reflexivity]); split; cbn; lia. }
  clear H.
  assert (H1 : RtpSessionParam.wf (read_exts p0 (MediaSection.extensions_ s))).
  { clear -Hw. unfold read_exts. revert p0 Hw. induction (MediaSection.extensions_ s) as [|e l IH]; intros p Hw; cbn [foldl]; [done|].
    apply IH. cbv zeta. repeat destruct (String.eqb _ _); try done; by destruct Hw. }
  assert (H2 : RtpSessionParam.wf (read_ssrcs (read_exts p0 (MediaSection.extensions_ s)) (MediaSection.ssrc_infos_ s))).
  { revert H1. generalize (read_exts p0 (MediaSection.extensions_ s)). unfold read_ssrcs.
    assert (Hr : Forall (fun e : Z * SsrcInfo.t => 0 <= SsrcInfo.ssrc_ e.2 < 4294967296) (MediaSection.ssrc_infos_ s)).
    { pose proof (swf_range s Hs) as Hr. destruct (swf_ssrcs s Hs) as [_ Hk]. rewrite Forall_forall in *.
      intros e He. rewrite (Hk e He). by apply Hr. }
    induction Hr as [|e l He _ IH]; intros p Hwp; cbn [foldl]; [done|]. apply IH.
    destruct (SsrcInfo.is_main_ e.2); destruct Hwp; by split. }
  revert H2. generalize (read_ssrcs (read_exts p0 (MediaSection.extensions_ s)) (MediaSection.ssrc_infos_ s)).
  unfold payloads_ok in Hp. induction Hp as [|e l He _ IH]; intros p Hwp; cbn [foldl]; [done|]. apply IH.
  unfold read_codec. destruct Hwp. destruct (Codec.is_rtx_ e.2); split; cbn; rewrite ?u8_small by lia; try done; try lia. apply u32_range.
Qed.

Lemma params_wf a :
  sdp_wf a -> Forall payloads_ok (RtcSdp.sections a) -> Forall RtpSessionParam.wf (GetRtpSessionParamsFromSdp a).
Proof.
  intros Ha Hp. apply Forall_forall. intros p Hin. apply list_elem_of_omap in Hin as ([mid i] & _ & Hx). cbn in Hx.
  destruct (RtcSdp.sections a !! i) as [s|] eqn:E; [|done]. eapply params_of_wf; [| |exact Hx].
  - eapply Forall_lookup_1; [apply Ha|done].
  - by eapply Forall_lookup_1.
Qed.

(** ** The streams of subscribers in an answer *)

Lemma key_value_total part : exists r, key_value part = Ok r.
Proof. unfold key_value. destruct (Text.StringSplit_total part "=") as (l & ->); [done|]. by eexists. Qed.
Lemma params_map_total items m : exists r, Pullers.params_map items m = Ok r.
Proof.
  revert m. induction items as [|item items IH]; intros m; cbn [Pullers.params_map]; [by eexists|].
  destruct (key_value_total item) as ([[k v]|] & ->); cbn [rbind]; [apply IH|by eexists].
Qed.
Lemma FmtpParamContain_total a b : exists r, Pullers.FmtpParamContain a b = Ok r.
Proof.
  unfold Pullers.FmtpParamContain. destruct (Text.StringSplit_total a ";") as (la & ->); [done|].
  destruct (Text.StringSplit_total b ";") as (lb & ->); [done|]. cbn [rbind]. destruct (_ || _); [by eexists|].
  destruct (params_map_total la []) as ([ma|] & ->); cbn [rbind]; [|by eexists].
  destruct (params_map_total lb []) as ([mb|] & ->); cbn [rbind]; by eexists.
Qed.
Lemma fits_total mt p c : exists r, Pullers.fits mt p c = Ok r /\ (r = true -> Codec.codec_name_ c = codec_name_ p).
Proof.
  unfold Pullers.fits. destruct (FmtpParamContain_total (Codec.fmtp_param_ c) (fmtp_param_ p)) as (b & Hb).
  destruct mt; rewrite ?Hb; cbn [rbind]; eexists; (split; [reflexivity|]); intros [H _]%andb_true_iff; by apply String.eqb_eq in H.
Qed.

(** What of a subscriber's parameters is the publisher's, whatever the answer says. *)
Definition same_stream (p p' : RtpSessionParam.t) : Prop :=
  av_type_ p' = av_type_ p /\ mid_ p' = mid_ p /\ ssrc_ p' = ssrc_ p /\ rtx_ssrc_ p' = rtx_ssrc_ p /\
  codec_name_ p' = codec_name_ p /\ clock_rate_ p' = clock_rate_ p /\ channel_ p' = channel_ p.
Lemma same_stream_trans p q r : same_stream p q -> same_stream q r -> same_stream p r.
Proof. unfold same_stream. naive_solver congruence. Qed.

(** The codec a subscriber's packets are sent as. *)
Definition sent_as (p p' : RtpSessionParam.t) (m : list (Z * Codec.t)) : Prop :=
  exists pt c, (pt, c) ∈ m /\ Codec.codec_name_ c = codec_name_ p /\ payload_type_ p' = u8 (Codec.payload_type_ c) /\
    Codec.rate_ c = Json.s32 (clock_rate_ p) /\ Codec.channel_ c = channel_ p.

Lemma main_codec_ok mt p m :
  exists r, Pullers.main_codec mt p m = Ok r /\
    match r with
    | None => True
    | Some (p', m') => same_stream p p' /\ sent_as p p' m' /\ m'.*1 = m.*1 /\
        map (fun e : Z * Codec.t => Codec.payload_type_ e.2) m' = map (fun e : Z * Codec.t => Codec.payload_type_ e.2) m /\
        tcc_ext_id_ p' = tcc_ext_id_ p /\ mid_ext_id_ p' = mid_ext_id_ p /\ abs_send_time_ext_id_ p' = abs_send_time_ext_id_ p
    end.
Proof.
  induction m as [|[pt c] m (r & IH & Hr)]; cbn [Pullers.main_codec]; [by eexists|].
  destruct (fits_total mt p c) as (b & -> & Hb). cbn [rbind]. destruct b.
  - eexists. split; [reflexivity|]. cbn. split_and!; try done. do 2 eexists. split; [left|]. cbn. split_and!; try done. by apply Hb.
  - rewrite IH. cbn [rbind]. eexists. split; [reflexivity|]. destruct r as [[p' m']|]; [|done].
    destruct Hr as (H1 & (pt' & c' & Hin & Hc) & H3 & H4 & H5). cbn. split_and!; try done; [|by rewrite H3|by rewrite H4|naive_solver..].
    exists pt', c'. split; [by right|done].
Qed.

Lemma agree_ext_same p id uri p' :
  Pullers.agree_ext p id uri = Some p' ->
  same_stream p p' /\ payload_type_ p' = payload_type_ p.
Proof. unfold Pullers.agree_ext. repeat case_match; intros [= <-]; by split_and!. Qed.
Lemma agree_exts_same m p :
  same_stream p (Pullers.agree_exts p m).1 /\ payload_type_ (Pullers.agree_exts p m).1 = payload_type_ p /\
  sublist (Pullers.agree_exts p m).2 m.
Proof.
  revert p. induction m as [|[id x] m IH]; intros p; cbn [Pullers.agree_exts]; [by split_and!|].
  destruct (Pullers.agree_ext p id (ExtensionInfo.uri_ x)) as [p1|] eqn:E.
  - apply agree_ext_same in E as [E1 E2]. destruct (IH p1) as (H1 & H2 & H3). destruct (Pullers.agree_exts p1 m) as [p' m'].
    cbn in *. split_and!; [by eapply same_stream_trans|by rewrite H2|by constructor].
  - destruct (IH p) as (H1 & H2 & H3). split_and!; try done. by constructor.
Qed.

Lemma update_section_ok stream mt p s :
  exists p' s', Pullers.update_section stream mt p s = Ok (p', s') /\ same_stream p p' /\
    MediaSection.media_type_ s' = MediaSection.media_type_ s /\ MediaSection.mid_ s' = MediaSection.mid_ s /\
    MediaSection.direction_ s' = DIRECTION_SENDONLY /\ MediaSection.ssrc_infos_ s' = Pullers.announced p stream /\
    (payload_type_ p = u8 (payload_type_ p) -> sent_as p p' (MediaSection.media_codecs_ s')) /\
    (payloads_ok s -> 0 <= payload_type_ p < 128 -> 0 <= payload_type_ p' < 128 /\ payloads_ok s') /\
    sublist (MediaSection.extensions_ s') (MediaSection.extensions_ s).
Proof.
  unfold Pullers.update_section. set (s1 := MediaSection.with_ssrcs _ _).
  destruct (main_codec_ok mt p (MediaSection.media_codecs_ s1)) as (r & -> & Hr). cbn [rbind].
  set (r' := match r with Some r => r | None => _ end).
  assert (Hr' : same_stream p r'.1 /\ (payload_type_ p = u8 (payload_type_ p) -> sent_as p r'.1 r'.2) /\
    (payloads_ok s -> 0 <= payload_type_ p < 128 -> 0 <= payload_type_ r'.1 < 128 /\
       Forall (fun e : Z * Codec.t => 0 <= Codec.payload_type_ e.2 < 128) r'.2)).
  { unfold r'. destruct r as [[p1 m1]|]; cbn [fst snd].
    - destruct Hr as (H1 & H2 & _ & H4 & _). split; [done|]. split; [done|]. intros Hok _.
      assert (Hm : Forall (fun e : Z * Codec.t => 0 <= Codec.payload_type_ e.2 < 128) m1).
      { assert (Hf : Forall (fun z => 0 <= z < 128) (map (fun e : Z * Codec.t => Codec.payload_type_ e.2) m1)).
        { rewrite H4. apply Forall_map. exact Hok. }
        by apply Forall_map in Hf. }
      split; [|done]. destruct H2 as (pt & c & Hin & _ & -> & _). rewrite Forall_forall in Hm. specialize (Hm _ Hin). cbn in Hm.
      rewrite u8_small; lia.
    - split; [done|]. split.
      + intros Hu. exists (payload_type_ p), (Pullers.own_codec p). split_and!; try done.
        apply list_elem_of_In, StdMap.find_In, StdMap.find_set_eq.
      + intros Hok Hp. split; [done|]. apply StdMap.Forall_set; [done|exact Hok]. }
  destruct r' as [p1 m1]. cbn [fst snd] in Hr'. destruct Hr' as (H1 & H2 & H3).
  destruct (agree_exts_same (MediaSection.extensions_ s1) p1) as (E1 & E2 & E3).
  destruct (Pullers.agree_exts p1 (MediaSection.extensions_ s1)) as [p2 x2]. cbn [fst snd] in *.
  do 2 eexists. split; [reflexivity|]. cbn. split_and!; try done.
  - by eapply same_stream_trans.
  - intros Hu. destruct (H2 Hu) as (pt & c & A & B & C & D). exists pt, c. by rewrite E2.
  - intros Hok Hp. rewrite E2. destruct (H3 Hok Hp) as [A B]. by split.
Qed.

(** A subscriber's parameters through the whole answer. *)
Definition places (k : RtcSdp.t) (l : list (Z * nat)) : Prop := Forall (fun e : Z * nat => (e.2 < length (RtcSdp.sections k))%nat) l.
Definition in_range (p : RtpSessionParam.t) : Prop := 0 <= payload_type_ p < 128.
(** The answer with other sections. *)
Record resectioned (k k' : RtcSdp.t) : Prop := {
  rs_frame : k' = RtcSdp.with_sections k (RtcSdp.media_sections_ k) (RtcSdp.sections k');
  rs_kinds : map MediaSection.media_type_ (RtcSdp.sections k') = map MediaSection.media_type_ (RtcSdp.sections k);
  rs_mids : map MediaSection.mid_ (RtcSdp.sections k') = map MediaSection.mid_ (RtcSdp.sections k)
}.
Lemma resectioned_refl k : resectioned k k.
Proof. split; [by destruct k|done..]. Qed.
Lemma resectioned_trans k1 k2 k3 : resectioned k1 k2 -> resectioned k2 k3 -> resectioned k1 k3.
Proof. intros [F1 K1 M1] [F2 K2 M2]. split; [rewrite F2, F1; done|by rewrite K2|by rewrite M2]. Qed.
Lemma resectioned_places k k' l : resectioned k k' -> places k l -> places k' l.
Proof. intros [_ K _]. unfold places. apply (f_equal length) in K. rewrite !length_map in K. by rewrite K. Qed.
Lemma resectioned_list k k' : resectioned k k' -> RtcSdp.media_sections_ k' = RtcSdp.media_sections_ k.
Proof. by intros [-> _ _]. Qed.

Lemma update_puller_ok uuid n p k :
  places k (RtcSdp.media_sections_ k) ->
  exists n' p' k', Pullers.update_puller uuid (n, p, k) = Ok (n', p', k') /\ same_stream p p' /\ resectioned k k' /\
    (Forall payloads_ok (RtcSdp.sections k) -> in_range p -> in_range p' /\ Forall payloads_ok (RtcSdp.sections k')).
Proof.
  unfold Pullers.update_puller. generalize (av_type_ p) as mt, (RtcSdp.media_sections_ k) as l.
  intros mt l. revert n p k. induction l as [|[z x] l IH]; intros n p k Hl; cbn [rfold].
  { exists n, p, k. split_and!; done || apply resectioned_refl. }
  apply Forall_cons in Hl as [Hx Hl]. cbn in Hx. destruct (lookup_lt_is_Some_2 _ _ Hx) as (s & Es). cbn [fst snd]. rewrite Es.
  destruct (SdpFilter.same_type (MediaSection.media_type_ s) mt).
  - destruct (update_section_ok (uuid n) mt p s) as (p1 & s1 & -> & H1 & H2 & H3 & _ & _ & _ & H4 & _). cbn [rbind fst snd].
    set (k1 := RtcSdp.with_sections k _ _).
    assert (Hk : resectioned k k1).
    { split; [done|..]; unfold k1; cbn; by apply map_insert_same with (x := s). }
    destruct (IH (S n) p1 k1 (resectioned_places _ _ _ Hk Hl)) as (n' & p' & k' & -> & A & B & C).
    exists n', p', k'. split_and!; [done|by eapply same_stream_trans|by eapply resectioned_trans|].
    intros Hok Hp. destruct (H4 (Forall_lookup_1 _ _ _ _ Hok Es) Hp) as [G1 G2].
    apply C; [|done]. unfold k1. cbn. by apply Forall_insert.
  - cbn [rbind]. by apply IH.
Qed.

Lemma UpdateRtcSdpByPullers_ok uuid n params k :
  places k (RtcSdp.media_sections_ k) ->
  exists params' k', Pullers.UpdateRtcSdpByPullers uuid n params k = Ok (params', k') /\
    Forall2 same_stream params params' /\ resectioned k k' /\
    (Forall payloads_ok (RtcSdp.sections k) -> Forall in_range params ->
     Forall in_range params' /\ Forall payloads_ok (RtcSdp.sections k')).
Proof.
  revert n k. induction params as [|p l IH]; intros n k Hk; cbn [Pullers.UpdateRtcSdpByPullers].
  { exists [], k. split_and!; done || apply resectioned_refl. }
  destruct (update_puller_ok uuid n p k Hk) as (n1 & p1 & k1 & -> & A & B & C). cbn [rbind].
  destruct (IH n1 k1) as (l' & k' & -> & A' & B' & C').
  { rewrite (resectioned_list _ _ B). by eapply resectioned_places. }
  cbn [rbind fst snd]. exists (p1 :: l'), k'. split_and!; [done|by constructor|by eapply resectioned_trans|].
  intros Hok Hp. apply Forall_cons in Hp as [Hp Hps]. destruct (C Hok Hp) as [C1 C2]. destruct (C' C2 Hps) as [C3 C4].
  split; [by constructor|done].
Qed.

(** An answer of audio and video sections always has a text. *)
Definition audio_video (k : RtcSdp.t) (e : Z * nat) : Prop :=
  exists s, RtcSdp.sections k !! e.2 = Some s /\ (MediaSection.media_type_ s = MEDIA_AUDIO_TYPE \/ MediaSection.media_type_ s = MEDIA_VIDEO_TYPE).
Lemma GenSdpString_total num k b :
  Forall (audio_video k) (RtcSdp.media_sections_ k) -> exists str, SdpText.GenSdpString num k b = Ok str.
Proof.
  assert (Ha : forall l acc, Forall (audio_video k) l -> exists str,
    rfold (fun acc (e : Z * nat) => let! s := SdpText.section_string num k b e.2 in Ok (acc +:+ s)) acc l = Ok str).
  2: { apply Ha. }
  clear. intros l acc Hl. revert acc. induction Hl as [|e l (s & Es & Ht) _ IH]; intros acc; cbn [rfold]; [by eexists|].
  unfold SdpText.section_string. rewrite Es. destruct Ht as [-> | ->]; cbn [rbind]; apply IH.
Qed.
Lemma resectioned_audio_video k k' e : resectioned k k' -> audio_video k e -> audio_video k' e.
Proof.
  intros [_ K _] (s & Es & Ht). assert (Hy : (MediaSection.media_type_ <$> RtcSdp.sections k') !! e.2 = Some (MediaSection.media_type_ s)).
  { change (MediaSection.media_type_ <$> RtcSdp.sections k') with (map MediaSection.media_type_ (RtcSdp.sections k')).
    rewrite K, list_lookup_fmap, Es. done. }
  rewrite list_lookup_fmap in Hy. destruct (RtcSdp.sections k' !! e.2) as [s'|] eqn:E'; [|done]. injection Hy as Hy.
  exists s'. by rewrite Hy.
Qed.


