(* ===== verification/MediaPusher.v ===== *)
(** [webrtc_room/media_pusher.cpp] and [.hpp]: one published track.  Packets find their
    receiving session by SSRC, RTX packets are recovered by it, and every new packet goes
    on to the room with its mid cleared; sender reports are passed to the session, and
    key frames are requested from the publisher. *)
From S2P Require Import Prelude Effect ByteStream RtpPub StdMap RtpPacket RtpPacketEdits RtcpReports RtcpFeedback.
From S2P Require Import Nack RtpSession RtpRecvSession.

Module MediaPusher.

(** The calls a pusher makes: [cb_->OnTransportSendRtcp],
    [voice_agent_ptr_->PushRtpPacket] and [packet2room_cb_->OnRtpPacketFromRtcPusher]. *)
Inductive call :=
  | TransportSendRtcp (data : list Z)
  | PushToVoiceAgent (pkt : RtpPacket.t)
  | RtpPacketFromRtcPusher (user_id session_id pusher_id : string) (pkt : RtpPacket.t).

(** The sessions live in a store; the maps hold references to it, and several SSRCs may
    share one.  [voice_agent_ptr_] says whether the agent exists. *)
Record t := mk {
  param_ : RtpSessionParam.t;
  user_id_ : string; session_id_ : string; pusher_id_ : string;
  cb_ : bool;
  store : list RtpRecvSession.t;
  ssrc2sessions_ : list (Z * nat);
  rtxssrc2sessions_ : list (Z * nat);
  last_statics_ms_ : Z; last_keyframe_request_ms_ : Z;
  voice_agent_ptr_ : bool
}.

Definition new_MediaPusher (param : RtpSessionParam.t) (user_id session_id uuid : string) (cb : bool) : t :=
  mk param user_id session_id uuid cb [] [] [] (-1) (-1) false.

Definition with_store (k : t) (st : list RtpRecvSession.t) : t :=
  mk (param_ k) (user_id_ k) (session_id_ k) (pusher_id_ k) (cb_ k) st (ssrc2sessions_ k) (rtxssrc2sessions_ k)
     (last_statics_ms_ k) (last_keyframe_request_ms_ k) (voice_agent_ptr_ k).
Definition with_maps (k : t) (main rtx : list (Z * nat)) : t :=
  mk (param_ k) (user_id_ k) (session_id_ k) (pusher_id_ k) (cb_ k) (store k) main rtx
     (last_statics_ms_ k) (last_keyframe_request_ms_ k) (voice_agent_ptr_ k).
Definition with_times (k : t) (statics keyframe : Z) : t :=
  mk (param_ k) (user_id_ k) (session_id_ k) (pusher_id_ k) (cb_ k) (store k) (ssrc2sessions_ k) (rtxssrc2sessions_ k)
     statics keyframe (voice_agent_ptr_ k).
Definition with_voice (k : t) : t :=
  mk (param_ k) (user_id_ k) (session_id_ k) (pusher_id_ k) (cb_ k) (store k) (ssrc2sessions_ k) (rtxssrc2sessions_ k)
     (last_statics_ms_ k) (last_keyframe_request_ms_ k) true.
Definition with_param (k : t) (p : RtpSessionParam.t) : t :=
  mk p (user_id_ k) (session_id_ k) (pusher_id_ k) (cb_ k) (store k) (ssrc2sessions_ k) (rtxssrc2sessions_ k)
     (last_statics_ms_ k) (last_keyframe_request_ms_ k) (voice_agent_ptr_ k).

Definition CreateRtpRecvSession (k : t) : t :=
  let p := param_ k in
  let i := length (store k) in
  let k := with_store k (store k ++ [RtpRecvSession.new_RtpRecvSession p]) in
  with_maps k (StdMap.set (RtpSessionParam.ssrc_ p) i (ssrc2sessions_ k))
    (if negb (RtpSessionParam.rtx_ssrc_ p =? 0) then StdMap.set (RtpSessionParam.rtx_ssrc_ p) i (rtxssrc2sessions_ k)
     else rtxssrc2sessions_ k).

Definition UpdateSSRC (k : t) (new_ssrc : Z) : t := with_param k (RtpSessionParam.with_ssrc (param_ k) new_ssrc).

(** The loops over a map for the session with a payload type, in key order. *)
Fixpoint find_payload (st : list RtpRecvSession.t) (payload_type : Z) (m : list (Z * nat)) : res (option nat) :=
  match m with
  | [] => Ok None
  | (_, i) :: m' =>
      match st !! i with
      | None => Undef NullDeref
      | Some s =>
          if RtpSessionParam.payload_type_ (RtpRecvSession.param_ s) =? payload_type then Ok (Some i)
          else find_payload st payload_type m'
      end
  end.

(** [session->UpdateSSRC(ssrc)] on the session [i]. *)
Definition rebind (k : t) (i : nat) (ssrc : Z) : t :=
  with_store k (alter (fun s => RtpRecvSession.UpdateSSRC s ssrc) i (store k)).

(** The session of a packet and [is_rtx]; [None] is the null pointer. *)
Definition GetRtpRecvSession (k : t) (rtp_pkt : RtpPacket.t) : res (t * option (nat * bool)) :=
  let! ssrc := RtpPacket.GetSsrc rtp_pkt in
  let! payload_type := RtpPacket.GetPayloadType rtp_pkt in
  match StdMap.find ssrc (ssrc2sessions_ k) with
  | Some i => Ok (k, Some (i, false))
  | None =>
  match StdMap.find ssrc (rtxssrc2sessions_ k) with
  | Some i => Ok (k, Some (i, true))
  | None =>
  let! session := find_payload (store k) payload_type (ssrc2sessions_ k) in
  match session with
  | Some i =>
      let k := rebind k i ssrc in
      Ok (with_maps k (StdMap.set ssrc i (ssrc2sessions_ k)) (rtxssrc2sessions_ k), Some (i, false))
  | None =>
  let! rtx_session := find_payload (store k) payload_type (rtxssrc2sessions_ k) in
  match rtx_session with
  | Some i =>
      let k := rebind k i ssrc in
      Ok (with_maps k (ssrc2sessions_ k) (StdMap.set ssrc i (rtxssrc2sessions_ k)), Some (i, true))
  | None => Ok (k, None)
  end
  end
  end
  end.

(** The extension ids the pusher negotiated, told to the packet. *)
Definition set_ids (p : RtpSessionParam.t) (pkt : RtpPacket.t) : RtpPacket.t :=
  let pkt := if 0 <? RtpSessionParam.mid_ext_id_ p
             then RtpPacket.SetMidExtensionId pkt (u8 (RtpSessionParam.mid_ext_id_ p)) else pkt in
  let pkt := if 0 <? RtpSessionParam.tcc_ext_id_ p
             then RtpPacket.SetTccExtensionId pkt (u8 (RtpSessionParam.tcc_ext_id_ p)) else pkt in
  if 0 <? RtpSessionParam.abs_send_time_ext_id_ p
  then RtpPacket.SetAbsTimeExtensionId pkt (u8 (RtpSessionParam.abs_send_time_ext_id_ p)) else pkt.

(** The copy for the voice agent, made inside a [try]. *)
Definition forward_to_voice_agent (enable : bool) (now : Z) (fresh : buf) (s : t * RtpPacket.t) :
    eff (t * RtpPacket.t) call unit :=
  let '(k, pkt) := s in
  if enable && match RtpSessionParam.av_type_ (param_ k) with RtpSessionParam.MEDIA_AUDIO_TYPE => true | _ => false end
  then
    let s := (with_voice k, pkt) in
    ecatch (do* (s, copy) := pure s (RtpPacket.Clone now fresh pkt None) in emit s [PushToVoiceAgent copy])
           (fun s => eret s tt)
  else eret s tt.

(** The end of [HandleRtpPacket]: the mid is cleared and the room gets the packet. *)
Definition deliver (s : t * RtpPacket.t) : eff (t * RtpPacket.t) call Z :=
  let '(k, pkt) := s in
  do* (s, cleared) := pure s (RtpPacket.ClearMidExtension pkt (u8 (RtpSessionParam.mid_ (param_ k)))) in
  let '(pkt, _, _) := cleared in
  do* (s, _) := emit (k, pkt) [RtpPacketFromRtcPusher (user_id_ k) (session_id_ k) (pusher_id_ k) pkt] in
  eret s 0.

(** [HandleRtpPacket]: the pusher and the packet, which its caller still owns. *)
Definition HandleRtpPacket (enable : bool) (now : Z) (fresh : buf) (k : t) (rtp_pkt : RtpPacket.t) :
    eff (t * RtpPacket.t) call Z :=
  let rtp_pkt := set_ids (param_ k) rtp_pkt in
  let s := (k, rtp_pkt) in
  do* (s, ssrc) := pure s (RtpPacket.GetSsrc rtp_pkt) in
  do* (s, found) := pure s (GetRtpRecvSession k rtp_pkt) in
  let '(k, found) := found in
  match found with
  | None => eret (k, rtp_pkt) (-1)
  | Some (i, is_rtx) =>
      match store k !! i with
      | None => pure (k, rtp_pkt) (Undef NullDeref)
      | Some session =>
          if is_rtx : bool then
            let '(session, rtp_pkt, repeat, r) := RtpRecvSession.ReceiveRtxPacket session rtp_pkt false in
            let k := with_store k (<[i := session]> (store k)) in
            do* (s, result) := pure (k, rtp_pkt) r in
            if negb result then eret s (-1) else
            if repeat : bool then eret s 0 else
            do* (s, ssrc') := pure s (RtpPacket.GetSsrc rtp_pkt) in
            if ssrc' =? ssrc then eret s 0 else
            if (RtpPacket.payload_len rtp_pkt =? 0)%nat then eret s 0 else
            deliver s
          else
            let '(session, r) := RtpRecvSession.ReceiveRtpPacket session rtp_pkt in
            let k := with_store k (<[i := session]> (store k)) in
            do* (s, result) := pure (k, rtp_pkt) r in
            if negb result then eret s (-1) else
            do* (s, _) := forward_to_voice_agent enable now fresh s in
            deliver s
      end
  end.

Definition HandleRtcpSrPacket (k : t) (sr_pkt : RtcpSrPacket.t) (now : Z) : t * res Z :=
  match StdMap.find (RtcpSrPacket.GetSsrc sr_pkt) (ssrc2sessions_ k) with
  | None => (k, Ok (-1))
  | Some i =>
      match store k !! i with
      | None => (k, Undef NullDeref)
      | Some session =>
          let '(session, r) := RtpRecvSession.HandleRtcpSrPacket session sr_pkt now in
          (with_store k (<[i := session]> (store k)), r)
      end
  end.

(** A picture loss indication from SSRC 0, the server; [clock] is [now_millisec()]. *)
Definition RequestKeyFrame (k : t) (ssrc clock : Z) : eff t call unit :=
  let ssrc := if negb (ssrc =? RtpSessionParam.ssrc_ (param_ k)) then RtpSessionParam.ssrc_ (param_ k) else ssrc in
  do* (k, pspli_pkt) := pure k RtcpPsPli.new_RtcpPsPli in
  let k := with_times k (last_statics_ms_ k) clock in
  do* (k, pspli_pkt) := pure k (RtcpPsPli.SetSenderSsrc pspli_pkt 0) in
  do* (k, pspli_pkt) := pure k (RtcpPsPli.SetMediaSsrc pspli_pkt ssrc) in
  if cb_ k then emit k [TransportSendRtcp (RtcpPsPli.GetData pspli_pkt)] else pure k (Undef NullDeref).

(** [GetRecvStatics().BytesPerSecond(now_ms, pps)], once for every entry of the map. *)
Definition measure (now_ms : Z) (st : list RtpRecvSession.t) (e : Z * nat) : list RtpRecvSession.t :=
  alter (fun s => RtpRecvSession.with_statics s
           (StreamStatics.BytesPerSecond (RtpRecvSession.recv_statics_ s) now_ms).1.1) e.2 st.

Definition keyframe_tick (k : t) (now_ms clock : Z) : eff t call unit :=
  match RtpSessionParam.av_type_ (param_ k) with
  | RtpSessionParam.MEDIA_VIDEO_TYPE =>
      if last_keyframe_request_ms_ k <? 0 then eret (with_times k (last_statics_ms_ k) now_ms) tt
      else if 8000 <=? now_ms - last_keyframe_request_ms_ k
      then RequestKeyFrame k (RtpSessionParam.ssrc_ (param_ k)) clock
      else eret k tt
  | _ => eret k tt
  end.

Definition OnTimer (k : t) (now_ms clock : Z) : eff t call unit :=
  if last_statics_ms_ k =? -1 then keyframe_tick (with_times k now_ms (last_keyframe_request_ms_ k)) now_ms clock
  else if now_ms - last_statics_ms_ k <? 5000 then eret k tt
  else
    let k := with_times k now_ms (last_keyframe_request_ms_ k) in
    let k := with_store k (foldl (measure now_ms) (store k) (ssrc2sessions_ k)) in
    keyframe_tick k now_ms clock.

(** The timers of a session: its receiver report and its NACKs go out through the
    pusher, which is their [TransportSendCallbackI]. *)
Definition session_report (k : t) (i : nat) (now_ms : Z) (uninit : buf) : eff t call unit :=
  match store k !! i with
  | None => eret k tt
  | Some s =>
      let '(s, r) := RtpRecvSession.OnTimer s now_ms uninit in
      let k := with_store k (<[i := s]> (store k)) in
      do* (k, sent) := pure k r in
      match sent.1 with
      | None => eret k tt
      | Some d => if cb_ k then emit k [TransportSendRtcp d] else pure k (Undef NullDeref)
      end
  end.

Definition session_nack (k : t) (i : nat) (now_ms : Z) (uninit : buf) : eff t call unit :=
  match store k !! i with
  | None => eret k tt
  | Some s =>
      match RtpRecvSession.nack_generator_ s with
      | None => eret k tt
      | Some n =>
          let '(n, lost, _) := Nack.OnTimer n now_ms in
          let s := RtpRecvSession.with_nack s (Some n) in
          let k := with_store k (<[i := s]> (store k)) in
          match lost with
          | None => eret k tt
          | Some seq_vec =>
              do* (k, d) := pure k (RtpRecvSession.GenerateNackList s seq_vec uninit) in
              if cb_ k then emit k [TransportSendRtcp d] else pure k (Undef NullDeref)
          end
      end
  end.

(** * Invariant *)

Definition refers (st : list RtpRecvSession.t) (m : list (Z * nat)) : Prop := StdMap.below (length st) m.

(** The sessions are well-formed, the maps refer to them, and the session of an RTX SSRC
    is also the session of a media SSRC. *)
Record wf (k : t) : Prop := {
  wf_store : Forall RtpRecvSession.wf (store k);
  wf_main : refers (store k) (ssrc2sessions_ k);
  wf_rtx : refers (store k) (rtxssrc2sessions_ k);
  wf_shared : Forall (fun e => e.2 ∈ (ssrc2sessions_ k).*2) (rtxssrc2sessions_ k)
}.

Lemma refers_find st m ssrc i : refers st m -> StdMap.find ssrc m = Some i -> exists s, st !! i = Some s.
Proof. intros Hr Hi. apply lookup_lt_is_Some_2. by eapply StdMap.below_find. Qed.
Lemma refers_set st m ssrc i : refers st m -> (i < length st)%nat -> refers st (StdMap.set ssrc i m).
Proof. apply StdMap.below_set. Qed.
Lemma refers_length st st' m : refers st m -> length st' = length st -> refers st' m.
Proof. intros Hr E. unfold refers. by rewrite E. Qed.
Lemma refers_grow st s m : refers st m -> refers (st ++ [s]) m.
Proof. apply StdMap.below_mono. rewrite length_app. lia. Qed.

(** Setting an entry of the main map can drop a reference only where the key was known. *)
Lemma seconds_set ssrc (i : nat) m j : StdMap.find ssrc m = None -> j ∈ m.*2 -> j ∈ (StdMap.set ssrc i m).*2.
Proof. intros Hn Hj. rewrite (StdMap.set_Permutation _ _ _ Hn). cbn. by right. Qed.
Lemma seconds_find ssrc (i : nat) m : StdMap.find ssrc m = Some i -> i ∈ m.*2.
Proof.
  intros H%StdMap.find_In. apply list_elem_of_fmap. exists (ssrc, i). split; [done|]. by apply list_elem_of_In.
Qed.

Lemma wf_update_store k st :
  wf k -> length st = length (store k) -> Forall RtpRecvSession.wf st -> wf (with_store k st).
Proof.
  intros [Hs Hm Hr Hsh] Hl Hst. split; [done|by eapply refers_length|by eapply refers_length|done].
Qed.
Lemma wf_insert_session k i s : wf k -> RtpRecvSession.wf s -> wf (with_store k (<[i := s]> (store k))).
Proof.
  intros Hwf Hs. apply wf_update_store; [done|by rewrite length_insert|].
  apply Forall_insert; [apply Hwf|done].
Qed.
Lemma wf_session k i s : wf k -> store k !! i = Some s -> RtpRecvSession.wf s.
Proof. intros Hwf Hi. eapply Forall_lookup_1; [apply Hwf|exact Hi]. Qed.

Lemma UpdateSSRC_session_wf s ssrc :
  RtpRecvSession.wf s -> 0 <= ssrc < 4294967296 -> RtpRecvSession.wf (RtpRecvSession.UpdateSSRC s ssrc).
Proof.
  intros [[Hm Hc] [Ha Hb Hd He Hg] Hr Hn] Hs.
  split; [by split|split; cbn; done|done|done].
Qed.

Lemma CreateRtpRecvSession_wf k :
  wf k -> StdMap.find (RtpSessionParam.ssrc_ (param_ k)) (ssrc2sessions_ k) = None ->
  RtpSessionParam.wf (param_ k) -> 0 < RtpSessionParam.clock_rate_ (param_ k) -> wf (CreateRtpRecvSession k).
Proof.
  intros [Hs Hm Hr Hsh] Hn Hp Hc. unfold CreateRtpRecvSession.
  assert (Hlt : (length (store k) < length (store k ++ [RtpRecvSession.new_RtpRecvSession (param_ k)]))%nat)
    by (rewrite length_app; cbn; lia).
  assert (Hsh' : Forall (fun e => e.2 ∈ (StdMap.set (RtpSessionParam.ssrc_ (param_ k)) (length (store k)) (ssrc2sessions_ k)).*2)
                   (rtxssrc2sessions_ k)).
  { eapply Forall_impl; [exact Hsh|]. intros e. by apply seconds_set. }
  split; cbn [with_maps with_store store ssrc2sessions_ rtxssrc2sessions_].
  - apply Forall_app. split; [done|]. constructor; [|constructor]. by apply RtpRecvSession.recv_wf_new.
  - apply refers_set; [by apply refers_grow|done].
  - destruct (negb _); [|by apply refers_grow]. apply refers_set; [by apply refers_grow|done].
  - destruct (negb _); [|done]. apply StdMap.Forall_set; [|done]. cbn.
    eapply seconds_find. apply StdMap.find_set_eq.
Qed.

Lemma pusher_wf_new param u s id cb : wf (new_MediaPusher param u s id cb).
Proof. split; cbn; try constructor; constructor. Qed.

(** ** The session of a packet *)

Lemma find_payload_ok st pt m :
  Forall (fun e => (e.2 < length st)%nat) m ->
  exists r, find_payload st pt m = Ok r /\
    match r with
    | Some i => i ∈ m.*2 /\ exists s, st !! i = Some s /\
        RtpSessionParam.payload_type_ (RtpRecvSession.param_ s) = pt
    | None => forall i s, i ∈ m.*2 -> st !! i = Some s -> RtpSessionParam.payload_type_ (RtpRecvSession.param_ s) <> pt
    end.
Proof.
  induction 1 as [|[ssrc i] m Hi Hm IH]; cbn [find_payload]; [exists None; split; [done|]; by intros ? ? ?%elem_of_nil|].
  destruct (lookup_lt_is_Some_2 st i Hi) as [s Hs]. rewrite Hs.
  destruct (Z.eqb_spec (RtpSessionParam.payload_type_ (RtpRecvSession.param_ s)) pt) as [E|E].
  - exists (Some i). split; [done|]. split; [by left|]. by exists s.
  - destruct IH as ([j|] & -> & IH).
    + exists (Some j). split; [done|]. destruct IH as [Hj IH]. split; [by right|done].
    + exists None. split; [done|]. intros j s' Hj Hs'. cbn in Hj. inversion Hj; subst; [by simplify_eq|by eapply IH].
Qed.

(** The parts of a packet's header the lookup reads. *)
Definition ssrc_of (p : RtpPacket.t) : Z := RtpPacket.v_ssrc (RtpPacket.view_of p).
Definition pt_of (p : RtpPacket.t) : Z := RtpPacket.v_pt (RtpPacket.view_of p).
Lemma GetSsrc_of p : RtpPacket.has_header p -> RtpPacket.GetSsrc p = Ok (ssrc_of p).
Proof. intros []. by apply RtpPacket.GetSsrc_eq. Qed.
Lemma GetPayloadType_of p : RtpPacket.has_header p -> RtpPacket.GetPayloadType p = Ok (pt_of p).
Proof. intros []. by apply RtpPacket.GetPayloadType_eq. Qed.
Lemma ssrc_of_range p : RtpPacket.has_header p -> 0 <= ssrc_of p < 4294967296.
Proof. intros []. apply ByteStream.net32_range; [done|lia]. Qed.

(** What the lookup of a packet finds. *)
Inductive session_for (k : t) (p : RtpPacket.t) : t -> option (nat * bool) -> Prop :=
  | known_ssrc i :
      StdMap.find (ssrc_of p) (ssrc2sessions_ k) = Some i -> session_for k p k (Some (i, false))
  | known_rtx i :
      StdMap.find (ssrc_of p) (ssrc2sessions_ k) = None ->
      StdMap.find (ssrc_of p) (rtxssrc2sessions_ k) = Some i -> session_for k p k (Some (i, true))
  | by_payload_type i s :
      StdMap.find (ssrc_of p) (ssrc2sessions_ k) = None -> StdMap.find (ssrc_of p) (rtxssrc2sessions_ k) = None ->
      i ∈ (ssrc2sessions_ k).*2 -> store k !! i = Some s ->
      RtpSessionParam.payload_type_ (RtpRecvSession.param_ s) = pt_of p ->
      session_for k p (with_maps (rebind k i (ssrc_of p)) (StdMap.set (ssrc_of p) i (ssrc2sessions_ k)) (rtxssrc2sessions_ k))
        (Some (i, false))
  | nobody :
      StdMap.find (ssrc_of p) (ssrc2sessions_ k) = None -> StdMap.find (ssrc_of p) (rtxssrc2sessions_ k) = None ->
      (forall i s, i ∈ (ssrc2sessions_ k).*2 -> store k !! i = Some s ->
         RtpSessionParam.payload_type_ (RtpRecvSession.param_ s) <> pt_of p) ->
      session_for k p k None.

(** The fourth loop of the code never finds anything: whatever is in the RTX map has been
    looked at under its media SSRC. *)
Lemma GetRtpRecvSession_ok k p :
  wf k -> RtpPacket.has_header p ->
  exists k' r, GetRtpRecvSession k p = Ok (k', r) /\ session_for k p k' r.
Proof.
  intros [Hs Hm Hr Hsh] Hp. unfold GetRtpRecvSession. rewrite GetSsrc_of, GetPayloadType_of by done. cbn [rbind].
  destruct (StdMap.find (ssrc_of p) (ssrc2sessions_ k)) as [i|] eqn:E1; [do 2 eexists; split; [done|by constructor]|].
  destruct (StdMap.find (ssrc_of p) (rtxssrc2sessions_ k)) as [i|] eqn:E2; [do 2 eexists; split; [done|by constructor]|].
  destruct (find_payload_ok (store k) (pt_of p) (ssrc2sessions_ k) (proj2 Hm)) as ([i|] & -> & H); cbn [rbind].
  - destruct H as (Hi & s & Hst & Hpt). do 2 eexists. split; [done|]. exact (by_payload_type k p i s E1 E2 Hi Hst Hpt).
  - destruct (find_payload_ok (store k) (pt_of p) (rtxssrc2sessions_ k) (proj2 Hr)) as ([i|] & -> & H'); cbn [rbind].
    + exfalso. destruct H' as (Hi & s & Hst & Hpt). apply (H i s); [|done|done].
      apply list_elem_of_fmap in Hi as (e & -> & He). by eapply Forall_forall in Hsh.
    + do 2 eexists. split; [done|]. by constructor.
Qed.

Lemma session_for_wf k p k' r :
  wf k -> RtpPacket.has_header p -> session_for k p k' r ->
  wf k' /\ match r with Some (i, _) => is_Some (store k' !! i) | None => k' = k end.
Proof.
  intros Hwf Hp [i E|i E1 E2|i s E1 E2 Hi Hs Hpt|E1 E2 Hno]; try done.
  - split; [done|]. eapply refers_find; [exact (wf_main k Hwf)|exact E].
  - split; [done|]. eapply refers_find; [exact (wf_rtx k Hwf)|exact E2].
  - pose proof (ssrc_of_range p Hp). pose proof (lookup_lt_Some _ _ _ Hs) as Hlt.
    assert (Hst : Forall RtpRecvSession.wf (alter (fun s => RtpRecvSession.UpdateSSRC s (ssrc_of p)) i (store k))).
    { apply Forall_alter; [apply Hwf|]. intros s0 _ Hw0. by apply UpdateSSRC_session_wf. }
    destruct Hwf as [Hst0 Hm Hr Hsh]. split.
    + split; cbn [with_maps rebind with_store store ssrc2sessions_ rtxssrc2sessions_]; [done|..].
      * apply refers_set; [|by rewrite length_alter]. eapply refers_length; [exact Hm|by rewrite length_alter].
      * eapply refers_length; [exact Hr|by rewrite length_alter].
      * eapply Forall_impl; [exact Hsh|]. intros e. by apply seconds_set.
    + cbn [with_maps rebind with_store store]. rewrite list_lookup_alter_eq, Hs. by eexists.
Qed.

(** ** Receiving *)

Lemma set_ids_eq p pkt : exists a b c, set_ids p pkt = RtpPacket.with_ids pkt a b c.
Proof.
  unfold set_ids. destruct pkt.
  destruct (0 <? RtpSessionParam.mid_ext_id_ p), (0 <? RtpSessionParam.tcc_ext_id_ p),
    (0 <? RtpSessionParam.abs_send_time_ext_id_ p); by do 3 eexists.
Qed.
Lemma set_ids_wf p pkt : RtpPacket.wf pkt -> RtpPacket.wf (set_ids p pkt).
Proof. intros H. destruct (set_ids_eq p pkt) as (a & b & c & ->). by apply RtpPacketEdits.wf_with_ids. Qed.
Lemma set_ids_view p pkt : RtpPacket.view_of (set_ids p pkt) = RtpPacket.view_of pkt.
Proof. by destruct (set_ids_eq p pkt) as (a & b & c & ->). Qed.
Lemma set_ids_edit p pkt pkt' : RtpPacketEdits.ext_edit (set_ids p pkt) pkt' -> RtpPacketEdits.ext_edit pkt pkt'.
Proof. unfold set_ids. intros []. repeat case_match; by split. Qed.
Lemma set_ids_len p pkt : RtpPacket.data_len (set_ids p pkt) = RtpPacket.data_len pkt.
Proof. by destruct (set_ids_eq p pkt) as (a & b & c & ->). Qed.

(** A packet on the RTX stream of a session: what the session then holds of it. *)
Inductive rtx_received (s : RtpRecvSession.t) (p : RtpPacket.t) : RtpRecvSession.t -> RtpPacket.t -> bool -> bool -> Prop :=
  | rtx_empty : RtpPacket.payload_len p = 0%nat -> rtx_received s p s p false true
  | rtx_short : RtpPacket.payload_len p = 1%nat -> rtx_received s p s p false false
  | rtx_repeat p' :
      (2 <= RtpPacket.payload_len p)%nat ->
      RtpPacket.view_of p' = RtpPacket.unrtx_view (RtpPacket.view_of p)
        (RtpSessionParam.ssrc_ (RtpRecvSession.param_ s)) (RtpSessionParam.payload_type_ (RtpRecvSession.param_ s)) ->
      (exists n, RtpRecvSession.nack_generator_ s = Some n /\ Nack.IsInNackList n (RtpPacket.seq_of p') = false) ->
      RtpPacket.wf p' -> rtx_received s p s p' true true
  | rtx_missing s' p' ok :
      (2 <= RtpPacket.payload_len p)%nat ->
      RtpPacket.view_of p' = RtpPacket.unrtx_view (RtpPacket.view_of p)
        (RtpSessionParam.ssrc_ (RtpRecvSession.param_ s)) (RtpSessionParam.payload_type_ (RtpRecvSession.param_ s)) ->
      (forall n, RtpRecvSession.nack_generator_ s = Some n -> Nack.IsInNackList n (RtpPacket.seq_of p') = true) ->
      RtpPacket.wf p' -> RtpPacket.payload_len p' = (RtpPacket.payload_len p - 2)%nat ->
      RtpRecvSession.wf s' -> RtpRecvSession.ReceiveRtpPacket s p' = (s', Ok ok) -> rtx_received s p s' p' false ok.

Lemma ReceiveRtxPacket_ok s p :
  RtpRecvSession.wf s -> RtpPacket.wf p ->
  exists s' p' repeat ok, RtpRecvSession.ReceiveRtxPacket s p false = (s', p', repeat, Ok ok) /\
    rtx_received s p s' p' repeat ok.
Proof.
  intros Hs Hp. pose proof (RtpRecvSession.wf_param s Hs) as [Hss Hpt _ _ _]. unfold RtpRecvSession.ReceiveRtxPacket.
  destruct (Nat.eqb_spec (RtpPacket.payload_len p) 0) as [E0|E0]; [do 4 eexists; split; [done|by constructor]|].
  destruct (decide (RtpPacket.payload_len p = 1%nat)) as [E1|E1].
  { unfold RtpPacket.RtxDemux. rewrite E1. cbn [Nat.ltb Nat.leb]. do 4 eexists. split; [done|by constructor]. }
  destruct (RtpPacketEdits.RtxDemux_wf p (RtpSessionParam.ssrc_ (RtpRecvSession.param_ s))
    (RtpSessionParam.payload_type_ (RtpRecvSession.param_ s)) Hp ltac:(lia) Hpt Hss) as (p' & -> & Hp' & Hv & Hl & _).
  rewrite RtpPacket.GetSeq_wf by done.
  destruct (RtpRecvSession.ReceiveRtpPacket_ok s p' Hs (RtpPacket.wf_header p' Hp')) as (s' & ok & Hr & Hs').
  rewrite Hr.
  assert (Hle : (2 <= RtpPacket.payload_len p)%nat) by lia.
  assert (Hm : (forall n, RtpRecvSession.nack_generator_ s = Some n -> Nack.IsInNackList n (RtpPacket.seq_of p') = true) ->
    rtx_received s p s' p' false ok) by (intros; by eapply rtx_missing).
  destruct (RtpRecvSession.nack_generator_ s) as [n|] eqn:En.
  - destruct (Nack.IsInNackList n (RtpPacket.seq_of p')) eqn:Ei; cbn [negb].
    + exists s', p', false, ok. split; [by destruct ok|]. apply Hm. by intros ? [= <-].
    + do 4 eexists. split; [done|]. eapply rtx_repeat; try done. by exists n.
  - cbn [negb]. exists s', p', false, ok. split; [by destruct ok|]. by apply Hm.
Qed.

(** ** Delivery *)

Definition to_room (e : call) : option RtpPacket.t :=
  match e with RtpPacketFromRtcPusher _ _ _ p => Some p | _ => None end.
(** The packets the room is given, in order. *)
Definition delivered (es : list call) : list RtpPacket.t := omap to_room es.

Definition call_ok (e : call) : Prop :=
  match e with
  | RtpPacketFromRtcPusher _ _ _ p => RtpPacketEdits.sound p
  | PushToVoiceAgent p => RtpPacket.wf p
  | TransportSendRtcp _ => False
  end.

Lemma deliver_ok k p :
  RtpPacket.wf p ->
  exists p', deliver (k, p) = ((k, p'), [RtpPacketFromRtcPusher (user_id_ k) (session_id_ k) (pusher_id_ k) p'], Ok 0) /\
    RtpPacketEdits.ext_edit p p'.
Proof.
  intros Hp. unfold deliver.
  destruct (returns_inv _ _ (RtpPacketEdits.ClearMidExtension_ok p (u8 (RtpSessionParam.mid_ (param_ k))) Hp))
    as ([[p' b] o] & -> & H). by exists p'.
Qed.

Lemma forward_ok enable now fresh k p :
  RtpPacket.wf p -> bytes fresh -> length fresh = 1500%nat ->
  (enable = true -> (1 <= RtpPacket.data_len p < 1500)%nat) ->
  exists k' es, forward_to_voice_agent enable now fresh (k, p) = ((k', p), es, Ok tt) /\
    (k' = k \/ k' = with_voice k) /\ Forall call_ok es /\ delivered es = [] /\ (enable = false -> k' = k /\ es = []).
Proof.
  intros Hp Hf Hl He. unfold forward_to_voice_agent.
  destruct (enable && _) eqn:E; [|exists k, []; by split_and!; auto].
  apply andb_prop in E as [-> E]. specialize (He eq_refl).
  pose proof (RtpPacketEdits.Clone_sound now fresh p (RtpPacketEdits.wf_sound p Hp) He Hf ltac:(lia)) as H.
  destruct (RtpPacket.Clone now fresh p None) as [c|m|]; [|exists (with_voice k), []; by split_and!; auto|done].
  exists (with_voice k), [PushToVoiceAgent c]. split_and!; try done; [by right|]. constructor; [apply H|constructor].
Qed.

Lemma rtx_received_wf s p s' p' repeat ok :
  RtpRecvSession.wf s -> RtpPacket.wf p -> rtx_received s p s' p' repeat ok -> RtpRecvSession.wf s' /\ RtpPacket.wf p'.
Proof. intros Hs Hp []; done. Qed.

(** ** Key frames *)

Definition is_video (k : t) : bool :=
  match RtpSessionParam.av_type_ (param_ k) with RtpSessionParam.MEDIA_VIDEO_TYPE => true | _ => false end.
Definition pli (k : t) : call := TransportSendRtcp (RtcpPsPli.wire 0 (RtpSessionParam.ssrc_ (param_ k))).

(** Whatever SSRC is asked for, the indication names that of the pusher's parameters. *)
Lemma RequestKeyFrame_ok k ssrc clock :
  cb_ k = true -> RequestKeyFrame k ssrc clock = (with_times k (last_statics_ms_ k) clock, [pli k], Ok tt).
Proof.
  intros Hcb. unfold RequestKeyFrame.
  replace (if negb (ssrc =? RtpSessionParam.ssrc_ (param_ k)) then RtpSessionParam.ssrc_ (param_ k) else ssrc)
    with (RtpSessionParam.ssrc_ (param_ k)) by (destruct (Z.eqb_spec ssrc (RtpSessionParam.ssrc_ (param_ k))); done).
  pose proof (RtcpPsPli.filled_eq 0 (RtpSessionParam.ssrc_ (param_ k))) as Hf. unfold RtcpPsPli.filled in Hf.
  apply rbind_Ok_inv in Hf as (p0 & E0 & Hf). apply rbind_Ok_inv in Hf as (p1 & E1 & E2).
  rewrite E0. cbn [pure ebind]. rewrite E1. cbn [pure ebind]. rewrite E2. cbn [pure ebind cb_ with_times].
  rewrite Hcb. cbn [emit ebind app]. by rewrite RtcpPsPli.GetData_filled.
Qed.

(** ** The invariant, whatever happens *)

(** A pusher in use: its transport is set. *)
Definition live (k : t) : Prop := wf k /\ cb_ k = true.

Lemma live_session k i s : live k -> RtpRecvSession.wf s -> live (with_store k (<[i := s]> (store k))).
Proof. intros [Hk Hcb] Hs. split; [by apply wf_insert_session|done]. Qed.

Lemma deliver_stays k p : live k -> RtpPacket.wf p -> stays (fun s => live s.1) (deliver (k, p)).
Proof. intros Hk Hp _. destruct (deliver_ok k p Hp) as (p' & -> & _). done. Qed.

Lemma forward_stays enable now fresh k p :
  live k -> stays (fun s => live s.1 /\ s.2 = p) (forward_to_voice_agent enable now fresh (k, p)).
Proof.
  intros Hk. unfold forward_to_voice_agent. destruct (enable && _); [|by apply stays_ret].
  assert (Hv : live (with_voice k)) by (destruct Hk as [[] ?]; by split).
  apply stays_catch; [|intros; by apply stays_ret].
  apply stays_bind; [by apply stays_pure|]. intros s a Hs _. by apply stays_emit.
Qed.

Lemma HandleRtpPacket_stays enable now fresh k p :
  live k -> RtpPacket.wf p -> stays (fun s => live s.1) (HandleRtpPacket enable now fresh k p).
Proof.
  intros Hk Hpkt. pose proof (set_ids_wf (param_ k) p Hpkt) as Hp. unfold HandleRtpPacket. set (q := set_ids _ p) in *. clearbody q.
  destruct Hk as [Hwf Hcb]. pose proof (RtpPacket.wf_header q Hp) as Hh. rewrite GetSsrc_of, ebind_ok by done.
  destruct (GetRtpRecvSession_ok k q Hwf Hh) as (k1 & found & -> & Hfor). rewrite ebind_ok.
  destruct (session_for_wf k q k1 found Hwf Hh Hfor) as [Hwf1 Hst].
  assert (Hk1 : live k1) by (split; [done|]; by destruct Hfor).
  destruct found as [[i rtx]|]; [|by apply stays_ret]. destruct Hst as [s Hs]. rewrite Hs.
  pose proof (wf_session k1 i s Hwf1 Hs) as Hsw. destruct rtx.
  - destruct (ReceiveRtxPacket_ok s q Hsw Hp) as (s' & p' & repeat & ok & -> & Hrec).
    destruct (rtx_received_wf s q s' p' repeat ok Hsw Hp Hrec) as [Hs' Hp'].
    pose proof (live_session k1 i s' Hk1 Hs') as Hk2. rewrite ebind_ok.
    destruct ok; [|by apply stays_ret]. cbn [negb]. destruct repeat; [by apply stays_ret|].
    rewrite (GetSsrc_of p'), ebind_ok by (by apply RtpPacket.wf_header).
    destruct (_ =? _); [by apply stays_ret|]. destruct (_ =? 0)%nat; [by apply stays_ret|]. by apply deliver_stays.
  - destruct (RtpRecvSession.ReceiveRtpPacket_ok s q Hsw Hh) as (s' & ok & -> & Hs').
    pose proof (live_session k1 i s' Hk1 Hs') as Hk2. rewrite ebind_ok.
    destruct ok; [|by apply stays_ret]. cbn [negb].
    eapply stays_then; [by apply forward_stays|by intros s0 []|]. intros [k3 q3] [] [Hk3 Hq3] _. cbn in Hk3, Hq3. subst q3.
    by apply deliver_stays.
Qed.

Lemma HandleRtcpSrPacket_stays {E} k p now : live k -> stays live (quiet (HandleRtcpSrPacket k p now) : eff t E Z).
Proof.
  intros [Hwf Hcb]. apply stays_quiet. intros _. unfold HandleRtcpSrPacket. destruct (StdMap.find _ _) as [i|]; [|done].
  destruct (store k !! i) as [s|] eqn:Hs; [|done].
  pose proof (RtpRecvSession.HandleRtcpSrPacket_wf s p now (wf_session k i s Hwf Hs)) as Hw.
  destruct (RtpRecvSession.HandleRtcpSrPacket s p now) as [s' r]. by apply live_session.
Qed.

Lemma measure_wf now m st : Forall RtpRecvSession.wf st ->
  Forall RtpRecvSession.wf (foldl (measure now) st m) /\ length (foldl (measure now) st m) = length st.
Proof.
  revert st. induction m as [|e m IH]; intros st Hst; cbn [foldl]; [done|].
  destruct (IH (measure now st e)) as [H1 H2].
  - unfold measure. apply Forall_alter; [done|]. intros s _ Hs. by apply (RtpRecvSession.recv_wf_same s).
  - split; [done|]. rewrite H2. apply length_alter.
Qed.

Lemma keyframe_tick_stays k now clock : live k -> stays live (keyframe_tick k now clock).
Proof.
  intros Hk. assert (Ht : forall a b, live (with_times k a b)) by (intros; destruct Hk as [[] ?]; by split).
  unfold keyframe_tick. destruct (RtpSessionParam.av_type_ (param_ k)); try by apply stays_ret.
  destruct (_ <? 0); [by apply stays_ret|]. destruct (_ <=? _); [|by apply stays_ret].
  intros _. rewrite RequestKeyFrame_ok by apply Hk. apply Ht.
Qed.
Lemma pusher_OnTimer_stays k now clock : live k -> stays live (OnTimer k now clock).
Proof.
  intros Hk. assert (Ht : forall a b, live (with_times k a b)) by (intros; destruct Hk as [[] ?]; by split).
  unfold OnTimer. destruct (_ =? _); [apply keyframe_tick_stays, Ht|].
  destruct (_ <? _); [by apply stays_ret|]. cbv zeta. apply keyframe_tick_stays.
  destruct (Ht now (last_keyframe_request_ms_ k)) as [Hw Hcb]. cbn [with_times store ssrc2sessions_] in *.
  destruct (measure_wf now (ssrc2sessions_ k) (store k) (wf_store _ Hw)) as [H1 H2]. split; [|done]. by apply wf_update_store.
Qed.

Lemma session_report_stays k i now uninit : live k -> stays live (session_report k i now uninit).
Proof.
  intros Hk. unfold session_report. destruct (store k !! i) as [s|] eqn:Hs; [|by apply stays_ret].
  pose proof (RtpRecvSession.recv_OnTimer_wf s now uninit (wf_session k i s (proj1 Hk) Hs)) as Hw.
  destruct (RtpRecvSession.OnTimer s now uninit) as [s' r]. pose proof (live_session k i s' Hk Hw) as Hk'.
  apply stays_bind; [by apply stays_pure|]. intros k1 [[d|] b] Hk1 _; cbn [fst]; [|by apply stays_ret].
  destruct (cb_ k1); [by apply stays_emit|by apply stays_pure].
Qed.
Lemma session_nack_stays k i now uninit : live k -> stays live (session_nack k i now uninit).
Proof.
  intros Hk. unfold session_nack. destruct (store k !! i) as [s|] eqn:Hs; [|by apply stays_ret].
  destruct (RtpRecvSession.nack_generator_ s) as [n|] eqn:Hn; [|by apply stays_ret].
  pose proof (RtpRecvSession.nack_tick_wf s n now (wf_session k i s (proj1 Hk) Hs) Hn) as Hw.
  destruct (Nack.OnTimer n now) as [[n' lost] r]. cbn [fst] in Hw. pose proof (live_session k i _ Hk Hw) as Hk'.
  destruct lost as [l|]; [|by apply stays_ret].
  apply stays_bind; [by apply stays_pure|]. intros k1 d Hk1 _. destruct (cb_ k1); [by apply stays_emit|by apply stays_pure].
Qed.
Lemma UpdateSSRC_live k ssrc : live k -> live (UpdateSSRC k ssrc).
Proof. intros [[] Hcb]. by split. Qed.

(** * Properties *)

Lemma HandleRtpPacket_ok (enable : bool) (now : Z) (fresh : buf) (k : t) (pkt : RtpPacket.t) :
  wf k -> RtpPacket.wf pkt -> bytes fresh -> length fresh = 1500%nat ->
  (enable = true -> (1 <= RtpPacket.data_len pkt < 1500)%nat) ->
  let p := set_ids (param_ k) pkt in
  exists k' pkt' es r k1 found,
    HandleRtpPacket enable now fresh k pkt = ((k', pkt'), es, Ok r) /\
    wf k' /\ RtpPacketEdits.sound pkt' /\ Forall call_ok es /\ session_for k p k1 found /\
    match found with
    | None => k' = k /\ es = [] /\ r = -1
    | Some (i, false) =>
        exists s s' ok, store k1 !! i = Some s /\ RtpRecvSession.ReceiveRtpPacket s p = (s', Ok ok) /\
          store k' = <[i := s']> (store k1) /\ r = (if ok then 0 else -1) /\
          delivered es = (if ok then [pkt'] else []) /\
          (ok = true -> RtpPacketEdits.media (RtpPacket.view_of pkt') = RtpPacketEdits.media (RtpPacket.view_of pkt) /\
                        RtpPacketEdits.ext_edit pkt pkt')
    | Some (i, true) =>
        exists s s' p' repeat ok, store k1 !! i = Some s /\ rtx_received s p s' p' repeat ok /\
          store k' = <[i := s']> (store k1) /\ r = (if ok then 0 else -1) /\
          delivered es = (if ok && negb repeat && negb (ssrc_of p' =? ssrc_of p) &&
                             negb (RtpPacket.payload_len p' =? 0)%nat then [pkt'] else []) /\
          RtpPacketEdits.media (RtpPacket.view_of pkt') = RtpPacketEdits.media (RtpPacket.view_of p')
    end.
Proof.
  intros Hwf Hpkt Hf Hfl He p. pose proof (set_ids_wf (param_ k) pkt Hpkt) as Hp. fold p in Hp.
  pose proof (RtpPacket.wf_header p Hp) as Hh.
  destruct (GetRtpRecvSession_ok k p Hwf Hh) as (k1 & found & Hget & Hfor).
  destruct (session_for_wf k p k1 found Hwf Hh Hfor) as [Hwf1 Hst].
  unfold HandleRtpPacket. fold p. rewrite GetSsrc_of, Hget by done. cbn [pure ebind].
  destruct found as [[i rtx]|].
  2: { subst k1. do 6 eexists. split; [reflexivity|]. by split_and!; [|apply RtpPacketEdits.wf_sound| | |]. }
  destruct Hst as [s Hs]. rewrite Hs. pose proof (wf_session k1 i s Hwf1 Hs) as Hsw.
  destruct rtx.
  - destruct (ReceiveRtxPacket_ok s p Hsw Hp) as (s' & p' & repeat & ok & Hr & Hrec). rewrite Hr. cbn [pure ebind].
    destruct (rtx_received_wf s p s' p' repeat ok Hsw Hp Hrec) as [Hs' Hp'].
    pose proof (wf_insert_session k1 i s' Hwf1 Hs') as Hwf2. set (k2 := with_store k1 _) in *.
    rewrite (GetSsrc_of p') by (by apply RtpPacket.wf_header). cbn [pure ebind].
    destruct (deliver_ok k2 p' Hp') as (pkt' & -> & Hcl).
    destruct ok; cbn [negb andb]; [destruct repeat; cbn [negb andb]; [|destruct (ssrc_of p' =? ssrc_of p) eqn:E1; cbn [negb andb];
      [|destruct (RtpPacket.payload_len p' =? 0)%nat eqn:E2; cbn [negb andb]]]|]; cbn [ebind eret app].
    1,2,3,5: do 6 eexists; split; [reflexivity|]; split_and!; try done; [by apply RtpPacketEdits.wf_sound|];
      exists s, s', p'; do 2 eexists; split; [done|]; split; [exact Hrec|]; split_and!; rewrite ?E1, ?E2; done.
    do 6 eexists. split; [reflexivity|]. split_and!; try done; [apply Hcl|constructor; [apply Hcl|constructor]|].
    exists s, s', p'. do 2 eexists. split; [done|]. split; [exact Hrec|]. split_and!; rewrite ?E1, ?E2; try done.
    apply RtpPacketEdits.ext_edit_media; [apply RtpPacket.wf_header, Hp'|done].
  - destruct (RtpRecvSession.ReceiveRtpPacket_ok s p Hsw Hh) as (s' & ok & Hr & Hs'). rewrite Hr. cbn [pure ebind].
    pose proof (wf_insert_session k1 i s' Hwf1 Hs') as Hwf2. set (k2 := with_store k1 _) in *.
    destruct ok; cbn [negb].
    + destruct (forward_ok enable now fresh k2 p Hp Hf Hfl) as (k3 & es & -> & Hk3 & Hes & Hdel & _);
        [by unfold p; rewrite set_ids_len|]. cbn [ebind].
      destruct (deliver_ok k3 p Hp) as (pkt' & -> & Hcl). cbn [app].
      assert (Hwf3 : wf k3 /\ store k3 = store k2) by (destruct Hk3 as [-> | ->]; split; try done; by destruct Hwf2).
      do 6 eexists. split; [reflexivity|]. split_and!; try done; [apply Hwf3|apply Hcl| |].
      * apply Forall_app. split; [done|]. constructor; [apply Hcl|constructor].
      * exists s, s', true. split_and!; try done; [by destruct Hwf3 as [_ ->]| |].
        -- unfold delivered in *. by rewrite omap_app, Hdel.
        -- intros _. split.
           ++ rewrite (RtpPacketEdits.ext_edit_media p pkt') by (done || apply Hh). unfold p. by rewrite set_ids_view.
           ++ by apply set_ids_edit in Hcl.
    + do 6 eexists. split; [reflexivity|]. split_and!; try done; [by apply RtpPacketEdits.wf_sound|].
      exists s, s', false. by split_and!.
Qed.

(** Whoever a packet is from: the room is told the pusher's own names. *)
Definition named (enable : bool) (k : t) (c : call) : Prop :=
  match c with
  | TransportSendRtcp _ => True
  | PushToVoiceAgent _ => enable = true
  | RtpPacketFromRtcPusher u s i _ => u = user_id_ k /\ s = session_id_ k /\ i = pusher_id_ k
  end.
Lemma deliver_named enable k0 k p :
  user_id_ k = user_id_ k0 -> session_id_ k = session_id_ k0 -> pusher_id_ k = pusher_id_ k0 ->
  Forall (named enable k0) (calls (deliver (k, p))).
Proof.
  intros H1 H2 H3. unfold deliver. destruct (RtpPacket.ClearMidExtension p _) as [[[q b] o]| |]; [|constructor..].
  constructor; [|constructor]. cbn. by rewrite H1, H2, H3.
Qed.
Lemma GetRtpRecvSession_names k p k1 found :
  GetRtpRecvSession k p = Ok (k1, found) ->
  user_id_ k1 = user_id_ k /\ session_id_ k1 = session_id_ k /\ pusher_id_ k1 = pusher_id_ k.
Proof.
  unfold GetRtpRecvSession. intros H. repeat first [apply rbind_Ok_inv in H as (? & _ & H)|case_match]; by simplify_eq/=.
Qed.
Lemma calls_bind {A B} (m : eff (t * RtpPacket.t) call A) (f : t * RtpPacket.t -> A -> eff (t * RtpPacket.t) call B) (Q : call -> Prop) :
  Forall Q (calls m) -> (forall s a, m.1.1 = s -> m.2 = Ok a -> Forall Q (calls (f s a))) -> Forall Q (calls (ebind m f)).
Proof.
  destruct m as [[s es] [a|msg|u]]; intros H1 H2; cbn in *; [|done..]. specialize (H2 s a eq_refl eq_refl).
  destruct (f s a) as [[s' es'] r]. by apply Forall_app.
Qed.
Lemma HandleRtpPacket_named enable now fresh k pkt : Forall (named enable k) (calls (HandleRtpPacket enable now fresh k pkt)).
Proof.
  unfold HandleRtpPacket. apply calls_bind; [constructor|]. intros s ssrc <- _.
  destruct (GetRtpRecvSession k _) as [[k1 found]| |] eqn:E; [|constructor..]. rewrite ebind_ok.
  destruct (GetRtpRecvSession_names _ _ _ _ E) as (H1 & H2 & H3). destruct found as [[i rtx]|]; [|constructor].
  destruct (store k1 !! i) as [session|]; [|constructor]. destruct rtx.
  - destruct (RtpRecvSession.ReceiveRtxPacket session _ false) as [[[session' p'] repeat] r]. apply calls_bind; [constructor|].
    intros s2 res <- _. repeat (case_match; [constructor|]). apply calls_bind; [constructor|]. intros s3 ssrc' <- _.
    repeat (case_match; [constructor|]). by apply deliver_named.
  - destruct (RtpRecvSession.ReceiveRtpPacket session _) as [session' r]. apply calls_bind; [constructor|].
    intros s2 res <- _. repeat (case_match; [constructor|]). apply calls_bind.
    + unfold forward_to_voice_agent. cbn [pure fst]. destruct (enable && _) eqn:Eb; [|constructor]. apply andb_true_iff in Eb as [-> _].
      destruct (RtpPacket.Clone now fresh _ None); cbn; repeat constructor.
    + intros s3 [] Hs _. unfold forward_to_voice_agent in Hs. cbn [pure fst] in Hs.
      assert (Hk : exists k2 p2, s3 = (k2, p2) /\ user_id_ k2 = user_id_ k1 /\ session_id_ k2 = session_id_ k1 /\ pusher_id_ k2 = pusher_id_ k1).
      { destruct (enable && _); [|subst s3; cbn; by do 2 eexists].
        destruct (RtpPacket.Clone now fresh _ None); cbn in Hs; subst s3; by do 2 eexists. }
      destruct Hk as (k2 & p2 & -> & E1 & E2 & E3). apply deliver_named; by rewrite ?E1, ?E2, ?E3.
Qed.

(** what becomes of a packet the publisher sends.  It belongs to the session of its
    SSRC, else to the session whose RTX SSRC it has, else to the first session with its
    payload type (which takes over the SSRC); a packet of no session is refused without
    effect.  A media packet that the session accepts is given to the room exactly once,
    with the same media and only its extensions changed; one it refuses is not.  A packet
    recovered from RTX is given to the room, as the original, exactly if the session was
    still missing it and takes it, it has a payload, and its SSRC differs from that of the
    RTX packet.  Whatever arrives, nothing undefined happens, no exception leaves the
    call, and the pusher stays well-formed. *)
Theorem HandleRtpPacket_forwards (enable : bool) (now : Z) (fresh : buf) (k : t) (pkt : RtpPacket.t) :
  wf k -> RtpPacket.wf pkt -> bytes fresh -> length fresh = 1500%nat ->
  (enable = true -> (1 <= RtpPacket.data_len pkt < 1500)%nat) ->
  let p := set_ids (param_ k) pkt in
  exists k' pkt' es r k1 found,
    HandleRtpPacket enable now fresh k pkt = ((k', pkt'), es, Ok r) /\
    wf k' /\ RtpPacketEdits.sound pkt' /\ Forall call_ok es /\ session_for k p k1 found /\
    match found with
    | None => k' = k /\ es = [] /\ r = -1
    | Some (i, false) =>
        exists s s' ok, store k1 !! i = Some s /\ RtpRecvSession.ReceiveRtpPacket s p = (s', Ok ok) /\
          store k' = <[i := s']> (store k1) /\ r = (if ok then 0 else -1) /\
          delivered es = (if ok then [pkt'] else []) /\
          (ok = true -> RtpPacketEdits.media (RtpPacket.view_of pkt') = RtpPacketEdits.media (RtpPacket.view_of pkt) /\
                        RtpPacketEdits.ext_edit pkt pkt')
    | Some (i, true) =>
        exists s s' p' repeat ok, store k1 !! i = Some s /\ rtx_received s p s' p' repeat ok /\
          store k' = <[i := s']> (store k1) /\ r = (if ok then 0 else -1) /\
          delivered es = (if ok && negb repeat && negb (ssrc_of p' =? ssrc_of p) &&
                             negb (RtpPacket.payload_len p' =? 0)%nat then [pkt'] else []) /\
          RtpPacketEdits.media (RtpPacket.view_of pkt') = RtpPacketEdits.media (RtpPacket.view_of p')
    end.
Proof. exact (HandleRtpPacket_ok enable now fresh k pkt). Qed.

(** ** The key-frame timer *)

Definition gate (k : t) (now : Z) : bool := (last_statics_ms_ k =? -1) || (5000 <=? now - last_statics_ms_ k).
Definition due (k : t) (now : Z) : bool :=
  gate k now && is_video k && (0 <=? last_keyframe_request_ms_ k) && (8000 <=? now - last_keyframe_request_ms_ k).

Lemma pusher_OnTimer_ok k now clock :
  cb_ k = true ->
  exists k', OnTimer k now clock = (k', if due k now then [pli k] else [], Ok tt) /\
    last_statics_ms_ k' = (if gate k now then now else last_statics_ms_ k) /\
    last_keyframe_request_ms_ k' =
      (if due k now then clock
       else if gate k now && is_video k && (last_keyframe_request_ms_ k <? 0) then now
       else last_keyframe_request_ms_ k) /\
    param_ k' = param_ k /\ cb_ k' = true /\ ssrc2sessions_ k' = ssrc2sessions_ k /\
    rtxssrc2sessions_ k' = rtxssrc2sessions_ k /\ length (store k') = length (store k).
Proof.
  intros Hcb. unfold OnTimer, due, gate.
  assert (Htick : forall k1, cb_ k1 = true -> exists k', keyframe_tick k1 now clock =
      (k', if is_video k1 && (0 <=? last_keyframe_request_ms_ k1) && (8000 <=? now - last_keyframe_request_ms_ k1)
           then [pli k1] else [], Ok tt) /\
      k' = with_times k1 (last_statics_ms_ k1)
        (if is_video k1 && (0 <=? last_keyframe_request_ms_ k1) && (8000 <=? now - last_keyframe_request_ms_ k1) then clock
         else if is_video k1 && (last_keyframe_request_ms_ k1 <? 0) then now else last_keyframe_request_ms_ k1)).
  { intros k1 Hcb1. unfold keyframe_tick, is_video.
    destruct (RtpSessionParam.av_type_ _); cbn [andb]; try (eexists; split; [reflexivity|by destruct k1]).
    destruct (Z.ltb_spec (last_keyframe_request_ms_ k1) 0).
    - rewrite (proj2 (Z.leb_gt 0 _)) by lia. cbn [andb]. by eexists.
    - rewrite (proj2 (Z.leb_le 0 _)) by lia. cbn [andb]. destruct (8000 <=? _); [rewrite RequestKeyFrame_ok by done; by eexists|].
      eexists. split; [reflexivity|by destruct k1]. }
  destruct (Z.eqb_spec (last_statics_ms_ k) (-1)); cbn [orb andb].
  - destruct (Htick (with_times k now (last_keyframe_request_ms_ k)) Hcb) as (k' & -> & ->). eexists. by split_and!.
  - destruct (Z.leb_spec 5000 (now - last_statics_ms_ k));
      [rewrite (proj2 (Z.ltb_ge _ _)) by lia|rewrite (proj2 (Z.ltb_lt _ _)) by lia; cbn [andb]; by exists k].
    set (k1 := with_store _ _). destruct (Htick k1 Hcb) as (k' & -> & ->). cbn [andb].
    eexists. split_and!; try done. cbn. clear. generalize (store k) as st.
    induction (ssrc2sessions_ k) as [|e m IH]; intros st; cbn; [done|]. rewrite IH. apply length_alter.
Qed.

(** The pusher after [n] ticks of the session's 50 ms timer, the first at [t0]. *)
Fixpoint after (k : t) (t0 : Z) (n : nat) : t :=
  match n with
  | O => k
  | S n' => let now := t0 + 50 * Z.of_nat n' in final (OnTimer (after k t0 n') now now)
  end.

Lemma after_ok k t0 n :
  cb_ k = true -> is_video k = true -> last_statics_ms_ k = -1 -> last_keyframe_request_ms_ k = -1 -> 0 <= t0 ->
  let kn := after k t0 n in
  cb_ kn = true /\ param_ kn = param_ k /\
  ((0 < n)%nat -> last_statics_ms_ kn = t0 + 5000 * ((Z.of_nat n - 1) / 100) /\
                  last_keyframe_request_ms_ kn = t0 + 10000 * ((Z.of_nat n - 1) / 200)) /\
  due kn (t0 + 50 * Z.of_nat n) = (0 <? Z.of_nat n) && (Z.of_nat n mod 200 =? 0).
Proof.
  intros Hcb Hv Hs Hk Ht. cbv zeta.
  assert (Hdue : forall kn m, param_ kn = param_ k -> 0 < m ->
    last_statics_ms_ kn = t0 + 5000 * ((m - 1) / 100) -> last_keyframe_request_ms_ kn = t0 + 10000 * ((m - 1) / 200) ->
    gate kn (t0 + 50 * m) = (m mod 100 =? 0) /\ is_video kn = true /\ due kn (t0 + 50 * m) = (m mod 200 =? 0)).
  { intros kn m Hp Hm E1 E2. assert (Hv' : is_video kn = true) by (unfold is_video in *; by rewrite Hp).
    assert (Hg : gate kn (t0 + 50 * m) = (m mod 100 =? 0)).
    { unfold gate. rewrite E1. rewrite (proj2 (Z.eqb_neq _ _)) by zlia. cbn [orb].
      destruct (Z.eqb_spec (m mod 100) 0); [apply Z.leb_le|apply Z.leb_gt]; zlia. }
    split; [done|]. split; [done|]. unfold due. rewrite Hg, Hv', E2, (proj2 (Z.leb_le 0 _)) by zlia. cbn [andb].
    destruct (Z.eqb_spec (m mod 200) 0).
    - rewrite (proj2 (Z.eqb_eq (m mod 100) 0)), (proj2 (Z.leb_le _ _)) by zlia. done.
    - destruct (Z.eqb_spec (m mod 100) 0); [|done]. cbn [andb]. apply Z.leb_gt. zlia. }
  induction n as [|n (IHcb & IHp & IH & IHd)].
  - cbn [after]. split_and!; try done; [lia|]. unfold due, gate. rewrite Hs, Hk, Hv. done.
  - cbn [after]. set (kn := after k t0 n) in *. set (now := t0 + 50 * Z.of_nat n) in *.
    destruct (pusher_OnTimer_ok kn now now IHcb) as (k' & -> & E1 & E2 & Hp & Hcb' & _). cbn [final fst].
    assert (Hst : last_statics_ms_ k' = t0 + 5000 * ((Z.of_nat (S n) - 1) / 100) /\
                  last_keyframe_request_ms_ k' = t0 + 10000 * ((Z.of_nat (S n) - 1) / 200)).
    { destruct (decide (n = 0%nat)) as [->|Hn].
      - cbn [after] in kn. rewrite E1, E2, IHd. subst kn. unfold gate. rewrite Hs, Hk, Hv. change ((Z.of_nat 1 - 1) / 100) with 0. change ((Z.of_nat 1 - 1) / 200) with 0. subst now. cbn. destruct (_ && _); lia.
      - destruct (IH ltac:(lia)) as [J1 J2]. destruct (Hdue kn (Z.of_nat n) IHp ltac:(lia) J1 J2) as (G & V & D).
        rewrite E1, E2. fold now in G, D. rewrite G, D, V, J1, J2.
        rewrite (proj2 (Z.ltb_ge (t0 + 10000 * _) 0)) by zlia. rewrite andb_false_r.
        split; [destruct (Z.eqb_spec (Z.of_nat n mod 100) 0)|destruct (Z.eqb_spec (Z.of_nat n mod 200) 0)]; subst now; zlia. }
    split_and!; [done|by rewrite Hp|done|].
    destruct (Hdue k' (Z.of_nat (S n)) ltac:(by rewrite Hp) ltac:(lia) (proj1 Hst) (proj2 Hst)) as (_ & _ & D).
    rewrite D. by rewrite (proj2 (Z.ltb_lt _ _)) by lia.
Qed.

(** a connected video pusher asks for a key frame every ten seconds, starting ten
    seconds after the first tick: of the ticks of the 50 ms timer, exactly those whose
    number is a positive multiple of 200 send one picture loss indication, for the
    current SSRC of the track, and the others send nothing.  (The comment in the code
    says every 3 seconds and its constant is 8 s; but the check is only reached every
    5 s, so that 10 s is the shortest multiple it can fire on.) *)
Theorem keyframe_every_ten_seconds (k : t) (t0 : Z) (n : nat) :
  cb_ k = true -> is_video k = true -> last_statics_ms_ k = -1 -> last_keyframe_request_ms_ k = -1 -> 0 <= t0 ->
  let now := t0 + 50 * Z.of_nat n in
  exists k', OnTimer (after k t0 n) now now =
    (k', if (0 <? Z.of_nat n) && (Z.of_nat n mod 200 =? 0) then [pli k] else [], Ok tt).
Proof.
  intros Hcb Hv Hs Hk Ht now. destruct (after_ok k t0 n Hcb Hv Hs Hk Ht) as (Hcb' & Hp & _ & Hd).
  destruct (pusher_OnTimer_ok (after k t0 n) now now Hcb') as (k' & HO & _). exists k'. rewrite HO. subst now. rewrite Hd.
  unfold pli. by rewrite Hp.
Qed.

(** The code's fallback for RTX packets of an unknown SSRC compares the media payload
    type, so it never runs: such a packet is media of a session, or of nobody. *)
Lemma rtx_fallback_unreachable k p k' i :
  wf k -> RtpPacket.has_header p ->
  StdMap.find (ssrc_of p) (ssrc2sessions_ k) = None -> StdMap.find (ssrc_of p) (rtxssrc2sessions_ k) = None ->
  GetRtpRecvSession k p <> Ok (k', Some (i, true)).
Proof.
  intros Hwf Hp H1 H2 H. destruct (GetRtpRecvSession_ok k p Hwf Hp) as (k1 & r & Hg & Hfor).
  rewrite Hg in H. injection H as -> ->. inversion Hfor; congruence.
Qed.

(** ** A video track *)

Definition sample_track : RtpSessionParam.t :=
  RtpSessionParam.mk RtpSessionParam.MEDIA_VIDEO_TYPE 0 (ssrc_of RtpPacket.sample) (pt_of RtpPacket.sample) 0 90000 8 97
    true false 4 3 2 "H264" EmptyString [].
Definition sample : t := CreateRtpRecvSession (new_MediaPusher sample_track "alice" "s1" "p1" true).
Lemma pusher_sample_wf : wf sample.
Proof. apply CreateRtpRecvSession_wf; [apply pusher_wf_new|reflexivity|split; vm_compute; intuition discriminate|reflexivity]. Qed.

Lemma HandleRtpPacket_forwards_witness :
  exists k' pkt' es, HandleRtpPacket false 0 (replicate 1500 0) sample RtpPacket.sample = ((k', pkt'), es, Ok 0) /\
    delivered es = [pkt'] /\ wf k'.
Proof.
  destruct (HandleRtpPacket_forwards false 0 (replicate 1500 0) sample RtpPacket.sample pusher_sample_wf)
    as (k' & pkt' & es & r & k1 & found & H & Hwf & _ & _ & Hfor & Hout);
    [apply RtpPacket.sample_wf|bytes_done|reflexivity|discriminate|].
  exists k', pkt', es.
  assert (E : StdMap.find (ssrc_of (set_ids (param_ sample) RtpPacket.sample)) (ssrc2sessions_ sample) = Some 0%nat) by reflexivity.
  assert (Hf : found = Some (0%nat, false)) by (inversion Hfor; congruence).
  subst found. destruct Hout as (s & s' & ok & Hs & Hrec & _ & -> & Hd & _).
  assert (Hok : ok = true).
  { assert (k1 = sample) as -> by (inversion Hfor; congruence).
    injection Hs as <-. apply (f_equal snd) in Hrec. vm_compute in Hrec. by injection Hrec as <-. }
  subst ok. by split_and!.
Defined.

Lemma keyframe_every_ten_seconds_witness :
  exists k', OnTimer (after sample 1000 400) 21000 21000 = (k', [pli sample], Ok tt).
Proof. apply (keyframe_every_ten_seconds sample 1000 400); try reflexivity. lia. Defined.

End MediaPusher.
