(* ===== verification/MediaPuller.v ===== *)
(** [webrtc_room/media_puller.cpp] and [.hpp]: one subscribed track.  A packet from the
    room gets the subscriber's extension ids, is checked and cached by the sending
    session, and goes to the transport under the subscriber's payload type and SSRC. *)
From S2P Require Import Prelude Effect ByteStream RtpPub StdMap RtpPacket RtpPacketEdits RtcpReports RtcpFeedback.
From S2P Require Import RtpSession RtpSendSession.

Module MediaPuller.

(** The calls on [cb_], by the puller and by its session. *)
Inductive call :=
  | TransportSendRtp (data : list Z)
  | TransportSendRtcp (data : list Z).

Record t := mk {
  param_ : RtpSessionParam.t;
  puller_user_id_ : string; pusher_user_id_ : string; puller_id_ : string; pusher_id_ : string;
  cb_ : bool;
  rtp_send_session_ : option RtpSendSession.t;
  last_statics_ms_ : Z
}.

Definition new_MediaPuller (param : RtpSessionParam.t) (puller_user_id pusher_user_id uuid pusher_id : string)
    (cb : bool) : t :=
  mk param puller_user_id pusher_user_id uuid pusher_id cb None (-1).

Definition with_session (k : t) (s : RtpSendSession.t) : t :=
  mk (param_ k) (puller_user_id_ k) (pusher_user_id_ k) (puller_id_ k) (pusher_id_ k) (cb_ k) (Some s)
     (last_statics_ms_ k).
(** What is written through the reference [GetRtpSessionParam] gives out. *)
Definition with_param (k : t) (p : RtpSessionParam.t) : t :=
  mk p (puller_user_id_ k) (pusher_user_id_ k) (puller_id_ k) (pusher_id_ k) (cb_ k) (rtp_send_session_ k) (last_statics_ms_ k).
Definition with_last_statics (k : t) (ms : Z) : t :=
  mk (param_ k) (puller_user_id_ k) (pusher_user_id_ k) (puller_id_ k) (pusher_id_ k) (cb_ k) (rtp_send_session_ k) ms.

Definition CreateRtpSendSession (k : t) : t := with_session k (RtpSendSession.new_RtpSendSession (param_ k) (cb_ k)).

(** A call on [*rtp_send_session_], a null dereference before it is created; the session
    calls the transport itself. *)
Definition on_session {A} (k : t) (f : RtpSendSession.t -> RtpSendSession.t * list call * res A) : eff t call A :=
  match rtp_send_session_ k with
  | None => pure k (Undef NullDeref)
  | Some s => zoom (with_session k) (f s)
  end.

(** The extension ids the subscriber negotiated; a packet without them is left alone. *)
Definition rename_extensions (p : RtpSessionParam.t) (rtp_pkt : RtpPacket.t) : res RtpPacket.t :=
  let! has := RtpPacket.HasExtension rtp_pkt in
  if negb has then Ok rtp_pkt else
  let! (rtp_pkt, _) :=
    (if 0 <? RtpSessionParam.tcc_ext_id_ p
     then RtpPacket.UpdateWideSeqExternId rtp_pkt (u8 (RtpSessionParam.tcc_ext_id_ p)) else Ok (rtp_pkt, true)) in
  let! (rtp_pkt, _) :=
    (if 0 <? RtpSessionParam.abs_send_time_ext_id_ p
     then RtpPacket.UpdateAbsTimeExternId rtp_pkt (u8 (RtpSessionParam.abs_send_time_ext_id_ p)) else Ok (rtp_pkt, true)) in
  Ok rtp_pkt.

(** [OnTransportSendRtp]: the puller and the packet it was lent.  [connected] is what
    [cb_->IsConnected()] answers. *)
Definition OnTransportSendRtp (connected : bool) (now : Z) (fresh : buf) (k : t) (in_pkt : RtpPacket.t) :
    eff (t * RtpPacket.t) call unit :=
  let s := (k, in_pkt) in
  if (RtpPacket.payload_len in_pkt =? 0)%nat then eret s tt else
  if cb_ k && negb connected then eret s tt else
  do* (s, rtp_pkt) := pure s (rename_extensions (param_ k) in_pkt) in
  let s := (k, rtp_pkt) in
  do* (s, r) := zoom (fun k => (k, rtp_pkt))
    (on_session k (fun session => quiet (RtpSendSession.SendRtpPacket session rtp_pkt now fresh))) in
  if negb r then eret s tt else
  let k := s.1 in
  do* (s, origin_payload_type) := pure s (RtpPacket.GetPayloadType rtp_pkt) in
  do* (s, origin_ssrc) := pure s (RtpPacket.GetSsrc rtp_pkt) in
  do* (s, rtp_pkt) := pure s (let! p := RtpPacket.SetPayloadType rtp_pkt (RtpSessionParam.payload_type_ (param_ k)) in
                              RtpPacket.SetSsrc p (RtpSessionParam.ssrc_ (param_ k))) in
  do* (s, _) := (if cb_ k then emit (k, rtp_pkt) [TransportSendRtp (RtpPacket.GetData rtp_pkt)]
                 else pure (k, rtp_pkt) (Undef NullDeref)) in
  do* (s, rtp_pkt) := pure s (let! p := RtpPacket.SetPayloadType rtp_pkt origin_payload_type in
                              RtpPacket.SetSsrc p origin_ssrc) in
  eret (k, rtp_pkt) tt.

(** The session's calls, as they are made on [cb_]. *)
Definition rtp_sent {A} (m : RtpSendSession.t * list (list Z) * res A) : RtpSendSession.t * list call * res A :=
  let '(s, sent, r) := m in (s, map TransportSendRtp sent, r).

Definition OnTimer (k : t) (now_ms : Z) : eff t call unit :=
  if last_statics_ms_ k <? 0 then eret (with_last_statics k now_ms) tt else
  do* (k, _) :=
    (if 5000 <? now_ms - last_statics_ms_ k then
       do* (k, _) := on_session k (fun s => (RtpSendSession.with_statics s
         (StreamStatics.BytesPerSecond (RtpSendSession.send_statics_ s) now_ms).1.1, [], Ok tt)) in
       eret (with_last_statics k now_ms) tt
     else eret k tt) in
  do* (k, sent) := on_session k (fun s => quiet (RtpSendSession.OnTimer s now_ms)) in
  match sent with
  | None => eret k tt
  | Some d => if cb_ k then emit k [TransportSendRtcp d] else pure k (Undef NullDeref)
  end.

Definition HandleRtcpRrBlock (k : t) (d : buf) (rr_block : nat) (now_ms : Z) : eff t call Z :=
  on_session k (fun s => quiet (RtpSendSession.RecvRtcpRrBlock s d rr_block now_ms)).

(** The result of the session is returned either way. *)
Definition HandleRtcpFbNack (k : t) (nack_pkt : option RtcpFbNack.t) : eff t call Z :=
  match nack_pkt with
  | None => eret k (-1)
  | Some p => on_session k (fun s => rtp_sent (RtpSendSession.RecvRtcpFbNack s p))
  end.

(** * Invariant *)

(** The numbers a packet is sent under fit their fields. *)
Record sendable (p : RtpSessionParam.t) : Prop := {
  sd_ssrc : 0 <= RtpSessionParam.ssrc_ p < 4294967296;
  sd_pt : 0 <= RtpSessionParam.payload_type_ p < 128
}.
Lemma param_sendable p : RtpSessionParam.wf p -> sendable p.
Proof. by intros []. Qed.

(** The session is there; its copy of the parameters is older than the puller's own. *)
Record wf (k : t) : Prop := {
  wf_cb : cb_ k = true;
  wf_param : sendable (param_ k);
  wf_session : exists s, rtp_send_session_ k = Some s /\ RtpSendSession.wf s
}.

Lemma puller_wf_new param u1 u2 id pid :
  RtpSessionParam.wf param -> wf (CreateRtpSendSession (new_MediaPuller param u1 u2 id pid true)).
Proof.
  intros Hp. split; [done|by apply param_sendable|]. eexists. split; [reflexivity|]. by apply RtpSendSession.send_wf_new.
Qed.
Lemma puller_wf_param k p : wf k -> sendable p -> wf (with_param k p).
Proof. by intros [] Hp; split. Qed.

(** Whatever a call on the session does, its parameters stay those of the puller. *)
Lemma on_session_stays {A} k (f : RtpSendSession.t -> RtpSendSession.t * list call * res A) :
  wf k ->
  (forall s, RtpSendSession.wf s -> stays (fun s' => RtpSendSession.wf s' /\ RtpSendSession.param_ s' = RtpSendSession.param_ s) (f s)) ->
  stays wf (on_session k f).
Proof.
  intros [Hcb Hpar (s & Hs & Hsw)] Hf. unfold on_session. rewrite Hs.
  specialize (Hf s Hsw). unfold stays in *. destruct (f s) as [[s' es] r]. cbn in *. intros Hd. destruct (Hf Hd) as [Hw Hp].
  split; [done|done|]. by exists s'.
Qed.

Lemma puller_OnTimer_stays k now : wf k -> stays wf (OnTimer k now).
Proof.
  intros Hwf. unfold OnTimer. destruct (_ <? 0); [apply stays_ret; by destruct Hwf|].
  apply stays_bind.
  { destruct (5000 <? _); [|by apply stays_ret]. apply stays_bind.
    - apply on_session_stays; [done|]. intros s Hs. intros _. by apply RtpSendSession.with_statics_wf.
    - intros k' [] Hk' _. apply stays_ret. by destruct Hk'. }
  intros k1 [] Hk1 _. apply stays_bind.
  - apply on_session_stays; [done|]. intros s Hs. apply stays_quiet. intros _. by apply RtpSendSession.OnSendRtcpSr_wf.
  - intros k2 [d|] Hk2 _; [|by apply stays_ret]. destruct (cb_ k2); [by apply stays_emit|by apply stays_pure].
Qed.
Lemma HandleRtcpRrBlock_stays k d p now : wf k -> stays wf (HandleRtcpRrBlock k d p now).
Proof.
  intros Hwf. apply on_session_stays; [done|]. intros s Hs. apply stays_quiet. intros _. by apply RtpSendSession.RecvRtcpRrBlock_wf.
Qed.
Lemma HandleRtcpFbNack_stays k p : wf k -> stays wf (HandleRtcpFbNack k p).
Proof.
  intros Hwf. destruct p as [p|]; [|by apply stays_ret]. apply on_session_stays; [done|]. intros s Hs _.
  pose proof (RtpSendSession.RecvRtcpFbNack_wf s p Hs) as H. unfold rtp_sent. by destruct (RtpSendSession.RecvRtcpFbNack s p) as [[s' es] r].
Qed.

(** ** Readdressing *)

(** The packet under another payload type and SSRC, everything else kept. *)
Definition addressed (v : RtpPacket.view) (pt ssrc : Z) : RtpPacket.view :=
  RtpPacket.mkview (RtpPacket.v_first v) (RtpPacket.v_padding v) (RtpPacket.v_marker v) pt (RtpPacket.v_seq v)
    (RtpPacket.v_ts v) ssrc (RtpPacket.v_ext v) (RtpPacket.v_payload v).

Lemma readdress p pt ssrc :
  RtpPacketEdits.sound p -> 0 <= pt < 128 -> 0 <= ssrc < 4294967296 ->
  exists q, (let! p := RtpPacket.SetPayloadType p pt in RtpPacket.SetSsrc p ssrc) = Ok q /\
    RtpPacketEdits.sound q /\ RtpPacket.view_of q = addressed (RtpPacket.view_of p) pt ssrc.
Proof.
  intros Hs Hpt Hss. pose proof (RtpPacketEdits.sound_header p Hs) as [Hb Hl]. destruct Hs as [_ Sp Ssp Sl Sm].
  rewrite RtpPacket.SetPayloadType_eq by done. cbn [rbind]. set (d1 := <[1%nat := _]> _).
  pose proof (cell_byte (RtpPacket.data p) 1 Hb ltac:(lia)) as Hc.
  destruct (RtpPacket.second_byte_bits _ pt Hc Hpt) as (E1 & E2 & E3).
  assert (Hd1 : bytes d1 /\ length d1 = length (RtpPacket.data p))
    by (unfold d1; rewrite length_insert; auto using bytes_insert). destruct Hd1 as [Hb1 Hl1].
  rewrite RtpPacket.SetSsrc_eq by (cbn; lia). cbn [RtpPacket.with_data RtpPacket.data].
  eexists. split; [reflexivity|]. split.
  - split; cbn [RtpPacket.with_data RtpPacket.data RtpPacket.payload RtpPacket.payload_len RtpPacket.pad_len RtpPacket.data_len];
      [auto with buf|done|done|rewrite length_splice by buf_len; lia|done].
  - unfold RtpPacket.view_of, addressed, RtpPacket.GetPayload, ByteStream.net16, ByteStream.net32.
    cbn [RtpPacket.with_data RtpPacket.data RtpPacket.payload RtpPacket.payload_len RtpPacket.v_first RtpPacket.v_padding
      RtpPacket.v_marker RtpPacket.v_seq RtpPacket.v_ts RtpPacket.v_ext RtpPacket.v_payload].
    assert (Essrc : slice 8 4 (splice 8 (be_bytes 4 ssrc) d1) = be_bytes 4 ssrc)
      by (apply slice_splice_eq; buf_len).
    rewrite Essrc, be_val_be_bytes, (Z.mod_small ssrc) by (cbn; lia). unfold d1. buf_simp. by rewrite E1, E2.
Qed.

Lemma addressed_back v pt ssrc : addressed (addressed v pt ssrc) (RtpPacket.v_pt v) (RtpPacket.v_ssrc v) = v.
Proof. by destruct v. Qed.

Lemma media_addressed v pt ssrc : RtpPacketEdits.media (addressed v pt ssrc) = addressed (RtpPacketEdits.media v) pt ssrc.
Proof. done. Qed.

(** ** The sending session *)

Lemma StoreRtxPacket_safe s p now fresh :
  RtpSendSession.wf s -> RtpPacketEdits.sound p -> (RtpPacket.data_len p <= 1498)%nat ->
  bytes fresh -> length fresh = 1500%nat ->
  exists s' r, RtpSendSession.StoreRtxPacket s p now fresh = (s', r) /\ defined r /\ RtpSendSession.wf s' /\
    RtpSendSession.param_ s' = RtpSendSession.param_ s.
Proof.
  intros Hwf Hp Hlen Hf Hfl. unfold RtpSendSession.StoreRtxPacket.
  destruct (_ || _); [by exists s, (Ok tt)|]. pose proof Hp as [Sb Sp Ss Sl Sm].
  pose proof (RtpPacketEdits.Clone_sound now fresh p Hp ltac:(lia) Hf ltac:(lia)) as HC.
  destruct (RtpPacket.Clone now fresh p None) as [n|m|]; cbn [sbind]; [|by exists s, (Throw m)|done].
  destruct HC as (Hn & Hfr & Hdl & Hd & Hln & _ & Hps). rewrite RtpPacket.GetSeq_wf by done. cbn [sbind].
  pose proof (RtpSendSession.cache_index_lt (RtpPacket.seq_of n)).
  rewrite (proj2 (Nat.ltb_lt _ _)) by (rewrite (RtpSendSession.wf_cache_len s Hwf); lia).
  do 2 eexists. split; [reflexivity|]. split; [done|]. split; [|done].
  destruct Hwf as [Hb Hpar Hcl Hc Hr]. split; cbn; try done; [by rewrite length_insert|].
  intros i q. destruct (decide (RtpSendSession.cache_index (RtpPacket.seq_of n) = i)) as [<-|Hne].
  - rewrite list_lookup_insert_eq by lia. intros [= <-]. split; [done|]. split; [done|].
    split; [|done]. pose proof (RtpPacket.wf_split n Hn). lia.
  - rewrite list_lookup_insert_ne by done. apply Hc.
Qed.

Lemma SendRtpPacket_safe s p now fresh :
  RtpSendSession.wf s -> RtpPacketEdits.sound p -> (RtpPacket.data_len p <= 1498)%nat ->
  bytes fresh -> length fresh = 1500%nat ->
  exists s' r, RtpSendSession.SendRtpPacket s p now fresh = (s', r) /\ defined r /\ RtpSendSession.wf s' /\
    RtpSendSession.param_ s' = RtpSendSession.param_ s.
Proof.
  intros Hwf Hp Hlen Hf Hfl. pose proof (RtpPacketEdits.sound_header p Hp) as Hh.
  pose proof (RtpPacket.seq_of_hdr p Hh) as Hseq. unfold RtpSendSession.SendRtpPacket.
  rewrite RtpPacket.GetSeq_hdr, RtpPacket.GetTimestamp_hdr by done. cbn [sbind].
  assert (Hwith : forall s1, RtpSendSession.wf s1 -> RtpSendSession.param_ s1 = RtpSendSession.param_ s ->
    exists s' r, (do! (k, _) := RtpSendSession.StoreRtxPacket s1 p now fresh in (k, Ok true)) = (s', r) /\ defined r /\
      RtpSendSession.wf s' /\ RtpSendSession.param_ s' = RtpSendSession.param_ s).
  { intros s1 Hw1 Hp1. destruct (StoreRtxPacket_safe s1 p now fresh Hw1 Hp Hlen Hf Hfl) as (s' & r & -> & Hr & Hw & Hps).
    destruct r as [[]|m|]; [| |done]; cbn [sbind]; do 2 eexists; (split; [reflexivity|]); by rewrite Hps, Hp1. }
  destruct Hwf as [Hb Hpar Hcl Hc Hr]. destruct (RtpSession.first_pkt_ _).
  - apply Hwith; [|done]. split; cbn; done.
  - cbn [RtpSendSession.with_last_seq RtpSendSession.base].
    destruct (RtpSession.UpdateSeq_ok (RtpSendSession.base s) p Hb Hh) as (b & ok & -> & Hb' & Heq). cbn [sbind].
    assert (Hpp : RtpSession.param_ b = RtpSendSession.param_ s) by (by rewrite Heq).
    assert (Hwf : forall st c, RtpSession.wf c -> RtpSession.param_ c = RtpSendSession.param_ s ->
      RtpSendSession.wf (RtpSendSession.with_statics (RtpSendSession.with_base (RtpSendSession.with_last_seq s
        (RtpPacket.seq_of p)) c) st)).
    { intros st c Hcw Hcp. split; cbn; try done. unfold RtpSendSession.param_. cbn. by rewrite Hcp. }
    destruct ok; cbn [negb].
    + apply Hwith; [|unfold RtpSendSession.param_; cbn; by rewrite Hpp].
      apply (Hwf _ (RtpSession.with_last b _ _)); [by destruct Hb'; split|done].
    + do 2 eexists. split; [reflexivity|]. split; [done|]. split; [|exact Hpp].
      pose proof (Hwf (RtpSendSession.send_statics_ s) b Hb' Hpp) as Hk. by destruct Hk; split.
Qed.

Lemma rename_extensions_ok param p :
  RtpPacket.wf p -> exists q, rename_extensions param p = Ok q /\ RtpPacketEdits.ext_edit p q.
Proof.
  intros Hwf. pose proof (RtpPacketEdits.wf_editable p Hwf) as He.
  pose proof (RtpPacketEdits.ext_edit_refl p (RtpPacketEdits.ed_sound p He)) as Hrefl.
  unfold rename_extensions, RtpPacket.HasExtension, RtpPub.RtpCommonHeader.extension.
  rewrite RtpPacket.get_field_cell by (pose proof (RtpPacket.wf_header p Hwf) as []; lia). cbn [rbind].
  destruct (_ =? 1); cbn [negb]; [|by exists p].
  assert (Htcc : exists q b, (if 0 <? RtpSessionParam.tcc_ext_id_ param
      then RtpPacket.UpdateWideSeqExternId p (u8 (RtpSessionParam.tcc_ext_id_ param)) else Ok (p, true)) = Ok (q, b) /\
      RtpPacketEdits.editable q /\ RtpPacketEdits.ext_edit p q).
  { destruct (0 <? _); [|by exists p, true].
    apply RtpPacketEdits.UpdateWideSeqExternId_edit; [done|apply u8_range]. }
  destruct Htcc as (q & b & -> & Hq & Hpq). cbn [rbind].
  destruct (0 <? RtpSessionParam.abs_send_time_ext_id_ param); [|by exists q].
  destruct (RtpPacketEdits.UpdateAbsTimeExternId_edit q (u8 (RtpSessionParam.abs_send_time_ext_id_ param)) Hq)
    as (q' & b' & -> & _ & Hqq); [apply u8_range|]. cbn [rbind]. exists q'. split; [done|].
  by eapply RtpPacketEdits.ext_edit_trans.
Qed.

(** * Properties *)

Lemma puller_send_ok (connected : bool) (now : Z) (fresh : buf) (k : t) (pkt : RtpPacket.t) :
  wf k -> RtpPacket.wf pkt -> (RtpPacket.data_len pkt <= 1498)%nat -> bytes fresh -> length fresh = 1500%nat ->
  exists k' pkt' es r,
    OnTransportSendRtp connected now fresh k pkt = ((k', pkt'), es, r) /\ wf k' /\ defined r /\
    (RtpPacket.payload_len pkt = 0%nat \/ connected = false -> k' = k /\ pkt' = pkt /\ es = [] /\ r = Ok tt) /\
    (RtpPacket.payload_len pkt <> 0%nat -> connected = true ->
     exists s p s' sr, rtp_send_session_ k = Some s /\ RtpPacketEdits.ext_edit pkt p /\
       RtpSendSession.SendRtpPacket s p now fresh = (s', sr) /\ rtp_send_session_ k' = Some s' /\
       match sr with
       | Ok true => r = Ok tt /\ RtpPacket.view_of pkt' = RtpPacket.view_of p /\
           exists q, es = [TransportSendRtp (RtpPacket.GetData q)] /\ RtpPacketEdits.sound q /\
             RtpPacketEdits.media (RtpPacket.view_of q) =
               RtpPacketEdits.media (addressed (RtpPacket.view_of pkt) (RtpSessionParam.payload_type_ (param_ k))
                                               (RtpSessionParam.ssrc_ (param_ k)))
       | Ok false => r = Ok tt /\ es = []
       | _ => es = [] /\ is_ok r = false
       end).
Proof.
  intros [Hcb Hpar (s & Hs & Hsw)] Hpkt Hlen Hf Hfl. unfold OnTransportSendRtp.
  assert (Hk : wf k) by (split; try done; by exists s).
  destruct (Nat.eqb_spec (RtpPacket.payload_len pkt) 0) as [E0|E0].
  { exists k, pkt, [], (Ok tt). by split_and!. }
  rewrite Hcb. cbn [andb]. destruct connected; cbn [negb].
  2: { exists k, pkt, [], (Ok tt). by split_and!. }
  destruct (rename_extensions_ok (param_ k) pkt Hpkt) as (p & -> & Hed). cbn [pure ebind].
  pose proof (RtpPacketEdits.ed_sound _ (RtpPacketEdits.wf_editable pkt Hpkt)) as Hsp0.
  pose proof (RtpPacketEdits.ee_sound _ _ Hed) as Hps.
  assert (Hlp : RtpPacket.data_len p = RtpPacket.data_len pkt).
  { pose proof (RtpPacketEdits.ee_geometry _ _ Hed) as Hg. by injection Hg as _ _ _ ? _ _. }
  destruct (SendRtpPacket_safe s p now fresh Hsw Hps ltac:(lia) Hf Hfl) as (s' & sr & Hsend & Hdef & Hsw' & Hsp').
  unfold on_session. rewrite Hs, Hsend. cbn [quiet zoom fst snd].
  assert (Hk' : wf (with_session k s')) by (split; [done|done|]; by exists s').
  destruct sr as [[]|m|]; cbn [ebind negb fst]; [| | |done].
  - pose proof (RtpPacketEdits.sound_header p Hps) as [Hb Hl].
    rewrite RtpPacket.GetPayloadType_eq, RtpPacket.GetSsrc_eq by done. cbn [pure ebind].
    destruct Hpar as [P1 P2].
    destruct (readdress p (RtpSessionParam.payload_type_ (param_ k)) (RtpSessionParam.ssrc_ (param_ k)) Hps P2 P1)
      as (q & Hq & Hqs & Hqv).
    cbn [with_session param_]. rewrite Hq. cbn [pure ebind fst with_session cb_]. rewrite Hcb. cbn [emit ebind app].
    pose proof (RtpPacketEdits.wf_rtx_ok pkt Hpkt) as _.
    destruct (readdress q (bits (cell (RtpPacket.data p) 1) 0 7) (ByteStream.net32 (RtpPacket.data p) 8) Hqs)
      as (b & Hbk & _ & Hbv); [apply (RtpPub.bits_range _ 0 7); lia|apply ByteStream.net32_range; [done|lia]|].
    rewrite Hbk. cbn [pure ebind app]. do 4 eexists. split; [reflexivity|]. split; [done|]. split; [done|].
    split; [by intros [?|?]|]. intros _ _. exists s, p, s', (Ok true). split_and!; try done.
    + rewrite Hbv, Hqv. exact (addressed_back (RtpPacket.view_of p) _ _).
    + exists q. split_and!; try done. rewrite Hqv.
      pose proof (RtpPacketEdits.ext_edit_media pkt p (proj2 (RtpPacket.wf_header pkt Hpkt)) Hed) as Hm.
      by rewrite !media_addressed, Hm.
  - do 4 eexists. split; [reflexivity|]. split; [done|]. split; [done|]. split; [by intros [?|?]|].
    intros _ _. exists s, p, s', (Ok false). by split_and!.
  - do 4 eexists. split; [reflexivity|]. split; [done|]. split; [done|]. split; [by intros [?|?]|].
    intros _ _. exists s, p, s', (Throw m). by split_and!.
Qed.

(** a packet lent to a subscriber.  Nothing happens to a packet without payload, or
    while the subscriber's transport is not connected.  Otherwise the subscriber's
    extension ids are put into the packet's header extensions, and its sending session
    checks and caches it; if the session takes it, exactly one datagram goes out: the
    packet's media, unchanged, under the payload type and SSRC negotiated with this
    subscriber; and the packet gets its own payload type and SSRC back.  If the session
    refuses it, nothing is sent. *)
Theorem OnTransportSendRtp_forwards (connected : bool) (now : Z) (fresh : buf) (k : t) (pkt : RtpPacket.t) :
  wf k -> RtpPacket.wf pkt -> (RtpPacket.data_len pkt <= 1498)%nat -> bytes fresh -> length fresh = 1500%nat ->
  exists k' pkt' es r,
    OnTransportSendRtp connected now fresh k pkt = ((k', pkt'), es, r) /\ wf k' /\ defined r /\
    (RtpPacket.payload_len pkt = 0%nat \/ connected = false -> k' = k /\ pkt' = pkt /\ es = [] /\ r = Ok tt) /\
    (RtpPacket.payload_len pkt <> 0%nat -> connected = true ->
     exists s p s' sr, rtp_send_session_ k = Some s /\ RtpPacketEdits.ext_edit pkt p /\
       RtpSendSession.SendRtpPacket s p now fresh = (s', sr) /\ rtp_send_session_ k' = Some s' /\
       match sr with
       | Ok true => r = Ok tt /\ RtpPacket.view_of pkt' = RtpPacket.view_of p /\
           exists q, es = [TransportSendRtp (RtpPacket.GetData q)] /\ RtpPacketEdits.sound q /\
             RtpPacketEdits.media (RtpPacket.view_of q) =
               RtpPacketEdits.media (addressed (RtpPacket.view_of pkt) (RtpSessionParam.payload_type_ (param_ k))
                                               (RtpSessionParam.ssrc_ (param_ k)))
       | Ok false => r = Ok tt /\ es = []
       | _ => es = [] /\ is_ok r = false
       end).
Proof. exact (puller_send_ok connected now fresh k pkt). Qed.

(** the subscriber's timer.  The first tick only starts the statistics; on every
    later one the session's sender report, if one is due, goes out as it is, at most one
    for each tick. *)
Theorem OnTimer_reports (k : t) (now : Z) :
  wf k ->
  exists k' es, OnTimer k now = (k', es, Ok tt) /\ wf k' /\
    (last_statics_ms_ k < 0 -> es = [] /\ rtp_send_session_ k' = rtp_send_session_ k) /\
    (0 <= last_statics_ms_ k ->
     exists s s1 s' sent, rtp_send_session_ k = Some s /\ RtpSendSession.base s1 = RtpSendSession.base s /\
       RtpSendSession.rtx_packet_cache_ s1 = RtpSendSession.rtx_packet_cache_ s /\
       RtpSendSession.OnTimer s1 now = (s', Ok sent) /\ rtp_send_session_ k' = Some s' /\
       es = match sent with Some d => [TransportSendRtcp d] | None => [] end).
Proof.
  intros Hk. pose proof Hk as [Hcb Hpar (s & Hs & Hsw)]. unfold OnTimer.
  destruct (Z.ltb_spec (last_statics_ms_ k) 0).
  { do 2 eexists. split; [reflexivity|]. split_and!; [|done|lia].
    split; [done|done|]. by exists s. }
  assert (Hrest : forall k1 s1, rtp_send_session_ k1 = Some s1 -> cb_ k1 = true -> RtpSendSession.wf s1 ->
    param_ k1 = param_ k ->
    exists k' s' sent, (do* (k, sent) := on_session k1 (fun s => quiet (RtpSendSession.OnTimer s now)) in
      match sent with
      | None => eret k tt
      | Some d => if cb_ k then emit k [TransportSendRtcp d] else pure k (Undef NullDeref)
      end) = (k', match sent with Some d => [TransportSendRtcp d] | None => [] end, Ok tt) /\ wf k' /\
      RtpSendSession.OnTimer s1 now = (s', Ok sent) /\ rtp_send_session_ k' = Some s').
  { intros k1 s1 Hs1 Hcb1 Hw1 Hpk. unfold on_session. rewrite Hs1.
    destruct (RtpSendSession.OnSendRtcpSr_ok s1 now) as (s' & sent & HT & Hc & Hb & Hq & Hcbs).
    unfold RtpSendSession.OnTimer. rewrite HT. cbn [quiet zoom ebind fst snd].
    assert (Hw : wf (with_session k1 s')).
    { split; cbn [with_session cb_ param_ rtp_send_session_]; rewrite ?Hpk; [done|done|]. exists s'. split; [done|].
      destruct Hw1. split; unfold RtpSendSession.param_ in *; rewrite ?Hb, ?Hc, ?Hq; done. }
    exists (with_session k1 s'), s', sent. destruct sent as [d|]; cbn [with_session cb_]; [rewrite Hcb1|]; by split_and!. }
  destruct (5000 <? _).
  - unfold on_session at 1. rewrite Hs. cbn [zoom ebind].
    destruct (Hrest (with_last_statics (with_session k (RtpSendSession.with_statics s
      (StreamStatics.BytesPerSecond (RtpSendSession.send_statics_ s) now).1.1)) now) _ eq_refl Hcb) as (k' & s' & sent & HE & Hw & HT & Hs');
      [destruct Hsw; by split|done|].
    cbn [eret ebind app]. rewrite HE. do 2 eexists. split; [reflexivity|]. split; [done|]. split; [lia|]. intros _.
    eexists s, _, s', sent. split; [done|]. split; [|split; [|split; [exact HT|]]]; done.
  - cbn [eret ebind]. destruct (Hrest k s Hs Hcb Hsw eq_refl) as (k' & s' & sent & HE & Hw & HT & Hs').
    rewrite HE. do 2 eexists. split; [reflexivity|]. split; [done|]. split; [lia|]. intros _.
    exists s, s, s', sent. by split_and!.
Qed.

(** * A subscriber *)

Definition sample : t :=
  CreateRtpSendSession (new_MediaPuller
    (RtpSessionParam.mk RtpSessionParam.MEDIA_VIDEO_TYPE 0 77 100 0 90000 78 101 true false 4 5 6 "H264" EmptyString []) "bob" "alice" "q1" "p1" true).
Lemma puller_sample_wf : wf sample.
Proof. apply puller_wf_new. split; cbn; lia. Qed.

Lemma OnTransportSendRtp_forwards_witness :
  exists k' pkt' d, OnTransportSendRtp true 0 (replicate 1500 0) sample RtpPacket.sample =
      ((k', pkt'), [TransportSendRtp d], Ok tt) /\ wf k' /\ take 2 d = [144; 100].
Proof.
  destruct (OnTransportSendRtp_forwards true 0 (replicate 1500 0) sample RtpPacket.sample puller_sample_wf
    RtpPacket.sample_wf) as (k' & pkt' & es & r & H & Hwf & _); [vm_compute; lia|bytes_done|reflexivity|].
  exists k', pkt'. assert (Hes : exists d, es = [TransportSendRtp d] /\ r = Ok tt /\ take 2 d = [144; 100]).
  { apply (f_equal (fun x => (x.1.2, x.2))) in H. vm_compute in H. injection H as <- <-. eexists. by split_and!. }
  destruct Hes as (d & -> & -> & Hd). by exists d.
Defined.

Lemma OnTimer_reports_witness : exists k', OnTimer sample 5000 = (k', [], Ok tt) /\ wf k'.
Proof.
  destruct (OnTimer_reports sample 5000 puller_sample_wf) as (k' & es & H & Hwf & H1 & _).
  destruct H1 as [-> _]; [reflexivity|]. by exists k'.
Defined.

End MediaPuller.
