(* ===== verification/RtcRelay.v ===== *)
(** [webrtc_room/port_generator.cpp], [rtc_send_relay.cpp] and [rtc_recv_relay.cpp] with
    their headers: the tracks of a user, carried between two servers over plain UDP.  The
    sending relay caches what it sends and answers NACKs; the receiving one judges, undoes
    RTX and gives the packets to its room. *)
From S2P Require Import Prelude Effect ByteStream RtpPub IceServer StdMap StrMap RtpPacket RtpPacketEdits RtcpReports.
From S2P Require Import RtcpFeedback RtpSession Nack RtpSendSession RtpRecvSession RtcInfo MediaPusher MediaPuller.

Import RtpPub RtcInfo.

(** * Ports *)

Module PortGenerator.

Record t := mk { start_port_ : Z; end_port_ : Z; current_port_ : Z }.
Definition Initialize (start_port end_port : Z) : t := mk start_port end_port start_port.

(** The ports are [uint16_t]. *)
Definition GeneratePort (k : t) : t * Z :=
  let current := if end_port_ k <? current_port_ k then start_port_ k else current_port_ k in
  (mk (start_port_ k) (end_port_ k) (u16 (current + 1)), current).

(** The ports of [n] calls. *)
Fixpoint ports (n : nat) (k : t) : list Z :=
  match n with O => [] | S n' => let '(k, p) := GeneratePort k in p :: ports n' k end.

Lemma ports_from (s e : Z) (n : nat) :
  0 <= s <= e -> e < 65535 ->
  forall c, s <= c <= e + 1 -> forall i, (i < n)%nat ->
  ports n (mk s e c) !! i = Some (s + (c - s + Z.of_nat i) mod (e - s + 1)).
Proof.
  intros Hs He. induction n as [|n IH]; intros c Hc i Hi; [lia|]. cbn [ports GeneratePort end_port_ current_port_ start_port_].
  destruct i as [|i]; cbn [lookup list_lookup].
  - destruct (Z.ltb_spec e c); f_equal.
    + replace c with (e + 1) by lia. rewrite Z.add_0_r. replace (e + 1 - s) with (e - s + 1) by lia. rewrite Z.mod_same by lia. lia.
    + rewrite Z.mod_small by lia. lia.
  - destruct (Z.ltb_spec e c).
    + assert (c = e + 1) as -> by lia. rewrite u16_small by lia. rewrite IH by lia. do 2 f_equal.
      replace (e + 1 - s + Z.of_nat (S i)) with (s + 1 - s + Z.of_nat i + 1 * (e - s + 1)) by lia. by rewrite Z.mod_add by lia.
    + rewrite u16_small by lia. rewrite IH by lia. do 2 f_equal. f_equal. lia.
Qed.

(** C35: the relay ports go round the configured range, in order, as long as its last port
    is below 65535. *)
Theorem ports_in_range (s e : Z) (n i : nat) :
  0 <= s <= e -> e < 65535 -> (i < n)%nat ->
  ports n (Initialize s e) !! i = Some (s + Z.of_nat i mod (e - s + 1)).
Proof.
  intros Hs He Hi. unfold Initialize. rewrite (ports_from s e n Hs He s) by lia. by rewrite Z.sub_diag, Z.add_0_l.
Qed.

(** With 65535 as the last port the counter wraps and the range is left for port 0. *)
Lemma ports_leave_range : ports 4 (Initialize 65534 65535) = [65534; 65535; 0; 1].
Proof. reflexivity. Qed.

Lemma ports_in_range_witness : ports 5 (Initialize 40000 40002) !! 4%nat = Some 40001.
Proof. apply (ports_in_range 40000 40002 5 4); lia. Defined.

End PortGenerator.

(** What the relays do outside: datagrams, and calls on the room. *)
Inductive relay_call :=
  | UdpWrite (data : list Z) (address : IceServer.UdpTuple)
  | OnKeyFrameRequest (pusher_id puller_user_id pusher_user_id : string) (ssrc : Z)
  | OnRtpPacketFromRemoteRtcPusher (pusher_user_id pusher_id : string) (rtp_packet : RtpPacket.t).

(** * Sending *)

Module RtcSendRelay.

(** [random] is what [GetRandomUint(0, 100)] will return. *)
Record t := mk {
  room_id_ : string; pusher_user_id_ : string; remote_ip_ : list Z; remote_port_ : Z;
  push_infos_ : list (string * PushInfo);
  store : list RtpSendSession.t; ssrc2send_session_ : list (Z * nat); rtx_ssrc2send_session_ : list (Z * nat);
  last_alive_ms_ : Z; send_discard_percent_ : Z; last_statics_ms_ : Z;
  random : list Z
}.

Definition with_store (k : t) (st : list RtpSendSession.t) : t :=
  mk (room_id_ k) (pusher_user_id_ k) (remote_ip_ k) (remote_port_ k) (push_infos_ k) st (ssrc2send_session_ k)
     (rtx_ssrc2send_session_ k) (last_alive_ms_ k) (send_discard_percent_ k) (last_statics_ms_ k) (random k).
Definition with_times (k : t) (alive statics : Z) (r : list Z) : t :=
  mk (room_id_ k) (pusher_user_id_ k) (remote_ip_ k) (remote_port_ k) (push_infos_ k) (store k) (ssrc2send_session_ k)
     (rtx_ssrc2send_session_ k) alive (send_discard_percent_ k) statics r.

Definition new_RtcSendRelay (room_id pusher_user_id : string) (remote_ip : list Z) (remote_port discard_percent now_ms : Z)
    (r : list Z) : t :=
  mk room_id pusher_user_id remote_ip remote_port [] [] [] [] now_ms discard_percent 0 r.

Definition remote_address (k : t) : IceServer.UdpTuple := IceServer.mk_tuple (remote_ip_ k) (remote_port_ k).

Definition DiscardPacketByPercent (k : t) (percent : Z) : t * bool :=
  if 0 <? percent then
    match random k with
    | rand_val :: r => (with_times k (last_alive_ms_ k) (last_statics_ms_ k) r, rand_val <=? percent)
    | [] => (k, 0 <=? percent)
    end
  else (k, false).

Definition OnTransportSendRtp (now_ms : Z) (k : t) (data : list Z) : eff t relay_call unit :=
  let '(k, drop) := DiscardPacketByPercent k (send_discard_percent_ k) in
  if drop then eret k tt else
  let k := with_times k now_ms (last_statics_ms_ k) (random k) in
  emit k [UdpWrite data (remote_address k)].
Definition OnTransportSendRtcp (k : t) (data : list Z) : eff t relay_call unit :=
  emit k [UdpWrite data (remote_address k)].

(** The socket is there for as long as the relay. *)
Definition IsConnected (k : t) : bool :=
  negb (match remote_ip_ k with [] => true | _ => false end || (remote_port_ k =? 0)).

Definition from_session (now_ms : Z) (k : t) (c : MediaPuller.call) : eff t relay_call unit :=
  match c with
  | MediaPuller.TransportSendRtp d => OnTransportSendRtp now_ms k d
  | MediaPuller.TransportSendRtcp d => OnTransportSendRtcp k d
  end.

(** A call on the [i]th session, whose transport the relay is. *)
Definition on_session {A} (now_ms : Z) (k : t) (i : nat)
    (f : RtpSendSession.t -> eff RtpSendSession.t MediaPuller.call A) : eff t relay_call A :=
  match store k !! i with
  | None => pure k (Undef NullDeref)
  | Some s => handled (from_session now_ms) (zoom (fun s => with_store k (<[i := s]> (store k))) (f s))
  end.

(** Both maps hold the session. *)
Definition session_of (k : t) (ssrc : Z) : option nat :=
  match StdMap.find ssrc (ssrc2send_session_ k) with
  | Some i => Some i
  | None => StdMap.find ssrc (rtx_ssrc2send_session_ k)
  end.

Definition SendRtpPacket (now_ms : Z) (fresh : buf) (k : t) (rtp_packet : RtpPacket.t) : eff t relay_call unit :=
  ecatch
    (do* (k, ssrc) := pure k (RtpPacket.GetSsrc rtp_packet) in
     match session_of k ssrc with
     | None => eret k tt
     | Some i =>
         do* (k, r) := on_session now_ms k i (fun s => quiet (RtpSendSession.SendRtpPacket s rtp_packet now_ms fresh)) in
         if negb r then eret k tt else
         OnTransportSendRtp now_ms k (RtpPacket.GetData rtp_packet)
     end)
    (fun k => eret k tt).

(** Entries that exist are kept; the session made for nothing goes with its last pointer. *)
Definition AddPushInfo (k : t) (push_info : PushInfo) : t :=
  let p := param_ push_info in
  let i := length (store k) in
  mk (room_id_ k) (pusher_user_id_ k) (remote_ip_ k) (remote_port_ k)
     (StrMap.emplace (pusher_id_ push_info) push_info (push_infos_ k))
     (store k ++ [RtpSendSession.new_RtpSendSession p true])
     (StdMap.insert (RtpSessionParam.ssrc_ p) i (ssrc2send_session_ k))
     (if negb (RtpSessionParam.rtx_ssrc_ p =? 0) then StdMap.insert (RtpSessionParam.rtx_ssrc_ p) i (rtx_ssrc2send_session_ k)
      else rtx_ssrc2send_session_ k)
     (last_alive_ms_ k) (send_discard_percent_ k) (last_statics_ms_ k) (random k).

(** [stream_log] says whether the stream log is on: only then are the statistics read. *)
Definition statics_tick (stream_log : bool) (now_ms : Z) (k : t) (i : nat) : eff t relay_call unit :=
  let k := if last_statics_ms_ k <? 0 then with_times k (last_alive_ms_ k) now_ms (random k) else k in
  if 5000 <? now_ms - last_statics_ms_ k then
    let k := with_times k (last_alive_ms_ k) now_ms (random k) in
    if stream_log then
      on_session now_ms k i (fun s => eret (RtpSendSession.with_statics s
        (StreamStatics.BytesPerSecond (RtpSendSession.send_statics_ s) now_ms).1.1) tt)
    else eret k tt
  else eret k tt.

Definition timer_entry (stream_log : bool) (now_ms : Z) (k : t) (e : Z * nat) : eff t relay_call unit :=
  do* (k, _) := on_session now_ms k e.2 (fun s =>
    do* (s, sent) := quiet (RtpSendSession.OnTimer s now_ms) in
    match sent with Some d => emit s [MediaPuller.TransportSendRtcp d] | None => eret s tt end) in
  statics_tick stream_log now_ms k e.2.
Definition OnTimer (stream_log : bool) (now_ms : Z) (k : t) : eff t relay_call unit :=
  efor (ssrc2send_session_ k) k (timer_entry stream_log now_ms).

(** ** RTCP *)

(** The loop over the blocks ends at the first one about no known stream. *)
Fixpoint rr_blocks (now_ms : Z) (k : t) (d : buf) (blocks : list nat) : eff t relay_call unit :=
  match blocks with
  | [] => eret k tt
  | rr_block :: blocks =>
      do* (k, reportee_ssrc) := pure k (RtcpRrBlockInfo.GetReporteeSsrc d rr_block) in
      match StdMap.find reportee_ssrc (ssrc2send_session_ k) with
      | None => eret k tt
      | Some i =>
          do* (k, _) := on_session now_ms k i (fun s => quiet (RtpSendSession.RecvRtcpRrBlock s d rr_block now_ms)) in
          rr_blocks now_ms k d blocks
      end
  end.
Definition HandleRtcpRrPacket (now_ms : Z) (k : t) (data : buf) (len : nat) : eff t relay_call unit :=
  ecatch
    (do* (k, rr_packet) := pure k (RtcpRrPacket.Parse data len) in
     rr_blocks now_ms k (RtcpRrPacket.data rr_packet) (RtcpRrPacket.GetRrBlocks rr_packet))
    (fun k => eret k tt).

Definition HandleRtcpRtpfbPacket (now_ms : Z) (uninit : buf) (k : t) (data : buf) (len : nat) : eff t relay_call unit :=
  if (len <=? RtcpCommonHeader.size)%nat then eret k tt else
  ecatch
    (do* (k, fmt) := pure k (RtcpCommonHeader.count data 0) in
     if fmt =? RTCP_FB_RTP_FMT_val FB_RTP_NACK then
       do* (k, nack_pkt) := pure k (RtcpFbNack.Parse uninit data len) in
       match nack_pkt with
       | None => eret k tt
       | Some nack_pkt =>
           do* (k, ssrc) := pure k (RtcpFbNack.GetMediaSsrc nack_pkt) in
           match StdMap.find ssrc (ssrc2send_session_ k) with
           | None => eret k tt
           | Some i =>
               do* (k, _) := on_session now_ms k i (fun s => MediaPuller.rtp_sent (RtpSendSession.RecvRtcpFbNack s nack_pkt)) in
               eret k tt
           end
       end
     else eret k tt)
    (fun k => eret k tt).

(** The track with the SSRC, the first in the order of the pusher ids. *)
Definition pusher_of (k : t) (ssrc : Z) : string :=
  match filter (fun e : string * PushInfo => RtpSessionParam.ssrc_ (param_ e.2) = ssrc) (push_infos_ k) with
  | e :: _ => pusher_id_ e.2
  | [] => EmptyString
  end.

(** A picture loss indication falls through to the empty case behind it. *)
Definition HandleRtcpPsfbPacket (k : t) (data : buf) (len : nat) : eff t relay_call unit :=
  if (len <=? RtcpCommonHeader.size)%nat then eret k tt else
  ecatch
    (do* (k, fmt) := pure k (RtcpCommonHeader.count data 0) in
     if fmt =? RTCP_FB_PS_FMT_val FB_PS_PLI then
       do* (k, pspli_pkt) := pure k (RtcpPsPli.Parse data len) in
       match pspli_pkt with
       | None => eret k tt
       | Some pspli_pkt =>
           do* (k, ssrc) := pure k (RtcpPsPli.GetMediaSsrc pspli_pkt) in
           let pusher_id := pusher_of k ssrc in
           if String.eqb pusher_id EmptyString then eret k tt else
           emit k [OnKeyFrameRequest pusher_id "remote_user_id" (pusher_user_id_ k) ssrc]
       end
     else eret k tt)
    (fun k => eret k tt).

Definition rtcp_item (now_ms : Z) (uninit : buf) (k : t) (data : buf) (packet_type : Z) (len : nat) : eff t relay_call unit :=
  if packet_type =? RTCP_TYPE_val RTCP_RR then HandleRtcpRrPacket now_ms k data len else
  if packet_type =? RTCP_TYPE_val RTCP_PSFB then HandleRtcpPsfbPacket k data len else
  if packet_type =? RTCP_TYPE_val RTCP_RTPFB then HandleRtcpRtpfbPacket now_ms uninit k data len else
  eret k tt.

(** The loop over a compound; each packet advances it by at least four bytes. *)
Fixpoint rtcp_loop (fuel : nat) (now_ms : Z) (uninit : buf) (k : t) (p : buf) (left_len : Z) : eff t relay_call unit :=
  if left_len <=? 0 then eret k tt else
  match fuel with
  | O => pure k (Undef OutOfFuel)
  | S fuel' =>
      do* (k, item_total) := pure k (GetRtcpLength p 0) in
      do* (k, packet_type) := pure k (RtcpCommonHeader.packet_type p 0) in
      do* (k, _) := rtcp_item now_ms uninit k p packet_type (Z.to_nat item_total) in
      rtcp_loop fuel' now_ms uninit k (drop (Z.to_nat item_total) p) (left_len - item_total)
  end.
Definition HandleRtcpPacket (now_ms : Z) (uninit : buf) (k : t) (data : buf) (len : nat) : eff t relay_call unit :=
  rtcp_loop len now_ms uninit k data (Z.of_nat len).

Definition OnRead (now_ms : Z) (uninit : buf) (k : t) (data : buf) (len : nat) : eff t relay_call unit :=
  if (len =? 0)%nat then eret k tt else
  do* (k, rtcp) := pure k (IsRtcp data len) in
  if rtcp : bool then HandleRtcpPacket now_ms uninit k data len else
  do* (k, _) := pure k (IsRtp data len) in eret k tt.

Definition IsAlive (k : t) (now_ms : Z) : bool := now_ms - last_alive_ms_ k <=? 40 * 1000.

End RtcSendRelay.

(** * Receiving *)

Module RtcRecvRelay.

Record t := mk {
  room_id_ : string; pusher_user_id_ : string;
  push_infos_ : list (string * PushInfo); ssrc2push_infos_ : list (Z * PushInfo);
  store : list RtpRecvSession.t; ssrc2recv_session_ : list (Z * nat); rtx_ssrc2recv_session_ : list (Z * nat);
  udp_port_ : Z; listen_ip_ : string; remote_address_ : IceServer.UdpTuple;
  last_alive_ms_ : Z; recv_discard_percent_ : Z; last_statics_ms_ : Z;
  random : list Z
}.

Definition with_store (k : t) (st : list RtpRecvSession.t) : t :=
  mk (room_id_ k) (pusher_user_id_ k) (push_infos_ k) (ssrc2push_infos_ k) st (ssrc2recv_session_ k)
     (rtx_ssrc2recv_session_ k) (udp_port_ k) (listen_ip_ k) (remote_address_ k) (last_alive_ms_ k)
     (recv_discard_percent_ k) (last_statics_ms_ k) (random k).
Definition with_remote (k : t) (a : IceServer.UdpTuple) : t :=
  mk (room_id_ k) (pusher_user_id_ k) (push_infos_ k) (ssrc2push_infos_ k) (store k) (ssrc2recv_session_ k)
     (rtx_ssrc2recv_session_ k) (udp_port_ k) (listen_ip_ k) a (last_alive_ms_ k)
     (recv_discard_percent_ k) (last_statics_ms_ k) (random k).
Definition with_times (k : t) (alive statics : Z) (r : list Z) : t :=
  mk (room_id_ k) (pusher_user_id_ k) (push_infos_ k) (ssrc2push_infos_ k) (store k) (ssrc2recv_session_ k)
     (rtx_ssrc2recv_session_ k) (udp_port_ k) (listen_ip_ k) (remote_address_ k) alive
     (recv_discard_percent_ k) statics r.

Definition new_RtcRecvRelay (room_id pusher_user_id listen_ip : string) (udp_port discard_percent now_ms : Z) (r : list Z) : t :=
  mk room_id pusher_user_id [] [] [] [] [] udp_port listen_ip (IceServer.mk_tuple [] 0) now_ms discard_percent (-1) r.

Definition IsAlive (k : t) (now_ms : Z) : bool := negb (40 * 1000 <? now_ms - last_alive_ms_ k).

(** Entries that exist are kept; the session made for nothing goes with its last pointer. *)
Definition AddVirtualPusher (k : t) (push_info : PushInfo) : t * Z :=
  let p := param_ push_info in
  let i := length (store k) in
  (mk (room_id_ k) (pusher_user_id_ k)
      (StrMap.emplace (pusher_id_ push_info) push_info (push_infos_ k))
      (StdMap.insert (RtpSessionParam.ssrc_ p) push_info (ssrc2push_infos_ k))
      (store k ++ [RtpRecvSession.new_RtpRecvSession p])
      (StdMap.insert (RtpSessionParam.ssrc_ p) i (ssrc2recv_session_ k))
      (if negb (RtpSessionParam.rtx_ssrc_ p =? 0) then StdMap.insert (RtpSessionParam.rtx_ssrc_ p) i (rtx_ssrc2recv_session_ k)
       else rtx_ssrc2recv_session_ k)
      (udp_port_ k) (listen_ip_ k) (remote_address_ k) (last_alive_ms_ k) (recv_discard_percent_ k) (last_statics_ms_ k)
      (random k), 0).

Definition DiscardPacketByPercent (k : t) (percent : Z) : t * bool :=
  if percent =? 0 then (k, false) else
  match random k with
  | rand_val :: r => (with_times k (last_alive_ms_ k) (last_statics_ms_ k) r, rand_val <=? percent)
  | [] => (k, 0 <=? percent)
  end.

Definition no_address (a : IceServer.UdpTuple) : bool :=
  match IceServer.ip_address a with [] => true | _ => false end || (IceServer.port a =? 0).
Definition IsConnected (k : t) : bool := negb (no_address (remote_address_ k)).

Definition OnTransportSendRtcp (k : t) (data : list Z) : eff t relay_call unit :=
  match data with
  | [] => eret k tt
  | _ => if no_address (remote_address_ k) then eret k tt else emit k [UdpWrite data (remote_address_ k)]
  end.

(** ** RTP *)

(** [*it->second] of the two session maps. *)
Definition session_at (k : t) (i : nat) : res RtpRecvSession.t :=
  match store k !! i with Some s => Ok s | None => Undef NullDeref end.
Definition set_session (k : t) (i : nat) (s : RtpRecvSession.t) : t := with_store k (<[i := s]> (store k)).

(** The packet as its session hands it back, [None] where the function returns: refused,
    repeated, or of no known stream. *)
Definition received (k : t) (rtp_packet : RtpPacket.t) : eff t relay_call (option RtpPacket.t) :=
  do* (k, ssrc) := pure k (RtpPacket.GetSsrc rtp_packet) in
  match StdMap.find ssrc (ssrc2recv_session_ k) with
  | Some i =>
      do* (k, s) := pure k (session_at k i) in
      let '(s, r) := RtpRecvSession.ReceiveRtpPacket s rtp_packet in
      do* (k, r) := pure (set_session k i s) r in
      if negb r then eret k None else eret k (Some rtp_packet)
  | None =>
      match StdMap.find ssrc (rtx_ssrc2recv_session_ k) with
      | Some i =>
          do* (k, s) := pure k (session_at k i) in
          let '(s, rtp_packet, repeat, r) := RtpRecvSession.ReceiveRtxPacket s rtp_packet false in
          do* (k, r) := pure (set_session k i s) r in
          if negb r then eret k None else
          if repeat : bool then eret k None else
          do* (k, ssrc') := pure k (RtpPacket.GetSsrc rtp_packet) in
          if ssrc' =? ssrc then eret k None else eret k (Some rtp_packet)
      | None => eret k None
      end
  end.

(** The room is told under the id of the track with the packet's SSRC. *)
Definition give_to_room (k : t) (rtp_packet : RtpPacket.t) : eff t relay_call unit :=
  if (RtpPacket.payload_len rtp_packet =? 0)%nat then eret k tt else
  do* (k, ssrc) := pure k (RtpPacket.GetSsrc rtp_packet) in
  match StdMap.find ssrc (ssrc2push_infos_ k) with
  | None => eret k tt
  | Some info => emit k [OnRtpPacketFromRemoteRtcPusher (pusher_user_id_ k) (pusher_id_ info) rtp_packet]
  end.

Definition HandleRtpPacket (now_ms : Z) (k : t) (data : buf) (len : nat) : eff t relay_call unit :=
  ecatch
    (do* (k, rtp_packet) := pure k (RtpPacket.Parse now_ms data len) in
     do* (k, rtp_packet) := received k rtp_packet in
     match rtp_packet with
     | None => eret k tt
     | Some rtp_packet => give_to_room k rtp_packet
     end)
    (fun k => eret k tt).

(** ** RTCP *)

Definition HandleRtcpSrPacket (now_ms : Z) (uninit : buf) (k : t) (data : buf) (len : nat) : eff t relay_call unit :=
  ecatch
    (do* (k, sr_packet) := pure k (RtcpSrPacket.Parse uninit data len) in
     match StdMap.find (RtcpSrPacket.GetSsrc sr_packet) (ssrc2recv_session_ k) with
     | None => eret k tt
     | Some i =>
         do* (k, s) := pure k (session_at k i) in
         let '(s, r) := RtpRecvSession.HandleRtcpSrPacket s sr_packet now_ms in
         do* (k, _) := pure (set_session k i s) r in
         eret k tt
     end)
    (fun k => eret k tt).

Fixpoint rtcp_loop (fuel : nat) (now_ms : Z) (uninit : buf) (k : t) (p : buf) (left_len : Z) : eff t relay_call unit :=
  if left_len <=? 0 then eret k tt else
  match fuel with
  | O => pure k (Undef OutOfFuel)
  | S fuel' =>
      do* (k, item_total) := pure k (GetRtcpLength p 0) in
      do* (k, packet_type) := pure k (RtcpCommonHeader.packet_type p 0) in
      do* (k, _) := (if packet_type =? RTCP_TYPE_val RTCP_SR then HandleRtcpSrPacket now_ms uninit k p (Z.to_nat item_total)
                     else eret k tt) in
      rtcp_loop fuel' now_ms uninit k (drop (Z.to_nat item_total) p) (left_len - item_total)
  end.
Definition HandleRtcpPacket (now_ms : Z) (uninit : buf) (k : t) (data : buf) (len : nat) : eff t relay_call unit :=
  rtcp_loop len now_ms uninit k data (Z.of_nat len).

Definition OnRead (now_ms : Z) (uninit : buf) (k : t) (data : buf) (len : nat) (address : IceServer.UdpTuple) : eff t relay_call unit :=
  let '(k, drop) := DiscardPacketByPercent k (recv_discard_percent_ k) in
  if drop then eret k tt else
  if (len =? 0)%nat then eret k tt else
  let k := with_remote k address in
  do* (k, rtcp) := pure k (IsRtcp data len) in
  if rtcp : bool then HandleRtcpPacket now_ms uninit k data len else
  do* (k, rtp) := pure k (IsRtp data len) in
  if rtp : bool then
    HandleRtpPacket now_ms (with_times k now_ms (last_statics_ms_ k) (random k)) data len
  else eret k tt.

(** ** What the room asks, and the timers *)

Definition GetMediaType (k : t) (pusher_id : string) : RtpSessionParam.MEDIA_PKT_TYPE :=
  match StrMap.find pusher_id (push_infos_ k) with
  | Some info => RtpSessionParam.av_type_ (param_ info)
  | None => RtpSessionParam.MEDIA_UNKNOWN_TYPE
  end.
Definition GetPushInfo (k : t) (pusher_id : string) : option PushInfo := StrMap.find pusher_id (push_infos_ k).

Definition RequestKeyFrame (k : t) (ssrc : Z) : eff t relay_call unit :=
  match StdMap.find ssrc (ssrc2push_infos_ k) with
  | None => eret k tt
  | Some _ =>
      do* (k, pspli_pkt) := pure k RtcpPsPli.new_RtcpPsPli in
      do* (k, pspli_pkt) := pure k (RtcpPsPli.SetSenderSsrc pspli_pkt 0) in
      do* (k, pspli_pkt) := pure k (RtcpPsPli.SetMediaSsrc pspli_pkt ssrc) in
      OnTransportSendRtcp k (RtcpPsPli.GetData pspli_pkt)
  end.

(** [GetRecvStatics().BytesPerSecond(now_ms, pps)], once for every entry of the map. *)
Definition measure (now_ms : Z) (st : list RtpRecvSession.t) (e : Z * nat) : list RtpRecvSession.t :=
  alter (fun s => RtpRecvSession.with_statics s
           (StreamStatics.BytesPerSecond (RtpRecvSession.recv_statics_ s) now_ms).1.1) e.2 st.
Definition OnTimer (now_ms : Z) (k : t) : t :=
  if last_statics_ms_ k <? 0 then with_times k (last_alive_ms_ k) now_ms (random k) else
  if now_ms - last_statics_ms_ k <? 5000 then k else
  with_store (with_times k (last_alive_ms_ k) now_ms (random k)) (foldl (measure now_ms) (store k) (ssrc2recv_session_ k)).

(** The timers of a session: its receiver report and its NACKs go out through the relay. *)
Definition session_report (now_ms : Z) (uninit : buf) (k : t) (i : nat) : eff t relay_call unit :=
  do* (k, s) := pure k (session_at k i) in
  let '(s, r) := RtpRecvSession.OnTimer s now_ms uninit in
  do* (k, sent) := pure (set_session k i s) r in
  match sent.1 with None => eret k tt | Some d => OnTransportSendRtcp k d end.
Definition session_nack (now_ms : Z) (uninit : buf) (k : t) (i : nat) : eff t relay_call unit :=
  do* (k, s) := pure k (session_at k i) in
  match RtpRecvSession.nack_generator_ s with
  | None => eret k tt
  | Some n =>
      let '(n, lost, _) := Nack.OnTimer n now_ms in
      let s := RtpRecvSession.with_nack s (Some n) in
      let k := set_session k i s in
      match lost with
      | None => eret k tt
      | Some seq_vec =>
          do* (k, d) := pure k (RtpRecvSession.GenerateNackList s seq_vec uninit) in
          OnTransportSendRtcp k d
      end
  end.

End RtcRecvRelay.

(** * From server to server *)

Module Relay.

(** A packet parsed where it arrives: the bytes of a parsed packet, at the start of a buffer. *)
Lemma arrived (now now0 : Z) (pkt k0 : RtpPacket.t) (data : buf) :
  RtpPacket.wf pkt -> (1 <= RtpPacket.data_len pkt)%nat ->
  RtpPacket.Parse now0 (RtpPacket.data pkt) (RtpPacket.data_len pkt) = Ok k0 ->
  bytes data -> take (length (RtpPacket.GetData pkt)) data = RtpPacket.GetData pkt ->
  let q := RtpPacket.at_buffer now data k0 in
  RtpPacket.Parse now data (length (RtpPacket.GetData pkt)) = Ok q /\ RtpPacket.wf q /\ RtpPacket.view_of q = RtpPacket.view_of k0.
Proof.
  intros Hp Hl HP Hb Ht q. pose proof (RtpPacket.wf_len pkt Hp) as Hle.
  assert (Hn : length (RtpPacket.GetData pkt) = RtpPacket.data_len pkt) by (unfold RtpPacket.GetData; rewrite length_take; lia).
  rewrite Hn in *.
  assert (Hle' : (RtpPacket.data_len pkt <= length data)%nat) by (apply (f_equal length) in Ht; rewrite length_take, Hn in Ht; lia).
  assert (Hsp : RtpPacket.same_prefix (RtpPacket.data_len pkt) (RtpPacket.data pkt) data).
  { intros i Hi. rewrite <- (lookup_take_lt data (RtpPacket.data_len pkt)), Ht by done. unfold RtpPacket.GetData. by rewrite lookup_take_lt. }
  pose proof (RtpPacket.Parse_prefix now0 now (RtpPacket.data pkt) data (RtpPacket.data_len pkt) (RtpPacket.wf_bytes pkt Hp) ltac:(lia) Hsp) as E.
  rewrite HP in E. cbn [rmap rbind] in E. split; [exact E|].
  pose proof (RtpPacket.Parse_ok now data (RtpPacket.data_len pkt) Hb ltac:(lia)) as Hq. rewrite E in Hq. split; [exact Hq|].
  pose proof (RtpPacket.Parse_frame now0 (RtpPacket.data pkt) (RtpPacket.data_len pkt)) as Hf. rewrite HP in Hf. destruct Hf as (Hd & Hdl & _).
  pose proof (RtpPacket.Parse_ok now0 (RtpPacket.data pkt) (RtpPacket.data_len pkt) (RtpPacket.wf_bytes pkt Hp) ltac:(lia)) as Hk0.
  rewrite HP in Hk0. pose proof (RtpPacket.wf_split k0 Hk0). destruct Hk0 as [_ _ _ Hp0 _ _ _ _ _ _].
  apply (RtpPacket.view_prefix (RtpPacket.data_len pkt) k0 data); rewrite ?Hd; try done; cbn; lia.
Qed.


(** One hop between servers.  A packet of a relayed track is judged once by the sending
    session; accepted, its bytes are cached and leave as one datagram, unchanged.  Whatever
    buffer that datagram arrives in, the receiving relay parses the same packet, its
    session judges it once, and if it accepts, the room is given exactly that packet,
    under the track's id; the sender's address becomes the one that NACKs and reports go
    back to. *)
Lemma relayed_ok (a : RtcSendRelay.t) (b : RtcRecvRelay.t) (pkt k0 : RtpPacket.t) (now0 : Z)
    (i j : nat) (s : RtpSendSession.t) (r : RtpRecvSession.t) (info : PushInfo) (now_a : Z) (fresh : buf) :
  let ssrc := MediaPusher.ssrc_of pkt in
  let d := RtpPacket.GetData pkt in
  RtcSendRelay.send_discard_percent_ a <= 0 -> RtcRecvRelay.recv_discard_percent_ b = 0 ->
  RtcSendRelay.session_of a ssrc = Some i -> RtcSendRelay.store a !! i = Some s ->
  RtpSendSession.wf s -> RtpSendSession.configured s ->
  StdMap.find ssrc (RtcRecvRelay.ssrc2recv_session_ b) = Some j -> RtcRecvRelay.store b !! j = Some r -> RtpRecvSession.wf r ->
  StdMap.find ssrc (RtcRecvRelay.ssrc2push_infos_ b) = Some info ->
  RtpPacket.wf pkt -> (1 <= RtpPacket.data_len pkt <= 1498)%nat -> bytes fresh -> length fresh = 1500%nat ->
  RtpPacket.Parse now0 (RtpPacket.data pkt) (RtpPacket.data_len pkt) = Ok k0 -> (0 < RtpPacket.payload_len k0)%nat ->
  exists a' s' ok, RtcSendRelay.SendRtpPacket now_a fresh a pkt =
      (a', if ok : bool then [UdpWrite d (RtcSendRelay.remote_address a)] else [], Ok tt) /\
    RtpSendSession.SendRtpPacket s pkt now_a fresh = (s', Ok ok) /\ RtcSendRelay.store a' !! i = Some s' /\
    (ok = true -> RtpSendSession.content s' (RtpPacket.seq_of pkt) = Some (RtpPacket.unpadded (RtpPacket.view_of k0))) /\
    forall now_b uninit data addr,
      bytes data -> take (length d) data = d -> IsRtcp data (length d) = Ok false -> IsRtp data (length d) = Ok true ->
      exists b' r' q okb, RtcRecvRelay.OnRead now_b uninit b data (length d) addr =
          (b', if okb : bool then [OnRtpPacketFromRemoteRtcPusher (RtcRecvRelay.pusher_user_id_ b) (pusher_id_ info) q] else [], Ok tt) /\
        RtpRecvSession.ReceiveRtpPacket r q = (r', Ok okb) /\ RtcRecvRelay.store b' !! j = Some r' /\
        RtpPacket.view_of q = RtpPacket.view_of k0 /\ RtcRecvRelay.remote_address_ b' = addr /\
        RtpPacket.wf q /\ RtpPacket.Parse now_b data (length d) = Ok q.
Proof.
  intros ssrc d Ha Hb Hi Hs Hsw Hcf Hj Hr Hrw Hinfo Hp Hl Hf Hfl HP Hpl.
  pose proof (RtpPacket.wf_header pkt Hp) as Hh.
  destruct (RtpSendSession.SendRtpPacket_ok s pkt k0 now_a now0 fresh Hsw Hcf Hp Hl Hf Hfl HP) as (s' & ok & HS & _ & _ & _ & _ & _ & Hc & _).
  set (a1 := RtcSendRelay.with_store a (<[i := s']> (RtcSendRelay.store a))).
  assert (Hs1 : RtcSendRelay.store a1 !! i = Some s') by (apply list_lookup_insert_eq; by eapply lookup_lt_Some).
  exists (if ok then RtcSendRelay.with_times a1 now_a (RtcSendRelay.last_statics_ms_ a1) (RtcSendRelay.random a1) else a1), s', ok.
  split.
  { unfold RtcSendRelay.SendRtpPacket. rewrite (MediaPusher.GetSsrc_of pkt Hh), ebind_ok. fold ssrc. rewrite Hi.
    unfold RtcSendRelay.on_session. rewrite Hs, HS. cbn [quiet zoom handled efor eret fst snd]. fold a1.
    destruct ok; cbn [negb ebind eret ecatch app]; [|done].
    unfold RtcSendRelay.OnTransportSendRtp, RtcSendRelay.DiscardPacketByPercent.
    change (RtcSendRelay.send_discard_percent_ a1) with (RtcSendRelay.send_discard_percent_ a).
    rewrite (proj2 (Z.ltb_ge _ _)) by done. done. }
  split; [done|]. split; [by destruct ok|]. split; [intros E; by apply Hc|].
  intros now_b uninit data addr Hbd Ht Hrtcp Hrtp.
  destruct (arrived now_b now0 pkt k0 data Hp ltac:(lia) HP Hbd Ht) as (HP' & Hq & Hv).
  set (q := RtpPacket.at_buffer now_b data k0) in *. fold d in HP'.
  assert (Hss : MediaPusher.ssrc_of q = ssrc).
  { pose proof (RtpPacket.Parse_frame now0 (RtpPacket.data pkt) (RtpPacket.data_len pkt)) as Hfr. rewrite HP in Hfr.
    destruct Hfr as (Hd & _). unfold MediaPusher.ssrc_of. rewrite Hv. unfold ssrc, MediaPusher.ssrc_of, RtpPacket.view_of. cbn. by rewrite Hd. }
  destruct (RtpRecvSession.ReceiveRtpPacket_ok r q Hrw (RtpPacket.wf_header q Hq)) as (r' & okb & HR & _).
  unfold RtcRecvRelay.OnRead, RtcRecvRelay.DiscardPacketByPercent. rewrite Hb. cbn [Z.eqb].
  assert (Hn : (length d =? 0)%nat = false) by (apply Nat.eqb_neq; unfold d, RtpPacket.GetData; rewrite length_take; pose proof (RtpPacket.wf_len pkt Hp); lia).
  rewrite Hn. rewrite Hrtcp, ebind_ok, Hrtp, ebind_ok. set (b1 := RtcRecvRelay.with_times _ _ _ _).
  unfold RtcRecvRelay.HandleRtpPacket. rewrite HP', ebind_ok. unfold RtcRecvRelay.received.
  rewrite (MediaPusher.GetSsrc_of q), ebind_ok, Hss by (by apply RtpPacket.wf_header).
  change (RtcRecvRelay.ssrc2recv_session_ b1) with (RtcRecvRelay.ssrc2recv_session_ b). rewrite Hj.
  unfold RtcRecvRelay.session_at. change (RtcRecvRelay.store b1) with (RtcRecvRelay.store b). rewrite Hr, ebind_ok, HR, ebind_ok.
  set (b2 := RtcRecvRelay.set_session b1 j r').
  assert (Hr2 : RtcRecvRelay.store b2 !! j = Some r') by (apply list_lookup_insert_eq; by eapply lookup_lt_Some).
  exists b2, r', q, okb. split; [|done].
  destruct okb; cbn [negb]; rewrite ebind_ret; [|done]. unfold RtcRecvRelay.give_to_room.
  change (RtpPacket.payload_len q) with (RtpPacket.payload_len k0). rewrite (proj2 (Nat.eqb_neq _ _)) by lia.
  rewrite (MediaPusher.GetSsrc_of q), ebind_ok, Hss by (by apply RtpPacket.wf_header).
  change (RtcRecvRelay.ssrc2push_infos_ b2) with (RtcRecvRelay.ssrc2push_infos_ b). by rewrite Hinfo.
Qed.

(** The receiving relay [b] has the track of [info] with its session [r]: RTP on [ssrc] with
    type [pt], RTX on [rtx]. *)
Record expects (b : RtcRecvRelay.t) (ssrc pt rtx : Z) (j : nat) (r : RtpRecvSession.t) (info : PushInfo) : Prop := {
  ex_discard : RtcRecvRelay.recv_discard_percent_ b = 0;
  ex_first : StdMap.find rtx (RtcRecvRelay.ssrc2recv_session_ b) = None;
  ex_find : StdMap.find rtx (RtcRecvRelay.rtx_ssrc2recv_session_ b) = Some j;
  ex_session : RtcRecvRelay.store b !! j = Some r;
  ex_wf : RtpRecvSession.wf r;
  ex_ssrc : RtpSessionParam.ssrc_ (RtpRecvSession.param_ r) = ssrc;
  ex_pt : RtpSessionParam.payload_type_ (RtpRecvSession.param_ r) = pt;
  ex_other : ssrc <> rtx;
  ex_info : StdMap.find ssrc (RtcRecvRelay.ssrc2push_infos_ b) = Some info
}.

Definition still_missing (r : RtpRecvSession.t) (seq : Z) : bool :=
  match RtpRecvSession.nack_generator_ r with Some n => Nack.IsInNackList n seq | None => true end.

(** The datagram [d] brings the packet [v] back: while it is missing, the session judges
    exactly [v], and what it accepts reaches the room; when it is not, nothing happens. *)
Definition recovers (ssrc pt rtx : Z) (d : list Z) (v : RtpPacket.view) : Prop :=
  forall b j r info now uninit data addr,
    expects b ssrc pt rtx j r info ->
    bytes data -> take (length d) data = d -> IsRtcp data (length d) = Ok false -> IsRtp data (length d) = Ok true ->
    exists b' r' q ok, RtcRecvRelay.OnRead now uninit b data (length d) addr =
        (b', if still_missing r (RtpPacket.v_seq v) && ok
             then [OnRtpPacketFromRemoteRtcPusher (RtcRecvRelay.pusher_user_id_ b) (pusher_id_ info) q] else [], Ok tt) /\
      RtcRecvRelay.store b' !! j = Some r' /\ RtpPacket.view_of q = v /\
      (if still_missing r (RtpPacket.v_seq v) then RtpRecvSession.ReceiveRtpPacket r q = (r', Ok ok) else r' = r).

Lemma unrtx_rtx v rtx_pt rtx n :
  RtpPacket.v_padding v = 0 -> 0 <= RtpPacket.v_seq v < 65536 ->
  RtpPacket.unrtx_view (RtpPacket.rtx_view v rtx_pt rtx n) (RtpPacket.v_ssrc v) (RtpPacket.v_pt v) = v.
Proof.
  intros Hp Hs. destruct v as [f p m pt s ts ss e pl]. cbn in Hp, Hs. subst p. unfold RtpPacket.unrtx_view, RtpPacket.rtx_view.
  cbn [RtpPacket.v_payload RtpPacket.v_seq RtpPacket.v_first RtpPacket.v_marker RtpPacket.v_ts RtpPacket.v_ext RtpPacket.v_ssrc RtpPacket.v_pt].
  rewrite take_app_length', drop_app_length' by (by rewrite length_be_bytes).
  by rewrite be_val_be_bytes, Z.mod_small by (cbn; lia).
Qed.

Lemma rtx_arrives d v rtx_pt rtx n :
  RtpSendSession.datagram d (RtpPacket.rtx_view v rtx_pt rtx n) ->
  RtpPacket.v_padding v = 0 -> 0 <= RtpPacket.v_seq v < 65536 -> RtpPacket.v_payload v <> [] ->
  recovers (RtpPacket.v_ssrc v) (RtpPacket.v_pt v) rtx d v.
Proof.
  intros [_ Hd] Hpad Hseq Hpl b j r info now uninit data addr [Hdis Hn Hj Hr Hrw Hss Hpt Hne Hinfo] Hb Ht Hrtcp Hrtp.
  destruct (Hd now data Hb Ht) as (p & HP & Hp & Hv).
  assert (Hssrc : MediaPusher.ssrc_of p = rtx) by (unfold MediaPusher.ssrc_of; by rewrite Hv).
  assert (Hplen : RtpPacket.payload_len p = (2 + length (RtpPacket.v_payload v))%nat).
  { pose proof (f_equal (fun w => length (RtpPacket.v_payload w)) Hv) as E.
    cbn [RtpPacket.v_payload RtpPacket.view_of RtpPacket.rtx_view] in E. unfold RtpPacket.GetPayload in E.
    rewrite length_app, length_be_bytes in E. pose proof (RtpPacket.wf_split p Hp). pose proof (RtpPacket.wf_len p Hp).
    rewrite length_slice in E by lia. done. }
  assert (Hlen0 : (length d =? 0)%nat = false).
  { apply Nat.eqb_neq. intros E. rewrite E in Hrtp. by vm_compute in Hrtp. }
  unfold RtcRecvRelay.OnRead, RtcRecvRelay.DiscardPacketByPercent. rewrite Hdis. cbn [Z.eqb].
  rewrite Hlen0, Hrtcp, ebind_ok, Hrtp, ebind_ok. set (b1 := RtcRecvRelay.with_times _ _ _ _).
  unfold RtcRecvRelay.HandleRtpPacket. rewrite HP, ebind_ok. unfold RtcRecvRelay.received.
  rewrite (MediaPusher.GetSsrc_of p), ebind_ok, Hssrc by (by apply RtpPacket.wf_header).
  change (RtcRecvRelay.ssrc2recv_session_ b1) with (RtcRecvRelay.ssrc2recv_session_ b). rewrite Hn.
  change (RtcRecvRelay.rtx_ssrc2recv_session_ b1) with (RtcRecvRelay.rtx_ssrc2recv_session_ b). rewrite Hj.
  unfold RtcRecvRelay.session_at. change (RtcRecvRelay.store b1) with (RtcRecvRelay.store b). rewrite Hr, ebind_ok.
  destruct (MediaPusher.ReceiveRtxPacket_ok r p Hrw Hp) as (r' & q & repeat & ok & -> & Hrec). rewrite ebind_ok.
  set (b2 := RtcRecvRelay.set_session b1 j r').
  assert (Hr2 : RtcRecvRelay.store b2 !! j = Some r') by (apply list_lookup_insert_eq; by eapply lookup_lt_Some).
  rewrite <- (unrtx_rtx v rtx_pt rtx n Hpad Hseq), <- Hv. rewrite <- Hss, <- Hpt.
  destruct Hrec as [E|E|q Hle Hvq (g & Hg & Hin) Hq|r' q ok Hle Hvq Hin Hq Hql Hr'w HR]; [lia|lia| |].
  - exists b2, r, q, true. split; [|split; [done|split; [done|]]].
    + unfold still_missing. rewrite Hg, <- Hvq. change (RtpPacket.v_seq (RtpPacket.view_of q)) with (RtpPacket.seq_of q). by rewrite Hin.
    + unfold still_missing. rewrite Hg, <- Hvq. change (RtpPacket.v_seq (RtpPacket.view_of q)) with (RtpPacket.seq_of q). by rewrite Hin.
  - assert (Hmiss : still_missing r (RtpPacket.seq_of q) = true)
      by (unfold still_missing; destruct (RtpRecvSession.nack_generator_ r) as [g|]; [by apply Hin|done]).
    exists b2, r', q, ok. rewrite <- Hvq. change (RtpPacket.v_seq (RtpPacket.view_of q)) with (RtpPacket.seq_of q).
    rewrite Hmiss. split; [|done]. destruct ok; cbn [negb andb]; [|by rewrite ebind_ret].
    assert (Hsq : MediaPusher.ssrc_of q = RtpPacket.v_ssrc v) by (unfold MediaPusher.ssrc_of; by rewrite Hvq, Hss).
    rewrite (MediaPusher.GetSsrc_of q), ebind_ok, Hsq by (by apply RtpPacket.wf_header).
    rewrite (proj2 (Z.eqb_neq _ _)) by done. rewrite ebind_ret. unfold RtcRecvRelay.give_to_room.
    rewrite (proj2 (Nat.eqb_neq _ _)) by (destruct (RtpPacket.v_payload v); cbn in Hplen; [done|lia]).
    rewrite (MediaPusher.GetSsrc_of q), ebind_ok, Hsq by (by apply RtpPacket.wf_header).
    change (RtcRecvRelay.ssrc2push_infos_ b2) with (RtcRecvRelay.ssrc2push_infos_ b). by rewrite Hinfo.
Qed.

(** What the session sends goes out as it is. *)
Lemma all_sent now k sent :
  RtcSendRelay.send_discard_percent_ k <= 0 ->
  exists alive, efor (map MediaPuller.TransportSendRtp sent) k (RtcSendRelay.from_session now) =
    (RtcSendRelay.with_times k alive (RtcSendRelay.last_statics_ms_ k) (RtcSendRelay.random k),
     map (fun d => UdpWrite d (RtcSendRelay.remote_address k)) sent, Ok tt).
Proof.
  intros Hk. revert k Hk. induction sent as [|d sent IH]; intros k Hk; cbn [map efor].
  - exists (RtcSendRelay.last_alive_ms_ k). by destruct k.
  - cbn [RtcSendRelay.from_session]. unfold RtcSendRelay.OnTransportSendRtp, RtcSendRelay.DiscardPacketByPercent.
    rewrite (proj2 (Z.ltb_ge _ _)) by done. cbn [emit ebind].
    edestruct IH as (alive & ->); [exact Hk|]. by exists alive.
Qed.

Lemma content_seq s q v :
  RtpSendSession.wf s -> RtpSendSession.content s q = Some v -> RtpPacket.v_padding v = 0 /\ 0 <= RtpPacket.v_seq v < 65536.
Proof.
  unfold RtpSendSession.content. intros Hwf. destruct (_ !! _) as [[p|]|] eqn:E; [|done..].
  destruct (_ =? _); [|done]. intros [= <-]. split; [done|]. cbn [RtpPacket.v_seq RtpPacket.unpadded].
  destruct (RtpSendSession.wf_cache s Hwf _ _ E) as (Hfr & _). destruct (RtpPacket.fr_ok p Hfr).
  apply ByteStream.net16_range; [done|lia].
Qed.

Lemma owed_recovers s ssrc pt rtx_pt rtx :
  RtpSendSession.wf s ->
  (forall q v, RtpSendSession.content s q = Some v -> RtpPacket.v_ssrc v = ssrc /\ RtpPacket.v_pt v = pt /\ RtpPacket.v_payload v <> []) ->
  forall lost n sent,
    Forall2 RtpSendSession.datagram sent (RtpSendSession.owed (RtpSendSession.content s) rtx_pt rtx n lost) ->
    Forall2 (recovers ssrc pt rtx) sent (omap (RtpSendSession.content s) lost).
Proof.
  intros Hwf Hc. induction lost as [|q lost IH]; intros n sent; cbn [RtpSendSession.owed omap list_omap].
  { intros H. by inversion H. }
  destruct (RtpSendSession.content s q) as [v|] eqn:E; [|apply IH].
  intros H. inversion H as [|d ? sent' ? Hd Hs]; subst. constructor; [|by eapply IH].
  destruct (Hc q v E) as (<- & <- & Hpl), (content_seq s q v Hwf E). by eapply rtx_arrives.
Qed.

(** C7: a loss between two servers is repaired.  A NACK for a relayed track is answered with
    one datagram for every reported packet that is still cached, in order, and nothing else.
    Whenever such a datagram arrives at a relay that receives the track, the original
    packet is what the relay's session judges: as long as the packet is missing there, it
    reaches the room if the session accepts it; if it is not, nothing changes.  The cache
    still answers as before, so a lost answer can be asked for again. *)
Theorem lost_packets_recovered (a : RtcSendRelay.t) (i : nat) (s : RtpSendSession.t) (now_ms : Z) (uninit data : buf) (len : nat)
    (nack_pkt : RtcpFbNack.t) (lost : list Z) (ssrc pt : Z) :
  RtcSendRelay.send_discard_percent_ a <= 0 ->
  StdMap.find ssrc (RtcSendRelay.ssrc2send_session_ a) = Some i -> RtcSendRelay.store a !! i = Some s ->
  RtpSendSession.wf s -> RtpSendSession.configured s ->
  (forall q v, RtpSendSession.content s q = Some v -> RtpPacket.v_ssrc v = ssrc /\ RtpPacket.v_pt v = pt /\ RtpPacket.v_payload v <> []) ->
  (RtcpCommonHeader.size < len)%nat -> RtcpCommonHeader.count data 0 = Ok (RTCP_FB_RTP_FMT_val FB_RTP_NACK) ->
  RtcpFbNack.Parse uninit data len = Ok (Some nack_pkt) -> RtcpFbNack.GetMediaSsrc nack_pkt = Ok ssrc ->
  RtcpFbNack.GetLostSeqs nack_pkt = Ok lost ->
  exists a' s' sent, RtcSendRelay.HandleRtcpRtpfbPacket now_ms uninit a data len =
      (a', map (fun d => UdpWrite d (RtcSendRelay.remote_address a)) sent, Ok tt) /\
    Forall2 (recovers ssrc pt (RtpSessionParam.rtx_ssrc_ (RtpSendSession.param_ s))) sent (omap (RtpSendSession.content s) lost) /\
    RtcSendRelay.store a' !! i = Some s' /\ forall q, RtpSendSession.content s' q = RtpSendSession.content s q.
Proof.
  intros Ha Hi Hs Hwf Hcf Hc Hlen Hfmt HP Hssrc Hlost.
  destruct (RtpSendSession.answer_nacks_ok s lost Hwf Hcf) as (s' & sent & E & _ & _ & Hc' & Hsent).
  unfold RtcSendRelay.HandleRtcpRtpfbPacket. rewrite (proj2 (Nat.leb_gt _ _)) by done.
  rewrite Hfmt, ebind_ok, Z.eqb_refl, HP, ebind_ok, Hssrc, ebind_ok, Hi. unfold RtcSendRelay.on_session. rewrite Hs.
  unfold RtpSendSession.RecvRtcpFbNack. rewrite Hlost, E. cbn [MediaPuller.rtp_sent zoom handled].
  set (a1 := RtcSendRelay.with_store a _).
  destruct (all_sent now_ms a1 sent Ha) as (alive & ->). cbn [ebind eret ecatch app]. rewrite app_nil_r.
  do 3 eexists. split; [reflexivity|]. split; [by eapply owed_recovers|]. split; [|done].
  apply list_lookup_insert_eq. by eapply lookup_lt_Some.
Qed.

(** * Witnesses *)

Definition track : PushInfo := mk_PushInfo "p1" RtpSession.sample_param.
Definition sender : RtcSendRelay.t :=
  RtcSendRelay.with_store
    (RtcSendRelay.AddPushInfo (RtcSendRelay.new_RtcSendRelay "r" "alice" [10; 0; 0; 2] 40000 0 1000 []) track) [RtpSendSession.sample].
Definition receiver : RtcRecvRelay.t :=
  (RtcRecvRelay.AddVirtualPusher (RtcRecvRelay.new_RtcRecvRelay "r" "alice" "10.0.0.2" 40000 0 1000 []) track).1.
Definition home : IceServer.UdpTuple := IceServer.mk_tuple [10; 0; 0; 1] 40000.

Lemma receiver_expects : expects receiver 7 96 8 0 (RtpRecvSession.new_RtpRecvSession RtpSession.sample_param) track.
Proof. split; try done. apply RtpRecvSession.recv_wf_new; [exact RtpSendSession.sample_param_wf|done]. Qed.

Definition loss_report : buf := [129; 205; 0; 3; 0; 0; 0; 1; 0; 0; 0; 7; 0; 7; 0; 2].
Definition parsed_report : RtcpFbNack.t :=
  match RtcpFbNack.Parse (replicate 1500 0) loss_report 16 with Ok (Some n) => n | _ => RtcpFbNack.mk [] 0 [] end.

Lemma lost_packets_recovered_witness :
  (exists a' sent v, RtcSendRelay.HandleRtcpRtpfbPacket 5 (replicate 1500 0) sender loss_report 16 =
      (a', map (fun d => UdpWrite d (IceServer.mk_tuple [10; 0; 0; 2] 40000)) sent, Ok tt) /\
    Forall2 (recovers 7 96 8) sent [v] /\ RtpPacket.v_seq v = 7) /\
  expects receiver 7 96 8 0 (RtpRecvSession.new_RtpRecvSession RtpSession.sample_param) track.
Proof.
  split; [|exact receiver_expects].
  set (n := parsed_report).
  assert (E : RtcpFbNack.Parse (replicate 1500 0) loss_report 16 = Ok (Some n)) by by vm_compute.
  assert (Hs : RtcpFbNack.GetMediaSsrc n = Ok 7) by by vm_compute.
  assert (Hl : RtcpFbNack.GetLostSeqs n = Ok [7; 9]) by by vm_compute.
  destruct (lost_packets_recovered sender 0 RtpSendSession.sample 5 (replicate 1500 0) loss_report 16 n [7; 9] 7 96)
    as (a' & s' & sent & H & HF & _);
    [done|by vm_compute|done|exact RtpSendSession.send_sample_wf|exact RtpSendSession.sample_configured| |vm_compute; lia
    |by vm_compute|exact E|exact Hs|exact Hl|].
  { intros q v. unfold RtpSendSession.content. set (i := RtpSendSession.cache_index q).
    change (RtpSendSession.rtx_packet_cache_ RtpSendSession.sample) with (<[7%nat := Some (RtpPacket.numbered 7)]> (replicate 1000 (@None RtpPacket.t))).
    destruct (decide (7%nat = i)) as [<-|Hne].
    - rewrite list_lookup_insert_eq by (rewrite length_replicate; lia). destruct (_ =? q); [|done].
      intros [= <-]. by vm_compute.
    - rewrite list_lookup_insert_ne by done. destruct (replicate 1000 None !! i) as [[p|]|] eqn:El; [|done..].
      by apply lookup_replicate in El as [[=] _]. }
  exists a', sent, (RtpPacket.unpadded (RtpPacket.view_of (RtpPacket.numbered 7))). split; [exact H|]. split; [|by vm_compute].
  assert (omap (RtpSendSession.content RtpSendSession.sample) [7; 9] = [RtpPacket.unpadded (RtpPacket.view_of (RtpPacket.numbered 7))])
    as Ho by by vm_compute. by rewrite Ho in HF.
Defined.

End Relay.
