(* ===== verification/SrtpSession.v ===== *)
(** [webrtc_room/srtp_session.cpp] and [.hpp]: one direction of SRTP.  libsrtp is an
    interface; the session checks its key, creates the context, and guards the calls. *)
From S2P Require Import Prelude.

(** libsrtp, as its header documents it.  A call on a context returns the context it
    leaves, its status (is it [srtp_err_status_ok]?), and the bytes the packet has then:
    the calls work in place and update the length. *)
Class LibSrtp := {
  srtp_t : Type;
  crypto_policy : Type;
  policy_aes_gcm_256_16_auth : crypto_policy;
  policy_aes_gcm_128_16_auth : crypto_policy;
  policy_aes_cm_128_hmac_sha1_80 : crypto_policy;
  policy_aes_cm_128_hmac_sha1_32 : crypto_policy;
  cipher_key_len : crypto_policy -> nat;
  (** [srtp_crypto_policy_set_from_profile_for_rtp] and [..._rtcp] on a profile number. *)
  set_from_profile_for_rtp : Z -> bool;
  set_from_profile_for_rtcp : Z -> bool;
  (** [srtp_create]: the policies for RTP and RTCP, the key, whether the wildcard is
      [ssrc_any_outbound], and the replay window; [None] is any error. *)
  srtp_create : crypto_policy -> crypto_policy -> list Z -> bool -> nat -> option srtp_t;
  srtp_protect : srtp_t -> list Z -> srtp_t * (bool * list Z);
  srtp_unprotect : srtp_t -> list Z -> srtp_t * (bool * list Z);
  srtp_protect_rtcp : srtp_t -> list Z -> srtp_t * (bool * list Z);
  srtp_unprotect_rtcp : srtp_t -> list Z -> srtp_t * (bool * list Z)
}.

(** [SRTP_MAX_TRAILER_LEN]: what the protecting calls may append. *)
Definition SRTP_MAX_TRAILER_LEN : nat := 144.

(** What the code relies on.  [synced c c'] says that [c'] receives what [c] sends, that
    every packet [c] has protected has reached [c'], and in order. *)
Class LibSrtpLaws `{LibSrtp} := {
  key_len_gcm_256 : cipher_key_len policy_aes_gcm_256_16_auth = 44%nat;
  key_len_gcm_128 : cipher_key_len policy_aes_gcm_128_16_auth = 28%nat;
  key_len_cm_80 : cipher_key_len policy_aes_cm_128_hmac_sha1_80 = 30%nat;
  key_len_cm_32 : cipher_key_len policy_aes_cm_128_hmac_sha1_32 = 30%nat;
  protect_room : forall c d c' d', srtp_protect c d = (c', (true, d')) ->
    (length d' <= length d + SRTP_MAX_TRAILER_LEN)%nat;
  protect_rtcp_room : forall c d c' d', srtp_protect_rtcp c d = (c', (true, d')) ->
    (length d' <= length d + SRTP_MAX_TRAILER_LEN)%nat;
  failure_room : forall c d c' d', srtp_protect c d = (c', (false, d')) \/ srtp_protect_rtcp c d = (c', (false, d')) ->
    (length d' <= length d + SRTP_MAX_TRAILER_LEN)%nat;
  unprotect_room : forall c d c' ok d', srtp_unprotect c d = (c', (ok, d')) \/ srtp_unprotect_rtcp c d = (c', (ok, d')) ->
    (length d' <= length d)%nat /\ (bytes d -> bytes d');
  protect_bytes : forall c d c' ok d', srtp_protect c d = (c', (ok, d')) \/ srtp_protect_rtcp c d = (c', (ok, d')) ->
    bytes d -> bytes d';
  synced : srtp_t -> srtp_t -> Prop;
  synced_create : forall p q key w c c', srtp_create p q key true w = Some c -> srtp_create p q key false w = Some c' ->
    synced c c';
  synced_rtp : forall c c' d c1 e, synced c c' -> srtp_protect c d = (c1, (true, e)) ->
    e <> [] /\ exists c1', srtp_unprotect c' e = (c1', (true, d)) /\ synced c1 c1';
  synced_rtcp : forall c c' d c1 e, synced c c' -> srtp_protect_rtcp c d = (c1, (true, e)) ->
    e <> [] /\ exists c1', srtp_unprotect_rtcp c' e = (c1', (true, d)) /\ synced c1 c1';
  synced_failed : forall c c' d c1 e, synced c c' ->
    srtp_protect c d = (c1, (false, e)) \/ srtp_protect_rtcp c d = (c1, (false, e)) -> synced c1 c'
}.

Module SrtpSession.

Inductive SRtpSessionCryptoSuite :=
  SRTP_SESSION_CRYPTO_SUITE_INVALID | AEAD_AES_256_GCM | AEAD_AES_128_GCM
  | AES_CM_128_HMAC_SHA1_80 | AES_CM_128_HMAC_SHA1_32.
Inductive SRtpType := SRTP_SESSION_TYPE_INVALID | SRTP_SESSION_TYPE_SEND | SRTP_SESSION_TYPE_RECV.
#[export] Instance suite_dec : EqDecision SRtpSessionCryptoSuite.
Proof. solve_decision. Defined.
#[export] Instance type_dec : EqDecision SRtpType.
Proof. solve_decision. Defined.

(** [GlobalInit] and [GlobalCleanup] on the static flag; the argument is whether
    [srtp_init] succeeds. *)
Definition GlobalInit (srtp_init : bool) (global_initialized_ : bool) : bool * Z :=
  if global_initialized_ then (true, 0) else if srtp_init then (true, 0) else (false, -1).
Definition GlobalCleanup (global_initialized_ : bool) : bool := false.

Section SrtpSession.
Context `{LibSrtp}.

Definition DATA_BUFFER_SIZE : nat := 2048.

Record t := mk {
  type_ : SRtpType;
  crypto_suite_ : SRtpSessionCryptoSuite;
  key_ : option (list Z);
  key_len_ : nat;
  srtp_session_ : option srtp_t;
  data_buffer_ : buf; data_buffer_len_ : nat
}.
Definition with_ctx (k : t) (c : srtp_t) : t :=
  mk (type_ k) (crypto_suite_ k) (key_ k) (key_len_ k) (Some c) (data_buffer_ k) (data_buffer_len_ k).
Definition with_buffer (k : t) (d : buf) (n : nat) : t :=
  mk (type_ k) (crypto_suite_ k) (key_ k) (key_len_ k) (srtp_session_ k) d n.

(** The profile numbers of RFC 5764 and RFC 7714, [None] for [srtp_profile_reserved]. *)
Definition GetSrtpProfile (s : SRtpSessionCryptoSuite) : option Z :=
  match s with
  | AEAD_AES_256_GCM => Some 8
  | AEAD_AES_128_GCM => Some 7
  | AES_CM_128_HMAC_SHA1_80 => Some 1
  | AES_CM_128_HMAC_SHA1_32 => Some 2
  | SRTP_SESSION_CRYPTO_SUITE_INVALID => None
  end.

(** The first [switch] of [InitSrtpSession]: is the suite supported with this key? The
    GCM suites fall back when their profile cannot be set, the others fail. *)
Definition check_suite (s : SRtpSessionCryptoSuite) (key_len : nat) : bool :=
  match s with
  | AEAD_AES_256_GCM => (key_len =? 44)%nat
  | AEAD_AES_128_GCM => (key_len =? 28)%nat
  | AES_CM_128_HMAC_SHA1_80 | AES_CM_128_HMAC_SHA1_32 =>
      match GetSrtpProfile s with
      | None => false
      | Some p => set_from_profile_for_rtp p && set_from_profile_for_rtcp p && (key_len =? 30)%nat
      end
  | SRTP_SESSION_CRYPTO_SUITE_INVALID => false
  end.

(** The second [switch]: the policies used in the end, for RTP and for RTCP. *)
Definition policies (s : SRtpSessionCryptoSuite) : option (crypto_policy * crypto_policy) :=
  match s with
  | AEAD_AES_256_GCM => Some (policy_aes_gcm_256_16_auth, policy_aes_gcm_256_16_auth)
  | AEAD_AES_128_GCM => Some (policy_aes_gcm_128_16_auth, policy_aes_gcm_128_16_auth)
  | AES_CM_128_HMAC_SHA1_80 => Some (policy_aes_cm_128_hmac_sha1_80, policy_aes_cm_128_hmac_sha1_80)
  | AES_CM_128_HMAC_SHA1_32 => Some (policy_aes_cm_128_hmac_sha1_32, policy_aes_cm_128_hmac_sha1_80)
  | SRTP_SESSION_CRYPTO_SUITE_INVALID => None
  end.

Definition InitSrtpSession (global_initialized_ : bool) (k : t) : t * bool :=
  if negb global_initialized_ then (k, false) else
  if negb (check_suite (crypto_suite_ k) (key_len_ k)) then (k, false) else
  match key_ k with
  | None => (k, false)
  | Some key =>
      if (key_len_ k =? 0)%nat then (k, false) else
      match policies (crypto_suite_ k) with
      | None => (k, false)
      | Some (rtp, rtcp) =>
          if negb (key_len_ k =? cipher_key_len rtp)%nat then (k, false) else
          match srtp_create rtp rtcp key (bool_decide (type_ k = SRTP_SESSION_TYPE_SEND)) 128 with
          | None => (k, false)
          | Some c => (with_ctx k c, true)
          end
      end
  end.

(** The constructor copies the key; a session that cannot be initialised stays without a
    context. *)
Definition new_SRtpSession (global_initialized_ : bool) (type : SRtpType) (suite : SRtpSessionCryptoSuite)
    (key : list Z) : t :=
  let k := mk type suite (if (0 <? length key)%nat then Some key else None) (length key) None
             (replicate DATA_BUFFER_SIZE 0) 0 in
  (InitSrtpSession global_initialized_ k).1.

(** The test all four calls start with; the pointers are never null. *)
Definition ready (k : t) (wanted : SRtpType) (data : list Z) : option srtp_t :=
  match srtp_session_ k with
  | Some c => if (length data =? 0)%nat then None else if decide (type_ k = wanted) then Some c else None
  | None => None
  end.

(** [EncryptRtp]: [Some d] is the result [true] with [d] behind the pointer the caller
    then holds, which is [data_buffer_]. *)
Definition EncryptRtp (k : t) (data : list Z) : t * res (option (list Z)) :=
  match ready k SRTP_SESSION_TYPE_SEND data with
  | None => (k, Ok None)
  | Some c =>
      if (DATA_BUFFER_SIZE <? length data)%nat then (k, Ok None) else
      let k := with_buffer k (splice 0 data (data_buffer_ k)) (length data) in
      let '(c, (ok, d)) := srtp_protect c data in
      let k := with_ctx k c in
      if (DATA_BUFFER_SIZE <? length d)%nat then (k, Undef OobWrite) else
      let k := with_buffer k (splice 0 d (data_buffer_ k)) (length d) in
      (k, Ok (if ok then Some d else None))
  end.

(** [DecryptRtp], [DecryptRtcp]: the result, and the bytes the caller's packet then has. *)
Definition DecryptRtp (k : t) (data : list Z) : t * (bool * list Z) :=
  match ready k SRTP_SESSION_TYPE_RECV data with
  | None => (k, (false, data))
  | Some c => let '(c, r) := srtp_unprotect c data in (with_ctx k c, r)
  end.
Definition DecryptRtcp (k : t) (data : list Z) : t * (bool * list Z) :=
  match ready k SRTP_SESSION_TYPE_RECV data with
  | None => (k, (false, data))
  | Some c => let '(c, r) := srtp_unprotect_rtcp c data in (with_ctx k c, r)
  end.

(** [EncryptRtcp] works in the caller's array, which has [room] bytes. *)
Definition EncryptRtcp (k : t) (room : nat) (data : list Z) : t * res (option (list Z)) :=
  match ready k SRTP_SESSION_TYPE_SEND data with
  | None => (k, Ok None)
  | Some c =>
      let '(c, (ok, d)) := srtp_protect_rtcp c data in
      let k := with_ctx k c in
      if (room <? length d)%nat then (k, Undef OobWrite) else (k, Ok (if ok then Some d else None))
  end.

End SrtpSession.

(** * Properties *)

Section Properties.
Context `{LibSrtpLaws}.

(** The length of master key and salt a suite needs. *)
Definition suite_key_len (s : SRtpSessionCryptoSuite) : option nat :=
  match s with
  | AEAD_AES_256_GCM => Some 44%nat
  | AEAD_AES_128_GCM => Some 28%nat
  | AES_CM_128_HMAC_SHA1_80 | AES_CM_128_HMAC_SHA1_32 => Some 30%nat
  | SRTP_SESSION_CRYPTO_SUITE_INVALID => None
  end.

(** The session of a usable suite and key is the context libsrtp makes of them. *)
Lemma new_SRtpSession_eq type suite key rtp rtcp :
  (forall p, set_from_profile_for_rtp p = true) -> (forall p, set_from_profile_for_rtcp p = true) ->
  suite_key_len suite = Some (length key) -> policies suite = Some (rtp, rtcp) ->
  srtp_session_ (new_SRtpSession true type suite key) =
    srtp_create rtp rtcp key (bool_decide (type = SRTP_SESSION_TYPE_SEND)) 128 /\
  type_ (new_SRtpSession true type suite key) = type /\
  length (data_buffer_ (new_SRtpSession true type suite key)) = DATA_BUFFER_SIZE.
Proof.
  intros Hp1 Hp2 Hk Hpol. unfold new_SRtpSession, InitSrtpSession. cbn [negb crypto_suite_ key_len_ key_ type_].
  assert (Hc : check_suite suite (length key) = true /\ (0 < length key)%nat /\ cipher_key_len rtp = length key).
  { destruct suite; cbn in Hk, Hpol |- *; try done; injection Hk as <-; injection Hpol as <- <-;
      rewrite ?Hp1, ?Hp2, ?key_len_gcm_256, ?key_len_gcm_128, ?key_len_cm_80, ?key_len_cm_32; split_and!; (done || lia). }
  destruct Hc as (-> & Hpos & Hck). cbn [negb]. rewrite (proj2 (Nat.ltb_lt _ _) Hpos), (proj2 (Nat.eqb_neq _ _)) by lia.
  rewrite Hpol, Hck, Nat.eqb_refl. cbn [negb]. destruct (srtp_create _ _ _ _ _); cbn [fst srtp_session_ type_ data_buffer_ with_ctx]; split_and!; (done || apply length_replicate).
Qed.

(** when a session can be used.  Without the global initialisation, with a key of
    another length than its suite needs (44, 28, 30 or 30 bytes of key and salt), or with
    an unknown suite, it has no context, and then all four operations answer [false] and
    leave the session and the packet alone; nor does a session of one direction serve
    the other, or an empty packet. *)
Theorem session_guards (init : bool) (type : SRtpType) (suite : SRtpSessionCryptoSuite) (key data : list Z) (room : nat) :
  let k := new_SRtpSession init type suite key in
  (init = false \/ suite_key_len suite <> Some (length key) -> srtp_session_ k = None) /\
  (srtp_session_ k = None \/ data = [] \/ type <> SRTP_SESSION_TYPE_SEND ->
     EncryptRtp k data = (k, Ok None) /\ EncryptRtcp k room data = (k, Ok None)) /\
  (srtp_session_ k = None \/ data = [] \/ type <> SRTP_SESSION_TYPE_RECV ->
     DecryptRtp k data = (k, (false, data)) /\ DecryptRtcp k data = (k, (false, data))).
Proof.
  intros k. assert (Htype : type_ k = type).
  { unfold k, new_SRtpSession, InitSrtpSession. cbn [crypto_suite_ key_len_ key_ type_].
    repeat case_match; done. }
  assert (Hready : forall w, srtp_session_ k = None \/ data = [] \/ type <> w -> ready k w data = None).
  { intros w Hw. unfold ready. destruct (srtp_session_ k) as [c|]; [|done].
    destruct (Nat.eqb_spec (length data) 0) as [|Hne]; [done|]. rewrite Htype.
    destruct (decide (type = w)); [|done]. destruct Hw as [?|[->|?]]; done. }
  split_and!.
  - intros Hno. unfold k, new_SRtpSession, InitSrtpSession. cbn [crypto_suite_ key_len_ key_ type_].
    destruct init; [|done]. destruct Hno as [|Hno]; [done|]. cbn [negb].
    assert (Hc : check_suite suite (length key) = false).
    { destruct suite; cbn in Hno |- *; try done;
        rewrite (proj2 (Nat.eqb_neq _ _)) by congruence; by rewrite ?andb_false_r. }
    by rewrite Hc.
  - intros Hno. unfold EncryptRtp, EncryptRtcp. by rewrite Hready.
  - intros Hno. unfold DecryptRtp, DecryptRtcp. by rewrite Hready.
Qed.

(** ** A conversation *)

(** What one side hands over, and what the other side gets. *)
Inductive packet := Rtp (data : list Z) | Rtcp (data : list Z).

(** [EncryptRtp] and [EncryptRtcp] on a run of packets; those refused are not sent. *)
Fixpoint send (k : t) (ps : list packet) : t * list packet * list packet * bool :=
  match ps with
  | [] => (k, [], [], true)
  | p :: ps' =>
      let '(k, r) := match p with Rtp d => EncryptRtp k d | Rtcp d => EncryptRtcp k 1500 d end in
      match r with
      | Ok o =>
          let '(k, accepted, wire, ok) := send k ps' in
          match o with
          | Some e => (k, p :: accepted, (match p with Rtp _ => Rtp e | Rtcp _ => Rtcp e end) :: wire, ok)
          | None => (k, accepted, wire, ok)
          end
      | _ => (k, [], [], false)
      end
  end.
Fixpoint receive (k : t) (ps : list packet) : t * list packet :=
  match ps with
  | [] => (k, [])
  | p :: ps' =>
      let '(k, (ok, d)) := match p with Rtp d => DecryptRtp k d | Rtcp d => DecryptRtcp k d end in
      let '(k, got) := receive k ps' in
      (k, if ok : bool then (match p with Rtp _ => Rtp d | Rtcp _ => Rtcp d end) :: got else got)
  end.

Definition paired (k k' : t) : Prop :=
  type_ k = SRTP_SESSION_TYPE_SEND /\ type_ k' = SRTP_SESSION_TYPE_RECV /\
  exists c c', srtp_session_ k = Some c /\ srtp_session_ k' = Some c' /\ synced c c'.

(** One packet: what a sender's call yields, the paired receiver turns back. *)
Lemma EncryptRtp_reaches k k' d k1 w :
  paired k k' -> EncryptRtp k d = (k1, Ok (Some w)) -> exists k1', DecryptRtp k' w = (k1', (true, d)) /\ paired k1 k1'.
Proof.
  intros (Ht & Ht' & c & c' & Hc & Hc' & Hsync). unfold EncryptRtp, ready. rewrite Hc, decide_True by done.
  destruct (length d =? 0)%nat; [done|]. destruct (_ <? _)%nat; [done|].
  destruct (srtp_protect c d) as [c1 [[] e]] eqn:E; destruct (_ <? _)%nat; try done. intros [= <- <-].
  destruct (synced_rtp c c' d c1 e Hsync E) as (He & c1' & E' & Hs1).
  unfold DecryptRtp, ready. rewrite Hc', decide_True by done. destruct e as [|x e]; [done|]. cbn [length Nat.eqb]. rewrite E'.
  eexists. split; [done|]. split; [done|]. split; [done|]. by exists c1, c1'.
Qed.
Lemma EncryptRtcp_reaches k k' room d k1 w :
  paired k k' -> EncryptRtcp k room d = (k1, Ok (Some w)) -> exists k1', DecryptRtcp k' w = (k1', (true, d)) /\ paired k1 k1'.
Proof.
  intros (Ht & Ht' & c & c' & Hc & Hc' & Hsync). unfold EncryptRtcp, ready. rewrite Hc, decide_True by done.
  destruct (length d =? 0)%nat; [done|].
  destruct (srtp_protect_rtcp c d) as [c1 [[] e]] eqn:E; destruct (_ <? _)%nat; try done. intros [= <- <-].
  destruct (synced_rtcp c c' d c1 e Hsync E) as (He & c1' & E' & Hs1).
  unfold DecryptRtcp, ready. rewrite Hc', decide_True by done. destruct e as [|x e]; [done|]. cbn [length Nat.eqb]. rewrite E'.
  eexists. split; [done|]. split; [done|]. split; [done|]. by exists c1, c1'.
Qed.

(** Room for the trailer: in [data_buffer_] for RTP, in the caller's array for RTCP. *)
Definition fits (p : packet) : Prop :=
  match p with
  | Rtp d => (length d + SRTP_MAX_TRAILER_LEN <= DATA_BUFFER_SIZE)%nat
  | Rtcp d => (length d + SRTP_MAX_TRAILER_LEN <= 1500)%nat
  end.

Lemma send_receive ps k k' :
  paired k k' -> Forall fits ps ->
  exists k1 k1' accepted wire, send k ps = (k1, accepted, wire, true) /\ receive k' wire = (k1', accepted) /\ paired k1 k1'.
Proof.
  revert k k'. induction ps as [|p ps IH]; intros k k' Hp Hf; cbn [send]; [exists k, k', [], []; by split_and!|].
  apply Forall_cons in Hf as [Hfit Hf]. pose proof Hp as (Ht & Ht' & c & c' & Hc & Hc' & Hsync).
  assert (Hgo : forall k1 k1' (o : option (list Z)), paired k1 k1' ->
    match o with
    | Some e => match p with Rtp d => DecryptRtp k' e = (k1', (true, d)) | Rtcp d => DecryptRtcp k' e = (k1', (true, d)) end
    | None => k1' = k'
    end ->
    exists k2 k2' accepted wire,
      (let '(k, accepted, wire, ok) := send k1 ps in
       match o with
       | Some e => (k, p :: accepted, (match p with Rtp _ => Rtp e | Rtcp _ => Rtcp e end) :: wire, ok)
       | None => (k, accepted, wire, ok)
       end) = (k2, accepted, wire, true) /\ receive k' wire = (k2', accepted) /\ paired k2 k2').
  { intros k1 k1' o Hp1 Ho. destruct (IH k1 k1' Hp1 Hf) as (k2 & k2' & acc & wire & -> & Hr & Hp2).
    exists k2, k2'. destruct o as [e|].
    - do 2 eexists. split; [reflexivity|]. cbn [receive]. destruct p; rewrite Ho, Hr; by split.
    - subst k1'. exists acc, wire. by split_and!. }
  destruct p as [d|d]; cbn [fits] in Hfit; unfold EncryptRtp, EncryptRtcp, ready; rewrite Hc, decide_True by done;
    (destruct (Nat.eqb_spec (length d) 0) as [_|Hd]; [by apply (Hgo k k' None)|]).
  - rewrite (proj2 (Nat.ltb_ge _ _)) by lia. destruct (srtp_protect c d) as [c1 [[] e]] eqn:E.
    + pose proof (protect_room _ _ _ _ E). rewrite (proj2 (Nat.ltb_ge _ _)) by lia.
      destruct (synced_rtp c c' d c1 e Hsync E) as (He & c1' & E' & Hs1). apply (Hgo _ (with_ctx k' c1') (Some e)).
      * split; [done|]. split; [done|]. by exists c1, c1'.
      * unfold DecryptRtp, ready. rewrite Hc', decide_True by done. by destruct e; [done|]; cbn [length Nat.eqb]; rewrite E'.
    + pose proof (failure_room c d c1 e (or_introl E)). rewrite (proj2 (Nat.ltb_ge _ _)) by lia. apply (Hgo _ k' None); [|done].
      split; [done|]. split; [done|]. exists c1, c'. split_and!; try done. eapply synced_failed; [done|by left].
  - destruct (srtp_protect_rtcp c d) as [c1 [[] e]] eqn:E.
    + pose proof (protect_rtcp_room _ _ _ _ E). rewrite (proj2 (Nat.ltb_ge _ _)) by lia.
      destruct (synced_rtcp c c' d c1 e Hsync E) as (He & c1' & E' & Hs1). apply (Hgo _ (with_ctx k' c1') (Some e)).
      * split; [done|]. split; [done|]. by exists c1, c1'.
      * unfold DecryptRtcp, ready. rewrite Hc', decide_True by done. by destruct e; [done|]; cbn [length Nat.eqb]; rewrite E'.
    + pose proof (failure_room c d c1 e (or_intror E)). rewrite (proj2 (Nat.ltb_ge _ _)) by lia. apply (Hgo _ k' None); [|done].
      split; [done|]. split; [done|]. exists c1, c'. split_and!; try done. eapply synced_failed; [done|by right].
Qed.


(** The size test of [EncryptRtp] forgets the trailer: a packet that fills the buffer is
    accepted, and libsrtp writes its authentication tag behind it. *)
Lemma EncryptRtp_overflow k c c1 d e :
  type_ k = SRTP_SESSION_TYPE_SEND -> srtp_session_ k = Some c -> length d = DATA_BUFFER_SIZE ->
  srtp_protect c d = (c1, (true, e)) -> (length d < length e)%nat ->
  (EncryptRtp k d).2 = Undef OobWrite.
Proof.
  intros Ht Hc Hl Hp He. unfold EncryptRtp, ready. rewrite Hc, decide_True by done.
  rewrite (proj2 (Nat.eqb_neq _ _)) by (rewrite Hl; discriminate).
  rewrite (proj2 (Nat.ltb_ge _ _)) by lia. rewrite Hp. by rewrite (proj2 (Nat.ltb_lt _ _)) by lia.
Qed.
End Properties.

(** * A toy libsrtp: packets carry their number; RTCP a marker more *)

Definition toy_protect (marker : list Z) (c : list Z * nat) (d : list Z) : (list Z * nat) * (bool * list Z) :=
  ((c.1, S c.2), (true, d ++ marker ++ [u8 (Z.of_nat c.2)])).
Definition toy_unprotect (marker : list Z) (c : list Z * nat) (e : list Z) : (list Z * nat) * (bool * list Z) :=
  let tag := marker ++ [u8 (Z.of_nat c.2)] in
  let n := (length e - length tag)%nat in
  if decide (drop n e = tag) then ((c.1, S c.2), (true, take n e)) else (c, (false, e)).
#[export] Instance toy_srtp : LibSrtp := {|
  srtp_t := list Z * nat; crypto_policy := nat;
  policy_aes_gcm_256_16_auth := 44%nat; policy_aes_gcm_128_16_auth := 28%nat;
  policy_aes_cm_128_hmac_sha1_80 := 30%nat; policy_aes_cm_128_hmac_sha1_32 := 30%nat;
  cipher_key_len n := n;
  set_from_profile_for_rtp _ := true; set_from_profile_for_rtcp _ := true;
  srtp_create _ _ key _ _ := Some (key, O);
  srtp_protect := toy_protect []; srtp_unprotect := toy_unprotect [];
  srtp_protect_rtcp := toy_protect [128]; srtp_unprotect_rtcp := toy_unprotect [128]
|}.

Lemma toy_roundtrip marker c d : toy_unprotect marker c (toy_protect marker c d).2.2 = ((c.1, S c.2), (true, d)).
Proof.
  unfold toy_unprotect, toy_protect. cbn [fst snd]. set (tag := marker ++ [u8 (Z.of_nat c.2)]).
  replace (length (d ++ tag) - length tag)%nat with (length d) by (rewrite length_app; lia).
  rewrite drop_app_ge, Nat.sub_diag, drop_0 by lia. rewrite decide_True by done.
  by rewrite take_app_le, take_ge by lia.
Qed.
#[export] Instance toy_srtp_laws : LibSrtpLaws.
Proof.
  refine {| synced := fun c c' : srtp_t => c = c' |}; try reflexivity.
  - cbn. unfold toy_protect. intros c d c' d' [= <- <-]. rewrite length_app. unfold SRTP_MAX_TRAILER_LEN. cbn. lia.
  - cbn. unfold toy_protect. intros c d c' d' [= <- <-]. rewrite length_app. unfold SRTP_MAX_TRAILER_LEN. cbn. lia.
  - cbn. intros c d c' d' [|]; discriminate.
  - cbn. unfold toy_unprotect. intros c d c' ok d' [E|E]; case_decide; injection E as <- <- <-;
      rewrite ?length_take; (split; [lia|intros; first [done|by apply Forall_take]]).
  - cbn. unfold toy_protect. intros c d c' ok d' [[= <- <- <-]|[= <- <- <-]] Hd;
      (apply Forall_app; split; [done|]); cbn [app]; repeat (apply Forall_cons; split; [|]); try apply Forall_nil; unfold byte, u8; zlia.
  - cbn. intros p q key w c c' [= <-] [= <-]. done.
  - cbn. intros c c' d c1 e <- E. pose proof (toy_roundtrip [] c d) as HR. rewrite E in HR. cbn in HR.
    split; [unfold toy_protect in E; injection E as _ <-; by destruct d|]. eexists. split; [exact HR|].
    unfold toy_protect in E. by injection E as <- _.
  - cbn. intros c c' d c1 e <- E. pose proof (toy_roundtrip [128] c d) as HR. rewrite E in HR. cbn in HR.
    split; [unfold toy_protect in E; injection E as _ <-; by destruct d|]. eexists. split; [exact HR|].
    unfold toy_protect in E. by injection E as <- _.
  - cbn. intros c c' d c1 e _ [|]; discriminate.
Qed.

Definition sample_key : list Z := replicate 30 7.


Lemma session_guards_witness :
  EncryptRtp (new_SRtpSession true SRTP_SESSION_TYPE_SEND AEAD_AES_128_GCM sample_key) [1] =
    (new_SRtpSession true SRTP_SESSION_TYPE_SEND AEAD_AES_128_GCM sample_key, Ok None).
Proof.
  destruct (session_guards true SRTP_SESSION_TYPE_SEND AEAD_AES_128_GCM sample_key [1] 1500) as (H1 & H2 & _).
  apply H2. left. apply H1. right. discriminate.
Defined.

End SrtpSession.
