(* ===== verification/WebRtcSession.v ===== *)
(** [webrtc_room/webrtc_session.cpp] and [.hpp]: one peer connection.  Datagrams of its
    UDP flow are told apart; RTP is unprotected, parsed and given to the pusher of its
    SSRC or mid; compound RTCP is taken apart and each packet dispatched to the pusher or
    puller it is about; what pushers, pullers and the congestion feedback send is
    protected and written to the last known address. *)
From S2P Require Import Prelude Effect ByteStream ByteCrypto IpAddress Stun IceServer RtpPub.
From S2P Require Import StdMap RtpPacket RtpPacketEdits RtcpReports RtcpFeedback RtpSession RtpSendSession.
From S2P Require Import RtpRecvSession TccServer MediaPusher MediaPuller SrtpSession.

Import RtpPub.

Module WebRtcSession.

Abbreviation UdpTuple := IceServer.UdpTuple.

(** The calls a session makes: on its UDP transport, on the room, on DTLS. *)
Inductive call :=
  | WriteUdpData (data : list Z) (address : UdpTuple)
  | RtpPacketFromRtcPusher (user_id session_id pusher_id : string) (pkt : RtpPacket.t)
  | PushToVoiceAgent (pkt : RtpPacket.t)
  | KeyFrameRequest (pusher_id puller_user_id pusher_user_id : string) (ssrc : Z)
  | PushClose (pusher_id : string)
  | PullClose (puller_id : string)
  | DtlsInitSession (role : Z) (remote_fingerprint : string)
  | DtlsSetRemoteAddress (address : UdpTuple)
  | DtlsSetIceConnected (flag : bool)
  | DtlsHandleData (data : list Z) (address : UdpTuple).

(** What a call finds around it: [now_millisec()], the configuration, and the memory that
    is not initialised: the copy of a packet ([fresh]), packet arrays, a socket address. *)
Record env := mk_env {
  now : Z;
  uplink_discard_percent_ : Z; downlink_discard_percent_ : Z; voice_agent_enable : bool;
  fresh : buf; uninit : buf; sock_addr : IpAddress.sockaddr
}.

(** [DtlsSession::IsDtlsData]. *)
Definition IsDtlsData (data : buf) (len : nat) : res bool :=
  if negb (13 <=? len)%nat then Ok false else let! d0 := rd8 data 0 in Ok ((19 <? d0) && (d0 <? 64)).

Section WebRtcSession.
Context {Ls : LibSrtp} {Ev : EvpMac} {In : Inet}.

(** Pushers and pullers are shared between maps: the maps hold their places in
    [pushers] and [pullers].  [random] is what [GetRandomUint(0, 100)] will return;
    [dtls_session_] and [trans_cb_] say whether the pointers are set. *)
Record t := mk {
  direction_type_ : SrtpSession.SRtpType;
  room_id_ : string; user_id_ : string; session_id_ : string;
  closed_ : bool; alive_ms_ : Z; dtls_connected_ : bool;
  ice_server_ : IceServer.t; dtls_session_ : bool;
  srtp_send_session_ : option SrtpSession.t; srtp_recv_session_ : option SrtpSession.t;
  remote_addr_ : UdpTuple; trans_cb_ : bool;
  pushers : list MediaPusher.t; ssrc2media_pusher_ : list (Z * nat); mid2media_pusher_ : list (Z * nat);
  pullers : list MediaPuller.t; ssrc2media_puller_ : list (Z * nat); rtxssrc2media_puller_ : list (Z * nat);
  mid_ext_id_ : Z; tcc_ext_id_ : Z;
  tcc_server_ : TccServer.t;
  random : list Z
}.

Definition with_status (k : t) (closed : bool) (alive : Z) (connected dtls : bool) : t :=
  mk (direction_type_ k) (room_id_ k) (user_id_ k) (session_id_ k) closed alive connected (ice_server_ k) dtls
     (srtp_send_session_ k) (srtp_recv_session_ k) (remote_addr_ k) (trans_cb_ k) (pushers k) (ssrc2media_pusher_ k)
     (mid2media_pusher_ k) (pullers k) (ssrc2media_puller_ k) (rtxssrc2media_puller_ k) (mid_ext_id_ k) (tcc_ext_id_ k)
     (tcc_server_ k) (random k).
Definition with_srtp (k : t) (send recv : option SrtpSession.t) : t :=
  mk (direction_type_ k) (room_id_ k) (user_id_ k) (session_id_ k) (closed_ k) (alive_ms_ k) (dtls_connected_ k) (ice_server_ k) (dtls_session_ k)
     send recv (remote_addr_ k) (trans_cb_ k) (pushers k) (ssrc2media_pusher_ k)
     (mid2media_pusher_ k) (pullers k) (ssrc2media_puller_ k) (rtxssrc2media_puller_ k) (mid_ext_id_ k) (tcc_ext_id_ k)
     (tcc_server_ k) (random k).
Definition with_remote (k : t) (addr : UdpTuple) : t :=
  mk (direction_type_ k) (room_id_ k) (user_id_ k) (session_id_ k) (closed_ k) (alive_ms_ k) (dtls_connected_ k) (ice_server_ k) (dtls_session_ k)
     (srtp_send_session_ k) (srtp_recv_session_ k) addr true (pushers k) (ssrc2media_pusher_ k)
     (mid2media_pusher_ k) (pullers k) (ssrc2media_puller_ k) (rtxssrc2media_puller_ k) (mid_ext_id_ k) (tcc_ext_id_ k)
     (tcc_server_ k) (random k).
Definition with_pushers (k : t) (st : list MediaPusher.t) (by_ssrc by_mid : list (Z * nat)) : t :=
  mk (direction_type_ k) (room_id_ k) (user_id_ k) (session_id_ k) (closed_ k) (alive_ms_ k) (dtls_connected_ k) (ice_server_ k) (dtls_session_ k)
     (srtp_send_session_ k) (srtp_recv_session_ k) (remote_addr_ k) (trans_cb_ k) st by_ssrc by_mid (pullers k)
     (ssrc2media_puller_ k) (rtxssrc2media_puller_ k) (mid_ext_id_ k) (tcc_ext_id_ k) (tcc_server_ k) (random k).
Definition with_pullers (k : t) (st : list MediaPuller.t) (by_ssrc by_rtx : list (Z * nat)) : t :=
  mk (direction_type_ k) (room_id_ k) (user_id_ k) (session_id_ k) (closed_ k) (alive_ms_ k) (dtls_connected_ k) (ice_server_ k) (dtls_session_ k)
     (srtp_send_session_ k) (srtp_recv_session_ k) (remote_addr_ k) (trans_cb_ k) (pushers k) (ssrc2media_pusher_ k)
     (mid2media_pusher_ k) st by_ssrc by_rtx (mid_ext_id_ k) (tcc_ext_id_ k) (tcc_server_ k) (random k).
Definition with_tcc (k : t) (mid tcc : Z) (s : TccServer.t) : t :=
  mk (direction_type_ k) (room_id_ k) (user_id_ k) (session_id_ k) (closed_ k) (alive_ms_ k) (dtls_connected_ k) (ice_server_ k) (dtls_session_ k)
     (srtp_send_session_ k) (srtp_recv_session_ k) (remote_addr_ k) (trans_cb_ k) (pushers k) (ssrc2media_pusher_ k)
     (mid2media_pusher_ k) (pullers k) (ssrc2media_puller_ k) (rtxssrc2media_puller_ k) mid tcc s (random k).
Definition with_random (k : t) (r : list Z) : t :=
  mk (direction_type_ k) (room_id_ k) (user_id_ k) (session_id_ k) (closed_ k) (alive_ms_ k) (dtls_connected_ k) (ice_server_ k) (dtls_session_ k)
     (srtp_send_session_ k) (srtp_recv_session_ k) (remote_addr_ k) (trans_cb_ k) (pushers k) (ssrc2media_pusher_ k)
     (mid2media_pusher_ k) (pullers k) (ssrc2media_puller_ k) (rtxssrc2media_puller_ k) (mid_ext_id_ k) (tcc_ext_id_ k)
     (tcc_server_ k) r.

(** The constructor; the ICE credentials are random. *)
Definition new_WebRtcSession (type : SrtpSession.SRtpType) (room_id user_id uuid : string) (ice : IceServer.t) (now_ms : Z) (r : list Z) : t :=
  mk type room_id user_id uuid false now_ms false ice false None None (IceServer.mk_tuple [] 0) false [] [] [] [] [] []
     (-1) (-1) (TccServer.new_TccServer true) r.

(** One draw, for the simulated loss. *)
Definition draw (k : t) : t * Z :=
  match random k with r :: l => (with_random k l, r) | [] => (k, 0) end.
Definition discarded (k : t) (percent : Z) : t * bool :=
  if 0 <? percent then let '(k, rand_val) := draw k in (k, rand_val <? percent) else (k, false).

(** ** Sending *)

(** [trans_cb_->OnWriteUdpData]: also all of [OnIceWrite] and [OnDtlsTransportSendData]. *)
Definition write (k : t) (data : list Z) (address : UdpTuple) : eff t call unit :=
  if trans_cb_ k then emit k [WriteUdpData data address] else pure k (Undef NullDeref).
Definition OnIceWrite (k : t) (data : list Z) (address : UdpTuple) : eff t call unit := write k data address.
Definition OnDtlsTransportSendData (k : t) (data : list Z) (address : UdpTuple) : eff t call unit := write k data address.

Definition IsConnected (k : t) : bool := dtls_connected_ k.

Definition OnTransportSendRtp (e : env) (k : t) (data : list Z) : eff t call unit :=
  if negb (dtls_connected_ k) then eret k tt else
  match srtp_send_session_ k with
  | None => eret k tt
  | Some s =>
      let '(s, r) := SrtpSession.EncryptRtp s data in
      do* (k, r) := pure (with_srtp k (Some s) (srtp_recv_session_ k)) r in
      match r with
      | None => eret k tt
      | Some d =>
          let '(k, drop) := discarded k (downlink_discard_percent_ e) in
          if drop then eret k tt else write k d (remote_addr_ k)
      end
  end.

(** The packets given to it all lie in arrays of 1500 bytes. *)
Definition OnTransportSendRtcp (k : t) (data : list Z) : eff t call unit :=
  if negb (dtls_connected_ k) then eret k tt else
  match srtp_send_session_ k with
  | None => eret k tt
  | Some s =>
      let '(s, r) := SrtpSession.EncryptRtcp s 1500 data in
      do* (k, r) := pure (with_srtp k (Some s) (srtp_recv_session_ k)) r in
      match r with None => eret k tt | Some d => write k d (remote_addr_ k) end
  end.

(** ** Calls on pushers, pullers and the congestion feedback *)

(** The session is the transport of its pushers and pullers; their other calls are its own. *)
Definition from_pusher (k : t) (c : MediaPusher.call) : eff t call unit :=
  match c with
  | MediaPusher.TransportSendRtcp d => OnTransportSendRtcp k d
  | MediaPusher.PushToVoiceAgent p => emit k [PushToVoiceAgent p]
  | MediaPusher.RtpPacketFromRtcPusher u s i p => emit k [RtpPacketFromRtcPusher u s i p]
  end.
Definition from_puller (e : env) (k : t) (c : MediaPuller.call) : eff t call unit :=
  match c with
  | MediaPuller.TransportSendRtp d => OnTransportSendRtp e k d
  | MediaPuller.TransportSendRtcp d => OnTransportSendRtcp k d
  end.

Definition with_pusher (k : t) (i : nat) (p : MediaPusher.t) : t :=
  with_pushers k (<[i := p]> (pushers k)) (ssrc2media_pusher_ k) (mid2media_pusher_ k).
Definition with_puller (k : t) (i : nat) (p : MediaPuller.t) : t :=
  with_pullers k (<[i := p]> (pullers k)) (ssrc2media_puller_ k) (rtxssrc2media_puller_ k).

Definition on_pusher {A} (k : t) (i : nat) (f : MediaPusher.t -> eff MediaPusher.t MediaPusher.call A) : eff t call A :=
  match pushers k !! i with
  | None => pure k (Undef NullDeref)
  | Some p => handled from_pusher (zoom (with_pusher k i) (f p))
  end.
Definition on_puller {A} (e : env) (k : t) (i : nat) (f : MediaPuller.t -> eff MediaPuller.t MediaPuller.call A) : eff t call A :=
  match pullers k !! i with
  | None => pure k (Undef NullDeref)
  | Some p => handled (from_puller e) (zoom (with_puller k i) (f p))
  end.
Definition on_tcc {A} (k : t) (m : TccServer.t * list (list Z) * res A) : eff t call A :=
  handled OnTransportSendRtcp (zoom (with_tcc k (mid_ext_id_ k) (tcc_ext_id_ k)) m).

(** ** RTP *)

(** The end of the dispatch: the pusher gets the packet, which dies with the call. *)
Definition give_to_pusher (e : env) (k : t) (i : nat) (rtp_pkt : RtpPacket.t) : eff t call Z :=
  on_pusher k i (fun p => zoom fst (MediaPusher.HandleRtpPacket (voice_agent_enable e) (now e) (fresh e) p rtp_pkt)).

(** The session's extension ids are told to the packet and to the congestion feedback,
    which takes note of the packet. *)
Definition collect_feedback (e : env) (k : t) (rtp_pkt : RtpPacket.t) : eff t call RtpPacket.t :=
  let rtp_pkt := if 0 <? mid_ext_id_ k then RtpPacket.SetMidExtensionId rtp_pkt (u8 (mid_ext_id_ k)) else rtp_pkt in
  do* (k, rtp_pkt) :=
    (if 0 <? tcc_ext_id_ k then
       let rtp_pkt := RtpPacket.SetTccExtensionId rtp_pkt (u8 (tcc_ext_id_ k)) in
       let k := with_tcc k (mid_ext_id_ k) (tcc_ext_id_ k) (TccServer.SetTccExtensionId (tcc_server_ k) (u8 (tcc_ext_id_ k))) in
       do* (k, _) := pure k (RtpPacket.ReadWideSeq rtp_pkt) in eret k rtp_pkt
     else eret k rtp_pkt) in
  do* (k, _) := on_tcc k (TccServer.InsertRtpPacket (tcc_server_ k) (Some rtp_pkt) (now e)) in
  eret k rtp_pkt.

(** The [try] block behind the parsing. *)
Definition dispatch_rtp (e : env) (k : t) (rtp_pkt : RtpPacket.t) : eff t call Z :=
  do* (k, ssrc) := pure k (RtpPacket.GetSsrc rtp_pkt) in
  do* (k, rtp_pkt) := collect_feedback e k rtp_pkt in
  match StdMap.find ssrc (ssrc2media_pusher_ k) with
  | Some i => give_to_pusher e k i rtp_pkt
  | None =>
      do* (k, mid) := pure k (RtpPacket.ReadMid rtp_pkt) in
      match mid with
      | None => eret k (-1)
      | Some mid =>
          match StdMap.find mid (mid2media_pusher_ k) with
          | None => eret k (-1)
          | Some i =>
              let k := with_pushers k (pushers k) (StdMap.set ssrc i (ssrc2media_pusher_ k)) (mid2media_pusher_ k) in
              do* (k, _) := on_pusher k i (fun p => eret (MediaPusher.UpdateSSRC p ssrc) tt) in
              give_to_pusher e k i rtp_pkt
          end
      end
  end.

(** [data] is the buffer of the UDP socket, [len] bytes of it the datagram. *)
Definition HandleRtpPacket (e : env) (k : t) (data : buf) (len : nat) : eff t call Z :=
  match srtp_recv_session_ k with
  | None => eret k (-1)
  | Some s =>
      let '(k, drop) := discarded k (uplink_discard_percent_ e) in
      if drop then eret k 0 else
      let '(s, (r, d)) := SrtpSession.DecryptRtp s (take len data) in
      let k := with_srtp k (srtp_send_session_ k) (Some s) in
      if negb r then eret k (-1) else
      match RtpPacket.Parse (now e) (splice 0 d data) (length d) with
      | Ok rtp_pkt => ecatch (dispatch_rtp e k rtp_pkt) (fun k => eret k (-1))
      | Throw _ => eret k (-1)
      | Undef u => pure k (Undef u)
      end
  end.

(** ** RTCP: [data] points to the packet, [len] is the length its header gives *)

Definition HandleRtcpSrPacket (e : env) (k : t) (data : buf) (len : nat) : eff t call Z :=
  ecatch
    (do* (k, sr_pkt) := pure k (RtcpSrPacket.Parse (uninit e) data len) in
     match StdMap.find (RtcpSrPacket.GetSsrc sr_pkt) (ssrc2media_pusher_ k) with
     | None => eret k (-1)
     | Some i =>
         do* (k, ret) := on_pusher k i (fun p => quiet (MediaPusher.HandleRtcpSrPacket p sr_pkt (now e))) in
         if negb (ret =? 0) then eret k ret else eret k 0
     end)
    (fun k => eret k (-1)).

(** One report block; what the puller answers is only logged. *)
Definition handle_rr_block (e : env) (d : buf) (k : t) (rr_block : nat) : eff t call unit :=
  do* (k, ssrc) := pure k (RtcpRrBlockInfo.GetReporteeSsrc d rr_block) in
  match StdMap.find ssrc (ssrc2media_puller_ k) with
  | None => eret k tt
  | Some i =>
      do* (k, ret) := on_puller e k i (fun q => MediaPuller.HandleRtcpRrBlock q d rr_block (now e)) in eret k tt
  end.
Definition HandleRtcpRrPacket (e : env) (k : t) (data : buf) (len : nat) : eff t call Z :=
  ecatch
    (do* (k, rr_pkt) := pure k (RtcpRrPacket.Parse data len) in
     do* (k, _) := efor (RtcpRrPacket.GetRrBlocks rr_pkt) k (handle_rr_block e (RtcpRrPacket.data rr_pkt)) in
     eret k 0)
    (fun k => eret k (-1)).

Definition HandleRtcpXrPacket (k : t) : eff t call Z := eret k 0.

Definition HandleRtcpRtpfbPacket (e : env) (k : t) (data : buf) (len : nat) : eff t call Z :=
  ecatch
    (do* (k, fmt) := pure k (RtcpCommonHeader.count data 0) in
     if fmt =? RTCP_FB_RTP_FMT_val FB_RTP_NACK then
       do* (k, nack_pkt) := pure k (RtcpFbNack.Parse (uninit e) data len) in
       match nack_pkt with
       | None => eret k (-1)
       | Some nack_pkt =>
           do* (k, ssrc) := pure k (RtcpFbNack.GetMediaSsrc nack_pkt) in
           match StdMap.find ssrc (ssrc2media_puller_ k) with
           | None => eret k (-1)
           | Some i =>
               do* (k, ret) := on_puller e k i (fun q => MediaPuller.HandleRtcpFbNack q (Some nack_pkt)) in
               if ret <? 0 then eret k ret else eret k 0
           end
       end
     else eret k 0)
    (fun k => eret k 0).

(** A picture loss indication falls through to the empty case behind it. *)
Definition HandleRtcpPsfbPacket (k : t) (data : buf) (len : nat) : eff t call Z :=
  if (len <=? 4)%nat then eret k 0 else
  ecatch
    (do* (k, fmt) := pure k (RtcpCommonHeader.count data 0) in
     if fmt =? RTCP_FB_PS_FMT_val FB_PS_PLI then
       do* (k, pspli_pkt) := pure k (RtcpPsPli.Parse data len) in
       match pspli_pkt with
       | None => eret k (-1)
       | Some pspli_pkt =>
           do* (k, ssrc) := pure k (RtcpPsPli.GetMediaSsrc pspli_pkt) in
           match StdMap.find ssrc (ssrc2media_puller_ k) with
           | None => eret k (-1)
           | Some i =>
               match pullers k !! i with
               | None => pure k (Undef NullDeref)
               | Some q =>
                   do* (k, _) := emit k [KeyFrameRequest (MediaPuller.pusher_id_ q) (MediaPuller.puller_user_id_ q)
                                           (MediaPuller.pusher_user_id_ q) ssrc] in
                   eret k 0
               end
           end
       end
     else eret k 0)
    (fun k => eret k 0).

(** The [switch] of the loop; the results are not used. *)
Definition rtcp_item (e : env) (k : t) (data : buf) (packet_type : Z) (len : nat) : eff t call Z :=
  if packet_type =? RTCP_TYPE_val RTCP_SR then HandleRtcpSrPacket e k data len else
  if packet_type =? RTCP_TYPE_val RTCP_RR then HandleRtcpRrPacket e k data len else
  if packet_type =? RTCP_TYPE_val RTCP_RTPFB then HandleRtcpRtpfbPacket e k data len else
  if packet_type =? RTCP_TYPE_val RTCP_PSFB then HandleRtcpPsfbPacket k data len else
  if packet_type =? RTCP_TYPE_val RTCP_XR then HandleRtcpXrPacket k else
  eret k 0.

(** The loop over the packets of a compound; each advances it by at least four bytes. *)
Fixpoint rtcp_loop (fuel : nat) (e : env) (k : t) (p : buf) (left_len : Z) : eff t call unit :=
  if left_len <=? 0 then eret k tt else
  match fuel with
  | O => pure k (Undef OutOfFuel)
  | S fuel' =>
      do* (k, item_total) := pure k (GetRtcpLength p 0) in
      do* (k, packet_type) := pure k (RtcpCommonHeader.packet_type p 0) in
      do* (k, _) := rtcp_item e k p packet_type (Z.to_nat item_total) in
      rtcp_loop fuel' e k (drop (Z.to_nat item_total) p) (left_len - item_total)
  end.

Definition HandleRtcpPacket (e : env) (k : t) (data : buf) (len : nat) : eff t call Z :=
  match srtp_recv_session_ k with
  | None => eret k (-1)
  | Some s =>
      let '(s, (r, d)) := SrtpSession.DecryptRtcp s (take len data) in
      let k := with_srtp k (srtp_send_session_ k) (Some s) in
      if r : bool then eret k (-1) else
      do* (k, _) := rtcp_loop (length d) e k (splice 0 d data) (Z.of_nat (length d)) in
      eret k 0
  end.

(** ** Datagrams *)

Definition HandleStunPacket (e : env) (k : t) (stun_pkt : Stun.t) (addr : UdpTuple) : eff t call Z :=
  let k := with_remote k addr in
  let k := with_status k (closed_ k) (now e) (dtls_connected_ k) (dtls_session_ k) in
  let '(_, sent, r) := IceServer.HandleStunPacket true (ice_server_ k) stun_pkt addr (sock_addr e) in
  do* (k, _) := efor sent k (fun k m => OnIceWrite k m.1 m.2) in
  do* (k, ret) := pure k r in
  if negb (ret =? 0) then eret k ret else
  if negb (dtls_session_ k) then pure k (Undef NullDeref) else
  do* (k, _) := emit k [DtlsSetRemoteAddress addr; DtlsSetIceConnected true] in
  eret k 0.

Definition HandleNoneStunPacket (e : env) (k : t) (data : buf) (len : nat) (addr : UdpTuple) : eff t call Z :=
  let k := with_remote k addr in
  let k := with_status k (closed_ k) (now e) (dtls_connected_ k) (dtls_session_ k) in
  do* (k, rtcp) := pure k (IsRtcp data len) in
  if rtcp : bool then HandleRtcpPacket e k data len else
  do* (k, rtp) := pure k (IsRtp data len) in
  if rtp : bool then HandleRtpPacket e k data len else
  do* (k, dtls) := pure k (IsDtlsData data len) in
  if dtls : bool then
    if negb (dtls_session_ k) then pure k (Undef NullDeref) else
    do* (k, _) := emit k [DtlsHandleData (take len data) addr] in eret k 0
  else eret k 0.

(** ** Set-up, timer, end *)

Definition AddPusherRtpSession (k : t) (param : RtpSessionParam.t) (uuid : string) : t * Z * string :=
  let k := with_tcc k (RtpSessionParam.mid_ext_id_ param) (RtpSessionParam.tcc_ext_id_ param) (tcc_server_ k) in
  let media_pusher := MediaPusher.CreateRtpRecvSession (MediaPusher.new_MediaPusher param (user_id_ k) (session_id_ k) uuid true) in
  let i := length (pushers k) in
  let by_ssrc := StdMap.set (RtpSessionParam.ssrc_ param) i (ssrc2media_pusher_ k) in
  let by_mid := StdMap.set (RtpSessionParam.mid_ param) i (mid2media_pusher_ k) in
  let by_ssrc := if negb (RtpSessionParam.rtx_ssrc_ param =? 0) then StdMap.set (RtpSessionParam.rtx_ssrc_ param) i by_ssrc else by_ssrc in
  (with_pushers k (pushers k ++ [media_pusher]) by_ssrc by_mid, 0, MediaPusher.pusher_id_ media_pusher).

(** The out parameter [puller_id] is returned as it came. *)
Definition AddPullerRtpSession (k : t) (param : RtpSessionParam.t) (pusher_user_id pusher_id puller_id uuid : string) : t * Z * string :=
  let media_puller := MediaPuller.CreateRtpSendSession
    (MediaPuller.new_MediaPuller param (user_id_ k) pusher_user_id uuid pusher_id true) in
  let i := length (pullers k) in
  let by_ssrc := StdMap.set (RtpSessionParam.ssrc_ param) i (ssrc2media_puller_ k) in
  let by_rtx := if negb (RtpSessionParam.rtx_ssrc_ param =? 0)
                then StdMap.set (RtpSessionParam.rtx_ssrc_ param) i (rtxssrc2media_puller_ k) else rtxssrc2media_puller_ k in
  (with_pullers k (pullers k ++ [media_puller]) by_ssrc by_rtx, 0, puller_id).

(** A subscriber's parameters, once its answer is known. *)
Definition SetPullerParam (k : t) (i : nat) (param : RtpSessionParam.t) : t :=
  match pullers k !! i with Some q => with_puller k i (MediaPuller.with_param q param) | None => k end.

Definition is_video (p : RtpSessionParam.t) : bool :=
  match RtpSessionParam.av_type_ p with RtpSessionParam.MEDIA_VIDEO_TYPE => true | _ => false end.

(** The first SSRC a puller is entered under. *)
Definition first_ssrc (m : list (Z * nat)) (i : nat) : Z :=
  default 0 (head (map fst (filter (fun x : Z * nat => x.2 = i) m))).

Definition request_key_frame (k : t) (x : Z * nat) : eff t call unit :=
  match pullers k !! x.2 with
  | None => pure k (Undef NullDeref)
  | Some q =>
      if negb (is_video (MediaPuller.param_ q)) then eret k tt else
      let ssrc := first_ssrc (ssrc2media_puller_ k) x.2 in
      if ssrc =? 0 then eret k tt else
      emit k [KeyFrameRequest (MediaPuller.pusher_id_ q) (MediaPuller.puller_user_id_ q) (MediaPuller.pusher_user_id_ q) ssrc]
  end.

(** [global_initialized_] is the flag of [SRtpSession::GlobalInit]. *)
Definition OnDtlsTransportConnected (k : t) (global_initialized_ : bool) (suite : SrtpSession.SRtpSessionCryptoSuite)
    (srtpLocalKey srtpRemoteKey : list Z) : eff t call unit :=
  let k := with_srtp k
    (Some (SrtpSession.new_SRtpSession global_initialized_ SrtpSession.SRTP_SESSION_TYPE_SEND suite srtpLocalKey))
    (Some (SrtpSession.new_SRtpSession global_initialized_ SrtpSession.SRTP_SESSION_TYPE_RECV suite srtpRemoteKey)) in
  do* (k, _) := match direction_type_ k with
                | SrtpSession.SRTP_SESSION_TYPE_SEND => efor (ssrc2media_puller_ k) k request_key_frame
                | _ => eret k tt
                end in
  eret (with_status k (closed_ k) (alive_ms_ k) true (dtls_session_ k)) tt.

(** DTLS itself is OpenSSL: [init] and [run] are what its two calls return. *)
Definition DtlsInit (k : t) (role : Z) (remote_fingerprint : string) (init run : Z) : eff t call Z :=
  let k := with_status k (closed_ k) (alive_ms_ k) (dtls_connected_ k) true in
  if negb (init =? 0) then eret k init else
  do* (k, _) := emit k [DtlsInitSession role remote_fingerprint] in
  if negb (run =? 0) then eret k run else eret k 0.

Definition OnTimer (e : env) (k : t) : eff t call unit :=
  if negb (dtls_connected_ k) then eret k tt else
  if closed_ k then eret k tt else
  do* (k, _) :=
    (match direction_type_ k with
     | SrtpSession.SRTP_SESSION_TYPE_SEND =>
         efor (ssrc2media_puller_ k) k (fun k x => on_puller e k x.2 (fun q => MediaPuller.OnTimer q (now e)))
     | SrtpSession.SRTP_SESSION_TYPE_RECV =>
         efor (ssrc2media_pusher_ k) k (fun k x => on_pusher k x.2 (fun p => MediaPusher.OnTimer p (now e) (now e)))
     | SrtpSession.SRTP_SESSION_TYPE_INVALID => eret k tt
     end) in
  on_tcc k (TccServer.OnTimer (tcc_server_ k) (now e)).

Definition push_close (k : t) (x : Z * nat) : eff t call unit :=
  match pushers k !! x.2 with Some p => emit k [PushClose (MediaPusher.pusher_id_ p)] | None => pure k (Undef NullDeref) end.
Definition pull_close (k : t) (x : Z * nat) : eff t call unit :=
  match pullers k !! x.2 with Some q => emit k [PullClose (MediaPuller.puller_id_ q)] | None => pure k (Undef NullDeref) end.
Definition Close (k : t) : eff t call unit :=
  if closed_ k then eret k tt else
  let k := with_status k true (alive_ms_ k) (dtls_connected_ k) (dtls_session_ k) in
  do* (k, _) := efor (ssrc2media_pusher_ k) k push_close in
  efor (ssrc2media_puller_ k) k pull_close.

Definition IsAlive (k : t) (now_ms : Z) : bool := now_ms - alive_ms_ k <=? 35 * 1000.
Definition GetMediaPushers (k : t) : list nat := (ssrc2media_pusher_ k).*2.
Definition GetMediaPullers (k : t) : list nat := (ssrc2media_puller_ k).*2.

(** ** The room's side: a packet lent to a puller, a key frame asked of a pusher *)

Definition PullerSendRtp (e : env) (k : t) (i : nat) (rtp_pkt : RtpPacket.t) : eff t call unit :=
  on_puller e k i (fun q => zoom fst (MediaPuller.OnTransportSendRtp (IsConnected k) (now e) (fresh e) q rtp_pkt)).
Definition PusherRequestKeyFrame (e : env) (k : t) (i : nat) (ssrc : Z) : eff t call unit :=
  on_pusher k i (fun p => MediaPusher.RequestKeyFrame p ssrc (now e)).

(** ** Everything that can happen to a session *)

Inductive event :=
  | Stun (e : env) (pkt : Stun.t) (addr : UdpTuple)
  | Datagram (e : env) (data : buf) (len : nat) (addr : UdpTuple)
  | Dtls (role : Z) (fingerprint : string) (init run : Z)
  | DtlsSend (data : list Z) (addr : UdpTuple)
  | DtlsConnected (init : bool) (suite : SrtpSession.SRtpSessionCryptoSuite) (local remote : list Z)
  | AddPusher (param : RtpSessionParam.t) (uuid : string)
  | AddPuller (param : RtpSessionParam.t) (pusher_user_id pusher_id out uuid : string)
  | PullerParam (i : nat) (param : RtpSessionParam.t)
  | Timer (e : env)
  | Report (e : env) (i j : nat)
  | NackTimer (e : env) (i j : nat)
  | Lend (e : env) (i : nat) (pkt : RtpPacket.t)
  | AskKeyFrame (e : env) (i : nat) (ssrc : Z)
  | Closing.

Definition ignore {A} (m : eff t call A) : eff t call unit := do* (k, _) := m in eret k tt.

Definition happens (k : t) (ev : event) : eff t call unit :=
  match ev with
  | Stun e pkt addr => ignore (HandleStunPacket e k pkt addr)
  | Datagram e data len addr => ignore (HandleNoneStunPacket e k data len addr)
  | Dtls role fp init run => ignore (DtlsInit k role fp init run)
  | DtlsSend data addr => OnDtlsTransportSendData k data addr
  | DtlsConnected init suite l r => OnDtlsTransportConnected k init suite l r
  | AddPusher param uuid => eret (AddPusherRtpSession k param uuid).1.1 tt
  | AddPuller param u p out uuid => eret (AddPullerRtpSession k param u p out uuid).1.1 tt
  | PullerParam i param => eret (SetPullerParam k i param) tt
  | Timer e => OnTimer e k
  | Report e i j => on_pusher k i (fun p => MediaPusher.session_report p j (now e) (uninit e))
  | NackTimer e i j => on_pusher k i (fun p => MediaPusher.session_nack p j (now e) (uninit e))
  | Lend e i pkt => PullerSendRtp e k i pkt
  | AskKeyFrame e i ssrc => PusherRequestKeyFrame e k i ssrc
  | Closing => Close k
  end.

End WebRtcSession.

(** * Invariant *)

Section Invariant.
Context {Ls : LibSrtp} {LsL : LibSrtpLaws} {Ev : EvpMac} {In : Inet}.

(** One direction of SRTP, once there. *)
Definition directed (type : SrtpSession.SRtpType) (o : option SrtpSession.t) : Prop :=
  forall s, o = Some s -> SrtpSession.type_ s = type /\ length (SrtpSession.data_buffer_ s) = SrtpSession.DATA_BUFFER_SIZE.

(** Pushers and pullers are well-formed and every map refers into their stores; a session
    that is connected has an address to write to; the SRTP contexts have their direction. *)
Record wf (k : t) : Prop := {
  wf_pushers : Forall MediaPusher.live (pushers k);
  wf_pullers : Forall MediaPuller.wf (pullers k);
  wf_by_ssrc : StdMap.below (length (pushers k)) (ssrc2media_pusher_ k);
  wf_by_mid : StdMap.below (length (pushers k)) (mid2media_pusher_ k);
  wf_by_puller : StdMap.below (length (pullers k)) (ssrc2media_puller_ k);
  wf_by_rtx : StdMap.below (length (pullers k)) (rtxssrc2media_puller_ k);
  wf_transport : dtls_connected_ k = true -> trans_cb_ k = true;
  wf_send : directed SrtpSession.SRTP_SESSION_TYPE_SEND (srtp_send_session_ k);
  wf_recv : directed SrtpSession.SRTP_SESSION_TYPE_RECV (srtp_recv_session_ k)
}.

Lemma session_wf_new type room_id user_id uuid ice now_ms r : wf (new_WebRtcSession type room_id user_id uuid ice now_ms r).
Proof. by split; cbn; try apply StdMap.below_nil. Qed.

Lemma wf_with_srtp k s r :
  wf k -> directed SrtpSession.SRTP_SESSION_TYPE_SEND s -> directed SrtpSession.SRTP_SESSION_TYPE_RECV r -> wf (with_srtp k s r).
Proof. by intros [] ? ?. Qed.
Lemma wf_with_tcc k a b s : wf k -> wf (with_tcc k a b s).
Proof. by intros []. Qed.
Lemma wf_with_random k r : wf k -> wf (with_random k r).
Proof. by intros []. Qed.
Lemma wf_with_remote k addr : wf k -> wf (with_remote k addr).
Proof. by intros []. Qed.
Lemma wf_with_status k closed alive connected dtls :
  wf k -> (connected = true -> trans_cb_ k = true) -> wf (with_status k closed alive connected dtls).
Proof. by intros [] ?. Qed.
Lemma wf_discarded k percent : wf k -> wf (discarded k percent).1.
Proof.
  intros Hk. unfold discarded, draw. destruct (0 <? percent); [|done]. destruct (random k); [done|]. by apply wf_with_random.
Qed.

Lemma EncryptRtp_directed type s d :
  directed type (Some s) ->
  match (SrtpSession.EncryptRtp s d).2 with Undef _ => True | _ => directed type (Some (SrtpSession.EncryptRtp s d).1) end.
Proof.
  intros Hs. destruct (Hs s eq_refl) as [Ht Hl]. unfold SrtpSession.EncryptRtp.
  destruct (SrtpSession.ready s _ d) as [c|]; [|done].
  destruct (Nat.ltb_spec SrtpSession.DATA_BUFFER_SIZE (length d)); [done|].
  destruct (srtp_protect c d) as [c' [ok d']]. destruct (Nat.ltb_spec SrtpSession.DATA_BUFFER_SIZE (length d')); [done|].
  assert (Hl1 : length (splice 0 d (SrtpSession.data_buffer_ s)) = SrtpSession.DATA_BUFFER_SIZE)
    by (rewrite length_splice by lia; done).
  cbn [snd fst]. intros s' [= <-].
  cbn [SrtpSession.with_buffer SrtpSession.with_ctx SrtpSession.type_ SrtpSession.data_buffer_].
  split; [done|]. by rewrite length_splice by lia.
Qed.

Lemma write_stays k d a : wf k -> stays wf (write k d a).
Proof. intros Hk. unfold write. destruct (trans_cb_ k); [by apply stays_emit|by apply stays_pure]. Qed.

Lemma OnTransportSendRtp_stays e k d : wf k -> stays wf (OnTransportSendRtp e k d).
Proof.
  intros Hk. unfold OnTransportSendRtp. destruct (negb _); [by apply stays_ret|].
  destruct (srtp_send_session_ k) as [s|] eqn:Es; [|by apply stays_ret].
  assert (Hs : directed SrtpSession.SRTP_SESSION_TYPE_SEND (Some s)) by (rewrite <- Es; apply Hk).
  pose proof (EncryptRtp_directed _ s d Hs) as He.
  destruct (SrtpSession.EncryptRtp s d) as [s' r]. cbn [fst snd] in He.
  destruct r as [r|m|u]; [|by intros _; apply wf_with_srtp; [|apply He|apply Hk]|done].
  rewrite ebind_ok. assert (Hk' : wf (with_srtp k (Some s') (srtp_recv_session_ k))) by (apply wf_with_srtp; [done|apply He|apply Hk]).
  destruct r as [d'|]; [|by apply stays_ret].
  pose proof (wf_discarded (with_srtp k (Some s') (srtp_recv_session_ k)) (downlink_discard_percent_ e) Hk') as Hd.
  destruct (discarded _ _) as [k2 b]. cbn in Hd. destruct b; [by apply stays_ret|by apply write_stays].
Qed.

Lemma OnTransportSendRtcp_stays k d : wf k -> stays wf (OnTransportSendRtcp k d).
Proof.
  intros Hk. unfold OnTransportSendRtcp. destruct (negb _); [by apply stays_ret|].
  destruct (srtp_send_session_ k) as [s|] eqn:Es; [|by apply stays_ret].
  assert (Hs : directed SrtpSession.SRTP_SESSION_TYPE_SEND (Some s)) by (rewrite <- Es; apply Hk).
  assert (Hs' : directed SrtpSession.SRTP_SESSION_TYPE_SEND (Some (SrtpSession.EncryptRtcp s 1500 d).1)).
  { unfold SrtpSession.EncryptRtcp. destruct (SrtpSession.ready s _ d) as [c|]; [|done].
    destruct (srtp_protect_rtcp c d) as [c' [ok d']]. destruct (_ <? _)%nat; intros s' [= <-]; exact (Hs s eq_refl). }
  destruct (SrtpSession.EncryptRtcp s 1500 d) as [s' r]. cbn [fst] in Hs'.
  assert (Hk' : wf (with_srtp k (Some s') (srtp_recv_session_ k))) by (apply wf_with_srtp; [done|done|apply Hk]).
  apply stays_bind; [by apply stays_pure|]. intros k1 [d'|] Hk1 _; [by apply write_stays|by apply stays_ret].
Qed.

Lemma wf_with_pusher k i p : wf k -> MediaPusher.live p -> wf (with_pusher k i p).
Proof.
  intros [] Hp. split; try done; cbn [with_pusher with_pushers pushers ssrc2media_pusher_ mid2media_pusher_];
    rewrite ?length_insert; [by apply Forall_insert|done..].
Qed.
Lemma wf_with_puller k i q : wf k -> MediaPuller.wf q -> wf (with_puller k i q).
Proof.
  intros [] Hq. split; try done; cbn [with_puller with_pullers pullers ssrc2media_puller_ rtxssrc2media_puller_];
    rewrite ?length_insert; [by apply Forall_insert|done..].
Qed.

Lemma on_pusher_stays {A} k i (f : MediaPusher.t -> eff MediaPusher.t MediaPusher.call A) :
  wf k -> (forall p, MediaPusher.live p -> stays MediaPusher.live (f p)) -> stays wf (on_pusher k i f).
Proof.
  intros Hk Hf. unfold on_pusher. destruct (pushers k !! i) as [p|] eqn:Hp; [|by apply stays_pure].
  apply stays_handled.
  - eapply stays_zoom; [apply Hf; eapply Forall_lookup_1; [apply Hk|exact Hp]|]. intros. by apply wf_with_pusher.
  - intros s [d|q|u a b q] Hs; cbn [from_pusher]; [by apply OnTransportSendRtcp_stays|by apply stays_emit..].
Qed.
Lemma on_puller_stays {A} e k i (f : MediaPuller.t -> eff MediaPuller.t MediaPuller.call A) :
  wf k -> (forall q, MediaPuller.wf q -> stays MediaPuller.wf (f q)) -> stays wf (on_puller e k i f).
Proof.
  intros Hk Hf. unfold on_puller. destruct (pullers k !! i) as [q|] eqn:Hq; [|by apply stays_pure].
  apply stays_handled.
  - eapply stays_zoom; [apply Hf; eapply Forall_lookup_1; [apply Hk|exact Hq]|]. intros. by apply wf_with_puller.
  - intros s [d|d] Hs; cbn [from_puller]; [by apply OnTransportSendRtp_stays|by apply OnTransportSendRtcp_stays].
Qed.
Lemma on_tcc_stays {A} k (m : TccServer.t * list (list Z) * res A) : wf k -> stays wf (on_tcc k m).
Proof.
  intros Hk. apply stays_handled; [|intros; by apply OnTransportSendRtcp_stays].
  apply (stays_zoom wf (fun _ => True)); [done|]. intros. by apply wf_with_tcc.
Qed.
Lemma ignore_stays {A} (m : eff t call A) : stays wf m -> stays wf (ignore m).
Proof. intros Hm. apply stays_bind; [done|]. intros. by apply stays_ret. Qed.

(** ** RTP *)

Lemma wf_new_ssrc k ssrc i :
  wf k -> (i < length (pushers k))%nat ->
  wf (with_pushers k (pushers k) (StdMap.set ssrc i (ssrc2media_pusher_ k)) (mid2media_pusher_ k)).
Proof. intros [] Hi. split; try done. by apply StdMap.below_set. Qed.

Lemma give_to_pusher_stays e k i pkt : wf k -> RtpPacket.wf pkt -> stays wf (give_to_pusher e k i pkt).
Proof.
  intros Hk Hp. apply on_pusher_stays; [done|]. intros p Hl.
  eapply stays_zoom; [by apply MediaPusher.HandleRtpPacket_stays|]. by intros [? ?].
Qed.

Lemma collect_feedback_stays e k pkt : wf k -> stays wf (collect_feedback e k pkt).
Proof.
  intros Hk. unfold collect_feedback. apply stays_bind; [|intros; apply stays_bind; [by apply on_tcc_stays|intros; by apply stays_ret]].
  destruct (0 <? tcc_ext_id_ k); [|by apply stays_ret].
  apply stays_bind; [apply stays_pure; by apply wf_with_tcc|]. intros. by apply stays_ret.
Qed.

Lemma with_ids_same p : exists a b c, p = RtpPacket.with_ids p a b c.
Proof. destruct p. by do 3 eexists. Qed.
(** It only sets the ids of the packet. *)
Lemma collect_feedback_packet e k pkt p :
  outcome (collect_feedback e k pkt) = Ok p -> exists a b c, p = RtpPacket.with_ids pkt a b c.
Proof.
  unfold collect_feedback. set (p1 := if 0 <? mid_ext_id_ k then _ else _).
  assert (H1 : exists a b c, p1 = RtpPacket.with_ids pkt a b c) by (unfold p1; destruct (0 <? _); [by do 3 eexists|apply with_ids_same]).
  clearbody p1. destruct H1 as (a & b & c & ->). destruct (0 <? tcc_ext_id_ k).
  - set (p2 := RtpPacket.SetTccExtensionId _ _). destruct (RtpPacket.ReadWideSeq p2); cbn [pure ebind eret]; [|done..].
    destruct (on_tcc _ _) as [[k2 es] [r|m|u]]; cbn; [|done..]. intros [= <-]. by do 3 eexists.
  - cbn [ebind eret]. destruct (on_tcc _ _) as [[k2 es] [r|m|u]]; cbn; [|done..]. intros [= <-]. by do 3 eexists.
Qed.

Lemma dispatch_rtp_stays e k pkt : wf k -> RtpPacket.wf pkt -> stays wf (dispatch_rtp e k pkt).
Proof.
  intros Hk Hpkt. unfold dispatch_rtp. apply stays_bind; [by apply stays_pure|]. intros k1 ssrc Hk1 _.
  apply stays_bind; [by apply collect_feedback_stays|]. intros k3 p2 Hk3 Hp2.
  assert (Hwp : RtpPacket.wf p2) by (destruct (collect_feedback_packet _ _ _ _ Hp2) as (a & b & c & ->); by apply RtpPacketEdits.wf_with_ids).
  destruct (StdMap.find ssrc _) as [i|]; [by apply give_to_pusher_stays|].
  apply stays_bind; [by apply stays_pure|]. intros k4 [mid|] Hk4 _; [|by apply stays_ret].
  destruct (StdMap.find mid _) as [i|] eqn:Hi; [|by apply stays_ret].
  apply stays_bind.
  - apply on_pusher_stays; [|intros p Hl; by apply stays_ret, MediaPusher.UpdateSSRC_live].
    apply wf_new_ssrc; [done|]. exact (StdMap.below_find _ _ _ _ (wf_by_mid k4 Hk4) Hi).
  - intros. by apply give_to_pusher_stays.
Qed.

Lemma recv_directed s s' : SrtpSession.type_ s' = SrtpSession.type_ s -> SrtpSession.data_buffer_ s' = SrtpSession.data_buffer_ s ->
  directed SrtpSession.SRTP_SESSION_TYPE_RECV (Some s) -> directed SrtpSession.SRTP_SESSION_TYPE_RECV (Some s').
Proof. intros E1 E2 H s0 [= <-]. rewrite E1, E2. by apply H. Qed.

(** What unprotecting does to the datagram and to the context. *)
Lemma DecryptRtp_ok s d s' r d' :
  SrtpSession.DecryptRtp s d = (s', (r, d')) -> bytes d ->
  SrtpSession.type_ s' = SrtpSession.type_ s /\ SrtpSession.data_buffer_ s' = SrtpSession.data_buffer_ s /\
  (length d' <= length d)%nat /\ bytes d' /\ (r = true -> d <> []).
Proof.
  unfold SrtpSession.DecryptRtp, SrtpSession.ready. intros E Hd.
  destruct (SrtpSession.srtp_session_ s) as [c|]; [|injection E as <- <- <-; by split_and!].
  destruct (Nat.eqb_spec (length d) 0); [injection E as <- <- <-; by split_and!|].
  destruct (decide _); [|injection E as <- <- <-; by split_and!].
  destruct (srtp_unprotect c d) as [c' [ok d1]] eqn:Eu. injection E as <- <- <-.
  destruct (unprotect_room c d c' ok d1 (or_introl Eu)) as [Hl Hb]. split_and!; auto. intros _ ->. done.
Qed.
Lemma DecryptRtcp_ok s d s' r d' :
  SrtpSession.DecryptRtcp s d = (s', (r, d')) -> bytes d ->
  SrtpSession.type_ s' = SrtpSession.type_ s /\ SrtpSession.data_buffer_ s' = SrtpSession.data_buffer_ s /\
  (length d' <= length d)%nat /\ bytes d'.
Proof.
  unfold SrtpSession.DecryptRtcp, SrtpSession.ready. intros E Hd.
  destruct (SrtpSession.srtp_session_ s) as [c|]; [|injection E as <- <- <-; by split_and!].
  destruct (Nat.eqb_spec (length d) 0); [injection E as <- <- <-; by split_and!|].
  destruct (decide _); [|injection E as <- <- <-; by split_and!].
  destruct (srtp_unprotect_rtcp c d) as [c' [ok d1]] eqn:Eu. injection E as <- <- <-.
  destruct (unprotect_room c d c' ok d1 (or_intror Eu)) as [Hl Hb]. split_and!; auto.
Qed.

Lemma peer_HandleRtpPacket_stays e k data len :
  wf k -> bytes data -> (len <= length data)%nat -> stays wf (HandleRtpPacket e k data len).
Proof.
  intros Hk Hb Hlen. unfold HandleRtpPacket. destruct (srtp_recv_session_ k) as [s|] eqn:Es; [|by apply stays_ret].
  assert (Hsame : forall percent, srtp_recv_session_ (discarded k percent).1 = Some s).
  { intros percent. rewrite <- Es. unfold discarded, draw. destruct (0 <? percent); [|done]. by destruct (random k). }
  specialize (Hsame (uplink_discard_percent_ e)). pose proof (wf_discarded k (uplink_discard_percent_ e) Hk) as Hk1.
  destruct (discarded k _) as [k1 drop]. cbn [fst] in *. destruct drop; [by apply stays_ret|].
  destruct (SrtpSession.DecryptRtp s (take len data)) as [s' [r d]] eqn:Ed.
  apply DecryptRtp_ok in Ed as (E1 & E2 & Hd & Hdb & Hne); [|by apply Forall_take].
  rewrite length_take in Hd.
  assert (Hk2 : wf (with_srtp k1 (srtp_send_session_ k1) (Some s'))).
  { apply wf_with_srtp; [done|apply Hk1|]. eapply recv_directed; [exact E1|exact E2|]. rewrite <- Hsame. apply Hk1. }
  destruct r; cbn [negb]; [|by apply stays_ret].
  assert (Hnd : (1 <= length data)%nat) by (destruct data; [|cbn; lia]; destruct len; by specialize (Hne eq_refl)).
  assert (Hsl : length (splice 0 d data) = length data) by (apply length_splice; lia).
  pose proof (RtpPacket.Parse_any (now e) (splice 0 d data) (length d) ltac:(by apply bytes_splice) ltac:(lia) ltac:(lia)) as HP.
  destruct (RtpPacket.Parse _ _ _) as [pkt|m|u]; [|by apply stays_ret|done].
  apply stays_catch; [by apply dispatch_rtp_stays|]. intros. by apply stays_ret.
Qed.

(** ** RTCP *)

Lemma peer_HandleRtcpSrPacket_stays e k data len : wf k -> stays wf (HandleRtcpSrPacket e k data len).
Proof.
  intros Hk. apply stays_catch; [|intros; by apply stays_ret].
  apply stays_bind; [by apply stays_pure|]. intros k1 sr Hk1 _.
  destruct (StdMap.find _ _) as [i|]; [|by apply stays_ret]. apply stays_bind.
  - apply on_pusher_stays; [done|]. intros p Hp. by apply MediaPusher.HandleRtcpSrPacket_stays.
  - intros k2 ret Hk2 _. destruct (negb _); by apply stays_ret.
Qed.
Lemma HandleRtcpRrPacket_stays e k data len : wf k -> stays wf (HandleRtcpRrPacket e k data len).
Proof.
  intros Hk. apply stays_catch; [|intros; by apply stays_ret].
  apply stays_bind; [by apply stays_pure|]. intros k1 rr Hk1 _. apply stays_bind; [|intros; by apply stays_ret].
  apply stays_for; [done|]. intros k2 b Hk2 _. unfold handle_rr_block.
  apply stays_bind; [by apply stays_pure|]. intros k3 ssrc Hk3 _.
  destruct (StdMap.find _ _) as [i|]; [|by apply stays_ret]. apply stays_bind; [|intros; by apply stays_ret].
  apply on_puller_stays; [done|]. intros q Hq. by apply MediaPuller.HandleRtcpRrBlock_stays.
Qed.
Lemma HandleRtcpRtpfbPacket_stays e k data len : wf k -> stays wf (HandleRtcpRtpfbPacket e k data len).
Proof.
  intros Hk. apply stays_catch; [|intros; by apply stays_ret].
  apply stays_bind; [by apply stays_pure|]. intros k1 fmt Hk1 _. destruct (_ =? _); [|by apply stays_ret].
  apply stays_bind; [by apply stays_pure|]. intros k2 [nack|] Hk2 _; [|by apply stays_ret].
  apply stays_bind; [by apply stays_pure|]. intros k3 ssrc Hk3 _.
  destruct (StdMap.find _ _) as [i|]; [|by apply stays_ret]. apply stays_bind.
  - apply on_puller_stays; [done|]. intros q Hq. by apply MediaPuller.HandleRtcpFbNack_stays.
  - intros k4 ret Hk4 _. destruct (_ <? _); by apply stays_ret.
Qed.
Lemma HandleRtcpPsfbPacket_stays k data len : wf k -> stays wf (HandleRtcpPsfbPacket k data len).
Proof.
  intros Hk. unfold HandleRtcpPsfbPacket. destruct (_ <=? _)%nat; [by apply stays_ret|].
  apply stays_catch; [|intros; by apply stays_ret].
  apply stays_bind; [by apply stays_pure|]. intros k1 fmt Hk1 _. destruct (_ =? _); [|by apply stays_ret].
  apply stays_bind; [by apply stays_pure|]. intros k2 [pli|] Hk2 _; [|by apply stays_ret].
  apply stays_bind; [by apply stays_pure|]. intros k3 ssrc Hk3 _.
  destruct (StdMap.find _ _) as [i|]; [|by apply stays_ret]. destruct (pullers k3 !! i); [|by apply stays_pure].
  apply stays_bind; [by apply stays_emit|]. intros. by apply stays_ret.
Qed.
Lemma rtcp_item_stays e k data type len : wf k -> stays wf (rtcp_item e k data type len).
Proof.
  intros Hk. unfold rtcp_item, HandleRtcpXrPacket.
  repeat (destruct (_ =? _);
    [first [by apply peer_HandleRtcpSrPacket_stays|by apply HandleRtcpRrPacket_stays|by apply HandleRtcpRtpfbPacket_stays|
            by apply HandleRtcpPsfbPacket_stays|by apply stays_ret]|]). by apply stays_ret.
Qed.
Lemma rtcp_loop_stays fuel e k p left_len : wf k -> stays wf (rtcp_loop fuel e k p left_len).
Proof.
  revert k p left_len. induction fuel as [|fuel IH]; intros k p left_len Hk; cbn [rtcp_loop];
    (destruct (left_len <=? 0); [by apply stays_ret|]); [by apply stays_pure|].
  apply stays_bind; [by apply stays_pure|]. intros k1 n Hk1 _. apply stays_bind; [by apply stays_pure|]. intros k2 ty Hk2 _.
  apply stays_bind; [by apply rtcp_item_stays|]. intros k3 _ Hk3 _. by apply IH.
Qed.
Lemma HandleRtcpPacket_stays e k data len : wf k -> bytes data -> stays wf (HandleRtcpPacket e k data len).
Proof.
  intros Hk Hb. unfold HandleRtcpPacket. destruct (srtp_recv_session_ k) as [s|] eqn:Es; [|by apply stays_ret].
  destruct (SrtpSession.DecryptRtcp s (take len data)) as [s' [r d]] eqn:Ed.
  apply DecryptRtcp_ok in Ed as (E1 & E2 & _); [|by apply Forall_take].
  assert (Hk2 : wf (with_srtp k (srtp_send_session_ k) (Some s'))).
  { apply wf_with_srtp; [done|apply Hk|]. eapply recv_directed; [exact E1|exact E2|]. rewrite <- Es. apply Hk. }
  destruct r; [by apply stays_ret|]. apply stays_bind; [by apply rtcp_loop_stays|]. intros. by apply stays_ret.
Qed.

(** ** The other events *)

Lemma HandleStunPacket_stays e k pkt addr : wf k -> stays wf (HandleStunPacket e k pkt addr).
Proof.
  intros Hk. unfold HandleStunPacket. destruct (IceServer.HandleStunPacket _ _ _ _ _) as [[q sent] r].
  assert (Hk1 : wf (with_status (with_remote k addr) (closed_ (with_remote k addr)) (now e)
                      (dtls_connected_ (with_remote k addr)) (dtls_session_ (with_remote k addr))))
    by (apply wf_with_status; [by apply wf_with_remote|done]).
  apply stays_bind; [apply stays_for; [done|]; intros; by apply write_stays|].
  intros k1 _ Hk1' _. apply stays_bind; [by apply stays_pure|]. intros k2 ret Hk2 _.
  destruct (negb _); [by apply stays_ret|]. destruct (negb _); [by apply stays_pure|].
  apply stays_bind; [by apply stays_emit|]. intros. by apply stays_ret.
Qed.
Lemma HandleNoneStunPacket_stays e k data len addr :
  wf k -> bytes data -> (len <= length data)%nat -> stays wf (HandleNoneStunPacket e k data len addr).
Proof.
  intros Hk Hb Hl. unfold HandleNoneStunPacket. cbv zeta.
  assert (Hk1 : wf (with_status (with_remote k addr) (closed_ (with_remote k addr)) (now e)
                      (dtls_connected_ (with_remote k addr)) (dtls_session_ (with_remote k addr))))
    by (apply wf_with_status; [by apply wf_with_remote|done]).
  apply stays_bind; [by apply stays_pure|]. intros k2 [] Hk2 _; [by apply HandleRtcpPacket_stays|].
  apply stays_bind; [by apply stays_pure|]. intros k3 [] Hk3 _; [by apply peer_HandleRtpPacket_stays|].
  apply stays_bind; [by apply stays_pure|]. intros k4 [] Hk4 _; [|by apply stays_ret].
  destruct (negb _); [by apply stays_pure|]. apply stays_bind; [by apply stays_emit|]. intros. by apply stays_ret.
Qed.

Lemma DtlsInit_stays k role fp init run : wf k -> stays wf (DtlsInit k role fp init run).
Proof.
  intros Hk. unfold DtlsInit. cbv zeta. set (k1 := with_status _ _ _ _ _).
  assert (Hk1 : wf k1) by (apply wf_with_status; [done|apply Hk]).
  destruct (negb _); [by apply stays_ret|]. apply stays_bind; [by apply stays_emit|]. intros k2 _ Hk2 _.
  destruct (negb _); by apply stays_ret.
Qed.

Lemma new_directed init type suite key : directed type (Some (SrtpSession.new_SRtpSession init type suite key)).
Proof.
  intros s [= <-]. unfold SrtpSession.new_SRtpSession, SrtpSession.InitSrtpSession.
  cbn [SrtpSession.crypto_suite_ SrtpSession.key_len_ SrtpSession.key_ SrtpSession.type_].
  repeat case_match; split; first [reflexivity|apply length_replicate].
Qed.

Lemma request_key_frame_same k x : (request_key_frame k x).1.1 = k.
Proof. unfold request_key_frame. repeat case_match; done. Qed.

Lemma OnDtlsTransportConnected_stays k init suite l r :
  wf k -> trans_cb_ k = true -> stays wf (OnDtlsTransportConnected k init suite l r).
Proof.
  intros Hk Ht. unfold OnDtlsTransportConnected. cbv zeta. set (k1 := with_srtp k _ _).
  assert (Hk1 : wf k1 /\ trans_cb_ k1 = true) by (split; [apply wf_with_srtp; auto using new_directed|done]).
  clearbody k1. apply (stays_then wf (fun k => wf k /\ trans_cb_ k = true)); [|by intros k2 []|].
  - destruct (direction_type_ k1); try by apply stays_ret. apply stays_for; [done|]. intros s x Hs _ _.
    unfold final. by rewrite request_key_frame_same.
  - intros k2 _ [Hk2 Ht2] _. apply stays_ret. by apply wf_with_status.
Qed.

Lemma AddPusherRtpSession_wf k param uuid :
  wf k -> RtpSessionParam.wf param -> 0 < RtpSessionParam.clock_rate_ param -> wf (AddPusherRtpSession k param uuid).1.1.
Proof.
  intros [Hp Hq Hs Hm Hpl Hr Ht Hse Hre] Hpar Hc. unfold AddPusherRtpSession. cbv zeta.
  set (p := MediaPusher.CreateRtpRecvSession _).
  assert (Hlp : MediaPusher.live p).
  { split; [|done]. apply MediaPusher.CreateRtpRecvSession_wf; [apply MediaPusher.pusher_wf_new|done..]. }
  assert (Hn : (length (pushers k) < length (pushers k ++ [p]))%nat) by (rewrite length_app; cbn; lia).
  pose proof (fun m => StdMap.below_mono _ (length (pushers k ++ [p])) m (Nat.lt_le_incl _ _ Hn)) as Hmono.
  split; cbn [fst with_pushers with_tcc pushers pullers ssrc2media_pusher_ mid2media_pusher_ ssrc2media_puller_ rtxssrc2media_puller_
              srtp_send_session_ srtp_recv_session_ trans_cb_ dtls_connected_]; try done.
  - apply Forall_app. split; [done|by constructor].
  - destruct (negb _); repeat (apply StdMap.below_set; [|done]); by apply Hmono.
  - apply StdMap.below_set; [by apply Hmono|done].
Qed.
Lemma AddPullerRtpSession_wf k param u p out uuid :
  wf k -> RtpSessionParam.wf param -> wf (AddPullerRtpSession k param u p out uuid).1.1.
Proof.
  intros [Hp Hq Hs Hm Hpl Hr Ht Hse Hre] Hpar. unfold AddPullerRtpSession. cbv zeta.
  set (q := MediaPuller.CreateRtpSendSession _).
  assert (Hlq : MediaPuller.wf q) by (by apply MediaPuller.puller_wf_new).
  assert (Hn : (length (pullers k) < length (pullers k ++ [q]))%nat) by (rewrite length_app; cbn; lia).
  pose proof (fun m => StdMap.below_mono _ (length (pullers k ++ [q])) m (Nat.lt_le_incl _ _ Hn)) as Hmono.
  split; cbn [fst with_pullers pushers pullers ssrc2media_pusher_ mid2media_pusher_ ssrc2media_puller_ rtxssrc2media_puller_
              srtp_send_session_ srtp_recv_session_ trans_cb_ dtls_connected_]; try done.
  - apply Forall_app. split; [done|by constructor].
  - apply StdMap.below_set; [by apply Hmono|done].
  - destruct (negb _); [apply StdMap.below_set; [by apply Hmono|done]|by apply Hmono].
Qed.

Lemma SetPullerParam_wf k i param : wf k -> MediaPuller.sendable param -> wf (SetPullerParam k i param).
Proof.
  intros Hk Hp. unfold SetPullerParam. destruct (pullers k !! i) as [q|] eqn:E; [|done]. apply wf_with_puller; [done|].
  apply MediaPuller.puller_wf_param; [|done]. eapply Forall_lookup_1; [apply Hk|done].
Qed.

Lemma session_OnTimer_stays e k : wf k -> stays wf (OnTimer e k).
Proof.
  intros Hk. unfold OnTimer. destruct (negb _); [by apply stays_ret|]. destruct (closed_ k); [by apply stays_ret|].
  apply stays_bind; [|intros; by apply on_tcc_stays].
  destruct (direction_type_ k); [by apply stays_ret|apply stays_for; [done|]..]; intros k1 x Hk1 _.
  - apply on_puller_stays; [done|]. intros q Hq. by apply MediaPuller.puller_OnTimer_stays.
  - apply on_pusher_stays; [done|]. intros p Hp. by apply MediaPusher.pusher_OnTimer_stays.
Qed.
Lemma Close_stays k : wf k -> stays wf (Close k).
Proof.
  intros Hk. unfold Close. destruct (closed_ k); [by apply stays_ret|]. cbv zeta. set (k1 := with_status _ _ _ _ _).
  assert (Hk1 : wf k1) by (apply wf_with_status; [done|apply Hk]). clearbody k1.
  apply stays_bind; [|intros k2 _ Hk2 _]; (apply stays_for; [done|]; intros k3 x Hk3 _).
  - unfold push_close. destruct (pushers k3 !! x.2); [by apply stays_emit|by apply stays_pure].
  - unfold pull_close. destruct (pullers k3 !! x.2); [by apply stays_emit|by apply stays_pure].
Qed.

(** What the rest of the program guarantees of an event. *)
Definition expected (k : t) (ev : event) : Prop :=
  match ev with
  | Datagram e data len _ => bytes data /\ (len <= length data)%nat
  | DtlsConnected _ _ _ _ => trans_cb_ k = true
  | AddPusher param _ => RtpSessionParam.wf param /\ 0 < RtpSessionParam.clock_rate_ param
  | AddPuller param _ _ _ _ => RtpSessionParam.wf param
  | PullerParam _ param => MediaPuller.sendable param
  | Lend e _ pkt => RtpPacket.wf pkt /\ (RtpPacket.data_len pkt <= 1498)%nat /\ bytes (fresh e) /\ length (fresh e) = 1500%nat
  | _ => True
  end.

Lemma happens_stays k ev : wf k -> expected k ev -> stays wf (happens k ev).
Proof.
  intros Hk He. destruct ev; cbn [happens expected] in *.
  - apply ignore_stays. by apply HandleStunPacket_stays.
  - apply ignore_stays. by apply HandleNoneStunPacket_stays; destruct He.
  - apply ignore_stays. by apply DtlsInit_stays.
  - by apply write_stays.
  - by apply OnDtlsTransportConnected_stays.
  - apply stays_ret. by apply AddPusherRtpSession_wf; destruct He.
  - apply stays_ret. by apply AddPullerRtpSession_wf.
  - apply stays_ret. by apply SetPullerParam_wf.
  - by apply session_OnTimer_stays.
  - apply on_pusher_stays; [done|]. intros p Hp. by apply MediaPusher.session_report_stays.
  - apply on_pusher_stays; [done|]. intros p Hp. by apply MediaPusher.session_nack_stays.
  - destruct He as (Hp & Hl & Hf & Hfl). apply on_puller_stays; [done|]. intros q Hq.
    eapply (stays_zoom MediaPuller.wf (fun s : MediaPuller.t * RtpPacket.t => MediaPuller.wf s.1)); [|by intros [? ?]].
    intros _. destruct (MediaPuller.puller_send_ok (IsConnected k) (now e) (fresh e) q pkt Hq Hp Hl Hf Hfl)
      as (q' & p' & es & r & -> & Hq' & _). done.
  - apply on_pusher_stays; [done|]. intros p [Hp Hcb] _. rewrite MediaPusher.RequestKeyFrame_ok by done.
    destruct Hp. by split.
  - by apply Close_stays.
Qed.

(** The states a session can get into, as long as nothing undefined happens. *)
Inductive reachable : t -> Prop :=
  | reach_new type room_id user_id uuid ice now_ms r : reachable (new_WebRtcSession type room_id user_id uuid ice now_ms r)
  | reach_step k ev : reachable k -> expected k ev -> defined (outcome (happens k ev)) -> reachable (final (happens k ev)).


(** * Compound RTCP *)

(** A packet whose header gives its length. *)
Definition well_sized (item : list Z) : Prop :=
  bytes item /\ (4 <= length item)%nat /\ Z.of_nat (length item) = (ByteStream.net16 item 2 + 1) * 4.
Definition handle_item (e : env) (k : t) (item : list Z) : eff t call unit :=
  ignore (rtcp_item e k item (cell item 1) (length item)).

Lemma same_app (a b : buf) : RtpPacket.same_on 0 (length a) (a ++ b) a.
Proof. intros i Hi. apply lookup_app_l. lia. Qed.
Lemma rd_app (a b : buf) n : (n <= length a)%nat -> rd_bytes (a ++ b) 0 n = rd_bytes a 0 n.
Proof. intros. apply (RtpPacket.rd_bytes_same 0 (length a)); [apply same_app|lia]. Qed.
Lemma count_app (a b : buf) : (4 <= length a)%nat -> RtcpCommonHeader.count (a ++ b) 0 = RtcpCommonHeader.count a 0.
Proof. intros. apply (RtpPacket.get_field_same 0 (length a)); [apply same_app|lia]. Qed.

(** Handling a packet does not look behind it. *)
Lemma rtcp_item_alone e k item rest type :
  well_sized item -> rtcp_item e k (item ++ rest) type (length item) = rtcp_item e k item type (length item).
Proof.
  intros (Hb & Hl & _). unfold rtcp_item.
  destruct (type =? RTCP_TYPE_val RTCP_SR).
  { unfold HandleRtcpSrPacket. assert (RtcpSrPacket.Parse (uninit e) (item ++ rest) (length item) = RtcpSrPacket.Parse (uninit e) item (length item)) as ->; [|done].
    unfold RtcpSrPacket.Parse. destruct (Nat.eqb_spec (length item) RtcpSrPacket.DataLen); [|done].
    unfold RtcpSrPacket.from_header. by rewrite rd_app by lia. }
  destruct (type =? RTCP_TYPE_val RTCP_RR).
  { unfold HandleRtcpRrPacket. assert (RtcpRrPacket.Parse (item ++ rest) (length item) = RtcpRrPacket.Parse item (length item)) as ->; [|done].
    unfold RtcpRrPacket.Parse, RtcpRrPacket.from_header, GetRtcpLength, RtcpCommonHeader.length. rewrite rd_app by done.
    by rewrite (RtpPacket.load16_same 0 (length item) _ item) by (apply same_app || lia). }
  destruct (type =? RTCP_TYPE_val RTCP_RTPFB).
  { unfold HandleRtcpRtpfbPacket. rewrite count_app by done.
    assert (RtcpFbNack.Parse (uninit e) (item ++ rest) (length item) = RtcpFbNack.Parse (uninit e) item (length item)) as ->; [|done].
    unfold RtcpFbNack.Parse. destruct (_ <=? _)%nat; [done|]. unfold RtcpFbNack.UpdateData. by rewrite rd_app by done. }
  destruct (type =? RTCP_TYPE_val RTCP_PSFB); [|done].
  unfold HandleRtcpPsfbPacket. rewrite count_app by done.
  assert (RtcpPsPli.Parse (item ++ rest) (length item) = RtcpPsPli.Parse item (length item)) as ->; [|done].
  unfold RtcpPsPli.Parse. by rewrite rd_app by done.
Qed.

(** The loop is the iteration over the packets of the compound. *)
Lemma rtcp_loop_compound e items rest fuel k :
  Forall well_sized items -> (length (concat items) <= 4 * fuel)%nat ->
  rtcp_loop fuel e k (concat items ++ rest) (Z.of_nat (length (concat items))) = efor items k (handle_item e).
Proof.
  revert fuel k. induction items as [|item items IH]; intros fuel k Hs Hf.
  - cbn [concat app length Z.of_nat efor]. by destruct fuel.
  - apply Forall_cons in Hs as [Hi Hs]. pose proof Hi as (Hb & Hl & Hlen). cbn [concat] in *. rewrite length_app in *.
    destruct fuel as [|fuel]; [lia|]. cbn [rtcp_loop efor]. rewrite (proj2 (Z.leb_gt _ _)) by lia.
    rewrite <- app_assoc. set (tail := concat items ++ rest).
    assert (EL : GetRtcpLength (item ++ tail) 0 = Ok (Z.of_nat (length item))).
    { unfold GetRtcpLength, RtcpCommonHeader.length.
      rewrite (RtpPacket.load16_same 0 (length item) _ item) by (apply same_app || lia).
      pose proof (GetRtcpLength_eq item 0 Hb ltac:(lia)) as E. unfold GetRtcpLength, RtcpCommonHeader.length in E.
      rewrite E. by rewrite Hlen. }
    assert (ET : RtcpCommonHeader.packet_type (item ++ tail) 0 = Ok (cell item 1)).
    { unfold RtcpCommonHeader.packet_type.
      rewrite (RtpPacket.rd8_same 0 (length item) _ item) by (apply same_app || lia). by apply rd8_cell; lia. }
    rewrite EL, ebind_ok, ET, ebind_ok, Nat2Z.id, rtcp_item_alone by done.
    unfold handle_item at 1, ignore. rewrite ebind_assoc. apply ebind_ext. intros k1 r. rewrite ebind_ret, drop_app_length.
    replace (Z.of_nat (length item + length (concat items)) - Z.of_nat (length item)) with (Z.of_nat (length (concat items))) by lia.
    apply IH; [done|lia].
Qed.

(** C13: RTCP from the network.  The call to libsrtp is tested the wrong way round.  A
    datagram that the peer has really protected is decrypted, taken for a failure, and
    dropped with -1: none of its reports, NACKs or key-frame requests takes effect.  One
    that libsrtp refuses goes on as it is: its packets are handled in order, each as if it
    had come alone, exactly as an authentic compound should be. *)
Theorem HandleRtcpPacket_inverted (e : env) (k : t) (recv : SrtpSession.t) (data : buf) (len : nat) :
  srtp_recv_session_ k = Some recv -> bytes data -> (len <= length data)%nat ->
  (forall sender sender' room d,
     SrtpSession.paired sender recv -> SrtpSession.EncryptRtcp sender room d = (sender', Ok (Some (take len data))) ->
     exists recv', SrtpSession.paired sender' recv' /\
       HandleRtcpPacket e k data len = (with_srtp k (srtp_send_session_ k) (Some recv'), [], Ok (-1))) /\
  (forall recv' items,
     SrtpSession.DecryptRtcp recv (take len data) = (recv', (false, concat items)) -> Forall well_sized items ->
     HandleRtcpPacket e k data len =
       (do* (k, _) := efor items (with_srtp k (srtp_send_session_ k) (Some recv')) (handle_item e) in eret k 0)).
Proof.
  intros Hr Hb Hl. split.
  - intros sender sender' room d Hp He. destruct (SrtpSession.EncryptRtcp_reaches _ _ _ _ _ _ Hp He) as (recv' & Hd & Hp').
    exists recv'. split; [done|]. unfold HandleRtcpPacket. by rewrite Hr, Hd.
  - intros recv' items Hd Hs. unfold HandleRtcpPacket. rewrite Hr, Hd.
    apply DecryptRtcp_ok in Hd as (_ & _ & Hlen & _); [|by apply Forall_take]. rewrite length_take in Hlen.
    change (splice 0 (concat items) data) with (concat items ++ drop (length (concat items)) data).
    by rewrite (rtcp_loop_compound e items) by (done || lia).
Qed.

(** ** RTP: from the publisher to the room *)

Definition to_room (c : call) : option RtpPacket.t :=
  match c with RtpPacketFromRtcPusher _ _ _ p => Some p | _ => None end.
(** The packets the room is given, in order. *)
Definition delivered (cs : list call) : list RtpPacket.t := omap to_room cs.

(** What a pusher calls while it handles a packet goes on unchanged. *)
Lemma media_calls_pass cs k :
  Forall MediaPusher.call_ok cs ->
  exists es, efor cs k from_pusher = (k, es, Ok tt) /\ delivered es = MediaPusher.delivered cs.
Proof.
  intros Hcs. induction Hcs as [|c cs Hc _ (es & IH & Hes)]; [by exists []|]. cbn [efor].
  destruct c as [d|p|u s i p]; [done|..]; cbn [from_pusher emit ebind app]; rewrite IH; eexists; (split; [reflexivity|]);
    unfold delivered, MediaPusher.delivered in *; cbn; by rewrite Hes.
Qed.

(** The parts of a session that the feedback does not touch. *)
Definition same_media (k k' : t) : Prop :=
  pushers k' = pushers k /\ ssrc2media_pusher_ k' = ssrc2media_pusher_ k /\ mid2media_pusher_ k' = mid2media_pusher_ k /\
  srtp_recv_session_ k' = srtp_recv_session_ k /\ room_id_ k' = room_id_ k /\ pullers k' = pullers k.

Lemma same_media_refl k : same_media k k.
Proof. done. Qed.
Lemma OnTransportSendRtcp_same k0 k d : same_media k0 k -> stays (same_media k0) (OnTransportSendRtcp k d).
Proof.
  intros Hk. unfold OnTransportSendRtcp. destruct (negb _); [by apply stays_ret|].
  destruct (srtp_send_session_ k) as [s|]; [|by apply stays_ret].
  destruct (SrtpSession.EncryptRtcp s 1500 d) as [s' r].
  apply stays_bind; [by apply stays_pure|]. intros k1 [d'|] Hk1 _; [|by apply stays_ret].
  unfold write. destruct (trans_cb_ k1); [by apply stays_emit|by apply stays_pure].
Qed.
Lemma collect_feedback_same e k pkt : stays (same_media k) (collect_feedback e k pkt).
Proof.
  unfold collect_feedback. apply stays_bind.
  - destruct (0 <? tcc_ext_id_ k); [|by apply stays_ret]. apply stays_bind; [by apply stays_pure|]. intros. by apply stays_ret.
  - intros k1 p Hk1 _. apply stays_bind; [|intros; by apply stays_ret].
    apply stays_handled; [|intros; by apply OnTransportSendRtcp_same].
    apply (stays_zoom (same_media k) (fun _ => True)); [done|]. by intros.
Qed.
(** What only goes to the peer. *)
Definition is_write (c : call) : Prop := match c with WriteUdpData _ _ => True | _ => False end.
Lemma writes_deliver cs : Forall is_write cs -> delivered cs = [].
Proof. induction 1 as [|c cs Hc _ IH]; [done|]. by destruct c. Qed.

Lemma feedback_only_writes k d : Forall is_write (calls (OnTransportSendRtcp k d)).
Proof.
  unfold OnTransportSendRtcp. destruct (negb _); [constructor|]. destruct (srtp_send_session_ k) as [s|]; [|constructor].
  destruct (SrtpSession.EncryptRtcp s 1500 d) as [s' [[d'|]| |]]; cbn; [|constructor..]. unfold write.
  destruct (trans_cb_ _); repeat constructor.
Qed.

Lemma delivered_app a b : delivered (a ++ b) = delivered a ++ delivered b.
Proof. apply omap_app. Qed.
Lemma calls_for (Q : call -> Prop) {X} (l : list X) k (f : t -> X -> eff t call unit) :
  (forall k x, Forall Q (calls (f k x))) -> Forall Q (calls (efor l k f)).
Proof.
  intros Hf. revert k. induction l as [|x l IH]; intros k; cbn [efor]; [constructor|]. specialize (Hf k x).
  unfold calls in *. destruct (f k x) as [[k1 es] [[]|m|u]]; cbn [ebind fst snd] in *; [|done..]. specialize (IH k1).
  destruct (efor l k1 f) as [[k2 es2] r]. by apply Forall_app.
Qed.
Lemma collect_feedback_writes e k pkt : Forall is_write (calls (collect_feedback e k pkt)).
Proof.
  unfold collect_feedback. set (p1 := if 0 <? mid_ext_id_ k then _ else _). clearbody p1.
  assert (Hon : forall A (k : t) (m : TccServer.t * list (list Z) * res A), Forall is_write (calls (on_tcc k m))).
  { intros A k1 [[s es] r]. unfold on_tcc, handled. cbn [zoom].
    pose proof (calls_for is_write es (with_tcc k1 (mid_ext_id_ k1) (tcc_ext_id_ k1) s) OnTransportSendRtcp feedback_only_writes) as H.
    destruct (efor es _ _) as [[k2 fs] h]. exact H. }
  destruct (0 <? tcc_ext_id_ k).
  - set (p2 := RtpPacket.SetTccExtensionId _ _). set (k1 := with_tcc _ _ _ _).
    destruct (RtpPacket.ReadWideSeq p2); unfold pure at 1; cbn [ebind eret app fst snd]; [|constructor..].
    specialize (Hon _ k1 (TccServer.InsertRtpPacket (tcc_server_ k1) (Some p2) (now e))).
    unfold calls in *. destruct (on_tcc _ _) as [[k2 es] [r|m|u]]; cbn [ebind eret fst snd] in *; by rewrite ?app_nil_r.
  - rewrite ebind_ret. specialize (Hon _ k (TccServer.InsertRtpPacket (tcc_server_ k) (Some p1) (now e))).
    unfold calls in *. destruct (on_tcc _ _) as [[k2 es] [r|m|u]]; cbn [ebind eret fst snd] in *; by rewrite ?app_nil_r.
Qed.

(** The calls of a pusher that delivers: with the voice agent off, the one to the room. *)
Lemma delivering_calls p cs pkts :
  Forall (MediaPusher.named false p) cs -> Forall MediaPusher.call_ok cs -> MediaPusher.delivered cs = pkts ->
  cs = map (MediaPusher.RtpPacketFromRtcPusher (MediaPusher.user_id_ p) (MediaPusher.session_id_ p) (MediaPusher.pusher_id_ p)) pkts.
Proof.
  intros Hn Hc <-. induction cs as [|c cs IH]; [done|]. inversion Hn as [|? ? Hn1 Hn2]. inversion Hc as [|? ? Hc1 Hc2]. subst.
  destruct c as [d|q|u s i q]; [done|done|]. destruct Hn1 as (-> & -> & ->). cbn. f_equal. by apply IH.
Qed.

Definition to_room_of (p : MediaPusher.t) (pkt : RtpPacket.t) : call :=
  RtpPacketFromRtcPusher (MediaPusher.user_id_ p) (MediaPusher.session_id_ p) (MediaPusher.pusher_id_ p) pkt.

(** Handing a packet to the pusher of a known session. *)
Lemma give_to_pusher_media e k i p pkt j :
  wf k -> pushers k !! i = Some p -> RtpPacket.wf pkt -> bytes (fresh e) -> length (fresh e) = 1500%nat ->
  (voice_agent_enable e = true -> (1 <= RtpPacket.data_len pkt < 1500)%nat) ->
  StdMap.find (MediaPusher.ssrc_of pkt) (MediaPusher.ssrc2sessions_ p) = Some j ->
  exists k' es ok pkt', give_to_pusher e k i pkt = (k', es, Ok (if ok : bool then 0 else -1)) /\ wf k' /\
    srtp_recv_session_ k' = srtp_recv_session_ k /\
    delivered es = (if ok then [pkt'] else []) /\
    (voice_agent_enable e = false -> es = if ok then [to_room_of p pkt'] else []) /\
    (ok = true -> RtpPacketEdits.media (RtpPacket.view_of pkt') = RtpPacketEdits.media (RtpPacket.view_of pkt) /\
                  RtpPacketEdits.ext_edit pkt pkt') /\
    (room_id_ k' = room_id_ k /\ pullers k' = pullers k) /\
    RtpPacketEdits.sound pkt' /\
    exists s s', MediaPusher.store p !! j = Some s /\
      RtpRecvSession.ReceiveRtpPacket s (MediaPusher.set_ids (MediaPusher.param_ p) pkt) = (s', Ok ok).
Proof.
  intros Hk Hi Hpkt Hf Hfl He Hj.
  assert (Hl : MediaPusher.live p) by (eapply Forall_lookup_1; [apply Hk|exact Hi]).
  pose proof (give_to_pusher_stays e k i pkt Hk Hpkt) as Hst. unfold give_to_pusher, on_pusher in *. rewrite Hi in *.
  destruct (MediaPusher.HandleRtpPacket_ok (voice_agent_enable e) (now e) (fresh e) p pkt (proj1 Hl) Hpkt Hf Hfl He)
    as (p' & pkt' & cs & r & k1 & found & HR & Hp' & Hs' & Hcs & Hfor & Hres).
  pose proof (MediaPusher.HandleRtpPacket_named (voice_agent_enable e) (now e) (fresh e) p pkt) as Hnamed.
  rewrite HR in *. cbn [zoom fst handled calls snd] in *.
  set (q := MediaPusher.set_ids (MediaPusher.param_ p) pkt) in *.
  assert (Hq : MediaPusher.ssrc_of q = MediaPusher.ssrc_of pkt) by (unfold MediaPusher.ssrc_of, q; by rewrite MediaPusher.set_ids_view).
  assert (Hfound : found = Some (j, false) /\ k1 = p).
  { destruct Hfor as [i' E|i' E _|i' s E _ _ _ _|E _ _]; rewrite Hq, Hj in E; try discriminate. by injection E as ->. }
  destruct Hfound as [-> ->]. destruct Hres as (s & s' & ok & Hs & Hrec & Hstore & -> & Hdel & Hmedia).
  destruct (media_calls_pass cs (with_pusher k i p') Hcs) as (es & Hes & Hd).
  assert (Hex : voice_agent_enable e = false -> es = if ok then [to_room_of p pkt'] else []).
  { intros Hv. rewrite Hv in Hnamed. rewrite (delivering_calls p cs _ Hnamed Hcs Hdel) in Hes.
    destruct ok; cbn in Hes; by injection Hes as <-. }
  rewrite Hes in *.
  exists (with_pusher k i p'), es, ok, pkt'. split; [done|]. split; [exact (Hst I)|]. split; [done|].
  split; [by rewrite Hd|]. split; [done|]. split; [done|]. split; [done|]. split; [done|]. exists s, s'. by split.
Qed.

(** The packet a datagram holds, in the buffer it arrived in. *)
Lemma parsed_in_buffer now d data pkt :
  bytes d -> (1 <= length d <= length data)%nat -> bytes data -> RtpPacket.Parse now d (length d) = Ok pkt ->
  let q := RtpPacket.at_buffer now (splice 0 d data) pkt in
  RtpPacket.Parse now (splice 0 d data) (length d) = Ok q /\ RtpPacket.wf q /\
    RtpPacket.view_of q = RtpPacket.view_of pkt /\ RtpPacket.data_len q = length d.
Proof.
  intros Hb Hl Hdb HP q.
  assert (Hsp : RtpPacket.same_prefix (length d) d (splice 0 d data)).
  { intros i Hi. change (splice 0 d data) with (d ++ drop (length d) data). symmetry. by apply lookup_app_l. }
  pose proof (RtpPacket.Parse_prefix now now d (splice 0 d data) (length d) Hb ltac:(lia) Hsp) as E. rewrite HP in E. cbn [rmap rbind] in E.
  split; [exact E|].
  pose proof (RtpPacket.Parse_ok now d (length d) Hb ltac:(lia)) as Hw. rewrite HP in Hw. cbn [post] in Hw.
  pose proof (RtpPacket.Parse_frame now d (length d)) as Hf. rewrite HP in Hf. destruct Hf as (Hd & Hdl & _).
  split.
  - pose proof (RtpPacket.Parse_ok now (splice 0 d data) (length d) ltac:(by apply bytes_splice)
      ltac:(rewrite length_splice by lia; lia)) as Hw'. rewrite E in Hw'. exact Hw'.
  - split; [|done]. pose proof (RtpPacket.wf_split pkt Hw) as Hsplit. destruct Hw as [_ _ _ Hp _ _ _ _ _ _].
    apply (RtpPacket.view_prefix (length d) pkt (splice 0 d data)); rewrite ?Hd; try done; cbn [RtpPacket.at_buffer RtpPacket.payload]; lia.
Qed.

Lemma published_ok (e : env) (k : t) (sender sender' recv : SrtpSession.t) (d w : list Z) (data : buf)
    (pkt q' : RtpPacket.t) (i j : nat) (p : MediaPusher.t) :
  let recv' := (SrtpSession.DecryptRtp recv w).1 in
  let q := RtpPacket.at_buffer (now e) (splice 0 d data) pkt in
  wf k -> bytes (fresh e) -> length (fresh e) = 1500%nat -> (voice_agent_enable e = true -> (length d < 1500)%nat) ->
  uplink_discard_percent_ e <= 0 ->
  srtp_recv_session_ k = Some recv -> SrtpSession.paired sender recv ->
  SrtpSession.EncryptRtp sender d = (sender', Ok (Some w)) ->
  bytes data -> take (length w) data = w ->
  RtpPacket.Parse (now e) d (length d) = Ok pkt ->
  outcome (collect_feedback e (with_srtp k (srtp_send_session_ k) (Some recv')) q) = Ok q' ->
  StdMap.find (MediaPusher.ssrc_of pkt) (ssrc2media_pusher_ k) = Some i -> pushers k !! i = Some p ->
  StdMap.find (MediaPusher.ssrc_of pkt) (MediaPusher.ssrc2sessions_ p) = Some j ->
  exists k' fb es ok pkt', HandleRtpPacket e k data (length w) = (k', fb ++ es, Ok (if ok : bool then 0 else -1)) /\ wf k' /\
    srtp_recv_session_ k' = Some recv' /\ SrtpSession.paired sender' recv' /\
    Forall is_write fb /\ delivered es = (if ok then [pkt'] else []) /\
    (voice_agent_enable e = false -> es = if ok then [to_room_of p pkt'] else []) /\ RtpPacketEdits.sound pkt' /\
    (ok = true -> RtpPacketEdits.media (RtpPacket.view_of pkt') = RtpPacketEdits.media (RtpPacket.view_of pkt) /\
                  RtpPacketEdits.ext_edit q pkt') /\
    (room_id_ k' = room_id_ k /\ pullers k' = pullers k) /\
    exists s s', MediaPusher.store p !! j = Some s /\
      RtpRecvSession.ReceiveRtpPacket s (MediaPusher.set_ids (MediaPusher.param_ p) q') = (s', Ok ok).
Proof.
  intros recv' q Hk Hf Hfl Hv Hup Hr Hpair He Hb Hw HP Hfb Hi Hp Hj.
  destruct (SrtpSession.EncryptRtp_reaches _ _ _ _ _ Hpair He) as (recv1 & Hdec1 & Hpair').
  assert (Hdec : SrtpSession.DecryptRtp recv w = (recv', (true, d))) by (unfold recv'; by rewrite Hdec1).
  assert (recv1 = recv') as -> by (unfold recv'; by rewrite Hdec1). clearbody recv'. clear Hdec1.
  assert (Hbw : bytes w) by (rewrite <- Hw; by apply Forall_take).
  assert (Hlw : (length w <= length data)%nat) by (apply (f_equal length) in Hw; rewrite length_take in Hw; lia).
  pose proof (DecryptRtp_ok _ _ _ _ _ Hdec Hbw) as (E1 & E2 & Hld & Hbd & _).
  assert (Hne : (1 <= length d)%nat).
  { unfold SrtpSession.EncryptRtp, SrtpSession.ready in He. destruct (SrtpSession.srtp_session_ sender); [|done].
    destruct (Nat.eqb_spec (length d) 0); [done|lia]. }
  destruct (parsed_in_buffer (now e) d data pkt Hbd ltac:(lia) Hb HP) as (Hq & Hwq & Hview & Hqlen). fold q in Hq, Hwq, Hview, Hqlen. clearbody q.
  assert (Hk1 : wf (with_srtp k (srtp_send_session_ k) (Some recv'))).
  { apply wf_with_srtp; [done|apply Hk|]. eapply recv_directed; [exact E1|exact E2|]. rewrite <- Hr. apply Hk. }
  unfold HandleRtpPacket. rewrite Hr. unfold discarded. rewrite (proj2 (Z.ltb_ge _ _)) by done.
  rewrite Hw, Hdec. cbn [negb]. rewrite Hq. unfold dispatch_rtp.
  rewrite MediaPusher.GetSsrc_of, ebind_ok by (by apply RtpPacket.wf_header).
  set (k1 := with_srtp k _ _) in *.
  pose proof (collect_feedback_same e k1 q) as Hsame. pose proof (collect_feedback_stays e k1 q Hk1) as Hst.
  pose proof (collect_feedback_writes e k1 q) as Hfbw. pose proof (collect_feedback_packet e k1 q q' Hfb) as (a & b & c & Hq').
  unfold stays, outcome, final, calls in *. destruct (collect_feedback e k1 q) as [[k2 fb] r]. cbn [fst snd] in *. subst r.
  destruct (Hsame I) as (S1 & S2 & S3 & S4 & S5 & S6). specialize (Hst I). cbn [ebind].
  assert (Hss : MediaPusher.ssrc_of q = MediaPusher.ssrc_of pkt) by (unfold MediaPusher.ssrc_of; by rewrite Hview).
  assert (Hv' : RtpPacket.view_of q' = RtpPacket.view_of q) by (by rewrite Hq').
  rewrite S2, Hss. change (ssrc2media_pusher_ k1) with (ssrc2media_pusher_ k). rewrite Hi.
  destruct (give_to_pusher_media e k2 i p q' j Hst) as (k' & es & ok & pkt' & -> & Hk' & Hrk & Hdl & Hex & Hm & [Hroom Hpull] & Hsp & Hrec);
    [by rewrite S1|rewrite Hq'; by apply RtpPacketEdits.wf_with_ids|done|done| | |].
  { intros Hve. rewrite Hq'. cbn [RtpPacket.with_ids RtpPacket.data_len]. rewrite Hqlen. specialize (Hv Hve). lia. }
  { unfold MediaPusher.ssrc_of in *. by rewrite Hv', Hview. }
  cbn [ecatch]. exists k', fb, es, ok, pkt'. split; [done|]. split; [done|].
  split; [by rewrite Hrk, S4|]. do 5 (split; [done|]). split; [|split; [by rewrite Hroom, Hpull, S5, S6|done]].
  intros Hok. destruct (Hm Hok) as [-> Hed]. rewrite Hv', Hview. split; [done|]. rewrite Hq' in Hed. by apply RtpPacketEdits.ext_edit_ids in Hed.
Qed.

(** C8: from the publisher's encryption to the room.  The publisher protects the packet
    [d], and the datagram it gets arrives in the session's buffer, with whatever is behind
    it.  If [d] is RTP of a stream that an SSRC of the session's pusher was announced for,
    then the pusher's receiving session judges it once; if it accepts it, the room is
    given exactly one packet, with the media of [d], otherwise none; and publisher and
    session stay in step for the next packet.  The congestion feedback taken on the way
    only writes to the peer. *)
Theorem published_packet_reaches_room (e : env) (k : t) (sender sender' recv : SrtpSession.t) (d w : list Z) (data : buf)
    (pkt q' : RtpPacket.t) (i j : nat) (p : MediaPusher.t) :
  let recv' := (SrtpSession.DecryptRtp recv w).1 in
  let q := RtpPacket.at_buffer (now e) (splice 0 d data) pkt in
  wf k -> bytes (fresh e) -> length (fresh e) = 1500%nat -> (voice_agent_enable e = true -> (length d < 1500)%nat) ->
  uplink_discard_percent_ e <= 0 ->
  srtp_recv_session_ k = Some recv -> SrtpSession.paired sender recv ->
  SrtpSession.EncryptRtp sender d = (sender', Ok (Some w)) ->
  bytes data -> take (length w) data = w ->
  RtpPacket.Parse (now e) d (length d) = Ok pkt ->
  outcome (collect_feedback e (with_srtp k (srtp_send_session_ k) (Some recv')) q) = Ok q' ->
  StdMap.find (MediaPusher.ssrc_of pkt) (ssrc2media_pusher_ k) = Some i -> pushers k !! i = Some p ->
  StdMap.find (MediaPusher.ssrc_of pkt) (MediaPusher.ssrc2sessions_ p) = Some j ->
  exists k' es ok pkt', HandleRtpPacket e k data (length w) = (k', es, Ok (if ok : bool then 0 else -1)) /\ wf k' /\
    srtp_recv_session_ k' = Some recv' /\ SrtpSession.paired sender' recv' /\
    delivered es = (if ok then [pkt'] else []) /\
    (ok = true -> RtpPacketEdits.media (RtpPacket.view_of pkt') = RtpPacketEdits.media (RtpPacket.view_of pkt)) /\
    exists s s', MediaPusher.store p !! j = Some s /\
      RtpRecvSession.ReceiveRtpPacket s (MediaPusher.set_ids (MediaPusher.param_ p) q') = (s', Ok ok).
Proof.
  intros recv' q Hk Hf Hfl Hv Hup Hr Hpair He Hb Hw HP Hfb Hi Hp Hj.
  destruct (published_ok e k sender sender' recv d w data pkt q' i j p Hk Hf Hfl Hv Hup Hr Hpair He Hb Hw HP Hfb Hi Hp Hj)
    as (k' & fb & es & ok & pkt' & E & H1 & H2 & H3 & Hw' & H4 & _ & _ & H5 & _ & H6).
  exists k', (fb ++ es), ok, pkt'. do 4 (split; [done|]). split; [by rewrite delivered_app, (writes_deliver fb Hw')|].
  split; [|done]. intros Hok. by destruct (H5 Hok).
Qed.

(** ** Forged reports *)

(** C33: a datagram that is not authentic can corrupt the memory of the server.  If the
    first packet of what libsrtp refuses has the type of a receiver report and its header
    claims between 1504 bytes and the size of the socket's buffer, that many bytes are
    copied into the report's array of 1500. *)
Theorem forged_report_overflows (e : env) (k : t) (recv recv' : SrtpSession.t) (data : buf) (len : nat) :
  srtp_recv_session_ k = Some recv -> bytes data -> (4 <= len <= length data)%nat ->
  SrtpSession.DecryptRtcp recv (take len data) = (recv', (false, take len data)) ->
  cell data 1 = RTCP_TYPE_val RTCP_RR ->
  1500 < (ByteStream.net16 data 2 + 1) * 4 <= Z.of_nat (length data) ->
  HandleRtcpPacket e k data len = (with_srtp k (srtp_send_session_ k) (Some recv'), [], Undef OobWrite).
Proof.
  intros Hr Hb Hl Hd Hty Hn. unfold HandleRtcpPacket. rewrite Hr, Hd.
  rewrite length_take, Nat.min_l by lia. change (splice 0 (take len data) data) with (take len data ++ drop (length (take len data)) data).
  rewrite length_take, Nat.min_l, take_drop by lia. destruct len as [|len]; [lia|]. cbn [rtcp_loop].
  rewrite (proj2 (Z.leb_gt _ _)) by lia. set (k1 := with_srtp _ _ _).
  rewrite GetRtcpLength_eq, ebind_ok by (done || lia). change (0 + 2)%nat with 2%nat. set (n := (_ + 1) * 4) in *.
  assert (RtcpCommonHeader.packet_type data 0 = Ok (RTCP_TYPE_val RTCP_RR)) as ->.
  { unfold RtcpCommonHeader.packet_type. rewrite <- Hty. by apply rd8_cell; lia. }
  rewrite ebind_ok. unfold rtcp_item. cbn [RTCP_TYPE_val Z.eqb Pos.eqb]. unfold HandleRtcpRrPacket.
  assert (RtcpRrPacket.Parse data (Z.to_nat n) = Undef OobWrite) as ->; [|done].
  unfold RtcpRrPacket.Parse, RtcpRrPacket.from_header, RtcpCommonHeader.size.
  destruct (Nat.ltb_spec (Z.to_nat n) (4 + 4)); [lia|]. rewrite rd_bytes_ok by lia. cbn [rbind].
  assert (Hln : length (slice 0 (Z.to_nat n) data) = Z.to_nat n) by (apply length_slice; lia).
  rewrite wr_bytes_oob; [done|rewrite Hln; change (length zeros1500) with 1500%nat; lia|].
  intros E. rewrite E in Hln. cbn in Hln. lia.
Qed.

End Invariant.

(** * Examples *)

#[local] Existing Instance SrtpSession.toy_srtp.
#[local] Existing Instance SrtpSession.toy_srtp_laws.
#[local] Instance example_mac : EvpMac := StunMessage.StunMessage.toy_hmac.
#[local] Instance example_inet : Inet := StunMessage.StunMessage.toy_inet.

Definition sample_env : env := mk_env 5000 0 0 false (replicate 1500 0) (replicate 1500 0) (IpAddress.mk_sockaddr 0 0 0).
Definition sample_addr : UdpTuple := IceServer.mk_tuple [49; 46; 50; 46; 51; 46; 52] 4000.
Definition sample_suite : SrtpSession.SRtpSessionCryptoSuite := SrtpSession.AES_CM_128_HMAC_SHA1_80.

(** A publishing session: the pusher is added, a datagram has come, DTLS is connected. *)
Definition created : t := new_WebRtcSession SrtpSession.SRTP_SESSION_TYPE_RECV "room" "alice" "s1" (IceServer.mk [97] [98]) 1000 [].
Definition adding : event := AddPusher MediaPusher.sample_track "p1".
Definition arriving : event := Datagram sample_env [0] 1 sample_addr.
Definition connecting : event := DtlsConnected true sample_suite SrtpSession.sample_key SrtpSession.sample_key.
Definition sample : t :=
  final (happens (final (happens (final (happens created adding)) arriving)) connecting).

Lemma sample_reachable : reachable sample.
Proof.
  apply reach_step; [apply reach_step; [apply reach_step; [constructor| |]| |]| |]; try exact I; try (vm_compute; exact I).
  - split; [split; vm_compute; intuition discriminate|reflexivity].
  - split; [bytes_done|cbn; lia].
  - reflexivity.
Qed.
Lemma connected_sample_wf : wf sample.
Proof. pose proof sample_reachable as H. induction H as [|k ev _ IH He Hd]; [apply session_wf_new|]. exact (happens_stays k ev IH He Hd). Qed.

Definition sample_sender : SrtpSession.t :=
  SrtpSession.new_SRtpSession true SrtpSession.SRTP_SESSION_TYPE_SEND sample_suite SrtpSession.sample_key.
Definition sample_recv : SrtpSession.t :=
  SrtpSession.new_SRtpSession true SrtpSession.SRTP_SESSION_TYPE_RECV sample_suite SrtpSession.sample_key.
Lemma sample_paired : SrtpSession.paired sample_sender sample_recv.
Proof. split; [reflexivity|]. split; [reflexivity|]. do 2 eexists. split; [reflexivity|].
  split; [reflexivity|]. by apply (@synced_create SrtpSession.toy_srtp SrtpSession.toy_srtp_laws 30%nat 30%nat SrtpSession.sample_key 128%nat).
Qed.


(** A picture loss indication, as the peer protects it and as anybody can write it. *)
Definition sample_pli : list Z := RtcpPsPli.wire 1 7.
Definition protected_pli : list Z :=
  match (SrtpSession.EncryptRtcp sample_sender 1500 sample_pli).2 with Ok (Some w) => w | _ => [] end.

Lemma HandleRtcpPacket_inverted_witness :
  (exists recv', HandleRtcpPacket sample_env sample (protected_pli ++ [9; 9]) 14 =
     (with_srtp sample (srtp_send_session_ sample) (Some recv'), [], Ok (-1))) /\
  HandleRtcpPacket sample_env sample sample_pli 12 =
    (do* (k, _) := efor [sample_pli] (with_srtp sample (srtp_send_session_ sample) (Some sample_recv)) (handle_item sample_env) in eret k 0).
Proof.
  split.
  - destruct (HandleRtcpPacket_inverted sample_env sample sample_recv (protected_pli ++ [9; 9]) 14) as [H _];
      [reflexivity|bytes_done|apply Nat.leb_le; reflexivity|].
    destruct (H sample_sender (SrtpSession.EncryptRtcp sample_sender 1500 sample_pli).1 1500%nat sample_pli) as (recv' & _ & E);
      [apply sample_paired|vm_compute; reflexivity|]. by exists recv'.
  - destruct (HandleRtcpPacket_inverted sample_env sample sample_recv sample_pli 12) as [_ H]; [reflexivity|bytes_done|cbn; lia|].
    apply H; [vm_compute; reflexivity|]. constructor; [|constructor].
    split; [bytes_done|]. split; [apply Nat.leb_le; reflexivity|reflexivity].
Defined.

(** The datagram of the sample packet, protected, in a longer buffer. *)
Definition sample_rtp : list Z := take 31 RtpPacket.sample_bytes.
Definition protected_rtp : list Z :=
  match (SrtpSession.EncryptRtp sample_sender sample_rtp).2 with Ok (Some w) => w | _ => [] end.
Definition sample_pkt : RtpPacket.t := match RtpPacket.Parse 5000 sample_rtp 31 with Ok p => p | _ => RtpPacket.sample end.

Lemma published_packet_reaches_room_witness :
  exists k' es pkt', HandleRtpPacket sample_env sample (protected_rtp ++ [9; 9]) (length protected_rtp) = (k', es, Ok 0) /\
    delivered es = [pkt'] /\
    RtpPacketEdits.media (RtpPacket.view_of pkt') = RtpPacketEdits.media (RtpPacket.view_of sample_pkt).
Proof.
  pose proof connected_sample_wf as Hw.
  set (q := RtpPacket.at_buffer 5000 (splice 0 sample_rtp (protected_rtp ++ [9; 9])) sample_pkt).
  set (k1 := with_srtp sample (srtp_send_session_ sample) (Some (SrtpSession.DecryptRtp sample_recv protected_rtp).1)).
  destruct (outcome (collect_feedback sample_env k1 q)) as [q'|m|u] eqn:Eq; [|vm_compute in Eq; discriminate..].
  destruct (published_packet_reaches_room sample_env sample sample_sender (SrtpSession.EncryptRtp sample_sender sample_rtp).1
    sample_recv sample_rtp protected_rtp (protected_rtp ++ [9; 9]) sample_pkt q' 0 0
    (MediaPusher.CreateRtpRecvSession (MediaPusher.new_MediaPusher MediaPusher.sample_track "alice" "s1" "p1" true)))
    as (k' & es & ok & pkt' & H1 & _ & _ & _ & H2 & H3 & s & s' & Hs & Hrec);
    [exact Hw|bytes_done|reflexivity|discriminate|discriminate|reflexivity|apply sample_paired|vm_compute; reflexivity|
     bytes_done|vm_compute; reflexivity|vm_compute; reflexivity|exact Eq|vm_compute; reflexivity|vm_compute; reflexivity|
     vm_compute; reflexivity|].
  assert (ok = true) as ->.
  { injection Hs as <-. vm_compute in Eq. injection Eq as <-. vm_compute in Hrec. by injection Hrec. }
  exists k', es, pkt'. split; [exact H1|]. split; [exact H2|]. exact (H3 eq_refl).
Defined.

(** A receiver report that claims 1600 bytes. *)
Definition forged_report : buf := [129; 201; 1; 143] ++ replicate 1596 0.
Lemma forged_report_overflows_witness :
  outcome (HandleRtcpPacket sample_env sample forged_report 8) = Undef OobWrite.
Proof.
  rewrite (forged_report_overflows sample_env sample sample_recv sample_recv forged_report 8);
    [reflexivity|reflexivity|bytes_done|cbn; lia|vm_compute; reflexivity|reflexivity|vm_compute; intuition discriminate].
Defined.

End WebRtcSession.
