(* ===== verification/WebRtcServer.v ===== *)
(** [webrtc_room/webrtc_server.cpp] and [.hpp]: the UDP flow of the server.  A STUN packet
    finds its session by the user name in it and enters the sender's address; every other
    datagram finds its session by that address.  Sessions are shared pointers: the two maps
    hold places in [sessions], and a session that no map holds any longer is destroyed. *)
From stdpp Require Import gmap.
From S2P Require Import Prelude Effect ByteStream ByteCrypto IpAddress Stun IceServer StdMap.
From S2P Require Import SrtpSession MediaPusher MediaPuller WebRtcSession.

Module WebRtcServer.

Abbreviation UdpTuple := IceServer.UdpTuple.

(** The datagrams written, and what the sessions call on their rooms and on DTLS. *)
Inductive call :=
  | UdpWrite (data : list Z) (address : UdpTuple)
  | FromSession (i : nat) (c : WebRtcSession.call).

Section WebRtcServer.
Context {Ls : LibSrtp} {Ev : EvpMac} {In : Inet}.

(** [UdpTuple::to_u64]: the first eight bytes of the [sockaddr_in] that [uv_ip4_addr] makes,
    as the host loads them: the family, the port and the address in network order. *)
Definition to_u64 (a : UdpTuple) : Z :=
  le_val ([IpAddress.AF_INET; 0] ++ be_bytes 2 (IceServer.port a) ++
          default [0; 0; 0; 0] (inet_pton (IceServer.ip_address a))).

Record t := mk {
  sessions : list WebRtcSession.t;
  username2sessions_ : gmap (list Z) nat;
  addr2sessions_ : gmap Z nat
}.
Definition new_WebRtcServer : t := mk [] ∅ ∅.

Definition with_session (k : t) (i : nat) (s : WebRtcSession.t) : t :=
  mk (<[i := s]> (sessions k)) (username2sessions_ k) (addr2sessions_ k).

(** The server is the transport of its sessions: [OnWriteUdpData]. *)
Definition OnWriteUdpData (i : nat) (c : WebRtcSession.call) : call :=
  match c with WebRtcSession.WriteUdpData data address => UdpWrite data address | _ => FromSession i c end.

Definition on_session {A} (k : t) (i : nat) (f : WebRtcSession.t -> eff WebRtcSession.t WebRtcSession.call A) : eff t call A :=
  match sessions k !! i with
  | Some s => rename_calls (OnWriteUdpData i) (zoom (with_session k i) (f s))
  | None => pure k (Undef NullDeref)
  end.

(** ** The maps, and the end of a session *)

Definition held (k : t) (i : nat) : Prop :=
  map_Exists (fun _ j => j = i) (username2sessions_ k) \/ map_Exists (fun _ j => j = i) (addr2sessions_ k).
#[export] Instance held_dec k i : Decision (held k i) := _.

(** A pointer is overwritten or erased; with the last one goes the session: [~WebRtcSession]. *)
Definition dropped (k : t) (i : nat) : eff t call unit :=
  if decide (held k i) then eret k tt else on_session k i WebRtcSession.Close.
Definition overwritten (k : t) (old : option nat) : eff t call unit :=
  match old with Some j => dropped k j | None => eret k tt end.

Definition SetUserName2Session (k : t) (username : list Z) (i : nat) : eff t call unit :=
  overwritten (mk (sessions k) (<[username := i]> (username2sessions_ k)) (addr2sessions_ k)) (username2sessions_ k !! username).
Definition SetAddr2Session (k : t) (addr_u64 : Z) (i : nat) : eff t call unit :=
  overwritten (mk (sessions k) (username2sessions_ k) (<[addr_u64 := i]> (addr2sessions_ k))) (addr2sessions_ k !! addr_u64).

Definition erase_addr (k : t) (addr : Z) : eff t call unit :=
  match addr2sessions_ k !! addr with
  | None => eret k tt
  | Some i => dropped (mk (sessions k) (username2sessions_ k) (delete addr (addr2sessions_ k))) i
  end.
Definition erase_username (k : t) (ufrag : list Z) : eff t call unit :=
  match username2sessions_ k !! ufrag with
  | None => eret k tt
  | Some i => dropped (mk (sessions k) (delete ufrag (username2sessions_ k)) (addr2sessions_ k)) i
  end.

(** [ice_server_->GetIceUfrag()]. *)
Definition GetIceUfrag (s : WebRtcSession.t) : list Z := IceServer.ice_ufrag_ (WebRtcSession.ice_server_ s).

(** The addresses whose sessions pass a test, with the user names of these sessions. *)
Definition collected (k : t) (test : WebRtcSession.t -> bool) : list (Z * list Z) :=
  omap (fun e : Z * nat =>
    match sessions k !! e.2 with
    | Some s => if test s then Some (e.1, GetIceUfrag s) else None
    | None => None
    end) (map_to_list (addr2sessions_ k)).

Definition remove_collected (k : t) (l : list (Z * list Z)) : eff t call unit :=
  do* (k, _) := efor l.*1 k erase_addr in
  efor l.*2 k erase_username.

(** The maps are unordered: [map_to_list] is one of the orders they may be walked in. *)
Definition OnTimer (now_ms : Z) (k : t) : eff t call unit :=
  remove_collected k (collected k (fun s => negb (WebRtcSession.IsAlive s now_ms))).
Definition RemoveSessionByRoomId (room_id : string) (k : t) : eff t call unit :=
  remove_collected k (collected k (fun s => bool_decide (WebRtcSession.room_id_ s = room_id))).

(** ** Datagrams *)

Fixpoint until_colon (s : list Z) : list Z :=
  match s with [] => [] | c :: s' => if c =? 58 then [] else c :: until_colon s' end.
Definition GetKeyByUsername (username : list Z) : list Z := until_colon username.

Definition ignore {A} (m : eff t call A) : eff t call unit := do* (k, _) := m in eret k tt.

(** The packet is parsed from a copy; every exception ends in the log. *)
Definition HandleStunPacket (e : WebRtcSession.env) (k : t) (data : buf) (len : nat) (address : UdpTuple) : eff t call unit :=
  ecatch
    (do* (k, stun_pkt) := pure k (Stun.Parse (take len data) len) in
     match username2sessions_ k !! GetKeyByUsername (Stun.username_ stun_pkt) with
     | Some i =>
         do* (k, _) := SetAddr2Session k (to_u64 address) i in
         ignore (on_session k i (fun s => WebRtcSession.HandleStunPacket e s stun_pkt address))
     | None => eret k tt
     end)
    (fun k => eret k tt).

Definition HandleNoneStunPacket (e : WebRtcSession.env) (k : t) (data : buf) (len : nat) (address : UdpTuple) : eff t call unit :=
  match addr2sessions_ k !! to_u64 address with
  | None => eret k tt
  | Some i => ignore (on_session k i (fun s => WebRtcSession.HandleNoneStunPacket e s data len address))
  end.

Definition OnRead (e : WebRtcSession.env) (k : t) (data : buf) (len : nat) (address : UdpTuple) : eff t call unit :=
  do* (k, stun) := pure k (Stun.IsStun data len) in
  if stun : bool then HandleStunPacket e k data len address else HandleNoneStunPacket e k data len address.

End WebRtcServer.

(** * Removing sessions *)

Section Removal.
Context {Ls : LibSrtp} {LsL : LibSrtpLaws} {Ev : EvpMac} {In : Inet}.

(** Sessions are well-formed and the maps refer into the store. *)
Record wf (k : t) : Prop := {
  wf_sessions : Forall WebRtcSession.wf (sessions k);
  wf_by_name : map_Forall (fun _ i => i < length (sessions k))%nat (username2sessions_ k);
  wf_by_addr : map_Forall (fun _ i => i < length (sessions k))%nat (addr2sessions_ k)
}.

Lemma server_wf_new : wf new_WebRtcServer.
Proof. split; cbn; [constructor|apply map_Forall_empty..]. Qed.

(** What the destructor leaves of a session. *)
Definition ended (s : WebRtcSession.t) : WebRtcSession.t :=
  WebRtcSession.with_status s true (WebRtcSession.alive_ms_ s) (WebRtcSession.dtls_connected_ s) (WebRtcSession.dtls_session_ s).
Definition is_close (c : WebRtcSession.call) : Prop :=
  match c with WebRtcSession.PushClose _ | WebRtcSession.PullClose _ => True | _ => False end.
Definition only_closes (c : call) : Prop := exists i c', c = FromSession i c' /\ is_close c'.

(** [after k k']: the maps of [k'] hold less, the sessions they lost have ended, and
    nothing else happened to any session. *)
Definition after (k k' : t) : Prop :=
  (forall i, held k' i -> held k i) /\
  forall i, sessions k' !! i = (if decide (held k i /\ ~ held k' i) then ended else id) <$> sessions k !! i.

Lemma after_refl k : after k k.
Proof. split; [done|]. intros i. rewrite decide_False by tauto. by destruct (sessions k !! i). Qed.

Lemma after_trans k1 k2 k3 : after k1 k2 -> after k2 k3 -> after k1 k3.
Proof.
  intros [H1 S1] [H2 S2]. split; [auto|]. intros i. specialize (H1 i). specialize (H2 i).
  rewrite S2, S1. destruct (sessions k1 !! i) as [s|]; [|done]. cbn. by repeat case_decide; cbn; try done; exfalso; tauto.
Qed.

Lemma ended_wf s : WebRtcSession.wf s -> WebRtcSession.wf (ended s).
Proof. intros H. apply WebRtcSession.wf_with_status; [done|apply H]. Qed.

Lemma after_length k k' : after k k' -> length (sessions k') = length (sessions k).
Proof.
  intros [_ H]. apply Nat.le_antisymm; apply Nat.nlt_ge; intros Hl.
  - apply lookup_lt_is_Some_2 in Hl as [s Hs]. specialize (H (length (sessions k))).
    rewrite Hs, (proj2 (lookup_ge_None _ _)) in H by lia. done.
  - apply lookup_lt_is_Some_2 in Hl as [s Hs]. specialize (H (length (sessions k'))).
    rewrite Hs, (proj2 (lookup_ge_None _ _)) in H by lia. done.
Qed.

Lemma after_sessions_wf k k' : after k k' -> Forall WebRtcSession.wf (sessions k) -> Forall WebRtcSession.wf (sessions k').
Proof.
  intros [_ H] Hw. apply Forall_lookup. intros i s Hs. rewrite H in Hs. destruct (sessions k !! i) as [s0|] eqn:E; [|done].
  assert (Hs0 : WebRtcSession.wf s0) by (by eapply Forall_lookup_1). cbn in Hs. injection Hs as <-.
  case_decide; [by apply ended_wf|done].
Qed.

(** The end of a session: the room is told once, whatever it was doing. *)
Lemma push_closes l s :
  Forall (fun x : Z * nat => x.2 < length (WebRtcSession.pushers s))%nat l ->
  exists es, efor l s WebRtcSession.push_close = (s, es, Ok tt) /\ Forall is_close es.
Proof.
  induction 1 as [|x l Hx _ (es & IH & Hes)]; [by exists []|]. cbn [efor]. unfold WebRtcSession.push_close at 1.
  apply lookup_lt_is_Some_2 in Hx as [p ->]. cbn [emit ebind]. rewrite IH. eexists. split; [done|]. by constructor.
Qed.
Lemma pull_closes l s :
  Forall (fun x : Z * nat => x.2 < length (WebRtcSession.pullers s))%nat l ->
  exists es, efor l s WebRtcSession.pull_close = (s, es, Ok tt) /\ Forall is_close es.
Proof.
  induction 1 as [|x l Hx _ (es & IH & Hes)]; [by exists []|]. cbn [efor]. unfold WebRtcSession.pull_close at 1.
  apply lookup_lt_is_Some_2 in Hx as [q ->]. cbn [emit ebind]. rewrite IH. eexists. split; [done|]. by constructor.
Qed.
Lemma session_Close_ok s :
  WebRtcSession.wf s -> exists es, WebRtcSession.Close s = (ended s, es, Ok tt) /\ Forall is_close es.
Proof.
  intros Hs. unfold WebRtcSession.Close. destruct (WebRtcSession.closed_ s) eqn:Ec.
  { exists []. split; [|done]. unfold eret, ended. rewrite <- Ec. by destruct s. }
  cbn zeta. fold (ended s).
  change (WebRtcSession.ssrc2media_pusher_ (ended s)) with (WebRtcSession.ssrc2media_pusher_ s).
  destruct Hs as [_ _ [_ Hp] _ [_ Hq] _ _ _ _].
  destruct (push_closes _ (ended s) Hp) as (es1 & -> & H1). destruct (pull_closes _ (ended s) Hq) as (es2 & E2 & H2).
  cbn [ebind].
  change (WebRtcSession.ssrc2media_puller_ (ended s)) with (WebRtcSession.ssrc2media_puller_ s). rewrite E2. eexists. split; [done|]. by apply Forall_app.
Qed.

Lemma only_closes_map i es : Forall is_close es -> Forall only_closes (map (OnWriteUdpData i) es).
Proof.
  intros H. apply Forall_map. eapply Forall_impl; [exact H|]. intros c Hc. by destruct c; try done; exists i; eexists.
Qed.

(** One pointer less: [k1] has the maps without it, [i] is where it pointed. *)
Lemma dropped_ok k k1 i :
  Forall WebRtcSession.wf (sessions k) -> sessions k1 = sessions k -> (i < length (sessions k))%nat -> held k i ->
  (forall j, held k1 j -> held k j) -> (forall j, j <> i -> held k j -> held k1 j) ->
  exists k' es, dropped k1 i = (k', es, Ok tt) /\ after k k' /\ Forall only_closes es /\
    username2sessions_ k' = username2sessions_ k1 /\ addr2sessions_ k' = addr2sessions_ k1.
Proof.
  intros Hw Hs Hi Hh Hsub Hoth. unfold dropped. destruct (decide (held k1 i)) as [Hk|Hk].
  - exists k1, []. split; [done|]. split; [|done]. split; [done|]. intros j.
    rewrite decide_False, Hs; [by destruct (sessions k !! j)|].
    intros [Hj Hn]. destruct (decide (j = i)) as [->|]; [done|]. by apply Hn, Hoth.
  - apply lookup_lt_is_Some_2 in Hi as [s Es]. unfold on_session. rewrite Hs, Es.
    destruct (session_Close_ok s) as (es & -> & He); [by eapply Forall_lookup_1|]. cbn [zoom rename_calls].
    do 2 eexists. split; [done|]. split; [|split; [by apply only_closes_map|done]].
    split; [exact Hsub|]. intros j. cbn [with_session sessions]. rewrite Hs.
    assert (Hsame : forall n, held (with_session k1 i (ended s)) n <-> held k1 n) by done.
    destruct (decide (j = i)) as [->|Hne].
    + rewrite list_lookup_insert_eq by (by eapply lookup_lt_Some). rewrite Es, decide_True; [done|]. by rewrite Hsame.
    + rewrite list_lookup_insert_ne by done. rewrite decide_False; [by destruct (sessions k !! j)|].
      rewrite Hsame. intros [? Hn]. apply Hn. by apply Hoth.
Qed.

Lemma held_spec k i :
  held k i <-> (exists u, username2sessions_ k !! u = Some i) \/ (exists a, addr2sessions_ k !! a = Some i).
Proof.
  unfold held, map_Exists. split.
  - intros [(u & j & H & ->)|(a & j & H & ->)]; [left|right]; eauto.
  - intros [[u H]|[a H]]; [left|right]; eauto.
Qed.

(** One step, and a loop, of removal: entries go, and with them the sessions no longer held. *)
Definition removes (k : t) (m : eff t call unit) (names : list (list Z)) (addrs : list Z) : Prop :=
  exists k' es, m = (k', es, Ok tt) /\ wf k' /\ after k k' /\ Forall only_closes es /\
    (forall u, username2sessions_ k' !! u = if decide (u ∈ names) then None else username2sessions_ k !! u) /\
    (forall a, addr2sessions_ k' !! a = if decide (a ∈ addrs) then None else addr2sessions_ k !! a).

Lemma wf_removed k k' (names : list (list Z)) (addrs : list Z) :
  wf k -> after k k' ->
  (forall u, username2sessions_ k' !! u = if decide (u ∈ names) then None else username2sessions_ k !! u) ->
  (forall a, addr2sessions_ k' !! a = if decide (a ∈ addrs) then None else addr2sessions_ k !! a) -> wf k'.
Proof.
  intros [H1 H2 H3] Ha Hu Hd. split; [by eapply after_sessions_wf|..];
    rewrite (after_length _ _ Ha); intros x i Hx; [rewrite Hu in Hx; eapply H2|rewrite Hd in Hx; eapply H3]; by case_decide.
Qed.

Lemma removes_none k : wf k -> removes k (eret k tt) [] [].
Proof.
  intros Hk. exists k, []. split; [done|]. split; [done|]. split; [apply after_refl|]. split; [done|].
  split; intros; by rewrite decide_False by apply not_elem_of_nil.
Qed.

Lemma erase_addr_removes k a : wf k -> removes k (erase_addr k a) [] [a].
Proof.
  intros Hk. unfold erase_addr. destruct (addr2sessions_ k !! a) as [i|] eqn:Ei.
  - set (k1 := mk _ _ _).
    assert (Hl : forall x, addr2sessions_ k1 !! x = if decide (x ∈ [a]) then None else addr2sessions_ k !! x).
    { intros x. cbn. destruct (decide (x = a)) as [->|Hx].
      - rewrite lookup_delete_eq, decide_True by (by apply list_elem_of_singleton). done.
      - rewrite lookup_delete_ne, decide_False by (done || by rewrite list_elem_of_singleton). done. }
    destruct (dropped_ok k k1 i) as (k' & es & -> & Ha & He & Hu & Hd); [apply Hk|done| | | | |].
    + exact (wf_by_addr k Hk a i Ei).
    + apply held_spec. right. by exists a.
    + intros j [Hj|[x Hx]]%held_spec; apply held_spec; [by left|]. right. rewrite Hl in Hx. exists x. by case_decide.
    + intros j Hne [Hj|[x Hx]]%held_spec; apply held_spec; [by left|]. right. exists x. rewrite Hl, decide_False; [done|].
      intros ->%list_elem_of_singleton. congruence.
    + assert (Hu' : forall u, username2sessions_ k' !! u = if decide (u ∈ @nil (list Z)) then None else username2sessions_ k !! u)
        by (intros; by rewrite decide_False, Hu by apply not_elem_of_nil).
      assert (Hd' : forall x, addr2sessions_ k' !! x = if decide (x ∈ [a]) then None else addr2sessions_ k !! x) by (intros; by rewrite Hd).
      exists k', es. split; [done|]. split; [by eapply wf_removed|done].
  - destruct (removes_none k Hk) as (k' & es & [= <- <-] & H1 & H2 & H3 & H4 & _). do 2 eexists. split; [done|].
    split; [done|]. split; [done|]. split; [done|]. split; [done|]. intros x. case_decide as Hx; [|done].
    by apply list_elem_of_singleton in Hx as ->.
Qed.

Lemma erase_username_removes k u : wf k -> removes k (erase_username k u) [u] [].
Proof.
  intros Hk. unfold erase_username. destruct (username2sessions_ k !! u) as [i|] eqn:Ei.
  - set (k1 := mk _ _ _).
    assert (Hl : forall x, username2sessions_ k1 !! x = if decide (x ∈ [u]) then None else username2sessions_ k !! x).
    { intros x. cbn. destruct (decide (x = u)) as [->|Hx].
      - rewrite lookup_delete_eq, decide_True by (by apply list_elem_of_singleton). done.
      - rewrite lookup_delete_ne, decide_False by (done || by rewrite list_elem_of_singleton). done. }
    destruct (dropped_ok k k1 i) as (k' & es & -> & Ha & He & Hu & Hd); [apply Hk|done| | | | |].
    + exact (wf_by_name k Hk u i Ei).
    + apply held_spec. left. by exists u.
    + intros j [[x Hx]|Hj]%held_spec; apply held_spec; [|by right]. left. rewrite Hl in Hx. exists x. by case_decide.
    + intros j Hne [[x Hx]|Hj]%held_spec; apply held_spec; [|by right]. left. exists x. rewrite Hl, decide_False; [done|].
      intros ->%list_elem_of_singleton. congruence.
    + assert (Hd' : forall a, addr2sessions_ k' !! a = if decide (a ∈ @nil Z) then None else addr2sessions_ k !! a)
        by (intros; by rewrite decide_False, Hd by apply not_elem_of_nil).
      assert (Hu' : forall x, username2sessions_ k' !! x = if decide (x ∈ [u]) then None else username2sessions_ k !! x) by (intros; by rewrite Hu).
      exists k', es. split; [done|]. split; [by eapply wf_removed|done].
  - destruct (removes_none k Hk) as (k' & es & [= <- <-] & H1 & H2 & H3 & _ & H5). do 2 eexists. split; [done|].
    split; [done|]. split; [done|]. split; [done|]. split; [|done]. intros x. case_decide as Hx; [|done].
    by apply list_elem_of_singleton in Hx as ->.
Qed.

(** One removal after another. *)
Lemma removes_bind k (m : eff t call unit) (f : t -> unit -> eff t call unit) n1 a1 n2 a2 :
  removes k m n1 a1 -> (forall k', wf k' -> removes k' (f k' tt) n2 a2) -> removes k (ebind m f) (n1 ++ n2) (a1 ++ a2).
Proof.
  intros (k1 & es1 & -> & W1 & A1 & C1 & U1 & D1) Hf. destruct (Hf k1 W1) as (k2 & es2 & E2 & W2 & A2 & C2 & U2 & D2).
  exists k2, (es1 ++ es2). cbn. rewrite E2. split; [done|]. split; [done|]. split; [by eapply after_trans|].
  split; [by apply Forall_app|]. split; intros x; [rewrite U2, U1|rewrite D2, D1]; repeat case_decide; set_solver.
Qed.

Lemma erase_addrs_remove l k : wf k -> removes k (efor l k erase_addr) [] l.
Proof.
  revert k. induction l as [|a l IH]; intros k Hk; cbn [efor]; [by apply removes_none|].
  exact (removes_bind k _ _ [] [a] [] l (erase_addr_removes k a Hk) (fun k' Hk' => IH k' Hk')).
Qed.
Lemma erase_usernames_remove l k : wf k -> removes k (efor l k erase_username) l [].
Proof.
  revert k. induction l as [|u l IH]; intros k Hk; cbn [efor]; [by apply removes_none|].
  exact (removes_bind k _ _ [u] [] l [] (erase_username_removes k u Hk) (fun k' Hk' => IH k' Hk')).
Qed.

Lemma remove_collected_removes k l : wf k -> removes k (remove_collected k l) l.*2 l.*1.
Proof.
  intros Hk. unfold remove_collected. rewrite <- (app_nil_r l.*1) at 2.
  exact (removes_bind k _ _ [] l.*1 l.*2 [] (erase_addrs_remove l.*1 k Hk) (fun k' Hk' => erase_usernames_remove l.*2 k' Hk')).
Qed.

Lemma elem_of_collected k test a u :
  (a, u) ∈ collected k test <->
  exists i s, addr2sessions_ k !! a = Some i /\ sessions k !! i = Some s /\ test s = true /\ u = GetIceUfrag s.
Proof.
  unfold collected. rewrite list_elem_of_omap. split.
  - intros ([a' i] & Hin & E). apply elem_of_map_to_list in Hin. cbn in E.
    destruct (sessions k !! i) as [s|] eqn:Es; [|done]. destruct (test s) eqn:Et; [|done].
    injection E as <- <-. by exists i, s.
  - intros (i & s & Ha & Hs & Ht & ->). exists (a, i). split; [by apply elem_of_map_to_list|]. cbn. by rewrite Hs, Ht.
Qed.

(** The entries that a removal by [test] takes out of the two maps. *)
Definition addr_goes (k : t) (test : WebRtcSession.t -> bool) (a : Z) : Prop :=
  exists i s, addr2sessions_ k !! a = Some i /\ sessions k !! i = Some s /\ test s = true.
Definition name_goes (k : t) (test : WebRtcSession.t -> bool) (u : list Z) : Prop :=
  exists a i s, addr2sessions_ k !! a = Some i /\ sessions k !! i = Some s /\ test s = true /\ u = GetIceUfrag s.

Lemma collected_addrs k test a : a ∈ (collected k test).*1 <-> addr_goes k test a.
Proof.
  rewrite list_elem_of_fmap. split.
  - intros ([a' u] & -> & (i & s & H)%elem_of_collected). exists i, s. tauto.
  - intros (i & s & ? & ? & ?). exists (a, GetIceUfrag s). split; [done|]. apply elem_of_collected. by exists i, s.
Qed.
Lemma collected_names k test u : u ∈ (collected k test).*2 <-> name_goes k test u.
Proof.
  rewrite list_elem_of_fmap. split.
  - intros ([a u'] & -> & (i & s & H)%elem_of_collected). by exists a, i, s.
  - intros (a & i & s & ? & ? & ? & ->). exists (a, GetIceUfrag s). split; [done|]. apply elem_of_collected. by exists i, s.
Qed.

(** What a removal does, entry by entry. *)
Lemma removal_ok k test :
  wf k ->
  exists k' es, remove_collected k (collected k test) = (k', es, Ok tt) /\ wf k' /\ after k k' /\ Forall only_closes es /\
    (forall u i, username2sessions_ k' !! u = Some i <-> username2sessions_ k !! u = Some i /\ ~ name_goes k test u) /\
    (forall a i, addr2sessions_ k' !! a = Some i <->
       addr2sessions_ k !! a = Some i /\ forall s, sessions k !! i = Some s -> test s = false).
Proof.
  intros Hk. destruct (remove_collected_removes k (collected k test) Hk) as (k' & es & -> & W & A & C & U & D).
  exists k', es. split; [done|]. split; [done|]. split; [done|]. split; [done|]. split.
  - intros u i. rewrite U. case_decide as Hu; rewrite collected_names in Hu; [split; [done|tauto]|tauto].
  - intros a i. rewrite D. case_decide as Ha; rewrite collected_addrs in Ha.
    + split; [done|]. intros [Hi Hs]. destruct Ha as (j & s & Hj & Es & Et).
      assert (i = j) as -> by congruence. by rewrite (Hs s Es) in Et.
    + split; [|tauto]. intros Hi. split; [done|]. intros s Es. destruct (test s) eqn:Et; [|done].
      exfalso. apply Ha. by exists i, s.
Qed.

(** A session keeps its name and its room as long as it is in the store. *)
Lemma after_ended k k' i s' :
  after k k' -> sessions k' !! i = Some s' ->
  exists s, sessions k !! i = Some s /\ GetIceUfrag s' = GetIceUfrag s /\ WebRtcSession.alive_ms_ s' = WebRtcSession.alive_ms_ s.
Proof.
  intros [_ H] Hs. rewrite H in Hs. destruct (sessions k !! i) as [s|]; [|done]. cbn in Hs. injection Hs as <-.
  exists s. split; [done|]. by case_decide.
Qed.

(** the sweep of the server's timer.  After it, exactly the addresses whose session
    has been heard of in the last 35 seconds are left; a user name goes with the session of
    some swept address that bears it; sessions that neither map holds any longer are ended,
    all others are as they were; and the only calls are notices to rooms about what the
    ended sessions published and subscribed. *)
Theorem OnTimer_sweeps (now_ms : Z) (k : t) :
  wf k ->
  exists k' es, OnTimer now_ms k = (k', es, Ok tt) /\ wf k' /\
    (forall a i, addr2sessions_ k' !! a = Some i <->
       addr2sessions_ k !! a = Some i /\
       forall s, sessions k !! i = Some s -> now_ms - WebRtcSession.alive_ms_ s <= 35000) /\
    (forall u i, username2sessions_ k' !! u = Some i <->
       username2sessions_ k !! u = Some i /\
       ~ exists a j s, addr2sessions_ k !! a = Some j /\ sessions k !! j = Some s /\
           35000 < now_ms - WebRtcSession.alive_ms_ s /\ u = GetIceUfrag s) /\
    (forall i, sessions k' !! i = (if decide (held k i /\ ~ held k' i) then ended else id) <$> sessions k !! i) /\
    Forall only_closes es.
Proof.
  intros Hk. destruct (removal_ok k (fun s => negb (WebRtcSession.IsAlive s now_ms)) Hk) as (k' & es & E & W & A & C & U & D).
  exists k', es. split; [exact E|]. split; [done|].
  assert (Ht : forall s, negb (WebRtcSession.IsAlive s now_ms) = false <-> now_ms - WebRtcSession.alive_ms_ s <= 35000)
    by (intros s; unfold WebRtcSession.IsAlive; rewrite negb_false_iff, Z.leb_le; lia).
  split; [|split; [|split; [apply A|done]]].
  - intros a i. rewrite D. by setoid_rewrite Ht.
  - intros u i. rewrite U. unfold name_goes. split; intros [Hu Hn]; (split; [done|]); intros (a & j & s & Ha & Hs & Hx & ->);
      apply Hn; exists a, j, s; (split; [done|]); (split; [done|]); split; try done.
    + destruct (negb _) eqn:Et; [done|]. apply Ht in Et. lia.
    + apply Z.nle_gt. intros Hle. apply Ht in Hle. congruence.
Qed.

(** The two occasions on which sessions are removed. *)
Inductive sweep := Tick (now_ms : Z) | RoomGone (room_id : string).
Definition swept (k : t) (x : sweep) : eff t call unit :=
  match x with Tick now_ms => OnTimer now_ms k | RoomGone room_id => RemoveSessionByRoomId room_id k end.

(** No address leads to a session with this user name. *)
Definition unaddressed (k : t) (u : list Z) : Prop :=
  forall a i s, addr2sessions_ k !! a = Some i -> sessions k !! i = Some s -> GetIceUfrag s <> u.

(** C34: a session whose peer never sends a STUN packet is never removed.  However often
    the timer fires, at whatever times, and even when its room is removed, its user name
    still leads to it, and it has not been ended: it goes on holding its room. *)
Theorem unaddressed_session_stays (k : t) (u : list Z) (i : nat) (s : WebRtcSession.t) (l : list sweep) :
  wf k -> unaddressed k u -> username2sessions_ k !! u = Some i -> sessions k !! i = Some s ->
  exists k' es, efor l k swept = (k', es, Ok tt) /\ unaddressed k' u /\
    username2sessions_ k' !! u = Some i /\ sessions k' !! i = Some s.
Proof.
  revert k. induction l as [|x l IH]; intros k Hk Hu Hi Hs; cbn [efor]; [by exists k, []|].
  assert (exists test, swept k x = remove_collected k (collected k test)) as [test ->] by (by destruct x; eexists).
  destruct (removal_ok k test Hk) as (k' & es & -> & W & A & _ & U & D).
  assert (Hi' : username2sessions_ k' !! u = Some i).
  { apply U. split; [done|]. intros (a & j & s0 & Ha & Hj & _ & ->). by eapply Hu. }
  assert (Hheld : held k' i) by (apply held_spec; left; by exists u).
  destruct (IH k') as (k2 & es2 & E2 & H2); [done| |done| |].
  - intros a j s1 Ha Hj E. destruct (after_ended _ _ _ _ A Hj) as (s0 & Hs0 & Hf & _). apply D in Ha as [Ha _].
    apply (Hu a j s0); [done|done|congruence].
  - destruct A as [_ A]. rewrite A, Hs, decide_False; [done|tauto].
  - exists k2, (es ++ es2). cbn [ebind]. by rewrite E2.
Qed.

End Removal.

(** * Routing *)

Section Routing.
Context {Ls : LibSrtp} {LsL : LibSrtpLaws} {Ev : EvpMac} {In : Inet} {InL : InetLaws}.

(** Two addresses with different IP or port have different keys. *)
Definition proper (a : UdpTuple) : Prop :=
  0 <= IceServer.port a < 65536 /\ is_Some (inet_pton (IceServer.ip_address a)).
Definition same_address (a b : UdpTuple) : Prop :=
  IceServer.port a = IceServer.port b /\ inet_pton (IceServer.ip_address a) = inet_pton (IceServer.ip_address b).

Lemma to_u64_inj a b : proper a -> proper b -> to_u64 a = to_u64 b -> same_address a b.
Proof.
  intros [Ha [x Hx]] [Hb [y Hy]]. unfold to_u64, same_address. rewrite Hx, Hy. cbn [default id].
  destruct (pton_address _ _ Hx) as [Bx Lx]. destruct (pton_address _ _ Hy) as [By Ly]. intros E.
  assert (E' : [IpAddress.AF_INET; 0] ++ be_bytes 2 (IceServer.port a) ++ x = [IpAddress.AF_INET; 0] ++ be_bytes 2 (IceServer.port b) ++ y).
  { rewrite <- (le_bytes_le_val ([IpAddress.AF_INET; 0] ++ be_bytes 2 (IceServer.port a) ++ x)), E.
    - rewrite !length_app, !length_be_bytes, Lx, <- Ly, <- (length_be_bytes 2 (IceServer.port b)), <- !length_app.
      apply le_bytes_le_val. apply Forall_app. split; [bytes_done|]. apply Forall_app. split; [apply bytes_be_bytes|done].
    - apply Forall_app. split; [bytes_done|]. apply Forall_app. split; [apply bytes_be_bytes|done]. }
  apply app_inj_1 in E' as [_ E']; [|done]. apply app_inj_1 in E' as [Ep ->]; [|by rewrite !length_be_bytes].
  split; [|done]. apply (f_equal be_val) in Ep. rewrite !be_val_be_bytes in Ep. rewrite !Z.mod_small in Ep by lia. done.
Qed.

(** The sender's address is entered; the session that had it may end. *)
Lemma SetAddr2Session_ok k a i :
  wf k -> (i < length (sessions k))%nat ->
  exists k' es, SetAddr2Session k a i = (k', es, Ok tt) /\ wf k' /\ Forall only_closes es /\
    username2sessions_ k' = username2sessions_ k /\ addr2sessions_ k' = <[a := i]> (addr2sessions_ k) /\
    (forall j, held k' j -> sessions k' !! j = sessions k !! j).
Proof.
  intros Hk Hi. unfold SetAddr2Session. set (k1 := mk _ _ _).
  assert (Hk1 : wf k1).
  { destruct Hk as [H1 H2 H3]. split; [done..|]. by apply map_Forall_insert_2. }
  destruct (addr2sessions_ k !! a) as [j|] eqn:Ej; cbn [overwritten]; [|by exists k1, []].
  unfold dropped. destruct (decide (held k1 j)) as [Hh|Hh]; [by exists k1, []|].
  destruct (lookup_lt_is_Some_2 (sessions k) j) as [s Es]; [exact (wf_by_addr k Hk a j Ej)|].
  unfold on_session. change (sessions k1) with (sessions k). rewrite Es.
  assert (Hs : WebRtcSession.wf s) by (eapply Forall_lookup_1; [apply Hk|exact Es]).
  destruct (session_Close_ok s Hs) as (es & -> & He).
  cbn [zoom rename_calls]. exists (with_session k1 j (ended s)), (map (OnWriteUdpData j) es). split; [done|]. split.
  - destruct Hk1 as [H1 H2 H3]. split; cbn; rewrite ?length_insert; try done. apply Forall_insert; [done|by apply ended_wf].
  - split; [by apply only_closes_map|]. split; [done|]. split; [done|]. intros m Hm. cbn.
    apply list_lookup_insert_ne. intros ->. by apply Hh.
Qed.

Definition stun_of (data : buf) (len : nat) (q : Stun.t) : Prop :=
  Stun.IsStun data len = Ok true /\ Stun.Parse (take len data) len = Ok q.

(** C11: a STUN packet binds its sender to a session.  If the part of its user name before
    the colon is that of a session, this session gets the packet and whatever it sends
    leaves through the socket; from then on every other datagram from this address and
    port is the session's, those of every other address go where they went before, and all
    user names lead where they led. *)
Theorem stun_binds_address (e : WebRtcSession.env) (k : t) (data : buf) (len : nat) (q : Stun.t) (addr : UdpTuple)
    (i : nat) (s : WebRtcSession.t) :
  wf k -> stun_of data len q -> username2sessions_ k !! GetKeyByUsername (Stun.username_ q) = Some i -> sessions k !! i = Some s ->
  let m := WebRtcSession.HandleStunPacket e s q addr in
  defined (outcome m) ->
  exists k' es, OnRead e k data len addr = (k', es ++ map (OnWriteUdpData i) (calls m), Ok tt) /\ wf k' /\ Forall only_closes es /\
    sessions k' !! i = Some (final m) /\ username2sessions_ k' = username2sessions_ k /\
    (forall e' data' len', Stun.IsStun data' len' = Ok false ->
       OnRead e' k' data' len' addr = ignore (on_session k' i (fun s => WebRtcSession.HandleNoneStunPacket e' s data' len' addr))) /\
    (forall b, proper addr -> proper b -> ~ same_address addr b ->
       addr2sessions_ k' !! to_u64 b = addr2sessions_ k !! to_u64 b).
Proof.
  intros Hk [Hst HP] Hu Hs m Hd. unfold OnRead at 1. rewrite Hst, ebind_ok. unfold HandleStunPacket.
  rewrite HP, ebind_ok, Hu. destruct (SetAddr2Session_ok k (to_u64 addr) i Hk) as (k1 & es & -> & W1 & C1 & U1 & D1 & S1);
    [by eapply lookup_lt_Some|].
  assert (Hs1 : sessions k1 !! i = Some s).
  { rewrite S1; [done|]. apply held_spec. left. rewrite U1. eauto. }
  assert (Hws : WebRtcSession.wf s) by (eapply Forall_lookup_1; [apply Hk|exact Hs]).
  pose proof (WebRtcSession.HandleStunPacket_stays e s q addr Hws Hd) as Hwf. fold m in Hwf.
  cbn [ebind]. unfold on_session at 1. rewrite Hs1. fold m.
  destruct m as [[s' cs] r]. cbn [zoom rename_calls final calls outcome fst snd] in *.
  assert (W2 : wf (with_session k1 i s')).
  { destruct W1 as [H1 H2 H3]. split; cbn; rewrite ?length_insert; try done. by apply Forall_insert. }
  exists (with_session k1 i s'), es. split.
  { destruct r as [z|msg|un]; cbn in *; rewrite ?app_nil_r; done. }
  split; [done|]. split; [done|]. split; [cbn; apply list_lookup_insert_eq; by eapply lookup_lt_Some|].
  split; [done|]. split.
  - intros e' data' len' Hn. unfold OnRead. rewrite Hn, ebind_ok. unfold HandleNoneStunPacket. cbn [with_session addr2sessions_].
    rewrite D1, lookup_insert_eq. done.
  - intros b Ha Hb Hne. cbn. rewrite D1, lookup_insert_ne; [done|]. intros E. by apply Hne, to_u64_inj.
Qed.

End Routing.

(** * Examples *)

#[local] Existing Instance SrtpSession.toy_srtp.
#[local] Existing Instance SrtpSession.toy_srtp_laws.
#[local] Instance example_mac : EvpMac := StunMessage.StunMessage.toy_hmac.
#[local] Instance example_inet : Inet := StunMessage.StunMessage.toy_inet.
#[local] Instance example_inet_laws : InetLaws := StunMessage.StunMessage.toy_inet_laws.

(** Alice's peer has not sent a packet yet; Bob's has, from [bob_addr]. *)
Definition alice_session : WebRtcSession.t :=
  WebRtcSession.with_status
    (WebRtcSession.new_WebRtcSession SrtpSession.SRTP_SESSION_TYPE_RECV "room" "alice" "s0" IceServer.server 1000 [])
    false 1000 false true.
Definition bob_session : WebRtcSession.t :=
  WebRtcSession.new_WebRtcSession SrtpSession.SRTP_SESSION_TYPE_SEND "room" "bob" "s1" (IceServer.mk [120] [121]) 1000 [].
Definition bob_addr : UdpTuple := IceServer.mk_tuple [10; 0; 0; 9] 4000.
Definition sample : t :=
  mk [alice_session; bob_session] {[ [97; 98] := 0%nat; [120] := 1%nat ]} {[ to_u64 bob_addr := 1%nat ]}.

Lemma sample_address a i : addr2sessions_ sample !! a = Some i -> i = 1%nat.
Proof. change (addr2sessions_ sample) with ({[ to_u64 bob_addr := 1%nat ]} : gmap Z nat). by intros [_ <-]%lookup_singleton_Some. Qed.

Lemma server_sample_wf : wf sample.
Proof.
  split; cbn [sample sessions username2sessions_ addr2sessions_ length].
  - apply Forall_cons. split; [apply WebRtcSession.wf_with_status; [apply WebRtcSession.session_wf_new|done]|].
    apply Forall_singleton, WebRtcSession.session_wf_new.
  - apply map_Forall_insert_2; [lia|]. apply map_Forall_singleton. lia.
  - apply map_Forall_singleton. lia.
Qed.

(** A minute later Bob is gone and Alice is not. *)
Lemma OnTimer_sweeps_witness :
  exists k' es, OnTimer 61000 sample = (k', es, Ok tt) /\ addr2sessions_ k' !! to_u64 bob_addr = None /\
    username2sessions_ k' !! [120] = None /\ username2sessions_ k' !! [97; 98] = Some 0%nat.
Proof.
  destruct (OnTimer_sweeps 61000 sample server_sample_wf) as (k' & es & E & _ & D & U & _).
  exists k', es. split; [exact E|]. split; [|split].
  - destruct (addr2sessions_ k' !! to_u64 bob_addr) as [i|] eqn:Ei; [|reflexivity]. exfalso. apply D in Ei as [Ei Hs].
    vm_compute in Ei. injection Ei as <-. specialize (Hs bob_session eq_refl). cbn in Hs. lia.
  - destruct (username2sessions_ k' !! [120]) as [i|] eqn:Ei; [|reflexivity]. exfalso. apply U in Ei as [_ Hn].
    apply Hn. exists (to_u64 bob_addr), 1%nat, bob_session.
    split; [vm_compute; reflexivity|]. split; [reflexivity|]. split; [cbn; lia|reflexivity].
  - apply U. split; [vm_compute; reflexivity|]. intros (a & j & s & Ha & Hs & _ & E').
    apply sample_address in Ha as ->. change (Some bob_session = Some s) in Hs.
    apply (inj Some) in Hs as <-. discriminate E'.
Defined.

Lemma sample_unaddressed : unaddressed sample [97; 98].
Proof.
  intros a i s Ha Hs. apply sample_address in Ha as ->. change (Some bob_session = Some s) in Hs.
  apply (inj Some) in Hs as <-. discriminate.
Qed.
Lemma unaddressed_session_stays_witness :
  exists k' es, efor [Tick 61000; RoomGone "room"; Tick 3600000] sample swept = (k', es, Ok tt) /\
    username2sessions_ k' !! [97; 98] = Some 0%nat /\ sessions k' !! 0%nat = Some alice_session.
Proof.
  destruct (unaddressed_session_stays sample [97; 98] 0 alice_session [Tick 61000; RoomGone "room"; Tick 3600000])
    as (k' & es & E & _ & H); [apply server_sample_wf|apply sample_unaddressed|vm_compute; reflexivity|reflexivity|].
  exists k', es. split; [exact E|exact H].
Defined.

Definition alice_addr : UdpTuple := IceServer.mk_tuple [10; 0; 0; 7] 5000.
Lemma stun_binds_address_witness :
  exists k' es, OnRead WebRtcSession.sample_env sample StunMessage.StunMessage.request_msg
      (length StunMessage.StunMessage.request_msg) alice_addr = (k', es, Ok tt) /\
    addr2sessions_ k' !! to_u64 bob_addr = Some 1%nat /\
    OnRead WebRtcSession.sample_env k' [20; 0] 2 alice_addr =
      ignore (on_session k' 0 (fun s => WebRtcSession.HandleNoneStunPacket WebRtcSession.sample_env s [20; 0] 2 alice_addr)).
Proof.
  edestruct (stun_binds_address WebRtcSession.sample_env sample StunMessage.StunMessage.request_msg
    (length StunMessage.StunMessage.request_msg) IceServer.parsed_request alice_addr 0 alice_session)
    as (k' & es & E & _ & _ & _ & _ & Hown & Hother);
    [apply server_sample_wf|split; vm_compute; reflexivity|vm_compute; reflexivity|reflexivity|vm_compute; exact I|].
  do 2 eexists. split; [exact E|]. split.
  - rewrite (Hother bob_addr); [vm_compute; reflexivity|split; [cbn; lia|vm_compute; by eexists]..|]. intros [E' _]. cbn in E'. lia.
  - apply Hown. reflexivity.
Defined.

End WebRtcServer.
