(* ===== verification/Room.v ===== *)
(** [webrtc_room/rtc_user.cpp] and [webrtc_room/room.cpp]: who is in a room, what the others
    and the pilot centre are told, and which streams, subscribers and relays belong to whom.
    Maps are [std::map]s with string keys, walked in the order of the keys.  Publishers
    and subscribers live in their WebRTC sessions; the room holds references to them.  The
    relays are the room's own.  The voice agent is off. *)
From stdpp Require Import sets relations.
From S2P Require Import Prelude Effect RtpPub IceServer StdMap StrMap RtpPacket RtpPacketEdits RtpSession RtpSendSession RtpRecvSession.
From S2P Require Import RtcInfo MediaPusher RtcRelay.

Import RtpPub RtcInfo.

(** * Users *)

Module RtcUser.

(** [resp_cb_] is the connection the user is reached on, [None] the null pointer. *)
Record t := mk {
  user_id_ : string; user_name_ : string;
  audience_ : bool; is_remote_ : bool; is_whip_ : bool;
  resp_cb_ : option nat;
  last_heartbeat_ms_ : Z;
  pushers_ : list (string * PushInfo)
}.

Definition new_RtcUser (user_id user_name : string) (audience : bool) (resp_cb : option nat) (now : Z) : t :=
  mk user_id user_name audience false false resp_cb now [].

Definition SetRemote (u : t) (b : bool) : t :=
  mk (user_id_ u) (user_name_ u) (audience_ u) b (is_whip_ u) (resp_cb_ u) (last_heartbeat_ms_ u) (pushers_ u).
Definition SetWhip (u : t) (b : bool) : t :=
  mk (user_id_ u) (user_name_ u) (audience_ u) (is_remote_ u) b (resp_cb_ u) (last_heartbeat_ms_ u) (pushers_ u).
Definition SetAudience (u : t) (b : bool) : t :=
  mk (user_id_ u) (user_name_ u) b (is_remote_ u) (is_whip_ u) (resp_cb_ u) (last_heartbeat_ms_ u) (pushers_ u).
Definition SetRespCb (u : t) (cb : option nat) : t :=
  mk (user_id_ u) (user_name_ u) (audience_ u) (is_remote_ u) (is_whip_ u) cb (last_heartbeat_ms_ u) (pushers_ u).
Definition UpdateHeartbeat (now : Z) (u : t) : t :=
  mk (user_id_ u) (user_name_ u) (audience_ u) (is_remote_ u) (is_whip_ u) (resp_cb_ u) now (pushers_ u).
Definition AddPusher (u : t) (pusher_id : string) (push_info : PushInfo) : t :=
  mk (user_id_ u) (user_name_ u) (audience_ u) (is_remote_ u) (is_whip_ u) (resp_cb_ u) (last_heartbeat_ms_ u)
     (StrMap.set pusher_id push_info (pushers_ u)).
Definition GetPusher (u : t) (pusher_id : string) : option PushInfo := StrMap.find pusher_id (pushers_ u).

Definition HEARTBEAT_TIMEOUT_MS : Z := 45 * 1000.
Definition DISCONNECT_TIMEOUT_MS : Z := 20 * 1000.
Definition IsAlive (now : Z) (u : t) : bool :=
  let timeout_ms := match resp_cb_ u with
                    | None => HEARTBEAT_TIMEOUT_MS + DISCONNECT_TIMEOUT_MS
                    | Some _ => HEARTBEAT_TIMEOUT_MS
                    end in
  now - last_heartbeat_ms_ u <=? timeout_ms.

End RtcUser.

(** * Rooms *)

Module Room.

(** A [shared_ptr<MediaPusher>]: which publisher of which session, its user and its id. *)
Record Pusher := mk_pusher {
  ps_session : nat; ps_index : nat; ps_user_id : string; ps_pusher_id : string
}.
(** A [shared_ptr<MediaPuller>]. *)
Record Puller := mk_puller {
  pl_session : nat; pl_index : nat; pl_user_id : string; pl_puller_id : string; pl_pusher_id : string
}.

(** The relays are in [recv_relays] and [send_relays], shared between the maps that hold
    their places. *)
Record t := mk {
  room_id_ : string; pilot_client_ : bool; last_alive_ms_ : Z; closed_ : bool;
  users_ : list (string * RtcUser.t);
  pusherId2pusher_ : list (string * Pusher);
  pusher2pullers_ : list (string * list (string * Puller));
  recv_relays : list RtcRecvRelay.t;
  pusherId2recvRelay_ : list (string * nat); pusher_user_id2recvRelay_ : list (string * nat);
  send_relays : list RtcSendRelay.t; pusher_user_id2sendRelay_ : list (string * nat)
}.

Definition new_Room (room_id : string) (pilot_client : bool) (now : Z) : t :=
  mk room_id pilot_client now false [] [] [] [] [] [] [] [].

Definition with_alive (k : t) (now : Z) : t :=
  mk (room_id_ k) (pilot_client_ k) now (closed_ k) (users_ k) (pusherId2pusher_ k) (pusher2pullers_ k) (recv_relays k)
     (pusherId2recvRelay_ k) (pusher_user_id2recvRelay_ k) (send_relays k) (pusher_user_id2sendRelay_ k).
Definition with_users (k : t) (m : list (string * RtcUser.t)) : t :=
  mk (room_id_ k) (pilot_client_ k) (last_alive_ms_ k) (closed_ k) m (pusherId2pusher_ k) (pusher2pullers_ k) (recv_relays k)
     (pusherId2recvRelay_ k) (pusher_user_id2recvRelay_ k) (send_relays k) (pusher_user_id2sendRelay_ k).
Definition with_streams (k : t) (ps : list (string * Pusher)) (pl : list (string * list (string * Puller))) : t :=
  mk (room_id_ k) (pilot_client_ k) (last_alive_ms_ k) (closed_ k) (users_ k) ps pl (recv_relays k)
     (pusherId2recvRelay_ k) (pusher_user_id2recvRelay_ k) (send_relays k) (pusher_user_id2sendRelay_ k).
Definition with_recv (k : t) (l : list RtcRecvRelay.t) (by_id by_user : list (string * nat)) : t :=
  mk (room_id_ k) (pilot_client_ k) (last_alive_ms_ k) (closed_ k) (users_ k) (pusherId2pusher_ k) (pusher2pullers_ k) l
     by_id by_user (send_relays k) (pusher_user_id2sendRelay_ k).
Definition with_send (k : t) (l : list RtcSendRelay.t) (by_user : list (string * nat)) : t :=
  mk (room_id_ k) (pilot_client_ k) (last_alive_ms_ k) (closed_ k) (users_ k) (pusherId2pusher_ k) (pusher2pullers_ k)
     (recv_relays k) (pusherId2recvRelay_ k) (pusher_user_id2recvRelay_ k) l by_user.

(** What a room does outside: messages to its users and to the pilot centre, packets lent to
    subscribers, key frames asked of publishers, datagrams of its relays. *)
Inductive call :=
  | Notification (cb : nat) (method : string) (data : Json.t)
  | OnProtooResponse (cb : nat) (id code : Z) (err_msg : string) (data : Json.t)
  | AsyncRequest (method : string) (data : Json.t)
  | AsyncNotification (method : string) (data : Json.t)
  | PullerSend (puller : Puller) (rtp_pkt : RtpPacket.t)
  | RequestKeyFrame (pusher : Pusher) (ssrc : Z)
  | UdpWrite (data : list Z) (address : IceServer.UdpTuple).

(** ** Helpers *)

(** [json::object()] and assignments to its keys. *)
Definition obj (l : list (string * Json.t)) : Json.t :=
  Json.Obj (foldl (fun m e => StrMap.set e.1 e.2 m) [] l).
Definition push_json (info : PushInfo) : Json.t := Json.Obj (DumpJson info []).
Definition pushers_json (u : RtcUser.t) : Json.t :=
  Json.Arr (map (fun e : string * PushInfo => push_json e.2) (RtcUser.pushers_ u)).

(** [users_\[user_id\] = user], and a change to the user that is there. *)
Definition set_user (k : t) (user_id : string) (u : RtcUser.t) : t := with_users k (StrMap.set user_id u (users_ k)).
Definition on_user (k : t) (user_id : string) (f : RtcUser.t -> RtcUser.t) : t :=
  match StrMap.find user_id (users_ k) with Some u => set_user k user_id (f u) | None => k end.

(** The connections of the selected users that have one, in the order of the user ids. *)
Definition connections (sel : string * RtcUser.t -> bool) (users : list (string * RtcUser.t)) : list nat :=
  omap (fun e => if sel e then RtcUser.resp_cb_ e.2 else None) users.
Definition notify (sel : string * RtcUser.t -> bool) (method : string) (data : Json.t) (k : t) : eff t call unit :=
  emit k (map (fun cb => Notification cb method data) (connections sel (users_ k))).
(** The local users but one. *)
Definition others (user_id : string) (e : string * RtcUser.t) : bool :=
  negb (String.eqb e.1 user_id) && negb (RtcUser.is_remote_ e.2).

Definition GetUserType (k : t) (user_id : string) : RTC_USER_TYPE :=
  match StrMap.find user_id (users_ k) with
  | None => UNKNOWN_USER_TYPE
  | Some u => if RtcUser.is_remote_ u then REMOTE_RTC_USER else LOCAL_RTC_USER
  end.
Definition ROOM_TIMEOUT_MS : Z := 90 * 1000.
Definition IsAlive (now : Z) (k : t) : bool := now - last_alive_ms_ k <? ROOM_TIMEOUT_MS.
Definition Close (k : t) : t :=
  mk (room_id_ k) (pilot_client_ k) (last_alive_ms_ k) true (users_ k) (pusherId2pusher_ k) (pusher2pullers_ k) (recv_relays k)
     (pusherId2recvRelay_ k) (pusher_user_id2recvRelay_ k) (send_relays k) (pusher_user_id2sendRelay_ k).

(** ** To the pilot centre *)

Definition to_pilot (now : Z) (c : call) (k : t) : eff t call unit :=
  if negb (pilot_client_ k) then eret k tt else emit (with_alive k now) [c].
Definition user_json (k : t) (user_id : string) : Json.t :=
  obj [("roomId", Json.Str (room_id_ k)); ("userId", Json.Str user_id)].
Definition Join2PilotCenter (now : Z) (u : RtcUser.t) (k : t) : eff t call unit :=
  to_pilot now (AsyncRequest "join" (obj [("roomId", Json.Str (room_id_ k)); ("userId", Json.Str (RtcUser.user_id_ u));
    ("userName", Json.Str (RtcUser.user_name_ u)); ("audience", Json.Bool (RtcUser.audience_ u))])) k.
Definition UserLeave2PilotCenter (now : Z) (user_id : string) (k : t) : eff t call unit :=
  to_pilot now (AsyncNotification "userLeave" (user_json k user_id)) k.
Definition UserDisconnect2PilotCenter (now : Z) (user_id : string) (k : t) : eff t call unit :=
  to_pilot now (AsyncNotification "userDisconnect" (user_json k user_id)) k.
Definition NewPusher2PilotCenter (now : Z) (pusher_user_id : string) (push_infos : list PushInfo) (k : t) : eff t call unit :=
  if negb (pilot_client_ k) then eret k tt else
  let k := with_alive k now in
  match StrMap.find pusher_user_id (users_ k) with
  | None => eret k tt
  | Some u =>
      emit k [AsyncNotification "push" (obj [("roomId", Json.Str (room_id_ k)); ("userId", Json.Str pusher_user_id);
        ("userName", Json.Str (RtcUser.user_name_ u)); ("publishers", Json.Arr (map push_json push_infos))])]
  end.
Definition NotifyTextMessage2PilotCenter (now : Z) (from_user_id from_user_name message : string) (k : t) : eff t call unit :=
  to_pilot now (AsyncNotification "textMessage" (obj [("userId", Json.Str from_user_id); ("userName", Json.Str from_user_name);
    ("message", Json.Str message); ("roomId", Json.Str (room_id_ k))])) k.

(** ** To the users *)

Definition NotifyNewUser (now : Z) (user_id user_name : string) (k : t) : eff t call unit :=
  match StrMap.find user_id (users_ k) with
  | None => eret k tt
  | Some new_user =>
      let k := with_alive k now in
      notify (others user_id) "newUser" (Json.Arr [obj [("userId", Json.Str user_id); ("userName", Json.Str user_name);
        ("pushers", pushers_json new_user)]]) k
  end.
Definition NotifyNewPusher (now : Z) (pusher_user_id pusher_user_name : string) (push_infos : list PushInfo) (k : t)
    : eff t call unit :=
  let k := with_alive k now in
  notify (others pusher_user_id) "newPusher" (obj [("userId", Json.Str pusher_user_id);
    ("userName", Json.Str pusher_user_name); ("roomId", Json.Str (room_id_ k)); ("pushers", Json.Arr (map push_json push_infos))]) k.
Definition NotifyTextMessage2LocalUsers (from_user_id from_user_name message : string) (k : t) : eff t call unit :=
  notify (fun e => negb (String.eqb (RtcUser.user_id_ e.2) from_user_id)) "textMessage"
    (obj [("userId", Json.Str from_user_id); ("userName", Json.Str from_user_name); ("message", Json.Str message);
          ("roomId", Json.Str (room_id_ k))]) k.

(** ** Joining and leaving *)

(** What a join is answered with: the other users and what they publish. *)
Definition member_json (u : RtcUser.t) : Json.t :=
  obj [("userId", Json.Str (RtcUser.user_id_ u)); ("userName", Json.Str (RtcUser.user_name_ u)); ("pushers", pushers_json u)].
Definition join_json (users : list RtcUser.t) : Json.t :=
  obj [("code", Json.Int 0); ("message", Json.Str "join success"); ("users", Json.Arr (map member_json users))].
Definition besides (user_id : string) (users : list (string * RtcUser.t)) : list RtcUser.t :=
  (filter (fun e : string * RtcUser.t => e.1 <> user_id) users).*2.

(** The connection of the new request only gets the answer. *)
Definition ReConnect (new_user : RtcUser.t) (id : Z) (resp_cb : nat) (k : t) : eff t call Z :=
  let user_id := RtcUser.user_id_ new_user in
  let data := obj [("userId", Json.Str user_id); ("userName", Json.Str (RtcUser.user_name_ new_user)); ("roomId", Json.Str (room_id_ k))] in
  do* (k, _) := notify (fun e => negb (String.eqb (RtcUser.user_id_ e.2) user_id) && negb (RtcUser.is_remote_ e.2))
                  "userReConnect" data k in
  do* (k, _) := (if pilot_client_ k then
                   emit k [AsyncNotification "userReConnect" (obj [("roomId", Json.Str (room_id_ k)); ("userId", Json.Str user_id);
                     ("userName", Json.Str (RtcUser.user_name_ new_user))])]
                 else eret k tt) in
  do* (k, _) := emit k [OnProtooResponse resp_cb id 0 EmptyString (join_json (besides user_id (users_ k)))] in
  eret k 0.

Definition UserJoin (now : Z) (user_id user_name : string) (audience : bool) (id : Z) (resp_cb : nat) (k : t) : eff t call Z :=
  if closed_ k then eret k (-1) else
  let k := with_alive k now in
  match StrMap.find user_id (users_ k) with
  | Some new_user =>
      let new_user := RtcUser.SetAudience new_user audience in
      ReConnect new_user id resp_cb (set_user k user_id new_user)
  | None =>
      let new_user := RtcUser.new_RtcUser user_id user_name audience (Some resp_cb) now in
      let k := set_user k user_id new_user in
      let user_list := filter (fun u => RtcUser.audience_ u = false) (besides user_id (users_ k)) in
      do* (k, _) := Join2PilotCenter now new_user k in
      do* (k, _) := emit k [OnProtooResponse resp_cb id 0 EmptyString (join_json user_list)] in
      do* (k, _) := (if negb audience then NotifyNewUser now user_id user_name k else eret k tt) in
      eret k 0
  end.

Definition WhipUserJoin (now : Z) (user_id user_name : string) (k : t) : eff t call Z :=
  if closed_ k then eret k (-1) else
  let k := with_alive k now in
  let new_user := match StrMap.find user_id (users_ k) with
                  | Some u => RtcUser.SetWhip u true
                  | None => RtcUser.SetWhip (RtcUser.new_RtcUser user_id user_name false None now) true
                  end in
  let k := set_user k user_id new_user in
  do* (k, _) := Join2PilotCenter now new_user k in
  do* (k, _) := NotifyNewUser now user_id user_name k in
  eret k 0.

Definition UserLeave (now : Z) (user_id : string) (k : t) : eff t call Z :=
  match StrMap.find user_id (users_ k) with
  | None => eret k (-1)
  | Some u =>
      let k := set_user k user_id (RtcUser.SetRespCb u None) in
      do* (k, _) := notify (others user_id) "userLeave"
                      (obj [("userId", Json.Str user_id); ("roomId", Json.Str (room_id_ k))]) k in
      do* (k, _) := UserLeave2PilotCenter now user_id k in
      eret k 0
  end.

Definition DisconnectUser (now : Z) (user_id : string) (k : t) : eff t call Z :=
  match StrMap.find user_id (users_ k) with
  | None => eret k (-1)
  | Some u =>
      let k := set_user k user_id (RtcUser.SetRespCb u None) in
      do* (k, _) := notify (others user_id) "userDisconnect"
                      (obj [("userId", Json.Str user_id); ("roomId", Json.Str (room_id_ k))]) k in
      do* (k, _) := UserDisconnect2PilotCenter now user_id k in
      eret k 0
  end.

Definition HandleWsHeartbeat (now : Z) (user_id : string) (k : t) : t * Z :=
  let k := with_alive k now in
  match StrMap.find user_id (users_ k) with
  | None => (k, -1)
  | Some u => (set_user k user_id (RtcUser.UpdateHeartbeat now u), 0)
  end.

(** The keys of the entries of a map that satisfy [p], and the map without them. *)
Definition erase_all {V} (keys : list string) (m : list (string * V)) : list (string * V) :=
  foldl (fun m x => StrMap.erase x m) m keys.
Definition keys_of {V} (p : V -> bool) (m : list (string * V)) : list string :=
  (filter (fun e : string * V => p e.2 = true) m).*1.

Definition ReleaseUserResources (now : Z) (user_id : string) (k : t) : eff t call unit :=
  do* (k, _) := ecatch (UserLeave now user_id k) (fun k => eret k 0) in
  match StrMap.find user_id (users_ k) with
  | None => eret k tt
  | Some _ =>
      let k := with_users k (StrMap.erase user_id (users_ k)) in
      let rm_pusher_ids := keys_of (fun p => String.eqb (ps_user_id p) user_id) (pusherId2pusher_ k) in
      let k := with_streams k (erase_all rm_pusher_ids (pusherId2pusher_ k)) (pusher2pullers_ k) in
      let k := with_send k (send_relays k) (StrMap.erase user_id (pusher_user_id2sendRelay_ k)) in
      let without := map (fun e : string * list (string * Puller) =>
        (e.1, filter (fun q : string * Puller => pl_user_id q.2 <> user_id) e.2)) (pusher2pullers_ k) in
      eret (with_streams k (pusherId2pusher_ k) (StrMap.erase user_id without)) tt
  end.

(** Places in the store of relays are never out of range. *)
Definition relay_dead (now : Z) (k : t) (i : nat) : bool :=
  match recv_relays k !! i with Some r => negb (RtcRecvRelay.IsAlive r now) | None => false end.
Definition relay_user (k : t) (i : nat) : string :=
  match recv_relays k !! i with Some r => RtcRecvRelay.pusher_user_id_ r | None => EmptyString end.

Definition timed_out (now : Z) (u : RtcUser.t) : bool := negb (RtcUser.is_remote_ u) && negb (RtcUser.IsAlive now u).

Definition OnTimer (now : Z) (k : t) : eff t call unit :=
  let k := match users_ k with [] => k | _ => with_alive k now end in
  do* (k, _) := efor (keys_of (timed_out now) (users_ k)) k (fun k user_id => ReleaseUserResources now user_id k) in
  let dead := filter (fun e : string * nat => relay_dead now k e.2 = true) (pusherId2recvRelay_ k) in
  eret (with_recv k (recv_relays k) (erase_all dead.*1 (pusherId2recvRelay_ k))
          (erase_all (map (fun e => relay_user k e.2) dead) (pusher_user_id2recvRelay_ k))) tt.

(** ** From the pilot centre *)

Definition get_str (j : Json.t) (key : string) : res string := let! v := Json.at_key j key in Json.get_string v.
Definition const_get_str (j : Json.t) (key : string) : res string := let! v := Json.const_at_key j key in Json.get_string v.

(** The tracks of one user, entered one by one; the loop is left where reading one throws. *)
Fixpoint add_pushers (user_id : string) (l : list Json.t) (k : t) (infos : list PushInfo) : eff t call (list PushInfo) :=
  match l with
  | [] => eret k infos
  | pusher_json :: l' =>
      do* (k, r) := pure k (read_PushInfo pusher_json) in
      match r with
      | None => add_pushers user_id l' k infos
      | Some info =>
          add_pushers user_id l' (on_user k user_id (fun u => RtcUser.AddPusher u (pusher_id_ info) info)) (infos ++ [info])
      end
  end.

Definition remote_user (user_id user_name : string) (now : Z) : RtcUser.t :=
  RtcUser.SetRemote (RtcUser.new_RtcUser user_id user_name false None now) true.

Definition join_one (now : Z) (k : t) (user_json : Json.t) : eff t call unit :=
  do* (k, user_id) := pure k (const_get_str user_json "userId") in
  do* (k, user_name) := pure k (const_get_str user_json "userName") in
  match StrMap.find user_id (users_ k) with
  | Some _ => eret k tt
  | None =>
      let k := set_user k user_id (remote_user user_id user_name now) in
      do* (k, pushers_json) := pure k (Json.const_at_key user_json "pushers") in
      do* (k, _) := (if negb (Json.is_empty pushers_json) && Json.is_array pushers_json
                     then add_pushers user_id (Json.elements pushers_json) k [] else eret k []) in
      NotifyNewUser now user_id user_name k
  end.
Definition JoinResponseFromPilotCenter (now : Z) (resp_json : Json.t) (k : t) : eff t call unit :=
  ecatch
    (do* (k, roomId) := pure k (get_str resp_json "roomId") in
     do* (k, users_json) := pure k (Json.at_key resp_json "users") in
     if negb (String.eqb roomId (room_id_ k)) then eret k tt else
     if negb (Json.is_array users_json) then eret k tt else
     efor (Json.elements users_json) k (join_one now))
    (fun k => eret k tt).
Definition OnAsyncRequestResponse (now : Z) (method : string) (resp_json : Json.t) (k : t) : eff t call unit :=
  ecatch (if String.eqb method "join" then JoinResponseFromPilotCenter now resp_json k else eret k tt) (fun k => eret k tt).

Definition HandleNewUserNotificationFromCenter (now : Z) (data_json : Json.t) (k : t) : eff t call unit :=
  let k := with_alive k now in
  ecatch
    (do* (k, user_id) := pure k (get_str data_json "userId") in
     do* (k, user_name) := pure k (get_str data_json "userName") in
     match StrMap.find user_id (users_ k) with
     | Some _ => eret k tt
     | None => NotifyNewUser now user_id user_name (set_user k user_id (remote_user user_id user_name now))
     end)
    (fun k => eret k tt).

Definition HandleNewPusherNotificationFromCenter (now : Z) (data_json : Json.t) (k : t) : eff t call unit :=
  let k := with_alive k now in
  ecatch
    (do* (k, user_id) := pure k (get_str data_json "userId") in
     match StrMap.find user_id (users_ k) with
     | None => eret k tt
     | Some u =>
         let k := set_user k user_id (RtcUser.SetRemote u true) in
         do* (k, pushers_json) := pure k (Json.at_key data_json "pushers") in
         do* (k, push_infos) := add_pushers user_id (Json.elements pushers_json) k [] in
         notify (fun e => negb (String.eqb e.1 user_id)) "newPusher"
           (obj [("pushers", Json.Arr (map push_json push_infos)); ("userId", Json.Str user_id);
                 ("userName", Json.Str (RtcUser.user_name_ u)); ("roomId", Json.Str (room_id_ k))]) k
     end)
    (fun k => eret k tt).

Definition HandleUserDisconnectNotificationFromCenter (data_json : Json.t) (k : t) : eff t call unit :=
  ecatch
    (do* (k, user_id) := pure k (get_str data_json "userId") in
     match StrMap.find user_id (users_ k) with
     | None => eret k tt
     | Some u =>
         if negb (RtcUser.is_remote_ u) then eret k tt else
         notify (fun _ => true) "userDisconnect" (obj [("userId", Json.Str user_id); ("roomId", Json.Str (room_id_ k))]) k
     end)
    (fun k => eret k tt).
Definition HandleUserLeaveNotificationFromCenter (data_json : Json.t) (k : t) : eff t call unit :=
  ecatch
    (do* (k, user_id) := pure k (get_str data_json "userId") in
     match StrMap.find user_id (users_ k) with
     | None => eret k tt
     | Some u =>
         if negb (RtcUser.is_remote_ u) then eret k tt else
         notify (fun e => negb (String.eqb (RtcUser.user_id_ e.2) user_id) && negb (RtcUser.is_remote_ e.2)) "userLeave"
           (obj [("userId", Json.Str user_id); ("roomId", Json.Str (room_id_ k))]) k
     end)
    (fun k => eret k tt).
Definition HandleNotifyTextMessageFromCenter (data_json : Json.t) (k : t) : eff t call unit :=
  ecatch
    (do* (k, from_user_id) := pure k (get_str data_json "userId") in
     do* (k, from_user_name) := pure k (get_str data_json "userName") in
     do* (k, message) := pure k (get_str data_json "message") in
     NotifyTextMessage2LocalUsers from_user_id from_user_name message k)
    (fun k => eret k tt).

(** ** Media *)

(** What is around a call: [now_millisec()], a fresh allocation and uninitialised memory, the
    relay's configuration, the port [GeneratePort] returns, and [GetRandomUint]. *)
Record env := mk_env {
  now : Z; fresh : buf; uninit : buf;
  relay_server_ip_ : string; recv_discard_percent_ : Z; send_discard_percent_ : Z;
  port : Z; random : list Z
}.

(** A copy of the packet is lent to each subscriber; what the subscriber's transport throws
    is caught. *)
Definition lend (e : env) (rtp_packet : RtpPacket.t) (k : t) (q : string * Puller) : eff t call unit :=
  do* (k, cpy_pkt) := pure k (RtpPacket.Clone (now e) (fresh e) rtp_packet None) in
  do* (k, _) := emit k [PullerSend q.2 cpy_pkt] in
  eret (on_user k (pl_user_id q.2) (RtcUser.UpdateHeartbeat (now e))) tt.
Definition pullers_of (k : t) (pusher_id : string) : list (string * Puller) :=
  default [] (StrMap.find pusher_id (pusher2pullers_ k)).

(** Of its relay's calls the sending side only makes this one while it sends. *)
Definition relay_write (k : t) (c : relay_call) : eff t call unit :=
  match c with RtcRelay.UdpWrite data address => emit k [UdpWrite data address] | _ => eret k tt end.
Definition on_send_relay {A} (k : t) (i : nat) (f : RtcSendRelay.t -> eff RtcSendRelay.t relay_call A) : eff t relay_call A :=
  match send_relays k !! i with
  | None => pure k (Undef NullDeref)
  | Some r => zoom (fun r => with_send k (<[i := r]> (send_relays k)) (pusher_user_id2sendRelay_ k)) (f r)
  end.
Definition on_recv_relay {A} (k : t) (i : nat) (f : RtcRecvRelay.t -> eff RtcRecvRelay.t relay_call A) : eff t relay_call A :=
  match recv_relays k !! i with
  | None => pure k (Undef NullDeref)
  | Some r => zoom (fun r => with_recv k (<[i := r]> (recv_relays k)) (pusherId2recvRelay_ k) (pusher_user_id2recvRelay_ k)) (f r)
  end.

Definition OnRtpPacketFromRtcPusher (e : env) (user_id pusher_id : string) (rtp_packet : RtpPacket.t) (k : t) : eff t call unit :=
  let k := on_user (with_alive k (now e)) user_id (RtcUser.UpdateHeartbeat (now e)) in
  do* (k, _) := efor (pullers_of k pusher_id) k (lend e rtp_packet) in
  match StrMap.find user_id (pusher_user_id2sendRelay_ k) with
  | None => eret k tt
  | Some i =>
      do* (k, cpy_pkt) := pure k (RtpPacket.Clone (now e) (fresh e) rtp_packet None) in
      ecatch (handled relay_write (on_send_relay k i (fun r => RtcSendRelay.SendRtpPacket (now e) (fresh e) r cpy_pkt)))
             (fun k => eret k tt)
  end.

Definition OnRtpPacketFromRemoteRtcPusher (e : env) (pusher_user_id pusher_id : string) (rtp_packet : RtpPacket.t) (k : t)
    : eff t call unit :=
  let k := on_user (with_alive k (now e)) pusher_user_id (RtcUser.UpdateHeartbeat (now e)) in
  efor (pullers_of k pusher_id) k (lend e rtp_packet).

Definition OnPushClose (pusher_id : string) (k : t) : t :=
  with_streams k (StrMap.erase pusher_id (pusherId2pusher_ k)) (pusher2pullers_ k).
(** The first publisher that has the subscriber loses it. *)
Fixpoint close_puller (puller_id : string) (m : list (string * list (string * Puller))) : list (string * list (string * Puller)) :=
  match m with
  | [] => []
  | (p, pullers) :: m' =>
      match StrMap.find puller_id pullers with
      | Some _ => (p, StrMap.erase puller_id pullers) :: m'
      | None => (p, pullers) :: close_puller puller_id m'
      end
  end.
Definition OnPullClose (puller_id : string) (k : t) : t :=
  with_streams k (pusherId2pusher_ k) (close_puller puller_id (pusher2pullers_ k)).

(** The user is not checked before it is used. *)
Definition OnKeyFrameRequest (e : env) (pusher_id pusher_user_id : string) (ssrc : Z) (k : t) : eff t call unit :=
  match StrMap.find pusher_user_id (users_ k) with
  | None => pure k (Undef NullDeref)
  | Some user =>
      if RtcUser.is_remote_ user then
        match StrMap.find pusher_user_id (pusher_user_id2recvRelay_ k) with
        | Some i => handled relay_write (on_recv_relay k i (fun r => RtcRecvRelay.RequestKeyFrame r ssrc))
        | None => eret k tt
        end
      else
        match StrMap.find pusher_id (pusherId2pusher_ k) with
        | Some p => emit k [RequestKeyFrame p ssrc]
        | None => eret k tt
        end
  end.

(** What a relay calls when something arrives or is due. *)
Definition from_relay (e : env) (k : t) (c : relay_call) : eff t call unit :=
  match c with
  | RtcRelay.UdpWrite data address => emit k [UdpWrite data address]
  | RtcRelay.OnKeyFrameRequest pusher_id puller_user_id pusher_user_id ssrc => OnKeyFrameRequest e pusher_id pusher_user_id ssrc k
  | RtcRelay.OnRtpPacketFromRemoteRtcPusher pusher_user_id pusher_id rtp_packet =>
      OnRtpPacketFromRemoteRtcPusher e pusher_user_id pusher_id rtp_packet k
  end.
Definition RecvRelayRead (e : env) (i : nat) (data : buf) (len : nat) (address : IceServer.UdpTuple) (k : t) : eff t call unit :=
  handled (from_relay e) (on_recv_relay k i (fun r => RtcRecvRelay.OnRead (now e) (uninit e) r data len address)).
Definition SendRelayRead (e : env) (i : nat) (data : buf) (len : nat) (k : t) : eff t call unit :=
  handled (from_relay e) (on_send_relay k i (fun r => RtcSendRelay.OnRead (now e) (uninit e) r data len)).

(** ** Relays *)

Definition CreateOrGetRecvRtcRelay (e : env) (pusher_user_id : string) (push_info : PushInfo) (k : t) : t * nat :=
  let '(k, i) :=
    match StrMap.find pusher_user_id (pusher_user_id2recvRelay_ k) with
    | Some i => (k, i)
    | None =>
        let i := length (recv_relays k) in
        let relay := RtcRecvRelay.new_RtcRecvRelay (room_id_ k) pusher_user_id (relay_server_ip_ e) (port e)
                       (recv_discard_percent_ e) (now e) (random e) in
        (with_recv k (recv_relays k ++ [relay]) (pusherId2recvRelay_ k) (StrMap.set pusher_user_id i (pusher_user_id2recvRelay_ k)), i)
    end in
  (with_recv k (recv_relays k) (StrMap.set (pusher_id_ push_info) i (pusherId2recvRelay_ k)) (pusher_user_id2recvRelay_ k), i).

Definition SendPullRequestToPilotCenter (e : env) (pusher_user_id : string) (push_info : PushInfo) (relay : RtcRecvRelay.t) (k : t)
    : eff t call Z :=
  let k := with_alive k (now e) in
  if negb (pilot_client_ k) then pure k (Undef NullDeref) else
  do* (k, _) := emit k [AsyncNotification "pullRemoteStream" (obj [("roomId", Json.Str (room_id_ k));
    ("pusher_user_id", Json.Str pusher_user_id); ("udp_ip", Json.Str (RtcRecvRelay.listen_ip_ relay));
    ("udp_port", Json.Int (RtcRecvRelay.udp_port_ relay));
    ("mediaType", Json.Str (avtype_tostring (RtpSessionParam.av_type_ (param_ push_info)))); ("pushInfo", push_json push_info)])] in
  eret k 0.

Definition PullRemotePusher (e : env) (pusher_user_id : string) (push_info : PushInfo) (k : t) : eff t call Z :=
  let '(k, i) := CreateOrGetRecvRtcRelay e pusher_user_id push_info (with_alive k (now e)) in
  match recv_relays k !! i with
  | None => pure k (Undef NullDeref)
  | Some relay =>
      let '(relay, _) := RtcRecvRelay.AddVirtualPusher relay push_info in
      let k := with_recv k (<[i := relay]> (recv_relays k)) (pusherId2recvRelay_ k) (pusher_user_id2recvRelay_ k) in
      SendPullRequestToPilotCenter e pusher_user_id push_info relay k
  end.

(** [std::string] as the bytes of an address. *)
Definition chars (s : string) : list Z := map (fun a => Z.of_N (Ascii.N_of_ascii a)) (String.list_ascii_of_string s).

(** [push_info_json] is a copy that may be changed, so a missing id throws. *)
Definition HandlePullRemoteStreamNotificationFromCenter (e : env) (data_json : Json.t) (k : t) : eff t call unit :=
  let k := with_alive k (now e) in
  ecatch
    (do* (k, udp_ip) := pure k (get_str data_json "udp_ip") in
     do* (k, udp_port) := pure k (let! v := Json.at_key data_json "udp_port" in Json.get_int v) in
     do* (k, pusher_user_id) := pure k (get_str data_json "pusher_user_id") in
     do* (k, push_info_json) := pure k (Json.at_key data_json "pushInfo") in
     do* (k, pusher_id) := pure k (get_str push_info_json "pusherId") in
     match Json.find_key push_info_json "rtpParam" with
     | Some rtp_param_json =>
         if negb (Json.is_object rtp_param_json) then eret k tt else
         do* (k, rtp_param) := pure k (FromJson new_RtpSessionParam rtp_param_json) in
         let push_info := mk_PushInfo pusher_id rtp_param in
         let '(k, i) :=
           match StrMap.find pusher_user_id (pusher_user_id2sendRelay_ k) with
           | Some i => (k, i)
           | None =>
               let i := length (send_relays k) in
               let relay := RtcSendRelay.new_RtcSendRelay (room_id_ k) pusher_user_id (chars udp_ip) (u16 udp_port)
                              (send_discard_percent_ e) (now e) (random e) in
               (with_send k (send_relays k ++ [relay]) (StrMap.set pusher_user_id i (pusher_user_id2sendRelay_ k)), i)
           end in
         handled relay_write (on_send_relay k i (fun r => eret (RtcSendRelay.AddPushInfo r push_info) tt))
     | None => eret k tt
     end)
    (fun k => eret k tt).

(** ** Streams that sessions bring *)

(** [pusherId2pusher_\[id\] = pusher], [pusher2pullers_\[pusher_id\]\[puller_id\] = puller], and
    the track in the user's own list. *)
Definition add_pusher (p : Pusher) (k : t) : t :=
  with_streams k (StrMap.set (ps_pusher_id p) p (pusherId2pusher_ k)) (pusher2pullers_ k).
Definition add_puller (q : Puller) (k : t) : t :=
  with_streams k (pusherId2pusher_ k)
    (StrMap.set (pl_pusher_id q) (StrMap.set (pl_puller_id q) q (pullers_of k (pl_pusher_id q))) (pusher2pullers_ k)).
Definition add_track (now : Z) (user_id : string) (push_info : PushInfo) (k : t) : t :=
  on_user k user_id (fun u => RtcUser.AddPusher (RtcUser.UpdateHeartbeat now u) (pusher_id_ push_info) push_info).

(** ** Everything that can happen to a room *)

Inductive event :=
  | Join (now : Z) (user_id user_name : string) (audience : bool) (id : Z) (resp_cb : nat)
  | WhipJoin (now : Z) (user_id user_name : string)
  | Disconnect (now : Z) (user_id : string)
  | Heartbeat (now : Z) (user_id : string)
  | Tick (now : Z)
  | TextMessage (now : Z) (user_id user_name message : string)
  | Response (now : Z) (method : string) (j : Json.t)
  | CenterNewUser (now : Z) (j : Json.t) | CenterNewPusher (now : Z) (j : Json.t) | CenterPull (e : env) (j : Json.t)
  | CenterDisconnect (j : Json.t) | CenterLeave (j : Json.t) | CenterText (j : Json.t)
  | Packet (e : env) (user_id pusher_id : string) (pkt : RtpPacket.t)
  | KeyFrame (e : env) (pusher_id pusher_user_id : string) (ssrc : Z)
  | PushClose (pusher_id : string) | PullClose (puller_id : string)
  | RecvRead (e : env) (i : nat) (data : buf) (len : nat) (address : IceServer.UdpTuple)
  | SendRead (e : env) (i : nat) (data : buf) (len : nat)
  | RecvTick (now : Z) (i : nat) | SendTick (stream_log : bool) (now : Z) (i : nat)
  | PullRemote (e : env) (user_id : string) (info : PushInfo)
  | NewPusher (p : Pusher) | NewPuller (q : Puller) | NewTrack (now : Z) (user_id : string) (info : PushInfo)
  | CloseRoom.

Definition ignore {A} (m : eff t call A) : eff t call unit := do* (k, _) := m in eret k tt.

Definition happens (k : t) (ev : event) : eff t call unit :=
  match ev with
  | Join now user_id user_name audience id cb => ignore (UserJoin now user_id user_name audience id cb k)
  | WhipJoin now user_id user_name => ignore (WhipUserJoin now user_id user_name k)
  | Disconnect now user_id => ignore (DisconnectUser now user_id k)
  | Heartbeat now user_id => eret (HandleWsHeartbeat now user_id k).1 tt
  | Tick now => OnTimer now k
  | TextMessage now user_id user_name message =>
      do* (k, _) := NotifyTextMessage2LocalUsers user_id user_name message k in
      NotifyTextMessage2PilotCenter now user_id user_name message k
  | Response now method j => OnAsyncRequestResponse now method j k
  | CenterNewUser now j => HandleNewUserNotificationFromCenter now j k
  | CenterNewPusher now j => HandleNewPusherNotificationFromCenter now j k
  | CenterPull e j => HandlePullRemoteStreamNotificationFromCenter e j k
  | CenterDisconnect j => HandleUserDisconnectNotificationFromCenter j k
  | CenterLeave j => HandleUserLeaveNotificationFromCenter j k
  | CenterText j => HandleNotifyTextMessageFromCenter j k
  | Packet e user_id pusher_id pkt => OnRtpPacketFromRtcPusher e user_id pusher_id pkt k
  | KeyFrame e pusher_id pusher_user_id ssrc => OnKeyFrameRequest e pusher_id pusher_user_id ssrc k
  | PushClose pusher_id => eret (OnPushClose pusher_id k) tt
  | PullClose puller_id => eret (OnPullClose puller_id k) tt
  | RecvRead e i data len address => RecvRelayRead e i data len address k
  | SendRead e i data len => SendRelayRead e i data len k
  | RecvTick now i => handled relay_write (on_recv_relay k i (fun r => eret (RtcRecvRelay.OnTimer now r) tt))
  | SendTick stream_log now i => handled relay_write (on_send_relay k i (RtcSendRelay.OnTimer stream_log now))
  | PullRemote e user_id info => ignore (PullRemotePusher e user_id info k)
  | NewPusher p => eret (add_pusher p k) tt
  | NewPuller q => eret (add_puller q k) tt
  | NewTrack now user_id info => eret (add_track now user_id info k) tt
  | CloseRoom => eret (Close k) tt
  end.

(** * Maps *)

Section Maps.
Context {V : Type}.
Implicit Types (m : list (string * V)) (p : V -> bool).

Lemma sorted_filter (P : string * V -> Prop) `{!forall e, Decision (P e)} m : StrMap.sorted m -> StrMap.sorted (filter P m).
Proof.
  induction m as [|[x v] m IH]; intros Hs; [done|]. apply StrMap.ordered_cons in Hs as [Hs Hx].
  rewrite filter_cons. case_decide; [|by apply IH]. apply StrMap.ordered_cons. split; [by apply IH|].
  apply Forall_forall. intros y Hy. apply list_elem_of_fmap in Hy as ([y' v'] & -> & Hy).
  apply list_elem_of_filter in Hy as [_ Hy]. rewrite Forall_forall in Hx. apply Hx. apply list_elem_of_fmap. by exists (y', v').
Qed.

Lemma find_filter p x m :
  StrMap.sorted m ->
  StrMap.find x (filter (fun e : string * V => p e.2 = true) m) =
    match StrMap.find x m with Some v => if p v then Some v else None | None => None end.
Proof.
  induction m as [|[y v] m IH]; intros Hs; [done|]. apply StrMap.ordered_cons in Hs as [Hs Hy].
  rewrite filter_cons. cbn [StrMap.find]. destruct (String.eqb_spec x y) as [->|Hne].
  - case_decide as Hp; cbn in Hp.
    + cbn. by rewrite String.eqb_refl, Hp.
    + rewrite IH, (StrMap.key_lt_absent y m Hy) by done. by destruct (p v).
  - case_decide; [|by apply IH]. cbn. rewrite (proj2 (String.eqb_neq x y)) by done. by apply IH.
Qed.

Lemma elem_keys_of p x m : StrMap.sorted m -> x ∈ keys_of p m <-> exists v, StrMap.find x m = Some v /\ p v = true.
Proof.
  intros Hs. unfold keys_of. rewrite list_elem_of_fmap. split.
  - intros ([y v] & -> & [Hp Hin]%list_elem_of_filter). exists v. split; [by apply StrMap.elem_find|done].
  - intros (v & Hf & Hp). exists (x, v). split; [done|]. apply list_elem_of_filter. split; [done|]. by apply StrMap.find_elem.
Qed.

Lemma erase_all_sorted ks m : StrMap.sorted m -> StrMap.sorted (erase_all ks m).
Proof. revert m. induction ks as [|x ks IH]; intros m Hs; [done|]. apply IH. by apply StrMap.ordered_erase. Qed.
Lemma find_erase_all ks x m :
  StrMap.sorted m -> StrMap.find x (erase_all ks m) = if decide (x ∈ ks) then None else StrMap.find x m.
Proof.
  revert m. induction ks as [|y ks IH]; intros m Hs; cbn [erase_all foldl].
  { rewrite decide_False by set_solver. done. }
  change (foldl _ ?m ks) with (erase_all ks m). rewrite IH, StrMap.find_in_erase by auto with strmap.
  destruct (String.eqb_spec x y) as [->|Hne].
  - rewrite (decide_True (P := y ∈ y :: ks)) by set_solver. by case_decide.
  - destruct (decide (x ∈ ks)); [by rewrite decide_True by set_solver|by rewrite decide_False by set_solver].
Qed.
Lemma Forall_erase_all (P : string * V -> Prop) ks m : Forall P m -> Forall P (erase_all ks m).
Proof. revert m. induction ks as [|x ks IH]; intros m Hm; [done|]. apply IH. by apply StrMap.entries_erase. Qed.

Lemma erase_set x v m u : StrMap.sorted m -> StrMap.find x m = Some u -> StrMap.erase x (StrMap.set x v m) = StrMap.erase x m.
Proof.
  induction m as [|[y w] m IH]; intros Hs Hf; [done|]. apply StrMap.ordered_cons in Hs as [Hs Hy]. cbn in *.
  destruct (String.compare x y) eqn:Ec.
  - apply String.compare_eq_iff in Ec as ->. cbn. by rewrite !String.eqb_refl.
  - destruct (String.eqb_spec x y) as [->|]; [by rewrite StrMap.compare_refl in Ec|].
    exfalso. rewrite StrMap.key_lt_absent in Hf; [done|]. eapply Forall_impl; [exact Hy|]. intros z Hz. cbn in Hz.
    by apply (StrMap.key_lt_trans x y z).
  - destruct (String.eqb_spec x y) as [->|Hne]; [by rewrite StrMap.compare_refl in Ec|].
    cbn. rewrite (proj2 (String.eqb_neq x y)) by done. by rewrite IH.
Qed.
Lemma set_set x v v' m : StrMap.set x v (StrMap.set x v' m) = StrMap.set x v m.
Proof.
  induction m as [|[y w] m IH]; cbn; [by rewrite StrMap.compare_refl|].
  destruct (String.compare x y) eqn:Ec; cbn; rewrite ?StrMap.compare_refl, ?Ec; [done|done|by rewrite IH].
Qed.

Lemma sorted_map (f : string * V -> string * V) m : (forall e, (f e).1 = e.1) -> StrMap.sorted m -> StrMap.sorted (map f m).
Proof.
  intros Hf. unfold StrMap.sorted. replace ((map f m).*1) with (m.*1); [done|].
  induction m as [|e m IH]; cbn; [done|]. by rewrite Hf, IH.
Qed.
Lemma find_map (f : V -> V) x m :
  StrMap.find x (map (fun e : string * V => (e.1, f e.2)) m) = option_map f (StrMap.find x m).
Proof. induction m as [|[y v] m IH]; cbn; [done|]. by destruct (String.eqb x y). Qed.

End Maps.

(** The connections of the others do not depend on the one. *)
Lemma connections_set id u m :
  connections (others id) (StrMap.set id u m) = connections (others id) m.
Proof.
  assert (Hskip : forall v r, connections (others id) ((id, v) :: r) = connections (others id) r).
  { intros v r. unfold connections, others. cbn. by rewrite String.eqb_refl. }
  induction m as [|[y v] m IH]; cbn [StrMap.set]; [apply Hskip|].
  destruct (String.compare id y) eqn:Ec.
  - apply String.compare_eq_iff in Ec as <-. by rewrite !Hskip.
  - apply Hskip.
  - unfold connections in *. cbn. by rewrite IH.
Qed.

(** * What can change *)

Definition user_ok (id : string) (u : RtcUser.t) : Prop := RtcUser.user_id_ u = id /\ StrMap.sorted (RtcUser.pushers_ u).
Definition users_ok (m : list (string * RtcUser.t)) : Prop :=
  StrMap.sorted m /\ Forall (fun e : string * RtcUser.t => user_ok e.1 e.2) m.
Definition streams_ok (ps : list (string * Pusher)) (pl : list (string * list (string * Puller))) : Prop :=
  StrMap.sorted ps /\ Forall (fun e : string * Pusher => ps_pusher_id e.2 = e.1) ps /\
  StrMap.sorted pl /\ Forall (fun e : string * list (string * Puller) => StrMap.sorted e.2 /\
    Forall (fun q : string * Puller => pl_puller_id q.2 = q.1 /\ pl_pusher_id q.2 = e.1) e.2) pl.
Definition places_ok (n : nat) (m : list (string * nat)) : Prop :=
  StrMap.sorted m /\ Forall (fun e : string * nat => (e.2 < n)%nat) m.

Record wf (k : t) : Prop := {
  wf_users : users_ok (users_ k);
  wf_streams : streams_ok (pusherId2pusher_ k) (pusher2pullers_ k);
  wf_recv_by_id : places_ok (length (recv_relays k)) (pusherId2recvRelay_ k);
  wf_recv_by_user : places_ok (length (recv_relays k)) (pusher_user_id2recvRelay_ k);
  wf_send_by_user : places_ok (length (send_relays k)) (pusher_user_id2sendRelay_ k)
}.

(** Everything a room does is made of these changes: users come in, are changed, and leave
    if they are local; streams and relays change within their invariants. *)
Inductive move (k : t) : t -> Prop :=
  | mv_alive now : move k (with_alive k now)
  | mv_close : move k (Close k)
  | mv_enter id u : StrMap.find id (users_ k) = None -> user_ok id u -> move k (set_user k id u)
  | mv_change id u u' :
      StrMap.find id (users_ k) = Some u -> (RtcUser.is_remote_ u = true -> RtcUser.is_remote_ u' = true) ->
      (user_ok id u -> user_ok id u') -> move k (set_user k id u')
  | mv_leave id u : StrMap.find id (users_ k) = Some u -> RtcUser.is_remote_ u = false ->
      move k (with_users k (StrMap.erase id (users_ k)))
  | mv_streams ps pl : (streams_ok (pusherId2pusher_ k) (pusher2pullers_ k) -> streams_ok ps pl) -> move k (with_streams k ps pl)
  | mv_recv l by_id by_user :
      (places_ok (length (recv_relays k)) (pusherId2recvRelay_ k) -> places_ok (length (recv_relays k)) (pusher_user_id2recvRelay_ k) ->
       places_ok (length l) by_id /\ places_ok (length l) by_user) -> move k (with_recv k l by_id by_user)
  | mv_send l by_user :
      (places_ok (length (send_relays k)) (pusher_user_id2sendRelay_ k) -> places_ok (length l) by_user) -> move k (with_send k l by_user).
Definition moves : t -> t -> Prop := rtc move.

Lemma users_ok_set id u m : users_ok m -> user_ok id u -> users_ok (StrMap.set id u m).
Proof. intros [Hs Hf] Hu. split; [by apply StrMap.ordered_set|by apply StrMap.entries_set]. Qed.
Lemma users_ok_find id u m : users_ok m -> StrMap.find id m = Some u -> user_ok id u.
Proof. intros [_ Hf] Hu. exact (StrMap.entries_find _ id u m Hf Hu). Qed.
Lemma users_ok_erase id m : users_ok m -> users_ok (StrMap.erase id m).
Proof. intros [Hs Hf]. split; [by apply StrMap.ordered_erase|by apply StrMap.entries_erase]. Qed.

Lemma move_wf k k' : move k k' -> wf k -> wf k'.
Proof.
  intros Hm [Hu Hs H1 H2 H3]. destruct Hm; split; cbn; try done; try tauto.
  - by apply users_ok_set.
  - apply users_ok_set; [done|]. eauto using users_ok_find.
  - by apply users_ok_erase.
Qed.
Lemma moves_wf k k' : moves k k' -> wf k -> wf k'.
Proof. induction 1; eauto using move_wf. Qed.

Definition has_remote (id : string) (k : t) : Prop :=
  exists u, StrMap.find id (users_ k) = Some u /\ RtcUser.is_remote_ u = true.
Lemma move_remote id k k' : move k k' -> wf k -> has_remote id k -> has_remote id k'.
Proof.
  intros Hm Hwf (u & Hf & Hr).
  destruct Hm as [| |id' v Hn|id' v v' Hf' Hr'|id' v Hf' Hr'| | |]; try (by exists u); unfold has_remote; cbn.
  - exists u. rewrite StrMap.find_in_set_ne; [done|congruence].
  - destruct (decide (id = id')) as [<-|Hne].
    + exists v'. rewrite StrMap.find_in_set_eq. split; [done|]. apply Hr'. congruence.
    + exists u. by rewrite StrMap.find_in_set_ne.
  - exists u. rewrite StrMap.find_in_erase_ne; [done|apply (wf_users k Hwf)|congruence].
Qed.
Lemma moves_remote id k k' : moves k k' -> wf k -> has_remote id k -> has_remote id k'.
Proof. induction 1; eauto using move_wf, move_remote. Qed.

(** ** Operations are moves *)

Lemma moves_move k0 k k' : moves k0 k -> move k k' -> moves k0 k'.
Proof. intros H Hm. eapply rtc_r; eauto. Qed.
Create HintDb moves.
#[local] Hint Resolve moves_move mv_alive mv_close : moves.

Lemma new_user_ok id name a cb n : user_ok id (RtcUser.new_RtcUser id name a cb n).
Proof. split; [done|apply StrMap.sorted_nil]. Qed.
Lemma moves_enter k0 k id u : moves k0 k -> StrMap.find id (users_ k) = None -> user_ok id u -> moves k0 (set_user k id u).
Proof. intros. eapply moves_move; [done|]. by apply mv_enter. Qed.
Lemma moves_change k0 k id u u' :
  moves k0 k -> StrMap.find id (users_ k) = Some u -> (RtcUser.is_remote_ u = true -> RtcUser.is_remote_ u' = true) ->
  RtcUser.user_id_ u' = RtcUser.user_id_ u -> (StrMap.sorted (RtcUser.pushers_ u) -> StrMap.sorted (RtcUser.pushers_ u')) ->
  moves k0 (set_user k id u').
Proof. intros ? ? ? E ?. eapply moves_move; [done|]. eapply mv_change; [done|done|]. intros []. split; [by rewrite E|auto]. Qed.
Lemma moves_on_user k0 k id f :
  moves k0 k -> (forall u, RtcUser.is_remote_ (f u) = RtcUser.is_remote_ u /\ RtcUser.user_id_ (f u) = RtcUser.user_id_ u /\
    (StrMap.sorted (RtcUser.pushers_ u) -> StrMap.sorted (RtcUser.pushers_ (f u)))) -> moves k0 (on_user k id f).
Proof.
  intros Hk Hf. unfold on_user. destruct (StrMap.find id (users_ k)) as [u|] eqn:E; [|done].
  destruct (Hf u) as (H1 & H2 & H3). eapply moves_change; [done|exact E|by rewrite H1|done|done].
Qed.
Lemma moves_heartbeat k0 k id n : moves k0 k -> moves k0 (on_user k id (RtcUser.UpdateHeartbeat n)).
Proof. intros. by apply moves_on_user. Qed.
#[local] Hint Resolve moves_enter moves_change moves_on_user moves_heartbeat : moves.

Section Stays.
Context (k0 : t).
Abbreviation stay := (stays (moves k0)).

Lemma notify_stays sel method data k : moves k0 k -> stay (notify sel method data k).
Proof. apply stays_emit. Qed.
Lemma to_pilot_stays n c k : moves k0 k -> stay (to_pilot n c k).
Proof. intros. unfold to_pilot. destruct (pilot_client_ k); [apply stays_emit|apply stays_ret]; eauto with moves. Qed.
Lemma NotifyNewUser_stays n id name k : moves k0 k -> stay (NotifyNewUser n id name k).
Proof. intros. unfold NotifyNewUser. case_match; [apply notify_stays|apply stays_ret]; eauto with moves. Qed.
Lemma NotifyNewPusher_stays n id name infos k : moves k0 k -> stay (NotifyNewPusher n id name infos k).
Proof. intros. apply notify_stays. eauto with moves. Qed.
Lemma NewPusher2PilotCenter_stays n id infos k : moves k0 k -> stay (NewPusher2PilotCenter n id infos k).
Proof.
  intros. unfold NewPusher2PilotCenter. destruct (pilot_client_ k); cbn [negb]; [|by apply stays_ret].
  case_match; [apply stays_emit|apply stays_ret]; eauto with moves.
Qed.
#[local] Hint Resolve notify_stays to_pilot_stays NotifyNewUser_stays : moves.

Lemma then_ret {A B} (m : eff t call A) (b : B) : stay m -> stay (ebind m (fun k _ => eret k b)).
Proof. intros. apply stays_bind; [done|]. intros. by apply stays_ret. Qed.
#[local] Hint Resolve then_ret : moves.

Lemma ReConnect_stays u id cb k : moves k0 k -> stay (ReConnect u id cb k).
Proof.
  intros. unfold ReConnect. apply stays_bind; [eauto with moves|]. intros k1 _ H1 _.
  apply stays_bind; [destruct (pilot_client_ k1); [by apply stays_emit|by apply stays_ret]|]. intros k2 _ H2 _.
  apply then_ret. by apply stays_emit.
Qed.
Lemma UserJoin_stays n id name audience rid cb k : moves k0 k -> stay (UserJoin n id name audience rid cb k).
Proof.
  intros Hk. unfold UserJoin. destruct (closed_ k); [by apply stays_ret|].
  destruct (StrMap.find id _) as [u|] eqn:E.
  - apply ReConnect_stays. eapply moves_change; [eauto with moves|exact E|done..].
  - assert (moves k0 (set_user (with_alive k n) id (RtcUser.new_RtcUser id name audience (Some cb) n)))
      by (apply moves_enter; [eauto with moves|exact E|apply new_user_ok]).
    apply stays_bind; [by apply to_pilot_stays|]. intros k1 _ H1 _.
    apply stays_bind; [by apply stays_emit|]. intros k2 _ H2 _. apply then_ret.
    destruct audience; cbn [negb]; [by apply stays_ret|eauto with moves].
Qed.
Lemma WhipUserJoin_stays n id name k : moves k0 k -> stay (WhipUserJoin n id name k).
Proof.
  intros Hk. unfold WhipUserJoin. destruct (closed_ k); [by apply stays_ret|].
  set (u := match StrMap.find _ _ with Some _ => _ | None => _ end).
  assert (moves k0 (set_user (with_alive k n) id u)).
  { unfold u. cbn [with_alive users_]. destruct (StrMap.find id (users_ k)) as [v|] eqn:E.
    - eapply moves_change; [eauto with moves|exact E|done..].
    - apply moves_enter; [eauto with moves|exact E|]. by destruct (new_user_ok id name false None n). }
  apply stays_bind; [by apply to_pilot_stays|]. intros k1 _ H1 _. apply then_ret. eauto with moves.
Qed.
Lemma UserLeave_stays n id k : moves k0 k -> stay (UserLeave n id k).
Proof.
  intros Hk. unfold UserLeave. destruct (StrMap.find id _) as [u|] eqn:E; [|by apply stays_ret].
  apply stays_bind; [apply notify_stays; eapply moves_change; [done|exact E|done..]|]. intros k1 _ H1 _.
  apply then_ret. by apply to_pilot_stays.
Qed.
Lemma DisconnectUser_stays n id k : moves k0 k -> stay (DisconnectUser n id k).
Proof.
  intros Hk. unfold DisconnectUser. destruct (StrMap.find id _) as [u|] eqn:E; [|by apply stays_ret].
  apply stays_bind; [apply notify_stays; eapply moves_change; [done|exact E|done..]|]. intros k1 _ H1 _.
  apply then_ret. by apply to_pilot_stays.
Qed.
Lemma HandleWsHeartbeat_moves n id k : moves k0 k -> moves k0 (HandleWsHeartbeat n id k).1.
Proof.
  intros Hk. unfold HandleWsHeartbeat. destruct (StrMap.find id _) as [u|] eqn:E; [|eauto with moves].
  eapply moves_change; [eauto with moves|exact E|done..].
Qed.
End Stays.

(** ** Leaving *)

Definition leave_json (k : t) (id : string) : Json.t := obj [("userId", Json.Str id); ("roomId", Json.Str (room_id_ k))].
(** What the others and the pilot centre are told when [id] goes. *)
Definition farewell (k : t) (id : string) : list call :=
  map (fun cb => Notification cb "userLeave" (leave_json k id)) (connections (others id) (users_ k)) ++
  (if pilot_client_ k then [AsyncNotification "userLeave" (user_json k id)] else []).

Definition without (id : string) (m : list (string * list (string * Puller))) : list (string * list (string * Puller)) :=
  map (fun e : string * list (string * Puller) => (e.1, filter (fun q : string * Puller => pl_user_id q.2 <> id) e.2)) m.
(** The room after [id] is released. *)
Definition released (n : Z) (id : string) (k : t) : t :=
  mk (room_id_ k) (pilot_client_ k) (if pilot_client_ k then n else last_alive_ms_ k) (closed_ k)
     (StrMap.erase id (users_ k))
     (erase_all (keys_of (fun p => String.eqb (ps_user_id p) id) (pusherId2pusher_ k)) (pusherId2pusher_ k))
     (StrMap.erase id (without id (pusher2pullers_ k)))
     (recv_relays k) (pusherId2recvRelay_ k) (pusher_user_id2recvRelay_ k)
     (send_relays k) (StrMap.erase id (pusher_user_id2sendRelay_ k)).

Lemma UserLeave_eq n id k u :
  StrMap.find id (users_ k) = Some u ->
  exists k1, UserLeave n id k = (k1, farewell k id, Ok 0) /\
    k1 = (let k' := set_user k id (RtcUser.SetRespCb u None) in if pilot_client_ k then with_alive k' n else k').
Proof.
  intros Hu. eexists. split; [|reflexivity]. unfold UserLeave. rewrite Hu. unfold notify, UserLeave2PilotCenter, to_pilot, farewell.
  cbn [emit ebind set_user with_users pilot_client_ users_ room_id_]. rewrite connections_set.
  destruct (pilot_client_ k); cbn [negb emit ebind eret app]; [done|by rewrite !app_nil_r].
Qed.

Lemma Release_eq n id k u :
  StrMap.sorted (users_ k) -> StrMap.find id (users_ k) = Some u ->
  ReleaseUserResources n id k = (released n id k, farewell k id, Ok tt).
Proof.
  intros Hs Hu. unfold ReleaseUserResources. destruct (UserLeave_eq n id k u Hu) as (k1 & -> & ->). cbn [ecatch ebind].
  assert (E : users_ (if pilot_client_ k then with_alive (set_user k id (RtcUser.SetRespCb u None)) n
                      else set_user k id (RtcUser.SetRespCb u None)) = StrMap.set id (RtcUser.SetRespCb u None) (users_ k))
    by by destruct (pilot_client_ k).
  cbv zeta. rewrite E, StrMap.find_in_set_eq. cbn [eret app]. rewrite app_nil_r. f_equal. f_equal.
  unfold with_streams, with_users, with_send, released. cbn. rewrite (erase_set id _ _ u) by done.
  by destruct (pilot_client_ k) eqn:Ep; cbn; rewrite ?Ep.
Qed.

Lemma without_ok ps id m : streams_ok ps m -> streams_ok ps (without id m).
Proof.
  intros (H1 & H2 & H3 & H4). split_and!; try done; [by apply sorted_map|].
  apply Forall_map. eapply Forall_impl; [exact H4|]. intros [p q] [Hs Hq]. cbn. split; [by apply sorted_filter|].
  rewrite Forall_forall in *. intros y [_ Hy]%list_elem_of_filter. auto.
Qed.
Lemma streams_erase ps pl ks x : streams_ok ps pl -> streams_ok (erase_all ks ps) (StrMap.erase x pl).
Proof.
  intros (H1 & H2 & H3 & H4). split_and!.
  - by apply erase_all_sorted.
  - by apply Forall_erase_all.
  - by apply StrMap.ordered_erase.
  - by apply StrMap.entries_erase.
Qed.
Lemma places_erase n x m : places_ok n m -> places_ok n (StrMap.erase x m).
Proof. intros [Hs Hf]. split; [by apply StrMap.ordered_erase|by apply StrMap.entries_erase]. Qed.
Lemma places_erase_all n ks m : places_ok n m -> places_ok n (erase_all ks m).
Proof. intros [Hs Hf]. split; [by apply erase_all_sorted|by apply Forall_erase_all]. Qed.
Lemma places_set n x i m : places_ok n m -> (i < n)%nat -> places_ok n (StrMap.set x i m).
Proof. intros [Hs Hf]. split; [by apply StrMap.ordered_set|by apply StrMap.entries_set]. Qed.
Lemma places_mono n n' m : places_ok n m -> (n <= n')%nat -> places_ok n' m.
Proof. intros [Hs Hf] H. split; [done|]. eapply Forall_impl; [exact Hf|]. intros ? ?. cbn in *. lia. Qed.

Lemma released_moves n id k u :
  StrMap.find id (users_ k) = Some u -> RtcUser.is_remote_ u = false -> moves k (released n id k).
Proof.
  intros Hu Hr. set (k1 := if pilot_client_ k then with_alive k n else k).
  assert (H1 : moves k k1) by (unfold k1; destruct (pilot_client_ k); [|done]; apply rtc_once, mv_alive).
  assert (H2 : moves k (with_users k1 (StrMap.erase id (users_ k1)))).
  { eapply moves_move; [exact H1|]. apply (mv_leave k1 id u); [|done]. unfold k1. by destruct (pilot_client_ k). }
  set (k2 := with_users _ _) in *.
  set (k3 := with_streams k2 (erase_all (keys_of (fun p => String.eqb (ps_user_id p) id) (pusherId2pusher_ k2)) (pusherId2pusher_ k2))
               (StrMap.erase id (without id (pusher2pullers_ k2)))).
  assert (H3 : moves k k3).
  { eapply moves_move; [exact H2|]. apply mv_streams. intros. by apply streams_erase, without_ok. }
  replace (released n id k) with (with_send k3 (send_relays k3) (StrMap.erase id (pusher_user_id2sendRelay_ k3))).
  - eapply moves_move; [exact H3|]. apply mv_send. apply places_erase.
  - unfold released, k3, k2, k1, with_send, with_streams, with_users, with_alive.
    by destruct (pilot_client_ k) eqn:Ep; cbn; rewrite ?Ep.
Qed.

(** ** The sweep *)

Fixpoint release_all (n : Z) (ids : list string) (k : t) : t :=
  match ids with [] => k | id :: ids' => release_all n ids' (released n id k) end.
Fixpoint farewells (n : Z) (ids : list string) (k : t) : list call :=
  match ids with [] => [] | id :: ids' => farewell k id ++ farewells n ids' (released n id k) end.
Definition local_users (ids : list string) (k : t) : Prop :=
  Forall (fun id => exists u, StrMap.find id (users_ k) = Some u /\ RtcUser.is_remote_ u = false) ids.

Lemma release_loop n ids k :
  wf k -> NoDup ids -> local_users ids k ->
  efor ids k (fun k id => ReleaseUserResources n id k) = (release_all n ids k, farewells n ids k, Ok tt) /\
  moves k (release_all n ids k).
Proof.
  revert k. induction ids as [|id ids IH]; intros k Hwf Hnd Hl; [by split|].
  apply NoDup_cons in Hnd as [Hin Hnd]. apply Forall_cons in Hl as [(u & Hu & Hr) Hl].
  pose proof (released_moves n id k u Hu Hr) as Hm. pose proof (moves_wf _ _ Hm Hwf) as Hwf'.
  assert (Hl' : local_users ids (released n id k)).
  { apply Forall_forall. intros x Hx. unfold local_users in Hl. rewrite Forall_forall in Hl. destruct (Hl x Hx) as (v & Hv & Hrv). exists v.
    split; [|done]. cbn. rewrite StrMap.find_in_erase_ne; [done|apply (wf_users k Hwf)|set_solver]. }
  destruct (IH _ Hwf' Hnd Hl') as [IH1 IH2]. cbn [efor release_all farewells].
  rewrite (Release_eq n id k u); [|apply (wf_users k Hwf)|done]. cbn [ebind]. rewrite IH1. split; [done|]. by etrans.
Qed.

(** The users the sweep of [OnTimer] takes. *)
Definition silent (n : Z) (k : t) : list string := keys_of (timed_out n) (users_ k).
Definition awake (n : Z) (k : t) : t := match users_ k with [] => k | _ => with_alive k n end.
Definition sweep_relays (n : Z) (k : t) : t :=
  let dead := filter (fun e : string * nat => relay_dead n k e.2 = true) (pusherId2recvRelay_ k) in
  with_recv k (recv_relays k) (erase_all dead.*1 (pusherId2recvRelay_ k))
    (erase_all (map (fun e => relay_user k e.2) dead) (pusher_user_id2recvRelay_ k)).

Lemma OnTimer_eq n k :
  wf k -> OnTimer n k = (sweep_relays n (release_all n (silent n k) (awake n k)), farewells n (silent n k) (awake n k), Ok tt) /\
    moves k (sweep_relays n (release_all n (silent n k) (awake n k))).
Proof.
  intros Hwf.
  assert (Ha : moves k (awake n k)) by (unfold awake; destruct (users_ k); [done|apply rtc_once, mv_alive]).
  assert (Hu : users_ (awake n k) = users_ k) by (unfold awake; by destruct (users_ k) eqn:E).
  pose proof (moves_wf _ _ Ha Hwf) as Hwf'. pose proof (wf_users k Hwf) as [Hs _].
  destruct (release_loop n (silent n k) (awake n k) Hwf') as [E Hm].
  { unfold silent, keys_of. apply (StrMap.sorted_NoDup (filter _ (users_ k))). by apply sorted_filter. }
  { apply Forall_forall. intros id Hid. apply elem_keys_of in Hid as (u & Hf & Ht); [|done]. exists u. rewrite Hu. split; [done|].
    unfold timed_out in Ht. by destruct (RtcUser.is_remote_ u). }
  split.
  - unfold OnTimer. fold (awake n k). cbv zeta. rewrite Hu. fold (silent n k). rewrite E. cbn [ebind eret]. by rewrite app_nil_r.
  - etrans; [exact Ha|]. eapply moves_move; [exact Hm|]. apply mv_recv. intros H1 H2. split; by apply places_erase_all.
Qed.

Lemma release_all_users n ids k id :
  wf k -> NoDup ids -> local_users ids k ->
  StrMap.find id (users_ (release_all n ids k)) = if decide (id ∈ ids) then None else StrMap.find id (users_ k).
Proof.
  revert k. induction ids as [|x ids IH]; intros k Hwf Hnd Hl; cbn [release_all].
  { by rewrite decide_False by set_solver. }
  apply NoDup_cons in Hnd as [Hin Hnd]. apply Forall_cons in Hl as [(u & Hu & Hr) Hl].
  pose proof (moves_wf _ _ (released_moves n x k u Hu Hr) Hwf) as Hwf'.
  rewrite IH; [| |done|].
  - cbn. rewrite StrMap.find_in_erase by apply (wf_users k Hwf). destruct (String.eqb_spec id x) as [->|Hne].
    + rewrite (decide_True (P := x ∈ x :: ids)) by set_solver. by case_decide.
    + destruct (decide (id ∈ ids)); [by rewrite decide_True by set_solver|by rewrite decide_False by set_solver].
  - done.
  - apply Forall_forall. intros y Hy. unfold local_users in Hl. rewrite Forall_forall in Hl. destruct (Hl y Hy) as (v & Hv & Hrv).
    exists v. split; [|done]. cbn. rewrite StrMap.find_in_erase_ne; [done|apply (wf_users k Hwf)|set_solver].
Qed.

(** ** Everything else *)

Section MoreStays.
Context (k0 : t).
Abbreviation stay := (stays (moves k0)).
#[local] Hint Resolve notify_stays to_pilot_stays NotifyNewUser_stays then_ret : moves.

Lemma OnTimer_stays n k : wf k -> moves k0 k -> stay (OnTimer n k).
Proof. intros Hwf Hk. destruct (OnTimer_eq n k Hwf) as [-> Hm]. intros _. by etrans. Qed.

Lemma pure_bind_stays {A B} k (r : res A) (f : t -> A -> eff t call B) :
  moves k0 k -> (forall a, stay (f k a)) -> stay (ebind (pure k r) f).
Proof. intros Hk Hf. destruct r as [a|msg|u]; [by rewrite ebind_ok|by intros _..]. Qed.
Lemma catch_stays (m : eff t call unit) : stay m -> stay (ecatch m (fun k => eret k tt)).
Proof. intros Hm. apply stays_catch; [done|]. intros. by apply stays_ret. Qed.

Lemma add_pushers_stays id l k infos : moves k0 k -> stay (add_pushers id l k infos).
Proof.
  revert k infos. induction l as [|j l IH]; intros k infos Hk; cbn [add_pushers]; [by apply stays_ret|].
  apply pure_bind_stays; [done|]. intros [info|]; apply IH; [|done]. apply moves_on_user; [done|].
  intros u. split_and!; try done. by apply StrMap.ordered_set.
Qed.
Lemma enter_remote k id name n :
  moves k0 k -> StrMap.find id (users_ k) = None -> moves k0 (set_user k id (remote_user id name n)).
Proof. intros. apply moves_enter; [done|done|]. split; [done|apply StrMap.sorted_nil]. Qed.

Lemma join_one_stays n k j : moves k0 k -> stay (join_one n k j).
Proof.
  intros Hk. unfold join_one. apply pure_bind_stays; [done|]. intros id. apply pure_bind_stays; [done|]. intros name.
  destruct (StrMap.find id (users_ k)) eqn:E; [by apply stays_ret|].
  apply pure_bind_stays; [by apply enter_remote|]. intros ps.
  apply stays_bind; [|intros; eauto with moves].
  destruct (_ && _); [apply add_pushers_stays|apply stays_ret]; by apply enter_remote.
Qed.
Lemma OnAsyncRequestResponse_stays n m j k : moves k0 k -> stay (OnAsyncRequestResponse n m j k).
Proof.
  intros Hk. unfold OnAsyncRequestResponse. apply catch_stays. destruct (String.eqb m "join"); [|by apply stays_ret].
  unfold JoinResponseFromPilotCenter. apply catch_stays.
  apply pure_bind_stays; [done|]. intros room. apply pure_bind_stays; [done|]. intros us.
  destruct (negb _); [by apply stays_ret|]. destruct (negb _); [by apply stays_ret|].
  apply stays_for; [done|]. intros. by apply join_one_stays.
Qed.
Lemma HandleNewUser_stays n j k : moves k0 k -> stay (HandleNewUserNotificationFromCenter n j k).
Proof.
  intros Hk. unfold HandleNewUserNotificationFromCenter. apply catch_stays.
  assert (moves k0 (with_alive k n)) by eauto with moves.
  apply pure_bind_stays; [done|]. intros id. apply pure_bind_stays; [done|]. intros name.
  destruct (StrMap.find _ _) eqn:E; [by apply stays_ret|]. apply NotifyNewUser_stays. by apply enter_remote.
Qed.
Lemma HandleNewPusher_stays n j k : moves k0 k -> stay (HandleNewPusherNotificationFromCenter n j k).
Proof.
  intros Hk. unfold HandleNewPusherNotificationFromCenter. apply catch_stays.
  assert (moves k0 (with_alive k n)) by eauto with moves.
  apply pure_bind_stays; [done|]. intros id. destruct (StrMap.find _ _) as [u|] eqn:E; [|by apply stays_ret].
  assert (moves k0 (set_user (with_alive k n) id (RtcUser.SetRemote u true))) by (eapply moves_change; [done|exact E|done..]).
  apply pure_bind_stays; [done|]. intros ps.
  apply stays_bind; [by apply add_pushers_stays|]. intros k1 infos H1 _. by apply notify_stays.
Qed.
Lemma HandleUserDisconnect_stays j k : moves k0 k -> stay (HandleUserDisconnectNotificationFromCenter j k).
Proof.
  intros Hk. apply catch_stays. apply pure_bind_stays; [done|]. intros id.
  case_match; [|by apply stays_ret]. destruct (negb _); [by apply stays_ret|by apply notify_stays].
Qed.
Lemma HandleUserLeave_stays j k : moves k0 k -> stay (HandleUserLeaveNotificationFromCenter j k).
Proof.
  intros Hk. apply catch_stays. apply pure_bind_stays; [done|]. intros id.
  case_match; [|by apply stays_ret]. destruct (negb _); [by apply stays_ret|by apply notify_stays].
Qed.
Lemma HandleText_stays j k : moves k0 k -> stay (HandleNotifyTextMessageFromCenter j k).
Proof. intros Hk. apply catch_stays. do 3 (apply pure_bind_stays; [done|]; intros ?). by apply notify_stays. Qed.

(** *** Media *)

Lemma lend_stays e pkt k q : moves k0 k -> stay (lend e pkt k q).
Proof.
  intros Hk. apply pure_bind_stays; [done|]. intros c. apply stays_bind; [by apply stays_emit|]. intros k1 _ H1 _.
  apply stays_ret. by apply moves_heartbeat.
Qed.
Lemma relay_write_stays k c : moves k0 k -> stay (relay_write k c).
Proof. intros Hk. destruct c; [by apply stays_emit|by apply stays_ret..]. Qed.
Lemma on_send_relay_stays {A} k i (f : RtcSendRelay.t -> eff RtcSendRelay.t relay_call A) :
  moves k0 k -> stays (moves k0) (on_send_relay k i f).
Proof.
  intros Hk. unfold on_send_relay. destruct (send_relays k !! i); [|by apply stays_pure].
  apply (stays_zoom _ (fun _ => True)); [by intros ?|]. intros r _. eapply moves_move; [done|]. apply mv_send.
  by rewrite length_insert.
Qed.
Lemma on_recv_relay_stays {A} k i (f : RtcRecvRelay.t -> eff RtcRecvRelay.t relay_call A) :
  moves k0 k -> stays (moves k0) (on_recv_relay k i f).
Proof.
  intros Hk. unfold on_recv_relay. destruct (recv_relays k !! i); [|by apply stays_pure].
  apply (stays_zoom _ (fun _ => True)); [by intros ?|]. intros r _. eapply moves_move; [done|]. apply mv_recv.
  by rewrite length_insert.
Qed.
Lemma OnRtpPacketFromRtcPusher_stays e id pid pkt k : moves k0 k -> stay (OnRtpPacketFromRtcPusher e id pid pkt k).
Proof.
  intros Hk. unfold OnRtpPacketFromRtcPusher. apply stays_bind.
  { apply stays_for; [eauto with moves|]. intros. by apply lend_stays. }
  intros k1 _ H1 _. case_match; [|by apply stays_ret]. apply pure_bind_stays; [done|]. intros c.
  apply catch_stays. apply stays_handled; [by apply on_send_relay_stays|]. intros. by apply relay_write_stays.
Qed.
Lemma OnRtpPacketFromRemoteRtcPusher_stays e id pid pkt k : moves k0 k -> stay (OnRtpPacketFromRemoteRtcPusher e id pid pkt k).
Proof. intros Hk. apply stays_for; [eauto with moves|]. intros. by apply lend_stays. Qed.
Lemma OnKeyFrameRequest_stays e pid id ssrc k : moves k0 k -> stay (OnKeyFrameRequest e pid id ssrc k).
Proof.
  intros Hk. unfold OnKeyFrameRequest. case_match; [|by apply stays_pure].
  case_match; case_match; try by apply stays_ret; try by apply stays_emit.
  - apply stays_handled; [by apply on_recv_relay_stays|]. intros. by apply relay_write_stays.
  - by apply stays_emit.
Qed.
Lemma from_relay_stays e k c : moves k0 k -> stay (from_relay e k c).
Proof.
  intros Hk. destruct c; [by apply stays_emit|by apply OnKeyFrameRequest_stays|by apply OnRtpPacketFromRemoteRtcPusher_stays].
Qed.
Lemma RecvRelayRead_stays e i d n a k : moves k0 k -> stay (RecvRelayRead e i d n a k).
Proof. intros Hk. apply stays_handled; [by apply on_recv_relay_stays|]. intros. by apply from_relay_stays. Qed.
Lemma SendRelayRead_stays e i d n k : moves k0 k -> stay (SendRelayRead e i d n k).
Proof. intros Hk. apply stays_handled; [by apply on_send_relay_stays|]. intros. by apply from_relay_stays. Qed.

Lemma close_puller_ok ps x m : streams_ok ps m -> streams_ok ps (close_puller x m).
Proof.
  intros (H1 & H2 & H3 & H4). split_and!; try done.
  - unfold StrMap.sorted in *. replace ((close_puller x m).*1) with (m.*1); [done|]. clear.
    induction m as [|[p q] m IH]; cbn; [done|]. destruct (StrMap.find x q); cbn; by rewrite <- ?IH.
  - clear H3. induction m as [|[p q] m IH]; cbn; [done|]. apply Forall_cons in H4 as [[Hq1 Hq2] H4].
    destruct (StrMap.find x q); constructor; auto. split; [by apply StrMap.ordered_erase|by apply StrMap.entries_erase].
Qed.
Lemma OnPushClose_moves x k : moves k0 k -> moves k0 (OnPushClose x k).
Proof.
  intros Hk. eapply moves_move; [done|]. apply mv_streams. intros (H1 & H2 & H3 & H4).
  split_and!; try done; [by apply StrMap.ordered_erase|by apply StrMap.entries_erase].
Qed.
Lemma OnPullClose_moves x k : moves k0 k -> moves k0 (OnPullClose x k).
Proof. intros Hk. eapply moves_move; [done|]. apply mv_streams. apply close_puller_ok. Qed.

Lemma CreateOrGet_moves e id info k :
  moves k0 k -> wf k -> moves k0 (CreateOrGetRecvRtcRelay e id info k).1.
Proof.
  intros Hk Hwf. unfold CreateOrGetRecvRtcRelay.
  destruct (StrMap.find id (pusher_user_id2recvRelay_ k)) as [i|] eqn:E; cbn [fst].
  - eapply moves_move; [done|]. apply mv_recv. intros H1 H2. split; [|done]. apply places_set; [done|].
    exact (StrMap.entries_find _ id i _ (proj2 H2) E).
  - match goal with |- moves _ (with_recv ?k1 _ _ _) => assert (Hk1 : moves k0 k1) end.
    { eapply moves_move; [done|]. apply mv_recv. intros H1 H2. rewrite length_app. cbn.
      split; [eapply places_mono; [exact H1|lia]|]. apply places_set; [eapply places_mono; [exact H2|lia]|lia]. }
    eapply moves_move; [exact Hk1|]. apply mv_recv. cbn. intros H1 H2. split; [|done].
    apply places_set; [done|]. rewrite length_app. cbn. lia.
Qed.
Lemma PullRemotePusher_stays e id info k : moves k0 k -> wf k -> stay (PullRemotePusher e id info k).
Proof.
  intros Hk Hwf. unfold PullRemotePusher.
  pose proof (CreateOrGet_moves e id info (with_alive k (now e)) ltac:(eauto with moves)
    (move_wf _ _ (mv_alive k (now e)) Hwf)) as H1.
  destruct (CreateOrGetRecvRtcRelay e id info _) as [k1 i]. cbn [fst] in H1.
  destruct (recv_relays k1 !! i) as [r|]; [|by apply stays_pure]. destruct (RtcRecvRelay.AddVirtualPusher r info) as [r2 z].
  match goal with |- stay (SendPullRequestToPilotCenter _ _ _ _ ?k2) => assert (H2 : moves k0 k2) end.
  { eapply moves_move; [done|]. apply mv_recv. by rewrite length_insert. }
  unfold SendPullRequestToPilotCenter. destruct (negb _); [apply stays_pure; eauto with moves|].
  apply then_ret. apply stays_emit. eauto with moves.
Qed.
Lemma HandlePullRemoteStream_stays e j k : moves k0 k -> stay (HandlePullRemoteStreamNotificationFromCenter e j k).
Proof.
  intros Hk. unfold HandlePullRemoteStreamNotificationFromCenter. apply catch_stays.
  assert (moves k0 (with_alive k (now e))) by eauto with moves.
  do 5 (apply pure_bind_stays; [done|]; intros ?). case_match; [|by apply stays_ret].
  destruct (negb _); [by apply stays_ret|]. apply pure_bind_stays; [done|]. intros p.
  match goal with |- stay (let '(k, i) := ?x in _) => assert (Hx : moves k0 x.1) end.
  { case_match; cbn [fst]; [done|]. eapply moves_move; [done|]. apply mv_send. rewrite length_app. cbn. intros Hp.
    apply places_set; [eapply places_mono; [exact Hp|lia]|lia]. }
  match goal with |- stay (let '(k, i) := ?x in _) => destruct x as [k1 i] end. cbn [fst] in Hx.
  apply stays_handled; [by apply on_send_relay_stays|]. intros. by apply relay_write_stays.
Qed.
End MoreStays.

Lemma add_pusher_moves k0 p k : moves k0 k -> moves k0 (add_pusher p k).
Proof.
  intros Hk. eapply moves_move; [done|]. apply mv_streams. intros (H1 & H2 & H3 & H4).
  split_and!; try done; [by apply StrMap.ordered_set|by apply StrMap.entries_set].
Qed.
Lemma add_puller_moves k0 q k : moves k0 k -> moves k0 (add_puller q k).
Proof.
  intros Hk. eapply moves_move; [done|]. apply mv_streams. intros (H1 & H2 & H3 & H4).
  assert (Hq : StrMap.sorted (pullers_of k (pl_pusher_id q)) /\
    Forall (fun x : string * Puller => pl_puller_id x.2 = x.1 /\ pl_pusher_id x.2 = pl_pusher_id q) (pullers_of k (pl_pusher_id q))).
  { unfold pullers_of. destruct (StrMap.find _ _) as [m|] eqn:E; cbn; [|split; [apply StrMap.sorted_nil|done]].
    exact (StrMap.entries_find _ _ _ _ H4 E). }
  destruct Hq as [Hs Hq]. split_and!; try done; [by apply StrMap.ordered_set|]. apply StrMap.entries_set; [|done]. cbn.
  split; [by apply StrMap.ordered_set|by apply StrMap.entries_set].
Qed.
Lemma add_track_moves k0 n id info k : moves k0 k -> moves k0 (add_track n id info k).
Proof. intros Hk. apply moves_on_user; [done|]. intros u. split_and!; try done. by apply StrMap.ordered_set. Qed.

Lemma event_stays k0 k ev : moves k0 k -> wf k -> stays (moves k0) (happens k ev).
Proof.
  intros Hk Hwf. destruct ev; cbn [happens]; try (apply stays_ret); try (unfold ignore; apply then_ret).
  - by apply UserJoin_stays.
  - by apply WhipUserJoin_stays.
  - by apply DisconnectUser_stays.
  - by apply HandleWsHeartbeat_moves.
  - by apply OnTimer_stays.
  - apply stays_bind; [by apply notify_stays|]. intros. by apply to_pilot_stays.
  - by apply OnAsyncRequestResponse_stays.
  - by apply HandleNewUser_stays.
  - by apply HandleNewPusher_stays.
  - by apply HandlePullRemoteStream_stays.
  - by apply HandleUserDisconnect_stays.
  - by apply HandleUserLeave_stays.
  - by apply HandleText_stays.
  - by apply OnRtpPacketFromRtcPusher_stays.
  - by apply OnKeyFrameRequest_stays.
  - by apply OnPushClose_moves.
  - by apply OnPullClose_moves.
  - by apply RecvRelayRead_stays.
  - by apply SendRelayRead_stays.
  - apply stays_handled; [by apply on_recv_relay_stays|]. intros. by apply relay_write_stays.
  - apply stays_handled; [by apply on_send_relay_stays|]. intros. by apply relay_write_stays.
  - by apply PullRemotePusher_stays.
  - by apply add_pusher_moves.
  - by apply add_puller_moves.
  - by apply add_track_moves.
  - eapply moves_move; [done|]. apply mv_close.
Qed.

(** What a room becomes, as long as nothing undefined happens. *)
Inductive becomes (k0 : t) : t -> Prop :=
  | becomes_same : becomes k0 k0
  | becomes_step k ev : becomes k0 k -> defined (outcome (happens k ev)) -> becomes k0 (final (happens k ev)).

Lemma becomes_moves k0 k : wf k0 -> becomes k0 k -> moves k0 k.
Proof.
  intros Hwf. induction 1 as [|k ev _ IH Hd]; [done|]. apply (event_stays k0 k ev); [done|by eapply moves_wf|done].
Qed.
Lemma room_wf_new room pilot n : wf (new_Room room pilot n).
Proof.
  assert (Hp : forall n, places_ok n []) by (split; [apply StrMap.sorted_nil|done]).
  split; try apply Hp; cbn; [split; [apply StrMap.sorted_nil|done]|split_and!; try done; apply StrMap.sorted_nil].
Qed.

Lemma becomes_wf room pilot n k : becomes (new_Room room pilot n) k -> wf k.
Proof. intros H. pose proof (room_wf_new room pilot n) as Hwf. exact (moves_wf _ _ (becomes_moves _ _ Hwf H) Hwf). Qed.

(** * Properties *)

(** C21: the invariant of a room.  Whatever joins, leaves, messages of the pilot centre,
    packets, relay datagrams, key frame requests and timer ticks come, in whatever order:
    every user, publisher and subscriber is filed under its own id, a subscriber under the
    publisher it subscribed to, every map stays a map in the order of its keys, and every
    entry for a relay refers to one that exists. *)
Theorem room_invariant (room_id : string) (pilot_client : bool) (now : Z) (k : t) :
  becomes (new_Room room_id pilot_client now) k -> wf k.
Proof.
  exact (becomes_wf room_id pilot_client now k).
Qed.

Lemma awake_alive n k : users_ k <> [] -> last_alive_ms_ (awake n k) = n.
Proof. unfold awake. by destruct (users_ k). Qed.
Lemma release_all_alive n ids k : last_alive_ms_ k = n -> last_alive_ms_ (release_all n ids k) = n.
Proof. revert k. induction ids as [|id ids IH]; intros k Hk; [done|]. apply IH. cbn. by destruct (pilot_client_ k). Qed.

(** C29: a user of another server, once known, is never forgotten: no event takes it out of
    the room, not even the pilot centre's message that it left, and as long as it is there
    every tick of the timer counts as activity, so the room never times out. *)
Theorem remote_user_stays (k0 k : t) (id : string) :
  wf k0 -> has_remote id k0 -> becomes k0 k ->
  has_remote id k /\
  forall now later, later < now + ROOM_TIMEOUT_MS -> IsAlive later (final (OnTimer now k)) = true.
Proof.
  intros Hwf Hr Hb. pose proof (becomes_moves k0 k Hwf Hb) as Hm. pose proof (moves_wf _ _ Hm Hwf) as Hwf'.
  pose proof (moves_remote id _ _ Hm Hwf Hr) as Hr'. split; [exact Hr'|]. intros n later Hl.
  destruct (OnTimer_eq n k Hwf') as [-> _]. unfold final, IsAlive. cbn [fst sweep_relays with_recv last_alive_ms_].
  rewrite release_all_alive; [apply Z.ltb_lt; lia|]. apply awake_alive. intros E. destruct Hr' as (u & Hf & _). by rewrite E in Hf.
Qed.

(** C28: a room that fell silent ends.  When every user is local and timed out, the next tick
    empties the room; further ticks change nothing and tell nobody anything, and 90 seconds
    after the tick the room no longer counts as alive. *)
Theorem silent_room_ends (k : t) (now : Z) :
  wf k -> (forall id u, StrMap.find id (users_ k) = Some u -> timed_out now u = true) -> last_alive_ms_ k <= now ->
  exists k' es, OnTimer now k = (k', es, Ok tt) /\ users_ k' = [] /\
    forall later, now + ROOM_TIMEOUT_MS <= later ->
      IsAlive later k' = false /\ calls (OnTimer later k') = [] /\ IsAlive later (final (OnTimer later k')) = false.
Proof.
  intros Hwf Hall Hn. destruct (OnTimer_eq now k Hwf) as [E Hm]. pose proof (moves_wf _ _ Hm Hwf) as Hwf'.
  set (k' := sweep_relays now _) in *. eexists k', _. split; [exact E|].
  pose proof (wf_users k Hwf) as [Hs _].
  assert (Hu : users_ (awake now k) = users_ k) by (unfold awake; by destruct (users_ k) eqn:Eu).
  assert (Hwa : wf (awake now k)) by (unfold awake; destruct (users_ k); [done|eapply move_wf; [apply mv_alive|done]]).
  assert (He : users_ k' = []).
  { destruct (users_ k') as [|[id u] m] eqn:Eu; [done|exfalso].
    assert (Hf : StrMap.find id (users_ k') = Some u) by (rewrite Eu; cbn; by rewrite String.eqb_refl).
    cbn [k' sweep_relays with_recv users_] in Hf. rewrite release_all_users in Hf; [|done| |].
    - destruct (decide (id ∈ silent now k)) as [|Hni]; [done|]. rewrite Hu in Hf. apply Hni.
      apply elem_keys_of; [done|]. exists u. split; [done|]. by eapply Hall.
    - unfold silent, keys_of. apply (StrMap.sorted_NoDup (filter _ (users_ k))). by apply sorted_filter.
    - apply Forall_forall. intros x Hx. apply elem_keys_of in Hx as (v & Hv & Ht); [|done]. exists v. rewrite Hu. split; [done|].
      unfold timed_out in Ht. by destruct (RtcUser.is_remote_ v). }
  assert (Hlast : last_alive_ms_ k' <= now).
  { cbn [k' sweep_relays with_recv last_alive_ms_]. destruct (users_ k) eqn:Eu.
    - unfold silent. rewrite Eu. cbn. unfold awake. by rewrite Eu.
    - rewrite release_all_alive; [done|]. apply awake_alive. by rewrite Eu. }
  split; [exact He|]. intros later Hl.
  assert (Hd : IsAlive later k' = false) by (unfold IsAlive; apply Z.ltb_ge; lia). split; [exact Hd|].
  destruct (OnTimer_eq later k' Hwf') as [-> _]. unfold silent, awake. rewrite He. cbn [keys_of filter list_filter release_all farewells fmap list_fmap].
  split; [done|]. exact Hd.
Qed.

(** ** Timeouts *)

Definition subscription (k : t) (pusher_id puller_id : string) : option Puller :=
  StrMap.find puller_id (pullers_of k pusher_id).

Lemma find_without id x m :
  StrMap.find x (without id m) =
    option_map (fun l => filter (fun q : string * Puller => pl_user_id q.2 <> id) l) (StrMap.find x m).
Proof. apply (find_map (fun l => filter (fun q : string * Puller => pl_user_id q.2 <> id) l)). Qed.

Lemma find_filter_ne id y (l : list (string * Puller)) :
  StrMap.sorted l ->
  StrMap.find y (filter (fun q : string * Puller => pl_user_id q.2 <> id) l) =
    match StrMap.find y l with Some q => if String.eqb (pl_user_id q) id then None else Some q | None => None end.
Proof.
  intros Hs. replace (filter (fun q : string * Puller => pl_user_id q.2 <> id) l)
    with (filter (fun q : string * Puller => negb (String.eqb (pl_user_id q.2) id) = true) l).
  - rewrite (find_filter (fun q => negb (String.eqb (pl_user_id q) id))) by done.
    destruct (StrMap.find y l) as [q|]; [|done]. by destruct (String.eqb _ _).
  - apply list_filter_iff. intros [z q]. cbn. destruct (String.eqb_spec (pl_user_id q) id); cbn; split; congruence.
Qed.

Lemma released_streams n id k :
  wf k ->
  (forall x, StrMap.find x (pusherId2pusher_ (released n id k)) =
    match StrMap.find x (pusherId2pusher_ k) with
    | Some p => if String.eqb (ps_user_id p) id then None else Some p
    | None => None
    end) /\
  (forall x y, subscription (released n id k) x y =
    if String.eqb x id then None else
    match subscription k x y with
    | Some q => if String.eqb (pl_user_id q) id then None else Some q
    | None => None
    end) /\
  (forall x, StrMap.find x (pusher_user_id2sendRelay_ (released n id k)) =
    if String.eqb x id then None else StrMap.find x (pusher_user_id2sendRelay_ k)).
Proof.
  intros Hwf. pose proof (wf_streams k Hwf) as (H1 & H2 & H3 & H4). split_and!.
  - intros x. cbn [released pusherId2pusher_]. rewrite find_erase_all by done. case_decide as Hin.
    + apply elem_keys_of in Hin as (p & -> & ->); done.
    + destruct (StrMap.find x _) as [p|] eqn:E; [|done]. destruct (String.eqb (ps_user_id p) id) eqn:Ei; [|done].
      exfalso. apply Hin. apply elem_keys_of; [done|]. by exists p.
  - intros x y. unfold subscription, pullers_of. cbn [released pusher2pullers_].
    rewrite StrMap.find_in_erase by (by apply sorted_map). destruct (String.eqb x id); [done|].
    rewrite find_without. destruct (StrMap.find x (pusher2pullers_ k)) as [l|] eqn:E; cbn [option_map default]; [|done].
    apply find_filter_ne. exact (proj1 (StrMap.entries_find _ _ _ _ H4 E)).
  - intros x. apply StrMap.find_in_erase. apply (wf_send_by_user k Hwf).
Qed.

(** The streams, subscriptions and sending relays of the released users are gone, those of
    the others are as they were. *)
Record freed (ids : list string) (k k' : t) : Prop := {
  fr_users : forall x, StrMap.find x (users_ k') = if decide (x ∈ ids) then None else StrMap.find x (users_ k);
  fr_pushers : forall x p, StrMap.find x (pusherId2pusher_ k') = Some p <->
    StrMap.find x (pusherId2pusher_ k) = Some p /\ ps_user_id p ∉ ids;
  fr_pullers : forall x y q, subscription k' x y = Some q <->
    subscription k x y = Some q /\ pl_user_id q ∉ ids /\ x ∉ ids;
  fr_send : forall x, StrMap.find x (pusher_user_id2sendRelay_ k') =
    if decide (x ∈ ids) then None else StrMap.find x (pusher_user_id2sendRelay_ k)
}.

Lemma release_all_freed n ids k :
  wf k -> NoDup ids -> local_users ids k -> freed ids k (release_all n ids k).
Proof.
  intros Hwf Hnd Hl. assert (Hu := fun x => release_all_users n ids k x Hwf Hnd Hl).
  revert k Hwf Hl Hu. induction ids as [|id ids IH]; intros k Hwf Hl Hu; cbn [release_all] in *.
  { split; [done|..]; intros; rewrite ?decide_False by set_solver; try done; set_solver. }
  apply NoDup_cons in Hnd as [Hin Hnd]. pose proof Hl as Hl0. apply Forall_cons in Hl as [(u & Hf & Hr) Hl].
  pose proof (moves_wf _ _ (released_moves n id k u Hf Hr) Hwf) as Hwf'.
  assert (Hl' : local_users ids (released n id k)).
  { apply Forall_forall. intros y Hy. unfold local_users in Hl. rewrite Forall_forall in Hl. destruct (Hl y Hy) as (v & Hv & Hrv).
    exists v. split; [|done]. cbn. rewrite StrMap.find_in_erase_ne; [done|apply (wf_users k Hwf)|set_solver]. }
  destruct (IH Hnd (released n id k) Hwf' Hl') as [_ F2 F3 F4]; [by intros x; apply release_all_users|].
  destruct (released_streams n id k Hwf) as (S1 & S2 & S3). split.
  - exact Hu.
  - intros x p. rewrite F2, S1, not_elem_of_cons. destruct (StrMap.find x (pusherId2pusher_ k)) as [p'|]; [|naive_solver].
    destruct (String.eqb_spec (ps_user_id p') id); naive_solver.
  - intros x y q. rewrite F3, S2, !not_elem_of_cons. destruct (String.eqb_spec x id) as [->|]; [naive_solver|].
    destruct (subscription k x y) as [q'|]; [|naive_solver]. destruct (String.eqb_spec (pl_user_id q') id); naive_solver.
  - intros x. rewrite F4, S3. destruct (String.eqb_spec x id) as [->|Hne].
    + rewrite (decide_True (P := id ∈ id :: ids)) by set_solver. by case_decide.
    + destruct (decide (x ∈ ids)); [by rewrite decide_True by set_solver|by rewrite decide_False by set_solver].
Qed.

(** Who stays and can be reached hears of everyone who goes. *)
Lemma farewells_told n ids k id x u cb :
  wf k -> NoDup ids -> local_users ids k -> id ∈ ids -> x ∉ ids ->
  StrMap.find x (users_ k) = Some u -> RtcUser.is_remote_ u = false -> RtcUser.resp_cb_ u = Some cb ->
  Notification cb "userLeave" (leave_json k id) ∈ farewells n ids k.
Proof.
  revert k. induction ids as [|y ids IH]; intros k Hwf Hnd Hl Hid Hx Hu Hr Hcb; [set_solver|].
  apply NoDup_cons in Hnd as [Hin Hnd]. apply Forall_cons in Hl as [(v & Hv & Hrv) Hl]. apply not_elem_of_cons in Hx as [Hxy Hx].
  cbn [farewells]. apply elem_of_app. apply elem_of_cons in Hid as [->|Hid].
  - left. unfold farewell. apply elem_of_app. left. apply list_elem_of_fmap. exists cb. split; [done|].
    unfold connections. apply list_elem_of_omap. exists (x, u). split; [by apply StrMap.find_elem|]. unfold others. cbn.
    rewrite (proj2 (String.eqb_neq x y)), Hr by done. done.
  - right. change (leave_json k id) with (leave_json (released n y k) id).
    apply IH; try done; [by eapply moves_wf; [eapply released_moves|]| |].
    + apply Forall_forall. intros z Hz. unfold local_users in Hl. rewrite Forall_forall in Hl. destruct (Hl z Hz) as (w & Hw & Hrw).
      exists w. split; [|done]. cbn. rewrite StrMap.find_in_erase_ne; [done|apply (wf_users k Hwf)|set_solver].
    + cbn. rewrite StrMap.find_in_erase_ne; [done|apply (wf_users k Hwf)|done].
Qed.


(** ** Joining *)

Lemma besides_set id u m : besides id (StrMap.set id u m) = besides id m.
Proof.
  assert (Hskip : forall v r, besides id ((id, v) :: r) = besides id r).
  { intros v r. unfold besides. rewrite filter_cons_False by (cbn; tauto). done. }
  induction m as [|[y v] m IH]; cbn [StrMap.set]; [apply Hskip|].
  destruct (String.compare id y) eqn:Ec.
  - apply String.compare_eq_iff in Ec as <-. by rewrite !Hskip.
  - apply Hskip.
  - assert (id <> y) by (intros ->; by rewrite StrMap.compare_refl in Ec).
    unfold besides in *. rewrite !filter_cons_True by (cbn; congruence). cbn. by rewrite IH.
Qed.

(** C24: someone new joins an open room.  The pilot centre is asked to let the user in, the
    newcomer is answered with everybody else who is not in the audience and what each of
    them publishes, and unless it is in the audience itself every other local user with a
    connection is told of it, once.  The newcomer is in the room, reachable on its
    connection, and nobody else changes. *)
Theorem join_announced (k : t) (now : Z) (user_id user_name : string) (audience : bool) (id : Z) (resp_cb : nat) :
  closed_ k = false -> StrMap.find user_id (users_ k) = None ->
  let new_user := RtcUser.new_RtcUser user_id user_name audience (Some resp_cb) now in
  exists k', UserJoin now user_id user_name audience id resp_cb k =
    (k', (if pilot_client_ k then
            [AsyncRequest "join" (obj [("roomId", Json.Str (room_id_ k)); ("userId", Json.Str user_id);
               ("userName", Json.Str user_name); ("audience", Json.Bool audience)])] else []) ++
         [OnProtooResponse resp_cb id 0 EmptyString (join_json (filter (fun u => RtcUser.audience_ u = false) (besides user_id (users_ k))))] ++
         (if audience then [] else
            map (fun cb => Notification cb "newUser" (Json.Arr [obj [("userId", Json.Str user_id); ("userName", Json.Str user_name);
              ("pushers", Json.Arr [])]])) (connections (others user_id) (users_ k))), Ok 0) /\
    k' = set_user (with_alive k now) user_id new_user.
Proof.
  intros Hc Hf new_user. eexists. split; [|reflexivity]. unfold UserJoin. rewrite Hc. cbn [with_alive users_]. rewrite Hf.
  fold new_user. set (k1 := set_user (with_alive k now) user_id new_user).
  assert (Hu : users_ k1 = StrMap.set user_id new_user (users_ k)) by done.
  assert (Hn : forall k2, k2 = k1 \/ k2 = with_alive k1 now -> k2 = k1) by (intros k2 [->| ->]; done).
  assert (HJ : Join2PilotCenter now new_user k1 = (k1, if pilot_client_ k then
            [AsyncRequest "join" (obj [("roomId", Json.Str (room_id_ k)); ("userId", Json.Str user_id);
               ("userName", Json.Str user_name); ("audience", Json.Bool audience)])] else [], Ok tt)).
  { unfold Join2PilotCenter, to_pilot. change (pilot_client_ k1) with (pilot_client_ k). by destruct (pilot_client_ k). }
  rewrite HJ. cbn [ebind emit]. rewrite Hu, besides_set. destruct audience; cbn [negb ebind eret app].
  - by rewrite ?app_nil_r.
  - unfold NotifyNewUser. rewrite Hu, StrMap.find_in_set_eq. unfold notify.
    cbn [with_alive users_ emit ebind eret]. rewrite Hu, connections_set. cbn [app]. by rewrite ?app_nil_r.
Qed.

(** Rejoining answers the new connection, but does not attach it to the user: one that was
    disconnected stays without a connection, and is told nothing. *)
Lemma rejoin_keeps_connection k now user_id user_name audience id resp_cb u :
  closed_ k = false -> StrMap.find user_id (users_ k) = Some u -> RtcUser.user_id_ u = user_id ->
  exists k' es, UserJoin now user_id user_name audience id resp_cb k = (k', es, Ok 0) /\
    StrMap.find user_id (users_ k') = Some (RtcUser.SetAudience u audience).
Proof.
  intros Hc Hf Hid. unfold UserJoin. rewrite Hc. cbn [with_alive users_]. rewrite Hf. unfold ReConnect, notify.
  cbn [RtcUser.SetAudience RtcUser.user_id_]. set (k1 := set_user _ _ _). cbn [emit ebind].
  exists k1. destruct (pilot_client_ k1); cbn [emit eret ebind]; eexists; (split; [reflexivity|]); cbn; apply StrMap.find_in_set_eq.
Qed.

(** ** Fan-out *)

Definition beat (n : Z) (ids : list string) (k : t) : t :=
  foldl (fun k id => on_user k id (RtcUser.UpdateHeartbeat n)) k ids.
Definition lent (c : RtpPacket.t) (l : list (string * Puller)) : list call := map (fun q : string * Puller => PullerSend q.2 c) l.

Lemma lend_loop e pkt c l k :
  RtpPacket.Clone (now e) (fresh e) pkt None = Ok c ->
  efor l k (lend e pkt) = (beat (now e) (map (fun q : string * Puller => pl_user_id q.2) l) k, lent c l, Ok tt).
Proof.
  intros Hc. revert k. induction l as [|q l IH]; intros k; [done|]. cbn [efor]. unfold lend at 1. rewrite Hc, ebind_ok.
  cbn [emit ebind eret app]. by rewrite IH.
Qed.
Lemma on_user_eq k id f : on_user k id f = with_users k (users_ (on_user k id f)).
Proof. unfold on_user. destruct (StrMap.find id (users_ k)); by destruct k. Qed.
Lemma beat_eq n ids k : beat n ids k = with_users k (users_ (beat n ids k)).
Proof.
  revert k. induction ids as [|id ids IH]; intros k; [by destruct k|]. cbn [beat foldl]. change (foldl _ ?k ids) with (beat n ids k).
  rewrite IH, on_user_eq. done.
Qed.
Lemma beat_users n ids k x :
  StrMap.find x (users_ (beat n ids k)) =
    option_map (fun u => if decide (x ∈ ids) then RtcUser.UpdateHeartbeat n u else u) (StrMap.find x (users_ k)).
Proof.
  revert k. induction ids as [|id ids IH]; intros k; cbn [beat foldl].
  { destruct (StrMap.find x (users_ k)); [|done]. cbn. by rewrite decide_False by apply not_elem_of_nil. }
  change (foldl _ ?k ids) with (beat n ids k). rewrite IH. unfold on_user.
  destruct (decide (x = id)) as [->|Hne].
  - destruct (StrMap.find id (users_ k)) as [u|] eqn:E; [|by rewrite E]. cbn [set_user with_users users_]. rewrite StrMap.find_in_set_eq. cbn.
    rewrite (decide_True (P := id ∈ id :: ids)) by left. by case_decide.
  - assert (H : StrMap.find x (users_ (match StrMap.find id (users_ k) with
      Some u => set_user k id (RtcUser.UpdateHeartbeat n u) | None => k end)) = StrMap.find x (users_ k)).
    { destruct (StrMap.find id (users_ k)); [|done]. cbn. by rewrite StrMap.find_in_set_ne. }
    rewrite H. destruct (StrMap.find x (users_ k)); [|done]. cbn. f_equal.
    destruct (decide (x ∈ ids)); [by rewrite decide_True by set_solver|by rewrite decide_False by set_solver].
Qed.

Lemma clone_of e pkt k0 now0 :
  RtpPacket.wf pkt -> (1 <= RtpPacket.data_len pkt < 1500)%nat -> bytes (fresh e) -> length (fresh e) = 1500%nat ->
  RtpPacket.Parse now0 (RtpPacket.data pkt) (RtpPacket.data_len pkt) = Ok k0 ->
  exists c, RtpPacket.Clone (now e) (fresh e) pkt None = Ok c /\ RtpPacket.wf c /\ RtpPacket.GetData c = RtpPacket.GetData pkt /\
    RtpPacket.data_len c = RtpPacket.data_len pkt /\ RtpPacket.view_of c = RtpPacket.view_of k0 /\
    RtpPacket.payload_len c = RtpPacket.payload_len k0 /\
    exists c0, RtpPacket.Parse now0 (RtpPacket.data c) (RtpPacket.data_len c) = Ok c0 /\ RtpPacket.view_of c0 = RtpPacket.view_of k0 /\
      RtpPacket.payload_len c0 = RtpPacket.payload_len k0.
Proof.
  intros Hp Hl Hb Hbl HP.
  destruct (RtpPacket.Clone_ok (now e) now0 (fresh e) pkt k0 None Hp Hb ltac:(lia) ltac:(lia) HP) as (d' & Hsp & Hl' & HC & Hwf).
  pose proof (RtpPacketEdits.Clone_sound (now e) (fresh e) pkt (RtpPacketEdits.wf_sound pkt Hp) ltac:(lia) Hb ltac:(lia)) as HS.
  rewrite HC in HS. destruct HS as (_ & _ & Hdl & Hgd & _). set (c := RtpPacket.mk _ _ _ _ _ _ _ _ _ _ _ _ _) in *.
  pose proof (RtpPacket.wf_len pkt Hp) as Hle.
  assert (Hn : length (RtpPacket.GetData pkt) = RtpPacket.data_len pkt) by (unfold RtpPacket.GetData; rewrite length_take; lia).
  destruct (Relay.arrived now0 now0 pkt k0 d' Hp ltac:(lia) HP (RtpPacket.wf_bytes c Hwf)) as (Hpc & _ & Hv).
  { rewrite Hn. exact Hgd. }
  rewrite Hn in Hpc. exists c. split_and!; try done. eexists. split; [exact Hpc|]. by split.
Qed.


(** ** Across servers *)

(** What the room [kA] sends for its user's track, and what the room [kB] of the other server
    expects: the sending relay and its session, the receiving relay and its session. *)
Record linked (kA kB : t) (user_id : string) (ssrc : Z) (i si j sj : nat) (a : RtcSendRelay.t) (s : RtpSendSession.t)
    (b : RtcRecvRelay.t) (r : RtpRecvSession.t) (info : PushInfo) : Prop := {
  ln_relay : StrMap.find user_id (pusher_user_id2sendRelay_ kA) = Some i;
  ln_a : send_relays kA !! i = Some a;
  ln_a_discard : RtcSendRelay.send_discard_percent_ a <= 0;
  ln_session : RtcSendRelay.session_of a ssrc = Some si;
  ln_s : RtcSendRelay.store a !! si = Some s;
  ln_s_wf : RtpSendSession.wf s;
  ln_s_cf : RtpSendSession.configured s;
  ln_b : recv_relays kB !! j = Some b;
  ln_b_discard : RtcRecvRelay.recv_discard_percent_ b = 0;
  ln_find : StdMap.find ssrc (RtcRecvRelay.ssrc2recv_session_ b) = Some sj;
  ln_r : RtcRecvRelay.store b !! sj = Some r;
  ln_r_wf : RtpRecvSession.wf r;
  ln_info : StdMap.find ssrc (RtcRecvRelay.ssrc2push_infos_ b) = Some info
}.

Lemma remote_fan_out e user_id pusher_id pkt k0 now0 k :
  RtpPacket.wf pkt -> (1 <= RtpPacket.data_len pkt < 1500)%nat -> bytes (fresh e) -> length (fresh e) = 1500%nat ->
  RtpPacket.Parse now0 (RtpPacket.data pkt) (RtpPacket.data_len pkt) = Ok k0 ->
  exists c k', OnRtpPacketFromRemoteRtcPusher e user_id pusher_id pkt k = (k', lent c (pullers_of k pusher_id), Ok tt) /\
    RtpPacket.wf c /\ RtpPacket.view_of c = RtpPacket.view_of k0.
Proof.
  intros Hp Hl Hf Hfl HP. destruct (clone_of e pkt k0 now0 Hp Hl Hf Hfl HP) as (c & Hc & Hcw & Hcd & _ & Hcv & _).
  unfold OnRtpPacketFromRemoteRtcPusher. set (k1 := on_user _ _ _).
  assert (E1 : k1 = with_users (with_alive k (now e)) (users_ k1)) by apply on_user_eq.
  assert (Hpl : pullers_of k1 pusher_id = pullers_of k pusher_id) by (unfold pullers_of; by rewrite E1).
  rewrite (lend_loop e pkt c) by done. rewrite Hpl. exists c. by eexists.
Qed.


(** * Witnesses *)

(** Alice and Bob join; Bob subscribes to the track that Alice publishes, and another server
    relays it; Carol is on the other server. *)
Definition empty_room : t := new_Room "r" true 0.
Definition alice_in : t := final (happens empty_room (Join 0 "alice" "Alice" false 1 10)).
Definition both_in : t := final (happens alice_in (Join 1000 "bob" "Bob" false 1 20)).
Definition carol_in : t :=
  final (happens both_in (CenterNewUser 2000 (obj [("userId", Json.Str "carol"); ("userName", Json.Str "Carol")]))).
Definition bob_puller : Puller := mk_puller 1 0 "bob" "q1" "p1".
Definition subscribed : t := final (happens both_in (NewPuller bob_puller)).
Definition relaying : t := with_send subscribed [Relay.sender] [("alice", 0%nat)].
Definition other_server : t := with_recv subscribed [Relay.receiver] [("p1", 0%nat)] [("alice", 0%nat)].
Definition sample_env : env := mk_env 5000 (replicate 1500 0) (replicate 1500 0) "10.0.0.1" 0 0 40000 [].

Lemma both_becomes : becomes empty_room both_in.
Proof. apply (becomes_step _ alice_in); [apply (becomes_step _ empty_room); [constructor|done]|done]. Qed.
Lemma carol_becomes : becomes empty_room carol_in.
Proof. apply (becomes_step _ both_in); [exact both_becomes|done]. Qed.

Lemma room_invariant_witness : becomes empty_room carol_in /\ wf carol_in.
Proof. split; [exact carol_becomes|]. exact (room_invariant "r" true 0 carol_in carol_becomes). Defined.

Lemma remote_user_stays_witness :
  let k := final (happens carol_in (CenterLeave (obj [("userId", Json.Str "carol")]))) in
  has_remote "carol" k /\ IsAlive 1089999 (final (OnTimer 1000000 k)) = true.
Proof.
  intros k. destruct (remote_user_stays carol_in k "carol") as [Hr Ha].
  - exact (becomes_wf _ _ _ _ carol_becomes).
  - eexists. split; vm_compute; reflexivity.
  - apply (becomes_step _ carol_in); [constructor|done].
  - split; [exact Hr|]. apply Ha. vm_compute. reflexivity.
Defined.

Lemma silent_room_ends_witness :
  exists k' es, OnTimer 100000 both_in = (k', es, Ok tt) /\ users_ k' = [] /\ IsAlive 190000 k' = false.
Proof.
  destruct (silent_room_ends both_in 100000) as (k' & es & E & Hu & Hl).
  - exact (becomes_wf _ _ _ _ both_becomes).
  - intros id u Hf. apply StrMap.find_elem in Hf. change (users_ both_in) with
      [("alice", RtcUser.new_RtcUser "alice" "Alice" false (Some 10%nat) 0);
       ("bob", RtcUser.new_RtcUser "bob" "Bob" false (Some 20%nat) 1000)] in Hf.
    apply elem_of_cons in Hf as [[= -> ->]|[[= -> ->]|[]%not_elem_of_nil]%elem_of_cons]; reflexivity.
  - vm_compute. discriminate.
  - exists k', es. split; [exact E|]. split; [exact Hu|]. apply Hl. vm_compute. discriminate.
Defined.


Lemma join_announced_witness :
  exists k' es, UserJoin 1000 "bob" "Bob" false 1 20 alice_in = (k', es, Ok 0) /\
    k' = both_in /\ Notification 10 "newUser" (Json.Arr [obj [("userId", Json.Str "bob"); ("userName", Json.Str "Bob");
      ("pushers", Json.Arr [])]]) ∈ es.
Proof.
  destruct (join_announced alice_in 1000 "bob" "Bob" false 1 20) as (k' & E & Hk); [reflexivity|reflexivity|].
  do 2 eexists. split; [exact E|]. split; [rewrite Hk; reflexivity|]. right. right. by left.
Defined.

Lemma numbered_parses s :
  s = 9 -> exists k0, RtpPacket.Parse 5 (RtpPacket.data (RtpPacket.numbered s)) (RtpPacket.data_len (RtpPacket.numbered s)) = Ok k0 /\
    (0 < RtpPacket.payload_len k0)%nat.
Proof. intros ->. eexists. split; [vm_compute; reflexivity|]. cbn. lia. Qed.



End Room.
