(* ===== verification/Sfu.v ===== *)
(** The composition: a room of [webrtc_room/room.cpp] and the UDP server with the sessions of
    [webrtc_server.cpp].  The calls of each on the other are carried out, a datagram is
    followed from the socket through its session and the room to the sessions of the
    subscribers; and the requests that make sessions: [HandlePushSdp], [HandleWhipPushSdp],
    [HandlePullSdp] and [HandleRemotePullSdp]. *)
From stdpp Require Import gmap sets.
From S2P Require Import Prelude Effect ByteStream ByteCrypto IpAddress RtpPub IceServer StdMap StrMap Text RtpPacket RtpPacketEdits.
From S2P Require Import RtpSession RtpSendSession RtpRecvSession RtcInfo Sdp MediaPusher MediaPuller RtcRelay.
From S2P Require Import SrtpSession WebRtcSession WebRtcServer Room.

Import RtcInfo.

Module Sfu.

Abbreviation UdpTuple := IceServer.UdpTuple.

(** What leaves the two: messages and the relays' datagrams from the room; from the server
    the datagrams of sessions, and what they call on DTLS, the voice agent and other rooms. *)
Inductive call := OfRoom (c : Room.call) | OfServer (c : WebRtcServer.call).

Section Sfu.
Context {Ls : LibSrtp} {Ev : EvpMac} {In : Inet}.

Record t := mk { room : Room.t; server : WebRtcServer.t }.

Record env := mk_env { of_session : WebRtcSession.env; of_room : Room.env }.

(** ** The calls on each other *)

Definition on_server {A} (k : t) (m : eff WebRtcServer.t WebRtcServer.call A) : eff t WebRtcServer.call A := zoom (mk (room k)) m.
Definition on_room {A} (k : t) (m : eff Room.t Room.call A) : eff t Room.call A := zoom (fun r => mk r (server k)) m.

(** What the room calls on sessions: these only write datagrams.  What lending a packet
    throws is caught where it is lent. *)
Definition from_room (e : env) (k : t) (c : Room.call) : eff t call unit :=
  match c with
  | Room.PullerSend q pkt =>
      ecatch (rename_calls OfServer (on_server k (WebRtcServer.on_session (server k) (Room.pl_session q)
                (fun s => WebRtcSession.PullerSendRtp (of_session e) s (Room.pl_index q) pkt))))
             (fun k => eret k tt)
  | Room.RequestKeyFrame p ssrc =>
      rename_calls OfServer (on_server k (WebRtcServer.on_session (server k) (Room.ps_session p)
        (fun s => WebRtcSession.PusherRequestKeyFrame (of_session e) s (Room.ps_index p) ssrc)))
  | _ => emit k [OfRoom c]
  end.
Definition in_room {A} (e : env) (k : t) (f : Room.t -> eff Room.t Room.call A) : eff t call A :=
  handled (from_room e) (on_room k (f (room k))).

(** What a session calls on its room. *)
Definition from_session (e : env) (k : t) (i : nat) (c : WebRtcSession.call) : eff t call unit :=
  match c with
  | WebRtcSession.RtpPacketFromRtcPusher user_id _ pusher_id pkt =>
      in_room e k (Room.OnRtpPacketFromRtcPusher (of_room e) user_id pusher_id pkt)
  | WebRtcSession.KeyFrameRequest pusher_id _ pusher_user_id ssrc =>
      in_room e k (Room.OnKeyFrameRequest (of_room e) pusher_id pusher_user_id ssrc)
  | WebRtcSession.PushClose pusher_id => in_room e k (fun r => eret (Room.OnPushClose pusher_id r) tt)
  | WebRtcSession.PullClose puller_id => in_room e k (fun r => eret (Room.OnPullClose puller_id r) tt)
  | _ => emit k [OfServer (WebRtcServer.FromSession i c)]
  end.
(** Sessions of other rooms call theirs. *)
Definition of_this_room (k : t) (i : nat) : bool :=
  match WebRtcServer.sessions (server k) !! i with
  | Some s => String.eqb (WebRtcSession.room_id_ s) (Room.room_id_ (room k))
  | None => false
  end.
Definition from_server (e : env) (k : t) (c : WebRtcServer.call) : eff t call unit :=
  match c with
  | WebRtcServer.FromSession i s => if of_this_room k i then from_session e k i s else emit k [OfServer c]
  | WebRtcServer.UdpWrite _ _ => emit k [OfServer c]
  end.
Definition in_server {A} (e : env) (k : t) (f : WebRtcServer.t -> eff WebRtcServer.t WebRtcServer.call A) : eff t call A :=
  handled (from_server e) (on_server k (f (server k))).

(** A datagram on the server's port. *)
Definition OnRead (e : env) (k : t) (data : buf) (len : nat) (address : UdpTuple) : eff t call unit :=
  in_server e k (fun s => WebRtcServer.OnRead (of_session e) s data len address).

(** ** Sessions for requests *)

(** What a request draws and finds: the results of [MakeUUID2] by call site, the ICE
    credentials, what DTLS answers, the configured candidates with their random foundation,
    and [MakeNumString(10)]. *)
Record request := mk_request {
  uuid : nat -> string;
  ice : IceServer.t; draws : list Z;
  dtls_init : Z; dtls_run : Z; local_fp : string;
  rtc_candidates_ : list IceCandidate; num : string
}.

Definition ROLE_CLIENT : Z := 2.
Definition ROLE_SERVER : Z := 3.

Definition text (s : list Z) : string := String.string_of_list_ascii (map (fun c => Ascii.ascii_of_N (Z.to_N c)) s).

Definition alive (e : env) (k : t) : t := mk (Room.with_alive (room k) (Room.now (of_room e))) (server k).
Definition with_session (k : t) (i : nat) (s : WebRtcSession.t) : t := mk (room k) (WebRtcServer.with_session (server k) i s).

(** [make_shared<WebRtcSession>], [DtlsInit] and [SetUserName2Session]. *)
Definition new_session (e : env) (q : request) (type : SrtpSession.SRtpType) (user_id : string) (k : t) : WebRtcSession.t :=
  WebRtcSession.new_WebRtcSession type (Room.room_id_ (room k)) user_id (uuid q 0) (ice q)
    (WebRtcSession.now (of_session e)) (draws q).
Definition open_session (e : env) (q : request) (type : SrtpSession.SRtpType) (role : Z) (finger_print user_id : string)
    (k : t) : eff t call nat :=
  let i := length (WebRtcServer.sessions (server k)) in
  let s := new_session e q type user_id k in
  let k := mk (room k) (WebRtcServer.mk (WebRtcServer.sessions (server k) ++ [s])
                          (WebRtcServer.username2sessions_ (server k)) (WebRtcServer.addr2sessions_ (server k))) in
  do* (k, _) := in_server e k (fun sv => WebRtcServer.on_session sv i (fun s =>
                  WebRtcSession.DtlsInit s role finger_print (dtls_init q) (dtls_run q))) in
  do* (k, _) := in_server e k (fun sv => WebRtcServer.SetUserName2Session sv (IceServer.ice_ufrag_ (ice q)) i) in
  eret k i.

(** [GenAnswerSdp] with the session's credentials, and the candidates. *)
Definition answer_for (q : request) (setup : RtcSetupType) (direction : DirectionType) (offer : RtcSdp.t) : res RtcSdp.t :=
  let! a := Answer.GenAnswerSdp SdpFilter.g_sdp_answer_filter setup direction (text (IceServer.ice_ufrag_ (ice q)))
              (text (IceServer.ice_pwd_ (ice q))) (local_fp q) (uuid q 1) offer in
  Ok (RtcSdp.with_candidates a (RtcSdp.ice_candidates_ a ++ rtc_candidates_ q)).

(** ** Publishing *)

(** [GetMediaPushers] of the session at place [i]. *)
Definition pusher_at (i : nat) (s : WebRtcSession.t) (x : nat) : option Room.Pusher :=
  (fun p => Room.mk_pusher i x (MediaPusher.user_id_ p) (MediaPusher.pusher_id_ p)) <$> (WebRtcSession.pushers s !! x).
Definition pushers_of (i : nat) (s : WebRtcSession.t) : list Room.Pusher := omap (pusher_at i s) (WebRtcSession.GetMediaPushers s).

(** The loop over the parameters: the session and the room. *)
Definition add_track (now : Z) (id : string) (i : nat) (user_id : string) (param : RtpSessionParam.t)
    (st : WebRtcSession.t * Room.t) : WebRtcSession.t * Room.t :=
  let '(s, _, pusher_id) := WebRtcSession.AddPusherRtpSession st.1 param id in
  let r := Room.add_track now user_id (mk_PushInfo pusher_id param) st.2 in
  (s, foldl (fun r p => Room.add_pusher p r) r (pushers_of i s)).
Definition add_tracks (now : Z) (i : nat) (user_id : string) (l : list (string * RtpSessionParam.t))
    (st : WebRtcSession.t * Room.t) : WebRtcSession.t * Room.t :=
  foldl (fun st (x : string * RtpSessionParam.t) => add_track now x.1 i user_id x.2 st) st l.
(** Each stream with the id its publisher gets. *)
Definition tracks (q : request) (params : list RtpSessionParam.t) : list (string * RtpSessionParam.t) :=
  imap (fun n p => (uuid q (2 + n)%nat, p)) params.

Definition answer_json (message sdp : string) : Json.t :=
  Room.obj [("code", Json.Int 0); ("message", Json.Str message); ("sdp", Json.Str sdp)].

(** The others and the pilot centre are told of all that the user publishes. *)
Definition announce (e : env) (user_id answer_sdp_str : string) (k : t) : eff t call (Z * string) :=
  match StrMap.find user_id (Room.users_ (room k)) with
  | None => eret k (-1, answer_sdp_str)
  | Some u =>
      let push_infos := (RtcUser.pushers_ u).*2 in
      do* (k, _) := in_room e k (Room.NotifyNewPusher (Room.now (of_room e)) user_id (RtcUser.user_name_ u) push_infos) in
      do* (k, _) := in_room e k (Room.NewPusher2PilotCenter (Room.now (of_room e)) user_id push_infos) in
      eret k (0, answer_sdp_str)
  end.
(** What both ways of publishing have in common: the result, and the answer as text. *)
Definition publish (e : env) (q : request) (role : Z) (setup : RtcSetupType) (session_level : bool) (respond : string -> list call)
    (user_id sdp_type sdp_str : string) (k : t) : eff t call (Z * string) :=
  let k := alive e k in
  do* (k, offer) := pure k (RtcSdp.ParseSdp sdp_type sdp_str) in
  do* (k, i) := open_session e q SrtpSession.SRTP_SESSION_TYPE_RECV role (RtcSdp.finger_print_ offer) user_id k in
  do* (k, answer_sdp) := pure k (answer_for q setup DIRECTION_RECVONLY offer) in
  match GetRtpSessionParamsFromSdp answer_sdp, WebRtcServer.sessions (server k) !! i with
  | [], _ => eret k (-1, EmptyString)
  | _, None => pure k (Undef NullDeref)
  | rtp_params, Some s =>
      let '(s, r) := add_tracks (Room.now (of_room e)) i user_id (tracks q rtp_params) (s, room k) in
      let k := with_session (mk r (server k)) i s in
      match SdpText.GenSdpString (num q) answer_sdp session_level with
      | Undef u => pure k (Undef u)
      | Throw _ => eret k (-1, EmptyString)
      | Ok answer_sdp_str =>
          do* (k, _) := emit k (respond answer_sdp_str) in
          announce e user_id answer_sdp_str k
      end
  end.

Definition HandlePushSdp (e : env) (q : request) (user_id sdp_type sdp_str : string) (id : Z) (resp_cb : nat) (k : t)
    : eff t call Z :=
  do* (k, r) := publish e q ROLE_SERVER RTC_SETUP_PASSIVE false
    (fun sdp => [OfRoom (Room.OnProtooResponse resp_cb id 0 EmptyString (answer_json "push success" sdp))])
    user_id sdp_type sdp_str k in
  eret k r.1.
(** The text is the caller's. *)
Definition HandleWhipPushSdp (e : env) (q : request) (user_id sdp_type sdp_str : string) (k : t) : eff t call (Z * string) :=
  publish e q ROLE_CLIENT RTC_SETUP_ACTIVE true (fun _ => []) user_id sdp_type sdp_str k.

(** ** Subscribing *)

Record PullRequestInfo := mk_pull { target_user_id_ : string; src_user_id_ : string; pushers_ : list PushInfo }.

(** The publisher of this server with an id: its parameters at this moment. *)
Definition local_pusher (k : t) (id : string) : option (RtpSessionParam.t * string) :=
  match StrMap.find id (Room.pusherId2pusher_ (room k)) with
  | None => None
  | Some p =>
      match WebRtcServer.sessions (server k) !! Room.ps_session p with
      | None => None
      | Some s => (fun m => (MediaPusher.param_ m, MediaPusher.pusher_id_ m)) <$> (WebRtcSession.pushers s !! Room.ps_index p)
      end
  end.
(** The publisher of another server, as its relay knows it. *)
Definition relayed_pusher (k : t) (id : string) : option (RtpSessionParam.t * string) :=
  match StrMap.find id (Room.pusherId2recvRelay_ (room k)) with
  | None => None
  | Some i =>
      match Room.recv_relays (room k) !! i with
      | None => None
      | Some r => (fun info => (param_ info, pusher_id_ info)) <$> RtcRecvRelay.GetPushInfo r id
      end
  end.

(** The requested publishers that are found, with the ids their subscribers get, and the
    loop over them. *)
Definition requested (q : request) (find_pusher : string -> option (RtpSessionParam.t * string)) (l : list PushInfo)
    : list (string * (RtpSessionParam.t * string)) :=
  omap id (imap (fun n push_info => pair (uuid q (2 + n)%nat) <$> find_pusher (pusher_id_ push_info)) l).
Definition add_subscriptions (target_user_id : string) (l : list (string * (RtpSessionParam.t * string))) (s : WebRtcSession.t)
    : WebRtcSession.t :=
  foldl (fun s (x : string * (RtpSessionParam.t * string)) =>
    (WebRtcSession.AddPullerRtpSession s x.2.1 target_user_id x.2.2 EmptyString x.1).1.1) s l.

(** [GetMediaPullers] of the session at place [i]. *)
Definition puller_at (i : nat) (s : WebRtcSession.t) (x : nat) : option Room.Puller :=
  (fun p => Room.mk_puller i x (MediaPuller.puller_user_id_ p) (MediaPuller.puller_id_ p) (MediaPuller.pusher_id_ p))
    <$> (WebRtcSession.pullers s !! x).
Definition pullers_at (i : nat) (s : WebRtcSession.t) : list Room.Puller := omap (puller_at i s) (WebRtcSession.GetMediaPullers s).
Definition puller_params (s : WebRtcSession.t) : list RtpSessionParam.t :=
  omap (fun x => MediaPuller.param_ <$> (WebRtcSession.pullers s !! x)) (WebRtcSession.GetMediaPullers s).
(** The parameters that [UpdateRtcSdpByPullers] leaves. *)
Definition set_params (s : WebRtcSession.t) (params : list RtpSessionParam.t) : WebRtcSession.t :=
  foldl (fun s (x : nat * RtpSessionParam.t) => WebRtcSession.SetPullerParam s x.1 x.2) s (zip (WebRtcSession.GetMediaPullers s) params).

(** What both ways of subscribing have in common, inside their [try]. *)
Definition subscribe (e : env) (q : request) (find_pusher : t -> string -> option (RtpSessionParam.t * string))
    (pull_info : PullRequestInfo) (sdp_type sdp_str : string) (id : Z) (resp_cb : nat) (k : t) : eff t call Z :=
  do* (k, offer) := pure k (RtcSdp.ParseSdp sdp_type sdp_str) in
  do* (k, i) := open_session e q SrtpSession.SRTP_SESSION_TYPE_SEND ROLE_SERVER (RtcSdp.finger_print_ offer)
                  (src_user_id_ pull_info) k in
  do* (k, answer_sdp) := pure k (answer_for q RTC_SETUP_PASSIVE DIRECTION_SENDONLY offer) in
  match WebRtcServer.sessions (server k) !! i with
  | None => pure k (Undef NullDeref)
  | Some s =>
      let s := add_subscriptions (target_user_id_ pull_info) (requested q (find_pusher k) (pushers_ pull_info)) s in
      let k := with_session k i s in
      do* (k, r) := pure k (Pullers.UpdateRtcSdpByPullers (uuid q) (2 + length (pushers_ pull_info)) (puller_params s) answer_sdp) in
      let '(params, answer_sdp) := r in
      let s := set_params s params in
      let k := with_session k i s in
      let k := mk (foldl (fun r p => Room.add_puller p r) (room k) (pullers_at i s)) (server k) in
      do* (k, answer_sdp_str) := pure k (SdpText.GenSdpString (num q) answer_sdp false) in
      do* (k, _) := emit k [OfRoom (Room.OnProtooResponse resp_cb id 0 EmptyString (answer_json "pull success" answer_sdp_str))] in
      eret k 0
  end.

Definition HandlePullSdp (e : env) (q : request) (pull_info : PullRequestInfo) (sdp_type sdp_str : string) (id : Z) (resp_cb : nat)
    (k : t) : eff t call Z :=
  let k := alive e k in
  match StrMap.find (target_user_id_ pull_info) (Room.users_ (room k)) with
  | None => eret k (-1)
  | Some _ => ecatch (subscribe e q local_pusher pull_info sdp_type sdp_str id resp_cb k) (fun k => eret k (-1))
  end.

(** A relay is asked for each publisher that the other server's user has. *)
Definition pull_remote (e : env) (pusher_user_id target_user_id : string) (k : t) (push_info : PushInfo) : eff t call unit :=
  match StrMap.find pusher_user_id (Room.users_ (room k)) with
  | None => eret k tt
  | Some u =>
      match RtcUser.GetPusher u (pusher_id_ push_info) with
      | None => eret k tt
      | Some full_push_info =>
          do* (k, _) := in_room e k (Room.PullRemotePusher (of_room e) target_user_id full_push_info) in eret k tt
      end
  end.
Definition HandleRemotePullSdp (e : env) (q : request) (pusher_user_id : string) (pull_info : PullRequestInfo)
    (sdp_type sdp_str : string) (id : Z) (resp_cb : nat) (k : t) : eff t call Z :=
  ecatch
    (do* (k, _) := efor (pushers_ pull_info) (alive e k) (pull_remote e pusher_user_id (target_user_id_ pull_info)) in
     subscribe e q relayed_pusher pull_info sdp_type sdp_str id resp_cb k)
    (fun k => eret k (-1)).

End Sfu.

(** * How calls pass *)

Section Dispatch.
Context {Ls : LibSrtp} {LsL : LibSrtpLaws} {Ev : EvpMac} {In : Inet}.

(** Calls that leave the two. *)
Definition leaves_server (c : WebRtcServer.call) : Prop :=
  match c with
  | WebRtcServer.UdpWrite _ _ => True
  | WebRtcServer.FromSession _ c =>
      match c with
      | WebRtcSession.RtpPacketFromRtcPusher _ _ _ _ | WebRtcSession.KeyFrameRequest _ _ _ _
      | WebRtcSession.PushClose _ | WebRtcSession.PullClose _ => False
      | _ => True
      end
  end.
Definition leaves_room (c : Room.call) : Prop :=
  match c with Room.PullerSend _ _ | Room.RequestKeyFrame _ _ => False | _ => True end.

Lemma server_calls_leave e k cs : Forall leaves_server cs -> efor cs k (from_server e) = (k, map OfServer cs, Ok tt).
Proof.
  induction 1 as [|c cs Hc _ IH]; [done|]. cbn [efor map].
  assert (from_server e k c = emit k [OfServer c]) as ->.
  { destruct c as [d a|i c]; [done|]. cbn [from_server]. destruct (of_this_room k i); [|done]. by destruct c. }
  cbn [emit ebind]. by rewrite IH.
Qed.
Lemma room_calls_leave e k cs : Forall leaves_room cs -> efor cs k (from_room e) = (k, map OfRoom cs, Ok tt).
Proof.
  induction 1 as [|c cs Hc _ IH]; [done|]. cbn [efor map].
  assert (from_room e k c = emit k [OfRoom c]) as -> by (by destruct c).
  cbn [emit ebind]. by rewrite IH.
Qed.
Lemma in_server_leaves {A} e k (f : WebRtcServer.t -> eff WebRtcServer.t WebRtcServer.call A) s cs r :
  f (server k) = (s, cs, r) -> Forall leaves_server cs -> in_server e k f = (mk (room k) s, map OfServer cs, r).
Proof.
  intros E Hcs. unfold in_server, on_server. rewrite E. cbn [zoom handled]. rewrite server_calls_leave by done. by destruct r.
Qed.
Lemma in_room_leaves {A} e k (f : Room.t -> eff Room.t Room.call A) s cs r :
  f (room k) = (s, cs, r) -> Forall leaves_room cs -> in_room e k f = (mk s (server k), map OfRoom cs, r).
Proof.
  intros E Hcs. unfold in_room, on_room. rewrite E. cbn [zoom handled]. rewrite room_calls_leave by done. by destruct r.
Qed.

(** * Opening a session *)

(** The session that a request gets, and what it told DTLS. *)
Definition opened (e : env) (q : request) (type : SrtpSession.SRtpType) (user_id : string) (k : t) : WebRtcSession.t :=
  let s := new_session e q type user_id k in
  WebRtcSession.with_status s false (WebRtcSession.alive_ms_ s) false true.
Definition dtls_call (q : request) (i : nat) (role : Z) (finger_print : string) : list call :=
  if dtls_init q =? 0 then [OfServer (WebRtcServer.FromSession i (WebRtcSession.DtlsInitSession role finger_print))] else [].

Lemma open_session_ok e q type role fp user_id k :
  WebRtcServer.username2sessions_ (server k) !! IceServer.ice_ufrag_ (ice q) = None ->
  let i := length (WebRtcServer.sessions (server k)) in
  open_session e q type role fp user_id k =
    (mk (room k) (WebRtcServer.mk (WebRtcServer.sessions (server k) ++ [opened e q type user_id k])
                    (<[IceServer.ice_ufrag_ (ice q) := i]> (WebRtcServer.username2sessions_ (server k)))
                    (WebRtcServer.addr2sessions_ (server k))),
     dtls_call q i role fp, Ok i).
Proof.
  intros Hu i. unfold open_session. fold i. set (s := new_session e q type user_id k).
  assert (Hs : (WebRtcServer.sessions (server k) ++ [s]) !! i = Some s) by (unfold i; by rewrite lookup_app_r, Nat.sub_diag by lia).
  assert (HD : WebRtcServer.on_session (WebRtcServer.mk (WebRtcServer.sessions (server k) ++ [s])
      (WebRtcServer.username2sessions_ (server k)) (WebRtcServer.addr2sessions_ (server k))) i
      (fun s => WebRtcSession.DtlsInit s role fp (dtls_init q) (dtls_run q)) =
    (WebRtcServer.mk (WebRtcServer.sessions (server k) ++ [opened e q type user_id k])
      (WebRtcServer.username2sessions_ (server k)) (WebRtcServer.addr2sessions_ (server k)),
     if dtls_init q =? 0 then [WebRtcServer.FromSession i (WebRtcSession.DtlsInitSession role fp)] else [],
     Ok (if dtls_init q =? 0 then dtls_run q else dtls_init q))).
  { unfold WebRtcServer.on_session. cbn [WebRtcServer.sessions]. rewrite Hs. unfold WebRtcSession.DtlsInit. cbv zeta.
    assert (Hi : forall x, WebRtcServer.with_session (WebRtcServer.mk (WebRtcServer.sessions (server k) ++ [s])
      (WebRtcServer.username2sessions_ (server k)) (WebRtcServer.addr2sessions_ (server k))) i x =
      WebRtcServer.mk (WebRtcServer.sessions (server k) ++ [x]) (WebRtcServer.username2sessions_ (server k)) (WebRtcServer.addr2sessions_ (server k))).
    { intros x. unfold WebRtcServer.with_session. cbn. unfold i. by rewrite insert_app_r_alt, Nat.sub_diag by lia. }
    destruct (Z.eqb_spec (dtls_init q) 0) as [E|E]; cbn [negb].
    - destruct (Z.eqb_spec (dtls_run q) 0) as [->|E']; cbn [negb emit ebind eret zoom rename_calls map app];
        rewrite Hi; done.
    - cbn [eret zoom rename_calls map]. by rewrite Hi. }
  cbv zeta. erewrite in_server_leaves; [|exact HD|by destruct (dtls_init q =? 0); repeat constructor].
  destruct (dtls_init q =? 0) eqn:Ed; cbn [ebind server room];
    (erewrite in_server_leaves; [|unfold WebRtcServer.SetUserName2Session; cbn; rewrite Hu; reflexivity|constructor]);
    unfold dtls_call; by rewrite Ed.
Qed.

(** * Publishing *)

Section Tracks.
Context (now : Z) (i : nat) (user_id : string) (s0 : WebRtcSession.t) (r0 : Room.t).

(** The publisher made for a stream. *)
Definition created (x : string * RtpSessionParam.t) : MediaPusher.t :=
  MediaPusher.CreateRtpRecvSession (MediaPusher.new_MediaPusher x.2 (WebRtcSession.user_id_ s0) (WebRtcSession.session_id_ s0) x.1 true).
Definition tracked (l : list (string * RtpSessionParam.t)) (u : RtcUser.t) : RtcUser.t :=
  foldl (fun u x => RtcUser.AddPusher (RtcUser.UpdateHeartbeat now u) x.1 (mk_PushInfo x.1 x.2)) u l.
Definition registered (x : nat) (id : string) : Room.Pusher := Room.mk_pusher i x (WebRtcSession.user_id_ s0) id.

(** After some streams: the session has their publishers, the room knows each under its id,
    the user has them in its list, and nothing else is changed. *)
Record has_tracks (l : list (string * RtpSessionParam.t)) (s : WebRtcSession.t) (r : Room.t) : Prop := {
  ht_session : s = WebRtcSession.with_tcc (WebRtcSession.with_pushers s0 (map created l) (WebRtcSession.ssrc2media_pusher_ s)
    (WebRtcSession.mid2media_pusher_ s)) (WebRtcSession.mid_ext_id_ s) (WebRtcSession.tcc_ext_id_ s) (WebRtcSession.tcc_server_ s0);
  ht_below : StdMap.below (length l) (WebRtcSession.ssrc2media_pusher_ s);
  ht_room : r = Room.with_streams (Room.with_users r0 (Room.users_ r)) (Room.pusherId2pusher_ r) (Room.pusher2pullers_ r0);
  ht_registered : forall x id p, l !! x = Some (id, p) -> StrMap.find id (Room.pusherId2pusher_ r) = Some (registered x id);
  ht_others : forall y, y ∉ l.*1 -> StrMap.find y (Room.pusherId2pusher_ r) = StrMap.find y (Room.pusherId2pusher_ r0);
  ht_user : StrMap.find user_id (Room.users_ r) = tracked l <$> StrMap.find user_id (Room.users_ r0);
  ht_users : forall y, y <> user_id -> StrMap.find y (Room.users_ r) = StrMap.find y (Room.users_ r0);
  ht_told : Room.connections (Room.others user_id) (Room.users_ r) = Room.connections (Room.others user_id) (Room.users_ r0)
}.

Lemma pushers_find (l : list Room.Pusher) r y :
  Room.users_ (foldl (fun r p => Room.add_pusher p r) r l) = Room.users_ r /\
  foldl (fun r p => Room.add_pusher p r) r l =
    Room.with_streams r (Room.pusherId2pusher_ (foldl (fun r p => Room.add_pusher p r) r l)) (Room.pusher2pullers_ r) /\
  (y ∉ map Room.ps_pusher_id l -> StrMap.find y (Room.pusherId2pusher_ (foldl (fun r p => Room.add_pusher p r) r l)) =
                                  StrMap.find y (Room.pusherId2pusher_ r)) /\
  (forall v, (forall p, p ∈ l -> Room.ps_pusher_id p = y -> p = v) ->
     y ∈ map Room.ps_pusher_id l \/ StrMap.find y (Room.pusherId2pusher_ r) = Some v ->
     StrMap.find y (Room.pusherId2pusher_ (foldl (fun r p => Room.add_pusher p r) r l)) = Some v).
Proof.
  revert r. induction l as [|p l IH]; intros r; cbn [foldl map].
  { split_and!; try done; [by destruct r|]. intros v _ [H|H]; [by apply elem_of_nil in H|done]. }
  destruct (IH (Room.add_pusher p r)) as (H1 & H2 & H3 & H4). split_and!.
  - by rewrite H1.
  - by rewrite H2 at 1.
  - intros Hn. apply not_elem_of_cons in Hn as [Hp Hn]. rewrite H3 by done. cbn. by apply StrMap.find_in_set_ne.
  - intros v Hv Hor. apply H4; [intros p' Hp'; apply Hv; by right|].
    destruct (decide (y ∈ map Room.ps_pusher_id l)) as [|Hn]; [by left|]. right. cbn.
    destruct (decide (y = Room.ps_pusher_id p)) as [->|Hne].
    + rewrite StrMap.find_in_set_eq. f_equal. apply Hv; [by left|done].
    + rewrite StrMap.find_in_set_ne by done. destruct Hor as [[?|?]%elem_of_cons|]; done.
Qed.

Lemma add_track_ok l x s r :
  x.1 ∉ l.*1 -> NoDup l.*1 -> has_tracks l s r ->
  let st := add_track now x.1 i user_id x.2 (s, r) in has_tracks (l ++ [x]) st.1 st.2.
Proof.
  intros Hx Hnd [Hs Hb Hr Hreg Hoth Hu Hus Ht]. destruct x as [id param]. cbn [fst snd] in *. unfold add_track. cbn [fst snd].
  set (s' := (WebRtcSession.AddPusherRtpSession s param id).1.1).
  assert (E : WebRtcSession.AddPusherRtpSession s param id = (s', 0, id)) by done. rewrite E. cbn [fst snd]. clear E.
  set (r1 := Room.add_track now user_id _ r). set (ps := pushers_of i s').
  assert (Hpush : WebRtcSession.pushers s' = map created (l ++ [(id, param)])).
  { unfold s', WebRtcSession.AddPusherRtpSession. cbn. rewrite Hs. cbn. by rewrite map_app. }
  assert (Hlen : length (WebRtcSession.pushers s) = length l) by (rewrite Hs; cbn; by rewrite length_map).
  assert (Hbelow : StdMap.below (length (l ++ [(id, param)])) (WebRtcSession.ssrc2media_pusher_ s')).
  { rewrite length_app. cbn [length]. unfold s', WebRtcSession.AddPusherRtpSession. cbn. rewrite Hlen.
    pose proof (StdMap.below_mono (length l) (length l + 1) _ ltac:(lia) Hb) as Hb'.
    destruct (negb _); repeat (apply StdMap.below_set; [|lia]); done. }
  assert (Hin : length l ∈ WebRtcSession.GetMediaPushers s').
  { unfold WebRtcSession.GetMediaPushers. unfold s', WebRtcSession.AddPusherRtpSession. cbn. rewrite Hlen.
    assert (Hf : forall (m : list (Z * nat)) z n, StdMap.find z m = Some n -> n ∈ m.*2).
    { intros m z n Hz. apply StdMap.find_In, list_elem_of_In in Hz. apply list_elem_of_fmap. by exists (z, n). }
    destruct (negb _); eapply Hf; rewrite StdMap.find_set, Z.eqb_refl; done. }
  assert (Hps : forall p, p ∈ ps -> exists x id' p', (l ++ [(id, param)]) !! x = Some (id', p') /\ p = registered x id').
  { intros p (x & Hin' & Hp)%list_elem_of_omap. unfold pusher_at in Hp. rewrite Hpush, list_lookup_fmap in Hp.
    destruct ((l ++ [(id, param)]) !! x) as [[id' p']|] eqn:Ex; [|done]. cbn in Hp. injection Hp as <-. by exists x, id', p'. }
  assert (Hnd' : NoDup (l ++ [(id, param)]).*1).
  { rewrite fmap_app. apply NoDup_app. split; [done|]. split; [|apply NoDup_singleton]. cbn. intros y Hy ->%list_elem_of_singleton. done. }
  assert (Huniq : forall x id' p', (l ++ [(id, param)]) !! x = Some (id', p') -> forall p, p ∈ ps -> Room.ps_pusher_id p = id' -> p = registered x id').
  { intros x id' p' Ex p Hp Hid. apply Hps in Hp as (x2 & id2 & p2 & Ex2 & ->). cbn in Hid. subst id2. f_equal.
    eapply (NoDup_lookup _ _ _ id' Hnd'); by rewrite list_lookup_fmap, ?Ex, ?Ex2. }
  assert (Er1 : r1 = Room.with_users r (Room.users_ r1)) by apply Room.on_user_eq.
  assert (Hstreams : Room.pusherId2pusher_ r1 = Room.pusherId2pusher_ r) by (by rewrite Er1).
  destruct (pushers_find ps r1 EmptyString) as (F1 & F2 & _ & _).
  assert (Hu1 : StrMap.find user_id (Room.users_ r1) = tracked (l ++ [(id, param)]) <$> StrMap.find user_id (Room.users_ r0)).
  { unfold r1, Room.add_track, Room.on_user. rewrite Hu. destruct (StrMap.find user_id (Room.users_ r0)) as [u|]; cbn; [|by rewrite Hu].
    rewrite StrMap.find_in_set_eq. unfold tracked. by rewrite foldl_app. }
  split.
  - rewrite map_app. unfold s', WebRtcSession.AddPusherRtpSession. by rewrite Hs.
  - done.
  - rewrite F1. etransitivity; [exact F2|]. generalize (Room.pusherId2pusher_ (foldl (fun r p => Room.add_pusher p r) r1 ps)) as X.
    intros X. rewrite Er1. clearbody r1. by rewrite Hr.
  - intros x id' p' Ex. apply (pushers_find ps r1 id'); [by eapply Huniq|].
    destruct (decide (x = length l)) as [->|Hne].
    + left. rewrite lookup_app_r, Nat.sub_diag in Ex by lia. injection Ex as <- <-. apply list_elem_of_fmap.
      exists (registered (length l) id). split; [done|]. apply list_elem_of_omap. exists (length l). split; [done|].
      unfold pusher_at. rewrite Hpush, list_lookup_fmap, lookup_app_r, Nat.sub_diag by lia. done.
    + right. rewrite Hstreams. apply (Hreg x id' p'). apply lookup_lt_Some in Ex as Hlt. rewrite length_app in Hlt. cbn in Hlt.
      rewrite lookup_app_l in Ex by lia. done.
  - intros y Hy. rewrite fmap_app in Hy. apply not_elem_of_app in Hy as [Hy1 Hy2].
    destruct (pushers_find ps r1 y) as (_ & _ & F3 & _). rewrite F3, Hstreams; [by apply Hoth|].
    intros (p & -> & Hp)%list_elem_of_fmap. apply Hps in Hp as (x & id' & p' & Ex & ->). cbn in Hy1, Hy2.
    apply list_elem_of_lookup_2 in Ex. apply elem_of_app in Ex as [Ex|Ex].
    + apply Hy1. apply list_elem_of_fmap. by exists (id', p').
    + apply list_elem_of_singleton in Ex as [= -> ->]. by apply Hy2, list_elem_of_singleton.
  - by rewrite F1.
  - intros y Hy. rewrite F1. rewrite <- (Hus y Hy). unfold r1, Room.add_track, Room.on_user.
    destruct (StrMap.find user_id (Room.users_ r)) as [u|]; [|done]. cbn. by apply StrMap.find_in_set_ne.
  - rewrite F1, <- Ht. unfold r1, Room.add_track, Room.on_user. destruct (StrMap.find user_id (Room.users_ r)) as [u|]; [|done].
    apply Room.connections_set.
Qed.

Lemma add_tracks_ok l l' s r :
  NoDup (l ++ l').*1 -> has_tracks l s r ->
  let st := add_tracks now i user_id l' (s, r) in has_tracks (l ++ l') st.1 st.2.
Proof.
  revert l s r. induction l' as [|x l' IH]; intros l s r Hnd Ht; [by rewrite app_nil_r|].
  change (add_tracks now i user_id (x :: l') (s, r)) with (add_tracks now i user_id l' (add_track now x.1 i user_id x.2 (s, r))).
  assert (E : l ++ x :: l' = (l ++ [x]) ++ l') by (by rewrite <- app_assoc). rewrite E in Hnd |- *.
  assert (Hd : NoDup (l ++ [x]).*1) by (rewrite fmap_app in Hnd; by apply NoDup_app in Hnd as [? _]).
  rewrite fmap_app in Hd. apply NoDup_app in Hd as (Hd & Hx & _).
  pose proof (add_track_ok l x s r ltac:(intros H; exact (Hx _ H (list_elem_of_here _ _))) Hd Ht) as H1. cbn zeta in H1.
  destruct (add_track now x.1 i user_id x.2 (s, r)) as [s1 r1]. exact (IH _ _ _ Hnd H1).
Qed.
Lemma no_tracks : WebRtcSession.pushers s0 = [] -> WebRtcSession.ssrc2media_pusher_ s0 = [] -> has_tracks [] s0 r0.
Proof.
  intros H1 H2. split; try done.
  - destruct s0; cbn in *; by subst.
  - rewrite H2. apply StdMap.below_nil.
  - by destruct r0.
  - by destruct (StrMap.find user_id (Room.users_ r0)).
Qed.
End Tracks.

Lemma tracked_name now l u : RtcUser.user_name_ (tracked now l u) = RtcUser.user_name_ u.
Proof. unfold tracked. revert u. induction l as [|x l IH]; intros u; cbn [foldl]; [done|]. by rewrite IH. Qed.

Definition push_message (user_id user_name : string) (room_id : string) (infos : list PushInfo) : Json.t :=
  Room.obj [("userId", Json.Str user_id); ("userName", Json.Str user_name); ("roomId", Json.Str room_id);
            ("pushers", Json.Arr (map Room.push_json infos))].
Definition push_to_pilot (user_id user_name : string) (room_id : string) (infos : list PushInfo) : Room.call :=
  Room.AsyncNotification "push" (Room.obj [("roomId", Json.Str room_id); ("userId", Json.Str user_id);
    ("userName", Json.Str user_name); ("publishers", Json.Arr (map Room.push_json infos))]).

(** The messages about new streams, to the others and to the pilot centre. *)
Lemma announce_ok e k user_id user_name infos u :
  Room.last_alive_ms_ (room k) = Room.now (of_room e) -> StrMap.find user_id (Room.users_ (room k)) = Some u ->
  (do* (k, _) := in_room e k (Room.NotifyNewPusher (Room.now (of_room e)) user_id user_name infos) in
   do* (k, _) := in_room e k (Room.NewPusher2PilotCenter (Room.now (of_room e)) user_id infos) in eret k tt) =
  (k, map OfRoom
        (map (fun cb => Room.Notification cb "newPusher" (push_message user_id user_name (Room.room_id_ (room k)) infos))
             (Room.connections (Room.others user_id) (Room.users_ (room k))) ++
         if Room.pilot_client_ (room k) then [push_to_pilot user_id (RtcUser.user_name_ u) (Room.room_id_ (room k)) infos] else []), Ok tt).
Proof.
  intros Ha Hu. assert (Hal : Room.with_alive (room k) (Room.now (of_room e)) = room k) by (rewrite <- Ha; by destruct (room k)).
  erewrite in_room_leaves; [|unfold Room.NotifyNewPusher; cbv zeta; rewrite Hal; unfold Room.notify, emit; reflexivity|];
    [|apply Forall_map, Forall_forall; done]. cbn [ebind].
  assert (Hk : mk (room k) (server k) = k) by (by destruct k). rewrite Hk.
  destruct (Room.pilot_client_ (room k)) eqn:Ep.
  - erewrite in_room_leaves; [|unfold Room.NewPusher2PilotCenter; rewrite Ep; cbn [negb]; cbv zeta; rewrite Hal, Hu; reflexivity|repeat constructor].
    cbn [ebind eret]. rewrite Hk, map_app. by rewrite app_nil_r.
  - erewrite in_room_leaves; [|unfold Room.NewPusher2PilotCenter; rewrite Ep; reflexivity|constructor].
    cbn [ebind eret]. rewrite Hk, map_app. by rewrite ?app_nil_r.
Qed.

Lemma has_tracks_alive now i user_id s0 r0 l s r :
  has_tracks now i user_id s0 (Room.with_alive r0 now) l s r ->
  Room.last_alive_ms_ r = now /\ Room.room_id_ r = Room.room_id_ r0 /\ Room.pilot_client_ r = Room.pilot_client_ r0.
Proof. intros [_ _ -> _ _ _ _ _]. done. Qed.

(** Both ways of publishing up to the announcement: the session, its publishers and the
    answer, whether the user is known or not. *)
Lemma publish_ok (e : env) (q : request) (role : Z) (setup : RtcSetupType) (session_level : bool) (respond : string -> list call)
    (user_id sdp_type sdp_str : string) (k : t) (offer answer_sdp : RtcSdp.t) (answer_sdp_str : string) :
  RtcSdp.ParseSdp sdp_type sdp_str = Ok offer ->
  answer_for q setup DIRECTION_RECVONLY offer = Ok answer_sdp ->
  GetRtpSessionParamsFromSdp answer_sdp <> [] ->
  SdpText.GenSdpString (num q) answer_sdp session_level = Ok answer_sdp_str ->
  NoDup (tracks q (GetRtpSessionParamsFromSdp answer_sdp)).*1 ->
  WebRtcServer.username2sessions_ (server k) !! IceServer.ice_ufrag_ (ice q) = None ->
  let now := Room.now (of_room e) in
  let i := length (WebRtcServer.sessions (server k)) in
  let l := tracks q (GetRtpSessionParamsFromSdp answer_sdp) in
  exists k' s,
    publish e q role setup session_level respond user_id sdp_type sdp_str k =
      (do* (k, _) := emit k' (dtls_call q i role (RtcSdp.finger_print_ offer) ++ respond answer_sdp_str) in
       announce e user_id answer_sdp_str k) /\
    server k' = WebRtcServer.mk (WebRtcServer.sessions (server k) ++ [s])
                  (<[IceServer.ice_ufrag_ (ice q) := i]> (WebRtcServer.username2sessions_ (server k)))
                  (WebRtcServer.addr2sessions_ (server k)) /\
    has_tracks now i user_id (opened e q SrtpSession.SRTP_SESSION_TYPE_RECV user_id k) (Room.with_alive (room k) now) l s (room k').
Proof.
  intros HP HA Hne HS Hnd Hu now i l. unfold publish. cbv zeta. rewrite HP, ebind_ok.
  rewrite (open_session_ok e q SrtpSession.SRTP_SESSION_TYPE_RECV role _ user_id (alive e k)) by done.
  change (opened e q SrtpSession.SRTP_SESSION_TYPE_RECV user_id (alive e k)) with (opened e q SrtpSession.SRTP_SESSION_TYPE_RECV user_id k).
  change (server (alive e k)) with (server k). fold i. set (s0 := opened e q _ user_id k).
  cbn [ebind room server WebRtcServer.sessions WebRtcServer.username2sessions_ WebRtcServer.addr2sessions_]. rewrite HA.
  assert (Hs : (WebRtcServer.sessions (server k) ++ [s0]) !! i = Some s0) by (unfold i; by rewrite lookup_app_r, Nat.sub_diag by lia).
  assert (Hi : forall x, <[i := x]> (WebRtcServer.sessions (server k) ++ [s0]) = WebRtcServer.sessions (server k) ++ [x]).
  { intros x. unfold i. by rewrite insert_app_r_alt, Nat.sub_diag by lia. }
  pose proof (add_tracks_ok now i user_id s0 (Room.with_alive (room k) now) [] l s0 (Room.with_alive (room k) now) Hnd
    (no_tracks now i user_id s0 _ eq_refl eq_refl)) as Ht. cbn zeta in Ht. rewrite app_nil_l in Ht.
  cbn [pure ebind server room WebRtcServer.sessions alive]. rewrite Hs. fold now l in Ht |- *.
  destruct (GetRtpSessionParamsFromSdp answer_sdp) as [|p0 ps] eqn:Ep; [done|]. fold l.
  change (Room.with_alive (room k) (Room.now (of_room e))) with (Room.with_alive (room k) now).
  destruct (add_tracks now i user_id l (s0, Room.with_alive (room k) now)) as [s r] eqn:Eadd. cbn [fst snd] in Ht.
  rewrite HS. unfold with_session, WebRtcServer.with_session.
  cbn [emit ebind room server WebRtcServer.sessions WebRtcServer.username2sessions_ WebRtcServer.addr2sessions_]. rewrite Hi.
  set (k2 := mk r _). exists k2, s. split; [|by split].
  destruct (announce e user_id answer_sdp_str k2) as [[k3 es] x]. cbn [app]. by rewrite <- app_assoc.
Qed.

(** The same for a user of the room, with the announcement. *)
Lemma publish_known (e : env) (q : request) (role : Z) (setup : RtcSetupType) (session_level : bool) (respond : string -> list call)
    (user_id sdp_type sdp_str : string) (k : t) (offer answer_sdp : RtcSdp.t) (answer_sdp_str : string) (u : RtcUser.t) :
  RtcSdp.ParseSdp sdp_type sdp_str = Ok offer ->
  answer_for q setup DIRECTION_RECVONLY offer = Ok answer_sdp ->
  GetRtpSessionParamsFromSdp answer_sdp <> [] ->
  SdpText.GenSdpString (num q) answer_sdp session_level = Ok answer_sdp_str ->
  NoDup (tracks q (GetRtpSessionParamsFromSdp answer_sdp)).*1 ->
  WebRtcServer.username2sessions_ (server k) !! IceServer.ice_ufrag_ (ice q) = None ->
  StrMap.find user_id (Room.users_ (room k)) = Some u ->
  let now := Room.now (of_room e) in
  let i := length (WebRtcServer.sessions (server k)) in
  let l := tracks q (GetRtpSessionParamsFromSdp answer_sdp) in
  let infos := (RtcUser.pushers_ (tracked now l u)).*2 in
  exists k' s,
    publish e q role setup session_level respond user_id sdp_type sdp_str k =
      (k', dtls_call q i role (RtcSdp.finger_print_ offer) ++ respond answer_sdp_str ++
           map OfRoom
             (map (fun cb => Room.Notification cb "newPusher"
                               (push_message user_id (RtcUser.user_name_ u) (Room.room_id_ (room k)) infos))
                  (Room.connections (Room.others user_id) (Room.users_ (room k))) ++
              if Room.pilot_client_ (room k)
              then [push_to_pilot user_id (RtcUser.user_name_ u) (Room.room_id_ (room k)) infos] else []), Ok (0, answer_sdp_str)) /\
    server k' = WebRtcServer.mk (WebRtcServer.sessions (server k) ++ [s])
                  (<[IceServer.ice_ufrag_ (ice q) := i]> (WebRtcServer.username2sessions_ (server k)))
                  (WebRtcServer.addr2sessions_ (server k)) /\
    has_tracks now i user_id (opened e q SrtpSession.SRTP_SESSION_TYPE_RECV user_id k) (Room.with_alive (room k) now) l s (room k').
Proof.
  intros HP HA Hne HS Hnd Hu Huser now i l infos.
  destruct (publish_ok e q role setup session_level respond user_id sdp_type sdp_str k offer answer_sdp answer_sdp_str HP HA Hne HS Hnd Hu)
    as (k' & s & E & Hsv & Ht).
  exists k', s. split; [|by split]. fold now l i in E, Ht.
  pose proof Ht as [_ _ _ _ _ Hfu _ Htold]. cbn [Room.with_alive Room.users_] in Hfu, Htold. rewrite Huser in Hfu. cbn [fmap option_fmap option_map] in Hfu.
  destruct (has_tracks_alive _ _ _ _ _ _ _ _ Ht) as (Hal & Hid & Hpil).
  pose proof (announce_ok e k' user_id (RtcUser.user_name_ u) infos (tracked now l u) Hal Hfu) as HN.
  rewrite tracked_name, Hid, Hpil, Htold in HN. rewrite E. cbn [emit ebind]. unfold announce. rewrite Hfu. cbv beta iota zeta. rewrite tracked_name.
  fold now infos. clear -HN.
  destruct (in_room e k' _) as [[k3 es3] [[]|m|o]]; cbn [ebind emit] in *; [|discriminate HN..].
  destruct (in_room e k3 _) as [[k4 es4] [[]|m|o]]; cbn [ebind eret fst snd] in *; [|discriminate HN..].
  injection HN as -> HN. rewrite app_nil_r in HN. rewrite !app_nil_r, HN, <- app_assoc. done.
Qed.

(** C4: what publishing does.  The offer of a user of the room whose answer has at least one
    stream is answered with that answer; a session is opened at the next place under its ICE
    user name, with one publisher for each stream of the answer, in order; the room knows
    each of them under its id and lists it with the user; every other local user with a
    connection and the pilot centre are told, once, of all the user's streams.  No other
    session, user, publisher or subscriber changes. *)
Theorem publish_registers (e : env) (q : request) (user_id sdp_type sdp_str : string) (id : Z) (resp_cb : nat) (k : t)
    (offer answer_sdp : RtcSdp.t) (answer_sdp_str : string) (u : RtcUser.t) :
  RtcSdp.ParseSdp sdp_type sdp_str = Ok offer ->
  answer_for q RTC_SETUP_PASSIVE DIRECTION_RECVONLY offer = Ok answer_sdp ->
  GetRtpSessionParamsFromSdp answer_sdp <> [] ->
  SdpText.GenSdpString (num q) answer_sdp false = Ok answer_sdp_str ->
  NoDup (tracks q (GetRtpSessionParamsFromSdp answer_sdp)).*1 ->
  WebRtcServer.username2sessions_ (server k) !! IceServer.ice_ufrag_ (ice q) = None ->
  StrMap.find user_id (Room.users_ (room k)) = Some u ->
  let now := Room.now (of_room e) in
  let i := length (WebRtcServer.sessions (server k)) in
  let l := tracks q (GetRtpSessionParamsFromSdp answer_sdp) in
  let infos := (RtcUser.pushers_ (tracked now l u)).*2 in
  exists k' s,
    HandlePushSdp e q user_id sdp_type sdp_str id resp_cb k =
      (k', dtls_call q i ROLE_SERVER (RtcSdp.finger_print_ offer) ++
           [OfRoom (Room.OnProtooResponse resp_cb id 0 EmptyString (answer_json "push success" answer_sdp_str))] ++
           map OfRoom
             (map (fun cb => Room.Notification cb "newPusher"
                               (push_message user_id (RtcUser.user_name_ u) (Room.room_id_ (room k)) infos))
                  (Room.connections (Room.others user_id) (Room.users_ (room k))) ++
              if Room.pilot_client_ (room k)
              then [push_to_pilot user_id (RtcUser.user_name_ u) (Room.room_id_ (room k)) infos] else []), Ok 0) /\
    server k' = WebRtcServer.mk (WebRtcServer.sessions (server k) ++ [s])
                  (<[IceServer.ice_ufrag_ (ice q) := i]> (WebRtcServer.username2sessions_ (server k)))
                  (WebRtcServer.addr2sessions_ (server k)) /\
    has_tracks now i user_id (opened e q SrtpSession.SRTP_SESSION_TYPE_RECV user_id k) (Room.with_alive (room k) now) l s (room k').
Proof.
  intros HP HA Hne HS Hnd Hu Huser now i l infos.
  destruct (publish_known e q ROLE_SERVER RTC_SETUP_PASSIVE false
    (fun sdp => [OfRoom (Room.OnProtooResponse resp_cb id 0 EmptyString (answer_json "push success" sdp))])
    user_id sdp_type sdp_str k offer answer_sdp answer_sdp_str u HP HA Hne HS Hnd Hu Huser) as (k' & s & E & Hsv & Ht).
  exists k', s. split; [|by split]. unfold HandlePushSdp. rewrite E. cbn [ebind eret fst]. by rewrite app_nil_r.
Qed.

(** * Subscribing *)

Section Subscriptions.
Context (i : nat) (target_user_id : string) (s0 : WebRtcSession.t).

Abbreviation source := (string * (RtpSessionParam.t * string))%type.
Definition ssrc_at (x : source) : Z := RtpSessionParam.ssrc_ x.2.1.
(** The subscriber made for a publisher, before the answer is written. *)
Definition subscribed (x : source) : MediaPuller.t :=
  MediaPuller.CreateRtpSendSession
    (MediaPuller.new_MediaPuller x.2.1 (WebRtcSession.user_id_ s0) target_user_id x.1 x.2.2 true).
Definition listed (n : nat) (x : source) : Room.Puller :=
  Room.mk_puller i n (WebRtcSession.user_id_ s0) x.1 x.2.2.

Lemma add_subscriptions_ok (l : list source) :
  WebRtcSession.pullers s0 = [] -> WebRtcSession.ssrc2media_puller_ s0 = [] -> NoDup (map ssrc_at l) ->
  let s := add_subscriptions target_user_id l s0 in
  WebRtcSession.pullers s = map subscribed l /\
  WebRtcSession.ssrc2media_puller_ s ≡ₚ imap (fun n x => (ssrc_at x, n)) l /\
  s = WebRtcSession.with_pullers s0 (WebRtcSession.pullers s) (WebRtcSession.ssrc2media_puller_ s) (WebRtcSession.rtxssrc2media_puller_ s).
Proof.
  intros Hp Hm. induction l as [|x l IH] using rev_ind; intros Hnd.
  { cbn. rewrite Hp, Hm. split_and!; [done..|]. destruct s0; cbn in *. by subst. }
  rewrite map_app in Hnd. apply NoDup_app in Hnd as (Hnd & Hx & _). destruct (IH Hnd) as (H1 & H2 & H3).
  cbv zeta. unfold add_subscriptions in *. rewrite foldl_app. cbn [foldl]. set (s := foldl _ s0 l) in *.
  unfold WebRtcSession.AddPullerRtpSession. cbv zeta. cbn [fst WebRtcSession.with_pullers WebRtcSession.pullers
    WebRtcSession.ssrc2media_puller_ WebRtcSession.rtxssrc2media_puller_].
  split_and!.
  - rewrite H1, map_app. cbn [map]. unfold subscribed at 3. by rewrite H3.
  - rewrite imap_app. cbn [imap]. rewrite Nat.add_0_r, H1, length_map, StdMap.set_Permutation.
    + change (RtpSessionParam.ssrc_ x.2.1) with (ssrc_at x). rewrite H2. by rewrite Permutation_app_comm.
    + destruct (StdMap.find (RtpSessionParam.ssrc_ x.2.1) (WebRtcSession.ssrc2media_puller_ s)) as [n|] eqn:E; [|done]. exfalso.
      apply StdMap.find_In, list_elem_of_In in E. rewrite H2 in E. apply elem_of_lookup_imap in E as (j & y & Ey & E).
      injection Ey as Ey _. apply (Hx (ssrc_at x)); [|by left].
      apply list_elem_of_fmap. exists y. split; [done|]. by eapply list_elem_of_lookup_2.
  - by rewrite H3 at 1.
Qed.
Lemma order_ok (m : list (Z * nat)) (l : list source) :
  m ≡ₚ imap (fun n x => (ssrc_at x, n)) l -> m.*2 ≡ₚ seq 0 (length l).
Proof.
  intros ->. assert (H : forall o, (imap (fun n x => (ssrc_at x, o + n)%nat) l).*2 = seq o (length l)).
  { induction l as [|x l IH]; intros o; [done|]. cbn [imap fmap list_fmap snd length seq]. rewrite Nat.add_0_r. f_equal.
    rewrite <- (IH (S o)). f_equal. apply imap_ext. intros j y _. cbn. f_equal. lia. }
  rewrite <- (H 0%nat). done.
Qed.
End Subscriptions.

(** What the answer made of the subscribers' parameters. *)
Lemma set_params_ok (s : WebRtcSession.t) (order : list nat) (params params' : list RtpSessionParam.t) :
  NoDup order -> Forall2 (fun x p => MediaPuller.param_ <$> WebRtcSession.pullers s !! x = Some p) order params ->
  Forall2 same_stream params params' ->
  let s' := foldl (fun s (x : nat * RtpSessionParam.t) => WebRtcSession.SetPullerParam s x.1 x.2) s (zip order params') in
  s' = WebRtcSession.with_pullers s (WebRtcSession.pullers s') (WebRtcSession.ssrc2media_puller_ s) (WebRtcSession.rtxssrc2media_puller_ s) /\
  (forall x, x ∉ order -> WebRtcSession.pullers s' !! x = WebRtcSession.pullers s !! x) /\
  (forall x q, x ∈ order -> WebRtcSession.pullers s !! x = Some q ->
     exists p', WebRtcSession.pullers s' !! x = Some (MediaPuller.with_param q p') /\ same_stream (MediaPuller.param_ q) p').
Proof.
  intros Hnd H1 H2. revert s params' Hnd H2 H1. revert params. induction order as [|x order IH]; intros params s params' Hnd H2 H1; cbv zeta.
  { cbn. split; [by destruct s|]. split; [done|]. intros x q H. by apply elem_of_nil in H. }
  apply Forall2_cons_inv_l in H1 as (p & ps & Hp & H1 & ->). apply Forall2_cons_inv_l in H2 as (p' & ps' & Hpp & H2 & ->).
  apply NoDup_cons in Hnd as [Hx Hnd]. cbn [zip zip_with foldl fst snd].
  destruct (WebRtcSession.pullers s !! x) as [q|] eqn:E; [|done]. cbn in Hp. injection Hp as Hp.
  assert (E1 : WebRtcSession.SetPullerParam s x p' = WebRtcSession.with_puller s x (MediaPuller.with_param q p')) by (unfold WebRtcSession.SetPullerParam; by rewrite E).
  rewrite E1. set (s1 := WebRtcSession.with_puller s x _).
  assert (Hs1 : forall y, y <> x -> WebRtcSession.pullers s1 !! y = WebRtcSession.pullers s !! y) by (intros y Hy; by apply list_lookup_insert_ne).
  assert (Hs1x : WebRtcSession.pullers s1 !! x = Some (MediaPuller.with_param q p')) by (apply list_lookup_insert_eq; by eapply lookup_lt_Some).
  destruct (IH ps s1 ps' Hnd H2) as (F1 & F2 & F3).
  { apply Forall2_same_length_lookup in H1 as [Hl H1]. apply Forall2_same_length_lookup. split; [done|].
    intros j y r Hy Hr. rewrite Hs1; [by eapply H1|]. intros ->. apply Hx. by eapply list_elem_of_lookup_2. }
  split_and!.
  - rewrite F1 at 1. done.
  - intros y [Hy1 Hy2]%not_elem_of_cons. rewrite F2 by done. by apply Hs1.
  - intros y r [->|Hy]%elem_of_cons Hr.
    + exists p'. rewrite F2 by done. rewrite Hs1x. split; congruence.
    + apply F3; [done|]. rewrite Hs1; [done|]. by intros ->.
Qed.

Lemma subscription_add q r a b :
  Room.subscription (Room.add_puller q r) a b =
    if String.eqb a (Room.pl_pusher_id q) && String.eqb b (Room.pl_puller_id q) then Some q else Room.subscription r a b.
Proof.
  unfold Room.subscription at 1. unfold Room.pullers_of at 1. unfold Room.add_puller. cbn [Room.with_streams Room.pusher2pullers_].
  rewrite (StrMap.find_in_set a). destruct (String.eqb_spec a (Room.pl_pusher_id q)) as [->|]; [|done]. cbn [default from_option andb id].
  by rewrite StrMap.find_in_set.
Qed.
Lemma pullers_find (l : list Room.Puller) r :
  let r' := foldl (fun r p => Room.add_puller p r) r l in
  r' = Room.with_streams r (Room.pusherId2pusher_ r) (Room.pusher2pullers_ r') /\
  (forall a b, (forall p, p ∈ l -> Room.pl_pusher_id p = a -> Room.pl_puller_id p = b -> False) ->
     Room.subscription r' a b = Room.subscription r a b) /\
  (forall v, v ∈ l -> (forall p, p ∈ l -> Room.pl_puller_id p = Room.pl_puller_id v -> p = v) ->
     Room.subscription r' (Room.pl_pusher_id v) (Room.pl_puller_id v) = Some v).
Proof.
  assert (Hkeep : forall l r a b v, (forall p, p ∈ l -> Room.pl_puller_id p = b -> p = v) -> Room.subscription r a b = Some v ->
    Room.subscription (foldl (fun r p => Room.add_puller p r) r l) a b = Some v).
  { clear. induction l as [|p l IH]; intros r a b v Hv E; cbn [foldl]; [done|]. apply IH; [intros p' Hp'; apply Hv; by right|].
    rewrite subscription_add. destruct (String.eqb_spec b (Room.pl_puller_id p)) as [Hb|]; [|by rewrite andb_false_r].
    rewrite andb_true_r. destruct (String.eqb a _); [|done]. f_equal. apply Hv; [by left|done]. }
  cbv zeta. revert r. induction l as [|p l IH]; intros r; cbn [foldl].
  { split_and!; [by destruct r|done|]. intros v H. by apply elem_of_nil in H. }
  destruct (IH (Room.add_puller p r)) as (H1 & H2 & H3). split_and!.
  - by rewrite H1 at 1.
  - intros a b Hn. rewrite H2 by (intros p' Hp'; apply Hn; by right). rewrite subscription_add.
    destruct (String.eqb_spec a (Room.pl_pusher_id p)) as [->|]; [|done].
    destruct (String.eqb_spec b (Room.pl_puller_id p)) as [->|]; [|done]. exfalso. apply (Hn p); [by left|done..].
  - intros v [->|Hv]%elem_of_cons Hu.
    + apply Hkeep; [intros p' Hp'; apply Hu; by right|]. by rewrite subscription_add, !String.eqb_refl.
    + apply H3; [done|]. intros p' Hp'. apply Hu. by right.
Qed.

(** After subscribing to some publishers: the session has a subscriber for each, with the
    publisher's stream under the numbers of the answer; the room lists it with the publisher,
    and nothing else is changed. *)
Record has_subscriptions (i : nat) (target_user_id : string) (s0 : WebRtcSession.t) (r0 : Room.t)
    (l : list (string * (RtpSessionParam.t * string))) (s : WebRtcSession.t) (r : Room.t) : Prop := {
  hs_session : s = WebRtcSession.with_pullers s0 (WebRtcSession.pullers s) (WebRtcSession.ssrc2media_puller_ s)
    (WebRtcSession.rtxssrc2media_puller_ s);
  hs_count : length (WebRtcSession.pullers s) = length l;
  hs_each : forall n x, l !! n = Some x -> exists p',
    WebRtcSession.pullers s !! n = Some (MediaPuller.with_param (subscribed target_user_id s0 x) p') /\ same_stream x.2.1 p';
  hs_by_ssrc : WebRtcSession.ssrc2media_puller_ s ≡ₚ imap (fun n x => (ssrc_at x, n)) l;
  hs_room : r = Room.with_streams r0 (Room.pusherId2pusher_ r0) (Room.pusher2pullers_ r);
  hs_listed : forall n x, l !! n = Some x -> Room.subscription r x.2.2 x.1 = Some (listed i s0 n x);
  hs_others : forall a b, b ∉ l.*1 -> Room.subscription r a b = Room.subscription r0 a b
}.

Lemma subscriptions_ok (i : nat) target_user_id l s0 r0 params' :
  WebRtcSession.pullers s0 = [] -> WebRtcSession.ssrc2media_puller_ s0 = [] -> NoDup (map ssrc_at l) -> NoDup l.*1 ->
  let s1 := add_subscriptions target_user_id l s0 in
  Forall2 same_stream (puller_params s1) params' ->
  let s := set_params s1 params' in
  has_subscriptions i target_user_id s0 r0 l s (foldl (fun r p => Room.add_puller p r) r0 (pullers_at i s)).
Proof.
  intros Hp Hm Hnd Hid s1 Hpar s. destruct (add_subscriptions_ok target_user_id s0 l Hp Hm Hnd) as (A1 & A2 & A3). fold s1 in A1, A2, A3.
  assert (Ho : WebRtcSession.GetMediaPullers s1 ≡ₚ seq 0 (length l)) by (by apply order_ok).
  assert (Hin : forall n, n ∈ WebRtcSession.GetMediaPullers s1 <-> (n < length l)%nat).
  { intros n. rewrite Ho, elem_of_seq. lia. }
  destruct (set_params_ok s1 (WebRtcSession.GetMediaPullers s1) (puller_params s1) params') as (B1 & B2 & B3); [|apply Forall2_omap|done|].
  { rewrite Ho. apply NoDup_ListNoDup, seq_NoDup. }
  { apply Forall_forall. intros n Hn%Hin. destruct (lookup_lt_is_Some_2 l n Hn) as (x & Ex). rewrite A1, list_lookup_fmap, Ex. by eexists. }
  fold (set_params s1 params') in B1, B2, B3. fold s in B1, B2, B3.
  assert (Heach : forall n x, l !! n = Some x -> exists p',
    WebRtcSession.pullers s !! n = Some (MediaPuller.with_param (subscribed target_user_id s0 x) p') /\ same_stream x.2.1 p').
  { intros n x Ex. destruct (B3 n (subscribed target_user_id s0 x)) as (p' & Ep & Hs); [|by rewrite A1, list_lookup_fmap, Ex|].
    - apply Hin. by eapply lookup_lt_Some.
    - by exists p'. }
  assert (Hcount : length (WebRtcSession.pullers s) = length l).
  { assert (Hl : length (WebRtcSession.pullers s1) = length l) by (by rewrite A1, length_map). apply Nat.le_antisymm; apply Nat.nlt_ge; intros Hlt.
    - apply lookup_lt_is_Some_2 in Hlt as (y & Ey). rewrite B2 in Ey by (rewrite Hin; lia). apply lookup_lt_Some in Ey. lia.
    - apply lookup_lt_is_Some_2 in Hlt as (y & Ey). destruct (Heach _ _ Ey) as (p' & Ep & _). apply lookup_lt_Some in Ep. lia. }
  assert (Hgm : WebRtcSession.GetMediaPullers s = WebRtcSession.GetMediaPullers s1) by (by rewrite B1).
  assert (Hat : forall n x, l !! n = Some x -> puller_at i s n = Some (listed i s0 n x)).
  { intros n x Ex. unfold puller_at. destruct (Heach n x Ex) as (p' & -> & _). done. }
  assert (Hps : forall p, p ∈ pullers_at i s <-> exists n x, l !! n = Some x /\ p = listed i s0 n x).
  { intros p. unfold pullers_at. rewrite list_elem_of_omap, Hgm. split.
    - intros (n & Hn%Hin & E). destruct (lookup_lt_is_Some_2 l n Hn) as (x & Ex). exists n, x. split; [done|].
      rewrite (Hat n x Ex) in E. congruence.
    - intros (n & x & Ex & ->). exists n. split; [|by apply Hat]. apply Hin. by eapply lookup_lt_Some. }
  destruct (pullers_find (pullers_at i s) r0) as (C1 & C2 & C3). split; try done.
  - assert (D1 : WebRtcSession.ssrc2media_puller_ s = WebRtcSession.ssrc2media_puller_ s1) by (by rewrite B1).
    assert (D2 : WebRtcSession.rtxssrc2media_puller_ s = WebRtcSession.rtxssrc2media_puller_ s1) by (by rewrite B1).
    rewrite D1, D2. etransitivity; [exact B1|]. generalize (WebRtcSession.pullers s). intros ps. rewrite A3. done.
  - by rewrite B1.
  - intros n x Ex. change x.2.2 with (Room.pl_pusher_id (listed i s0 n x)). change x.1 with (Room.pl_puller_id (listed i s0 n x)).
    apply C3; [apply Hps; by exists n, x|]. intros p (n' & x' & Ex' & ->)%Hps E. cbn in E.
    assert (n' = n) as ->; [|congruence]. eapply (NoDup_lookup _ _ _ x.1 Hid); rewrite list_lookup_fmap, ?Ex, ?Ex'; cbn; congruence.
  - intros a b Hb. apply C2. intros p (n & x & Ex & ->)%Hps _ <-. apply Hb. apply list_elem_of_fmap. exists x.
    split; [done|]. by eapply list_elem_of_lookup_2.
Qed.

Lemma answer_for_wf q setup d offer a : sdp_wf offer -> answer_for q setup d offer = Ok a -> sdp_wf a.
Proof.
  intros Ho. unfold answer_for. destruct (GenAnswerSdp_ok SdpFilter.g_sdp_answer_filter d setup (text (IceServer.ice_ufrag_ (ice q)))
    (text (IceServer.ice_pwd_ (ice q))) (local_fp q) (uuid q 1) offer Ho) as (a0 & -> & Hw & _). cbn [rbind]. intros [= <-].
  by destruct Hw as [W1 W2]; split.
Qed.
Lemma wf_places a : sdp_wf a -> places a (RtcSdp.media_sections_ a).
Proof. intros [_ [_ H]]. exact H. Qed.

(** What both ways of subscribing do. *)
Lemma subscribe_ok e q find_pusher pull_info sdp_type sdp_str id resp_cb k offer a :
  RtcSdp.ParseSdp sdp_type sdp_str = Ok offer ->
  answer_for q RTC_SETUP_PASSIVE DIRECTION_SENDONLY offer = Ok a ->
  Forall (audio_video a) (RtcSdp.media_sections_ a) ->
  WebRtcServer.username2sessions_ (server k) !! IceServer.ice_ufrag_ (ice q) = None ->
  let i := length (WebRtcServer.sessions (server k)) in
  let s0 := opened e q SrtpSession.SRTP_SESSION_TYPE_SEND (src_user_id_ pull_info) k in
  (forall sv pid, WebRtcServer.sessions sv = WebRtcServer.sessions (server k) ++ [s0] ->
     find_pusher (mk (room k) sv) pid = find_pusher k pid) ->
  let l := requested q (find_pusher k) (pushers_ pull_info) in
  NoDup l.*1 -> NoDup (map ssrc_at l) ->
  exists params a' str k' s,
    Pullers.UpdateRtcSdpByPullers (uuid q) (2 + length (pushers_ pull_info))
      (puller_params (add_subscriptions (target_user_id_ pull_info) l s0)) a = Ok (params, a') /\
    SdpText.GenSdpString (num q) a' false = Ok str /\
    subscribe e q find_pusher pull_info sdp_type sdp_str id resp_cb k =
      (k', dtls_call q i ROLE_SERVER (RtcSdp.finger_print_ offer) ++
           [OfRoom (Room.OnProtooResponse resp_cb id 0 EmptyString (answer_json "pull success" str))], Ok 0) /\
    server k' = WebRtcServer.mk (WebRtcServer.sessions (server k) ++ [s])
                  (<[IceServer.ice_ufrag_ (ice q) := i]> (WebRtcServer.username2sessions_ (server k)))
                  (WebRtcServer.addr2sessions_ (server k)) /\
    has_subscriptions i (target_user_id_ pull_info) s0 (room k) l s (room k').
Proof.
  intros HP HA Hav Hu i s0 Hfind l Hid Hnd. pose proof (answer_for_wf _ _ _ _ _ (ParseSdp_wf _ _ _ HP) HA) as Haw.
  set (s1 := add_subscriptions (target_user_id_ pull_info) l s0).
  destruct (UpdateRtcSdpByPullers_ok (uuid q) (2 + length (pushers_ pull_info)) (puller_params s1) a (wf_places a Haw))
    as (params & a' & HU & Hsame & Hres & _).
  destruct (GenSdpString_total (num q) a' false) as (str & HS).
  { rewrite (resectioned_list _ _ Hres). eapply Forall_impl; [exact Hav|]. intros x. by apply resectioned_audio_video. }
  pose proof (subscriptions_ok i (target_user_id_ pull_info) l s0 (room k) params eq_refl eq_refl Hnd Hid Hsame) as Hsub.
  fold s1 in Hsub. set (s := set_params s1 params) in *.
  exists params, a', str. unfold subscribe. rewrite HP, ebind_ok.
  rewrite (open_session_ok e q SrtpSession.SRTP_SESSION_TYPE_SEND ROLE_SERVER _ (src_user_id_ pull_info) k) by done.
  fold i s0. cbn [ebind]. rewrite HA. cbn [pure ebind server WebRtcServer.sessions].
  assert (Hs : (WebRtcServer.sessions (server k) ++ [s0]) !! i = Some s0) by (unfold i; by rewrite lookup_app_r, Nat.sub_diag by lia).
  rewrite Hs.
  assert (Hl : requested q (find_pusher (mk (room k) (WebRtcServer.mk (WebRtcServer.sessions (server k) ++ [s0])
    (<[IceServer.ice_ufrag_ (ice q) := i]> (WebRtcServer.username2sessions_ (server k))) (WebRtcServer.addr2sessions_ (server k)))))
    (pushers_ pull_info) = l).
  { unfold l, requested. f_equal. apply imap_ext. intros n x _. cbn. by rewrite Hfind. }
  rewrite Hl. fold s1. rewrite HU. cbn [pure ebind]. fold s. rewrite HS. cbn [pure ebind emit eret app].
  eexists _, s. split; [done|]. split; [done|]. split; [by rewrite ?app_nil_r|]. split; [|exact Hsub].
  unfold with_session, WebRtcServer.with_session. cbn. unfold i. by rewrite !insert_app_r_alt, Nat.sub_diag by lia.
Qed.

(** The publishers that the room lists lie in sessions of the server. *)
Definition placed (k : t) : Prop := forall id p,
  StrMap.find id (Room.pusherId2pusher_ (room k)) = Some p -> (Room.ps_session p < length (WebRtcServer.sessions (server k)))%nat.

Lemma local_pusher_app k s sv pid :
  placed k -> WebRtcServer.sessions sv = WebRtcServer.sessions (server k) ++ [s] -> local_pusher (mk (room k) sv) pid = local_pusher k pid.
Proof.
  intros Hp E. unfold local_pusher. cbn [room server]. destruct (StrMap.find pid _) as [p|] eqn:Ep; [|done].
  rewrite E, lookup_app_l; [done|]. by eapply Hp.
Qed.


End Dispatch.

(** * Examples *)

#[local] Existing Instance SrtpSession.toy_srtp.
#[local] Existing Instance SrtpSession.toy_srtp_laws.
#[local] Instance example_mac : EvpMac := StunMessage.StunMessage.toy_hmac.
#[local] Instance example_inet : Inet := StunMessage.StunMessage.toy_inet.

Definition sample_request (id : string) (ufrag : list Z) : request :=
  mk_request (fun n => id +:+ Text.to_string (Z.of_nat n)) (IceServer.mk ufrag [98]) [] 0 0 "sha-256 AA"
             [mk_candidate "1.2.3.4" 7000 RTC_NET_UDP 5 10001] "0123456789".
Definition sample_env : env := mk_env WebRtcSession.sample_env Room.sample_env.
Definition sample_offered : RtcSdp.t := match RtcSdp.ParseSdp "offer" sample_text with Ok a => a | _ => RtcSdp.new_RtcSdp RTC_SDP_OFFER end.
Definition sample_answer (q : request) (d : DirectionType) : RtcSdp.t :=
  match answer_for q RTC_SETUP_PASSIVE d sample_offered with Ok a => a | _ => sample_offered end.

(** Alice and Bob are in the room; Alice publishes. *)
Definition joined : Room.t :=
  final (Room.happens (final (Room.happens (Room.new_Room "room" true 0) (Room.Join 0 "alice" "Alice" false 1 10)))
                      (Room.Join 1000 "bob" "Bob" false 1 20)).
Definition quiet_server : t := mk joined WebRtcServer.new_WebRtcServer.

Lemma publish_registers_witness :
  exists k' cs, HandlePushSdp sample_env (sample_request "a" [97]) "alice" "offer" sample_text 7 10 quiet_server = (k', cs, Ok 0) /\
    StrMap.find "a2" (Room.pusherId2pusher_ (room k')) = Some (Room.mk_pusher 0 0 "alice" "a2") /\
    length (WebRtcServer.sessions (server k')) = 1%nat.
Proof.
  set (q := sample_request "a" [97]). set (a := sample_answer q DIRECTION_RECVONLY).
  destruct (publish_registers sample_env q "alice" "offer" sample_text 7 10 quiet_server sample_offered a
    (match SdpText.GenSdpString (num q) a false with Ok s => s | _ => EmptyString end)
    (match StrMap.find "alice" (Room.users_ joined) with Some u => u | None => RtcUser.new_RtcUser "" "" false None 0 end))
    as (k' & s & E & Hsv & Ht);
    [vm_compute; reflexivity|vm_compute; reflexivity|vm_compute; discriminate|vm_compute; reflexivity| |vm_compute; reflexivity|
     vm_compute; reflexivity|].
  - vm_compute. repeat (apply NoDup_cons; split; [set_solver|]). apply NoDup_nil. exact I.
  - exists k'. eexists. split; [exact E|]. split; [|by rewrite Hsv].
    eapply (ht_registered _ _ _ _ _ _ _ _ Ht 0%nat "a2"). vm_compute. reflexivity.
Defined.

(** Alice's track is there, and Bob subscribes to it. *)
Definition publishing : t :=
  mk (Room.add_pusher (Room.mk_pusher 0 0 "alice" "p1") joined)
     (WebRtcServer.mk [WebRtcSession.sample] ∅ {[WebRtcServer.to_u64 WebRtcSession.sample_addr := 0%nat]}).
Definition bob_pulls : PullRequestInfo := mk_pull "alice" "bob" [mk_PushInfo "p1" new_RtpSessionParam].

Lemma publishing_placed : placed publishing.
Proof.
  intros id p H. unfold publishing in *. cbn [room server Room.add_pusher Room.with_streams Room.pusherId2pusher_] in H.
  rewrite StrMap.find_in_set in H. destruct (String.eqb id _); [injection H as <-; vm_compute; lia|].
  vm_compute in H. discriminate.
Qed.


End Sfu.
