(* ===== verification/SfuMedia.v ===== *)
(** The way of media through a room of one server: from the datagram of a publisher to the
    datagrams of its subscribers, over the definitions of [Sfu]. *)
From stdpp Require Import gmap sets.
From S2P Require Import Prelude Effect ByteStream ByteCrypto IpAddress RtpPub IceServer Stun StdMap StrMap RtpPacket RtpPacketEdits.
From S2P Require Import RtpSession RtpSendSession RtpRecvSession RtcInfo MediaPusher MediaPuller RtcRelay.
From S2P Require Import SrtpSession WebRtcSession WebRtcServer Room Sfu.

Import RtpPub.

Module SfuMedia.
Import Sfu.

Section Media.
Context {Ls : LibSrtp} {LsL : LibSrtpLaws} {Ev : EvpMac} {In : Inet}.

(** * One subscriber *)

(** The packet as the subscriber [m] sends it: under its own payload type and SSRC. *)
Definition readdressed (m : MediaPuller.t) (c q : RtpPacket.t) : Prop :=
  RtpPacketEdits.sound q /\
  RtpPacketEdits.media (RtpPacket.view_of q) =
    RtpPacketEdits.media (MediaPuller.addressed (RtpPacket.view_of c) (RtpSessionParam.payload_type_ (MediaPuller.param_ m))
                            (RtpSessionParam.ssrc_ (MediaPuller.param_ m))).

(** Why a subscriber's session [s] sends nothing for the packet [c] lent to its subscriber
    [m]: there is no payload or DTLS is not connected; the sending session does not take the
    packet; SRTP is not set up or refuses; the loss that the configuration simulates. *)
Inductive silent (e : WebRtcSession.env) (s : WebRtcSession.t) (m : MediaPuller.t) (c : RtpPacket.t) : Prop :=
  | silent_idle : RtpPacket.payload_len c = 0%nat \/ WebRtcSession.dtls_connected_ s = false -> silent e s m c
  | silent_refused sender p : MediaPuller.rtp_send_session_ m = Some sender -> RtpPacketEdits.ext_edit c p ->
      (RtpSendSession.SendRtpPacket sender p (WebRtcSession.now e) (WebRtcSession.fresh e)).2 <> Ok true -> silent e s m c
  | silent_plain : WebRtcSession.srtp_send_session_ s = None -> silent e s m c
  | silent_unprotected srtp q : WebRtcSession.srtp_send_session_ s = Some srtp -> readdressed m c q ->
      (SrtpSession.EncryptRtp srtp (RtpPacket.GetData q)).2 = Ok None -> silent e s m c
  | silent_loss : 0 < WebRtcSession.downlink_discard_percent_ e -> silent e s m c.

(** What the session writes: nothing, or one datagram that holds the packet so addressed
    and that whoever has the other end of the
    session's SRTP gets the packet from. *)
Inductive served (e : WebRtcSession.env) (s : WebRtcSession.t) (m : MediaPuller.t) (c : RtpPacket.t) (s' : WebRtcSession.t)
    : list (list Z) -> Prop :=
  | served_silent : silent e s m c -> served e s m c s' []
  | served_sent srtp srtp' q d :
      WebRtcSession.srtp_send_session_ s = Some srtp -> WebRtcSession.srtp_send_session_ s' = Some srtp' ->
      readdressed m c q ->
      SrtpSession.EncryptRtp srtp (RtpPacket.GetData q) = (srtp', Ok (Some d)) ->
      (forall recv, SrtpSession.paired srtp recv -> exists recv',
         SrtpSession.DecryptRtp recv d = (recv', (true, RtpPacket.GetData q)) /\ SrtpSession.paired srtp' recv') ->
      served e s m c s' [d].

Lemma EncryptRtp_returns srtp d : (length d <= 1500)%nat -> exists srtp' r, SrtpSession.EncryptRtp srtp d = (srtp', Ok r).
Proof.
  intros Hl. unfold SrtpSession.EncryptRtp. destruct (SrtpSession.ready srtp _ d) as [c|]; [|by do 2 eexists].
  destruct (_ <? length d)%nat; [by do 2 eexists|]. destruct (srtp_protect c d) as [c' [ok d']] eqn:E.
  assert (Hr : (length d' <= length d + SRTP_MAX_TRAILER_LEN)%nat).
  { destruct ok; [by eapply protect_room|]. eapply failure_room. by left. }
  rewrite (proj2 (Nat.ltb_ge _ _)); [by do 2 eexists|].
  assert (H1 : SRTP_MAX_TRAILER_LEN = 144%nat) by reflexivity.
  assert (H2 : SrtpSession.DATA_BUFFER_SIZE = 2048%nat) by reflexivity. lia.
Qed.

(** The session's part of sending a packet. *)
Lemma session_sends e s d :
  WebRtcSession.wf s -> WebRtcSession.dtls_connected_ s = true -> (length d <= 1500)%nat ->
  exists s' ws, WebRtcSession.OnTransportSendRtp e s d =
      (s', map (fun w => WebRtcSession.WriteUdpData w (WebRtcSession.remote_addr_ s)) ws, Ok tt) /\
    WebRtcSession.pullers s' = WebRtcSession.pullers s /\
    match ws with
    | [] => WebRtcSession.srtp_send_session_ s = None \/ 0 < WebRtcSession.downlink_discard_percent_ e \/
            exists srtp, WebRtcSession.srtp_send_session_ s = Some srtp /\ (SrtpSession.EncryptRtp srtp d).2 = Ok None
    | [w] => exists srtp srtp', WebRtcSession.srtp_send_session_ s = Some srtp /\
               WebRtcSession.srtp_send_session_ s' = Some srtp' /\ SrtpSession.EncryptRtp srtp d = (srtp', Ok (Some w))
    | _ => False
    end.
Proof.
  intros Hs Hc Hl. unfold WebRtcSession.OnTransportSendRtp. rewrite Hc. cbn [negb].
  destruct (WebRtcSession.srtp_send_session_ s) as [srtp|] eqn:Es; [|exists s, []; split; [done|]; split; [done|by left]].
  destruct (EncryptRtp_returns srtp d Hl) as (srtp' & r & HE). rewrite HE. cbn [pure ebind].
  destruct r as [w|]; [|eexists _, []; split; [done|]; split; [done|]; right; right; exists srtp; by rewrite HE].
  unfold WebRtcSession.discarded. set (s1 := WebRtcSession.with_srtp s _ _).
  assert (Hw : forall s2, WebRtcSession.trans_cb_ s2 = WebRtcSession.trans_cb_ s -> WebRtcSession.write s2 w (WebRtcSession.remote_addr_ s) =
    (s2, [WebRtcSession.WriteUdpData w (WebRtcSession.remote_addr_ s)], Ok tt)).
  { intros s2 Ht. unfold WebRtcSession.write. rewrite Ht, (WebRtcSession.wf_transport s Hs Hc). done. }
  change (WebRtcSession.remote_addr_ s1) with (WebRtcSession.remote_addr_ s).
  destruct (Z.ltb_spec 0 (WebRtcSession.downlink_discard_percent_ e)) as [Hd|_].
  - unfold WebRtcSession.draw. change (WebRtcSession.random s1) with (WebRtcSession.random s).
    destruct (WebRtcSession.random s) as [|r l]; cbn [fst snd];
      (destruct (_ <? _); [eexists _, []; split; [done|]; split; [done|by right; left]|]);
      (eexists _, [w]; split; [cbn; rewrite Hw by done; done|]; split; [done|by exists srtp, srtp']).
  - exists s1, [w]. split; [by rewrite Hw by done|]. split; [done|]. by exists srtp, srtp'.
Qed.

(** No subscriber is lost. *)
Definition kept (s s' : WebRtcSession.t) : Prop := length (WebRtcSession.pullers s') = length (WebRtcSession.pullers s).

Lemma serve_one e s i m c :
  WebRtcSession.wf s -> WebRtcSession.pullers s !! i = Some m -> RtpPacket.wf c -> (RtpPacket.data_len c <= 1498)%nat ->
  bytes (WebRtcSession.fresh e) -> length (WebRtcSession.fresh e) = 1500%nat ->
  exists s' ws r, WebRtcSession.PullerSendRtp e s i c =
      (s', map (fun w => WebRtcSession.WriteUdpData w (WebRtcSession.remote_addr_ s)) ws, r) /\ defined r /\
    WebRtcSession.wf s' /\ kept s s' /\ served e s m c s' ws.
Proof.
  intros Hs Hi Hc Hl Hf Hfl.
  pose proof (WebRtcSession.happens_stays s (WebRtcSession.Lend e i c) Hs ltac:(done)) as Hst.
  cbn [WebRtcSession.happens] in Hst. unfold WebRtcSession.PullerSendRtp, WebRtcSession.on_puller in *. rewrite Hi in *.
  pose proof (Forall_lookup_1 _ _ _ _ (WebRtcSession.wf_pullers s Hs) Hi) as Hm.
  destruct (MediaPuller.puller_send_ok (WebRtcSession.IsConnected s) (WebRtcSession.now e) (WebRtcSession.fresh e) m c Hm Hc Hl Hf Hfl)
    as (m' & c' & es & r & E & Hm' & Hdef & H1 & H2).
  rewrite E in *. cbn [zoom fst handled] in *. unfold WebRtcSession.IsConnected in *.
  set (s1 := WebRtcSession.with_puller s i m') in *.
  assert (Hnil : es = [] -> silent e s m c -> exists s' ws r0,
    (let '(s2, fs, h) := efor es s1 (WebRtcSession.from_puller e) in
     (s2, fs, match r, h with Undef u, _ => Undef u | _, Ok _ => r | _, Throw msg => Throw msg | _, Undef u => Undef u end)) =
    (s', map (fun w => WebRtcSession.WriteUdpData w (WebRtcSession.remote_addr_ s)) ws, r0) /\ defined r0 /\
    WebRtcSession.wf s' /\ kept s s' /\ served e s m c s' ws).
  { intros -> Hsil. cbn [efor eret] in *. exists s1, [], r. split; [by destruct r|]. split; [done|].
    split; [|split; [apply length_insert|by constructor]].
    unfold stays, outcome, final in Hst. cbn in Hst. apply Hst. by destruct r. }
  destruct (decide (RtpPacket.payload_len c = 0%nat \/ WebRtcSession.dtls_connected_ s = false)) as [Hidle|Hgo].
  { destruct (H1 Hidle) as (_ & _ & -> & _). apply Hnil; [done|]. by constructor. }
  destruct (WebRtcSession.dtls_connected_ s) eqn:Hconn; [|tauto].
  destruct (H2 ltac:(tauto) eq_refl) as (sender & p & sender' & sr & Hsess & Hed & Hsend & _ & Hres).
  assert (Href : sr <> Ok true -> silent e s m c) by (intros; eapply silent_refused; [done..|by rewrite Hsend]).
  destruct sr as [[]|msg|u].
  - destruct Hres as (-> & _ & q & -> & Hq & Hmedia). cbn [efor WebRtcSession.from_puller] in *.
    assert (Hs1 : WebRtcSession.wf s1) by (by apply WebRtcSession.wf_with_puller).
    assert (Hlq : (length (RtpPacket.GetData q) <= 1500)%nat).
    { unfold RtpPacket.GetData. rewrite length_take. pose proof (RtpPacketEdits.sd_max q Hq). lia. }
    destruct (session_sends e s1 (RtpPacket.GetData q) Hs1 Hconn Hlq) as (s' & ws & HE & Hpl & Hws).
    rewrite HE in *. cbn [ebind eret] in *. rewrite app_nil_r in *.
    exists s', ws, (Ok tt). split; [done|]. split; [done|]. split; [by apply Hst|].
    split; [unfold kept; rewrite Hpl; apply length_insert|].
    change (WebRtcSession.srtp_send_session_ s1) with (WebRtcSession.srtp_send_session_ s) in Hws.
    destruct ws as [|w [|? ?]]; [| |done].
    + apply served_silent. destruct Hws as [?|[?|(srtp & ? & ?)]];
        [by apply silent_plain|by apply silent_loss|by eapply silent_unprotected].
    + destruct Hws as (srtp & srtp' & A & B & C). eapply served_sent; try done.
      intros recv Hp. by eapply SrtpSession.EncryptRtp_reaches.
  - destruct Hres as [_ ->]. by apply Hnil, Href.
  - destruct Hres as [-> _]. by apply Hnil, Href.
  - destruct Hres as [-> _]. by apply Hnil, Href.
Qed.

(** * The subscribers in turn *)

Inductive serves (e : WebRtcSession.env) (c : RtpPacket.t) : WebRtcServer.t -> list Room.Puller -> WebRtcServer.t -> list call -> Prop :=
  | serves_none sv : serves e c sv [] sv []
  | serves_next sv y l s m s' ws sv' cs :
      WebRtcServer.sessions sv !! Room.pl_session y = Some s -> WebRtcSession.pullers s !! Room.pl_index y = Some m ->
      served e s m c s' ws -> serves e c (WebRtcServer.with_session sv (Room.pl_session y) s') l sv' cs ->
      serves e c sv (y :: l) sv'
        (map (fun w => OfServer (WebRtcServer.UdpWrite w (WebRtcSession.remote_addr_ s))) ws ++ cs).

(** The subscriber that the room lists is one of a session's. *)
Definition subscriber_of (sv : WebRtcServer.t) (y : Room.Puller) : Prop :=
  exists s, WebRtcServer.sessions sv !! Room.pl_session y = Some s /\ (Room.pl_index y < length (WebRtcSession.pullers s))%nat.

Lemma subscriber_kept sv i s s' y :
  WebRtcServer.sessions sv !! i = Some s -> kept s s' -> subscriber_of sv y -> subscriber_of (WebRtcServer.with_session sv i s') y.
Proof.
  intros Hs Hk (s0 & H0 & Hl). unfold subscriber_of, WebRtcServer.with_session. cbn [WebRtcServer.sessions].
  destruct (decide (Room.pl_session y = i)) as [E|Hne].
  - exists s'. rewrite E in *. rewrite list_lookup_insert_eq by (by eapply lookup_lt_Some). split; [done|]. rewrite Hk. congruence.
  - exists s0. by rewrite list_lookup_insert_ne.
Qed.

Lemma serve_all e c l k :
  Forall WebRtcSession.wf (WebRtcServer.sessions (server k)) -> Forall (fun y : string * Room.Puller => subscriber_of (server k) y.2) l ->
  RtpPacket.wf c -> (RtpPacket.data_len c <= 1498)%nat ->
  bytes (WebRtcSession.fresh (of_session e)) -> length (WebRtcSession.fresh (of_session e)) = 1500%nat ->
  exists sv' cs, efor (Room.lent c l) k (from_room e) = (mk (room k) sv', cs, Ok tt) /\ serves (of_session e) c (server k) l.*2 sv' cs.
Proof.
  intros Hw Hl Hc Hlen Hf Hfl. revert k Hw Hl. induction l as [|y l IH]; intros k Hw Hl.
  { exists (server k), []. split; [by destruct k|constructor]. }
  apply Forall_cons in Hl as [(s & Hs & Hi) Hl]. apply lookup_lt_is_Some_2 in Hi as (m & Hm).
  destruct (serve_one (of_session e) s (Room.pl_index y.2) m c (Forall_lookup_1 _ _ _ _ Hw Hs) Hm Hc Hlen Hf Hfl)
    as (s' & ws & r & HE & Hdef & Hs' & Hkept & Hserved).
  set (k1 := mk (room k) (WebRtcServer.with_session (server k) (Room.pl_session y.2) s')).
  assert (Hone : from_room e k (Room.PullerSend y.2 c) =
    (k1, map (fun w => OfServer (WebRtcServer.UdpWrite w (WebRtcSession.remote_addr_ s))) ws, Ok tt)).
  { cbn [from_room]. unfold on_server, WebRtcServer.on_session. rewrite Hs, HE. cbn [zoom rename_calls].
    rewrite !map_map. cbn [WebRtcServer.OnWriteUdpData]. destruct r as [[]|msg|u]; cbn [ecatch eret]; [done|by rewrite app_nil_r|done]. }
  destruct (IH k1) as (sv' & cs & HE' & Hsv).
  - by apply Forall_insert.
  - eapply Forall_impl; [exact Hl|]. intros y'. by apply (subscriber_kept _ _ s).
  - exists sv'. eexists. cbn [Room.lent map efor]. rewrite Hone. cbn [ebind]. unfold Room.lent in HE'. rewrite HE'.
    split; [reflexivity|]. cbn [fmap list_fmap]. by eapply serves_next.
Qed.

(** The room's part: its copies go to the subscribers one after the other. *)
Lemma room_serves e k user_id pusher_id pkt c :
  Forall WebRtcSession.wf (WebRtcServer.sessions (server k)) ->
  Forall (fun y : string * Room.Puller => subscriber_of (server k) y.2) (Room.pullers_of (room k) pusher_id) ->
  RtpPacketEdits.sound pkt -> (1 <= RtpPacket.data_len pkt <= 1498)%nat ->
  bytes (WebRtcSession.fresh (of_session e)) -> length (WebRtcSession.fresh (of_session e)) = 1500%nat ->
  bytes (Room.fresh (of_room e)) -> length (Room.fresh (of_room e)) = 1500%nat ->
  StrMap.find user_id (Room.pusher_user_id2sendRelay_ (room k)) = None ->
  RtpPacket.Clone (Room.now (of_room e)) (Room.fresh (of_room e)) pkt None = Ok c ->
  exists k' cs, in_room e k (Room.OnRtpPacketFromRtcPusher (of_room e) user_id pusher_id pkt) = (k', cs, Ok tt) /\
    serves (of_session e) c (server k) (Room.pullers_of (room k) pusher_id).*2 (server k') cs /\
    room k' = Room.with_users (Room.with_alive (room k) (Room.now (of_room e))) (Room.users_ (room k')).
Proof.
  intros Hw Hsub Hp Hl Hf Hfl Hrf Hrfl Hrel HC. set (now := Room.now (of_room e)) in *.
  pose proof (RtpPacketEdits.Clone_sound now (Room.fresh (of_room e)) pkt Hp ltac:(lia) Hrf ltac:(lia)) as HS. rewrite HC in HS.
  destruct HS as (Hcw & _ & Hcl & _).
  unfold in_room, Room.OnRtpPacketFromRtcPusher. fold now. set (r1 := Room.on_user _ _ _).
  assert (E1 : r1 = Room.with_users (Room.with_alive (room k) now) (Room.users_ r1)) by apply Room.on_user_eq.
  assert (Hpl : Room.pullers_of r1 pusher_id = Room.pullers_of (room k) pusher_id) by (unfold Room.pullers_of; by rewrite E1).
  rewrite (Room.lend_loop (of_room e) pkt c) by done. rewrite Hpl. fold now. cbn [ebind]. set (r2 := Room.beat _ _ _).
  assert (E2 : r2 = Room.with_users (Room.with_alive (room k) now) (Room.users_ r2)).
  { unfold r2. rewrite Room.beat_eq at 1. by rewrite E1 at 1. }
  assert (Hr2 : Room.pusher_user_id2sendRelay_ r2 = Room.pusher_user_id2sendRelay_ (room k)) by (by rewrite E2).
  rewrite Hr2, Hrel. unfold on_room. cbn [eret zoom handled]. rewrite app_nil_r.
  destruct (serve_all e c (Room.pullers_of (room k) pusher_id) (mk r2 (server k)) Hw Hsub Hcw ltac:(lia) Hf Hfl) as (sv' & cs & HE & Hsv).
  rewrite HE. exists (mk r2 sv'), cs. split; [done|]. split; [exact Hsv|exact E2].
Qed.

(** * From the publisher to its subscribers *)

(** The publisher's session when a datagram from [address] is there. *)
Definition arrived (e : WebRtcSession.env) (s : WebRtcSession.t) (address : UdpTuple) : WebRtcSession.t :=
  let s := WebRtcSession.with_remote s address in
  WebRtcSession.with_status s (WebRtcSession.closed_ s) (WebRtcSession.now e) (WebRtcSession.dtls_connected_ s) (WebRtcSession.dtls_session_ s).
(** What the session itself writes to its peer. *)
Definition feedback (i : nat) (fb : list WebRtcSession.call) : list call := map (fun c => OfServer (WebRtcServer.OnWriteUdpData i c)) fb.

Lemma feedback_leaves i fb : Forall WebRtcSession.is_write fb -> Forall leaves_server (map (WebRtcServer.OnWriteUdpData i) fb).
Proof. induction 1 as [|c fb Hc _ IH]; [constructor|]. constructor; [by destruct c|done]. Qed.

(** The datagram goes to the publisher's session and no further. *)
Lemma session_reads e sv i s s' data len address cs r :
  Stun.IsStun data len = Ok false -> WebRtcServer.addr2sessions_ sv !! WebRtcServer.to_u64 address = Some i ->
  WebRtcServer.sessions sv !! i = Some s ->
  IsRtcp data len = Ok false -> IsRtp data len = Ok true ->
  WebRtcSession.HandleRtpPacket e (arrived e s address) data len = (s', cs, Ok r) ->
  WebRtcServer.OnRead e sv data len address =
    (WebRtcServer.with_session sv i s', map (WebRtcServer.OnWriteUdpData i) cs, Ok tt).
Proof.
  intros HS Ha Hs Hc Hp HE. unfold WebRtcServer.OnRead. rewrite HS. cbn [pure ebind].
  unfold WebRtcServer.HandleNoneStunPacket. rewrite Ha. unfold WebRtcServer.on_session. rewrite Hs.
  unfold WebRtcSession.HandleNoneStunPacket. cbv zeta. fold (arrived e s address). rewrite Hc. cbn [pure ebind]. rewrite Hp. cbn [pure ebind].
  rewrite HE. unfold WebRtcServer.ignore. cbn. by rewrite app_nil_r.
Qed.

(** What a publisher protects is made of bytes, if what arrives is. *)
Lemma protected_bytes sender sender' recv d w :
  SrtpSession.paired sender recv -> SrtpSession.EncryptRtp sender d = (sender', Ok (Some w)) -> bytes w ->
  bytes d /\ (1 <= length d <= length w)%nat.
Proof.
  intros Hpair He Hb. destruct (SrtpSession.EncryptRtp_reaches _ _ _ _ _ Hpair He) as (recv1 & Hdec & _).
  pose proof (WebRtcSession.DecryptRtp_ok _ _ _ _ _ Hdec Hb) as (_ & _ & Hl & Hbd & _). split; [done|].
  unfold SrtpSession.EncryptRtp, SrtpSession.ready in He. destruct (SrtpSession.srtp_session_ sender); [|done].
  destruct (Nat.eqb_spec (length d) 0); [done|lia].
Qed.

(** C1: the way of a packet through the server.  A publisher protects the RTP packet [d] and
    sends it from the address of its session.  The session takes it or not, as its receiving
    session judges, and stays in step with the publisher; either way it only writes feedback
    to its peer.  If it is taken, the room gives each subscriber of this publisher, in
    order, a copy with the publisher's media, and each subscriber's session writes either
    nothing, for one of the reasons [silent] lists, or exactly one datagram to its peer,
    from which the peer's SRTP gets the publisher's media under the payload type and SSRC
    that the subscriber was answered.  Nothing else leaves the server, and the room only
    notes who is alive. *)
Theorem media_end_to_end (e : env) (k : t) (sender sender' recv : SrtpSession.t) (d w : list Z) (data : buf) (address : UdpTuple)
    (pkt q' : RtpPacket.t) (i x j : nat) (s : WebRtcSession.t) (p : MediaPusher.t) :
  let se := of_session e in
  let s1 := arrived se s address in
  let recv' := (SrtpSession.DecryptRtp recv w).1 in
  let q := RtpPacket.at_buffer (WebRtcSession.now se) (splice 0 d data) pkt in
  let subscribers := Room.pullers_of (room k) (MediaPusher.pusher_id_ p) in
  Forall WebRtcSession.wf (WebRtcServer.sessions (server k)) ->
  bytes (WebRtcSession.fresh se) -> length (WebRtcSession.fresh se) = 1500%nat ->
  bytes (Room.fresh (of_room e)) -> length (Room.fresh (of_room e)) = 1500%nat ->
  WebRtcSession.voice_agent_enable se = false -> WebRtcSession.uplink_discard_percent_ se <= 0 ->
  WebRtcServer.addr2sessions_ (server k) !! WebRtcServer.to_u64 address = Some i ->
  WebRtcServer.sessions (server k) !! i = Some s -> WebRtcSession.room_id_ s = Room.room_id_ (room k) ->
  WebRtcSession.srtp_recv_session_ s = Some recv -> SrtpSession.paired sender recv ->
  SrtpSession.EncryptRtp sender d = (sender', Ok (Some w)) -> (length d <= 1498)%nat ->
  bytes data -> take (length w) data = w ->
  Stun.IsStun data (length w) = Ok false -> IsRtcp data (length w) = Ok false -> IsRtp data (length w) = Ok true ->
  RtpPacket.Parse (WebRtcSession.now se) d (length d) = Ok pkt ->
  outcome (WebRtcSession.collect_feedback se (WebRtcSession.with_srtp s1 (WebRtcSession.srtp_send_session_ s1) (Some recv')) q) = Ok q' ->
  StdMap.find (MediaPusher.ssrc_of pkt) (WebRtcSession.ssrc2media_pusher_ s) = Some x -> WebRtcSession.pushers s !! x = Some p ->
  StdMap.find (MediaPusher.ssrc_of pkt) (MediaPusher.ssrc2sessions_ p) = Some j ->
  StrMap.find (MediaPusher.user_id_ p) (Room.pusher_user_id2sendRelay_ (room k)) = None ->
  Forall (fun y : string * Room.Puller => subscriber_of (server k) y.2) subscribers ->
  exists s' fb (ok : bool) pkt',
    WebRtcSession.wf s' /\ WebRtcSession.srtp_recv_session_ s' = Some recv' /\ SrtpSession.paired sender' recv' /\
    Forall WebRtcSession.is_write fb /\
    WebRtcSession.delivered (calls (WebRtcSession.HandleRtpPacket se s1 data (length w))) = (if ok then [pkt'] else []) /\
    (exists rs rs', MediaPusher.store p !! j = Some rs /\
       RtpRecvSession.ReceiveRtpPacket rs (MediaPusher.set_ids (MediaPusher.param_ p) q') = (rs', Ok ok)) /\
    let sv1 := WebRtcServer.with_session (server k) i s' in
    (ok = false -> OnRead e k data (length w) address = (mk (room k) sv1, feedback i fb, Ok tt)) /\
    (ok = true -> RtpPacketEdits.ext_edit q pkt' /\
     forall c, RtpPacket.Clone (Room.now (of_room e)) (Room.fresh (of_room e)) pkt' None = Ok c ->
       RtpPacketEdits.media (RtpPacket.view_of c) = RtpPacketEdits.media (RtpPacket.view_of pkt) /\
       exists k' cs, OnRead e k data (length w) address = (k', feedback i fb ++ cs, Ok tt) /\
         serves se c sv1 subscribers.*2 (server k') cs /\
         room k' = Room.with_users (Room.with_alive (room k) (Room.now (of_room e))) (Room.users_ (room k'))).
Proof.
  intros se s1 recv' q subscribers Hw Hf Hfl Hrf Hrfl Hv Hup Ha Hs Hroom Hr Hpair He Hld Hb Hwd HS Hc Hrtp HP Hfb Hx Hp Hj Hrel Hsub.
  assert (Hs1 : WebRtcSession.wf s1).
  { pose proof (Forall_lookup_1 _ _ _ _ Hw Hs) as Hsw. apply WebRtcSession.wf_with_status; [by apply WebRtcSession.wf_with_remote|done]. }
  destruct (WebRtcSession.published_ok se s1 sender sender' recv d w data pkt q' x j p Hs1 Hf Hfl ltac:(intros; lia) Hup Hr Hpair He Hb Hwd HP
    Hfb Hx Hp Hj) as (s' & fb & es & ok & pkt' & HE & Hs' & Hr' & Hpair' & Hfbw & Hdl & Hes & Hsound & Hmedia & [Hrm Hpl] & Hjudge).
  exists s', fb, ok, pkt'. do 4 (split; [done|]).
  split; [rewrite HE; unfold calls; cbn [fst snd]; by rewrite WebRtcSession.delivered_app, (WebRtcSession.writes_deliver fb Hfbw)|].
  split; [done|]. specialize (Hes Hv). subst es.
  pose proof (session_reads se (server k) i s s' data (length w) address _ _ HS Ha Hs Hc Hrtp HE) as HR.
  set (sv1 := WebRtcServer.with_session (server k) i s').
  assert (Hread : OnRead e k data (length w) address =
    handled (from_server e) (mk (room k) sv1, map (WebRtcServer.OnWriteUdpData i) (fb ++ if ok then [WebRtcSession.to_room_of p pkt'] else []), Ok tt)).
  { unfold OnRead, in_server, on_server. fold se. rewrite HR. done. }
  cbv zeta. fold sv1. split.
  - intros ->. rewrite Hread, app_nil_r. unfold handled. rewrite server_calls_leave by (by apply feedback_leaves).
    unfold feedback. by rewrite map_map.
  - intros ->. destruct (Hmedia eq_refl) as [Hm Hed]. split; [exact Hed|]. intros c HC.
    assert (Hbw : bytes w) by (rewrite <- Hwd; by apply Forall_take).
    assert (Hlw : (length w <= length data)%nat) by (apply (f_equal length) in Hwd; rewrite length_take in Hwd; lia).
    destruct (protected_bytes sender sender' recv d w Hpair He Hbw) as [Hbd Hl1].
    destruct (WebRtcSession.parsed_in_buffer (WebRtcSession.now se) d data pkt Hbd ltac:(lia) Hb HP) as (HPq & Hwq & Hview & Hql).
    fold q in HPq, Hwq, Hview, Hql.
    assert (Hpl' : RtpPacket.data_len pkt' = length d).
    { pose proof (RtpPacketEdits.ee_geometry _ _ Hed) as Hg. injection Hg as _ _ _ -> _ _. exact Hql. }
    assert (H12 : (12 <= length d)%nat).
    { pose proof (RtpPacket.wf_payload q Hwq). pose proof (RtpPacket.wf_split q Hwq). lia. }
    assert (Hbs : bytes (splice 0 d data)) by (by apply bytes_splice).
    assert (Hls : length (splice 0 d data) = length data) by (apply length_splice; lia).
    split.
    { rewrite (RtpPacketEdits.Clone_media (WebRtcSession.now se) _ _ (splice 0 d data) (length d) q pkt' c Hbs ltac:(lia) HPq Hed Hrf ltac:(lia) HC).
      exact Hm. }
    rewrite Hread. rewrite map_app. unfold handled. rewrite efor_app, server_calls_leave by (by apply feedback_leaves). cbn [ebind].
    set (k1 := mk (room k) sv1). cbn [map efor from_server WebRtcServer.OnWriteUdpData WebRtcSession.to_room_of].
    assert (Hthis : of_this_room k1 i = true).
    { unfold of_this_room, k1, sv1, WebRtcServer.with_session. cbn [server WebRtcServer.sessions room].
      rewrite list_lookup_insert_eq by (by eapply lookup_lt_Some). apply String.eqb_eq. by rewrite Hrm. }
    rewrite Hthis. cbn [from_session].
    destruct (room_serves e k1 (MediaPusher.user_id_ p) (MediaPusher.pusher_id_ p) pkt' c) as (k' & cs & HE' & Hsv & Hrk);
      try done; [by apply Forall_insert| |lia|].
    { eapply Forall_impl; [exact Hsub|]. intros y. apply (subscriber_kept _ _ s); [done|]. unfold kept. by rewrite Hpl. }
    change (from_session e k1 i (WebRtcSession.to_room_of p pkt')) with
      (in_room e k1 (Room.OnRtpPacketFromRtcPusher (of_room e) (MediaPusher.user_id_ p) (MediaPusher.pusher_id_ p) pkt')).
    rewrite HE'. cbn [ebind eret]. exists k', cs. split; [|by split]. rewrite app_nil_r. unfold feedback. by rewrite map_map.
Qed.

End Media.

(** * Examples *)

#[local] Existing Instance SrtpSession.toy_srtp.
#[local] Existing Instance SrtpSession.toy_srtp_laws.
#[local] Instance example_mac : EvpMac := StunMessage.StunMessage.toy_hmac.
#[local] Instance example_inet : Inet := StunMessage.StunMessage.toy_inet.

(** Bob's session after his request, a datagram from him, and DTLS. *)
Definition bob_addr : UdpTuple := IceServer.mk_tuple [49; 46; 50; 46; 51; 46; 53] 5000.
Definition bob_events : list WebRtcSession.event :=
  [WebRtcSession.Dtls ROLE_SERVER "sha-256 AA" 0 0;
   WebRtcSession.AddPuller MediaPusher.sample_track "alice" "p1" EmptyString "b2";
   WebRtcSession.Datagram WebRtcSession.sample_env [0] 1 bob_addr;
   WebRtcSession.DtlsConnected true WebRtcSession.sample_suite SrtpSession.sample_key SrtpSession.sample_key].
Definition bob_session : WebRtcSession.t :=
  foldl (fun s ev => final (WebRtcSession.happens s ev))
    (WebRtcSession.new_WebRtcSession SrtpSession.SRTP_SESSION_TYPE_SEND "room" "bob" "b0" (IceServer.mk [98] [98]) 5000 []) bob_events.
Definition live : t :=
  mk (Room.add_puller (Room.mk_puller 1 0 "bob" "b2" "p1") (room publishing))
     (WebRtcServer.mk [WebRtcSession.sample; bob_session] ∅ (WebRtcServer.addr2sessions_ (server publishing))).

Lemma bob_session_wf : WebRtcSession.wf bob_session.
Proof.
  assert (Hstep : forall s ev, WebRtcSession.wf s -> WebRtcSession.expected s ev ->
    defined (outcome (WebRtcSession.happens s ev)) -> WebRtcSession.wf (final (WebRtcSession.happens s ev)))
    by (intros s ev Hs He Hd; exact (WebRtcSession.happens_stays s ev Hs He Hd)).
  unfold bob_session, bob_events. cbn [foldl].
  apply Hstep; [apply Hstep; [apply Hstep; [apply Hstep; [apply WebRtcSession.session_wf_new|exact I|vm_compute; exact I]| |vm_compute; exact I]|
    |vm_compute; exact I]|reflexivity|vm_compute; exact I].
  - split; vm_compute; intuition discriminate.
  - split; [bytes_done|cbn; lia].
Qed.

Definition datagram : buf := WebRtcSession.protected_rtp ++ [9; 9].
Lemma media_end_to_end_witness :
  exists k' fb c sv cs,
    OnRead sample_env live datagram (length WebRtcSession.protected_rtp) WebRtcSession.sample_addr = (k', feedback 0 fb ++ cs, Ok tt) /\
    serves WebRtcSession.sample_env c sv [Room.mk_puller 1 0 "bob" "b2" "p1"] (server k') cs /\
    RtpPacketEdits.media (RtpPacket.view_of c) = RtpPacketEdits.media (RtpPacket.view_of WebRtcSession.sample_pkt).
Proof.
  set (se := WebRtcSession.sample_env). set (w := WebRtcSession.protected_rtp). set (d := WebRtcSession.sample_rtp).
  set (s1 := arrived se WebRtcSession.sample WebRtcSession.sample_addr).
  set (recv' := (SrtpSession.DecryptRtp WebRtcSession.sample_recv w).1).
  set (q := RtpPacket.at_buffer 5000 (splice 0 d datagram) WebRtcSession.sample_pkt).
  destruct (outcome (WebRtcSession.collect_feedback se
    (WebRtcSession.with_srtp s1 (WebRtcSession.srtp_send_session_ s1) (Some recv')) q)) as [q'|m|u] eqn:Eq; [|vm_compute in Eq; discriminate..].
  destruct (media_end_to_end sample_env live WebRtcSession.sample_sender (SrtpSession.EncryptRtp WebRtcSession.sample_sender d).1
    WebRtcSession.sample_recv d w datagram WebRtcSession.sample_addr WebRtcSession.sample_pkt q' 0 0 0 WebRtcSession.sample
    (MediaPusher.CreateRtpRecvSession (MediaPusher.new_MediaPusher MediaPusher.sample_track "alice" "s1" "p1" true)))
    as (s' & fb & ok & pkt' & _ & _ & _ & _ & Hdl & (rs & rs' & Hrs & Hrec) & _ & Hok);
    [constructor; [exact WebRtcSession.connected_sample_wf|constructor; [exact bob_session_wf|constructor]]|
     bytes_done|reflexivity|bytes_done|reflexivity|reflexivity|discriminate|vm_compute; reflexivity|reflexivity|vm_compute; reflexivity|
     vm_compute; reflexivity|exact WebRtcSession.sample_paired|vm_compute; reflexivity|apply Nat.leb_le; reflexivity|
     bytes_done|vm_compute; reflexivity|vm_compute; reflexivity|vm_compute; reflexivity|vm_compute; reflexivity|vm_compute; reflexivity|
     exact Eq|vm_compute; reflexivity|vm_compute; reflexivity|vm_compute; reflexivity|vm_compute; reflexivity| |].
  { vm_compute Room.pullers_of. repeat constructor. eexists. split; [reflexivity|vm_compute; lia]. }
  assert (ok = true) as ->.
  { injection Hrs as <-. vm_compute in Eq. injection Eq as <-. vm_compute in Hrec. by injection Hrec. }
  destruct (Hok eq_refl) as [_ Hc]. vm_compute in Hdl. injection Hdl as <-.
  destruct (RtpPacket.Clone (Room.now (of_room sample_env)) (Room.fresh (of_room sample_env)) _ None) as [c|m|u] eqn:EC in Hc;
    [|vm_compute in EC; discriminate..].
  destruct (Hc c eq_refl) as (Hm & k' & cs & HR & Hs & _). exists k', fb, c. do 2 eexists. split; [exact HR|]. split; [exact Hs|exact Hm].
Defined.

End SfuMedia.
