(* ===== verification/RoomMgr.v ===== *)
(** [webrtc_room/room_mgr.cpp]: the rooms of the server by their ids, the requests and
    notifications of clients and of the pilot centre that are handed to them, and the sweep
    of rooms that are no longer alive. *)
From stdpp Require Import gmap sets.
From S2P Require Import Prelude Effect ByteStream ByteCrypto IpAddress IceServer StdMap StrMap RtcInfo Sdp WebRtcServer Room.
From S2P Require Import StunMessage RtpPub RtpPacket RtpSession SrtpSession WebRtcSession Sfu.

Import RtcInfo.

Module RoomMgr.

(** What leaves the manager: the calls of a room and its sessions; the answers and
    [SetUserInfo] on a client's connection; the heartbeat to the pilot centre. *)
Inductive call :=
  | FromRoom (room_id : string) (c : Sfu.call)
  | OnProtooResponse (resp_cb : nat) (id code : Z) (err_msg : string) (data : Json.t)
  | SetUserInfo (resp_cb : nat) (room_id user_id : string)
  | AsyncRequest (method : string) (data : Json.t).

Section RoomMgr.
Context {Ls : LibSrtp} {Ev : EvpMac} {In : Inet}.
(** The text of an exception, [e.what()]. *)
Variable what : string -> string.

Record t := mk {
  rooms_ : list (string * Room.t);
  server : WebRtcServer.t;
  pilot_client_ : bool; pilot_heartbeat_index_ : Z; last_pilot_heartbeat_ts_ : Z;
  id2ts_ : list (Z * Z)
}.
Definition new_RoomMgr : t := mk [] WebRtcServer.new_WebRtcServer false 1 0 [].
Definition SetPilotClient (k : t) (pilot_client : bool) : t :=
  mk (rooms_ k) (server k) pilot_client (pilot_heartbeat_index_ k) (last_pilot_heartbeat_ts_ k) (id2ts_ k).
Definition with_rooms (k : t) (m : list (string * Room.t)) (sv : WebRtcServer.t) : t :=
  mk m sv (pilot_client_ k) (pilot_heartbeat_index_ k) (last_pilot_heartbeat_ts_ k) (id2ts_ k).
Definition with_pilot (k : t) (index last_ts : Z) (ids : list (Z * Z)) : t :=
  mk (rooms_ k) (server k) (pilot_client_ k) index last_ts ids.

Definition GetOrCreateRoom (now : Z) (room_id : string) (k : t) : t :=
  match StrMap.find room_id (rooms_ k) with
  | Some _ => k
  | None => with_rooms k (StrMap.set room_id (Room.new_Room room_id (pilot_client_ k) now) (rooms_ k)) (server k)
  end.
Definition GetRoom (room_id : string) (k : t) : option Room.t := StrMap.find room_id (rooms_ k).

(** A call on [*room_ptr], with the server that all rooms share. *)
Definition in_room {A} (room_id : string) (k : t) (f : Sfu.t -> eff Sfu.t Sfu.call A) : eff t call A :=
  match GetRoom room_id k with
  | None => pure k (Undef NullDeref)
  | Some r =>
      rename_calls (FromRoom room_id)
        (zoom (fun s => with_rooms k (StrMap.set room_id (Sfu.room s) (rooms_ k)) (Sfu.server s)) (f (Sfu.mk r (server k))))
  end.
Definition on_room {A} (e : Sfu.env) (room_id : string) (k : t) (f : Room.t -> eff Room.t Room.call A) : eff t call A :=
  in_room room_id k (fun s => Sfu.in_room e s f).

(** [it->second->Close()] and the end of the room, whose destructor closes it too. *)
Definition RemoveRoom (room_id : string) (k : t) : t := with_rooms k (StrMap.erase room_id (rooms_ k)) (server k).

(** ** Requests *)

Definition failure (message : string) (code : Z) : Json.t := Room.obj [("message", Json.Str message); ("code", Json.Int code)].
Definition respond (k : t) (resp_cb : nat) (id code : Z) (err_msg : string) (data : Json.t) : eff t call unit :=
  emit k [OnProtooResponse resp_cb id code err_msg data].
(** [try { m } catch(e)]: an exception is answered, and the result is -1. *)
Definition or_invalid (what_request : string) (id : Z) (resp_cb : nat) (m : eff t call Z) : eff t call Z :=
  match m with
  | (k, es, Throw msg) =>
      let '(k, es', r) :=
        do* (k, _) := respond k resp_cb id (-1) what_request (failure (what_request +:+ ":" +:+ what msg) (-1)) in eret k (-1) in
      (k, es ++ es', r)
  | _ => m
  end.
(** A negative result is answered. *)
Definition or_failed (failed : string) (id : Z) (resp_cb : nat) (result : Z) (k : t) (ret : Z) : eff t call Z :=
  if ret <? 0 then do* (k, _) := respond k resp_cb id (-1) failed (failure failed ret) in eret k result else eret k 0.

Definition HandleJoinRequest (e : Sfu.env) (id : Z) (j : Json.t) (resp_cb : nat) (k : t) : eff t call Z :=
  let now := Room.now (Sfu.of_room e) in
  or_invalid "invalid join request" id resp_cb
    (do* (k, roomId) := pure k (Room.get_str j "roomId") in
     do* (k, userId) := pure k (Room.get_str j "userId") in
     do* (k, userName) := pure k (Room.get_str j "userName") in
     do* (k, audience) := pure k (match Json.find_key j "audience" with Some v => Json.get_bool v | None => Ok false end) in
     do* (k, _) := emit k [SetUserInfo resp_cb roomId userId] in
     do* (k, ret) := on_room e roomId (GetOrCreateRoom now roomId k) (Room.UserJoin now userId userName audience id resp_cb) in
     or_failed "user join failed" id resp_cb ret k ret).

Definition HandlePushRequest (e : Sfu.env) (q : Sfu.request) (id : Z) (j : Json.t) (resp_cb : nat) (k : t) : eff t call Z :=
  or_invalid "invalid push request" id resp_cb
    (do* (k, userId) := pure k (Room.get_str j "userId") in
     do* (k, roomId) := pure k (Room.get_str j "roomId") in
     do* (k, sdp_json) := pure k (Json.at_key j "sdp") in
     do* (k, sdp_type) := pure k (Room.get_str sdp_json "type") in
     do* (k, sdp_str) := pure k (Room.get_str sdp_json "sdp") in
     do* (k, ret) := in_room roomId (GetOrCreateRoom (Room.now (Sfu.of_room e)) roomId k)
                       (Sfu.HandlePushSdp e q userId sdp_type sdp_str id resp_cb) in
     or_failed "handle push sdp failed" id resp_cb (-1) k ret).

(** One element of [specs]. *)
Definition with_av_type (p : RtpSessionParam.t) (m : RtpSessionParam.MEDIA_PKT_TYPE) : RtpSessionParam.t :=
  RtpSessionParam.mk m (RtpSessionParam.mid_ p) (RtpSessionParam.ssrc_ p) (RtpSessionParam.payload_type_ p) (RtpSessionParam.channel_ p)
    (RtpSessionParam.clock_rate_ p) (RtpSessionParam.rtx_ssrc_ p) (RtpSessionParam.rtx_payload_type_ p) (RtpSessionParam.use_nack_ p)
    (RtpSessionParam.key_request_ p) (RtpSessionParam.mid_ext_id_ p) (RtpSessionParam.tcc_ext_id_ p)
    (RtpSessionParam.abs_send_time_ext_id_ p) (RtpSessionParam.codec_name_ p) (RtpSessionParam.fmtp_param_ p) (RtpSessionParam.rtcp_features_ p).
Definition read_spec (push_item : Json.t) : res PushInfo :=
  let! pid := Room.get_str push_item "pusher_id" in
  let! type := Room.get_str push_item "type" in
  Ok (mk_PushInfo pid (with_av_type new_RtpSessionParam (avtype_fromstring type))).
Fixpoint read_specs (l : list Json.t) : res (list PushInfo) :=
  match l with
  | [] => Ok []
  | x :: l => let! info := read_spec x in let! infos := read_specs l in Ok (info :: infos)
  end.

Definition HandlePullRequest (e : Sfu.env) (q : Sfu.request) (id : Z) (j : Json.t) (resp_cb : nat) (k : t) : eff t call Z :=
  or_invalid "invalid pull request" id resp_cb
    (do* (k, roomId) := pure k (Room.get_str j "roomId") in
     do* (k, userId) := pure k (Room.get_str j "userId") in
     do* (k, target_user_id) := pure k (Room.get_str j "targetUserId") in
     do* (k, pushs) := pure k (Json.at_key j "specs") in
     do* (k, sdp_json) := pure k (Json.at_key j "sdp") in
     do* (k, sdp_str) := pure k (Room.get_str sdp_json "sdp") in
     do* (k, sdp_type) := pure k (Room.get_str sdp_json "type") in
     do* (k, pushers) := pure k (read_specs (Json.elements pushs)) in
     let pull_info := Sfu.mk_pull target_user_id userId pushers in
     let k := GetOrCreateRoom (Room.now (Sfu.of_room e)) roomId k in
     do* (k, ret) :=
       match GetRoom roomId k with
       | None => pure k (Undef NullDeref)
       | Some r =>
           match Room.GetUserType r target_user_id with
           | REMOTE_RTC_USER => in_room roomId k (Sfu.HandleRemotePullSdp e q target_user_id pull_info sdp_type sdp_str id resp_cb)
           | LOCAL_RTC_USER => in_room roomId k (Sfu.HandlePullSdp e q pull_info sdp_type sdp_str id resp_cb)
           | _ => eret k (-1)
           end
       end in
     or_failed "handle pull sdp failed" id resp_cb (-1) k ret).

Definition HandleHeartbeatRequest (e : Sfu.env) (id : Z) (data : Json.t) (resp_cb : nat) (k : t) : eff t call Z :=
  let now := Room.now (Sfu.of_room e) in
  or_invalid "invalid heartbeat request" id resp_cb
    (do* (k, roomId) := pure k (Room.get_str data "roomId") in
     do* (k, userId) := pure k (Room.get_str data "userId") in
     do* (k, ret) := on_room e roomId (GetOrCreateRoom now roomId k) (fun r => let '(r, ret) := Room.HandleWsHeartbeat now userId r in eret r ret) in
     if ret <? 0 then
       do* (k, _) := respond k resp_cb id (-1) "handle heartbeat failed" (failure "handle heartbeat failed" ret) in eret k ret
     else
       do* (k, _) := respond k resp_cb id 0 "ok" (Room.obj [("message", Json.Str "ok"); ("code", Json.Int 0);
                                                            ("roomId", Json.Str roomId); ("userId", Json.Str userId)]) in
       eret k 0).

Definition ignore {A} (m : eff t call A) : eff t call unit := do* (k, _) := m in eret k tt.

(** A request of a client; one whose method is unknown is only logged. *)
Definition OnProtooRequest (e : Sfu.env) (q : Sfu.request) (id : Z) (method : string) (j : Json.t) (resp_cb : nat) (k : t) : eff t call unit :=
  let handle f := do* (k, data) := pure k (Json.at_key j "data") in ignore (f data k) in
  if String.eqb method "join" then handle (fun data => HandleJoinRequest e id data resp_cb)
  else if String.eqb method "push" then handle (fun data => HandlePushRequest e q id data resp_cb)
  else if String.eqb method "pull" then handle (fun data => HandlePullRequest e q id data resp_cb)
  else if String.eqb method "heartbeat" then handle (fun data => HandleHeartbeatRequest e id data resp_cb)
  else eret k tt.

(** ** Notifications *)

Definition HandleTextMessageNotification (e : Sfu.env) (data_json : Json.t) (k : t) : eff t call Z :=
  let now := Room.now (Sfu.of_room e) in
  ecatch
    (do* (k, room_id) := pure k (Room.get_str data_json "roomId") in
     let k := GetOrCreateRoom now room_id k in
     do* (k, user_id) := pure k (Room.get_str data_json "userId") in
     do* (k, user_name) := pure k (Room.get_str data_json "userName") in
     do* (k, message) := pure k (Room.get_str data_json "message") in
     do* (k, _) := on_room e room_id k (Room.NotifyTextMessage2LocalUsers user_id user_name message) in
     do* (k, _) := on_room e room_id k (Room.NotifyTextMessage2PilotCenter now user_id user_name message) in
     eret k 0)
    (fun k => eret k (-1)).
Definition OnProtooNotification (e : Sfu.env) (method : string) (j : Json.t) (k : t) : eff t call unit :=
  if String.eqb method "textMessage" then
    do* (k, data) := pure k (Json.at_key j "data") in ignore (HandleTextMessageNotification e data k)
  else eret k tt.
Definition OnWsSessionClose (e : Sfu.env) (room_id user_id : string) (k : t) : eff t call unit :=
  let now := Room.now (Sfu.of_room e) in
  ignore (on_room e room_id (GetOrCreateRoom now room_id k) (Room.DisconnectUser now user_id)).

Definition OnAsyncNotification (e : Sfu.env) (method : string) (data_json : Json.t) (k : t) : eff t call unit :=
  let now := Room.now (Sfu.of_room e) in
  match Room.get_str data_json "roomId" with
  | Undef u => pure k (Undef u)
  | Throw _ => eret k tt
  | Ok room_id =>
      let k := GetOrCreateRoom now room_id k in
      let handle (f : Room.t -> eff Room.t Room.call unit) := on_room e room_id k f in
      if String.eqb method "newUser" then handle (Room.HandleNewUserNotificationFromCenter now data_json)
      else if String.eqb method "newPusher" then handle (Room.HandleNewPusherNotificationFromCenter now data_json)
      else if String.eqb method "pullRemoteStream" then handle (Room.HandlePullRemoteStreamNotificationFromCenter (Sfu.of_room e) data_json)
      else if String.eqb method "userDisconnect" then handle (Room.HandleUserDisconnectNotificationFromCenter data_json)
      else if String.eqb method "userLeave" then handle (Room.HandleUserLeaveNotificationFromCenter data_json)
      else if String.eqb method "textMessage" then handle (Room.HandleNotifyTextMessageFromCenter data_json)
      else eret k tt
  end.
Definition OnAsyncRequestResponse (id : Z) (k : t) : t :=
  if 0 <? id then with_pilot k (pilot_heartbeat_index_ k) (last_pilot_heartbeat_ts_ k) (StdMap.erase id (id2ts_ k)) else k.

(** ** The timer *)

Definition dead_rooms (now : Z) (k : t) : list string := Room.keys_of (fun r => negb (Room.IsAlive now r)) (rooms_ k).
Definition sweep (now : Z) (k : t) : t := with_rooms k (Room.erase_all (dead_rooms now k) (rooms_ k)) (server k).

(** [async_id] is what [AsyncRequest] returns. *)
Definition OnTimer (now async_id : Z) (k : t) : eff t call unit :=
  if pilot_client_ k then
    if last_pilot_heartbeat_ts_ k <=? 0 then
      eret (sweep now (with_pilot k (pilot_heartbeat_index_ k) now (id2ts_ k))) tt
    else if now - last_pilot_heartbeat_ts_ k <? 5000 then eret k tt
    else
      let index := pilot_heartbeat_index_ k in
      let k := with_pilot k (Json.s32 (index + 1)) now (id2ts_ k) in
      do* (k, _) := emit k [AsyncRequest "echo" (Room.obj [("ts", Json.Int now); ("index", Json.Int index)])] in
      let k := if 0 <? async_id then with_pilot k (pilot_heartbeat_index_ k) (last_pilot_heartbeat_ts_ k) (StdMap.set async_id now (id2ts_ k)) else k in
      eret (sweep now k) tt
  else eret (sweep now k) tt.

End RoomMgr.

(** * Answers *)

(** The connection, the request and the code of an answer. *)
Definition answer : Type := nat * Z * Z.
Definition room_answer (c : Room.call) : option answer :=
  match c with Room.OnProtooResponse cb id code _ _ => Some (cb, id, code) | _ => None end.
Definition sfu_answer (c : Sfu.call) : option answer := match c with Sfu.OfRoom c => room_answer c | Sfu.OfServer _ => None end.
Definition answer_of (c : call) : option answer :=
  match c with
  | FromRoom _ c => sfu_answer c
  | OnProtooResponse cb id code _ _ => Some (cb, id, code)
  | _ => None
  end.

(** How often a call is answered, as a statement about its result; what it throws, it throws
    before any answer. *)
Section Answers.
Context {S E : Type} (f : E -> option answer).
Implicit Types (s : S).

Definition silent (c : E) : Prop := f c = None.
Definition ends {A} (P : A -> list answer -> Prop) (m : eff S E A) : Prop :=
  match outcome m with
  | Ok a => P a (omap f (calls m))
  | Throw _ => omap f (calls m) = []
  | Undef _ => True
  end.

Lemma omap_silent es : Forall silent es -> omap f es = [].
Proof. induction 1 as [|c es Hc _ IH]; [done|]. cbn. by rewrite Hc. Qed.
Lemma omap_answers (es es' : list E) : omap f (es ++ es') = omap f es ++ omap f es'.
Proof. induction es as [|c es IH]; [done|]. cbn. destruct (f c); cbn; by rewrite IH. Qed.

Lemma ends_ret {A} (P : A -> list answer -> Prop) s a : P a [] -> ends P (eret s a).
Proof. done. Qed.
Lemma ends_pure {A} (P : A -> list answer -> Prop) s (r : res A) : (forall a, r = Ok a -> P a []) -> ends P (pure s r).
Proof. destruct r; cbn; auto. Qed.
Lemma ends_silent {A} (P : A -> list answer -> Prop) (m : eff S E A) : only silent m -> (forall a, P a []) -> ends P m.
Proof.
  destruct m as [[s es] [a|msg|u]]; unfold only, ends; cbn; intros H HP; [|by apply omap_silent|done].
  by rewrite (omap_silent es).
Qed.
Lemma ends_after {A B} (P : B -> list answer -> Prop) (m : eff S E A) (g : S -> A -> eff S E B) :
  only silent m -> (forall s a, m.1.1 = s -> m.2 = Ok a -> ends P (g s a)) -> ends P (ebind m g).
Proof.
  destruct m as [[s es] [a|msg|u]]; unfold only; cbn; intros H HP; [|by apply omap_silent|done].
  specialize (HP s a eq_refl eq_refl). unfold ends in *. destruct (g s a) as [[s' es'] [b|msg|u]]; cbn in *; [..|done];
    by rewrite omap_answers, (omap_silent es).
Qed.
(** What follows the answer does not answer, and does not throw. *)
Lemma ends_answered {A B} (P : B -> list answer -> Prop) (l : list answer) (m : eff S E A) (g : S -> A -> eff S E B) :
  only silent m -> (forall msg, outcome m <> Throw msg) ->
  (forall s a, ends (fun b l' => P b (l ++ l')) (g s a) /\ forall msg, outcome (g s a) <> Throw msg) ->
  ends (fun b l' => P b (l ++ l')) (ebind m g) /\ forall msg, outcome (ebind m g) <> Throw msg.
Proof.
  destruct m as [[s es] [a|msg|u]]; unfold only; cbn; intros H Hm Hg; [|by destruct (Hm msg)|split; [done|done]].
  specialize (Hg s a) as [Hg Ht]. unfold ends in *. destruct (g s a) as [[s' es'] [b|msg|u]]; cbn in *; [|by destruct (Ht msg)|done].
  split; [|done]. rewrite omap_answers, (omap_silent es) by done. done.
Qed.
Lemma ends_answer {A} (P : A -> list answer -> Prop) (a : answer) s c (g : S -> unit -> eff S E A) :
  f c = Some a -> ends (fun b l => P b (a :: l)) (g s tt) /\ (forall msg, outcome (g s tt) <> Throw msg) ->
  ends P (ebind (emit s [c]) g).
Proof.
  intros Hc [Hg Ht]. unfold ends in *. cbn. destruct (g s tt) as [[s' es'] [b|msg|u]]; cbn in *; [|by destruct (Ht msg)|done].
  by rewrite Hc.
Qed.
Lemma ends_catch {A} (P : A -> list answer -> Prop) (m : eff S E A) (h : S -> eff S E A) :
  ends P m -> (forall s, ends P (h s)) -> ends P (ecatch m h).
Proof.
  destruct m as [[s es] [a|msg|u]]; unfold ends; cbn; intros Hm Hh; [done| |done].
  specialize (Hh s). destruct (h s) as [[s' es'] [b|msg'|u]]; cbn in *; [..|done]; rewrite omap_answers, Hm; done.
Qed.
Lemma ends_mono {A} (P P' : A -> list answer -> Prop) (m : eff S E A) : ends P m -> (forall a l, P a l -> P' a l) -> ends P' m.
Proof. unfold ends. destruct (outcome m); auto. Qed.
End Answers.

(** ** What answers in a room *)

Section RoomAnswers.
Context {Ls : LibSrtp} {LsL : LibSrtpLaws} {Ev : EvpMac} {In : Inet}.

(** A result that is not negative has been answered; a negative one has not. *)
Definition settled (resp_cb : nat) (id : Z) (ret : Z) (l : list answer) : Prop := l = if ret <? 0 then [] else [(resp_cb, id, 0)].

Definition plain (c : Room.call) : Prop := match c with Room.Notification _ _ _ | Room.AsyncRequest _ _ | Room.AsyncNotification _ _ => True | _ => False end.

Lemma notify_plain sel method data k : only plain (Room.notify sel method data k).
Proof. apply only_emit, Forall_map, Forall_forall. done. Qed.
Lemma to_pilot_plain now c k : plain c -> only plain (Room.to_pilot now c k).
Proof. intros H. unfold Room.to_pilot. destruct (negb _); [apply only_ret|by apply only_emit, Forall_singleton]. Qed.
Lemma plain_silent c : plain c -> silent room_answer c.
Proof. by destruct c. Qed.
Lemma plain_only {A} (m : eff Room.t Room.call A) : only plain m -> only (silent room_answer) m.
Proof. intros H. eapply Forall_impl; [exact H|apply plain_silent]. Qed.

Lemma NotifyNewUser_plain now id name k : only plain (Room.NotifyNewUser now id name k).
Proof. unfold Room.NotifyNewUser. destruct (StrMap.find _ _); [apply notify_plain|apply only_ret]. Qed.
Lemma no_throw_emit {S E} (s : S) (es : list E) msg : outcome (emit s es) <> Throw msg.
Proof. done. Qed.

Lemma UserJoin_leaves now user_id name audience id cb k : only Sfu.leaves_room (Room.UserJoin now user_id name audience id cb k).
Proof.
  assert (Hp : forall A (m : eff Room.t Room.call A), only plain m -> only Sfu.leaves_room m)
    by (intros A m H; eapply Forall_impl; [exact H|by intros []]).
  unfold Room.UserJoin. destruct (Room.closed_ k); [apply only_ret|]. cbv zeta. destruct (StrMap.find _ _).
  - unfold Room.ReConnect. cbv zeta. apply only_bind; [apply Hp, notify_plain|]. intros s _.
    apply only_bind; [destruct (Room.pilot_client_ s); [apply only_emit; repeat constructor|apply only_ret]|]. intros s' _.
    apply only_bind; [apply only_emit; repeat constructor|]. intros; apply only_ret.
  - apply only_bind; [apply Hp, to_pilot_plain; done|]. intros s _. apply only_bind; [apply only_emit; repeat constructor|]. intros s' _.
    apply only_bind; [destruct (negb audience); [apply Hp, NotifyNewUser_plain|apply only_ret]|]. intros; apply only_ret.
Qed.

(** A join is answered, unless the room is closed. *)
Lemma UserJoin_settles now user_id name audience id cb k :
  ends room_answer (settled cb id) (Room.UserJoin now user_id name audience id cb k).
Proof.
  unfold Room.UserJoin. destruct (Room.closed_ k); [done|]. cbv zeta. destruct (StrMap.find _ _).
  - unfold Room.ReConnect. cbv zeta. apply ends_after; [apply plain_only, notify_plain|]. intros s _ _ _.
    apply ends_after; [destruct (Room.pilot_client_ s); [apply only_emit; repeat constructor|apply only_ret]|]. intros s' _ _ _.
    by apply (ends_answer _ _ (cb, id, 0)).
  - apply ends_after; [apply plain_only, to_pilot_plain; done|]. intros s _ _ _.
    apply (ends_answer _ _ (cb, id, 0)); [done|].
    apply (ends_answered _ _ [(cb, id, 0)]); [| |done].
    + destruct (negb audience); [apply plain_only, NotifyNewUser_plain|apply only_ret].
    + intros msg. destruct (negb audience); [|done]. unfold Room.NotifyNewUser. by destruct (StrMap.find _ _).
Qed.

(** Calls that the server does not see. *)
Lemma in_room_ends {A} (P : A -> list answer -> Prop) e k (f : Room.t -> eff Room.t Room.call A) :
  only Sfu.leaves_room (f (Sfu.room k)) -> ends room_answer P (f (Sfu.room k)) -> ends sfu_answer P (Sfu.in_room e k f).
Proof.
  destruct (f (Sfu.room k)) as [[s cs] r] eqn:E. intros H HP. rewrite (Sfu.in_room_leaves e k f s cs r E H).
  assert (Hm : omap sfu_answer (map Sfu.OfRoom cs) = omap room_answer cs).
  { clear. induction cs as [|c cs IH]; [done|]. cbn. rewrite <- IH. done. }
  unfold ends in *. cbn in *. by rewrite Hm.
Qed.

(** What a room's handlers call, and what a new session calls, is no answer. *)
Lemma from_room_silent e k c : silent room_answer c -> only (silent sfu_answer) (Sfu.from_room e k c).
Proof.
  intros H. destruct c; try (by apply only_emit, Forall_singleton).
  - apply only_catch; [|intros; apply only_ret]. apply (only_rename _ (fun _ => True)); [|done]. apply Forall_forall. done.
  - apply (only_rename _ (fun _ => True)); [|done]. apply Forall_forall. done.
Qed.
Lemma in_room_silent {A} e k (f : Room.t -> eff Room.t Room.call A) :
  only (silent room_answer) (f (Sfu.room k)) -> only (silent sfu_answer) (Sfu.in_room e k f).
Proof.
  intros H. unfold Sfu.in_room. eapply only_handled; [apply only_zoom; exact H|]. intros. by apply from_room_silent.
Qed.
Definition closing (c : WebRtcServer.call) : Prop :=
  match c with
  | WebRtcServer.FromSession _ (WebRtcSession.RtpPacketFromRtcPusher _ _ _ _ | WebRtcSession.KeyFrameRequest _ _ _ _) => False
  | _ => True
  end.
Lemma in_server_silent {A} e k (f : WebRtcServer.t -> eff WebRtcServer.t WebRtcServer.call A) :
  only closing (f (Sfu.server k)) -> only (silent sfu_answer) (Sfu.in_server e k f).
Proof.
  intros H. unfold Sfu.in_server. eapply only_handled; [apply only_zoom; exact H|]. intros s c Hc.
  destruct c as [d a|i c]; [by apply only_emit, Forall_singleton|]. cbn [Sfu.from_server].
  destruct (Sfu.of_this_room s i); [|by apply only_emit, Forall_singleton].
  destruct c; try done; (by apply only_emit, Forall_singleton) || by apply in_room_silent, only_ret.
Qed.
Lemma on_session_closing {A} sv i (f : WebRtcSession.t -> eff WebRtcSession.t WebRtcSession.call A) :
  (forall s, only (fun c => closing (WebRtcServer.FromSession i c)) (f s)) -> only closing (WebRtcServer.on_session sv i f).
Proof.
  intros H. unfold WebRtcServer.on_session. destruct (_ !! _) as [s|]; [|apply only_pure].
  eapply only_rename; [apply only_zoom, H|]. by intros [].
Qed.
Lemma Close_closing i s : only (fun c => closing (WebRtcServer.FromSession i c)) (WebRtcSession.Close s).
Proof.
  unfold WebRtcSession.Close. destruct (WebRtcSession.closed_ s); [apply only_ret|]. cbv zeta.
  apply only_bind; [|intros]; apply only_for; intros s' x _; unfold WebRtcSession.push_close, WebRtcSession.pull_close;
    repeat case_match; apply only_ret || apply only_pure || by apply only_emit, Forall_singleton.
Qed.
End RoomAnswers.

Section RequestAnswers.
Context {Ls : LibSrtp} {LsL : LibSrtpLaws} {Ev : EvpMac} {In : Inet}.

Lemma plain_leaves {A} (m : eff Room.t Room.call A) : only plain m -> only Sfu.leaves_room m.
Proof. intros H. eapply Forall_impl; [exact H|by intros []]. Qed.

(** A message that is sent after the answer. *)
Lemma in_room_told {A B} (P : B -> list answer -> Prop) l e k (f : Room.t -> eff Room.t Room.call A) (g : Sfu.t -> A -> eff Sfu.t Sfu.call B) :
  only plain (f (Sfu.room k)) -> (forall msg, outcome (f (Sfu.room k)) <> Throw msg) ->
  (forall s a, ends sfu_answer (fun b l' => P b (l ++ l')) (g s a) /\ forall msg, outcome (g s a) <> Throw msg) ->
  ends sfu_answer (fun b l' => P b (l ++ l')) (ebind (Sfu.in_room e k f) g) /\ forall msg, outcome (ebind (Sfu.in_room e k f) g) <> Throw msg.
Proof.
  intros Hp Ht Hg. apply ends_answered; [by apply in_room_silent, plain_only| |done].
  destruct (f (Sfu.room k)) as [[s cs] r] eqn:E. rewrite (Sfu.in_room_leaves e k f s cs r E); [done|].
  exact (plain_leaves _ Hp).
Qed.

Lemma add_track_users now x i id p st : is_Some (StrMap.find id (Room.users_ st.2)) ->
  is_Some (StrMap.find id (Room.users_ (Sfu.add_track now x i id p st).2)).
Proof.
  intros [u Hu]. unfold Sfu.add_track. destruct (WebRtcSession.AddPusherRtpSession _ _ _) as [[s j] pid]. cbn [snd].
  destruct (Sfu.pushers_find (Sfu.pushers_of i s) (Room.add_track now id (mk_PushInfo pid p) st.2) "") as (-> & _).
  unfold Room.add_track, Room.on_user. rewrite Hu. cbn. rewrite StrMap.find_in_set_eq. by eexists.
Qed.
Lemma add_tracks_users now i id l st : is_Some (StrMap.find id (Room.users_ st.2)) ->
  is_Some (StrMap.find id (Room.users_ (Sfu.add_tracks now i id l st).2)).
Proof.
  unfold Sfu.add_tracks. revert st. induction l as [|x l IH]; intros st H; cbn [foldl]; [done|]. by apply IH, add_track_users.
Qed.

(** The user of an open session does not go. *)
Lemma in_server_room {A} e k (f : WebRtcServer.t -> eff WebRtcServer.t WebRtcServer.call A) :
  only closing (f (Sfu.server k)) -> Room.users_ (Sfu.room (final (Sfu.in_server e k f))) = Room.users_ (Sfu.room k).
Proof.
  intros H. unfold Sfu.in_server, handled, Sfu.on_server. destruct (f (Sfu.server k)) as [[s cs] r]. cbn [zoom].
  unfold only in H. cbn in H.
  assert (Hr : forall k0 : Sfu.t, Room.users_ (Sfu.room (final (efor cs k0 (Sfu.from_server e)))) = Room.users_ (Sfu.room k0)).
  { induction H as [|c cs Hc _ IH]; intros k0; [done|]. cbn [efor].
    assert (Hx : Room.users_ (Sfu.room (final (Sfu.from_server e k0 c))) = Room.users_ (Sfu.room k0)).
    { destruct c as [d a|i c]; [done|]. cbn [Sfu.from_server]. destruct (Sfu.of_this_room k0 i); [|done]. by destruct c. }
    destruct (Sfu.from_server e k0 c) as [[k1 es] [[]|msg|u]]; cbn in *; [|done..].
    specialize (IH k1). destruct (efor cs k1 _) as [[k2 es2] r2]. cbn in *. congruence. }
  specialize (Hr (Sfu.mk (Sfu.room k) s)). destruct (efor cs _ _) as [[k2 es2] r2]. cbn in *. done.
Qed.
Lemma DtlsInit_closing sv i role fp a b : only closing (WebRtcServer.on_session sv i (fun s => WebRtcSession.DtlsInit s role fp a b)).
Proof.
  apply on_session_closing. intros s'. unfold WebRtcSession.DtlsInit. cbv zeta. destruct (negb _); [apply only_ret|].
  apply only_bind; [by apply only_emit, Forall_singleton|]. intros. destruct (negb _); apply only_ret.
Qed.
Lemma SetUserName_closing sv name i : only closing (WebRtcServer.SetUserName2Session sv name i).
Proof.
  unfold WebRtcServer.SetUserName2Session, WebRtcServer.overwritten, WebRtcServer.dropped.
  repeat case_match; try apply only_ret. apply on_session_closing, Close_closing.
Qed.
Lemma open_session_silent e q type role fp user_id k : only (silent sfu_answer) (Sfu.open_session e q type role fp user_id k).
Proof.
  unfold Sfu.open_session. cbv zeta. apply only_bind; [|intros; apply only_bind; [|intros; apply only_ret]]; apply in_server_silent;
    [apply DtlsInit_closing|apply SetUserName_closing].
Qed.
Lemma open_session_users e q type role fp user_id k :
  Room.users_ (Sfu.room (final (Sfu.open_session e q type role fp user_id k))) = Room.users_ (Sfu.room k).
Proof.
  unfold Sfu.open_session. cbv zeta. set (k0 := Sfu.mk (Sfu.room k) _).
  pose proof (in_server_room e k0 (fun sv => WebRtcServer.on_session sv (length (WebRtcServer.sessions (Sfu.server k))) (fun s =>
                  WebRtcSession.DtlsInit s role fp (Sfu.dtls_init q) (Sfu.dtls_run q))) (DtlsInit_closing _ _ _ _ _ _)) as H.
  destruct (Sfu.in_server e k0 _) as [[k1 es] [a|msg|u]]; cbn in H |- *; [|done..].
  pose proof (in_server_room e k1 (fun sv => WebRtcServer.SetUserName2Session sv (IceServer.ice_ufrag_ (Sfu.ice q))
    (length (WebRtcServer.sessions (Sfu.server k)))) (SetUserName_closing _ _ _)) as H'.
  destruct (Sfu.in_server e k1 _) as [[k2 es2] [a'|msg|u]]; cbn in *; congruence.
Qed.

(** An offer of a user of the room is answered once, unless the result is negative. *)
Lemma HandlePushSdp_settles e q user_id sdp_type sdp_str id cb k :
  is_Some (StrMap.find user_id (Room.users_ (Sfu.room k))) ->
  ends sfu_answer (settled cb id) (Sfu.HandlePushSdp e q user_id sdp_type sdp_str id cb k).
Proof.
  intros Hu. unfold Sfu.HandlePushSdp, Sfu.publish. cbv zeta.
  rewrite ebind_assoc. apply ends_after; [apply only_pure|]. intros k1 offer <- _.
  rewrite ebind_assoc. apply ends_after; [apply open_session_silent|]. intros k2 i Hk2 _.
  assert (Hu2 : is_Some (StrMap.find user_id (Room.users_ (Sfu.room k2)))).
  { rewrite <- Hk2. change (?m.1.1) with (final m). by rewrite open_session_users. }
  rewrite ebind_assoc. apply ends_after; [apply only_pure|]. intros k3 a <- _. change ((pure k2 _).1.1) with k2.
  destruct (GetRtpSessionParamsFromSdp a) as [|p ps]; [done|].
  destruct (_ !! i) as [s|]; [|done].
  pose proof (add_tracks_users (Room.now (Sfu.of_room e)) i user_id (Sfu.tracks q (p :: ps)) (s, Sfu.room k2) Hu2) as Ht.
  destruct (Sfu.add_tracks _ _ _ _ _) as [s' r]. cbn [snd] in Ht.
  destruct (SdpText.GenSdpString _ _ _) as [str|msg|u]; [|done..].
  rewrite ebind_assoc. apply (ends_answer _ _ (cb, id, 0)); [done|]. cbn [Sfu.with_session Sfu.room].
  unfold Sfu.announce. cbn [Sfu.with_session Sfu.room]. destruct Ht as [u Hu']. rewrite Hu', ebind_assoc.
  apply (in_room_told (settled cb id) [(cb, id, 0)]); [apply notify_plain|done|]. intros k5 _. rewrite ebind_assoc.
  apply (in_room_told (settled cb id) [(cb, id, 0)]); unfold Room.NewPusher2PilotCenter; cbv zeta.
  - repeat case_match; try apply only_ret. by apply only_emit, Forall_singleton.
  - intros msg. by repeat case_match.
  - intros k6 _. by rewrite ebind_ret.
Qed.

(** Subscribing answers as the last thing it does. *)
Lemma subscribe_settles e q find_pusher pull_info sdp_type sdp_str id cb k :
  ends sfu_answer (settled cb id) (Sfu.subscribe e q find_pusher pull_info sdp_type sdp_str id cb k).
Proof.
  unfold Sfu.subscribe. apply ends_after; [apply only_pure|]. intros k1 offer _ _.
  apply ends_after; [apply open_session_silent|]. intros k2 i _ _. apply ends_after; [apply only_pure|]. intros k3 a _ _.
  destruct (_ !! i) as [s|]; [|done]. cbv zeta.
  apply ends_after; [apply only_pure|]. intros k4 [params a'] _ _. cbv zeta. apply ends_after; [apply only_pure|]. intros k5 str _ _.
  by apply (ends_answer _ _ (cb, id, 0)).
Qed.
Lemma HandlePullSdp_settles e q pull_info sdp_type sdp_str id cb k :
  ends sfu_answer (settled cb id) (Sfu.HandlePullSdp e q pull_info sdp_type sdp_str id cb k).
Proof.
  unfold Sfu.HandlePullSdp. cbv zeta. destruct (StrMap.find _ _); [|done]. apply ends_catch; [apply subscribe_settles|done].
Qed.
Lemma HandleRemotePullSdp_settles e q target pull_info sdp_type sdp_str id cb k :
  ends sfu_answer (settled cb id) (Sfu.HandleRemotePullSdp e q target pull_info sdp_type sdp_str id cb k).
Proof.
  unfold Sfu.HandleRemotePullSdp. apply ends_catch; [|done]. apply ends_after; [|intros; apply subscribe_settles].
  apply only_for. intros k1 info _. unfold Sfu.pull_remote. destruct (StrMap.find _ _) as [u|]; [|apply only_ret].
  destruct (RtcUser.GetPusher _ _) as [full|]; [|apply only_ret]. apply only_bind; [|intros; apply only_ret].
  apply in_room_silent. unfold Room.PullRemotePusher. destruct (Room.CreateOrGetRecvRtcRelay _ _ _ _) as [r i].
  destruct (_ !! i) as [relay|]; [|apply only_pure]. destruct (RtcRelay.RtcRecvRelay.AddVirtualPusher relay full) as [relay' x].
  unfold Room.SendPullRequestToPilotCenter. cbv zeta. destruct (negb _); [apply only_pure|].
  apply only_bind; [by apply only_emit, Forall_singleton|intros; apply only_ret].
Qed.
End RequestAnswers.

(** ** One answer for a request *)

Section OneAnswer.
Context {Ls : LibSrtp} {LsL : LibSrtpLaws} {Ev : EvpMac} {In : Inet}.
Variable what : string -> string.

Definition answered (cb : nat) (id : Z) (ret : Z) (l : list answer) : Prop := l = [(cb, id, if ret <? 0 then -1 else 0)].

Lemma in_room_answers {A} (P : A -> list answer -> Prop) room_id k (f : Sfu.t -> eff Sfu.t Sfu.call A) :
  (forall r, GetRoom room_id k = Some r -> ends sfu_answer P (f (Sfu.mk r (server k)))) -> ends answer_of P (in_room room_id k f).
Proof.
  intros H. unfold in_room. destruct (GetRoom room_id k) as [r|]; [|done]. specialize (H r eq_refl).
  destruct (f _) as [[s cs] x]. unfold ends in *. cbn in *.
  assert (Hm : omap answer_of (map (FromRoom room_id) cs) = omap sfu_answer cs).
  { clear. induction cs as [|c cs IH]; [done|]. cbn. rewrite <- IH. done. }
  by rewrite Hm.
Qed.
Lemma or_failed_answers cb id failed (m : eff t call Z) (result : Z -> Z) :
  ends answer_of (settled cb id) m -> (forall ret, ret < 0 -> result ret < 0) ->
  ends answer_of (answered cb id) (do* (k, ret) := m in or_failed failed id cb (result ret) k ret).
Proof.
  intros Hm Hr. unfold ends in *. destruct m as [[k' cs] [ret|msg|u]]; cbn in *; [|done..]. unfold settled in Hm. unfold or_failed.
  destruct (Z.ltb_spec ret 0) as [Hlt|Hge]; cbn; unfold answered.
  - rewrite omap_answers, Hm. cbn. specialize (Hr ret Hlt). by apply Z.ltb_lt in Hr as ->.
  - by rewrite app_nil_r.
Qed.
Lemma or_invalid_answers w cb id (m : eff t call Z) :
  ends answer_of (answered cb id) m ->
  ends answer_of (answered cb id) (or_invalid what w id cb m) /\ forall msg, outcome (or_invalid what w id cb m) <> Throw msg.
Proof.
  intros Hm. unfold ends in *. destruct m as [[k cs] [ret|msg|u]]; cbn in *; [done| |done].
  split; [|done]. unfold answered. rewrite omap_answers, Hm. done.
Qed.

Lemma HandleJoin_answers e id j cb k :
  let m := HandleJoinRequest what e id j cb k in ends answer_of (answered cb id) m /\ forall msg, outcome m <> Throw msg.
Proof.
  apply or_invalid_answers. do 4 (apply ends_after; [apply only_pure|]; intros ? ? _ _).
  apply ends_after; [by apply only_emit, Forall_singleton|]. intros k' _ _ _.
  apply (or_failed_answers cb id _ _ (fun ret => ret)); [|done]. apply in_room_answers. intros r _.
  apply in_room_ends; [apply UserJoin_leaves|apply UserJoin_settles].
Qed.
Lemma HandlePull_answers e q id j cb k :
  let m := HandlePullRequest what e q id j cb k in ends answer_of (answered cb id) m /\ forall msg, outcome m <> Throw msg.
Proof.
  apply or_invalid_answers. do 8 (apply ends_after; [apply only_pure|]; intros ? ? _ _). cbv zeta.
  apply (or_failed_answers cb id _ _ (fun ret => -1)); [|done]. destruct (GetRoom _ _) as [r|]; [|done].
  destruct (Room.GetUserType r _); try done; apply in_room_answers; intros r' _;
    [apply HandlePullSdp_settles|apply HandleRemotePullSdp_settles].
Qed.
Lemma HandleHeartbeat_answers e id j cb k :
  let m := HandleHeartbeatRequest what e id j cb k in ends answer_of (answered cb id) m /\ forall msg, outcome m <> Throw msg.
Proof.
  apply or_invalid_answers. do 2 (apply ends_after; [apply only_pure|]; intros ? ? _ _).
  unfold on_room, in_room. destruct (GetRoom _ _) as [r|]; [|done].
  unfold Sfu.in_room, Sfu.on_room. destruct (Room.HandleWsHeartbeat _ _ _) as [r' ret]. cbn.
  destruct (Z.ltb_spec ret 0) as [H|H]; cbn; unfold ends, answered; cbn; [|done]. by apply Z.ltb_lt in H as ->.
Qed.
Lemma HandlePush_answers e q id j cb k :
  (forall roomId userId, Room.get_str j "roomId" = Ok roomId -> Room.get_str j "userId" = Ok userId ->
     exists r, GetRoom roomId k = Some r /\ is_Some (StrMap.find userId (Room.users_ r))) ->
  let m := HandlePushRequest what e q id j cb k in ends answer_of (answered cb id) m /\ forall msg, outcome m <> Throw msg.
Proof.
  intros Hu. apply or_invalid_answers. apply ends_after; [apply only_pure|]; intros k1 userId <- Hid.
  apply ends_after; [apply only_pure|]; intros k2 roomId <- Hrid. cbn in Hid, Hrid. destruct (Hu _ _ Hrid Hid) as (r & Hr & Hin).
  apply ends_after; [apply only_pure|]; intros k3 sdp_json <- _. do 2 (apply ends_after; [apply only_pure|]; intros ? ? <- _).
  apply (or_failed_answers cb id _ _ (fun ret => -1)); [|done]. apply in_room_answers. intros r' Hr'.
  apply HandlePushSdp_settles. cbn in Hr' |- *. unfold GetRoom in *. unfold GetOrCreateRoom in Hr'. rewrite Hr in Hr'. congruence.
Qed.
End OneAnswer.

Section Theorems.
Context {Ls : LibSrtp} {LsL : LibSrtpLaws} {Ev : EvpMac} {In : Inet}.
Variable what : string -> string.


(** C16: a push of a user who is not in the room (never joined, or removed in the meantime) is
    answered twice: with the answer's text and code 0, and then with an error.  The session
    that was opened for it stays, with its publishers, which the room knows under their ids. *)
Theorem stranger_push_answered_twice (e : Sfu.env) (q : Sfu.request) (id : Z) (data sdp_json : Json.t) (resp_cb : nat) (k : t)
    (userId roomId sdp_type sdp_str answer_sdp_str : string) (offer answer_sdp : RtcSdp.t) (r : Room.t) :
  Room.get_str data "userId" = Ok userId -> Room.get_str data "roomId" = Ok roomId -> Json.at_key data "sdp" = Ok sdp_json ->
  Room.get_str sdp_json "type" = Ok sdp_type -> Room.get_str sdp_json "sdp" = Ok sdp_str ->
  GetRoom roomId k = Some r -> StrMap.find userId (Room.users_ r) = None ->
  RtcSdp.ParseSdp sdp_type sdp_str = Ok offer ->
  Sfu.answer_for q RTC_SETUP_PASSIVE DIRECTION_RECVONLY offer = Ok answer_sdp ->
  GetRtpSessionParamsFromSdp answer_sdp <> [] ->
  SdpText.GenSdpString (Sfu.num q) answer_sdp false = Ok answer_sdp_str ->
  let l := Sfu.tracks q (GetRtpSessionParamsFromSdp answer_sdp) in
  NoDup l.*1 ->
  WebRtcServer.username2sessions_ (server k) !! IceServer.ice_ufrag_ (Sfu.ice q) = None ->
  let m := HandlePushRequest what e q id data resp_cb k in
  let i := length (WebRtcServer.sessions (server k)) in
  outcome m = Ok (-1) /\
  omap answer_of (calls m) = [(resp_cb, id, 0); (resp_cb, id, -1)] /\
  length (WebRtcServer.sessions (server (final m))) = S i /\
  exists r', GetRoom roomId (final m) = Some r' /\
    forall x pusher_id p, l !! x = Some (pusher_id, p) ->
      StrMap.find pusher_id (Room.pusherId2pusher_ r') = Some (Room.mk_pusher i x userId pusher_id).
Proof.
  intros H1 H2 H3 H4 H5 Hr Hu HP HA Hne HS l Hnd Hfree m i. unfold m, HandlePushRequest. rewrite H1, H2, H3, !ebind_ok, H4, H5, !ebind_ok.
  assert (Hk : GetOrCreateRoom (Room.now (Sfu.of_room e)) roomId k = k) by (unfold GetOrCreateRoom, GetRoom in *; by rewrite Hr).
  rewrite Hk. unfold in_room. rewrite Hr. unfold Sfu.HandlePushSdp.
  destruct (Sfu.publish_ok e q Sfu.ROLE_SERVER RTC_SETUP_PASSIVE false
    (fun sdp => [Sfu.OfRoom (Room.OnProtooResponse resp_cb id 0 EmptyString (Sfu.answer_json "push success" sdp))])
    userId sdp_type sdp_str (Sfu.mk r (server k)) offer answer_sdp answer_sdp_str HP HA Hne HS Hnd Hfree) as (k' & s & E & Hsv & Ht).
  rewrite E. cbn [emit ebind]. unfold Sfu.announce.
  assert (Hu' : StrMap.find userId (Room.users_ (Sfu.room k')) = None).
  { rewrite (Sfu.ht_user _ _ _ _ _ _ _ _ Ht). cbn. by rewrite Hu. }
  rewrite Hu'. cbn [eret ebind rename_calls zoom fst snd]. unfold or_failed. cbn.
  split; [done|]. split; [|split].
  - rewrite !app_nil_r, !map_app, !omap_answers. cbn.
    assert (Hd : forall i role fp, omap answer_of (map (FromRoom roomId) (Sfu.dtls_call q i role fp)) = []).
    { intros. unfold Sfu.dtls_call. by destruct (Sfu.dtls_init q =? 0). }
    by rewrite Hd.
  - rewrite Hsv. cbn. rewrite length_app. cbn. unfold i. lia.
  - exists (Sfu.room k'). split; [unfold GetRoom; cbn; by rewrite StrMap.find_in_set_eq|].
    intros x pid p Hx. by rewrite (Sfu.ht_registered _ _ _ _ _ _ _ _ Ht x pid p Hx).
Qed.

(** ** The sweep *)

(** Whether the tick ends after the check of the heartbeat. *)
Definition waits (now : Z) (k : t) : bool :=
  pilot_client_ k && (0 <? last_pilot_heartbeat_ts_ k) && (now - last_pilot_heartbeat_ts_ k <? 5000).

Lemma sweep_find now id k : StrMap.sorted (rooms_ k) ->
  GetRoom id (sweep now k) = match GetRoom id k with Some r => if Room.IsAlive now r then Some r else None | None => None end.
Proof.
  intros Hs. unfold GetRoom, sweep. cbn [rooms_ with_rooms]. rewrite Room.find_erase_all by done.
  destruct (StrMap.find id (rooms_ k)) as [r|] eqn:E.
  - destruct (Room.IsAlive now r) eqn:Ea.
    + rewrite decide_False; [done|]. unfold dead_rooms. rewrite Room.elem_keys_of by done. intros (r' & Hr & H). rewrite E in Hr.
      injection Hr as <-. by rewrite Ea in H.
    + rewrite decide_True; [done|]. unfold dead_rooms. rewrite Room.elem_keys_of by done. exists r. by rewrite Ea.
  - by destruct (decide _).
Qed.
Lemma sweep_sorted now k : StrMap.sorted (rooms_ k) -> StrMap.sorted (rooms_ (sweep now k)).
Proof. apply Room.erase_all_sorted. Qed.

Lemma manager_tick_eq now aid k : exists last ids index,
  final (OnTimer now aid k) = (if waits now k then k else sweep now (with_pilot k index last ids)) /\
  outcome (OnTimer now aid k) = Ok tt /\
  (pilot_client_ k = true -> last_pilot_heartbeat_ts_ (final (OnTimer now aid k)) = if waits now k then last_pilot_heartbeat_ts_ k else now).
Proof.
  unfold OnTimer, waits. destruct (pilot_client_ k); cbn [andb]; [|exists (last_pilot_heartbeat_ts_ k), (id2ts_ k), (pilot_heartbeat_index_ k); by destruct k].
  destruct (Z.leb_spec (last_pilot_heartbeat_ts_ k) 0) as [H|H]; destruct (Z.ltb_spec 0 (last_pilot_heartbeat_ts_ k)); try lia; cbn [andb].
  - by eexists _, _, _.
  - destruct (now - last_pilot_heartbeat_ts_ k <? 5000) eqn:E; [by eexists 0, [], 0|].
    destruct (0 <? aid); cbn; by eexists _, _, _.
Qed.

(** C25: what a tick does to the rooms.  Exactly the rooms in which nothing has happened for
    90 seconds go, and the server's sessions stay; but with a pilot centre nothing is looked
    at for five seconds after a heartbeat. *)
Theorem tick_sweeps_rooms (now async_id : Z) (k : t) :
  StrMap.sorted (rooms_ k) ->
  let k' := final (OnTimer now async_id k) in
  outcome (OnTimer now async_id k) = Ok tt /\ server k' = server k /\
  forall id, GetRoom id k' = if waits now k then GetRoom id k
                             else match GetRoom id k with Some r => if Room.IsAlive now r then Some r else None | None => None end.
Proof.
  intros Hs k'. destruct (manager_tick_eq now async_id k) as (last & ids & index & E & Ho & _). unfold k'. rewrite E, Ho.
  destruct (waits now k); [done|]. split; [done|]. split; [done|]. intros id. by rewrite sweep_find.
Qed.

(** a room in which nothing happens ends: after two ticks that are at least five seconds
    apart every room that is left was there before and is alive at the second tick. *)
Theorem dead_rooms_end (now1 now2 id1 id2 : Z) (k : t) (room_id : string) (r : Room.t) :
  StrMap.sorted (rooms_ k) -> last_pilot_heartbeat_ts_ k <= now1 -> now1 + 5000 <= now2 ->
  GetRoom room_id (final (OnTimer now2 id2 (final (OnTimer now1 id1 k)))) = Some r ->
  GetRoom room_id k = Some r /\ Room.IsAlive now2 r = true.
Proof.
  intros Hs Hl Hn. destruct (manager_tick_eq now1 id1 k) as (l1 & ids1 & x1 & E1 & _ & Hl1). set (k1 := final (OnTimer now1 id1 k)) in *.
  destruct (manager_tick_eq now2 id2 k1) as (l2 & ids2 & x2 & E2 & _ & _). rewrite E2.
  assert (Hs1 : StrMap.sorted (rooms_ k1)) by (rewrite E1; destruct (waits now1 k); [done|by apply sweep_sorted]).
  assert (Hp : pilot_client_ k1 = pilot_client_ k) by (rewrite E1; by destruct (waits now1 k)).
  assert (Hw : waits now2 k1 = false).
  { unfold waits. rewrite Hp. destruct (pilot_client_ k) eqn:Ep; [|done]. specialize (Hl1 eq_refl). cbn [andb].
    assert (last_pilot_heartbeat_ts_ k1 <= now1) by (destruct (waits now1 k); lia).
    destruct (Z.ltb_spec (now2 - last_pilot_heartbeat_ts_ k1) 5000); [lia|]. apply andb_false_r. }
  rewrite Hw, sweep_find by done. change (GetRoom room_id (with_pilot k1 x2 l2 ids2)) with (GetRoom room_id k1).
  destruct (GetRoom room_id k1) as [r'|] eqn:Er; [|done]. destruct (Room.IsAlive now2 r') eqn:Ea; [|done]. intros [= ->].
  split; [|done]. rewrite E1 in Er. destruct (waits now1 k); [done|]. rewrite sweep_find in Er by done. revert Er.
  change (GetRoom room_id (with_pilot k x1 l1 ids1)) with (GetRoom room_id k). destruct (GetRoom room_id k); [|done]. by destruct (Room.IsAlive now1 _).
Qed.

End Theorems.

(** * What requests do to a room *)

Section RoomMoves.
Context {Ls : LibSrtp} {LsL : LibSrtpLaws} {Ev : EvpMac} {In : Inet}.
Context (r0 : Room.t) (wf0 : Room.wf r0).

(** The room has made moves that a room makes. *)
Definition moved (k : Sfu.t) : Prop := Room.moves r0 (Sfu.room k).
Lemma moved_wf k : moved k -> Room.wf (Sfu.room k).
Proof. intros H. by eapply Room.moves_wf. Qed.

Lemma on_server_moved {A} k (m : eff WebRtcServer.t WebRtcServer.call A) : moved k -> stays moved (Sfu.on_server k m).
Proof. intros Hk. apply (stays_zoom _ (fun _ => True)); [done|]. by intros t _. Qed.
Lemma rename_stays {S E F A} (P : S -> Prop) (f : E -> F) (m : eff S E A) : stays P m -> stays P (rename_calls f m).
Proof. by destruct m as [[s es] r]. Qed.
Lemma from_room_moved e k c : moved k -> stays moved (Sfu.from_room e k c).
Proof.
  intros Hk. destruct c; try (by apply stays_emit).
  - apply stays_catch; [by apply rename_stays, on_server_moved|]. intros. by apply stays_ret.
  - by apply rename_stays, on_server_moved.
Qed.
Lemma in_room_moved {A} e k (f : Room.t -> eff Room.t Room.call A) :
  stays (Room.moves r0) (f (Sfu.room k)) -> stays moved (Sfu.in_room e k f).
Proof.
  intros H. apply stays_handled; [|intros; by apply from_room_moved]. apply (stays_zoom _ (Room.moves r0)); [exact H|done].
Qed.
Lemma from_session_moved e k i c : moved k -> stays moved (Sfu.from_session e k i c).
Proof.
  intros Hk. destruct c; try (by apply stays_emit); apply in_room_moved.
  - by apply Room.OnRtpPacketFromRtcPusher_stays.
  - by apply Room.OnKeyFrameRequest_stays.
  - by apply stays_ret, Room.OnPushClose_moves.
  - by apply stays_ret, Room.OnPullClose_moves.
Qed.
Lemma in_server_moved {A} e k (f : WebRtcServer.t -> eff WebRtcServer.t WebRtcServer.call A) :
  moved k -> stays moved (Sfu.in_server e k f).
Proof.
  intros Hk. apply stays_handled; [by apply on_server_moved|]. intros s [d a|i c] Hs; [by apply stays_emit|].
  cbn [Sfu.from_server]. destruct (Sfu.of_this_room s i); [by apply from_session_moved|by apply stays_emit].
Qed.
Lemma open_session_moved e q type role fp user_id k : moved k -> stays moved (Sfu.open_session e q type role fp user_id k).
Proof.
  intros Hk. unfold Sfu.open_session. cbv zeta. apply stays_bind; [by apply in_server_moved|]. intros k1 _ Hk1 _.
  apply stays_bind; [by apply in_server_moved|]. intros. by apply stays_ret.
Qed.

Lemma add_tracks_moved now i user_id l st : Room.moves r0 st.2 -> Room.moves r0 (Sfu.add_tracks now i user_id l st).2.
Proof.
  unfold Sfu.add_tracks. revert st. induction l as [|x l IH]; intros st H; cbn [foldl]; [done|]. apply IH.
  unfold Sfu.add_track. destruct (WebRtcSession.AddPusherRtpSession _ _ _) as [[s j] pid]. cbn [snd].
  apply (Room.add_track_moves r0 now user_id (mk_PushInfo pid x.2)) in H. revert H.
  generalize (Room.add_track now user_id (mk_PushInfo pid x.2) st.2). generalize (Sfu.pushers_of i s).
  induction l0 as [|p l' IH']; intros r H; cbn [foldl]; [done|]. by apply IH', Room.add_pusher_moves.
Qed.
Lemma alive_moved e k : moved k -> moved (Sfu.alive e k).
Proof. intros Hk. eapply Room.moves_move; [exact Hk|apply Room.mv_alive]. Qed.

Lemma publish_moved e q role setup lvl respond user_id sdp_type sdp_str k :
  moved k -> stays moved (Sfu.publish e q role setup lvl respond user_id sdp_type sdp_str k).
Proof.
  intros Hk. unfold Sfu.publish. cbv zeta. apply stays_bind; [by apply stays_pure, alive_moved|]. intros k1 offer Hk1 _.
  apply stays_bind; [by apply open_session_moved|]. intros k2 i Hk2 _. apply stays_bind; [by apply stays_pure|]. intros k3 a Hk3 _.
  destruct (GetRtpSessionParamsFromSdp a) as [|p ps]; [by apply stays_ret|]. destruct (_ !! i) as [s|]; [|by apply stays_pure].
  pose proof (add_tracks_moved (Room.now (Sfu.of_room e)) i user_id (Sfu.tracks q (p :: ps)) (s, Sfu.room k3) Hk3) as Ht.
  destruct (Sfu.add_tracks _ _ _ _ _) as [s' r]. cbn [snd] in Ht.
  destruct (SdpText.GenSdpString _ _ _) as [str|msg|u]; [|by apply stays_ret|by apply stays_pure].
  apply stays_bind; [by apply stays_emit|]. intros k4 _ Hk4 _. unfold Sfu.announce.
  destruct (StrMap.find _ _) as [u|]; [|by apply stays_ret]. cbv zeta.
  apply stays_bind; [by apply in_room_moved, Room.NotifyNewPusher_stays|]. intros k5 _ Hk5 _.
  apply stays_bind; [by apply in_room_moved, Room.NewPusher2PilotCenter_stays|]. intros. by apply stays_ret.
Qed.
Lemma HandlePushSdp_moved e q user_id sdp_type sdp_str id cb k : moved k -> stays moved (Sfu.HandlePushSdp e q user_id sdp_type sdp_str id cb k).
Proof. intros Hk. apply stays_bind; [by apply publish_moved|]. intros. by apply stays_ret. Qed.

Lemma subscribe_moved e q find_pusher pull_info sdp_type sdp_str id cb k :
  moved k -> stays moved (Sfu.subscribe e q find_pusher pull_info sdp_type sdp_str id cb k).
Proof.
  intros Hk. unfold Sfu.subscribe. apply stays_bind; [by apply stays_pure|]. intros k1 offer Hk1 _.
  apply stays_bind; [by apply open_session_moved|]. intros k2 i Hk2 _. apply stays_bind; [by apply stays_pure|]. intros k3 a Hk3 _.
  destruct (_ !! i) as [s|]; [|by apply stays_pure]. cbv zeta.
  apply stays_bind; [by apply stays_pure|]. intros k4 [params a'] Hk4 _. cbv zeta.
  apply stays_bind.
  - apply stays_pure. unfold moved. cbn [Sfu.room Sfu.with_session]. generalize (Sfu.pullers_at i (Sfu.set_params
      (Sfu.add_subscriptions (Sfu.target_user_id_ pull_info) (Sfu.requested q (find_pusher k3) (Sfu.pushers_ pull_info)) s) params)).
    revert Hk4. unfold moved. generalize (Sfu.room k4). intros r Hr l. revert r Hr.
    induction l as [|p l IH]; intros r Hr; cbn [foldl]; [done|]. by apply IH, Room.add_puller_moves.
  - intros k5 str Hk5 _. apply stays_bind; [by apply stays_emit|]. intros. by apply stays_ret.
Qed.
Lemma HandlePullSdp_moved e q pull_info sdp_type sdp_str id cb k : moved k -> stays moved (Sfu.HandlePullSdp e q pull_info sdp_type sdp_str id cb k).
Proof.
  intros Hk. unfold Sfu.HandlePullSdp. cbv zeta. destruct (StrMap.find _ _); [|by apply stays_ret, alive_moved].
  apply stays_catch; [by apply subscribe_moved, alive_moved|]. intros. by apply stays_ret.
Qed.
Lemma HandleRemotePullSdp_moved e q target pull_info sdp_type sdp_str id cb k :
  moved k -> stays moved (Sfu.HandleRemotePullSdp e q target pull_info sdp_type sdp_str id cb k).
Proof.
  intros Hk. unfold Sfu.HandleRemotePullSdp. apply stays_catch; [|intros; by apply stays_ret].
  apply stays_bind; [|intros; by apply subscribe_moved]. apply stays_for; [by apply alive_moved|].
  intros k1 info Hk1 _. unfold Sfu.pull_remote. destruct (StrMap.find _ _) as [u|]; [|by apply stays_ret].
  destruct (RtcUser.GetPusher _ _) as [full|]; [|by apply stays_ret]. apply stays_bind; [|intros; by apply stays_ret].
  apply in_room_moved, Room.PullRemotePusher_stays; [done|by apply moved_wf].
Qed.
End RoomMoves.

(** * The invariant of the rooms *)

Section Invariant.
Context {Ls : LibSrtp} {LsL : LibSrtpLaws} {Ev : EvpMac} {In : Inet}.
Variable what : string -> string.

(** What happens to the manager and its rooms.  [InRoom] is a call on a room that does not
    come through the manager: its timer, its relays and the callbacks of its sessions. *)
Inductive event :=
  | Request (e : Sfu.env) (q : Sfu.request) (id : Z) (method : string) (j : Json.t) (resp_cb : nat)
  | ClientNotification (e : Sfu.env) (method : string) (j : Json.t)
  | WsClose (e : Sfu.env) (room_id user_id : string)
  | PilotNotification (e : Sfu.env) (method : string) (data : Json.t)
  | PilotResponse (id : Z)
  | Tick (now async_id : Z)
  | Remove (room_id : string)
  | Pilot (pilot_client : bool)
  | InRoom (e : Sfu.env) (room_id : string) (ev : Room.event).
Definition happens (k : t) (ev : event) : eff t call unit :=
  match ev with
  | Request e q id method j resp_cb => OnProtooRequest what e q id method j resp_cb k
  | ClientNotification e method j => OnProtooNotification e method j k
  | WsClose e room_id user_id => OnWsSessionClose e room_id user_id k
  | PilotNotification e method data => OnAsyncNotification e method data k
  | PilotResponse id => eret (OnAsyncRequestResponse id k) tt
  | Tick now async_id => OnTimer now async_id k
  | Remove room_id => eret (RemoveRoom room_id k) tt
  | Pilot b => eret (SetPilotClient k b) tt
  | InRoom e room_id ev => on_room e room_id k (fun r => Room.happens r ev)
  end.

(** Every room is under its own id, and satisfies the invariant of a room. *)
Definition filed (k : t) : Prop :=
  StrMap.sorted (rooms_ k) /\ forall id r, GetRoom id k = Some r -> Room.room_id_ r = id /\ Room.wf r.

Lemma moves_room_id r r' : Room.moves r r' -> Room.room_id_ r' = Room.room_id_ r.
Proof. induction 1 as [|r1 r2 r3 Hm _ IH]; [done|]. rewrite IH. by destruct Hm. Qed.

Lemma filed_set id r m sv k : filed k -> Room.room_id_ r = id -> Room.wf r -> m = rooms_ k -> filed (with_rooms k (StrMap.set id r m) sv).
Proof.
  intros [Hs Hf] Hid Hw ->. split; [by apply StrMap.ordered_set|]. intros id' r'. unfold GetRoom. cbn [rooms_ with_rooms].
  rewrite StrMap.find_in_set. destruct (String.eqb_spec id' id) as [->|]; [by intros [= <-]|]. apply Hf.
Qed.
Lemma filed_rooms k k' : filed k -> rooms_ k' = rooms_ k -> filed k'.
Proof. unfold filed, GetRoom. by intros H ->. Qed.
Lemma GetOrCreateRoom_filed now id k : filed k -> filed (GetOrCreateRoom now id k).
Proof. intros H. unfold GetOrCreateRoom. destruct (StrMap.find _ _); [done|]. apply filed_set; [done..|apply Room.room_wf_new|done]. Qed.
Lemma in_room_filed {A} id k (f : Sfu.t -> eff Sfu.t Sfu.call A) :
  filed k -> (forall r, GetRoom id k = Some r -> Room.wf r -> stays (moved r) (f (Sfu.mk r (server k)))) -> stays filed (in_room id k f).
Proof.
  intros Hk Hf. unfold in_room. destruct (GetRoom id k) as [r|] eqn:E; [|by apply stays_pure].
  destruct (proj2 Hk id r E) as [Hid Hw]. apply rename_stays, (stays_zoom _ (moved r)); [by apply Hf|].
  intros s Hs. apply filed_set; [done| |by eapply Room.moves_wf|done]. rewrite <- Hid. by apply moves_room_id.
Qed.
Lemma on_room_filed {A} e id k (f : Room.t -> eff Room.t Room.call A) :
  filed k -> (forall r, Room.wf r -> stays (Room.moves r) (f r)) -> stays filed (on_room e id k f).
Proof.
  intros Hk Hf. apply in_room_filed; [done|]. intros r _ Hw. apply in_room_moved. by apply Hf.
Qed.
Lemma or_invalid_filed w id cb (m : eff t call Z) : stays filed m -> stays filed (or_invalid what w id cb m).
Proof. destruct m as [[k es] [z|msg|u]]; intros H; unfold stays in *; cbn in *; auto. Qed.
Lemma or_failed_filed w id cb result k ret : filed k -> stays filed (or_failed w id cb result k ret).
Proof.
  intros H. unfold or_failed. destruct (ret <? 0); [|by apply stays_ret]. apply stays_bind; [by apply stays_emit|]. intros. by apply stays_ret.
Qed.

Create HintDb filed.
#[local] Hint Resolve stays_pure stays_ret stays_emit GetOrCreateRoom_filed rtc_refl or_failed_filed : filed.
Ltac step := apply stays_bind; [auto with filed|intros ? ? ? ?].

Lemma HandleJoin_filed e id j cb k : filed k -> stays filed (HandleJoinRequest what e id j cb k).
Proof.
  intros Hk. apply or_invalid_filed. do 5 step. apply stays_bind; [|auto with filed].
  apply on_room_filed; [auto with filed|]. intros r _. by apply Room.UserJoin_stays.
Qed.
Lemma HandlePush_filed e q id j cb k : filed k -> stays filed (HandlePushRequest what e q id j cb k).
Proof.
  intros Hk. apply or_invalid_filed. do 5 step. apply stays_bind; [|auto with filed].
  apply in_room_filed; [auto with filed|]. intros r _ Hw. by apply HandlePushSdp_moved, rtc_refl.
Qed.
Lemma HandlePull_filed e q id j cb k : filed k -> stays filed (HandlePullRequest what e q id j cb k).
Proof.
  intros Hk. apply or_invalid_filed. do 8 step. cbv zeta. apply stays_bind; [|auto with filed].
  destruct (GetRoom _ _) as [r|] eqn:Er; [|auto with filed].
  destruct (Room.GetUserType r _); try (apply stays_ret; auto with filed); (apply in_room_filed; [auto with filed|]); intros r' _ Hw;
    [apply HandlePullSdp_moved|apply HandleRemotePullSdp_moved; [done|]]; apply rtc_refl.
Qed.
Lemma HandleHeartbeat_filed e id j cb k : filed k -> stays filed (HandleHeartbeatRequest what e id j cb k).
Proof.
  intros Hk. apply or_invalid_filed. do 2 step. apply stays_bind.
  - apply on_room_filed; [auto with filed|]. intros r _. pose proof (fun n u => Room.HandleWsHeartbeat_moves r n u r (rtc_refl _ r)) as H'.
    specialize (H' (Room.now (Sfu.of_room e)) a0). destruct (Room.HandleWsHeartbeat _ _ _) as [r' ret]. by apply stays_ret.
  - intros k' ret Hk' _. destruct (ret <? 0); (apply stays_bind; [by apply stays_emit|]); intros; by apply stays_ret.
Qed.
Lemma ignore_filed {A} (m : eff t call A) : stays filed m -> stays filed (ignore m).
Proof. intros H. apply stays_bind; [done|]. intros. by apply stays_ret. Qed.

Lemma request_filed e q id method j cb k : filed k -> stays filed (OnProtooRequest what e q id method j cb k).
Proof.
  intros Hk. unfold OnProtooRequest. cbv zeta. repeat (destruct (String.eqb method _); [step; apply ignore_filed|]); [..|by apply stays_ret];
    auto using HandleJoin_filed, HandlePush_filed, HandlePull_filed, HandleHeartbeat_filed.
Qed.
Lemma notification_filed e method j k : filed k -> stays filed (OnProtooNotification e method j k).
Proof.
  intros Hk. unfold OnProtooNotification. destruct (String.eqb method _); [|by apply stays_ret]. step. apply ignore_filed.
  apply stays_catch; [|intros; by apply stays_ret]. step. cbv zeta.
  do 3 (apply stays_bind; [auto with filed|intros ? ? ? ?]).
  apply stays_bind; [apply on_room_filed; [auto with filed|]; intros; by apply Room.notify_stays|]. intros k1 _ Hk1 _.
  apply stays_bind; [apply on_room_filed; [auto with filed|]; intros; by apply Room.to_pilot_stays|]. auto with filed.
Qed.
Lemma pilot_filed e method j k : filed k -> stays filed (OnAsyncNotification e method j k).
Proof.
  intros Hk. unfold OnAsyncNotification. cbv zeta. destruct (Room.get_str j "roomId") as [room_id|msg|u]; [|by apply stays_ret|by apply stays_pure].
  repeat (destruct (String.eqb method _); [apply on_room_filed; [by apply GetOrCreateRoom_filed|]; intros r Hw|]);
    [..|by apply stays_ret, GetOrCreateRoom_filed].
  - by apply Room.HandleNewUser_stays.
  - by apply Room.HandleNewPusher_stays.
  - by apply Room.HandlePullRemoteStream_stays.
  - by apply Room.HandleUserDisconnect_stays.
  - by apply Room.HandleUserLeave_stays.
  - by apply Room.HandleText_stays.
Qed.
Lemma erase_filed ids k sv : filed k -> filed (with_rooms k (Room.erase_all ids (rooms_ k)) sv).
Proof.
  intros [Hs Hf]. split; [by apply Room.erase_all_sorted|]. intros id r. unfold GetRoom. cbn [rooms_ with_rooms].
  rewrite Room.find_erase_all by done. destruct (decide _); [done|apply Hf].
Qed.
Lemma event_filed k ev : filed k -> stays filed (happens k ev).
Proof.
  intros Hk. destruct ev; cbn [happens].
  - by apply request_filed.
  - by apply notification_filed.
  - apply ignore_filed, on_room_filed; [by apply GetOrCreateRoom_filed|]. intros. by apply Room.DisconnectUser_stays.
  - by apply pilot_filed.
  - apply stays_ret. unfold OnAsyncRequestResponse. by destruct (0 <? id).
  - intros _. destruct (manager_tick_eq now async_id k) as (last & ids & index & E & _). rewrite E. destruct (waits now k); [done|].
    apply (erase_filed _ (with_pilot k index last ids)). by apply (filed_rooms k).
  - apply stays_ret. by apply (erase_filed [room_id] k (server k)).
  - by apply stays_ret.
  - apply on_room_filed; [done|]. intros r Hw. by apply Room.event_stays.
Qed.

(** What the manager becomes, as long as nothing undefined happens. *)
Inductive becomes : t -> Prop :=
  | becomes_new : becomes new_RoomMgr
  | becomes_step k ev : becomes k -> defined (outcome (happens k ev)) -> becomes (final (happens k ev)).

Lemma becomes_filed k : becomes k -> filed k.
Proof. induction 1 as [|k ev _ IH Hd]; [split; [apply StrMap.sorted_nil|done]|]. exact (event_filed k ev IH Hd). Qed.

(** C15: the invariant of the server's rooms.  Whatever requests and notifications of clients,
    messages of the pilot centre, closed connections, ticks, removals, and whatever happens
    in the rooms meanwhile: every room is under its own id, once, and satisfies the invariant
    of a room. *)
Theorem manager_invariant (k : t) :
  becomes k -> StrMap.sorted (rooms_ k) /\ forall id r, GetRoom id k = Some r -> Room.room_id_ r = id /\ Room.wf r.
Proof. apply becomes_filed. Qed.
End Invariant.

(** * Examples *)

#[local] Existing Instance SrtpSession.toy_srtp.
#[local] Existing Instance SrtpSession.toy_srtp_laws.
#[local] Instance example_mac : EvpMac := StunMessage.StunMessage.toy_hmac.
#[local] Instance example_inet : Inet := StunMessage.StunMessage.toy_inet.

Definition shown (msg : string) : string := msg.
Definition request_json (data : list (string * Json.t)) : Json.t := Room.obj [("data", Room.obj data)].
Definition bob_joins : list (string * Json.t) :=
  [("roomId", Json.Str "room"); ("userId", Json.Str "bob"); ("userName", Json.Str "Bob")].
Definition one_room : t := with_rooms new_RoomMgr [("room", Sfu.joined)] WebRtcServer.new_WebRtcServer.
Definition carol_pushes : Json.t :=
  Room.obj [("roomId", Json.Str "room"); ("userId", Json.Str "carol");
            ("sdp", Room.obj [("type", Json.Str "offer"); ("sdp", Json.Str sample_text)])].


Lemma stranger_push_answered_twice_witness :
  let m := HandlePushRequest shown Sfu.sample_env (Sfu.sample_request "a" [97]) 7 carol_pushes 30 one_room in
  omap answer_of (calls m) = [(30%nat, 7, 0); (30%nat, 7, -1)] /\
  exists r', GetRoom "room" (final m) = Some r' /\
    StrMap.find "a2" (Room.pusherId2pusher_ r') = Some (Room.mk_pusher 0 0 "carol" "a2").
Proof.
  set (q := Sfu.sample_request "a" [97]). set (a := Sfu.sample_answer q DIRECTION_RECVONLY).
  destruct (stranger_push_answered_twice shown Sfu.sample_env q 7 carol_pushes
    (Room.obj [("type", Json.Str "offer"); ("sdp", Json.Str sample_text)]) 30 one_room "carol" "room" "offer" sample_text
    (match SdpText.GenSdpString (Sfu.num q) a false with Ok s => s | _ => EmptyString end) Sfu.sample_offered a Sfu.joined)
    as (_ & H & _ & r' & Hr & Hp);
    [vm_compute; reflexivity|vm_compute; reflexivity|vm_compute; reflexivity|vm_compute; reflexivity|vm_compute; reflexivity|
     vm_compute; reflexivity|vm_compute; reflexivity|vm_compute; reflexivity|vm_compute; reflexivity|vm_compute; discriminate|
     vm_compute; reflexivity| |vm_compute; reflexivity|].
  - vm_compute. repeat (apply NoDup_cons; split; [set_solver|]). apply NoDup_nil. exact I.
  - split; [exact H|]. exists r'. split; [exact Hr|]. eapply (Hp 0%nat "a2"). vm_compute. reflexivity.
Defined.

Lemma one_room_sorted : StrMap.sorted (rooms_ one_room).
Proof. change (rooms_ one_room) with (StrMap.set "room" Sfu.joined []). apply StrMap.ordered_set, StrMap.sorted_nil. Qed.
Lemma tick_sweeps_rooms_witness :
  GetRoom "room" (final (OnTimer 90999 0 one_room)) = Some Sfu.joined /\ GetRoom "room" (final (OnTimer 91000 0 one_room)) = None.
Proof.
  destruct (tick_sweeps_rooms 90999 0 one_room one_room_sorted) as (_ & _ & H). specialize (H "room").
  destruct (tick_sweeps_rooms 91000 0 one_room one_room_sorted) as (_ & _ & H'). specialize (H' "room").
  rewrite H, H'. split; vm_compute; reflexivity.
Defined.
Lemma dead_rooms_end_witness :
  let k := SetPilotClient one_room true in
  GetRoom "room" (final (OnTimer 60000 5 (final (OnTimer 50000 4 k)))) = Some Sfu.joined /\ Room.IsAlive 60000 Sfu.joined = true.
Proof.
  intros k. split; [vm_compute; reflexivity|].
  destruct (dead_rooms_end 50000 60000 4 5 k "room" Sfu.joined) as [_ H]; [apply one_room_sorted|vm_compute; discriminate|lia|vm_compute; reflexivity|].
  exact H.
Defined.
Lemma manager_invariant_witness :
  exists k, becomes shown k /\ length (rooms_ k) = 1%nat /\ StrMap.sorted (rooms_ k).
Proof.
  set (ev := Request Sfu.sample_env (Sfu.sample_request "a" [97]) 7 "join" (request_json bob_joins) 20).
  assert (Hb : becomes shown (final (happens shown new_RoomMgr ev))) by (apply becomes_step; [constructor|vm_compute; exact I]).
  eexists. split; [exact Hb|]. split; [vm_compute; reflexivity|]. exact (proj1 (manager_invariant shown _ Hb)).
Defined.

End RoomMgr.
