(* ===== verification/Http.v ===== *)
(** [net/http/http_session.cpp], [http_common.hpp] and [http_server.cpp]: the reader of a
    request over the reads of a TCP connection, the table of handlers, and the response.
    The two byte buffers are the texts they hold (DataBuffer.v shows that they are queues);
    what a handler is called with and what it does to the response is a parameter of the
    session, which the WHIP handlers instantiate. *)
From S2P Require Import Prelude Effect StrMap Text.
From Stdlib Require Import Strings.Ascii Strings.String.

Module Http.

(** ** Requests and responses *)

Record HttpRequest := mk_request {
  method_ : string; uri_ : string; params : list (string * string); version_ : string;
  content_body_ : option string; content_length_ : Z; headers_ : list (string * string)
}.
Definition new_HttpRequest : HttpRequest := mk_request "" "" [] "" None 0 [].

Record HttpResponse := mk_response {
  is_close_ : bool; written_header_ : bool; status_ : string; status_code_ : Z;
  resp_headers_ : list (string * string); resp_continue_flag_ : bool; remain_bytes_ : Z
}.
Definition new_HttpResponse : HttpResponse := mk_response false false "OK" 200 [] false 0.

Definition CRLF : string := String (ascii_of_N 13) (String (ascii_of_N 10) EmptyString).

Definition SetStatusCode (r : HttpResponse) (code : Z) : HttpResponse :=
  mk_response (is_close_ r) (written_header_ r) (status_ r) code (resp_headers_ r) (resp_continue_flag_ r) (remain_bytes_ r).
Definition SetStatus (r : HttpResponse) (s : string) : HttpResponse :=
  mk_response (is_close_ r) (written_header_ r) s (status_code_ r) (resp_headers_ r) (resp_continue_flag_ r) (remain_bytes_ r).
Definition AddHeader (r : HttpResponse) (key value : string) : HttpResponse :=
  mk_response (is_close_ r) (written_header_ r) (status_ r) (status_code_ r) (StrMap.set key value (resp_headers_ r)) (resp_continue_flag_ r)
    (remain_bytes_ r).
Definition SetClose (r : HttpResponse) : HttpResponse :=
  mk_response true (written_header_ r) (status_ r) (status_code_ r) (resp_headers_ r) (resp_continue_flag_ r) (remain_bytes_ r).
Definition with_written (r : HttpResponse) (written flag : bool) (remain : Z) : HttpResponse :=
  mk_response (is_close_ r) written (status_ r) (status_code_ r) (resp_headers_ r) flag remain.

Definition header_lines (m : list (string * string)) : string :=
  foldr (fun (e : string * string) s => e.1 +:+ ": " +:+ e.2 +:+ CRLF +:+ s) EmptyString m.
Definition head_text (r : HttpResponse) (len : nat) (continue_flag : bool) : string :=
  "HTTP/1.1 " +:+ Text.to_string (status_code_ r) +:+ " " +:+ status_ r +:+ CRLF +:+
  (if continue_flag then EmptyString else "Content-Length: " +:+ Text.to_string (Z.of_nat len) +:+ CRLF) +:+
  header_lines (resp_headers_ r) +:+ CRLF.

(** The texts that [Write] passes to the connection, and the result. *)
Definition Write (r : HttpResponse) (data : string) (continue_flag : bool) : HttpResponse * list string * Z :=
  let r := with_written r (written_header_ r) continue_flag (remain_bytes_ r) in
  if is_close_ r then (r, [], -1) else
  let len := String.length data in
  let head := if written_header_ r then [] else [head_text r len continue_flag] in
  let body := if (0 <? len)%nat then [data] else [] in
  (with_written r true continue_flag
     (foldl (fun n s => n + Z.of_nat (String.length s)) (remain_bytes_ r) (head ++ body)), head ++ body, 0).

(** ** Parsing *)

Definition sub_end (s : string) (pos : nat) : string := Text.drop pos s.

(** A result and whether there is one: [-1] is [None]. *)
Fixpoint read_params (l : list string) (m : list (string * string)) : res (bool * list (string * string)) :=
  match l with
  | [] => Ok (true, m)
  | item :: l =>
      let! param_vec := Text.StringSplit item "=" in
      match param_vec with
      | [key; value] => read_params l (StrMap.set key value m)
      | _ => Ok (false, m)
      end
  end.
(** The uri and the parameters are set even if the parameters are malformed. *)
Definition GetUriAndParams (input : string) (m : list (string * string)) : res (bool * string * list (string * string)) :=
  match Text.find input "?" with
  | None => Ok (true, input, m)
  | Some pos =>
      let! item_vec := Text.StringSplit (Text.drop (pos + 1) input) "&" in
      let! r := read_params item_vec m in
      Ok (r.1, Text.take pos input, r.2)
  end.

(** [atoi]: text that is no number is 0. *)
Definition atoi (s : string) : res Z :=
  match Text.number s with
  | None => Ok 0
  | Some (minus, n) =>
      let v := if minus : bool then - n else n in
      if (-2147483648 <=? v) && (v <=? 2147483647) then Ok v else Undef IntOverflow
  end.

Definition with_line (q : HttpRequest) (method uri : string) (ps : list (string * string)) (version : string) : HttpRequest :=
  mk_request method uri ps version (content_body_ q) (content_length_ q) (headers_ q).
Definition with_header (q : HttpRequest) (len : Z) (m : list (string * string)) : HttpRequest :=
  mk_request (method_ q) (uri_ q) (params q) (version_ q) (content_body_ q) len m.
Definition with_body (q : HttpRequest) (body : string) : HttpRequest :=
  mk_request (method_ q) (uri_ q) (params q) (version_ q) (Some body) (content_length_ q) (headers_ q).
Definition with_uri (q : HttpRequest) (uri : string) : HttpRequest :=
  mk_request (method_ q) uri (params q) (version_ q) (content_body_ q) (content_length_ q) (headers_ q).

(** The loop over the lines after the first. *)
Fixpoint read_headers (l : list string) (q : HttpRequest) : HttpRequest * res bool :=
  match l with
  | [] => (q, Ok true)
  | info_line :: l =>
      match Text.find info_line ":" with
      | None => (q, Ok false)
      | Some pos =>
          let key := Text.take pos info_line in
          match Text.substr info_line (pos + 2) with
          | Throw msg => (q, Throw msg)
          | Undef u => (q, Undef u)
          | Ok value =>
              match (if String.eqb key "Content-Length" then atoi value else Ok (content_length_ q)) with
              | Throw msg => (q, Throw msg)
              | Undef u => (q, Undef u)
              | Ok len => read_headers l (with_header q len (StrMap.emplace key value (headers_ q)))
              end
          end
      end
  end.
(** [AnalyzeHeader] on the text before the empty line; [Ok false] is -1. *)
Definition analyze (header_str : string) (q : HttpRequest) : HttpRequest * res bool :=
  match Text.StringSplit header_str CRLF with
  | Throw msg => (q, Throw msg)
  | Undef u => (q, Undef u)
  | Ok [] => (q, Ok false)
  | Ok (first_line :: lines) =>
      match Text.StringSplit first_line " " with
      | Throw msg => (q, Throw msg)
      | Undef u => (q, Undef u)
      | Ok [method; uri; version_info] =>
          let q := with_line q method (uri_ q) (params q) (version_ q) in
          match GetUriAndParams uri (params q) with
          | Throw msg => (q, Throw msg)
          | Undef u => (q, Undef u)
          | Ok (ok, uri, ps) =>
              let q := with_line q method uri ps (version_ q) in
              if negb ok then (q, Ok false) else
              match Text.find version_info "HTTP" with
              | None => (q, Ok false)
              | Some pos =>
                  match Text.substr version_info (pos + 5) with
                  | Throw msg => (q, Throw msg)
                  | Undef u => (q, Undef u)
                  | Ok version => read_headers lines (with_line q method uri ps version)
                  end
              end
          end
      | Ok _ => (q, Ok false)
      end
  end.

(** ** The table of handlers *)

Fixpoint rfind (s : string) (c : ascii) : option nat :=
  match s with
  | EmptyString => None
  | String d s' =>
      match rfind s' c with
      | Some n => Some (S n)
      | None => if Ascii.eqb d c then Some O else None
      end
  end.
Definition SLASH : ascii := ascii_of_N 47.
(** [GetUri] changes its argument; an empty text has no last character. *)
Definition GetUri (uri : string) : string :=
  if String.eqb uri "/" then uri else
  let uri := match Text.find uri "/" with Some O => Text.drop 1 uri | _ => uri end in
  match rfind uri SLASH with
  | Some pos => if (pos =? String.length uri - 1)%nat then Text.take pos uri else uri
  | None => uri
  end.

Section Server.
Context {H : Type}.
Record server := mk_server { get_handle_map_ : list (string * H); post_handle_map_ : list (string * H); delete_handle_map_ : list (string * H) }.
Definition new_HttpServer : server := mk_server [] [] [].
Definition AddGetHandle (uri : string) (h : H) (s : server) : server :=
  mk_server (StrMap.emplace (GetUri uri) h (get_handle_map_ s)) (post_handle_map_ s) (delete_handle_map_ s).
Definition AddPostHandle (uri : string) (h : H) (s : server) : server :=
  mk_server (get_handle_map_ s) (StrMap.emplace (GetUri uri) h (post_handle_map_ s)) (delete_handle_map_ s).
Definition AddDeleteHandle (uri : string) (h : H) (s : server) : server :=
  mk_server (get_handle_map_ s) (post_handle_map_ s) (StrMap.emplace (GetUri uri) h (delete_handle_map_ s)).

(** The handler of a request whose uri has been put into the form of the keys. *)
Definition default_handle (s : server) : option H :=
  match StrMap.find "/" (get_handle_map_ s) with
  | Some h => Some h
  | None => StrMap.find "/" (post_handle_map_ s)
  end.
Definition GetHandle (s : server) (q : HttpRequest) : HttpRequest * option H :=
  let q := with_uri q (GetUri (uri_ q)) in
  let within m := match StrMap.find (uri_ q) m with Some h => Some h | None => default_handle s end in
  (q, if String.eqb (method_ q) "GET" then within (get_handle_map_ s)
      else if String.eqb (method_ q) "POST" then within (post_handle_map_ s)
      else if String.eqb (method_ q) "DELETE" then within (delete_handle_map_ s)
      else None).
End Server.
Arguments server : clear implicits.

(** ** The session *)

(** What a session calls on its connection and its server; [Own] is a call of a handler. *)
Inductive call (E : Type) := AsyncRead | AsyncWrite (data : string) | TcpClose | OnClose | Own (c : E).
Arguments AsyncRead {E}. Arguments AsyncWrite {E} data. Arguments TcpClose {E}. Arguments OnClose {E}. Arguments Own {E} c.

Section Session.
Context {G E H : Type}.
(** What a handler does with a request to the rest of the program and to the response. *)
Variable run : H -> HttpRequest -> G * HttpResponse -> eff (G * HttpResponse) (call E) unit.
Variable callback_ : server H.

Record t := mk {
  header_data_ : string; content_data_ : string;
  request_ : option HttpRequest; response_ptr_ : option HttpResponse; content_start_ : nat;
  header_is_ready_ : bool; is_closed_ : bool; continue_flag_ : bool
}.
Definition new_HttpSession : t := mk EmptyString EmptyString (Some new_HttpRequest) None 0 false false false.

Definition with_data (k : t) (header content : string) : t :=
  mk header content (request_ k) (response_ptr_ k) (content_start_ k) (header_is_ready_ k) (is_closed_ k) (continue_flag_ k).
Definition with_request (k : t) (q : option HttpRequest) : t :=
  mk (header_data_ k) (content_data_ k) q (response_ptr_ k) (content_start_ k) (header_is_ready_ k) (is_closed_ k) (continue_flag_ k).
Definition with_response (k : t) (r : option HttpResponse) : t :=
  mk (header_data_ k) (content_data_ k) (request_ k) r (content_start_ k) (header_is_ready_ k) (is_closed_ k) (continue_flag_ k).
Definition with_ready (k : t) (start : nat) (ready : bool) : t :=
  mk (header_data_ k) (content_data_ k) (request_ k) (response_ptr_ k) start ready (is_closed_ k) (continue_flag_ k).
Definition with_continue (k : t) (flag : bool) : t :=
  mk (header_data_ k) (content_data_ k) (request_ k) (response_ptr_ k) (content_start_ k) (header_is_ready_ k) (is_closed_ k) flag.

Definition Close (s : G * t) : eff (G * t) (call E) unit :=
  let '(g, k) := s in
  if is_closed_ k then eret (g, k) tt else
  emit (g, mk (header_data_ k) (content_data_ k) None (SetClose <$> response_ptr_ k) (content_start_ k) (header_is_ready_ k) true (continue_flag_ k))
       [TcpClose; OnClose].

(** The text of an answer to OPTIONS. *)
Definition options_headers (r : HttpResponse) : HttpResponse :=
  AddHeader (AddHeader (AddHeader (AddHeader (AddHeader r
    "Access-Control-Allow-Origin" "*") "Access-Control-Allow-Methods" "GET, POST, PUT") "Access-Control-Allow-Headers" "*")
    "Access-Control-Allow-Private-Network" "true") "Allow" "GET, HEAD, POST, PUT, DELETE, TRACE, OPTIONS, PATCH".

Definition AnalyzeHeader (k : t) (q : HttpRequest) : t * res bool :=
  match Text.find (header_data_ k) (CRLF +:+ CRLF) with
  | None => (with_ready k (content_start_ k) false, Ok true)
  | Some pos =>
      let '(q, r) := analyze (Text.take pos (header_data_ k)) q in
      (with_request (with_ready k (pos + 4) true) (Some q), r)
  end.

(** A handler, whose exceptions are printed. *)
Definition call_handler (s : G * t) (h : H) (q : HttpRequest) (r : HttpResponse) : eff (G * t) (call E) unit :=
  zoom (fun gr : G * HttpResponse => (gr.1, with_response s.2 (Some gr.2)))
    (ecatch (run h q (s.1, r)) (fun gr => eret gr tt)).

(** The header, once it is there, and the content; [None] means that nothing is done yet. *)
Definition receive (k : t) (data : string) : t * res (option bool) :=
  if header_is_ready_ k then (with_data k (header_data_ k) (content_data_ k +:+ data), Ok (Some true)) else
  let k := with_data k (header_data_ k +:+ data) (content_data_ k) in
  match request_ k with
  | None => (k, Undef NullDeref)
  | Some q =>
      match AnalyzeHeader k q with
      | (k, Throw msg) => (k, Throw msg)
      | (k, Undef u) => (k, Undef u)
      | (k, Ok false) => (k, Ok (Some false))
      | (k, Ok true) =>
          if negb (header_is_ready_ k) then (k, Ok None)
          else (with_data k (header_data_ k) (content_data_ k +:+ Text.drop (content_start_ k) (header_data_ k)), Ok (Some true))
      end
  end.

Definition HandleRequest (s : G * t) (data : string) : eff (G * t) (call E) Z :=
  let '(g, k) := s in
  let '(k, r) := receive (with_continue k true) data in
  do* (s, go) := pure (g, k) r in
  let '(g, k) := s in
  match go, request_ k with
  | None, _ => eret s 0
  | Some false, _ => eret s (-1)
  | Some true, None => pure s (Undef NullDeref)
  | Some true, Some q =>
      let response := default new_HttpResponse (response_ptr_ k) in
      if String.eqb (method_ q) "OPTIONS" then
        let '(r, out, _) := Write (options_headers response) EmptyString false in
        do* (s, _) := emit (g, k) (map AsyncWrite out) in
        eret (g, with_data (with_continue (with_ready (with_response k (Some r)) (content_start_ k) false) true) EmptyString (content_data_ k)) 0
      else if String.eqb (method_ q) "GET" then
        let '(q, h) := GetHandle callback_ q in
        let k := with_request k (Some q) in
        match h with
        | None => eret (g, k) (-1)
        | Some h =>
            do* (s, _) := call_handler (g, k) h q new_HttpResponse in
            eret (s.1, with_continue s.2 (match response_ptr_ s.2 with Some r => resp_continue_flag_ r | None => false end)) 0
        end
      else if content_length_ q <=? Z.of_nat (String.length (content_data_ k)) then
        let '(q, h) := GetHandle callback_ q in
        let k := with_request k (Some q) in
        match h with
        | None => eret (g, k) (-1)
        | Some h =>
            let q := with_body q (content_data_ k) in
            do* (s, _) := call_handler (g, with_request k (Some q)) h q response in eret s 0
        end
      else eret (g, k) 0
  end.

Definition OnRead (s : G * t) (ret_code : Z) (data : string) : eff (G * t) (call E) unit :=
  if negb (ret_code =? 0) then Close s else
  do* (s, ret) := HandleRequest s data in
  if ret <? 0 then Close s else
  if continue_flag_ s.2 then emit s [AsyncRead] else eret s tt.

(** The connection has sent some bytes.  After a failure the session is used although the
    server has let go of it. *)
Definition OnWrite (s : G * t) (ret_code sent_size : Z) : eff (G * t) (call E) unit :=
  if negb (ret_code =? 0) then do* (s, _) := Close s in pure s (Undef UseAfterFree) else
  match response_ptr_ s.2 with
  | None => eret s tt
  | Some r =>
      let r := with_written r (written_header_ r) (resp_continue_flag_ r) (remain_bytes_ r - sent_size) in
      let k := with_continue (with_response s.2 (Some r)) (resp_continue_flag_ r) in
      if negb (resp_continue_flag_ r) && (remain_bytes_ r <=? 0) then Close (s.1, k) else eret (s.1, k) tt
  end.
End Session.

(** * However the connection cuts a request *)

Section Reading.
Context {G E H : Type}.
Variable run : H -> HttpRequest -> G * HttpResponse -> eff (G * HttpResponse) (call E) unit.
Variable callback_ : server H.

(** The reads of a connection, one after the other. *)
Definition feed (s : G * t) (chunks : list string) : eff (G * t) (call E) unit :=
  efor chunks s (fun s data => OnRead run callback_ s 0 data).
Fixpoint concat_text (l : list string) : string := match l with [] => EmptyString | s :: l => s +:+ concat_text l end.

Definition EMPTY_LINE : string := CRLF +:+ CRLF.

Context (head body : string) (q : HttpRequest) (h : H).
Hypothesis head_free : Text.free EMPTY_LINE head.
Hypothesis head_parsed : analyze head new_HttpRequest = (q, Ok true).
Hypothesis not_options : method_ q <> "OPTIONS".
Hypothesis not_get : method_ q <> "GET".
Hypothesis announced : content_length_ q = Z.of_nat (String.length body).
Hypothesis found : (GetHandle callback_ q).2 = Some h.

Definition text : string := head +:+ EMPTY_LINE +:+ body.
Definition start : nat := String.length head + 4.

Lemma text_start : start = String.length (head +:+ EMPTY_LINE).
Proof. unfold start. by rewrite Text.length_append. Qed.

(** After some bytes, fewer than all. *)
Definition waiting (p : string) (k : t) : Prop :=
  if (String.length p <? start)%nat then exists n f, k = mk p EmptyString (Some new_HttpRequest) None n false false f
  else exists hd f, k = mk hd (Text.drop start p) (Some q) None start true false f.

Lemma no_line p r : p +:+ r = text -> (String.length p < start)%nat -> Text.find p EMPTY_LINE = None.
Proof.
  intros Hp Hl. destruct (Text.find p EMPTY_LINE) as [pos|] eqn:Ef; [|done].
  pose proof (Text.find_lt _ _ _ Ef) as Hlt. apply (Text.find_prefix _ _ _ r) in Ef; [|done]. rewrite Hp in Ef. unfold text in Ef.
  rewrite (Text.find_append head EMPTY_LINE body) in Ef by done. injection Ef as <-. unfold start in Hl. change (String.length EMPTY_LINE) with 4%nat in Hlt. lia.
Qed.
Lemma drop_within n s1 s2 : (n <= String.length s1)%nat -> Text.drop n (s1 +:+ s2) = Text.drop n s1 +:+ s2.
Proof.
  revert s1. induction n as [|n IH]; intros [|c s1] Hn; Text.app_cbn; try done; [cbn in Hn; lia|]. apply IH. cbn in Hn. lia.
Qed.
Lemma append_split s1 s2 s3 s4 : s1 +:+ s2 = s3 +:+ s4 -> (String.length s3 <= String.length s1)%nat ->
  exists b, s1 = s3 +:+ b /\ s4 = b +:+ s2.
Proof.
  revert s1. induction s3 as [|c s3 IH]; intros s1 Heq Hl; [by exists s1|].
  destruct s1 as [|c1 s1]; [cbn in Hl; lia|]. rewrite !Text.append_cons in Heq. injection Heq as -> Heq. cbn in Hl.
  destruct (IH s1 Heq ltac:(lia)) as (b & -> & ->). by exists b.
Qed.
Lemma the_line p r : p +:+ r = text -> (start <= String.length p)%nat ->
  exists b, p = head +:+ EMPTY_LINE +:+ b /\ body = b +:+ r /\ Text.drop start p = b /\ Text.find p EMPTY_LINE = Some (String.length head).
Proof.
  intros Hp Hl. unfold text in Hp. rewrite <- Text.append_assoc in Hp.
  destruct (append_split _ _ _ _ Hp) as (b & -> & ->); [by rewrite <- text_start|]. exists b. split_and!; try done.
  - by rewrite Text.append_assoc.
  - by rewrite text_start, Text.drop_append.
  - rewrite Text.append_assoc. by apply Text.find_append.
Qed.

Lemma receive_more p k d r : waiting p k -> p +:+ d +:+ r = text ->
  exists k', receive (with_continue k true) d = (k', Ok (if (String.length (p +:+ d) <? start)%nat then None else Some true)) /\
    continue_flag_ k' = true /\ waiting (p +:+ d) k'.
Proof.
  intros Hk Ht. unfold waiting in Hk. rewrite <- Text.append_assoc in Ht.
  destruct (Nat.ltb_spec (String.length p) start) as [Hlt|Hge].
  - destruct Hk as (n & f & ->). unfold receive. cbn [header_is_ready_ with_continue with_data request_ header_data_ content_data_].
    unfold AnalyzeHeader. cbn [header_data_ with_data with_continue]. fold EMPTY_LINE.
    destruct (Nat.ltb_spec (String.length (p +:+ d)) start) as [Hlt'|Hge'].
    + rewrite (no_line _ _ Ht Hlt'). cbn. eexists. split; [done|]. split; [done|]. unfold waiting.
      rewrite (proj2 (Nat.ltb_lt _ _)) by done. by eexists _, _.
    + destruct (the_line _ _ Ht Hge') as (b & Hb & _ & Hd & Hf). rewrite Hf.
      assert (HT : Text.take (String.length head) (p +:+ d) = head) by (rewrite Hb; apply Text.take_append).
      rewrite HT, head_parsed.
      cbn. eexists. split; [done|]. split; [done|]. unfold waiting. rewrite (proj2 (Nat.ltb_ge _ _)) by done.
      eexists _, _. unfold start. done.
  - destruct Hk as (hd & f & ->). assert (Hd : (String.length (p +:+ d) <? start)%nat = false).
    { apply Nat.ltb_ge. rewrite Text.length_append. lia. }
    unfold waiting. rewrite Hd. eexists. split; [reflexivity|]. split; [done|].
    eexists _, _. cbn. f_equal. rewrite drop_within by done. done.
Qed.

Lemma waiting_ready p k : waiting p k -> (start <= String.length p)%nat ->
  exists hd f, k = mk hd (Text.drop start p) (Some q) None start true false f.
Proof. unfold waiting. intros Hk Hl. by rewrite (proj2 (Nat.ltb_ge _ _) Hl) in Hk. Qed.

Lemma OnRead_more g p k d r : waiting p k -> p +:+ d +:+ r = text -> r <> EmptyString ->
  exists k', OnRead run callback_ (g, k) 0 d = ((g, k'), [AsyncRead], Ok tt) /\ waiting (p +:+ d) k'.
Proof.
  intros Hk Ht Hr. destruct (receive_more p k d r Hk Ht) as (k' & E1 & Ec & Hw). exists k'. split; [|done].
  unfold OnRead. cbn [negb Z.eqb]. unfold HandleRequest. rewrite E1, ebind_ok.
  destruct (Nat.ltb_spec (String.length (p +:+ d)) start) as [Hlt|Hge]; [cbn; by rewrite Ec|].
  destruct (waiting_ready _ _ Hw Hge) as (hd & f & E2). rewrite <- Text.append_assoc in Ht.
  destruct (the_line _ _ Ht Hge) as (b & _ & Hb & Hd & _). rewrite Hd in E2. subst k'. cbn [request_].
  rewrite (proj2 (String.eqb_neq _ _) not_options), (proj2 (String.eqb_neq _ _) not_get). cbn [content_data_].
  rewrite announced, Hb, Text.length_append. rewrite (proj2 (Z.leb_gt _ _)) by (destruct r; [done|cbn [String.length]; lia]).
  cbn in *. by rewrite Ec.
Qed.

Definition request_seen : HttpRequest := with_body (GetHandle callback_ q).1 body.
Definition all_read (hd : string) : t := mk hd body (Some request_seen) None start true false true.
Lemma OnRead_last g p k d : waiting p k -> p +:+ d = text ->
  exists hd, OnRead run callback_ (g, k) 0 d =
    do* (s, _) := call_handler run (g, all_read hd) h request_seen new_HttpResponse in emit s [AsyncRead].
Proof.
  intros Hk Ht. assert (Ht' : p +:+ d +:+ EmptyString = text) by (by rewrite Text.append_nil_r).
  destruct (receive_more p k d EmptyString Hk Ht') as (k' & E1 & Ec & Hw).
  assert (Hge : (start <= String.length (p +:+ d))%nat).
  { rewrite Ht. unfold text. rewrite <- Text.append_assoc, Text.length_append, <- text_start. lia. }
  rewrite (proj2 (Nat.ltb_ge _ _) Hge) in E1. destruct (waiting_ready _ _ Hw Hge) as (hd & f & E2). exists hd.
  rewrite <- Text.append_assoc in Ht'. destruct (the_line _ _ Ht' Hge) as (b & _ & Hb & Hd & _). rewrite Text.append_nil_r in Hb. subst b.
  rewrite Hd in E2. subst k'. cbn in Ec. subst f.
  unfold OnRead. cbn [negb Z.eqb]. unfold HandleRequest. rewrite E1, ebind_ok. cbn [request_].
  rewrite (proj2 (String.eqb_neq _ _) not_options), (proj2 (String.eqb_neq _ _) not_get). cbn [content_data_ response_ptr_ default].
  rewrite announced, (proj2 (Z.leb_le _ _)) by lia. unfold all_read, request_seen.
  destruct (GetHandle callback_ q) as [q' h'] eqn:Eh. cbn [snd] in found. subst h'. cbn [fst].
  unfold with_request. cbn. rewrite ebind_assoc. unfold call_handler.
  destruct (ecatch _ _) as [[gr es] [[]|msg|u]]; cbn; by rewrite ?app_nil_r.
Qed.

(** The handler is called once, when the last byte has come. *)
Lemma feed_text g chunks : Forall (fun d => d <> EmptyString) chunks -> concat_text chunks = text ->
  exists hd, feed (g, new_HttpSession) chunks =
    do* (s, _) := emit (g, all_read hd) (replicate (List.length chunks - 1) AsyncRead) in
    do* (s, _) := call_handler run s h request_seen new_HttpResponse in emit s [AsyncRead].
Proof.
  intros Hne Ht. assert (Hw : waiting EmptyString new_HttpSession).
  { unfold waiting. rewrite (proj2 (Nat.ltb_lt _ _)) by (unfold start; cbn; lia). by exists 0%nat, false. }
  assert (Hn : chunks <> []) by (intros ->; apply (f_equal String.length) in Ht; unfold text in Ht; rewrite !Text.length_append in Ht; change (String.length EMPTY_LINE) with 4%nat in Ht; cbn in Ht; lia).
  change (concat_text chunks) with (EmptyString +:+ concat_text chunks) in Ht. revert Ht Hw Hn.
  generalize EmptyString as p, new_HttpSession as k. induction Hne as [|d chunks Hd Hne IH]; intros p k Ht Hw Hn; [done|].
  cbn [concat_text] in Ht. unfold feed. cbn [efor]. destruct chunks as [|d' chunks].
  - cbn [concat_text] in Ht. rewrite Text.append_nil_r in Ht. destruct (OnRead_last g p k d Hw Ht) as (hd & E1). exists hd.
    rewrite E1. cbn [efor List.length Nat.sub replicate emit ebind].
    destruct (call_handler _ _ _ _ _) as [[s es] [[]|msg|u]]; cbn; by rewrite ?app_nil_r.
  - destruct (OnRead_more g p k d (concat_text (d' :: chunks)) Hw Ht) as (k' & E1 & Hw').
    { pose proof (Forall_inv Hne) as Hd'. cbn. by destruct d'. }
    rewrite E1. rewrite <- Text.append_assoc in Ht. destruct (IH _ _ Ht Hw' ltac:(done)) as (hd & E2). exists hd.
    cbn [ebind].
    match goal with |- context [efor (d' :: chunks) ?s ?f] => change (efor (d' :: chunks) s f) with (feed s (d' :: chunks)) end.
    rewrite E2. cbn [List.length Nat.sub]. rewrite Nat.sub_0_r. cbn [replicate emit ebind].
    destruct (call_handler _ _ _ _ _) as [[s es] [[]|msg|u]]; cbn; done.
Qed.
End Reading.

(** * Parsing what a client writes *)

Lemma digit_code n : 0 <= n < 10 -> Text.code (ascii_of_N (Z.to_N (48 + n))) = 48 + n.
Proof.
  intros Hn. unfold Text.code. rewrite Ascii.N_ascii_embedding by lia. lia.
Qed.
Lemma digit_is_digit n : 0 <= n < 10 -> Text.is_digit (ascii_of_N (Z.to_N (48 + n))) = true.
Proof. intros Hn. unfold Text.is_digit. rewrite digit_code by done. apply andb_true_iff. lia. Qed.
Lemma digits_value_digit n s acc : 0 <= n < 10 -> Text.digits_value (Text.digit n +:+ s) acc = Text.digits_value s (acc * 10 + n).
Proof.
  intros Hn. unfold Text.digit. rewrite Text.append_cons, Text.append_nil_l. cbn [Text.digits_value].
  rewrite digit_is_digit, digit_code by done. f_equal. lia.
Qed.
Lemma digits_S f n : Text.digits (S f) n = if n <? 10 then Text.digit n else Text.digits f (n / 10) +:+ Text.digit (n mod 10).
Proof. done. Qed.
Lemma digits_read f n s acc : 0 <= n < 10 ^ Z.of_nat (S f) ->
  exists k, 0 <= k /\ Text.digits_value (Text.digits (S f) n +:+ s) acc = Text.digits_value s (acc * 10 ^ k + n).
Proof.
  revert n s. induction f as [|f IH]; intros n s Hn; rewrite digits_S; (destruct (Z.ltb_spec n 10) as [Hlt|Hge];
    [rewrite digits_value_digit by lia; exists 1; split; [lia|f_equal; lia]|]).
  - change (10 ^ Z.of_nat 1) with 10 in Hn. lia.
  - rewrite Text.append_assoc. replace (Z.of_nat (S (S f))) with (Z.of_nat (S f) + 1) in Hn by lia. rewrite Z.pow_add_r in Hn by lia.
    destruct (IH (n / 10) (Text.digit (n mod 10) +:+ s)) as (k & Hk & ->).
    { split; [apply Z.div_pos; lia|apply Z.div_lt_upper_bound; lia]. }
    rewrite digits_value_digit by (apply Z.mod_pos_bound; lia). exists (k + 1). split; [lia|]. f_equal.
    rewrite Z.pow_add_r by lia. pose proof (Z.div_mod n 10). lia.
Qed.
Lemma digits_head f n : 0 <= n -> exists c s, Text.digits (S f) n = String c s /\ Text.is_digit c = true.
Proof.
  revert n. induction f as [|f IH]; intros n Hn; rewrite digits_S; (destruct (Z.ltb_spec n 10) as [Hlt|Hge];
    [eexists _, _; split; [reflexivity|apply digit_is_digit; lia]|]).
  - eexists _, _. split; [reflexivity|]. apply digit_is_digit, Z.mod_pos_bound. lia.
  - destruct (IH (n / 10)) as (c & s & -> & Hc); [apply Z.div_pos; lia|]. by eexists _, _.
Qed.
(** [atoi] reads what [std::to_string] writes. *)
Lemma atoi_to_string n : 0 <= n <= 2147483647 -> atoi (Text.to_string n) = Ok n.
Proof.
  intros Hn. unfold atoi, Text.to_string. rewrite (proj2 (Z.ltb_ge n 0)) by lia.
  destruct (digits_head 19 n ltac:(lia)) as (c & s & E1 & Hc). destruct (digits_read 19 n EmptyString 0 ltac:(split; [lia|]; change (Z.of_nat 20) with 20; lia)) as (k & _ & E2).
  rewrite Text.append_nil_r in E2. rewrite E1 in *.
  assert (En : Text.number (String c s) = Some (false, n)).
  { cbn [Text.number]. unfold Text.is_digit in Hc. apply andb_true_iff in Hc as [H1 H2]. apply Z.leb_le in H1, H2.
    unfold Text.is_space. rewrite (proj2 (Z.eqb_neq (Text.code c) 32)) by lia. rewrite (proj2 (Z.leb_gt (Text.code c) 13)) by lia.
    rewrite andb_false_r. cbn [orb]. rewrite (proj2 (Z.eqb_neq (Text.code c) 45)), (proj2 (Z.eqb_neq (Text.code c) 43)) by lia.
    unfold Text.magnitude, Text.is_digit. rewrite (proj2 (Z.leb_le _ _) H1), (proj2 (Z.leb_le _ _) H2). cbn [andb option_map].
    rewrite E2. done. }
  rewrite En. cbv beta iota zeta. rewrite (proj2 (Z.leb_le (-2147483648) n)), (proj2 (Z.leb_le n 2147483647)) by lia. done.
Qed.

(** The text of a request, as a client writes it. *)
Definition item_text (e : string * string) : string := e.1 +:+ "=" +:+ e.2.
Definition target_text (path : string) (ps : list (string * string)) : string :=
  match ps with [] => path | _ => path +:+ "?" +:+ Text.between "&" (map item_text ps) end.
Definition line_text (method path : string) (ps : list (string * string)) (version : string) : string :=
  Text.between " " [method; target_text path ps; "HTTP/" +:+ version].
Definition field_text (e : string * string) : string := e.1 +:+ ": " +:+ e.2.
Definition head_lines (method path : string) (ps : list (string * string)) (version : string) (hs : list (string * string)) : string :=
  Text.between CRLF (line_text method path ps version :: map field_text hs).

(** The parts hold none of the separators that end them. *)
Record plain (method path : string) (ps : list (string * string)) (version : string) (hs : list (string * string)) : Prop := {
  pl_method : Text.free " " method /\ method <> EmptyString;
  pl_target : Text.free " " (target_text path ps) /\ target_text path ps <> EmptyString;
  pl_path : Text.free "?" path;
  pl_params : Forall (fun e : string * string => Text.free "=" e.1 /\ e.1 <> EmptyString /\ Text.free "=" e.2 /\ e.2 <> EmptyString /\
                        Text.free "&" (item_text e)) ps;
  pl_version : Text.free " " ("HTTP/" +:+ version);
  pl_fields : Forall (fun e : string * string => Text.free ":" e.1) hs;
  pl_lines : Forall (Text.free CRLF) (line_text method path ps version :: map field_text hs)
}.

Lemma append_ne_l s1 s2 : s1 <> EmptyString -> s1 +:+ s2 <> EmptyString.
Proof. by destruct s1. Qed.
Lemma append_ne_r s1 s2 : s2 <> EmptyString -> s1 +:+ s2 <> EmptyString.
Proof. by destruct s1, s2. Qed.

Lemma read_params_items ps m :
  Forall (fun e : string * string => Text.free "=" e.1 /\ e.1 <> EmptyString /\ Text.free "=" e.2 /\ e.2 <> EmptyString /\ Text.free "&" (item_text e)) ps ->
  read_params (map item_text ps) m = Ok (true, foldl (fun m e => StrMap.set e.1 e.2 m) m ps).
Proof.
  intros HF. revert m. induction HF as [|[a b] ps (Ha & Hna & Hb & Hnb & _) _ IH]; intros m; [done|]. cbn [map read_params].
  change (item_text (a, b)) with (Text.between "=" [a; b]). rewrite Text.StringSplit_between; [|done|by repeat constructor]. cbn [rbind]. apply IH.
Qed.
Lemma GetUriAndParams_text path ps m :
  Text.free "?" path ->
  Forall (fun e : string * string => Text.free "=" e.1 /\ e.1 <> EmptyString /\ Text.free "=" e.2 /\ e.2 <> EmptyString /\ Text.free "&" (item_text e)) ps ->
  GetUriAndParams (target_text path ps) m = Ok (true, path, foldl (fun m e => StrMap.set e.1 e.2 m) m ps).
Proof.
  intros Hp HF. unfold GetUriAndParams, target_text. destruct ps as [|e ps]; [by rewrite Text.free_find|].
  rewrite (Text.find_append path "?") by done.
  assert (Hd : Text.drop (String.length path + 1) (path +:+ "?" +:+ Text.between "&" (map item_text (e :: ps))) = Text.between "&" (map item_text (e :: ps))).
  { rewrite <- Text.append_assoc. rewrite Text.drop_app by (rewrite Text.length_append; cbn; lia). rewrite Text.length_append. cbn [String.length].
    by rewrite Nat.sub_diag. }
  rewrite Hd, Text.StringSplit_between; [|done|].
  - cbn [rbind]. rewrite read_params_items by done. cbn [rbind fst snd]. by rewrite Text.take_append.
  - apply Forall_map. eapply Forall_impl; [exact HF|]. intros [a b] (_ & Hna & _ & _ & H). split; [done|]. by apply append_ne_l.
Qed.

(** The number that the last [Content-Length] gives. *)
Fixpoint length_of (hs : list (string * string)) (len : Z) : res Z :=
  match hs with
  | [] => Ok len
  | (key, value) :: hs => if String.eqb key "Content-Length" then let! len := atoi value in length_of hs len else length_of hs len
  end.
Lemma read_headers_fields hs q len l :
  Forall (fun e : string * string => Text.free ":" e.1) hs -> length_of hs (content_length_ q) = Ok len ->
  read_headers (map field_text hs ++ l) q = read_headers l (with_header q len (foldl (fun m e => StrMap.emplace e.1 e.2 m) (headers_ q) hs)).
Proof.
  intros HF. revert q. induction HF as [|[key value] hs Hk _ IH]; intros q Hl; cbn [length_of map app read_headers foldl fst snd] in *.
  { injection Hl as <-. by destruct q. }
  change (field_text (key, value)) with (key +:+ ": " +:+ value).
  assert (Hf : Text.find (key +:+ ": " +:+ value) ":" = Some (String.length key)) by exact (Text.find_append key ":" (" " +:+ value) ltac:(done) Hk).
  rewrite Hf, Text.take_append.
  assert (Hs : Text.substr (key +:+ ": " +:+ value) (String.length key + 2) = Ok value).
  { unfold Text.substr. rewrite !Text.length_append. rewrite (proj2 (Nat.ltb_ge _ _)) by (cbn; lia). f_equal.
    rewrite <- Text.append_assoc, Text.drop_app by (rewrite Text.length_append; cbn; lia). rewrite Text.length_append. cbn [String.length]. by rewrite Nat.sub_diag. }
  rewrite Hs. revert Hl. destruct (String.eqb key "Content-Length"); intros Hl.
  - destruct (atoi value) as [n|msg|u]; cbn [rbind] in Hl; [|done..]. by rewrite IH.
  - by rewrite IH.
Qed.

Lemma analyze_lines method path ps version hs l len :
  plain method path ps version hs -> Forall (fun p => Text.free CRLF p /\ p <> EmptyString) l -> length_of hs 0 = Ok len ->
  analyze (Text.between CRLF (line_text method path ps version :: map field_text hs ++ l)) new_HttpRequest =
    read_headers l (mk_request method path (foldl (fun m e => StrMap.set e.1 e.2 m) [] ps) version None len
       (foldl (fun m e => StrMap.emplace e.1 e.2 m) [] hs)).
Proof.
  intros [[Hm Hmn] [Ht Htn] Hp Hps Hv Hf Hl] HL Hlen. unfold analyze.
  rewrite Text.StringSplit_between; [|done|].
  2:{ apply Forall_cons in Hl as [Hl1 Hl2]. constructor; [split; [done|by apply append_ne_l]|]. apply Forall_app. split; [|done].
      apply Forall_map. rewrite Forall_map in Hl2. eapply Forall_impl; [exact Hl2|]. intros [key value] H. split; [done|]. by apply append_ne_r. }
  unfold line_text. rewrite Text.StringSplit_between; [|done|by repeat constructor].
  cbn [params with_line new_HttpRequest]. rewrite GetUriAndParams_text by done. cbn [negb].
  change (Text.find ("HTTP/" +:+ version) "HTTP") with (Some 0%nat).
  assert (Hs : Text.substr ("HTTP/" +:+ version) (0 + 5) = Ok version).
  { unfold Text.substr. rewrite Text.length_append. rewrite (proj2 (Nat.ltb_ge _ _)) by (cbn; lia). done. }
  cbn [Nat.add] in Hs |- *. rewrite Hs. by erewrite read_headers_fields; [|done|exact Hlen].
Qed.

Section Requests.
Context {G E H : Type}.
Variable run : H -> HttpRequest -> G * HttpResponse -> eff (G * HttpResponse) (call E) unit.
Variable callback_ : server H.

Lemma request_delivered_ok (g : G) (method path version body : string) (ps hs : list (string * string)) (h : H) (chunks : list string) :
  let q := mk_request method path (foldl (fun m e => StrMap.set e.1 e.2 m) [] ps) version None (Z.of_nat (String.length body))
             (foldl (fun m e => StrMap.emplace e.1 e.2 m) [] hs) in
  plain method path ps version hs -> length_of hs 0 = Ok (content_length_ q) ->
  Text.free EMPTY_LINE (head_lines method path ps version hs) ->
  method <> "GET" -> method <> "OPTIONS" -> (GetHandle callback_ q).2 = Some h ->
  Forall (fun d => d <> EmptyString) chunks ->
  concat_text chunks = head_lines method path ps version hs +:+ EMPTY_LINE +:+ body ->
  exists k, response_ptr_ k = None /\
    feed run callback_ (g, new_HttpSession) chunks =
      do* (s, _) := emit (g, k) (replicate (List.length chunks - 1) AsyncRead) in
      do* (s, _) := call_handler run s h (with_body (with_uri q (GetUri path)) body) new_HttpResponse in
      emit s [AsyncRead].
Proof.
  intros q Hp Hlen Hfree Hg Ho Hh Hne Ht.
  assert (Ha : analyze (head_lines method path ps version hs) new_HttpRequest = (q, Ok true)).
  { unfold head_lines. rewrite <- (app_nil_r (map field_text hs)). by rewrite (analyze_lines _ _ _ _ _ [] _ Hp (Forall_nil_2 _) Hlen). }
  destruct (feed_text run callback_ _ body q h Hfree Ha Ho Hg eq_refl Hh g chunks Hne Ht) as (hd & E1).
  exists (all_read callback_ (head_lines method path ps version hs) body q hd). split; [done|]. exact E1.
Qed.


Lemma receive_throws text pos q msg :
  Text.find text EMPTY_LINE = Some pos -> analyze (Text.take pos text) new_HttpRequest = (q, Throw msg) ->
  (receive (with_continue new_HttpSession true) text).2 = Throw msg.
Proof.
  intros Hf Ha. unfold receive, AnalyzeHeader. cbn. fold EMPTY_LINE. rewrite Text.append_nil_l, Hf, Ha. done.
Qed.
Lemma OnRead_throws g k d msg : (receive (with_continue k true) d).2 = Throw msg -> outcome (OnRead run callback_ (g, k) 0 d) = Throw msg.
Proof.
  intros Hr. unfold OnRead, HandleRequest. cbn [negb Z.eqb]. destruct (receive _ _) as [k' r]. cbn in Hr. by subst r.
Qed.

(** C20: a header field without a value ends the server.  A request in which, after any
    well-formed fields, a line ends with its colon, makes the reader ask for the text behind
    the end of the line: the exception is not caught on the way back to the event loop. *)
Theorem bare_field_throws (g : G) (method path version body key : string) (ps hs : list (string * string)) (rest : list string) (len : Z) :
  let lines := line_text method path ps version :: map field_text hs ++ (key +:+ ":") :: rest in
  plain method path ps version hs -> length_of hs 0 = Ok len ->
  Text.free ":" key -> Forall (fun p => Text.free CRLF p /\ p <> EmptyString) ((key +:+ ":") :: rest) ->
  Text.free EMPTY_LINE (Text.between CRLF lines) ->
  outcome (OnRead run callback_ (g, new_HttpSession) 0 (Text.between CRLF lines +:+ EMPTY_LINE +:+ body)) = Throw "out_of_range".
Proof.
  intros lines Hp Hlen Hk Hl Hf. eapply OnRead_throws. eapply receive_throws; [apply (Text.find_append _ EMPTY_LINE body); done|].
  rewrite Text.take_append. unfold lines. rewrite (analyze_lines _ _ _ _ _ _ _ Hp Hl Hlen). cbn [read_headers].
  assert (Hc : Text.find (key +:+ ":") ":" = Some (String.length key)) by done. rewrite Hc.
  unfold Text.substr. rewrite Text.length_append. cbn [String.length]. by rewrite (proj2 (Nat.ltb_lt _ _)) by lia.
Qed.
End Requests.

(** * Examples *)

Definition sample_run (h : nat) (q : HttpRequest) (s : nat * HttpResponse) : eff (nat * HttpResponse) (call unit) unit :=
  let '(r, out, _) := Write s.2 "ok" false in emit (S s.1, r) (map AsyncWrite out).
Definition sample_server : server nat := AddPostHandle "/whip" 7%nat (AddGetHandle "/get" 1%nat new_HttpServer).
Definition sample_params : list (string * string) := [("roomid", "r"); ("userid", "u")].
Definition sample_fields : list (string * string) := [("Host", "h"); ("Content-Length", "3")].
Definition sample_reads : list string :=
  ["POST /whip?roomid=r&user"; "id=u HTTP/1.1" +:+ CRLF +:+ "Host: h" +:+ CRLF; "Content-Length: 3" +:+ EMPTY_LINE +:+ "v="; "0"].

Lemma sample_plain : plain "POST" "/whip" sample_params "1.1" sample_fields.
Proof. by split; repeat constructor. Qed.


Lemma bare_field_throws_witness :
  outcome (OnRead sample_run sample_server (0%nat, new_HttpSession) 0 
    (Text.between CRLF ["POST /whip?roomid=r&userid=u HTTP/1.1"; "Host: h"; "Content-Length: 3"; "Accept:"] +:+ EMPTY_LINE +:+ "v=0")) = Throw "out_of_range".
Proof.
  apply (bare_field_throws sample_run sample_server 0%nat "POST" "/whip" "1.1" "v=0" "Accept" sample_params sample_fields [] 3);
    [exact sample_plain|reflexivity|reflexivity|by repeat constructor|reflexivity].
Defined.

End Http.
