(* ===== verification/Whip.v ===== *)
(** [webrtc_room/whip.cpp]: the handlers of the HTTP server in front of the rooms.  A POST to
    /whip lets a user join and publish, a DELETE removes its room. *)
From stdpp Require Import gmap sets.
From S2P Require Import Prelude Effect ByteCrypto IpAddress IceServer StdMap StrMap Text StunMessage RtcInfo Sdp SrtpSession WebRtcSession WebRtcServer Room Sfu RoomMgr Http.

Import RtcInfo.

Module Whip.

Inductive handler := GetHandle | EchoHandle | WhipHandle | WhipDeleteHandle.

(** The constructors of [Whip]: the plain one registers /get for POST. *)
Definition http_handlers : Http.server handler :=
  Http.AddDeleteHandle "/whip" WhipDeleteHandle (Http.AddPostHandle "/get" GetHandle (Http.AddPostHandle "/echo" EchoHandle
    (Http.AddPostHandle "/whip" WhipHandle Http.new_HttpServer))).
Definition https_handlers : Http.server handler :=
  Http.AddDeleteHandle "/whip" WhipDeleteHandle (Http.AddGetHandle "/get" GetHandle (Http.AddPostHandle "/echo" EchoHandle
    (Http.AddPostHandle "/whip" WhipHandle Http.new_HttpServer))).

Section Whip.
Context {Ls : LibSrtp} {Ev : EvpMac} {In : Inet}.
(** [json::dump], and which of the two servers it is. *)
Variable dump : Json.t -> string.
Variable ssl_enable_ : bool.

Definition state : Type := RoomMgr.t * Http.HttpResponse.
Definition call : Type := Http.call RoomMgr.call.

(** Status, content type, headers that are already there, and the text. *)
Definition reply (s : state) (code : Z) (status content_type body : string) : eff state call unit :=
  let r := Http.AddHeader (Http.SetStatus (Http.SetStatusCode s.2 code) status) "Content-Type" content_type in
  let '(r, out, _) := Http.Write r body false in
  emit (s.1, r) (map Http.AsyncWrite out).
Definition json_reply (s : state) (http_code : Z) (status message : string) (code : Z) : eff state call unit :=
  reply s http_code status "application/json" (dump (Room.obj [("message", Json.Str message); ("code", Json.Int code)])).

(** [std::string(content_body_, content_length_)]. *)
Definition body_str (q : Http.HttpRequest) : res string :=
  let len := Http.content_length_ q in
  match Http.content_body_ q with
  | None => if len =? 0 then Ok EmptyString else Undef NullDeref
  | Some b =>
      if len <? 0 then Throw "length_error"
      else if len <=? Z.of_nat (String.length b) then Ok (Text.take (Z.to_nat len) b) else Undef OobRead
  end.

(** A call on the rooms. *)
Definition on_rooms {A} (s : state) (m : eff RoomMgr.t RoomMgr.call A) : eff state call A :=
  rename_calls Http.Own (zoom (fun k => (k, s.2)) m).

Definition get_handle (s : state) : eff state call unit :=
  reply s 200 "OK" "application/json" (dump (Room.obj [("message", Json.Str "get request received")])).
Definition echo_handle (q : Http.HttpRequest) (s : state) : eff state call unit :=
  do* (s, body) := pure s (body_str q) in reply s 200 "OK" "application/json" body.

(** The two parameters, or the answer without them. *)
Definition with_ids (q : Http.HttpRequest) (s : state) (f : string -> string -> eff state call unit) : eff state call unit :=
  match StrMap.find "roomid" (Http.params q) with
  | None => json_reply s 400 "Bad Request" "missing roomid param" 400
  | Some room_id =>
      match StrMap.find "userid" (Http.params q) with
      | None => json_reply s 400 "Bad Request" "missing userid param" 400
      | Some user_id => f room_id user_id
      end
  end.

(** [WebRtcServer::RemoveSessionByRoomId]: the sessions that end call their room. *)
Definition remove_sessions (e : Sfu.env) (room_id : string) (k : RoomMgr.t) : eff RoomMgr.t RoomMgr.call unit :=
  RoomMgr.in_room room_id k (fun s => Sfu.in_server e s (WebRtcServer.RemoveSessionByRoomId room_id)).
Definition whip_delete (e : Sfu.env) (q : Http.HttpRequest) (s : state) : eff state call unit :=
  with_ids q s (fun room_id user_id =>
    match RoomMgr.GetRoom room_id s.1 with
    | None => json_reply s 404 "Not Found" "room not found" 404
    | Some _ =>
        do* (s, ok) := ecatch (do* (s, _) := on_rooms s (remove_sessions e room_id s.1) in
                               eret (RoomMgr.RemoveRoom room_id s.1, s.2) true) (fun s => eret s false) in
        if ok : bool then json_reply s 200 "OK" "whip delete request received" 0
        else json_reply s 500 "Internal Server Error" "remove room failed" 500
    end).

Definition location_str (q : Http.HttpRequest) (room_id user_id : string) : string :=
  let host_str := default "localhost" (StrMap.find "Host" (Http.headers_ q)) in
  (if ssl_enable_ then "https://" else "http://") +:+ host_str +:+ "/whip?roomid=" +:+ room_id +:+ "&userid=" +:+ user_id.

Definition whip_handle (e : Sfu.env) (draw : Sfu.request) (q : Http.HttpRequest) (s : state) : eff state call unit :=
  do* (s, body) := pure s (body_str q) in
  with_ids q s (fun room_id user_id =>
    let now := Room.now (Sfu.of_room e) in
    let k := RoomMgr.GetOrCreateRoom now room_id s.1 in
    do* (s, ret) := on_rooms s (RoomMgr.on_room e room_id k (Room.WhipUserJoin now user_id user_id)) in
    if negb (ret =? 0) then json_reply s 500 "Internal Server Error" "whip user join failed" 500 else
    do* (s, r) := on_rooms s (RoomMgr.in_room room_id s.1 (Sfu.HandleWhipPushSdp e draw user_id "offer" body)) in
    let '(ret, answer_sdp_str) := r in
    if negb (ret =? 0) then json_reply s 500 "Internal Server Error" "whip push sdp failed" 500 else
    let s := (s.1, Http.AddHeader s.2 "Location" (location_str q room_id user_id)) in
    reply s 201 "Created" "application/sdp" answer_sdp_str).

Definition run (e : Sfu.env) (draw : Sfu.request) (h : handler) (q : Http.HttpRequest) (s : state) : eff state call unit :=
  match h with
  | GetHandle => get_handle s
  | EchoHandle => echo_handle q s
  | WhipHandle => whip_handle e draw q s
  | WhipDeleteHandle => whip_delete e q s
  end.

End Whip.

(** * What the handlers do *)

Section Handlers.
Context {Ls : LibSrtp} {LsL : LibSrtpLaws} {Ev : EvpMac} {In : Inet}.
Variable dump : Json.t -> string.
Variable ssl_enable_ : bool.

(** The answer on a connection that nothing has been written to. *)
Definition fresh (r : Http.HttpResponse) : Prop := Http.is_close_ r = false /\ Http.written_header_ r = false.
Definition replied (r : Http.HttpResponse) (code : Z) (status content_type body : string) : list string :=
  let r := Http.AddHeader (Http.SetStatus (Http.SetStatusCode r code) status) "Content-Type" content_type in
  Http.head_text r (String.length body) false :: (if (0 <? String.length body)%nat then [body] else []).

Lemma reply_ok s code status ct body : fresh s.2 ->
  exists r', reply s code status ct body = ((s.1, r'), map Http.AsyncWrite (replied s.2 code status ct body), Ok tt).
Proof.
  intros [Hc Hw]. unfold reply, Http.Write. cbn [Http.is_close_ Http.with_written Http.AddHeader Http.SetStatus Http.SetStatusCode Http.written_header_].
  rewrite Hc, Hw. eexists. unfold replied. cbn. by destruct (0 <? String.length body)%nat.
Qed.

Lemma closes_stay e cs k : Forall WebRtcServer.only_closes cs ->
  exists k' cs', efor cs k (Sfu.from_server e) = (k', map Sfu.OfServer cs', Ok tt) /\ Sfu.server k' = Sfu.server k /\
    Room.users_ (Sfu.room k') = Room.users_ (Sfu.room k).
Proof.
  intros H. revert k. induction H as [|c cs (i & c' & -> & Hc) _ IH]; intros k; [by exists k, []|]. cbn [efor].
  assert (Hx : exists k1 cs1, Sfu.from_server e k (WebRtcServer.FromSession i c') = (k1, map Sfu.OfServer cs1, Ok tt) /\
    Sfu.server k1 = Sfu.server k /\ Room.users_ (Sfu.room k1) = Room.users_ (Sfu.room k)).
  { cbn [Sfu.from_server]. destruct (Sfu.of_this_room k i); [|by exists k, [WebRtcServer.FromSession i c']].
    destruct c'; try done; cbn; by eexists _, []. }
  destruct Hx as (k1 & cs1 & -> & Hs & Hu). cbn [ebind]. destruct (IH k1) as (k2 & cs2 & -> & Hs2 & Hu2).
  exists k2, (cs1 ++ cs2). split; [by rewrite map_app|]. split; congruence.
Qed.

(** C19: what a DELETE does: whatever user it names, the whole room goes, with the sessions
    of everybody in it that have an address; the other rooms stay as they are.  The answer is
    200, and nobody in the room is told anything. *)
Theorem delete_removes_room (e : Sfu.env) (draw : Sfu.request) (q : Http.HttpRequest) (k : RoomMgr.t) (resp : Http.HttpResponse)
    (room_id user_id : string) (r : Room.t) :
  StrMap.find "roomid" (Http.params q) = Some room_id -> StrMap.find "userid" (Http.params q) = Some user_id ->
  RoomMgr.GetRoom room_id k = Some r -> StrMap.sorted (RoomMgr.rooms_ k) -> WebRtcServer.wf (RoomMgr.server k) -> fresh resp ->
  exists k' resp' cs,
    run dump ssl_enable_ e draw WhipDeleteHandle q (k, resp) =
      ((k', resp'), map (fun c => Http.Own (RoomMgr.FromRoom room_id (Sfu.OfServer c))) cs ++
                    map Http.AsyncWrite (replied resp 200 "OK" "application/json"
                      (dump (Room.obj [("message", Json.Str "whip delete request received"); ("code", Json.Int 0)]))), Ok tt) /\
    RoomMgr.GetRoom room_id k' = None /\ (forall id, id <> room_id -> RoomMgr.GetRoom id k' = RoomMgr.GetRoom id k) /\
    forall a i s, WebRtcServer.addr2sessions_ (RoomMgr.server k) !! a = Some i -> WebRtcServer.sessions (RoomMgr.server k) !! i = Some s ->
      WebRtcSession.room_id_ s = room_id -> WebRtcServer.addr2sessions_ (RoomMgr.server k') !! a = None.
Proof.
  intros Hr Hu Hg Hs Hw Hf. cbn [run]. unfold whip_delete, with_ids. rewrite Hr, Hu. cbn [fst]. rewrite Hg.
  unfold remove_sessions, RoomMgr.in_room. rewrite Hg. unfold Sfu.in_server, Sfu.on_server, WebRtcServer.RemoveSessionByRoomId. cbn [Sfu.server].
  destruct (WebRtcServer.removal_ok (RoomMgr.server k) (fun s => bool_decide (WebRtcSession.room_id_ s = room_id)) Hw)
    as (sv & es & -> & _ & _ & Hc & _ & Ha).
  cbn [zoom handled Sfu.room]. destruct (closes_stay e es (Sfu.mk r sv) Hc) as (k1 & cs & -> & Hsv & _). cbn [Sfu.server] in Hsv.
  unfold on_rooms. cbn [zoom rename_calls ecatch ebind eret fst snd]. rewrite app_nil_r.
  unfold json_reply. edestruct (reply_ok (RoomMgr.RemoveRoom room_id (RoomMgr.with_rooms k (StrMap.set room_id (Sfu.room k1) (RoomMgr.rooms_ k)) (Sfu.server k1)), resp)
    200 "OK" "application/json") as (resp' & E); [exact Hf|]. rewrite E. eexists _, resp', cs.
  split; [by rewrite !map_map|]. unfold RoomMgr.GetRoom. cbn [fst RoomMgr.rooms_ RoomMgr.server RoomMgr.RemoveRoom RoomMgr.with_rooms].
  assert (Hs' : StrMap.sorted (StrMap.set room_id (Sfu.room k1) (RoomMgr.rooms_ k))) by by apply StrMap.ordered_set.
  split; [rewrite StrMap.find_in_erase by done; by rewrite String.eqb_refl|]. split.
  - intros id Hid. rewrite StrMap.find_in_erase_ne by done. by apply StrMap.find_in_set_ne.
  - intros a i s Hai Hsi Hroom. rewrite Hsv. destruct (WebRtcServer.addr2sessions_ sv !! a) as [j|] eqn:Ej; [|done].
    apply Ha in Ej as [Hj Hn]. assert (i = j) as <- by congruence. specialize (Hn s Hsi). by apply bool_decide_eq_false in Hn.
Qed.

(** The user a WHIP client is in the room. *)
Definition whip_user (now : Z) (user_id : string) (r : Room.t) : RtcUser.t :=
  RtcUser.SetWhip (default (RtcUser.new_RtcUser user_id user_id false None now) (StrMap.find user_id (Room.users_ r))) true.
Definition entered (now : Z) (user_id : string) (r : Room.t) : Room.t :=
  Room.set_user (Room.with_alive r now) user_id (whip_user now user_id r).

Lemma WhipUserJoin_ok now user_id r : Room.closed_ r = false ->
  exists cs, Room.WhipUserJoin now user_id user_id r = (entered now user_id r, cs, Ok 0) /\ Forall Sfu.leaves_room cs.
Proof.
  intros Hc. unfold Room.WhipUserJoin. rewrite Hc. cbv zeta.
  assert (Hu : match StrMap.find user_id (Room.users_ (Room.with_alive r now)) with
               | Some u => RtcUser.SetWhip u true
               | None => RtcUser.SetWhip (RtcUser.new_RtcUser user_id user_id false None now) true end = whip_user now user_id r).
  { unfold whip_user. cbn [Room.with_alive Room.users_]. by destruct (StrMap.find user_id _). }
  rewrite Hu. fold (entered now user_id r).
  assert (Hf : StrMap.find user_id (Room.users_ (entered now user_id r)) = Some (whip_user now user_id r)) by apply StrMap.find_in_set_eq.
  assert (Ha : Room.with_alive (entered now user_id r) now = entered now user_id r) by done.
  unfold Room.Join2PilotCenter, Room.to_pilot.
  assert (Hn : exists cs, Room.NotifyNewUser now user_id user_id (entered now user_id r) = (entered now user_id r, cs, Ok tt) /\ Forall Sfu.leaves_room cs).
  { unfold Room.NotifyNewUser. rewrite Hf, Ha. eexists. split; [reflexivity|]. apply Forall_map, Forall_forall. done. }
  destruct Hn as (cs & Hn & Hl).
  destruct (negb _); cbn [eret emit ebind]; rewrite ?Ha, Hn; eexists; (split; [reflexivity|]); rewrite ?app_nil_r; cbn [app]; rewrite ?Forall_cons; done.
Qed.

Lemma post_publishes (e : Sfu.env) (draw : Sfu.request) (q : Http.HttpRequest) (k : RoomMgr.t) (resp : Http.HttpResponse)
    (room_id user_id sdp answer_sdp_str : string) (r : Room.t) (offer answer_sdp : RtcSdp.t) :
  StrMap.find "roomid" (Http.params q) = Some room_id -> StrMap.find "userid" (Http.params q) = Some user_id ->
  body_str q = Ok sdp -> fresh resp ->
  let now := Room.now (Sfu.of_room e) in
  RoomMgr.GetRoom room_id (RoomMgr.GetOrCreateRoom now room_id k) = Some r -> Room.closed_ r = false ->
  RtcSdp.ParseSdp "offer" sdp = Ok offer ->
  Sfu.answer_for draw RTC_SETUP_ACTIVE DIRECTION_RECVONLY offer = Ok answer_sdp ->
  GetRtpSessionParamsFromSdp answer_sdp <> [] ->
  SdpText.GenSdpString (Sfu.num draw) answer_sdp true = Ok answer_sdp_str ->
  let l := Sfu.tracks draw (GetRtpSessionParamsFromSdp answer_sdp) in
  NoDup l.*1 ->
  WebRtcServer.username2sessions_ (RoomMgr.server k) !! IceServer.ice_ufrag_ (Sfu.ice draw) = None ->
  let i := length (WebRtcServer.sessions (RoomMgr.server k)) in
  let infos := (RtcUser.pushers_ (Sfu.tracked now l (whip_user now user_id r))).*2 in
  exists k' resp' cs r' s,
    run dump ssl_enable_ e draw WhipHandle q (k, resp) =
      ((k', resp'), map Http.Own cs ++
         map Http.AsyncWrite (replied (Http.AddHeader resp "Location" (location_str ssl_enable_ q room_id user_id)) 201 "Created" "application/sdp" answer_sdp_str), Ok tt) /\
    RoomMgr.GetRoom room_id k' = Some r' /\
    WebRtcServer.sessions (RoomMgr.server k') = WebRtcServer.sessions (RoomMgr.server k) ++ [s] /\
    Sfu.has_tracks now i user_id (Sfu.opened e draw SrtpSession.SRTP_SESSION_TYPE_RECV user_id (Sfu.mk (entered now user_id r) (RoomMgr.server k)))
      (entered now user_id r) l s r' /\
    forall cb, cb ∈ Room.connections (Room.others user_id) (Room.users_ (entered now user_id r)) ->
      RoomMgr.FromRoom room_id (Sfu.OfRoom (Room.Notification cb "newPusher"
        (Sfu.push_message user_id (RtcUser.user_name_ (whip_user now user_id r)) (Room.room_id_ r) infos))) ∈ cs.
Proof.
  intros Hr Hu Hb Hf now Hg Hc HP HA Hne HS l Hnd Hfree i infos. cbn [run]. unfold whip_handle. rewrite Hb, ebind_ok.
  unfold with_ids. rewrite Hr, Hu. cbn [fst snd]. fold now. set (k0 := RoomMgr.GetOrCreateRoom now room_id k) in *.
  assert (Hsv0 : RoomMgr.server k0 = RoomMgr.server k) by (unfold k0, RoomMgr.GetOrCreateRoom; by case_match).
  unfold RoomMgr.on_room. unfold RoomMgr.in_room at 1. rewrite Hg.
  destruct (WhipUserJoin_ok now user_id r Hc) as (cs1 & E1 & Hl1).
  rewrite (Sfu.in_room_leaves e (Sfu.mk r (RoomMgr.server k0)) _ _ _ _ E1 Hl1).
  unfold on_rooms. cbn [zoom rename_calls ebind fst snd Z.eqb negb Sfu.room Sfu.server].
  set (r1 := entered now user_id r). unfold RoomMgr.in_room, RoomMgr.GetRoom. cbn [RoomMgr.rooms_ RoomMgr.with_rooms RoomMgr.server].
  rewrite StrMap.find_in_set_eq, Hsv0.
  destruct (Sfu.publish_known e draw Sfu.ROLE_CLIENT RTC_SETUP_ACTIVE true (fun _ => []) user_id "offer" sdp (Sfu.mk r1 (RoomMgr.server k)) offer
    answer_sdp answer_sdp_str (whip_user now user_id r) HP HA Hne HS Hnd Hfree (StrMap.find_in_set_eq _ _ _)) as (k2 & s & E2 & Hsv & Ht).
  unfold Sfu.HandleWhipPushSdp. rewrite E2. cbn [zoom rename_calls ebind fst snd Z.eqb negb].
  edestruct (reply_ok (RoomMgr.with_rooms (RoomMgr.with_rooms k0 (StrMap.set room_id r1 (RoomMgr.rooms_ k0)) (RoomMgr.server k))
      (StrMap.set room_id (Sfu.room k2) (StrMap.set room_id r1 (RoomMgr.rooms_ k0))) (Sfu.server k2),
    Http.AddHeader resp "Location" (location_str ssl_enable_ q room_id user_id)) 201 "Created" "application/sdp" answer_sdp_str) as (resp' & E3); [exact Hf|].
  rewrite E3. eexists _, resp', _, (Sfu.room k2), s. split; [|split; [|split; [|split]]].
  - rewrite !app_assoc. rewrite <- !map_app. reflexivity.
  - cbn. by rewrite StrMap.find_in_set_eq.
  - cbn. by rewrite Hsv.
  - exact Ht.
  - intros cb Hcb. apply list_elem_of_In in Hcb. apply list_elem_of_In, in_map, in_app_iff. right. apply in_app_iff. right. cbn [app].
    apply in_map, in_app_iff. left. apply (in_map (fun cb => Room.Notification cb "newPusher" _)). exact Hcb.
Qed.

(** ** Over the connection *)

Lemma sent_body q body : Http.content_length_ q = Z.of_nat (String.length body) -> body_str (Http.with_body q body) = Ok body.
Proof.
  intros Hl. unfold body_str. cbn [Http.content_body_ Http.with_body Http.content_length_]. rewrite Hl.
  rewrite (proj2 (Z.ltb_ge _ _)), (proj2 (Z.leb_le _ _)) by lia. by rewrite Text.take_all by lia.
Qed.

(** The request as it reaches the handler. *)
Definition posted (version body : string) (ps hs : list (string * string)) : Http.HttpRequest :=
  Http.mk_request "POST" "whip" (foldl (fun m e => StrMap.set e.1 e.2 m) [] ps) version (Some body) (Z.of_nat (String.length body))
    (foldl (fun m e => StrMap.emplace e.1 e.2 m) [] hs).
Lemma post_read e draw (k : RoomMgr.t) version body ps hs chunks :
  Http.plain "POST" "/whip" ps version hs -> Http.length_of hs 0 = Ok (Z.of_nat (String.length body)) ->
  Text.free Http.EMPTY_LINE (Http.head_lines "POST" "/whip" ps version hs) ->
  Forall (fun d => d <> EmptyString) chunks ->
  Http.concat_text chunks = Http.head_lines "POST" "/whip" ps version hs +:+ Http.EMPTY_LINE +:+ body ->
  exists hk, Http.feed (run dump ssl_enable_ e draw) http_handlers (k, Http.new_HttpSession) chunks =
    do* (s, _) := emit (k, hk) (replicate (List.length chunks - 1) Http.AsyncRead) in
    do* (s, _) := Http.call_handler (run dump ssl_enable_ e draw) s WhipHandle (posted version body ps hs) Http.new_HttpResponse in
    emit s [Http.AsyncRead].
Proof.
  intros Hp Hl Hf Hne Ht.
  destruct (Http.request_delivered_ok (run dump ssl_enable_ e draw) http_handlers k "POST" "/whip" version body ps hs WhipHandle chunks)
    as (hk & _ & E); try done. by exists hk.
Qed.


(** C18: an offer that cannot be parsed is never answered.  The exception ends in the HTTP
    session, which writes nothing and waits for more; the user, who is already in the room by
    then, stays there. *)
Theorem whip_bad_offer_unanswered (e : Sfu.env) (draw : Sfu.request) (k : RoomMgr.t) (version body msg : string) (ps hs : list (string * string))
    (chunks : list string) (room_id user_id : string) (r : Room.t) :
  Http.plain "POST" "/whip" ps version hs -> Http.length_of hs 0 = Ok (Z.of_nat (String.length body)) ->
  Text.free Http.EMPTY_LINE (Http.head_lines "POST" "/whip" ps version hs) ->
  Forall (fun d => d <> EmptyString) chunks ->
  Http.concat_text chunks = Http.head_lines "POST" "/whip" ps version hs +:+ Http.EMPTY_LINE +:+ body ->
  let q := posted version body ps hs in
  StrMap.find "roomid" (Http.params q) = Some room_id -> StrMap.find "userid" (Http.params q) = Some user_id ->
  let now := Room.now (Sfu.of_room e) in
  RoomMgr.GetRoom room_id (RoomMgr.GetOrCreateRoom now room_id k) = Some r -> Room.closed_ r = false ->
  RtcSdp.ParseSdp "offer" body = Throw msg ->
  exists k' hk cs r',
    Http.feed (run dump ssl_enable_ e draw) http_handlers (k, Http.new_HttpSession) chunks =
      ((k', hk), replicate (List.length chunks - 1) Http.AsyncRead ++ map Http.Own cs ++ [Http.AsyncRead], Ok tt) /\
    RoomMgr.GetRoom room_id k' = Some r' /\ StrMap.find user_id (Room.users_ r') = Some (whip_user now user_id r).
Proof.
  intros Hp Hl Hf Hne Ht q Hr Hu now Hg Hc HP.
  destruct (post_read e draw k version body ps hs chunks Hp Hl Hf Hne Ht) as (hk & ->). fold q.
  unfold Http.call_handler. cbn [emit ebind fst snd run]. unfold whip_handle.
  assert (Hb : body_str q = Ok body) by exact (sent_body (Http.mk_request "POST" "whip" (Http.params q) version None (Z.of_nat (String.length body)) (Http.headers_ q)) body eq_refl).
  rewrite Hb, ebind_ok. unfold with_ids. rewrite Hr, Hu. cbn [fst snd]. fold now. set (k0 := RoomMgr.GetOrCreateRoom now room_id k) in *.
  unfold RoomMgr.on_room. unfold RoomMgr.in_room at 1. rewrite Hg. destruct (WhipUserJoin_ok now user_id r Hc) as (cs1 & E1 & Hl1).
  rewrite (Sfu.in_room_leaves e (Sfu.mk r (RoomMgr.server k0)) _ _ _ _ E1 Hl1).
  unfold on_rooms. cbn [zoom rename_calls ebind fst snd Z.eqb negb Sfu.room Sfu.server].
  unfold RoomMgr.in_room, RoomMgr.GetRoom. cbn [RoomMgr.rooms_ RoomMgr.with_rooms RoomMgr.server]. rewrite StrMap.find_in_set_eq.
  unfold Sfu.HandleWhipPushSdp, Sfu.publish. cbv zeta. rewrite HP. cbn [pure ebind zoom rename_calls map ecatch eret fst snd app].
  rewrite !app_nil_r. eexists _, _, _, _. split; [reflexivity|]. cbn. rewrite StrMap.find_in_set_eq. split; [reflexivity|].
  cbn. by rewrite StrMap.find_in_set_eq.
Qed.
End Handlers.

(** * Examples *)

#[local] Existing Instance SrtpSession.toy_srtp.
#[local] Existing Instance SrtpSession.toy_srtp_laws.
#[local] Instance example_mac : EvpMac := StunMessage.StunMessage.toy_hmac.
#[local] Instance example_inet : Inet := StunMessage.StunMessage.toy_inet.

Definition shown (j : Json.t) : string := "{}".
Definition carol : list (string * string) := [("roomid", "room"); ("userid", "carol")].
Definition fields (body : string) : list (string * string) :=
  [("Host", "sfu"); ("Content-Length", Text.to_string (Z.of_nat (String.length body)))].
Definition reads (body : string) : list string :=
  [Http.head_lines "POST" "/whip" carol "1.1" (fields body); Http.EMPTY_LINE +:+ body].
Definition draw : Sfu.request := Sfu.sample_request "c" [99].
Definition offered : RtcSdp.t := Sfu.sample_offered.
Definition accepted : RtcSdp.t :=
  match Sfu.answer_for draw RTC_SETUP_ACTIVE DIRECTION_RECVONLY offered with Ok a => a | _ => offered end.
Definition accepted_text : string := match SdpText.GenSdpString (Sfu.num draw) accepted true with Ok s => s | _ => EmptyString end.

Lemma carol_plain body : Text.free Http.CRLF (Http.field_text ("Content-Length", Text.to_string (Z.of_nat (String.length body)))) ->
  Http.plain "POST" "/whip" carol "1.1" (fields body).
Proof. intros H. split; repeat constructor; done. Qed.


Lemma whip_bad_offer_unanswered_witness :
  exists k' hk cs r', Http.feed (run shown false Sfu.sample_env draw) http_handlers (RoomMgr.new_RoomMgr, Http.new_HttpSession) (reads "a=setup:x") =
      ((k', hk), [Http.AsyncRead] ++ map Http.Own cs ++ [Http.AsyncRead], Ok tt) /\
    RoomMgr.GetRoom "room" k' = Some r' /\ is_Some (StrMap.find "carol" (Room.users_ r')).
Proof.
  destruct (whip_bad_offer_unanswered shown false Sfu.sample_env draw RoomMgr.new_RoomMgr "1.1" "a=setup:x"
    (match RtcSdp.ParseSdp "offer" "a=setup:x" with Throw msg => msg | _ => EmptyString end) carol (fields "a=setup:x") (reads "a=setup:x")
    "room" "carol" (Room.new_Room "room" false (Room.now (Sfu.of_room Sfu.sample_env)))) as (k' & hk & cs & r' & E & H1 & H2);
    [apply carol_plain; vm_compute; reflexivity|vm_compute; reflexivity|vm_compute; reflexivity|(apply Forall_cons; split; [discriminate|apply Forall_singleton; discriminate])|
     vm_compute; reflexivity|vm_compute; reflexivity|vm_compute; reflexivity|vm_compute; reflexivity|vm_compute; reflexivity|vm_compute; reflexivity|].
  exists k', hk, cs, r'. split; [exact E|]. split; [exact H1|]. rewrite H2. by eexists.
Defined.

Lemma delete_removes_room_witness :
  let q := Http.mk_request "DELETE" "whip" [("roomid", "room"); ("userid", "nobody")] "1.1" (Some "") 0 [] in
  exists k' resp' cs,
    run shown false Sfu.sample_env draw WhipDeleteHandle q (RoomMgr.one_room, Http.new_HttpResponse) =
      ((k', resp'), map (fun c => Http.Own (RoomMgr.FromRoom "room" (Sfu.OfServer c))) cs ++
                    map Http.AsyncWrite (replied Http.new_HttpResponse 200 "OK" "application/json" "{}"), Ok tt) /\
    RoomMgr.GetRoom "room" k' = None.
Proof.
  intros q. destruct (delete_removes_room shown false Sfu.sample_env draw q RoomMgr.one_room Http.new_HttpResponse "room" "nobody" Sfu.joined)
    as (k' & resp' & cs & E & H & _); [reflexivity|reflexivity|reflexivity|exact RoomMgr.one_room_sorted|exact WebRtcServer.server_wf_new|split; reflexivity|].
  exists k', resp', cs. split; [exact E|exact H].
Defined.

End Whip.
